(* ===== verification/_CoqProject ===== *)
-Q . S2P
Prelude.v
Tstat.v
Sstat.v
Counter.v
Procdbase.v
PdbHeap.v
PdbFacts.v
PdbOps.v
PdbResidue.v
PdbSpec.v
PdbTheorems.v
Privs.v
Netatopif.v
NetatopFacts.v
Deviattask.v
DevSpec.v
DevExit.v
DevMain.v
DevTheorems.v
Format.v
TstatStores.v
Sscanf.v
SscanfFacts.v
Ifprop.v
Deviatsyst.v
Totalsyst.v
SystFacts.v
IfpropFacts.v
SystIntf.v
SystDsk.v
SystMain.v
SystTotals.v
SystTheorems.v
Photoproc.v
PhotoprocFacts.v
PhotoMain.v
Various.v
VariousFacts.v
SstatStores.v
Photosyst.v
Photodisk.v
Photonfs.v
PhotosystShape.v
PhotosystDefined.v
PhotosystFacts.v
PhotosystMain.v
Printf.v
Parseable.v
ParseableFacts.v
Showprocs.v
Compar.v
Cumulate.v
CumFacts.v
Showline.v
Prihead.v
ShowprocsFacts.v
ShowlineFacts.v
PriheadFacts.v
Showsys.v
SyslineFacts.v
Prisyst.v
PrisystFacts.v
ShowsysFacts.v
Bandwidth.v
Zsocket.v
Acctproc.v
AcctFacts.v
Atopacctd.v
AtopacctdFacts.v
Rawlog.v
RawlogFacts.v
RawlogMain.v
Sarlines.v
Atopsar.v
AtopsarFacts.v
Showgeneric.v
ShowgenericFacts.v
Showkeys.v
ShowkeysFacts.v
ShowviewFacts.v
