(* ===== verification/Prelude.v ===== *)
(** * A verification development for FakeAtop and its companion monitors

    The repository's core is [src/Qt/FakeAtop], a copy of the system monitor
    atop: it samples the counters of the kernel and of every task, turns two
    samples into deviations, shows them, prints them in a format for programs,
    and keeps them in a log. Beside it stand a daemon that distributes the
    accounting records of exited processes, and small monitors of the author;
    two of these, [src/Qt/ZMonitor/PacketCapture] and
    [src/Qt/ZMonitor/SocketMornitoring], are modelled as well.

    ** How the program is put together

    A cycle of atop takes a sample of the system ([photosyst] fills a
    [struct sstat] from /proc and /sys) and of the tasks ([photoproc] fills a
    [struct tstat] per process and thread), and reads the records of the
    processes that exited ([acctphotoproc], from the shadow files that the
    daemon atopacctd writes). [deviatsyst] computes the deviations of the system
    counters; [deviattask] those of the tasks, with the process database of
    procdbase.c as the memory of the previous sample: all known tasks are put
    into a RESIDUE list ([pdb_makeresidue]), each task that is found again is
    taken out of it ([pdb_gettask]), exited processes are matched against what
    is left ([pdb_srchresidue], [pdb_deltask]) and the rest is removed
    ([pdb_cleanresidue]). [totalsyst] adds deviations up.

    The result goes to one of several places. The display sums tasks ([cumusers],
    [cumprogs], [cumconts]), selects ([procsuppress]) and sorts them, prints the
    system lines ([prisyst], [showsysline]) and the process lines ([priphead],
    [priproc], [showprocline]) in columns of fixed width. [parseout] prints
    lines of words for other programs. [rawwrite] appends the sample to a log,
    and [rawread] hands the samples of a log to the display, or to the reports
    of atopsar ([reportraw]), which sum samples up and print a line for them.

    ** Conventions of the model

    - A C integer is a [Z]; [i32], [i64], [u16], [u32], [u64] bring the result of
      an operation back to its type where it can leave it. Signed overflow is
      given the wrap of two's complement. A double is a pair of integers with
      the rounding of [Format.dbl].
    - [None] is an access outside an object, a null dereference or another
      fault; a theorem that a function returns says that none happens. Loops
      with a condition run with fuel ([for_while]); [for_lt] takes its fuel from
      the bound; the scans of linked structures take the size of the heap.
      Running out of fuel is [None] as well, so that totality shows that the fuel
      is enough.
    - A call that can end the program returns an [exitor]; with faults, a [run].
      Where the state matters after the end as well, it is threaded explicitly
      ([Rawlog.io]).
    - Arrays are lists, written with [arr_set]; an array that ends with an empty
      name is a list with such an entry. A text that is stored in an array of
      known size is checked against that size ([Showsys], [Showprocs]).
    - Strings are [string] or, where characters are computed, lists of [ascii];
      the bytes of files are lists of [Z].
    - What the system calls, the files of /proc, [ioctl], [qsort], [regexec],
      [localtime] and zlib deliver is a parameter; their documented behaviour is
      a class with laws where a theorem needs it ([Compar.QSort], [Rawlog.Zlib]),
      with an instance that shows that the laws can hold.

    ** Files, and what they model

    - [Prelude]: integers, array accesses, loops, their lemmas and hints.
    - [Tstat], [TstatStores], [Sstat], [SstatStores]: [struct tstat] of
      photoproc.h, [struct sstat] of photosyst.h and netstats.h, and stores to
      their members. The tables of network counters, which the code walks
      through as arrays of [count_t], are instances of the class [Sstat.Table].
    - [Format], [Printf], [Sscanf], [SscanfFacts]: the conversions of [printf]
      and [scanf] that the program uses, and that numbers are read back.
    - [Photoproc], [PhotoprocFacts], [PhotoMain]: photoproc.c, a function per
      file of a process.
    - [Photosyst], [Photodisk], [Photonfs]: photosyst.c; [PhotosystShape],
      [PhotosystDefined], [PhotosystFacts], [PhotosystMain] prove the shape of
      every sample, that a sample is delivered, what the files tell, and the
      names of volumes.
    - [Counter]: [subcount] and [MAX32BITVAL] of deviate.c.
    - [Procdbase]: procdbase.c; a heap of [struct pinfo] with the links of the
      hash chains and of the RESIDUE ring, every operation, [free] as removal
      from the heap. [PdbHeap] to [PdbResidue] prove each operation against
      lists of cells, [PdbSpec] against a finite map from PID and kind to samples
      with a set of residue keys, [PdbTheorems] states the contract.
    - [Deviattask]: [calcdiff] and [deviattask] of deviate.c, one definition for
      each of its loop bodies. [DevSpec], [DevExit], [DevMain] prove the loops,
      [DevTheorems] the properties.
    - [Deviatsyst], [Totalsyst]: [deviatsyst] and [totalsyst] of deviate.c, one
      definition per group of counters. [SystFacts], [SystIntf], [SystDsk],
      [SystMain], [SystTotals] prove the groups, [SystTheorems] holds
      the concrete samples.
    - [Privs], [Ifprop], [IfpropFacts]: [droprootprivs] of various.c; ifprop.c.
    - [Netatopif], [NetatopFacts]: the store of network counters of exited
      processes in netatopif.c, and its hash chains.
    - [Acctproc], [AcctFacts]: acctproc.c, the reader of accounting records.
      [Atopacctd], [AtopacctdFacts]: atopacctd.c, the daemon that writes them.
    - [Various], [VariousFacts]: the conversion functions of
      various.c and the widths of their results.
    - [Compar], [Cumulate], [CumFacts]: the comparison functions of showlinux.c;
      accumulation and selection of showgeneric.c; [totalcap] of showlinux.c.
    - [Showprocs], [Showline], [Prihead]: the columns, the layout of lines and
      the process list of showprocs.c and showlinux.c, with the configuration
      lines; [ShowprocsFacts], [ShowlineFacts], [PriheadFacts] their theorems.
    - [Showsys], [Prisyst]: the items and lines of showsys.c and the system part
      of the screen of showlinux.c; [SyslineFacts], [ShowsysFacts],
      [PrisystFacts] their theorems.
    - [Parseable], [ParseableFacts]: parseable.c.
    - [Rawlog]: rawlog.c. [RawlogFacts] proves the writer, [RawlogMain] the
      reader against a list of samples.
    - [Sarlines], [Atopsar]: atopsar.c, a function per report and its head with
      the table of reports; the settings, the reports of a log and of live
      samples. [AtopsarFacts] holds their theorems.
    - [Showgeneric]: [generic_samp] of showgeneric.c, which puts the parts of the
      display together, with its flags and settings; [ShowgenericFacts] shows
      what reaches the viewer. [Showkeys]: the display on a terminal,
      with its keys, questions and help, and its views; [ShowkeysFacts] and
      [ShowviewFacts] show what a session keeps.
    - [Bandwidth]: the list of connections and the packet handler of packetcap.c.
    - [Zsocket]: inode texts, the cache of program names,
      addresses and [findBandwidth] of zsocket.c.

    ** What the theorems show

    - Samples: [photoproc_reads] (the tasks that /proc describes, in its order,
      with the numbers of its files), [stat_file_reads], [lvmmapname_volume],
      [photosyst_sample_ok] (a sample is delivered, in the shape that the other
      parts rely on), [getifprop_after_init].
    - Process database: [sample_cycle] (a cycle is a mark and sweep),
      [gettask_found], [added_task_found], [deleted_task_lost] (a finite map),
      [srchresidue_best].
    - Deviations: [deviattask_returns], [deviattask_accounts] (they account for
      all work), [deviattask_ticks], [reused_pid_reported_again];
      [deviatsyst_spec] (every entry is paired with the entry of the previous
      sample that belongs to it), [subcount_window].
    - Totals: [tot_intf_spec], [net_telescope].
    - Generic display: [generic_samp_shows] (the viewer gets the selected
      processes in order, with their threads), [accumulated_shown],
      [settings_valid], [do_username_selects]; [interact_inside] (no sequence of
      keys leads out of a list, by an invariant of the state between views),
      [help_paged] (exactly the lines that were asked for come up).
    - Exited processes: [records_delivered] (what the daemon stores, its readers
      get), [full_filesystem_skips], [gcshadows_oldest], [acct_stream] (the records form a stream
      that is read without loss across files), [exithash_then_exitfind].
    - Display: [lists_grouped], [procsuppress_spec], [comparators_consistent];
      [getspacings_fits], [lines_aligned], [priproc_hands_over];
      [showsysline_selects], [memory_lines_width], [resource_items_safe],
      [cpu_items_overrun], [prisyst_order].
    - Parseable output: [parseout_read] (it reads back), [parsedef_spec].
    - Raw log: [rawread_browses] (the log refines a list of samples, for every
      display), [rawread_prints] (an interval is printed and the walk ends),
      [rawwrite_outcome] (a file system that fills up).
    - Activity reports: [summaries_grouped] (a line for each group of samples,
      with their sums), [lines_counted] (heads come when they are due),
      [flags_counted] (the number of wanted reports).
    - Monitors: [addBandwidth_map], [got_packet_tcp_step].

    Other theorems of the files show further behaviour: the width of each
    column ([ShowprocsFacts]) and conversion ([VariousFacts]),
    added disks and changed containers ([SystDsk], [SystTheorems]), a vestat
    line that is written past its array ([PhotosystMain]), the reformatting of
    columns ([PriheadFacts]), a log without samples ([RawlogMain]), a report
    whose line fails ([AtopsarFacts]), a number that two processes had
    ([ShowgenericFacts]), lists that come back unsorted ([ShowviewFacts]).

    ** Bounds

    [deviattask] is proved for netatopd inactive, for distinct keys of the
    present tasks and for samples without a reused PID (the reuse has its own
    theorem). [deviatsyst] is proved for disks that were at most removed between
    samples, with unique names and tables that end inside their arrays.
    [photoproc_reads] is about a /proc whose files are complete while they are
    read, a kernel with statistics of I/O and without netatop, and a call
    without proportional set sizes. [photosyst_sample_ok] is about numbers that
    fit their types and names that fit their arrays, as [sscanf] does not test
    them, and no more processors and containers than there is room for;
    [stat_file_reads] takes counters of a long line below [10 ^ 18].
    [records_delivered] is about one reader, which keeps its file locked, and
    turns that store all that they read, skip it in a full filesystem, or read
    nothing; a write that stores a part is [short_write_counted]. [val2valstr] divides at most 20 times ([SHORTEN_FUEL]), enough
    for 64 bits. The blanks of a system line are bounded for lines of up to a
    million columns, which keeps the rounding of doubles exact enough; the loops
    that spread them take their fuel from the number of blanks. [totalsyst] and
    the additions of [accumulate] are proved modulo 2^64. The walk through a log
    takes as fuel the number of records it may read in a row; the theorem for a
    display that prints needs the number of samples and three. The sizes of the
    structures in a log are below 2^31 and the numbers of a record fit its
    members. The summaries of a log are proved for samples of one day without a
    restart of the log, up to the next repetition of the head, for a report that
    prints one line. [rawwrite_outcome] takes the part that is stored of a write
    from the room that is left. [generic_samp_shows] is about at most 512 tasks, the size of
    the memory shared with the viewer, and neighbouring groups of threads with
    different numbers. [interact_inside] is about a sample in which a process is
    active, threads are active only with their process and neighbouring groups
    have different numbers, with [no_process_accumulated] and
    [reused_pid_overruns] for others; the lines that
    [prisyst] takes and the order it names ([prisyst_orders]) are given with each
    view. Columns and items are selected by priorities below 999999, the number
    at which the code starts its search for the lowest one
    ([high_priorities_fault]), and [getspacings_fits] takes columns of variable
    width as they are before a header widens them.

    ** What is not modelled

    - What the interactive display draws on the screen, but for messages and help
      lines; a key that waits when the size of the window changes, which is
      dropped. main.c, of which this repository has only a call of [initifprop].
    - Of atopsar.c the arguments of the command, [engine] (the timer and the
      calls that take the samples) and the text of the usage.
    - Of netatopif.c the exchange with the kernel module and with netatopd; of
      acctproc.c switching accounting on and off; netlink.c, zsocket.c reading
      /proc and the pcap session of packetcap.c: socket and system calls.
    - Colours and positions on the screen of the ncurses build, HTTPSTATS
      ([getwwwstat]), which this build does not define.
    - The C++ and Qt programs of the repository (other languages), the earlier
      copies of the monitors and the exercises with system calls.
    - Failure of [malloc] (but for sizes that cannot exist), signals, and the
      change of a file during one call. *)
From stdpp Require Export base tactics option list list_numbers numbers gmap strings.
From Stdlib Require Export ZArith Lia.

Declare Scope c_scope.
Delimit Scope c_scope with C.

#[global] Open Scope Z_scope.

(** ** C integers: a value of a w-bit type is a [Z]; each arithmetic result is
    brought back to its type by the conversion of that type. *)

Definition u16 (z : Z) : Z := z mod 2 ^ 16.
Definition u32 (z : Z) : Z := z mod 2 ^ 32.
Definition u64 (z : Z) : Z := z mod 2 ^ 64.
Definition i32 (z : Z) : Z := (z + 2 ^ 31) mod 2 ^ 32 - 2 ^ 31.
Definition i64 (z : Z) : Z := (z + 2 ^ 63) mod 2 ^ 64 - 2 ^ 63.

(** The value of a [count_t] (a [long long]) that lies in its type. *)
Definition in_i32 (z : Z) : Prop := - 2 ^ 31 <= z < 2 ^ 31.
Definition in_i64 (z : Z) : Prop := - 2 ^ 63 <= z < 2 ^ 63.

Notation "x +64 y" := (i64 (x + y)) (at level 50, left associativity) : c_scope.
Notation "x -64 y" := (i64 (x - y)) (at level 50, left associativity) : c_scope.

(** C truth values. *)
Definition c_bool (b : bool) : Z := if b then 1 else 0.

(** ** Memory accesses: [None] is an access outside the object. *)

Definition arr_set {A} (l : list A) (i : nat) (x : A) : option (list A) :=
  if decide (i < length l)%nat then Some (<[i := x]> l) else None.

(** A call that can end the program with [exit]. *)
Inductive exitor (A : Type) :=
  | Exit (code : Z)
  | Ret (x : A).
Arguments Exit {A} code.
Arguments Ret {A} x.

#[export] Instance exitor_ret : MRet exitor := fun A x => Ret x.
#[export] Instance exitor_bind : MBind exitor := fun A B f m =>
  match m with Exit c => Exit c | Ret x => f x end.

(** The same where an operation can also fault. *)
Definition run (A : Type) : Type := option (exitor A).
#[export] Instance run_ret : MRet run := fun A x => Some (Ret x).
#[export] Instance run_bind : MBind run := fun A B f m =>
  match m with None => None | Some (Exit c) => Some (Exit c) | Some (Ret x) => f x end.
Definition may_fault {A} (m : option A) : run A := x ← m; Some (Ret x).

Lemma run_fault {A B} (x : A) (f : A -> run B) : mbind (M := run) f (may_fault (Some x)) = f x.
Proof. done. Qed.
Lemma run_Ret {A B} (x : A) (f : A -> run B) : mbind (M := run) f (Some (Ret x)) = f x.
Proof. done. Qed.

(** [for (; cond(i); i++) body]: [cond] and [body] may fault; the fuel bounds
    the number of tests of the condition. *)
Fixpoint for_while {S} (cond : nat -> S -> option bool)
    (body : nat -> S -> option S) (fuel i : nat) (s : S) : option (nat * S) :=
  match fuel with
  | O => None
  | Datatypes.S f =>
      b ← cond i s;
      if (b : bool) then s' ← body i s; for_while cond body f (Datatypes.S i) s'
      else Some (i, s)
  end.

(** [for (i = 0; i < n; i++) body], with [n] an [int] or [count_t]. *)
Definition for_lt {S} (n : Z) (body : nat -> S -> option S) (s : S) : option S :=
  r ← for_while (fun i _ => Some (Z.of_nat i <? n)) body (Datatypes.S (Z.to_nat n)) 0 s;
  Some (snd r).

(** [for (; ! stop(l[j]); j++) ;] from [j] on: the first place that stops the
    search; [None] when the search leaves the array. *)
Fixpoint scan_from {A} (stop : A -> bool) (j : nat) (l : list A) : option nat :=
  match l with
  | [] => None
  | x :: l' => if stop x then Some j else scan_from stop (Datatypes.S j) l'
  end.

Definition scan {A} (stop : A -> bool) (j : nat) (l : list A) : option nat :=
  scan_from stop j (drop j l).

(** [s[0] != 0] and [strcmp(s, t) == 0] for C strings. *)
Definition str_nonempty (s : string) : bool := negb (String.eqb s EmptyString).
Definition str_same (s t : string) : bool := String.eqb s t.

(** Two and four bytes as a little-endian host reads them. *)
Definition read16 (p : list Z) (i : nat) : option Z :=
  a ← p !! i; b ← p !! Datatypes.S i; Some (a + 256 * b).
Definition read32 (p : list Z) (i : nat) : option Z :=
  a ← read16 p i; b ← read16 p (i + 2); Some (a + 65536 * b).

(** ** Lemmas on C integers *)

Lemma i64_id z : in_i64 z -> i64 z = z.
Proof. unfold in_i64, i64. intros H. rewrite Z.mod_small by lia. lia. Qed.

Lemma i32_id z : in_i32 z -> i32 z = z.
Proof. unfold in_i32, i32. intros H. rewrite Z.mod_small by lia. lia. Qed.

Lemma u32_id z : 0 <= z < 2 ^ 32 -> u32 z = z.
Proof. intros H. unfold u32. by rewrite Z.mod_small. Qed.

Lemma i64_range z : in_i64 (i64 z).
Proof. unfold in_i64, i64. pose proof (Z.mod_pos_bound (z + 2 ^ 63) (2 ^ 64)). lia. Qed.

Lemma i32_range z : in_i32 (i32 z).
Proof. unfold in_i32, i32. pose proof (Z.mod_pos_bound (z + 2 ^ 31) (2 ^ 32)). lia. Qed.

Lemma u32_range z : 0 <= u32 z < 2 ^ 32.
Proof. unfold u32. apply Z.mod_pos_bound. lia. Qed.

(** Two sums that agree modulo [2^64] have the same [count_t] value. *)
Lemma i64_congr x y : (x - y) mod 2 ^ 64 = 0 -> i64 x = i64 y.
Proof.
  intros H. unfold i64. f_equal.
  apply Z.mod_divide in H as [k Hk]; [|lia].
  replace (x + 2 ^ 63) with (y + 2 ^ 63 + k * 2 ^ 64) by lia.
  by rewrite Z.mod_add by lia.
Qed.

Lemma i64_diff z : exists k, i64 z = z + k * 2 ^ 64.
Proof.
  exists (- ((z + 2 ^ 63) / 2 ^ 64)). unfold i64.
  pose proof (Z.div_mod (z + 2 ^ 63) (2 ^ 64)). lia.
Qed.

Lemma i64_add_l x y : i64 (i64 x + y) = i64 (x + y).
Proof.
  destruct (i64_diff x) as [k ->]. apply i64_congr.
  replace (x + k * 2 ^ 64 + y - (x + y)) with (k * 2 ^ 64) by lia.
  apply Z.mod_mul. lia.
Qed.

Lemma i64_add_r x y : i64 (x + i64 y) = i64 (x + y).
Proof. rewrite Z.add_comm, i64_add_l. f_equal. lia. Qed.

Lemma i32_add_l x y : i32 (i32 x + y) = i32 (x + y).
Proof.
  unfold i32. f_equal.
  replace ((x + 2 ^ 31) mod 2 ^ 32 - 2 ^ 31 + y + 2 ^ 31) with ((x + 2 ^ 31) mod 2 ^ 32 + y) by lia.
  rewrite Zplus_mod_idemp_l. f_equal. lia.
Qed.

Lemma i64_sub_l x y : i64 (i64 x - y) = i64 (x - y).
Proof. apply (i64_add_l x (- y)). Qed.

Lemma i64_sub_r x y : i64 (x - i64 y) = i64 (x - y).
Proof.
  destruct (i64_diff y) as [k ->]. apply i64_congr.
  replace (x - (y + k * 2 ^ 64) - (x - y)) with ((- k) * 2 ^ 64) by lia.
  apply Z.mod_mul. lia.
Qed.

Lemma u32_add_l x y : u32 (u32 x + y) = u32 (x + y).
Proof. unfold u32. by rewrite Zplus_mod_idemp_l. Qed.

Lemma u32_add_r x y : u32 (x + u32 y) = u32 (x + y).
Proof. unfold u32. by rewrite Zplus_mod_idemp_r. Qed.

Create HintDb cint.
Create Rewrite HintDb cint.
#[export] Hint Rewrite i64_add_l i64_add_r i64_sub_l i64_sub_r u32_add_l u32_add_r : cint.
#[export] Hint Resolve i64_range i32_range u32_range : cint.

Lemma read_in p i : (S i < length p)%nat -> is_Some (read16 p i).
Proof.
  intros H. unfold read16. destruct (lookup_lt_is_Some_2 p i) as [a ->]; [lia|]. cbn.
  destruct (lookup_lt_is_Some_2 p (S i)) as [b ->]; [lia|]. cbn. eauto.
Qed.

(** ** Lemmas on arrays and loops *)

Lemma arr_set_Some {A} (l : list A) i x :
  (i < length l)%nat -> arr_set l i x = Some (<[i := x]> l).
Proof. intros H. unfold arr_set. by rewrite decide_True. Qed.

Lemma arr_set_None {A} (l : list A) i x : (length l <= i)%nat -> arr_set l i x = None.
Proof. intros H. unfold arr_set. rewrite decide_False; [done | lia]. Qed.

Lemma arr_set_inv {A} (l l' : list A) i x :
  arr_set l i x = Some l' -> (i < length l)%nat /\ l' = <[i := x]> l.
Proof. unfold arr_set. case_decide; intros; simplify_eq; auto. Qed.

(** A loop whose condition holds exactly below [n] runs to [n] and keeps its
    invariant. *)
Lemma for_while_inv {S} (cond : nat -> S -> option bool) body (Inv : nat -> S -> Prop) (n : nat) :
  (forall i s, (i < n)%nat -> Inv i s ->
     cond i s = Some true /\ exists s', body i s = Some s' /\ Inv (Datatypes.S i) s') ->
  (forall s, Inv n s -> cond n s = Some false) ->
  forall fuel i s, (i <= n)%nat -> (n - i < fuel)%nat -> Inv i s ->
  exists s', for_while cond body fuel i s = Some (n, s') /\ Inv n s'.
Proof.
  intros Hstep Hstop. induction fuel as [|f IH]; intros i s Hi Hf Hinv; [lia|].
  cbn [for_while]. destruct (decide (i = n)) as [->|Hne].
  - rewrite (Hstop _ Hinv). cbn. eauto.
  - destruct (Hstep i s) as [-> (s' & Hb & Hinv')]; [lia | done |].
    cbn. rewrite Hb. cbn. apply IH; [lia | lia | done].
Qed.

Lemma for_lt_inv {S} (body : nat -> S -> option S) (Inv : nat -> S -> Prop) n s :
  (forall i s, (Z.of_nat i < n) -> Inv i s ->
     exists s', body i s = Some s' /\ Inv (Datatypes.S i) s') ->
  Inv 0%nat s ->
  exists s', for_lt n body s = Some s' /\ Inv (Z.to_nat n) s'.
Proof.
  intros Hstep H0. unfold for_lt.
  destruct (for_while_inv (fun i _ => Some (Z.of_nat i <? n)) body Inv (Z.to_nat n))
    with (fuel := Datatypes.S (Z.to_nat n)) (i := 0%nat) (s := s) as (s' & -> & ?).
  - intros i s1 Hi HI. split; [|apply Hstep; [lia | done]].
    f_equal. apply Z.ltb_lt. lia.
  - intros s1 _. f_equal. apply Z.ltb_ge. lia.
  - lia.
  - lia.
  - done.
  - cbn. eauto.
Qed.

(** A loop that rewrites slot [i] of an array from its old content. *)
Definition slot_step {A} (f : nat -> A -> option A) (i : nat) (arr : list A) : option (list A) :=
  a ← arr !! i; a' ← f i a; arr_set arr i a'.

Lemma slot_loop {A} (f : nat -> A -> option A) n (arr : list A) :
  (Z.to_nat n <= length arr)%nat ->
  (forall i a, Z.of_nat i < n -> arr !! i = Some a -> is_Some (f i a)) ->
  exists arr', for_lt n (slot_step f) arr = Some arr' /\
    length arr' = length arr /\
    (forall i, Z.of_nat i < n -> arr' !! i = a ← arr !! i; f i a) /\
    (forall i, n <= Z.of_nat i -> arr' !! i = arr !! i).
Proof.
  intros Hlen Hf.
  destruct (for_lt_inv (slot_step f) (fun m (a' : list A) =>
      length a' = length arr /\
      (forall i, (i < m)%nat -> a' !! i = a ← arr !! i; f i a) /\
      (forall i, (m <= i)%nat -> a' !! i = arr !! i)) n arr)
    as (a' & Hr & Hl & Hlo & Hhi).
  - intros i s Hi (Hl & Hlo & Hhi).
    destruct (lookup_lt_is_Some_2 arr i) as [a Ha]; [lia|].
    destruct (Hf i a Hi Ha) as [b Hb].
    exists (<[i := b]> s). unfold slot_step.
    rewrite (Hhi i) by lia. rewrite Ha. cbn. rewrite Hb. cbn.
    rewrite arr_set_Some by lia. split; [done|].
    rewrite length_insert. split; [done|]. split.
    + intros k Hk. destruct (decide (k = i)) as [->|].
      * rewrite list_lookup_insert_eq by lia. rewrite Ha. cbn. by rewrite Hb.
      * rewrite list_lookup_insert_ne by done. apply Hlo. lia.
    + intros k Hk. rewrite list_lookup_insert_ne by lia. apply Hhi. lia.
  - split; [done|]. split; [lia | done].
  - exists a'. split; [done|]. split; [done|]. split.
    + intros i Hi. apply Hlo. lia.
    + intros i Hi. apply Hhi. lia.
Qed.

(** ** Lemmas on lists *)

Lemma filter_id {A} (P : A -> Prop) `{!forall x, Decision (P x)} (l : list A) :
  (forall x, x ∈ l -> P x) -> filter P l = l.
Proof.
  induction l as [|x l IH]; intros Hall; [done|].
  rewrite filter_cons_True by (apply Hall; set_solver). f_equal.
  apply IH. intros y Hy. apply Hall. set_solver.
Qed.

Lemma filter_ext_in {A} (P Q : A -> Prop) `{!forall x, Decision (P x), !forall x, Decision (Q x)}
    (l : list A) :
  (forall x, x ∈ l -> P x <-> Q x) -> filter P l = filter Q l.
Proof.
  induction l as [|x l IH]; intros Hall; [done|].
  assert (E : filter P l = filter Q l) by (apply IH; intros y Hy; apply Hall; set_solver).
  rewrite !filter_cons, E. pose proof (Hall x ltac:(set_solver)).
  repeat case_decide; tauto.
Qed.

(** The number of elements that satisfy a test. *)
Fixpoint zcount {A} (P : A -> bool) (l : list A) : Z :=
  match l with
  | [] => 0
  | x :: l' => c_bool (P x) + zcount P l'
  end.

Lemma c_bool_range b : 0 <= c_bool b <= 1.
Proof. destruct b; cbn; lia. Qed.

Lemma zcount_range {A} (P : A -> bool) (l : list A) : 0 <= zcount P l <= Z.of_nat (length l).
Proof. induction l as [|x l IH]; cbn; [lia|]. pose proof (c_bool_range (P x)). lia. Qed.

Lemma zcount_app {A} (P : A -> bool) (l k : list A) : zcount P (l ++ k) = zcount P l + zcount P k.
Proof. induction l as [|x l IH]; cbn; [done|]. lia. Qed.

Lemma zcount_take_S {A} (P : A -> bool) (l : list A) i x :
  l !! i = Some x -> zcount P (take (S i) l) = zcount P (take i l) + c_bool (P x).
Proof. intros H. rewrite (take_S_r _ _ x H), zcount_app. cbn. lia. Qed.

Lemma zcount_insert {A} (P : A -> bool) (l : list A) i x y :
  l !! i = Some x -> zcount P (<[i := y]> l) = zcount P l - c_bool (P x) + c_bool (P y).
Proof.
  revert i. induction l as [|a l IH]; intros [|i] Hi; cbn in Hi; simplify_eq.
  - change (<[0%nat := y]> (x :: l)) with (y :: l). cbn [zcount]. lia.
  - change (<[S i := y]> (a :: l)) with (a :: <[i := y]> l). cbn [zcount]. rewrite (IH i Hi). lia.
Qed.

Lemma zcount_take_insert {A} (P : A -> bool) (l : list A) i k x y :
  l !! i = Some x -> (i < k)%nat ->
  zcount P (take k (<[i := y]> l)) = zcount P (take k l) - c_bool (P x) + c_bool (P y).
Proof.
  intros Hi Hk. rewrite take_insert_lt by done. apply zcount_insert. by rewrite lookup_take_lt.
Qed.

Lemma zcount_ext {A B} (P : A -> bool) (Q : B -> bool) (l : list A) (k : list B) :
  length l = length k ->
  (forall i x y, l !! i = Some x -> k !! i = Some y -> P x = Q y) -> zcount P l = zcount Q k.
Proof.
  revert k. induction l as [|x l IH]; intros [|y k] Hl E; cbn in *; try done.
  rewrite (E 0%nat x y) by done. f_equal. apply IH; [lia|]. intros i. apply (E (S i)).
Qed.

Lemma u64_id z : 0 <= z < 2 ^ 64 -> u64 z = z.
Proof. intros H. unfold u64. by rewrite Z.mod_small. Qed.

(** One step of the fault monad. *)
Ltac mstep := cbn [mbind option_bind].

(** From [m ≫= f = Some y] the result of [m] and what [f] makes of it. *)
Tactic Notation "bind" "in" hyp(H) "as" simple_intropattern(x) ident(E) :=
  apply bind_Some in H as (x & E & H); cbv beta iota zeta in H.

Ltac bind_inv H :=
  lazymatch type of H with
  | mbind _ ?m = Some _ => let E := fresh "E" in destruct m eqn:E; cbn in H; [|discriminate H]
  end.

(** ** Lemmas on searches *)

Lemma scan_from_spec {A} (stop : A -> bool) l : forall j k,
  scan_from stop j l = Some k <->
  exists i x, k = (j + i)%nat /\ l !! i = Some x /\ stop x = true /\
    (forall i' y, (i' < i)%nat -> l !! i' = Some y -> stop y = false).
Proof.
  induction l as [|x l IH]; intros j k; cbn.
  - split; [done|]. intros (i & y & _ & H & _). done.
  - destruct (stop x) eqn:Ex.
    + split.
      * intros [= <-]. exists 0%nat, x. rewrite Nat.add_0_r. split_and!; try done. intros i' y Hi. lia.
      * intros ([|i] & y & -> & Hy & Es & Hlo); [by rewrite Nat.add_0_r|].
        pose proof (Hlo 0%nat x ltac:(lia) eq_refl). congruence.
    + rewrite IH. split.
      * intros (i & y & -> & Hy & Es & Hlo). exists (Datatypes.S i), y. split; [lia|]. split; [done|].
        split; [done|]. intros [|i'] z Hi Hz; cbn in Hz; [congruence|]. apply (Hlo i'); [lia|done].
      * intros ([|i] & y & -> & Hy & Es & Hlo); cbn in Hy; [congruence|].
        exists i, y. split; [lia|]. split; [done|]. split; [done|].
        intros i' z Hi Hz. apply (Hlo (Datatypes.S i')); [lia|done].
Qed.

Lemma scan_spec {A} (stop : A -> bool) l j k :
  scan stop j l = Some k <->
  (j <= k)%nat /\ (exists x, l !! k = Some x /\ stop x = true) /\
  (forall i y, (j <= i < k)%nat -> l !! i = Some y -> stop y = false).
Proof.
  unfold scan. rewrite scan_from_spec. split.
  - intros (i & x & -> & Hx & Es & Hlo). rewrite lookup_drop in Hx. split; [lia|]. split; [eauto|].
    intros i' y Hi Hy. apply (Hlo (i' - j)%nat y); [lia|]. rewrite lookup_drop.
    by replace (j + (i' - j))%nat with i' by lia.
  - intros (Hj & (x & Hx & Es) & Hlo). exists (k - j)%nat, x. split; [lia|]. rewrite lookup_drop.
    replace (j + (k - j))%nat with k by lia. split; [done|]. split; [done|].
    intros i y Hi Hy. rewrite lookup_drop in Hy. apply (Hlo (j + i)%nat); [lia|done].
Qed.

(** A search that must stop somewhere does. *)
Lemma scan_stops {A} (stop : A -> bool) l j n x :
  (j <= n)%nat -> l !! n = Some x -> stop x = true ->
  exists k, scan stop j l = Some k /\ (k <= n)%nat.
Proof.
  intros Hj Hn Es. unfold scan. assert (Hd : drop j l !! (n - j)%nat = Some x).
  { rewrite lookup_drop. by replace (j + (n - j))%nat with n by lia. }
  replace n with (j + (n - j))%nat by lia. generalize dependent (n - j)%nat. clear Hn Hj.
  generalize (drop j l). intros k i. revert j i. induction k as [|y k IH]; intros j i Hd; [done|].
  cbn. destruct (stop y) eqn:Ey; [eexists; split; [done | lia]|].
  destruct i as [|i]; cbn in Hd; [congruence|].
  destruct (IH (Datatypes.S j) i Hd) as (k' & E & Hk). exists k'. split; [done | lia].
Qed.
