(* ===== verification/Tstat.v ===== *)
(** * Task statistics: [struct tstat] of photoproc.h

    One record per sub-structure, in a module of the same name, with the
    fields of the source in their order. A [char] array holds a C string and
    is the [string] before its terminator; the reserved [ifuture]/[cfuture]
    arrays are lists. [x_zero] is the structure after [memset(&x, 0, sizeof x)]. *)
From S2P Require Import Prelude.

(** Sizes of photoproc.h. *)
Definition PNAMLEN : nat := 15.
Definition CMDLEN : nat := 4096.

(** General task information ([struct gen]). *)
Module tgen.
Record tgen := mk {
  tgid : Z;
  pid : Z;
  ppid : Z;
  ruid : Z;
  euid : Z;
  suid : Z;
  fsuid : Z;
  rgid : Z;
  egid : Z;
  sgid : Z;
  fsgid : Z;
  nthr : Z;
  name : string;
  isproc : Z;
  state : Z;
  excode : Z;
  btime : Z;
  elaps : Z;
  cmdline : string;
  nthrslpi : Z;
  nthrslpu : Z;
  nthrrun : Z;
  ctid : Z;
  vpid : Z;
  wasinactive : Z;
  container : string
}.
End tgen.

Definition tgen_zero : tgen.tgen :=
  {| tgen.tgid := 0;
     tgen.pid := 0;
     tgen.ppid := 0;
     tgen.ruid := 0;
     tgen.euid := 0;
     tgen.suid := 0;
     tgen.fsuid := 0;
     tgen.rgid := 0;
     tgen.egid := 0;
     tgen.sgid := 0;
     tgen.fsgid := 0;
     tgen.nthr := 0;
     tgen.name := EmptyString;
     tgen.isproc := 0;
     tgen.state := 0;
     tgen.excode := 0;
     tgen.btime := 0;
     tgen.elaps := 0;
     tgen.cmdline := EmptyString;
     tgen.nthrslpi := 0;
     tgen.nthrslpu := 0;
     tgen.nthrrun := 0;
     tgen.ctid := 0;
     tgen.vpid := 0;
     tgen.wasinactive := 0;
     tgen.container := EmptyString |}.

#[export] Instance tgen_eq_dec : EqDecision tgen.tgen.
Proof. solve_decision. Defined.
#[export] Instance tgen_inhabited : Inhabited tgen.tgen := populate tgen_zero.

(** CPU counters ([struct cpu]). *)
Module tcpu.
Record tcpu := mk {
  utime : Z;
  stime : Z;
  nice : Z;
  prio : Z;
  rtprio : Z;
  policy : Z;
  curcpu : Z;
  sleepavg : Z;
  ifuture : list Z;
  cfuture : list Z
}.
End tcpu.

Definition tcpu_zero : tcpu.tcpu :=
  {| tcpu.utime := 0;
     tcpu.stime := 0;
     tcpu.nice := 0;
     tcpu.prio := 0;
     tcpu.rtprio := 0;
     tcpu.policy := 0;
     tcpu.curcpu := 0;
     tcpu.sleepavg := 0;
     tcpu.ifuture := replicate 4 0;
     tcpu.cfuture := replicate 4 0 |}.

#[export] Instance tcpu_eq_dec : EqDecision tcpu.tcpu.
Proof. solve_decision. Defined.
#[export] Instance tcpu_inhabited : Inhabited tcpu.tcpu := populate tcpu_zero.

(** Disk counters ([struct dsk]). *)
Module tdsk.
Record tdsk := mk {
  rio : Z;
  rsz : Z;
  wio : Z;
  wsz : Z;
  cwsz : Z;
  cfuture : list Z
}.
End tdsk.

Definition tdsk_zero : tdsk.tdsk :=
  {| tdsk.rio := 0;
     tdsk.rsz := 0;
     tdsk.wio := 0;
     tdsk.wsz := 0;
     tdsk.cwsz := 0;
     tdsk.cfuture := replicate 4 0 |}.

#[export] Instance tdsk_eq_dec : EqDecision tdsk.tdsk.
Proof. solve_decision. Defined.
#[export] Instance tdsk_inhabited : Inhabited tdsk.tdsk := populate tdsk_zero.

(** Memory figures ([struct mem]). *)
Module tmem.
Record tmem := mk {
  minflt : Z;
  majflt : Z;
  vexec : Z;
  vmem : Z;
  rmem : Z;
  pmem : Z;
  vgrow : Z;
  rgrow : Z;
  vdata : Z;
  vstack : Z;
  vlibs : Z;
  vswap : Z;
  cfuture : list Z
}.
End tmem.

Definition tmem_zero : tmem.tmem :=
  {| tmem.minflt := 0;
     tmem.majflt := 0;
     tmem.vexec := 0;
     tmem.vmem := 0;
     tmem.rmem := 0;
     tmem.pmem := 0;
     tmem.vgrow := 0;
     tmem.rgrow := 0;
     tmem.vdata := 0;
     tmem.vstack := 0;
     tmem.vlibs := 0;
     tmem.vswap := 0;
     tmem.cfuture := replicate 4 0 |}.

#[export] Instance tmem_eq_dec : EqDecision tmem.tmem.
Proof. solve_decision. Defined.
#[export] Instance tmem_inhabited : Inhabited tmem.tmem := populate tmem_zero.

(** Network counters ([struct net]). *)
Module tnet.
Record tnet := mk {
  tcpsnd : Z;
  tcpssz : Z;
  tcprcv : Z;
  tcprsz : Z;
  udpsnd : Z;
  udpssz : Z;
  udprcv : Z;
  udprsz : Z;
  avail1 : Z;
  avail2 : Z;
  cfuture : list Z
}.
End tnet.

Definition tnet_zero : tnet.tnet :=
  {| tnet.tcpsnd := 0;
     tnet.tcpssz := 0;
     tnet.tcprcv := 0;
     tnet.tcprsz := 0;
     tnet.udpsnd := 0;
     tnet.udpssz := 0;
     tnet.udprcv := 0;
     tnet.udprsz := 0;
     tnet.avail1 := 0;
     tnet.avail2 := 0;
     tnet.cfuture := replicate 4 0 |}.

#[export] Instance tnet_eq_dec : EqDecision tnet.tnet.
Proof. solve_decision. Defined.
#[export] Instance tnet_inhabited : Inhabited tnet.tnet := populate tnet_zero.

(** A task sample. *)
Module tstat.
Record tstat := mk {
  gen : tgen.tgen;
  cpu : tcpu.tcpu;
  dsk : tdsk.tdsk;
  mem : tmem.tmem;
  net : tnet.tnet
}.
End tstat.

Definition tstat_zero : tstat.tstat :=
  {| tstat.gen := tgen_zero;
     tstat.cpu := tcpu_zero;
     tstat.dsk := tdsk_zero;
     tstat.mem := tmem_zero;
     tstat.net := tnet_zero |}.

#[export] Instance tstat_eq_dec : EqDecision tstat.tstat.
Proof. solve_decision. Defined.
#[export] Instance tstat_inhabited : Inhabited tstat.tstat := populate tstat_zero.

(** ** Stores to single members *)

Definition set_pid (v : Z) (x : tgen.tgen) : tgen.tgen :=
  {| tgen.tgid := x.(tgen.tgid);
     tgen.pid := v;
     tgen.ppid := x.(tgen.ppid);
     tgen.ruid := x.(tgen.ruid);
     tgen.euid := x.(tgen.euid);
     tgen.suid := x.(tgen.suid);
     tgen.fsuid := x.(tgen.fsuid);
     tgen.rgid := x.(tgen.rgid);
     tgen.egid := x.(tgen.egid);
     tgen.sgid := x.(tgen.sgid);
     tgen.fsgid := x.(tgen.fsgid);
     tgen.nthr := x.(tgen.nthr);
     tgen.name := x.(tgen.name);
     tgen.isproc := x.(tgen.isproc);
     tgen.state := x.(tgen.state);
     tgen.excode := x.(tgen.excode);
     tgen.btime := x.(tgen.btime);
     tgen.elaps := x.(tgen.elaps);
     tgen.cmdline := x.(tgen.cmdline);
     tgen.nthrslpi := x.(tgen.nthrslpi);
     tgen.nthrslpu := x.(tgen.nthrslpu);
     tgen.nthrrun := x.(tgen.nthrrun);
     tgen.ctid := x.(tgen.ctid);
     tgen.vpid := x.(tgen.vpid);
     tgen.wasinactive := x.(tgen.wasinactive);
     tgen.container := x.(tgen.container) |}.

Definition set_ruid (v : Z) (x : tgen.tgen) : tgen.tgen :=
  {| tgen.tgid := x.(tgen.tgid);
     tgen.pid := x.(tgen.pid);
     tgen.ppid := x.(tgen.ppid);
     tgen.ruid := v;
     tgen.euid := x.(tgen.euid);
     tgen.suid := x.(tgen.suid);
     tgen.fsuid := x.(tgen.fsuid);
     tgen.rgid := x.(tgen.rgid);
     tgen.egid := x.(tgen.egid);
     tgen.sgid := x.(tgen.sgid);
     tgen.fsgid := x.(tgen.fsgid);
     tgen.nthr := x.(tgen.nthr);
     tgen.name := x.(tgen.name);
     tgen.isproc := x.(tgen.isproc);
     tgen.state := x.(tgen.state);
     tgen.excode := x.(tgen.excode);
     tgen.btime := x.(tgen.btime);
     tgen.elaps := x.(tgen.elaps);
     tgen.cmdline := x.(tgen.cmdline);
     tgen.nthrslpi := x.(tgen.nthrslpi);
     tgen.nthrslpu := x.(tgen.nthrslpu);
     tgen.nthrrun := x.(tgen.nthrrun);
     tgen.ctid := x.(tgen.ctid);
     tgen.vpid := x.(tgen.vpid);
     tgen.wasinactive := x.(tgen.wasinactive);
     tgen.container := x.(tgen.container) |}.

Definition set_name (v : string) (x : tgen.tgen) : tgen.tgen :=
  {| tgen.tgid := x.(tgen.tgid);
     tgen.pid := x.(tgen.pid);
     tgen.ppid := x.(tgen.ppid);
     tgen.ruid := x.(tgen.ruid);
     tgen.euid := x.(tgen.euid);
     tgen.suid := x.(tgen.suid);
     tgen.fsuid := x.(tgen.fsuid);
     tgen.rgid := x.(tgen.rgid);
     tgen.egid := x.(tgen.egid);
     tgen.sgid := x.(tgen.sgid);
     tgen.fsgid := x.(tgen.fsgid);
     tgen.nthr := x.(tgen.nthr);
     tgen.name := v;
     tgen.isproc := x.(tgen.isproc);
     tgen.state := x.(tgen.state);
     tgen.excode := x.(tgen.excode);
     tgen.btime := x.(tgen.btime);
     tgen.elaps := x.(tgen.elaps);
     tgen.cmdline := x.(tgen.cmdline);
     tgen.nthrslpi := x.(tgen.nthrslpi);
     tgen.nthrslpu := x.(tgen.nthrslpu);
     tgen.nthrrun := x.(tgen.nthrrun);
     tgen.ctid := x.(tgen.ctid);
     tgen.vpid := x.(tgen.vpid);
     tgen.wasinactive := x.(tgen.wasinactive);
     tgen.container := x.(tgen.container) |}.

Definition set_excode (v : Z) (x : tgen.tgen) : tgen.tgen :=
  {| tgen.tgid := x.(tgen.tgid);
     tgen.pid := x.(tgen.pid);
     tgen.ppid := x.(tgen.ppid);
     tgen.ruid := x.(tgen.ruid);
     tgen.euid := x.(tgen.euid);
     tgen.suid := x.(tgen.suid);
     tgen.fsuid := x.(tgen.fsuid);
     tgen.rgid := x.(tgen.rgid);
     tgen.egid := x.(tgen.egid);
     tgen.sgid := x.(tgen.sgid);
     tgen.fsgid := x.(tgen.fsgid);
     tgen.nthr := x.(tgen.nthr);
     tgen.name := x.(tgen.name);
     tgen.isproc := x.(tgen.isproc);
     tgen.state := x.(tgen.state);
     tgen.excode := v;
     tgen.btime := x.(tgen.btime);
     tgen.elaps := x.(tgen.elaps);
     tgen.cmdline := x.(tgen.cmdline);
     tgen.nthrslpi := x.(tgen.nthrslpi);
     tgen.nthrslpu := x.(tgen.nthrslpu);
     tgen.nthrrun := x.(tgen.nthrrun);
     tgen.ctid := x.(tgen.ctid);
     tgen.vpid := x.(tgen.vpid);
     tgen.wasinactive := x.(tgen.wasinactive);
     tgen.container := x.(tgen.container) |}.

Definition set_cmdline (v : string) (x : tgen.tgen) : tgen.tgen :=
  {| tgen.tgid := x.(tgen.tgid);
     tgen.pid := x.(tgen.pid);
     tgen.ppid := x.(tgen.ppid);
     tgen.ruid := x.(tgen.ruid);
     tgen.euid := x.(tgen.euid);
     tgen.suid := x.(tgen.suid);
     tgen.fsuid := x.(tgen.fsuid);
     tgen.rgid := x.(tgen.rgid);
     tgen.egid := x.(tgen.egid);
     tgen.sgid := x.(tgen.sgid);
     tgen.fsgid := x.(tgen.fsgid);
     tgen.nthr := x.(tgen.nthr);
     tgen.name := x.(tgen.name);
     tgen.isproc := x.(tgen.isproc);
     tgen.state := x.(tgen.state);
     tgen.excode := x.(tgen.excode);
     tgen.btime := x.(tgen.btime);
     tgen.elaps := x.(tgen.elaps);
     tgen.cmdline := v;
     tgen.nthrslpi := x.(tgen.nthrslpi);
     tgen.nthrslpu := x.(tgen.nthrslpu);
     tgen.nthrrun := x.(tgen.nthrrun);
     tgen.ctid := x.(tgen.ctid);
     tgen.vpid := x.(tgen.vpid);
     tgen.wasinactive := x.(tgen.wasinactive);
     tgen.container := x.(tgen.container) |}.

Definition set_wasinactive (v : Z) (x : tgen.tgen) : tgen.tgen :=
  {| tgen.tgid := x.(tgen.tgid);
     tgen.pid := x.(tgen.pid);
     tgen.ppid := x.(tgen.ppid);
     tgen.ruid := x.(tgen.ruid);
     tgen.euid := x.(tgen.euid);
     tgen.suid := x.(tgen.suid);
     tgen.fsuid := x.(tgen.fsuid);
     tgen.rgid := x.(tgen.rgid);
     tgen.egid := x.(tgen.egid);
     tgen.sgid := x.(tgen.sgid);
     tgen.fsgid := x.(tgen.fsgid);
     tgen.nthr := x.(tgen.nthr);
     tgen.name := x.(tgen.name);
     tgen.isproc := x.(tgen.isproc);
     tgen.state := x.(tgen.state);
     tgen.excode := x.(tgen.excode);
     tgen.btime := x.(tgen.btime);
     tgen.elaps := x.(tgen.elaps);
     tgen.cmdline := x.(tgen.cmdline);
     tgen.nthrslpi := x.(tgen.nthrslpi);
     tgen.nthrslpu := x.(tgen.nthrslpu);
     tgen.nthrrun := x.(tgen.nthrrun);
     tgen.ctid := x.(tgen.ctid);
     tgen.vpid := x.(tgen.vpid);
     tgen.wasinactive := v;
     tgen.container := x.(tgen.container) |}.

Definition set_container (v : string) (x : tgen.tgen) : tgen.tgen :=
  {| tgen.tgid := x.(tgen.tgid);
     tgen.pid := x.(tgen.pid);
     tgen.ppid := x.(tgen.ppid);
     tgen.ruid := x.(tgen.ruid);
     tgen.euid := x.(tgen.euid);
     tgen.suid := x.(tgen.suid);
     tgen.fsuid := x.(tgen.fsuid);
     tgen.rgid := x.(tgen.rgid);
     tgen.egid := x.(tgen.egid);
     tgen.sgid := x.(tgen.sgid);
     tgen.fsgid := x.(tgen.fsgid);
     tgen.nthr := x.(tgen.nthr);
     tgen.name := x.(tgen.name);
     tgen.isproc := x.(tgen.isproc);
     tgen.state := x.(tgen.state);
     tgen.excode := x.(tgen.excode);
     tgen.btime := x.(tgen.btime);
     tgen.elaps := x.(tgen.elaps);
     tgen.cmdline := x.(tgen.cmdline);
     tgen.nthrslpi := x.(tgen.nthrslpi);
     tgen.nthrslpu := x.(tgen.nthrslpu);
     tgen.nthrrun := x.(tgen.nthrrun);
     tgen.ctid := x.(tgen.ctid);
     tgen.vpid := x.(tgen.vpid);
     tgen.wasinactive := x.(tgen.wasinactive);
     tgen.container := v |}.

Definition set_gen (v : tgen.tgen) (x : tstat.tstat) : tstat.tstat :=
  {| tstat.gen := v; tstat.cpu := x.(tstat.cpu); tstat.dsk := x.(tstat.dsk); tstat.mem := x.(tstat.mem); tstat.net := x.(tstat.net) |}.

Definition set_cpu (v : tcpu.tcpu) (x : tstat.tstat) : tstat.tstat :=
  {| tstat.gen := x.(tstat.gen); tstat.cpu := v; tstat.dsk := x.(tstat.dsk); tstat.mem := x.(tstat.mem); tstat.net := x.(tstat.net) |}.

Definition set_dsk (v : tdsk.tdsk) (x : tstat.tstat) : tstat.tstat :=
  {| tstat.gen := x.(tstat.gen); tstat.cpu := x.(tstat.cpu); tstat.dsk := v; tstat.mem := x.(tstat.mem); tstat.net := x.(tstat.net) |}.

Definition set_mem (v : tmem.tmem) (x : tstat.tstat) : tstat.tstat :=
  {| tstat.gen := x.(tstat.gen); tstat.cpu := x.(tstat.cpu); tstat.dsk := x.(tstat.dsk); tstat.mem := v; tstat.net := x.(tstat.net) |}.

Definition set_net (v : tnet.tnet) (x : tstat.tstat) : tstat.tstat :=
  {| tstat.gen := x.(tstat.gen); tstat.cpu := x.(tstat.cpu); tstat.dsk := x.(tstat.dsk); tstat.mem := x.(tstat.mem); tstat.net := v |}.

(** [t->gen.f = v] *)
Definition upd_gen (f : tgen.tgen -> tgen.tgen) (t : tstat.tstat) : tstat.tstat :=
  set_gen (f t.(tstat.gen)) t.
