(* ===== verification/Sstat.v ===== *)
(** * System statistics: [struct sstat] of photosyst.h and netstats.h

    One record per structure, in a module of the same name, with the fields
    of the source in their order; an array member is a list whose length is
    the array size of the source. The structures of protocol counters also
    have the layout the source uses when it walks them as [count_t] arrays
    ([Table]). *)
From S2P Require Import Prelude.

Definition MAXCPU : nat := 2048.
Definition MAXDSK : nat := 1024.
Definition MAXLVM : nat := 2048.
Definition MAXMDD : nat := 256.
Definition MAXINTF : nat := 128.
Definition MAXCONTAINER : nat := 128.
Definition MAXNFSMOUNT : nat := 64.

(** A structure whose members are all [count_t], seen as the array of its
    members in declaration order. *)
Class Table (A : Type) := {
  members : A -> list Z;
  of_members : list Z -> option A;
}.

Class TableLaws (A : Type) `{Table A} := {
  members_of : forall x, of_members (members x) = Some x;
  members_length : forall x y : A, length (members x) = length (members y);
  of_members_length : forall l (x : A), length l = length (members x) ->
    exists y, of_members l = Some y /\ members y = l;
}.

Ltac solve_table :=
  split;
  [ intros x; destruct x; reflexivity
  | intros x y; destruct x, y; reflexivity
  | intros l x H; destruct x; cbn in H;
    repeat (destruct l as [|? l]; [discriminate H | apply Nat.succ_inj in H]);
    destruct l; [| discriminate H]; cbn; eexists; split; reflexivity ].

(** Memory figures ([struct memstat]). *)
Module memstat.
Record memstat := mk {
  physmem : Z;
  freemem : Z;
  buffermem : Z;
  slabmem : Z;
  cachemem : Z;
  cachedrt : Z;
  totswap : Z;
  freeswap : Z;
  pgscans : Z;
  pgsteal : Z;
  allocstall : Z;
  swouts : Z;
  swins : Z;
  commitlim : Z;
  committed : Z;
  shmem : Z;
  shmrss : Z;
  shmswp : Z;
  slabreclaim : Z;
  tothugepage : Z;
  freehugepage : Z;
  hugepagesz : Z;
  vmwballoon : Z;
  cfuture : list Z
}.
End memstat.

Definition memstat_zero : memstat.memstat :=
  {| memstat.physmem := 0;
     memstat.freemem := 0;
     memstat.buffermem := 0;
     memstat.slabmem := 0;
     memstat.cachemem := 0;
     memstat.cachedrt := 0;
     memstat.totswap := 0;
     memstat.freeswap := 0;
     memstat.pgscans := 0;
     memstat.pgsteal := 0;
     memstat.allocstall := 0;
     memstat.swouts := 0;
     memstat.swins := 0;
     memstat.commitlim := 0;
     memstat.committed := 0;
     memstat.shmem := 0;
     memstat.shmrss := 0;
     memstat.shmswp := 0;
     memstat.slabreclaim := 0;
     memstat.tothugepage := 0;
     memstat.freehugepage := 0;
     memstat.hugepagesz := 0;
     memstat.vmwballoon := 0;
     memstat.cfuture := replicate 8 0 |}.

(** [struct ipv4_stats] of netstats.h. *)
Module ipv4_stats.
Record ipv4_stats := mk {
  Forwarding : Z;
  DefaultTTL : Z;
  InReceives : Z;
  InHdrErrors : Z;
  InAddrErrors : Z;
  ForwDatagrams : Z;
  InUnknownProtos : Z;
  InDiscards : Z;
  InDelivers : Z;
  OutRequests : Z;
  OutDiscards : Z;
  OutNoRoutes : Z;
  ReasmTimeout : Z;
  ReasmReqds : Z;
  ReasmOKs : Z;
  ReasmFails : Z;
  FragOKs : Z;
  FragFails : Z;
  FragCreates : Z
}.
End ipv4_stats.

Definition ipv4_stats_zero : ipv4_stats.ipv4_stats :=
  {| ipv4_stats.Forwarding := 0;
     ipv4_stats.DefaultTTL := 0;
     ipv4_stats.InReceives := 0;
     ipv4_stats.InHdrErrors := 0;
     ipv4_stats.InAddrErrors := 0;
     ipv4_stats.ForwDatagrams := 0;
     ipv4_stats.InUnknownProtos := 0;
     ipv4_stats.InDiscards := 0;
     ipv4_stats.InDelivers := 0;
     ipv4_stats.OutRequests := 0;
     ipv4_stats.OutDiscards := 0;
     ipv4_stats.OutNoRoutes := 0;
     ipv4_stats.ReasmTimeout := 0;
     ipv4_stats.ReasmReqds := 0;
     ipv4_stats.ReasmOKs := 0;
     ipv4_stats.ReasmFails := 0;
     ipv4_stats.FragOKs := 0;
     ipv4_stats.FragFails := 0;
     ipv4_stats.FragCreates := 0 |}.

#[export] Instance ipv4_stats_table : Table ipv4_stats.ipv4_stats := {
  members s := [s.(ipv4_stats.Forwarding); s.(ipv4_stats.DefaultTTL); s.(ipv4_stats.InReceives); s.(ipv4_stats.InHdrErrors); s.(ipv4_stats.InAddrErrors); s.(ipv4_stats.ForwDatagrams); s.(ipv4_stats.InUnknownProtos); s.(ipv4_stats.InDiscards); s.(ipv4_stats.InDelivers); s.(ipv4_stats.OutRequests); s.(ipv4_stats.OutDiscards); s.(ipv4_stats.OutNoRoutes); s.(ipv4_stats.ReasmTimeout); s.(ipv4_stats.ReasmReqds); s.(ipv4_stats.ReasmOKs); s.(ipv4_stats.ReasmFails); s.(ipv4_stats.FragOKs); s.(ipv4_stats.FragFails); s.(ipv4_stats.FragCreates)];
  of_members l := match l with
    | [x0; x1; x2; x3; x4; x5; x6; x7; x8; x9; x10; x11; x12; x13; x14; x15; x16; x17; x18] => Some (ipv4_stats.mk x0 x1 x2 x3 x4 x5 x6 x7 x8 x9 x10 x11 x12 x13 x14 x15 x16 x17 x18)
    | _ => None end
}.
#[export] Instance ipv4_stats_laws : TableLaws ipv4_stats.ipv4_stats.
Proof. solve_table. Qed.

(** [struct icmpv4_stats] of netstats.h. *)
Module icmpv4_stats.
Record icmpv4_stats := mk {
  InMsgs : Z;
  InErrors : Z;
  InDestUnreachs : Z;
  InTimeExcds : Z;
  InParmProbs : Z;
  InSrcQuenchs : Z;
  InRedirects : Z;
  InEchos : Z;
  InEchoReps : Z;
  InTimestamps : Z;
  InTimestampReps : Z;
  InAddrMasks : Z;
  InAddrMaskReps : Z;
  OutMsgs : Z;
  OutErrors : Z;
  OutDestUnreachs : Z;
  OutTimeExcds : Z;
  OutParmProbs : Z;
  OutSrcQuenchs : Z;
  OutRedirects : Z;
  OutEchos : Z;
  OutEchoReps : Z;
  OutTimestamps : Z;
  OutTimestampReps : Z;
  OutAddrMasks : Z;
  OutAddrMaskReps : Z
}.
End icmpv4_stats.

Definition icmpv4_stats_zero : icmpv4_stats.icmpv4_stats :=
  {| icmpv4_stats.InMsgs := 0;
     icmpv4_stats.InErrors := 0;
     icmpv4_stats.InDestUnreachs := 0;
     icmpv4_stats.InTimeExcds := 0;
     icmpv4_stats.InParmProbs := 0;
     icmpv4_stats.InSrcQuenchs := 0;
     icmpv4_stats.InRedirects := 0;
     icmpv4_stats.InEchos := 0;
     icmpv4_stats.InEchoReps := 0;
     icmpv4_stats.InTimestamps := 0;
     icmpv4_stats.InTimestampReps := 0;
     icmpv4_stats.InAddrMasks := 0;
     icmpv4_stats.InAddrMaskReps := 0;
     icmpv4_stats.OutMsgs := 0;
     icmpv4_stats.OutErrors := 0;
     icmpv4_stats.OutDestUnreachs := 0;
     icmpv4_stats.OutTimeExcds := 0;
     icmpv4_stats.OutParmProbs := 0;
     icmpv4_stats.OutSrcQuenchs := 0;
     icmpv4_stats.OutRedirects := 0;
     icmpv4_stats.OutEchos := 0;
     icmpv4_stats.OutEchoReps := 0;
     icmpv4_stats.OutTimestamps := 0;
     icmpv4_stats.OutTimestampReps := 0;
     icmpv4_stats.OutAddrMasks := 0;
     icmpv4_stats.OutAddrMaskReps := 0 |}.

#[export] Instance icmpv4_stats_table : Table icmpv4_stats.icmpv4_stats := {
  members s := [s.(icmpv4_stats.InMsgs); s.(icmpv4_stats.InErrors); s.(icmpv4_stats.InDestUnreachs); s.(icmpv4_stats.InTimeExcds); s.(icmpv4_stats.InParmProbs); s.(icmpv4_stats.InSrcQuenchs); s.(icmpv4_stats.InRedirects); s.(icmpv4_stats.InEchos); s.(icmpv4_stats.InEchoReps); s.(icmpv4_stats.InTimestamps); s.(icmpv4_stats.InTimestampReps); s.(icmpv4_stats.InAddrMasks); s.(icmpv4_stats.InAddrMaskReps); s.(icmpv4_stats.OutMsgs); s.(icmpv4_stats.OutErrors); s.(icmpv4_stats.OutDestUnreachs); s.(icmpv4_stats.OutTimeExcds); s.(icmpv4_stats.OutParmProbs); s.(icmpv4_stats.OutSrcQuenchs); s.(icmpv4_stats.OutRedirects); s.(icmpv4_stats.OutEchos); s.(icmpv4_stats.OutEchoReps); s.(icmpv4_stats.OutTimestamps); s.(icmpv4_stats.OutTimestampReps); s.(icmpv4_stats.OutAddrMasks); s.(icmpv4_stats.OutAddrMaskReps)];
  of_members l := match l with
    | [x0; x1; x2; x3; x4; x5; x6; x7; x8; x9; x10; x11; x12; x13; x14; x15; x16; x17; x18; x19; x20; x21; x22; x23; x24; x25] => Some (icmpv4_stats.mk x0 x1 x2 x3 x4 x5 x6 x7 x8 x9 x10 x11 x12 x13 x14 x15 x16 x17 x18 x19 x20 x21 x22 x23 x24 x25)
    | _ => None end
}.
#[export] Instance icmpv4_stats_laws : TableLaws icmpv4_stats.icmpv4_stats.
Proof. solve_table. Qed.

(** [struct udpv4_stats] of netstats.h. *)
Module udpv4_stats.
Record udpv4_stats := mk {
  InDatagrams : Z;
  NoPorts : Z;
  InErrors : Z;
  OutDatagrams : Z
}.
End udpv4_stats.

Definition udpv4_stats_zero : udpv4_stats.udpv4_stats :=
  {| udpv4_stats.InDatagrams := 0;
     udpv4_stats.NoPorts := 0;
     udpv4_stats.InErrors := 0;
     udpv4_stats.OutDatagrams := 0 |}.

#[export] Instance udpv4_stats_table : Table udpv4_stats.udpv4_stats := {
  members s := [s.(udpv4_stats.InDatagrams); s.(udpv4_stats.NoPorts); s.(udpv4_stats.InErrors); s.(udpv4_stats.OutDatagrams)];
  of_members l := match l with
    | [x0; x1; x2; x3] => Some (udpv4_stats.mk x0 x1 x2 x3)
    | _ => None end
}.
#[export] Instance udpv4_stats_laws : TableLaws udpv4_stats.udpv4_stats.
Proof. solve_table. Qed.

(** [struct ipv6_stats] of netstats.h. *)
Module ipv6_stats.
Record ipv6_stats := mk {
  Ip6InReceives : Z;
  Ip6InHdrErrors : Z;
  Ip6InTooBigErrors : Z;
  Ip6InNoRoutes : Z;
  Ip6InAddrErrors : Z;
  Ip6InUnknownProtos : Z;
  Ip6InTruncatedPkts : Z;
  Ip6InDiscards : Z;
  Ip6InDelivers : Z;
  Ip6OutForwDatagrams : Z;
  Ip6OutRequests : Z;
  Ip6OutDiscards : Z;
  Ip6OutNoRoutes : Z;
  Ip6ReasmTimeout : Z;
  Ip6ReasmReqds : Z;
  Ip6ReasmOKs : Z;
  Ip6ReasmFails : Z;
  Ip6FragOKs : Z;
  Ip6FragFails : Z;
  Ip6FragCreates : Z;
  Ip6InMcastPkts : Z;
  Ip6OutMcastPkts : Z
}.
End ipv6_stats.

Definition ipv6_stats_zero : ipv6_stats.ipv6_stats :=
  {| ipv6_stats.Ip6InReceives := 0;
     ipv6_stats.Ip6InHdrErrors := 0;
     ipv6_stats.Ip6InTooBigErrors := 0;
     ipv6_stats.Ip6InNoRoutes := 0;
     ipv6_stats.Ip6InAddrErrors := 0;
     ipv6_stats.Ip6InUnknownProtos := 0;
     ipv6_stats.Ip6InTruncatedPkts := 0;
     ipv6_stats.Ip6InDiscards := 0;
     ipv6_stats.Ip6InDelivers := 0;
     ipv6_stats.Ip6OutForwDatagrams := 0;
     ipv6_stats.Ip6OutRequests := 0;
     ipv6_stats.Ip6OutDiscards := 0;
     ipv6_stats.Ip6OutNoRoutes := 0;
     ipv6_stats.Ip6ReasmTimeout := 0;
     ipv6_stats.Ip6ReasmReqds := 0;
     ipv6_stats.Ip6ReasmOKs := 0;
     ipv6_stats.Ip6ReasmFails := 0;
     ipv6_stats.Ip6FragOKs := 0;
     ipv6_stats.Ip6FragFails := 0;
     ipv6_stats.Ip6FragCreates := 0;
     ipv6_stats.Ip6InMcastPkts := 0;
     ipv6_stats.Ip6OutMcastPkts := 0 |}.

#[export] Instance ipv6_stats_table : Table ipv6_stats.ipv6_stats := {
  members s := [s.(ipv6_stats.Ip6InReceives); s.(ipv6_stats.Ip6InHdrErrors); s.(ipv6_stats.Ip6InTooBigErrors); s.(ipv6_stats.Ip6InNoRoutes); s.(ipv6_stats.Ip6InAddrErrors); s.(ipv6_stats.Ip6InUnknownProtos); s.(ipv6_stats.Ip6InTruncatedPkts); s.(ipv6_stats.Ip6InDiscards); s.(ipv6_stats.Ip6InDelivers); s.(ipv6_stats.Ip6OutForwDatagrams); s.(ipv6_stats.Ip6OutRequests); s.(ipv6_stats.Ip6OutDiscards); s.(ipv6_stats.Ip6OutNoRoutes); s.(ipv6_stats.Ip6ReasmTimeout); s.(ipv6_stats.Ip6ReasmReqds); s.(ipv6_stats.Ip6ReasmOKs); s.(ipv6_stats.Ip6ReasmFails); s.(ipv6_stats.Ip6FragOKs); s.(ipv6_stats.Ip6FragFails); s.(ipv6_stats.Ip6FragCreates); s.(ipv6_stats.Ip6InMcastPkts); s.(ipv6_stats.Ip6OutMcastPkts)];
  of_members l := match l with
    | [x0; x1; x2; x3; x4; x5; x6; x7; x8; x9; x10; x11; x12; x13; x14; x15; x16; x17; x18; x19; x20; x21] => Some (ipv6_stats.mk x0 x1 x2 x3 x4 x5 x6 x7 x8 x9 x10 x11 x12 x13 x14 x15 x16 x17 x18 x19 x20 x21)
    | _ => None end
}.
#[export] Instance ipv6_stats_laws : TableLaws ipv6_stats.ipv6_stats.
Proof. solve_table. Qed.

(** [struct icmpv6_stats] of netstats.h. *)
Module icmpv6_stats.
Record icmpv6_stats := mk {
  Icmp6InMsgs : Z;
  Icmp6InErrors : Z;
  Icmp6InDestUnreachs : Z;
  Icmp6InPktTooBigs : Z;
  Icmp6InTimeExcds : Z;
  Icmp6InParmProblems : Z;
  Icmp6InEchos : Z;
  Icmp6InEchoReplies : Z;
  Icmp6InGroupMembQueries : Z;
  Icmp6InGroupMembResponses : Z;
  Icmp6InGroupMembReductions : Z;
  Icmp6InRouterSolicits : Z;
  Icmp6InRouterAdvertisements : Z;
  Icmp6InNeighborSolicits : Z;
  Icmp6InNeighborAdvertisements : Z;
  Icmp6InRedirects : Z;
  Icmp6OutMsgs : Z;
  Icmp6OutDestUnreachs : Z;
  Icmp6OutPktTooBigs : Z;
  Icmp6OutTimeExcds : Z;
  Icmp6OutParmProblems : Z;
  Icmp6OutEchoReplies : Z;
  Icmp6OutRouterSolicits : Z;
  Icmp6OutNeighborSolicits : Z;
  Icmp6OutNeighborAdvertisements : Z;
  Icmp6OutRedirects : Z;
  Icmp6OutGroupMembResponses : Z;
  Icmp6OutGroupMembReductions : Z
}.
End icmpv6_stats.

Definition icmpv6_stats_zero : icmpv6_stats.icmpv6_stats :=
  {| icmpv6_stats.Icmp6InMsgs := 0;
     icmpv6_stats.Icmp6InErrors := 0;
     icmpv6_stats.Icmp6InDestUnreachs := 0;
     icmpv6_stats.Icmp6InPktTooBigs := 0;
     icmpv6_stats.Icmp6InTimeExcds := 0;
     icmpv6_stats.Icmp6InParmProblems := 0;
     icmpv6_stats.Icmp6InEchos := 0;
     icmpv6_stats.Icmp6InEchoReplies := 0;
     icmpv6_stats.Icmp6InGroupMembQueries := 0;
     icmpv6_stats.Icmp6InGroupMembResponses := 0;
     icmpv6_stats.Icmp6InGroupMembReductions := 0;
     icmpv6_stats.Icmp6InRouterSolicits := 0;
     icmpv6_stats.Icmp6InRouterAdvertisements := 0;
     icmpv6_stats.Icmp6InNeighborSolicits := 0;
     icmpv6_stats.Icmp6InNeighborAdvertisements := 0;
     icmpv6_stats.Icmp6InRedirects := 0;
     icmpv6_stats.Icmp6OutMsgs := 0;
     icmpv6_stats.Icmp6OutDestUnreachs := 0;
     icmpv6_stats.Icmp6OutPktTooBigs := 0;
     icmpv6_stats.Icmp6OutTimeExcds := 0;
     icmpv6_stats.Icmp6OutParmProblems := 0;
     icmpv6_stats.Icmp6OutEchoReplies := 0;
     icmpv6_stats.Icmp6OutRouterSolicits := 0;
     icmpv6_stats.Icmp6OutNeighborSolicits := 0;
     icmpv6_stats.Icmp6OutNeighborAdvertisements := 0;
     icmpv6_stats.Icmp6OutRedirects := 0;
     icmpv6_stats.Icmp6OutGroupMembResponses := 0;
     icmpv6_stats.Icmp6OutGroupMembReductions := 0 |}.

#[export] Instance icmpv6_stats_table : Table icmpv6_stats.icmpv6_stats := {
  members s := [s.(icmpv6_stats.Icmp6InMsgs); s.(icmpv6_stats.Icmp6InErrors); s.(icmpv6_stats.Icmp6InDestUnreachs); s.(icmpv6_stats.Icmp6InPktTooBigs); s.(icmpv6_stats.Icmp6InTimeExcds); s.(icmpv6_stats.Icmp6InParmProblems); s.(icmpv6_stats.Icmp6InEchos); s.(icmpv6_stats.Icmp6InEchoReplies); s.(icmpv6_stats.Icmp6InGroupMembQueries); s.(icmpv6_stats.Icmp6InGroupMembResponses); s.(icmpv6_stats.Icmp6InGroupMembReductions); s.(icmpv6_stats.Icmp6InRouterSolicits); s.(icmpv6_stats.Icmp6InRouterAdvertisements); s.(icmpv6_stats.Icmp6InNeighborSolicits); s.(icmpv6_stats.Icmp6InNeighborAdvertisements); s.(icmpv6_stats.Icmp6InRedirects); s.(icmpv6_stats.Icmp6OutMsgs); s.(icmpv6_stats.Icmp6OutDestUnreachs); s.(icmpv6_stats.Icmp6OutPktTooBigs); s.(icmpv6_stats.Icmp6OutTimeExcds); s.(icmpv6_stats.Icmp6OutParmProblems); s.(icmpv6_stats.Icmp6OutEchoReplies); s.(icmpv6_stats.Icmp6OutRouterSolicits); s.(icmpv6_stats.Icmp6OutNeighborSolicits); s.(icmpv6_stats.Icmp6OutNeighborAdvertisements); s.(icmpv6_stats.Icmp6OutRedirects); s.(icmpv6_stats.Icmp6OutGroupMembResponses); s.(icmpv6_stats.Icmp6OutGroupMembReductions)];
  of_members l := match l with
    | [x0; x1; x2; x3; x4; x5; x6; x7; x8; x9; x10; x11; x12; x13; x14; x15; x16; x17; x18; x19; x20; x21; x22; x23; x24; x25; x26; x27] => Some (icmpv6_stats.mk x0 x1 x2 x3 x4 x5 x6 x7 x8 x9 x10 x11 x12 x13 x14 x15 x16 x17 x18 x19 x20 x21 x22 x23 x24 x25 x26 x27)
    | _ => None end
}.
#[export] Instance icmpv6_stats_laws : TableLaws icmpv6_stats.icmpv6_stats.
Proof. solve_table. Qed.

(** [struct udpv6_stats] of netstats.h. *)
Module udpv6_stats.
Record udpv6_stats := mk {
  Udp6InDatagrams : Z;
  Udp6NoPorts : Z;
  Udp6InErrors : Z;
  Udp6OutDatagrams : Z
}.
End udpv6_stats.

Definition udpv6_stats_zero : udpv6_stats.udpv6_stats :=
  {| udpv6_stats.Udp6InDatagrams := 0;
     udpv6_stats.Udp6NoPorts := 0;
     udpv6_stats.Udp6InErrors := 0;
     udpv6_stats.Udp6OutDatagrams := 0 |}.

#[export] Instance udpv6_stats_table : Table udpv6_stats.udpv6_stats := {
  members s := [s.(udpv6_stats.Udp6InDatagrams); s.(udpv6_stats.Udp6NoPorts); s.(udpv6_stats.Udp6InErrors); s.(udpv6_stats.Udp6OutDatagrams)];
  of_members l := match l with
    | [x0; x1; x2; x3] => Some (udpv6_stats.mk x0 x1 x2 x3)
    | _ => None end
}.
#[export] Instance udpv6_stats_laws : TableLaws udpv6_stats.udpv6_stats.
Proof. solve_table. Qed.

(** [struct tcp_stats] of netstats.h. *)
Module tcp_stats.
Record tcp_stats := mk {
  RtoAlgorithm : Z;
  RtoMin : Z;
  RtoMax : Z;
  MaxConn : Z;
  ActiveOpens : Z;
  PassiveOpens : Z;
  AttemptFails : Z;
  EstabResets : Z;
  CurrEstab : Z;
  InSegs : Z;
  OutSegs : Z;
  RetransSegs : Z;
  InErrs : Z;
  OutRsts : Z
}.
End tcp_stats.

Definition tcp_stats_zero : tcp_stats.tcp_stats :=
  {| tcp_stats.RtoAlgorithm := 0;
     tcp_stats.RtoMin := 0;
     tcp_stats.RtoMax := 0;
     tcp_stats.MaxConn := 0;
     tcp_stats.ActiveOpens := 0;
     tcp_stats.PassiveOpens := 0;
     tcp_stats.AttemptFails := 0;
     tcp_stats.EstabResets := 0;
     tcp_stats.CurrEstab := 0;
     tcp_stats.InSegs := 0;
     tcp_stats.OutSegs := 0;
     tcp_stats.RetransSegs := 0;
     tcp_stats.InErrs := 0;
     tcp_stats.OutRsts := 0 |}.

#[export] Instance tcp_stats_table : Table tcp_stats.tcp_stats := {
  members s := [s.(tcp_stats.RtoAlgorithm); s.(tcp_stats.RtoMin); s.(tcp_stats.RtoMax); s.(tcp_stats.MaxConn); s.(tcp_stats.ActiveOpens); s.(tcp_stats.PassiveOpens); s.(tcp_stats.AttemptFails); s.(tcp_stats.EstabResets); s.(tcp_stats.CurrEstab); s.(tcp_stats.InSegs); s.(tcp_stats.OutSegs); s.(tcp_stats.RetransSegs); s.(tcp_stats.InErrs); s.(tcp_stats.OutRsts)];
  of_members l := match l with
    | [x0; x1; x2; x3; x4; x5; x6; x7; x8; x9; x10; x11; x12; x13] => Some (tcp_stats.mk x0 x1 x2 x3 x4 x5 x6 x7 x8 x9 x10 x11 x12 x13)
    | _ => None end
}.
#[export] Instance tcp_stats_laws : TableLaws tcp_stats.tcp_stats.
Proof. solve_table. Qed.

(** Protocol counters ([struct netstat]). *)
Module netstat.
Record netstat := mk {
  ipv4 : ipv4_stats.ipv4_stats;
  icmpv4 : icmpv4_stats.icmpv4_stats;
  udpv4 : udpv4_stats.udpv4_stats;
  ipv6 : ipv6_stats.ipv6_stats;
  icmpv6 : icmpv6_stats.icmpv6_stats;
  udpv6 : udpv6_stats.udpv6_stats;
  tcp : tcp_stats.tcp_stats
}.
End netstat.

Definition netstat_zero : netstat.netstat :=
  {| netstat.ipv4 := ipv4_stats_zero;
     netstat.icmpv4 := icmpv4_stats_zero;
     netstat.udpv4 := udpv4_stats_zero;
     netstat.ipv6 := ipv6_stats_zero;
     netstat.icmpv6 := icmpv6_stats_zero;
     netstat.udpv6 := udpv6_stats_zero;
     netstat.tcp := tcp_stats_zero |}.

(** Frequency scaling ([struct freqcnt]). *)
Module freqcnt.
Record freqcnt := mk {
  maxfreq : Z;
  cnt : Z;
  ticks : Z
}.
End freqcnt.

Definition freqcnt_zero : freqcnt.freqcnt :=
  {| freqcnt.maxfreq := 0;
     freqcnt.cnt := 0;
     freqcnt.ticks := 0 |}.

(** One processor ([struct percpu]). *)
Module percpu.
Record percpu := mk {
  cpunr : Z;
  stime : Z;
  utime : Z;
  ntime : Z;
  itime : Z;
  wtime : Z;
  Itime : Z;
  Stime : Z;
  steal : Z;
  guest : Z;
  freqcnt : freqcnt.freqcnt;
  instr : Z;
  cycle : Z;
  cfuture : list Z
}.
End percpu.

Definition percpu_zero : percpu.percpu :=
  {| percpu.cpunr := 0;
     percpu.stime := 0;
     percpu.utime := 0;
     percpu.ntime := 0;
     percpu.itime := 0;
     percpu.wtime := 0;
     percpu.Itime := 0;
     percpu.Stime := 0;
     percpu.steal := 0;
     percpu.guest := 0;
     percpu.freqcnt := freqcnt_zero;
     percpu.instr := 0;
     percpu.cycle := 0;
     percpu.cfuture := replicate 2 0 |}.

(** Processors ([struct cpustat]); a load average is a [float] that is only copied, kept as its bit pattern. *)
Module cpustat.
Record cpustat := mk {
  nrcpu : Z;
  devint : Z;
  csw : Z;
  nprocs : Z;
  lavg1 : Z;
  lavg5 : Z;
  lavg15 : Z;
  cfuture : list Z;
  all : percpu.percpu;
  cpu : list percpu.percpu
}.
End cpustat.

Definition cpustat_zero : cpustat.cpustat :=
  {| cpustat.nrcpu := 0;
     cpustat.devint := 0;
     cpustat.csw := 0;
     cpustat.nprocs := 0;
     cpustat.lavg1 := 0;
     cpustat.lavg5 := 0;
     cpustat.lavg15 := 0;
     cpustat.cfuture := replicate 4 0;
     cpustat.all := percpu_zero;
     cpustat.cpu := replicate MAXCPU percpu_zero |}.

(** One disk, md or lvm volume ([struct perdsk]). *)
Module perdsk.
Record perdsk := mk {
  name : string;
  nread : Z;
  nrsect : Z;
  nwrite : Z;
  nwsect : Z;
  io_ms : Z;
  avque : Z;
  cfuture : list Z
}.
End perdsk.

Definition perdsk_zero : perdsk.perdsk :=
  {| perdsk.name := EmptyString;
     perdsk.nread := 0;
     perdsk.nrsect := 0;
     perdsk.nwrite := 0;
     perdsk.nwsect := 0;
     perdsk.io_ms := 0;
     perdsk.avque := 0;
     perdsk.cfuture := replicate 4 0 |}.

(** Disks ([struct dskstat]). *)
Module dskstat.
Record dskstat := mk {
  ndsk : Z;
  nmdd : Z;
  nlvm : Z;
  dsk : list perdsk.perdsk;
  mdd : list perdsk.perdsk;
  lvm : list perdsk.perdsk
}.
End dskstat.

Definition dskstat_zero : dskstat.dskstat :=
  {| dskstat.ndsk := 0;
     dskstat.nmdd := 0;
     dskstat.nlvm := 0;
     dskstat.dsk := replicate MAXDSK perdsk_zero;
     dskstat.mdd := replicate MAXMDD perdsk_zero;
     dskstat.lvm := replicate MAXLVM perdsk_zero |}.

(** One network interface ([struct perintf]). *)
Module perintf.
Record perintf := mk {
  name : string;
  rbyte : Z;
  rpack : Z;
  rerrs : Z;
  rdrop : Z;
  rfifo : Z;
  rframe : Z;
  rcompr : Z;
  rmultic : Z;
  rfuture : list Z;
  sbyte : Z;
  spack : Z;
  serrs : Z;
  sdrop : Z;
  sfifo : Z;
  scollis : Z;
  scarrier : Z;
  scompr : Z;
  sfuture : list Z;
  type : Z;
  speed : Z;
  speedp : Z;
  duplex : Z;
  cfuture : list Z
}.
End perintf.

Definition perintf_zero : perintf.perintf :=
  {| perintf.name := EmptyString;
     perintf.rbyte := 0;
     perintf.rpack := 0;
     perintf.rerrs := 0;
     perintf.rdrop := 0;
     perintf.rfifo := 0;
     perintf.rframe := 0;
     perintf.rcompr := 0;
     perintf.rmultic := 0;
     perintf.rfuture := replicate 4 0;
     perintf.sbyte := 0;
     perintf.spack := 0;
     perintf.serrs := 0;
     perintf.sdrop := 0;
     perintf.sfifo := 0;
     perintf.scollis := 0;
     perintf.scarrier := 0;
     perintf.scompr := 0;
     perintf.sfuture := replicate 4 0;
     perintf.type := 0;
     perintf.speed := 0;
     perintf.speedp := 0;
     perintf.duplex := 0;
     perintf.cfuture := replicate 4 0 |}.

(** Interfaces ([struct intfstat]). *)
Module intfstat.
Record intfstat := mk {
  nrintf : Z;
  intf : list perintf.perintf
}.
End intfstat.

Definition intfstat_zero : intfstat.intfstat :=
  {| intfstat.nrintf := 0;
     intfstat.intf := replicate MAXINTF perintf_zero |}.

(** One NFS mount ([struct pernfsmount]). *)
Module pernfsmount.
Record pernfsmount := mk {
  mountdev : string;
  age : Z;
  bytesread : Z;
  byteswrite : Z;
  bytesdread : Z;
  bytesdwrite : Z;
  bytestotread : Z;
  bytestotwrite : Z;
  pagesmread : Z;
  pagesmwrite : Z;
  future : list Z
}.
End pernfsmount.

Definition pernfsmount_zero : pernfsmount.pernfsmount :=
  {| pernfsmount.mountdev := EmptyString;
     pernfsmount.age := 0;
     pernfsmount.bytesread := 0;
     pernfsmount.byteswrite := 0;
     pernfsmount.bytesdread := 0;
     pernfsmount.bytesdwrite := 0;
     pernfsmount.bytestotread := 0;
     pernfsmount.bytestotwrite := 0;
     pernfsmount.pagesmread := 0;
     pernfsmount.pagesmwrite := 0;
     pernfsmount.future := replicate 8 0 |}.

(** NFS server counters (member [server] of [struct nfsstat]). *)
Module nfsserver.
Record nfsserver := mk {
  netcnt : Z;
  netudpcnt : Z;
  nettcpcnt : Z;
  nettcpcon : Z;
  rpccnt : Z;
  rpcbadfmt : Z;
  rpcbadaut : Z;
  rpcbadcln : Z;
  rpcread : Z;
  rpcwrite : Z;
  rchits : Z;
  rcmiss : Z;
  rcnoca : Z;
  nrbytes : Z;
  nwbytes : Z;
  future : list Z
}.
End nfsserver.

Definition nfsserver_zero : nfsserver.nfsserver :=
  {| nfsserver.netcnt := 0;
     nfsserver.netudpcnt := 0;
     nfsserver.nettcpcnt := 0;
     nfsserver.nettcpcon := 0;
     nfsserver.rpccnt := 0;
     nfsserver.rpcbadfmt := 0;
     nfsserver.rpcbadaut := 0;
     nfsserver.rpcbadcln := 0;
     nfsserver.rpcread := 0;
     nfsserver.rpcwrite := 0;
     nfsserver.rchits := 0;
     nfsserver.rcmiss := 0;
     nfsserver.rcnoca := 0;
     nfsserver.nrbytes := 0;
     nfsserver.nwbytes := 0;
     nfsserver.future := replicate 8 0 |}.

(** NFS client counters (member [client] of [struct nfsstat]). *)
Module nfsclient.
Record nfsclient := mk {
  rpccnt : Z;
  rpcretrans : Z;
  rpcautrefresh : Z;
  rpcread : Z;
  rpcwrite : Z;
  future : list Z
}.
End nfsclient.

Definition nfsclient_zero : nfsclient.nfsclient :=
  {| nfsclient.rpccnt := 0;
     nfsclient.rpcretrans := 0;
     nfsclient.rpcautrefresh := 0;
     nfsclient.rpcread := 0;
     nfsclient.rpcwrite := 0;
     nfsclient.future := replicate 8 0 |}.

(** NFS mounts (member [nfsmounts] of [struct nfsstat]). *)
Module nfsmounts.
Record nfsmounts := mk {
  nrmounts : Z;
  nfsmnt : list pernfsmount.pernfsmount
}.
End nfsmounts.

Definition nfsmounts_zero : nfsmounts.nfsmounts :=
  {| nfsmounts.nrmounts := 0;
     nfsmounts.nfsmnt := replicate MAXNFSMOUNT pernfsmount_zero |}.

(** [struct nfsstat]. *)
Module nfsstat.
Record nfsstat := mk {
  server : nfsserver.nfsserver;
  client : nfsclient.nfsclient;
  nfsmounts : nfsmounts.nfsmounts
}.
End nfsstat.

Definition nfsstat_zero : nfsstat.nfsstat :=
  {| nfsstat.server := nfsserver_zero;
     nfsstat.client := nfsclient_zero;
     nfsstat.nfsmounts := nfsmounts_zero |}.

(** One container ([struct percontainer]). *)
Module percontainer.
Record percontainer := mk {
  ctid : Z;
  numproc : Z;
  system : Z;
  user : Z;
  nice : Z;
  uptime : Z;
  physpages : Z
}.
End percontainer.

Definition percontainer_zero : percontainer.percontainer :=
  {| percontainer.ctid := 0;
     percontainer.numproc := 0;
     percontainer.system := 0;
     percontainer.user := 0;
     percontainer.nice := 0;
     percontainer.uptime := 0;
     percontainer.physpages := 0 |}.

(** Containers ([struct contstat]). *)
Module contstat.
Record contstat := mk {
  nrcontainer : Z;
  cont : list percontainer.percontainer
}.
End contstat.

Definition contstat_zero : contstat.contstat :=
  {| contstat.nrcontainer := 0;
     contstat.cont := replicate MAXCONTAINER percontainer_zero |}.

(** Web server counters ([struct wwwstat]). *)
Module wwwstat.
Record wwwstat := mk {
  accesses : Z;
  totkbytes : Z;
  uptime : Z;
  bworkers : Z;
  iworkers : Z
}.
End wwwstat.

Definition wwwstat_zero : wwwstat.wwwstat :=
  {| wwwstat.accesses := 0;
     wwwstat.totkbytes := 0;
     wwwstat.uptime := 0;
     wwwstat.bworkers := 0;
     wwwstat.iworkers := 0 |}.

(** A system sample ([struct sstat]). *)
Module sstat.
Record sstat := mk {
  cpu : cpustat.cpustat;
  mem : memstat.memstat;
  net : netstat.netstat;
  intf : intfstat.intfstat;
  dsk : dskstat.dskstat;
  nfs : nfsstat.nfsstat;
  cfs : contstat.contstat;
  www : wwwstat.wwwstat
}.
End sstat.

Definition sstat_zero : sstat.sstat :=
  {| sstat.cpu := cpustat_zero;
     sstat.mem := memstat_zero;
     sstat.net := netstat_zero;
     sstat.intf := intfstat_zero;
     sstat.dsk := dskstat_zero;
     sstat.nfs := nfsstat_zero;
     sstat.cfs := contstat_zero;
     sstat.www := wwwstat_zero |}.

