(* ===== verification/Counter.v ===== *)
(** * Counters: subcount and MAX32BITVAL of deviate.c

    The difference of two readings of a kernel counter, and what it promises
    to its clients: [Reading] is a counter of the kernel seen through a 32-bit
    or a 64-bit window. *)
From S2P Require Import Prelude.

Definition MAX32BITVAL : Z := 0x100000000.

(** Generic function to subtract two counters taking into account the
    possibility of overflow of a 32-bit kernel-counter. *)
Definition subcount (newval oldval : Z) : Z :=
  if oldval <=? newval then i64 (newval - oldval)
  else i64 (i64 (MAX32BITVAL + newval) - oldval).

Lemma subcount_ge newval oldval :
  0 <= oldval <= newval -> newval < 2 ^ 63 -> subcount newval oldval = newval - oldval.
Proof.
  intros H1 H2. unfold subcount. destruct (Z.leb_spec oldval newval); [|lia].
  apply i64_id. unfold in_i64. lia.
Qed.

Lemma subcount_lt newval oldval :
  0 <= newval < oldval -> oldval < 2 ^ 63 -> subcount newval oldval = 2 ^ 32 + newval - oldval.
Proof.
  intros H1 H2. unfold subcount, MAX32BITVAL. destruct (Z.leb_spec oldval newval); [lia|].
  rewrite i64_sub_l, i64_id by (unfold in_i64; lia). lia.
Qed.

Lemma subcount_same v : subcount v v = 0.
Proof. unfold subcount. rewrite Z.leb_refl, Z.sub_diag. done. Qed.

Lemma subcount_zero v : in_i64 v -> 0 <= v -> subcount v 0 = v.
Proof. unfold in_i64. intros H1 H2. rewrite subcount_ge by lia. lia. Qed.

(** C21: subcount of two readings of a counter through a 32-bit register is the
    work done in between, also when the register wrapped, as long as less than
    2^32 was done. *)
Theorem subcount_window a b :
  0 <= a <= b -> b - a < 2 ^ 32 -> subcount (u32 b) (u32 a) = b - a.
Proof.
  intros H1 H2. unfold u32.
  pose proof (Z.mod_pos_bound a (2 ^ 32)). pose proof (Z.mod_pos_bound b (2 ^ 32)).
  pose proof (Z.div_mod a (2 ^ 32)). pose proof (Z.div_mod b (2 ^ 32)).
  destruct (Z_le_gt_dec (a mod 2 ^ 32) (b mod 2 ^ 32)) as [Hle|Hgt].
  - rewrite subcount_ge by lia. nia.
  - rewrite subcount_lt by lia. nia.
Qed.

Lemma subcount_range32 a b :
  0 <= a < 2 ^ 32 -> 0 <= b < 2 ^ 32 -> 0 <= subcount a b < 2 ^ 32.
Proof.
  intros H1 H2. destruct (Z_le_gt_dec b a).
  - rewrite subcount_ge by lia. lia.
  - rewrite subcount_lt by lia. lia.
Qed.

Lemma subcount_window_witness : subcount (u32 (2 ^ 32 + 5)) (u32 (2 ^ 32 - 3)) = 8.
Proof. rewrite subcount_window; lia. Defined.
