(* ===== verification/Procdbase.v ===== *)
(** * The process database: procdbase.c

    A [struct pinfo] lives in a heap of addressed cells; [phash] holds the 256
    hash buckets, chained through [phnext]; the RESIDUE list is a circular
    doubly-linked list through [prnext]/[prprev] anchored at the static cell
    [presidue]. Every pointer dereference goes through the heap, so [None]
    is a NULL or dangling access (or a loop that outlives its fuel). *)
From S2P Require Import Prelude Tstat.

Definition NPHASH : nat := 256.

(** Address of a [struct pinfo]; a pointer is an [option loc], NULL is [None]. *)
Definition loc := nat.

Module pinfo.
Record pinfo := mk {
  phnext : option loc;
  prnext : option loc;
  prprev : option loc;
  tstat : tstat.tstat
}.
End pinfo.

Module pdb.
Record pdb := mk {
  phash : list (option loc);
  heap : gmap loc pinfo.pinfo
}.
End pdb.

(** The static anchor of the RESIDUE list. *)
Definition presidue : loc := 0%nat.

Definition set_phnext (v : option loc) (n : pinfo.pinfo) : pinfo.pinfo :=
  pinfo.mk v n.(pinfo.prnext) n.(pinfo.prprev) n.(pinfo.tstat).
Definition set_prnext (v : option loc) (n : pinfo.pinfo) : pinfo.pinfo :=
  pinfo.mk n.(pinfo.phnext) v n.(pinfo.prprev) n.(pinfo.tstat).
Definition set_prprev (v : option loc) (n : pinfo.pinfo) : pinfo.pinfo :=
  pinfo.mk n.(pinfo.phnext) n.(pinfo.prnext) v n.(pinfo.tstat).
Definition set_tstat (t : tstat.tstat) (n : pinfo.pinfo) : pinfo.pinfo :=
  pinfo.mk n.(pinfo.phnext) n.(pinfo.prnext) n.(pinfo.prprev) t.

(** A store to a member of the cell at [l]. *)
Definition store (h : gmap loc pinfo.pinfo) (l : loc) (f : pinfo.pinfo -> pinfo.pinfo) :
    option (gmap loc pinfo.pinfo) :=
  n ← h !! l; Some (<[l := f n]> h).

Definition with_heap (s : pdb.pdb) (h : gmap loc pinfo.pinfo) : pdb.pdb :=
  pdb.mk s.(pdb.phash) h.

(** [pid & (NPHASH-1)] *)
Definition hashq (pid : Z) : nat := Z.to_nat (Z.land pid (Z.of_nat NPHASH - 1)).

Definition pinfo_pid (n : pinfo.pinfo) : Z := n.(pinfo.tstat).(tstat.gen).(tgen.pid).
Definition pinfo_isproc (n : pinfo.pinfo) : Z := n.(pinfo.tstat).(tstat.gen).(tgen.isproc).
Definition pinfo_btime (n : pinfo.pinfo) : Z := n.(pinfo.tstat).(tstat.gen).(tgen.btime).

(** ** pdb_gettask *)

(** The comparison of one entry: same PID, same kind, and a start time at most
    one second away; the difference is stored in an [int]. *)
Definition gettask_match (pid isproc btime : Z) (n : pinfo.pinfo) : bool :=
  bool_decide (pinfo_pid n = pid) && bool_decide (pinfo_isproc n = isproc) &&
  (let diff := i32 (i64 (pinfo_btime n - btime)) in
   negb ((1 <? diff) || (diff <? -1))).

Fixpoint gettask_scan (fuel : nat) (h : gmap loc pinfo.pinfo) (pp : option loc)
    (pid isproc btime : Z) : option (option loc) :=
  match fuel with
  | O => None
  | S f =>
      match pp with
      | None => Some None
      | Some l =>
          n ← h !! l;
          if gettask_match pid isproc btime n then Some (Some l)
          else gettask_scan f h n.(pinfo.phnext) pid isproc btime
      end
  end.

(** [(pp->prnext)->prprev = pp->prprev; (pp->prprev)->prnext = pp->prnext;] *)
Definition unchain_next_prev (h : gmap loc pinfo.pinfo) (l : loc) :
    option (gmap loc pinfo.pinfo) :=
  n ← h !! l;
  match n.(pinfo.prnext) with
  | None => Some h
  | Some nx =>
      h ← store h nx (set_prprev n.(pinfo.prprev));
      n ← h !! l;
      pv ← n.(pinfo.prprev);
      store h pv (set_prnext n.(pinfo.prnext))
  end.

(** [(pp->prprev)->prnext = pp->prnext; (pp->prnext)->prprev = pp->prprev;] *)
Definition unchain_prev_next (h : gmap loc pinfo.pinfo) (l : loc) :
    option (gmap loc pinfo.pinfo) :=
  n ← h !! l;
  match n.(pinfo.prnext) with
  | None => Some h
  | Some _ =>
      pv ← n.(pinfo.prprev);
      h ← store h pv (set_prnext n.(pinfo.prnext));
      n ← h !! l;
      nx ← n.(pinfo.prnext);
      store h nx (set_prprev n.(pinfo.prprev))
  end.

Definition pdb_gettask (s : pdb.pdb) (pid isproc btime : Z) : option (option loc * pdb.pdb) :=
  let h := s.(pdb.heap) in
  pp ← s.(pdb.phash) !! hashq pid;
  r ← gettask_scan (S (size h)) h pp pid isproc btime;
  match r with
  | None => Some (None, s)
  | Some l =>
      h ← unchain_next_prev h l;
      h ← store h l (set_prnext None);
      h ← store h l (set_prprev None);
      Some (Some l, with_heap s h)
  end.

(** ** pdb_addtask *)
Definition pdb_addtask (s : pdb.pdb) (pid : Z) (pinfop : loc) : option pdb.pdb :=
  let i := hashq pid in
  p ← s.(pdb.phash) !! i;
  h ← store s.(pdb.heap) pinfop (set_phnext p);
  q ← arr_set s.(pdb.phash) i (Some pinfop);
  Some (pdb.mk q h).

(** ** pdb_deltask *)

Definition deltask_match (pid isproc : Z) (n : pinfo.pinfo) : bool :=
  bool_decide (pinfo_pid n = pid) && bool_decide (pinfo_isproc n = isproc).

(** The scan of the other entries: [ppp] is the entry before [pp]. *)
Fixpoint deltask_scan (fuel : nat) (h : gmap loc pinfo.pinfo) (ppp : loc) (pp : option loc)
    (pid isproc : Z) : option (Z * gmap loc pinfo.pinfo) :=
  match fuel with
  | O => None
  | S f =>
      match pp with
      | None => Some (0, h)
      | Some l =>
          n ← h !! l;
          if deltask_match pid isproc n then
            h ← store h ppp (set_phnext n.(pinfo.phnext));
            h ← unchain_next_prev h l;
            Some (1, delete l h)
          else deltask_scan f h l n.(pinfo.phnext) pid isproc
      end
  end.

Definition pdb_deltask (s : pdb.pdb) (pid isproc : Z) : option (Z * pdb.pdb) :=
  let h := s.(pdb.heap) in
  pp ← s.(pdb.phash) !! hashq pid;
  l ← pp;
  n ← h !! l;
  if deltask_match pid isproc n then
    q ← arr_set s.(pdb.phash) (hashq pid) n.(pinfo.phnext);
    h ← unchain_prev_next h l;
    Some (1, pdb.mk q (delete l h))
  else
    r ← deltask_scan (S (size h)) h l n.(pinfo.phnext) pid isproc;
    Some (r.1, with_heap s r.2).

(** ** pdb_makeresidue *)

Fixpoint makeresidue_chain (fuel : nat) (h : gmap loc pinfo.pinfo) (pp : option loc) :
    option (gmap loc pinfo.pinfo) :=
  match fuel with
  | O => None
  | S f =>
      match pp with
      | None => Some h
      | Some l =>
          pr ← h !! presidue;
          h ← store h l (set_prnext pr.(pinfo.prnext));
          h ← store h presidue (set_prnext (Some l));
          n ← h !! l;
          nx ← n.(pinfo.prnext);
          m ← h !! nx;
          h ← store h l (set_prprev m.(pinfo.prprev));
          h ← store h nx (set_prprev (Some l));
          n ← h !! l;
          makeresidue_chain f h n.(pinfo.phnext)
      end
  end.

Definition pdb_makeresidue (s : pdb.pdb) : option pdb.pdb :=
  h ← store s.(pdb.heap) presidue (set_prnext (Some presidue));
  h ← store h presidue (set_prprev (Some presidue));
  h ← for_lt (Z.of_nat NPHASH) (fun i h =>
        pp ← s.(pdb.phash) !! i;
        makeresidue_chain (S (size h)) h pp) h;
  Some (with_heap s h).

(** ** pdb_cleanresidue *)

Fixpoint cleanresidue_loop (fuel : nat) (s : pdb.pdb) (pr : option loc) : option pdb.pdb :=
  match fuel with
  | O => None
  | S f =>
      l ← pr;
      if decide (l = presidue) then Some s
      else
        n ← s.(pdb.heap) !! l;
        r ← pdb_deltask s (pinfo_pid n) (pinfo_isproc n);
        cleanresidue_loop f r.2 n.(pinfo.prnext)
  end.

Definition pdb_cleanresidue (s : pdb.pdb) : option pdb.pdb :=
  a ← s.(pdb.heap) !! presidue;
  cleanresidue_loop (S (size s.(pdb.heap))) s a.(pinfo.prnext).

(** ** pdb_srchresidue *)

(** Same real user, real group and name. *)
Definition srch_candidate (t : tstat.tstat) (n : pinfo.pinfo) : bool :=
  let g := n.(pinfo.tstat).(tstat.gen) in
  let g' := t.(tstat.gen) in
  bool_decide (g.(tgen.ruid) = g'.(tgen.ruid)) &&
  bool_decide (g.(tgen.rgid) = g'.(tgen.rgid)) &&
  bool_decide (g.(tgen.name) = g'.(tgen.name)).

Definition btimediff (t : tstat.tstat) (n : pinfo.pinfo) : Z :=
  i64 (pinfo_btime n - t.(tstat.gen).(tgen.btime)).

Fixpoint srchresidue_loop (fuel : nat) (h : gmap loc pinfo.pinfo) (t : tstat.tstat)
    (pr : option loc) (prmin : option loc) : option (option loc) :=
  match fuel with
  | O => None
  | S f =>
      l ← pr;
      if decide (l = presidue) then Some prmin
      else
        n ← h !! l;
        if srch_candidate t n then
          if btimediff t n =? 0 then Some (Some l)
          else
            let prmin' :=
              if ((btimediff t n =? -1) || (btimediff t n =? 1)) &&
                 bool_decide (prmin = None) then Some l else prmin in
            srchresidue_loop f h t n.(pinfo.prnext) prmin'
        else srchresidue_loop f h t n.(pinfo.prnext) prmin
  end.

Definition pdb_srchresidue (s : pdb.pdb) (t : tstat.tstat) : option (option loc) :=
  a ← s.(pdb.heap) !! presidue;
  srchresidue_loop (S (size s.(pdb.heap))) s.(pdb.heap) t a.(pinfo.prnext) None.

(** The database at program start: empty buckets, a zeroed anchor. *)
Definition pdb_init : pdb.pdb :=
  pdb.mk (replicate NPHASH None)
    {[ presidue := pinfo.mk None None None tstat_zero ]}.
