(* ===== verification/PdbHeap.v ===== *)
(** * Heap reasoning for the process database

    The three pointers and the sample of a cell as partial functions of its
    address, how stores act on them, the hash chains and the circular RESIDUE
    list as predicates on the heap, and the lemmas that split and join them. *)
From S2P Require Import Prelude Tstat Procdbase.

Abbreviation pheap := (gmap loc pinfo.pinfo).

Definition hn (h : pheap) (l : loc) : option (option loc) := pinfo.phnext <$> h !! l.
Definition nx (h : pheap) (l : loc) : option (option loc) := pinfo.prnext <$> h !! l.
Definition pv (h : pheap) (l : loc) : option (option loc) := pinfo.prprev <$> h !! l.
Definition ts (h : pheap) (l : loc) : option tstat.tstat := pinfo.tstat <$> h !! l.

(** The cells from [p] through [phnext] are [b]. *)
Fixpoint chain (h : pheap) (p : option loc) (b : list loc) : Prop :=
  match b with
  | [] => p = None
  | l :: b' => p = Some l /\ exists q, hn h l = Some q /\ chain h q b'
  end.

(** From [a] through the cells [rs] to [b], doubly linked. *)
Fixpoint linked (h : pheap) (a : loc) (rs : list loc) (b : loc) : Prop :=
  match rs with
  | [] => nx h a = Some (Some b) /\ pv h b = Some (Some a)
  | x :: rs' => nx h a = Some (Some x) /\ pv h x = Some (Some a) /\ linked h x rs' b
  end.

(** The RESIDUE list holds [rs]. *)
Definition ring (h : pheap) (rs : list loc) : Prop := linked h presidue rs presidue.

(** Two heaps that differ only in the RESIDUE pointers. *)
Definition same_hash (h h' : pheap) : Prop :=
  forall l, hn h' l = hn h l /\ ts h' l = ts h l.

#[export] Instance same_hash_equiv : Equivalence same_hash.
Proof.
  split.
  - intros h l. done.
  - intros h h' H l. destruct (H l). done.
  - intros h1 h2 h3 H1 H2 l. destruct (H1 l), (H2 l). split; congruence.
Qed.

(** ** Stores *)

Lemma store_Some h l f n : h !! l = Some n -> store h l f = Some (<[l := f n]> h).
Proof. unfold store. by intros ->. Qed.

Lemma hn_dom h l : is_Some (hn h l) <-> is_Some (h !! l).
Proof. unfold hn. by rewrite fmap_is_Some. Qed.
Lemma nx_dom h l : is_Some (nx h l) <-> is_Some (h !! l).
Proof. unfold nx. by rewrite fmap_is_Some. Qed.
Lemma pv_dom h l : is_Some (pv h l) <-> is_Some (h !! l).
Proof. unfold pv. by rewrite fmap_is_Some. Qed.

Lemma same_hash_dom h h' l : same_hash h h' -> is_Some (h !! l) <-> is_Some (h' !! l).
Proof. intros H. destruct (H l) as [E _]. rewrite <-!hn_dom. by rewrite E. Qed.

(** The effect of a store of a RESIDUE pointer. *)
Lemma store_prnext h l v : is_Some (h !! l) ->
  exists h', store h l (set_prnext v) = Some h' /\ same_hash h h' /\
    (forall k, nx h' k = if decide (k = l) then Some v else nx h k) /\
    (forall k, pv h' k = pv h k).
Proof.
  intros [n Hn]. eexists. split; [by apply store_Some|].
  unfold same_hash, hn, nx, pv, ts.
  split; [|split]; intros k; rewrite lookup_insert; case_decide as E; subst;
    rewrite ?decide_True, ?Hn by done; cbn; auto.
  by rewrite decide_False by congruence.
Qed.

Lemma store_prprev h l v : is_Some (h !! l) ->
  exists h', store h l (set_prprev v) = Some h' /\ same_hash h h' /\
    (forall k, pv h' k = if decide (k = l) then Some v else pv h k) /\
    (forall k, nx h' k = nx h k).
Proof.
  intros [n Hn]. eexists. split; [by apply store_Some|].
  unfold same_hash, hn, nx, pv, ts.
  split; [|split]; intros k; rewrite lookup_insert; case_decide as E; subst;
    rewrite ?decide_True, ?Hn by done; cbn; auto.
  by rewrite decide_False by congruence.
Qed.

(** ** Hash chains *)

Lemma chain_ext h h' p b :
  (forall l, l ∈ b -> hn h' l = hn h l) -> chain h p b -> chain h' p b.
Proof.
  revert p. induction b as [|l b IH]; cbn; intros p Hf; [done|].
  intros (-> & q & Hq & Hc). split; [done|]. exists q. split.
  - rewrite Hf by set_solver. done.
  - apply IH; [|done]. intros k Hk. apply Hf. set_solver.
Qed.

Lemma chain_same h h' p b : same_hash h h' -> chain h p b -> chain h' p b.
Proof. intros H. apply chain_ext. intros l _. apply H. Qed.

Lemma chain_dom h p b l : chain h p b -> l ∈ b -> is_Some (h !! l).
Proof.
  revert p. induction b as [|x b IH]; cbn; intros p; [set_solver|].
  intros (-> & q & Hq & Hc) [->|Hin]%elem_of_cons; [|by eapply IH].
  apply hn_dom. eauto.
Qed.

(** A chain cut before its entry [x]. *)
Fixpoint chain_to (h : pheap) (p : option loc) (b : list loc) (q : option loc) : Prop :=
  match b with
  | [] => p = q
  | l :: b' => p = Some l /\ exists r, hn h l = Some r /\ chain_to h r b' q
  end.

Lemma chain_split h p b1 b2 :
  chain h p (b1 ++ b2) <-> exists q, chain_to h p b1 q /\ chain h q b2.
Proof.
  revert p. induction b1 as [|x b1 IH]; intros p; cbn.
  - split; [eauto|]. by intros (q & -> & ?).
  - split.
    + intros (-> & r & Hr & [q [Hc1 Hc2]]%IH). exists q. eauto.
    + intros (q & (-> & r & Hr & Hc1) & Hc2). split; [done|].
      exists r. split; [done|]. apply IH. eauto.
Qed.

Lemma chain_to_snoc h p b x q :
  chain_to h p (b ++ [x]) q <-> chain_to h p b (Some x) /\ hn h x = Some q.
Proof.
  revert p. induction b as [|y b IH]; intros p; cbn.
  - split; [intros (-> & r & Hr & ->) | intros (-> & Hr)]; eauto.
  - split.
    + intros (-> & r & Hr & [Hc Hx]%IH). eauto 6.
    + intros ((-> & r & Hr & Hc) & Hx). split; [done|]. exists r.
      split; [done|]. by apply IH.
Qed.

Lemma chain_to_ext h h' p b q :
  (forall l, l ∈ b -> hn h' l = hn h l) -> chain_to h p b q -> chain_to h' p b q.
Proof.
  revert p. induction b as [|l b IH]; cbn; intros p Hf; [done|].
  intros (-> & r & Hr & Hc). split; [done|]. exists r. split.
  - rewrite Hf by set_solver. done.
  - apply IH; [|done]. intros k Hk. apply Hf. set_solver.
Qed.

(** Redirecting the last cell of a non-empty chain. *)
Lemma chain_to_redirect h h' p x b q r :
  NoDup (x :: b) -> chain_to h p (x :: b) q ->
  (forall k, k ∈ x :: b -> hn h' k = if decide (k = default x (last b)) then Some r else hn h k) ->
  chain_to h' p (x :: b) r.
Proof.
  intros ND Hc Hh. assert (E : exists c, x :: b = c ++ [default x (last b)]).
  { destruct b as [|z c _] using rev_ind; [by exists []|]. exists (x :: c). by rewrite last_snoc. }
  destruct E as [c E]. set (z := default x (last b)) in *. rewrite E in *.
  apply chain_to_snoc in Hc as [Hc Hz]. apply chain_to_snoc. split.
  - eapply chain_to_ext; [|exact Hc]. intros k Hk.
    rewrite NoDup_app in ND. rewrite Hh by set_solver. by rewrite decide_False by set_solver.
  - rewrite Hh by set_solver. by rewrite decide_True.
Qed.

(** ** The RESIDUE list *)

Lemma linked_ext h h' a rs b :
  (forall k, k ∈ a :: rs -> nx h' k = nx h k) ->
  (forall k, k ∈ rs ++ [b] -> pv h' k = pv h k) ->
  linked h a rs b -> linked h' a rs b.
Proof.
  revert a. induction rs as [|x rs IH]; intros a Hn Hp; cbn [linked].
  - intros [H1 H2]. rewrite Hn, Hp by set_solver. done.
  - intros (H1 & H2 & H3). rewrite Hn, Hp by set_solver. split; [done|].
    split; [done|]. apply IH; [set_solver | set_solver | done].
Qed.

Lemma linked_split h a rs1 x rs2 b :
  linked h a (rs1 ++ x :: rs2) b <-> linked h a rs1 x /\ linked h x rs2 b.
Proof.
  revert a. induction rs1 as [|y rs1 IH]; intros a; cbn [linked app]; [tauto|].
  rewrite IH. tauto.
Qed.

(** The cell before the end of a list, and the one after its start. *)
Definition lastof (a : loc) (rs : list loc) : loc := default a (last rs).
Definition headof (rs : list loc) (b : loc) : loc := default b (head rs).

Lemma linked_last h a rs b :
  linked h a rs b -> pv h b = Some (Some (lastof a rs)) /\ nx h (lastof a rs) = Some (Some b).
Proof.
  destruct rs as [|y rs _] using rev_ind; cbn [linked].
  - intros [H1 H2]. done.
  - unfold lastof. rewrite last_snoc. cbn. rewrite linked_split. cbn [linked]. tauto.
Qed.

Lemma linked_head h a rs b :
  linked h a rs b -> nx h a = Some (Some (headof rs b)) /\ pv h (headof rs b) = Some (Some a).
Proof. destruct rs as [|y rs]; cbn; tauto. Qed.

Lemma lastof_in a rs : lastof a rs ∈ a :: rs.
Proof.
  unfold lastof. destruct rs as [|y rs _] using rev_ind; [set_solver|].
  rewrite last_snoc. set_solver.
Qed.

Lemma headof_in rs b : headof rs b ∈ rs ++ [b].
Proof. unfold headof. destruct rs; cbn; set_solver. Qed.

(** Redirecting the two pointers around [x] takes [x] out of the list. *)
Lemma linked_unchain h h' a rs1 x rs2 b :
  NoDup (a :: rs1 ++ [x]) -> NoDup (x :: rs2 ++ [b]) -> (forall k, k ∈ rs1 -> k ∉ rs2 ++ [b]) ->
  (forall k, k ∈ rs2 -> k ∉ a :: rs1) ->
  linked h a rs1 x -> linked h x rs2 b ->
  (forall k, nx h' k = if decide (k = lastof a rs1) then Some (Some (headof rs2 b)) else nx h k) ->
  (forall k, pv h' k = if decide (k = headof rs2 b) then Some (Some (lastof a rs1)) else pv h k) ->
  linked h' a (rs1 ++ rs2) b.
Proof.
  intros ND1 ND2 D1 D2 L1 L2 Hn Hp.
  assert (P1 : rs1 = [] /\ lastof a rs1 = a \/
               exists r p, rs1 = r ++ [p] /\ lastof a rs1 = p /\ linked h' a r p).
  { destruct rs1 as [|p r _] using rev_ind; [left; done|]. right. exists r, p.
    unfold lastof in *. rewrite last_snoc in *. cbn in *. split; [done|]. split; [done|].
    apply linked_split in L1 as [L1 _]. eapply linked_ext; [| |exact L1].
    - intros k Hk. rewrite Hn, decide_False; [done|]. intros ->.
      rewrite NoDup_cons, NoDup_app, NoDup_app in ND1. set_solver.
    - intros k Hk. rewrite Hp, decide_False; [done|]. intros ->.
      pose proof (headof_in rs2 b). set_solver. }
  assert (P2 : rs2 = [] /\ headof rs2 b = b \/
               exists s r, rs2 = s :: r /\ headof rs2 b = s /\ linked h' s r b).
  { destruct rs2 as [|s r]; [left; done|]. right. exists s, r.
    split; [done|]. split; [done|]. cbn in L2. destruct L2 as (_ & _ & L2).
    eapply linked_ext; [| |exact L2].
    - intros k Hk. rewrite Hn, decide_False; [done|]. intros ->.
      pose proof (lastof_in a rs1). set_solver.
    - intros k Hk. rewrite Hp, decide_False; [done|]. intros ->. cbn in Hk.
      rewrite NoDup_cons in ND2. destruct ND2 as [_ ND2]. cbn in ND2.
      rewrite NoDup_cons in ND2. set_solver. }
  pose proof (Hn (lastof a rs1)) as HN. rewrite decide_True in HN by done.
  pose proof (Hp (headof rs2 b)) as HP. rewrite decide_True in HP by done.
  destruct P1 as [[-> E1]|(r & p & -> & E1 & L1')], P2 as [[-> E2]|(s & q & -> & E2 & L2')];
    rewrite E1, E2 in *; cbn [app]; rewrite ?app_nil_r; cbn [linked]; try tauto.
  - apply linked_split. cbn [linked]. tauto.
  - rewrite <-app_assoc. apply linked_split. cbn [linked app]. tauto.
Qed.
