(* ===== verification/PdbFacts.v ===== *)
(** * The process database as an abstract collection

    [hash_ok s bs]: bucket [i] of the database is the list [bs !! i] of cells,
    every cell sits in the bucket of its PID, and the heap holds these cells
    and the anchor only. [res_ok h bs rs]: the RESIDUE list is [rs]. Each
    operation of procdbase.c is related to an operation on [bs] and [rs]. *)
From S2P Require Import Prelude Tstat Procdbase PdbHeap.

Abbreviation cells bs := (mjoin (M := list) (A := loc) bs).

Definition cell_pid (h : pheap) (l : loc) : option Z :=
  (fun t => t.(tstat.gen).(tgen.pid)) <$> ts h l.

Record hash_ok (s : pdb.pdb) (bs : list (list loc)) : Prop := {
  hash_len : length s.(pdb.phash) = NPHASH;
  hash_blen : length bs = NPHASH;
  hash_chain : forall i p b, s.(pdb.phash) !! i = Some p -> bs !! i = Some b ->
    chain s.(pdb.heap) p b;
  hash_nodup : forall i b, bs !! i = Some b -> NoDup b;
  hash_home : forall i b l, bs !! i = Some b -> l ∈ b ->
    exists pid, cell_pid s.(pdb.heap) l = Some pid /\ hashq pid = i;
  hash_dom : forall l, is_Some (s.(pdb.heap) !! l) <-> l = presidue \/ l ∈ cells bs;
  hash_anchor : presidue ∉ cells bs
}.

Record res_ok (h : pheap) (bs : list (list loc)) (rs : list loc) : Prop := {
  res_nodup : NoDup rs;
  res_cells : forall l, l ∈ rs -> l ∈ cells bs;
  res_ring : ring h rs;
  res_out : forall l, l ∈ cells bs -> l ∉ rs -> nx h l = Some None /\ pv h l = Some None
}.

(** The value of a test of the cell at [l]. *)
Definition cell_test (h : pheap) (P : pinfo.pinfo -> bool) (l : loc) : bool :=
  match h !! l with Some n => P n | None => false end.

Lemma cell_test_at h P l n : h !! l = Some n -> cell_test h P l = P n.
Proof. unfold cell_test. by intros ->. Qed.

(** The bucket of a PID. *)
Definition bucket (bs : list (list loc)) (pid : Z) : list loc := default [] (bs !! hashq pid).

(** The residue without one cell. *)
Definition remove_cell (l : loc) (rs : list loc) : list loc := filter (fun k => k ≠ l) rs.

(** ** Generic facts *)

Lemma hashq_lt pid : (hashq pid < NPHASH)%nat.
Proof.
  unfold hashq, NPHASH. change (Z.of_nat 256 - 1) with (Z.ones 8).
  rewrite Z.land_ones by lia. pose proof (Z.mod_pos_bound pid (2 ^ 8)). lia.
Qed.

Lemma in_cells bs l : l ∈ cells bs <-> exists i b, bs !! i = Some b /\ l ∈ b.
Proof.
  rewrite list_elem_of_join. split.
  - intros (b & Hl & [i Hi]%list_elem_of_lookup). eauto.
  - intros (i & b & Hi & Hl). exists b. split; [done|]. by eapply list_elem_of_lookup_2.
Qed.

Lemma in_bucket_cells bs i b l : bs !! i = Some b -> l ∈ b -> l ∈ cells bs.
Proof. intros. apply in_cells. eauto. Qed.

Lemma nodup_size h (b : list loc) :
  NoDup b -> (forall l, l ∈ b -> is_Some (h !! l)) -> (length b <= size (h : pheap))%nat.
Proof.
  intros ND Hd. rewrite <-size_dom, <-(size_list_to_set (C := gset loc)) by done.
  apply subseteq_size. intros l. rewrite elem_of_list_to_set, elem_of_dom. apply Hd.
Qed.

Lemma chain_fuel h p b : chain h p b -> NoDup b -> (length b < S (size h))%nat.
Proof. intros Hc ND. apply Nat.lt_succ_r, nodup_size; [done|]. intros l. by apply chain_dom with p. Qed.

Lemma hn_lookup h l q : hn h l = Some q -> exists n, h !! l = Some n /\ n.(pinfo.phnext) = q.
Proof. unfold hn. destruct (h !! l); cbn; intros; simplify_eq; eauto. Qed.
Lemma nx_lookup h l q : nx h l = Some q -> exists n, h !! l = Some n /\ n.(pinfo.prnext) = q.
Proof. unfold nx. destruct (h !! l); cbn; intros; simplify_eq; eauto. Qed.
Lemma lookup_nx h l n : h !! l = Some n -> nx h l = Some n.(pinfo.prnext).
Proof. unfold nx. by intros ->. Qed.
Lemma lookup_pv h l n : h !! l = Some n -> pv h l = Some n.(pinfo.prprev).
Proof. unfold pv. by intros ->. Qed.
Lemma lookup_hn h l n : h !! l = Some n -> hn h l = Some n.(pinfo.phnext).
Proof. unfold hn. by intros ->. Qed.

(** The bucket that a pointer of the database heads. *)
Lemma hash_bucket s bs pid : hash_ok s bs ->
  exists p b, s.(pdb.phash) !! hashq pid = Some p /\ bs !! hashq pid = Some b /\
    bucket bs pid = b /\ chain s.(pdb.heap) p b /\ NoDup b.
Proof.
  intros H. pose proof (hashq_lt pid).
  destruct (lookup_lt_is_Some_2 s.(pdb.phash) (hashq pid)) as [p Hp];
    [rewrite (hash_len _ _ H); lia|].
  destruct (lookup_lt_is_Some_2 bs (hashq pid)) as [b Hb]; [rewrite (hash_blen _ _ H); lia|].
  exists p, b. unfold bucket. rewrite Hb. split_and!; try done.
  - by eapply hash_chain.
  - by eapply hash_nodup.
Qed.

Lemma same_hash_pid h h' l : same_hash h h' -> cell_pid h' l = cell_pid h l.
Proof. intros H. unfold cell_pid. by rewrite (proj2 (H l)). Qed.

(** The hash part of the invariant does not depend on the RESIDUE pointers. *)
Lemma hash_ok_same q h h' bs :
  same_hash h h' -> hash_ok (pdb.mk q h) bs -> hash_ok (pdb.mk q h') bs.
Proof.
  intros S [H1 H2 H3 H4 H5 H6 H7]. split; cbn in *; auto.
  - intros i p b Hp Hb. eapply chain_same; eauto.
  - intros i b l Hb Hl. rewrite (same_hash_pid h h') by done. eauto.
  - intros l. rewrite <-H6. symmetry. by apply same_hash_dom.
Qed.

Lemma gettask_match_same h h' l pid isproc btime :
  same_hash h h' ->
  cell_test h' (gettask_match pid isproc btime) l = cell_test h (gettask_match pid isproc btime) l.
Proof.
  intros H. destruct (H l) as [_ E]. unfold cell_test, ts in *.
  destruct (h !! l) as [n|], (h' !! l) as [n'|]; cbn in E; try done.
  injection E as E. unfold gettask_match, pinfo_pid, pinfo_isproc, pinfo_btime. by rewrite E.
Qed.

(** ** Taking a cell out of the RESIDUE list *)

Lemma ring_mid h bs rs1 x rs2 :
  presidue ∉ cells bs -> res_ok h bs (rs1 ++ x :: rs2) ->
  let p := lastof presidue rs1 in let s := headof rs2 presidue in
  nx h x = Some (Some s) /\ pv h x = Some (Some p) /\ p ≠ x /\ s ≠ x /\
  is_Some (h !! p) /\ is_Some (h !! s) /\
  (forall h', (forall k, nx h' k = if decide (k = p) then Some (Some s) else nx h k) ->
    (forall k, pv h' k = if decide (k = s) then Some (Some p) else pv h k) ->
    ring h' (rs1 ++ rs2)).
Proof.
  intros HA [ND HC HR _] p s.
  assert (ND' : NoDup (presidue :: rs1 ++ x :: rs2)) by (apply NoDup_cons; set_solver).
  unfold ring in HR. apply linked_split in HR as [L1 L2].
  pose proof (linked_head _ _ _ _ L2) as [N1 N2].
  pose proof (linked_last _ _ _ _ L1) as [M1 M2].
  rewrite NoDup_cons, NoDup_app, NoDup_cons in ND'.
  pose proof (lastof_in presidue rs1). pose proof (headof_in rs2 presidue).
  split; [done|]. split; [done|]. split; [set_solver|]. split; [set_solver|].
  split; [apply nx_dom; eauto|]. split; [apply pv_dom; eauto|].
  intros h' Hn Hp. eapply linked_unchain; [..|exact L1|exact L2|exact Hn|exact Hp].
  - rewrite NoDup_cons, NoDup_app. split; [set_solver|]. split; [tauto|].
    split; [set_solver|]. apply NoDup_singleton.
  - rewrite NoDup_cons, NoDup_app. split; [set_solver|]. split; [tauto|].
    split; [set_solver|]. apply NoDup_singleton.
  - set_solver.
  - set_solver.
Qed.

(** Both orders of the two stores give the same pointers. *)
Lemma unchain_in h bs rs1 x rs2 :
  presidue ∉ cells bs -> res_ok h bs (rs1 ++ x :: rs2) ->
  (exists h', unchain_next_prev h x = Some h' /\ same_hash h h' /\ ring h' (rs1 ++ rs2) /\
    forall k, k ∉ presidue :: rs1 ++ rs2 -> nx h' k = nx h k /\ pv h' k = pv h k) /\
  (exists h', unchain_prev_next h x = Some h' /\ same_hash h h' /\ ring h' (rs1 ++ rs2) /\
    forall k, k ∉ presidue :: rs1 ++ rs2 -> nx h' k = nx h k /\ pv h' k = pv h k).
Proof.
  intros HA HR. destruct (ring_mid h bs rs1 x rs2 HA HR) as (Hn & Hp & Npx & Nsx & Dp & Ds & Hring).
  set (p := lastof presidue rs1) in *. set (s := headof rs2 presidue) in *.
  assert (Hpin : p ∈ presidue :: rs1 ++ rs2) by (pose proof (lastof_in presidue rs1); set_solver).
  assert (Hsin : s ∈ presidue :: rs1 ++ rs2) by (pose proof (headof_in rs2 presidue); set_solver).
  destruct (nx_lookup _ _ _ Hn) as (n & Hln & En).
  pose proof (lookup_pv _ _ _ Hln) as En'. rewrite Hp in En'. injection En' as En'.
  split.
  - unfold unchain_next_prev. rewrite Hln. cbn. rewrite En, <-En'.
    destruct (store_prprev h s (Some p) Ds) as (h1 & -> & S1 & P1 & X1). cbn.
    destruct (nx_lookup h1 x (Some s)) as (n1 & Hln1 & E1); [by rewrite X1|].
    pose proof (lookup_pv _ _ _ Hln1) as E1'. rewrite P1, decide_False, Hp in E1' by done.
    rewrite Hln1. cbn. injection E1' as <-. cbn. rewrite E1.
    destruct (store_prnext h1 p (Some s)) as (h2 & -> & S2 & N2 & X2);
      [by apply (same_hash_dom h h1 p S1)|].
    exists h2. split; [done|]. split; [by etrans|]. split.
    + apply Hring; intros k; rewrite ?N2, ?X2, ?X1, ?P1; by case_decide.
    + intros k Hk. rewrite N2, X2, X1, P1. by rewrite !decide_False by set_solver.
  - unfold unchain_prev_next. rewrite Hln. cbn. rewrite En, <-En'. cbn.
    destruct (store_prnext h p (Some s) Dp) as (h1 & -> & S1 & N1 & X1). cbn.
    destruct (nx_lookup h1 x (Some s)) as (n1 & Hln1 & E1); [by rewrite N1, decide_False|].
    pose proof (lookup_pv _ _ _ Hln1) as E1'. rewrite X1, Hp in E1'.
    rewrite Hln1. cbn. injection E1' as E1'. rewrite E1. cbn. rewrite <-E1'.
    destruct (store_prprev h1 s (Some p)) as (h2 & -> & S2 & P2 & X2);
      [by apply (same_hash_dom h h1 s S1)|].
    exists h2. split; [done|]. split; [by etrans|]. split.
    + apply Hring; intros k; rewrite ?P2, ?X2, ?N1, ?X1; by case_decide.
    + intros k Hk. rewrite P2, X2, X1, N1. by rewrite !decide_False by set_solver.
Qed.

Lemma unchain_out h x : nx h x = Some None ->
  unchain_next_prev h x = Some h /\ unchain_prev_next h x = Some h.
Proof.
  intros H. destruct (nx_lookup _ _ _ H) as (n & Hn & E).
  unfold unchain_next_prev, unchain_prev_next. rewrite Hn. cbn. by rewrite E.
Qed.

Lemma remove_cell_app rs1 x rs2 :
  NoDup (rs1 ++ x :: rs2) -> remove_cell x (rs1 ++ x :: rs2) = rs1 ++ rs2.
Proof.
  unfold remove_cell. rewrite NoDup_app, NoDup_cons. intros (_ & D & N & _).
  rewrite filter_app, filter_cons_False by tauto. f_equal.
  - apply filter_id. intros y Hy ->. set_solver.
  - apply filter_id. by intros y Hy ->.
Qed.

Lemma remove_cell_notin x rs : x ∉ rs -> remove_cell x rs = rs.
Proof. intros H. apply filter_id. by intros y Hy ->. Qed.

(** Taking [x] out, whether or not it is in the RESIDUE list: [x] itself keeps
    its pointers. *)
Lemma unchain_spec h bs rs x :
  presidue ∉ cells bs -> x ∈ cells bs -> res_ok h bs rs ->
  (exists h', unchain_next_prev h x = Some h' /\ same_hash h h' /\
    ring h' (remove_cell x rs) /\
    forall k, k ∈ cells bs -> k ∉ remove_cell x rs -> nx h' k = nx h k /\ pv h' k = pv h k) /\
  (exists h', unchain_prev_next h x = Some h' /\ same_hash h h' /\
    ring h' (remove_cell x rs) /\
    forall k, k ∈ cells bs -> k ∉ remove_cell x rs -> nx h' k = nx h k /\ pv h' k = pv h k).
Proof.
  intros HA Hx HR. destruct (decide (x ∈ rs)) as [Hin|Hin].
  - apply list_elem_of_split in Hin as (rs1 & rs2 & ->).
    rewrite remove_cell_app by apply HR.
    destruct (unchain_in h bs rs1 x rs2 HA HR) as [(h1 & E1 & S1 & R1 & F1) (h2 & E2 & S2 & R2 & F2)].
    split; [exists h1 | exists h2]; split_and!; try done; intros k Hk Hk';
      [apply F1 | apply F2]; rewrite not_elem_of_cons; split; try done; intros ->; done.
  - rewrite remove_cell_notin by done.
    destruct (res_out _ _ _ HR x Hx Hin) as [Hn _].
    destruct (unchain_out h x Hn) as [-> ->].
    split; exists h; split_and!; try done; apply HR.
Qed.
