(* ===== verification/PdbOps.v ===== *)
(** * Refinement of the database operations

    Each operation of procdbase.c, run on a heap that represents the buckets
    [bs] and the RESIDUE list [rs], returns without a memory fault and leaves
    a heap that represents the buckets and RESIDUE list of the abstract
    operation. *)
From S2P Require Import Prelude Tstat Procdbase PdbHeap PdbFacts.

(** ** pdb_gettask *)

Lemma gettask_scan_spec h pid isproc btime b : forall p fuel,
  chain h p b -> (length b < fuel)%nat ->
  gettask_scan fuel h p pid isproc btime =
    Some (List.find (cell_test h (gettask_match pid isproc btime)) b).
Proof.
  induction b as [|l b IH]; intros p fuel Hc Hf; destruct fuel as [|f]; cbn in Hf |- *; [lia| |lia|].
  - by rewrite Hc.
  - destruct Hc as (-> & q & Hq & Hc). destruct (hn_lookup _ _ _ Hq) as (n & Hn & <-).
    unfold cell_test. rewrite Hn. cbn. case_match; [done|]. apply IH; [done | lia].
Qed.

Lemma find_in {A} (P : A -> bool) (l : list A) x : List.find P l = Some x -> x ∈ l /\ P x = true.
Proof. intros H. apply List.find_some in H. by rewrite list_elem_of_In. Qed.

(** Clearing both RESIDUE pointers of a cell outside the list. *)
Lemma clear_res h bs rs x h1 h2 :
  x ∈ cells bs ->
  presidue ∉ cells bs ->
  res_ok h bs rs -> ring h1 (remove_cell x rs) ->
  (forall k, k ∈ cells bs -> k ∉ remove_cell x rs -> nx h1 k = nx h k /\ pv h1 k = pv h k) ->
  (forall k, nx h2 k = if decide (k = x) then Some None else nx h1 k) ->
  (forall k, pv h2 k = if decide (k = x) then Some None else pv h1 k) ->
  res_ok h2 bs (remove_cell x rs).
Proof.
  intros Hx HA HR R F N P.
  assert (Hxr : x ∉ remove_cell x rs).
  { unfold remove_cell. rewrite list_elem_of_filter. tauto. }
  split.
  - apply NoDup_filter, HR.
  - intros l. unfold remove_cell. rewrite list_elem_of_filter. intros [_ Hl].
    by eapply res_cells.
  - eapply linked_ext; [..|exact R]; intros k Hk; rewrite ?N, ?P, decide_False; try done;
      intros ->; set_solver.
  - intros k Hk Hkr. rewrite N, P. case_decide as E; [done|].
    destruct (F k Hk Hkr) as [-> ->]. apply (res_out _ _ _ HR); [done|].
    intros Hin. apply Hkr. unfold remove_cell. by rewrite list_elem_of_filter.
Qed.

Lemma gettask_refines s bs rs pid isproc btime :
  hash_ok s bs -> res_ok s.(pdb.heap) bs rs ->
  let r := List.find (cell_test s.(pdb.heap) (gettask_match pid isproc btime)) (bucket bs pid) in
  exists s', pdb_gettask s pid isproc btime = Some (r, s') /\
    s'.(pdb.phash) = s.(pdb.phash) /\ same_hash s.(pdb.heap) s'.(pdb.heap) /\
    hash_ok s' bs /\
    res_ok s'.(pdb.heap) bs (match r with Some l => remove_cell l rs | None => rs end).
Proof.
  intros HH HR. cbn zeta. destruct (hash_bucket s bs pid HH) as (p & b & Hp & Hb & -> & Hc & ND).
  unfold pdb_gettask. rewrite Hp. mstep.
  rewrite (gettask_scan_spec _ _ _ _ b) by (done || by eapply chain_fuel). mstep.
  destruct (List.find _ b) as [x|] eqn:Hf; [|by exists s].
  apply find_in in Hf as [Hx _].
  assert (Hxc : x ∈ cells bs) by by eapply in_bucket_cells.
  pose proof (hash_anchor _ _ HH) as HA.
  destruct (unchain_spec _ bs rs x HA Hxc HR) as [(h1 & -> & S1 & R1 & F1) _]. cbn.
  assert (Dx : is_Some (h1 !! x)).
  { apply (same_hash_dom _ _ _ S1). by eapply chain_dom. }
  destruct (store_prnext h1 x None Dx) as (h2 & -> & S2 & N2 & P2). cbn.
  destruct (store_prprev h2 x None) as (h3 & -> & S3 & P3 & N3);
    [by apply (same_hash_dom _ _ _ S2)|]. cbn.
  assert (S : same_hash s.(pdb.heap) h3) by (etrans; [exact S1|]; by etrans).
  eexists. split; [done|]. cbn. split; [done|]. split; [done|]. split.
  - destruct s. by eapply hash_ok_same.
  - eapply (clear_res s.(pdb.heap) bs rs x h1); try done.
    + intros k. by rewrite N3, N2.
    + intros k. by rewrite P3, P2.
Qed.

(** ** pdb_addtask *)

Lemma cells_insert bs i b b' l :
  bs !! i = Some b -> (l ∈ cells (<[i := b']> bs) <-> l ∈ b' \/ exists j c, j ≠ i /\ bs !! j = Some c /\ l ∈ c).
Proof.
  intros Hi. assert (i < length bs)%nat by (by eapply lookup_lt_Some). rewrite in_cells. split.
  - intros (j & c & Hj & Hl). destruct (decide (j = i)) as [->|Hne].
    + rewrite list_lookup_insert_eq in Hj by done. injection Hj as <-. by left.
    + rewrite list_lookup_insert_ne in Hj by done. right. eauto.
  - intros [Hl|(j & c & Hne & Hj & Hl)].
    + exists i, b'. by rewrite list_lookup_insert_eq.
    + exists j, c. by rewrite list_lookup_insert_ne.
Qed.

(** The cells of a database are spread over the buckets: a cell of bucket [i]
    is in no other bucket. *)
Lemma home_unique s bs i j b c l :
  hash_ok s bs -> bs !! i = Some b -> bs !! j = Some c -> l ∈ b -> l ∈ c -> i = j.
Proof.
  intros HH Hi Hj Hb Hc.
  destruct (hash_home _ _ HH i b l Hi Hb) as (p & E & <-).
  destruct (hash_home _ _ HH j c l Hj Hc) as (p' & E' & <-). congruence.
Qed.

(** Replacing one bucket: the other buckets keep their chains and samples. *)
Lemma hash_ok_bucket s bs i b b' p' h' :
  hash_ok s bs -> bs !! i = Some b ->
  chain h' p' b' -> NoDup b' -> presidue ∉ b' ->
  (forall l, l ∈ b' -> exists pid, cell_pid h' l = Some pid /\ hashq pid = i) ->
  (forall j c k, j ≠ i -> bs !! j = Some c -> k ∈ c ->
     hn h' k = hn s.(pdb.heap) k /\ ts h' k = ts s.(pdb.heap) k) ->
  (forall k, is_Some (h' !! k) <-> k = presidue \/ k ∈ cells (<[i := b']> bs)) ->
  hash_ok (pdb.mk (<[i := p']> s.(pdb.phash)) h') (<[i := b']> bs).
Proof.
  intros HH Hb Hc ND HA Hhome Hext Hdom.
  assert (Hi : (i < length bs)%nat) by (by eapply lookup_lt_Some).
  assert (Hi' : (i < length s.(pdb.phash))%nat).
  { rewrite (hash_len _ _ HH), <-(hash_blen _ _ HH). done. }
  split; cbn.
  - rewrite length_insert. apply HH.
  - rewrite length_insert. apply HH.
  - intros j q c Hq Hj. destruct (decide (j = i)) as [->|Hne].
    + rewrite list_lookup_insert_eq in Hq by done.
      rewrite list_lookup_insert_eq in Hj by done. by simplify_eq.
    + rewrite list_lookup_insert_ne in Hq by done.
      rewrite list_lookup_insert_ne in Hj by done.
      eapply chain_ext; [|by eapply hash_chain]. intros k Hk. by eapply Hext.
  - intros j c Hj. destruct (decide (j = i)) as [->|Hne].
    + rewrite list_lookup_insert_eq in Hj by done. by simplify_eq.
    + rewrite list_lookup_insert_ne in Hj by done. by eapply hash_nodup.
  - intros j c k Hj Hk. destruct (decide (j = i)) as [->|Hne].
    + rewrite list_lookup_insert_eq in Hj by done. simplify_eq. by apply Hhome.
    + rewrite list_lookup_insert_ne in Hj by done. unfold cell_pid.
      destruct (Hext j c k Hne Hj Hk) as [_ ->]. by eapply hash_home.
  - done.
  - rewrite (cells_insert _ _ b) by done. intros [?|(j & c & Hne & Hj & Hk)]; [done|].
    apply (hash_anchor _ _ HH). by eapply in_bucket_cells.
Qed.

(** A new cell at the head of its bucket. *)
Definition add_cell (bs : list (list loc)) (pid : Z) (l : loc) : list (list loc) :=
  <[hashq pid := l :: bucket bs pid]> bs.

Lemma add_cell_cells s bs pid l k :
  hash_ok s bs -> (k ∈ cells (add_cell bs pid l) <-> k = l \/ k ∈ cells bs).
Proof.
  intros HH. destruct (hash_bucket s bs pid HH) as (p & b & _ & Hb & E & _ & _).
  unfold add_cell. rewrite E, (cells_insert _ _ b), elem_of_cons, in_cells by done. split.
  - intros [[->|Hk]|(j & c & _ & Hj & Hk)]; eauto 6.
  - intros [->|(j & c & Hj & Hk)]; [auto|]. destruct (decide (j = hashq pid)) as [->|]; [|eauto 6].
    left. right. congruence.
Qed.

(** A cell outside the heap is neither the anchor nor in a bucket. *)
Lemma fresh_cell s bs l :
  hash_ok s bs -> s.(pdb.heap) !! l = None -> l ≠ presidue /\ l ∉ cells bs.
Proof.
  intros HH Hl. split.
  - intros ->. destruct (proj2 (hash_dom _ _ HH presidue)) as [? ?]; [by left | congruence].
  - intros Hin. destruct (proj2 (hash_dom _ _ HH l)) as [? ?]; [by right | congruence].
Qed.

Section addtask.
Context (s : pdb.pdb) (bs : list (list loc)) (rs : list loc) (l : loc) (t : tstat.tstat).
Context (HH : hash_ok s bs) (HR : res_ok s.(pdb.heap) bs rs).
Context (Hfresh : s.(pdb.heap) !! l = None).
Let pid := t.(tstat.gen).(tgen.pid).

Lemma addtask_lookup p k :
  k ≠ l -> (<[l := pinfo.mk p None None t]> s.(pdb.heap)) !! k = s.(pdb.heap) !! k.
Proof. intros H. by rewrite lookup_insert_ne. Qed.

Lemma addtask_hash p b :
  s.(pdb.phash) !! hashq pid = Some p -> bs !! hashq pid = Some b ->
  chain s.(pdb.heap) p b -> NoDup b ->
  hash_ok (pdb.mk (<[hashq pid := Some l]> s.(pdb.phash))
             (<[l := pinfo.mk p None None t]> s.(pdb.heap)))
          (<[hashq pid := l :: b]> bs).
Proof.
  intros Hp Hb Hc ND. destruct (fresh_cell s bs l HH Hfresh) as [Hpl Hlc].
  set (h' := <[l := _]> s.(pdb.heap)).
  assert (Hext : forall k, k ∈ cells bs -> hn h' k = hn s.(pdb.heap) k /\ ts h' k = ts s.(pdb.heap) k).
  { intros k Hk. unfold hn, ts, h'. rewrite addtask_lookup; [done|]. by intros ->. }
  eapply hash_ok_bucket; try done.
  - cbn. split; [done|]. exists p. split; [unfold hn, h'; by rewrite lookup_insert_eq|].
    eapply chain_ext; [|exact Hc]. intros k Hk. apply Hext. by eapply in_bucket_cells.
  - constructor; [|done]. intros Hin. apply Hlc. by eapply in_bucket_cells.
  - intros [?|Hin]%elem_of_cons; [congruence|]. apply (hash_anchor _ _ HH). by eapply in_bucket_cells.
  - intros k [->|Hk]%elem_of_cons.
    + exists pid. split; [|done]. unfold cell_pid, ts, h'. by rewrite lookup_insert_eq.
    + unfold cell_pid. rewrite (proj2 (Hext k ltac:(by eapply in_bucket_cells))). by eapply hash_home.
  - intros j c k _ Hj Hk. apply Hext. by eapply in_bucket_cells.
  - intros k. assert (E : bucket bs pid = b) by (unfold bucket; by rewrite Hb).
    rewrite <-E. fold (add_cell bs pid l). rewrite (add_cell_cells s) by done.
    pose proof (hash_dom _ _ HH k). unfold h'. rewrite lookup_insert_is_Some.
    destruct (decide (l = k)) as [->|]; [tauto|].
    split; [intros [?|[_ ?]]; tauto | intros [?|[?|?]]; [|congruence|]; right; tauto].
Qed.

Lemma addtask_res p : res_ok (<[l := pinfo.mk p None None t]> s.(pdb.heap)) (add_cell bs pid l) rs.
Proof.
  destruct (fresh_cell s bs l HH Hfresh) as [Hpl Hlc]. split.
  - apply HR.
  - intros k Hk. rewrite (add_cell_cells s) by done. right. by eapply res_cells.
  - eapply linked_ext; [..|apply HR]; intros k Hk; unfold nx, pv; rewrite addtask_lookup; try done;
      intros ->; pose proof (res_cells _ _ _ HR l); set_solver.
  - intros k. rewrite (add_cell_cells s) by done. intros [->|Hk] Hkr.
    + unfold nx, pv. by rewrite lookup_insert_eq.
    + unfold nx, pv. rewrite addtask_lookup by (by intros ->). by apply (res_out _ _ _ HR).
Qed.

Lemma addtask_refines :
  let s1 := with_heap s (<[l := pinfo.mk None None None t]> s.(pdb.heap)) in
  exists s', pdb_addtask s1 pid l = Some s' /\
    hash_ok s' (add_cell bs pid l) /\ res_ok s'.(pdb.heap) (add_cell bs pid l) rs /\
    (forall k, ts s'.(pdb.heap) k = if decide (k = l) then Some t else ts s.(pdb.heap) k).
Proof.
  destruct (hash_bucket s bs pid HH) as (p & b & Hp & Hb & E & Hc & ND).
  unfold pdb_addtask. cbn. rewrite Hp. mstep.
  erewrite store_Some by apply lookup_insert_eq. mstep. rewrite insert_insert_eq.
  rewrite arr_set_Some by (by eapply lookup_lt_Some). mstep. eexists. split; [done|].
  unfold set_phnext. cbn. split; [|split].
  - unfold add_cell. rewrite E. by apply addtask_hash.
  - apply addtask_res.
  - intros k. unfold ts. rewrite lookup_insert.
    case_decide; subst; by rewrite ?decide_True, ?decide_False by congruence.
Qed.
End addtask.

(** ** pdb_deltask *)

Lemma deltask_scan_spec h pid isproc : forall b ppp pp fuel,
  chain h pp b -> (length b < fuel)%nat ->
  match List.find (cell_test h (deltask_match pid isproc)) b with
  | None => deltask_scan fuel h ppp pp pid isproc = Some (0, h)
  | Some l => exists b1 b2 n, b = b1 ++ l :: b2 /\ h !! l = Some n /\
      deltask_scan fuel h ppp pp pid isproc =
        (h1 ← store h (lastof ppp b1) (set_phnext n.(pinfo.phnext));
         h2 ← unchain_next_prev h1 l;
         Some (1, delete l h2))
  end.
Proof.
  induction b as [|x b IH]; intros ppp pp fuel Hc Hf; destruct fuel as [|f]; cbn in Hf |- *; [lia| |lia|].
  - by rewrite Hc.
  - destruct Hc as (-> & q & Hq & Hc). destruct (hn_lookup _ _ _ Hq) as (n & Hn & <-).
    unfold cell_test at 1. rewrite Hn. cbn. destruct (deltask_match pid isproc n).
    + exists [], b, n. split; [done|]. done.
    + specialize (IH x n.(pinfo.phnext) f Hc ltac:(lia)). case_match; [|done].
      destruct IH as (b1 & b2 & m & -> & Hm & E). exists (x :: b1), b2, m. split; [done|].
      split; [done|]. rewrite E. unfold lastof. rewrite last_cons. by destruct (last b1).
Qed.

Lemma store_phnext h l v : is_Some (h !! l) ->
  exists h', store h l (set_phnext v) = Some h' /\
    (forall k, hn h' k = if decide (k = l) then Some v else hn h k) /\
    (forall k, nx h' k = nx h k /\ pv h' k = pv h k /\ ts h' k = ts h k).
Proof.
  intros [n Hn]. eexists. split; [by apply store_Some|].
  unfold hn, nx, pv, ts. split; intros k; rewrite lookup_insert; case_decide as E; subst;
    rewrite ?decide_True, ?Hn by done; cbn; auto.
  by rewrite decide_False by congruence.
Qed.

Lemma ts_dom h l : is_Some (ts h l) <-> is_Some (h !! l).
Proof. unfold ts. by rewrite fmap_is_Some. Qed.

Lemma res_ok_ptr h h' bs rs :
  (forall k, nx h' k = nx h k /\ pv h' k = pv h k) -> res_ok h bs rs -> res_ok h' bs rs.
Proof.
  intros E [H1 H2 H3 H4]. split; try done.
  - eapply linked_ext; [..|exact H3]; intros k _; apply E.
  - intros l Hl Hlr. destruct (E l) as [-> ->]. auto.
Qed.

(** A bucket without its cell [l]. *)
Definition del_cell (bs : list (list loc)) (pid : Z) (l : loc) : list (list loc) :=
  <[hashq pid := remove_cell l (bucket bs pid)]> bs.

Lemma del_cell_cells s bs pid l k :
  hash_ok s bs -> l ∈ bucket bs pid -> (k ∈ cells (del_cell bs pid l) <-> k ≠ l /\ k ∈ cells bs).
Proof.
  intros HH Hl. destruct (hash_bucket s bs pid HH) as (p & b & _ & Hb & E & _ & _).
  rewrite E in Hl. unfold del_cell. rewrite E, (cells_insert _ _ b) by done.
  unfold remove_cell. rewrite list_elem_of_filter, in_cells. split.
  - intros [[Hne Hk]|(j & c & Hne & Hj & Hk)]; [eauto|]. split; [|eauto].
    intros ->. apply Hne. by eapply home_unique.
  - intros (Hne & j & c & Hj & Hk). destruct (decide (j = hashq pid)) as [->|]; [|eauto 6].
    left. split; [done|]. congruence.
Qed.

Section deltask.
Context (s : pdb.pdb) (bs : list (list loc)) (rs : list loc) (pid : Z).
Context (HH : hash_ok s bs) (HR : res_ok s.(pdb.heap) bs rs).
Context (b b1 b2 : list loc) (l : loc).
Context (Hb : bs !! hashq pid = Some b) (Eb : b = b1 ++ l :: b2).

Lemma del_bucket : remove_cell l (bucket bs pid) = b1 ++ b2.
Proof.
  unfold bucket. rewrite Hb. cbn. rewrite Eb. apply remove_cell_app. rewrite <-Eb.
  by eapply hash_nodup.
Qed.

Lemma del_in : l ∈ bucket bs pid.
Proof. unfold bucket. rewrite Hb. cbn. rewrite Eb. set_solver. Qed.

Lemma del_notin : l ∉ b1 ++ b2.
Proof. rewrite <-del_bucket. unfold remove_cell. rewrite list_elem_of_filter. tauto. Qed.

(** The cell [l] unlinked from its chain and from the RESIDUE list, then freed. *)
Lemma delete_cell_ok p' h2 :
  chain h2 p' (b1 ++ b2) ->
  (forall k, k ∉ b -> hn h2 k = hn s.(pdb.heap) k) ->
  (forall k, ts h2 k = ts s.(pdb.heap) k) ->
  ring h2 (remove_cell l rs) ->
  (forall k, k ∈ cells bs -> k ∉ remove_cell l rs ->
     nx h2 k = nx s.(pdb.heap) k /\ pv h2 k = pv s.(pdb.heap) k) ->
  hash_ok (pdb.mk (<[hashq pid := p']> s.(pdb.phash)) (delete l h2)) (del_cell bs pid l) /\
  res_ok (delete l h2) (del_cell bs pid l) (remove_cell l rs).
Proof.
  intros Hc Hhn Hts R F.
  assert (Hl : forall k, k ≠ l -> delete l h2 !! k = h2 !! k) by (intros k Hk; by rewrite lookup_delete_ne).
  pose proof del_notin as Hnot. pose proof del_in as Hin. pose proof del_bucket as EB.
  assert (Hsub : forall k, k ∈ b1 ++ b2 -> k ∈ b).
  { intros k. rewrite Eb, !elem_of_app, elem_of_cons. tauto. }
  assert (Hlb : l ∈ b) by (rewrite Eb, elem_of_app, elem_of_cons; tauto).
  assert (Hlc : l ∈ cells bs) by by eapply in_bucket_cells.
  assert (Hla : l ≠ presidue) by (intros ->; by apply (hash_anchor _ _ HH)).
  split.
  - unfold del_cell. rewrite EB. eapply hash_ok_bucket; try done.
    + eapply chain_ext; [|exact Hc]. intros k Hk. unfold hn. rewrite Hl; [done|]. by intros ->.
    + rewrite <-EB. apply NoDup_filter. unfold bucket. rewrite Hb. by eapply hash_nodup.
    + intros Hp. apply (hash_anchor _ _ HH). eapply in_bucket_cells; [exact Hb | by apply Hsub].
    + intros k Hk. destruct (hash_home _ _ HH _ _ k Hb) as (q & Hq & Eq); [by apply Hsub|].
      exists q. split; [|done]. unfold cell_pid, ts. rewrite Hl by (by intros ->).
      fold (ts h2 k). by rewrite Hts.
    + intros j c k Hne Hj Hk. assert (k ∉ b) by (intros Hkb; apply Hne; by eapply home_unique).
      unfold hn, ts. rewrite Hl by (by intros ->).
      split; [by apply Hhn | by apply Hts].
    + intros k. rewrite <-EB. fold (del_cell bs pid l). rewrite (del_cell_cells s) by done.
      rewrite lookup_delete_is_Some, <-ts_dom, Hts, ts_dom, (hash_dom _ _ HH).
      split; [intros (? & [?|?]); auto | intros [->|[? ?]]; auto].
  - split.
    + apply NoDup_filter, HR.
    + intros k. rewrite (del_cell_cells s) by done. unfold remove_cell.
      rewrite list_elem_of_filter. intros [? ?]. split; [done|]. by eapply res_cells.
    + eapply linked_ext; [..|exact R]; intros k Hk; unfold nx, pv; rewrite Hl; try done;
        intros ->; unfold remove_cell in Hk;
        rewrite ?elem_of_cons, ?elem_of_app, ?elem_of_cons, list_elem_of_filter, ?elem_of_nil in Hk;
        tauto.
    + intros k. rewrite (del_cell_cells s) by done. intros [Hne Hk] Hkr.
      unfold nx, pv. rewrite Hl by done. destruct (F k Hk Hkr) as [E1 E2].
      unfold nx, pv in E1, E2. rewrite E1, E2. apply (res_out _ _ _ HR); [done|].
      intros Hkin. apply Hkr. unfold remove_cell. by rewrite list_elem_of_filter.
Qed.

(** The samples of the remaining cells. *)
Lemma delete_ts (h2 : pheap) :
  (forall k, ts h2 k = ts s.(pdb.heap) k) ->
  forall k, ts (delete l h2) k = if decide (k = l) then None else ts s.(pdb.heap) k.
Proof.
  intros Hh k. rewrite <-Hh. unfold ts. rewrite lookup_delete.
  case_decide; subst; by rewrite ?decide_True, ?decide_False by congruence.
Qed.

Definition del_done (s' : pdb.pdb) : Prop :=
  hash_ok s' (del_cell bs pid l) /\
  res_ok s'.(pdb.heap) (del_cell bs pid l) (remove_cell l rs) /\
  (forall k, ts s'.(pdb.heap) k = if decide (k = l) then None else ts s.(pdb.heap) k).

(** The first entry of the bucket matches. *)
Lemma deltask_first n :
  b1 = [] -> s.(pdb.heap) !! l = Some n -> chain s.(pdb.heap) n.(pinfo.phnext) b2 ->
  exists h2, unchain_prev_next s.(pdb.heap) l = Some h2 /\
    del_done (pdb.mk (<[hashq pid := n.(pinfo.phnext)]> s.(pdb.phash)) (delete l h2)).
Proof.
  intros E1 Hn Hc. pose proof (hash_anchor _ _ HH) as HA.
  assert (Hx : l ∈ cells bs) by (eapply in_bucket_cells; [exact Hb | rewrite Eb, E1; set_solver]).
  destruct (unchain_spec _ bs rs l HA Hx HR) as [_ (h2 & -> & S2 & R2 & F2)].
  exists h2. split; [done|].
  destruct (delete_cell_ok n.(pinfo.phnext) h2) as [? ?]; try done.
  - rewrite E1. by eapply chain_same.
  - intros k _. apply S2.
  - intros k. apply S2.
  - split; [done|]. split; [done|]. apply delete_ts. intros k. apply S2.
Qed.

(** A later entry matches: [z] is the entry before it. *)
Lemma deltask_later x b0 n :
  b1 = x :: b0 -> s.(pdb.heap) !! l = Some n -> chain s.(pdb.heap) (Some x) b ->
  s.(pdb.phash) !! hashq pid = Some (Some x) ->
  exists h1 h2, store s.(pdb.heap) (lastof x b0) (set_phnext n.(pinfo.phnext)) = Some h1 /\
    unchain_next_prev h1 l = Some h2 /\ del_done (pdb.mk s.(pdb.phash) (delete l h2)).
Proof.
  intros E1 Hn Hc Hp. pose proof (hash_anchor _ _ HH) as HA. pose proof (hash_nodup _ _ HH _ _ Hb) as ND.
  assert (Hz : lastof x b0 ∈ b).
  { rewrite Eb, E1. rewrite elem_of_app. left. apply lastof_in. }
  assert (Hlb : l ∈ b) by (rewrite Eb, elem_of_app, elem_of_cons; tauto).
  assert (Hlc : l ∈ cells bs) by by eapply in_bucket_cells.
  destruct (store_phnext s.(pdb.heap) (lastof x b0) n.(pinfo.phnext)) as (h1 & E & N1 & P1).
  { eapply (hash_dom _ _ HH). right. by eapply in_bucket_cells. }
  assert (HR1 : res_ok h1 bs rs) by (eapply res_ok_ptr; [|done]; intros k; by destruct (P1 k) as (? & ? & ?)).
  destruct (unchain_spec h1 bs rs l HA Hlc HR1) as [(h2 & E2 & S2 & R2 & F2) _].
  exists h1, h2. split; [done|]. split; [done|].
  assert (Hts : forall k, ts h2 k = ts s.(pdb.heap) k) by (intros k; rewrite (proj2 (S2 k)); apply P1).
  rewrite <-(list_insert_id s.(pdb.phash) (hashq pid) (Some x)) by done.
  destruct (delete_cell_ok (Some x) h2) as [? ?]; try done.
  - rewrite Eb, E1 in Hc, ND. apply chain_split in Hc as (r & Hto & -> & q & Hq & Hc2).
    rewrite (lookup_hn _ _ _ Hn) in Hq. injection Hq as <-. rewrite NoDup_app in ND.
    rewrite E1. apply chain_split. exists n.(pinfo.phnext). split.
    + eapply chain_to_redirect; [apply ND | exact Hto |].
      intros k _. by rewrite (proj1 (S2 k)), N1.
    + eapply chain_ext; [|exact Hc2]. intros k Hk. rewrite (proj1 (S2 k)), N1, decide_False; [done|].
      intros ->. destruct ND as (_ & D & _). apply (D (lastof x b0)); [apply lastof_in | set_solver].
  - intros k Hk. rewrite (proj1 (S2 k)), N1, decide_False; [done|]. by intros ->.
  - intros k Hk Hkr. destruct (F2 k Hk Hkr) as [-> ->]. destruct (P1 k) as (? & ? & ?). done.
  - split; [done|]. split; [done|]. by apply delete_ts.
Qed.
End deltask.

(** The operation on a non-empty bucket. *)
Lemma deltask_refines s bs rs pid isproc :
  hash_ok s bs -> res_ok s.(pdb.heap) bs rs -> bucket bs pid ≠ [] ->
  match List.find (cell_test s.(pdb.heap) (deltask_match pid isproc)) (bucket bs pid) with
  | None => pdb_deltask s pid isproc = Some (0, s)
  | Some l => exists s', pdb_deltask s pid isproc = Some (1, s') /\ del_done s bs rs pid l s'
  end.
Proof.
  intros HH HR Hne. destruct (hash_bucket s bs pid HH) as (p & b & Hp & Hb & E & Hc & ND).
  rewrite E in *. destruct b as [|x b]; [done|]. pose proof Hc as Hc'.
  cbn in Hc. destruct Hc as (-> & q & Hq & Hc). destruct (hn_lookup _ _ _ Hq) as (n & Hn & En).
  unfold pdb_deltask. rewrite Hp. mstep. rewrite Hn. mstep. cbn [List.find].
  unfold cell_test at 1. rewrite Hn. destruct (deltask_match pid isproc n) eqn:Hm.
  - rewrite arr_set_Some by (by eapply lookup_lt_Some). mstep.
    destruct (deltask_first s bs rs pid HH HR (x :: b) [] b x Hb eq_refl n) as (h2 & -> & ?);
      [done | done | by subst q|]. eexists. eauto.
  - pose proof (deltask_scan_spec s.(pdb.heap) pid isproc b x (pinfo.phnext n) (S (size s.(pdb.heap))))
      as Hs. rewrite En in *.
    specialize (Hs Hc ltac:(apply NoDup_cons in ND as [_ ND]; by eapply chain_fuel)).
    destruct (List.find _ b) as [l|] eqn:Hf; [|by rewrite Hs; destruct s].
    destruct Hs as (b1 & b2 & m & -> & Hm' & ->).
    destruct (deltask_later s bs rs pid HH HR (x :: b1 ++ l :: b2) (x :: b1) b2 l Hb eq_refl x b1 m)
      as (h1 & h2 & -> & E2 & ?); try done. mstep. rewrite E2. mstep. eexists. eauto.
Qed.
