(* ===== verification/PdbResidue.v ===== *)
(** * Building, searching and cleaning the RESIDUE list *)
From S2P Require Import Prelude Tstat Procdbase PdbHeap PdbFacts PdbOps.

(** ** pdb_makeresidue *)

Lemma cells_take_S bs i b :
  bs !! i = Some b -> cells (take (S i) bs) = cells (take i bs) ++ b.
Proof. intros H. by rewrite (take_S_r _ _ b H), join_app; cbn; rewrite app_nil_r. Qed.

Lemma cells_take_in bs i l : l ∈ cells (take i bs) ->
  exists j b, (j < i)%nat /\ bs !! j = Some b /\ l ∈ b.
Proof.
  rewrite in_cells. intros (j & b & Hj & Hl). apply lookup_take_Some in Hj as [? ?]. eauto.
Qed.

Lemma cells_nodup s bs : hash_ok s bs -> NoDup (cells bs).
Proof.
  intros HH. rewrite <-(firstn_all bs). generalize (length bs) as n. induction n as [|n IH]; [constructor|].
  destruct (bs !! n) as [b|] eqn:Hb.
  - rewrite (cells_take_S _ _ _ Hb). apply NoDup_app. split; [done|]. split.
    + intros x Hx Hxb. apply cells_take_in in Hx as (j & c & Hj & Hc & Hxc).
      assert (j = n) by (by eapply home_unique). lia.
    + by eapply hash_nodup.
  - apply lookup_ge_None in Hb. by rewrite !take_ge in * by lia.
Qed.

(** The stores that put one cell at the front of the list. *)
Definition push_front (h : pheap) (l : loc) : option pheap :=
  pr ← h !! presidue;
  h ← store h l (set_prnext pr.(pinfo.prnext));
  h ← store h presidue (set_prnext (Some l));
  n ← h !! l;
  nx ← n.(pinfo.prnext);
  m ← h !! nx;
  h ← store h l (set_prprev m.(pinfo.prprev));
  store h nx (set_prprev (Some l)).

Lemma push_front_ok h rs l :
  ring h rs -> NoDup rs -> presidue ∉ rs -> l ∉ rs -> l ≠ presidue -> is_Some (h !! l) ->
  exists h', push_front h l = Some h' /\ same_hash h h' /\ ring h' (l :: rs).
Proof.
  intros R ND HA Hl Hla Dl. pose proof (linked_head _ _ _ _ R) as [Ha Hs].
  set (s0 := headof rs presidue) in *.
  assert (Hls0 : s0 ≠ l) by (pose proof (headof_in rs presidue); set_solver).
  destruct (nx_lookup _ _ _ Ha) as (a & Ea & Ena).
  unfold push_front. rewrite Ea. mstep. rewrite Ena.
  destruct (store_prnext h l (Some s0) Dl) as (h1 & -> & S1 & N1 & P1). mstep.
  destruct (store_prnext h1 presidue (Some l)) as (h2 & -> & S2 & N2 & P2);
    [apply (same_hash_dom _ _ _ S1); eauto|]. mstep.
  assert (En : nx h2 l = Some (Some s0)).
  { rewrite N2, decide_False by done. by rewrite N1, decide_True. }
  destruct (nx_lookup _ _ _ En) as (n & Hn & E2). rewrite Hn. mstep. rewrite E2. mstep.
  assert (Hpv : pv h2 s0 = Some (Some presidue)) by (by rewrite P2, P1).
  destruct (proj1 (pv_dom h2 s0)) as [m Hm]; [eauto|]. rewrite Hm. mstep.
  rewrite (lookup_pv _ _ _ Hm) in Hpv. injection Hpv as ->.
  destruct (store_prprev h2 l (Some presidue)) as (h3 & -> & S3 & P3 & N3); [eauto|]. mstep.
  destruct (store_prprev h3 s0 (Some l)) as (h4 & -> & S4 & P4 & N4);
    [apply (same_hash_dom _ _ _ S3); eauto|].
  exists h4. split; [done|].
  split; [etrans; [exact S1|]; etrans; [exact S2|]; by etrans|].
  assert (HN : forall k, k ≠ l -> k ≠ presidue -> nx h4 k = nx h k).
  { intros k ? ?. by rewrite N4, N3, N2, decide_False, N1, decide_False. }
  assert (HP : forall k, k ≠ l -> k ≠ s0 -> pv h4 k = pv h k).
  { intros k ? ?. by rewrite P4, decide_False, P3, decide_False, P2, P1. }
  unfold ring. cbn [linked]. split; [by rewrite N4, N3, N2, decide_True|].
  split; [by rewrite P4, decide_False, P3, decide_True|].
  assert (El : nx h4 l = Some (Some s0)) by (by rewrite N4, N3).
  assert (Es : pv h4 s0 = Some (Some l)) by (by rewrite P4, decide_True).
  unfold ring in R. destruct rs as [|x r]; cbn [linked]; [done|].
  split; [done|]. split; [done|]. cbn in R. destruct R as (_ & _ & R).
  apply NoDup_cons in ND as [Hx ND].
  eapply linked_ext; [..|exact R].
  - intros k Hk. apply HN; set_solver.
  - intros k Hk. apply HP; [set_solver|]. unfold s0, headof; cbn. set_solver.
Qed.

Lemma makeresidue_chain_unfold f h l :
  makeresidue_chain (S f) h (Some l) =
    (h' ← push_front h l; n ← h' !! l; makeresidue_chain f h' n.(pinfo.phnext)).
Proof.
  unfold push_front. cbn [makeresidue_chain].
  repeat (lazymatch goal with |- mbind _ ?m = mbind _ (mbind _ ?m) => destruct m; mstep; [|done] end).
  done.
Qed.

Lemma makeresidue_chain_ok b : forall h rs p fuel,
  chain h p b -> (length b < fuel)%nat -> ring h rs -> NoDup (b ++ rs) -> presidue ∉ b ++ rs ->
  exists h', makeresidue_chain fuel h p = Some h' /\ same_hash h h' /\ ring h' (reverse b ++ rs).
Proof.
  induction b as [|l b IH]; intros h rs p fuel Hc Hf R ND HA;
    (destruct fuel as [|f]; cbn [length] in Hf; [lia|]).
  - cbn in Hc. subst p. exists h. done.
  - cbn in Hc. destruct Hc as (-> & q & Hq & Hc). rewrite makeresidue_chain_unfold.
    rewrite NoDup_app, NoDup_cons in ND. destruct ND as ((Hlb & NDb) & D & NDr).
    destruct (push_front_ok h rs l) as (h1 & -> & S1 & R1); try done;
      [set_solver | apply D; set_solver | set_solver | apply hn_dom; eauto |].
    mstep. destruct (hn_lookup h1 l q) as (n & Hn & <-); [by rewrite (proj1 (S1 l))|].
    rewrite Hn. mstep.
    destruct (IH h1 (l :: rs) n.(pinfo.phnext) f) as (h2 & -> & S2 & R2); try done.
    + by eapply chain_same.
    + lia.
    + rewrite NoDup_app, NoDup_cons. split; [done|]. split; [|split; [apply D; set_solver | done]].
      intros x Hx. rewrite not_elem_of_cons. split; [by intros ->|]. apply D. set_solver.
    + set_solver.
    + exists h2. split; [done|]. split; [by etrans|].
      by rewrite reverse_cons, <-app_assoc.
Qed.

Lemma makeresidue_refines s bs : hash_ok s bs ->
  exists s', pdb_makeresidue s = Some s' /\ s'.(pdb.phash) = s.(pdb.phash) /\
    same_hash s.(pdb.heap) s'.(pdb.heap) /\
    hash_ok s' bs /\ res_ok s'.(pdb.heap) bs (reverse (cells bs)).
Proof.
  intros HH. unfold pdb_makeresidue. set (h := s.(pdb.heap)).
  assert (Da : is_Some (h !! presidue)) by (apply (hash_dom _ _ HH); by left).
  destruct (store_prnext h presidue (Some presidue) Da) as (h1 & -> & S1 & N1 & P1). mstep.
  destruct (store_prprev h1 presidue (Some presidue)) as (h2 & -> & S2 & P2 & N2);
    [by apply (same_hash_dom _ _ _ S1)|]. mstep.
  assert (S12 : same_hash h h2) by (by etrans).
  assert (R2 : ring h2 []).
  { unfold ring. cbn. by rewrite N2, N1, P2, decide_True. }
  pose proof (cells_nodup _ _ HH) as ND. pose proof (hash_anchor _ _ HH) as HA.
  destruct (for_lt_inv (fun i h => pp ← pdb.phash s !! i; makeresidue_chain (S (size h)) h pp)
    (fun i h' => same_hash h h' /\ ring h' (reverse (cells (take i bs)))) (Z.of_nat NPHASH) h2)
    as (h3 & -> & S3 & R3).
  - intros i h' Hi [Sh R]. assert (Hi' : (i < NPHASH)%nat) by lia.
    destruct (lookup_lt_is_Some_2 s.(pdb.phash) i) as [p Hp]; [by rewrite (hash_len _ _ HH)|].
    destruct (lookup_lt_is_Some_2 bs i) as [b Hb]; [by rewrite (hash_blen _ _ HH)|].
    rewrite Hp. mstep. pose proof (chain_same _ _ _ _ Sh (hash_chain _ _ HH i p b Hp Hb)) as Hc.
    assert (NDS : NoDup (cells (take (S i) bs))).
    { rewrite <-(take_drop (S i) bs), join_app in ND. by apply NoDup_app in ND as [ND _]. }
    rewrite (cells_take_S _ _ _ Hb) in *.
    assert (HAS : presidue ∉ cells (take i bs) ++ b).
    { rewrite <-(cells_take_S _ _ _ Hb). intros (j & c & _ & Hj & Hc')%cells_take_in.
      apply HA. by eapply in_bucket_cells. }
    destruct (makeresidue_chain_ok b h' (reverse (cells (take i bs))) p (S (size h'))) as (h'' & -> & S' & R');
      try done.
    + eapply chain_fuel; [done|]. by eapply hash_nodup.
    + rewrite (reverse_Permutation (cells _)), (Permutation_app_comm b). done.
    + rewrite (reverse_Permutation (cells _)), (Permutation_app_comm b). done.
    + exists h''. split; [done|]. split; [by etrans|]. by rewrite reverse_app.
  - split; done.
  - mstep. rewrite take_ge in R3 by (rewrite (hash_blen _ _ HH); lia).
    assert (HH3 : hash_ok (with_heap s h3) bs) by (destruct s; by eapply hash_ok_same).
    eexists. split; [done|]. cbn. split; [done|]. split; [done|]. split; [done|].
    split.
    + by rewrite reverse_Permutation.
    + intros l. by rewrite elem_of_reverse.
    + done.
    + intros l Hl. by rewrite elem_of_reverse.
Qed.

(** ** pdb_srchresidue *)

Definition srch_exact (t : tstat.tstat) (n : pinfo.pinfo) : bool :=
  srch_candidate t n && (btimediff t n =? 0).
Definition srch_near (t : tstat.tstat) (n : pinfo.pinfo) : bool :=
  srch_candidate t n && ((btimediff t n =? -1) || (btimediff t n =? 1)).

(** The first exact match, or else the first entry that is one second off. *)
Definition srch_spec (h : pheap) (t : tstat.tstat) (rs : list loc) : option loc :=
  match List.find (cell_test h (srch_exact t)) rs with
  | Some l => Some l
  | None => List.find (cell_test h (srch_near t)) rs
  end.

Lemma srchresidue_loop_spec h t rs : forall a p prmin fuel,
  linked h a rs presidue -> presidue ∉ rs -> (length rs < fuel)%nat -> nx h a = Some p ->
  srchresidue_loop fuel h t p prmin =
    Some (match List.find (cell_test h (srch_exact t)) rs with
          | Some l => Some l
          | None => match prmin with Some m => Some m
                    | None => List.find (cell_test h (srch_near t)) rs end end).
Proof.
  induction rs as [|x rs IH]; intros a p prmin fuel L HA Hf Hp;
    (destruct fuel as [|f]; cbn [length] in Hf; [lia|]); cbn [linked] in L.
  - destruct L as [L _]. simplify_eq. cbn. by destruct prmin.
  - destruct L as (Ha & _ & L). simplify_eq. rewrite not_elem_of_cons in HA. destruct HA as [HA HA'].
    pose proof (linked_head _ _ _ _ L) as [Hx _]. destruct (nx_lookup _ _ _ Hx) as (n & Hn & En).
    cbn [srchresidue_loop]. mstep. rewrite decide_False by done. rewrite Hn. mstep.
    cbn [List.find]. rewrite !(cell_test_at _ _ _ _ Hn). unfold srch_exact at 1, srch_near at 1.
    pose proof (fun m => IH x n.(pinfo.prnext) m f L HA' ltac:(lia) (lookup_nx _ _ _ Hn)) as IH'.
    destruct (srch_candidate t n); cbn [andb]; [|by rewrite IH'].
    destruct (btimediff t n =? 0); [done|]. rewrite IH'.
    destruct (List.find (cell_test h (srch_exact t)) rs); [done|].
    destruct prmin as [m|]; [by rewrite bool_decide_false, andb_false_r by done|].
    rewrite bool_decide_true, andb_true_r by done. by destruct (_ || _).
Qed.

Lemma res_presidue s bs rs : hash_ok s bs -> res_ok s.(pdb.heap) bs rs -> presidue ∉ rs.
Proof. intros HH HR Hin. apply (hash_anchor _ _ HH). by eapply res_cells. Qed.

Lemma res_size s bs rs : hash_ok s bs -> res_ok s.(pdb.heap) bs rs ->
  (length rs <= size s.(pdb.heap))%nat.
Proof.
  intros HH HR. apply nodup_size; [apply HR|]. intros l Hl. apply (hash_dom _ _ HH).
  right. by eapply res_cells.
Qed.

Lemma srchresidue_refines s bs rs t :
  hash_ok s bs -> res_ok s.(pdb.heap) bs rs ->
  pdb_srchresidue s t = Some (srch_spec s.(pdb.heap) t rs).
Proof.
  intros HH HR. unfold pdb_srchresidue.
  destruct (nx_lookup s.(pdb.heap) presidue (Some (headof rs presidue))) as (a & Ha & Ea);
    [apply linked_head, HR|].
  rewrite Ha. mstep.
  erewrite srchresidue_loop_spec; [done | apply HR | by eapply res_presidue | |].
  - pose proof (res_size _ _ _ HH HR). lia.
  - by rewrite (lookup_nx _ _ _ Ha).
Qed.

(** ** pdb_cleanresidue *)

Definition cell_key (h : pheap) (l : loc) : option (Z * Z) :=
  (fun t => (t.(tstat.gen).(tgen.pid), t.(tstat.gen).(tgen.isproc))) <$> ts h l.

(** No two entries share PID and kind. *)
Definition unique_keys (h : pheap) (bs : list (list loc)) : Prop :=
  forall k k', k ∈ cells bs -> k' ∈ cells bs -> cell_key h k = cell_key h k' -> k = k'.

(** The buckets without the cells of [rs]. *)
Definition drop_cells (rs : list loc) (bs : list (list loc)) : list (list loc) :=
  (fun b => filter (fun k => k ∉ rs) b) <$> bs.

Lemma drop_cells_nil bs : drop_cells [] bs = bs.
Proof.
  unfold drop_cells. rewrite <-(list_fmap_id bs) at 2. apply list_fmap_ext.
  intros i b _. apply filter_id. intros k _. set_solver.
Qed.

Lemma drop_cells_cons s bs pid x r :
  hash_ok s bs -> x ∈ bucket bs pid ->
  drop_cells r (del_cell bs pid x) = drop_cells (x :: r) bs.
Proof.
  intros HH Hx. destruct (hash_bucket s bs pid HH) as (p & b & _ & Hb & E & _ & _).
  unfold drop_cells, del_cell. rewrite E in *. apply list_eq. intros i.
  rewrite !list_lookup_fmap. destruct (decide (i = hashq pid)) as [->|Hne].
  - rewrite list_lookup_insert_eq by (by eapply lookup_lt_Some). rewrite Hb. cbn. f_equal.
    unfold remove_cell. rewrite list_filter_filter. apply list_filter_iff. set_solver.
  - rewrite list_lookup_insert_ne by done. destruct (bs !! i) as [c|] eqn:Hc; cbn; [|done]. f_equal.
    apply filter_ext_in. intros k Hk. assert (k ≠ x) by (intros ->; apply Hne; by eapply home_unique).
    set_solver.
Qed.

Lemma find_self h pid isproc b x n :
  x ∈ b -> h !! x = Some n -> pinfo_pid n = pid -> pinfo_isproc n = isproc ->
  (forall k, k ∈ b -> cell_key h k = cell_key h x -> k = x) ->
  List.find (cell_test h (deltask_match pid isproc)) b = Some x.
Proof.
  intros Hx Hn <- <- Hu. destruct (List.find _ b) as [y|] eqn:Hf.
  - apply find_in in Hf as [Hy Ht]. f_equal. apply Hu; [done|].
    unfold cell_test in Ht. destruct (h !! y) as [m|] eqn:Hm; [|done].
    unfold deltask_match in Ht. apply andb_true_iff in Ht as [E1%bool_decide_eq_true E2%bool_decide_eq_true].
    unfold cell_key, ts. rewrite Hm, Hn. cbn. unfold pinfo_pid, pinfo_isproc in *. by rewrite E1, E2.
  - exfalso. pose proof (List.find_none _ _ Hf x (proj1 (list_elem_of_In _ _) Hx)) as Ht.
    rewrite (cell_test_at _ _ _ _ Hn) in Ht. unfold deltask_match in Ht.
    by rewrite !bool_decide_true in Ht.
Qed.

Lemma cleanresidue_loop_ok rs : forall s bs fuel,
  hash_ok s bs -> res_ok s.(pdb.heap) bs rs -> unique_keys s.(pdb.heap) bs ->
  (length rs < fuel)%nat ->
  exists s', cleanresidue_loop fuel s (Some (headof rs presidue)) = Some s' /\
    hash_ok s' (drop_cells rs bs) /\ res_ok s'.(pdb.heap) (drop_cells rs bs) [] /\
    (forall k, ts s'.(pdb.heap) k = if decide (k ∈ rs) then None else ts s.(pdb.heap) k).
Proof.
  induction rs as [|x rs IH]; intros s bs fuel HH HR HU Hf;
    (destruct fuel as [|f]; cbn [length] in Hf; [lia|]); cbn [cleanresidue_loop]; mstep.
  - unfold headof; cbn [head default]. rewrite decide_True by done. exists s.
    rewrite drop_cells_nil. by split_and!.
  - pose proof (res_presidue _ _ _ HH HR) as HA. rewrite not_elem_of_cons in HA. destruct HA as [HA HA'].
    unfold headof; cbn [head default]. rewrite decide_False by (by cbn).
    assert (Hxc : x ∈ cells bs) by (eapply res_cells; [done | set_solver]).
    pose proof (res_ring _ _ _ HR) as R. unfold ring in R. cbn [linked] in R.
    destruct R as (_ & _ & R). apply linked_head in R as [Hx _].
    destruct (nx_lookup _ _ _ Hx) as (n & Hn & En). cbn. rewrite Hn. mstep. rewrite En.
    pose proof Hxc as (i & b & Hb & Hxb)%in_cells.
    destruct (hash_home _ _ HH i b x Hb Hxb) as (pid & Hpid & Ei). subst i.
    assert (Ep : pinfo_pid n = pid).
    { unfold cell_pid, ts in Hpid. rewrite Hn in Hpid. cbn in Hpid. by simplify_eq. }
    assert (Eb : bucket bs (pinfo_pid n) = b) by (unfold bucket; rewrite Ep, Hb; done).
    pose proof (deltask_refines s bs (x :: rs) (pinfo_pid n) (pinfo_isproc n) HH HR) as HD.
    rewrite Eb, (find_self _ _ _ b x n) in HD; try done.
    2:{ intros k Hk. apply HU; [by eapply in_bucket_cells | done]. }
    destruct HD as (s' & -> & HH' & HR' & Hts); [by intros ->; set_solver|]. mstep.
    assert (Er : remove_cell x (x :: rs) = rs).
    { apply (remove_cell_app [] x rs), HR. }
    rewrite Er in HR'. assert (Hxb' : x ∈ bucket bs (pinfo_pid n)) by (by rewrite Eb).
    destruct (IH s' (del_cell bs (pinfo_pid n) x) f) as (s'' & E & HH'' & HR'' & Hts''); try done.
    + intros k k'. rewrite !(del_cell_cells s) by done. intros [? ?] [? ?].
      unfold cell_key. rewrite !Hts, !decide_False by done. by apply HU.
    + lia.
    + exists s''. cbn [snd]. rewrite E. split; [done|].
      rewrite (drop_cells_cons s) in HH'', HR'' by done. split; [done|]. split; [done|].
      intros k. rewrite Hts'', Hts. repeat case_decide; set_solver.
Qed.

Lemma cleanresidue_refines s bs rs :
  hash_ok s bs -> res_ok s.(pdb.heap) bs rs -> unique_keys s.(pdb.heap) bs ->
  exists s', pdb_cleanresidue s = Some s' /\
    hash_ok s' (drop_cells rs bs) /\ res_ok s'.(pdb.heap) (drop_cells rs bs) [] /\
    (forall k, ts s'.(pdb.heap) k = if decide (k ∈ rs) then None else ts s.(pdb.heap) k).
Proof.
  intros HH HR HU. unfold pdb_cleanresidue.
  destruct (nx_lookup s.(pdb.heap) presidue (Some (headof rs presidue))) as (a & Ha & Ea);
    [apply linked_head, HR|].
  rewrite Ha. mstep. rewrite Ea. apply cleanresidue_loop_ok; try done.
  pose proof (res_size _ _ _ HH HR). lia.
Qed.
