(* ===== verification/PdbSpec.v ===== *)
(** * The process database as a finite map

    The abstract contract of procdbase.c: a map from (PID, process-or-thread)
    to the last sample of that task, and the set [rk] of the keys that were
    not referred to since [pdb_makeresidue]. It holds as long as no two
    entries share a key. *)
From S2P Require Import Prelude Tstat Procdbase PdbHeap PdbFacts PdbOps PdbResidue.

Abbreviation tkey := (Z * Z)%type.

Definition task_key (t : tstat.tstat) : tkey :=
  (t.(tstat.gen).(tgen.pid), t.(tstat.gen).(tgen.isproc)).

(** A start time that [pdb_gettask] accepts for the stored one. *)
Definition same_start (btime : Z) (t : tstat.tstat) : bool :=
  let diff := i32 (i64 (t.(tstat.gen).(tgen.btime) - btime)) in
  negb ((1 <? diff) || (diff <? -1)).

Definition content (h : pheap) (bs : list (list loc)) (m : gmap tkey tstat.tstat) : Prop :=
  forall k t, m !! k = Some t <-> exists l, l ∈ cells bs /\ ts h l = Some t /\ task_key t = k.

(** The database between two samples: the RESIDUE pointers do not matter. *)
Definition db_idle (s : pdb.pdb) (m : gmap tkey tstat.tstat) : Prop :=
  exists bs, hash_ok s bs /\ unique_keys s.(pdb.heap) bs /\ content s.(pdb.heap) bs m.

(** The database while a sample is handled. *)
Definition db_rep (s : pdb.pdb) (m : gmap tkey tstat.tstat) (rk : gset tkey) : Prop :=
  exists bs rs, hash_ok s bs /\ res_ok s.(pdb.heap) bs rs /\ unique_keys s.(pdb.heap) bs /\
    content s.(pdb.heap) bs m /\
    (forall k, k ∈ rk <-> exists l, l ∈ rs /\ cell_key s.(pdb.heap) l = Some k).

(** ** Cells and keys *)

Lemma cell_ts s bs l : hash_ok s bs -> l ∈ cells bs -> exists t, ts s.(pdb.heap) l = Some t.
Proof.
  intros HH Hl. apply (proj2 (ts_dom s.(pdb.heap) l)), (hash_dom _ _ HH). by right.
Qed.

Lemma cell_key_ts h l t : ts h l = Some t -> cell_key h l = Some (task_key t).
Proof. unfold cell_key. by intros ->. Qed.

Lemma cell_key_inv h l k : cell_key h l = Some k -> exists t, ts h l = Some t /\ task_key t = k.
Proof. unfold cell_key. destruct (ts h l) as [t|]; cbn; intros E; simplify_eq. by exists t. Qed.

Lemma ts_lookup h l t : ts h l = Some t -> exists n, h !! l = Some n /\ n.(pinfo.tstat) = t.
Proof. unfold ts. destruct (h !! l); cbn; intros; simplify_eq; eauto. Qed.

(** A cell sits in the bucket of its key. *)
Lemma cell_bucket s bs l t :
  hash_ok s bs -> l ∈ cells bs -> ts s.(pdb.heap) l = Some t ->
  l ∈ bucket bs t.(tstat.gen).(tgen.pid).
Proof.
  intros HH Hl Ht. apply in_cells in Hl as (i & b & Hb & Hl).
  destruct (hash_home _ _ HH i b l Hb Hl) as (p & Hp & <-).
  unfold cell_pid in Hp. rewrite Ht in Hp. cbn in Hp. injection Hp as <-.
  unfold bucket. by rewrite Hb.
Qed.

Lemma bucket_cells bs pid l : l ∈ bucket bs pid -> l ∈ cells bs.
Proof.
  unfold bucket. destruct (bs !! hashq pid) as [b|] eqn:E; cbn; [|set_solver].
  by apply in_bucket_cells with (hashq pid).
Qed.

Lemma unique_same h h' bs : same_hash h h' -> unique_keys h bs -> unique_keys h' bs.
Proof.
  intros S U k k' Hk Hk' E. apply U; [done..|]. unfold cell_key in *.
  by rewrite (proj2 (S k)), (proj2 (S k')) in E.
Qed.

Lemma content_same h h' bs m : same_hash h h' -> content h bs m -> content h' bs m.
Proof.
  intros S C k t. rewrite (C k t). split; intros (l & Hl & Ht & E); exists l; split; try done;
    split; try done; by rewrite (proj2 (S l)) in *.
Qed.

(** The test of [pdb_gettask] on a cell, by its key and start time. *)
Lemma gettask_test h l t pid isproc btime :
  ts h l = Some t ->
  cell_test h (gettask_match pid isproc btime) l =
    bool_decide (task_key t = (pid, isproc)) && same_start btime t.
Proof.
  intros Ht. apply ts_lookup in Ht as (n & Hn & <-). rewrite (cell_test_at _ _ _ _ Hn).
  unfold gettask_match, same_start, task_key, pinfo_pid, pinfo_isproc, pinfo_btime. f_equal.
  set (g := tstat.gen (pinfo.tstat n)).
  destruct (decide ((g.(tgen.pid), g.(tgen.isproc)) = (pid, isproc))) as [E|Hne].
  - injection E as <- <-. by rewrite !bool_decide_true.
  - rewrite (bool_decide_false ((_, _) = (pid, isproc))) by done.
    apply andb_false_iff. rewrite !bool_decide_eq_false.
    destruct (decide (g.(tgen.pid) = pid)) as [E1|]; [right | by left].
    intros E2. apply Hne. by f_equal.
Qed.

(** Searching a bucket for a key that identifies its cell. *)
Lemma find_key s bs m pid isproc btime :
  hash_ok s bs -> unique_keys s.(pdb.heap) bs -> content s.(pdb.heap) bs m ->
  match m !! (pid, isproc) with
  | Some t =>
      if same_start btime t then
        exists l, l ∈ cells bs /\ ts s.(pdb.heap) l = Some t /\
          List.find (cell_test s.(pdb.heap) (gettask_match pid isproc btime)) (bucket bs pid) = Some l
      else List.find (cell_test s.(pdb.heap) (gettask_match pid isproc btime)) (bucket bs pid) = None
  | None => List.find (cell_test s.(pdb.heap) (gettask_match pid isproc btime)) (bucket bs pid) = None
  end.
Proof.
  intros HH HU HC.
  destruct (List.find _ (bucket bs pid)) as [l|] eqn:Hf.
  - apply find_in in Hf as [Hl Ht]. apply bucket_cells in Hl.
    destruct (cell_ts _ _ _ HH Hl) as [t Hts]. rewrite (gettask_test _ _ t) in Ht by done.
    apply andb_true_iff in Ht as [Ek%bool_decide_eq_true Es].
    rewrite (proj2 (HC (pid, isproc) t)) by eauto. rewrite Es. eauto.
  - destruct (m !! (pid, isproc)) as [t|] eqn:Hm; [|done].
    destruct (same_start btime t) eqn:Es; [|done].
    apply HC in Hm as (l & Hl & Hts & Ek). exfalso.
    pose proof (cell_bucket _ _ _ _ HH Hl Hts) as Hb. injection Ek as Ep Ei. rewrite Ep in Hb.
    pose proof (List.find_none _ _ Hf l (proj1 (list_elem_of_In _ _) Hb)) as Hn.
    rewrite (gettask_test _ _ t) in Hn by done.
    rewrite bool_decide_true, Es in Hn by (unfold task_key; by rewrite Ep, Ei). done.
Qed.

(** ** The operations on the map *)

Lemma makeresidue_map s m : db_idle s m ->
  exists s', pdb_makeresidue s = Some s' /\ db_rep s' m (dom m).
Proof.
  intros (bs & HH & HU & HC). destruct (makeresidue_refines s bs HH) as (s' & E & _ & S & HH' & HR').
  exists s'. split; [done|]. exists bs, (reverse (cells bs)). split; [done|]. split; [done|].
  split; [by eapply unique_same|]. split; [by eapply content_same|].
  intros k. rewrite elem_of_dom. pose proof (content_same _ _ _ _ S HC k) as HC'. split.
  - intros [t (l & Hl & Ht & <-)%HC']. exists l. rewrite elem_of_reverse. split; [done|].
    by apply cell_key_ts.
  - intros (l & Hl & Ek). rewrite elem_of_reverse in Hl.
    apply cell_key_inv in Ek as (t & Ht & Ek). exists t. apply HC'. eauto.
Qed.

(** The residue keys after one cell is taken out of the list. *)
Lemma residue_keys_remove (s : pdb.pdb) (bs : list (list loc)) (rs : list loc) (rk : gset tkey)
    (l : loc) (k : tkey) :
  hash_ok s bs -> res_ok s.(pdb.heap) bs rs -> unique_keys s.(pdb.heap) bs ->
  l ∈ cells bs -> cell_key s.(pdb.heap) l = Some k ->
  (forall k', k' ∈ rk <-> exists l', l' ∈ rs /\ cell_key s.(pdb.heap) l' = Some k') ->
  forall k', k' ∈ rk ∖ {[k]} <->
    exists l', l' ∈ remove_cell l rs /\ cell_key s.(pdb.heap) l' = Some k'.
Proof.
  intros HH HR HU Hl Hk Hrk k'. rewrite elem_of_difference, elem_of_singleton, Hrk.
  unfold remove_cell. setoid_rewrite list_elem_of_filter. split.
  - intros [(l' & Hl' & E) Hne]. exists l'. split; [|done]. split; [|done]. intros ->. congruence.
  - intros (l' & [Hne Hl'] & E). split; [eauto|]. intros ->. apply Hne, HU; [|done|congruence].
    by eapply res_cells.
Qed.

Lemma gettask_map s m rk pid isproc btime : db_rep s m rk ->
  match m !! (pid, isproc) with
  | Some t =>
      if same_start btime t then
        exists l s', pdb_gettask s pid isproc btime = Some (Some l, s') /\
          ts s'.(pdb.heap) l = Some t /\ l ≠ presidue /\ db_rep s' m (rk ∖ {[(pid, isproc)]})
      else pdb_gettask s pid isproc btime = Some (None, s)
  | None => pdb_gettask s pid isproc btime = Some (None, s)
  end.
Proof.
  intros (bs & rs & HH & HR & HU & HC & Hrk).
  destruct (hash_bucket s bs pid HH) as (p & b & Hp & Hb & Eb & Hc & ND).
  pose proof (find_key s bs m pid isproc btime HH HU HC) as Hfind.
  assert (Hnone : List.find (cell_test s.(pdb.heap) (gettask_match pid isproc btime)) (bucket bs pid) = None ->
    pdb_gettask s pid isproc btime = Some (None, s)).
  { intros Hf. unfold pdb_gettask. rewrite Hp. mstep.
    rewrite (gettask_scan_spec _ _ _ _ b) by (done || by eapply chain_fuel).
    rewrite Eb in Hf. rewrite Hf. done. }
  destruct (m !! (pid, isproc)) as [t|] eqn:Hm; [|by auto].
  destruct (same_start btime t) eqn:Es; [|by auto].
  destruct Hfind as (l & Hl & Ht & Hf).
  destruct (gettask_refines s bs rs pid isproc btime HH HR) as (s' & E & _ & S & HH' & HR').
  rewrite Hf in E, HR'. exists l, s'. split; [done|]. split; [by rewrite (proj2 (S l))|].
  split; [intros ->; by apply (hash_anchor _ _ HH)|].
  exists bs, (remove_cell l rs). split; [done|]. split; [done|].
  split; [by eapply unique_same|]. split; [by eapply content_same|].
  intros k'. rewrite (residue_keys_remove s bs rs rk l (pid, isproc) HH HR HU Hl) by
    (done || (rewrite (cell_key_ts _ _ t Ht); apply HC in Hm as (l' & _ & _ & <-); done)).
  unfold cell_key. setoid_rewrite (fun l => proj2 (S l)). done.
Qed.

(** Overwriting the sample of a cell with one of the same key. *)
Lemma store_map s m rk l t t' :
  db_rep s m rk -> ts s.(pdb.heap) l = Some t -> l ≠ presidue ->
  task_key t' = task_key t ->
  exists h', store s.(pdb.heap) l (set_tstat t') = Some h' /\
    db_rep (with_heap s h') (<[task_key t := t']> m) rk.
Proof.
  intros (bs & rs & HH & HR & HU & HC & Hrk) Ht Hla Ek.
  apply ts_lookup in Ht as Hn. destruct Hn as (n & Hn & En).
  assert (Hl : l ∈ cells bs) by (destruct (proj1 (hash_dom _ _ HH l)); [eauto|done|done]).
  exists (<[l := set_tstat t' n]> s.(pdb.heap)). split; [by apply store_Some|].
  set (h' := <[l := _]> s.(pdb.heap)).
  assert (Hts : forall k, ts h' k = if decide (k = l) then Some t' else ts s.(pdb.heap) k).
  { intros k. unfold ts, h'. rewrite lookup_insert.
    case_decide; subst; by rewrite ?decide_True, ?decide_False by congruence. }
  assert (Hptr : forall k, hn h' k = hn s.(pdb.heap) k /\ nx h' k = nx s.(pdb.heap) k /\
                           pv h' k = pv s.(pdb.heap) k).
  { intros k. unfold hn, nx, pv, h'. rewrite lookup_insert.
    case_decide; subst; [by rewrite Hn | done]. }
  assert (Hkey : forall k, cell_key h' k = cell_key s.(pdb.heap) k).
  { intros k. unfold cell_key. rewrite Hts. case_decide as E; [subst k | done].
    rewrite Ht. cbn. f_equal. exact Ek. }
  exists bs, rs. split_and!.
  - split; cbn; try apply HH.
    + intros i p b Hp Hb. eapply chain_ext; [|by eapply hash_chain]. intros k _. apply Hptr.
    + intros i b k Hb Hk. destruct (hash_home _ _ HH i b k Hb Hk) as (pid & Hp & Ei).
      exists pid. split; [|done]. unfold cell_pid in *. rewrite Hts. case_decide; [subst k|done].
      rewrite Ht in Hp. cbn in *. injection Hp as <-. by injection Ek as ->.
    + intros k. rewrite <-(hash_dom _ _ HH k), <-!hn_dom. by rewrite (proj1 (Hptr k)).
  - cbn. eapply res_ok_ptr; [|done]. intros k. apply Hptr.
  - cbn. intros k k' Hk Hk' E. rewrite !Hkey in E. by apply HU.
  - cbn. intros k u. rewrite lookup_insert. case_decide as E; [subst k|].
    + split.
      * intros [= <-]. exists l. rewrite Hts, decide_True by done. done.
      * intros (l' & Hl' & Ht' & Eu). rewrite Hts in Ht'. case_decide as E'; [congruence|].
        exfalso. apply E', HU; [done..|]. rewrite (cell_key_ts _ _ _ Ht), (cell_key_ts _ _ _ Ht').
        by rewrite Eu.
    + rewrite (HC k u). split; intros (l' & Hl' & Ht' & Eu); exists l'; (split; [done|]).
      * rewrite Hts, decide_False; [done|]. intros ->. congruence.
      * rewrite Hts in Ht'. case_decide as E'; [|done]. naive_solver congruence.
  - cbn. intros k. rewrite Hrk. by setoid_rewrite Hkey.
Qed.

Lemma addtask_map s m rk l t :
  db_rep s m rk -> s.(pdb.heap) !! l = None -> m !! task_key t = None ->
  exists s', pdb_addtask (with_heap s (<[l := pinfo.mk None None None t]> s.(pdb.heap)))
               t.(tstat.gen).(tgen.pid) l = Some s' /\
    db_rep s' (<[task_key t := t]> m) rk.
Proof.
  intros (bs & rs & HH & HR & HU & HC & Hrk) Hfresh Hm.
  destruct (fresh_cell _ _ _ HH Hfresh) as [Hla Hlc].
  destruct (addtask_refines s bs rs l t HH HR Hfresh) as (s' & E & HH' & HR' & Hts).
  exists s'. split; [done|]. exists (add_cell bs t.(tstat.gen).(tgen.pid) l), rs.
  assert (Hold : forall k, k ∈ cells bs -> ts s'.(pdb.heap) k = ts s.(pdb.heap) k).
  { intros k Hk. rewrite Hts, decide_False; [done|]. by intros ->. }
  assert (Hnew : ts s'.(pdb.heap) l = Some t) by (by rewrite Hts, decide_True).
  assert (Hne : forall k, k ∈ cells bs -> cell_key s'.(pdb.heap) k ≠ Some (task_key t)).
  { intros k Hk Ek. apply cell_key_inv in Ek as (u & Hu & Ek). rewrite Hold in Hu by done.
    assert (m !! task_key t = Some u) by (apply HC; eauto). congruence. }
  split_and!; try done.
  - intros k k'. rewrite !(add_cell_cells s) by done. intros [->|Hk] [->|Hk'] Ek; try done.
    + destruct (Hne k' Hk'). by rewrite <-Ek, (cell_key_ts _ _ _ Hnew).
    + destruct (Hne k Hk). by rewrite Ek, (cell_key_ts _ _ _ Hnew).
    + apply HU; try done. unfold cell_key in *. by rewrite !Hold in Ek.
  - intros k u. rewrite lookup_insert. case_decide as Ek; [subst k|]; split.
    + intros [= <-]. exists l. rewrite (add_cell_cells s) by done. auto.
    + intros (l' & Hl' & Hu & Eu). rewrite (add_cell_cells s) in Hl' by done.
      destruct Hl' as [->|Hl']; [congruence|]. destruct (Hne l' Hl').
      by rewrite (cell_key_ts _ _ _ Hu), Eu.
    + intros (l' & Hl' & Hu & Eu)%HC. exists l'. rewrite (add_cell_cells s), Hold by done. auto.
    + intros (l' & Hl' & Hu & Eu). rewrite (add_cell_cells s) in Hl' by done.
      destruct Hl' as [->|Hl']; [congruence|]. rewrite Hold in Hu by done. apply HC. eauto.
  - intros k. rewrite Hrk. split; intros (l' & Hl' & Ek); exists l'; (split; [done|]);
      unfold cell_key in *; [rewrite Hold | rewrite Hold in Ek]; try done; by eapply res_cells.
Qed.

Lemma cleanresidue_map s m rk : db_rep s m rk ->
  exists s', pdb_cleanresidue s = Some s' /\ db_idle s' (filter (fun kt => kt.1 ∉ rk) m).
Proof.
  intros (bs & rs & HH & HR & HU & HC & Hrk).
  destruct (cleanresidue_refines s bs rs HH HR HU) as (s' & E & HH' & HR' & Hts).
  exists s'. split; [done|]. exists (drop_cells rs bs). split; [done|].
  assert (Hc : forall l, l ∈ cells (drop_cells rs bs) <-> l ∈ cells bs /\ l ∉ rs).
  { intros l. rewrite !in_cells. unfold drop_cells. split.
    - intros (i & b & Hb & Hl). rewrite list_lookup_fmap in Hb.
      destruct (bs !! i) as [c|] eqn:Ec; cbn in Hb; simplify_eq.
      rewrite list_elem_of_filter in Hl. destruct Hl. eauto 6.
    - intros [(i & b & Hb & Hl) Hr]. exists i, (filter (fun k => k ∉ rs) b).
      rewrite list_lookup_fmap, Hb, list_elem_of_filter. done. }
  split.
  - intros k k' [Hk ?]%Hc [Hk' ?]%Hc Ek. apply HU; [done..|]. unfold cell_key in *.
    by rewrite !Hts, !decide_False in Ek.
  - intros k t. rewrite map_lookup_filter_Some, (HC k t). cbn. split.
    + intros [(l & Hl & Ht & <-) Hk]. exists l. assert (l ∉ rs).
      { intros Hin. apply Hk, Hrk. exists l. split; [done|]. by apply cell_key_ts. }
      rewrite Hc, Hts, decide_False by done. done.
    + intros (l & [Hl Hlr]%Hc & Ht & Ek). rewrite Hts, decide_False in Ht by done. split; [eauto|].
      intros (l' & Hl' & Ek')%Hrk. apply Hlr. rewrite (HU l l'); try done.
      * by eapply res_cells.
      * by rewrite Ek', (cell_key_ts _ _ _ Ht), Ek.
Qed.

Lemma deltask_map s m rk k t : db_rep s m rk -> m !! k = Some t ->
  exists s', pdb_deltask s k.1 k.2 = Some (1, s') /\ db_rep s' (delete k m) (rk ∖ {[k]}).
Proof.
  intros (bs & rs & HH & HR & HU & HC & Hrk) Hm.
  destruct (proj1 (HC k t) Hm) as (l & Hl & Ht & Ek).
  pose proof (cell_bucket _ _ _ _ HH Hl Ht) as Hb. subst k. cbn [task_key fst snd].
  apply ts_lookup in Ht as Hn. destruct Hn as (n & Hn & En).
  pose proof (deltask_refines s bs rs t.(tstat.gen).(tgen.pid) t.(tstat.gen).(tgen.isproc) HH HR) as HD.
  rewrite (find_self _ _ _ _ l n) in HD; try done; try (by unfold pinfo_pid, pinfo_isproc; rewrite En).
  2:{ intros k Hk. apply HU; [by eapply bucket_cells | done]. }
  destruct HD as (s' & E & HH' & HR' & Hts); [by intros E; rewrite E in Hb; set_solver|].
  exists s'. split; [done|]. exists (del_cell bs t.(tstat.gen).(tgen.pid) l), (remove_cell l rs).
  assert (Hold : forall k, k ≠ l -> ts s'.(pdb.heap) k = ts s.(pdb.heap) k).
  { intros k Hk. by rewrite Hts, decide_False. }
  assert (Hok : forall k u, k ∈ cells bs -> ts s.(pdb.heap) k = Some u -> task_key u = task_key t -> k = l).
  { intros k u Hk Hu Eu. apply HU; [done..|]. by rewrite (cell_key_ts _ _ _ Hu), (cell_key_ts _ _ _ Ht), Eu. }
  split_and!; try done.
  - intros k k'. rewrite !(del_cell_cells s) by done. intros [? Hk] [? Hk'] Ek. apply HU; [done..|].
    unfold cell_key in *. by rewrite !Hold in Ek.
  - intros k u. rewrite lookup_delete_Some, (HC k u). split.
    + intros (Hne & l' & Hl' & Hu & <-). exists l'. assert (l' ≠ l) by (intros ->; congruence).
      rewrite (del_cell_cells s), Hold by done. done.
    + intros (l' & Hl' & Hu & <-). rewrite (del_cell_cells s) in Hl' by done. destruct Hl' as [Hne Hl'].
      rewrite Hold in Hu by done. split; [|eauto]. intros Ek. apply Hne. by apply (Hok _ u).
  - intros k'. rewrite (residue_keys_remove s bs rs rk l (task_key t) HH HR HU Hl) by
      (done || by rewrite (cell_key_ts _ _ t Ht)).
    assert (Hr : forall l', l' ∈ remove_cell l rs -> l' ≠ l).
    { intros l'. unfold remove_cell. rewrite list_elem_of_filter. tauto. }
    split; intros (l' & Hl' & Ek); exists l'; (split; [done|]); unfold cell_key in *;
      [rewrite Hold | rewrite Hold in Ek]; auto.
Qed.

(** ** The search for an exited process without PID *)

(** The owner and name of the task, [d] seconds off. *)
Definition like (t u : tstat.tstat) (d : Z) : Prop :=
  let n := pinfo.mk None None None u in srch_candidate t n = true /\ btimediff t n = d.

Lemma like_node t n d : like t n.(pinfo.tstat) d <-> srch_candidate t n = true /\ btimediff t n = d.
Proof. done. Qed.

Section residue.
Context (s : pdb.pdb) (m : gmap tkey tstat.tstat) (bs : list (list loc)) (rs : list loc) (rk : gset tkey).
Context (HH : hash_ok s bs) (HR : res_ok s.(pdb.heap) bs rs) (HC : content s.(pdb.heap) bs m).
Context (Hrk : forall k, k ∈ rk <-> exists l, l ∈ rs /\ cell_key s.(pdb.heap) l = Some k).

Lemma residue_none P k v : List.find (cell_test s.(pdb.heap) P) rs = None -> k ∈ rk -> m !! k = Some v ->
  exists n, n.(pinfo.tstat) = v /\ P n = false.
Proof.
  intros Hf Hk Hm. apply Hrk in Hk as (l & Hl & Ek). apply cell_key_inv in Ek as (u & Hu & Ek).
  apply ts_lookup in Hu as Hn. destruct Hn as (n & Hn & En). exists n. split.
  - assert (m !! k = Some u); [|congruence]. apply HC. exists l. split; [by eapply res_cells | done].
  - rewrite <-(cell_test_at _ P _ _ Hn). eapply List.find_none; [exact Hf|]. by apply list_elem_of_In.
Qed.

Lemma residue_some P l : List.find (cell_test s.(pdb.heap) P) rs = Some l ->
  exists n, s.(pdb.heap) !! l = Some n /\ m !! task_key n.(pinfo.tstat) = Some n.(pinfo.tstat) /\
    task_key n.(pinfo.tstat) ∈ rk /\ P n = true.
Proof.
  intros [Hl HP]%find_in. unfold cell_test in HP.
  destruct (s.(pdb.heap) !! l) as [n|] eqn:Hn; [|done]. exists n. split; [done|].
  assert (Ht : ts s.(pdb.heap) l = Some n.(pinfo.tstat)) by (unfold ts; by rewrite Hn).
  split; [apply HC; exists l; split; [by eapply res_cells | done]|].
  split; [|done]. apply Hrk. exists l. split; [done|]. by apply cell_key_ts.
Qed.

Lemma residue_not_exact t k v : List.find (cell_test s.(pdb.heap) (srch_exact t)) rs = None ->
  k ∈ rk -> m !! k = Some v -> ~ like t v 0.
Proof.
  intros He Hk Hm Hlike. destruct (residue_none _ k v He Hk Hm) as (n & <- & Hx). revert Hx.
  destruct (proj1 (like_node t n 0) Hlike) as [H1 H2]. unfold srch_exact. by rewrite H1, H2.
Qed.
End residue.

(** An exact match is found first, then an entry one second off; nothing is
    found only when the list has no entry that close. *)
Lemma srchresidue_map s m rk t : db_rep s m rk ->
  exists r, pdb_srchresidue s t = Some r /\
    match r with
    | Some l => exists n, s.(pdb.heap) !! l = Some n /\ let u := n.(pinfo.tstat) in
        m !! task_key u = Some u /\ task_key u ∈ rk /\
        (like t u 0 \/
         (like t u (-1) \/ like t u 1) /\ forall k v, k ∈ rk -> m !! k = Some v -> ~ like t v 0)
    | None => forall k v d, k ∈ rk -> m !! k = Some v -> like t v d -> d < -1 \/ 1 < d
    end.
Proof.
  intros (bs & rs & HH & HR & HU & HC & Hrk).
  exists (srch_spec s.(pdb.heap) t rs). split; [by apply (srchresidue_refines s bs)|].
  unfold srch_spec. destruct (List.find (cell_test _ (srch_exact t)) rs) as [l|] eqn:He.
  - apply (residue_some s m bs rs rk HR HC Hrk) in He as (n & ? & ? & ? & [? ?%Z.eqb_eq]%andb_true_iff).
    exists n. cbn. do 3 (split; [done|]). by left.
  - pose proof (fun k v => residue_not_exact s m bs rs rk HR HC Hrk t k v He) as Hnl.
    destruct (List.find (cell_test _ (srch_near t)) rs) as [l|] eqn:Hnr.
    + apply (residue_some s m bs rs rk HR HC Hrk) in Hnr as (n & ? & ? & ? & [? Hd]%andb_true_iff).
      exists n. cbn. do 3 (split; [done|]). right. split; [|done].
      apply orb_true_iff in Hd as [?%Z.eqb_eq|?%Z.eqb_eq]; [by left | by right].
    + intros k v d Hk Hm Hlike. pose proof (Hnl k v Hk Hm) as H0.
      destruct (residue_none s m bs rs rk HR HC Hrk _ k v Hnr Hk Hm) as (n & <- & Hx).
      destruct (proj1 (like_node t n d) Hlike) as [H1 H2].
      unfold srch_near in Hx. rewrite H1, H2 in Hx. cbn in Hx.
      apply orb_false_iff in Hx as [?%Z.eqb_neq ?%Z.eqb_neq].
      destruct (decide (d = 0)) as [->|]; [by destruct H0 | lia].
Qed.
