(* ===== verification/PdbTheorems.v ===== *)
(** * The contract of the process database

    The theorems on procdbase.c: the pointer operations behave like operations
    on a finite map from (PID, process-or-thread) to samples, as long as no
    two entries share a key. *)
From S2P Require Import Prelude Tstat Procdbase PdbHeap PdbFacts PdbOps PdbResidue PdbSpec.

(** ** The empty database *)

Lemma cells_empty n : cells (replicate n []) = [].
Proof. unfold cells. induction n as [|n IH]; cbn; [done | exact IH]. Qed.

Lemma pdb_init_idle : db_idle pdb_init ∅.
Proof.
  exists (replicate NPHASH []). split; [split|split].
  - done.
  - done.
  - intros i p b Hp Hb. apply lookup_replicate in Hb as [-> _]. apply lookup_replicate in Hp as [-> _]. done.
  - intros i b [-> _]%lookup_replicate. constructor.
  - intros i b l [-> _]%lookup_replicate Hl. set_solver.
  - intros l. cbn [pdb.heap pdb_init]. rewrite lookup_singleton, cells_empty.
    case_decide as E; [subst l; naive_solver|]. rewrite is_Some_alt. set_solver.
  - rewrite cells_empty. set_solver.
  - intros k k'. rewrite cells_empty. set_solver.
  - intros k t. rewrite lookup_empty, cells_empty. set_solver.
Qed.

(** ** A sample: every stored task is looked up or dropped *)

(** The lookups of a sample: keys with start times. *)
Fixpoint visit (l : list (tkey * Z)) (s : pdb.pdb) : option pdb.pdb :=
  match l with
  | [] => Some s
  | (k, btime) :: l' => r ← pdb_gettask s k.1 k.2 btime; visit l' r.2
  end.

(** The stored task was found by one of them. *)
Definition sees (l : list (tkey * Z)) (kt : tkey * tstat.tstat) : bool :=
  existsb (fun x => bool_decide (x.1 = kt.1) && same_start x.2 kt.2) l.

Lemma gettask_step s m rk k btime : db_rep s m rk ->
  exists r s' rk', pdb_gettask s k.1 k.2 btime = Some (r, s') /\ db_rep s' m rk' /\
    forall k' t, m !! k' = Some t ->
      k' ∈ rk' <-> k' ∈ rk /\ bool_decide (k = k') && same_start btime t = false.
Proof.
  intros HD. pose proof (gettask_map s m rk k.1 k.2 btime HD) as HG. destruct k as [pid isproc]. cbn in *.
  assert (Hmiss : pdb_gettask s pid isproc btime = Some (None, s) ->
    (forall t, m !! (pid, isproc) = Some t -> same_start btime t = false) ->
    exists r s' rk', pdb_gettask s pid isproc btime = Some (r, s') /\ db_rep s' m rk' /\
      forall k' t, m !! k' = Some t ->
        k' ∈ rk' <-> k' ∈ rk /\ bool_decide ((pid, isproc) = k') && same_start btime t = false).
  { intros E Hs. exists None, s, rk. split; [done|]. split; [done|]. intros k' t Hm.
    case_bool_decide as Ek; [subst k'; rewrite (Hs t Hm); tauto | tauto]. }
  destruct (m !! (pid, isproc)) as [t|] eqn:Hm.
  - destruct (same_start btime t) eqn:Es.
    + destruct HG as (l & s' & E & _ & _ & HD'). exists (Some l), s', (rk ∖ {[(pid, isproc)]}).
      split; [done|]. split; [done|]. intros k' u Hu. rewrite elem_of_difference, elem_of_singleton.
      case_bool_decide as Ek; [|naive_solver]. subst k'. rewrite Hm in Hu. injection Hu as <-.
      rewrite Es. naive_solver.
    + apply Hmiss; [done|]. congruence.
  - apply Hmiss; [done|]. congruence.
Qed.

Lemma visit_map m : forall l s rk, db_rep s m rk ->
  exists s' rk', visit l s = Some s' /\ db_rep s' m rk' /\
    forall k t, m !! k = Some t -> k ∈ rk' <-> k ∈ rk /\ sees l (k, t) = false.
Proof.
  induction l as [|[k btime] l IH]; intros s rk HD; cbn [visit].
  - exists s, rk. split; [done|]. split; [done|]. cbn. tauto.
  - destruct (gettask_step s m rk k btime HD) as (r & s1 & rk1 & -> & HD1 & H1). mstep.
    destruct (IH s1 rk1 HD1) as (s2 & rk2 & E & HD2 & H2). exists s2, rk2. split; [done|].
    split; [done|]. intros k' t Ht. rewrite (H2 k' t Ht), (H1 k' t Ht). cbn. rewrite orb_false_iff. tauto.
Qed.

(** C7: A sample cycle of the process database is a mark and sweep: after
    pdb_makeresidue, any sequence of lookups and pdb_cleanresidue, all pointer
    accesses were valid and the database holds exactly the entries that one of
    the lookups found. *)
Theorem sample_cycle s m l : db_idle s m ->
  exists s1 s2 s3, pdb_makeresidue s = Some s1 /\ visit l s1 = Some s2 /\ pdb_cleanresidue s2 = Some s3 /\
    db_idle s3 (filter (fun kt => sees l kt = true) m).
Proof.
  intros HD. destruct (makeresidue_map s m HD) as (s1 & E1 & HD1).
  destruct (visit_map m l s1 _ HD1) as (s2 & rk & E2 & HD2 & Hrk).
  destruct (cleanresidue_map s2 m rk HD2) as (s3 & E3 & HD3). exists s1, s2, s3.
  do 3 (split; [done|]). assert (E : filter (fun kt => kt.1 ∉ rk) m = filter (fun kt => sees l kt = true) m);
    [|by rewrite <-E]. apply map_filter_ext. intros k t Ht. cbn. rewrite (Hrk k t Ht), elem_of_dom.
  destruct (sees l (k, t)); naive_solver.
Qed.

(** ** Adding, deleting, looking up *)

Lemma same_start_self t : same_start t.(tstat.gen).(tgen.btime) t = true.
Proof. unfold same_start. by rewrite Z.sub_diag. Qed.

(** C17: A task that pdb_addtask stores under an unused key is found by the next
    pdb_gettask with its PID, kind and start time, and the sample read back is
    the one stored. *)
Theorem added_task_found s m rk l t :
  db_rep s m rk -> s.(pdb.heap) !! l = None -> m !! task_key t = None ->
  let g := t.(tstat.gen) in
  exists s1 l' s2,
    pdb_addtask (with_heap s (<[l := pinfo.mk None None None t]> s.(pdb.heap))) g.(tgen.pid) l = Some s1 /\
    pdb_gettask s1 g.(tgen.pid) g.(tgen.isproc) g.(tgen.btime) = Some (Some l', s2) /\
    ts s2.(pdb.heap) l' = Some t /\ db_rep s2 (<[task_key t := t]> m) (rk ∖ {[task_key t]}).
Proof.
  intros HD Hl Hm g. destruct (addtask_map s m rk l t HD Hl Hm) as (s1 & E1 & HD1).
  pose proof (gettask_map s1 _ rk g.(tgen.pid) g.(tgen.isproc) g.(tgen.btime) HD1) as HG.
  rewrite lookup_insert_eq in HG. unfold g in HG. rewrite same_start_self in HG.
  destruct HG as (l' & s2 & E2 & Ht & _ & HD2). exists s1, l', s2. done.
Qed.

(** The sample that a lookup finds. *)
Definition found (s : pdb.pdb) (k : tkey) (btime : Z) : option (option tstat.tstat) :=
  r ← pdb_gettask s k.1 k.2 btime;
  match r.1 with
  | Some l => n ← r.2.(pdb.heap) !! l; Some (Some n.(pinfo.tstat))
  | None => Some None
  end.

Lemma found_map s m rk k btime : db_rep s m rk ->
  found s k btime = Some (match m !! k with Some t => if same_start btime t then Some t else None | None => None end).
Proof.
  intros HD. pose proof (gettask_map s m rk k.1 k.2 btime HD) as HG. destruct k as [pid isproc]. cbn in *.
  unfold found. cbn. destruct (m !! (pid, isproc)) as [t|]; [|by rewrite HG].
  destruct (same_start btime t); [|by rewrite HG]. destruct HG as (l & s' & -> & Ht & _). mstep.
  apply ts_lookup in Ht as (n & Hn & <-). cbn [fst snd]. by rewrite Hn.
Qed.

(** C16: pdb_gettask answers like a finite map: it finds the stored sample of the
    PID and kind when the start times differ by at most one second, and
    nothing otherwise. *)
Theorem gettask_found s m rk k btime : db_rep s m rk ->
  found s k btime =
    Some (match m !! k with
          | Some t => if same_start btime t then Some t else None
          | None => None
          end).
Proof. apply found_map. Qed.

(** pdb_deltask of a stored task returns 1; afterwards no lookup finds the
    task, and every lookup of another key answers as before. *)
Theorem deleted_task_lost s m rk k t : db_rep s m rk -> m !! k = Some t ->
  exists s', pdb_deltask s k.1 k.2 = Some (1, s') /\
    (forall btime, found s' k btime = Some None) /\
    (forall k' btime, k' ≠ k -> found s' k' btime = found s k' btime).
Proof.
  intros HD Hm. destruct (deltask_map s m rk k t HD Hm) as (s' & E & HD'). exists s'. split; [done|].
  split; [intros btime | intros k' btime Hne]; rewrite (found_map s' _ _ _ _ HD').
  - by rewrite lookup_delete_eq.
  - by rewrite (found_map s _ _ _ _ HD), lookup_delete_ne.
Qed.

(** pdb_deltask of a task that is not stored returns 0 and changes nothing
    when the hash bucket has an entry, and dereferences a null pointer when
    the bucket is empty. *)
Theorem deltask_missing s m rk pid isproc : db_rep s m rk -> m !! (pid, isproc) = None ->
  pdb_deltask s pid isproc =
    match s.(pdb.phash) !! hashq pid with Some (Some _) => Some (0, s) | _ => None end.
Proof.
  intros (bs & rs & HH & HR & HU & HC & Hrk) Hm.
  destruct (hash_bucket s bs pid HH) as (p & b & Hp & Hb & Eb & Hc & ND). rewrite Hp.
  destruct p as [l|]; [|unfold pdb_deltask; by rewrite Hp].
  pose proof (deltask_refines s bs rs pid isproc HH HR) as HD.
  destruct (List.find _ (bucket bs pid)) as [x|] eqn:Ef.
  - exfalso. apply find_in in Ef as [Hx Ht]. apply bucket_cells in Hx.
    destruct (cell_ts _ _ _ HH Hx) as [t Hts].
    assert (Hk : task_key t = (pid, isproc)).
    { apply ts_lookup in Hts as (n & Hn & <-). rewrite (cell_test_at _ _ _ _ Hn) in Ht.
      apply andb_true_iff in Ht as [<-%bool_decide_eq_true <-%bool_decide_eq_true]. done. }
    assert (m !! (pid, isproc) = Some t) by (apply HC; eauto). congruence.
  - apply HD. rewrite Eb. by destruct b.
Qed.

(** ** The search for an exited process without PID *)

(** C18: pdb_srchresidue finds an entry of the RESIDUE list with the owner, group
    and name of the task and the same start time; one that is a second off
    only when there is no exact one; and nothing only when there is neither. *)
Theorem srchresidue_best s m rk t : db_rep s m rk ->
  exists r, pdb_srchresidue s t = Some r /\
    match r with
    | Some l => exists n, s.(pdb.heap) !! l = Some n /\ let u := n.(pinfo.tstat) in
        m !! task_key u = Some u /\ task_key u ∈ rk /\
        (like t u 0 \/
         (like t u (-1) \/ like t u 1) /\ forall k v, k ∈ rk -> m !! k = Some v -> ~ like t v 0)
    | None => forall k v d, k ∈ rk -> m !! k = Some v -> like t v d -> d < -1 \/ 1 < d
    end.
Proof. apply srchresidue_map. Qed.

(** ** A concrete database *)

Definition a_task (pid isproc btime utime wio : Z) (name : string) : tstat.tstat :=
  {| tstat.gen := tgen.mk pid pid 1 0 0 0 0 0 0 0 0 1 name isproc 83 0 btime 0 name 1 0 0 0 0 0 EmptyString;
     tstat.cpu := tcpu.mk utime 0 0 0 0 0 0 0 tcpu_zero.(tcpu.ifuture) tcpu_zero.(tcpu.cfuture);
     tstat.dsk := tdsk.mk 0 0 wio 0 0 tdsk_zero.(tdsk.cfuture);
     tstat.mem := tmem_zero;
     tstat.net := tnet_zero |}.

Definition make_task : tstat.tstat := a_task 20 1 110 7 3 "make".
Definition gone_task : tstat.tstat := a_task 0 1 111 9 4 "make".

Lemma rep_idle s m rk : db_rep s m rk -> db_idle s m.
Proof. intros (bs & rs & HH & _ & HU & HC & _). by exists bs. Qed.

(** One process is stored, and nothing is in the RESIDUE list. *)
Lemma a_database : exists s, db_rep s {[(20, 1) := make_task]} ∅.
Proof.
  destruct (makeresidue_map _ _ pdb_init_idle) as (s & _ & HD). rewrite dom_empty_L in HD.
  destruct (addtask_map s ∅ ∅ (fresh (dom s.(pdb.heap))) make_task HD) as (s' & _ & HD').
  - apply not_elem_of_dom, is_fresh.
  - apply lookup_empty.
  - exists s'. exact HD'.
Qed.

(** The same process, in the RESIDUE list. *)
Lemma a_residue : exists s, db_rep s {[(20, 1) := make_task]} {[(20, 1)]}.
Proof.
  destruct a_database as (s & HD). destruct (makeresidue_map _ _ (rep_idle _ _ _ HD)) as (s' & _ & HD').
  rewrite dom_singleton_L in HD'. by exists s'.
Qed.

Lemma sample_cycle_witness : exists s s1 s2 s3,
  pdb_makeresidue s = Some s1 /\ visit [((20, 1), 111); ((21, 1), 5)] s1 = Some s2 /\
  pdb_cleanresidue s2 = Some s3 /\ db_idle s {[(20, 1) := make_task]} /\ db_idle s3 {[(20, 1) := make_task]}.
Proof.
  destruct a_database as (s & HD).
  destruct (sample_cycle s _ [((20, 1), 111); ((21, 1), 5)] (rep_idle _ _ _ HD)) as (s1 & s2 & s3 & E1 & E2 & E3 & HI).
  exists s, s1, s2, s3. do 3 (split; [assumption|]). split; [exact (rep_idle _ _ _ HD)|].
  assert (E : filter (fun kt => sees [((20, 1), 111); ((21, 1), 5)] kt = true) {[(20, 1) := make_task]} =
    ({[(20, 1) := make_task]} : gmap tkey tstat.tstat)) by (by apply map_filter_singleton_True).
  rewrite E in HI. exact HI.
Defined.

Lemma gettask_found_witness : exists s,
  found s (20, 1) 111 = Some (Some make_task) /\ found s (20, 1) 500 = Some None /\ found s (21, 1) 111 = Some None.
Proof.
  destruct a_database as (s & HD). exists s.
  split; [|split]; rewrite (gettask_found s _ _ _ _ HD); by vm_compute.
Defined.

Lemma added_task_found_witness : exists s1 l' s2,
  pdb_gettask s1 20 1 110 = Some (Some l', s2) /\ ts s2.(pdb.heap) l' = Some make_task.
Proof.
  destruct (makeresidue_map _ _ pdb_init_idle) as (s & _ & HD).
  destruct (added_task_found s ∅ _ (fresh (dom s.(pdb.heap))) make_task HD) as (s1 & l' & s2 & _ & E & H & _).
  - apply not_elem_of_dom, is_fresh.
  - apply lookup_empty.
  - exists s1, l', s2. split; [exact E | exact H].
Defined.

Lemma deleted_task_lost_witness : exists s s', pdb_deltask s 20 1 = Some (1, s') /\ found s' (20, 1) 110 = Some None.
Proof.
  destruct a_residue as (s & HD).
  destruct (deleted_task_lost s _ _ (20, 1) make_task HD) as (s' & E & H & _); [apply lookup_singleton_eq|].
  exists s, s'. split; [exact E | apply H].
Defined.

Lemma deltask_missing_witness : exists s, pdb_makeresidue pdb_init = Some s /\ pdb_deltask s 20 1 = None.
Proof.
  destruct (makeresidue_map _ _ pdb_init_idle) as (s & E & HD). exists s. split; [exact E|].
  rewrite (deltask_missing s _ _ 20 1 HD (lookup_empty _)). revert E. vm_compute. by intros [= <-].
Defined.

Lemma srchresidue_best_witness : exists s l n,
  pdb_srchresidue s gone_task = Some (Some l) /\ s.(pdb.heap) !! l = Some n /\ like gone_task n.(pinfo.tstat) (-1).
Proof.
  destruct a_residue as (s & HD).
  destruct (srchresidue_best s _ _ gone_task HD) as ([l|] & E & H).
  - destruct H as (n & Hn & Hm & _ & HL). exists s, l, n. split; [exact E|]. split; [exact Hn|].
    apply lookup_singleton_Some in Hm as [_ Hm]. rewrite <-Hm. by split.
  - exfalso. assert (Hlike : like gone_task make_task (-1)) by by split.
    specialize (H (20, 1) make_task (-1)). destruct H; [by apply elem_of_singleton | apply lookup_singleton_eq | exact Hlike | lia | lia].
Defined.
