(* ===== verification/Privs.v ===== *)
(** * Privileges: droprootprivs of various.c *)
From S2P Require Import Prelude.

(** [droprootprivs()]: [rc] and [errno] are the result of [seteuid]. *)
Definition EPERM : Z := 1.
Definition droprootprivs (rc errno : Z) : Z :=
  if (rc =? -1) && negb (errno =? EPERM) then 0 else 1.
