(* ===== verification/Netatopif.v ===== *)
(** * Exited tasks of netatop: the exit store of netatopif.c

    [exitall] is the array of exited tasks, a pointer into it is an index;
    [esbucket] chains them by PID or by start time. Reading the records from
    the kernel module and the daemon's file is left to the environment. *)
From S2P Require Import Prelude Tstat Privs.

Definition NHASH : nat := 1024.

(** [HASHCALC(x)] *)
Definition hashcalc (x : Z) : nat := Z.to_nat (Z.land x (Z.of_nat NHASH - 1)).

(** [struct taskcount]: unsigned 64-bit counters. *)
Module taskcount.
Record taskcount := mk {
  tcpsndpacks : Z;
  tcpsndbytes : Z;
  tcprcvpacks : Z;
  tcprcvbytes : Z;
  udpsndpacks : Z;
  udpsndbytes : Z;
  udprcvpacks : Z;
  udprcvbytes : Z
}.
End taskcount.

Module netpertask.
Record netpertask := mk {
  id : Z;
  btime : Z;
  command : string;
  tc : taskcount.taskcount
}.
End netpertask.

Module exitstore.
Record exitstore := mk {
  next : option nat;
  isused : Z;
  npt : netpertask.netpertask
}.
End exitstore.

(** The file-scope variables. *)
Module netatop.
Record netatop := mk {
  esbucket : list (option nat);
  exitall : list exitstore.exitstore;
  exitnum : Z;
  exithash : Z
}.
End netatop.

Definition netatop_init : netatop.netatop := netatop.mk (replicate NHASH None) [] 0 0.

(** remove all stored exited processes from the hash bucket list *)
Definition netatop_exiterase (s : netatop.netatop) : netatop.netatop :=
  netatop.mk (replicate NHASH None) [] 0 s.(netatop.exithash).

(** The hash bucket of one record. *)
Definition exitstore_bucket (hashtype : Z) (e : exitstore.exitstore) : nat :=
  if hashtype =? 112 (* 'p' *) then hashcalc e.(exitstore.npt).(netpertask.id)
  else hashcalc e.(exitstore.npt).(netpertask.btime).

Definition exithash_step (hashtype : Z) (i : nat) (s : netatop.netatop) : option netatop.netatop :=
  e ← s.(netatop.exitall) !! i;
  let h := exitstore_bucket hashtype e in
  p ← s.(netatop.esbucket) !! h;
  a ← arr_set s.(netatop.exitall) i (exitstore.mk p e.(exitstore.isused) e.(exitstore.npt));
  b ← arr_set s.(netatop.esbucket) h (Some i);
  Some (netatop.mk b a s.(netatop.exitnum) s.(netatop.exithash)).

(** add all stored tasks to a hash bucket, either by pid (argument 'p') or by
    begintime (argument 'b') *)
Definition netatop_exithash (s : netatop.netatop) (hashtype : Z) : option netatop.netatop :=
  s ← for_lt s.(netatop.exitnum) (exithash_step hashtype) s;
  Some (netatop.mk s.(netatop.esbucket) s.(netatop.exitall) s.(netatop.exitnum) hashtype).

Definition fill_networkcnt (dev pre : tnet.tnet) (esp : exitstore.exitstore) : tnet.tnet :=
  let tc := esp.(exitstore.npt).(netpertask.tc) in
  {| tnet.tcpsnd := i64 (tc.(taskcount.tcpsndpacks) - pre.(tnet.tcpsnd));
     tnet.tcpssz := i64 (tc.(taskcount.tcpsndbytes) - pre.(tnet.tcpssz));
     tnet.tcprcv := i64 (tc.(taskcount.tcprcvpacks) - pre.(tnet.tcprcv));
     tnet.tcprsz := i64 (tc.(taskcount.tcprcvbytes) - pre.(tnet.tcprsz));
     tnet.udpsnd := i64 (tc.(taskcount.udpsndpacks) - pre.(tnet.udpsnd));
     tnet.udpssz := i64 (tc.(taskcount.udpsndbytes) - pre.(tnet.udpssz));
     tnet.udprcv := i64 (tc.(taskcount.udprcvpacks) - pre.(tnet.udprcv));
     tnet.udprsz := i64 (tc.(taskcount.udprcvbytes) - pre.(tnet.udprsz));
     tnet.avail1 := dev.(tnet.avail1);
     tnet.avail2 := dev.(tnet.avail2);
     tnet.cfuture := dev.(tnet.cfuture) |}.

(** One of the eight counters is below that of the previous sample; the
    comparison is unsigned. *)
Definition exit_smaller (esp : exitstore.exitstore) (pre : tnet.tnet) : bool :=
  let tc := esp.(exitstore.npt).(netpertask.tc) in
  (tc.(taskcount.tcpsndpacks) <? u64 pre.(tnet.tcpsnd)) ||
  (tc.(taskcount.tcpsndbytes) <? u64 pre.(tnet.tcpssz)) ||
  (tc.(taskcount.tcprcvpacks) <? u64 pre.(tnet.tcprcv)) ||
  (tc.(taskcount.tcprcvbytes) <? u64 pre.(tnet.tcprsz)) ||
  (tc.(taskcount.udpsndpacks) <? u64 pre.(tnet.udpsnd)) ||
  (tc.(taskcount.udpsndbytes) <? u64 pre.(tnet.udpssz)) ||
  (tc.(taskcount.udprcvpacks) <? u64 pre.(tnet.udprcv)) ||
  (tc.(taskcount.udprcvbytes) <? u64 pre.(tnet.udprsz)).

(** The entry passes the tests of its hash type. *)
Definition exit_match (exithash key : Z) (pre : tstat.tstat) (esp : exitstore.exitstore) : bool :=
  if exithash =? 112 (* 'p' *) then key =? u64 esp.(exitstore.npt).(netpertask.id)
  else if exithash =? 98 (* 'b' *) then
    (esp.(exitstore.isused) =? 0) &&
    (key =? esp.(exitstore.npt).(netpertask.btime)) &&
    bool_decide (esp.(exitstore.npt).(netpertask.command) = pre.(tstat.gen).(tgen.name)) &&
    negb (exit_smaller esp pre.(tstat.net))
  else false.

(** The loop over one bucket: it does not stop at a match. *)
Fixpoint exitfind_loop (fuel : nat) (exithash key : Z) (all : list exitstore.exitstore)
    (esp : option nat) (dev : tnet.tnet) (pre : tstat.tstat) :
    option (list exitstore.exitstore * tnet.tnet) :=
  match fuel with
  | O => None
  | S f =>
      match esp with
      | None => Some (all, dev)
      | Some i =>
          e ← all !! i;
          if exit_match exithash key pre e then
            let e' := if exithash =? 98 then exitstore.mk e.(exitstore.next) 1 e.(exitstore.npt) else e in
            all' ← arr_set all i e';
            exitfind_loop f exithash key all' e.(exitstore.next)
              (fill_networkcnt dev pre.(tstat.net) e) pre
          else exitfind_loop f exithash key all e.(exitstore.next) dev pre
      end
  end.

(** search for relevant exited network task and update counters in tstat
    struct; [dev] is the [net] member of the structure that is updated *)
Definition netatop_exitfind (s : netatop.netatop) (key : Z) (dev : tnet.tnet) (pre : tstat.tstat) :
    option (netatop.netatop * tnet.tnet) :=
  b ← s.(netatop.esbucket) !! hashcalc key;
  match b with
  | None => Some (s, dev)
  | Some _ =>
      r ← exitfind_loop (S (length s.(netatop.exitall))) s.(netatop.exithash) key
            s.(netatop.exitall) b dev pre;
      Some (netatop.mk s.(netatop.esbucket) r.1 s.(netatop.exitnum) s.(netatop.exithash), r.2)
  end.

(** ** The kernel module and the daemon *)

Definition ACCTACTIVE : Z := 0x1.
Definition NETATOP : Z := 0x10.
Definition NETATOPD : Z := 0x20.
Definition NETATOP_BASE_CTL : Z := 15661.
Definition NETATOP_GETCNT_TGID : Z := NETATOP_BASE_CTL + 4.
Definition NETATOP_GETCNT_PID : Z := NETATOP_BASE_CTL + 5.
Definition ENOPROTOOPT : Z := 92.

(** The bits of [supportflags]. *)
Definition set_flags (bits flags : Z) : Z := Z.lor flags bits.
Definition clear_flags (bits flags : Z) : Z := Z.land flags (Z.lnot bits).

(** The variables of the connection: [netsock], [semid] and [netexitfd] are -1
    when they are closed; [nahp] is the mapped header of the exit file. *)
Module netif.
Record netif := mk {
  supportflags : Z;
  netsock : Z;
  semid : Z;
  netexitfd : Z;
  nahp : bool;
  lastseq : Z
}.
End netif.

Definition set_supportflags (v : Z) (g : netif.netif) : netif.netif :=
  netif.mk v g.(netif.netsock) g.(netif.semid) g.(netif.netexitfd) g.(netif.nahp) g.(netif.lastseq).
Definition set_exitfile (fd : Z) (nahp : bool) (g : netif.netif) : netif.netif :=
  netif.mk g.(netif.supportflags) g.(netif.netsock) g.(netif.semid) fd nahp g.(netif.lastseq).

(** What the calls answer. *)
Module netenv.
Record netenv := mk {
  probed : bool;                            (* getsockopt(NETATOP_PROBE) *)
  semget : Z;                               (* semget, -1 when it fails *)
  subscribed : bool;                        (* semop *)
  semval : Z;                               (* semctl(GETVAL) *)
  linked : bool;                            (* fstat: the exit file is not removed *)
  opened : Z;                               (* open of the exit file *)
  mapped : option Z;                        (* mmap, with the current sequence *)
  getcnt : Z -> Z -> option taskcount.taskcount; (* getsockopt of a command and a task *)
  errno : Z;
  seteuid : Z * Z                           (* result and errno of seteuid *)
}.
End netenv.

(** check if at this moment the netatop kernel module is loaded and the netatopd
    daemon is active *)
Definition netatop_probe (e : netenv.netenv) (g : netif.netif) : netif.netif :=
  let no_daemon g := set_supportflags (clear_flags NETATOPD g.(netif.supportflags)) g in
  if g.(netif.netsock) =? -1 then g
  else if negb e.(netenv.probed) then
    set_supportflags (clear_flags NETATOPD (clear_flags NETATOP g.(netif.supportflags))) g
  else
    let g := set_supportflags (set_flags NETATOP g.(netif.supportflags)) g in
    let first := g.(netif.semid) =? -1 in
    let g := if first then netif.mk g.(netif.supportflags) g.(netif.netsock) e.(netenv.semget)
                             g.(netif.netexitfd) g.(netif.nahp) g.(netif.lastseq)
             else g in
    if first && ((g.(netif.semid) =? -1) || negb e.(netenv.subscribed)) then no_daemon g
    else if negb (e.(netenv.semval) =? 1) then no_daemon g
    else if negb (g.(netif.netexitfd) =? -1) && e.(netenv.linked) then
      set_supportflags (set_flags NETATOPD g.(netif.supportflags)) g
    else
      (* a file that was removed is closed; then the file is opened again *)
      let g := set_exitfile e.(netenv.opened) false g in
      if g.(netif.netexitfd) =? -1 then no_daemon g
      else
        match e.(netenv.mapped) with
        | None => no_daemon (set_exitfile (-1) false g)
        | Some curseq =>
            netif.mk (set_flags NETATOPD g.(netif.supportflags)) g.(netif.netsock) g.(netif.semid)
              g.(netif.netexitfd) true curseq
        end.

(** read network counters for one existing task (type 'g' for thread group or
    type 't' for thread) *)
Definition netatop_gettask (e : netenv.netenv) (id type : Z) (g : netif.netif) (tp : tstat.tstat) :
    exitor (netif.netif * tstat.tstat) :=
  let cmd := if type =? 103 (* 'g' *) then NETATOP_GETCNT_TGID else NETATOP_GETCNT_PID in
  let dropped := negb (droprootprivs e.(netenv.seteuid).1 e.(netenv.seteuid).2 =? 0) in
  if Z.land g.(netif.supportflags) NETATOP =? 0 then Ret (g, set_net tnet_zero tp)
  else
    match e.(netenv.getcnt) cmd id with
    | None =>
        let tp := set_net tnet_zero tp in
        if negb dropped then Exit 42
        else if (e.(netenv.errno) =? ENOPROTOOPT) || (e.(netenv.errno) =? EPERM) then
          Ret (netif.mk (clear_flags NETATOPD (clear_flags NETATOP g.(netif.supportflags))) (-1)
                 g.(netif.semid) g.(netif.netexitfd) g.(netif.nahp) g.(netif.lastseq), tp)
        else Ret (g, tp)
    | Some tc =>
        if negb dropped then Exit 42
        else
          let n := tp.(tstat.net) in
          Ret (g, set_net
            (tnet.mk (i64 tc.(taskcount.tcpsndpacks)) (i64 tc.(taskcount.tcpsndbytes))
               (i64 tc.(taskcount.tcprcvpacks)) (i64 tc.(taskcount.tcprcvbytes))
               (i64 tc.(taskcount.udpsndpacks)) (i64 tc.(taskcount.udpsndbytes))
               (i64 tc.(taskcount.udprcvpacks)) (i64 tc.(taskcount.udprcvbytes))
               n.(tnet.avail1) n.(tnet.avail2) n.(tnet.cfuture)) tp)
    end.
