(* ===== verification/NetatopFacts.v ===== *)
(** * What the exit store promises

    Hashing the records by PID turns the array into chains that hold every
    record once; looking up a PID then finds the record that was read first. *)
From S2P Require Import Prelude Tstat Netatopif.

(** The places of a chain. *)
Fixpoint is_chain (all : list exitstore.exitstore) (p : option nat) (l : list nat) : Prop :=
  match l with
  | [] => p = None
  | i :: l' => p = Some i /\ exists e, all !! i = Some e /\ is_chain all e.(exitstore.next) l'
  end.

Lemma is_chain_ext all all' p l :
  (forall i, i ∈ l -> all' !! i = all !! i) -> is_chain all p l -> is_chain all' p l.
Proof.
  revert p. induction l as [|i l IH]; intros p He; cbn; [done|]. intros (-> & e & Hi & Hc).
  split; [done|]. exists e. rewrite He by (by left). split; [done|]. apply IH; [|done].
  intros j Hj. apply He. by right.
Qed.

(** A record has the same key in every state: hashing changes links only. *)
Definition same_records (all all' : list exitstore.exitstore) : Prop :=
  length all' = length all /\
  forall i e, all !! i = Some e -> exists nx,
    all' !! i = Some (exitstore.mk nx e.(exitstore.isused) e.(exitstore.npt)).

Section hash.
Context (hashtype : Z) (all0 : list exitstore.exitstore).

(** The record at place [i] belongs to bucket [h]. *)
Definition in_bucket (h : nat) (i : nat) : bool :=
  match all0 !! i with
  | Some e => (exitstore_bucket hashtype e =? h)%nat
  | None => false
  end.

(** The chain of a bucket after [k] records. *)
Definition bucket_chain (h k : nat) : list nat := rev (List.filter (in_bucket h) (seq 0 k)).

Lemma bucket_chain_lt h k i : i ∈ bucket_chain h k -> (i < k)%nat.
Proof.
  unfold bucket_chain. rewrite list_elem_of_In, <-in_rev, filter_In, in_seq. lia.
Qed.

Lemma bucket_chain_S h k : bucket_chain h (S k) = (if in_bucket h k then [k] else []) ++ bucket_chain h k.
Proof.
  unfold bucket_chain. rewrite seq_S, List.filter_app, rev_app_distr. cbn.
  by destruct (in_bucket h k).
Qed.

(** [k] records are hashed. *)
Definition hashed (k : nat) (s : netatop.netatop) : Prop :=
  length s.(netatop.esbucket) = NHASH /\ same_records all0 s.(netatop.exitall) /\
  s.(netatop.exitnum) = Z.of_nat (length all0) /\
  forall h, (h < NHASH)%nat -> exists p, s.(netatop.esbucket) !! h = Some p /\
    is_chain s.(netatop.exitall) p (bucket_chain h k).

Lemma hashcalc_lt x : (hashcalc x < NHASH)%nat.
Proof.
  unfold hashcalc. change (Z.of_nat NHASH - 1) with (Z.ones 10). rewrite Z.land_ones by lia.
  pose proof (Z.mod_pos_bound x (2 ^ 10) ltac:(lia)). unfold NHASH. lia.
Qed.

Lemma bucket_lt e : (exitstore_bucket hashtype e < NHASH)%nat.
Proof. unfold exitstore_bucket. destruct (_ =? _); apply hashcalc_lt. Qed.

Lemma bucket_same nx u e : exitstore_bucket hashtype (exitstore.mk nx u e.(exitstore.npt)) = exitstore_bucket hashtype e.
Proof. done. Qed.

Lemma exithash_step_ok k s : (k < length all0)%nat -> hashed k s ->
  exists s', exithash_step hashtype k s = Some s' /\ hashed (S k) s'.
Proof.
  intros Hk (HB & (HL & HR) & HN & HC). destruct (lookup_lt_is_Some_2 all0 k Hk) as [e0 He0].
  destruct (HR k e0 He0) as [nx He]. unfold exithash_step. rewrite He. mstep. rewrite bucket_same.
  destruct (HC _ (bucket_lt e0)) as (p & Hp & Hch). rewrite Hp. mstep.
  rewrite (arr_set_Some s.(netatop.exitall)) by (rewrite HL; exact Hk).
  rewrite (arr_set_Some s.(netatop.esbucket)) by (rewrite HB; apply bucket_lt). mstep.
  eexists. split; [done|]. split; [|split; [|split; [done|]]]; cbn [netatop.esbucket netatop.exitall].
  - by rewrite length_insert.
  - split; [by rewrite length_insert|]. intros i e Hi. rewrite list_lookup_insert.
    case_decide as E; [destruct E as [<- _]; simplify_eq; by eexists | by apply HR].
  - intros h Hh. rewrite bucket_chain_S. unfold in_bucket at 1. rewrite He0, list_lookup_insert.
    assert (Hext : forall q l, (forall i, i ∈ l -> (i < k)%nat) -> is_chain s.(netatop.exitall) q l ->
      is_chain (<[k := exitstore.mk p e0.(exitstore.isused) e0.(exitstore.npt)]> s.(netatop.exitall)) q l).
    { intros q l Hlt. apply is_chain_ext. intros i Hi%Hlt. by rewrite list_lookup_insert_ne by lia. }
    destruct (Nat.eqb_spec (exitstore_bucket hashtype e0) h) as [E|E].
    + rewrite decide_True by (split; [done | by rewrite HB, E]). eexists. split; [done|]. split; [done|].
      eexists. rewrite list_lookup_insert_eq by (rewrite HL; exact Hk).
      split; [done|]. apply Hext; [apply bucket_chain_lt|].
      by rewrite <-E.
    + rewrite decide_False by tauto. destruct (HC h Hh) as (q & Hq & Hcq). exists q. split; [done|].
      apply Hext; [apply bucket_chain_lt | done].
Qed.

(** The store as it is before hashing: erased, and then filled. *)
Definition unhashed (s : netatop.netatop) : Prop :=
  s.(netatop.esbucket) = replicate NHASH None /\ s.(netatop.exitall) = all0 /\
  s.(netatop.exitnum) = Z.of_nat (length all0).

Lemma exithash_ok s : unhashed s ->
  exists s', netatop_exithash s hashtype = Some s' /\ hashed (length all0) s' /\
    s'.(netatop.exithash) = hashtype.
Proof.
  intros (HB & HA & HN). unfold netatop_exithash. rewrite HN.
  destruct (for_lt_inv (exithash_step hashtype) hashed (Z.of_nat (length all0)) s) as (s' & -> & HI).
  - intros i s1 Hi. apply exithash_step_ok. lia.
  - split; [by rewrite HB, length_replicate|]. split; [|split; [done|]].
    + rewrite HA. split; [done|]. intros i e ->. exists e.(exitstore.next). by destruct e.
    + intros h Hh. exists None. by rewrite HB, lookup_replicate_2.
  - rewrite Nat2Z.id in HI. eexists. split; [done|]. done.
Qed.
End hash.

(** ** Looking up a PID *)

Definition has_id (key : Z) (e : exitstore.exitstore) : bool :=
  key =? u64 e.(exitstore.npt).(netpertask.id).

Lemma exit_match_pid key pre e : exit_match 112 key pre e = has_id key e.
Proof. done. Qed.

Lemma hashcalc_u64 x : hashcalc (u64 x) = hashcalc x.
Proof.
  unfold hashcalc, u64. change (Z.of_nat NHASH - 1) with (Z.ones 10). rewrite !Z.land_ones by lia. f_equal.
  change (2 ^ 64) with (2 ^ 10 * 2 ^ 54). by rewrite Z.rem_mul_r, Z.mul_comm, Z.mod_add, Z.mod_mod by lia.
Qed.

Lemma fill_twice dev pre e1 e2 :
  fill_networkcnt (fill_networkcnt dev pre e1) pre e2 = fill_networkcnt dev pre e2.
Proof. done. Qed.

(** The counters of the record that is found. *)
Definition filled (dev : tnet.tnet) (pre : tstat.tstat) (r : option exitstore.exitstore) : tnet.tnet :=
  match r with Some e => fill_networkcnt dev pre.(tstat.net) e | None => dev end.

Lemma filled_fill dev pre e r :
  filled (fill_networkcnt dev pre.(tstat.net) e) pre r = filled dev pre (match r with Some x => Some x | None => Some e end).
Proof. by destruct r. Qed.

Lemma exitfind_chain key all l p dev pre fuel : is_chain all p l -> (length l < fuel)%nat ->
  exitfind_loop fuel 112 key all p dev pre =
    Some (all, filled dev pre (List.find (has_id key) (rev (omap (fun i => all !! i) l)))).
Proof.
  revert p dev fuel. induction l as [|i l IH]; intros p dev [|fuel] Hc Hf; cbn [length] in Hf; try lia.
  - cbn in Hc. by subst p.
  - destruct Hc as (-> & e & He & Hc). cbn [exitfind_loop]. rewrite He. mstep. rewrite exit_match_pid.
    assert (Hrev : rev (omap (fun i => all !! i) (i :: l)) = rev (omap (fun i => all !! i) l) ++ [e]).
    { cbn. by rewrite He. }
    rewrite Hrev. assert (Hfa : forall (l : list exitstore.exitstore) x, List.find (has_id key) (l ++ [x]) =
      match List.find (has_id key) l with Some y => Some y | None => if has_id key x then Some x else None end).
    { clear. intros l x. induction l as [|y l IH]; cbn; [done|]. by destruct (has_id key y). }
    rewrite Hfa. destruct (has_id key e).
    + cbn [Z.eqb]. rewrite arr_set_Some by by eapply lookup_lt_Some. mstep.
      change (112 =? 98) with false. cbv iota. rewrite list_insert_id by done. rewrite IH by (done || lia).
      by rewrite filled_fill.
    + rewrite IH by (done || lia). f_equal. f_equal. by destruct (List.find _ _).
Qed.

Lemma omap_rev {A B} (f : A -> option B) l : rev (omap f (rev l)) = omap f l.
Proof.
  induction l as [|x l IH]; cbn; [done|]. rewrite omap_app, rev_app_distr, IH. cbn. by destruct (f x).
Qed.

Lemma find_bucket key all0 all : same_records all0 all -> forall l k, (forall j, l !! j = all0 !! (k + j)%nat) ->
  exitstore.npt <$> List.find (has_id key)
    (omap (fun i => all !! i) (List.filter (in_bucket 112 all0 (hashcalc key)) (seq k (length l)))) =
  exitstore.npt <$> List.find (has_id key) l.
Proof.
  intros [_ HR]. induction l as [|e l IH]; intros k Hl; [done|]. cbn [length seq List.filter].
  assert (He : all0 !! k = Some e) by (rewrite <-(Nat.add_0_r k), <-Hl; done).
  assert (Hl' : forall j, l !! j = all0 !! (S k + j)%nat).
  { intros j. replace (S k + j)%nat with (k + S j)%nat by lia. by rewrite <-Hl. }
  specialize (IH (S k) Hl'). unfold in_bucket at 1. rewrite He. destruct (HR k e He) as [nx Hk].
  change (exitstore_bucket 112 e) with (hashcalc e.(exitstore.npt).(netpertask.id)).
  destruct (Nat.eqb_spec (hashcalc e.(exitstore.npt).(netpertask.id)) (hashcalc key)) as [E|E].
  - cbn [omap list_omap]. rewrite Hk. cbn [List.find].
    assert (Hid : has_id key (exitstore.mk nx e.(exitstore.isused) e.(exitstore.npt)) = has_id key e) by done.
    rewrite Hid. by destruct (has_id key e).
  - cbn [List.find]. destruct (has_id key e) eqn:Hid; [|done]. exfalso. apply E.
    unfold has_id in Hid. apply Z.eqb_eq in Hid. by rewrite Hid, hashcalc_u64.
Qed.

Lemma filled_npt dev pre r1 r2 : exitstore.npt <$> r1 = exitstore.npt <$> r2 -> filled dev pre r1 = filled dev pre r2.
Proof.
  destruct r1 as [[n1 u1 t1]|], r2 as [[n2 u2 t2]|]; cbn; intros H; simplify_eq; try done.
Qed.

(** With the store hashed by PID, a lookup gives the counters of the first
    record of that PID and leaves the store alone. *)
Lemma exitfind_by_pid all0 s key dev pre : hashed 112 all0 (length all0) s -> s.(netatop.exithash) = 112 ->
  netatop_exitfind s key dev pre = Some (s, filled dev pre (List.find (has_id key) all0)).
Proof.
  intros (HB & HS & HN & HC) Hh. unfold netatop_exitfind.
  destruct (HC (hashcalc key) (hashcalc_lt key)) as (p & Hp & Hch). rewrite Hp. mstep. rewrite Hh.
  set (l := bucket_chain 112 all0 (hashcalc key) (length all0)) in *.
  assert (Hl : (length l <= length s.(netatop.exitall))%nat).
  { destruct HS as [-> _]. unfold l, bucket_chain. rewrite length_rev.
    etrans; [apply List.filter_length_le|]. by rewrite length_seq. }
  assert (E : filled dev pre (List.find (has_id key) (rev (omap (fun i => s.(netatop.exitall) !! i) l))) =
              filled dev pre (List.find (has_id key) all0)).
  { apply filled_npt. unfold l, bucket_chain. rewrite omap_rev. by apply find_bucket. }
  destruct p as [i|].
  - rewrite (exitfind_chain key _ l) by (done || lia). mstep. cbn [fst snd]. rewrite E, <-Hh.
    by destruct s.
  - rewrite <-E. by destruct l; [|destruct Hch].
Qed.

(** C39: After netatop_exithash by PID, netatop_exitfind fills the network
    counters from the first stored record of the PID, leaves them alone when
    there is none, and does not change the store. *)
Theorem exithash_then_exitfind s key dev pre :
  s.(netatop.esbucket) = replicate NHASH None ->
  s.(netatop.exitnum) = Z.of_nat (length s.(netatop.exitall)) ->
  exists s', netatop_exithash s 112 = Some s' /\ same_records s.(netatop.exitall) s'.(netatop.exitall) /\
    netatop_exitfind s' key dev pre =
      Some (s', filled dev pre (List.find (has_id key) s.(netatop.exitall))).
Proof.
  intros HB HN. destruct (exithash_ok 112 s.(netatop.exitall) s) as (s' & E & HH & Eh); [done|].
  exists s'. split; [done|]. split; [apply HH|]. by apply exitfind_by_pid.
Qed.

(** Two exited tasks of one bucket. *)
Definition a_record (id btime bytes : Z) : exitstore.exitstore :=
  exitstore.mk None 0 (netpertask.mk id btime "make" (taskcount.mk 1 bytes 0 0 0 0 0 0)).

Lemma exithash_then_exitfind_witness : exists s' dev,
  netatop_exithash (netatop.mk (replicate NHASH None) [a_record 20 5 700; a_record 1044 6 900] 2 0) 112 = Some s' /\
  netatop_exitfind s' 1044 tnet_zero tstat_zero = Some (s', dev) /\ dev.(tnet.tcpssz) = 900.
Proof.
  destruct (exithash_then_exitfind
    (netatop.mk (replicate NHASH None) [a_record 20 5 700; a_record 1044 6 900] 2 0) 1044 tnet_zero tstat_zero
    eq_refl eq_refl) as (s' & E & _ & F).
  eexists s', _. split; [exact E|]. split; [exact F | done].
Defined.
