(* ===== verification/Deviattask.v ===== *)
(** * Process activity during the last sample: deviattask and calcdiff of deviate.c

    The memory blocks of the function are lists; a pointer into [taskall] is
    an index. Blocks obtained from [malloc] have the arbitrary content [junk]
    until they are written; a failed allocation ends the program in
    [ptrverify] and is not modelled. *)
From S2P Require Import Prelude Tstat Sstat Counter Procdbase Netatopif.

(** [~(INT_MAX)] *)
Definition NOT_INT_MAX : Z := - 2 ^ 31.

(** [struct devtstat]: [None] is an indeterminate entry of a pointer list. *)
Module devtstat.
Record devtstat := mk {
  taskall : list tstat.tstat;
  procall : list (option nat);
  procactive : list (option nat);
  ntaskall : Z;
  ntaskactive : Z;
  nprocall : Z;
  nprocactive : Z;
  totrun : Z;
  totslpi : Z;
  totslpu : Z;
  totzombie : Z
}.
End devtstat.

(** ** calcdiff *)

(** A network counter that restarted with the netatop module. *)
Definition netdiff (cur pre : Z) : Z := if pre <=? cur then subcount cur pre else cur.

(** The sanity check of consumed ticks. *)
Definition sane_ticks (totusedcpu ticks : Z) : Z := if totusedcpu <? ticks then 1 else ticks.

(** [devstat->gen = curstat->gen], marked when the task is new. *)
Definition diff_gen (cur : tgen.tgen) (newtask : bool) : tgen.tgen :=
  if newtask then set_excode (i32 (Z.lor cur.(tgen.excode) NOT_INT_MAX)) cur else cur.

Definition diff_cpu (dev cur pre : tcpu.tcpu) (active : bool) (totusedcpu : Z) : tcpu.tcpu :=
  {| tcpu.utime := if active then sane_ticks totusedcpu (subcount cur.(tcpu.utime) pre.(tcpu.utime))
                   else dev.(tcpu.utime);
     tcpu.stime := if active then sane_ticks totusedcpu (subcount cur.(tcpu.stime) pre.(tcpu.stime))
                   else dev.(tcpu.stime);
     tcpu.nice := cur.(tcpu.nice);
     tcpu.prio := cur.(tcpu.prio);
     tcpu.rtprio := cur.(tcpu.rtprio);
     tcpu.policy := cur.(tcpu.policy);
     tcpu.curcpu := cur.(tcpu.curcpu);
     tcpu.sleepavg := cur.(tcpu.sleepavg);
     tcpu.ifuture := dev.(tcpu.ifuture);
     tcpu.cfuture := dev.(tcpu.cfuture) |}.

Definition diff_dsk (dev cur pre : tdsk.tdsk) : tdsk.tdsk :=
  {| tdsk.rio := subcount cur.(tdsk.rio) pre.(tdsk.rio);
     tdsk.rsz := subcount cur.(tdsk.rsz) pre.(tdsk.rsz);
     tdsk.wio := subcount cur.(tdsk.wio) pre.(tdsk.wio);
     tdsk.wsz := subcount cur.(tdsk.wsz) pre.(tdsk.wsz);
     tdsk.cwsz := subcount cur.(tdsk.cwsz) pre.(tdsk.cwsz);
     tdsk.cfuture := dev.(tdsk.cfuture) |}.

Definition diff_mem (dev cur pre : tmem.tmem) (active : bool) : tmem.tmem :=
  {| tmem.minflt := if active then subcount cur.(tmem.minflt) pre.(tmem.minflt) else dev.(tmem.minflt);
     tmem.majflt := if active then subcount cur.(tmem.majflt) pre.(tmem.majflt) else dev.(tmem.majflt);
     tmem.vexec := cur.(tmem.vexec);
     tmem.vmem := cur.(tmem.vmem);
     tmem.rmem := cur.(tmem.rmem);
     tmem.pmem := cur.(tmem.pmem);
     tmem.vgrow := if active then i64 (cur.(tmem.vmem) - pre.(tmem.vmem)) else dev.(tmem.vgrow);
     tmem.rgrow := if active then i64 (cur.(tmem.rmem) - pre.(tmem.rmem)) else dev.(tmem.rgrow);
     tmem.vdata := cur.(tmem.vdata);
     tmem.vstack := cur.(tmem.vstack);
     tmem.vlibs := cur.(tmem.vlibs);
     tmem.vswap := cur.(tmem.vswap);
     tmem.cfuture := dev.(tmem.cfuture) |}.

Definition diff_net (dev cur pre : tnet.tnet) : tnet.tnet :=
  {| tnet.tcpsnd := netdiff cur.(tnet.tcpsnd) pre.(tnet.tcpsnd);
     tnet.tcpssz := netdiff cur.(tnet.tcpssz) pre.(tnet.tcpssz);
     tnet.tcprcv := netdiff cur.(tnet.tcprcv) pre.(tnet.tcprcv);
     tnet.tcprsz := netdiff cur.(tnet.tcprsz) pre.(tnet.tcprsz);
     tnet.udpsnd := netdiff cur.(tnet.udpsnd) pre.(tnet.udpsnd);
     tnet.udpssz := netdiff cur.(tnet.udpssz) pre.(tnet.udpssz);
     tnet.udprcv := netdiff cur.(tnet.udprcv) pre.(tnet.udprcv);
     tnet.udprsz := netdiff cur.(tnet.udprsz) pre.(tnet.udprsz);
     tnet.avail1 := dev.(tnet.avail1);
     tnet.avail2 := dev.(tnet.avail2);
     tnet.cfuture := dev.(tnet.cfuture) |}.

(** calculate the differences between the current sample and the previous
    sample for a task; [dev] is the old content of [*devstat] *)
Definition calcdiff (dev curstat prestat : tstat.tstat) (newtask : bool) (totusedcpu : Z) : tstat.tstat :=
  let active := curstat.(tstat.gen).(tgen.wasinactive) =? 0 in
  let dev := if active then dev else tstat_zero in
  {| tstat.gen := diff_gen curstat.(tstat.gen) newtask;
     tstat.cpu := diff_cpu dev.(tstat.cpu) curstat.(tstat.cpu) prestat.(tstat.cpu) active totusedcpu;
     tstat.dsk := if active then diff_dsk dev.(tstat.dsk) curstat.(tstat.dsk) prestat.(tstat.dsk)
                  else dev.(tstat.dsk);
     tstat.mem := diff_mem dev.(tstat.mem) curstat.(tstat.mem) prestat.(tstat.mem) active;
     tstat.net := if active then diff_net dev.(tstat.net) curstat.(tstat.net) prestat.(tstat.net)
                  else dev.(tstat.net) |}.

(** ** The loop over the present tasks *)

(** What the loop reads and writes: [curtpres], [*devtstat], the process
    database, [prestat] and [thisproc]. *)
Module present.
Record present := mk {
  cur : list tstat.tstat;
  taskall : list tstat.tstat;
  ntaskactive : Z;
  nprocall : Z;
  nprocactive : Z;
  totrun : Z;
  totslpi : Z;
  totslpu : Z;
  totzombie : Z;
  db : pdb.pdb;
  prestat : tstat.tstat;
  thisproc : nat
}.
End present.

(** The counters of a process entry. *)
Definition count_process (c : nat) (curstat : tstat.tstat) (s : present.present) : present.present :=
  let g := curstat.(tstat.gen) in
  if g.(tgen.isproc) =? 0 then s
  else
    let zombie := g.(tgen.state) =? 90 (* 'Z' *) in
    {| present.cur := s.(present.cur);
       present.taskall := s.(present.taskall);
       present.ntaskactive := s.(present.ntaskactive);
       present.nprocall := u64 (s.(present.nprocall) + 1);
       present.nprocactive := s.(present.nprocactive);
       present.totrun := if zombie then s.(present.totrun) else u64 (s.(present.totrun) + g.(tgen.nthrrun));
       present.totslpi := if zombie then s.(present.totslpi) else u64 (s.(present.totslpi) + g.(tgen.nthrslpi));
       present.totslpu := if zombie then s.(present.totslpu) else u64 (s.(present.totslpu) + g.(tgen.nthrslpu));
       present.totzombie := if zombie then u64 (s.(present.totzombie) + 1) else s.(present.totzombie);
       present.db := s.(present.db);
       present.prestat := s.(present.prestat);
       present.thisproc := c |}.

(** The counters of an active entry: an active thread also makes its process
    active. *)
Definition count_active (isproc : Z) (s : present.present) : option present.present :=
  let mk taskall na np :=
    {| present.cur := s.(present.cur);
       present.taskall := taskall;
       present.ntaskactive := na;
       present.nprocall := s.(present.nprocall);
       present.nprocactive := np;
       present.totrun := s.(present.totrun);
       present.totslpi := s.(present.totslpi);
       present.totslpu := s.(present.totslpu);
       present.totzombie := s.(present.totzombie);
       present.db := s.(present.db);
       present.prestat := s.(present.prestat);
       present.thisproc := s.(present.thisproc) |} in
  let na := u64 (s.(present.ntaskactive) + 1) in
  if negb (isproc =? 0) then
    Some (mk s.(present.taskall) na (u64 (s.(present.nprocactive) + 1)))
  else
    p ← s.(present.taskall) !! s.(present.thisproc);
    if p.(tstat.gen).(tgen.wasinactive) =? 0 then
      Some (mk s.(present.taskall) na s.(present.nprocactive))
    else
      taskall ← arr_set s.(present.taskall) s.(present.thisproc) (upd_gen (set_wasinactive 0) p);
      Some (mk taskall (u64 (na + 1)) (u64 (s.(present.nprocactive) + 1))).

Definition set_present (cur taskall : list tstat.tstat) (db : pdb.pdb) (prestat : tstat.tstat)
    (s : present.present) : present.present :=
  {| present.cur := cur;
     present.taskall := taskall;
     present.ntaskactive := s.(present.ntaskactive);
     present.nprocall := s.(present.nprocall);
     present.nprocactive := s.(present.nprocactive);
     present.totrun := s.(present.totrun);
     present.totslpi := s.(present.totslpi);
     present.totslpu := s.(present.totslpu);
     present.totzombie := s.(present.totzombie);
     present.db := db;
     present.prestat := prestat;
     present.thisproc := s.(present.thisproc) |}.

(** [pinfo = calloc(1, sizeof(struct pinfo)); pinfo->tstat = *curstat;
    pdb_addtask(curstat->gen.pid, pinfo);] *)
Definition new_task (db : pdb.pdb) (curstat : tstat.tstat) : option pdb.pdb :=
  let l := fresh (dom db.(pdb.heap)) in
  pdb_addtask (with_heap db (<[l := pinfo.mk None None None curstat]> db.(pdb.heap)))
    curstat.(tstat.gen).(tgen.pid) l.

(** The comparison with the database and the bookkeeping of one task; the
    result tells whether the task is new. *)
Definition present_lookup (c : nat) (curstat : tstat.tstat) (s : present.present) :
    option (bool * present.present) :=
  let g := curstat.(tstat.gen) in
  r ← pdb_gettask s.(present.db) g.(tgen.pid) g.(tgen.isproc) g.(tgen.btime);
  let db := r.2 in
  match r.1 with
  | Some l =>
      n ← db.(pdb.heap) !! l;
      if decide (curstat = n.(pinfo.tstat)) then
        cur ← arr_set s.(present.cur) c (upd_gen (set_wasinactive 1) curstat);
        Some (false, set_present cur s.(present.taskall) db s.(present.prestat) s)
      else
        h ← store db.(pdb.heap) l (set_tstat curstat);
        cur ← arr_set s.(present.cur) c (upd_gen (set_wasinactive 0) curstat);
        s ← count_active g.(tgen.isproc)
              (set_present cur s.(present.taskall) (with_heap db h) n.(pinfo.tstat) s);
        Some (false, s)
  | None =>
      let curstat := upd_gen (set_wasinactive 0) curstat in
      cur ← arr_set s.(present.cur) c curstat;
      s ← count_active g.(tgen.isproc) (set_present cur s.(present.taskall) db tstat_zero s);
      db ← new_task s.(present.db) curstat;
      Some (true, set_present s.(present.cur) s.(present.taskall) db s.(present.prestat) s)
  end.

Definition present_step (totusedcpu : Z) (c : nat) (s : present.present) : option present.present :=
  curstat ← s.(present.cur) !! c;
  r ← present_lookup c curstat (count_process c curstat s);
  let s := r.2 in
  curstat ← s.(present.cur) !! c;
  dev ← s.(present.taskall) !! c;
  taskall ← arr_set s.(present.taskall) c (calcdiff dev curstat s.(present.prestat) r.1 totusedcpu);
  Some (set_present s.(present.cur) taskall s.(present.db) s.(present.prestat) s).

(** ** The loop over the exited processes *)

Module exited.
Record exited := mk {
  cur : list tstat.tstat;
  taskall : list tstat.tstat;
  ntaskactive : Z;
  nprocall : Z;
  nprocactive : Z;
  db : pdb.pdb;
  na : netatop.netatop
}.
End exited.

(** The sample of the previous interval of an exited process: by PID when the
    record has one, else among the entries of the RESIDUE list unless the
    process started after the previous sample. *)
Definition exit_prestat (pretime : Z) (db : pdb.pdb) (curstat : tstat.tstat) :
    option (tstat.tstat * pdb.pdb) :=
  let g := curstat.(tstat.gen) in
  if negb (g.(tgen.pid) =? 0) then
    r ← pdb_gettask db g.(tgen.pid) 1 g.(tgen.btime);
    match r.1 with
    | Some l => n ← r.2.(pdb.heap) !! l; Some (n.(pinfo.tstat), r.2)
    | None => Some (tstat_zero, r.2)
    end
  else if pretime <? g.(tgen.btime) then Some (tstat_zero, db)
  else
    r ← pdb_srchresidue db curstat;
    match r with
    | Some l => n ← db.(pdb.heap) !! l; Some (n.(pinfo.tstat), db)
    | None => Some (tstat_zero, db)
    end.

(** A counter of an accounting record may be below the last sample. *)
Definition exit_diff (cur pre : Z) : Z := if pre <? cur then i64 (cur - pre) else 0.

Definition exit_gen (cur pre : tgen.tgen) : tgen.tgen :=
  let g := if cur.(tgen.pid) =? 0 then set_pid pre.(tgen.pid) cur else cur in
  let g := if pre.(tgen.pid) =? 0 then set_excode (i32 (Z.lor g.(tgen.excode) NOT_INT_MAX)) g else g in
  set_cmdline pre.(tgen.cmdline) g.

(** The deviations of an exited process, network counters apart. *)
Definition exit_devstat (cur pre : tstat.tstat) : tstat.tstat :=
  let c := cur.(tstat.cpu) in let p := pre.(tstat.cpu) in
  {| tstat.gen := exit_gen cur.(tstat.gen) pre.(tstat.gen);
     tstat.cpu :=
       {| tcpu.utime := exit_diff c.(tcpu.utime) p.(tcpu.utime);
          tcpu.stime := exit_diff c.(tcpu.stime) p.(tcpu.stime);
          tcpu.nice := 0; tcpu.prio := 0; tcpu.rtprio := 0; tcpu.policy := 0;
          tcpu.curcpu := 0; tcpu.sleepavg := 0;
          tcpu.ifuture := tcpu_zero.(tcpu.ifuture); tcpu.cfuture := tcpu_zero.(tcpu.cfuture) |};
     tstat.dsk :=
       {| tdsk.rio :=
            if i64 (pre.(tstat.dsk).(tdsk.rio) + pre.(tstat.dsk).(tdsk.wio)) <? cur.(tstat.dsk).(tdsk.rio)
            then i64 (i64 (cur.(tstat.dsk).(tdsk.rio) - pre.(tstat.dsk).(tdsk.rio)) - pre.(tstat.dsk).(tdsk.wio))
            else 0;
          tdsk.rsz := 0; tdsk.wio := 0; tdsk.wsz := 0; tdsk.cwsz := 0;
          tdsk.cfuture := tdsk_zero.(tdsk.cfuture) |};
     tstat.mem :=
       {| tmem.minflt := exit_diff cur.(tstat.mem).(tmem.minflt) pre.(tstat.mem).(tmem.minflt);
          tmem.majflt := exit_diff cur.(tstat.mem).(tmem.majflt) pre.(tstat.mem).(tmem.majflt);
          tmem.vexec := 0; tmem.vmem := 0; tmem.rmem := 0; tmem.pmem := 0; tmem.vgrow := 0;
          tmem.rgrow := 0; tmem.vdata := 0; tmem.vstack := 0; tmem.vlibs := 0; tmem.vswap := 0;
          tmem.cfuture := tmem_zero.(tmem.cfuture) |};
     tstat.net := tnet_zero |}.

(** [supportflags & NETATOPD] *)
Definition netatopd_on (supportflags : Z) : bool := negb (Z.land supportflags NETATOPD =? 0).

(** try to match the network counters of netatop *)
Definition exit_network (supportflags hashtype : Z) (curstat dev pre : tstat.tstat)
    (na : netatop.netatop) : option (netatop.netatop * tstat.tstat) :=
  if netatopd_on supportflags then
    let val := u64 (if hashtype =? 112 then curstat.(tstat.gen).(tgen.pid)
                    else curstat.(tstat.gen).(tgen.btime)) in
    r ← netatop_exitfind na val dev.(tstat.net) pre;
    Some (r.1, set_net r.2 dev)
  else Some (na, dev).

(** One exited process: [c] indexes [curpexit], [d0 + c] indexes [taskall]. *)
Definition exit_step (pretime supportflags hashtype : Z) (d0 : nat) (c : nat) (s : exited.exited) :
    option exited.exited :=
  curstat ← s.(exited.cur) !! c;
  let curstat := upd_gen (set_wasinactive 0) curstat in
  cur ← arr_set s.(exited.cur) c curstat;
  p ← exit_prestat pretime s.(exited.db) curstat;
  let prestat := p.1 in
  n ← exit_network supportflags hashtype curstat (exit_devstat curstat prestat) prestat s.(exited.na);
  taskall ← arr_set s.(exited.taskall) (d0 + c) n.2;
  db ← (if 0 <? prestat.(tstat.gen).(tgen.pid) then
          r ← pdb_deltask p.2 prestat.(tstat.gen).(tgen.pid) prestat.(tstat.gen).(tgen.isproc);
          Some r.2
        else Some p.2);
  Some {| exited.cur := cur;
          exited.taskall := taskall;
          exited.ntaskactive := u64 (s.(exited.ntaskactive) + 1);
          exited.nprocall := u64 (s.(exited.nprocall) + 1);
          exited.nprocactive := u64 (s.(exited.nprocactive) + 1);
          exited.db := db;
          exited.na := n.1 |}.

(** ** The pointer lists *)

Module lists.
Record lists := mk {
  procall : list (option nat);
  pall : nat;
  procactive : list (option nat);
  pact : nat
}.
End lists.

Definition list_step (taskall : list tstat.tstat) (c : nat) (s : lists.lists) : option lists.lists :=
  dev ← taskall !! c;
  let g := dev.(tstat.gen) in
  if g.(tgen.isproc) =? 0 then Some s
  else
    all ← arr_set s.(lists.procall) s.(lists.pall) (Some c);
    if g.(tgen.wasinactive) =? 0 then
      act ← arr_set s.(lists.procactive) s.(lists.pact) (Some c);
      Some (lists.mk all (S s.(lists.pall)) act (S s.(lists.pact)))
    else Some (lists.mk all (S s.(lists.pall)) s.(lists.procactive) s.(lists.pact)).

(** ** deviattask *)

(** needed for sanity check later on... *)
Definition total_cpu (c : percpu.percpu) : Z :=
  i64 (c.(percpu.stime) + c.(percpu.utime) + c.(percpu.ntime) + c.(percpu.itime) +
       c.(percpu.wtime) + c.(percpu.Itime) + c.(percpu.Stime) + c.(percpu.steal)).

(** The state the function finds and leaves: the samples it is handed, the
    process database and the exit store. *)
Module dtask.
Record dtask := mk {
  curtpres : list tstat.tstat;
  curpexit : list tstat.tstat;
  db : pdb.pdb;
  na : netatop.netatop
}.
End dtask.

Definition exit_hashtype (curpexit : list tstat.tstat) : option Z :=
  e ← curpexit !! 0%nat;
  Some (if e.(tstat.gen).(tgen.pid) =? 0 then 98 (* 'b' *) else 112 (* 'p' *)).

Definition deviattask (supportflags pretime : Z) (junk : list tstat.tstat) (prejunk : tstat.tstat)
    (ntaskpres nprocexit : Z) (all : percpu.percpu) (s : dtask.dtask) :
    option (dtask.dtask * devtstat.devtstat) :=
  let totusedcpu := total_cpu all in
  db ← pdb_makeresidue s.(dtask.db);
  p ← for_lt ntaskpres (present_step totusedcpu)
        {| present.cur := s.(dtask.curtpres); present.taskall := junk;
           present.ntaskactive := 0; present.nprocall := 0; present.nprocactive := 0;
           present.totrun := 0; present.totslpi := 0; present.totslpu := 0; present.totzombie := 0;
           present.db := db; present.prestat := prejunk; present.thisproc := 0%nat |};
  h ← (if (0 <? nprocexit) && netatopd_on supportflags then
         ht ← exit_hashtype s.(dtask.curpexit);
         na ← netatop_exithash s.(dtask.na) ht;
         Some (ht, na)
       else Some (112, s.(dtask.na)));
  e ← for_lt nprocexit (exit_step pretime supportflags h.1 (Z.to_nat ntaskpres))
        {| exited.cur := s.(dtask.curpexit); exited.taskall := p.(present.taskall);
           exited.ntaskactive := p.(present.ntaskactive); exited.nprocall := p.(present.nprocall);
           exited.nprocactive := p.(present.nprocactive);
           exited.db := p.(present.db); exited.na := h.2 |};
  db ← pdb_cleanresidue e.(exited.db);
  l ← for_lt (ntaskpres + nprocexit) (list_step e.(exited.taskall))
        {| lists.procall := replicate (Z.to_nat e.(exited.nprocall)) None; lists.pall := 0%nat;
           lists.procactive := replicate (Z.to_nat e.(exited.nprocactive)) None; lists.pact := 0%nat |};
  Some ({| dtask.curtpres := p.(present.cur); dtask.curpexit := e.(exited.cur);
           dtask.db := db; dtask.na := e.(exited.na) |},
        {| devtstat.taskall := e.(exited.taskall);
           devtstat.procall := l.(lists.procall);
           devtstat.procactive := l.(lists.procactive);
           devtstat.ntaskall := ntaskpres + nprocexit;
           devtstat.ntaskactive := e.(exited.ntaskactive);
           devtstat.nprocall := e.(exited.nprocall);
           devtstat.nprocactive := e.(exited.nprocactive);
           devtstat.totrun := p.(present.totrun);
           devtstat.totslpi := p.(present.totslpi);
           devtstat.totslpu := p.(present.totslpu);
           devtstat.totzombie := p.(present.totzombie) |}).
