(* ===== verification/DevSpec.v ===== *)
(** * What deviattask computes for the present tasks

    The abstract outcome of one task given the map of the previous samples,
    and the invariant of the loop over the present tasks. *)
From S2P Require Import Prelude Tstat Sstat Counter Procdbase PdbHeap PdbSpec Netatopif Deviattask.

(** The map after the samples of [l] were stored. *)
Definition add_samples (m : gmap tkey tstat.tstat) (l : list tstat.tstat) : gmap tkey tstat.tstat :=
  foldl (fun m t => <[task_key t := t]> m) m l.

Definition keys (l : list tstat.tstat) : gset tkey := list_to_set (task_key <$> l).

Definition set_inactive (w : Z) (t : tstat.tstat) : tstat.tstat := upd_gen (set_wasinactive w) t.

(** New task, sample as marked, previous sample. *)
Definition task_outcome (m : gmap tkey tstat.tstat) (t : tstat.tstat) :
    bool * tstat.tstat * tstat.tstat :=
  match m !! task_key t with
  | Some p => if decide (t = p) then (false, set_inactive 1 t, tstat_zero)
              else (false, set_inactive 0 t, p)
  | None => (true, set_inactive 0 t, tstat_zero)
  end.

(** The deviations of a task: [g] is the old content of the slot. *)
Definition task_diff (m : gmap tkey tstat.tstat) (totusedcpu : Z) (g t : tstat.tstat) : tstat.tstat :=
  let '(new, t', p) := task_outcome m t in calcdiff g t' p new totusedcpu.

(** Equal up to the activity mark, which a thread may clear in its process. *)
Definition inactive_eq (x y : tstat.tstat) : Prop := set_inactive 0 x = set_inactive 0 y.

#[export] Instance inactive_eq_equiv : Equivalence inactive_eq.
Proof. unfold inactive_eq. split; intros ?; congruence. Qed.

Definition is_proc (t : tstat.tstat) : bool := negb (t.(tstat.gen).(tgen.isproc) =? 0).
Definition is_active (t : tstat.tstat) : bool := t.(tstat.gen).(tgen.wasinactive) =? 0.
Definition active_proc (t : tstat.tstat) : bool := is_proc t && is_active t.

#[export] Instance is_proc_proper : Proper (inactive_eq ==> eq) is_proc.
Proof.
  intros x y E. apply (f_equal (fun t => tgen.isproc (tstat.gen t))) in E. cbn in E.
  unfold is_proc. by rewrite E.
Qed.

Lemma inactive_eq_set w x : inactive_eq (set_inactive w x) x.
Proof. done. Qed.

Lemma set_inactive_id t w : t.(tstat.gen).(tgen.wasinactive) = w -> set_inactive w t = t.
Proof. intros <-. destruct t as [[]]. done. Qed.

Lemma is_active_set w t : is_active (set_inactive w t) = (w =? 0).
Proof. done. Qed.

Lemma task_key_set w t : task_key (set_inactive w t) = task_key t.
Proof. done. Qed.

(** calcdiff of an inactive task does not read the previous sample. *)
Lemma calcdiff_inactive g t p p' new tot :
  is_active t = false -> calcdiff g t p new tot = calcdiff g t p' new tot.
Proof. unfold is_active, calcdiff. by intros ->. Qed.

Lemma calcdiff_isproc g t p new tot : is_proc (calcdiff g t p new tot) = is_proc t.
Proof. unfold is_proc, calcdiff, diff_gen. by destruct new. Qed.

Lemma calcdiff_active g t p new tot : is_active (calcdiff g t p new tot) = is_active t.
Proof. unfold is_active, calcdiff, diff_gen. by destruct new. Qed.

Lemma task_outcome_key m t : task_key (task_outcome m t).1.2 = task_key t.
Proof. unfold task_outcome. repeat case_match; done. Qed.

Lemma task_diff_isproc m tot g t : is_proc (task_diff m tot g t) = is_proc t.
Proof.
  unfold task_diff, task_outcome. destruct (m !! _) as [p|]; [destruct (decide (t = p))|];
    by rewrite calcdiff_isproc.
Qed.

(** ** add_samples *)

Lemma add_samples_snoc m l t : add_samples m (l ++ [t]) = <[task_key t := t]> (add_samples m l).
Proof. unfold add_samples. by rewrite foldl_app. Qed.

Lemma keys_snoc l t : keys (l ++ [t]) = keys l ∪ {[task_key t]}.
Proof. unfold keys. rewrite fmap_app, list_to_set_app_L. cbn. set_solver. Qed.

Lemma add_samples_notin m l k : k ∉ keys l -> add_samples m l !! k = m !! k.
Proof.
  induction l as [|t l IH] using rev_ind; [done|]. rewrite keys_snoc, add_samples_snoc.
  intros Hk. rewrite lookup_insert_ne by set_solver. apply IH. set_solver.
Qed.

Lemma add_samples_lookup m l k t :
  NoDup (task_key <$> l) -> add_samples m l !! k = Some t ->
  k ∈ keys l -> t ∈ l /\ task_key t = k.
Proof.
  induction l as [|u l IH] using rev_ind; [set_solver|].
  rewrite fmap_app, NoDup_app. intros (ND & D & _). rewrite keys_snoc, add_samples_snoc, lookup_insert.
  case_decide as E; [intros [= <-] _; set_solver|]. intros Hm Hk.
  destruct IH; [done | done | set_solver | set_solver].
Qed.

Lemma keys_elem l k : k ∈ keys l <-> exists t, t ∈ l /\ task_key t = k.
Proof. unfold keys. rewrite elem_of_list_to_set, list_elem_of_fmap. firstorder. Qed.

Lemma take_fresh_key l i t :
  NoDup (task_key <$> l) -> l !! i = Some t -> task_key t ∉ keys (take i l).
Proof.
  intros ND Hi. rewrite keys_elem. intros (u & Hu & E).
  apply list_elem_of_lookup in Hu as [j Hj]. apply lookup_take_Some in Hj as [Hj Hlt].
  assert (j = i); [|lia]. eapply NoDup_lookup; [exact ND|..]; rewrite list_lookup_fmap;
    [rewrite Hj; cbn; by rewrite E | by rewrite Hi].
Qed.

Lemma db_rep_key s m rk k t : db_rep s m rk -> m !! k = Some t -> task_key t = k.
Proof. intros (bs & rs & _ & _ & _ & HC & _) Hm. by apply HC in Hm as (l & _ & _ & E). Qed.

(** ** The database steps of one task *)

Lemma new_task_map db m rk t : db_rep db m rk -> m !! task_key t = None ->
  exists db', new_task db t = Some db' /\ db_rep db' (<[task_key t := t]> m) rk.
Proof.
  intros HD Hm. unfold new_task. apply addtask_map with (m := m) (rk := rk); try done.
  apply not_elem_of_dom, is_fresh.
Qed.

(** The effect of counting an active task. *)
Record counted (isproc : Z) (s s' : present.present) : Prop := {
  cnt_cur : s'.(present.cur) = s.(present.cur);
  cnt_db : s'.(present.db) = s.(present.db);
  cnt_pre : s'.(present.prestat) = s.(present.prestat);
  cnt_this : s'.(present.thisproc) = s.(present.thisproc);
  cnt_nall : s'.(present.nprocall) = s.(present.nprocall);
  cnt_change :
    (is_true (negb (isproc =? 0)) /\ s'.(present.taskall) = s.(present.taskall) /\
       s'.(present.ntaskactive) = u64 (s.(present.ntaskactive) + 1) /\
       s'.(present.nprocactive) = u64 (s.(present.nprocactive) + 1)) \/
    (isproc = 0 /\ exists p, s.(present.taskall) !! s.(present.thisproc) = Some p /\
       s'.(present.taskall) = <[s.(present.thisproc) := set_inactive 0 p]> s.(present.taskall) /\
       s'.(present.ntaskactive) = u64 (u64 (s.(present.ntaskactive) + 1) + c_bool (negb (is_active p))) /\
       s'.(present.nprocactive) = u64 (s.(present.nprocactive) + c_bool (negb (is_active p))))
}.

Lemma u64_idem z : u64 (u64 z + 0) = u64 z.
Proof. rewrite Z.add_0_r. unfold u64. by rewrite Z.mod_mod. Qed.

Lemma count_active_ok isproc s :
  0 <= s.(present.nprocactive) < 2 ^ 64 ->
  is_Some (s.(present.taskall) !! s.(present.thisproc)) ->
  exists s', count_active isproc s = Some s' /\ counted isproc s s'.
Proof.
  intros Hr [p Hp]. unfold count_active. destruct (isproc =? 0) eqn:Ei; cbn [negb].
  - apply Z.eqb_eq in Ei. rewrite Hp. mstep. fold (is_active p).
    destruct (is_active p) eqn:Ea; mstep.
    + eexists. split; [done|]. split; try done. right. split; [done|]. exists p. cbn.
      split; [done|]. rewrite Ea. cbn. rewrite u64_idem, Z.add_0_r, (u64_id s.(present.nprocactive)) by done.
      split; [|done]. unfold is_active in Ea. apply Z.eqb_eq in Ea.
      rewrite (set_inactive_id p 0) by done. by rewrite list_insert_id.
    + rewrite arr_set_Some by (by eapply lookup_lt_Some). mstep. eexists. split; [done|].
      split; try done. right. split; [done|]. exists p. cbn. rewrite Ea. done.
  - eexists. split; [done|]. split; try done. left. rewrite Ei. done.
Qed.

(** ** The loop over the present tasks *)

Section present.
Context (m : gmap tkey tstat.tstat) (cur0 junk : list tstat.tstat) (tot : Z).
Context (Hlen : (length cur0 <= length junk)%nat) (Hsize : Z.of_nat (length cur0) < 2 ^ 31).
Context (Hkeys : NoDup (task_key <$> cur0)).
(** A sample is handed over unmarked. *)
Context (Hfresh : forall t, t ∈ cur0 -> is_active t = true).
(** An entry of the database with the key of a task is that task. *)
Context (Hreuse : forall t p, t ∈ cur0 -> m !! task_key t = Some p ->
  same_start t.(tstat.gen).(tgen.btime) p = true).
(** The first task is a process. *)
Context (Hfirst : forall t, cur0 !! 0%nat = Some t -> is_proc t = true).

Record present_inv (i : nat) (s : present.present) : Prop := {
  pi_cur_lo : forall j t, (j < i)%nat -> cur0 !! j = Some t ->
    s.(present.cur) !! j = Some (task_outcome m t).1.2;
  pi_cur_hi : forall j, (i <= j)%nat -> s.(present.cur) !! j = cur0 !! j;
  pi_cur_len : length s.(present.cur) = length cur0;
  pi_db : db_rep s.(present.db) (add_samples m (take i cur0)) (dom m ∖ keys (take i cur0));
  pi_len : length s.(present.taskall) = length junk;
  pi_lo : forall j t g, (j < i)%nat -> cur0 !! j = Some t -> junk !! j = Some g ->
    exists d, s.(present.taskall) !! j = Some d /\ inactive_eq d (task_diff m tot g t);
  pi_hi : forall j, (i <= j)%nat -> s.(present.taskall) !! j = junk !! j;
  pi_this : (0 < i)%nat -> (s.(present.thisproc) < i)%nat /\
    exists p, s.(present.taskall) !! s.(present.thisproc) = Some p /\ is_proc p = true;
  pi_nall : s.(present.nprocall) = zcount is_proc (take i s.(present.taskall));
  pi_nact : s.(present.nprocactive) = zcount active_proc (take i s.(present.taskall));
  pi_ntask : s.(present.ntaskactive) = zcount is_active (take i s.(present.taskall))
}.

(** The counters of the invariant do not wrap. *)
Lemma count_bound (P : tstat.tstat -> bool) i (l : list tstat.tstat) :
  (i <= length cur0)%nat -> 0 <= zcount P (take i l) < 2 ^ 31.
Proof.
  intros Hi. pose proof (zcount_range P (take i l)). rewrite length_take in *. lia.
Qed.

(** The map and the residue keys after one more task. *)
Lemma take_step i t : cur0 !! i = Some t ->
  add_samples m (take (S i) cur0) = <[task_key t := t]> (add_samples m (take i cur0)) /\
  dom m ∖ keys (take (S i) cur0) = (dom m ∖ keys (take i cur0)) ∖ {[task_key t]} /\
  add_samples m (take i cur0) !! task_key t = m !! task_key t.
Proof.
  intros Hi. rewrite (take_S_r _ _ _ Hi), add_samples_snoc, keys_snoc. split; [done|].
  split; [set_solver|]. by apply add_samples_notin, take_fresh_key.
Qed.

(** What the database comparison of task [t] leaves. *)
Record lookup_post (i : nat) (t : tstat.tstat) (s s2 : present.present) (new : bool) : Prop := {
  lp_cur : s2.(present.cur) = <[i := (task_outcome m t).1.2]> s.(present.cur);
  lp_diff : forall g, calcdiff g (task_outcome m t).1.2 s2.(present.prestat) new tot = task_diff m tot g t;
  lp_db : db_rep s2.(present.db) (add_samples m (take (S i) cur0)) (dom m ∖ keys (take (S i) cur0));
  lp_this : s2.(present.thisproc) = s.(present.thisproc);
  lp_nall : s2.(present.nprocall) = s.(present.nprocall);
  lp_active :
    (is_active (task_outcome m t).1.2 = false /\ s2.(present.taskall) = s.(present.taskall) /\
       s2.(present.ntaskactive) = s.(present.ntaskactive) /\
       s2.(present.nprocactive) = s.(present.nprocactive)) \/
    (is_active (task_outcome m t).1.2 = true /\
       exists a b, counted t.(tstat.gen).(tgen.isproc) a b /\
         a.(present.taskall) = s.(present.taskall) /\ a.(present.thisproc) = s.(present.thisproc) /\
         a.(present.ntaskactive) = s.(present.ntaskactive) /\
         a.(present.nprocactive) = s.(present.nprocactive) /\
         s2.(present.taskall) = b.(present.taskall) /\
         s2.(present.ntaskactive) = b.(present.ntaskactive) /\
         s2.(present.nprocactive) = b.(present.nprocactive))
}.

Lemma present_lookup_ok i t s :
  cur0 !! i = Some t -> (i < length s.(present.cur))%nat ->
  db_rep s.(present.db) (add_samples m (take i cur0)) (dom m ∖ keys (take i cur0)) ->
  0 <= s.(present.nprocactive) < 2 ^ 64 ->
  is_Some (s.(present.taskall) !! s.(present.thisproc)) ->
  exists new s2, present_lookup i t s = Some (new, s2) /\ lookup_post i t s s2 new.
Proof.
  intros Hi Hil HD Hr Hthis. destruct (take_step i t Hi) as (Em & Er & Ek).
  assert (Hin : t ∈ cur0) by by eapply list_elem_of_lookup_2.
  assert (Et : set_inactive 0 t = t).
  { apply set_inactive_id. apply Z.eqb_eq. by apply (Hfresh t). }
  pose proof (gettask_map _ _ _ t.(tstat.gen).(tgen.pid) t.(tstat.gen).(tgen.isproc)
    t.(tstat.gen).(tgen.btime) HD) as HG.
  change (t.(tstat.gen).(tgen.pid), t.(tstat.gen).(tgen.isproc)) with (task_key t) in HG.
  rewrite Ek in HG. unfold present_lookup.
  destruct (m !! task_key t) as [p|] eqn:Hm.
  - rewrite (Hreuse t p) in HG by done. destruct HG as (l & db' & -> & Hts & Hla & HD'). mstep.
    cbn [fst snd]. pose proof Hts as (n & Hn & En)%ts_lookup. rewrite Hn. mstep. rewrite En.
    assert (Eo : task_outcome m t = if decide (t = p) then (false, set_inactive 1 t, tstat_zero)
                                    else (false, set_inactive 0 t, p)).
    { unfold task_outcome. by rewrite Hm. }
    destruct (decide (t = p)) as [<-|Hne].
    + rewrite arr_set_Some by done. mstep. eexists _, _. split; [done|].
      split; try rewrite Eo; cbn [fst snd]; try done.
      * intros g. unfold task_diff. rewrite Eo. by apply calcdiff_inactive.
      * cbn. by rewrite Em, Er, insert_id by by rewrite Ek.
      * left. done.
    + assert (Ekp : task_key t = task_key p) by (symmetry; by eapply db_rep_key; [exact HD | rewrite Ek]).
      destruct (store_map _ _ _ l p t HD') as (h' & -> & HD''); try done.
      mstep. rewrite arr_set_Some by done. mstep.
      destruct (count_active_ok t.(tstat.gen).(tgen.isproc)
        (set_present (<[i := set_inactive 0 t]> s.(present.cur)) s.(present.taskall)
          (with_heap db' h') p s)) as (s2 & E & HC); [done..|].
      unfold set_inactive in E. rewrite E. mstep. eexists _, _. split; [done|].
      destruct HC as [C1 C2 C3 C4 C5 C6] eqn:EC.
      split; try rewrite Eo; cbn [fst snd]; try done.
      * intros g. unfold task_diff. rewrite Eo, C3. done.
      * rewrite C2. rewrite <-Ekp in HD''. cbn. by rewrite Em, Er.
      * right. split; [done|]. eexists _, _. split; [exact HC|]. done.
  - rewrite HG. mstep. cbn [fst snd].
    assert (Eo : task_outcome m t = (true, set_inactive 0 t, tstat_zero)).
    { unfold task_outcome. by rewrite Hm. }
    rewrite arr_set_Some by done. mstep.
    destruct (count_active_ok t.(tstat.gen).(tgen.isproc)
      (set_present (<[i := set_inactive 0 t]> s.(present.cur)) s.(present.taskall)
        s.(present.db) tstat_zero s)) as (s2 & E & HC); [done..|].
    unfold set_inactive in E. rewrite E. mstep.
    destruct (new_task_map s.(present.db) (add_samples m (take i cur0)) (dom m ∖ keys (take i cur0))
      (set_inactive 0 t)) as (db' & En & HD'); [done | by rewrite task_key_set, Ek |].
    rewrite (cnt_db _ _ _ HC). cbn [present.db set_present].
    unfold set_inactive in En. rewrite En. mstep. eexists _, _. split; [done|].
    destruct HC as [C1 C2 C3 C4 C5 C6] eqn:EC.
    split; try rewrite Eo; cbn [fst snd]; try done.
    + intros g. unfold task_diff. rewrite Eo. cbn. by rewrite (cnt_pre _ _ _ HC).
    + cbn. rewrite Em, Er. rewrite task_key_set, Et in HD'.
      rewrite (difference_disjoint_L (dom m ∖ _)); [done|].
      apply not_elem_of_dom in Hm. set_solver.
    + right. split; [done|]. eexists _, _. split; [exact HC|]. done.
Qed.

(** *** What the counting did to the slots below [i] *)

Record slots_post (i : nat) (t : tstat.tstat) (s s2 : present.present) : Prop := {
  sp_len : length s2.(present.taskall) = length s.(present.taskall);
  sp_hi : forall j, (i <= j)%nat -> s2.(present.taskall) !! j = s.(present.taskall) !! j;
  sp_lo : forall j d, s.(present.taskall) !! j = Some d ->
    exists d', s2.(present.taskall) !! j = Some d' /\ inactive_eq d' d;
  sp_proc : zcount is_proc (take i s2.(present.taskall)) = zcount is_proc (take i s.(present.taskall));
  sp_nact : s2.(present.nprocactive) =
    zcount active_proc (take i s2.(present.taskall)) + c_bool (active_proc (task_outcome m t).1.2);
  sp_ntask : s2.(present.ntaskactive) =
    zcount is_active (take i s2.(present.taskall)) + c_bool (is_active (task_outcome m t).1.2)
}.

Lemma outcome_isproc t : is_proc (task_outcome m t).1.2 = is_proc t.
Proof. unfold task_outcome. repeat case_match; done. Qed.

(** Clearing the mark of the process of an active thread. *)
Lemma wake_counts (l : list tstat.tstat) i k p :
  l !! k = Some p -> (k < i)%nat -> is_proc p = true ->
  let l' := <[k := set_inactive 0 p]> l in
  zcount is_proc (take i l') = zcount is_proc (take i l) /\
  zcount active_proc (take i l') = zcount active_proc (take i l) + c_bool (negb (is_active p)) /\
  zcount is_active (take i l') = zcount is_active (take i l) + c_bool (negb (is_active p)).
Proof.
  intros Hk Hi Hp l'. unfold l'. rewrite !(zcount_take_insert _ _ _ _ _ _ Hk Hi).
  change (is_proc (set_inactive 0 p)) with (is_proc p). unfold active_proc.
  change (is_proc (set_inactive 0 p)) with (is_proc p). rewrite is_active_set, Hp.
  destruct (is_active p); cbn; lia.
Qed.

Lemma lookup_slots i t s s2 new :
  (i < length cur0)%nat -> length s.(present.taskall) = length junk ->
  (is_proc t = false -> (s.(present.thisproc) < i)%nat /\
    exists p, s.(present.taskall) !! s.(present.thisproc) = Some p /\ is_proc p = true) ->
  s.(present.nprocactive) = zcount active_proc (take i s.(present.taskall)) ->
  s.(present.ntaskactive) = zcount is_active (take i s.(present.taskall)) ->
  lookup_post i t s s2 new -> slots_post i t s s2.
Proof.
  intros Hi Hl Hthis Hact Htask HP.
  assert (Hi' : (i <= length cur0)%nat) by lia.
  pose proof (fun l => count_bound active_proc i l Hi') as B1.
  pose proof (fun l => count_bound is_active i l Hi') as B2.
  specialize (B1 s.(present.taskall)). specialize (B2 s.(present.taskall)).
  destruct (lp_active _ _ _ _ _ HP) as [(Ea & E1 & E2 & E3) | (Ea & a & b & HC & A1 & A2 & A3 & A4 & B3 & B4 & B5)].
  - split; rewrite ?E1, ?E2, ?E3; try done; try (by intros j d Hd; exists d).
    + unfold active_proc at 2. rewrite Ea, andb_false_r. cbn. lia.
    + rewrite Ea. cbn. lia.
  - pose proof (cnt_change _ _ _ HC) as [(Ei & C1 & C2 & C3) | (Ei & p & Hp & C1 & C2 & C3)].
    + assert (Et : is_proc t = true) by by apply Is_true_eq_true, Is_true_eq_left.
      split; rewrite ?B3, ?C1, ?A1, ?B4, ?B5, ?C2, ?C3, ?A3, ?A4; try done; try (by intros j d Hd; exists d).
      * unfold active_proc at 2. rewrite outcome_isproc, Ea, Et, Hact. cbn. rewrite u64_id; lia.
      * rewrite Ea, Htask. cbn. rewrite u64_id; lia.
    + assert (Et : is_proc t = false) by (unfold is_proc; by rewrite Ei).
      destruct (Hthis Et) as (Hlt & p' & Hp' & Hpp). rewrite A1, A2 in Hp. simplify_eq.
      destruct (wake_counts _ i _ _ Hp Hlt Hpp) as (W1 & W2 & W3).
      rewrite A1, A2 in C1. rewrite <-C1, <-B3 in W1, W2, W3.
      pose proof (c_bool_range (negb (is_active p))) as Bc.
      split; rewrite ?B4, ?B5, ?C2, ?C3, ?A3, ?A4.
      * by rewrite B3, C1, length_insert.
      * intros j Hj. rewrite B3, C1, list_lookup_insert_ne by lia. done.
      * intros j d Hd. rewrite B3, C1. destruct (decide (j = s.(present.thisproc))) as [->|].
        -- rewrite list_lookup_insert_eq by (rewrite Hl; lia). eexists. split; [done|]. by simplify_eq.
        -- rewrite list_lookup_insert_ne by done. by exists d.
      * done.
      * unfold active_proc at 2. rewrite outcome_isproc, Et, W2, Hact. cbn. rewrite u64_id; lia.
      * rewrite Ea, W3, Htask. cbn. rewrite (u64_id (_ + 1)) by lia. rewrite u64_id; lia.
Qed.

(** *** One iteration *)

Lemma count_process_fields i t s :
  let s1 := count_process i t s in
  s1.(present.cur) = s.(present.cur) /\ s1.(present.taskall) = s.(present.taskall) /\
  s1.(present.db) = s.(present.db) /\ s1.(present.ntaskactive) = s.(present.ntaskactive) /\
  s1.(present.nprocactive) = s.(present.nprocactive) /\
  s1.(present.thisproc) = (if is_proc t then i else s.(present.thisproc)) /\
  (0 <= s.(present.nprocall) < 2 ^ 31 ->
   s1.(present.nprocall) = s.(present.nprocall) + c_bool (is_proc t)).
Proof.
  unfold count_process, is_proc. destruct (_ =? 0); cbn; split_and!; try done; intros.
  - lia.
  - apply u64_id. lia.
Qed.

(** The slots, lists and counters once the deviations of task [i] are stored. *)
Lemma store_slot_inv i t s s2 D g new :
  present_inv i s -> cur0 !! i = Some t -> junk !! i = Some g ->
  lookup_post i t (count_process i t s) s2 new -> slots_post i t (count_process i t s) s2 ->
  D = task_diff m tot g t ->
  present_inv (S i) (set_present s2.(present.cur) (<[i := D]> s2.(present.taskall))
    s2.(present.db) s2.(present.prestat) s2).
Proof.
  intros HI Hi Hg HP HS HD. pose proof (lookup_lt_Some _ _ _ Hi) as Hil.
  destruct (count_process_fields i t s) as (F1 & F2 & F3 & F4 & F5 & F6 & F7).
  assert (Hl2 : length s2.(present.taskall) = length junk).
  { rewrite (sp_len _ _ _ _ HS), F2. apply HI. }
  assert (Hcount : forall P, zcount P (take (S i) (<[i := D]> s2.(present.taskall))) =
                             zcount P (take i s2.(present.taskall)) + c_bool (P D)).
  { intros P. rewrite (zcount_take_S P _ i D) by (apply list_lookup_insert_eq; lia).
    by rewrite take_insert_ge. }
  assert (HDa : is_active D = is_active (task_outcome m t).1.2).
  { rewrite HD, <-(lp_diff _ _ _ _ _ HP g). apply calcdiff_active. }
  assert (HDp : is_proc D = is_proc t) by (rewrite HD; apply task_diff_isproc).
  assert (HDap : active_proc D = active_proc (task_outcome m t).1.2).
  { unfold active_proc. by rewrite HDa, HDp, outcome_isproc. }
  split; cbn.
  - intros j u Hj Hu. rewrite (lp_cur _ _ _ _ _ HP), F1. destruct (decide (j = i)) as [->|].
    + simplify_eq. apply list_lookup_insert_eq. rewrite (pi_cur_len _ _ HI). done.
    + rewrite list_lookup_insert_ne by done. apply (pi_cur_lo _ _ HI); [lia|done].
  - intros j Hj. rewrite (lp_cur _ _ _ _ _ HP), F1, list_lookup_insert_ne by lia.
    apply (pi_cur_hi _ _ HI). lia.
  - rewrite (lp_cur _ _ _ _ _ HP), length_insert, F1. apply HI.
  - apply HP.
  - by rewrite length_insert.
  - intros j u h Hj Hu Hh. destruct (decide (j = i)) as [->|].
    + simplify_eq. eexists. split; [apply list_lookup_insert_eq; lia | done].
    + rewrite list_lookup_insert_ne by done.
      destruct (pi_lo _ _ HI j u h) as (d & Hd & E); [lia | done | done |].
      rewrite <-F2 in Hd. destruct (sp_lo _ _ _ _ HS j d Hd) as (d' & Hd' & E').
      exists d'. split; [done|]. by rewrite E'.
  - intros j Hj. rewrite list_lookup_insert_ne by lia. rewrite (sp_hi _ _ _ _ HS), F2 by lia.
    apply (pi_hi _ _ HI). lia.
  - intros _. rewrite (lp_this _ _ _ _ _ HP), F6. destruct (is_proc t) eqn:Et.
    + split; [lia|]. exists D. split; [apply list_lookup_insert_eq; lia | done].
    + assert (i ≠ 0%nat) by (intros ->; by rewrite (Hfirst t) in Et).
      destruct (pi_this _ _ HI) as (Ht & p & Hp & Ep); [lia|]. split; [lia|].
      rewrite <-F2 in Hp. destruct (sp_lo _ _ _ _ HS _ p Hp) as (p' & Hp' & E).
      exists p'. rewrite list_lookup_insert_ne by lia. split; [done|]. by rewrite E.
  - pose proof (count_bound is_proc i s.(present.taskall)).
    rewrite (lp_nall _ _ _ _ _ HP), F7, Hcount, HDp, (sp_proc _ _ _ _ HS), F2, (pi_nall _ _ HI) by
      (rewrite (pi_nall _ _ HI); lia). done.
  - by rewrite (sp_nact _ _ _ _ HS), Hcount, HDap.
  - by rewrite (sp_ntask _ _ _ _ HS), Hcount, HDa.
Qed.

Lemma present_step_ok i s : (i < length cur0)%nat -> present_inv i s ->
  exists s', present_step tot i s = Some s' /\ present_inv (S i) s'.
Proof.
  intros Hil HI. destruct (lookup_lt_is_Some_2 cur0 i Hil) as [t Hi].
  destruct (lookup_lt_is_Some_2 junk i) as [g Hg]; [lia|].
  destruct (count_process_fields i t s) as (F1 & F2 & F3 & F4 & F5 & F6 & F7).
  assert (Hthis : is_proc t = false -> (s.(present.thisproc) < i)%nat /\
    exists p, s.(present.taskall) !! s.(present.thisproc) = Some p /\ is_proc p = true).
  { intros Et. assert (i ≠ 0%nat) by (intros ->; by rewrite (Hfirst t) in Et). apply HI. lia. }
  destruct (present_lookup_ok i t (count_process i t s)) as (new & s2 & E & HP); try done.
  - rewrite F1, (pi_cur_len _ _ HI). done.
  - rewrite F3. apply HI.
  - rewrite F5, (pi_nact _ _ HI). pose proof (count_bound active_proc i s.(present.taskall)). lia.
  - rewrite F2, F6. destruct (is_proc t) eqn:Et.
    + apply lookup_lt_is_Some_2. rewrite (pi_len _ _ HI). lia.
    + destruct Hthis as (_ & p & Hp & _); [done|]. eauto.
  - assert (HS : slots_post i t (count_process i t s) s2).
    { eapply lookup_slots; try done; rewrite ?F2, ?F4, ?F5; try apply HI.
      intros Et. rewrite F6, Et. auto. }
    unfold present_step. rewrite (pi_cur_hi _ _ HI) by done. rewrite Hi. mstep. rewrite E. mstep.
    cbn [fst snd]. rewrite (lp_cur _ _ _ _ _ HP), F1, list_lookup_insert_eq by
      (rewrite (pi_cur_len _ _ HI); done). mstep.
    rewrite (sp_hi _ _ _ _ HS) by done. rewrite F2, (pi_hi _ _ HI), Hg by done. mstep.
    rewrite arr_set_Some by (rewrite (sp_len _ _ _ _ HS), F2, (pi_len _ _ HI); lia). mstep.
    eexists. split; [done|]. rewrite <-F1, <-(lp_cur _ _ _ _ _ HP).
    eapply store_slot_inv; try done. apply (lp_diff _ _ _ _ _ HP).
Qed.

Definition present_start (db : pdb.pdb) (pre : tstat.tstat) : present.present :=
  {| present.cur := cur0; present.taskall := junk;
     present.ntaskactive := 0; present.nprocall := 0; present.nprocactive := 0;
     present.totrun := 0; present.totslpi := 0; present.totslpu := 0; present.totzombie := 0;
     present.db := db; present.prestat := pre; present.thisproc := 0%nat |}.

(** The whole loop. *)
Lemma present_loop db pre : db_rep db m (dom m) ->
  exists s, for_lt (Z.of_nat (length cur0)) (present_step tot) (present_start db pre) = Some s /\
    present_inv (length cur0) s.
Proof.
  intros HD. destruct (for_lt_inv (present_step tot) present_inv (Z.of_nat (length cur0))
    (present_start db pre)) as (s & E & HI).
  - intros i s Hi HI. apply present_step_ok; [lia | done].
  - split; cbn; try done; try lia. change (db_rep db m (dom m ∖ keys (take 0 cur0))).
    by assert (dom m ∖ keys (take 0 cur0) = dom m) as -> by (unfold keys; cbn; set_solver).
  - exists s. split; [done|]. by rewrite Nat2Z.id in HI.
Qed.
End present.
