(* ===== verification/DevExit.v ===== *)
(** * What deviattask computes for exited processes, and its pointer lists

    The exited processes are handled with netatopd inactive; the network
    counters of netatopd are the subject of Netatopif. *)
From S2P Require Import Prelude Tstat Sstat Counter Procdbase PdbHeap PdbSpec Netatopif Deviattask DevSpec.

(** ** The loop over the exited processes *)

(** The previous sample [p] of an exited process, given the database [me] and
    the keys [ks] of the present tasks: by PID, or the best entry of the
    RESIDUE list, or nothing. *)
Definition exit_pick (pretime : Z) (ks : gset tkey) (me : gmap tkey tstat.tstat) (e p : tstat.tstat) : Prop :=
  let g := e.(tstat.gen) in
  if g.(tgen.pid) =? 0 then
    if pretime <? g.(tgen.btime) then p = tstat_zero
    else
      (p = tstat_zero /\
       forall k v d, k ∉ ks -> me !! k = Some v -> like e v d -> d < -1 \/ 1 < d) \/
      (me !! task_key p = Some p /\ task_key p ∉ ks /\
       (like e p 0 \/
        (like e p (-1) \/ like e p 1) /\ forall k v, k ∉ ks -> me !! k = Some v -> ~ like e v 0))
  else
    p = match me !! (g.(tgen.pid), 1) with
        | Some t => if same_start g.(tgen.btime) t then t else tstat_zero
        | None => tstat_zero
        end.

(** The database after the entry was used. *)
Definition taken (me : gmap tkey tstat.tstat) (p : tstat.tstat) : gmap tkey tstat.tstat :=
  if 0 <? p.(tstat.gen).(tgen.pid) then delete (task_key p) me else me.

(** The picks of a row of exited processes. *)
Definition exit_picks (pretime : Z) (ks : gset tkey) (m1 : gmap tkey tstat.tstat)
    (exits ps : list tstat.tstat) : Prop :=
  forall i e p, exits !! i = Some e -> ps !! i = Some p ->
    exit_pick pretime ks (foldl taken m1 (take i ps)) e p.

Section exits.
Context (m1 : gmap tkey tstat.tstat) (ks : gset tkey) (exits ta0 : list tstat.tstat) (d0 : nat).
Context (pretime supportflags hashtype : Z) (na0 : netatop.netatop) (n1 n2 n3 : Z).
Context (Hoff : netatopd_on supportflags = false).
Context (Hlen : (d0 + length exits <= length ta0)%nat).
Context (Hpid : forall e, e ∈ exits -> 0 <= e.(tstat.gen).(tgen.pid)).
(** The PID of an exited process is not in use. *)
Context (Hgone : forall e, e ∈ exits -> (e.(tstat.gen).(tgen.pid), 1) ∉ ks).
Context (Hn1 : 0 <= n1 /\ n1 + Z.of_nat (length exits) < 2 ^ 63).
Context (Hn2 : 0 <= n2 /\ n2 + Z.of_nat (length exits) < 2 ^ 63).
Context (Hn3 : 0 <= n3 /\ n3 + Z.of_nat (length exits) < 2 ^ 63).

(** The database while exited processes are taken out: the RESIDUE list holds
    all but the present samples. *)
Definition exit_db (db : pdb.pdb) (me : gmap tkey tstat.tstat) : Prop :=
  exists rk, db_rep db me rk /\ (forall k, k ∈ rk <-> k ∉ ks /\ is_Some (me !! k)).

(** [ps] are the picks so far. *)
Record exit_inv (i : nat) (ps : list tstat.tstat) (s : exited.exited) : Prop := {
  ei_picks_len : length ps = i;
  ei_picks : exit_picks pretime ks m1 exits ps;
  ei_keep : forall k, k ∈ ks -> foldl taken m1 ps !! k = m1 !! k;
  ei_cur_lo : forall j e, (j < i)%nat -> exits !! j = Some e ->
    s.(exited.cur) !! j = Some (set_inactive 0 e);
  ei_cur_hi : forall j, (i <= j)%nat -> s.(exited.cur) !! j = exits !! j;
  ei_cur_len : length s.(exited.cur) = length exits;
  ei_db : exit_db s.(exited.db) (foldl taken m1 ps);
  ei_len : length s.(exited.taskall) = length ta0;
  ei_old : forall j, (j < d0)%nat -> s.(exited.taskall) !! j = ta0 !! j;
  ei_new : forall j e p, exits !! j = Some e -> ps !! j = Some p ->
    s.(exited.taskall) !! (d0 + j)%nat = Some (exit_devstat (set_inactive 0 e) p);
  ei_na : s.(exited.na) = na0;
  ei_ntask : s.(exited.ntaskactive) = n1 + Z.of_nat i;
  ei_nall : s.(exited.nprocall) = n2 + Z.of_nat i;
  ei_nact : s.(exited.nprocactive) = n3 + Z.of_nat i
}.

(** The lookup leaves the map as it is; an entry found by PID leaves the
    RESIDUE list, and is deleted afterwards. *)
Definition exit_found (me : gmap tkey tstat.tstat) (rk : gset tkey) (e : tstat.tstat)
    (r : option (tstat.tstat * pdb.pdb)) : Prop :=
  exists p db' rk', r = Some (p, db') /\ exit_pick pretime ks me e p /\ db_rep db' me rk' /\
    (p = tstat_zero \/ (me !! task_key p = Some p /\ task_key p ∉ ks)) /\
    (rk' = rk \/ (0 < p.(tstat.gen).(tgen.pid) /\ rk' = rk ∖ {[task_key p]})).

Lemma exit_found_zero me rk e db : db_rep db me rk -> exit_pick pretime ks me e tstat_zero ->
  exit_found me rk e (Some (tstat_zero, db)).
Proof. intros HD HP. exists tstat_zero, db, rk. split_and!; try done; by left. Qed.

(** Without PID. *)
Lemma exit_search_ok db me rk e :
  db_rep db me rk -> (forall k, k ∈ rk <-> k ∉ ks /\ is_Some (me !! k)) ->
  e.(tstat.gen).(tgen.pid) = 0 -> (pretime <? e.(tstat.gen).(tgen.btime)) = false ->
  exit_found me rk e (
    r ← pdb_srchresidue db (set_inactive 0 e);
    match r with
    | Some l => n ← db.(pdb.heap) !! l; Some (n.(pinfo.tstat), db)
    | None => Some (tstat_zero, db)
    end).
Proof.
  intros HD Hrk E0 Eb.
  assert (Hin : forall k v, k ∉ ks -> me !! k = Some v -> k ∈ rk) by (intros; apply Hrk; eauto).
  destruct (srchresidue_map _ _ _ (set_inactive 0 e) HD) as ([l|] & -> & HS); mstep.
  - destruct HS as (n & Hn & Hm & Hr & Hlike). rewrite Hn. mstep. eexists _, _, rk. split; [done|].
    apply Hrk in Hr as [Hk _]. split; [|split; [done|]; split; [by right | by left]].
    unfold exit_pick. rewrite E0, Eb. right. split; [done|]. split; [done|].
    destruct Hlike as [?|[? Hno]]; [by left | right]. split; [done|]. eauto.
  - apply exit_found_zero; [done|]. unfold exit_pick. rewrite E0, Eb. left. split; [done|].
    intros k v d Hk Hv Hl. eapply (HS k v d); eauto.
Qed.

(** By PID. *)
Lemma exit_gettask_ok db me rk e :
  db_rep db me rk -> 0 < e.(tstat.gen).(tgen.pid) -> (e.(tstat.gen).(tgen.pid), 1) ∉ ks ->
  exit_found me rk e (
    r ← pdb_gettask db e.(tstat.gen).(tgen.pid) 1 e.(tstat.gen).(tgen.btime);
    match r.1 with
    | Some l => n ← r.2.(pdb.heap) !! l; Some (n.(pinfo.tstat), r.2)
    | None => Some (tstat_zero, r.2)
    end).
Proof.
  intros HD Hp Hg. assert (E0 : (e.(tstat.gen).(tgen.pid) =? 0) = false) by (apply Z.eqb_neq; lia).
  pose proof (gettask_map _ _ _ e.(tstat.gen).(tgen.pid) 1 e.(tstat.gen).(tgen.btime) HD) as HG.
  assert (Hpick : exit_pick pretime ks me e
    match me !! (e.(tstat.gen).(tgen.pid), 1) with
    | Some t => if same_start e.(tstat.gen).(tgen.btime) t then t else tstat_zero
    | None => tstat_zero
    end) by (unfold exit_pick; by rewrite E0).
  destruct (me !! (_, 1)) as [t|] eqn:Hm; [|rewrite HG; mstep; by apply exit_found_zero].
  destruct (same_start _ t) eqn:Es; [|rewrite HG; mstep; by apply exit_found_zero].
  destruct HG as (l & db' & -> & Hts & _ & HD'). mstep. cbn [fst snd].
  apply ts_lookup in Hts as (n & Hn & <-). rewrite Hn. mstep.
  pose proof (db_rep_key _ _ _ _ _ HD Hm) as Ek. eexists _, _, _. split; [done|]. split; [done|].
  split; [exact HD'|]. rewrite Ek. split; [by right|]. right. injection Ek as Ep _. split; [lia | done].
Qed.

Lemma exit_prestat_ok db me rk e :
  e ∈ exits -> db_rep db me rk -> (forall k, k ∈ rk <-> k ∉ ks /\ is_Some (me !! k)) ->
  exit_found me rk e (exit_prestat pretime db (set_inactive 0 e)).
Proof.
  intros He HD Hrk. unfold exit_prestat.
  change (tgen.pid (tstat.gen (set_inactive 0 e))) with (tgen.pid (tstat.gen e)).
  change (tgen.btime (tstat.gen (set_inactive 0 e))) with (tgen.btime (tstat.gen e)).
  pose proof (Hpid e He) as Hp0. pose proof (Hgone e He) as Hg.
  destruct (e.(tstat.gen).(tgen.pid) =? 0) eqn:E0; cbn [negb].
  - apply Z.eqb_eq in E0. destruct (pretime <? _) eqn:Eb; [|by apply exit_search_ok].
    apply exit_found_zero; [done|]. unfold exit_pick. by rewrite E0, Eb.
  - apply Z.eqb_neq in E0. apply exit_gettask_ok; [done | lia | done].
Qed.

(** Taking the entry out when it was found. *)
Lemma exit_delete_ok db me rk rk0 p :
  db_rep db me rk -> (p = tstat_zero \/ (me !! task_key p = Some p /\ task_key p ∉ ks)) ->
  (forall k, k ∈ rk0 <-> k ∉ ks /\ is_Some (me !! k)) ->
  (rk = rk0 \/ (0 < p.(tstat.gen).(tgen.pid) /\ rk = rk0 ∖ {[task_key p]})) ->
  exists db', (if 0 <? p.(tstat.gen).(tgen.pid) then
      r ← pdb_deltask db p.(tstat.gen).(tgen.pid) p.(tstat.gen).(tgen.isproc); Some r.2
    else Some db) = Some db' /\ exit_db db' (taken me p) /\
    (forall k, k ∈ ks -> taken me p !! k = me !! k).
Proof.
  intros HD Hp Hrk Hr. unfold taken. destruct (0 <? _) eqn:E0.
  - apply Z.ltb_lt in E0. destruct Hp as [->|[Hm Hk]]; [cbn in E0; lia|].
    destruct (deltask_map _ _ _ (task_key p) p HD Hm) as (s' & E & HD').
    cbn [task_key fst snd] in E. rewrite E. mstep. eexists. split; [done|]. split.
    + exists (rk ∖ {[task_key p]}). split; [done|]. intros k.
      rewrite elem_of_difference, elem_of_singleton, lookup_delete_is_Some.
      assert (Ek : k ≠ task_key p -> k ∈ rk <-> k ∈ rk0) by (destruct Hr as [->|[_ ->]]; set_solver).
      specialize (Hrk k). destruct (decide (k = task_key p)); naive_solver.
    + intros k Hk'. rewrite lookup_delete_ne; [done|]. by intros <-.
  - apply Z.ltb_ge in E0. eexists. split; [done|]. split; [|done]. exists rk.
    destruct Hr as [->|[? _]]; [|lia]. done.
Qed.

Lemma exit_picks_snoc ps e p : exit_picks pretime ks m1 exits ps -> exits !! length ps = Some e ->
  exit_pick pretime ks (foldl taken m1 ps) e p -> exit_picks pretime ks m1 exits (ps ++ [p]).
Proof.
  intros HP He Hp i x q Hx Hq. destruct (decide (i = length ps)) as [->|Hne].
  - rewrite He in Hx. injection Hx as <-. rewrite lookup_app_r, Nat.sub_diag in Hq by lia. injection Hq as <-.
    by rewrite take_app_length.
  - assert (i < length ps)%nat.
    { apply lookup_lt_Some in Hq. rewrite length_app in Hq. cbn in Hq. lia. }
    rewrite lookup_app_l in Hq by done. rewrite take_app_le by lia. by apply HP.
Qed.

Lemma exit_step_ok i ps s : (i < length exits)%nat -> exit_inv i ps s ->
  exists s' p, exit_step pretime supportflags hashtype d0 i s = Some s' /\ exit_inv (S i) (ps ++ [p]) s'.
Proof.
  intros Hi HI. destruct (lookup_lt_is_Some_2 exits i Hi) as [e He].
  assert (Hin : e ∈ exits) by by eapply list_elem_of_lookup_2.
  destruct (ei_db _ _ _ HI) as (rk & HD & Hrk). pose proof (ei_picks_len _ _ _ HI) as Hl.
  destruct (exit_prestat_ok _ _ rk e Hin HD Hrk) as (p & db' & rk' & E & Hp & HD' & Hm & Hr).
  destruct (exit_delete_ok db' _ rk' rk p HD' Hm Hrk Hr) as (db'' & Ed & HE & Hkeep).
  unfold exit_step. rewrite (ei_cur_hi _ _ _ HI), He by done. mstep.
  rewrite arr_set_Some by (rewrite (ei_cur_len _ _ _ HI); done). mstep.
  fold (set_inactive 0 e). rewrite E. mstep. cbn [fst snd].
  unfold exit_network. rewrite Hoff. mstep. cbn [fst snd].
  rewrite arr_set_Some by (rewrite (ei_len _ _ _ HI); lia). mstep. rewrite Ed. mstep.
  exists {| exited.cur := <[i := set_inactive 0 e]> s.(exited.cur);
    exited.taskall := <[(d0 + i)%nat := exit_devstat (set_inactive 0 e) p]> s.(exited.taskall);
    exited.ntaskactive := u64 (s.(exited.ntaskactive) + 1);
    exited.nprocall := u64 (s.(exited.nprocall) + 1);
    exited.nprocactive := u64 (s.(exited.nprocactive) + 1);
    exited.db := db''; exited.na := s.(exited.na) |}, p. split; [done|].
  split; cbn; rewrite ?foldl_app.
  - rewrite length_app, Hl. cbn. lia.
  - apply exit_picks_snoc with e; [apply HI | by rewrite Hl | done].
  - intros k Hk. cbn. rewrite Hkeep by done. by apply HI.
  - intros j u Hj Hu. destruct (decide (j = i)) as [->|].
    + simplify_eq. apply list_lookup_insert_eq. by rewrite (ei_cur_len _ _ _ HI).
    + rewrite list_lookup_insert_ne by done. apply (ei_cur_lo _ _ _ HI); [lia|done].
  - intros j Hj. rewrite list_lookup_insert_ne by lia. apply (ei_cur_hi _ _ _ HI). lia.
  - rewrite length_insert. apply HI.
  - done.
  - rewrite length_insert. apply HI.
  - intros j Hj. rewrite list_lookup_insert_ne by lia. by apply (ei_old _ _ _ HI).
  - intros j u q Hu Hq. destruct (decide (j = i)) as [->|].
    + rewrite <-Hl, lookup_app_r, Nat.sub_diag in Hq by lia. cbn in Hq. simplify_eq.
      apply list_lookup_insert_eq. rewrite (ei_len _ _ _ HI). lia.
    + assert (j < length ps)%nat.
      { apply lookup_lt_Some in Hq. rewrite length_app in Hq. cbn in Hq. lia. }
      rewrite lookup_app_l in Hq by done. rewrite list_lookup_insert_ne by lia. by apply (ei_new _ _ _ HI).
  - apply HI.
  - rewrite (ei_ntask _ _ _ HI), u64_id; lia.
  - rewrite (ei_nall _ _ _ HI), u64_id; lia.
  - rewrite (ei_nact _ _ _ HI), u64_id; lia.
Qed.

Definition exit_start (db : pdb.pdb) : exited.exited :=
  {| exited.cur := exits; exited.taskall := ta0; exited.ntaskactive := n1;
     exited.nprocall := n2; exited.nprocactive := n3; exited.db := db; exited.na := na0 |}.

Lemma exit_loop db : exit_db db m1 ->
  exists s ps, for_lt (Z.of_nat (length exits)) (exit_step pretime supportflags hashtype d0)
      (exit_start db) = Some s /\ exit_inv (length exits) ps s.
Proof.
  intros HD. destruct (for_lt_inv (exit_step pretime supportflags hashtype d0)
    (fun i s => exists ps, exit_inv i ps s) (Z.of_nat (length exits)) (exit_start db)) as (s & E & ps & HI).
  - intros i s Hi (ps & HI). destruct (exit_step_ok i ps s) as (s' & p & ? & ?); [lia | done |]. eauto.
  - exists []. split; cbn; try done; try lia; try (intros j e Hj; lia).
  - exists s, ps. split; [done|]. by rewrite Nat2Z.id in HI.
Qed.
End exits.
