(* ===== verification/DevMain.v ===== *)
(** * The pointer lists of deviattask and its complete specification *)
From S2P Require Import Prelude Tstat Sstat Counter Procdbase PdbHeap PdbSpec Netatopif Deviattask.
From S2P Require Import DevSpec DevExit.

(** ** Positions of the elements that satisfy a test *)

Fixpoint positions (P : tstat.tstat -> bool) (k : nat) (l : list tstat.tstat) : list nat :=
  match l with
  | [] => []
  | x :: l' => if P x then k :: positions P (S k) l' else positions P (S k) l'
  end.

Lemma positions_app P k l r : positions P k (l ++ r) = positions P k l ++ positions P (k + length l) r.
Proof.
  revert k. induction l as [|x l IH]; intros k; cbn.
  - by rewrite Nat.add_0_r.
  - rewrite IH, Nat.add_succ_comm. by destruct (P x).
Qed.

Lemma positions_take_S P l i x : l !! i = Some x ->
  positions P 0 (take (S i) l) = positions P 0 (take i l) ++ (if P x then [i] else []).
Proof.
  intros Hi. rewrite (take_S_r _ _ _ Hi), positions_app. f_equal. cbn.
  rewrite length_take_le; [done|]. apply lookup_lt_Some in Hi. lia.
Qed.

Lemma positions_length P k l : Z.of_nat (length (positions P k l)) = zcount P l.
Proof. revert k. induction l as [|x l IH]; intros k; cbn; [done|]. destruct (P x); cbn; rewrite <-(IH (S k)); lia. Qed.

Lemma positions_mono P l i : (length (positions P 0 (take i l)) <= length (positions P 0 l))%nat.
Proof. rewrite <-(take_drop i l) at 2. rewrite positions_app, length_app. lia. Qed.

(** A pointer list of exactly the needed size after the first [i] tasks. *)
Definition plist (P : tstat.tstat -> bool) (l : list tstat.tstat) (i : nat) : list (option nat) :=
  (Some <$> positions P 0 (take i l)) ++
  replicate (length (positions P 0 l) - length (positions P 0 (take i l))) None.

Definition pcount (P : tstat.tstat -> bool) (l : list tstat.tstat) (i : nat) : nat :=
  length (positions P 0 (take i l)).

Lemma plist_start P l : replicate (Z.to_nat (zcount P l)) None = plist P l 0.
Proof. unfold plist. cbn. by rewrite <-(positions_length P 0), Nat2Z.id, Nat.sub_0_r. Qed.

Lemma plist_end P l : plist P l (length l) = Some <$> positions P 0 l.
Proof. unfold plist. by rewrite firstn_all, Nat.sub_diag, app_nil_r. Qed.

Lemma plist_skip P l i x : l !! i = Some x -> P x = false ->
  plist P l (S i) = plist P l i /\ pcount P l (S i) = pcount P l i.
Proof. intros Hi Hx. unfold plist, pcount. by rewrite (positions_take_S _ _ _ _ Hi), Hx, app_nil_r. Qed.

Lemma plist_put P l i x : l !! i = Some x -> P x = true ->
  arr_set (plist P l i) (pcount P l i) (Some i) = Some (plist P l (S i)) /\
  pcount P l (S i) = S (pcount P l i).
Proof.
  intros Hi Hx. pose proof (positions_mono P l (S i)) as Hm. unfold plist, pcount.
  rewrite (positions_take_S _ _ _ _ Hi), Hx in *. rewrite length_app in *. cbn [length] in *.
  split; [|lia]. rewrite arr_set_Some by (rewrite length_app, length_fmap, length_replicate; lia).
  f_equal. rewrite insert_app_r_alt by (rewrite length_fmap; lia).
  rewrite length_fmap, Nat.sub_diag, fmap_app, <-app_assoc. f_equal.
  destruct (length (positions P 0 l) - _)%nat as [|k] eqn:E; [lia|].
  cbn. f_equal. f_equal. lia.
Qed.

Lemma list_step_ok l i t : l !! i = Some t ->
  list_step l i (lists.mk (plist is_proc l i) (pcount is_proc l i)
                          (plist active_proc l i) (pcount active_proc l i)) =
  Some (lists.mk (plist is_proc l (S i)) (pcount is_proc l (S i))
                 (plist active_proc l (S i)) (pcount active_proc l (S i))).
Proof.
  intros Hi. unfold list_step. rewrite Hi. mstep. cbn [lists.procall lists.pall lists.procactive lists.pact].
  destruct (is_proc t) eqn:Ep; pose proof Ep as Ez; unfold is_proc in Ez.
  - apply negb_true_iff in Ez. rewrite Ez.
    destruct (plist_put _ _ _ _ Hi Ep) as [-> ->]. mstep.
    destruct (is_active t) eqn:Ea; pose proof Ea as Ew; unfold is_active in Ew; rewrite Ew.
    + destruct (plist_put active_proc _ _ _ Hi) as [-> ->]; [|done].
      unfold active_proc. by rewrite Ep, Ea.
    + destruct (plist_skip active_proc _ _ _ Hi) as [-> ->]; [|done].
      unfold active_proc. by rewrite Ep, Ea.
  - apply negb_false_iff in Ez. rewrite Ez.
    destruct (plist_skip is_proc _ _ _ Hi Ep) as [-> ->].
    destruct (plist_skip active_proc _ _ _ Hi) as [-> ->]; [|done].
    unfold active_proc. by rewrite Ep.
Qed.

(** The lists are filled exactly, in the order of the tasks. *)
Lemma list_loop l :
  exists s, for_lt (Z.of_nat (length l)) (list_step l)
    (lists.mk (replicate (Z.to_nat (zcount is_proc l)) None) 0
              (replicate (Z.to_nat (zcount active_proc l)) None) 0) = Some s /\
    s.(lists.procall) = Some <$> positions is_proc 0 l /\
    s.(lists.procactive) = Some <$> positions active_proc 0 l.
Proof.
  destruct (for_lt_inv (list_step l) (fun i s =>
    s = lists.mk (plist is_proc l i) (pcount is_proc l i) (plist active_proc l i) (pcount active_proc l i))
    (Z.of_nat (length l)) (lists.mk (replicate (Z.to_nat (zcount is_proc l)) None) 0
              (replicate (Z.to_nat (zcount active_proc l)) None) 0)) as (s & E & HI).
  - intros i s Hi ->. destruct (lookup_lt_is_Some_2 l i) as [t Ht]; [lia|].
    eexists. split; [by eapply list_step_ok | done].
  - by rewrite !plist_start.
  - rewrite Nat2Z.id in HI. exists s. split; [done|]. subst s. cbn. by rewrite !plist_end.
Qed.

(** ** Joining the loops *)

Lemma zcount_all {A} (P : A -> bool) (l : list A) :
  (forall x, x ∈ l -> P x = true) -> zcount P l = Z.of_nat (length l).
Proof.
  induction l as [|x l IH]; intros H; cbn; [done|]. rewrite (H x), IH by set_solver. cbn. lia.
Qed.

Lemma zcount_split {A} (P : A -> bool) (l k : list A) d :
  (d <= length k)%nat -> (d <= length l)%nat ->
  (forall j, (j < d)%nat -> k !! j = l !! j) ->
  (forall j x, (d <= j)%nat -> k !! j = Some x -> P x = true) ->
  zcount P k = zcount P (take d l) + Z.of_nat (length k - d).
Proof.
  intros Hk Hl Hlo Hhi. rewrite <-(take_drop d k) at 1. rewrite zcount_app. f_equal.
  - f_equal. apply list_eq. intros j. destruct (decide (j < d)%nat).
    + rewrite !lookup_take_lt by done. by apply Hlo.
    + rewrite !lookup_ge_None_2; try done; rewrite length_take; lia.
  - rewrite zcount_all, length_drop; [done|]. intros x [j Hj]%list_elem_of_lookup.
    rewrite lookup_drop in Hj. apply (Hhi (d + j)%nat); [lia | done].
Qed.

Lemma add_samples_in m m' l k : k ∈ keys l -> add_samples m l !! k = add_samples m' l !! k.
Proof.
  induction l as [|t l IH] using rev_ind; [set_solver|]. rewrite keys_snoc, !add_samples_snoc.
  intros Hk. rewrite !lookup_insert. case_decide; [done|]. apply IH. set_solver.
Qed.

(** The database keeps exactly the samples of the present tasks. *)
Lemma exit_db_clean m pres me db : exit_db (keys pres) db me ->
  (forall k, k ∈ keys pres -> me !! k = add_samples m pres !! k) ->
  exists db', pdb_cleanresidue db = Some db' /\ db_idle db' (add_samples ∅ pres).
Proof.
  intros (rk & HD & Hrk) Hks.
  destruct (cleanresidue_map _ _ _ HD) as (db' & E & HI). exists db'. split; [done|].
  assert (filter (fun kt => kt.1 ∉ rk) me = add_samples ∅ pres) as <-; [|done].
  apply map_eq. intros k. destruct (decide (k ∈ keys pres)) as [Hk|Hk].
  - rewrite (add_samples_in ∅ m pres k Hk), <-(Hks k Hk).
    destruct (me !! k) as [t|] eqn:Em.
    + apply map_lookup_filter_Some. split; [done|]. cbn. rewrite Hrk. tauto.
    + apply map_lookup_filter_None. by left.
  - rewrite add_samples_notin by done. rewrite lookup_empty. apply map_lookup_filter_None.
    destruct (me !! k) as [t|] eqn:Em; [right | by left]. intros u _ Hn. apply Hn, Hrk. eauto.
Qed.

(** ** deviattask *)

(** What the function relies on: [pres] and [ex] are the present and the
    exited tasks, [m] the samples of the previous interval, [junk] the
    allocated task list. *)
Record sample_ok (supportflags : Z) (m : gmap tkey tstat.tstat)
    (pres ex junk : list tstat.tstat) : Prop := {
  so_netatopd : netatopd_on supportflags = false;
  so_alloc : length junk = (length pres + length ex)%nat;
  so_small : Z.of_nat (length pres) + Z.of_nat (length ex) < 2 ^ 31;
  so_keys : NoDup (task_key <$> pres);
  so_unmarked : forall t, t ∈ pres -> is_active t = true;
  (** No PID was given to another process since the previous sample. *)
  so_reuse : forall t p, t ∈ pres -> m !! task_key t = Some p ->
    same_start t.(tstat.gen).(tgen.btime) p = true;
  so_first : forall t, pres !! 0%nat = Some t -> is_proc t = true;
  so_pid : forall e, e ∈ ex -> 0 <= e.(tstat.gen).(tgen.pid);
  so_gone : forall e, e ∈ ex -> (e.(tstat.gen).(tgen.pid), 1) ∉ keys pres;
  so_exproc : forall e, e ∈ ex -> is_proc e = true
}.

Record deviations_ok (pretime : Z) (m : gmap tkey tstat.tstat) (pres ex junk : list tstat.tstat)
    (totusedcpu : Z) (s' : dtask.dtask) (d : devtstat.devtstat) : Prop := {
  (** The database holds the new samples and nothing else. *)
  do_db : db_idle s'.(dtask.db) (add_samples ∅ pres);
  do_marks : forall i t, pres !! i = Some t ->
    s'.(dtask.curtpres) !! i = Some (task_outcome m t).1.2;
  do_len : length d.(devtstat.taskall) = (length pres + length ex)%nat;
  do_present : forall i t g, pres !! i = Some t -> junk !! i = Some g ->
    exists x, d.(devtstat.taskall) !! i = Some x /\ inactive_eq x (task_diff m totusedcpu g t);
  (** Each exited process is compared with the entry that is picked for it,
      which is not used again. *)
  do_exited : exists ps, length ps = length ex /\
    exit_picks pretime (keys pres) (add_samples m pres) ex ps /\
    forall i e p, ex !! i = Some e -> ps !! i = Some p ->
      d.(devtstat.taskall) !! (length pres + i)%nat = Some (exit_devstat (set_inactive 0 e) p);
  (** The counters and the pointer lists describe the task list. *)
  do_ntaskall : d.(devtstat.ntaskall) = Z.of_nat (length d.(devtstat.taskall));
  do_ntaskactive : d.(devtstat.ntaskactive) = zcount is_active d.(devtstat.taskall);
  do_nprocall : d.(devtstat.nprocall) = zcount is_proc d.(devtstat.taskall);
  do_nprocactive : d.(devtstat.nprocactive) = zcount active_proc d.(devtstat.taskall);
  do_procall : d.(devtstat.procall) = Some <$> positions is_proc 0 d.(devtstat.taskall);
  do_procactive : d.(devtstat.procactive) = Some <$> positions active_proc 0 d.(devtstat.taskall)
}.

Lemma exit_db_start m pres db :
  db_rep db (add_samples m pres) (dom m ∖ keys pres) -> exit_db (keys pres) db (add_samples m pres).
Proof.
  intros HD. exists (dom m ∖ keys pres). split; [done|].
  intros k. rewrite elem_of_difference, elem_of_dom. split.
  - intros [Hm Hk]. split; [done|]. by rewrite add_samples_notin.
  - intros [Hk Hm]. split; [|done]. by rewrite add_samples_notin in Hm.
Qed.

(** The counters and lists once both loops have run. *)
Lemma exit_end_counts pretime ps m pres ex junk supportflags tot p e :
  sample_ok supportflags m pres ex junk -> present_inv m pres junk tot (length pres) p ->
  exit_inv (add_samples m pres) (keys pres) ex p.(present.taskall) (length pres) pretime (exited.na e)
    p.(present.ntaskactive) p.(present.nprocall) p.(present.nprocactive) (length ex) ps e ->
  forall P, (forall x pr, x ∈ ex -> P (exit_devstat (set_inactive 0 x) pr) = true) ->
  zcount P e.(exited.taskall) =
    zcount P (take (length pres) p.(present.taskall)) + Z.of_nat (length ex).
Proof.
  intros HS HP HE P HPx. pose proof (so_alloc _ _ _ _ _ HS) as Ha.
  assert (Hl : length e.(exited.taskall) = (length pres + length ex)%nat).
  { by rewrite (ei_len _ _ _ _ _ _ _ _ _ _ _ _ _ HE), (pi_len _ _ _ _ _ _ HP). }
  rewrite (zcount_split P p.(present.taskall) _ (length pres)).
  - f_equal. lia.
  - lia.
  - rewrite (pi_len _ _ _ _ _ _ HP). lia.
  - apply (ei_old _ _ _ _ _ _ _ _ _ _ _ _ _ HE).
  - intros j x Hj Hx. pose proof (lookup_lt_Some _ _ _ Hx).
    destruct (lookup_lt_is_Some_2 ex (j - length pres)) as [y Hy]; [lia|].
    destruct (lookup_lt_is_Some_2 ps (j - length pres)) as [pr Hpr].
    { rewrite (ei_picks_len _ _ _ _ _ _ _ _ _ _ _ _ _ HE). lia. }
    pose proof (ei_new _ _ _ _ _ _ _ _ _ _ _ _ _ HE (j - length pres) y pr Hy Hpr) as E.
    replace (length pres + (j - length pres))%nat with j in E by lia. simplify_eq.
    apply HPx. by eapply list_elem_of_lookup_2.
Qed.

Lemma exit_devstat_isproc x p : is_proc (exit_devstat x p) = is_proc x.
Proof. unfold exit_devstat, exit_gen, is_proc. cbn. by repeat case_match. Qed.

Lemma exit_devstat_active x p : is_active (exit_devstat (set_inactive 0 x) p) = true.
Proof. unfold exit_devstat, exit_gen, is_active. cbn. by repeat case_match. Qed.

Lemma deviations_join pretime ps m pres ex junk tot p e db l :
  present_inv m pres junk tot (length pres) p ->
  exit_inv (add_samples m pres) (keys pres) ex p.(present.taskall) (length pres) pretime e.(exited.na)
    p.(present.ntaskactive) p.(present.nprocall) p.(present.nprocactive) (length ex) ps e ->
  length p.(present.taskall) = (length pres + length ex)%nat ->
  db_idle db (add_samples ∅ pres) ->
  zcount is_active e.(exited.taskall) = e.(exited.ntaskactive) ->
  zcount is_proc e.(exited.taskall) = e.(exited.nprocall) ->
  zcount active_proc e.(exited.taskall) = e.(exited.nprocactive) ->
  l.(lists.procall) = Some <$> positions is_proc 0 e.(exited.taskall) ->
  l.(lists.procactive) = Some <$> positions active_proc 0 e.(exited.taskall) ->
  deviations_ok pretime m pres ex junk tot
    (dtask.mk p.(present.cur) e.(exited.cur) db e.(exited.na))
    (devtstat.mk e.(exited.taskall) l.(lists.procall) l.(lists.procactive)
       (Z.of_nat (length e.(exited.taskall))) e.(exited.ntaskactive) e.(exited.nprocall)
       e.(exited.nprocactive) p.(present.totrun) p.(present.totslpi) p.(present.totslpu)
       p.(present.totzombie)).
Proof.
  intros HP HE Hl HD C1 C2 C3 L1 L2. split; cbn; try done.
  - intros i t Ht. apply (pi_cur_lo _ _ _ _ _ _ HP); [|done]. by eapply lookup_lt_Some.
  - by rewrite (ei_len _ _ _ _ _ _ _ _ _ _ _ _ _ HE).
  - intros i t g Ht Hg. pose proof (lookup_lt_Some _ _ _ Ht) as Hi.
    destruct (pi_lo _ _ _ _ _ _ HP i t g Hi Ht Hg) as (x & Hx & E). exists x.
    by rewrite (ei_old _ _ _ _ _ _ _ _ _ _ _ _ _ HE).
  - exists ps. split; [apply HE|]. split; [apply HE|]. apply (ei_new _ _ _ _ _ _ _ _ _ _ _ _ _ HE).
Qed.

(** deviattask returns; the process database then holds exactly the new
    samples, every present task and every exited process has its deviations,
    and the counters and pointer lists describe the task list. *)
Lemma deviattask_spec supportflags pretime prejunk all s m junk :
  db_idle s.(dtask.db) m ->
  sample_ok supportflags m s.(dtask.curtpres) s.(dtask.curpexit) junk ->
  exists s' d,
    deviattask supportflags pretime junk prejunk (Z.of_nat (length s.(dtask.curtpres)))
      (Z.of_nat (length s.(dtask.curpexit))) all s = Some (s', d) /\
    deviations_ok pretime m s.(dtask.curtpres) s.(dtask.curpexit) junk (total_cpu all) s' d.
Proof.
  destruct s as [pres ex db na]. cbn [dtask.curtpres dtask.curpexit dtask.db dtask.na]. intros HD HS.
  pose proof (so_alloc _ _ _ _ _ HS) as Ha. pose proof (so_small _ _ _ _ _ HS) as Hs.
  unfold deviattask. cbn [dtask.curtpres dtask.curpexit dtask.db dtask.na].
  destruct (makeresidue_map _ _ HD) as (db1 & -> & HD1). mstep.
  destruct (present_loop m pres junk (total_cpu all)) with (db := db1) (pre := prejunk)
    as (p & Ep & HP); [lia | lia | apply HS..| done |].
  unfold present_start in Ep. rewrite Ep. mstep.
  rewrite (so_netatopd _ _ _ _ _ HS), andb_false_r. mstep. cbn [fst snd]. rewrite Nat2Z.id.
  pose proof (pi_len _ _ _ _ _ _ HP) as Hl.
  assert (HDx : exit_db (keys pres) p.(present.db) (add_samples m pres)).
  { apply exit_db_start. pose proof (pi_db _ _ _ _ _ _ HP) as Hpd. by rewrite firstn_all in Hpd. }
  assert (HB : forall P : tstat.tstat -> bool,
    0 <= zcount P (take (length pres) p.(present.taskall)) < 2 ^ 31).
  { intros P. apply (count_bound pres junk); lia. }
  destruct (exit_loop (add_samples m pres) (keys pres) ex p.(present.taskall) (length pres)
    pretime supportflags 112 na p.(present.ntaskactive) p.(present.nprocall) p.(present.nprocactive))
    with (db := p.(present.db)) as (e & ps & Ee & HE); try apply HS; try done; try lia.
  { rewrite (pi_ntask _ _ _ _ _ _ HP). pose proof (HB is_active). lia. }
  { rewrite (pi_nall _ _ _ _ _ _ HP). pose proof (HB is_proc). lia. }
  { rewrite (pi_nact _ _ _ _ _ _ HP). pose proof (HB active_proc). lia. }
  unfold exit_start in Ee. rewrite Ee. mstep.
  pose proof (ei_na _ _ _ _ _ _ _ _ _ _ _ _ _ HE) as Hna. rewrite <-Hna in HE.
  destruct (exit_db_clean m pres _ _ (ei_db _ _ _ _ _ _ _ _ _ _ _ _ _ HE) (ei_keep _ _ _ _ _ _ _ _ _ _ _ _ _ HE)) as (db2 & -> & HD2). mstep.
  pose proof (exit_end_counts pretime ps m pres ex junk _ _ p e HS HP HE) as HC.
  assert (Hxp : forall x pr, x ∈ ex -> is_proc (exit_devstat (set_inactive 0 x) pr) = true).
  { intros x pr Hx. rewrite exit_devstat_isproc. by apply (so_exproc _ _ _ _ _ HS x). }
  assert (Hxa : forall x pr, x ∈ ex -> active_proc (exit_devstat (set_inactive 0 x) pr) = true).
  { intros x pr Hx. unfold active_proc. by rewrite Hxp, exit_devstat_active. }
  pose proof (HC is_active (fun x pr _ => exit_devstat_active x pr)) as C1.
  pose proof (HC is_proc Hxp) as C2. pose proof (HC active_proc Hxa) as C3.
  rewrite <-(pi_ntask _ _ _ _ _ _ HP), <-(ei_ntask _ _ _ _ _ _ _ _ _ _ _ _ _ HE) in C1.
  rewrite <-(pi_nall _ _ _ _ _ _ HP), <-(ei_nall _ _ _ _ _ _ _ _ _ _ _ _ _ HE) in C2.
  rewrite <-(pi_nact _ _ _ _ _ _ HP), <-(ei_nact _ _ _ _ _ _ _ _ _ _ _ _ _ HE) in C3.
  assert (Hle : Z.of_nat (length pres) + Z.of_nat (length ex) = Z.of_nat (length e.(exited.taskall))).
  { rewrite (ei_len _ _ _ _ _ _ _ _ _ _ _ _ _ HE). lia. }
  rewrite Hle, <-C2, <-C3. destruct (list_loop e.(exited.taskall)) as (l & -> & L1 & L2). mstep.
  eexists _, _. split; [done|].
  rewrite C2, C3. eapply deviations_join; done || lia.
Qed.
