(* ===== verification/DevTheorems.v ===== *)
(** * The contract of deviattask

    The theorems on the activity of tasks during a sample. *)
From S2P Require Import Prelude Tstat Sstat Counter Procdbase PdbHeap PdbSpec PdbTheorems Netatopif.
From S2P Require Import Deviattask DevSpec DevExit DevMain.

(** C1: deviattask returns for every sample of present and exited tasks (netatopd
    inactive, no PID reused): the process database then holds exactly the
    present samples, every present task gets the deviations of its own
    previous sample (or is marked new, or inactive), every exited process is
    compared with the entry that its PID, or else its owner, name and start
    time pick from the RESIDUE list, and the counters and pointer lists
    describe the resulting task list. *)
Theorem deviattask_returns supportflags pretime prejunk all s m junk :
  db_idle s.(dtask.db) m ->
  sample_ok supportflags m s.(dtask.curtpres) s.(dtask.curpexit) junk ->
  exists s' d,
    deviattask supportflags pretime junk prejunk (Z.of_nat (length s.(dtask.curtpres)))
      (Z.of_nat (length s.(dtask.curpexit))) all s = Some (s', d) /\
    deviations_ok pretime m s.(dtask.curtpres) s.(dtask.curpexit) junk (total_cpu all) s' d.
Proof. apply deviattask_spec. Qed.

(** ** Accounting *)

Definition tick_counters : list (tstat.tstat -> Z) :=
  [fun t => t.(tstat.cpu).(tcpu.utime); fun t => t.(tstat.cpu).(tcpu.stime)].

Definition io_counters : list (tstat.tstat -> Z) :=
  [fun t => t.(tstat.dsk).(tdsk.rio); fun t => t.(tstat.dsk).(tdsk.rsz);
   fun t => t.(tstat.dsk).(tdsk.wio); fun t => t.(tstat.dsk).(tdsk.wsz);
   fun t => t.(tstat.dsk).(tdsk.cwsz);
   fun t => t.(tstat.mem).(tmem.minflt); fun t => t.(tstat.mem).(tmem.majflt);
   fun t => t.(tstat.net).(tnet.tcpsnd); fun t => t.(tstat.net).(tnet.tcpssz);
   fun t => t.(tstat.net).(tnet.tcprcv); fun t => t.(tstat.net).(tnet.tcprsz);
   fun t => t.(tstat.net).(tnet.udpsnd); fun t => t.(tstat.net).(tnet.udpssz);
   fun t => t.(tstat.net).(tnet.udprcv); fun t => t.(tstat.net).(tnet.udprsz)].

(** From [p] to [t] no counter went back, and the ticks fit in the sample. *)
Record grows (tot : Z) (p t : tstat.tstat) : Prop := {
  gr_all : forall f, f ∈ tick_counters ++ io_counters -> 0 <= f p <= f t /\ f t < 2 ^ 63;
  gr_ticks : forall f, f ∈ tick_counters -> f t - f p <= tot
}.

Lemma sane_ticks_grow tot p t : 0 <= p <= t -> t < 2 ^ 63 -> t - p <= tot ->
  sane_ticks tot (subcount t p) = t - p.
Proof. intros. rewrite subcount_ge by lia. unfold sane_ticks. by rewrite (proj2 (Z.ltb_ge _ _)) by lia. Qed.

Lemma netdiff_grow p t : 0 <= p <= t -> t < 2 ^ 63 -> netdiff t p = t - p.
Proof. intros. unfold netdiff. rewrite (proj2 (Z.leb_le _ _)), subcount_ge by lia. done. Qed.

Lemma calcdiff_grow g t p new tot f : is_active t = true -> grows tot p t ->
  f ∈ tick_counters ++ io_counters -> f (calcdiff g t p new tot) = f t - f p.
Proof.
  intros Ha [H1 H2] Hf. pose proof (H1 f Hf) as [Hfp Hft]. unfold is_active in Ha.
  apply elem_of_app in Hf as [Hf|Hf].
  - specialize (H2 f Hf). unfold tick_counters in Hf. rewrite !elem_of_cons in Hf.
    destruct Hf as [->|[->|Hf%elem_of_nil]]; [..|done]; cbn [calcdiff tstat.cpu diff_cpu tcpu.utime tcpu.stime];
      rewrite Ha; by apply sane_ticks_grow.
  - unfold io_counters in Hf. rewrite !elem_of_cons in Hf.
    repeat destruct Hf as [->|Hf]; try (by apply elem_of_nil in Hf);
      cbn [calcdiff tstat.dsk tstat.mem tstat.net]; rewrite Ha;
      cbn [diff_dsk diff_mem diff_net tdsk.rio tdsk.rsz tdsk.wio tdsk.wsz tdsk.cwsz tmem.minflt tmem.majflt
           tnet.tcpsnd tnet.tcpssz tnet.tcprcv tnet.tcprsz tnet.udpsnd tnet.udpssz tnet.udprcv tnet.udprsz];
      (by apply subcount_ge) || (by apply netdiff_grow).
Qed.

Lemma counters_gen f t h : f ∈ tick_counters ++ io_counters -> f (upd_gen h t) = f t.
Proof.
  intros Hf. unfold tick_counters, io_counters in Hf. cbn [app] in Hf. rewrite !elem_of_cons in Hf.
  repeat destruct Hf as [->|Hf]; try done. by apply elem_of_nil in Hf.
Qed.

Lemma counters_zero f : f ∈ tick_counters ++ io_counters -> f tstat_zero = 0.
Proof.
  intros Hf. unfold tick_counters, io_counters in Hf. cbn [app] in Hf. rewrite !elem_of_cons in Hf.
  repeat destruct Hf as [->|Hf]; try done. by apply elem_of_nil in Hf.
Qed.

Lemma counters_eq x y f : inactive_eq x y -> f ∈ tick_counters ++ io_counters -> f x = f y.
Proof.
  intros E Hf. rewrite <-(counters_gen f x (set_wasinactive 0) Hf), <-(counters_gen f y (set_wasinactive 0) Hf).
  unfold inactive_eq, set_inactive in E. by rewrite E.
Qed.

(** The previous values of a task: none when it is new. *)
Definition baseline (m : gmap tkey tstat.tstat) (t : tstat.tstat) : tstat.tstat :=
  default tstat_zero (m !! task_key t).

(** An inactive task has no deviations. *)
Lemma calcdiff_idle g t p new tot f : is_active t = false ->
  f ∈ tick_counters ++ io_counters -> f (calcdiff g t p new tot) = 0.
Proof.
  intros Ha Hf. unfold tick_counters, io_counters in Hf. cbn [app] in Hf. rewrite !elem_of_cons in Hf.
  unfold is_active in Ha.
  repeat destruct Hf as [->|Hf]; try (unfold calcdiff; rewrite Ha; done). by apply elem_of_nil in Hf.
Qed.

Lemma task_diff_accounts m tot g t f : grows tot (baseline m t) t -> f ∈ tick_counters ++ io_counters ->
  f (task_diff m tot g t) = f t - f (baseline m t).
Proof.
  intros HG Hf. unfold task_diff, task_outcome, baseline in *.
  assert (Hset : forall new p, grows tot p t -> f (calcdiff g (set_inactive 0 t) p new tot) = f t - f p).
  { intros new p [H1 H2]. rewrite <-(counters_gen f t (set_wasinactive 0) Hf). apply calcdiff_grow; [done| |done].
    split; intros h Hh; unfold set_inactive; rewrite counters_gen by set_solver; auto. }
  destruct (m !! task_key t) as [p|]; cbn [default from_option] in *; [|by apply Hset].
  change (id p) with p in *. destruct (decide (t = p)) as [->|Hne]; [|by apply Hset].
  rewrite Z.sub_diag. by apply calcdiff_idle.
Qed.

(** C3: The deviations that deviattask reports account for all work: for each
    present task, the value of every tick, disk, fault and network counter in
    the previous sample (zero for a new task) plus its deviation is its value in
    the current sample. The conditions: no counter of the task went back, its
    ticks grew by no more than the ticks of all processors in the sample (a
    larger deviation is reported as 1), all values are below 2^63, and the
    sample is one as for deviattask_returns: netatopd is inactive, no PID was
    reused, no task comes twice and none is marked, the first one is a process,
    the exited ones are processes that are not present, and the task list is
    allocated for both. *)
Theorem deviattask_accounts supportflags pretime prejunk all s m junk :
  db_idle s.(dtask.db) m ->
  sample_ok supportflags m s.(dtask.curtpres) s.(dtask.curpexit) junk ->
  exists s' d,
    deviattask supportflags pretime junk prejunk (Z.of_nat (length s.(dtask.curtpres)))
      (Z.of_nat (length s.(dtask.curpexit))) all s = Some (s', d) /\
    forall i t, s.(dtask.curtpres) !! i = Some t -> grows (total_cpu all) (baseline m t) t ->
      exists x, d.(devtstat.taskall) !! i = Some x /\
        forall f, f ∈ tick_counters ++ io_counters -> f (baseline m t) + f x = f t.
Proof.
  intros HD HS. destruct (deviattask_spec supportflags pretime prejunk all s m junk HD HS) as (s' & d & E & HO).
  exists s', d. split; [done|]. intros i t Ht HG.
  destruct (lookup_lt_is_Some_2 junk i) as [g Hg].
  { rewrite (so_alloc _ _ _ _ _ HS). apply lookup_lt_Some in Ht. lia. }
  destruct (do_present _ _ _ _ _ _ _ _ HO i t g Ht Hg) as (x & Hx & Ex). exists x. split; [done|].
  intros f Hf. rewrite (counters_eq _ _ f Ex Hf), task_diff_accounts by done. lia.
Qed.

(** ** Ticks *)

Lemma sane_ticks_bound tot ticks : sane_ticks tot ticks <= Z.max 1 tot.
Proof. unfold sane_ticks. destruct (Z.ltb_spec tot ticks); lia. Qed.

Lemma task_diff_ticks m tot g t f : f ∈ tick_counters -> 0 <= tot -> f (task_diff m tot g t) <= Z.max 1 tot.
Proof.
  intros Hf Ht. unfold task_diff. destruct (task_outcome m t) as [[new t'] p].
  unfold tick_counters in Hf. rewrite !elem_of_cons in Hf. unfold calcdiff.
  destruct Hf as [->|[->|Hf%elem_of_nil]]; [..|done]; cbn; destruct (_ =? 0); cbn; try lia; apply sane_ticks_bound.
Qed.

(** C19: The user and system ticks that deviattask reports for a present task
    never exceed the ticks of all processors in the sample (or one tick when
    there were none). *)
Theorem deviattask_ticks supportflags pretime prejunk all s m junk :
  db_idle s.(dtask.db) m ->
  sample_ok supportflags m s.(dtask.curtpres) s.(dtask.curpexit) junk -> 0 <= total_cpu all ->
  exists s' d,
    deviattask supportflags pretime junk prejunk (Z.of_nat (length s.(dtask.curtpres)))
      (Z.of_nat (length s.(dtask.curpexit))) all s = Some (s', d) /\
    forall i x, (i < length s.(dtask.curtpres))%nat -> d.(devtstat.taskall) !! i = Some x ->
      x.(tstat.cpu).(tcpu.utime) <= Z.max 1 (total_cpu all) /\
      x.(tstat.cpu).(tcpu.stime) <= Z.max 1 (total_cpu all).
Proof.
  intros HD HS Hall. destruct (deviattask_spec supportflags pretime prejunk all s m junk HD HS) as (s' & d & E & HO).
  exists s', d. split; [done|]. intros i x Hi Hx.
  destruct (lookup_lt_is_Some_2 _ i Hi) as [t Ht]. destruct (lookup_lt_is_Some_2 junk i) as [g Hg].
  { rewrite (so_alloc _ _ _ _ _ HS). lia. }
  destruct (do_present _ _ _ _ _ _ _ _ HO i t g Ht Hg) as (y & Hy & Ey). rewrite Hx in Hy. injection Hy as <-.
  assert (HB : forall f, f ∈ tick_counters -> f x <= Z.max 1 (total_cpu all)).
  { intros f Hf. rewrite (counters_eq _ _ f Ey) by set_solver. by apply task_diff_ticks. }
  split; [apply (HB (fun t => t.(tstat.cpu).(tcpu.utime))) | apply (HB (fun t => t.(tstat.cpu).(tcpu.stime)))];
    unfold tick_counters; rewrite !elem_of_cons; tauto.
Qed.

(** ** Concrete samples *)

(** A sample of three tasks; then one is unchanged, one has worked, one is new
    and one has exited. *)
Definition pres1 : list tstat.tstat :=
  [a_task 10 1 100 5 0 "init"; a_task 20 1 110 7 3 "make"; a_task 266 1 120 9 0 "cc"].
Definition pres2 : list tstat.tstat :=
  [a_task 10 1 100 5 0 "init"; a_task 266 1 120 30 4 "cc"; a_task 267 0 130 2 0 "cc"].
Definition exits2 : list tstat.tstat := [a_task 20 1 110 8 5 "make"].

Definition all_cpu : percpu.percpu := percpu.mk 0 10 10 0 80 0 0 0 0 0 freqcnt_zero 0 0 [].

#[local] Ltac each_elem H := repeat (apply elem_of_cons in H as [->|H]); [..|by apply elem_of_nil in H].

(** The check that no PID changed hands. *)
Lemma no_reuse_check (m : gmap tkey tstat.tstat) (pres : list tstat.tstat) :
  forallb (fun t => match m !! task_key t with
                    | Some p => same_start t.(tstat.gen).(tgen.btime) p
                    | None => true
                    end) pres = true ->
  forall t p, t ∈ pres -> m !! task_key t = Some p -> same_start t.(tstat.gen).(tgen.btime) p = true.
Proof.
  intros H t p Ht Hp. rewrite forallb_forall in H. specialize (H t (proj1 (list_elem_of_In _ _) Ht)).
  by rewrite Hp in H.
Qed.

Lemma sample1_ok : sample_ok 0 ∅ pres1 [] pres1.
Proof.
  split; try done.
  - refine (bool_decide_eq_true_1 (NoDup _) _). by vm_compute.
  - intros t Ht. unfold pres1 in Ht. by each_elem Ht.
  - intros t Ht. by injection Ht as <-.
  - intros e He. by apply elem_of_nil in He.
  - intros e He. by apply elem_of_nil in He.
  - intros e He. by apply elem_of_nil in He.
Qed.

Lemma sample2_ok : sample_ok 0 (add_samples ∅ pres1) pres2 exits2 (pres2 ++ exits2).
Proof.
  split; try done.
  - refine (bool_decide_eq_true_1 (NoDup _) _). by vm_compute.
  - intros t Ht. unfold pres2 in Ht. by each_elem Ht.
  - apply no_reuse_check. by vm_compute.
  - intros t Ht. by injection Ht as <-.
  - intros e He. unfold exits2 in He. by each_elem He.
  - intros e He. unfold exits2 in He. each_elem He.
    intros (t & Ht & E)%keys_elem. unfold pres2 in Ht. by each_elem Ht.
  - intros e He. unfold exits2 in He. by each_elem He.
Qed.

Lemma deviattask_returns_witness : exists s1 d1 s2 d2,
  deviattask 0 50 pres1 tstat_zero 3 0 all_cpu (dtask.mk pres1 [] pdb_init netatop_init) = Some (s1, d1) /\
  deviattask 0 125 (pres2 ++ exits2) tstat_zero 3 1 all_cpu (dtask.mk pres2 exits2 s1.(dtask.db) netatop_init)
    = Some (s2, d2) /\
  db_idle s2.(dtask.db) (add_samples ∅ pres2) /\
  deviations_ok 125 (add_samples ∅ pres1) pres2 exits2 (pres2 ++ exits2) 100 s2 d2.
Proof.
  destruct (deviattask_returns 0 50 tstat_zero all_cpu (dtask.mk pres1 [] pdb_init netatop_init) ∅ pres1
    pdb_init_idle sample1_ok) as (s1 & d1 & E1 & O1).
  destruct (deviattask_returns 0 125 tstat_zero all_cpu (dtask.mk pres2 exits2 s1.(dtask.db) netatop_init)
    (add_samples ∅ pres1) (pres2 ++ exits2) (do_db _ _ _ _ _ _ _ _ O1) sample2_ok) as (s2 & d2 & E2 & O2).
  exists s1, d1, s2, d2. split; [exact E1|]. split; [exact E2|]. split; [apply O2 | exact O2].
Defined.

Lemma grows_1 : grows (total_cpu all_cpu) (baseline ∅ (a_task 20 1 110 7 3 "make")) (a_task 20 1 110 7 3 "make").
Proof.
  change (total_cpu all_cpu) with 100. change (baseline ∅ _) with tstat_zero.
  split; intros f Hf; unfold tick_counters, io_counters in Hf; cbn [app] in Hf; each_elem Hf; cbn; lia.
Qed.

Lemma deviattask_accounts_witness : exists s1 d1 x,
  deviattask 0 50 pres1 tstat_zero 3 0 all_cpu (dtask.mk pres1 [] pdb_init netatop_init) = Some (s1, d1) /\
  d1.(devtstat.taskall) !! 1%nat = Some x /\ x.(tstat.cpu).(tcpu.utime) = 7.
Proof.
  destruct (deviattask_accounts 0 50 tstat_zero all_cpu (dtask.mk pres1 [] pdb_init netatop_init) ∅ pres1
    pdb_init_idle sample1_ok) as (s1 & d1 & E1 & H).
  destruct (H 1%nat (a_task 20 1 110 7 3 "make") eq_refl grows_1) as (x & Hx & Hf).
  exists s1, d1, x. split; [exact E1|]. split; [exact Hx|].
  apply (Hf (fun t => t.(tstat.cpu).(tcpu.utime))). unfold tick_counters. by left.
Defined.

Lemma deviattask_ticks_witness : exists s1 d1,
  deviattask 0 50 pres1 tstat_zero 3 0 all_cpu (dtask.mk pres1 [] pdb_init netatop_init) = Some (s1, d1) /\
  forall i x, (i < 3)%nat -> d1.(devtstat.taskall) !! i = Some x ->
    x.(tstat.cpu).(tcpu.utime) <= 100 /\ x.(tstat.cpu).(tcpu.stime) <= 100.
Proof.
  apply (deviattask_ticks 0 50 tstat_zero all_cpu (dtask.mk pres1 [] pdb_init netatop_init) ∅ pres1
    pdb_init_idle sample1_ok). by vm_compute.
Defined.

(** ** A PID that was given to another process *)

(** The same sample is handled twice more after the PID changed hands. *)
Definition reused : list tstat.tstat := [a_task 10 1 100 5 0 "init"; a_task 20 1 500 40 0 "vi"].

Definition next_sample (pres : list tstat.tstat) (s : dtask.dtask) : option (dtask.dtask * devtstat.devtstat) :=
  deviattask 0 50 pres tstat_zero (Z.of_nat (length pres)) 0 all_cpu (dtask.mk pres [] s.(dtask.db) s.(dtask.na)).

(** The user time that is shown for the second task. *)
Definition shown_utime (d : devtstat.devtstat) : option Z :=
  x ← d.(devtstat.taskall) !! 1%nat; Some x.(tstat.cpu).(tcpu.utime).

(** A PID that was given to another process between two samples: its entry is
    removed from the database at the end of the sample that adds it, so that
    the process is taken for a new one again in the next sample and reports
    the same consumption once more. *)
Theorem reused_pid_reported_again :
  exists s0 d0 s1 d1 s2 d2,
    next_sample pres1 (dtask.mk [] [] pdb_init netatop_init) = Some (s0, d0) /\
    next_sample reused s0 = Some (s1, d1) /\ next_sample reused s1 = Some (s2, d2) /\
    found s1.(dtask.db) (20, 1) 500 = Some None /\
    shown_utime d1 = Some 40 /\ shown_utime d2 = Some 40.
Proof.
  eexists _, _, _, _, _, _. split; [by vm_compute|]. split; [by vm_compute|]. split; [by vm_compute|].
  split; [by vm_compute|]. split; by vm_compute.
Qed.
