(* ===== verification/Format.v ===== *)
(** * Formatted output and input of the C library

    The conversions of [sprintf] and [sscanf] that the program uses, on
    character lists. *)
From Stdlib Require Import Ascii.
From S2P Require Import Prelude.

Notation text := (list ascii).

Definition chars (s : string) : text := String.list_ascii_of_string s.
Definition str_of (l : text) : string := String.string_of_list_ascii l.

Definition isdigit (c : ascii) : bool :=
  let n := Z.of_nat (nat_of_ascii c) in (48 <=? n) && (n <=? 57).

Definition digit (d : Z) : ascii := ascii_of_nat (48 + Z.to_nat d).
Definition digit_val (c : ascii) : Z := Z.of_nat (nat_of_ascii c) - 48.

(** ** Output *)

Fixpoint digits (fuel : nat) (n : Z) : text :=
  match fuel with
  | O => []
  | S f => if n <? 10 then [digit n] else digits f (n / 10) ++ [digit (n mod 10)]
  end.

(** The decimal digits of a natural number. *)
Definition dec (n : Z) : text := digits (S (Z.to_nat (Z.log2 n))) n.

(** [%d] and [%lld] *)
Definition fmt_d (z : Z) : text := if z <? 0 then "-"%char :: dec (- z) else dec z.

(** A field of a minimum width: a negative width pads on the right. *)
Definition pad_left (c : ascii) (w : nat) (s : text) : text := replicate (w - length s) c ++ s.
Definition pad (w : Z) (s : text) : text :=
  if w <? 0 then s ++ replicate (Z.to_nat (- w) - length s) " "%char
  else pad_left " "%char (Z.to_nat w) s.

(** [%0kd] *)
Definition fmt_0d (k : nat) (z : Z) : text :=
  if z <? 0 then "-"%char :: pad_left "0"%char (k - 1) (dec (- z)) else pad_left "0"%char k (dec z).

(** ** Floating point

    A [double] is a fraction of integers with a positive denominator. *)

(** Rounding of [n / d] to an integer, ties to even. *)
Definition rne (n d : Z) : Z :=
  let q := n / d in
  let r := n mod d in
  if 2 * r <? d then q
  else if d <? 2 * r then q + 1
  else if Z.even q then q else q + 1.

(** The binary number with [p] significant bits that is nearest to [n / d]. *)
Definition bin (p n d : Z) : Z * Z :=
  if n =? 0 then (0, 1)
  else
    let k := Z.log2 (Z.abs n) - Z.log2 d in
    let scale e := (n * 2 ^ Z.max 0 (- e), d * 2 ^ Z.max 0 e) in
    let large := (d * 2 ^ Z.max 0 k <=? Z.abs n * 2 ^ Z.max 0 (- k)) in
    let e := if large then k - (p - 1) else k - p in
    let m := rne (scale e).1 (scale e).2 in
    (m * 2 ^ Z.max 0 e, 2 ^ Z.max 0 (- e)).

(** A [double] has 53 significant bits, a [float] 24. *)
Definition dbl : Z -> Z -> Z * Z := bin 53.
Definition flt : Z -> Z -> Z * Z := bin 24.

(** The value of a [float] from its bits, finite. *)
Definition flt_value (bits : Z) : Z * Z :=
  let e := bits / 2 ^ 23 mod 256 in
  let f := bits mod 2 ^ 23 in
  let m := if e =? 0 then f else f + 2 ^ 23 in
  let k := (if e =? 0 then 1 else e) - 150 in
  ((if 2 ^ 31 <=? bits then - m else m) * 2 ^ Z.max 0 k, 2 ^ Z.max 0 (- k)).

(** [x < y] for a fraction and an integer. *)
Definition dbl_lt (x : Z * Z) (y : Z) : bool := x.1 <? y * x.2.

(** [%.kf]: rounded to [k] decimals. *)
Definition fmt_f (k : nat) (x : Z * Z) : text :=
  let v := rne (x.1 * 10 ^ Z.of_nat k) x.2 in
  let a := Z.abs v in
  let body := match k with
              | O => dec a
              | _ => dec (a / 10 ^ Z.of_nat k) ++ "."%char :: fmt_0d k (a mod 10 ^ Z.of_nat k)
              end in
  if x.1 <? 0 then "-"%char :: body else body.

(** ** Input *)

Definition isspace (c : ascii) : bool :=
  let n := Z.of_nat (nat_of_ascii c) in ((9 <=? n) && (n <=? 13)) || (n =? 32).

Fixpoint skip_space (l : list ascii) : list ascii :=
  match l with
  | [] => []
  | c :: l' => if isspace c then skip_space l' else l
  end.

Fixpoint token (n : nat) (l : list ascii) : list ascii :=
  match n, l with
  | S n', c :: l' => if isspace c then [] else c :: token n' l'
  | _, _ => []
  end.

(** The digits in front, as a number; [None] when there are none. *)
Fixpoint scan_digits (acc : Z) (l : text) : Z * text :=
  match l with
  | [] => (acc, [])
  | c :: l' => if isdigit c then scan_digits (10 * acc + digit_val c) l' else (acc, l)
  end.

Definition scan_nat (l : text) : option (Z * text) :=
  match l with
  | c :: _ => if isdigit c then Some (scan_digits 0 l) else None
  | [] => None
  end.

#[global] Arguments dec : simpl never.

(** ** Lemmas *)

Lemma isdigit_digit d : 0 <= d < 10 -> isdigit (digit d) = true.
Proof.
  intros H. assert (d = 0 \/ d = 1 \/ d = 2 \/ d = 3 \/ d = 4 \/ d = 5 \/ d = 6 \/ d = 7 \/ d = 8 \/ d = 9)
    as Hd by lia. by repeat destruct Hd as [->|Hd]; [..|subst d].
Qed.

Lemma digit_val_digit d : 0 <= d < 10 -> digit_val (digit d) = d.
Proof.
  intros H. assert (d = 0 \/ d = 1 \/ d = 2 \/ d = 3 \/ d = 4 \/ d = 5 \/ d = 6 \/ d = 7 \/ d = 8 \/ d = 9)
    as Hd by lia. by repeat destruct Hd as [->|Hd]; [..|subst d].
Qed.

Lemma digits_all f n : 0 <= n -> Forall (fun c => isdigit c = true) (digits f n).
Proof.
  revert n. induction f as [|f IH]; intros n Hn; cbn; [constructor|].
  destruct (Z.ltb_spec n 10).
  - repeat constructor. by apply isdigit_digit.
  - apply Forall_app. split; [apply IH; apply Z.div_pos; lia|]. repeat constructor.
    apply isdigit_digit. apply Z.mod_pos_bound. lia.
Qed.

(** The number of digits: at most [k] below [10 ^ k]. *)
Lemma digits_length_le f n k : (0 < k)%nat -> 0 <= n < 10 ^ Z.of_nat k -> (length (digits f n) <= k)%nat.
Proof.
  revert n k. induction f as [|f IH]; intros n k Hk Hn; cbn; [lia|].
  destruct (Z.ltb_spec n 10); cbn; [lia|]. rewrite length_app. cbn.
  destruct k as [|k]; [lia|]. rewrite Nat2Z.inj_succ, Z.pow_succ_r in Hn by lia.
  destruct k as [|k]; [cbn in Hn; lia|].
  assert (length (digits f (n / 10)) <= S k)%nat; [|lia].
  apply IH; [lia|]. split; [apply Z.div_pos; lia|]. apply Z.div_lt_upper_bound; lia.
Qed.

Lemma digits_length_ge f n k : 10 ^ Z.of_nat k <= n -> n < 10 ^ Z.of_nat f -> (k < length (digits f n))%nat.
Proof.
  revert n k. induction f as [|f IH]; intros n k Hn Hf; cbn.
  - pose proof (Z.pow_pos_nonneg 10 (Z.of_nat k)). cbn in Hf. lia.
  - destruct (Z.ltb_spec n 10).
    + destruct k as [|k]; cbn; [lia|]. rewrite Nat2Z.inj_succ, Z.pow_succ_r in Hn by lia.
      pose proof (Z.pow_pos_nonneg 10 (Z.of_nat k)). lia.
    + rewrite length_app. cbn. destruct k as [|k]; [lia|].
      rewrite Nat2Z.inj_succ, Z.pow_succ_r in Hn by lia.
      rewrite Nat2Z.inj_succ, Z.pow_succ_r in Hf by lia.
      assert (k < length (digits f (n / 10)))%nat; [|lia]. apply IH.
      * apply Z.div_le_lower_bound; lia.
      * apply Z.div_lt_upper_bound; lia.
Qed.

Lemma dec_fuel n : 0 <= n -> n < 10 ^ Z.of_nat (S (Z.to_nat (Z.log2 n))).
Proof.
  intros Hn. rewrite Nat2Z.inj_succ, Z2Nat.id by apply Z.log2_nonneg.
  apply Z.lt_le_trans with (2 ^ Z.succ (Z.log2 n)).
  - destruct (decide (n = 0)) as [->|]; [done|]. apply Z.log2_spec. lia.
  - apply Z.pow_le_mono_l. pose proof (Z.log2_nonneg n). lia.
Qed.

Lemma dec_length_le n k : (0 < k)%nat -> 0 <= n < 10 ^ Z.of_nat k -> (length (dec n) <= k)%nat.
Proof. apply digits_length_le. Qed.

Lemma dec_length_ge n k : 0 <= n -> 10 ^ Z.of_nat k <= n -> (k < length (dec n))%nat.
Proof. intros H0 H. apply digits_length_ge; [done|]. by apply dec_fuel. Qed.

Lemma dec_nonempty n : (0 < length (dec n))%nat.
Proof. unfold dec. cbn [digits]. destruct (n <? 10); cbn; [lia|]. rewrite length_app. cbn. lia. Qed.

Lemma dec_digits n : 0 <= n -> Forall (fun c => isdigit c = true) (dec n).
Proof. apply digits_all. Qed.

(** Reading back what was printed. *)
Lemma scan_digits_app acc l r :
  Forall (fun c => isdigit c = true) l ->
  scan_digits acc (l ++ r) = scan_digits (foldl (fun a c => 10 * a + digit_val c) acc l) r.
Proof.
  revert acc. induction l as [|c l IH]; intros acc HF; cbn; [done|].
  apply Forall_cons in HF as [Hc HF]. rewrite Hc. by apply IH.
Qed.

Lemma digits_value f n acc : 0 <= n < 10 ^ Z.of_nat f ->
  foldl (fun a c => 10 * a + digit_val c) acc (digits f n) = acc * 10 ^ Z.of_nat (length (digits f n)) + n.
Proof.
  revert n acc. induction f as [|f IH]; intros n acc Hn; [cbn in *; lia|]. cbn [digits].
  destruct (Z.ltb_spec n 10).
  - cbn. rewrite digit_val_digit by lia. lia.
  - rewrite foldl_app. rewrite Nat2Z.inj_succ, Z.pow_succ_r in Hn by lia.
    rewrite IH by (split; [apply Z.div_pos; lia|]; apply Z.div_lt_upper_bound; lia).
    cbn [foldl]. rewrite digit_val_digit by (apply Z.mod_pos_bound; lia).
    rewrite length_app. cbn [length]. rewrite Nat.add_1_r, Nat2Z.inj_succ, Z.pow_succ_r by lia.
    pose proof (Z.div_mod n 10). lia.
Qed.

Definition stops_digits (r : text) : Prop :=
  match r with [] => True | c :: _ => isdigit c = false end.

Lemma scan_digits_stop acc r : stops_digits r -> scan_digits acc r = (acc, r).
Proof. destruct r as [|c r]; cbn; [done|]. by intros ->. Qed.

Lemma scan_zeros k l : scan_digits 0 (replicate k "0"%char ++ l) = scan_digits 0 l.
Proof. induction k as [|k IH]; cbn; [done|]. exact IH. Qed.

(** A zero-padded number reads back. *)
Lemma scan_fmt_0d k n r : 0 <= n -> stops_digits r ->
  scan_nat (fmt_0d k n ++ r) = Some (n, r).
Proof.
  intros Hn Hr. unfold fmt_0d, pad_left. rewrite (proj2 (Z.ltb_ge n 0)) by done.
  assert (Hd : scan_digits 0 (replicate (k - length (dec n)) "0"%char ++ dec n ++ r) = (n, r)).
  { rewrite scan_zeros, scan_digits_app by by apply dec_digits.
    unfold dec. rewrite digits_value by (split; [done | by apply dec_fuel]).
    rewrite Z.mul_0_l, Z.add_0_l. by apply scan_digits_stop. }
  rewrite <-app_assoc. unfold scan_nat.
  destruct (replicate _ _ ++ dec n ++ r) as [|c l] eqn:E.
  - apply (f_equal length) in E. rewrite !length_app in E. pose proof (dec_nonempty n). change (length (@nil ascii)) with 0%nat in E. lia.
  - rewrite Hd. assert (Hc : isdigit c = true); [|by rewrite Hc].
    pose proof (dec_digits n Hn) as HF. pose proof (dec_nonempty n).
    revert E. destruct (k - length (dec n))%nat; cbn; intros E.
    + revert E. destruct (dec n) as [|x y]; cbn in *; [lia|]. intros E. apply Forall_cons in HF as [Hx _].
      injection E. by intros _ <-.
    + by simplify_eq.
Qed.

Lemma scan_dec n r : 0 <= n -> stops_digits r -> scan_nat (dec n ++ r) = Some (n, r).
Proof.
  intros Hn Hr. rewrite <-(scan_fmt_0d 0 n r Hn Hr). unfold fmt_0d, pad_left.
  rewrite (proj2 (Z.ltb_ge n 0)) by done. done.
Qed.

Lemma fmt_0d_length k n : (0 < k)%nat -> 0 <= n < 10 ^ Z.of_nat k -> length (fmt_0d k n) = k.
Proof.
  intros Hk Hn. unfold fmt_0d, pad_left. rewrite (proj2 (Z.ltb_ge n 0)) by lia.
  rewrite length_app, length_replicate. pose proof (dec_length_le n k Hk Hn). lia.
Qed.

Lemma pad_length w s : 0 <= w -> (length s <= Z.to_nat w)%nat -> length (pad w s) = Z.to_nat w.
Proof.
  intros Hw Hl. unfold pad, pad_left. rewrite (proj2 (Z.ltb_ge w 0)) by done.
  rewrite length_app, length_replicate. lia.
Qed.

Lemma pad_length_max w s : 0 <= w -> length (pad w s) = Nat.max (Z.to_nat w) (length s).
Proof.
  intros Hw. unfold pad, pad_left. rewrite (proj2 (Z.ltb_ge w 0)) by done.
  rewrite length_app, length_replicate. lia.
Qed.

Lemma fmt_d_nonneg z : 0 <= z -> fmt_d z = dec z.
Proof. intros H. unfold fmt_d. by rewrite (proj2 (Z.ltb_ge z 0)). Qed.
