(* ===== verification/TstatStores.v ===== *)
(** * Stores to the members of [struct tstat]

    One definition per member that the readers of /proc store; the others are
    in [Tstat]. *)
From S2P Require Import Prelude Tstat.

Definition set_tgid (v : Z) (x : tgen.tgen) : tgen.tgen :=
  tgen.mk v x.(tgen.pid) x.(tgen.ppid) x.(tgen.ruid) x.(tgen.euid) x.(tgen.suid) x.(tgen.fsuid) x.(tgen.rgid)
    x.(tgen.egid) x.(tgen.sgid) x.(tgen.fsgid) x.(tgen.nthr) x.(tgen.name) x.(tgen.isproc) x.(tgen.state)
    x.(tgen.excode) x.(tgen.btime) x.(tgen.elaps) x.(tgen.cmdline) x.(tgen.nthrslpi) x.(tgen.nthrslpu)
    x.(tgen.nthrrun) x.(tgen.ctid) x.(tgen.vpid) x.(tgen.wasinactive) x.(tgen.container).
Definition set_ppid (v : Z) (x : tgen.tgen) : tgen.tgen :=
  tgen.mk x.(tgen.tgid) x.(tgen.pid) v x.(tgen.ruid) x.(tgen.euid) x.(tgen.suid) x.(tgen.fsuid) x.(tgen.rgid)
    x.(tgen.egid) x.(tgen.sgid) x.(tgen.fsgid) x.(tgen.nthr) x.(tgen.name) x.(tgen.isproc) x.(tgen.state)
    x.(tgen.excode) x.(tgen.btime) x.(tgen.elaps) x.(tgen.cmdline) x.(tgen.nthrslpi) x.(tgen.nthrslpu)
    x.(tgen.nthrrun) x.(tgen.ctid) x.(tgen.vpid) x.(tgen.wasinactive) x.(tgen.container).
Definition set_euid (v : Z) (x : tgen.tgen) : tgen.tgen :=
  tgen.mk x.(tgen.tgid) x.(tgen.pid) x.(tgen.ppid) x.(tgen.ruid) v x.(tgen.suid) x.(tgen.fsuid) x.(tgen.rgid)
    x.(tgen.egid) x.(tgen.sgid) x.(tgen.fsgid) x.(tgen.nthr) x.(tgen.name) x.(tgen.isproc) x.(tgen.state)
    x.(tgen.excode) x.(tgen.btime) x.(tgen.elaps) x.(tgen.cmdline) x.(tgen.nthrslpi) x.(tgen.nthrslpu)
    x.(tgen.nthrrun) x.(tgen.ctid) x.(tgen.vpid) x.(tgen.wasinactive) x.(tgen.container).
Definition set_suid (v : Z) (x : tgen.tgen) : tgen.tgen :=
  tgen.mk x.(tgen.tgid) x.(tgen.pid) x.(tgen.ppid) x.(tgen.ruid) x.(tgen.euid) v x.(tgen.fsuid) x.(tgen.rgid)
    x.(tgen.egid) x.(tgen.sgid) x.(tgen.fsgid) x.(tgen.nthr) x.(tgen.name) x.(tgen.isproc) x.(tgen.state)
    x.(tgen.excode) x.(tgen.btime) x.(tgen.elaps) x.(tgen.cmdline) x.(tgen.nthrslpi) x.(tgen.nthrslpu)
    x.(tgen.nthrrun) x.(tgen.ctid) x.(tgen.vpid) x.(tgen.wasinactive) x.(tgen.container).
Definition set_fsuid (v : Z) (x : tgen.tgen) : tgen.tgen :=
  tgen.mk x.(tgen.tgid) x.(tgen.pid) x.(tgen.ppid) x.(tgen.ruid) x.(tgen.euid) x.(tgen.suid) v x.(tgen.rgid)
    x.(tgen.egid) x.(tgen.sgid) x.(tgen.fsgid) x.(tgen.nthr) x.(tgen.name) x.(tgen.isproc) x.(tgen.state)
    x.(tgen.excode) x.(tgen.btime) x.(tgen.elaps) x.(tgen.cmdline) x.(tgen.nthrslpi) x.(tgen.nthrslpu)
    x.(tgen.nthrrun) x.(tgen.ctid) x.(tgen.vpid) x.(tgen.wasinactive) x.(tgen.container).
Definition set_rgid (v : Z) (x : tgen.tgen) : tgen.tgen :=
  tgen.mk x.(tgen.tgid) x.(tgen.pid) x.(tgen.ppid) x.(tgen.ruid) x.(tgen.euid) x.(tgen.suid) x.(tgen.fsuid) v
    x.(tgen.egid) x.(tgen.sgid) x.(tgen.fsgid) x.(tgen.nthr) x.(tgen.name) x.(tgen.isproc) x.(tgen.state)
    x.(tgen.excode) x.(tgen.btime) x.(tgen.elaps) x.(tgen.cmdline) x.(tgen.nthrslpi) x.(tgen.nthrslpu)
    x.(tgen.nthrrun) x.(tgen.ctid) x.(tgen.vpid) x.(tgen.wasinactive) x.(tgen.container).
Definition set_egid (v : Z) (x : tgen.tgen) : tgen.tgen :=
  tgen.mk x.(tgen.tgid) x.(tgen.pid) x.(tgen.ppid) x.(tgen.ruid) x.(tgen.euid) x.(tgen.suid) x.(tgen.fsuid)
    x.(tgen.rgid) v x.(tgen.sgid) x.(tgen.fsgid) x.(tgen.nthr) x.(tgen.name) x.(tgen.isproc) x.(tgen.state)
    x.(tgen.excode) x.(tgen.btime) x.(tgen.elaps) x.(tgen.cmdline) x.(tgen.nthrslpi) x.(tgen.nthrslpu)
    x.(tgen.nthrrun) x.(tgen.ctid) x.(tgen.vpid) x.(tgen.wasinactive) x.(tgen.container).
Definition set_sgid (v : Z) (x : tgen.tgen) : tgen.tgen :=
  tgen.mk x.(tgen.tgid) x.(tgen.pid) x.(tgen.ppid) x.(tgen.ruid) x.(tgen.euid) x.(tgen.suid) x.(tgen.fsuid)
    x.(tgen.rgid) x.(tgen.egid) v x.(tgen.fsgid) x.(tgen.nthr) x.(tgen.name) x.(tgen.isproc) x.(tgen.state)
    x.(tgen.excode) x.(tgen.btime) x.(tgen.elaps) x.(tgen.cmdline) x.(tgen.nthrslpi) x.(tgen.nthrslpu)
    x.(tgen.nthrrun) x.(tgen.ctid) x.(tgen.vpid) x.(tgen.wasinactive) x.(tgen.container).
Definition set_fsgid (v : Z) (x : tgen.tgen) : tgen.tgen :=
  tgen.mk x.(tgen.tgid) x.(tgen.pid) x.(tgen.ppid) x.(tgen.ruid) x.(tgen.euid) x.(tgen.suid) x.(tgen.fsuid)
    x.(tgen.rgid) x.(tgen.egid) x.(tgen.sgid) v x.(tgen.nthr) x.(tgen.name) x.(tgen.isproc) x.(tgen.state)
    x.(tgen.excode) x.(tgen.btime) x.(tgen.elaps) x.(tgen.cmdline) x.(tgen.nthrslpi) x.(tgen.nthrslpu)
    x.(tgen.nthrrun) x.(tgen.ctid) x.(tgen.vpid) x.(tgen.wasinactive) x.(tgen.container).
Definition set_nthr (v : Z) (x : tgen.tgen) : tgen.tgen :=
  tgen.mk x.(tgen.tgid) x.(tgen.pid) x.(tgen.ppid) x.(tgen.ruid) x.(tgen.euid) x.(tgen.suid) x.(tgen.fsuid)
    x.(tgen.rgid) x.(tgen.egid) x.(tgen.sgid) x.(tgen.fsgid) v x.(tgen.name) x.(tgen.isproc) x.(tgen.state)
    x.(tgen.excode) x.(tgen.btime) x.(tgen.elaps) x.(tgen.cmdline) x.(tgen.nthrslpi) x.(tgen.nthrslpu)
    x.(tgen.nthrrun) x.(tgen.ctid) x.(tgen.vpid) x.(tgen.wasinactive) x.(tgen.container).
Definition set_isproc (v : Z) (x : tgen.tgen) : tgen.tgen :=
  tgen.mk x.(tgen.tgid) x.(tgen.pid) x.(tgen.ppid) x.(tgen.ruid) x.(tgen.euid) x.(tgen.suid) x.(tgen.fsuid)
    x.(tgen.rgid) x.(tgen.egid) x.(tgen.sgid) x.(tgen.fsgid) x.(tgen.nthr) x.(tgen.name) v x.(tgen.state)
    x.(tgen.excode) x.(tgen.btime) x.(tgen.elaps) x.(tgen.cmdline) x.(tgen.nthrslpi) x.(tgen.nthrslpu)
    x.(tgen.nthrrun) x.(tgen.ctid) x.(tgen.vpid) x.(tgen.wasinactive) x.(tgen.container).
Definition set_state (v : Z) (x : tgen.tgen) : tgen.tgen :=
  tgen.mk x.(tgen.tgid) x.(tgen.pid) x.(tgen.ppid) x.(tgen.ruid) x.(tgen.euid) x.(tgen.suid) x.(tgen.fsuid)
    x.(tgen.rgid) x.(tgen.egid) x.(tgen.sgid) x.(tgen.fsgid) x.(tgen.nthr) x.(tgen.name) x.(tgen.isproc) v
    x.(tgen.excode) x.(tgen.btime) x.(tgen.elaps) x.(tgen.cmdline) x.(tgen.nthrslpi) x.(tgen.nthrslpu)
    x.(tgen.nthrrun) x.(tgen.ctid) x.(tgen.vpid) x.(tgen.wasinactive) x.(tgen.container).
Definition set_btime (v : Z) (x : tgen.tgen) : tgen.tgen :=
  tgen.mk x.(tgen.tgid) x.(tgen.pid) x.(tgen.ppid) x.(tgen.ruid) x.(tgen.euid) x.(tgen.suid) x.(tgen.fsuid)
    x.(tgen.rgid) x.(tgen.egid) x.(tgen.sgid) x.(tgen.fsgid) x.(tgen.nthr) x.(tgen.name) x.(tgen.isproc)
    x.(tgen.state) x.(tgen.excode) v x.(tgen.elaps) x.(tgen.cmdline) x.(tgen.nthrslpi) x.(tgen.nthrslpu)
    x.(tgen.nthrrun) x.(tgen.ctid) x.(tgen.vpid) x.(tgen.wasinactive) x.(tgen.container).
Definition set_nthrslpi (v : Z) (x : tgen.tgen) : tgen.tgen :=
  tgen.mk x.(tgen.tgid) x.(tgen.pid) x.(tgen.ppid) x.(tgen.ruid) x.(tgen.euid) x.(tgen.suid) x.(tgen.fsuid)
    x.(tgen.rgid) x.(tgen.egid) x.(tgen.sgid) x.(tgen.fsgid) x.(tgen.nthr) x.(tgen.name) x.(tgen.isproc)
    x.(tgen.state) x.(tgen.excode) x.(tgen.btime) x.(tgen.elaps) x.(tgen.cmdline) v x.(tgen.nthrslpu)
    x.(tgen.nthrrun) x.(tgen.ctid) x.(tgen.vpid) x.(tgen.wasinactive) x.(tgen.container).
Definition set_nthrslpu (v : Z) (x : tgen.tgen) : tgen.tgen :=
  tgen.mk x.(tgen.tgid) x.(tgen.pid) x.(tgen.ppid) x.(tgen.ruid) x.(tgen.euid) x.(tgen.suid) x.(tgen.fsuid)
    x.(tgen.rgid) x.(tgen.egid) x.(tgen.sgid) x.(tgen.fsgid) x.(tgen.nthr) x.(tgen.name) x.(tgen.isproc)
    x.(tgen.state) x.(tgen.excode) x.(tgen.btime) x.(tgen.elaps) x.(tgen.cmdline) x.(tgen.nthrslpi) v
    x.(tgen.nthrrun) x.(tgen.ctid) x.(tgen.vpid) x.(tgen.wasinactive) x.(tgen.container).
Definition set_nthrrun (v : Z) (x : tgen.tgen) : tgen.tgen :=
  tgen.mk x.(tgen.tgid) x.(tgen.pid) x.(tgen.ppid) x.(tgen.ruid) x.(tgen.euid) x.(tgen.suid) x.(tgen.fsuid)
    x.(tgen.rgid) x.(tgen.egid) x.(tgen.sgid) x.(tgen.fsgid) x.(tgen.nthr) x.(tgen.name) x.(tgen.isproc)
    x.(tgen.state) x.(tgen.excode) x.(tgen.btime) x.(tgen.elaps) x.(tgen.cmdline) x.(tgen.nthrslpi)
    x.(tgen.nthrslpu) v x.(tgen.ctid) x.(tgen.vpid) x.(tgen.wasinactive) x.(tgen.container).
Definition set_ctid (v : Z) (x : tgen.tgen) : tgen.tgen :=
  tgen.mk x.(tgen.tgid) x.(tgen.pid) x.(tgen.ppid) x.(tgen.ruid) x.(tgen.euid) x.(tgen.suid) x.(tgen.fsuid)
    x.(tgen.rgid) x.(tgen.egid) x.(tgen.sgid) x.(tgen.fsgid) x.(tgen.nthr) x.(tgen.name) x.(tgen.isproc)
    x.(tgen.state) x.(tgen.excode) x.(tgen.btime) x.(tgen.elaps) x.(tgen.cmdline) x.(tgen.nthrslpi)
    x.(tgen.nthrslpu) x.(tgen.nthrrun) v x.(tgen.vpid) x.(tgen.wasinactive) x.(tgen.container).
Definition set_vpid (v : Z) (x : tgen.tgen) : tgen.tgen :=
  tgen.mk x.(tgen.tgid) x.(tgen.pid) x.(tgen.ppid) x.(tgen.ruid) x.(tgen.euid) x.(tgen.suid) x.(tgen.fsuid)
    x.(tgen.rgid) x.(tgen.egid) x.(tgen.sgid) x.(tgen.fsgid) x.(tgen.nthr) x.(tgen.name) x.(tgen.isproc)
    x.(tgen.state) x.(tgen.excode) x.(tgen.btime) x.(tgen.elaps) x.(tgen.cmdline) x.(tgen.nthrslpi)
    x.(tgen.nthrslpu) x.(tgen.nthrrun) x.(tgen.ctid) v x.(tgen.wasinactive) x.(tgen.container).

Definition set_utime (v : Z) (x : tcpu.tcpu) : tcpu.tcpu :=
  tcpu.mk v x.(tcpu.stime) x.(tcpu.nice) x.(tcpu.prio) x.(tcpu.rtprio) x.(tcpu.policy) x.(tcpu.curcpu)
    x.(tcpu.sleepavg) x.(tcpu.ifuture) x.(tcpu.cfuture).
Definition set_stime (v : Z) (x : tcpu.tcpu) : tcpu.tcpu :=
  tcpu.mk x.(tcpu.utime) v x.(tcpu.nice) x.(tcpu.prio) x.(tcpu.rtprio) x.(tcpu.policy) x.(tcpu.curcpu)
    x.(tcpu.sleepavg) x.(tcpu.ifuture) x.(tcpu.cfuture).
Definition set_nice (v : Z) (x : tcpu.tcpu) : tcpu.tcpu :=
  tcpu.mk x.(tcpu.utime) x.(tcpu.stime) v x.(tcpu.prio) x.(tcpu.rtprio) x.(tcpu.policy) x.(tcpu.curcpu)
    x.(tcpu.sleepavg) x.(tcpu.ifuture) x.(tcpu.cfuture).
Definition set_prio (v : Z) (x : tcpu.tcpu) : tcpu.tcpu :=
  tcpu.mk x.(tcpu.utime) x.(tcpu.stime) x.(tcpu.nice) v x.(tcpu.rtprio) x.(tcpu.policy) x.(tcpu.curcpu)
    x.(tcpu.sleepavg) x.(tcpu.ifuture) x.(tcpu.cfuture).
Definition set_rtprio (v : Z) (x : tcpu.tcpu) : tcpu.tcpu :=
  tcpu.mk x.(tcpu.utime) x.(tcpu.stime) x.(tcpu.nice) x.(tcpu.prio) v x.(tcpu.policy) x.(tcpu.curcpu)
    x.(tcpu.sleepavg) x.(tcpu.ifuture) x.(tcpu.cfuture).
Definition set_policy (v : Z) (x : tcpu.tcpu) : tcpu.tcpu :=
  tcpu.mk x.(tcpu.utime) x.(tcpu.stime) x.(tcpu.nice) x.(tcpu.prio) x.(tcpu.rtprio) v x.(tcpu.curcpu)
    x.(tcpu.sleepavg) x.(tcpu.ifuture) x.(tcpu.cfuture).
Definition set_curcpu (v : Z) (x : tcpu.tcpu) : tcpu.tcpu :=
  tcpu.mk x.(tcpu.utime) x.(tcpu.stime) x.(tcpu.nice) x.(tcpu.prio) x.(tcpu.rtprio) x.(tcpu.policy) v
    x.(tcpu.sleepavg) x.(tcpu.ifuture) x.(tcpu.cfuture).
Definition set_sleepavg (v : Z) (x : tcpu.tcpu) : tcpu.tcpu :=
  tcpu.mk x.(tcpu.utime) x.(tcpu.stime) x.(tcpu.nice) x.(tcpu.prio) x.(tcpu.rtprio) x.(tcpu.policy)
    x.(tcpu.curcpu) v x.(tcpu.ifuture) x.(tcpu.cfuture).

Definition set_minflt (v : Z) (x : tmem.tmem) : tmem.tmem :=
  tmem.mk v x.(tmem.majflt) x.(tmem.vexec) x.(tmem.vmem) x.(tmem.rmem) x.(tmem.pmem) x.(tmem.vgrow)
    x.(tmem.rgrow) x.(tmem.vdata) x.(tmem.vstack) x.(tmem.vlibs) x.(tmem.vswap) x.(tmem.cfuture).
Definition set_majflt (v : Z) (x : tmem.tmem) : tmem.tmem :=
  tmem.mk x.(tmem.minflt) v x.(tmem.vexec) x.(tmem.vmem) x.(tmem.rmem) x.(tmem.pmem) x.(tmem.vgrow)
    x.(tmem.rgrow) x.(tmem.vdata) x.(tmem.vstack) x.(tmem.vlibs) x.(tmem.vswap) x.(tmem.cfuture).
Definition set_vexec (v : Z) (x : tmem.tmem) : tmem.tmem :=
  tmem.mk x.(tmem.minflt) x.(tmem.majflt) v x.(tmem.vmem) x.(tmem.rmem) x.(tmem.pmem) x.(tmem.vgrow)
    x.(tmem.rgrow) x.(tmem.vdata) x.(tmem.vstack) x.(tmem.vlibs) x.(tmem.vswap) x.(tmem.cfuture).
Definition set_vmem (v : Z) (x : tmem.tmem) : tmem.tmem :=
  tmem.mk x.(tmem.minflt) x.(tmem.majflt) x.(tmem.vexec) v x.(tmem.rmem) x.(tmem.pmem) x.(tmem.vgrow)
    x.(tmem.rgrow) x.(tmem.vdata) x.(tmem.vstack) x.(tmem.vlibs) x.(tmem.vswap) x.(tmem.cfuture).
Definition set_rmem (v : Z) (x : tmem.tmem) : tmem.tmem :=
  tmem.mk x.(tmem.minflt) x.(tmem.majflt) x.(tmem.vexec) x.(tmem.vmem) v x.(tmem.pmem) x.(tmem.vgrow)
    x.(tmem.rgrow) x.(tmem.vdata) x.(tmem.vstack) x.(tmem.vlibs) x.(tmem.vswap) x.(tmem.cfuture).
Definition set_pmem (v : Z) (x : tmem.tmem) : tmem.tmem :=
  tmem.mk x.(tmem.minflt) x.(tmem.majflt) x.(tmem.vexec) x.(tmem.vmem) x.(tmem.rmem) v x.(tmem.vgrow)
    x.(tmem.rgrow) x.(tmem.vdata) x.(tmem.vstack) x.(tmem.vlibs) x.(tmem.vswap) x.(tmem.cfuture).
Definition set_vgrow (v : Z) (x : tmem.tmem) : tmem.tmem :=
  tmem.mk x.(tmem.minflt) x.(tmem.majflt) x.(tmem.vexec) x.(tmem.vmem) x.(tmem.rmem) x.(tmem.pmem) v
    x.(tmem.rgrow) x.(tmem.vdata) x.(tmem.vstack) x.(tmem.vlibs) x.(tmem.vswap) x.(tmem.cfuture).
Definition set_rgrow (v : Z) (x : tmem.tmem) : tmem.tmem :=
  tmem.mk x.(tmem.minflt) x.(tmem.majflt) x.(tmem.vexec) x.(tmem.vmem) x.(tmem.rmem) x.(tmem.pmem)
    x.(tmem.vgrow) v x.(tmem.vdata) x.(tmem.vstack) x.(tmem.vlibs) x.(tmem.vswap) x.(tmem.cfuture).
Definition set_vdata (v : Z) (x : tmem.tmem) : tmem.tmem :=
  tmem.mk x.(tmem.minflt) x.(tmem.majflt) x.(tmem.vexec) x.(tmem.vmem) x.(tmem.rmem) x.(tmem.pmem)
    x.(tmem.vgrow) x.(tmem.rgrow) v x.(tmem.vstack) x.(tmem.vlibs) x.(tmem.vswap) x.(tmem.cfuture).
Definition set_vstack (v : Z) (x : tmem.tmem) : tmem.tmem :=
  tmem.mk x.(tmem.minflt) x.(tmem.majflt) x.(tmem.vexec) x.(tmem.vmem) x.(tmem.rmem) x.(tmem.pmem)
    x.(tmem.vgrow) x.(tmem.rgrow) x.(tmem.vdata) v x.(tmem.vlibs) x.(tmem.vswap) x.(tmem.cfuture).
Definition set_vlibs (v : Z) (x : tmem.tmem) : tmem.tmem :=
  tmem.mk x.(tmem.minflt) x.(tmem.majflt) x.(tmem.vexec) x.(tmem.vmem) x.(tmem.rmem) x.(tmem.pmem)
    x.(tmem.vgrow) x.(tmem.rgrow) x.(tmem.vdata) x.(tmem.vstack) v x.(tmem.vswap) x.(tmem.cfuture).
Definition set_vswap (v : Z) (x : tmem.tmem) : tmem.tmem :=
  tmem.mk x.(tmem.minflt) x.(tmem.majflt) x.(tmem.vexec) x.(tmem.vmem) x.(tmem.rmem) x.(tmem.pmem)
    x.(tmem.vgrow) x.(tmem.rgrow) x.(tmem.vdata) x.(tmem.vstack) x.(tmem.vlibs) v x.(tmem.cfuture).

Definition upd_cpu (f : tcpu.tcpu -> tcpu.tcpu) (t : tstat.tstat) : tstat.tstat := set_cpu (f t.(tstat.cpu)) t.
Definition upd_mem (f : tmem.tmem -> tmem.tmem) (t : tstat.tstat) : tstat.tstat := set_mem (f t.(tstat.mem)) t.
