(* ===== verification/Sscanf.v ===== *)
(** * Formatted input of the C library: [sscanf]

    A format is parsed into directives, which are matched against the text. The
    result is the list of the values that are assigned, in order; its length is
    the number that [sscanf] returns (where that is -1, at the end of the text
    before the first conversion, it is 0; no caller tells the two apart).
    A number that its type does not hold is undefined behaviour: [None]. *)
From Stdlib Require Import Ascii.
From S2P Require Import Prelude Format.

(** What a conversion reads. *)
Inductive conv :=
  | CInt (signed : bool) (bits : Z)
  | CChar
  | CStr (width : option nat)
  | CNot (width : option nat) (stop : ascii). (* %[^c] *)
#[export] Instance conv_eq_dec : EqDecision conv.
Proof. solve_decision. Defined.

Inductive directive :=
  | Dspace
  | Dchar (c : ascii)
  | Dconv (suppress : bool) (c : conv).
#[export] Instance directive_eq_dec : EqDecision directive.
Proof. solve_decision. Defined.

Inductive value :=
  | VInt (z : Z)
  | VStr (s : text).
#[export] Instance value_eq_dec : EqDecision value.
Proof. solve_decision. Defined.

(** ** Formats *)

(** Inside a conversion: suppressed, the width, long. *)
Module convstate.
Record convstate := mk { suppress : bool; width : option nat; long : bool }.
End convstate.

Definition add_width (w : option nat) (c : ascii) : option nat :=
  Some (10 * default 0 w + Z.to_nat (digit_val c))%nat.

Fixpoint parse_directives (st : option convstate.convstate) (f : text) : option (list directive) :=
  match f with
  | [] => match st with None => Some [] | Some _ => None end
  | c :: f' =>
      match st with
      | None =>
          if Ascii.eqb c "%" then parse_directives (Some (convstate.mk false None false)) f'
          else ds ← parse_directives None f'; Some ((if isspace c then Dspace else Dchar c) :: ds)
      | Some s =>
          let emit k := ds ← parse_directives None f'; Some (Dconv s.(convstate.suppress) k :: ds) in
          let bits := if s.(convstate.long) then 64 else 32 in
          if Ascii.eqb c "*" then parse_directives (Some (convstate.mk true s.(convstate.width) s.(convstate.long))) f'
          else if isdigit c then
            parse_directives (Some (convstate.mk s.(convstate.suppress) (add_width s.(convstate.width) c) s.(convstate.long))) f'
          else if Ascii.eqb c "l" then
            parse_directives (Some (convstate.mk s.(convstate.suppress) s.(convstate.width) true)) f'
          else if Ascii.eqb c "d" then emit (CInt true bits)
          else if Ascii.eqb c "u" then emit (CInt false bits)
          else if Ascii.eqb c "c" then emit CChar
          else if Ascii.eqb c "s" then emit (CStr s.(convstate.width))
          else if Ascii.eqb c "[" then
            match f' with
            | hat :: stop :: close :: f'' =>
                if Ascii.eqb hat "^" && Ascii.eqb close "]" then
                  ds ← parse_directives None f'';
                  Some (Dconv s.(convstate.suppress) (CNot s.(convstate.width) stop) :: ds)
                else None
            | _ => None
            end
          else if Ascii.eqb c "%" then ds ← parse_directives None f'; Some (Dspace :: Dchar c :: ds)
          else None
      end
  end.

Definition parse_format (fmt : string) : option (list directive) := parse_directives None (chars fmt).

(** ** Conversions *)

Definition int_fits (signed : bool) (bits z : Z) : bool :=
  if signed then (- 2 ^ (bits - 1) <=? z) && (z <? 2 ^ (bits - 1)) else (0 <=? z) && (z <? 2 ^ bits).

(** An optional sign in front of the digits. *)
Definition scan_sign (l : text) : bool * text :=
  match l with
  | c :: l' => if Ascii.eqb c "-" then (true, l') else if Ascii.eqb c "+" then (false, l') else (false, l)
  | [] => (false, [])
  end.

Inductive converted :=
  | Fails
  | Undefined
  | Done (v : value) (rest : text).

Fixpoint run_until (stop : ascii) (n : nat) (l : text) : text :=
  match n, l with
  | S n', c :: l' => if Ascii.eqb c stop then [] else c :: run_until stop n' l'
  | _, _ => []
  end.

(** The text from [l] on, one character being at least [0] and below 128 in all
    files that are read. *)
Definition convert (suppress : bool) (c : conv) (l : text) : converted :=
  match c with
  | CInt signed bits =>
      let s := scan_sign (skip_space l) in
      match scan_nat s.2 with
      | None => Fails
      | Some (n, rest) =>
          let z := if s.1 then - n else n in
          if suppress || int_fits signed bits z then Done (VInt z) rest else Undefined
      end
  | CChar => match l with [] => Fails | x :: rest => Done (VInt (Z.of_nat (nat_of_ascii x))) rest end
  | CStr width =>
      let l := skip_space l in
      let n := default (length l) width in
      match token n l with
      | [] => Fails
      | t => Done (VStr t) (drop (length t) l)
      end
  | CNot width stop =>
      match run_until stop (default (length l) width) l with
      | [] => Fails
      | t => Done (VStr t) (drop (length t) l)
      end
  end.

Fixpoint scanf (ds : list directive) (l : text) : option (list value) :=
  match ds with
  | [] => Some []
  | Dspace :: ds => scanf ds (skip_space l)
  | Dchar c :: ds => match l with
                     | x :: l' => if Ascii.eqb x c then scanf ds l' else Some []
                     | [] => Some []
                     end
  | Dconv suppress c :: ds =>
      match convert suppress c l with
      | Fails => Some []
      | Undefined => None
      | Done v rest => vs ← scanf ds rest; Some (if suppress then vs else v :: vs)
      end
  end.

Definition sscanf (l : text) (fmt : string) : option (list value) :=
  ds ← parse_format fmt; scanf ds l.

(** ** Numbers in a string *)

(** [strtol(p, &p, 10)]: the value, whether it is out of range, and the rest;
    [None] when there is no number. *)
Definition strtol (p : text) : option (Z * bool * text) :=
  let s := scan_sign (skip_space p) in
  match scan_nat s.2 with
  | None => None
  | Some (n, rest) =>
      let v := if s.1 then - n else n in
      Some (Z.max (- 2 ^ 63) (Z.min v (2 ^ 63 - 1)), negb (int_fits true 64 v), rest)
  end.

(** [atoi]: [strtol] cut to an [int]. *)
Definition atoi (val : text) : Z :=
  match strtol val with Some (v, _, _) => i32 v | None => 0 end.

(** ** Stores: the values go to the members that the call names *)

Definition num {S} (f : Z -> S -> S) (v : value) (s : S) : S :=
  match v with VInt z => f z s | VStr _ => s end.
Definition str {S} (f : text -> S -> S) (v : value) (s : S) : S :=
  match v with VInt _ => s | VStr t => f t s end.

Fixpoint stores {S} (fs : list (value -> S -> S)) (vs : list value) (s : S) : S :=
  match fs, vs with
  | f :: fs, v :: vs => stores fs vs (f v s)
  | _, _ => s
  end.

(** [nr = sscanf(l, fmt, &...)]: the number and the state. *)
Definition scan_into {S} (l : text) (fmt : string) (fs : list (value -> S -> S)) (s : S) : option (nat * S) :=
  vs ← sscanf l fmt; Some (length vs, stores fs vs s).

(** ** Lines *)

Definition newline : ascii := "010".

(** The characters before a terminator. *)
Fixpoint cstr (l : text) : text :=
  match l with
  | [] => []
  | c :: l' => if Ascii.eqb c zero then [] else c :: cstr l'
  end.

(** [fgets(line, size, fp)]: at most [size - 1] characters, up to and with the
    next newline; the line and what is left. *)
Fixpoint fgets (n : nat) (l : text) : text * text :=
  match n, l with
  | S n', c :: l' =>
      if Ascii.eqb c "010" then ([c], l')
      else let r := fgets n' l' in (c :: r.1, r.2)
  | _, _ => ([], l)
  end.

Fixpoint lines_fuel (fuel size : nat) (l : text) : list text :=
  match fuel, l with
  | S f, _ :: _ => let r := fgets (size - 1) l in r.1 :: lines_fuel f size r.2
  | _, _ => []
  end.

(** The lines that a loop with [fgets] sees, each up to its terminator. *)
Definition lines (size : nat) (l : text) : list text := cstr <$> lines_fuel (length l) size l.

(** [memcmp(line, prefix, strlen(prefix)) == 0] *)
Fixpoint prefixed (p l : text) : bool :=
  match p, l with
  | [], _ => true
  | c :: p', d :: l' => Ascii.eqb c d && prefixed p' l'
  | _ :: _, [] => false
  end.
Definition starts (p : string) (l : text) : bool := prefixed (chars p) l.

(** [strchr] and [strrchr]: the index. *)
Fixpoint strchr (c : ascii) (l : text) : option nat :=
  match l with
  | [] => None
  | x :: l' => if Ascii.eqb x c then Some O else S <$> strchr c l'
  end.
Fixpoint strrchr (c : ascii) (l : text) : option nat :=
  match l with
  | [] => None
  | x :: l' => match strrchr c l' with
               | Some i => Some (S i)
               | None => if Ascii.eqb x c then Some O else None
               end
  end.

(** [strstr]: the text from the first occurrence on. *)
Fixpoint strstr (p l : text) : option text :=
  if prefixed p l then Some l
  else match l with [] => None | _ :: l' => strstr p l' end.

#[global] Arguments int_fits : simpl never.
