(* ===== verification/SscanfFacts.v ===== *)
(** * What [sscanf] reads back

    A row of printed values, separated by white space, is read by a format with
    one conversion for each of them. *)
From Stdlib Require Import Ascii.
From S2P Require Import Prelude Format Sscanf.

(** ** White space *)

Definition spaces (l : text) : Prop := Forall (fun c => isspace c = true) l.
Definition ends_token (l : text) : Prop := match l with [] => True | c :: _ => isspace c = true end.
Definition solid (l : text) : Prop := l ≠ [] /\ Forall (fun c => isspace c = false) l.

Lemma skip_space_app sep l : spaces sep -> skip_space (sep ++ l) = skip_space l.
Proof. induction 1 as [|c sep Hc _ IH]; cbn; [done|]. by rewrite Hc. Qed.

Lemma skip_space_idemp l : skip_space (skip_space l) = skip_space l.
Proof. induction l as [|c l IH]; cbn; [done|]. destruct (isspace c) eqn:E; [done|]. cbn. by rewrite E. Qed.

Lemma skip_space_solid s l : solid s -> skip_space (s ++ l) = s ++ l.
Proof. intros [Hne HF]. destruct s as [|c s]; [done|]. apply Forall_cons in HF as [Hc _]. cbn. by rewrite Hc. Qed.

Lemma token_solid s l n : Forall (fun c => isspace c = false) s -> ends_token l -> (length s <= n)%nat ->
  token n (s ++ l) = s.
Proof.
  intros HF Hl. revert n. induction HF as [|c s Hc _ IH]; intros n Hn; cbn in *.
  - destruct n as [|n], l as [|d l]; cbn in *; try done. by rewrite Hl.
  - destruct n as [|n]; [lia|]. cbn. rewrite Hc. f_equal. apply IH. lia.
Qed.

(** ** Numbers *)

Lemma space_no_digit c : isspace c = true -> isdigit c = false.
Proof.
  unfold isspace, isdigit. intros H. apply andb_false_iff. rewrite !Z.leb_gt.
  apply orb_true_iff in H. rewrite andb_true_iff, !Z.leb_le, Z.eqb_eq in H. lia.
Qed.

Lemma digit_no_space c : isdigit c = true -> isspace c = false.
Proof. intros H. destruct (isspace c) eqn:E; [|done]. apply space_no_digit in E. congruence. Qed.

Lemma digit_no_sign c : isdigit c = true -> Ascii.eqb c "-" = false /\ Ascii.eqb c "+" = false.
Proof.
  intros H. split; apply Ascii.eqb_neq; intros ->; by cbn in H.
Qed.

Lemma ends_stops l : ends_token l -> stops_digits l.
Proof. destruct l as [|c l]; cbn; [done|]. apply space_no_digit. Qed.

Lemma dec_solid n : 0 <= n -> solid (dec n).
Proof.
  intros H. split.
  - intros E. pose proof (dec_nonempty n) as Hl. rewrite E in Hl. cbn in Hl. lia.
  - eapply Forall_impl; [by apply dec_digits|]. apply digit_no_space.
Qed.

Lemma dec_head n : 0 <= n -> exists c l, dec n = c :: l /\ isdigit c = true.
Proof.
  intros H. destruct (dec_solid n H) as [Hne _]. pose proof (dec_digits n H) as HF.
  destruct (dec n) as [|c l]; [done|]. apply Forall_cons in HF as [Hc _]. eauto.
Qed.

Lemma fmt_d_solid z : solid (fmt_d z).
Proof.
  unfold fmt_d. destruct (Z.ltb_spec z 0); [|by apply dec_solid].
  destruct (dec_solid (- z)) as [_ HF]; [lia|]. split; [done|]. by constructor.
Qed.

Lemma scan_printed z l : stops_digits l ->
  exists neg n, scan_sign (fmt_d z ++ l) = (neg, dec n ++ l) /\ scan_nat (dec n ++ l) = Some (n, l) /\
    (if neg then - n else n) = z.
Proof.
  intros Hl. unfold fmt_d. destruct (Z.ltb_spec z 0) as [Hz|Hz].
  - exists true, (- z). split; [done|]. split; [apply scan_dec; [lia | done] | lia].
  - exists false, z. split; [|split; [by apply scan_dec | done]].
    destruct (dec_head z Hz) as (c & r & -> & Hc). destruct (digit_no_sign c Hc) as [E1 E2]. cbn. by rewrite E1, E2.
Qed.

(** [strtol] on decimal digits. *)
Lemma strtol_dec n r : 0 <= n < 2 ^ 63 -> stops_digits r -> strtol (dec n ++ r) = Some (n, false, r).
Proof.
  intros Hn Hr. rewrite <-fmt_d_nonneg by lia. unfold strtol. rewrite skip_space_solid by apply fmt_d_solid.
  destruct (scan_printed n r Hr) as (neg & m & E1 & E2 & E3). rewrite E1. cbn [snd fst]. rewrite E2, E3.
  unfold int_fits. rewrite (proj2 (Z.leb_le _ n)), (proj2 (Z.ltb_lt n _)) by (cbn; lia).
  f_equal. f_equal. f_equal. lia.
Qed.

(** ** One conversion *)

(** The printed value. *)
Definition print (v : value) : text := match v with VInt z => fmt_d z | VStr s => s end.

(** The conversion reads the value. *)
Definition reads (suppress : bool) (c : conv) (v : value) : bool :=
  match c, v with
  | CInt signed bits, VInt z => suppress || int_fits signed bits z
  | CStr width, VStr s =>
      bool_decide (s ≠ []) && forallb (fun c => negb (isspace c)) s &&
      match width with None => true | Some n => (length s <=? n)%nat end
  | _, _ => false
  end.

Lemma reads_solid suppress c v : reads suppress c v = true -> solid (print v).
Proof.
  destruct v as [z|s]; [intros _; apply fmt_d_solid|].
  destruct c; cbn; try done. intros H. apply andb_true_iff in H as [H _]. apply andb_true_iff in H as [H1 H2].
  split; [by apply bool_decide_eq_true in H1|]. apply Forall_forall. intros x Hx.
  rewrite forallb_forall in H2. apply negb_true_iff, H2. by apply list_elem_of_In.
Qed.

Lemma convert_number suppress signed bits z sep l : suppress || int_fits signed bits z = true -> spaces sep ->
  stops_digits l -> convert suppress (CInt signed bits) (sep ++ fmt_d z ++ l) = Done (VInt z) l.
Proof.
  intros Hr Hsep Hl. cbn [convert]. rewrite skip_space_app, skip_space_solid by (done || apply fmt_d_solid).
  destruct (scan_printed z l Hl) as (neg & n & E1 & E2 & E3).
  rewrite E1. cbn [snd fst]. by rewrite E2, E3, Hr.
Qed.

Lemma convert_printed suppress c v sep l : reads suppress c v = true -> spaces sep -> ends_token l ->
  convert suppress c (sep ++ print v ++ l) = Done v l.
Proof.
  intros Hr Hsep Hl. pose proof (reads_solid _ _ _ Hr) as Hs.
  destruct c as [signed bits| |width|width stop], v as [z|s]; try done.
  - apply convert_number; [done | done | by apply ends_stops].
  - cbn [convert]. rewrite skip_space_app, skip_space_solid by done.
    cbn [print reads] in *. apply andb_true_iff in Hr as [Hr Hw]. destruct Hs as [Hne HF].
    assert (Et : token (default (length (s ++ l)) width) (s ++ l) = s).
    { apply token_solid; [done..|]. destruct width as [n|]; cbn; [by apply Nat.leb_le|]. rewrite length_app. lia. }
    rewrite Et. destruct s as [|x s]; [done|]. by rewrite drop_app_length.
Qed.

(** ** A row *)

(** Printed values, each with white space in front. *)
Inductive row : list value -> text -> Prop :=
  | row_nil l : row [] l
  | row_cons sep v vs l : spaces sep -> ends_token l -> row vs l -> row (v :: vs) (sep ++ print v ++ l).

(** Conversions only, none of them [%c]. *)
Definition skipping (d : directive) : bool :=
  match d with Dspace => true | Dconv _ CChar | Dconv _ (CNot _ _) => false | Dconv _ _ => true | Dchar _ => false end.
Definition is_conv (d : directive) : bool := match d with Dconv _ _ => true | _ => false end.

(** The values that are assigned. *)
Fixpoint assigned (ds : list directive) (vs : list value) : list value :=
  match ds, vs with
  | Dconv suppress _ :: ds, v :: vs => if suppress then assigned ds vs else v :: assigned ds vs
  | _, _ => []
  end.

Fixpoint reads_all (ds : list directive) (vs : list value) : bool :=
  match ds, vs with
  | [], [] => true
  | Dconv suppress c :: ds, v :: vs => reads suppress c v && reads_all ds vs
  | _, _ => false
  end.

Lemma scanf_row ds : forall vs l, reads_all ds vs = true -> row vs l -> scanf ds l = Some (assigned ds vs).
Proof.
  induction ds as [|[| |suppress c] ds IH]; intros [|v vs] l Hr Hrow; cbn in Hr; try done.
  apply andb_true_iff in Hr as [Hv Hr]. inversion Hrow as [|sep v' vs' l' Hsep Hl Hrow']; subst.
  cbn [scanf assigned]. rewrite convert_printed by done. rewrite (IH vs l') by done. mstep. by destruct suppress.
Qed.

(** White space in the format makes no difference there. *)
Lemma scanf_skip ds l : forallb (fun d => is_conv d && skipping d) ds = true -> scanf ds (skip_space l) = scanf ds l.
Proof.
  destruct ds as [|[| |suppress c] ds]; cbn; try done. intros H. apply andb_true_iff in H as [Hc _].
  destruct c as [signed bits| |width|width stop]; cbn in *; try done; by rewrite skip_space_idemp.
Qed.

Lemma scanf_convs ds : forall l, forallb skipping ds = true -> scanf ds l = scanf (List.filter is_conv ds) l.
Proof.
  assert (Hf : forall ds', forallb skipping ds' = true ->
    forallb (fun d => is_conv d && skipping d) (List.filter is_conv ds') = true).
  { clear ds. induction ds' as [|d ds' IH]; cbn; [done|]. intros H. apply andb_true_iff in H as [Hd H].
    destruct d; cbn in *; [by apply IH | done|]. by rewrite Hd, IH. }
  induction ds as [|d ds IH]; intros l H; [done|]. cbn in H. apply andb_true_iff in H as [Hd H].
  destruct d as [|x|suppress c]; cbn in *; [|done|].
  - rewrite IH by done. apply scanf_skip. by apply Hf.
  - destruct (convert suppress c l); [done..|]. by rewrite IH.
Qed.

(** A format of conversions reads the row of its values. *)
Lemma scanf_reads ds vs l : forallb skipping ds = true -> reads_all (List.filter is_conv ds) vs = true ->
  row vs l -> scanf ds l = Some (assigned (List.filter is_conv ds) vs).
Proof. intros H Hr Hrow. rewrite scanf_convs by done. by apply scanf_row. Qed.

(** [%c] takes the next character. *)
Lemma scanf_char ds c l : scanf (Dconv false CChar :: ds) (c :: l) =
  vs ← scanf ds l; Some (VInt (Z.of_nat (nat_of_ascii c)) :: vs).
Proof. done. Qed.

(** Without conversions there is nothing to assign. *)
Lemma scanf_no_conv ds l : forallb (fun d => negb (is_conv d)) ds = true -> scanf ds l = Some [].
Proof.
  revert l. induction ds as [|[|c|suppress c] ds IH]; intros l H; cbn in *; try done; [by apply IH|].
  destruct l as [|x l]; [done|]. destruct (Ascii.eqb x c); [by apply IH | done].
Qed.

(** Literal characters. *)
Lemma scanf_literal p ds l : scanf ((Dchar <$> p) ++ ds) (p ++ l) = scanf ds l.
Proof. induction p as [|c p IH]; cbn; [done|]. by rewrite Ascii.eqb_refl. Qed.

(** ** Rows built from lists of numbers *)

(** The numbers, each with a separator in front. *)
Definition columns (sep : text) (zs : list Z) : text := zs ≫= fun z => sep ++ fmt_d z.

Lemma columns_ends sep zs l : spaces sep -> sep ≠ [] -> ends_token l -> ends_token (columns sep zs ++ l).
Proof.
  intros Hs Hne Hl. destruct zs as [|z zs]; [done|]. cbn. destruct sep as [|c sep]; [done|]. cbn.
  by apply Forall_cons in Hs as [Hc _].
Qed.

Lemma columns_row sep zs l n : spaces sep -> sep ≠ [] -> ends_token l ->
  row (take n (VInt <$> zs)) (columns sep zs ++ l).
Proof.
  intros Hs Hne Hl. revert n. induction zs as [|z zs IH]; intros [|n]; cbn; try apply row_nil.
  rewrite <-!app_assoc. apply (row_cons sep (VInt z)); [done | by apply columns_ends | apply IH].
Qed.

(** ** Lines *)

Lemma prefixed_app p l : prefixed p (p ++ l) = true.
Proof. induction p as [|c p IH]; cbn; [done|]. by rewrite Ascii.eqb_refl. Qed.

Lemma strchr_app c p l : c ∉ p -> strchr c (p ++ c :: l) = Some (length p).
Proof.
  induction p as [|x p IH]; cbn; [by rewrite Ascii.eqb_refl|]. intros H. apply not_elem_of_cons in H as [Hx H].
  rewrite (proj2 (Ascii.eqb_neq x c)) by done. by rewrite IH.
Qed.

Lemma strrchr_app c p l : c ∉ l -> strrchr c (p ++ c :: l) = Some (length p).
Proof.
  intros Hl. assert (Hn : forall l, c ∉ l -> strrchr c l = None).
  { clear. induction l as [|x l IH]; cbn; [done|]. intros H. apply not_elem_of_cons in H as [Hx H].
    rewrite IH by done. by rewrite (proj2 (Ascii.eqb_neq x c)). }
  induction p as [|x p IH]; cbn; [|by rewrite IH]. by rewrite Hn, Ascii.eqb_refl.
Qed.

Lemma cstr_id l : zero ∉ l -> cstr l = l.
Proof.
  induction l as [|c l IH]; cbn; [done|]. intros H. apply not_elem_of_cons in H as [Hc H].
  rewrite (proj2 (Ascii.eqb_neq c zero)) by done. by rewrite IH.
Qed.

(** A file of lines, each shorter than the buffer. *)
Lemma fgets_line n s l : newline ∉ s -> (length s < n)%nat -> fgets n (s ++ newline :: l) = (s ++ [newline], l).
Proof.
  revert n. induction s as [|c s IH]; intros [|n] H Hn; cbn in *; try lia; [done|].
  apply not_elem_of_cons in H as [Hc H]. fold newline. rewrite (proj2 (Ascii.eqb_neq c newline)) by done.
  rewrite IH by (done || lia). done.
Qed.

Lemma fgets_shorter n l : l ≠ [] -> (length (fgets (S n) l).2 < length l)%nat.
Proof.
  assert (H : forall n l, (length (fgets n l).2 <= length l)%nat).
  { clear. induction n as [|n IH]; intros [|c l]; cbn; try lia. destruct (Ascii.eqb c "010"); cbn; [lia|].
    specialize (IH l). lia. }
  destruct l as [|c l]; [done|]. intros _. cbn. destruct (Ascii.eqb c "010"); cbn; [lia|]. specialize (H n l). lia.
Qed.

Lemma lines_fuel_enough size : (1 < size)%nat -> forall fuel l, (length l <= fuel)%nat ->
  lines_fuel fuel size l = lines_fuel (length l) size l.
Proof.
  intros Hs fuel l. revert fuel. remember (length l) as n eqn:En. revert l En.
  induction n as [n IH] using (well_founded_induction lt_wf). intros l -> fuel Hf.
  destruct l as [|c l]; [by destruct fuel|]. destruct fuel as [|fuel]; [cbn in Hf; lia|].
  destruct size as [|[|m]]; try lia. cbn [lines_fuel length]. f_equal.
  pose proof (fgets_shorter m (c :: l) ltac:(done)) as Hlt. replace (S (S m) - 1)%nat with (S m) by lia.
  cbn [length] in *. rewrite (IH _ Hlt _ eq_refl fuel), (IH _ Hlt _ eq_refl (length l)); done || lia.
Qed.

(** Whole lines in front of a text. *)
Lemma lines_app size ls l : (1 < size)%nat ->
  Forall (fun s => newline ∉ s /\ zero ∉ s /\ (length s + 1 < size)%nat) ls ->
  lines size ((ls ≫= fun s => s ++ [newline]) ++ l) = ((fun s => s ++ [newline]) <$> ls) ++ lines size l.
Proof.
  intros Hs. induction 1 as [|s ls (Hn & Hz & Hlen) _ IH]; cbn; [done|]. unfold lines in *.
  rewrite <-!app_assoc. cbn [app]. destruct (s ++ newline :: _) as [|c r] eqn:E; [by destruct s|].
  cbn [length lines_fuel fmap list_fmap]. rewrite <-E. rewrite fgets_line by (done || lia). cbn [fst snd]. f_equal.
  - apply cstr_id. rewrite elem_of_app, list_elem_of_singleton. by intros [|].
  - rewrite <-IH. rewrite lines_fuel_enough; [done | done |]. apply (f_equal length) in E.
    rewrite length_app in E. cbn in E. lia.
Qed.

Lemma lines_concat size ls : (1 < size)%nat -> Forall (fun s => newline ∉ s /\ zero ∉ s /\ (length s + 1 < size)%nat) ls ->
  lines size (ls ≫= fun s => s ++ [newline]) = (fun s => s ++ [newline]) <$> ls.
Proof.
  intros Hs HF. rewrite <-(app_nil_r (ls ≫= _)), lines_app by done. apply app_nil_r.
Qed.
