(* ===== verification/Ifprop.v ===== *)
(** * Interface properties: ifprop.c

    The static table of interface properties, how it is filled from the lines
    of /proc/net/dev and how it is queried. The answers of the two [ioctl]
    calls are an argument ([netcard]). *)
From Stdlib Require Import Ascii.
From S2P Require Import Prelude Format Sstat.

Module ifprop.
Record ifprop := mk {
  type : Z;
  name : string;
  speed : Z;
  fullduplex : Z
}.
End ifprop.

(** What the kernel tells of an interface by its name: speed and duplex mode
    of [SIOCETHTOOL], bit rate of [SIOCGIWRATE]; [None] is a failed call. *)
Record netcard := {
  ethtool : string -> option (Z * Z);
  iwrate : string -> option Z
}.

Definition DUPLEX_FULL : Z := 1.
Definition SPEED_UNKNOWN : Z := -1.

(** function searches for the properties of a particular interface;
    the result is the return value and the structure as it is filled *)
Definition getifprop (ifprops : list ifprop.ifprop) (ifp : ifprop.ifprop) :
    option (Z * ifprop.ifprop) :=
  i ← scan (fun e => negb (str_nonempty e.(ifprop.name)) || str_same ifp.(ifprop.name) e.(ifprop.name))
        0 ifprops;
  e ← ifprops !! i;
  Some (if str_nonempty e.(ifprop.name) then (1, e)
        else (0, {| ifprop.type := 63 (* '?' *); ifprop.name := ifp.(ifprop.name);
                    ifprop.speed := 0; ifprop.fullduplex := 0 |})).

(** ** initifprop *)

(** [sscanf(linebuf, '%15s', name)]: [None] when no token is found. *)
Definition sscanf_name (l : list ascii) : option string :=
  match token 15 (skip_space l) with
  | [] => None
  | t => Some (String.string_of_list_ascii t)
  end.

(** [if ((cp = strchr(linebuf, ':')) != NULL) *cp = ' '] *)
Fixpoint subst_colon (l : list ascii) : list ascii :=
  match l with
  | [] => []
  | c :: l' => if Ascii.eqb c ":"%char then " "%char :: l' else c :: subst_colon l'
  end.

Definition has_bar (l : list ascii) : bool := existsb (Ascii.eqb "|"%char) l.

(** The properties of one interface; ethernet first, then wireless. *)
Definition if_props (nc : netcard) (name : string) : ifprop.ifprop :=
  match ethtool nc name with
  | Some (speed, duplex) =>
      {| ifprop.type := 101 (* 'e' *);
         ifprop.name := name;
         ifprop.speed := if u32 speed =? u32 SPEED_UNKNOWN then 0 else u32 speed;
         ifprop.fullduplex := if duplex =? DUPLEX_FULL then 1 else 0 |}
  | None =>
      match iwrate nc name with
      | Some value =>
          {| ifprop.type := 119 (* 'w' *);
             ifprop.name := name;
             ifprop.speed := Z.quot (i32 (value + 500000)) 1000000;
             ifprop.fullduplex := 0 |}
      | None =>
          {| ifprop.type := 63 (* '?' *); ifprop.name := name; ifprop.speed := 0;
             ifprop.fullduplex := 0 |}
      end
  end.

(** The loop over the lines of /proc/net/dev; a line without a name leaves the
    old name in the table. *)
Fixpoint ifprop_lines (nc : netcard) (lines : list string) (i : nat)
    (ifprops : list ifprop.ifprop) : option (list ifprop.ifprop) :=
  match lines with
  | [] => Some ifprops
  | line :: lines' =>
      let linebuf := String.list_ascii_of_string line in
      if has_bar linebuf then ifprop_lines nc lines' i ifprops
      else
        old ← ifprops !! i;
        let name := default old.(ifprop.name) (sscanf_name (subst_colon linebuf)) in
        ifprops ← arr_set ifprops i (if_props nc name);
        if (MAXINTF - 1 <=? S i)%nat then Some ifprops
        else ifprop_lines nc lines' (S i) ifprops
  end.

(** [lines] is [None] when /proc/net/dev or the socket cannot be opened. *)
Definition initifprop (nc : netcard) (lines : option (list string)) (ifprops : list ifprop.ifprop) :
    option (list ifprop.ifprop) :=
  match lines with
  | None => Some ifprops
  | Some lines => ifprop_lines nc lines 0 ifprops
  end.

Definition ifprop_zero : ifprop.ifprop :=
  {| ifprop.type := 0; ifprop.name := EmptyString; ifprop.speed := 0; ifprop.fullduplex := 0 |}.

(** [static struct ifprop ifprops[MAXINTF]] at program start. *)
Definition ifprops_start : list ifprop.ifprop := replicate MAXINTF ifprop_zero.
