(* ===== verification/Deviatsyst.v ===== *)
(** * System activity during the last sample: deviatsyst of deviate.c

    One definition per part of [struct sstat] in the order of the function.
    [dev] is the old content of the result: fields the function does not
    assign keep it. [None] is an access outside an array. *)
From S2P Require Import Prelude Privs Sstat Counter Ifprop.

(** ** Processors *)

Definition dev_freqcnt (cur pre : freqcnt.freqcnt) : freqcnt.freqcnt :=
  let ticks := cur.(freqcnt.ticks) in
  {| freqcnt.maxfreq := cur.(freqcnt.maxfreq);
     freqcnt.cnt := if negb (ticks =? 0) then subcount cur.(freqcnt.cnt) pre.(freqcnt.cnt)
                    else cur.(freqcnt.cnt);
     freqcnt.ticks := if negb (ticks =? 0) then subcount cur.(freqcnt.ticks) pre.(freqcnt.ticks)
                      else cur.(freqcnt.ticks) |}.

(** The totals of all processors ([cpu.all]). *)
Definition dev_cpuall (dev cur pre : percpu.percpu) : percpu.percpu :=
  {| percpu.cpunr := dev.(percpu.cpunr);
     percpu.stime := subcount cur.(percpu.stime) pre.(percpu.stime);
     percpu.utime := subcount cur.(percpu.utime) pre.(percpu.utime);
     percpu.ntime := subcount cur.(percpu.ntime) pre.(percpu.ntime);
     percpu.itime := subcount cur.(percpu.itime) pre.(percpu.itime);
     percpu.wtime := subcount cur.(percpu.wtime) pre.(percpu.wtime);
     percpu.Itime := subcount cur.(percpu.Itime) pre.(percpu.Itime);
     percpu.Stime := subcount cur.(percpu.Stime) pre.(percpu.Stime);
     percpu.steal := subcount cur.(percpu.steal) pre.(percpu.steal);
     percpu.guest := subcount cur.(percpu.guest) pre.(percpu.guest);
     percpu.freqcnt := dev.(percpu.freqcnt);
     percpu.instr := subcount cur.(percpu.instr) pre.(percpu.instr);
     percpu.cycle := subcount cur.(percpu.cycle) pre.(percpu.cycle);
     percpu.cfuture := dev.(percpu.cfuture) |}.

(** One processor ([cpu.cpu[i]]). *)
Definition dev_percpu (dev cur pre : percpu.percpu) : percpu.percpu :=
  {| percpu.cpunr := cur.(percpu.cpunr);
     percpu.stime := subcount cur.(percpu.stime) pre.(percpu.stime);
     percpu.utime := subcount cur.(percpu.utime) pre.(percpu.utime);
     percpu.ntime := subcount cur.(percpu.ntime) pre.(percpu.ntime);
     percpu.itime := subcount cur.(percpu.itime) pre.(percpu.itime);
     percpu.wtime := subcount cur.(percpu.wtime) pre.(percpu.wtime);
     percpu.Itime := subcount cur.(percpu.Itime) pre.(percpu.Itime);
     percpu.Stime := subcount cur.(percpu.Stime) pre.(percpu.Stime);
     percpu.steal := subcount cur.(percpu.steal) pre.(percpu.steal);
     percpu.guest := subcount cur.(percpu.guest) pre.(percpu.guest);
     percpu.freqcnt := dev_freqcnt cur.(percpu.freqcnt) pre.(percpu.freqcnt);
     percpu.instr := subcount cur.(percpu.instr) pre.(percpu.instr);
     percpu.cycle := subcount cur.(percpu.cycle) pre.(percpu.cycle);
     percpu.cfuture := dev.(percpu.cfuture) |}.

(** [dev] slot [i] from slot [i] of [cur] and [pre]. *)
Definition pairwise {A} (f : A -> A -> A -> A) (cur pre : list A) (i : nat) (dev : A) : option A :=
  c ← cur !! i; p ← pre !! i; Some (f dev c p).

Definition dev_cpu (dev cur pre : cpustat.cpustat) : option cpustat.cpustat :=
  cpu ← for_lt cur.(cpustat.nrcpu)
          (slot_step (pairwise dev_percpu cur.(cpustat.cpu) pre.(cpustat.cpu))) dev.(cpustat.cpu);
  Some {| cpustat.nrcpu := cur.(cpustat.nrcpu);
          cpustat.devint := subcount cur.(cpustat.devint) pre.(cpustat.devint);
          cpustat.csw := subcount cur.(cpustat.csw) pre.(cpustat.csw);
          cpustat.nprocs := subcount cur.(cpustat.nprocs) pre.(cpustat.nprocs);
          cpustat.lavg1 := cur.(cpustat.lavg1);
          cpustat.lavg5 := cur.(cpustat.lavg5);
          cpustat.lavg15 := cur.(cpustat.lavg15);
          cpustat.cfuture := dev.(cpustat.cfuture);
          cpustat.all := dev_cpuall dev.(cpustat.all) cur.(cpustat.all) pre.(cpustat.all);
          cpustat.cpu := cpu |}.

(** ** Memory *)

Definition dev_mem (dev cur pre : memstat.memstat) : memstat.memstat :=
  {| memstat.physmem := cur.(memstat.physmem);
     memstat.freemem := cur.(memstat.freemem);
     memstat.buffermem := cur.(memstat.buffermem);
     memstat.slabmem := cur.(memstat.slabmem);
     memstat.cachemem := cur.(memstat.cachemem);
     memstat.cachedrt := cur.(memstat.cachedrt);
     memstat.totswap := cur.(memstat.totswap);
     memstat.freeswap := cur.(memstat.freeswap);
     memstat.pgscans := subcount cur.(memstat.pgscans) pre.(memstat.pgscans);
     memstat.pgsteal := subcount cur.(memstat.pgsteal) pre.(memstat.pgsteal);
     memstat.allocstall := subcount cur.(memstat.allocstall) pre.(memstat.allocstall);
     memstat.swouts := subcount cur.(memstat.swouts) pre.(memstat.swouts);
     memstat.swins := subcount cur.(memstat.swins) pre.(memstat.swins);
     memstat.commitlim := cur.(memstat.commitlim);
     memstat.committed := cur.(memstat.committed);
     memstat.shmem := cur.(memstat.shmem);
     memstat.shmrss := cur.(memstat.shmrss);
     memstat.shmswp := cur.(memstat.shmswp);
     memstat.slabreclaim := cur.(memstat.slabreclaim);
     memstat.tothugepage := cur.(memstat.tothugepage);
     memstat.freehugepage := cur.(memstat.freehugepage);
     memstat.hugepagesz := cur.(memstat.hugepagesz);
     memstat.vmwballoon := cur.(memstat.vmwballoon);
     memstat.cfuture := dev.(memstat.cfuture) |}.

(** ** Protocol counters *)

(** The loop that walks three structures as arrays of [count_t]. *)
Definition table_sub {A} `{Table A} (dev cur pre : A) : option A :=
  l ← for_lt (Z.of_nat (length (members dev)))
        (slot_step (pairwise (fun _ ccur cpre => i64 (ccur - cpre)) (members cur) (members pre)))
        (members dev);
  of_members l.

(** Values that do not represent a frequency are corrected afterwards. *)
Definition fix_ipv4 (cur d : ipv4_stats.ipv4_stats) : ipv4_stats.ipv4_stats :=
  {| ipv4_stats.Forwarding := cur.(ipv4_stats.Forwarding);
     ipv4_stats.DefaultTTL := cur.(ipv4_stats.DefaultTTL);
     ipv4_stats.InReceives := d.(ipv4_stats.InReceives);
     ipv4_stats.InHdrErrors := d.(ipv4_stats.InHdrErrors);
     ipv4_stats.InAddrErrors := d.(ipv4_stats.InAddrErrors);
     ipv4_stats.ForwDatagrams := d.(ipv4_stats.ForwDatagrams);
     ipv4_stats.InUnknownProtos := d.(ipv4_stats.InUnknownProtos);
     ipv4_stats.InDiscards := d.(ipv4_stats.InDiscards);
     ipv4_stats.InDelivers := d.(ipv4_stats.InDelivers);
     ipv4_stats.OutRequests := d.(ipv4_stats.OutRequests);
     ipv4_stats.OutDiscards := d.(ipv4_stats.OutDiscards);
     ipv4_stats.OutNoRoutes := d.(ipv4_stats.OutNoRoutes);
     ipv4_stats.ReasmTimeout := d.(ipv4_stats.ReasmTimeout);
     ipv4_stats.ReasmReqds := d.(ipv4_stats.ReasmReqds);
     ipv4_stats.ReasmOKs := d.(ipv4_stats.ReasmOKs);
     ipv4_stats.ReasmFails := d.(ipv4_stats.ReasmFails);
     ipv4_stats.FragOKs := d.(ipv4_stats.FragOKs);
     ipv4_stats.FragFails := d.(ipv4_stats.FragFails);
     ipv4_stats.FragCreates := d.(ipv4_stats.FragCreates) |}.

Definition fix_tcp (cur d : tcp_stats.tcp_stats) : tcp_stats.tcp_stats :=
  {| tcp_stats.RtoAlgorithm := cur.(tcp_stats.RtoAlgorithm);
     tcp_stats.RtoMin := cur.(tcp_stats.RtoMin);
     tcp_stats.RtoMax := cur.(tcp_stats.RtoMax);
     tcp_stats.MaxConn := cur.(tcp_stats.MaxConn);
     tcp_stats.ActiveOpens := d.(tcp_stats.ActiveOpens);
     tcp_stats.PassiveOpens := d.(tcp_stats.PassiveOpens);
     tcp_stats.AttemptFails := d.(tcp_stats.AttemptFails);
     tcp_stats.EstabResets := d.(tcp_stats.EstabResets);
     tcp_stats.CurrEstab := cur.(tcp_stats.CurrEstab);
     tcp_stats.InSegs := d.(tcp_stats.InSegs);
     tcp_stats.OutSegs := d.(tcp_stats.OutSegs);
     tcp_stats.RetransSegs := d.(tcp_stats.RetransSegs);
     tcp_stats.InErrs := d.(tcp_stats.InErrs);
     tcp_stats.OutRsts := d.(tcp_stats.OutRsts) |}.

Definition dev_net (dev cur pre : netstat.netstat) : option netstat.netstat :=
  ipv4 ← table_sub dev.(netstat.ipv4) cur.(netstat.ipv4) pre.(netstat.ipv4);
  icmpv4 ← table_sub dev.(netstat.icmpv4) cur.(netstat.icmpv4) pre.(netstat.icmpv4);
  udpv4 ← table_sub dev.(netstat.udpv4) cur.(netstat.udpv4) pre.(netstat.udpv4);
  ipv6 ← table_sub dev.(netstat.ipv6) cur.(netstat.ipv6) pre.(netstat.ipv6);
  icmpv6 ← table_sub dev.(netstat.icmpv6) cur.(netstat.icmpv6) pre.(netstat.icmpv6);
  udpv6 ← table_sub dev.(netstat.udpv6) cur.(netstat.udpv6) pre.(netstat.udpv6);
  tcp ← table_sub dev.(netstat.tcp) cur.(netstat.tcp) pre.(netstat.tcp);
  Some {| netstat.ipv4 := fix_ipv4 cur.(netstat.ipv4) ipv4;
          netstat.icmpv4 := icmpv4;
          netstat.udpv4 := udpv4;
          netstat.ipv6 := ipv6;
          netstat.icmpv6 := icmpv6;
          netstat.udpv6 := udpv6;
          netstat.tcp := fix_tcp cur.(netstat.tcp) tcp |}.

(** ** Interfaces *)

(** The properties of the interface, refreshed. *)
Definition refresh_intf (c : perintf.perintf) (p : ifprop.ifprop) : perintf.perintf :=
  {| perintf.name := c.(perintf.name);
     perintf.rbyte := c.(perintf.rbyte);
     perintf.rpack := c.(perintf.rpack);
     perintf.rerrs := c.(perintf.rerrs);
     perintf.rdrop := c.(perintf.rdrop);
     perintf.rfifo := c.(perintf.rfifo);
     perintf.rframe := c.(perintf.rframe);
     perintf.rcompr := c.(perintf.rcompr);
     perintf.rmultic := c.(perintf.rmultic);
     perintf.rfuture := c.(perintf.rfuture);
     perintf.sbyte := c.(perintf.sbyte);
     perintf.spack := c.(perintf.spack);
     perintf.serrs := c.(perintf.serrs);
     perintf.sdrop := c.(perintf.sdrop);
     perintf.sfifo := c.(perintf.sfifo);
     perintf.scollis := c.(perintf.scollis);
     perintf.scarrier := c.(perintf.scarrier);
     perintf.scompr := c.(perintf.scompr);
     perintf.sfuture := c.(perintf.sfuture);
     perintf.type := p.(ifprop.type);
     perintf.speed := p.(ifprop.speed);
     perintf.speedp := p.(ifprop.speed);
     perintf.duplex := p.(ifprop.fullduplex);
     perintf.cfuture := c.(perintf.cfuture) |}.

(** [for (i=0; cur->intf.intf[i].name[0]; i++) getifprop(&ifprop) ...]; [prop0]
    is the uninitialised local [ifprop]. *)
Definition refresh_loop (ifprops : list ifprop.ifprop) (prop0 : ifprop.ifprop)
    (cur : list perintf.perintf) : option (nat * (list perintf.perintf * ifprop.ifprop)) :=
  for_while (fun i s => c ← s.1 !! i; Some (str_nonempty c.(perintf.name)))
    (fun i s =>
       c ← s.1 !! i;
       r ← getifprop ifprops {| ifprop.type := s.2.(ifprop.type); ifprop.name := c.(perintf.name);
              ifprop.speed := s.2.(ifprop.speed); ifprop.fullduplex := s.2.(ifprop.fullduplex) |};
       cur ← arr_set s.1 i (refresh_intf c r.2);
       Some (cur, r.2))
    (S (length cur)) 0 (cur, prop0).

(** The first sample: names and properties are copied to the previous one. *)
Definition adopt_intf (p c : perintf.perintf) : perintf.perintf :=
  {| perintf.name := c.(perintf.name);
     perintf.rbyte := p.(perintf.rbyte);
     perintf.rpack := p.(perintf.rpack);
     perintf.rerrs := p.(perintf.rerrs);
     perintf.rdrop := p.(perintf.rdrop);
     perintf.rfifo := p.(perintf.rfifo);
     perintf.rframe := p.(perintf.rframe);
     perintf.rcompr := p.(perintf.rcompr);
     perintf.rmultic := p.(perintf.rmultic);
     perintf.rfuture := p.(perintf.rfuture);
     perintf.sbyte := p.(perintf.sbyte);
     perintf.spack := p.(perintf.spack);
     perintf.serrs := p.(perintf.serrs);
     perintf.sdrop := p.(perintf.sdrop);
     perintf.sfifo := p.(perintf.sfifo);
     perintf.scollis := p.(perintf.scollis);
     perintf.scarrier := p.(perintf.scarrier);
     perintf.scompr := p.(perintf.scompr);
     perintf.sfuture := p.(perintf.sfuture);
     perintf.type := c.(perintf.type);
     perintf.speed := c.(perintf.speed);
     perintf.speedp := c.(perintf.speedp);
     perintf.duplex := c.(perintf.duplex);
     perintf.cfuture := p.(perintf.cfuture) |}.

Definition adopt_loop (cur pre : list perintf.perintf) : option (list perintf.perintf) :=
  first ← pre !! 0%nat;
  if str_nonempty first.(perintf.name) then Some pre
  else
    r ← for_while (fun i _ => c ← cur !! i; Some (str_nonempty c.(perintf.name)))
          (fun i pre => c ← cur !! i; p ← pre !! i; arr_set pre i (adopt_intf p c))
          (S (length cur)) 0 pre;
    Some r.2.

(** calculate interface deviations for this sample *)
Definition dev_perintf (dev cur pre : perintf.perintf) : perintf.perintf :=
  {| perintf.name := cur.(perintf.name);
     perintf.rbyte := subcount cur.(perintf.rbyte) pre.(perintf.rbyte);
     perintf.rpack := subcount cur.(perintf.rpack) pre.(perintf.rpack);
     perintf.rerrs := subcount cur.(perintf.rerrs) pre.(perintf.rerrs);
     perintf.rdrop := subcount cur.(perintf.rdrop) pre.(perintf.rdrop);
     perintf.rfifo := subcount cur.(perintf.rfifo) pre.(perintf.rfifo);
     perintf.rframe := subcount cur.(perintf.rframe) pre.(perintf.rframe);
     perintf.rcompr := subcount cur.(perintf.rcompr) pre.(perintf.rcompr);
     perintf.rmultic := subcount cur.(perintf.rmultic) pre.(perintf.rmultic);
     perintf.rfuture := dev.(perintf.rfuture);
     perintf.sbyte := subcount cur.(perintf.sbyte) pre.(perintf.sbyte);
     perintf.spack := subcount cur.(perintf.spack) pre.(perintf.spack);
     perintf.serrs := subcount cur.(perintf.serrs) pre.(perintf.serrs);
     perintf.sdrop := subcount cur.(perintf.sdrop) pre.(perintf.sdrop);
     perintf.sfifo := subcount cur.(perintf.sfifo) pre.(perintf.sfifo);
     perintf.scollis := subcount cur.(perintf.scollis) pre.(perintf.scollis);
     perintf.scarrier := subcount cur.(perintf.scarrier) pre.(perintf.scarrier);
     perintf.scompr := subcount cur.(perintf.scompr) pre.(perintf.scompr);
     perintf.sfuture := dev.(perintf.sfuture);
     perintf.type := cur.(perintf.type);
     perintf.speed := cur.(perintf.speed);
     perintf.speedp := pre.(perintf.speed);
     perintf.duplex := cur.(perintf.duplex);
     perintf.cfuture := dev.(perintf.cfuture) |}.

Definition set_speedp (v : Z) (c : perintf.perintf) : perintf.perintf :=
  {| perintf.name := c.(perintf.name);
     perintf.rbyte := c.(perintf.rbyte);
     perintf.rpack := c.(perintf.rpack);
     perintf.rerrs := c.(perintf.rerrs);
     perintf.rdrop := c.(perintf.rdrop);
     perintf.rfifo := c.(perintf.rfifo);
     perintf.rframe := c.(perintf.rframe);
     perintf.rcompr := c.(perintf.rcompr);
     perintf.rmultic := c.(perintf.rmultic);
     perintf.rfuture := c.(perintf.rfuture);
     perintf.sbyte := c.(perintf.sbyte);
     perintf.spack := c.(perintf.spack);
     perintf.serrs := c.(perintf.serrs);
     perintf.sdrop := c.(perintf.sdrop);
     perintf.sfifo := c.(perintf.sfifo);
     perintf.scollis := c.(perintf.scollis);
     perintf.scarrier := c.(perintf.scarrier);
     perintf.scompr := c.(perintf.scompr);
     perintf.sfuture := c.(perintf.sfuture);
     perintf.type := c.(perintf.type);
     perintf.speed := c.(perintf.speed);
     perintf.speedp := v;
     perintf.duplex := c.(perintf.duplex);
     perintf.cfuture := c.(perintf.cfuture) |}.

Definition intf_end (d : perintf.perintf) : perintf.perintf :=
  {| perintf.name := EmptyString;
     perintf.rbyte := d.(perintf.rbyte);
     perintf.rpack := d.(perintf.rpack);
     perintf.rerrs := d.(perintf.rerrs);
     perintf.rdrop := d.(perintf.rdrop);
     perintf.rfifo := d.(perintf.rfifo);
     perintf.rframe := d.(perintf.rframe);
     perintf.rcompr := d.(perintf.rcompr);
     perintf.rmultic := d.(perintf.rmultic);
     perintf.rfuture := d.(perintf.rfuture);
     perintf.sbyte := d.(perintf.sbyte);
     perintf.spack := d.(perintf.spack);
     perintf.serrs := d.(perintf.serrs);
     perintf.sdrop := d.(perintf.sdrop);
     perintf.sfifo := d.(perintf.sfifo);
     perintf.scollis := d.(perintf.scollis);
     perintf.scarrier := d.(perintf.scarrier);
     perintf.scompr := d.(perintf.scompr);
     perintf.sfuture := d.(perintf.sfuture);
     perintf.type := d.(perintf.type);
     perintf.speed := d.(perintf.speed);
     perintf.speedp := d.(perintf.speedp);
     perintf.duplex := d.(perintf.duplex);
     perintf.cfuture := d.(perintf.cfuture) |}.

Module intfs.
Record intfs := mk {
  cur : list perintf.perintf;
  dev : list perintf.perintf;
  j : nat
}.
End intfs.

(** The entry of the previous sample for an interface: the same place, else
    the place found by a search from the start ([None] is a fault). *)
Definition intf_sync (name : string) (pre : list perintf.perintf) (j : nat) : option nat :=
  p ← pre !! j;
  if str_same name p.(perintf.name) then Some j
  else scan (fun p => negb (str_nonempty p.(perintf.name)) || str_same name p.(perintf.name)) 0 pre.

(** One interface; the [j++] of the loop is included. *)
Definition intf_step (pre : list perintf.perintf) (i : nat) (s : intfs.intfs) : option intfs.intfs :=
  c ← s.(intfs.cur) !! i;
  d ← s.(intfs.dev) !! i;
  j ← intf_sync c.(perintf.name) pre s.(intfs.j);
  p ← pre !! j;
  if negb (str_same c.(perintf.name) p.(perintf.name)) then
    (* resync not succeeded *)
    dev ← arr_set s.(intfs.dev) i c;
    Some (intfs.mk s.(intfs.cur) dev (S 0))
  else
    dev ← arr_set s.(intfs.dev) i (dev_perintf d c p);
    cur ← arr_set s.(intfs.cur) i (set_speedp p.(perintf.speed) c);
    Some (intfs.mk cur dev (S j)).

Definition intf_loop (cur pre dev : list perintf.perintf) : option (nat * intfs.intfs) :=
  for_while (fun i s => c ← s.(intfs.cur) !! i; Some (str_nonempty c.(perintf.name)))
    (intf_step pre) (S (length cur)) 0 (intfs.mk cur dev 0).

(** The interface part: the new [cur], [pre] and [dev] lists. *)
Definition dev_intf (ifprops : list ifprop.ifprop) (prop0 : ifprop.ifprop)
    (cur pre dev : intfstat.intfstat) :
    option (intfstat.intfstat * intfstat.intfstat * intfstat.intfstat) :=
  r ← refresh_loop ifprops prop0 cur.(intfstat.intf);
  pre' ← adopt_loop r.2.1 pre.(intfstat.intf);
  r ← intf_loop r.2.1 pre' dev.(intfstat.intf);
  d ← r.2.(intfs.dev) !! r.1;
  dev' ← arr_set r.2.(intfs.dev) r.1 (intf_end d);
  Some (intfstat.mk cur.(intfstat.nrintf) r.2.(intfs.cur),
        intfstat.mk pre.(intfstat.nrintf) pre',
        intfstat.mk (Z.of_nat r.1) dev').

(** ** Disks, multiple devices and logical volumes *)

Definition dev_perdsk (dev cur pre : perdsk.perdsk) : perdsk.perdsk :=
  {| perdsk.name := cur.(perdsk.name);
     perdsk.nread := subcount cur.(perdsk.nread) pre.(perdsk.nread);
     perdsk.nrsect := subcount cur.(perdsk.nrsect) pre.(perdsk.nrsect);
     perdsk.nwrite := subcount cur.(perdsk.nwrite) pre.(perdsk.nwrite);
     perdsk.nwsect := subcount cur.(perdsk.nwsect) pre.(perdsk.nwsect);
     perdsk.io_ms := subcount cur.(perdsk.io_ms) pre.(perdsk.io_ms);
     perdsk.avque := subcount cur.(perdsk.avque) pre.(perdsk.avque);
     perdsk.cfuture := dev.(perdsk.cfuture) |}.

Definition dsk_end (d : perdsk.perdsk) : perdsk.perdsk :=
  {| perdsk.name := EmptyString;
     perdsk.nread := d.(perdsk.nread);
     perdsk.nrsect := d.(perdsk.nrsect);
     perdsk.nwrite := d.(perdsk.nwrite);
     perdsk.nwsect := d.(perdsk.nwsect);
     perdsk.io_ms := d.(perdsk.io_ms);
     perdsk.avque := d.(perdsk.avque);
     perdsk.cfuture := d.(perdsk.cfuture) |}.

(** The entry of the previous sample for a disk: the same place, else the
    next entry of that name or the first empty entry. *)
Definition dsk_sync (name : string) (pre : list perdsk.perdsk) (j : nat) : option nat :=
  p ← pre !! j;
  if str_same name p.(perdsk.name) then Some j
  else scan (fun p => negb (str_nonempty p.(perdsk.name)) || str_same name p.(perdsk.name)) (S j) pre.

(** [if (pre->dsk.dsk[j].name)] tests the address of an array: it always
    holds, and [j] always moves on. *)
Definition dsk_step (cur pre : list perdsk.perdsk) (i : nat) (s : list perdsk.perdsk * nat) :
    option (list perdsk.perdsk * nat) :=
  c ← cur !! i;
  d ← s.1 !! i;
  j ← dsk_sync c.(perdsk.name) pre s.2;
  p ← pre !! j;
  dev ← arr_set s.1 i (dev_perdsk d c p);
  Some (dev, S j).

(** The loop with the terminating empty name and the count. *)
Definition dsk_loop (cur pre dev : list perdsk.perdsk) : option (list perdsk.perdsk * Z) :=
  r ← for_while (fun i _ => c ← cur !! i; Some (str_nonempty c.(perdsk.name)))
        (dsk_step cur pre) (S (length cur)) 0 (dev, 0%nat);
  d ← r.2.1 !! r.1;
  dev ← arr_set r.2.1 r.1 (dsk_end d);
  Some (dev, Z.of_nat r.1).

Definition dev_disks (cur pre dev : dskstat.dskstat) : option (list perdsk.perdsk * Z) :=
  dsk_loop cur.(dskstat.dsk) pre.(dskstat.dsk) dev.(dskstat.dsk).

Definition dev_mdds (cur pre dev : dskstat.dskstat) : option (list perdsk.perdsk * Z) :=
  dsk_loop cur.(dskstat.mdd) pre.(dskstat.mdd) dev.(dskstat.mdd).

Definition dev_lvms (cur pre dev : dskstat.dskstat) : option (list perdsk.perdsk * Z) :=
  dsk_loop cur.(dskstat.lvm) pre.(dskstat.lvm) dev.(dskstat.lvm).

Definition dev_dsk (cur pre dev : dskstat.dskstat) : option dskstat.dskstat :=
  dsk ← dev_disks cur pre dev;
  mdd ← dev_mdds cur pre dev;
  lvm ← dev_lvms cur pre dev;
  Some {| dskstat.ndsk := dsk.2; dskstat.nmdd := mdd.2; dskstat.nlvm := lvm.2;
          dskstat.dsk := dsk.1; dskstat.mdd := mdd.1; dskstat.lvm := lvm.1 |}.

(** ** NFS *)

Definition dev_server (dev cur pre : nfsserver.nfsserver) : nfsserver.nfsserver :=
  {| nfsserver.netcnt := subcount cur.(nfsserver.netcnt) pre.(nfsserver.netcnt);
     nfsserver.netudpcnt := subcount cur.(nfsserver.netudpcnt) pre.(nfsserver.netudpcnt);
     nfsserver.nettcpcnt := subcount cur.(nfsserver.nettcpcnt) pre.(nfsserver.nettcpcnt);
     nfsserver.nettcpcon := subcount cur.(nfsserver.nettcpcon) pre.(nfsserver.nettcpcon);
     nfsserver.rpccnt := subcount cur.(nfsserver.rpccnt) pre.(nfsserver.rpccnt);
     nfsserver.rpcbadfmt := subcount cur.(nfsserver.rpcbadfmt) pre.(nfsserver.rpcbadfmt);
     nfsserver.rpcbadaut := subcount cur.(nfsserver.rpcbadaut) pre.(nfsserver.rpcbadaut);
     nfsserver.rpcbadcln := subcount cur.(nfsserver.rpcbadcln) pre.(nfsserver.rpcbadcln);
     nfsserver.rpcread := subcount cur.(nfsserver.rpcread) pre.(nfsserver.rpcread);
     nfsserver.rpcwrite := subcount cur.(nfsserver.rpcwrite) pre.(nfsserver.rpcwrite);
     nfsserver.rchits := subcount cur.(nfsserver.rchits) pre.(nfsserver.rchits);
     nfsserver.rcmiss := subcount cur.(nfsserver.rcmiss) pre.(nfsserver.rcmiss);
     nfsserver.rcnoca := subcount cur.(nfsserver.rcnoca) pre.(nfsserver.rcnoca);
     nfsserver.nrbytes := subcount cur.(nfsserver.nrbytes) pre.(nfsserver.nrbytes);
     nfsserver.nwbytes := subcount cur.(nfsserver.nwbytes) pre.(nfsserver.nwbytes);
     nfsserver.future := dev.(nfsserver.future) |}.

Definition dev_client (dev cur pre : nfsclient.nfsclient) : nfsclient.nfsclient :=
  {| nfsclient.rpccnt := subcount cur.(nfsclient.rpccnt) pre.(nfsclient.rpccnt);
     nfsclient.rpcretrans := subcount cur.(nfsclient.rpcretrans) pre.(nfsclient.rpcretrans);
     nfsclient.rpcautrefresh := subcount cur.(nfsclient.rpcautrefresh) pre.(nfsclient.rpcautrefresh);
     nfsclient.rpcread := subcount cur.(nfsclient.rpcread) pre.(nfsclient.rpcread);
     nfsclient.rpcwrite := subcount cur.(nfsclient.rpcwrite) pre.(nfsclient.rpcwrite);
     nfsclient.future := dev.(nfsclient.future) |}.

Definition dev_mount (dev cur pre : pernfsmount.pernfsmount) : pernfsmount.pernfsmount :=
  {| pernfsmount.mountdev := cur.(pernfsmount.mountdev);
     pernfsmount.age := cur.(pernfsmount.age);
     pernfsmount.bytesread := subcount cur.(pernfsmount.bytesread) pre.(pernfsmount.bytesread);
     pernfsmount.byteswrite := subcount cur.(pernfsmount.byteswrite) pre.(pernfsmount.byteswrite);
     pernfsmount.bytesdread := subcount cur.(pernfsmount.bytesdread) pre.(pernfsmount.bytesdread);
     pernfsmount.bytesdwrite := subcount cur.(pernfsmount.bytesdwrite) pre.(pernfsmount.bytesdwrite);
     pernfsmount.bytestotread := subcount cur.(pernfsmount.bytestotread) pre.(pernfsmount.bytestotread);
     pernfsmount.bytestotwrite := subcount cur.(pernfsmount.bytestotwrite) pre.(pernfsmount.bytestotwrite);
     pernfsmount.pagesmread := subcount cur.(pernfsmount.pagesmread) pre.(pernfsmount.pagesmread);
     pernfsmount.pagesmwrite := subcount cur.(pernfsmount.pagesmwrite) pre.(pernfsmount.pagesmwrite);
     pernfsmount.future := dev.(pernfsmount.future) |}.

Module mounts.
Record mounts := mk {
  pre : list pernfsmount.pernfsmount;
  dev : list pernfsmount.pernfsmount;
  j : nat
}.
End mounts.

(** [for (j=0; j < n; j++) if (hit(l[j])) break;] *)
Definition search_upto {A} (hit : A -> bool) (n : Z) (l : list A) : option nat :=
  r ← for_while (fun j _ => if Z.of_nat j <? n then p ← l !! j; Some (negb (hit p)) else Some false)
        (fun _ s => Some s) (S (Z.to_nat n)) 0 tt;
  Some r.1.

Definition mount_sync (name : string) (nrmounts : Z) (pre : list pernfsmount.pernfsmount) (j : nat) :
    option nat :=
  p ← pre !! j;
  if str_same name p.(pernfsmount.mountdev) then Some j
  else search_upto (fun p => str_same name p.(pernfsmount.mountdev)) nrmounts pre.

(** One mount; the entry of a mount that is younger than the interval is
    cleared in the previous sample. *)
Definition mount_step (interval nrpre : Z) (cur : list pernfsmount.pernfsmount) (i : nat)
    (s : mounts.mounts) : option mounts.mounts :=
  c ← cur !! i;
  d ← s.(mounts.dev) !! i;
  j ← mount_sync c.(pernfsmount.mountdev) nrpre s.(mounts.pre) s.(mounts.j);
  pre ← (if c.(pernfsmount.age) <=? interval then arr_set s.(mounts.pre) j pernfsmount_zero
         else Some s.(mounts.pre));
  p ← pre !! j;
  dev ← arr_set s.(mounts.dev) i (dev_mount d c p);
  Some (mounts.mk pre dev (S j)).

Definition dev_mounts (interval : Z) (cur pre dev : nfsmounts.nfsmounts) :
    option (nfsmounts.nfsmounts * nfsmounts.nfsmounts) :=
  r ← for_lt cur.(nfsmounts.nrmounts)
        (mount_step interval pre.(nfsmounts.nrmounts) cur.(nfsmounts.nfsmnt))
        (mounts.mk pre.(nfsmounts.nfsmnt) dev.(nfsmounts.nfsmnt) 0);
  Some (nfsmounts.mk pre.(nfsmounts.nrmounts) r.(mounts.pre),
        nfsmounts.mk cur.(nfsmounts.nrmounts) r.(mounts.dev)).

(** The new [pre] and [dev]. *)
Definition dev_nfs (interval : Z) (cur pre dev : nfsstat.nfsstat) :
    option (nfsstat.nfsstat * nfsstat.nfsstat) :=
  m ← dev_mounts interval cur.(nfsstat.nfsmounts) pre.(nfsstat.nfsmounts) dev.(nfsstat.nfsmounts);
  Some (nfsstat.mk pre.(nfsstat.server) pre.(nfsstat.client) m.1,
        nfsstat.mk (dev_server dev.(nfsstat.server) cur.(nfsstat.server) pre.(nfsstat.server))
                   (dev_client dev.(nfsstat.client) cur.(nfsstat.client) pre.(nfsstat.client)) m.2).

(** ** Containers *)

Definition dev_cont (cur pre : percontainer.percontainer) : percontainer.percontainer :=
  {| percontainer.ctid := cur.(percontainer.ctid);
     percontainer.numproc := cur.(percontainer.numproc);
     percontainer.system := subcount cur.(percontainer.system) pre.(percontainer.system);
     percontainer.user := subcount cur.(percontainer.user) pre.(percontainer.user);
     percontainer.nice := subcount cur.(percontainer.nice) pre.(percontainer.nice);
     percontainer.uptime := subcount cur.(percontainer.uptime) pre.(percontainer.uptime);
     percontainer.physpages := cur.(percontainer.physpages) |}.

Definition cont_sync (ctid nrcontainer : Z) (pre : list percontainer.percontainer) (j : nat) :
    option nat :=
  p ← pre !! j;
  if ctid =? p.(percontainer.ctid) then Some j
  else search_upto (fun p => ctid =? p.(percontainer.ctid)) nrcontainer pre.

(** One container: [j] is searched, and the counters of place [i] of the
    previous sample are subtracted. *)
Definition cont_step (nrpre : Z) (cur pre : list percontainer.percontainer) (i : nat)
    (s : list percontainer.percontainer * nat) : option (list percontainer.percontainer * nat) :=
  c ← cur !! i;
  j ← cont_sync c.(percontainer.ctid) nrpre pre s.2;
  p ← pre !! i;
  dev ← arr_set s.1 i (dev_cont c p);
  Some (dev, S j).

Definition dev_cfs (cur pre dev : contstat.contstat) : option contstat.contstat :=
  r ← for_lt cur.(contstat.nrcontainer)
        (cont_step pre.(contstat.nrcontainer) cur.(contstat.cont) pre.(contstat.cont))
        (dev.(contstat.cont), 0%nat);
  Some (contstat.mk cur.(contstat.nrcontainer) r.1).

(** ** deviatsyst *)

(** The program ends with [cleanstop(code)], or the samples and the table of
    interface properties are updated. *)
Inductive outcome :=
  | Cleanstop (code : Z)
  | Done (ifprops : list ifprop.ifprop) (cur pre dev : sstat.sstat).

Definition deviatsyst (nc : netcard) (lines : option (list string)) (seteuid : Z * Z)
    (prop0 : ifprop.ifprop) (ifprops : list ifprop.ifprop) (cur pre dev : sstat.sstat)
    (interval : Z) : option outcome :=
  cpu ← dev_cpu dev.(sstat.cpu) cur.(sstat.cpu) pre.(sstat.cpu);
  net ← dev_net dev.(sstat.net) cur.(sstat.net) pre.(sstat.net);
  ifprops ← initifprop nc lines ifprops;
  if droprootprivs seteuid.1 seteuid.2 =? 0 then Some (Cleanstop 42)
  else
    intf ← dev_intf ifprops prop0 cur.(sstat.intf) pre.(sstat.intf) dev.(sstat.intf);
    dsk ← dev_dsk cur.(sstat.dsk) pre.(sstat.dsk) dev.(sstat.dsk);
    nfs ← dev_nfs interval cur.(sstat.nfs) pre.(sstat.nfs) dev.(sstat.nfs);
    cfs ← dev_cfs cur.(sstat.cfs) pre.(sstat.cfs) dev.(sstat.cfs);
    Some (Done ifprops
      (sstat.mk cur.(sstat.cpu) cur.(sstat.mem) cur.(sstat.net) intf.1.1 cur.(sstat.dsk)
                cur.(sstat.nfs) cur.(sstat.cfs) cur.(sstat.www))
      (sstat.mk pre.(sstat.cpu) pre.(sstat.mem) pre.(sstat.net) intf.1.2 pre.(sstat.dsk)
                nfs.1 pre.(sstat.cfs) pre.(sstat.www))
      (sstat.mk cpu (dev_mem dev.(sstat.mem) cur.(sstat.mem) pre.(sstat.mem)) net intf.2 dsk
                nfs.2 cfs dev.(sstat.www))).
