(* ===== verification/Totalsyst.v ===== *)
(** * Totals over several samples: totalsyst of deviate.c

    [tot] is the old content of the totals; fields that a category does not
    assign keep it. [None] is an access outside an array. *)
From S2P Require Import Prelude Sstat Counter Ifprop Deviatsyst.

Open Scope c_scope.

(** ** Category c *)

Definition tot_cpuall (tot new : percpu.percpu) : percpu.percpu :=
  {| percpu.cpunr := tot.(percpu.cpunr);
     percpu.stime := tot.(percpu.stime) +64 new.(percpu.stime);
     percpu.utime := tot.(percpu.utime) +64 new.(percpu.utime);
     percpu.ntime := tot.(percpu.ntime) +64 new.(percpu.ntime);
     percpu.itime := tot.(percpu.itime) +64 new.(percpu.itime);
     percpu.wtime := tot.(percpu.wtime) +64 new.(percpu.wtime);
     percpu.Itime := tot.(percpu.Itime) +64 new.(percpu.Itime);
     percpu.Stime := tot.(percpu.Stime) +64 new.(percpu.Stime);
     percpu.steal := tot.(percpu.steal) +64 new.(percpu.steal);
     percpu.guest := tot.(percpu.guest) +64 new.(percpu.guest);
     percpu.freqcnt := tot.(percpu.freqcnt);
     percpu.instr := tot.(percpu.instr);
     percpu.cycle := tot.(percpu.cycle);
     percpu.cfuture := tot.(percpu.cfuture) |}.

Definition tot_percpu (tot new : percpu.percpu) : percpu.percpu :=
  {| percpu.cpunr := new.(percpu.cpunr);
     percpu.stime := tot.(percpu.stime) +64 new.(percpu.stime);
     percpu.utime := tot.(percpu.utime) +64 new.(percpu.utime);
     percpu.ntime := tot.(percpu.ntime) +64 new.(percpu.ntime);
     percpu.itime := tot.(percpu.itime) +64 new.(percpu.itime);
     percpu.wtime := tot.(percpu.wtime) +64 new.(percpu.wtime);
     percpu.Itime := tot.(percpu.Itime) +64 new.(percpu.Itime);
     percpu.Stime := tot.(percpu.Stime) +64 new.(percpu.Stime);
     percpu.steal := tot.(percpu.steal) +64 new.(percpu.steal);
     percpu.guest := tot.(percpu.guest) +64 new.(percpu.guest);
     percpu.freqcnt := tot.(percpu.freqcnt);
     percpu.instr := tot.(percpu.instr);
     percpu.cycle := tot.(percpu.cycle);
     percpu.cfuture := tot.(percpu.cfuture) |}.

(** [tot] slot [i] from slot [i] of [new]. *)
Definition onto {A} (f : A -> A -> A) (new : list A) (i : nat) (tot : A) : option A :=
  n ← new !! i; Some (f tot n).

Definition tot_cpu (tot new : cpustat.cpustat) : option cpustat.cpustat :=
  let all := tot_cpuall tot.(cpustat.all) new.(cpustat.all) in
  cpu ← (if new.(cpustat.nrcpu) =? 1 then arr_set tot.(cpustat.cpu) 0 all
         else for_lt new.(cpustat.nrcpu) (slot_step (onto tot_percpu new.(cpustat.cpu)))
                tot.(cpustat.cpu));
  Some
  {| cpustat.nrcpu := new.(cpustat.nrcpu);
     cpustat.devint := tot.(cpustat.devint) +64 new.(cpustat.devint);
     cpustat.csw := tot.(cpustat.csw) +64 new.(cpustat.csw);
     cpustat.nprocs := tot.(cpustat.nprocs) +64 new.(cpustat.nprocs);
     cpustat.lavg1 := new.(cpustat.lavg1);
     cpustat.lavg5 := new.(cpustat.lavg5);
     cpustat.lavg15 := new.(cpustat.lavg15);
     cpustat.cfuture := tot.(cpustat.cfuture);
     cpustat.all := all;
     cpustat.cpu := cpu |}.

(** ** Category m *)

Definition tot_mem (tot new : memstat.memstat) : memstat.memstat :=
  {| memstat.physmem := new.(memstat.physmem);
     memstat.freemem := new.(memstat.freemem);
     memstat.buffermem := new.(memstat.buffermem);
     memstat.slabmem := new.(memstat.slabmem);
     memstat.cachemem := new.(memstat.cachemem);
     memstat.cachedrt := new.(memstat.cachedrt);
     memstat.totswap := new.(memstat.totswap);
     memstat.freeswap := new.(memstat.freeswap);
     memstat.pgscans := tot.(memstat.pgscans) +64 new.(memstat.pgscans);
     memstat.pgsteal := tot.(memstat.pgsteal);
     memstat.allocstall := tot.(memstat.allocstall) +64 new.(memstat.allocstall);
     memstat.swouts := tot.(memstat.swouts) +64 new.(memstat.swouts);
     memstat.swins := tot.(memstat.swins) +64 new.(memstat.swins);
     memstat.commitlim := new.(memstat.commitlim);
     memstat.committed := new.(memstat.committed);
     memstat.shmem := new.(memstat.shmem);
     memstat.shmrss := new.(memstat.shmrss);
     memstat.shmswp := new.(memstat.shmswp);
     memstat.slabreclaim := new.(memstat.slabreclaim);
     memstat.tothugepage := tot.(memstat.tothugepage);
     memstat.freehugepage := tot.(memstat.freehugepage);
     memstat.hugepagesz := tot.(memstat.hugepagesz);
     memstat.vmwballoon := tot.(memstat.vmwballoon);
     memstat.cfuture := tot.(memstat.cfuture) |}.

(** ** Category n *)

Definition tot_server (tot new : nfsserver.nfsserver) : nfsserver.nfsserver :=
  {| nfsserver.netcnt := tot.(nfsserver.netcnt) +64 new.(nfsserver.netcnt);
     nfsserver.netudpcnt := tot.(nfsserver.netudpcnt) +64 new.(nfsserver.netudpcnt);
     nfsserver.nettcpcnt := tot.(nfsserver.nettcpcnt) +64 new.(nfsserver.nettcpcnt);
     nfsserver.nettcpcon := tot.(nfsserver.nettcpcon) +64 new.(nfsserver.nettcpcon);
     nfsserver.rpccnt := tot.(nfsserver.rpccnt) +64 new.(nfsserver.rpccnt);
     nfsserver.rpcbadfmt := tot.(nfsserver.rpcbadfmt) +64 new.(nfsserver.rpcbadfmt);
     nfsserver.rpcbadaut := tot.(nfsserver.rpcbadaut) +64 new.(nfsserver.rpcbadaut);
     nfsserver.rpcbadcln := tot.(nfsserver.rpcbadcln) +64 new.(nfsserver.rpcbadcln);
     nfsserver.rpcread := tot.(nfsserver.rpcread) +64 new.(nfsserver.rpcread);
     nfsserver.rpcwrite := tot.(nfsserver.rpcwrite) +64 new.(nfsserver.rpcwrite);
     nfsserver.rchits := tot.(nfsserver.rchits) +64 new.(nfsserver.rchits);
     nfsserver.rcmiss := tot.(nfsserver.rcmiss) +64 new.(nfsserver.rcmiss);
     nfsserver.rcnoca := tot.(nfsserver.rcnoca) +64 new.(nfsserver.rcnoca);
     nfsserver.nrbytes := tot.(nfsserver.nrbytes) +64 new.(nfsserver.nrbytes);
     nfsserver.nwbytes := tot.(nfsserver.nwbytes) +64 new.(nfsserver.nwbytes);
     nfsserver.future := tot.(nfsserver.future) |}.

Definition tot_client (tot new : nfsclient.nfsclient) : nfsclient.nfsclient :=
  {| nfsclient.rpccnt := tot.(nfsclient.rpccnt) +64 new.(nfsclient.rpccnt);
     nfsclient.rpcretrans := tot.(nfsclient.rpcretrans) +64 new.(nfsclient.rpcretrans);
     nfsclient.rpcautrefresh := tot.(nfsclient.rpcautrefresh) +64 new.(nfsclient.rpcautrefresh);
     nfsclient.rpcread := tot.(nfsclient.rpcread) +64 new.(nfsclient.rpcread);
     nfsclient.rpcwrite := tot.(nfsclient.rpcwrite) +64 new.(nfsclient.rpcwrite);
     nfsclient.future := tot.(nfsclient.future) |}.

(** The loop that walks two structures as arrays of [count_t]. *)
Definition table_add {A} `{Table A} (tot new : A) : option A :=
  l ← for_lt (Z.of_nat (length (members tot)))
        (slot_step (onto (fun ctot cnew => ctot +64 cnew) (members new)))
        (members tot);
  of_members l.

Definition tot_net (tot new : netstat.netstat) : option netstat.netstat :=
  ipv4 ← table_add tot.(netstat.ipv4) new.(netstat.ipv4);
  icmpv4 ← table_add tot.(netstat.icmpv4) new.(netstat.icmpv4);
  udpv4 ← table_add tot.(netstat.udpv4) new.(netstat.udpv4);
  ipv6 ← table_add tot.(netstat.ipv6) new.(netstat.ipv6);
  icmpv6 ← table_add tot.(netstat.icmpv6) new.(netstat.icmpv6);
  udpv6 ← table_add tot.(netstat.udpv6) new.(netstat.udpv6);
  tcp ← table_add tot.(netstat.tcp) new.(netstat.tcp);
  Some {| netstat.ipv4 := fix_ipv4 new.(netstat.ipv4) ipv4;
          netstat.icmpv4 := icmpv4;
          netstat.udpv4 := udpv4;
          netstat.ipv6 := ipv6;
          netstat.icmpv6 := icmpv6;
          netstat.udpv6 := udpv6;
          netstat.tcp := fix_tcp new.(netstat.tcp) tcp |}.

(** An interface has been added or removed: zero all counters. *)
Definition tot_reset_intf (tot : perintf.perintf) : perintf.perintf :=
  {| perintf.name := tot.(perintf.name);
     perintf.rbyte := 0;
     perintf.rpack := 0;
     perintf.rerrs := 0;
     perintf.rdrop := 0;
     perintf.rfifo := 0;
     perintf.rframe := 0;
     perintf.rcompr := 0;
     perintf.rmultic := 0;
     perintf.rfuture := tot.(perintf.rfuture);
     perintf.sbyte := 0;
     perintf.spack := 0;
     perintf.serrs := 0;
     perintf.sdrop := 0;
     perintf.sfifo := 0;
     perintf.scollis := 0;
     perintf.scarrier := 0;
     perintf.scompr := 0;
     perintf.sfuture := tot.(perintf.sfuture);
     perintf.type := tot.(perintf.type);
     perintf.speed := tot.(perintf.speed);
     perintf.speedp := tot.(perintf.speedp);
     perintf.duplex := tot.(perintf.duplex);
     perintf.cfuture := tot.(perintf.cfuture) |}.

Definition tot_add_intf (tot new : perintf.perintf) : perintf.perintf :=
  {| perintf.name := new.(perintf.name);
     perintf.rbyte := tot.(perintf.rbyte) +64 new.(perintf.rbyte);
     perintf.rpack := tot.(perintf.rpack) +64 new.(perintf.rpack);
     perintf.rerrs := tot.(perintf.rerrs) +64 new.(perintf.rerrs);
     perintf.rdrop := tot.(perintf.rdrop) +64 new.(perintf.rdrop);
     perintf.rfifo := tot.(perintf.rfifo) +64 new.(perintf.rfifo);
     perintf.rframe := tot.(perintf.rframe) +64 new.(perintf.rframe);
     perintf.rcompr := tot.(perintf.rcompr) +64 new.(perintf.rcompr);
     perintf.rmultic := tot.(perintf.rmultic) +64 new.(perintf.rmultic);
     perintf.rfuture := tot.(perintf.rfuture);
     perintf.sbyte := tot.(perintf.sbyte) +64 new.(perintf.sbyte);
     perintf.spack := tot.(perintf.spack) +64 new.(perintf.spack);
     perintf.serrs := tot.(perintf.serrs) +64 new.(perintf.serrs);
     perintf.sdrop := tot.(perintf.sdrop) +64 new.(perintf.sdrop);
     perintf.sfifo := tot.(perintf.sfifo) +64 new.(perintf.sfifo);
     perintf.scollis := tot.(perintf.scollis) +64 new.(perintf.scollis);
     perintf.scarrier := tot.(perintf.scarrier) +64 new.(perintf.scarrier);
     perintf.scompr := tot.(perintf.scompr) +64 new.(perintf.scompr);
     perintf.sfuture := tot.(perintf.sfuture);
     perintf.type := new.(perintf.type);
     perintf.speed := new.(perintf.speed);
     perintf.speedp := tot.(perintf.speedp);
     perintf.duplex := new.(perintf.duplex);
     perintf.cfuture := tot.(perintf.cfuture) |}.

Definition tot_perintf (tot new : perintf.perintf) : perintf.perintf :=
  tot_add_intf (if str_same new.(perintf.name) tot.(perintf.name) then tot else tot_reset_intf tot) new.

Definition tot_intf (tot new : intfstat.intfstat) : option intfstat.intfstat :=
  r ← for_while (fun i _ => n ← new.(intfstat.intf) !! i; Some (str_nonempty n.(perintf.name)))
        (slot_step (onto tot_perintf new.(intfstat.intf)))
        (S (length new.(intfstat.intf))) 0 tot.(intfstat.intf);
  t ← r.2 !! r.1;
  intf ← arr_set r.2 r.1 (intf_end t);
  Some (intfstat.mk (Z.of_nat r.1) intf).

(** ** Category d *)

Definition tot_perdsk (tot new : perdsk.perdsk) : perdsk.perdsk :=
  {| perdsk.name := new.(perdsk.name);
     perdsk.nread := tot.(perdsk.nread) +64 new.(perdsk.nread);
     perdsk.nrsect := tot.(perdsk.nrsect) +64 new.(perdsk.nrsect);
     perdsk.nwrite := tot.(perdsk.nwrite) +64 new.(perdsk.nwrite);
     perdsk.nwsect := tot.(perdsk.nwsect) +64 new.(perdsk.nwsect);
     perdsk.io_ms := tot.(perdsk.io_ms) +64 new.(perdsk.io_ms);
     perdsk.avque := tot.(perdsk.avque) +64 new.(perdsk.avque);
     perdsk.cfuture := tot.(perdsk.cfuture) |}.

Definition tot_disks (tot new : list perdsk.perdsk) : option (list perdsk.perdsk * Z) :=
  r ← for_while (fun i _ => n ← new !! i; Some (str_nonempty n.(perdsk.name)))
        (slot_step (onto tot_perdsk new)) (S (length new)) 0 tot;
  t ← r.2 !! r.1;
  dsk ← arr_set r.2 r.1 (dsk_end t);
  Some (dsk, Z.of_nat r.1).

Definition tot_dsk (tot new : dskstat.dskstat) : option dskstat.dskstat :=
  dsk ← tot_disks tot.(dskstat.dsk) new.(dskstat.dsk);
  lvm ← tot_disks tot.(dskstat.lvm) new.(dskstat.lvm);
  mdd ← tot_disks tot.(dskstat.mdd) new.(dskstat.mdd);
  Some {| dskstat.ndsk := dsk.2; dskstat.nmdd := mdd.2; dskstat.nlvm := lvm.2;
          dskstat.dsk := dsk.1; dskstat.mdd := mdd.1; dskstat.lvm := lvm.1 |}.

(** ** totalsyst *)

Definition totalsyst (category : Z) (new tot : sstat.sstat) : option sstat.sstat :=
  if category =? 99 (* 'c' *) then
    cpu ← tot_cpu tot.(sstat.cpu) new.(sstat.cpu);
    Some (sstat.mk cpu tot.(sstat.mem) tot.(sstat.net) tot.(sstat.intf) tot.(sstat.dsk)
                   tot.(sstat.nfs) tot.(sstat.cfs) tot.(sstat.www))
  else if category =? 109 (* 'm' *) then
    Some (sstat.mk tot.(sstat.cpu) (tot_mem tot.(sstat.mem) new.(sstat.mem)) tot.(sstat.net)
                   tot.(sstat.intf) tot.(sstat.dsk) tot.(sstat.nfs) tot.(sstat.cfs) tot.(sstat.www))
  else if category =? 110 (* 'n' *) then
    net ← tot_net tot.(sstat.net) new.(sstat.net);
    intf ← tot_intf tot.(sstat.intf) new.(sstat.intf);
    Some (sstat.mk tot.(sstat.cpu) tot.(sstat.mem) net intf tot.(sstat.dsk)
            (nfsstat.mk (tot_server tot.(sstat.nfs).(nfsstat.server) new.(sstat.nfs).(nfsstat.server))
                        (tot_client tot.(sstat.nfs).(nfsstat.client) new.(sstat.nfs).(nfsstat.client))
                        tot.(sstat.nfs).(nfsstat.nfsmounts))
            tot.(sstat.cfs) tot.(sstat.www))
  else if category =? 100 (* 'd' *) then
    dsk ← tot_dsk tot.(sstat.dsk) new.(sstat.dsk);
    Some (sstat.mk tot.(sstat.cpu) tot.(sstat.mem) tot.(sstat.net) tot.(sstat.intf) dsk
                   tot.(sstat.nfs) tot.(sstat.cfs) tot.(sstat.www))
  else Some tot.
