(* ===== verification/SystFacts.v ===== *)
(** * What deviatsyst and totalsyst compute: tables, processors, interfaces *)
From S2P Require Import Prelude Sstat Counter Ifprop Deviatsyst Totalsyst.

(** ** Structures walked as arrays *)

Lemma slot_table (n : nat) (f : nat -> Z -> option Z) (l r : list Z) :
  length l = n -> length r = n -> (forall i a, l !! i = Some a -> f i a = r !! i) ->
  for_lt (Z.of_nat n) (slot_step f) l = Some r.
Proof.
  intros Hl Hr Hf. destruct (slot_loop f (Z.of_nat n) l) as (l' & -> & Hl' & Hlo & _).
  - lia.
  - intros i a Hi Ha. rewrite (Hf i a Ha). apply lookup_lt_is_Some_2. lia.
  - f_equal. apply list_eq. intros i. destruct (decide (i < n)%nat) as [Hi|Hi].
    + rewrite Hlo by lia. destruct (lookup_lt_is_Some_2 l i) as [a Ha]; [lia|].
      rewrite Ha. cbn. by apply Hf.
    + rewrite !lookup_ge_None_2 by lia. done.
Qed.

Lemma members_inj {A} `{TableLaws A} (x y : A) : members x = members y -> x = y.
Proof. intros E. apply (inj Some). by rewrite <-!members_of, E. Qed.

(** The loop over three tables subtracts member by member. *)
Lemma table_sub_spec {A} `{TableLaws A} (dev cur pre : A) :
  exists d, table_sub dev cur pre = Some d /\
    members d = zip_with (fun c p => i64 (c - p)) (members cur) (members pre).
Proof.
  unfold table_sub. rewrite (slot_table _ _ _ (zip_with (fun c p => i64 (c - p)) (members cur) (members pre))).
  - mstep. apply (of_members_length _ dev). rewrite length_zip_with, (members_length pre cur), Nat.min_id.
    apply members_length.
  - done.
  - rewrite length_zip_with, (members_length pre cur), Nat.min_id. apply members_length.
  - intros i a Hi. unfold pairwise. rewrite lookup_zip_with. done.
Qed.

Lemma table_add_spec {A} `{TableLaws A} (tot new : A) :
  exists d, table_add tot new = Some d /\
    members d = zip_with (fun t n => i64 (t + n)) (members tot) (members new).
Proof.
  unfold table_add. rewrite (slot_table _ _ _ (zip_with (fun t n => i64 (t + n)) (members tot) (members new))).
  - mstep. apply (of_members_length _ tot). rewrite length_zip_with, (members_length new tot), Nat.min_id.
    apply members_length.
  - done.
  - rewrite length_zip_with, (members_length new tot), Nat.min_id. apply members_length.
  - intros i a Hi. unfold onto. rewrite lookup_zip_with, Hi. done.
Qed.

(** Adding up successive deviations gives the deviation of the whole period. *)
Lemma table_telescope {A} `{TableLaws A} (a b c d1 d2 dev : A) :
  table_sub dev b a = Some d1 -> table_sub dev c b = Some d2 ->
  exists t, table_add d1 d2 = Some t /\ table_sub dev c a = Some t.
Proof.
  intros E1 E2. destruct (table_sub_spec dev b a) as (x & Ex & M1). simplify_eq.
  destruct (table_sub_spec dev c b) as (y & Ey & M2). simplify_eq.
  destruct (table_add_spec d1 d2) as (t & Et & M3). destruct (table_sub_spec dev c a) as (u & Eu & M4).
  exists t. split; [done|]. rewrite Eu. f_equal. apply members_inj. rewrite M3, M4, M1, M2.
  apply list_eq. intros i. rewrite !lookup_zip_with.
  pose proof (members_length a b) as L1. pose proof (members_length b c) as L2.
  destruct (members c !! i) as [z|] eqn:Ec.
  - destruct (lookup_lt_is_Some_2 (members b) i) as [yb Eb]; [apply lookup_lt_Some in Ec; lia|].
    destruct (lookup_lt_is_Some_2 (members a) i) as [xa Ea]; [apply lookup_lt_Some in Ec; lia|].
    rewrite Ea, Eb. cbn. f_equal. autorewrite with cint. f_equal. lia.
  - rewrite (lookup_ge_None_2 (members b)) by (apply lookup_ge_None in Ec; lia). done.
Qed.

(** ** Processors *)

(** Every processor below [nrcpu] has its deviations, the others are left. *)
Lemma dev_cpu_spec dev cur pre :
  (Z.to_nat cur.(cpustat.nrcpu) <= length dev.(cpustat.cpu))%nat ->
  (Z.to_nat cur.(cpustat.nrcpu) <= length cur.(cpustat.cpu))%nat ->
  (Z.to_nat cur.(cpustat.nrcpu) <= length pre.(cpustat.cpu))%nat ->
  exists d, dev_cpu dev cur pre = Some d /\
    d.(cpustat.nrcpu) = cur.(cpustat.nrcpu) /\
    d.(cpustat.all) = dev_cpuall dev.(cpustat.all) cur.(cpustat.all) pre.(cpustat.all) /\
    length d.(cpustat.cpu) = length dev.(cpustat.cpu) /\
    (forall i x c p, Z.of_nat i < cur.(cpustat.nrcpu) -> dev.(cpustat.cpu) !! i = Some x ->
       cur.(cpustat.cpu) !! i = Some c -> pre.(cpustat.cpu) !! i = Some p ->
       d.(cpustat.cpu) !! i = Some (dev_percpu x c p)) /\
    (forall i, cur.(cpustat.nrcpu) <= Z.of_nat i -> d.(cpustat.cpu) !! i = dev.(cpustat.cpu) !! i).
Proof.
  intros Hd Hc Hp. unfold dev_cpu.
  destruct (slot_loop (pairwise dev_percpu cur.(cpustat.cpu) pre.(cpustat.cpu)) cur.(cpustat.nrcpu)
    dev.(cpustat.cpu)) as (l & -> & Hl & Hlo & Hhi); [done| |].
  - intros i a Hi Ha. unfold pairwise.
    destruct (lookup_lt_is_Some_2 cur.(cpustat.cpu) i) as [c ->]; [lia|].
    destruct (lookup_lt_is_Some_2 pre.(cpustat.cpu) i) as [p ->]; [lia|]. cbn. eauto.
  - mstep. eexists. split; [done|]. cbn. split_and!; try done.
    intros i x c p Hi Hx Hci Hpi. rewrite Hlo, Hx by done. cbn. unfold pairwise.
    by rewrite Hci, Hpi.
Qed.

(** ** Lists with a terminating entry *)

(** The first [n] entries have a name and entry [n] has none. *)
Definition terminated {A} (name : A -> string) (n : nat) (l : list A) : Prop :=
  (forall i x, (i < n)%nat -> l !! i = Some x -> str_nonempty (name x) = true) /\
  (exists x, l !! n = Some x /\ str_nonempty (name x) = false).

Lemma terminated_length {A} (name : A -> string) n l : terminated name n l -> (n < length l)%nat.
Proof. intros [_ (x & Hx & _)]. by eapply lookup_lt_Some. Qed.

Lemma terminated_cond {A} (name : A -> string) n l i :
  terminated name n l -> (i < n)%nat ->
  exists x, l !! i = Some x /\ str_nonempty (name x) = true.
Proof.
  intros HT Hi. pose proof (terminated_length _ _ _ HT).
  destruct (lookup_lt_is_Some_2 l i) as [x Hx]; [lia|]. exists x. split; [done|]. by eapply HT.
Qed.

(** Updating an entry without touching its name keeps the list terminated. *)
Lemma terminated_insert {A} (name : A -> string) n l i x y :
  terminated name n l -> l !! i = Some x -> str_nonempty (name y) = str_nonempty (name x) ->
  terminated name n (<[i := y]> l).
Proof.
  intros [H1 (z & Hz & E)] Hi Ey. pose proof (lookup_lt_Some _ _ _ Hi). split.
  - intros k w Hk. destruct (decide (k = i)) as [->|].
    + rewrite list_lookup_insert_eq by done. intros [= <-]. rewrite Ey. by eapply H1.
    + rewrite list_lookup_insert_ne by done. by apply H1.
  - destruct (decide (n = i)) as [->|].
    + exists y. rewrite list_lookup_insert_eq by done. split; [done|]. simplify_eq. congruence.
    + exists z. rewrite list_lookup_insert_ne by done. done.
Qed.

Lemma str_same_spec s t : str_same s t = true <-> s = t.
Proof. apply String.eqb_eq. Qed.

Lemma str_same_ne s t : t ≠ s -> str_same s t = false.
Proof. intros H. apply String.eqb_neq. congruence. Qed.

Lemma str_nonempty_spec s : str_nonempty s = true <-> s ≠ EmptyString.
Proof. unfold str_nonempty. rewrite negb_true_iff. apply String.eqb_neq. Qed.

(** ** Entries by name *)

Definition entry_of {A} (name : A -> string) (key : string) (n : nat) (l : list A) : option A :=
  List.find (fun x => str_same key (name x)) (take n l).

Definition unique_names {A} (name : A -> string) (n : nat) (l : list A) : Prop :=
  forall i j x y, (i < n)%nat -> (j < n)%nat -> l !! i = Some x -> l !! j = Some y ->
    name x = name y -> i = j.

Lemma find_first {A} (f : A -> bool) (l : list A) k x :
  l !! k = Some x -> f x = true -> (forall i y, (i < k)%nat -> l !! i = Some y -> f y = false) ->
  List.find f l = Some x.
Proof.
  revert k. induction l as [|a l IH]; intros [|k] Hk Hx Hlo; cbn in Hk; simplify_eq; cbn.
  - by rewrite Hx.
  - rewrite (Hlo 0%nat a) by (done || lia). apply (IH k); [done|done|].
    intros i y Hi. apply (Hlo (S i)). lia.
Qed.

Lemma find_nowhere {A} (f : A -> bool) (l : list A) :
  (forall i y, l !! i = Some y -> f y = false) -> List.find f l = None.
Proof.
  induction l as [|a l IH]; intros H; cbn; [done|]. rewrite (H 0%nat a) by done.
  apply IH. intros i. apply (H (S i)).
Qed.

Lemma entry_of_first {A} (name : A -> string) n l k p :
  (k < n)%nat -> l !! k = Some p ->
  (forall i q, (i < k)%nat -> l !! i = Some q -> name q ≠ name p) ->
  entry_of name (name p) n l = Some p.
Proof.
  intros Hk Hp Hlo. unfold entry_of. apply (find_first _ _ k).
  - by rewrite lookup_take_lt.
  - by apply str_same_spec.
  - intros i y Hi Hy. rewrite lookup_take_lt in Hy by lia.
    apply not_true_iff_false. rewrite str_same_spec. intros E. by eapply Hlo.
Qed.

Lemma entry_of_unique {A} (name : A -> string) n l k p :
  unique_names name n l -> (k < n)%nat -> l !! k = Some p -> entry_of name (name p) n l = Some p.
Proof.
  intros HU Hk Hp. apply (entry_of_first _ _ _ k); [done | done |].
  intros i q Hi Hq E. assert (i = k); [|lia]. eapply HU; [lia | done..].
Qed.

Lemma entry_of_none {A} (name : A -> string) n l key :
  (forall i q, (i < n)%nat -> l !! i = Some q -> name q ≠ key) -> entry_of name key n l = None.
Proof.
  intros H. unfold entry_of. apply find_nowhere. intros i y Hy.
  apply lookup_take_Some in Hy as [Hy Hi]. apply not_true_iff_false. rewrite str_same_spec.
  intros E. by eapply H.
Qed.

Lemma entry_of_none_inv {A} (name : A -> string) n l key i q :
  entry_of name key n l = None -> (i < n)%nat -> l !! i = Some q -> name q ≠ key.
Proof.
  unfold entry_of. intros HF Hi Hq E.
  assert (Hin : In q (take n l)).
  { apply list_elem_of_In, list_elem_of_lookup. exists i. by rewrite lookup_take_lt. }
  pose proof (List.find_none _ _ HF q Hin) as Hs. cbn in Hs. rewrite E in Hs.
  by rewrite (proj2 (str_same_spec key key)) in Hs.
Qed.

(** A search for a name in a terminated list stops at the entry of that name,
    else at the terminating entry. *)
Lemma scan_name {A} (name : A -> string) key n (l : list A) j :
  terminated name n l -> (j <= n)%nat -> str_nonempty key = true ->
  exists k p, scan (fun p => negb (str_nonempty (name p)) || str_same key (name p)) j l = Some k /\
    (j <= k <= n)%nat /\ l !! k = Some p /\
    (((k < n)%nat /\ name p = key) \/ (k = n /\ name p ≠ key)) /\
    (forall i q, (j <= i < k)%nat -> l !! i = Some q -> name q ≠ key).
Proof.
  intros HT Hj Hkey. destruct HT as [H1 (z & Hz & Ez)].
  destruct (scan_stops (fun p => negb (str_nonempty (name p)) || str_same key (name p)) l j n z)
    as (k & Ek & Hkn); [done | done | by rewrite Ez |].
  pose proof Ek as (Hjk & (p & Hp & Es) & Hlo)%scan_spec. exists k, p. split_and!; try done.
  - destruct (decide (k = n)) as [->|Hne].
    + right. split; [done|]. intros E. simplify_eq. congruence.
    + left. split; [lia|]. rewrite (H1 k p) in Es by (done || lia). cbn in Es.
      symmetry. by apply str_same_spec.
  - intros i q Hi Hq E. specialize (Hlo i q Hi Hq). apply orb_false_iff in Hlo as [_ Hlo].
    rewrite E in Hlo. by rewrite (proj2 (str_same_spec key key)) in Hlo.
Qed.

(** ** Interface properties *)

Definition prop_of (ifprops : list ifprop.ifprop) (m : nat) (key : string) : ifprop.ifprop :=
  default {| ifprop.type := 63; ifprop.name := key; ifprop.speed := 0; ifprop.fullduplex := 0 |}
    (entry_of ifprop.name key m ifprops).

(** getifprop answers with the first entry of the name, or with defaults. *)
Lemma getifprop_spec ifprops m ifp :
  terminated ifprop.name m ifprops -> str_nonempty ifp.(ifprop.name) = true ->
  getifprop ifprops ifp =
    Some (match entry_of ifprop.name ifp.(ifprop.name) m ifprops with Some _ => 1 | None => 0 end,
          prop_of ifprops m ifp.(ifprop.name)).
Proof.
  intros HT Hn. unfold getifprop.
  destruct (scan_name ifprop.name ifp.(ifprop.name) m ifprops 0 HT) as (k & p & -> & Hk & Hp & Hc & Hlo);
    [lia | done |]. mstep. rewrite Hp. mstep. unfold prop_of.
  destruct Hc as [[Hkm E]|[-> E]].
  - rewrite <-E. rewrite (entry_of_first _ _ _ k) by
      (done || (intros i q Hi; rewrite E; apply Hlo; lia)). cbn.
    by rewrite (proj1 HT k p).
  - rewrite entry_of_none by (intros i q Hi; apply Hlo; lia). cbn.
    destruct HT as [_ (z & Hz & Ez)]. simplify_eq. by rewrite Ez.
Qed.
