(* ===== verification/IfpropFacts.v ===== *)
(** * What ifprop.c promises: the table always has an end, and a query answers
    with the properties of the interface. *)
From Stdlib Require Import Ascii.
From S2P Require Import Prelude Format Sstat Ifprop Counter Deviatsyst SystFacts.

(** The table has its static size and its last entry is never filled. *)
Definition table_ok (t : list ifprop.ifprop) : Prop :=
  length t = MAXINTF /\ exists e, t !! (MAXINTF - 1)%nat = Some e /\ e.(ifprop.name) = EmptyString.

Lemma ifprops_start_ok : table_ok ifprops_start.
Proof. split; [by vm_compute|]. by exists ifprop_zero. Qed.

Lemma ifprop_lines_ok nc lines : forall i t, (i < MAXINTF - 1)%nat -> table_ok t ->
  exists t', ifprop_lines nc lines i t = Some t' /\ table_ok t'.
Proof.
  induction lines as [|line lines IH]; intros i t Hi HT; cbn [ifprop_lines]; [eauto|].
  destruct (has_bar _); [by apply IH|]. destruct HT as (Hl & e & He & En).
  destruct (lookup_lt_is_Some_2 t i) as [old Ho]; [lia|]. rewrite Ho. mstep.
  rewrite arr_set_Some by lia. mstep.
  assert (HT' : forall x, table_ok (<[i := x]> t)).
  { intros x. split; [by rewrite length_insert|]. exists e. by rewrite list_lookup_insert_ne by lia. }
  destruct (decide (MAXINTF - 1 <= S i)%nat) as [Hd|Hd].
  - rewrite (proj2 (Nat.leb_le _ _) Hd). eauto.
  - rewrite (proj2 (Nat.leb_gt _ _)) by lia. apply IH; [lia | done].
Qed.

Lemma initifprop_ok nc lines t : table_ok t ->
  exists t', initifprop nc lines t = Some t' /\ table_ok t'.
Proof.
  intros HT. destruct lines as [lines|]; cbn; [|eauto]. apply ifprop_lines_ok; [|done].
  unfold MAXINTF. lia.
Qed.

(** A list with an entry without name is terminated somewhere. *)
Lemma terminated_exists {A} (name : A -> string) (l : list A) k x :
  l !! k = Some x -> name x = EmptyString -> exists n, terminated name n l /\ (n <= k)%nat.
Proof.
  revert k. induction l as [|a l IH]; intros k Hk Ex; [done|].
  destruct (str_nonempty (name a)) eqn:Ea.
  - destruct k as [|k]; cbn in Hk; [simplify_eq; by rewrite Ex in Ea|].
    destruct (IH k Hk Ex) as (n & [H1 (z & Hz & Ez)] & Hn). exists (S n). split; [|lia]. split; [|eauto].
    intros [|i] y Hi Hy; cbn in Hy; [by simplify_eq|]. apply (H1 i); [lia|done].
  - exists 0%nat. split; [|lia]. split; [lia|]. by exists a.
Qed.

Lemma table_terminated t : table_ok t -> exists m, terminated ifprop.name m t /\ (m <= MAXINTF - 1)%nat.
Proof. intros (_ & e & He & En). by eapply terminated_exists. Qed.

(** ** The entries after a refresh *)

(** The interface name of a line of /proc/net/dev. *)
Definition line_name (line : string) : option string :=
  let b := String.list_ascii_of_string line in
  if has_bar b then None else sscanf_name (subst_colon b).

Definition is_header (line : string) : bool := has_bar (String.list_ascii_of_string line).

Lemma ifprop_lines_fill nc lines : forall i t, (i < MAXINTF - 1)%nat -> length t = MAXINTF ->
  (forall line, line ∈ lines -> is_header line = false -> is_Some (line_name line)) ->
  exists t', ifprop_lines nc lines i t = Some t' /\ length t' = MAXINTF /\
    (forall k name, omap line_name lines !! k = Some name -> (i + k < MAXINTF - 1)%nat ->
       t' !! (i + k)%nat = Some (if_props nc name)) /\
    (forall k, (k < i \/ i + length (omap line_name lines) <= k)%nat -> t' !! k = t !! k).
Proof.
  induction lines as [|line lines IH]; intros i t Hi Hl Hn; cbn [ifprop_lines].
  - exists t. split; [done|]. split; [done|]. split; [|done]. intros k name Hk. done.
  - destruct (is_header line) eqn:Eh; pose proof Eh as Eb; unfold is_header in Eb; rewrite Eb.
    { assert (Ho : omap line_name (line :: lines) = omap line_name lines).
      { cbn. unfold line_name at 1. by rewrite Eb. }
      rewrite Ho. apply IH; try done. intros l Hin. apply Hn. by right. }
    destruct (Hn line) as [name Hname]; [by left | done |].
    assert (Ho : omap line_name (line :: lines) = name :: omap line_name lines) by (cbn; by rewrite Hname).
    rewrite Ho. unfold line_name in Hname. rewrite Eb in Hname.
    destruct (lookup_lt_is_Some_2 t i) as [old Hold]; [lia|]. rewrite Hold. mstep.
    rewrite Hname. change (default old.(ifprop.name) (Some name)) with name. rewrite arr_set_Some by lia. mstep.
    destruct (decide (MAXINTF - 1 <= S i)%nat) as [Hd|Hd].
    + rewrite (proj2 (Nat.leb_le _ _) Hd). eexists. split; [done|]. split; [by rewrite length_insert|]. split.
      * intros [|k] nm Hk Hb; [|lia]. cbn in Hk. simplify_eq. rewrite Nat.add_0_r.
        apply list_lookup_insert_eq. lia.
      * intros k Hk. cbn in Hk. by rewrite list_lookup_insert_ne by lia.
    + rewrite (proj2 (Nat.leb_gt _ _)) by lia.
      destruct (IH (S i) (<[i := if_props nc name]> t)) as (t' & -> & Hl' & Hlo & Hhi);
        [lia | by rewrite length_insert | intros l Hin; apply Hn; by right |].
      eexists. split; [done|]. split; [done|]. split.
      * intros [|k] nm Hk Hb; cbn in Hk.
        -- simplify_eq. rewrite Nat.add_0_r, Hhi by lia. apply list_lookup_insert_eq. lia.
        -- rewrite <-(Hlo k nm Hk); [f_equal; lia | lia].
      * intros k Hk. cbn [length] in Hk. rewrite Hhi by lia. by rewrite list_lookup_insert_ne by lia.
Qed.

Lemma if_props_name nc name : (if_props nc name).(ifprop.name) = name.
Proof. unfold if_props. repeat case_match; done. Qed.

Lemma sscanf_name_nonempty l name : sscanf_name l = Some name -> str_nonempty name = true.
Proof. unfold sscanf_name. destruct (token _ _); [done|]. intros [= <-]. done. Qed.

Lemma line_name_nonempty line name : line_name line = Some name -> str_nonempty name = true.
Proof. unfold line_name. destruct (has_bar _); [done|]. apply sscanf_name_nonempty. Qed.

(** C36: After initifprop filled an unused table from the lines of /proc/net/dev,
    getifprop of an interface named there answers with the properties that the
    kernel reported for it. *)
Theorem getifprop_after_init nc lines t k ifp :
  length t = MAXINTF -> (forall e, e ∈ t -> e.(ifprop.name) = EmptyString) ->
  (forall line, line ∈ lines -> is_header line = false -> is_Some (line_name line)) ->
  NoDup (omap line_name lines) -> (length (omap line_name lines) < MAXINTF)%nat ->
  omap line_name lines !! k = Some ifp.(ifprop.name) ->
  exists t', initifprop nc (Some lines) t = Some t' /\
    getifprop t' ifp = Some (1, if_props nc ifp.(ifprop.name)).
Proof.
  intros Hl Hempty Hn ND Hlen Hk.
  destruct (ifprop_lines_fill nc lines 0 t) as (t' & E & Hl' & Hlo & Hhi); [unfold MAXINTF; lia|done|done|].
  exists t'. split; [done|]. set (names := omap line_name lines) in *.
  assert (HT : terminated ifprop.name (length names) t').
  { split.
    - intros i x Hi Hx. destruct (lookup_lt_is_Some_2 names i Hi) as [nm Hnm].
      pose proof (Hlo i nm Hnm) as Hlo'. rewrite Nat.add_0_l in Hlo'. rewrite Hlo' in Hx by lia. simplify_eq.
      rewrite if_props_name. apply list_elem_of_lookup_2, list_elem_of_omap in Hnm as (line & _ & Eln).
      by eapply line_name_nonempty.
    - destruct (lookup_lt_is_Some_2 t (length names)) as [x Hx]; [lia|]. exists x.
      rewrite Hhi by lia. split; [done|]. rewrite (Hempty x) by by eapply list_elem_of_lookup_2. done. }
  pose proof (lookup_lt_Some _ _ _ Hk) as Hklt.
  assert (Hne : str_nonempty ifp.(ifprop.name) = true).
  { pose proof Hk as Hk'. apply list_elem_of_lookup_2, list_elem_of_omap in Hk' as (line & _ & Eln).
    by eapply line_name_nonempty. }
  rewrite (getifprop_spec t' _ ifp HT Hne).
  pose proof (Hlo k _ Hk) as Hslot. rewrite Nat.add_0_l in Hslot. specialize (Hslot ltac:(lia)).
  assert (HE : entry_of ifprop.name (if_props nc ifp.(ifprop.name)).(ifprop.name) (length names) t' =
    Some (if_props nc ifp.(ifprop.name))).
  { apply (entry_of_first _ _ _ k); [done | done |]. intros i q Hi Hq.
    destruct (lookup_lt_is_Some_2 names i) as [nm Hnm]; [lia|].
    pose proof (Hlo i nm Hnm) as Hq'. rewrite Nat.add_0_l in Hq'. rewrite Hq' in Hq by lia. simplify_eq.
    rewrite !if_props_name. intros ->. pose proof (NoDup_lookup _ _ _ _ ND Hnm Hk). lia. }
  rewrite if_props_name in HE. unfold prop_of. by rewrite HE.
Qed.
