(* ===== verification/SystIntf.v ===== *)
(** * What deviatsyst computes for the interfaces *)
From S2P Require Import Prelude Sstat Counter Ifprop Deviatsyst SystFacts.

Notation intf_list := (list perintf.perintf).

Section intf.
Context (ifprops : list ifprop.ifprop) (m : nat) (Hprops : terminated ifprop.name m ifprops).

(** The properties of the interface are refreshed from the table. *)
Definition refreshed (c : perintf.perintf) : perintf.perintf :=
  refresh_intf c (prop_of ifprops m c.(perintf.name)).

(** ** Refreshing the properties *)

Lemma refresh_loop_spec n cur prop0 : terminated perintf.name n cur ->
  exists cur' prop, refresh_loop ifprops prop0 cur = Some (n, (cur', prop)) /\
    length cur' = length cur /\
    (forall i c, (i < n)%nat -> cur !! i = Some c -> cur' !! i = Some (refreshed c)) /\
    (forall i, (n <= i)%nat -> cur' !! i = cur !! i).
Proof.
  intros HT. pose proof (terminated_length _ _ _ HT) as Hn. unfold refresh_loop.
  edestruct (for_while_inv
    (fun i (s : intf_list * ifprop.ifprop) => c ← s.1 !! i; Some (str_nonempty c.(perintf.name)))
    (fun i s =>
       c ← s.1 !! i;
       r ← getifprop ifprops {| ifprop.type := s.2.(ifprop.type); ifprop.name := c.(perintf.name);
              ifprop.speed := s.2.(ifprop.speed); ifprop.fullduplex := s.2.(ifprop.fullduplex) |};
       cur ← arr_set s.1 i (refresh_intf c r.2); Some (cur, r.2))
    (fun i s => length s.1 = length cur /\
      (forall k c, (k < i)%nat -> cur !! k = Some c -> s.1 !! k = Some (refreshed c)) /\
      (forall k, (i <= k)%nat -> s.1 !! k = cur !! k)) n)
    with (fuel := S (length cur)) (i := 0%nat) (s := (cur, prop0)) as ([cur' prop] & E & Hl & Hlo & Hhi).
  - intros i s Hi (Hl & Hlo & Hhi). destruct (terminated_cond _ _ _ i HT Hi) as (c & Hc & Hne).
    rewrite Hhi, Hc by lia. mstep. rewrite Hne. split; [done|].
    rewrite (getifprop_spec _ m) by done. mstep. cbn [fst snd ifprop.name].
    rewrite arr_set_Some by lia. mstep. eexists. split; [done|]. cbn.
    split; [by rewrite length_insert|]. split.
    + intros k d Hk Hd. destruct (decide (k = i)) as [->|].
      * rewrite list_lookup_insert_eq by lia. by simplify_eq.
      * rewrite list_lookup_insert_ne by done. apply Hlo; [lia|done].
    + intros k Hk. rewrite list_lookup_insert_ne by lia. apply Hhi. lia.
  - intros s (Hl & Hlo & Hhi). destruct HT as [_ (z & Hz & Ez)].
    rewrite Hhi, Hz by lia. mstep. by rewrite Ez.
  - lia.
  - lia.
  - cbn. split; [done|]. split; [lia|done].
  - exists cur', prop. done.
Qed.

(** ** The first sample *)

Lemma adopt_loop_later cur pre p :
  pre !! 0%nat = Some p -> str_nonempty p.(perintf.name) = true -> adopt_loop cur pre = Some pre.
Proof. intros Hp Hn. unfold adopt_loop. rewrite Hp. mstep. by rewrite Hn. Qed.

Lemma adopt_loop_first n cur pre p :
  terminated perintf.name n cur -> (n < length pre)%nat ->
  pre !! 0%nat = Some p -> str_nonempty p.(perintf.name) = false ->
  exists pre', adopt_loop cur pre = Some pre' /\ length pre' = length pre /\
    (forall i c q, (i < n)%nat -> cur !! i = Some c -> pre !! i = Some q ->
       pre' !! i = Some (adopt_intf q c)) /\
    (forall i, (n <= i)%nat -> pre' !! i = pre !! i).
Proof.
  intros HT Hn Hp Hne. pose proof (terminated_length _ _ _ HT) as Hc.
  unfold adopt_loop. rewrite Hp. mstep. rewrite Hne.
  edestruct (for_while_inv
    (fun i (_ : intf_list) => c ← cur !! i; Some (str_nonempty c.(perintf.name)))
    (fun i pre => c ← cur !! i; p ← pre !! i; arr_set pre i (adopt_intf p c))
    (fun i s => length s = length pre /\
      (forall k c q, (k < i)%nat -> cur !! k = Some c -> pre !! k = Some q -> s !! k = Some (adopt_intf q c)) /\
      (forall k, (i <= k)%nat -> s !! k = pre !! k)) n)
    with (fuel := S (length cur)) (i := 0%nat) (s := pre) as (pre' & -> & Hl & Hlo & Hhi).
  - intros i s Hi (Hl & Hlo & Hhi). destruct (terminated_cond _ _ _ i HT Hi) as (c & Hci & Hnc).
    destruct (lookup_lt_is_Some_2 pre i) as [q Hq]; [lia|].
    rewrite Hci. mstep. rewrite Hnc. split; [done|]. rewrite Hhi, Hq by lia. mstep.
    rewrite arr_set_Some by lia. eexists. split; [done|]. split; [by rewrite length_insert|]. split.
    + intros k d r Hk Hd Hr. destruct (decide (k = i)) as [->|].
      * rewrite list_lookup_insert_eq by lia. by simplify_eq.
      * rewrite list_lookup_insert_ne by done. apply Hlo; [lia|done|done].
    + intros k Hk. rewrite list_lookup_insert_ne by lia. apply Hhi. lia.
  - intros s _. destruct HT as [_ (z & Hz & Ez)]. rewrite Hz. mstep. by rewrite Ez.
  - lia.
  - lia.
  - split; [done|]. split; [lia|done].
  - exists pre'. done.
Qed.

(** ** The deviations *)

Definition pre_entry (npre : nat) (pre : intf_list) (c : perintf.perintf) : option perintf.perintf :=
  entry_of perintf.name c.(perintf.name) npre pre.

Lemma intf_sync_spec npre pre j c :
  terminated perintf.name npre pre -> unique_names perintf.name npre pre ->
  (j <= npre)%nat -> str_nonempty c.(perintf.name) = true ->
  exists k p, intf_sync c.(perintf.name) pre j = Some k /\ pre !! k = Some p /\
    (((k < npre)%nat /\ p.(perintf.name) = c.(perintf.name) /\ pre_entry npre pre c = Some p) \/
     (p.(perintf.name) ≠ c.(perintf.name) /\ pre_entry npre pre c = None)).
Proof.
  intros HT HU Hj Hne. unfold intf_sync, pre_entry. pose proof (terminated_length _ _ _ HT) as Hl.
  destruct (lookup_lt_is_Some_2 pre j) as [p Hp]; [lia|]. rewrite Hp. mstep.
  destruct (str_same c.(perintf.name) p.(perintf.name)) eqn:Es.
  - apply str_same_spec in Es. exists j, p. split; [done|]. split; [done|]. left.
    assert (j < npre)%nat.
    { destruct (decide (j = npre)) as [->|]; [|lia]. destruct HT as [_ (z & Hz & Ez)].
      simplify_eq. congruence. }
    split; [done|]. split; [done|]. rewrite Es. by apply (entry_of_unique _ _ _ j).
  - destruct (scan_name perintf.name c.(perintf.name) npre pre 0 HT) as (k & q & -> & Hk & Hq & Hc & Hlo);
      [lia | done |]. exists k, q. split; [done|]. split; [done|].
    destruct Hc as [[Hkn E]|[-> E]]; [left | right].
    + split; [done|]. split; [done|]. rewrite <-E. by apply (entry_of_unique _ _ _ k).
    + split; [done|]. apply entry_of_none. intros i r Hi. apply Hlo. lia.
Qed.

(** The slots of [cur] and [dev] for an interface. *)
Definition intf_cur (npre : nat) (pre : intf_list) (c : perintf.perintf) : perintf.perintf :=
  match pre_entry npre pre c with
  | Some p => set_speedp p.(perintf.speed) c
  | None => c
  end.

Definition intf_dev (npre : nat) (pre : intf_list) (d c : perintf.perintf) : perintf.perintf :=
  match pre_entry npre pre c with
  | Some p => dev_perintf d c p
  | None => c
  end.

Record intf_inv (n npre : nat) (cur pre dev : intf_list) (i : nat) (s : intfs.intfs) : Prop := {
  ii_j : (i < n)%nat -> (s.(intfs.j) <= npre)%nat;
  ii_cur_len : length s.(intfs.cur) = length cur;
  ii_cur_lo : forall k c, (k < i)%nat -> cur !! k = Some c ->
    s.(intfs.cur) !! k = Some (intf_cur npre pre c);
  ii_cur_hi : forall k, (i <= k)%nat -> s.(intfs.cur) !! k = cur !! k;
  ii_dev_len : length s.(intfs.dev) = length dev;
  ii_dev_lo : forall k c d, (k < i)%nat -> cur !! k = Some c -> dev !! k = Some d ->
    s.(intfs.dev) !! k = Some (intf_dev npre pre d c);
  ii_dev_hi : forall k, (i <= k)%nat -> s.(intfs.dev) !! k = dev !! k
}.

Lemma intf_step_ok n npre cur pre dev i s :
  terminated perintf.name n cur -> terminated perintf.name npre pre ->
  unique_names perintf.name npre pre -> (0 < npre)%nat -> (n < length dev)%nat -> (i < n)%nat ->
  intf_inv n npre cur pre dev i s ->
  exists s', intf_step pre i s = Some s' /\ intf_inv n npre cur pre dev (S i) s'.
Proof.
  intros HT HP HU Hpos Hd Hi [I1 I2 I3 I4 I5 I6 I7].
  pose proof (terminated_length _ _ _ HT) as Hn.
  destruct (terminated_cond _ _ _ i HT Hi) as (c & Hc & Hne).
  destruct (lookup_lt_is_Some_2 dev i) as [d Hdi]; [lia|].
  destruct (intf_sync_spec npre pre s.(intfs.j) c HP HU (I1 Hi) Hne) as (k & p & Es & Hp & Hcase).
  unfold intf_step. rewrite I4, Hc by lia. mstep. rewrite I7, Hdi by lia. mstep. rewrite Es. mstep.
  rewrite Hp. mstep. destruct Hcase as [(Hk & E & He)|(E & He)].
  - rewrite (proj2 (str_same_spec _ _)) by done. cbn [negb].
    rewrite !arr_set_Some by lia. mstep. eexists. split; [done|].
    split; cbn; rewrite ?length_insert; try done; try lia.
    + intros q x Hq Hx. destruct (decide (q = i)) as [->|].
      * rewrite list_lookup_insert_eq by lia. unfold intf_cur. simplify_eq. by rewrite He.
      * rewrite list_lookup_insert_ne by done. apply I3; [lia|done].
    + intros q Hq. rewrite list_lookup_insert_ne by lia. apply I4. lia.
    + intros q x y Hq Hx Hy. destruct (decide (q = i)) as [->|].
      * rewrite list_lookup_insert_eq by lia. unfold intf_dev. simplify_eq. by rewrite He.
      * rewrite list_lookup_insert_ne by done. apply I6; [lia|done|done].
    + intros q Hq. rewrite list_lookup_insert_ne by lia. apply I7. lia.
  - rewrite str_same_ne by done. cbn [negb].
    rewrite arr_set_Some by lia. mstep. eexists. split; [done|].
    split; cbn; rewrite ?length_insert; try done.
    + intros q x Hq Hx. destruct (decide (q = i)) as [->|]; [|apply I3; [lia|done]].
      rewrite I4, Hx by lia. unfold intf_cur. simplify_eq. by rewrite He.
    + intros q Hq. apply I4. lia.
    + intros q x y Hq Hx Hy. destruct (decide (q = i)) as [->|].
      * rewrite list_lookup_insert_eq by lia. unfold intf_dev. simplify_eq. by rewrite He.
      * rewrite list_lookup_insert_ne by done. apply I6; [lia|done|done].
    + intros q Hq. rewrite list_lookup_insert_ne by lia. apply I7. lia.
Qed.

Lemma intf_loop_spec n npre cur pre dev :
  terminated perintf.name n cur -> terminated perintf.name npre pre ->
  unique_names perintf.name npre pre -> ((0 < n)%nat -> (0 < npre)%nat) -> (n < length dev)%nat ->
  exists s, intf_loop cur pre dev = Some (n, s) /\ intf_inv n npre cur pre dev n s.
Proof.
  intros HT HP HU Hpos Hd. pose proof (terminated_length _ _ _ HT) as Hn.
  apply (for_while_inv _ _ (intf_inv n npre cur pre dev) n).
  - intros i s Hi HI. split; [|apply (intf_step_ok n npre cur); try done; apply Hpos; lia].
    destruct (terminated_cond _ _ _ i HT Hi) as (c & Hc & Hne).
    rewrite (ii_cur_hi _ _ _ _ _ _ _ HI), Hc by done. mstep. by rewrite Hne.
  - intros s HI. destruct HT as [_ (z & Hz & Ez)].
    rewrite (ii_cur_hi _ _ _ _ _ _ _ HI), Hz by done. mstep. by rewrite Ez.
  - lia.
  - lia.
  - split; cbn; try done; lia.
Qed.

(** ** The whole part *)

Lemma intf_end_slot (dev : intf_list) n : (n < length dev)%nat ->
  exists d, dev !! n = Some d /\ arr_set dev n (intf_end d) = Some (<[n := intf_end d]> dev).
Proof.
  intros Hn. destruct (lookup_lt_is_Some_2 dev n Hn) as [d Hd]. exists d.
  split; [done|]. by apply arr_set_Some.
Qed.

Lemma terminated_refreshed n cur cur' :
  terminated perintf.name n cur ->
  (forall i c, (i < n)%nat -> cur !! i = Some c -> cur' !! i = Some (refreshed c)) ->
  (forall i, (n <= i)%nat -> cur' !! i = cur !! i) ->
  terminated perintf.name n cur'.
Proof.
  intros HT Hlo Hhi. split.
  - intros i x Hi Hx. destruct (terminated_cond _ _ _ i HT Hi) as (c & Hc & Hne).
    rewrite (Hlo i c) in Hx by done. by simplify_eq.
  - destruct HT as [_ (z & Hz & Ez)]. exists z. by rewrite Hhi.
Qed.

(** A later sample: every interface is refreshed and compared with the entry
    of its name; a new interface keeps its absolute counters. *)
Lemma dev_intf_later n npre prop0 cur pre dev :
  terminated perintf.name n cur.(intfstat.intf) ->
  terminated perintf.name npre pre.(intfstat.intf) ->
  unique_names perintf.name npre pre.(intfstat.intf) ->
  (0 < npre)%nat -> (n < length dev.(intfstat.intf))%nat ->
  exists cur' dev', dev_intf ifprops prop0 cur pre dev = Some (cur', pre, dev') /\
    dev'.(intfstat.nrintf) = Z.of_nat n /\
    terminated perintf.name n dev'.(intfstat.intf) /\
    (forall i c d, (i < n)%nat -> cur.(intfstat.intf) !! i = Some c ->
       dev.(intfstat.intf) !! i = Some d ->
       cur'.(intfstat.intf) !! i = Some (intf_cur npre pre.(intfstat.intf) (refreshed c)) /\
       dev'.(intfstat.intf) !! i = Some (intf_dev npre pre.(intfstat.intf) d (refreshed c))).
Proof.
  intros HT HP HU Hpos Hd. unfold dev_intf.
  destruct (refresh_loop_spec n _ prop0 HT) as (cur1 & prop & -> & Hl & Hlo & Hhi). mstep. cbn [fst snd].
  pose proof (terminated_refreshed _ _ _ HT Hlo Hhi) as HT1.
  destruct (terminated_cond _ _ _ 0 HP Hpos) as (p & Hp & Hnp).
  rewrite (adopt_loop_later _ _ p) by done. mstep.
  destruct (intf_loop_spec n npre cur1 _ dev.(intfstat.intf) HT1 HP HU) as (s & -> & HI); [done|done|].
  mstep. cbn [fst snd]. destruct HI as [_ I2 I3 I4 I5 I6 I7].
  destruct (intf_end_slot s.(intfs.dev) n) as (e & He & Ha); [lia|]. rewrite He. mstep. rewrite Ha. mstep.
  destruct pre as [np pl]. eexists _, _. split; [done|]. cbn. split; [done|].
  assert (Hslot : forall i c d, (i < n)%nat -> cur.(intfstat.intf) !! i = Some c ->
    dev.(intfstat.intf) !! i = Some d -> s.(intfs.dev) !! i = Some (intf_dev npre pl d (refreshed c))).
  { intros i c d Hi Hc Hdi. apply I6; [done | by apply Hlo | done]. }
  split.
  - split.
    + intros i x Hi Hx. rewrite list_lookup_insert_ne in Hx by lia.
      destruct (terminated_cond _ _ _ i HT Hi) as (c & Hc & Hne).
      destruct (lookup_lt_is_Some_2 dev.(intfstat.intf) i) as [d Hdi]; [lia|].
      rewrite (Hslot i c d) in Hx by done. simplify_eq. unfold intf_dev.
      by destruct (pre_entry _ _ _).
    + eexists. by rewrite list_lookup_insert_eq by lia.
  - intros i c d Hi Hc Hdi. split; [apply I3; [done | by apply Hlo]|].
    rewrite list_lookup_insert_ne by lia. by apply Hslot.
Qed.

(** In the first sample every interface is compared with the entry of the
    previous sample at its place, after that entry adopted the name and
    properties of the interface. *)
Theorem dev_intf_first n prop0 cur pre dev :
  terminated perintf.name n cur.(intfstat.intf) -> unique_names perintf.name n cur.(intfstat.intf) ->
  (forall i q, pre.(intfstat.intf) !! i = Some q -> str_nonempty q.(perintf.name) = false) ->
  (n < length pre.(intfstat.intf))%nat -> (n < length dev.(intfstat.intf))%nat ->
  exists cur' pre' dev', dev_intf ifprops prop0 cur pre dev = Some (cur', pre', dev') /\
    dev'.(intfstat.nrintf) = Z.of_nat n /\
    (forall i c q d, (i < n)%nat -> cur.(intfstat.intf) !! i = Some c ->
       pre.(intfstat.intf) !! i = Some q -> dev.(intfstat.intf) !! i = Some d ->
       pre'.(intfstat.intf) !! i = Some (adopt_intf q (refreshed c)) /\
       dev'.(intfstat.intf) !! i = Some (dev_perintf d (refreshed c) (adopt_intf q (refreshed c)))).
Proof.
  intros HT HUc Hempty Hp Hd. unfold dev_intf.
  destruct (refresh_loop_spec n _ prop0 HT) as (cur1 & prop & -> & Hl & Hlo & Hhi). mstep. cbn [fst snd].
  pose proof (terminated_refreshed _ _ _ HT Hlo Hhi) as HT1.
  destruct (lookup_lt_is_Some_2 pre.(intfstat.intf) 0) as [q0 Hq0]; [lia|].
  destruct (adopt_loop_first n cur1 pre.(intfstat.intf) q0) as (pre1 & -> & Hpl & Hplo & Hphi);
    [done | done | done | by eapply Hempty |]. mstep.
  assert (Hpre : forall i c q, (i < n)%nat -> cur.(intfstat.intf) !! i = Some c ->
    pre.(intfstat.intf) !! i = Some q -> pre1 !! i = Some (adopt_intf q (refreshed c))).
  { intros i c q Hi Hc Hq. apply Hplo; [done | by apply Hlo | done]. }
  assert (Hname : forall i x, (i < n)%nat -> pre1 !! i = Some x ->
    exists c, cur.(intfstat.intf) !! i = Some c /\ x.(perintf.name) = c.(perintf.name)).
  { intros i x Hi Hx. destruct (terminated_cond _ _ _ i HT Hi) as (c & Hc & Hne).
    destruct (lookup_lt_is_Some_2 pre.(intfstat.intf) i) as [q Hq]; [lia|].
    rewrite (Hpre i c q) in Hx by done. exists c. by simplify_eq. }
  assert (HPT : terminated perintf.name n pre1).
  { split.
    - intros i x Hi Hx. destruct (Hname i x Hi Hx) as (c & Hc & ->). by apply (proj1 HT i).
    - destruct (lookup_lt_is_Some_2 pre.(intfstat.intf) n) as [q Hq]; [lia|].
      exists q. rewrite Hphi by lia. split; [done|]. by eapply Hempty. }
  assert (HU : unique_names perintf.name n pre1).
  { intros i j x y Hi Hj Hx Hy E. destruct (Hname i x Hi Hx) as (c & Hc & Ec).
    destruct (Hname j y Hj Hy) as (d & Hdj & Ed). apply (HUc i j c d); try done. congruence. }
  destruct (intf_loop_spec n n cur1 pre1 dev.(intfstat.intf) HT1 HPT HU) as (s & -> & HI); [lia|done|].
  mstep. cbn [fst snd]. destruct HI as [_ I2 I3 I4 I5 I6 I7].
  destruct (intf_end_slot s.(intfs.dev) n) as (e & He & Ha); [lia|]. rewrite He. mstep. rewrite Ha. mstep.
  eexists _, _, _. split; [done|]. cbn. split; [done|]. intros i c q d Hi Hc Hq Hdi.
  split; [by apply Hpre|]. rewrite list_lookup_insert_ne by lia.
  rewrite (I6 i (refreshed c) d) by (done || by apply Hlo). unfold intf_dev, pre_entry.
  pose proof (entry_of_unique perintf.name n pre1 i (adopt_intf q (refreshed c)) HU Hi
    (Hpre i c q Hi Hc Hq)) as HE. cbn in HE. cbn. by rewrite HE.
Qed.
End intf.
