(* ===== verification/SystDsk.v ===== *)
(** * What deviatsyst computes for disks, NFS mounts and containers *)
From S2P Require Import Prelude Sstat Counter Ifprop Deviatsyst SystFacts.

(** ** Disks *)

(** The [n] entries of [cur] are entries of [pre] in the same order: disks may
    have been removed, [f] tells where they were. *)
Record kept (n npre : nat) (cur pre : list perdsk.perdsk) (f : nat -> nat) : Prop := {
  kept_lt : forall i, (i < n)%nat -> (f i < npre)%nat;
  kept_mono : forall i j, (i < j < n)%nat -> (f i < f j)%nat;
  kept_name : forall i c p, (i < n)%nat -> cur !! i = Some c -> pre !! f i = Some p ->
    p.(perdsk.name) = c.(perdsk.name)
}.

Lemma dsk_sync_found npre pre j k p name :
  terminated perdsk.name npre pre -> unique_names perdsk.name npre pre ->
  (j <= k < npre)%nat -> pre !! k = Some p -> p.(perdsk.name) = name ->
  str_nonempty name = true -> dsk_sync name pre j = Some k.
Proof.
  intros HT HU Hk Hp Hn Hne. unfold dsk_sync. pose proof (terminated_length _ _ _ HT).
  destruct (lookup_lt_is_Some_2 pre j) as [q Hq]; [lia|]. rewrite Hq. mstep.
  destruct (str_same name q.(perdsk.name)) eqn:Es.
  - apply str_same_spec in Es. f_equal. apply (HU j k q p); try done; try lia. congruence.
  - destruct (scan_name perdsk.name name npre pre (S j) HT) as (k' & p' & E & Hk' & Hp' & Hc & Hlo);
      [lia | done |]. rewrite E. f_equal.
    assert (Hjk : j ≠ k).
    { intros ->. simplify_eq. by rewrite (proj2 (str_same_spec _ _)) in Es. }
    destruct Hc as [[Hlt E']|[-> E']].
    + apply (HU k' k p' p); try done; [lia|congruence].
    + destruct (Hlo k p); [lia | done | done].
Qed.

(** A name that is absent from [j] on leads to an empty entry. *)
Lemma dsk_sync_absent npre pre j name :
  terminated perdsk.name npre pre ->
  (forall i p, (npre <= i)%nat -> pre !! i = Some p -> p = perdsk_zero) ->
  (forall i p, (j <= i < npre)%nat -> pre !! i = Some p -> p.(perdsk.name) ≠ name) ->
  (S j < length pre)%nat -> str_nonempty name = true ->
  dsk_sync name pre j = Some (Nat.max (S j) npre).
Proof.
  intros HT Hz Habs Hl Hne. unfold dsk_sync. pose proof (terminated_length _ _ _ HT) as Hnl.
  destruct (lookup_lt_is_Some_2 pre j) as [q Hq]; [lia|]. rewrite Hq. mstep.
  assert (Hqn : q.(perdsk.name) ≠ name).
  { destruct (decide (j < npre)%nat); [by apply (Habs j); [lia|]|].
    rewrite (Hz j q) by (done || lia). cbn. intros <-. done. }
  rewrite str_same_ne by done. apply scan_spec. split; [lia|]. split.
  - destruct (lookup_lt_is_Some_2 pre (Nat.max (S j) npre)) as [x Hx]; [lia|]. exists x.
    split; [done|]. by rewrite (Hz (Nat.max (S j) npre) x) by (exact Hx || lia).
  - intros i y Hi Hy. rewrite (proj1 HT i y) by (done || lia). cbn.
    apply str_same_ne. apply (Habs i); [lia | done].
Qed.

(** The loop when the place used for disk [i] is known: [g i] is the value of
    [j] before the search. *)
Lemma dsk_loop_places n cur pre dev (g e : nat -> nat) :
  terminated perdsk.name n cur -> (n < length dev)%nat -> g 0%nat = 0%nat ->
  (forall i c, (i < n)%nat -> cur !! i = Some c ->
     dsk_sync c.(perdsk.name) pre (g i) = Some (e i) /\ (e i < length pre)%nat /\ g (S i) = S (e i)) ->
  exists dev', dsk_loop cur pre dev = Some (dev', Z.of_nat n) /\ length dev' = length dev /\
    terminated perdsk.name n dev' /\
    (forall i c d p, (i < n)%nat -> cur !! i = Some c -> dev !! i = Some d -> pre !! e i = Some p ->
       dev' !! i = Some (dev_perdsk d c p)).
Proof.
  intros HT Hd Hg0 Hsync. pose proof (terminated_length _ _ _ HT) as Hn. unfold dsk_loop.
  edestruct (for_while_inv
    (fun i (_ : list perdsk.perdsk * nat) => c ← cur !! i; Some (str_nonempty c.(perdsk.name)))
    (dsk_step cur pre)
    (fun i s => s.2 = g i /\ length s.1 = length dev /\
      (forall k c d p, (k < i)%nat -> cur !! k = Some c -> dev !! k = Some d -> pre !! e k = Some p ->
         s.1 !! k = Some (dev_perdsk d c p)) /\
      (forall k, (i <= k)%nat -> s.1 !! k = dev !! k)) n)
    with (fuel := S (length cur)) (i := 0%nat) (s := (dev, 0%nat)) as ([dev' j] & -> & Hj & Hl & Hlo & Hhi).
  - intros i [s j] Hi (Hj & Hl & Hlo & Hhi). cbn [fst snd] in *. subst j.
    destruct (terminated_cond _ _ _ i HT Hi) as (c & Hc & Hne). rewrite Hc. mstep. rewrite Hne.
    split; [done|]. unfold dsk_step. rewrite Hc. mstep. cbn [fst snd].
    destruct (lookup_lt_is_Some_2 dev i) as [d Hdi]; [lia|]. rewrite Hhi, Hdi by lia. mstep.
    destruct (Hsync i c Hi Hc) as (-> & He & Hg). mstep.
    destruct (lookup_lt_is_Some_2 pre (e i) He) as [p Hp]. rewrite Hp. mstep.
    rewrite arr_set_Some by lia. mstep. eexists. split; [done|]. cbn [fst snd].
    split; [done|]. split; [by rewrite length_insert|]. split.
    + intros k x y q Hk Hx Hy Hq. destruct (decide (k = i)) as [->|].
      * rewrite list_lookup_insert_eq by lia. by simplify_eq.
      * rewrite list_lookup_insert_ne by done. apply Hlo; try done. lia.
    + intros k Hk. rewrite list_lookup_insert_ne by lia. apply Hhi. lia.
  - intros s _. destruct HT as [_ (z & Hz & Ez)]. rewrite Hz. mstep. by rewrite Ez.
  - lia.
  - lia.
  - cbn. split; [done|]. split; [done|]. split; [lia|done].
  - cbn [fst snd] in *. mstep. destruct (lookup_lt_is_Some_2 dev' n) as [x Hx]; [lia|].
    cbn [fst snd]. rewrite Hx. mstep. rewrite arr_set_Some by lia. mstep.
    assert (Hslot : forall i c d p, (i < n)%nat -> cur !! i = Some c -> dev !! i = Some d ->
      pre !! e i = Some p -> <[n := dsk_end x]> dev' !! i = Some (dev_perdsk d c p)).
    { intros i c d p Hi Hc Hdi Hp. rewrite list_lookup_insert_ne by lia. by apply Hlo. }
    eexists. split; [done|]. split; [by rewrite length_insert|]. split; [split|done].
    + intros i y Hi Hy. destruct (terminated_cond _ _ _ i HT Hi) as (c & Hc & Hne).
      destruct (lookup_lt_is_Some_2 dev i) as [d Hdi]; [lia|].
      destruct (Hsync i c Hi Hc) as (_ & He & _). destruct (lookup_lt_is_Some_2 pre (e i) He) as [p Hp].
      rewrite (Hslot i c d p) in Hy by done. by simplify_eq.
    + eexists. by rewrite list_lookup_insert_eq by lia.
Qed.

(** Disks that were only removed: every disk is compared with its own entry. *)
Lemma dsk_loop_kept n npre cur pre dev f :
  terminated perdsk.name n cur -> terminated perdsk.name npre pre ->
  unique_names perdsk.name npre pre -> kept n npre cur pre f -> (n < length dev)%nat ->
  exists dev', dsk_loop cur pre dev = Some (dev', Z.of_nat n) /\ length dev' = length dev /\
    terminated perdsk.name n dev' /\
    (forall i c d p, (i < n)%nat -> cur !! i = Some c -> dev !! i = Some d ->
       entry_of perdsk.name c.(perdsk.name) npre pre = Some p -> dev' !! i = Some (dev_perdsk d c p)) /\
    (forall i c, (i < n)%nat -> cur !! i = Some c ->
       is_Some (entry_of perdsk.name c.(perdsk.name) npre pre)).
Proof.
  intros HT HP HU [Klt Kmono Kname] Hd. pose proof (terminated_length _ _ _ HP) as Hl.
  assert (Hent : forall i c, (i < n)%nat -> cur !! i = Some c ->
    exists p, pre !! f i = Some p /\ entry_of perdsk.name c.(perdsk.name) npre pre = Some p).
  { intros i c Hi Hc. pose proof (Klt i Hi). destruct (lookup_lt_is_Some_2 pre (f i)) as [p Hp]; [lia|].
    exists p. split; [done|]. rewrite <-(Kname i c p Hi Hc Hp). by apply (entry_of_unique _ _ _ (f i)). }
  destruct (dsk_loop_places n cur pre dev (fun i => match i with O => 0%nat | S k => S (f k) end) f)
    as (dev' & E & Hld & HTd & Hs); [done | done | done | |].
  - intros i c Hi Hc. destruct (Hent i c Hi Hc) as (p & Hp & _). pose proof (Klt i Hi).
    split; [|split; [lia | done]].
    apply (dsk_sync_found npre _ _ _ p); try done; [|by apply (Kname i) | by apply (proj1 HT i)].
    destruct i as [|k]; [lia|]. pose proof (Kmono k (S k)). lia.
  - exists dev'. split; [done|]. split; [done|]. split; [done|]. split.
    + intros i c d p Hi Hc Hdi Hp. destruct (Hent i c Hi Hc) as (p' & Hp' & E').
      apply Hs; try done. congruence.
    + intros i c Hi Hc. destruct (Hent i c Hi Hc) as (p' & _ & ->). eauto.
Qed.

(** When a disk was added in front of the known ones, the loop over the disks
    compares it and every disk after it with an empty entry, so that all of
    them report their counters since boot, although the known ones have an
    entry in the previous sample. *)
Theorem dsk_loop_added n npre cur pre dev c0 :
  terminated perdsk.name n cur -> terminated perdsk.name npre pre ->
  (forall i p, (npre <= i)%nat -> pre !! i = Some p -> p = perdsk_zero) ->
  cur !! 0%nat = Some c0 -> entry_of perdsk.name c0.(perdsk.name) npre pre = None ->
  (n < length dev)%nat -> (Nat.max 1 npre + 2 * n <= S (length pre))%nat ->
  exists dev', dsk_loop cur pre dev = Some (dev', Z.of_nat n) /\
    (forall i c d, (i < n)%nat -> cur !! i = Some c -> dev !! i = Some d ->
       dev' !! i = Some (dev_perdsk d c perdsk_zero)).
Proof.
  intros HT HP Hz H0 Habs Hd Hl.
  destruct (dsk_loop_places n cur pre dev
    (fun i => match i with O => 0%nat | S k => S (Nat.max 1 npre + 2 * k) end)
    (fun i => (Nat.max 1 npre + 2 * i)%nat)) as (dev' & E & _ & _ & Hs); [done | done | done | |].
  - intros i c Hi Hc. split; [|split; [lia | done]].
    destruct i as [|k].
    + simplify_eq. rewrite (dsk_sync_absent npre) by
        (done || lia || (by apply (proj1 HT 0%nat)) ||
         (intros i p Hip Hp; apply (entry_of_none_inv _ _ _ _ i p Habs); lia || done)).
      f_equal. lia.
    + rewrite (dsk_sync_absent npre) by (done || lia || by apply (proj1 HT (S k))).
      f_equal. lia.
  - exists dev'. split; [done|]. intros i c d Hi Hc Hdi.
    destruct (lookup_lt_is_Some_2 pre (Nat.max 1 npre + 2 * i)) as [p Hp]; [lia|].
    rewrite (Hs i c d p) by done. rewrite (Hz (Nat.max 1 npre + 2 * i)%nat p) by (exact Hp || lia). done.
Qed.

(** In the first sample, when the table of the previous sample is empty, each
    disk takes two places of it, and with more disks than half of the table
    the loop reads past its end. *)
Theorem dsk_loop_overrun n cur pre dev :
  terminated perdsk.name n cur -> (forall p, p ∈ pre -> p = perdsk_zero) ->
  (length pre < 2 * n)%nat -> dsk_loop cur pre dev = None.
Proof.
  intros HT Hz Hl. unfold dsk_loop.
  assert (HN : forall fuel i s, (i < n)%nat -> s.2 = (2 * i)%nat ->
    for_while (fun i _ => c ← cur !! i; Some (str_nonempty c.(perdsk.name))) (dsk_step cur pre) fuel i s = None).
  { induction fuel as [|fuel IH]; intros i s Hi Hj; [done|]. cbn [for_while].
    destruct (terminated_cond _ _ _ i HT Hi) as (c & Hc & Hne). rewrite Hc. mstep. rewrite Hne.
    destruct (dsk_step cur pre i s) as [[d j]|] eqn:E; mstep; [|done].
    unfold dsk_step in E. rewrite Hc in E. cbn [mbind option_bind] in E.
    destruct (s.1 !! i) as [x|]; cbn [mbind option_bind] in E; [|done].
    destruct (decide (S (2 * i) < length pre)%nat) as [Hb|Hb].
    - rewrite Hj, (dsk_sync_absent 0) in E; try lia; try done.
      + cbn [mbind option_bind] in E. destruct (pre !! _); cbn [mbind option_bind] in E; [|done].
        destruct (arr_set _ _ _); cbn [mbind option_bind] in E; [|done]. simplify_eq.
        apply IH; cbn; lia.
      + split; [lia|]. destruct (lookup_lt_is_Some_2 pre 0) as [p Hp]; [lia|]. exists p.
        split; [done|]. rewrite (Hz p) by by eapply list_elem_of_lookup_2. done.
      + intros k p _ Hp. apply Hz. by eapply list_elem_of_lookup_2.
    - unfold dsk_sync in E. rewrite Hj in E.
      destruct (pre !! (2 * i)%nat) as [p|] eqn:Hp; cbn [mbind option_bind] in E; [|done].
      rewrite (Hz p) in E by by eapply list_elem_of_lookup_2.
      rewrite str_same_ne in E by (cbn; intros Ez; by rewrite <-Ez in Hne).
      unfold scan in E. rewrite drop_ge in E by lia. done. }
  rewrite HN; [done | pose proof (terminated_length _ _ _ HT); lia | done].
Qed.

(** ** NFS mounts and containers *)

Lemma search_upto_spec {A} (hit : A -> bool) n (l : list A) :
  0 <= n -> (Z.to_nat n <= length l)%nat ->
  exists k, search_upto hit n l = Some k /\ (k <= Z.to_nat n)%nat /\
    (forall i x, (i < k)%nat -> l !! i = Some x -> hit x = false) /\
    (forall x, (k < Z.to_nat n)%nat -> l !! k = Some x -> hit x = true).
Proof.
  intros H0 Hl. unfold search_upto.
  assert (H : forall fuel i, (i <= Z.to_nat n)%nat -> (Z.to_nat n - i < fuel)%nat ->
    (forall j x, (j < i)%nat -> l !! j = Some x -> hit x = false) ->
    exists k, for_while (fun j _ => if Z.of_nat j <? n then p ← l !! j; Some (negb (hit p)) else Some false)
        (fun _ s => Some s) fuel i tt = Some (k, tt) /\ (k <= Z.to_nat n)%nat /\
      (forall j x, (j < k)%nat -> l !! j = Some x -> hit x = false) /\
      (forall x, (k < Z.to_nat n)%nat -> l !! k = Some x -> hit x = true)).
  { induction fuel as [|f IH]; intros i Hi Hf Hlo; [lia|]. cbn [for_while].
    destruct (Z.of_nat i <? n) eqn:E; mstep.
    - apply Z.ltb_lt in E. destruct (lookup_lt_is_Some_2 l i) as [x Hx]; [lia|]. rewrite Hx. mstep.
      destruct (hit x) eqn:Eh; cbn [negb].
      + exists i. split_and!; [done | done | done | by intros; simplify_eq].
      + mstep. apply IH; [lia | lia |]. intros j y Hj Hy. destruct (decide (j = i)) as [->|]; [by simplify_eq|].
        apply (Hlo j); [lia | done].
    - apply Z.ltb_ge in E. exists i. split_and!; [done | done | done | lia]. }
  destruct (H (S (Z.to_nat n)) 0%nat) as (k & -> & Hk); [lia | lia | lia |]. mstep. eauto.
Qed.

(** ** NFS mounts *)

Section mounts.
Context (interval : Z) (ncur npre : nat) (cur pre dev : list pernfsmount.pernfsmount).
Context (Hcur : (ncur <= length cur)%nat) (Hpre : (S npre < length pre)%nat) (Hdev : (ncur <= length dev)%nat).
Context (Hname : forall i c, (i < ncur)%nat -> cur !! i = Some c ->
  str_nonempty c.(pernfsmount.mountdev) = true).
Context (Hucur : unique_names pernfsmount.mountdev ncur cur) (Hupre : unique_names pernfsmount.mountdev npre pre).
(** The previous sample is zero beyond its mounts. *)
Context (Hzero : forall i p, (npre <= i)%nat -> pre !! i = Some p -> p = pernfsmount_zero).

(** What the counters of a mount are compared with: its own entry, unless it
    is new or younger than the interval. *)
Definition mount_base (c : pernfsmount.pernfsmount) : pernfsmount.pernfsmount :=
  if c.(pernfsmount.age) <=? interval then pernfsmount_zero
  else default pernfsmount_zero (entry_of pernfsmount.mountdev c.(pernfsmount.mountdev) npre pre).

Record mount_inv (i : nat) (s : mounts.mounts) : Prop := {
  mi_j : (s.(mounts.j) <= S npre)%nat;
  mi_pre_len : length s.(mounts.pre) = length pre;
  (** Entries of mounts still to come are untouched. *)
  mi_pre_todo : forall k q, pre !! k = Some q ->
    (forall i' c, (i' < i)%nat -> cur !! i' = Some c -> c.(pernfsmount.mountdev) ≠ q.(pernfsmount.mountdev)) ->
    s.(mounts.pre) !! k = Some q;
  mi_pre_any : forall k q', s.(mounts.pre) !! k = Some q' ->
    q' = pernfsmount_zero \/ pre !! k = Some q';
  mi_dev_len : length s.(mounts.dev) = length dev;
  mi_dev_lo : forall k c d, (k < i)%nat -> cur !! k = Some c -> dev !! k = Some d ->
    s.(mounts.dev) !! k = Some (dev_mount d c (mount_base c));
  mi_dev_hi : forall k, (i <= k)%nat -> s.(mounts.dev) !! k = dev !! k
}.

(** The place found holds the entry of the mount, or a zero entry. *)
Lemma mount_sync_spec i c s :
  mount_inv i s -> (i < ncur)%nat -> cur !! i = Some c ->
  exists k p, mount_sync c.(pernfsmount.mountdev) (Z.of_nat npre) s.(mounts.pre) s.(mounts.j) = Some k /\
    (k <= npre)%nat /\ s.(mounts.pre) !! k = Some p /\
    p = default pernfsmount_zero (entry_of pernfsmount.mountdev c.(pernfsmount.mountdev) npre pre) /\
    (p = pernfsmount_zero \/ p.(pernfsmount.mountdev) = c.(pernfsmount.mountdev)).
Proof.
  intros HI Hi Hc. pose proof (Hname i c Hi Hc) as Hne.
  assert (Hnz : forall q, q.(pernfsmount.mountdev) = c.(pernfsmount.mountdev) -> q ≠ pernfsmount_zero).
  { intros q Eq ->. cbn in Eq. by rewrite <-Eq in Hne. }
  assert (Hfound : forall k q, s.(mounts.pre) !! k = Some q ->
    q.(pernfsmount.mountdev) = c.(pernfsmount.mountdev) ->
    (k < npre)%nat /\ entry_of pernfsmount.mountdev c.(pernfsmount.mountdev) npre pre = Some q).
  { intros k q Hq Eq. destruct (mi_pre_any _ _ HI k q Hq) as [->|Hp]; [by destruct (Hnz _ Eq)|].
    assert (k < npre)%nat.
    { destruct (decide (k < npre)%nat); [done|]. destruct (Hnz q Eq). apply (Hzero k q); [lia|done]. }
    split; [done|]. rewrite <-Eq. by apply (entry_of_unique _ _ _ k). }
  unfold mount_sync. pose proof (mi_j _ _ HI). pose proof (mi_pre_len _ _ HI) as Hl.
  destruct (lookup_lt_is_Some_2 s.(mounts.pre) s.(mounts.j)) as [q Hq]; [lia|]. rewrite Hq. mstep.
  destruct (str_same _ _) eqn:Es.
  - apply str_same_spec in Es. destruct (Hfound _ _ Hq) as [Hk E]; [done|].
    eexists _, q. split; [done|]. split; [lia|]. rewrite E. auto.
  - destruct (search_upto_spec (fun p => str_same c.(pernfsmount.mountdev) p.(pernfsmount.mountdev))
      (Z.of_nat npre) s.(mounts.pre)) as (k & -> & Hk & Hlo & Hhit); [lia | lia |].
    rewrite Nat2Z.id in *. destruct (lookup_lt_is_Some_2 s.(mounts.pre) k) as [p Hp]; [lia|].
    exists k, p. split; [done|]. split; [done|]. split; [done|].
    destruct (decide (k < npre)%nat) as [Hlt|Hge].
    + specialize (Hhit p Hlt Hp). apply str_same_spec in Hhit.
      destruct (Hfound _ _ Hp) as [_ E]; [done|]. rewrite E. auto.
    + assert (k = npre) as -> by lia.
      assert (p = pernfsmount_zero) as ->.
      { destruct (mi_pre_any _ _ HI _ _ Hp) as [|Hp']; [done|]. by apply (Hzero npre). }
      split; [|by left]. rewrite entry_of_none; [done|]. intros k' r Hk' Hr Er.
      assert (s.(mounts.pre) !! k' = Some r) as Hr'.
      { apply (mi_pre_todo _ _ HI); [done|]. intros i' c' Hi' Hc' E'.
        assert (i' = i); [|lia]. apply (Hucur i' i c' c); try done; [lia|congruence]. }
      specialize (Hlo k' r Hk' Hr'). by rewrite (proj2 (str_same_spec _ _)) in Hlo.
Qed.

Lemma mount_step_ok i s : (i < ncur)%nat -> mount_inv i s ->
  exists s', mount_step interval (Z.of_nat npre) cur i s = Some s' /\ mount_inv (S i) s'.
Proof.
  intros Hi HI. destruct (lookup_lt_is_Some_2 cur i) as [c Hc]; [lia|].
  destruct (lookup_lt_is_Some_2 dev i) as [d Hd]; [lia|].
  destruct (mount_sync_spec i c s HI Hi Hc) as (k & p & Es & Hk & Hp & Ep & Hcase).
  pose proof (mi_pre_len _ _ HI) as Hl. pose proof (mi_dev_len _ _ HI) as Hld.
  unfold mount_step. rewrite Hc. mstep. rewrite (mi_dev_hi _ _ HI), Hd by done. mstep. rewrite Es. mstep.
  assert (Hfin : forall pre' p', length pre' = length pre -> pre' !! k = Some p' -> p' = mount_base c ->
    (forall k' q', pre' !! k' = Some q' -> q' = pernfsmount_zero \/ s.(mounts.pre) !! k' = Some q') ->
    (forall k', k' ≠ k \/ p ≠ p' -> k' ≠ k -> pre' !! k' = s.(mounts.pre) !! k') ->
    (p' = p \/ p.(pernfsmount.mountdev) = c.(pernfsmount.mountdev)) ->
    exists s', (q ← pre' !! k; dv ← arr_set s.(mounts.dev) i (dev_mount d c q);
      Some (mounts.mk pre' dv (S k))) = Some s' /\ mount_inv (S i) s').
  { intros pre' p' Hl' Hp' Eb Hany Hother Hsame. rewrite Hp'. mstep.
    rewrite arr_set_Some by lia. mstep. eexists. split; [done|]. split; cbn; rewrite ?length_insert; try done.
    - lia.
    - intros k' q Hq Hnot. destruct (decide (k' = k)) as [->|Hne].
      + assert (Hqp : s.(mounts.pre) !! k = Some q).
        { apply (mi_pre_todo _ _ HI); [done|]. intros i' c' Hi'. apply Hnot. lia. }
        destruct Hsame as [->|E]; [congruence|]. simplify_eq. destruct (Hnot i c); [lia | done | congruence].
      + rewrite Hother by auto. apply (mi_pre_todo _ _ HI); [done|]. intros i' c' Hi'. apply Hnot. lia.
    - intros k' q' [?|Hq]%Hany; [by left|]. by apply (mi_pre_any _ _ HI).
    - intros k' x y Hk' Hx Hy. destruct (decide (k' = i)) as [->|].
      + rewrite list_lookup_insert_eq by lia. by simplify_eq.
      + rewrite list_lookup_insert_ne by done. apply (mi_dev_lo _ _ HI); [lia|done|done].
    - intros k' Hk'. rewrite list_lookup_insert_ne by lia. apply (mi_dev_hi _ _ HI). lia. }
  unfold mount_base in Hfin. destruct (c.(pernfsmount.age) <=? interval).
  - rewrite arr_set_Some by lia. mstep. apply (Hfin _ pernfsmount_zero).
    + by rewrite length_insert.
    + apply list_lookup_insert_eq. lia.
    + done.
    + intros k' q'. destruct (decide (k' = k)) as [->|].
      * rewrite list_lookup_insert_eq by lia. intros [= <-]. by left.
      * rewrite list_lookup_insert_ne by done. by right.
    + intros k' _ Hne. by rewrite list_lookup_insert_ne.
    + destruct Hcase as [->|]; [by left | by right].
  - mstep. apply (Hfin _ p); auto.
Qed.

(** Every mount is compared with its own entry. *)
Lemma mounts_loop :
  exists s, for_lt (Z.of_nat ncur) (mount_step interval (Z.of_nat npre) cur) (mounts.mk pre dev 0) = Some s /\
    mount_inv ncur s.
Proof.
  destruct (for_lt_inv (mount_step interval (Z.of_nat npre) cur) mount_inv (Z.of_nat ncur)
    (mounts.mk pre dev 0)) as (s & E & HI).
  - intros i s Hi HI. apply mount_step_ok; [lia|done].
  - split; cbn; try done; try lia. auto.
  - rewrite Nat2Z.id in HI. eauto.
Qed.
End mounts.

(** ** Containers *)

(** Container [i] is always compared with entry [i] of the previous sample. *)
Lemma dev_cfs_spec cur pre dev :
  0 <= pre.(contstat.nrcontainer) ->
  (Z.to_nat cur.(contstat.nrcontainer) <= length cur.(contstat.cont))%nat ->
  (Z.to_nat pre.(contstat.nrcontainer) + Z.to_nat cur.(contstat.nrcontainer) <= length pre.(contstat.cont))%nat ->
  (Z.to_nat cur.(contstat.nrcontainer) <= length dev.(contstat.cont))%nat ->
  exists d, dev_cfs cur pre dev = Some d /\ d.(contstat.nrcontainer) = cur.(contstat.nrcontainer) /\
    (forall i c p, Z.of_nat i < cur.(contstat.nrcontainer) -> cur.(contstat.cont) !! i = Some c ->
       pre.(contstat.cont) !! i = Some p -> d.(contstat.cont) !! i = Some (dev_cont c p)).
Proof.
  intros H0 Hc Hp Hd. unfold dev_cfs.
  destruct (for_lt_inv (cont_step pre.(contstat.nrcontainer) cur.(contstat.cont) pre.(contstat.cont))
    (fun i s => (s.2 <= Z.to_nat pre.(contstat.nrcontainer) + i)%nat /\
       length s.1 = length dev.(contstat.cont) /\
       forall k c p, (k < i)%nat -> cur.(contstat.cont) !! k = Some c ->
         pre.(contstat.cont) !! k = Some p -> s.1 !! k = Some (dev_cont c p))
    cur.(contstat.nrcontainer) (dev.(contstat.cont), 0%nat)) as ([d j] & -> & Hj & Hl & Hlo).
  - intros i [s j] Hi (Hj & Hl & Hlo). cbn [fst snd] in *.
    destruct (lookup_lt_is_Some_2 cur.(contstat.cont) i) as [c Hci]; [lia|].
    destruct (lookup_lt_is_Some_2 pre.(contstat.cont) i) as [p Hpi]; [lia|].
    destruct (lookup_lt_is_Some_2 pre.(contstat.cont) j) as [q Hq]; [lia|].
    unfold cont_step. rewrite Hci. mstep. unfold cont_sync. cbn [fst snd]. rewrite Hq. mstep.
    assert (exists k, (if c.(percontainer.ctid) =? q.(percontainer.ctid) then Some j
      else search_upto (fun p => c.(percontainer.ctid) =? p.(percontainer.ctid)) pre.(contstat.nrcontainer)
             pre.(contstat.cont)) = Some k /\ (k <= Z.to_nat pre.(contstat.nrcontainer) + i)%nat)
      as (k & -> & Hk).
    { destruct (_ =? _); [eauto|].
      destruct (search_upto_spec (fun p => c.(percontainer.ctid) =? p.(percontainer.ctid))
        pre.(contstat.nrcontainer) pre.(contstat.cont)) as (k & -> & Hk & _); [done|lia|].
      eexists. split; [done|lia]. }
    mstep. rewrite Hpi. mstep. rewrite arr_set_Some by lia. mstep. eexists. split; [done|]. cbn [fst snd].
    split; [lia|]. split; [by rewrite length_insert|]. intros k' x y Hk' Hx Hy.
    destruct (decide (k' = i)) as [->|].
    + rewrite list_lookup_insert_eq by lia. by simplify_eq.
    + rewrite list_lookup_insert_ne by done. apply Hlo; [lia|done|done].
  - cbn. split; [lia|]. split; [done|lia].
  - mstep. eexists. split; [done|]. cbn. split; [done|]. intros i c p Hi. apply Hlo. lia.
Qed.
