(* ===== verification/SystMain.v ===== *)
(** * The complete specification of deviatsyst, and totals over samples *)
From S2P Require Import Prelude Privs Sstat Counter Ifprop Deviatsyst Totalsyst SystFacts IfpropFacts.
From S2P Require Import SystIntf SystDsk.

(** The number of entries in front of the first one without name. *)
Fixpoint nnamed {A} (name : A -> string) (l : list A) : nat :=
  match l with
  | [] => 0
  | x :: l' => if str_nonempty (name x) then S (nnamed name l') else 0
  end.

Lemma nnamed_terminated {A} (name : A -> string) n l : terminated name n l -> nnamed name l = n.
Proof.
  revert n. induction l as [|a l IH]; intros n [H1 (z & Hz & Ez)]; [done|]. cbn.
  destruct n as [|n]; cbn in Hz; [simplify_eq; by rewrite Ez|].
  rewrite (H1 0%nat a) by (done || lia). f_equal. apply IH. split; [|eauto].
  intros i x Hi. apply (H1 (S i)). lia.
Qed.

(** A list of named entries that ends inside its array. *)
Definition ended {A} (name : A -> string) (l : list A) : Prop := terminated name (nnamed name l) l.

(** The entry of a name among the named ones. *)
Definition named {A} (name : A -> string) (key : string) (l : list A) : option A :=
  entry_of name key (nnamed name l) l.

Definition uniquely {A} (name : A -> string) (l : list A) : Prop := unique_names name (nnamed name l) l.

(** ** The parts *)

Definition cpus_ok (cur pre dev : cpustat.cpustat) : Prop :=
  let n := Z.to_nat cur.(cpustat.nrcpu) in
  (n <= length dev.(cpustat.cpu))%nat /\ (n <= length cur.(cpustat.cpu))%nat /\
  (n <= length pre.(cpustat.cpu))%nat.

(** A later sample: the previous one has interfaces. *)
Definition intfs_ok (cur pre dev : intfstat.intfstat) : Prop :=
  ended perintf.name cur.(intfstat.intf) /\ ended perintf.name pre.(intfstat.intf) /\
  uniquely perintf.name pre.(intfstat.intf) /\
  (0 < nnamed perintf.name pre.(intfstat.intf))%nat /\
  (nnamed perintf.name cur.(intfstat.intf) < length dev.(intfstat.intf))%nat.

(** No disk was added and the order is the same. *)
Definition disks_ok (cur pre dev : list perdsk.perdsk) : Prop :=
  ended perdsk.name cur /\ ended perdsk.name pre /\ uniquely perdsk.name pre /\
  (exists f, kept (nnamed perdsk.name cur) (nnamed perdsk.name pre) cur pre f) /\
  (nnamed perdsk.name cur < length dev)%nat.

Definition mounts_ok (cur pre dev : nfsmounts.nfsmounts) : Prop :=
  let n := Z.to_nat cur.(nfsmounts.nrmounts) in
  let np := Z.to_nat pre.(nfsmounts.nrmounts) in
  0 <= cur.(nfsmounts.nrmounts) /\ 0 <= pre.(nfsmounts.nrmounts) /\
  (n <= length cur.(nfsmounts.nfsmnt))%nat /\ (S np < length pre.(nfsmounts.nfsmnt))%nat /\
  (n <= length dev.(nfsmounts.nfsmnt))%nat /\
  (forall i c, (i < n)%nat -> cur.(nfsmounts.nfsmnt) !! i = Some c ->
     str_nonempty c.(pernfsmount.mountdev) = true) /\
  unique_names pernfsmount.mountdev n cur.(nfsmounts.nfsmnt) /\
  unique_names pernfsmount.mountdev np pre.(nfsmounts.nfsmnt) /\
  (forall i p, (np <= i)%nat -> pre.(nfsmounts.nfsmnt) !! i = Some p -> p = pernfsmount_zero).

Definition conts_ok (cur pre dev : contstat.contstat) : Prop :=
  0 <= pre.(contstat.nrcontainer) /\
  (Z.to_nat cur.(contstat.nrcontainer) <= length cur.(contstat.cont))%nat /\
  (Z.to_nat pre.(contstat.nrcontainer) + Z.to_nat cur.(contstat.nrcontainer)
     <= length pre.(contstat.cont))%nat /\
  (Z.to_nat cur.(contstat.nrcontainer) <= length dev.(contstat.cont))%nat.

Record syst_ok (cur pre dev : sstat.sstat) : Prop := {
  ok_cpu : cpus_ok cur.(sstat.cpu) pre.(sstat.cpu) dev.(sstat.cpu);
  ok_intf : intfs_ok cur.(sstat.intf) pre.(sstat.intf) dev.(sstat.intf);
  ok_dsk : disks_ok cur.(sstat.dsk).(dskstat.dsk) pre.(sstat.dsk).(dskstat.dsk) dev.(sstat.dsk).(dskstat.dsk);
  ok_mdd : disks_ok cur.(sstat.dsk).(dskstat.mdd) pre.(sstat.dsk).(dskstat.mdd) dev.(sstat.dsk).(dskstat.mdd);
  ok_lvm : disks_ok cur.(sstat.dsk).(dskstat.lvm) pre.(sstat.dsk).(dskstat.lvm) dev.(sstat.dsk).(dskstat.lvm);
  ok_nfs : mounts_ok cur.(sstat.nfs).(nfsstat.nfsmounts) pre.(sstat.nfs).(nfsstat.nfsmounts)
             dev.(sstat.nfs).(nfsstat.nfsmounts);
  ok_cfs : conts_ok cur.(sstat.cfs) pre.(sstat.cfs) dev.(sstat.cfs)
}.

(** ** What each part becomes: [x] is the deviations *)

Definition cpus_dev (cur pre dev x : cpustat.cpustat) : Prop :=
  x.(cpustat.nrcpu) = cur.(cpustat.nrcpu) /\
  x.(cpustat.all) = dev_cpuall dev.(cpustat.all) cur.(cpustat.all) pre.(cpustat.all) /\
  forall i d c p, Z.of_nat i < cur.(cpustat.nrcpu) -> dev.(cpustat.cpu) !! i = Some d ->
    cur.(cpustat.cpu) !! i = Some c -> pre.(cpustat.cpu) !! i = Some p ->
    x.(cpustat.cpu) !! i = Some (dev_percpu d c p).

Definition table_dev {A} `{Table A} (cur pre x : A) : Prop :=
  members x = zip_with (fun c p => i64 (c - p)) (members cur) (members pre).

Definition net_dev (cur pre x : netstat.netstat) : Prop :=
  (exists t, table_dev cur.(netstat.ipv4) pre.(netstat.ipv4) t /\
     x.(netstat.ipv4) = fix_ipv4 cur.(netstat.ipv4) t) /\
  table_dev cur.(netstat.icmpv4) pre.(netstat.icmpv4) x.(netstat.icmpv4) /\
  table_dev cur.(netstat.udpv4) pre.(netstat.udpv4) x.(netstat.udpv4) /\
  table_dev cur.(netstat.ipv6) pre.(netstat.ipv6) x.(netstat.ipv6) /\
  table_dev cur.(netstat.icmpv6) pre.(netstat.icmpv6) x.(netstat.icmpv6) /\
  table_dev cur.(netstat.udpv6) pre.(netstat.udpv6) x.(netstat.udpv6) /\
  (exists t, table_dev cur.(netstat.tcp) pre.(netstat.tcp) t /\
     x.(netstat.tcp) = fix_tcp cur.(netstat.tcp) t).

(** [m] bounds the table of interface properties. *)
Definition intfs_dev (ifprops : list ifprop.ifprop) (cur pre dev x : intfstat.intfstat) : Prop :=
  x.(intfstat.nrintf) = Z.of_nat (nnamed perintf.name cur.(intfstat.intf)) /\
  forall i c d, (i < nnamed perintf.name cur.(intfstat.intf))%nat ->
    cur.(intfstat.intf) !! i = Some c -> dev.(intfstat.intf) !! i = Some d ->
    let c' := refreshed ifprops (nnamed ifprop.name ifprops) c in
    x.(intfstat.intf) !! i = Some
      match named perintf.name c.(perintf.name) pre.(intfstat.intf) with
      | Some p => dev_perintf d c' p
      | None => c'
      end.

Definition disks_dev (cur pre dev x : list perdsk.perdsk) (n : Z) : Prop :=
  n = Z.of_nat (nnamed perdsk.name cur) /\ ended perdsk.name x /\ nnamed perdsk.name x = nnamed perdsk.name cur /\
  forall i c d, (i < nnamed perdsk.name cur)%nat -> cur !! i = Some c -> dev !! i = Some d ->
    exists p, named perdsk.name c.(perdsk.name) pre = Some p /\ x !! i = Some (dev_perdsk d c p).

Definition mounts_dev (interval : Z) (cur pre dev x : nfsmounts.nfsmounts) : Prop :=
  x.(nfsmounts.nrmounts) = cur.(nfsmounts.nrmounts) /\
  forall i c d, (i < Z.to_nat cur.(nfsmounts.nrmounts))%nat ->
    cur.(nfsmounts.nfsmnt) !! i = Some c -> dev.(nfsmounts.nfsmnt) !! i = Some d ->
    x.(nfsmounts.nfsmnt) !! i = Some (dev_mount d c
      (mount_base interval (Z.to_nat pre.(nfsmounts.nrmounts)) pre.(nfsmounts.nfsmnt) c)).

Record syst_dev (interval : Z) (ifprops : list ifprop.ifprop) (cur pre dev x : sstat.sstat) : Prop := {
  sd_cpu : cpus_dev cur.(sstat.cpu) pre.(sstat.cpu) dev.(sstat.cpu) x.(sstat.cpu);
  sd_mem : x.(sstat.mem) = dev_mem dev.(sstat.mem) cur.(sstat.mem) pre.(sstat.mem);
  sd_net : net_dev cur.(sstat.net) pre.(sstat.net) x.(sstat.net);
  sd_intf : intfs_dev ifprops cur.(sstat.intf) pre.(sstat.intf) dev.(sstat.intf) x.(sstat.intf);
  sd_dsk : disks_dev cur.(sstat.dsk).(dskstat.dsk) pre.(sstat.dsk).(dskstat.dsk)
             dev.(sstat.dsk).(dskstat.dsk) x.(sstat.dsk).(dskstat.dsk) x.(sstat.dsk).(dskstat.ndsk);
  sd_mdd : disks_dev cur.(sstat.dsk).(dskstat.mdd) pre.(sstat.dsk).(dskstat.mdd)
             dev.(sstat.dsk).(dskstat.mdd) x.(sstat.dsk).(dskstat.mdd) x.(sstat.dsk).(dskstat.nmdd);
  sd_lvm : disks_dev cur.(sstat.dsk).(dskstat.lvm) pre.(sstat.dsk).(dskstat.lvm)
             dev.(sstat.dsk).(dskstat.lvm) x.(sstat.dsk).(dskstat.lvm) x.(sstat.dsk).(dskstat.nlvm);
  sd_server : x.(sstat.nfs).(nfsstat.server) = dev_server dev.(sstat.nfs).(nfsstat.server)
                cur.(sstat.nfs).(nfsstat.server) pre.(sstat.nfs).(nfsstat.server);
  sd_client : x.(sstat.nfs).(nfsstat.client) = dev_client dev.(sstat.nfs).(nfsstat.client)
                cur.(sstat.nfs).(nfsstat.client) pre.(sstat.nfs).(nfsstat.client);
  sd_conts : forall i c p, Z.of_nat i < cur.(sstat.cfs).(contstat.nrcontainer) ->
                cur.(sstat.cfs).(contstat.cont) !! i = Some c -> pre.(sstat.cfs).(contstat.cont) !! i = Some p ->
                x.(sstat.cfs).(contstat.cont) !! i = Some (dev_cont c p);
  sd_mounts : mounts_dev interval cur.(sstat.nfs).(nfsstat.nfsmounts) pre.(sstat.nfs).(nfsstat.nfsmounts)
                dev.(sstat.nfs).(nfsstat.nfsmounts) x.(sstat.nfs).(nfsstat.nfsmounts)
}.

(** ** Each part meets its specification *)

Lemma dev_net_ok dev cur pre : exists x, dev_net dev cur pre = Some x /\ net_dev cur pre x.
Proof.
  unfold dev_net, net_dev, table_dev.
  destruct (table_sub_spec dev.(netstat.ipv4) cur.(netstat.ipv4) pre.(netstat.ipv4)) as (a & -> & ?). mstep.
  destruct (table_sub_spec dev.(netstat.icmpv4) cur.(netstat.icmpv4) pre.(netstat.icmpv4)) as (b & -> & ?). mstep.
  destruct (table_sub_spec dev.(netstat.udpv4) cur.(netstat.udpv4) pre.(netstat.udpv4)) as (c & -> & ?). mstep.
  destruct (table_sub_spec dev.(netstat.ipv6) cur.(netstat.ipv6) pre.(netstat.ipv6)) as (d & -> & ?). mstep.
  destruct (table_sub_spec dev.(netstat.icmpv6) cur.(netstat.icmpv6) pre.(netstat.icmpv6)) as (e & -> & ?). mstep.
  destruct (table_sub_spec dev.(netstat.udpv6) cur.(netstat.udpv6) pre.(netstat.udpv6)) as (f & -> & ?). mstep.
  destruct (table_sub_spec dev.(netstat.tcp) cur.(netstat.tcp) pre.(netstat.tcp)) as (g & -> & ?). mstep.
  eexists. split; [done|].
  cbn [netstat.ipv4 netstat.icmpv4 netstat.udpv4 netstat.ipv6 netstat.icmpv6 netstat.udpv6 netstat.tcp].
  split_and!; first [done | eexists; split; [eassumption | done]].
Qed.

Lemma disks_ok_dev cur pre dev : disks_ok cur pre dev ->
  exists x n, dsk_loop cur pre dev = Some (x, n) /\ disks_dev cur pre dev x n.
Proof.
  intros (HT & HP & HU & (f & HK) & Hd).
  destruct (dsk_loop_kept _ _ cur pre dev f HT HP HU HK Hd) as (x & E & _ & HTx & Hs & He).
  eexists _, _. split; [done|]. pose proof (nnamed_terminated _ _ _ HTx) as Hn.
  split_and!; [done | by red; rewrite Hn | done |].
  intros i c d Hi Hc Hdi. destruct (He i c Hi Hc) as [p Hp]. exists p. eauto.
Qed.

Lemma dev_dsk_ok cur pre dev :
  disks_ok cur.(dskstat.dsk) pre.(dskstat.dsk) dev.(dskstat.dsk) ->
  disks_ok cur.(dskstat.mdd) pre.(dskstat.mdd) dev.(dskstat.mdd) ->
  disks_ok cur.(dskstat.lvm) pre.(dskstat.lvm) dev.(dskstat.lvm) ->
  exists x, dev_dsk cur pre dev = Some x /\
    disks_dev cur.(dskstat.dsk) pre.(dskstat.dsk) dev.(dskstat.dsk) x.(dskstat.dsk) x.(dskstat.ndsk) /\
    disks_dev cur.(dskstat.mdd) pre.(dskstat.mdd) dev.(dskstat.mdd) x.(dskstat.mdd) x.(dskstat.nmdd) /\
    disks_dev cur.(dskstat.lvm) pre.(dskstat.lvm) dev.(dskstat.lvm) x.(dskstat.lvm) x.(dskstat.nlvm).
Proof.
  intros H1 H2 H3. unfold dev_dsk, dev_disks, dev_mdds, dev_lvms.
  destruct (disks_ok_dev _ _ _ H1) as (a & n & -> & ?). mstep.
  destruct (disks_ok_dev _ _ _ H2) as (b & k & -> & ?). mstep.
  destruct (disks_ok_dev _ _ _ H3) as (c & l & -> & ?). mstep.
  eexists. split; [done|]. done.
Qed.

Lemma dev_intf_ok ifprops m prop0 cur pre dev :
  terminated ifprop.name m ifprops -> intfs_ok cur pre dev ->
  exists cur' x, dev_intf ifprops prop0 cur pre dev = Some (cur', pre, x) /\
    intfs_dev ifprops cur pre dev x.
Proof.
  intros HI (HT & HP & HU & Hpos & Hd). pose proof (nnamed_terminated _ _ _ HI) as Em.
  destruct (dev_intf_later ifprops m HI _ _ prop0 cur pre dev HT HP HU Hpos Hd)
    as (cur' & x & E & En & _ & Hs). exists cur', x. split; [done|]. split; [done|].
  intros i c d Hi Hc Hdi. destruct (Hs i c d Hi Hc Hdi) as [_ ->]. rewrite Em. done.
Qed.

Lemma dev_nfs_ok interval cur pre dev :
  mounts_ok cur.(nfsstat.nfsmounts) pre.(nfsstat.nfsmounts) dev.(nfsstat.nfsmounts) ->
  exists pre' x, dev_nfs interval cur pre dev = Some (pre', x) /\
    x.(nfsstat.server) = dev_server dev.(nfsstat.server) cur.(nfsstat.server) pre.(nfsstat.server) /\
    x.(nfsstat.client) = dev_client dev.(nfsstat.client) cur.(nfsstat.client) pre.(nfsstat.client) /\
    mounts_dev interval cur.(nfsstat.nfsmounts) pre.(nfsstat.nfsmounts) dev.(nfsstat.nfsmounts)
      x.(nfsstat.nfsmounts).
Proof.
  intros (H0 & H1 & Hc & Hp & Hd & Hn & Hu & Hup & Hz). unfold dev_nfs, dev_mounts.
  destruct (mounts_loop interval (Z.to_nat cur.(nfsstat.nfsmounts).(nfsmounts.nrmounts))
    (Z.to_nat pre.(nfsstat.nfsmounts).(nfsmounts.nrmounts)) cur.(nfsstat.nfsmounts).(nfsmounts.nfsmnt)
    pre.(nfsstat.nfsmounts).(nfsmounts.nfsmnt) dev.(nfsstat.nfsmounts).(nfsmounts.nfsmnt))
    as (s & E & HI); [done..|]. rewrite !Z2Nat.id in E by done. rewrite E. mstep.
  eexists _, _. split; [done|]. cbn. split; [done|]. split; [done|]. split; [done|].
  intros i c d Hi Hci Hdi. by apply (mi_dev_lo _ _ _ _ _ _ _ HI).
Qed.

(** ** deviatsyst *)

(** C2: deviatsyst returns, and every processor, table of network counters,
    interface, disk, NFS mount and container of the result is the deviation
    between the current entry and the entry of the previous sample that belongs
    to it (for containers: the entry at the same place); an interface without
    one counts from zero. The conditions: the root privileges can be dropped;
    the lists end inside their arrays and the result has room for the current
    ones; in the previous sample there is an interface, no two interfaces, disks
    of a kind or mounts have the same name, and the array of mounts is zero
    behind the last one; the current mounts have names, and different ones;
    disks were at most removed, and the others are in the same order; the
    containers of both samples together fit the array. *)
Theorem deviatsyst_spec nc lines seteuid prop0 ifprops cur pre dev interval :
  table_ok ifprops -> droprootprivs seteuid.1 seteuid.2 = 1 -> syst_ok cur pre dev ->
  exists ifprops' cur' pre' x,
    deviatsyst nc lines seteuid prop0 ifprops cur pre dev interval = Some (Done ifprops' cur' pre' x) /\
    initifprop nc lines ifprops = Some ifprops' /\ table_ok ifprops' /\
    syst_dev interval ifprops' cur pre dev x.
Proof.
  intros HT Hpriv [Hcpu Hintf Hdsk Hmdd Hlvm Hnfs Hcfs]. unfold deviatsyst.
  destruct Hcpu as (C1 & C2 & C3).
  destruct (dev_cpu_spec dev.(sstat.cpu) cur.(sstat.cpu) pre.(sstat.cpu) C1 C2 C3)
    as (c & -> & Hn & Hall & _ & Hlo & _). mstep.
  destruct (dev_net_ok dev.(sstat.net) cur.(sstat.net) pre.(sstat.net)) as (n & -> & Hnet). mstep.
  destruct (initifprop_ok nc lines ifprops HT) as (t & Et & HT'). rewrite Et. mstep.
  rewrite Hpriv. cbn [Z.eqb].
  destruct (table_terminated t HT') as (m & Hm & _).
  destruct (dev_intf_ok t m prop0 _ _ _ Hm Hintf) as (ci & xi & -> & Hxi). mstep.
  destruct (dev_dsk_ok _ _ _ Hdsk Hmdd Hlvm) as (xd & -> & D1 & D2 & D3). mstep.
  destruct (dev_nfs_ok interval _ _ _ Hnfs) as (pn & xn & -> & N1 & N2 & N3). mstep.
  destruct Hcfs as (F0 & F1 & F2 & F3).
  destruct (dev_cfs_spec _ _ _ F0 F1 F2 F3) as (xc & -> & _ & Hxc). mstep.
  eexists t, _, _, _. split; [done|]. split; [done|]. split; [done|]. split; cbn; done.
Qed.
