(* ===== verification/SystTotals.v ===== *)
(** * What totalsyst accumulates *)
From S2P Require Import Prelude Sstat Counter Ifprop Deviatsyst Totalsyst SystFacts.

(** ** Protocol counters *)

Ltac same_member H n := generalize (H n ltac:(lia)); cbn; intros [= ->]; reflexivity.

(** The corrected values do not depend on what the loop left in them. *)
Lemma fix_ipv4_agree c x y :
  (forall i, (2 <= i)%nat -> members x !! i = members y !! i) -> fix_ipv4 c x = fix_ipv4 c y.
Proof.
  intros H. destruct x, y. unfold fix_ipv4; cbn in *. f_equal;
  first [same_member H 2%nat|same_member H 3%nat|same_member H 4%nat|same_member H 5%nat
        |same_member H 6%nat|same_member H 7%nat|same_member H 8%nat|same_member H 9%nat
        |same_member H 10%nat|same_member H 11%nat|same_member H 12%nat|same_member H 13%nat
        |same_member H 14%nat|same_member H 15%nat|same_member H 16%nat|same_member H 17%nat
        |same_member H 18%nat].
Qed.

Lemma fix_ipv4_members c x i : (2 <= i)%nat -> members (fix_ipv4 c x) !! i = members x !! i.
Proof. intros Hi. destruct x. do 2 (destruct i as [|i]; [lia|]). reflexivity. Qed.

Lemma fix_tcp_agree c x y :
  (forall i, (4 <= i)%nat -> i ≠ 8%nat -> members x !! i = members y !! i) -> fix_tcp c x = fix_tcp c y.
Proof.
  intros H0. destruct x, y. unfold fix_tcp; cbn in *.
  assert (H : forall i, (4 <= i /\ i ≠ 8)%nat -> _) by (intros i [H1 H2]; exact (H0 i H1 H2)). clear H0.
  f_equal;
  first [same_member H 4%nat|same_member H 5%nat|same_member H 6%nat|same_member H 7%nat
        |same_member H 9%nat|same_member H 10%nat|same_member H 11%nat|same_member H 12%nat
        |same_member H 13%nat].
Qed.

Lemma fix_tcp_members c x i : (4 <= i)%nat -> i ≠ 8%nat -> members (fix_tcp c x) !! i = members x !! i.
Proof.
  intros Hi Hn. destruct x. do 4 (destruct i as [|i]; [lia|]).
  do 5 (destruct i as [|i]; [done|]). reflexivity.
Qed.

(** Adding two tables that were corrected, and correcting the sum. *)
Lemma table_telescope_fixed {A} `{TableLaws A} (fix_ : A -> A -> A) (Q : nat -> Prop)
    (a b c d1 d2 dev e : A) :
  (forall c x y, (forall i, Q i -> members x !! i = members y !! i) -> fix_ c x = fix_ c y) ->
  (forall c x i, Q i -> members (fix_ c x) !! i = members x !! i) ->
  table_sub dev b a = Some d1 -> table_sub e c b = Some d2 ->
  exists t u, table_add (fix_ b d1) (fix_ c d2) = Some t /\ table_sub dev c a = Some u /\ fix_ c t = fix_ c u.
Proof.
  intros Hagree Hmem E1 E2.
  assert (E2' : table_sub dev c b = Some d2).
  { destruct (table_sub_spec e c b) as (x & Ex & Mx). destruct (table_sub_spec dev c b) as (y & Ey & My).
    rewrite Ey. rewrite Ex in E2. injection E2 as <-. f_equal. apply members_inj. by rewrite My. }
  destruct (table_telescope a b c d1 d2 dev E1 E2') as (t & Et & Eu).
  destruct (table_add_spec (fix_ b d1) (fix_ c d2)) as (t' & Et' & Mt').
  exists t', t. split; [done|]. split; [done|]. apply Hagree. intros i Hi.
  destruct (table_add_spec d1 d2) as (t'' & Et'' & Mt''). rewrite Et'' in Et. injection Et as ->.
  rewrite Mt', Mt'', !lookup_zip_with. by rewrite !Hmem by done.
Qed.

Lemma table_telescope_any {A} `{TableLaws A} (a b c d1 d2 dev e : A) :
  table_sub dev b a = Some d1 -> table_sub e c b = Some d2 ->
  exists t, table_add d1 d2 = Some t /\ table_sub dev c a = Some t.
Proof.
  intros E1 E2. destruct (table_telescope_fixed (fun _ x => x) (fun _ => True) a b c d1 d2 dev e)
    as (t & u & Et & Eu & E); try done; [|by subst; eauto].
  intros _ x y Hxy. apply members_inj, list_eq. intros i. by apply Hxy.
Qed.

(** Adding the network deviations of two successive samples with totalsyst
    gives the deviation that deviatsyst computes from the first sample to the
    last. *)
Theorem net_telescope a b c d1 d2 dev e :
  dev_net dev b a = Some d1 -> dev_net e c b = Some d2 ->
  exists t, tot_net d1 d2 = Some t /\ dev_net dev c a = Some t.
Proof.
  intros E1 E2. unfold dev_net in E1, E2.
  repeat match type of E1 with (mbind _ (table_sub ?x ?y ?z)) = _ =>
    let t := fresh "p" in let Et := fresh "P" in
    destruct (table_sub x y z) as [t|] eqn:Et; [|done]; cbn [mbind option_bind] in E1 end.
  repeat match type of E2 with (mbind _ (table_sub ?x ?y ?z)) = _ =>
    let t := fresh "q" in let Et := fresh "Q" in
    destruct (table_sub x y z) as [t|] eqn:Et; [|done]; cbn [mbind option_bind] in E2 end.
  injection E1 as <-. injection E2 as <-. unfold tot_net, dev_net.
  cbn [netstat.ipv4 netstat.icmpv4 netstat.udpv4 netstat.ipv6 netstat.icmpv6 netstat.udpv6 netstat.tcp].
  destruct (table_telescope_fixed fix_ipv4 (fun i => (2 <= i)%nat) _ _ _ _ _ _ _
    fix_ipv4_agree fix_ipv4_members P Q) as (t0 & u0 & -> & -> & F0). mstep.
  destruct (table_telescope_any _ _ _ _ _ _ _ P0 Q0) as (t1 & -> & ->). mstep.
  destruct (table_telescope_any _ _ _ _ _ _ _ P1 Q1) as (t2 & -> & ->). mstep.
  destruct (table_telescope_any _ _ _ _ _ _ _ P2 Q2) as (t3 & -> & ->). mstep.
  destruct (table_telescope_any _ _ _ _ _ _ _ P3 Q3) as (t4 & -> & ->). mstep.
  destruct (table_telescope_any _ _ _ _ _ _ _ P4 Q4) as (t5 & -> & ->). mstep.
  destruct (table_telescope_fixed fix_tcp (fun i => (4 <= i)%nat /\ i ≠ 8%nat) _ _ _ _ _ _ _
    (fun c x y H => fix_tcp_agree c x y (fun i H1 H2 => H i (conj H1 H2)))
    (fun c x i H => fix_tcp_members c x i (proj1 H) (proj2 H)) P5 Q5) as (t6 & u6 & -> & -> & F6). mstep.
  eexists. split; [done|]. f_equal. f_equal; [|].
  - destruct t0, u0. unfold fix_ipv4 in *. cbn in *. injection F0. intros. by subst.
  - destruct t6, u6. unfold fix_tcp in *. cbn in *. injection F6. intros. by subst.
Qed.

(** ** Slots of interfaces, disks and processors *)

Lemma onto_loop {A} (name : A -> string) (f : A -> A -> A) (end_ : A -> A) n (new tot : list A) :
  terminated name n new -> (n < length tot)%nat ->
  (forall t x, name (f t x) = name x) -> (forall t, name (end_ t) = EmptyString) ->
  exists r t r', for_while (fun i (_ : list A) => x ← new !! i; Some (str_nonempty (name x)))
      (slot_step (onto f new)) (S (length new)) 0 tot = Some (n, r) /\
    r !! n = Some t /\ arr_set r n (end_ t) = Some r' /\ length r' = length tot /\ terminated name n r' /\
    (forall i t x, (i < n)%nat -> tot !! i = Some t -> new !! i = Some x -> r' !! i = Some (f t x)) /\
    (forall i, (n < i)%nat -> r' !! i = tot !! i).
Proof.
  intros HT Hl Hname Hend. pose proof (terminated_length _ _ _ HT) as Hn.
  edestruct (for_while_inv
    (fun i (_ : list A) => x ← new !! i; Some (str_nonempty (name x))) (slot_step (onto f new))
    (fun i s => length s = length tot /\
      (forall k t x, (k < i)%nat -> tot !! k = Some t -> new !! k = Some x -> s !! k = Some (f t x)) /\
      (forall k, (i <= k)%nat -> s !! k = tot !! k)) n)
    with (fuel := S (length new)) (i := 0%nat) (s := tot) as (r & E & Hr & Hlo & Hhi).
  - intros i s Hi (Hs & Hlo & Hhi). destruct (terminated_cond _ _ _ i HT Hi) as (x & Hx & Hne).
    destruct (lookup_lt_is_Some_2 tot i) as [t Ht]; [lia|].
    rewrite Hx. mstep. rewrite Hne. split; [done|]. unfold slot_step, onto. rewrite Hhi, Ht by lia. mstep.
    rewrite Hx. mstep. rewrite arr_set_Some by lia. eexists. split; [done|].
    split; [by rewrite length_insert|]. split.
    + intros k u y Hk Hu Hy. destruct (decide (k = i)) as [->|].
      * rewrite list_lookup_insert_eq by lia. by simplify_eq.
      * rewrite list_lookup_insert_ne by done. apply Hlo; [lia|done|done].
    + intros k Hk. rewrite list_lookup_insert_ne by lia. apply Hhi. lia.
  - intros s _. destruct HT as [_ (z & Hz & Ez)]. rewrite Hz. mstep. by rewrite Ez.
  - lia.
  - lia.
  - split; [done|]. split; [lia|done].
  - destruct (lookup_lt_is_Some_2 r n) as [t Ht]; [lia|]. exists r, t, (<[n := end_ t]> r).
    assert (Hslot : forall i t0 x, (i < n)%nat -> tot !! i = Some t0 -> new !! i = Some x ->
      <[n := end_ t]> r !! i = Some (f t0 x)).
    { intros i t0 x Hi Ht0 Hx. rewrite list_lookup_insert_ne by lia. by apply Hlo. }
    split; [done|]. split; [done|]. split; [apply arr_set_Some; lia|].
    split; [by rewrite length_insert|]. split; [split|split; [done|]].
    + intros i y Hi Hy. destruct (terminated_cond _ _ _ i HT Hi) as (x & Hx & Hne).
      destruct (lookup_lt_is_Some_2 tot i) as [t0 Ht0]; [lia|].
      rewrite (Hslot i t0 x) in Hy by done. simplify_eq. by rewrite Hname.
    + exists (end_ t). rewrite list_lookup_insert_eq by lia. by rewrite Hend.
    + intros i Hi. rewrite list_lookup_insert_ne by lia. apply Hhi. lia.
Qed.

(** The sixteen counters of an interface. *)
Definition intf_counters : list (perintf.perintf -> Z) :=
  [perintf.rbyte; perintf.rpack; perintf.rerrs; perintf.rdrop; perintf.rfifo; perintf.rframe; perintf.rcompr;
   perintf.rmultic; perintf.sbyte; perintf.spack; perintf.serrs; perintf.sdrop; perintf.sfifo; perintf.scollis;
   perintf.scarrier; perintf.scompr].

Definition intf_added (t c y : perintf.perintf) : Prop :=
  y.(perintf.name) = c.(perintf.name) /\
  (y.(perintf.type), y.(perintf.speed), y.(perintf.duplex)) =
    (c.(perintf.type), c.(perintf.speed), c.(perintf.duplex)) /\
  (c.(perintf.name) = t.(perintf.name) -> Forall (fun f => f y = i64 (f t + f c)) intf_counters) /\
  (c.(perintf.name) <> t.(perintf.name) -> Forall (fun f => f y = i64 (f c)) intf_counters).

Lemma tot_perintf_added t c : intf_added t c (tot_perintf t c).
Proof.
  unfold intf_added, tot_perintf, str_same. split; [done|]. split; [done|].
  destruct (String.eqb_spec c.(perintf.name) t.(perintf.name)); (split; [intros E | intros E]; try done);
    unfold intf_counters; repeat constructor; cbn; by rewrite ?Z.add_0_l.
Qed.

(** totalsyst adds every interface of the sample to the total at its place,
    whose counters start again from zero when the interface there has another
    name, and ends the list after the last interface. *)
Theorem tot_intf_spec n tot new :
  terminated perintf.name n new.(intfstat.intf) -> (n < length tot.(intfstat.intf))%nat ->
  exists x, tot_intf tot new = Some x /\ x.(intfstat.nrintf) = Z.of_nat n /\
    terminated perintf.name n x.(intfstat.intf) /\
    (forall i t c, (i < n)%nat -> tot.(intfstat.intf) !! i = Some t -> new.(intfstat.intf) !! i = Some c ->
       exists y, x.(intfstat.intf) !! i = Some y /\ intf_added t c y).
Proof.
  intros HT Hl. unfold tot_intf.
  destruct (onto_loop perintf.name tot_perintf intf_end n _ _ HT Hl) as (r & t & r' & -> & Ht & Hs & _ & HT' & Hi & _);
    [done|done|]. mstep. cbn [fst snd]. rewrite Ht. mstep. rewrite Hs. mstep. eexists. split; [done|].
  split; [done|]. split; [done|]. intros i ti c Hin Eti Ec. exists (tot_perintf ti c).
  split; [by apply Hi | apply tot_perintf_added].
Qed.

(** totalsyst adds every disk of the sample to the total at its place, takes
    over its name, ends the list after the last disk and counts the disks. *)
Theorem tot_disks_spec n tot new :
  terminated perdsk.name n new -> (n < length tot)%nat ->
  exists x, tot_disks tot new = Some (x, Z.of_nat n) /\ terminated perdsk.name n x /\
    (forall i t c, (i < n)%nat -> tot !! i = Some t -> new !! i = Some c -> x !! i = Some (tot_perdsk t c)).
Proof.
  intros HT Hl. unfold tot_disks.
  destruct (onto_loop perdsk.name tot_perdsk dsk_end n _ _ HT Hl) as (r & t & r' & -> & Ht & Hs & _ & HT' & Hi & _);
    [done|done|]. mstep. cbn [fst snd]. rewrite Ht. mstep. rewrite Hs. mstep. eexists. split; [done|]. done.
Qed.

(** totalsyst adds the total of all processors, and every single processor
    unless there is only one, which gets the total. *)
Theorem tot_cpu_spec tot new :
  (Z.to_nat new.(cpustat.nrcpu) <= length tot.(cpustat.cpu))%nat ->
  (Z.to_nat new.(cpustat.nrcpu) <= length new.(cpustat.cpu))%nat ->
  exists x, tot_cpu tot new = Some x /\
    x.(cpustat.all) = tot_cpuall tot.(cpustat.all) new.(cpustat.all) /\
    (new.(cpustat.nrcpu) = 1 -> x.(cpustat.cpu) !! 0%nat = Some x.(cpustat.all)) /\
    (new.(cpustat.nrcpu) ≠ 1 -> forall i t c, Z.of_nat i < new.(cpustat.nrcpu) ->
       tot.(cpustat.cpu) !! i = Some t -> new.(cpustat.cpu) !! i = Some c ->
       x.(cpustat.cpu) !! i = Some (tot_percpu t c)).
Proof.
  intros Ht Hn. unfold tot_cpu. destruct (Z.eqb_spec new.(cpustat.nrcpu) 1) as [E|E].
  - rewrite arr_set_Some by lia. mstep. eexists. split; [done|]. split; [done|]. split; [|done].
    intros _. cbn. apply list_lookup_insert_eq. lia.
  - destruct (slot_loop (onto tot_percpu new.(cpustat.cpu)) new.(cpustat.nrcpu) tot.(cpustat.cpu))
      as (l & -> & _ & Hlo & _); [done| |].
    + intros i a Hi Ha. unfold onto. destruct (lookup_lt_is_Some_2 new.(cpustat.cpu) i) as [c ->]; [lia|].
      cbn. eauto.
    + mstep. eexists. split; [done|]. split; [done|]. split; [done|]. intros _ i t c Hi Hti Hci. cbn.
      rewrite Hlo, Hti by done. cbn. unfold onto. by rewrite Hci.
Qed.

(** ** Concrete totals *)

Lemma net_telescope_witness : exists t,
  dev_net netstat_zero netstat_zero netstat_zero = Some t /\ tot_net t t = Some t.
Proof.
  destruct (dev_net netstat_zero netstat_zero netstat_zero) as [d|] eqn:E; [|by vm_compute in E].
  destruct (net_telescope netstat_zero netstat_zero netstat_zero d d netstat_zero netstat_zero E E) as (t & E1 & E2).
  exists d. split; [done|]. congruence.
Defined.

Definition one_intf (name : string) (rbyte : Z) : intfstat.intfstat :=
  intfstat.mk 1 [perintf.mk name rbyte 0 0 0 0 0 0 0 (replicate 4 0) 0 0 0 0 0 0 0 0 (replicate 4 0) 0 0 0 0
    (replicate 4 0); perintf_zero].

Lemma tot_intf_spec_witness : exists x y,
  tot_intf (one_intf "eth0" 7) (one_intf "eth0" 5) = Some x /\
  x.(intfstat.intf) !! 0%nat = Some y /\ y.(perintf.rbyte) = 12.
Proof.
  destruct (tot_intf_spec 1 (one_intf "eth0" 7) (one_intf "eth0" 5)) as (x & E & _ & _ & H).
  - split; [intros [|i] y Hi Hy; [by injection Hy as <- | lia] | by exists perintf_zero].
  - cbn. lia.
  - destruct (H 0%nat _ _ ltac:(lia) eq_refl eq_refl) as (y & Ey & _ & _ & Hadd & _).
    exists x, y. split; [exact E|]. split; [exact Ey|]. by specialize (Hadd eq_refl); inversion Hadd.
Defined.

Lemma tot_disks_spec_witness : exists x y,
  tot_disks [perdsk.mk "sda" 1 2 3 4 5 6 []; perdsk_zero] [perdsk.mk "sda" 10 0 0 0 0 0 []; perdsk_zero] = Some (x, 1) /\
  x !! 0%nat = Some y /\ y.(perdsk.nread) = 11.
Proof.
  destruct (tot_disks_spec 1 [perdsk.mk "sda" 1 2 3 4 5 6 []; perdsk_zero]
    [perdsk.mk "sda" 10 0 0 0 0 0 []; perdsk_zero]) as (x & E & _ & H).
  - split; [intros [|i] y Hi Hy; [by injection Hy as <- | lia] | by exists perdsk_zero].
  - cbn. lia.
  - eexists x, _. split; [exact E|]. split; [by apply (H 0%nat); [lia|..] | by vm_compute].
Defined.

Definition one_cpu (utime : Z) : cpustat.cpustat :=
  let c := percpu.mk 0 0 utime 0 0 0 0 0 0 0 freqcnt_zero 0 0 [] in
  cpustat.mk 1 0 0 0 0 0 0 [] c [c].

Lemma tot_cpu_spec_witness : exists x y,
  tot_cpu (one_cpu 30) (one_cpu 12) = Some x /\ x.(cpustat.cpu) !! 0%nat = Some y /\ y.(percpu.utime) = 42.
Proof.
  destruct (tot_cpu_spec (one_cpu 30) (one_cpu 12)) as (x & E & Ea & H & _); [cbn; lia..|].
  exists x, x.(cpustat.all). split; [exact E|]. split; [by apply H|]. rewrite Ea. by vm_compute.
Defined.
