(* ===== verification/SystTheorems.v ===== *)
(** * Concrete samples of the system

    Samples on which the theorems on deviatsyst and totalsyst are applied, and
    the theorem on containers. *)
From S2P Require Import Prelude Privs Sstat Counter Ifprop Deviatsyst Totalsyst SystFacts IfpropFacts.
From S2P Require Import SystIntf SystDsk SystMain SystTotals.

(** ** Containers that moved *)

(** A container whose entry in the previous sample is at another place keeps
    its identification, but its counters are compared with those of the other
    container at its own place. *)
Theorem containers_by_place cur pre dev i j c p q :
  0 <= pre.(contstat.nrcontainer) ->
  (Z.to_nat cur.(contstat.nrcontainer) <= length cur.(contstat.cont))%nat ->
  (Z.to_nat pre.(contstat.nrcontainer) + Z.to_nat cur.(contstat.nrcontainer) <= length pre.(contstat.cont))%nat ->
  (Z.to_nat cur.(contstat.nrcontainer) <= length dev.(contstat.cont))%nat ->
  Z.of_nat i < cur.(contstat.nrcontainer) -> cur.(contstat.cont) !! i = Some c ->
  pre.(contstat.cont) !! i = Some p -> pre.(contstat.cont) !! j = Some q ->
  q.(percontainer.ctid) = c.(percontainer.ctid) -> p.(percontainer.ctid) ≠ c.(percontainer.ctid) ->
  exists d x, dev_cfs cur pre dev = Some d /\ d.(contstat.cont) !! i = Some x /\
    x.(percontainer.ctid) = q.(percontainer.ctid) /\
    x.(percontainer.user) = subcount c.(percontainer.user) p.(percontainer.user).
Proof.
  intros H0 H1 H2 H3 Hi Hc Hp Hq Eq Ep. destruct (dev_cfs_spec cur pre dev H0 H1 H2 H3) as (d & E & _ & Hd).
  exists d, (dev_cont c p). split; [done|]. split; [by apply Hd|]. by rewrite Eq.
Qed.

(** ** Tables with a terminating entry *)

Section table.
Context {A : Type} (name : A -> string) (z : A) (Hz : name z = EmptyString).

(** An array of [max] entries that starts with [l]. *)
Definition array (max : nat) (l : list A) : list A := l ++ replicate (max - length l) z.

Lemma array_length max l : (length l <= max)%nat -> length (array max l) = max.
Proof. intros H. unfold array. rewrite length_app, length_replicate. lia. Qed.

Lemma array_terminated max l : (length l < max)%nat -> forallb (fun x => str_nonempty (name x)) l = true ->
  terminated name (length l) (array max l).
Proof.
  intros Hl HF. rewrite forallb_forall in HF. split.
  - intros i x Hi Hx. unfold array in Hx. rewrite lookup_app_l in Hx by done.
    apply HF, list_elem_of_In. by eapply list_elem_of_lookup_2.
  - exists z. unfold array. rewrite lookup_app_r, Nat.sub_diag by done. rewrite lookup_replicate_2 by lia.
    by rewrite Hz.
Qed.

Lemma array_nnamed max l : (length l < max)%nat -> forallb (fun x => str_nonempty (name x)) l = true ->
  nnamed name (array max l) = length l.
Proof. intros H1 H2. by apply nnamed_terminated, array_terminated. Qed.

Lemma array_ended max l : (length l < max)%nat -> forallb (fun x => str_nonempty (name x)) l = true ->
  ended name (array max l).
Proof. intros H1 H2. unfold ended. rewrite array_nnamed by done. by apply array_terminated. Qed.

Lemma array_unique max l : NoDup (name <$> l) -> unique_names name (length l) (array max l).
Proof.
  intros HN i j x y Hi Hj Hx Hy E. unfold array in *. rewrite lookup_app_l in Hx, Hy by done.
  eapply NoDup_lookup; [exact HN | rewrite list_lookup_fmap, Hx; done |].
  rewrite list_lookup_fmap, Hy. cbn. by rewrite E.
Qed.

Lemma array_rest max l i x : (length l <= i)%nat -> array max l !! i = Some x -> x = z.
Proof. intros Hi Hx. unfold array in Hx. rewrite lookup_app_r in Hx by done. by apply lookup_replicate in Hx as [-> _]. Qed.
End table.

(** ** Samples *)

Definition a_disk (name : string) (nread nwsect : Z) : perdsk.perdsk :=
  perdsk.mk name nread 0 0 nwsect 0 0 (replicate 4 0).
Definition disks (l : list perdsk.perdsk) : list perdsk.perdsk := array perdsk_zero MAXDSK l.

Definition an_intf (name : string) (rbyte : Z) : perintf.perintf :=
  perintf.mk name rbyte 0 0 0 0 0 0 0 (replicate 4 0) 0 0 0 0 0 0 0 0 (replicate 4 0) 0 0 0 0 (replicate 4 0).
Definition intfs (l : list perintf.perintf) : intfstat.intfstat :=
  intfstat.mk (Z.of_nat (length l)) (array perintf_zero MAXINTF l).

Definition a_container (ctid user : Z) : percontainer.percontainer := percontainer.mk ctid 1 0 user 0 0 0.
Definition conts (l : list percontainer.percontainer) : contstat.contstat :=
  contstat.mk (Z.of_nat (length l)) (array percontainer_zero MAXCONTAINER l).

Definition a_mount (mountdev : string) (age bytesread : Z) : pernfsmount.pernfsmount :=
  pernfsmount.mk mountdev age bytesread 0 0 0 0 0 0 0 (replicate 8 0).
Definition mounts (l : list pernfsmount.pernfsmount) : nfsmounts.nfsmounts :=
  nfsmounts.mk (Z.of_nat (length l)) (array pernfsmount_zero MAXNFSMOUNT l).

Definition a_sample (d m v : list perdsk.perdsk) (i : list perintf.perintf)
    (n : list pernfsmount.pernfsmount) (c : list percontainer.percontainer) : sstat.sstat :=
  sstat.mk cpustat_zero memstat_zero netstat_zero (intfs i)
    (dskstat.mk (Z.of_nat (length d)) (Z.of_nat (length m)) (Z.of_nat (length v)) (disks d)
       (array perdsk_zero MAXMDD m) (array perdsk_zero MAXLVM v))
    (nfsstat.mk nfsserver_zero nfsclient_zero (mounts n)) (conts c) wwwstat_zero.

(** Disks of which the first [k] were removed. *)
Lemma disks_removed_ok max k (c p dev : list perdsk.perdsk) :
  (length c < max)%nat -> (length p < max)%nat -> (length c < length dev)%nat ->
  forallb (fun x => str_nonempty x.(perdsk.name)) c = true ->
  forallb (fun x => str_nonempty x.(perdsk.name)) p = true ->
  NoDup (perdsk.name <$> p) -> perdsk.name <$> c = perdsk.name <$> drop k p ->
  disks_ok (array perdsk_zero max c) (array perdsk_zero max p) dev.
Proof.
  intros Hc Hp Hd Nc Np ND E. unfold disks_ok, uniquely.
  rewrite !array_nnamed by done. split; [by apply array_ended|]. split; [by apply array_ended|].
  split; [by apply array_unique|]. split; [|done]. exists (fun i => (k + i)%nat).
  assert (El : length c = (length p - k)%nat).
  { apply (f_equal length) in E. by rewrite !length_fmap, length_drop in E. }
  split; [intros; lia | intros; lia |]. intros i x y Hi Hx Hy. unfold array in *.
  rewrite lookup_app_l in Hx by done. rewrite lookup_app_l in Hy by lia.
  apply (f_equal (fun l => l !! i)) in E. rewrite !list_lookup_fmap, lookup_drop, Hx, Hy in E.
  cbn in E. by injection E as ->.
Qed.

Lemma intfs_ok_arrays (c p : list perintf.perintf) :
  (length c < MAXINTF)%nat -> (length p < MAXINTF)%nat -> (0 < length p)%nat ->
  forallb (fun x => str_nonempty x.(perintf.name)) c = true ->
  forallb (fun x => str_nonempty x.(perintf.name)) p = true -> NoDup (perintf.name <$> p) ->
  intfs_ok (intfs c) (intfs p) intfstat_zero.
Proof.
  intros Hc Hp H0 Nc Np ND. unfold intfs_ok, uniquely. cbn [intfs intfstat.intf intfstat_zero].
  rewrite !array_nnamed by done. rewrite length_replicate.
  split_and!; [by apply array_ended | by apply array_ended | by apply array_unique | done | done].
Qed.

Lemma mounts_ok_arrays (c p : list pernfsmount.pernfsmount) :
  (length c <= MAXNFSMOUNT)%nat -> (S (length p) < MAXNFSMOUNT)%nat ->
  forallb (fun x => str_nonempty x.(pernfsmount.mountdev)) c = true ->
  NoDup (pernfsmount.mountdev <$> c) -> NoDup (pernfsmount.mountdev <$> p) ->
  mounts_ok (mounts c) (mounts p) nfsmounts_zero.
Proof.
  intros Hc Hp Nc NDc NDp. unfold mounts_ok. cbn [mounts nfsmounts.nrmounts nfsmounts.nfsmnt nfsmounts_zero].
  rewrite !Nat2Z.id, !array_length, length_replicate by lia.
  split_and!; try lia; try (by apply array_unique); [|intros; by eapply array_rest].
  intros i x Hi Hx. unfold array in Hx. rewrite lookup_app_l in Hx by done. rewrite forallb_forall in Nc.
  apply Nc, list_elem_of_In. by eapply list_elem_of_lookup_2.
Qed.

Lemma conts_ok_arrays (c p : list percontainer.percontainer) :
  (length p + length c <= MAXCONTAINER)%nat -> conts_ok (conts c) (conts p) contstat_zero.
Proof.
  intros Hc. unfold conts_ok. cbn [conts contstat.nrcontainer contstat.cont contstat_zero].
  rewrite !Nat2Z.id, !array_length, length_replicate by lia. split_and!; lia.
Qed.

(** The disk [sda] was removed, and the counters went on. *)
Definition sample1 : sstat.sstat :=
  a_sample [a_disk "sda" 10 0; a_disk "sdb" 20 5] [] [] [an_intf "lo" 1; an_intf "eth0" 100]
    [a_mount "nas:/home" 10 1000] [a_container 1 50].
Definition sample2 : sstat.sstat :=
  a_sample [a_disk "sdb" 25 9] [] [] [an_intf "lo" 1; an_intf "eth0" 160]
    [a_mount "nas:/home" 20 1500] [a_container 1 80].

(** Side conditions on concrete samples. *)
#[local] Ltac side :=
  first [ done
        | match goal with |- NoDup ?l => by refine (bool_decide_eq_true_1 (NoDup l) _); vm_compute end
        | by vm_compute
        | vm_compute; lia ].

Lemma samples_ok : syst_ok sample2 sample1 sstat_zero.
Proof.
  split; unfold sample1, sample2, a_sample; cbn [sstat.cpu sstat.intf sstat.dsk sstat.nfs sstat.cfs
    dskstat.dsk dskstat.mdd dskstat.lvm nfsstat.nfsmounts].
  - vm_compute. lia.
  - apply intfs_ok_arrays; side.
  - apply (disks_removed_ok _ 1); side.
  - apply (disks_removed_ok _ 0); side.
  - apply (disks_removed_ok _ 0); side.
  - apply mounts_ok_arrays; side.
  - apply conts_ok_arrays. side.
Qed.

(** One Ethernet card. *)
Definition a_netcard : netcard :=
  {| ethtool := fun name => if str_same name "eth0" then Some (1000, 1) else None; iwrate := fun _ => None |}.
Definition proc_net_dev : list string :=
  ["Inter-|   Receive"; " face |bytes"; "    lo: 1 0 0"; "  eth0: 100 0 0"].

Lemma deviatsyst_spec_witness : exists t cur' pre' x,
  deviatsyst a_netcard (Some proc_net_dev) (0, 0) ifprop_zero ifprops_start sample2 sample1 sstat_zero 10
    = Some (Done t cur' pre' x) /\ syst_dev 10 t sample2 sample1 sstat_zero x.
Proof.
  destruct (deviatsyst_spec a_netcard (Some proc_net_dev) (0, 0) ifprop_zero ifprops_start sample2 sample1
    sstat_zero 10 ifprops_start_ok eq_refl samples_ok) as (t & c & p & x & E & _ & _ & H).
  exists t, c, p, x. split; [exact E | exact H].
Defined.

Lemma getifprop_after_init_witness : exists t,
  initifprop a_netcard (Some proc_net_dev) ifprops_start = Some t /\
  getifprop t (ifprop.mk 0 "eth0" 0 0) = Some (1, ifprop.mk 101 "eth0" 1000 1).
Proof.
  apply (getifprop_after_init a_netcard proc_net_dev ifprops_start 1 (ifprop.mk 0 "eth0" 0 0)).
  - by vm_compute.
  - intros e He. by apply elem_of_replicate in He as [-> _].
  - intros line Hl. unfold proc_net_dev in Hl. rewrite !elem_of_cons in Hl.
    destruct Hl as [->|[->|[->|[->|Hl%elem_of_nil]]]]; [..|done]; vm_compute; intros; try done; eauto.
  - refine (bool_decide_eq_true_1 (NoDup _) _). by vm_compute.
  - vm_compute. lia.
  - by vm_compute.
Defined.

(** The first sample of interfaces. *)
Lemma dev_intf_first_witness : exists cur' pre' dev',
  dev_intf ifprops_start ifprop_zero (intfs [an_intf "lo" 1; an_intf "eth0" 160]) intfstat_zero intfstat_zero
    = Some (cur', pre', dev') /\ dev'.(intfstat.nrintf) = 2.
Proof.
  destruct (dev_intf_first ifprops_start 0
    (array_terminated ifprop.name ifprop_zero eq_refl MAXINTF [] ltac:(vm_compute; lia) eq_refl)
    2 ifprop_zero (intfs [an_intf "lo" 1; an_intf "eth0" 160]) intfstat_zero intfstat_zero)
    as (c & p & d & E & Hn & _).
  - by apply (array_terminated perintf.name perintf_zero eq_refl MAXINTF [an_intf "lo" 1; an_intf "eth0" 160]);
      [vm_compute; lia|].
  - apply (array_unique perintf.name perintf_zero MAXINTF [an_intf "lo" 1; an_intf "eth0" 160]).
    refine (bool_decide_eq_true_1 (NoDup _) _). by vm_compute.
  - intros i q Hq. apply lookup_replicate in Hq as [-> _]. done.
  - vm_compute. lia.
  - vm_compute. lia.
  - exists c, p, d. split; [exact E | exact Hn].
Defined.

(** A disk in front of the known one: both are shown with their counters since
    boot. *)
Lemma dsk_loop_added_witness : exists dev',
  dsk_loop (disks [a_disk "nvme0" 3 0; a_disk "sda" 1000 0]) (disks [a_disk "sda" 998 0]) (disks [])
    = Some (dev', 2) /\
  dev' !! 1%nat = Some (dev_perdsk perdsk_zero (a_disk "sda" 1000 0) perdsk_zero).
Proof.
  destruct (dsk_loop_added 2 1 (disks [a_disk "nvme0" 3 0; a_disk "sda" 1000 0]) (disks [a_disk "sda" 998 0])
    (disks []) (a_disk "nvme0" 3 0)) as (dev' & E & H).
  - by apply (array_terminated perdsk.name perdsk_zero eq_refl MAXDSK [a_disk "nvme0" 3 0; a_disk "sda" 1000 0]);
      [vm_compute; lia|].
  - by apply (array_terminated perdsk.name perdsk_zero eq_refl MAXDSK [a_disk "sda" 998 0]); [vm_compute; lia|].
  - intros i p Hi Hp. by eapply (array_rest perdsk_zero MAXDSK [a_disk "sda" 998 0]).
  - done.
  - by vm_compute.
  - vm_compute. lia.
  - vm_compute. lia.
  - exists dev'. split; [exact E|]. apply H; [lia | done | by vm_compute].
Defined.

(** Sixty per cent of the table is used in the first sample. *)
Lemma dsk_loop_overrun_witness :
  dsk_loop (array perdsk_zero 10 (replicate 6 (a_disk "sda" 1 0))) (replicate 10 perdsk_zero) (replicate 10 perdsk_zero)
    = None.
Proof.
  apply (dsk_loop_overrun 6).
  - by apply (array_terminated perdsk.name perdsk_zero eq_refl 10 (replicate 6 (a_disk "sda" 1 0)));
      [vm_compute; lia|].
  - intros p Hp. by apply elem_of_replicate in Hp as [-> _].
  - vm_compute. lia.
Defined.

(** Two containers, of which the first one has gone. *)
Lemma containers_by_place_witness : exists d x,
  dev_cfs (conts [a_container 2 75]) (conts [a_container 1 50; a_container 2 70]) contstat_zero = Some d /\
  d.(contstat.cont) !! 0%nat = Some x /\ x.(percontainer.ctid) = 2 /\
  x.(percontainer.user) = 25.
Proof.
  apply (containers_by_place (conts [a_container 2 75]) (conts [a_container 1 50; a_container 2 70])
    contstat_zero 0 1 (a_container 2 75) (a_container 1 50) (a_container 2 70)); try done; vm_compute; lia.
Defined.
