(* ===== verification/Photoproc.v ===== *)
(** * Process counters from /proc: photoproc.c

    /proc is a list of directories whose files are texts; [None] is a file that
    cannot be opened. The readers fill an entry of the task list from what it
    holds, as the code does: what a file does not tell stays as it was. *)
From Stdlib Require Import Ascii.
From S2P Require Import Prelude Format Sscanf Tstat TstatStores Privs Netatopif.

Definition IOSTAT : Z := 0x4.
Definition DOCKSTAT : Z := 0x40.

(** Stores of a conversion to a member. *)
Definition gnum (f : Z -> tgen.tgen -> tgen.tgen) : value -> tstat.tstat -> tstat.tstat := num (fun z => upd_gen (f z)).
Definition cnum (f : Z -> tcpu.tcpu -> tcpu.tcpu) : value -> tstat.tstat -> tstat.tstat := num (fun z => upd_cpu (f z)).
Definition mnum (f : Z -> tmem.tmem -> tmem.tmem) : value -> tstat.tstat -> tstat.tstat := num (fun z => upd_mem (f z)).

(** ** The file stat *)

Definition SCANSTAT : string :=
  "%c   %d   %*d  %*d  %*d  %*d  " ++
  "%*d  %lld %*d  %lld %*d  %lld " ++
  "%lld %*d  %*d  %d   %d   %*d  " ++
  "%*d  %ld %lld %lld %*d  %*d  " ++
  "%*d  %*d  %*d  %*d  %*d  %*d  " ++
  "%*d  %*d  %*d  %*d  %*d  %*d  " ++
  "%d   %d   %d ".

Definition SCANSTORES : list (value -> tstat.tstat -> tstat.tstat) :=
  [gnum set_state; gnum set_ppid; mnum set_minflt; mnum set_majflt; cnum set_utime; cnum set_stime;
   cnum set_prio; cnum set_nice; gnum set_btime; mnum set_vmem; mnum set_rmem; cnum set_curcpu;
   cnum set_rtprio; cnum set_policy].

(** Newlines in a name become question marks. *)
Definition no_newline (c : ascii) : ascii := if Ascii.eqb c "010" then "?"%char else c.

(** The values after the conversions. *)
Definition normalize (bootepoch hertz pagesize : Z) (t : tstat.tstat) : option tstat.tstat :=
  if hertz =? 0 then None
  else
    let g := t.(tstat.gen) in let c := t.(tstat.cpu) in let m := t.(tstat.mem) in
    let t := upd_gen (set_btime (i64 (u64 (g.(tgen.btime) + bootepoch) / hertz))) t in
    let t := upd_cpu (set_prio (i32 (c.(tcpu.prio) + 100))) t in
    let t := upd_mem (set_vmem (Z.quot m.(tmem.vmem) 1024)) t in
    Some (upd_mem (set_rmem (i64 (m.(tmem.rmem) * (pagesize / 1024)))) t).

Definition count_state (t : tstat.tstat) : tstat.tstat :=
  let state := t.(tstat.gen).(tgen.state) in
  if state =? 82 (* 'R' *) then upd_gen (set_nthrrun 1) t
  else if state =? 83 (* 'S' *) then upd_gen (set_nthrslpi 1) t
  else if state =? 68 (* 'D' *) then upd_gen (set_nthrslpu 1) t
  else t.

(** open file 'stat' and obtain required info; the text behind the command name
    is taken where the string reaches that far *)
Definition procstat (stat : option text) (bootepoch hertz pagesize isproc : Z) (t : tstat.tstat) :
    option (Z * tstat.tstat) :=
  match stat with
  | None => Some (0, t)
  | Some file =>
      match take 4095 file with
      | [] => Some (0, t)
      | raw =>
          let line := cstr raw in
          match strchr "(" line, strrchr ")" line with
          | Some cmdhead, Some cmdtail =>
              if (cmdtail <? cmdhead)%nat then Some (0, t)
              else
                let nr := Nat.min (cmdtail - cmdhead - 1) PNAMLEN in
                let name := no_newline <$> take nr (drop (S cmdhead) line) in
                let t := upd_gen (fun g => set_excode 0 (set_isproc isproc (set_name (str_of name) g))) t in
                let t := upd_cpu (fun c => set_policy 0 (set_rtprio 0 c)) t in
                r ← scan_into line "%d" [gnum set_pid] t;
                if (length line <? cmdtail + 2)%nat then None
                else
                  r ← scan_into (drop (cmdtail + 2) line) SCANSTAT SCANSTORES r.2;
                  if (r.1 <? 12)%nat then Some (0, r.2)
                  else t ← normalize bootepoch hertz pagesize r.2; Some (1, count_state t)
          | _, _ => Some (0, t)
          end
      end
  end.

(** ** The file status *)

(** One line: whether the loop ends, and the entry. *)
Definition status_line (line : text) (t : tstat.tstat) : option (bool * tstat.tstat) :=
  let scan fmt fs := r ← scan_into line fmt fs t; Some (false, r.2) in
  if starts "Tgid:" line then scan "Tgid: %d" [gnum set_tgid]
  else if starts "Pid:" line then scan "Pid: %d" [gnum set_pid]
  else if starts "SleepAVG:" line then scan "SleepAVG: %d%%" [cnum set_sleepavg]
  else if starts "Uid:" line then
    scan "Uid: %d %d %d %d" [gnum set_ruid; gnum set_euid; gnum set_suid; gnum set_fsuid]
  else if starts "Gid:" line then
    scan "Gid: %d %d %d %d" [gnum set_rgid; gnum set_egid; gnum set_sgid; gnum set_fsgid]
  else if starts "envID:" line then scan "envID: %d" [gnum set_ctid]
  else if starts "VPid:" line then scan "VPid: %d" [gnum set_vpid]
  else if starts "Threads:" line then scan "Threads: %d" [gnum set_nthr]
  else if starts "VmData:" line then scan "VmData: %lld" [mnum set_vdata]
  else if starts "VmStk:" line then scan "VmStk: %lld" [mnum set_vstack]
  else if starts "VmExe:" line then scan "VmExe: %lld" [mnum set_vexec]
  else if starts "VmLib:" line then scan "VmLib: %lld" [mnum set_vlibs]
  else if starts "VmSwap:" line then scan "VmSwap: %lld" [mnum set_vswap]
  else Some (starts "SigQ:" line, t).

Fixpoint status_loop (ls : list text) (t : tstat.tstat) : option tstat.tstat :=
  match ls with
  | [] => Some t
  | line :: ls' =>
      r ← status_line line t;
      if r.1 : bool then Some r.2 else status_loop ls' r.2
  end.

(** open file 'status' and obtain required info *)
Definition procstatus (status : option text) (t : tstat.tstat) : option (Z * tstat.tstat) :=
  match status with
  | None => Some (0, t)
  | Some file =>
      let t := upd_gen (set_nthr 1) t in
      let t := upd_cpu (set_sleepavg 0) t in
      let t := upd_mem (fun m => set_rgrow 0 (set_vgrow 0 m)) t in
      t ← status_loop (lines 4096 file) t;
      Some (1, t)
  end.

(** ** The file io *)

Definition IO_READ : string := "read_bytes:".
Definition IO_WRITE : string := "write_bytes:".
Definition IO_CWRITE : string := "cancelled_write_bytes:".

(** The variables [dskrsz], [dskwsz] and [dskcwsz]. *)
Module iosize.
Record iosize := mk { dskrsz : Z; dskwsz : Z; dskcwsz : Z }.
End iosize.

(** The number of bytes on the line, in sectors. *)
Definition io_sectors (line : text) (v : Z) : option Z :=
  r ← scan_into line "%*s %llu" [num (fun z _ => i64 z)] v; Some (Z.quot r.2 512).

Definition io_line (line : text) (s : iosize.iosize) : option iosize.iosize :=
  if starts IO_READ line then
    v ← io_sectors line s.(iosize.dskrsz); Some (iosize.mk v s.(iosize.dskwsz) s.(iosize.dskcwsz))
  else if starts IO_WRITE line then
    v ← io_sectors line s.(iosize.dskwsz); Some (iosize.mk s.(iosize.dskrsz) v s.(iosize.dskcwsz))
  else if starts IO_CWRITE line then
    v ← io_sectors line s.(iosize.dskcwsz); Some (iosize.mk s.(iosize.dskrsz) s.(iosize.dskwsz) v)
  else Some s.

Fixpoint io_loop (ls : list text) (s : iosize.iosize) : option iosize.iosize :=
  match ls with
  | [] => Some s
  | line :: ls' => s ← io_line line s; io_loop ls' s
  end.

(** open file 'io' (>= 2.6.20) and obtain required info; the function returns 1
    or ends the program *)
Definition procio (io : option text) (supportflags : Z) (seteuid : Z * Z) (t : tstat.tstat) : run tstat.tstat :=
  if Z.land supportflags IOSTAT =? 0 then Some (Ret t)
  else
    t ← may_fault (match io with
                   | None => Some t
                   | Some file =>
                       s ← io_loop (lines 4096 file) (iosize.mk 0 0 0);
                       Some (set_dsk (tdsk.mk s.(iosize.dskrsz) s.(iosize.dskrsz) s.(iosize.dskwsz)
                               s.(iosize.dskwsz) s.(iosize.dskcwsz) t.(tstat.dsk).(tdsk.cfuture)) t)
                   end);
    if droprootprivs seteuid.1 seteuid.2 =? 0 then Some (Exit 42) else Some (Ret t).

(** ** The files cmdline, cpuset and smaps *)

Definition blank (c : ascii) : ascii :=
  if Ascii.eqb c zero || Ascii.eqb c "010" || Ascii.eqb c "009" then " "%char else c.

(** store the full command line: null-bytes, newlines and tabs become spaces,
    except in the last place *)
Definition proccmd (cmdline : option text) (t : tstat.tstat) : tstat.tstat :=
  let buf := match cmdline with
             | None => []
             | Some file =>
                 let b := take CMDLEN file in
                 (blank <$> take (length b - 1) b) ++ drop (length b - 1) b
             end in
  upd_gen (set_cmdline (str_of (cstr buf))) t.

Definition CIDPREFIX : string := "docker".
Definition CIDSIZE : nat := 12.

(** store the Docker container ID, retrieved from the cpuset; behind the
    string that was read, and behind the line, nothing is known *)
Definition proccont (cpuset : option text) (t : tstat.tstat) : option (Z * tstat.tstat) :=
  match cpuset with
  | None => Some (0, t)
  | Some file =>
      match lines 80 file with
      | [] => Some (0, t)
      | line :: _ =>
          if (length line <=? 1)%nat then Some (0, t)
          else
            match strstr (chars CIDPREFIX) line with
            | None => Some (0, t)
            | Some p =>
                let skip := S (String.length CIDPREFIX) in
                if (length p <? skip)%nat || (80 <? length line - length p + skip + CIDSIZE)%nat then None
                else Some (1, upd_gen (set_container (str_of (take CIDSIZE (drop skip p)))) t)
            end
      end
  end.

(** The sum over the lines; [pssval] has no value at first. *)
Fixpoint pss_loop (ls : list text) (pssval : option Z) (pmem : Z) : option Z :=
  match ls with
  | [] => Some pmem
  | line :: ls' =>
      if starts "Pss:" line then
        r ← scan_into line "Pss: %llu" [num (fun z _ => Some (i64 z))] pssval;
        v ← r.2;
        pss_loop ls' r.2 (i64 (pmem + v))
      else pss_loop ls' pssval pmem
  end.

(** open file 'smaps' and obtain required info; the flag tells of a read error *)
Definition procsmaps (smaps : option (text * bool)) (seteuid : Z * Z) (t : tstat.tstat) : run tstat.tstat :=
  pmem ← may_fault (match smaps with
                    | None => Some (-1)
                    | Some (file, ferror) =>
                        v ← pss_loop (lines 4096 file) None 0; Some (if ferror : bool then -1 else v)
                    end);
  if droprootprivs seteuid.1 seteuid.2 =? 0 then Some (Exit 42)
  else Some (Ret (upd_mem (set_pmem pmem) t)).

(** ** The directories of /proc *)

(** A thread; [enter]: the directory can be entered. *)
Module taskdir.
Record taskdir := mk {
  d_name : text;
  enter : bool;
  stat : option text;
  status : option text;
  io : option text
}.
End taskdir.

(** A process; [task] is [None] when that directory cannot be entered. *)
Module procdir.
Record procdir := mk {
  main : taskdir.taskdir;
  cmdline : option text;
  cpuset : option text;
  smaps : option (text * bool);
  task : option (list taskdir.taskdir)
}.
End procdir.

(** What does not change during a call. *)
Module penv.
Record penv := mk {
  hertz : Z;
  pagesize : Z;
  calcpss : bool;
  maxtask : Z;
  bootepoch : Z;
  net : netenv.netenv
}.
End penv.

(** The variables of the loops: the list of tasks, [tval], the flags with the
    connection to netatop, and [dockstat], a [char]. *)
Module pstate.
Record pstate := mk {
  tasklist : list tstat.tstat;
  tval : nat;
  net : netif.netif;
  dockstat : Z
}.
End pstate.

Definition i8 (z : Z) : Z := (z + 128) mod 256 - 128.

Definition put_task (i : nat) (t : tstat.tstat) (s : pstate.pstate) : option pstate.pstate :=
  l ← arr_set s.(pstate.tasklist) i t;
  Some (pstate.mk l s.(pstate.tval) s.(pstate.net) s.(pstate.dockstat)).
Definition set_netif (g : netif.netif) (s : pstate.pstate) : pstate.pstate :=
  pstate.mk s.(pstate.tasklist) s.(pstate.tval) g s.(pstate.dockstat).
Definition next_task (s : pstate.pstate) : pstate.pstate :=
  pstate.mk s.(pstate.tasklist) (S s.(pstate.tval)) s.(pstate.net) s.(pstate.dockstat).

(** [procstat], [procstatus] and [procio] in turn, as for processes and
    threads: whether all succeeded, and the entry. *)
Definition read_task (e : penv.penv) (isproc supportflags : Z) (d : taskdir.taskdir) (t : tstat.tstat) :
    run (bool * tstat.tstat) :=
  r ← may_fault (procstat d.(taskdir.stat) e.(penv.bootepoch) e.(penv.hertz) e.(penv.pagesize) isproc t);
  if r.1 =? 0 then Some (Ret (false, r.2))
  else
    r ← may_fault (procstatus d.(taskdir.status) r.2);
    if r.1 =? 0 then Some (Ret (false, r.2))
    else t ← procio d.(taskdir.io) supportflags e.(penv.net).(netenv.seteuid) r.2; Some (Ret (true, t)).

(** The number of running, sleeping and uninterruptible threads. *)
Definition count_thread (state : Z) (g : tgen.tgen) : tgen.tgen :=
  if state =? 82 then set_nthrrun (i32 (g.(tgen.nthrrun) + 1)) g
  else if state =? 83 then set_nthrslpi (i32 (g.(tgen.nthrslpi) + 1)) g
  else if state =? 68 then set_nthrslpu (i32 (g.(tgen.nthrslpu) + 1)) g
  else g.

(** One entry of the directory task; [cur] is the place of the process. *)
Definition thread_step (e : penv.penv) (cur : nat) (d : taskdir.taskdir) (s : pstate.pstate) : run pstate.pstate :=
  let dot := match d.(taskdir.d_name) with c :: _ => Ascii.eqb c "." | [] => false end in
  if dot || negb d.(taskdir.enter) then Some (Ret s)
  else
    t ← may_fault (s.(pstate.tasklist) !! s.(pstate.tval));
    r ← read_task e 0 s.(pstate.net).(netif.supportflags) d t;
    if negb r.1 then may_fault (put_task s.(pstate.tval) r.2 s)
    else
      p ← may_fault (s.(pstate.tasklist) !! cur);
      let thr := upd_gen (set_container p.(tstat.gen).(tgen.container)) r.2 in
      s ← may_fault (put_task cur (upd_gen (count_thread thr.(tstat.gen).(tgen.state)) p) s);
      let thr := upd_gen (set_nthr 1) thr in
      n ← Some (netatop_gettask e.(penv.net) thr.(tstat.gen).(tgen.pid) 116 (* 't' *) s.(pstate.net) thr);
      s ← may_fault (put_task s.(pstate.tval) n.2 (set_netif n.1 s));
      Some (Ret (next_task s)).

Fixpoint threads (e : penv.penv) (cur : nat) (ds : list taskdir.taskdir) (s : pstate.pstate) : run pstate.pstate :=
  match ds with
  | [] => Some (Ret s)
  | d :: ds' =>
      if Z.of_nat s.(pstate.tval) <? e.(penv.maxtask) then
        s ← thread_step e cur d s; threads e cur ds' s
      else Some (Ret s)
  end.

Definition numeric_name (l : text) : bool := match l with c :: _ => isdigit c | [] => false end.

(** One entry of /proc. *)
Definition process_step (e : penv.penv) (d : procdir.procdir) (s : pstate.pstate) : run pstate.pstate :=
  let m := d.(procdir.main) in
  if negb (numeric_name m.(taskdir.d_name)) || negb m.(taskdir.enter) then Some (Ret s)
  else
    let cur := s.(pstate.tval) in
    t ← may_fault (s.(pstate.tasklist) !! cur);
    r ← read_task e 1 s.(pstate.net).(netif.supportflags) m t;
    if negb r.1 then may_fault (put_task cur r.2 s)
    else
      let t := proccmd d.(procdir.cmdline) r.2 in
      c ← may_fault (proccont d.(procdir.cpuset) t);
      t ← (if e.(penv.calcpss) then procsmaps d.(procdir.smaps) e.(penv.net).(netenv.seteuid) c.2
           else Some (Ret c.2));
      n ← Some (netatop_gettask e.(penv.net) t.(tstat.gen).(tgen.tgid) 103 (* 'g' *) s.(pstate.net) t);
      let many := 1 <? n.2.(tstat.gen).(tgen.nthr) in
      let t := if many then upd_gen (fun g => set_nthrslpu 0 (set_nthrslpi 0 (set_nthrrun 0 g))) n.2 else n.2 in
      s ← may_fault (put_task cur t (set_netif n.1 s));
      let s := pstate.mk s.(pstate.tasklist) (S cur) s.(pstate.net) (i8 (s.(pstate.dockstat) + c.1)) in
      if many then match d.(procdir.task) with Some ds => threads e cur ds s | None => Some (Ret s) end
      else Some (Ret s).

Fixpoint processes (e : penv.penv) (ds : list procdir.procdir) (s : pstate.pstate) : run pstate.pstate :=
  match ds with
  | [] => Some (Ret s)
  | d :: ds' =>
      if Z.of_nat s.(pstate.tval) <? e.(penv.maxtask) then s ← process_step e d s; processes e ds' s
      else Some (Ret s)
  end.

(** ** photoproc *)

(** The moment of booting in jiffies since 1970: the time now less the start time
    of a child, whose file stat is [child]. *)
Definition getbootlinux (hertz sec nsec : Z) (child : option text) : option Z :=
  let bootjiffies := u64 (i64 (i64 (sec * hertz) + Z.quot (i64 (nsec * hertz)) 1000000000)) in
  match child with
  | None => Some bootjiffies
  | Some file =>
      vs ← sscanf file ("%*d (%*[^)]) %*c %*d %*d %*d %*d " ++
                        "%*d %*d %*d %*d %*d %*d %*d %*d " ++
                        "%*d %*d %*d %*d %*d %*d %lu");
      Some (match vs with [VInt startticks] => u64 (bootjiffies - startticks) | _ => bootjiffies end)
  end.

(** [boottime] is the static variable. *)
Definition getboot (boottime hertz sec nsec : Z) (child : option text) : option Z :=
  if boottime =? 0 then getbootlinux hertz sec nsec child else Some boottime.

(** What a call finds. *)
Module procfs.
Record procfs := mk {
  io1 : bool;              (* /proc/1/io can be opened *)
  now : Z * Z;
  child : option text;
  cwd : bool * bool * bool; (* getcwd, chdir to /proc and back *)
  dirs : list procdir.procdir
}.
End procfs.

(** The static variables [firstcall] and [bootepoch] (with [boottime]). *)
Module statics.
Record statics := mk { firstcall : bool; bootepoch : Z }.
End statics.

(** Number of tasks, the list, the connection with the flags, the statics. *)
Definition photoproc (e : penv.penv) (fs : procfs.procfs) (st : statics.statics) (g : netif.netif)
    (tasklist : list tstat.tstat) : run (nat * list tstat.tstat * netif.netif * statics.statics) :=
  let dropped := negb (droprootprivs e.(penv.net).(netenv.seteuid).1 e.(penv.net).(netenv.seteuid).2 =? 0) in
  let g := if st.(statics.firstcall) && fs.(procfs.io1)
           then set_supportflags (set_flags IOSTAT g.(netif.supportflags)) g else g in
  if negb dropped then Some (Exit 42)
  else
    boot ← may_fault (if st.(statics.firstcall)
                      then getboot st.(statics.bootepoch) e.(penv.hertz) fs.(procfs.now).1 fs.(procfs.now).2
                             fs.(procfs.child)
                      else Some st.(statics.bootepoch));
    let g := netatop_probe e.(penv.net) g in
    if negb (fs.(procfs.cwd).1.1 && fs.(procfs.cwd).1.2) then Some (Exit 53)
    else
      let e := penv.mk e.(penv.hertz) e.(penv.pagesize) e.(penv.calcpss) e.(penv.maxtask) boot e.(penv.net) in
      s ← processes e fs.(procfs.dirs) (pstate.mk tasklist 0 g 0);
      if negb fs.(procfs.cwd).2 then Some (Exit 53)
      else
        let flags := s.(pstate.net).(netif.supportflags) in
        let flags := if s.(pstate.dockstat) =? 0 then clear_flags DOCKSTAT flags else set_flags DOCKSTAT flags in
        Some (Ret (s.(pstate.tval), s.(pstate.tasklist), set_supportflags flags s.(pstate.net),
                   statics.mk false boot)).

(** count number of processes currently running *)
Definition countprocs (names : list text) : Z := u32 (zcount numeric_name names).
