(* ===== verification/PhotoprocFacts.v ===== *)
(** * What the readers of /proc read back: procstat, procstatus, procio

    The texts are those of proc(5): [stat_text] prints the file stat of a task,
    [status_text] the lines of status, [io_text] those of io. *)
From Stdlib Require Import Ascii.
From S2P Require Import Prelude Format Sscanf SscanfFacts Tstat TstatStores Photoproc.

(** ** The file stat *)

(** The fields of proc(5), in their order. *)
Module kstat.
Record kstat := mk {
  pid : Z; comm : text; state : ascii;
  ppid : Z; pgrp : Z; session : Z; tty_nr : Z; tpgid : Z; flags : Z;
  minflt : Z; cminflt : Z; majflt : Z; cmajflt : Z; utime : Z; stime : Z; cutime : Z; cstime : Z;
  priority : Z; nice : Z; num_threads : Z; itrealvalue : Z; starttime : Z; vsize : Z; rss : Z;
  rsslim : Z; startcode : Z; endcode : Z; startstack : Z; kstkesp : Z; kstkeip : Z;
  signal : Z; blocked : Z; sigignore : Z; sigcatch : Z; wchan : Z; nswap : Z; cnswap : Z;
  exit_signal : Z; processor : Z; rt_priority : Z; policy : Z;
  others : list Z
}.
End kstat.

Definition stat_numbers (k : kstat.kstat) : list Z :=
  [k.(kstat.ppid); k.(kstat.pgrp); k.(kstat.session); k.(kstat.tty_nr); k.(kstat.tpgid); k.(kstat.flags);
   k.(kstat.minflt); k.(kstat.cminflt); k.(kstat.majflt); k.(kstat.cmajflt); k.(kstat.utime); k.(kstat.stime);
   k.(kstat.cutime); k.(kstat.cstime); k.(kstat.priority); k.(kstat.nice); k.(kstat.num_threads);
   k.(kstat.itrealvalue); k.(kstat.starttime); k.(kstat.vsize); k.(kstat.rss); k.(kstat.rsslim);
   k.(kstat.startcode); k.(kstat.endcode); k.(kstat.startstack); k.(kstat.kstkesp); k.(kstat.kstkeip);
   k.(kstat.signal); k.(kstat.blocked); k.(kstat.sigignore); k.(kstat.sigcatch); k.(kstat.wchan);
   k.(kstat.nswap); k.(kstat.cnswap); k.(kstat.exit_signal); k.(kstat.processor); k.(kstat.rt_priority);
   k.(kstat.policy)].

(** What the kernel prints. *)
Definition stat_tail (k : kstat.kstat) : text :=
  k.(kstat.state) :: columns [" "%char] (stat_numbers k ++ k.(kstat.others)) ++ [newline].
Definition stat_text (k : kstat.kstat) : text :=
  fmt_d k.(kstat.pid) ++ " "%char :: "("%char :: k.(kstat.comm) ++ ")"%char :: " "%char :: stat_tail k.

(** The types of the fields that are stored; the name is a C string and the
    line fits into the buffer. *)
Record kstat_ok (k : kstat.kstat) : Prop := {
  ks_pid : 0 <= k.(kstat.pid) < 2 ^ 31;
  ks_comm : zero ∉ k.(kstat.comm);
  ks_state : k.(kstat.state) ≠ zero /\ k.(kstat.state) ≠ ")"%char;
  ks_int : Forall in_i32 [k.(kstat.ppid); k.(kstat.priority); k.(kstat.nice); k.(kstat.processor);
                          k.(kstat.rt_priority); k.(kstat.policy)];
  ks_long : Forall in_i64 [k.(kstat.minflt); k.(kstat.majflt); k.(kstat.utime); k.(kstat.stime);
                           k.(kstat.starttime); k.(kstat.vsize); k.(kstat.rss)];
  ks_length : (length (stat_text k) < 4096)%nat
}.

(** The entry after procstat: the fields, in the units of [struct tstat]. *)
Definition stat_entry (k : kstat.kstat) (bootepoch hertz pagesize isproc : Z) (t : tstat.tstat) : tstat.tstat :=
  let t := upd_gen (fun g => set_excode 0 (set_isproc isproc
             (set_name (str_of (no_newline <$> take PNAMLEN k.(kstat.comm))) g))) t in
  let t := upd_gen (fun g => set_btime (i64 (u64 (k.(kstat.starttime) + bootepoch) / hertz))
             (set_ppid k.(kstat.ppid) (set_state (Z.of_nat (nat_of_ascii k.(kstat.state))) (set_pid k.(kstat.pid) g)))) t in
  let t := upd_cpu (fun c => set_policy k.(kstat.policy) (set_rtprio k.(kstat.rt_priority)
             (set_curcpu k.(kstat.processor) (set_nice k.(kstat.nice) (set_prio (i32 (k.(kstat.priority) + 100))
             (set_stime k.(kstat.stime) (set_utime k.(kstat.utime) c))))))) t in
  let t := upd_mem (fun m => set_rmem (i64 (k.(kstat.rss) * (pagesize / 1024))) (set_vmem (Z.quot k.(kstat.vsize) 1024)
             (set_majflt k.(kstat.majflt) (set_minflt k.(kstat.minflt) m)))) t in
  count_state t.

(** Characters of numbers. *)
Definition num_char (c : ascii) : bool := isdigit c || Ascii.eqb c "-" || Ascii.eqb c " " || Ascii.eqb c newline.

Lemma fmt_d_num_chars z : Forall (fun c => num_char c = true) (fmt_d z).
Proof.
  assert (H : forall n, 0 <= n -> Forall (fun c => num_char c = true) (dec n)).
  { intros n Hn. eapply Forall_impl; [by apply dec_digits|]. intros c Hc. unfold num_char. by rewrite Hc. }
  unfold fmt_d. destruct (Z.ltb_spec z 0); [constructor; [done|]|]; apply H; lia.
Qed.

Lemma columns_num_chars zs : Forall (fun c => num_char c = true) (columns [" "%char] zs ++ [newline]).
Proof.
  induction zs as [|z zs IH]; cbn; [by constructor|]. constructor; [done|]. rewrite <-app_assoc.
  apply Forall_app. split; [apply fmt_d_num_chars | done].
Qed.

Lemma not_num_char c l : num_char c = false -> Forall (fun c => num_char c = true) l -> c ∉ l.
Proof. intros Hc HF H. eapply Forall_forall in HF; [|exact H]. cbn in HF. congruence. Qed.

Lemma int_fits_32 z : in_i32 z -> int_fits true 32 z = true.
Proof. unfold in_i32, int_fits. intros H. apply andb_true_iff. rewrite Z.leb_le, Z.ltb_lt. change (32 - 1) with 31. lia. Qed.
Lemma int_fits_64 z : in_i64 z -> int_fits true 64 z = true.
Proof. unfold in_i64, int_fits. intros H. apply andb_true_iff. rewrite Z.leb_le, Z.ltb_lt. change (64 - 1) with 63. lia. Qed.

(** A single number, as [%d] and the like read it. *)
Lemma scan_one z l bits : int_fits true bits z = true -> ends_token l ->
  scanf [Dconv false (CInt true bits)] (fmt_d z ++ l) = Some [VInt z].
Proof.
  intros Hz Hl. apply (scanf_reads [Dconv false (CInt true bits)] [VInt z]).
  - done.
  - cbn. by rewrite Hz.
  - apply (row_cons [] (VInt z) [] l); [constructor | done | constructor].
Qed.

Lemma stat_tail_scan k (S : Type) (fs : list (value -> S -> S)) s : kstat_ok k -> (length fs = 14)%nat ->
  scan_into (stat_tail k) SCANSTAT fs s = Some (14%nat, stores fs (VInt <$>
    [Z.of_nat (nat_of_ascii k.(kstat.state)); k.(kstat.ppid); k.(kstat.minflt); k.(kstat.majflt);
     k.(kstat.utime); k.(kstat.stime); k.(kstat.priority); k.(kstat.nice); k.(kstat.starttime);
     k.(kstat.vsize); k.(kstat.rss); k.(kstat.processor); k.(kstat.rt_priority); k.(kstat.policy)]) s).
Proof.
  intros [_ _ _ Hi Hl _] _. unfold scan_into, sscanf.
  match goal with |- context [parse_format SCANSTAT] => let v := eval vm_compute in (parse_format SCANSTAT) in
    change (parse_format SCANSTAT) with v end. mstep.
  unfold stat_tail. rewrite scanf_char.
  repeat (apply Forall_cons in Hi as [? Hi]). repeat (apply Forall_cons in Hl as [? Hl]). clear Hi Hl.
  erewrite scanf_reads with (vs := VInt <$> stat_numbers k).
  - done.
  - done.
  - cbn. by rewrite !int_fits_32, !int_fits_64 by done.
  - pose proof (columns_row [" "%char] (stat_numbers k ++ k.(kstat.others)) [newline] 38) as Hrow.
    rewrite fmap_app, take_app_length' in Hrow by done. apply Hrow; [by repeat constructor | done | done].
Qed.

Lemma fmt_d_pid k : kstat_ok k -> "("%char ∉ fmt_d k.(kstat.pid).
Proof. intros _. eapply not_num_char; [|apply fmt_d_num_chars]. done. Qed.

Lemma stat_tail_no_paren k : kstat_ok k -> ")"%char ∉ " "%char :: stat_tail k.
Proof.
  intros Hk. destruct (ks_state k Hk) as [_ Hs]. unfold stat_tail. rewrite !not_elem_of_cons. split; [done|].
  split; [congruence|]. eapply not_num_char; [|apply columns_num_chars]. done.
Qed.

Lemma stat_text_no_zero k : kstat_ok k -> zero ∉ stat_text k.
Proof.
  intros Hk. destruct (ks_state k Hk) as [Hs _]. unfold stat_text, stat_tail.
  rewrite not_elem_of_app, !not_elem_of_cons, not_elem_of_app, !not_elem_of_cons. split_and!; try done.
  - eapply not_num_char; [|apply fmt_d_num_chars]. done.
  - apply (ks_comm k Hk).
  - eapply not_num_char; [|apply columns_num_chars]. done.
Qed.

Lemma stat_stores k isproc bootepoch hertz pagesize t : hertz ≠ 0 -> 
  let t0 := upd_cpu (fun c => set_policy 0 (set_rtprio 0 c)) (upd_gen (fun g => set_excode 0 (set_isproc isproc
             (set_name (str_of (no_newline <$> take PNAMLEN k.(kstat.comm))) g))) t) in
  (t ← normalize bootepoch hertz pagesize (stores SCANSTORES (VInt <$>
    [Z.of_nat (nat_of_ascii k.(kstat.state)); k.(kstat.ppid); k.(kstat.minflt); k.(kstat.majflt);
     k.(kstat.utime); k.(kstat.stime); k.(kstat.priority); k.(kstat.nice); k.(kstat.starttime);
     k.(kstat.vsize); k.(kstat.rss); k.(kstat.processor); k.(kstat.rt_priority); k.(kstat.policy)])
     (upd_gen (set_pid k.(kstat.pid)) t0)); Some (1, count_state t)) =
  Some (1, stat_entry k bootepoch hertz pagesize isproc t).
Proof. intros Hh t0. unfold normalize. rewrite (proj2 (Z.eqb_neq hertz 0)) by done. by destruct t as [[] [] ? [] ?]. Qed.

(** procstat reads back what the kernel prints, whatever characters the name has. *)
Lemma procstat_reads k bootepoch hertz pagesize isproc t : kstat_ok k -> hertz ≠ 0 ->
  procstat (Some (stat_text k)) bootepoch hertz pagesize isproc t =
  Some (1, stat_entry k bootepoch hertz pagesize isproc t).
Proof.
  intros Hk Hh. unfold procstat. rewrite take_ge by (pose proof (ks_length k Hk); lia).
  destruct (stat_text k) as [|c r] eqn:E; [by unfold stat_text in E; destruct (fmt_d k.(kstat.pid))|].
  rewrite <-E. clear c r E. rewrite cstr_id by by apply stat_text_no_zero. cbn zeta.
  set (pid := fmt_d k.(kstat.pid)). set (line := stat_text k).
  assert (El : line = (pid ++ [" "%char]) ++ "("%char :: k.(kstat.comm) ++ ")"%char :: " "%char :: stat_tail k).
  { unfold line, stat_text. by rewrite <-app_assoc. }
  assert (El' : line = ((pid ++ [" "%char]) ++ "("%char :: k.(kstat.comm)) ++ ")"%char :: " "%char :: stat_tail k).
  { rewrite El. by rewrite <-!app_assoc. }
  assert (Eh : strchr "(" line = Some (length pid + 1)%nat).
  { rewrite El, strchr_app; [by rewrite length_app|]. rewrite not_elem_of_app. split; [by apply fmt_d_pid|].
    by rewrite list_elem_of_singleton. }
  assert (Et : strrchr ")" line = Some (length pid + 2 + length k.(kstat.comm))%nat).
  { rewrite El', strrchr_app by by apply stat_tail_no_paren. rewrite !length_app. cbn. f_equal. lia. }
  rewrite Eh, Et. rewrite (proj2 (Nat.ltb_ge _ _)) by lia.
  replace (length pid + 2 + length k.(kstat.comm) - (length pid + 1) - 1)%nat with (length k.(kstat.comm)) by lia.
  assert (Ename : take (Nat.min (length k.(kstat.comm)) PNAMLEN) (drop (S (length pid + 1)) line) =
    take PNAMLEN k.(kstat.comm)).
  { rewrite El, drop_app_ge by (rewrite length_app; cbn; lia). rewrite length_app. cbn [length].
    replace (S (length pid + 1) - (length pid + 1))%nat with 1%nat by lia. cbn [skipn].
    rewrite drop_0, take_app_le by lia. rewrite Nat.min_comm, <-take_take, (take_ge k.(kstat.comm)); [done | lia]. }
  rewrite Ename.
  assert (Ep : forall (fs : list (value -> tstat.tstat -> tstat.tstat)) s, scan_into line "%d" fs s =
    Some (1%nat, stores fs [VInt k.(kstat.pid)] s)).
  { intros fs s. unfold scan_into, sscanf. change (parse_format "%d") with (Some [Dconv false (CInt true 32)]). mstep.
    rewrite El, <-app_assoc. pose proof (ks_pid k Hk). unfold pid. rewrite scan_one; [done | | done].
    apply int_fits_32. unfold in_i32. lia. }
  rewrite Ep. mstep. cbn [snd stores gnum num].
  assert (Hlen : (length line = length pid + 4 + length k.(kstat.comm) + length (stat_tail k))%nat).
  { rewrite El. rewrite !length_app. cbn. rewrite length_app. cbn. lia. }
  rewrite (proj2 (Nat.ltb_ge _ _)) by lia.
  assert (Ed : drop (length pid + 2 + length k.(kstat.comm) + 2) line = stat_tail k).
  { rewrite El', drop_app_ge by (rewrite !length_app; cbn; lia). rewrite !length_app. cbn [length].
    match goal with |- drop ?n _ = _ => replace n with 2%nat by lia end. done. }
  rewrite Ed, stat_tail_scan by done. mstep. cbn [fst snd Nat.ltb Nat.leb].
  exact (stat_stores k isproc bootepoch hertz pagesize t Hh).
Qed.

(** ** The file status *)

(** A line of the file; what is not one of the fields that are read is other. *)
Inductive sfield :=
  | STgid (z : Z) | SPid (z : Z) | SSleepAVG (z : Z)
  | SUid (r e s f : Z) | SGid (r e s f : Z)
  | SEnvID (z : Z) | SVPid (z : Z) | SThreads (z : Z)
  | SVmData (z : Z) | SVmStk (z : Z) | SVmExe (z : Z) | SVmLib (z : Z) | SVmSwap (z : Z)
  | SOther (s : text).

Definition tab : text := ["009"%char].
Definition kilobytes (z : Z) : text := tab ++ pad 8 (fmt_d z) ++ chars " kB".

Definition sfield_text (f : sfield) : text :=
  match f with
  | STgid z => chars "Tgid:" ++ tab ++ fmt_d z
  | SPid z => chars "Pid:" ++ tab ++ fmt_d z
  | SSleepAVG z => chars "SleepAVG:" ++ tab ++ fmt_d z ++ ["%"%char]
  | SUid r e s f => chars "Uid:" ++ columns tab [r; e; s; f]
  | SGid r e s f => chars "Gid:" ++ columns tab [r; e; s; f]
  | SEnvID z => chars "envID:" ++ tab ++ fmt_d z
  | SVPid z => chars "VPid:" ++ tab ++ fmt_d z
  | SThreads z => chars "Threads:" ++ tab ++ fmt_d z
  | SVmData z => chars "VmData:" ++ kilobytes z
  | SVmStk z => chars "VmStk:" ++ kilobytes z
  | SVmExe z => chars "VmExe:" ++ kilobytes z
  | SVmLib z => chars "VmLib:" ++ kilobytes z
  | SVmSwap z => chars "VmSwap:" ++ kilobytes z
  | SOther s => s
  end.

(** The effect of a line. *)
Definition sfield_apply (t : tstat.tstat) (f : sfield) : tstat.tstat :=
  match f with
  | STgid z => upd_gen (set_tgid z) t
  | SPid z => upd_gen (set_pid z) t
  | SSleepAVG z => upd_cpu (set_sleepavg z) t
  | SUid r e s f => upd_gen (fun g => set_fsuid f (set_suid s (set_euid e (set_ruid r g)))) t
  | SGid r e s f => upd_gen (fun g => set_fsgid f (set_sgid s (set_egid e (set_rgid r g)))) t
  | SEnvID z => upd_gen (set_ctid z) t
  | SVPid z => upd_gen (set_vpid z) t
  | SThreads z => upd_gen (set_nthr z) t
  | SVmData z => upd_mem (set_vdata z) t
  | SVmStk z => upd_mem (set_vstack z) t
  | SVmExe z => upd_mem (set_vexec z) t
  | SVmLib z => upd_mem (set_vlibs z) t
  | SVmSwap z => upd_mem (set_vswap z) t
  | SOther _ => t
  end.

Definition status_keys : list string :=
  ["Tgid:"; "Pid:"; "SleepAVG:"; "Uid:"; "Gid:"; "envID:"; "VPid:"; "Threads:"; "VmData:"; "VmStk:"; "VmExe:";
   "VmLib:"; "VmSwap:"; "SigQ:"].

Definition sfield_ok (f : sfield) : Prop :=
  match f with
  | STgid z | SPid z | SSleepAVG z | SEnvID z | SVPid z | SThreads z => in_i32 z
  | SUid a b c d | SGid a b c d => Forall in_i32 [a; b; c; d]
  | SVmData z | SVmStk z | SVmExe z | SVmLib z | SVmSwap z => in_i64 z
  | SOther s => newline ∉ s /\ zero ∉ s /\ (length s < 4095)%nat /\
      Forall (fun k => starts k (s ++ [newline]) = false) status_keys
  end.

(** A label, then a number. *)
Lemma scan_labelled {S} label fmt bits rest sep z l (f : value -> S -> S) s :
  parse_format fmt = Some ((Dchar <$> chars label) ++ Dspace :: Dconv false (CInt true bits) :: rest) ->
  forallb (fun d => negb (is_conv d)) rest = true ->
  int_fits true bits z = true -> spaces sep -> stops_digits l ->
  (r ← scan_into (chars label ++ sep ++ fmt_d z ++ l) fmt [f] s; Some (false, r.2)) = Some (false, f (VInt z) s).
Proof.
  intros Hf Hr Hz Hsep Hl. unfold scan_into, sscanf. rewrite Hf. mstep. rewrite scanf_literal. cbn [scanf].
  rewrite skip_space_app, skip_space_solid by (done || apply fmt_d_solid).
  pose proof (convert_number false true bits z [] l) as E. cbn [app orb] in E.
  rewrite E by (done || constructor). by rewrite scanf_no_conv.
Qed.

(** A label, then four numbers. *)
Lemma scan_four label fmt z1 z2 z3 z4 l {S} (f1 f2 f3 f4 : value -> S -> S) s :
  parse_format fmt = Some ((Dchar <$> chars label) ++
    Dspace :: mjoin (replicate 3 [Dconv false (CInt true 32); Dspace]) ++ [Dconv false (CInt true 32)]) ->
  Forall in_i32 [z1; z2; z3; z4] -> ends_token l ->
  (r ← scan_into (chars label ++ columns tab [z1; z2; z3; z4] ++ l) fmt [f1; f2; f3; f4] s; Some (false, r.2)) =
  Some (false, f4 (VInt z4) (f3 (VInt z3) (f2 (VInt z2) (f1 (VInt z1) s)))).
Proof.
  intros Hf Hz Hl. repeat (apply Forall_cons in Hz as [? Hz]). clear Hz.
  unfold scan_into, sscanf. rewrite Hf. mstep. rewrite scanf_literal.
  erewrite scanf_reads with (vs := VInt <$> [z1; z2; z3; z4]).
  - done.
  - done.
  - cbn. by rewrite !int_fits_32.
  - pose proof (columns_row tab [z1; z2; z3; z4] l 4) as Hrow. apply Hrow; [by repeat constructor | done | done].
Qed.

Lemma tab_spaces : spaces tab.
Proof. by repeat constructor. Qed.
#[local] Hint Resolve tab_spaces int_fits_32 int_fits_64 : core.

Lemma pad_spaces w z : 0 <= w -> exists sep, spaces sep /\ pad w (fmt_d z) = sep ++ fmt_d z.
Proof.
  intros Hw. unfold pad, pad_left. rewrite (proj2 (Z.ltb_ge _ 0)) by lia. eexists. split; [|done].
  apply Forall_forall. intros c Hc. apply elem_of_replicate in Hc as [-> _]. done.
Qed.

Lemma scan_kilobytes {S} label fmt z l (f : value -> S -> S) s :
  parse_format fmt = Some ((Dchar <$> chars label) ++ [Dspace; Dconv false (CInt true 64)]) -> in_i64 z ->
  (r ← scan_into (chars label ++ kilobytes z ++ l) fmt [f] s; Some (false, r.2)) = Some (false, f (VInt z) s).
Proof.
  intros Hf Hz. unfold kilobytes. destruct (pad_spaces 8 z) as (sep & Hsep & ->); [done|].
  rewrite <-!app_assoc, (app_assoc tab). apply (scan_labelled label fmt 64 []); auto; [|done].
  apply Forall_app. split; [exact tab_spaces | exact Hsep].
Qed.

Ltac read_side := solve [done | auto | by apply int_fits_32 | by apply int_fits_64].

Lemma status_line_reads f t : sfield_ok f -> status_line (sfield_text f ++ [newline]) t = Some (false, sfield_apply t f).
Proof.
  intros Hf. destruct f as [z|z|z|a b c d|a b c d|z|z|z|z|z|z|z|z|s]; cbn [sfield_ok] in Hf.
  - unfold sfield_text. rewrite <-!app_assoc. apply (scan_labelled "Tgid:" "Tgid: %d" 32 []); read_side.
  - unfold sfield_text. rewrite <-!app_assoc. apply (scan_labelled "Pid:" "Pid: %d" 32 []); read_side.
  - unfold sfield_text. rewrite <-!app_assoc.
    apply (scan_labelled "SleepAVG:" "SleepAVG: %d%%" 32 [Dspace; Dchar "%"]); read_side.
  - unfold sfield_text. rewrite <-!app_assoc. apply (scan_four "Uid:" "Uid: %d %d %d %d"); read_side.
  - unfold sfield_text. rewrite <-!app_assoc. apply (scan_four "Gid:" "Gid: %d %d %d %d"); read_side.
  - unfold sfield_text. rewrite <-!app_assoc. apply (scan_labelled "envID:" "envID: %d" 32 []); read_side.
  - unfold sfield_text. rewrite <-!app_assoc. apply (scan_labelled "VPid:" "VPid: %d" 32 []); read_side.
  - unfold sfield_text. rewrite <-!app_assoc. apply (scan_labelled "Threads:" "Threads: %d" 32 []); read_side.
  - unfold sfield_text. rewrite <-!app_assoc. apply (scan_kilobytes "VmData:" "VmData: %lld"); read_side.
  - unfold sfield_text. rewrite <-!app_assoc. apply (scan_kilobytes "VmStk:" "VmStk: %lld"); read_side.
  - unfold sfield_text. rewrite <-!app_assoc. apply (scan_kilobytes "VmExe:" "VmExe: %lld"); read_side.
  - unfold sfield_text. rewrite <-!app_assoc. apply (scan_kilobytes "VmLib:" "VmLib: %lld"); read_side.
  - unfold sfield_text. rewrite <-!app_assoc. apply (scan_kilobytes "VmSwap:" "VmSwap: %lld"); read_side.
  - destruct Hf as (_ & _ & _ & HF). unfold status_line. cbn [sfield_text sfield_apply].
    repeat (apply Forall_cons in HF as [-> HF]). done.
Qed.

(** The texts of the fields have no newline, no terminator, and fit the buffer. *)
Definition plain_line (s : text) : Prop := newline ∉ s /\ zero ∉ s /\ (length s < 4095)%nat.

Definition plain_char (c : ascii) : bool := negb (Ascii.eqb c newline) && negb (Ascii.eqb c zero).

Lemma plain_line_chars s : forallb plain_char s = true -> (length s < 4095)%nat -> plain_line s.
Proof.
  intros H Hl. rewrite forallb_forall in H. split_and!; [..|done]; intros Hin; apply list_elem_of_In in Hin;
    specialize (H _ Hin); by cbn in H.
Qed.

Lemma forallb_num_chars s : Forall (fun c => num_char c = true) s -> newline ∉ s -> forallb plain_char s = true.
Proof.
  intros HF Hn. apply forallb_forall. intros c Hc. apply list_elem_of_In in Hc. unfold plain_char.
  rewrite (proj2 (Ascii.eqb_neq c newline)) by (intros ->; done). cbn.
  destruct (Ascii.eqb_spec c zero) as [->|]; [|done]. eapply Forall_forall in HF; [|exact Hc]. by cbn in HF.
Qed.

Lemma fmt_d_plain z : forallb plain_char (fmt_d z) = true.
Proof.
  apply forallb_num_chars; [apply fmt_d_num_chars|]. intros H. destruct (fmt_d_solid z) as [_ HF].
  eapply Forall_forall in HF; [|exact H]. by cbn in HF.
Qed.

(** A number of 64 bits has at most 20 characters. *)
Lemma fmt_d_short z : - 2 ^ 64 < z < 2 ^ 64 -> (length (fmt_d z) <= 21)%nat.
Proof.
  intros H. unfold fmt_d. destruct (Z.ltb_spec z 0); cbn [length].
  - pose proof (dec_length_le (- z) 20 ltac:(lia)). lia.
  - pose proof (dec_length_le z 20 ltac:(lia)). lia.
Qed.

Lemma pad8_plain z : forallb plain_char (pad 8 (fmt_d z)) = true.
Proof.
  unfold pad, pad_left. cbn [Z.ltb]. change (8 <? 0) with false. cbn match. rewrite forallb_app, fmt_d_plain, andb_true_r.
  apply forallb_forall. intros c Hc. apply list_elem_of_In, elem_of_replicate in Hc as [-> _]. done.
Qed.

Lemma sfield_plain f : sfield_ok f -> plain_line (sfield_text f).
Proof.
  assert (Hi : forall z, in_i32 z -> - 2 ^ 64 < z < 2 ^ 64) by (unfold in_i32; lia).
  assert (Hl : forall z, in_i64 z -> - 2 ^ 64 < z < 2 ^ 64) by (unfold in_i64; lia).
  intros Hf. destruct f as [z|z|z|a b c d|a b c d|z|z|z|z|z|z|z|z|s]; cbn [sfield_ok] in Hf;
    [..|destruct Hf as (? & ? & ? & _); by split_and!];
    try (repeat (apply Forall_cons in Hf as [? Hf]));
    (apply plain_line_chars; unfold sfield_text, kilobytes, columns; cbn [mbind list_bind];
      [rewrite ?forallb_app, ?fmt_d_plain, ?pad8_plain; done|]).
  all: rewrite !length_app, ?pad_length_max by done.
  all: repeat match goal with
    | H : in_i32 ?z |- _ => pose proof (fmt_d_short z (Hi z H)); clear H
    | H : in_i64 ?z |- _ => pose proof (fmt_d_short z (Hl z H)); clear H
    end; cbn [length chars String.list_ascii_of_string tab]; lia.
Qed.

(** The loop over the lines. *)
Lemma status_loop_reads fields l t : Forall sfield_ok fields ->
  status_loop (((fun s => s ++ [newline]) <$> (sfield_text <$> fields)) ++ l) t =
  status_loop l (foldl sfield_apply t fields).
Proof.
  intros HF. revert t. induction HF as [|f fields Hf _ IH]; intros t; [done|].
  cbn [fmap list_fmap app status_loop foldl]. rewrite status_line_reads by done. mstep. apply IH.
Qed.

(** The file: the fields, then nothing that is read. *)
Definition status_text (fields : list sfield) (rest : text) : text :=
  ((sfield_text <$> fields) ≫= fun s => s ++ [newline]) ++ rest.
Definition status_end (rest : text) : Prop := rest = [] \/ exists s r, rest = chars "SigQ:" ++ s ++ newline :: r /\
  newline ∉ s /\ zero ∉ s /\ (length s < 4000)%nat.

(** The entry that procstatus starts from. *)
Definition status_start (t : tstat.tstat) : tstat.tstat :=
  upd_mem (fun m => set_rgrow 0 (set_vgrow 0 m)) (upd_cpu (set_sleepavg 0) (upd_gen (set_nthr 1) t)).

Lemma procstatus_reads fields rest t : Forall sfield_ok fields -> status_end rest ->
  procstatus (Some (status_text fields rest)) t = Some (1, foldl sfield_apply (status_start t) fields).
Proof.
  intros HF Hend. unfold procstatus, status_text. rewrite lines_app; [|lia|].
  2:{ apply Forall_fmap. eapply Forall_impl; [exact HF|]. intros f Hf. cbn.
      destruct (sfield_plain f Hf) as (? & ? & ?). split_and!; [done..|lia]. }
  rewrite status_loop_reads by done. fold (status_start t).
  destruct Hend as [->|(s & r & -> & Hn & Hz & Hl)]; [done|].
  set (sig := chars "SigQ:" ++ s).
  assert (E : lines 4096 (chars "SigQ:" ++ s ++ newline :: r) = (sig ++ [newline]) :: lines 4096 r).
  { pose proof (lines_app 4096 [sig] r) as E. cbn [mbind list_bind fmap list_fmap] in E.
    rewrite app_nil_r in E. unfold sig in *. rewrite <-!app_assoc in E. rewrite <-app_assoc. apply E; [lia|].
    constructor; [|done]. rewrite !elem_of_app, length_app. change (length (chars "SigQ:")) with 5%nat.
    split_and!; [..|lia]; (intros [H|H]; [revert H; by apply (bool_decide_unpack _) | done]). }
  rewrite E. cbn [status_loop]. unfold sig. rewrite <-app_assoc. done.
Qed.

(** ** The file io *)

Inductive iofield :=
  | IORead (z : Z) | IOWrite (z : Z) | IOCwrite (z : Z)
  | IOOther (s : text).

Definition iofield_text (f : iofield) : text :=
  match f with
  | IORead z => chars IO_READ ++ " "%char :: fmt_d z
  | IOWrite z => chars IO_WRITE ++ " "%char :: fmt_d z
  | IOCwrite z => chars IO_CWRITE ++ " "%char :: fmt_d z
  | IOOther s => s
  end.

Definition iofield_ok (f : iofield) : Prop :=
  match f with
  | IORead z | IOWrite z | IOCwrite z => 0 <= z < 2 ^ 63
  | IOOther s => plain_line s /\ Forall (fun k => starts k (s ++ [newline]) = false) [IO_READ; IO_WRITE; IO_CWRITE]
  end.

(** Numbers of bytes become numbers of sectors. *)
Definition iofield_apply (s : iosize.iosize) (f : iofield) : iosize.iosize :=
  match f with
  | IORead z => iosize.mk (z / 512) s.(iosize.dskwsz) s.(iosize.dskcwsz)
  | IOWrite z => iosize.mk s.(iosize.dskrsz) (z / 512) s.(iosize.dskcwsz)
  | IOCwrite z => iosize.mk s.(iosize.dskrsz) s.(iosize.dskwsz) (z / 512)
  | IOOther _ => s
  end.

Lemma io_sectors_reads key z v : solid (chars key) -> 0 <= z < 2 ^ 63 ->
  io_sectors ((chars key ++ " "%char :: fmt_d z) ++ [newline]) v = Some (z / 512).
Proof.
  intros Hk Hz. unfold io_sectors, scan_into, sscanf.
  change (parse_format "%*s %llu") with (Some [Dconv true (CStr None); Dspace; Dconv false (CInt false 64)]). mstep.
  assert (Hf : int_fits false 64 z = true) by (unfold int_fits; apply andb_true_iff; rewrite Z.leb_le, Z.ltb_lt; lia).
  erewrite scanf_reads with (vs := [VStr (chars key); VInt z]).
  - cbn. rewrite i64_id by (unfold in_i64; lia). rewrite Z.quot_div_nonneg by lia. done.
  - done.
  - cbn. rewrite Hf, andb_true_r. destruct Hk as [Hne HF]. rewrite bool_decide_eq_true_2 by done. cbn.
    rewrite andb_true_r. apply forallb_forall. intros c Hc. apply negb_true_iff.
    eapply Forall_forall in HF; [exact HF | by apply list_elem_of_In].
  - rewrite <-app_assoc. cbn [app]. apply (row_cons [] (VStr (chars key))); [constructor | done|].
    apply (row_cons [" "%char] (VInt z) [] [newline]); [by repeat constructor | done | constructor].
Qed.

Lemma io_line_reads f s : iofield_ok f -> io_line (iofield_text f ++ [newline]) s = Some (iofield_apply s f).
Proof.
  assert (Hs : forall k, k ∈ [IO_READ; IO_WRITE; IO_CWRITE] -> solid (chars k)).
  { intros k Hk. repeat (apply elem_of_cons in Hk as [->|Hk]; [by split; [|repeat constructor]|]). by apply not_elem_of_nil in Hk. }
  intros Hf. destruct f as [z|z|z|l]; cbn [iofield_ok] in Hf; unfold io_line.
  - change (starts IO_READ (iofield_text (IORead z) ++ [newline])) with true. cbn match.
    unfold iofield_text. rewrite io_sectors_reads; [done | apply Hs; set_solver | done].
  - change (starts IO_READ (iofield_text (IOWrite z) ++ [newline])) with false.
    change (starts IO_WRITE (iofield_text (IOWrite z) ++ [newline])) with true. cbn match.
    unfold iofield_text. rewrite io_sectors_reads; [done | apply Hs; set_solver | done].
  - change (starts IO_READ (iofield_text (IOCwrite z) ++ [newline])) with false.
    change (starts IO_WRITE (iofield_text (IOCwrite z) ++ [newline])) with false.
    change (starts IO_CWRITE (iofield_text (IOCwrite z) ++ [newline])) with true. cbn match.
    unfold iofield_text. rewrite io_sectors_reads; [done | apply Hs; set_solver | done].
  - destruct Hf as [_ HF]. cbn [iofield_text]. repeat (apply Forall_cons in HF as [-> HF]). done.
Qed.

Definition io_text (fields : list iofield) : text := (iofield_text <$> fields) ≫= fun s => s ++ [newline].

Lemma iofield_plain f : iofield_ok f -> plain_line (iofield_text f).
Proof.
  intros Hf. destruct f as [z|z|z|s]; cbn [iofield_ok] in Hf; [..|apply Hf];
    (apply plain_line_chars; unfold iofield_text;
      [cbn [chars String.list_ascii_of_string IO_READ IO_WRITE IO_CWRITE app forallb]; by rewrite fmt_d_plain|];
     pose proof (fmt_d_short z ltac:(lia)); rewrite length_app; cbn [length chars String.list_ascii_of_string IO_READ IO_WRITE IO_CWRITE]; lia).
Qed.

Lemma io_loop_reads fields s : Forall iofield_ok fields ->
  io_loop ((fun s => s ++ [newline]) <$> (iofield_text <$> fields)) s = Some (foldl iofield_apply s fields).
Proof.
  intros HF. revert s. induction HF as [|f fields Hf _ IH]; intros s; [done|].
  cbn [fmap list_fmap io_loop foldl]. rewrite io_line_reads by done. mstep. apply IH.
Qed.

(** The disk counters after procio. *)
Definition io_entry (fields : list iofield) (t : tstat.tstat) : tstat.tstat :=
  let s := foldl iofield_apply (iosize.mk 0 0 0) fields in
  set_dsk (tdsk.mk s.(iosize.dskrsz) s.(iosize.dskrsz) s.(iosize.dskwsz) s.(iosize.dskwsz) s.(iosize.dskcwsz)
    t.(tstat.dsk).(tdsk.cfuture)) t.

Lemma procio_reads fields flags seteuid t : Forall iofield_ok fields -> Z.land flags IOSTAT ≠ 0 ->
  Privs.droprootprivs seteuid.1 seteuid.2 ≠ 0 ->
  procio (Some (io_text fields)) flags seteuid t = Some (Ret (io_entry fields t)).
Proof.
  intros HF Hfl Hp. unfold procio. rewrite (proj2 (Z.eqb_neq _ 0)) by done.
  unfold io_text. rewrite lines_concat; [|lia|].
  2:{ apply Forall_fmap. eapply Forall_impl; [exact HF|]. intros f Hf. cbn.
      destruct (iofield_plain f Hf) as (? & ? & ?). split_and!; [done..|lia]. }
  rewrite io_loop_reads by done. unfold may_fault. cbn [mbind option_bind run_bind].
  by rewrite (proj2 (Z.eqb_neq _ 0)).
Qed.
