(* ===== verification/PhotoMain.v ===== *)
(** * A sample of all tasks: photoproc

    For a /proc whose files are those of proc(5), photoproc returns one entry
    for each process and each thread of a process with several ones. *)
From Stdlib Require Import Ascii.
From S2P Require Import Prelude Format Sscanf SscanfFacts Tstat TstatStores Privs Netatopif Photoproc PhotoprocFacts.

(** ** Tasks and processes as the kernel has them *)

Module ktask.
Record ktask := mk {
  stat : kstat.kstat;
  status : list sfield;
  rest : text;
  io : list iofield
}.
End ktask.

Record ktask_ok (k : ktask.ktask) : Prop := {
  kt_stat : kstat_ok k.(ktask.stat);
  kt_status : Forall sfield_ok k.(ktask.status);
  kt_rest : status_end k.(ktask.rest);
  kt_io : Forall iofield_ok k.(ktask.io)
}.

Definition task_dir (k : ktask.ktask) : taskdir.taskdir :=
  taskdir.mk (fmt_d k.(ktask.stat).(kstat.pid)) true (Some (stat_text k.(ktask.stat)))
    (Some (status_text k.(ktask.status) k.(ktask.rest))) (Some (io_text k.(ktask.io))).

(** The cpuset of a process: the root, or a container below one of two places. *)
Inductive cpuset :=
  | CRoot
  | CDocker (place : text) (sep : ascii) (id rest : text).

Definition cpuset_text (c : cpuset) : text :=
  match c with
  | CRoot => chars "/" ++ [newline]
  | CDocker place sep id rest => place ++ chars CIDPREFIX ++ sep :: id ++ rest ++ [newline]
  end.

Definition cpuset_ok (c : cpuset) : Prop :=
  match c with
  | CRoot => True
  | CDocker place sep id rest =>
      (place = chars "/" \/ place = chars "/system.slice/") /\ length id = CIDSIZE /\
      newline ∉ sep :: id ++ rest /\ zero ∉ sep :: id ++ rest
  end.

Definition cpuset_entry (c : cpuset) (t : tstat.tstat) : tstat.tstat :=
  match c with
  | CRoot => t
  | CDocker _ _ id _ => upd_gen (set_container (str_of id)) t
  end.

Lemma fgets_one l : newline ∉ l -> forall n, (fgets n (l ++ [newline])).1 = take n (l ++ [newline]).
Proof.
  induction l as [|c l IH]; intros Hn [|n]; [done | by destruct n | done |].
  apply not_elem_of_cons in Hn as [Hc Hn]. cbn. rewrite (proj2 (Ascii.eqb_neq _ _)) by (intros E; apply Hc; by rewrite E). cbn. by rewrite IH.
Qed.

(** The first line of a file that consists of one, whatever its length. *)
Lemma lines_one size l : newline ∉ l -> zero ∉ l -> exists ls,
  lines size (l ++ [newline]) = take (size - 1) (l ++ [newline]) :: ls.
Proof.
  intros Hn Hz. unfold lines. destruct (l ++ [newline]) as [|c l'] eqn:E; [by destruct l|].
  cbn [length lines_fuel fmap list_fmap]. rewrite <-E, fgets_one by done. eexists. f_equal.
  apply cstr_id. intros H. apply subseteq_take, elem_of_app in H as [H|H]; [done|].
  by apply list_elem_of_singleton in H.
Qed.

(** The identity is within the first 79 characters of the line. *)
Lemma proccont_reads c t : cpuset_ok c ->
  proccont (Some (cpuset_text c)) t = Some (match c with CRoot => 0 | _ => 1 end, cpuset_entry c t).
Proof.
  destruct c as [|place sep id rest]; [done|]. intros (Hp & Hid & Hn & Hz). unfold proccont, cpuset_text.
  set (l := place ++ chars CIDPREFIX ++ sep :: id ++ rest).
  assert (El : place ++ chars CIDPREFIX ++ sep :: id ++ rest ++ [newline] = l ++ [newline]).
  { unfold l. rewrite <-!app_assoc. cbn [app]. by rewrite <-!app_assoc. }
  assert (Hout : forall c, c ∉ sep :: id ++ rest -> c ∉ chars "/system.slice/docker" -> c ∉ l).
  { intros c H1 H2. unfold l. rewrite !elem_of_app. intros [H|[H|H]]; [|apply H2; cbn in *; set_solver|done].
    destruct Hp as [-> | ->]; apply H2; cbn in *; set_solver. }
  destruct (lines_one 80 l) as [ls E]; [apply Hout; [done|]; by apply (bool_decide_unpack _).. |].
  rewrite El, E, <-El. clear E El Hout l.
  assert (Ht : exists k, (CIDSIZE <= k <= 79)%nat /\
    take 79 (place ++ chars CIDPREFIX ++ sep :: id ++ rest ++ [newline]) =
    place ++ chars CIDPREFIX ++ sep :: take k (id ++ rest ++ [newline]) /\ (length place + 7 + k = 79)%nat).
  { destruct Hp as [-> | ->]; [exists 71%nat | exists 58%nat]; (split; [unfold CIDSIZE; lia | by split]). }
  destruct Ht as (k & Hk & Et & Hsum). change (80 - 1)%nat with 79%nat. rewrite Et. clear Et. rewrite take_app_ge by lia. set (y := take (k - length id) _).
  assert (Hy : (length y <= k - CIDSIZE)%nat) by (unfold y; rewrite length_take, Hid; lia).
  rewrite (proj2 (Nat.leb_gt _ _)) by (destruct Hp as [-> | ->]; cbn; lia).
  assert (Es : strstr (chars CIDPREFIX) (place ++ chars CIDPREFIX ++ sep :: id ++ y) = Some (chars CIDPREFIX ++ sep :: id ++ y)).
  { destruct Hp as [-> | ->]; done. }
  rewrite Es. change (String.length CIDPREFIX) with 6%nat. rewrite !length_app. cbn [length].
  rewrite !length_app, Hid. change (length (chars CIDPREFIX)) with 6%nat.
  rewrite (proj2 (Nat.ltb_ge _ _)) by (unfold CIDSIZE; lia).
  rewrite (proj2 (Nat.ltb_ge 80 _)) by (unfold CIDSIZE in *; lia). cbn [orb].
  change (drop 7 (chars CIDPREFIX ++ sep :: id ++ y)) with (id ++ y). by rewrite take_app_length' by done.
Qed.

Module kproc.
Record kproc := mk {
  task : ktask.ktask;
  cmdline : text;
  cpuset : cpuset;
  threads : list ktask.ktask
}.
End kproc.

Record kproc_ok (p : kproc.kproc) : Prop := {
  kp_task : ktask_ok p.(kproc.task);
  kp_cpuset : cpuset_ok p.(kproc.cpuset);
  kp_threads : Forall ktask_ok p.(kproc.threads)
}.

(** A thread's directory starts with the entries . and .. *)
Definition dots : list taskdir.taskdir :=
  [taskdir.mk (chars ".") true None None None; taskdir.mk (chars "..") true None None None].
Definition proc_dir (p : kproc.kproc) : procdir.procdir :=
  procdir.mk (task_dir p.(kproc.task)) (Some p.(kproc.cmdline)) (Some (cpuset_text p.(kproc.cpuset))) None
    (Some (dots ++ (task_dir <$> p.(kproc.threads)))).

(** Entries of /proc that are no process, or a process that has gone. *)
Definition no_process (d : procdir.procdir) : Prop :=
  numeric_name d.(procdir.main).(taskdir.d_name) = false \/ d.(procdir.main).(taskdir.enter) = false.

(** /proc: processes between other entries. *)
Definition proc_dirs (l : list (procdir.procdir + kproc.kproc)) : list procdir.procdir :=
  (fun x => match x with inl d => d | inr p => proc_dir p end) <$> l.
Definition procs_of (l : list (procdir.procdir + kproc.kproc)) : list kproc.kproc :=
  l ≫= fun x => match x with inl _ => [] | inr p => [p] end.
Definition dirs_ok (l : list (procdir.procdir + kproc.kproc)) : Prop :=
  Forall (fun x => match x with inl d => no_process d | inr p => kproc_ok p end) l.

(** ** The entries *)

Section sample.
Context (e : penv.penv) (g : netif.netif).
Context (Hhertz : e.(penv.hertz) ≠ 0) (Hpss : e.(penv.calcpss) = false).
Context (Hio : Z.land g.(netif.supportflags) IOSTAT ≠ 0) (Hnet : Z.land g.(netif.supportflags) NETATOP = 0).
Context (Hpriv : droprootprivs e.(penv.net).(netenv.seteuid).1 e.(penv.net).(netenv.seteuid).2 ≠ 0).

(** stat, status and io of a task, over what the entry held, and in a fresh entry. *)
Definition task_into (isproc : Z) (k : ktask.ktask) (t : tstat.tstat) : tstat.tstat :=
  io_entry k.(ktask.io) (foldl sfield_apply (status_start
    (stat_entry k.(ktask.stat) e.(penv.bootepoch) e.(penv.hertz) e.(penv.pagesize) isproc t)) k.(ktask.status)).
Definition task_entry (isproc : Z) (k : ktask.ktask) : tstat.tstat := task_into isproc k tstat_zero.

(** A thread belongs to the container of its process and counts as one. *)
Definition thread_entry (container : string) (k : ktask.ktask) : tstat.tstat :=
  set_net tnet_zero (upd_gen (set_nthr 1) (upd_gen (set_container container) (task_entry 0 k))).

(** A process with its command line and container; with several threads, the
    numbers of its running, sleeping and waiting ones. *)
Definition process_alone (p : kproc.kproc) : tstat.tstat :=
  set_net tnet_zero (cpuset_entry p.(kproc.cpuset) (proccmd (Some p.(kproc.cmdline)) (task_entry 1 p.(kproc.task)))).
Definition multithreaded (p : kproc.kproc) : bool := 1 <? (process_alone p).(tstat.gen).(tgen.nthr).
Definition add_thread (t : tstat.tstat) (k : ktask.ktask) : tstat.tstat :=
  upd_gen (count_thread (task_entry 0 k).(tstat.gen).(tgen.state)) t.
Definition process_entry (p : kproc.kproc) : tstat.tstat :=
  if multithreaded p then
    foldl add_thread (upd_gen (fun g => set_nthrslpu 0 (set_nthrslpi 0 (set_nthrrun 0 g))) (process_alone p))
      p.(kproc.threads)
  else process_alone p.

(** The tasks of a process: itself, and its threads when it has several. *)
Definition process_tasks (p : kproc.kproc) : list tstat.tstat :=
  process_entry p ::
  (if multithreaded p then thread_entry (process_alone p).(tstat.gen).(tgen.container) <$> p.(kproc.threads) else []).

Lemma read_task_into isproc k t : ktask_ok k ->
  read_task e isproc g.(netif.supportflags) (task_dir k) t = Some (Ret (true, task_into isproc k t)).
Proof.
  intros [Hs Hf Hr Hi]. unfold read_task, task_dir. cbn [taskdir.stat taskdir.status taskdir.io].
  rewrite procstat_reads by done. rewrite run_fault. cbn [fst snd Z.eqb].
  rewrite procstatus_reads by done. rewrite run_fault. cbn [fst snd Z.eqb].
  by rewrite procio_reads.
Qed.

Lemma read_task_reads isproc k : ktask_ok k ->
  read_task e isproc g.(netif.supportflags) (task_dir k) tstat_zero = Some (Ret (true, task_entry isproc k)).
Proof. apply read_task_into. Qed.

Lemma gettask_off id type t : netatop_gettask e.(penv.net) id type g t = Ret (g, set_net tnet_zero t).
Proof. unfold netatop_gettask. by rewrite Hnet. Qed.

(** The list: entries that are filled, then fresh ones. *)
Lemma put_fresh l t m dock : put_task (length l) t (pstate.mk (l ++ replicate (S m) tstat_zero) (length l) g dock) =
  Some (pstate.mk (l ++ t :: replicate m tstat_zero) (length l) g dock).
Proof.
  unfold put_task. cbn [pstate.tasklist]. rewrite arr_set_Some by (rewrite length_app; cbn; lia). mstep.
  by rewrite insert_app_r_alt, Nat.sub_diag by lia.
Qed.

Lemma put_at pre x p l tval dock : put_task (length pre) x (pstate.mk (pre ++ p :: l) tval g dock) =
  Some (pstate.mk (pre ++ x :: l) tval g dock).
Proof.
  unfold put_task. cbn [pstate.tasklist]. rewrite arr_set_Some by (rewrite length_app; cbn; lia). mstep.
  by rewrite insert_app_r_alt, Nat.sub_diag by lia.
Qed.

Lemma fresh_lookup l m : (l ++ replicate (S m) tstat_zero) !! length l = Some tstat_zero.
Proof. by rewrite lookup_app_r, Nat.sub_diag by lia. Qed.

Lemma fmt_d_head_digit k : kstat_ok k -> exists c r, fmt_d k.(kstat.pid) = c :: r /\ isdigit c = true.
Proof.
  intros Hk. pose proof (ks_pid k Hk). rewrite fmt_d_nonneg by lia. apply dec_head. lia.
Qed.

Lemma task_dir_name k : ktask_ok k -> numeric_name (task_dir k).(taskdir.d_name) = true.
Proof. intros Hk. cbn. by destruct (fmt_d_head_digit _ (kt_stat k Hk)) as (c & r & -> & Hc). Qed.

(** One thread. *)
Lemma thread_step_ok pre p done k m dock : ktask_ok k ->
  thread_step e (length pre) (task_dir k)
    (pstate.mk (pre ++ p :: done ++ replicate (S m) tstat_zero) (length pre + 1 + length done) g dock) =
  Some (Ret (pstate.mk (pre ++ add_thread p k :: (done ++ [thread_entry p.(tstat.gen).(tgen.container) k]) ++
    replicate m tstat_zero) (length pre + 1 + length (done ++ [thread_entry p.(tstat.gen).(tgen.container) k])) g dock)).
Proof.
  intros Hk. unfold thread_step. cbn [task_dir taskdir.d_name taskdir.enter].
  destruct (fmt_d_head_digit _ (kt_stat k Hk)) as (c & r & Ec & Hc). rewrite Ec.
  assert (Hdot : Ascii.eqb c "." = false) by (apply Ascii.eqb_neq; intros ->; done). rewrite Hdot. cbn [negb orb].
  cbn [pstate.tasklist pstate.tval pstate.net].
  assert (Elist : pre ++ p :: done ++ replicate (S m) tstat_zero = (pre ++ p :: done) ++ replicate (S m) tstat_zero)
    by (by rewrite <-app_assoc).
  assert (Elen : (length pre + 1 + length done)%nat = length (pre ++ p :: done)) by (rewrite length_app; cbn; lia).
  rewrite Elist, Elen, fresh_lookup. unfold may_fault. cbn [mbind option_bind run_bind].
  fold (task_dir k). rewrite read_task_reads by done. cbn [mbind option_bind run_bind fst snd negb].
  rewrite <-Elist at 1. rewrite list_lookup_middle by done. cbn [mbind option_bind run_bind].
  rewrite <-Elist, put_at. cbn [mbind option_bind run_bind pstate.net set_netif].
  rewrite gettask_off. cbn [mbind option_bind run_bind fst snd].
  unfold set_netif. cbn [pstate.tasklist pstate.tval pstate.dockstat].
  set (p' := upd_gen _ p). replace (length (pre ++ p :: done)) with (length (pre ++ p' :: done)) by (by rewrite !length_app).
  replace (pre ++ p' :: done ++ replicate (S m) tstat_zero) with ((pre ++ p' :: done) ++ replicate (S m) tstat_zero)
    by (by rewrite <-app_assoc).
  rewrite put_fresh. cbn [mbind option_bind run_bind].
  unfold next_task. cbn [pstate.tasklist pstate.tval pstate.net pstate.dockstat].
  do 3 f_equal.
  - by rewrite <-!app_assoc.
  - rewrite !length_app. cbn. lia.
Qed.

(** All threads of a process. *)
Lemma threads_ok pre dock ks : forall p done m, Forall ktask_ok ks -> (length ks <= m)%nat ->
  Z.of_nat (length pre + 1 + length done + length ks) <= e.(penv.maxtask) ->
  threads e (length pre) (task_dir <$> ks)
    (pstate.mk (pre ++ p :: done ++ replicate m tstat_zero) (length pre + 1 + length done) g dock) =
  Some (Ret (pstate.mk (pre ++ foldl add_thread p ks :: (done ++ (thread_entry p.(tstat.gen).(tgen.container) <$> ks)) ++
    replicate (m - length ks) tstat_zero) (length pre + 1 + length done + length ks) g dock)).
Proof.
  induction ks as [|k ks IH]; intros p done m HF Hm Hmax; cbn [fmap list_fmap threads length foldl] in *.
  { rewrite app_nil_r, Nat.sub_0_r, Nat.add_0_r. done. }
  apply Forall_cons in HF as [Hk HF]. cbn [pstate.tval]. rewrite (proj2 (Z.ltb_lt _ _)) by lia.
  destruct m as [|m]; [lia|]. rewrite thread_step_ok by done. cbn [mbind option_bind run_bind].
  rewrite IH; [|done|lia|rewrite length_app; cbn; lia].
  assert (Ec : (add_thread p k).(tstat.gen).(tgen.container) = p.(tstat.gen).(tgen.container)).
  { unfold add_thread, count_thread. cbn. by repeat case_match. }
  rewrite Ec. do 3 f_equal.
  - by rewrite <-!app_assoc.
  - rewrite !length_app. cbn. lia.
Qed.
(** The entries . and .. make no difference. *)
Lemma threads_dots cur ds s : threads e cur (dots ++ ds) s = threads e cur ds s.
Proof.
  cbn [dots app threads]. destruct (Z.ltb_spec (Z.of_nat s.(pstate.tval)) e.(penv.maxtask)) as [Hlt|Hge].
  - change (thread_step e cur _ s) with (Some (Ret s) : run pstate.pstate) at 1. rewrite run_Ret.
    rewrite (proj2 (Z.ltb_lt _ _)) by done.
    change (thread_step e cur _ s) with (Some (Ret s) : run pstate.pstate) at 1. by rewrite run_Ret.
  - destruct ds; cbn; [done|]. by rewrite (proj2 (Z.ltb_ge _ _)).
Qed.

(** The number that proccont returns. *)
Definition in_container (p : kproc.kproc) : Z := match p.(kproc.cpuset) with CRoot => 0 | _ => 1 end.

(** One process with its threads. *)
Lemma process_step_ok p l m dock : kproc_ok p -> (length (process_tasks p) <= m)%nat ->
  Z.of_nat (length l + length (process_tasks p)) <= e.(penv.maxtask) ->
  process_step e (proc_dir p) (pstate.mk (l ++ replicate m tstat_zero) (length l) g dock) =
  Some (Ret (pstate.mk ((l ++ process_tasks p) ++ replicate (m - length (process_tasks p)) tstat_zero)
    (length (l ++ process_tasks p)) g (i8 (dock + in_container p)))).
Proof.
  intros [Ht Hc Hth] Hm Hmax. unfold process_step.
  change (procdir.main (proc_dir p)) with (task_dir p.(kproc.task)). rewrite task_dir_name by done.
  change (taskdir.enter (task_dir p.(kproc.task))) with true. cbn [negb orb pstate.tasklist pstate.tval pstate.net].
  destruct m as [|m]; [cbn in Hm; lia|]. rewrite fresh_lookup. rewrite run_fault.
  rewrite read_task_reads by done. cbn [mbind option_bind run_bind fst snd negb].
  cbn [proc_dir procdir.cmdline procdir.cpuset procdir.task]. rewrite proccont_reads by done. rewrite Hpss.
  rewrite run_fault. rewrite run_Ret.
  rewrite gettask_off. cbn [mbind option_bind run_bind fst snd].
  change (set_net tnet_zero _) with (process_alone p). fold (multithreaded p).
  unfold set_netif. cbn [pstate.tasklist pstate.tval pstate.dockstat]. rewrite put_fresh.
  rewrite run_fault. cbn [pstate.tasklist pstate.net pstate.dockstat].
  fold (in_container p). unfold process_tasks, process_entry in *. destruct (multithreaded p).
  - set (t0 := upd_gen _ (process_alone p)) in *. cbn [length] in Hm, Hmax. rewrite length_fmap in Hm, Hmax.
    rewrite threads_dots.
    pose proof (threads_ok l (i8 (dock + in_container p)) p.(kproc.threads) t0 [] m Hth ltac:(lia)) as E.
    cbn [length app] in E. rewrite Nat.add_0_r, Nat.add_1_r in E. cbn [fst]. rewrite E by lia. do 3 f_equal.
    + rewrite <-app_assoc. cbn [app length]. by rewrite length_fmap.
    + rewrite length_app. cbn. rewrite length_fmap. lia.
  - do 3 f_equal; [by rewrite <-app_assoc; cbn; rewrite Nat.sub_0_r | rewrite length_app; cbn; lia].
Qed.

Definition all_tasks (ps : list kproc.kproc) : list tstat.tstat := ps ≫= process_tasks.

Lemma processes_ok ds : forall l m dock, dirs_ok ds -> (length (all_tasks (procs_of ds)) <= m)%nat ->
  Z.of_nat (length l + length (all_tasks (procs_of ds))) <= e.(penv.maxtask) ->
  processes e (proc_dirs ds) (pstate.mk (l ++ replicate m tstat_zero) (length l) g dock) =
  Some (Ret (pstate.mk ((l ++ all_tasks (procs_of ds)) ++ replicate (m - length (all_tasks (procs_of ds))) tstat_zero)
    (length (l ++ all_tasks (procs_of ds))) g
    (foldl (fun d p => i8 (d + in_container p)) dock (procs_of ds)))).
Proof.
  induction ds as [|[d|p] ds IH]; intros l m dock HF Hm Hmax.
  - cbn. by rewrite !app_nil_r, Nat.sub_0_r.
  - change (procs_of (inl d :: ds)) with (procs_of ds) in *. change (proc_dirs (inl d :: ds)) with (d :: proc_dirs ds).
    apply Forall_cons in HF as [Hd HF]. cbn [processes pstate.tval].
    destruct (Z.ltb_spec (Z.of_nat (length l)) e.(penv.maxtask)) as [Hlt|Hge].
    + assert (Es : forall s, process_step e d s = Some (Ret s)).
      { intros s. unfold process_step. destruct Hd as [-> | ->]; cbn; [done|]. by rewrite orb_true_r. }
      rewrite Es, run_Ret. by apply IH.
    + assert (E0 : procs_of ds = []).
      { destruct (procs_of ds) as [|p ps]; [done|]. exfalso. cbn in Hmax. lia. }
      rewrite E0. cbn. by rewrite !app_nil_r, Nat.sub_0_r.
  - change (procs_of (inr p :: ds)) with (p :: procs_of ds) in *.
    change (proc_dirs (inr p :: ds)) with (proc_dir p :: proc_dirs ds).
    change (all_tasks (p :: procs_of ds)) with (process_tasks p ++ all_tasks (procs_of ds)) in *.
    apply Forall_cons in HF as [Hp HF]. cbn [processes pstate.tval foldl].
    rewrite length_app in Hm, Hmax. rewrite (proj2 (Z.ltb_lt _ _)) by (cbn in Hmax; lia).
    rewrite process_step_ok by (done || lia). rewrite run_Ret.
    rewrite IH; [|done|lia|rewrite length_app; lia]. do 3 f_equal.
    + by rewrite <-!app_assoc, length_app, Nat.sub_add_distr.
    + by rewrite <-app_assoc.
Qed.
End sample.

(** ** photoproc *)

Lemma probe_off env g : g.(netif.netsock) = -1 -> netatop_probe env g = g.
Proof. intros H. unfold netatop_probe. by rewrite H. Qed.

(** The environment of the loops. *)
Definition booted (e : penv.penv) (boot : Z) : penv.penv :=
  penv.mk e.(penv.hertz) e.(penv.pagesize) e.(penv.calcpss) e.(penv.maxtask) boot e.(penv.net).

(** The flag of containers; [dockstat] counts modulo 256. *)
Lemma dock_flag d flags :
  Z.land (if d =? 0 then clear_flags DOCKSTAT flags else set_flags DOCKSTAT flags) DOCKSTAT = 0 <-> d = 0.
Proof.
  unfold clear_flags, set_flags. destruct (Z.eqb_spec d 0) as [->|Hd].
  - rewrite <-Z.land_assoc, (Z.land_comm (Z.lnot _)), Z.land_lnot_diag, Z.land_0_r. done.
  - rewrite Z.land_lor_distr_l, Z.land_diag. split; [|done]. intros H. apply Z.lor_eq_0_iff in H as [_ H]. done.
Qed.

Lemma i8_zero z : i8 z = 0 <-> z mod 256 = 0.
Proof. unfold i8. pose proof (Z.div_mod z 256 ltac:(lia)). pose proof (Z.div_mod (z + 128) 256 ltac:(lia)).
  pose proof (Z.mod_pos_bound z 256 ltac:(lia)). pose proof (Z.mod_pos_bound (z + 128) 256 ltac:(lia)). lia. Qed.

Lemma i8_add z w : i8 (i8 z + w) = i8 (z + w).
Proof.
  unfold i8. f_equal. replace ((z + 128) mod 256 - 128 + w + 128) with ((z + 128) mod 256 + w) by lia.
  rewrite Zplus_mod_idemp_l. f_equal. lia.
Qed.

Lemma docks_sum ps : foldl (fun d p => i8 (d + in_container p)) 0 ps = i8 (0 + zcount (fun p => in_container p =? 1) ps).
Proof.
  change 0 with (i8 0) at 1. generalize 0. induction ps as [|p ps IH]; intros d; cbn [foldl zcount]; [by rewrite Z.add_0_r|].
  rewrite i8_add, IH. f_equal. unfold in_container. destruct p.(kproc.cpuset); cbn; lia.
Qed.

(** C4: For a /proc as the kernel prints it, photoproc returns one entry per
    process, followed by those of its threads when it has several, in the order
    of the directory: each with the name, identities, times, counters and sizes
    of its files in the units of struct tstat; no more entries are touched.
    DOCKSTAT tells of containers, unless their number is a multiple of 256. This
    is a call after the first one, without the option for the proportional set
    size, on a kernel with per-process I/O statistics and without the netatop
    module; directories can be changed and privileges dropped, the table and
    MAXTASK have room for the tasks, and the cpuset of a process is the root or
    that of a docker container, at the top or in system.slice, with an identity
    of any length from 12 characters. *)
Theorem photoproc_reads e fs boot g m ds : e.(penv.hertz) ≠ 0 -> e.(penv.calcpss) = false ->
  Z.land g.(netif.supportflags) IOSTAT ≠ 0 -> Z.land g.(netif.supportflags) NETATOP = 0 ->
  g.(netif.netsock) = -1 ->
  droprootprivs e.(penv.net).(netenv.seteuid).1 e.(penv.net).(netenv.seteuid).2 ≠ 0 ->
  fs.(procfs.cwd) = (true, true, true) -> fs.(procfs.dirs) = proc_dirs ds -> dirs_ok ds ->
  let tasks := all_tasks (booted e boot) (procs_of ds) in
  (length tasks <= m)%nat -> Z.of_nat (length tasks) <= e.(penv.maxtask) ->
  exists g', photoproc e fs (statics.mk false boot) g (replicate m tstat_zero) =
    Some (Ret (length tasks, tasks ++ replicate (m - length tasks) tstat_zero, g', statics.mk false boot)) /\
    (Z.land g'.(netif.supportflags) DOCKSTAT = 0 <->
     zcount (fun p => in_container p =? 1) (procs_of ds) mod 256 = 0).
Proof.
  intros Hh Hp Hio Hn Hs Hpriv Hcwd Hdirs HF tasks Hm Hmax. unfold photoproc. cbn [statics.firstcall statics.bootepoch andb].
  rewrite (proj2 (Z.eqb_neq _ 0)) by done. cbn [negb]. rewrite run_fault, probe_off, Hcwd by done. cbn [fst snd andb negb].
  rewrite Hdirs. fold (booted e boot).
  pose proof (processes_ok (booted e boot) g Hh Hp Hio Hn Hpriv ds [] m 0 HF Hm Hmax) as E.
  cbn [app length] in E. rewrite E, run_Ret. cbn [pstate.net pstate.tval pstate.tasklist pstate.dockstat].
  eexists. split; [reflexivity|]. cbn [netif.supportflags set_supportflags].
  rewrite docks_sum, Z.add_0_l. rewrite <-i8_zero. by apply dock_flag.
Qed.

(** ** The moment of booting *)

Lemma scanf_sup_int ds z l : stops_digits l -> scanf (Dconv true (CInt true 32) :: ds) (fmt_d z ++ l) = scanf ds l.
Proof.
  intros Hl. cbn [scanf]. pose proof (convert_number true true 32 z [] l eq_refl) as E. cbn [app] in E.
  rewrite E by (done || constructor). mstep. by destruct (scanf ds l).
Qed.

Lemma run_until_app stop p l n : stop ∉ p -> (length p < n)%nat -> run_until stop n (p ++ stop :: l) = p.
Proof.
  revert n. induction p as [|c p IH]; intros [|n] H Hn; cbn in *; try lia; [by rewrite Ascii.eqb_refl|].
  apply not_elem_of_cons in H as [Hc H]. rewrite (proj2 (Ascii.eqb_neq c stop)) by done. f_equal. apply IH; [done | lia].
Qed.

Lemma scanf_until ds stop p l : stop ∉ p -> p ≠ [] ->
  scanf (Dconv true (CNot None stop) :: Dchar stop :: ds) (p ++ stop :: l) = scanf ds l.
Proof.
  intros Hp Hne. cbn [scanf convert default]. rewrite run_until_app by (done || (rewrite length_app; cbn; lia)).
  destruct p as [|c p]; [done|]. rewrite drop_app_length, Ascii.eqb_refl. mstep. by destruct (scanf ds l).
Qed.

Lemma scanf_sup_char ds c l : isspace c = false ->
  scanf (Dspace :: Dconv true CChar :: ds) (" "%char :: c :: l) = scanf ds l.
Proof.
  intros Hc. cbn. rewrite Hc. change (isspace " ") with true. cbn. by destruct (scanf ds l).
Qed.

(** getboot gives the time now less the start time of the child, in
    jiffies, as long as the name of the program has no closing bracket. *)
Lemma getbootlinux_value hertz sec nsec k : kstat_ok k -> ")"%char ∉ k.(kstat.comm) -> k.(kstat.comm) ≠ [] ->
  isspace k.(kstat.state) = false -> 0 <= k.(kstat.starttime) ->
  0 <= sec * hertz < 2 ^ 62 -> 0 <= nsec * hertz < 2 ^ 62 ->
  getboot 0 hertz sec nsec (Some (stat_text k)) =
  Some (u64 (sec * hertz + nsec * hertz / 1000000000 - k.(kstat.starttime))).
Proof.
  intros Hk Hp Hne Hst Hs0 H1 H2. unfold getboot, getbootlinux. cbn [Z.eqb]. unfold sscanf.
  match goal with |- context [parse_format ?f] => let v := eval vm_compute in (parse_format f) in
    change (parse_format f) with v end. mstep.
  unfold stat_text. rewrite scanf_sup_int by done.
  match goal with |- context [scanf (Dspace :: Dchar "(" :: ?ds) ?l] =>
    change (scanf (Dspace :: Dchar "(" :: ds) l) with
      (scanf ds (k.(kstat.comm) ++ ")"%char :: " "%char :: stat_tail k)) end.
  rewrite scanf_until by done. unfold stat_tail.
  rewrite scanf_sup_char by done. erewrite scanf_reads with (vs := VInt <$> take 19 (stat_numbers k)).
  - cbn [take stat_numbers fmap list_fmap assigned List.filter is_conv]. mstep.
    pose proof (ks_long k Hk) as Hl. do 4 (apply Forall_cons in Hl as [_ Hl]). apply Forall_cons in Hl as [Hl _].
    unfold in_i64 in Hl. f_equal. rewrite (i64_id (sec * hertz)), (i64_id (nsec * hertz)) by (unfold in_i64; lia).
    rewrite Z.quot_div_nonneg by lia.
    assert (Hd : 0 <= nsec * hertz / 1000000000 <= nsec * hertz).
    { split; [apply Z.div_pos; lia|]. apply Z.div_le_upper_bound; lia. }
    rewrite i64_id by (unfold in_i64; lia). unfold u64. by rewrite Zminus_mod_idemp_l.
  - done.
  - cbn. rewrite !andb_true_r. unfold int_fits. apply andb_true_iff. rewrite Z.leb_le, Z.ltb_lt.
    pose proof (ks_long k Hk) as Hl. do 4 (apply Forall_cons in Hl as [_ Hl]). apply Forall_cons in Hl as [Hl _].
    unfold in_i64 in Hl. lia.
  - pose proof (columns_row [" "%char] (stat_numbers k ++ k.(kstat.others)) [newline] 19) as Hrow.
    rewrite fmap_app, take_app_le in Hrow by (cbn; lia). apply Hrow; [by repeat constructor | done | done].
Qed.

(** ** A process that vanishes *)

Lemma sfields_threads fs t : (foldl sfield_apply t fs).(tstat.gen).(tgen.nthrrun) = t.(tstat.gen).(tgen.nthrrun) /\
  (foldl sfield_apply t fs).(tstat.gen).(tgen.nthrslpi) = t.(tstat.gen).(tgen.nthrslpi).
Proof.
  revert t. induction fs as [|f fs IH]; intros t; [done|]. cbn [foldl]. destruct (IH (sfield_apply t f)) as [-> ->].
  by destruct f.
Qed.

(** The directory when its status file has gone in the meantime. *)
Definition gone_dir (k : ktask.ktask) : taskdir.taskdir :=
  taskdir.mk (fmt_d k.(ktask.stat).(kstat.pid)) true (Some (stat_text k.(ktask.stat))) None None.

(** When a running process ends between the reading of stat and of status,
    its entry is used for the next process, and keeps what stat told: a
    process that sleeps, read into that entry, is reported with a running
    thread as well. *)
Theorem vanished_leaves_state e flags k1 k2 : e.(penv.hertz) ≠ 0 -> Z.land flags IOSTAT ≠ 0 ->
  droprootprivs e.(penv.net).(netenv.seteuid).1 e.(penv.net).(netenv.seteuid).2 ≠ 0 ->
  ktask_ok k1 -> ktask_ok k2 -> k1.(ktask.stat).(kstat.state) = "R"%char -> k2.(ktask.stat).(kstat.state) = "S"%char ->
  exists t1 t2 t2', read_task e 1 flags (gone_dir k1) tstat_zero = Some (Ret (false, t1)) /\
    read_task e 1 flags (task_dir k2) t1 = Some (Ret (true, t2)) /\
    read_task e 1 flags (task_dir k2) tstat_zero = Some (Ret (true, t2')) /\
    (t2.(tstat.gen).(tgen.nthrrun), t2.(tstat.gen).(tgen.nthrslpi)) = (1, 1) /\
    (t2'.(tstat.gen).(tgen.nthrrun), t2'.(tstat.gen).(tgen.nthrslpi)) = (0, 1).
Proof.
  intros Hh Hio Hpriv H1 H2 E1 E2. set (g := netif.mk flags 0 0 0 false 0).
  set (t1 := stat_entry k1.(ktask.stat) e.(penv.bootepoch) e.(penv.hertz) e.(penv.pagesize) 1 tstat_zero).
  exists t1, (task_into e 1 k2 t1), (task_into e 1 k2 tstat_zero).
  pose proof (read_task_into e g Hh Hio Hpriv 1 k2) as R. split.
  { unfold read_task, gone_dir. cbn [taskdir.stat taskdir.status]. destruct H1.
    rewrite procstat_reads by done. rewrite run_fault. done. }
  split; [by apply R|]. split; [by apply R|].
  assert (Hs : forall t, (task_into e 1 k2 t).(tstat.gen).(tgen.nthrrun) = t.(tstat.gen).(tgen.nthrrun) /\
    (task_into e 1 k2 t).(tstat.gen).(tgen.nthrslpi) = 1).
  { intros t. unfold task_into, io_entry. cbn [set_dsk tstat.gen].
    destruct (sfields_threads k2.(ktask.status) (status_start (stat_entry k2.(ktask.stat) e.(penv.bootepoch)
      e.(penv.hertz) e.(penv.pagesize) 1 t))) as [-> ->]. unfold stat_entry, count_state. cbn. by rewrite E2. }
  destruct (Hs t1) as [-> ->]. destruct (Hs tstat_zero) as [-> ->]. split; [|done].
  unfold t1, stat_entry, count_state. cbn. by rewrite E1.
Qed.

(** ** A concrete /proc *)

Definition a_kstat (pid : Z) (comm : string) (state : ascii) : kstat.kstat :=
  kstat.mk pid (chars comm) state 1 pid pid 0 (-1) 4194304 120 0 3 0 50 20 0 0 20 0 1 0 3000 8192000 500
    18446744073709551615 1 2 3 0 0 0 0 0 0 0 0 0 17 2 0 0 [0; 0].
Definition a_ktask (pid : Z) (comm : string) (state : ascii) (nthr : Z) : ktask.ktask :=
  ktask.mk (a_kstat pid comm state)
    [SOther (chars "Name:	x"); STgid 20; SPid pid; SUid 1000 1000 1000 1000; SGid 100 100 100 100; SThreads nthr;
     SVmData 500; SVmSwap 0] (chars "SigQ:" ++ chars "	0/100" ++ newline :: chars "SigPnd:")
    [IOOther (chars "rchar: 5"); IORead 8192; IOWrite 4096; IOCwrite 0].

(** A thread group in a container, a plain process, and an entry that is neither. *)
Definition some_dirs : list (procdir.procdir + kproc.kproc) :=
  [inr (kproc.mk (a_ktask 20 "a) (b" "S" 2) (chars "prog" ++ [zero]) 
     (CDocker (chars "/system.slice/") "-" (chars "af78216c2a23")
        (chars "0f1a6bd24de79a3c5f0b1d2e8c7745aa90e6f3b81c2d4e5f6a7b.scope"))
     [a_ktask 20 "a) (b" "S" 2; a_ktask 21 "worker" "R" 2]);
   inl (procdir.mk (taskdir.mk (chars "self") true None None None) None None None None);
   inr (kproc.mk (a_ktask 30 "sh" "S" 1) [] CRoot [a_ktask 30 "sh" "S" 1])].

Definition some_netenv : netenv.netenv := netenv.mk false 0 false 0 false 0 None (fun _ _ => None) 0 (0, 0).
Definition some_penv : penv.penv := penv.mk 100 4096 false 5 0 some_netenv.
Definition some_netif : netif.netif := netif.mk IOSTAT (-1) (-1) (-1) false 0.
Definition some_procfs : procfs.procfs := procfs.mk true (0, 0) None (true, true, true) (proc_dirs some_dirs).

Ltac by_eval := first
  [ lazymatch goal with |- (_ < _)%nat => apply Nat.ltb_lt; vm_compute; reflexivity end
  | apply (bool_decide_unpack _); vm_compute; exact I ].

Lemma a_kstat_ok pid comm state : 0 <= pid < 2 ^ 31 -> zero ∉ chars comm -> state ≠ zero /\ state ≠ ")"%char ->
  (length (stat_text (a_kstat pid comm state)) < 4096)%nat -> kstat_ok (a_kstat pid comm state).
Proof.
  intros Hp Hc Hs Hl. split; [done..| | |done]; unfold in_i32, in_i64; cbn [a_kstat kstat.ppid];
    repeat (apply Forall_cons_2; [cbn; lia|]); apply Forall_nil_2.
Qed.

Lemma a_ktask_ok pid comm state nthr : kstat_ok (a_kstat pid comm state) -> 0 <= pid < 2 ^ 31 -> 0 <= nthr < 2 ^ 31 ->
  ktask_ok (a_ktask pid comm state nthr).
Proof.
  intros Hk Hp Hn. split; [done|..]; cbn [a_ktask ktask.status ktask.rest ktask.io].
  - assert (Hi : forall z, 0 <= z < 2 ^ 31 -> in_i32 z) by (unfold in_i32; lia).
    repeat (apply Forall_cons_2; [|]); try apply Forall_nil_2; cbn [sfield_ok]; try (by apply Hi); try by_eval.
  - right. exists (chars "	0/100"), (chars "SigPnd:"). split; [done|]. split_and!; by_eval.
  - repeat (apply Forall_cons_2; [|]); try apply Forall_nil_2; cbn [iofield_ok]; try done.
    split; [split_and!; by_eval|]. repeat (apply Forall_cons_2; [done|]). apply Forall_nil_2.
Qed.

Lemma some_ktasks_ok : ktask_ok (a_ktask 20 "a) (b" "S" 2) /\ ktask_ok (a_ktask 21 "worker" "R" 2) /\
  ktask_ok (a_ktask 30 "sh" "S" 1).
Proof. split_and!; (apply a_ktask_ok; [|done..]); apply a_kstat_ok; try done; by_eval. Qed.

Lemma some_dirs_ok : dirs_ok some_dirs.
Proof.
  destruct some_ktasks_ok as (? & ? & ?).
  repeat apply Forall_cons_2; [..|apply Forall_nil_2].
  - split; [assumption | |repeat (apply Forall_cons_2; [assumption|]); apply Forall_nil_2].
    split; [by right|]. split_and!; by_eval.
  - by left.
  - split; [assumption | done | repeat (apply Forall_cons_2; [assumption|]); apply Forall_nil_2].
Qed.

Lemma photoproc_reads_witness : exists tasks g',
  photoproc some_penv some_procfs (statics.mk false 1000) some_netif (replicate 5 tstat_zero) =
    Some (Ret (4%nat, tasks ++ [tstat_zero], g', statics.mk false 1000)) /\
  tgen.name ∘ tstat.gen <$> tasks = ["a) (b"; "a) (b"; "worker"; "sh"] /\
  tgen.nthrrun ∘ tstat.gen <$> tasks = [1; 0; 1; 0] /\ tgen.btime ∘ tstat.gen <$> tasks = [40; 40; 40; 40] /\
  tgen.container ∘ tstat.gen <$> tasks = ["af78216c2a23"; "af78216c2a23"; "af78216c2a23"; EmptyString] /\
  tdsk.rsz ∘ tstat.dsk <$> tasks = [16; 16; 16; 16] /\ Z.land g'.(netif.supportflags) DOCKSTAT ≠ 0.
Proof.
  destruct (photoproc_reads some_penv some_procfs 1000 some_netif 5 some_dirs) as (g' & E & Hd);
    [done..|exact some_dirs_ok|by_eval|by vm_compute|].
  eexists _, g'. split; [exact E|]. split_and!; [by vm_compute..|].
  rewrite Hd. by vm_compute.
Defined.

Lemma vanished_leaves_state_witness : exists t1 t2,
  read_task some_penv 1 IOSTAT (gone_dir (a_ktask 21 "worker" "R" 2)) tstat_zero = Some (Ret (false, t1)) /\
  read_task some_penv 1 IOSTAT (task_dir (a_ktask 30 "sh" "S" 1)) t1 = Some (Ret (true, t2)) /\
  (t2.(tstat.gen).(tgen.nthrrun), t2.(tstat.gen).(tgen.nthrslpi)) = (1, 1).
Proof.
  destruct some_ktasks_ok as (? & ? & ?).
  destruct (vanished_leaves_state some_penv IOSTAT (a_ktask 21 "worker" "R" 2) (a_ktask 30 "sh" "S" 1))
    as (t1 & t2 & t2' & R1 & R2 & _ & Hc & _); [done..|].
  exists t1, t2. split; [exact R1|]. split; [exact R2 | exact Hc].
Defined.
