(* ===== verification/Various.v ===== *)
(** * Conversions to and from text: various.c

    The functions return the text they store (without its terminating NUL);
    the size of the area they are offered is the subject of VariousFacts. *)
From Stdlib Require Import Ascii.
From S2P Require Import Prelude Format.

(** ** Dates and times *)

(** The members of [struct tm] that are used. *)
Module tm.
Record tm := mk {
  tm_sec : Z;
  tm_min : Z;
  tm_hour : Z;
  tm_mday : Z;
  tm_mon : Z;
  tm_year : Z
}.
End tm.

Definition SECSDAY : Z := 86400.

Section localtime.
(** The conversion of the C library. *)
Context (localtime : Z -> tm.tm).

Definition convtime (utime : Z) : text :=
  let tt := localtime utime in
  fmt_0d 2 tt.(tm.tm_hour) ++ ":"%char :: fmt_0d 2 tt.(tm.tm_min) ++
  ":"%char :: fmt_0d 2 tt.(tm.tm_sec).

Definition convdate (utime : Z) : text :=
  let tt := localtime utime in
  fmt_0d 4 (i32 (tt.(tm.tm_year) + 1900)) ++ "/"%char :: fmt_0d 2 (i32 (tt.(tm.tm_mon) + 1)) ++
  "/"%char :: fmt_0d 2 tt.(tm.tm_mday).

Definition daysecs (itime : Z) : Z :=
  let tt := localtime itime in i32 (tt.(tm.tm_hour) * 3600 + tt.(tm.tm_min) * 60).
End localtime.

(** A number that [%d] stores in an [int]: [strtol] stops at the largest
    [long]. *)
Definition scanned_int (v : Z) : Z := i32 (Z.min v (2 ^ 63 - 1)).

(** [sscanf(itim, '%d:%d', &hours, &minutes)] on digits and colons: a number
    that is absent leaves the old content. *)
Definition scan_hhmm (itim : text) (hours minutes : Z) : Z * Z :=
  match scan_nat itim with
  | None => (hours, minutes)
  | Some (h, rest) =>
      match rest with
      | c :: rest' =>
          if Ascii.eqb c ":"%char then
            match scan_nat rest' with
            | None => (scanned_int h, minutes)
            | Some (m, _) => (scanned_int h, scanned_int m)
            end
          else (scanned_int h, minutes)
      | [] => (scanned_int h, minutes)
      end
  end.

(** [junk] is the content of the uninitialised [hours] and [minutes]; the
    result is the return value and what is stored in [*otim]. *)
Definition hhmm2secs (junk : Z * Z) (itim : text) : Z * option Z :=
  if negb (forallb (fun c => isdigit c || Ascii.eqb c ":"%char) itim) then (0, None)
  else
    let '(hours, minutes) := scan_hhmm itim junk.1 junk.2 in
    if (hours <? 0) || (23 <? hours) || (minutes <? 0) || (59 <? minutes) then (0, None)
    else
      let otim := u32 (hours * 3600 + minutes * 60) in
      (1, Some (if SECSDAY <=? otim then SECSDAY - 1 else otim)).

(** ** Values of a fixed width *)

(** [maxval = pow(10.0, width) - 1]; the subtraction is rounded, and a negative
    width gives a fraction that is cut off. *)
Definition maxval_of (width : Z) : Z :=
  if width <? 0 then 0
  else let x := dbl (10 ^ width - 1) 1 in Z.quot x.1 x.2.

(** [while (value > maxval)]: value, exponent and last remainder. *)
Fixpoint shorten (fuel : nat) (maxval value exp remain : Z) : option (Z * Z * Z) :=
  match fuel with
  | O => None
  | S f =>
      if maxval <? value then shorten f maxval (Z.quot value 10) (exp + 1) (Z.rem value 10)
      else Some (value, exp, remain)
  end.

(** A [count_t] has at most 19 digits. *)
Definition SHORTEN_FUEL : nat := 20.

Definition val2valstr (value width : Z) (avg : bool) (nsecs : Z) : option text :=
  let average := avg && negb (nsecs =? 0) in
  let value := if average then Z.quot (i64 (value + Z.quot nsecs 2)) nsecs else value in
  let width := if average then width - 2 else width in
  let suffix := if average then chars "/s" else [] in
  if value <? 0 then Some (pad width (chars "?") ++ suffix)
  else if value <? maxval_of width then Some (pad width (fmt_d value) ++ suffix)
  else if width <? 3 then Some (fmt_d value ++ suffix)
  else
    let width := width - 2 in
    r ← shorten SHORTEN_FUEL (maxval_of width) value 0 0;
    let '(value, exp, remain) := r in
    let value := if 5 <=? remain then value + 1 else value in
    Some (pad width (fmt_d value) ++ "e"%char :: fmt_d exp ++ suffix).

(** ** Elapsed and consumed time *)

Definition DAYSECS : Z := 24 * 60 * 60.
Definition HOURSECS : Z := 60 * 60.
Definition MINSECS : Z := 60.

Definition val2elapstr (value : Z) : text :=
  (if DAYSECS <=? value then fmt_d (Z.quot value DAYSECS) ++ chars "d" else []) ++
  (if HOURSECS <=? value then fmt_d (Z.quot (Z.rem value DAYSECS) HOURSECS) ++ chars "h" else []) ++
  (if MINSECS <=? value then fmt_d (Z.quot (Z.rem value HOURSECS) MINSECS) ++ chars "m" else []) ++
  fmt_d (Z.rem value MINSECS) ++ chars "s".

Definition MAXMSEC : Z := 100000.
Definition MAXSEC : Z := 6000.
Definition MAXMIN : Z := 6000.

Definition val2cpustr (value : Z) : text :=
  if value <? MAXMSEC then
    pad 2 (fmt_d (Z.quot value 1000)) ++ chars "." ++
    fmt_0d 2 (Z.quot (Z.rem value 1000) 10) ++ chars "s"
  else
    let value := Z.quot (i64 (value + 500)) 1000 in
    if value <? MAXSEC then
      pad 2 (fmt_d (Z.quot value 60)) ++ chars "m" ++ fmt_0d 2 (Z.rem value 60) ++ chars "s"
    else
      let value := Z.quot (value + 30) 60 in
      if value <? MAXMIN then
        pad 2 (fmt_d (Z.quot value 60)) ++ chars "h" ++ fmt_0d 2 (Z.rem value 60) ++ chars "m"
      else
        let value := Z.quot (value + 30) 60 in
        pad 2 (fmt_d (Z.quot value 24)) ++ chars "d" ++ fmt_0d 2 (Z.rem value 24) ++ chars "h".

(** ** Frequencies *)

(** [x / 1000.0] *)
Definition dbl_thousandth (x : Z * Z) : Z * Z := dbl x.1 (x.2 * 1000).

Definition val2Hzstr (value : Z) : text :=
  if value <? 1000 then pad 4 (fmt_d value) ++ chars "MHz"
  else
    let fval := dbl_thousandth (dbl value 1) in
    let tera := negb (dbl_lt fval 1000) in
    let fval := if tera then dbl_thousandth fval else fval in
    let prefix := if tera then chars "T" else chars "G" in
    let k := if dbl_lt fval 10 then 2%nat else if dbl_lt fval 100 then 1%nat else 0%nat in
    pad 4 (fmt_f k fval) ++ prefix ++ chars "Hz".

(** ** Memory sizes *)

Definition ANYFORMAT : Z := 0.
Definition KBFORMAT : Z := 1.
Definition MBFORMAT : Z := 2.
Definition GBFORMAT : Z := 3.
Definition TBFORMAT : Z := 4.
Definition PBFORMAT : Z := 5.

Definition ONEKBYTE : Z := 1024.
Definition ONEMBYTE : Z := 1048576.
Definition ONEGBYTE : Z := 1073741824.
Definition ONETBYTE : Z := 1099511627776.
Definition ONEPBYTE : Z := 1125899906842624.

Definition MAXBYTE : Z := 1024.
Definition MAXKBYTE : Z := ONEKBYTE * 99999.
Definition MAXMBYTE : Z := ONEMBYTE * 999.
Definition MAXGBYTE : Z := ONEGBYTE * 999.
Definition MAXTBYTE : Z := ONETBYTE * 999.

(** The format advised by the value to be verified. *)
Definition mem_format (verifyval : Z) : Z :=
  if verifyval <=? MAXBYTE then ANYFORMAT
  else if verifyval <=? MAXKBYTE then KBFORMAT
  else if verifyval <=? MAXMBYTE then MBFORMAT
  else if verifyval <=? MAXGBYTE then GBFORMAT
  else if verifyval <=? MAXTBYTE then TBFORMAT
  else PBFORMAT.

(** [sprintf('%*.1lf', width, (double)value / unit)] *)
Definition fmt_unit (width value unit : Z) : text :=
  let v := dbl value 1 in pad width (fmt_f 1 (dbl v.1 (v.2 * unit))).

Definition val2memstr (value pformat : Z) (avgval : bool) (nsecs : Z) : text :=
  let verifyval := if value <? 0 then i64 (- value * 10) else value in
  let average := avgval && negb (nsecs =? 0) in
  let value := if average then Z.quot value nsecs else value in
  let verifyval := if average then Z.quot (i64 (verifyval * 100)) nsecs else verifyval in
  let basewidth := if average then 4 else 6 in
  let suffix := if average then chars "/s" else [] in
  let aformat := mem_format verifyval in
  let aformat := if aformat <=? pformat then pformat else aformat in
  if aformat =? ANYFORMAT then pad basewidth (fmt_d value) ++ suffix
  else if aformat =? KBFORMAT then
    pad (basewidth - 1) (fmt_d (Z.quot value ONEKBYTE)) ++ chars "K" ++ suffix
  else if aformat =? MBFORMAT then fmt_unit (basewidth - 1) value ONEMBYTE ++ chars "M" ++ suffix
  else if aformat =? GBFORMAT then fmt_unit (basewidth - 1) value ONEGBYTE ++ chars "G" ++ suffix
  else if aformat =? TBFORMAT then fmt_unit (basewidth - 1) value ONETBYTE ++ chars "T" ++ suffix
  else if aformat =? PBFORMAT then fmt_unit (basewidth - 1) value ONEPBYTE ++ chars "P" ++ suffix
  else chars "!TILT!".

(** ** Other checks *)

Definition numeric (ns : text) : Z :=
  if forallb isdigit ns then 1 else 0.
