(* ===== verification/VariousFacts.v ===== *)
(** * What the conversions of various.c promise: widths, round trips and
    rounding. *)
From Stdlib Require Import Ascii.
From S2P Require Import Prelude Format Various.

Lemma pow10_mono a b : 0 <= a <= b -> 10 ^ a <= 10 ^ b.
Proof. intros H. apply Z.pow_le_mono_r; lia. Qed.

(** ** Times *)

Definition clock_ok (tt : tm.tm) : Prop :=
  0 <= tt.(tm.tm_hour) <= 23 /\ 0 <= tt.(tm.tm_min) <= 59 /\ 0 <= tt.(tm.tm_sec) <= 60.

Lemma convtime_width localtime utime :
  clock_ok (localtime utime) -> length (convtime localtime utime) = 8%nat.
Proof.
  intros (Hh & Hm & Hs). unfold convtime.
  repeat (rewrite length_app || cbn [length]). rewrite !fmt_0d_length by (cbn; lia). done.
Qed.

Lemma convdate_width localtime utime :
  let tt := localtime utime in
  -1900 <= tt.(tm.tm_year) < 8100 -> 0 <= tt.(tm.tm_mon) <= 11 -> 1 <= tt.(tm.tm_mday) <= 31 ->
  length (convdate localtime utime) = 10%nat.
Proof.
  intros tt Hy Hm Hd. unfold convdate. fold tt.
  rewrite !i32_id by (unfold in_i32; lia).
  repeat (rewrite length_app || cbn [length]). rewrite !fmt_0d_length by (cbn; lia). done.
Qed.

Lemma hhmm_syntax l : Forall (fun c => isdigit c = true) l ->
  forallb (fun c => isdigit c || Ascii.eqb c ":"%char) l = true.
Proof. induction 1 as [|c l Hc HF IH]; cbn; [done|]. by rewrite Hc, IH. Qed.

Lemma fmt_0d_digits k n : 0 <= n -> Forall (fun c => isdigit c = true) (fmt_0d k n).
Proof.
  intros Hn. unfold fmt_0d, pad_left. rewrite (proj2 (Z.ltb_ge n 0)) by done.
  apply Forall_app. split; [by apply Forall_replicate | by apply dec_digits].
Qed.

(** Reading a time of day that was printed as hh:mm. *)
Lemma hhmm2secs_print junk h m : 0 <= h <= 23 -> 0 <= m <= 59 ->
  hhmm2secs junk (fmt_0d 2 h ++ ":"%char :: fmt_0d 2 m) = (1, Some (h * 3600 + m * 60)).
Proof.
  intros Hh Hm. unfold hhmm2secs. rewrite forallb_app. cbn [forallb].
  rewrite !hhmm_syntax by (apply fmt_0d_digits; lia). cbn [andb orb negb].
  replace (isdigit ":" || Ascii.eqb ":" ":") with true by done. cbn [andb negb].
  unfold scan_hhmm. rewrite scan_fmt_0d by (done || lia). cbn [Ascii.eqb Bool.eqb].
  rewrite <-(app_nil_r (fmt_0d 2 m)), scan_fmt_0d by (done || lia).
  unfold scanned_int. rewrite !Z.min_l by lia. rewrite !i32_id by (unfold in_i32; lia).
  rewrite !(proj2 (Z.ltb_ge _ _)) by lia. cbn [orb]. rewrite u32_id by lia.
  rewrite (proj2 (Z.leb_gt _ _)) by (unfold SECSDAY; lia). done.
Qed.

(** The hours and minutes that convtime prints are read back by hhmm2secs as
    the seconds of the day that daysecs computes for the same moment. *)
Theorem convtime_hhmm2secs localtime utime junk :
  clock_ok (localtime utime) ->
  hhmm2secs junk (take 5 (convtime localtime utime)) = (1, Some (daysecs localtime utime)).
Proof.
  intros (Hh & Hm & Hs). unfold convtime, daysecs.
  set (h := tm.tm_hour _) in *. set (m := tm.tm_min _) in *.
  rewrite i32_id by (unfold in_i32; lia). rewrite <-(hhmm2secs_print junk h m) by lia. f_equal.
  pose proof (fmt_0d_length 2 h ltac:(lia)) as Lh. pose proof (fmt_0d_length 2 m ltac:(lia)) as Lm.
  rewrite app_comm_cons, app_assoc. rewrite take_app_length'; [done|].
  rewrite length_app. cbn [length]. rewrite Lh, Lm by (cbn; lia). done.
Qed.

(** Whatever is read, an accepted time is below a day. *)
Lemma hhmm2secs_bound junk itim rc otim :
  hhmm2secs junk itim = (rc, Some otim) -> rc = 1 /\ 0 <= otim < SECSDAY.
Proof.
  unfold hhmm2secs. destruct (negb _); [done|]. destruct (scan_hhmm _ _ _) as [h m].
  destruct (_ || _ || _ || _); [done|]. intros [= <- <-]. split; [done|].
  pose proof (u32_range (h * 3600 + m * 60)). destruct (Z.leb_spec SECSDAY (u32 (h * 3600 + m * 60))); unfold SECSDAY in *; lia.
Qed.

(** ** Numbers *)

Lemma numeric_spec ns : numeric ns = 1 <-> Forall (fun c => isdigit c = true) ns.
Proof.
  unfold numeric. destruct (forallb isdigit ns) eqn:E.
  - split; [intros _|done]. apply Forall_forall. intros c Hc.
    apply (proj1 (forallb_forall _ _) E). by apply list_elem_of_In.
  - split; [done|]. intros HF. rewrite Forall_forall in HF.
    assert (forallb isdigit ns = true); [|congruence]. apply forallb_forall. intros c Hc.
    apply HF. by apply list_elem_of_In.
Qed.

(** ** val2elapstr *)

(** The number of seconds that an elapsed time stands for. *)
Fixpoint elapsed_from (fuel : nat) (acc : Z) (l : text) : Z :=
  match fuel with
  | O => acc
  | S f =>
      match scan_nat l with
      | Some (n, c :: l') =>
          let unit := if Ascii.eqb c "d" then DAYSECS else if Ascii.eqb c "h" then HOURSECS
                      else if Ascii.eqb c "m" then MINSECS else 1 in
          elapsed_from f (acc + n * unit) l'
      | _ => acc
      end
  end.

Definition elapsed_of (l : text) : Z := elapsed_from (length l) 0 l.

Lemma elapsed_step f acc n c l : 0 <= n -> isdigit c = false ->
  elapsed_from (S f) acc (dec n ++ c :: l) =
  elapsed_from f (acc + n * (if Ascii.eqb c "d" then DAYSECS else if Ascii.eqb c "h" then HOURSECS
                      else if Ascii.eqb c "m" then MINSECS else 1)) l.
Proof. intros Hn Hc. cbn [elapsed_from]. rewrite scan_dec by done. done. Qed.

Lemma elapsed_end f acc : elapsed_from f acc [] = acc.
Proof. by destruct f. Qed.

Definition elap_parts (value : Z) : list (Z * ascii) :=
  (if DAYSECS <=? value then [(value / DAYSECS, "d"%char)] else []) ++
  (if HOURSECS <=? value then [(value mod DAYSECS / HOURSECS, "h"%char)] else []) ++
  (if MINSECS <=? value then [(value mod HOURSECS / MINSECS, "m"%char)] else []) ++
  [(value mod MINSECS, "s"%char)].

Definition print_part (p : Z * ascii) : text := dec p.1 ++ [p.2].

Lemma val2elapstr_parts value : 0 <= value ->
  val2elapstr value = mjoin (print_part <$> elap_parts value).
Proof.
  intros Hv. unfold val2elapstr, elap_parts, chars. cbn [String.list_ascii_of_string].
  pose proof (Z.mod_pos_bound value DAYSECS). pose proof (Z.mod_pos_bound value HOURSECS).
  pose proof (Z.mod_pos_bound value MINSECS).
  pose proof (Z.div_pos value DAYSECS). pose proof (Z.div_pos (value mod DAYSECS) HOURSECS).
  pose proof (Z.div_pos (value mod HOURSECS) MINSECS).
  assert (0 < DAYSECS /\ 0 < HOURSECS /\ 0 < MINSECS) as (? & ? & ?) by done.
  rewrite !Z.rem_mod_nonneg by lia. rewrite !Z.quot_div_nonneg by lia. rewrite !fmt_d_nonneg by lia.
  repeat case_match; cbn; unfold print_part; cbn; by rewrite ?app_nil_r, <-?app_assoc.
Qed.

Definition unit_of (c : ascii) : Z :=
  if Ascii.eqb c "d" then DAYSECS else if Ascii.eqb c "h" then HOURSECS
  else if Ascii.eqb c "m" then MINSECS else 1.

Lemma elapsed_parts (ps : list (Z * ascii)) f acc :
  (length ps <= f)%nat -> Forall (fun p => 0 <= p.1 /\ isdigit p.2 = false) ps ->
  elapsed_from f acc (mjoin (print_part <$> ps)) =
  foldl (fun a p => a + p.1 * unit_of p.2) acc ps.
Proof.
  revert f acc. induction ps as [|[n c] ps IH]; intros f acc Hf HF; [apply elapsed_end|].
  apply Forall_cons in HF as [[Hn Hc] HF]. cbn [fst snd] in *.
  destruct f as [|f]; [cbn in Hf; lia|].
  change (mjoin (print_part <$> (n, c) :: ps)) with ((dec n ++ [c]) ++ mjoin (print_part <$> ps)).
  rewrite <-app_assoc. cbn [app]. rewrite elapsed_step by done. cbn [foldl fst snd]. apply IH; [|done].
  cbn in Hf. lia.
Qed.

Lemma elap_parts_ok value : 0 <= value ->
  Forall (fun p => 0 <= p.1 /\ isdigit p.2 = false) (elap_parts value) /\
  foldl (fun a p => a + p.1 * unit_of p.2) 0 (elap_parts value) = value.
Proof.
  intros Hv. unfold elap_parts, DAYSECS, HOURSECS, MINSECS. split.
  - assert (0 <= value / (24 * 60 * 60)) by (apply Z.div_pos; lia).
    assert (0 <= value mod (24 * 60 * 60) / (60 * 60))
      by (apply Z.div_pos; [apply Z.mod_pos_bound|]; lia).
    assert (0 <= value mod (60 * 60) / 60) by (apply Z.div_pos; [apply Z.mod_pos_bound|]; lia).
    assert (0 <= value mod 60) by (apply Z.mod_pos_bound; lia).
    repeat case_match; cbn [app]; repeat (apply Forall_cons; split; [split; [assumption|reflexivity]|]); done.
  - destruct (Z.leb_spec (24 * 60 * 60) value); destruct (Z.leb_spec (60 * 60) value);
      destruct (Z.leb_spec 60 value); try lia; cbn [app foldl fst snd unit_of];
      unfold unit_of, DAYSECS, HOURSECS, MINSECS; cbn [Ascii.eqb Bool.eqb];
      Z.to_euclidean_division_equations; lia.
Qed.

Lemma mjoin_length ps : length (mjoin (print_part <$> ps)) =
  foldr (fun p n => (length (dec p.1) + 1 + n)%nat) 0%nat ps.
Proof.
  induction ps as [|p ps IH]; [done|].
  change (mjoin (print_part <$> p :: ps)) with ((dec p.1 ++ [p.2]) ++ mjoin (print_part <$> ps)).
  by rewrite !length_app, IH.
Qed.

(** The days, hours, minutes and seconds that val2elapstr prints add up to
    the value. *)
Theorem val2elapstr_value value : 0 <= value -> elapsed_of (val2elapstr value) = value.
Proof.
  intros Hv. destruct (elap_parts_ok value Hv) as [HF HS]. unfold elapsed_of.
  rewrite (val2elapstr_parts value Hv), elapsed_parts; [done| |done].
  rewrite mjoin_length. clear. induction (elap_parts value) as [|p ps IH]; cbn; lia.
Qed.

(** Below 1000 days it fits in 13 positions. *)
Lemma val2elapstr_width value : 0 <= value < 1000 * DAYSECS -> (length (val2elapstr value) <= 13)%nat.
Proof.
  intros Hv. rewrite (val2elapstr_parts value) by lia. rewrite mjoin_length. unfold elap_parts.
  assert (H1 : (length (dec (value / DAYSECS)) <= 3)%nat).
  { apply dec_length_le; [lia|]. unfold DAYSECS in *. split; [apply Z.div_pos; lia|].
    apply Z.div_lt_upper_bound; cbn; lia. }
  assert (H2 : (length (dec (value mod DAYSECS / HOURSECS)) <= 2)%nat).
  { apply dec_length_le; [lia|]. unfold DAYSECS, HOURSECS. Z.to_euclidean_division_equations. cbn. lia. }
  assert (H3 : (length (dec (value mod HOURSECS / MINSECS)) <= 2)%nat).
  { apply dec_length_le; [lia|]. unfold HOURSECS, MINSECS. Z.to_euclidean_division_equations. cbn. lia. }
  assert (H4 : (length (dec (value mod MINSECS)) <= 2)%nat).
  { apply dec_length_le; [lia|]. unfold MINSECS. Z.to_euclidean_division_equations. cbn. lia. }
  repeat case_match; cbn; lia.
Qed.

(** ** val2cpustr *)

Lemma pad2_width n c k m d : 0 <= n < 100 -> 0 <= m < 100 -> (k = 2)%nat ->
  length (pad 2 (fmt_d n) ++ [c] ++ fmt_0d k m ++ [d]) = 6%nat.
Proof.
  intros Hn Hm ->. rewrite !length_app, fmt_0d_length by (cbn; lia).
  rewrite fmt_d_nonneg, pad_length by (lia || (apply (dec_length_le n 2); cbn; lia)). done.
Qed.

(** val2cpustr prints a value below 8638000000 milliseconds, just under a
    hundred days, in exactly six characters. *)
Theorem val2cpustr_width value : 0 <= value < 8638000000 -> length (val2cpustr value) = 6%nat.
Proof.
  intros Hv. unfold val2cpustr, MAXMSEC, MAXSEC, MAXMIN, chars. cbn [String.list_ascii_of_string].
  rewrite (i64_id (value + 500)) by (unfold in_i64; lia).
  destruct (Z.ltb_spec value 100000).
  - apply pad2_width; [Z.to_euclidean_division_equations; lia..|done].
  - destruct (Z.ltb_spec (Z.quot (value + 500) 1000) 6000).
    + apply pad2_width; [Z.to_euclidean_division_equations; lia..|done].
    + destruct (Z.ltb_spec (Z.quot (Z.quot (value + 500) 1000 + 30) 60) 6000);
        (apply pad2_width; [Z.to_euclidean_division_equations; lia..|done]).
Qed.

(** ** val2valstr *)

Lemma maxval_exact w : 0 <= w <= 15 -> maxval_of w = 10 ^ w - 1.
Proof.
  intros Hw. assert (w = 0 \/ w = 1 \/ w = 2 \/ w = 3 \/ w = 4 \/ w = 5 \/ w = 6 \/ w = 7 \/ w = 8 \/ w = 9
    \/ w = 10 \/ w = 11 \/ w = 12 \/ w = 13 \/ w = 14 \/ w = 15) as Hd by lia.
  by repeat destruct Hd as [->|Hd]; [..|subst w].
Qed.

(** The value and the width that are printed. *)
Definition avg_value (value nsecs : Z) : Z := Z.quot (i64 (value + Z.quot nsecs 2)) nsecs.

(** val2valstr prints a value below 10^width - 1 as it is, padded to exactly
    the width. *)
Theorem val2valstr_fits value width nsecs :
  1 <= width <= 15 -> 0 <= value < 10 ^ width - 1 ->
  exists t, val2valstr value width false nsecs = Some t /\ t = pad width (dec value) /\
    length t = Z.to_nat width.
Proof.
  intros Hw Hv. unfold val2valstr. cbn [andb].
  rewrite (proj2 (Z.ltb_ge value 0)) by lia. rewrite maxval_exact by lia.
  rewrite (proj2 (Z.ltb_lt _ _)) by lia. eexists. split; [done|].
  rewrite app_nil_r, fmt_d_nonneg by lia. split; [done|]. apply pad_length; [lia|].
  apply dec_length_le; [lia|]. rewrite Z2Nat.id; lia.
Qed.

(** The loop of the exponent notation: the last digits are dropped, and the
    last one of them is remembered. *)
Lemma shorten_spec f k value exp remain :
  0 < k -> 0 <= value < 10 ^ (k + Z.of_nat f) ->
  exists v e r, shorten (S f) (10 ^ k - 1) value exp remain = Some (v, exp + e, r) /\
    0 <= e <= Z.of_nat f /\ v < 10 ^ k /\
    ((e = 0 /\ v = value /\ r = remain) \/
     (0 < e /\ 10 ^ (k - 1) <= v /\ v = value / 10 ^ e /\ r = (value / 10 ^ (e - 1)) mod 10)).
Proof.
  intros Hk. revert value exp remain. induction f as [|f IH]; intros value exp remain Hv.
  - rewrite Z.add_0_r in Hv. cbn [shorten]. rewrite (proj2 (Z.ltb_ge _ _)) by lia.
    exists value, 0, remain. rewrite Z.add_0_r. split; [done|]. split; [lia|]. split; [lia|]. by left.
  - change (shorten (S (S f)) (10 ^ k - 1) value exp remain) with
      (if 10 ^ k - 1 <? value
       then shorten (S f) (10 ^ k - 1) (Z.quot value 10) (exp + 1) (Z.rem value 10)
       else Some (value, exp, remain)).
    destruct (Z.ltb_spec (10 ^ k - 1) value) as [Hlt|Hge].
    + rewrite Z.quot_div_nonneg, Z.rem_mod_nonneg by lia.
      assert (Hp : 10 ^ (k + Z.of_nat (S f)) = 10 * 10 ^ (k + Z.of_nat f)).
      { rewrite <-Z.pow_succ_r by lia. f_equal. lia. }
      destruct (IH (value / 10) (exp + 1) (value mod 10)) as (v & e & r & -> & He & Hv' & Hc).
      { split; [apply Z.div_pos; lia | apply Z.div_lt_upper_bound; lia]. }
      exists v, (e + 1), r. split; [do 3 f_equal; lia|]. split; [lia|]. split; [done|]. right.
      split; [lia|]. destruct Hc as [(-> & -> & ->)|(Hpos & Hlo & -> & ->)].
      * cbn. rewrite Z.div_1_r. split; [|done]. apply Z.div_le_lower_bound; [lia|].
        rewrite <-Z.pow_succ_r by lia. replace (Z.succ (k - 1)) with k by lia. lia.
      * split; [done|]. rewrite !Z.div_div by lia. rewrite <-!Z.pow_succ_r by lia.
        split; do 3 f_equal; lia.
    + exists value, 0, remain. rewrite Z.add_0_r. split; [done|]. split; [lia|]. split; [lia|]. by left.
Qed.

(** Rounding the dropped digits keeps within half a unit of the exponent. *)
Lemma round_error value e : 0 < e -> 0 <= value ->
  let v := value / 10 ^ e in
  let r := (value / 10 ^ (e - 1)) mod 10 in
  2 * Z.abs ((if 5 <=? r then v + 1 else v) * 10 ^ e - value) <= 10 ^ e.
Proof.
  intros He Hv v r. assert (Hp : 0 < 10 ^ (e - 1)) by (apply Z.pow_pos_nonneg; lia).
  assert (E : 10 ^ e = 10 ^ (e - 1) * 10) by (rewrite Z.mul_comm, <-Z.pow_succ_r by lia; f_equal; lia).
  assert (Hve : v = value / 10 ^ (e - 1) / 10) by (unfold v; rewrite E, Z.div_div by lia; done).
  pose proof (Z.div_mod value (10 ^ (e - 1))) as D1. pose proof (Z.mod_pos_bound value (10 ^ (e - 1))) as B1.
  pose proof (Z.div_mod (value / 10 ^ (e - 1)) 10) as D2.
  pose proof (Z.mod_pos_bound (value / 10 ^ (e - 1)) 10) as B2. fold r in D2, B2. rewrite <-Hve in D2.
  rewrite E. set (P := 10 ^ (e - 1)) in *. set (q := value / P) in *.
  destruct (Z.leb_spec 5 r); nia.
Qed.

(** val2valstr prints a value that does not fit with an exponent: the
    mantissa is the value rounded to the digits left, and the width is kept
    unless rounding carries to one digit more. *)
Theorem val2valstr_exponent value width nsecs :
  3 <= width <= 15 -> 10 ^ width - 1 <= value < 2 ^ 63 ->
  exists v e t, val2valstr value width false nsecs = Some t /\
    t = pad (width - 2) (dec v) ++ "e"%char :: dec e /\ 0 < e /\
    2 * Z.abs (v * 10 ^ e - value) <= 10 ^ e /\
    10 ^ (width - 3) <= v <= 10 ^ (width - 2) /\
    (v < 10 ^ (width - 2) -> e < 10 -> length t = Z.to_nat width).
Proof.
  intros Hw Hv. unfold val2valstr. cbn [andb].
  rewrite (proj2 (Z.ltb_ge value 0)) by (pose proof (pow10_mono 3 width); lia).
  rewrite maxval_exact by lia. rewrite (proj2 (Z.ltb_ge value _)) by lia.
  rewrite (proj2 (Z.ltb_ge width 3)) by lia. rewrite maxval_exact by lia.
  pose proof (pow10_mono 1 (width - 2)) as Hm.
  destruct (shorten_spec 19 (width - 2) value 0 0) as (v & e & r & Es & He & Hvk & Hc); [lia| |].
  { split; [pose proof (pow10_mono 3 width); lia|].
    apply Z.lt_le_trans with (10 ^ 19); [lia | apply pow10_mono; lia]. }
  change SHORTEN_FUEL with 20%nat. rewrite Es. mstep. rewrite Z.add_0_l.
  destruct Hc as [(-> & -> & ->)|(Hpos & Hlo & -> & ->)].
  { exfalso. pose proof (Z.pow_add_r 10 (width - 2) 2) as Hp. replace (width - 2 + 2) with width in Hp by lia.
    lia. }
  pose proof (round_error value e Hpos) as Hr. cbn zeta in Hr.
  set (v := if 5 <=? _ then _ + 1 else _) in *. replace (width - 2 - 1) with (width - 3) in Hlo by lia.
  assert (Hvb : 10 ^ (width - 3) <= v <= 10 ^ (width - 2)) by (unfold v; destruct (_ <=? _); lia).
  pose proof (Z.pow_pos_nonneg 10 (width - 3)).
  rewrite !fmt_d_nonneg, app_nil_r by lia. exists v, e. eexists. split; [done|]. split; [done|].
  split; [done|]. split; [apply Hr; lia|]. split; [done|]. intros Hsmall H9.
  rewrite length_app, pad_length by (lia || (apply dec_length_le; [lia|]; rewrite Z2Nat.id; lia)).
  cbn [length]. pose proof (dec_length_le e 1 ltac:(lia) ltac:(cbn; lia)). pose proof (dec_nonempty e). lia.
Qed.

(** ** Concrete values *)

Definition at_noon (utime : Z) : tm.tm := tm.mk 7 34 12 1 0 120.

Lemma convtime_hhmm2secs_witness :
  hhmm2secs (0, 0) (take 5 (convtime at_noon 0)) = (1, Some 45240) /\ take 5 (convtime at_noon 0) = chars "12:34".
Proof.
  split; [|by vm_compute]. rewrite (convtime_hhmm2secs at_noon 0 (0, 0)); [by vm_compute|].
  unfold clock_ok. cbn. lia.
Defined.

Lemma val2elapstr_value_witness : elapsed_of (val2elapstr 93784) = 93784 /\ val2elapstr 93784 = chars "1d2h3m4s".
Proof. split; [apply val2elapstr_value; lia | by vm_compute]. Defined.

Lemma val2cpustr_width_witness : length (val2cpustr 8637999999) = 6%nat.
Proof. apply val2cpustr_width. lia. Defined.

Lemma val2valstr_fits_witness : exists t, val2valstr 420 6 false 1 = Some t /\ t = chars "   420".
Proof.
  destruct (val2valstr_fits 420 6 1) as (t & E & Et & _); [lia | lia |].
  exists t. split; [exact E|]. rewrite Et. by vm_compute.
Defined.

(** 99999 would fit, and takes one position more than there are. *)
Lemma val2valstr_exponent_witness : exists t,
  val2valstr 99999 5 false 1 = Some t /\ t = chars "1000e2" /\ length t = 6%nat.
Proof.
  destruct (val2valstr_exponent 99999 5 1) as (v & e & t & E & _); [lia | lia |].
  exists t. split; [exact E|]. vm_compute in E. injection E as <-. split; by vm_compute.
Defined.

(** ** The width of the texts of val2memstr

    The relative error of a [double] is at most [2 ^ -53]; this bounds the
    digits that the conversion [%.1lf] prints. *)

(** ** Rounding *)

Lemma rne_upper n d : 0 < d -> 2 * rne n d * d <= 2 * n + d.
Proof.
  intros Hd. unfold rne. pose proof (Z.div_mod n d). pose proof (Z.mod_pos_bound n d Hd).
  destruct (Z.ltb_spec (2 * (n mod d)) d); [nia|].
  destruct (Z.ltb_spec d (2 * (n mod d))); [nia|]. destruct (Z.even _); nia.
Qed.

Lemma rne_nonneg n d : 0 <= n -> 0 < d -> 0 <= rne n d.
Proof.
  intros Hn Hd. unfold rne. pose proof (Z.div_pos n d Hn Hd).
  repeat case_match; lia.
Qed.

(** [2 ^ e <= n / d], for an [e] of either sign. *)
Definition pow_le (n d e : Z) : Prop := d * 2 ^ Z.max 0 e <= n * 2 ^ Z.max 0 (- e).

Lemma pow_le_shift n d e j : 0 < n -> 0 < d -> 0 <= j -> pow_le n d e ->
  d * 2 ^ Z.max 0 (e - j) * 2 ^ j <= n * 2 ^ Z.max 0 (j - e).
Proof.
  intros Hn Hd Hj. unfold pow_le. destruct (Z.le_gt_cases 0 e) as [H0|H0].
  - rewrite (Z.max_r 0 e), (Z.max_l 0 (- e)) by lia. rewrite Z.pow_0_r. intros H.
    destruct (Z.le_gt_cases j e).
    + rewrite (Z.max_r 0 (e - j)), (Z.max_l 0 (j - e)) by lia.
      rewrite <-Z.mul_assoc, <-Z.pow_add_r by lia. replace (e - j + j) with e by lia. lia.
    + rewrite (Z.max_l 0 (e - j)), (Z.max_r 0 (j - e)) by lia.
      replace (2 ^ j) with (2 ^ e * 2 ^ (j - e)) by (rewrite <-Z.pow_add_r by lia; f_equal; lia).
      pose proof (Z.pow_pos_nonneg 2 (j - e)). nia.
  - rewrite (Z.max_l 0 e), (Z.max_r 0 (- e)) by lia. intros H.
    rewrite (Z.max_l 0 (e - j)), (Z.max_r 0 (j - e)) by lia.
    replace (2 ^ (j - e)) with (2 ^ (- e) * 2 ^ j) by (rewrite <-Z.pow_add_r by lia; f_equal; lia).
    pose proof (Z.pow_pos_nonneg 2 j). nia.
Qed.

Lemma pow_le_log n d : 0 < n -> 0 < d -> pow_le n d (Z.log2 n - Z.log2 d - 1).
Proof.
  intros Hn Hd. destruct (Z.log2_spec n Hn) as [N1 N2]. destruct (Z.log2_spec d Hd) as [D1 D2].
  pose proof (Z.log2_nonneg n). pose proof (Z.log2_nonneg d).
  set (a := Z.log2 n) in *. set (b := Z.log2 d) in *. unfold pow_le.
  destruct (Z.le_gt_cases 0 (a - b - 1)).
  - rewrite (Z.max_r 0 (a - b - 1)), Z.max_l, Z.pow_0_r by lia.
    assert (2 ^ a = 2 ^ Z.succ b * 2 ^ (a - b - 1)) by (rewrite <-Z.pow_add_r by lia; f_equal; lia).
    pose proof (Z.pow_pos_nonneg 2 (a - b - 1)). nia.
  - rewrite (Z.max_l 0 (a - b - 1)), Z.max_r, Z.pow_0_r by lia.
    assert (2 ^ Z.succ b = 2 ^ a * 2 ^ (- (a - b - 1))) by (rewrite <-Z.pow_add_r by lia; f_equal; lia).
    pose proof (Z.pow_pos_nonneg 2 (- (a - b - 1))). nia.
Qed.

(** A binary number of [p] bits is at most [1 + 2 ^ -p] times the fraction that
    it stands for. *)
Lemma bin_upper p n d : 1 <= p -> 0 <= n -> 0 < d ->
  0 <= (bin p n d).1 /\ 0 < (bin p n d).2 /\
  (bin p n d).1 * d * 2 ^ p <= n * (bin p n d).2 * (2 ^ p + 1).
Proof.
  intros Hp Hn Hd. unfold bin. destruct (Z.eqb_spec n 0) as [->|Hne]; [cbn [fst snd]; lia|].
  rewrite Z.abs_eq by done. cbn [fst snd]. assert (0 < n) as Hn' by lia. clear Hne Hn.
  set (k := Z.log2 n - Z.log2 d).
  set (e := if d * 2 ^ Z.max 0 k <=? n * 2 ^ Z.max 0 (- k) then k - (p - 1) else k - p).
  assert (H52 : d * 2 ^ Z.max 0 e * 2 ^ (p - 1) <= n * 2 ^ Z.max 0 (- e)).
  { unfold e. destruct (Z.leb_spec (d * 2 ^ Z.max 0 k) (n * 2 ^ Z.max 0 (- k))).
    - pose proof (pow_le_shift n d k (p - 1) Hn' Hd ltac:(lia)) as HS.
      replace (- (k - (p - 1))) with (p - 1 - k) by lia. by apply HS.
    - pose proof (pow_le_shift n d (k - 1) (p - 1) Hn' Hd ltac:(lia) (pow_le_log n d Hn' Hd)) as HS.
      replace (k - p) with (k - 1 - (p - 1)) by lia. replace (- (k - 1 - (p - 1))) with (p - 1 - (k - 1)) by lia.
      exact HS. }
  pose proof (Z.pow_pos_nonneg 2 (Z.max 0 e) ltac:(lia) ltac:(lia)) as P1.
  pose proof (Z.pow_pos_nonneg 2 (Z.max 0 (- e)) ltac:(lia) ltac:(lia)) as P2.
  pose proof (Z.pow_pos_nonneg 2 (p - 1) ltac:(lia) ltac:(lia)) as P3.
  replace (2 ^ p) with (2 * 2 ^ (p - 1)) by (rewrite <-Z.pow_succ_r by lia; f_equal; lia).
  set (E1 := 2 ^ Z.max 0 e) in *. set (E2 := 2 ^ Z.max 0 (- e)) in *. set (E3 := 2 ^ (p - 1)) in *.
  pose proof (rne_upper (n * E2) (d * E1) ltac:(nia)) as Hr.
  pose proof (rne_nonneg (n * E2) (d * E1) ltac:(nia) ltac:(nia)) as H0.
  set (m := rne (n * E2) (d * E1)) in *. split; [nia|]. split; [done|].
  replace (m * E1 * d) with (m * (d * E1)) by lia. nia.
Qed.

Lemma dbl_upper n d : 0 <= n -> 0 < d ->
  0 <= (dbl n d).1 /\ 0 < (dbl n d).2 /\
  (dbl n d).1 * d * 2 ^ 53 <= n * (dbl n d).2 * (2 ^ 53 + 1).
Proof. apply bin_upper. lia. Qed.

Lemma flt_upper n d : 0 <= n -> 0 < d ->
  0 <= (flt n d).1 /\ 0 < (flt n d).2 /\
  (flt n d).1 * d * 2 ^ 24 <= n * (flt n d).2 * (2 ^ 24 + 1).
Proof. apply bin_upper. lia. Qed.

(** ** Digits before the point *)

(** A value of at most [M] units prints at most [M] before the point. *)
Lemma fmt_unit_tenths value unit T :
  0 <= 10 * value <= T * unit -> 0 < unit -> 0 <= T <= 2 ^ 44 ->
  let v := dbl value 1 in let x := dbl v.1 (v.2 * unit) in
  0 <= x.1 /\ 0 <= rne (x.1 * 10) x.2 <= T.
Proof.
  intros Hv Hu HM v x. destruct (dbl_upper value 1) as (A1 & A2 & A3); [lia|lia|]. fold v in A1, A2, A3.
  destruct (dbl_upper v.1 (v.2 * unit)) as (B1 & B2 & B3); [done|nia|]. fold x in B1, B2, B3.
  split; [done|]. split; [apply rne_nonneg; lia|].
  pose proof (rne_upper (x.1 * 10) x.2 B2) as Hr. set (t := rne (x.1 * 10) x.2) in *.
  set (a := v.1) in *. set (b := v.2) in *. set (p := x.1) in *. set (q := x.2) in *.
  assert (C1 : 10 * p * (b * unit) * (2 ^ 53 * 2 ^ 53) <= T * q * ((2 ^ 53 + 1) * (2 ^ 53 + 1)) * (b * unit)).
  { rewrite Z.mul_1_r in A3.
    assert (10 * a * 2 ^ 53 <= T * unit * b * (2 ^ 53 + 1)) by nia.
    assert (p * (b * unit) * 2 ^ 53 * 2 ^ 53 <= a * 2 ^ 53 * (q * (2 ^ 53 + 1))) by nia.
    assert (10 * a * 2 ^ 53 * (q * (2 ^ 53 + 1)) <= T * unit * b * (2 ^ 53 + 1) * (q * (2 ^ 53 + 1))) by nia.
    nia. }
  assert (C2 : 10 * p * (2 ^ 53 * 2 ^ 53) <= T * q * ((2 ^ 53 + 1) * (2 ^ 53 + 1))).
  { apply (Z.mul_le_mono_pos_r _ _ (b * unit)); [nia|]. nia. }
  assert (C3 : 2 * t * q * 2 ^ 106 <= 2 * (T * q * ((2 ^ 53 + 1) * (2 ^ 53 + 1))) + q * 2 ^ 106).
  { replace (2 ^ 106) with (2 ^ 53 * 2 ^ 53) by done. nia. }
  assert (C4 : 2 * t * 2 ^ 106 <= 2 * (T * ((2 ^ 53 + 1) * (2 ^ 53 + 1))) + 2 ^ 106).
  { apply (Z.mul_le_mono_pos_r _ _ q); [done|]. nia. }
  cbn in C4. nia.
Qed.

Lemma fmt_unit_length width value unit M k :
  0 <= width -> 0 <= value <= M * unit -> 0 < unit -> 0 <= M <= 2 ^ 40 -> (0 < k)%nat ->
  M < 10 ^ Z.of_nat k ->
  (Z.to_nat width <= length (fmt_unit width value unit) <= Nat.max (Z.to_nat width) (k + 2))%nat.
Proof.
  intros Hw Hv Hu HM Hk Hkm. destruct (fmt_unit_tenths value unit (10 * M)) as [H1 H2]; [lia|done|lia|].
  unfold fmt_unit. cbn zeta in *. set (x := dbl (dbl value 1).1 ((dbl value 1).2 * unit)) in *.
  rewrite pad_length_max by done. unfold fmt_f. rewrite (proj2 (Z.ltb_ge x.1 0)) by done.
  change (10 ^ Z.of_nat 1) with 10. set (t := rne (x.1 * 10) x.2) in *. rewrite Z.abs_eq by lia.
  rewrite length_app. cbn [length]. rewrite fmt_0d_length by (lia || (apply Z.mod_pos_bound; lia)).
  pose proof (dec_length_le (t / 10) k Hk) as Hd.
  assert (0 <= t / 10 < 10 ^ Z.of_nat k).
  { split; [apply Z.div_pos; lia|]. apply Z.div_lt_upper_bound; lia. }
  specialize (Hd ltac:(done)). lia.
Qed.

(** ** val2memstr *)

(** The largest value for which a format is advised. *)
Definition format_limit (f : Z) : Z :=
  if f =? 0 then MAXBYTE else if f =? 1 then MAXKBYTE else if f =? 2 then MAXMBYTE
  else if f =? 3 then MAXGBYTE else MAXTBYTE.

Lemma mem_format_range v : 0 <= mem_format v <= 5.
Proof.
  unfold mem_format, ANYFORMAT, KBFORMAT, MBFORMAT, GBFORMAT, TBFORMAT, PBFORMAT.
  repeat case_match; lia.
Qed.

Lemma mem_format_limit v f : mem_format v <= f < 5 -> v <= format_limit f.
Proof.
  intros Hf. unfold mem_format, ANYFORMAT, KBFORMAT, MBFORMAT, GBFORMAT, TBFORMAT, PBFORMAT in Hf.
  unfold format_limit, MAXBYTE, MAXKBYTE, MAXMBYTE, MAXGBYTE, MAXTBYTE, ONEKBYTE, ONEMBYTE, ONEGBYTE, ONETBYTE in *.
  destruct (Z.leb_spec v 1024); destruct (Z.leb_spec v (1024 * 99999)); destruct (Z.leb_spec v (1048576 * 999));
  destruct (Z.leb_spec v (1073741824 * 999)); destruct (Z.leb_spec v (1099511627776 * 999));
  destruct (Z.eqb_spec f 0); destruct (Z.eqb_spec f 1); destruct (Z.eqb_spec f 2); destruct (Z.eqb_spec f 3); lia.
Qed.

(** The text for a format: [w] is the width, [sfx] the suffix. *)
Definition mem_text (w value aformat : Z) (sfx : text) : text :=
  if aformat =? ANYFORMAT then pad w (fmt_d value) ++ sfx
  else if aformat =? KBFORMAT then pad (w - 1) (fmt_d (Z.quot value ONEKBYTE)) ++ chars "K" ++ sfx
  else if aformat =? MBFORMAT then fmt_unit (w - 1) value ONEMBYTE ++ chars "M" ++ sfx
  else if aformat =? GBFORMAT then fmt_unit (w - 1) value ONEGBYTE ++ chars "G" ++ sfx
  else if aformat =? TBFORMAT then fmt_unit (w - 1) value ONETBYTE ++ chars "T" ++ sfx
  else if aformat =? PBFORMAT then fmt_unit (w - 1) value ONEPBYTE ++ chars "P" ++ sfx
  else chars "!TILT!".

(** Widths of a text when the value has at most [M] units of its format, [k]
    digits. *)
Lemma mem_text_unit w value unit c sfx M k :
  1 <= w -> 0 <= value <= M * unit -> 0 < unit -> 0 <= M <= 2 ^ 40 -> (0 < k)%nat -> M < 10 ^ Z.of_nat k ->
  (Z.to_nat w + length sfx <= length (fmt_unit (w - 1) value unit ++ [c] ++ sfx) <=
     Nat.max (Z.to_nat w) (k + 3) + length sfx)%nat.
Proof.
  intros Hw Hv Hu HM Hk Hkm. pose proof (fmt_unit_length (w - 1) value unit M k ltac:(lia) Hv Hu HM Hk Hkm).
  rewrite !length_app. cbn [length]. lia.
Qed.

Lemma mem_text_dec w value c sfx k :
  1 <= w -> 0 <= value < 10 ^ Z.of_nat k -> (0 < k)%nat ->
  (Z.to_nat w + length sfx <= length (pad (w - 1) (fmt_d value) ++ [c] ++ sfx) <=
     Nat.max (Z.to_nat w) (k + 1) + length sfx)%nat.
Proof.
  intros Hw Hv Hk. rewrite fmt_d_nonneg by lia. rewrite !length_app, pad_length_max by lia.
  pose proof (dec_length_le value k Hk Hv). cbn [length]. lia.
Qed.

(** Totals: exactly six positions up to 999 petabytes, never more than seven. *)
Lemma mem_text_total value aformat :
  0 <= value < 2 ^ 63 -> 0 <= aformat -> mem_format value <= aformat ->
  (length (mem_text 6 value aformat []) <= 7)%nat /\
  (value <= 999 * ONEPBYTE -> length (mem_text 6 value aformat []) = 6%nat).
Proof.
  intros Hv Hf Hm. unfold mem_text.
  pose proof (mem_format_limit value aformat) as HL.
  unfold format_limit, ANYFORMAT, KBFORMAT, MBFORMAT, GBFORMAT, TBFORMAT, PBFORMAT,
    MAXBYTE, MAXKBYTE, MAXMBYTE, MAXGBYTE, MAXTBYTE, ONEKBYTE, ONEMBYTE, ONEGBYTE, ONETBYTE, ONEPBYTE in *.
  unfold chars. cbn [String.list_ascii_of_string].
  destruct (Z.eqb_spec aformat 0); [|destruct (Z.eqb_spec aformat 1); [|destruct (Z.eqb_spec aformat 2);
    [|destruct (Z.eqb_spec aformat 3); [|destruct (Z.eqb_spec aformat 4); [|destruct (Z.eqb_spec aformat 5)]]]]].
  - rewrite app_nil_r, fmt_d_nonneg, pad_length by (lia || (apply (dec_length_le value 6); cbn; lia)).
    split; [lia|done].
  - pose proof (mem_text_dec 6 (Z.quot value 1024) "K"%char [] 5) as HD.
    rewrite Z.quot_div_nonneg in * by lia.
    destruct HD; [lia| |lia|cbn in *; lia].
    split; [apply Z.div_pos; lia | apply Z.div_lt_upper_bound; cbn; lia].
  - pose proof (mem_text_unit 6 value 1048576 "M"%char [] 999 3) as HD.
    destruct HD; [lia..|cbn; lia|cbn in *; lia].
  - pose proof (mem_text_unit 6 value 1073741824 "G"%char [] 999 3) as HD.
    destruct HD; [lia..|cbn; lia|cbn in *; lia].
  - pose proof (mem_text_unit 6 value 1099511627776 "T"%char [] 999 3) as HD.
    destruct HD; [lia..|cbn; lia|cbn in *; lia].
  - split.
    + pose proof (mem_text_unit 6 value 1125899906842624 "P"%char [] 8192 4) as HD.
      destruct HD; [lia..|cbn; lia|cbn in *; lia].
    + intros H999. pose proof (mem_text_unit 6 value 1125899906842624 "P"%char [] 999 3) as HD.
      destruct HD; [lia..|cbn; lia|cbn in *; lia].
  - cbn. split; [lia|done].
Qed.

Lemma val2memstr_total value pformat nsecs :
  0 <= value ->
  val2memstr value pformat false nsecs = mem_text 6 value (Z.max (mem_format value) pformat) [].
Proof.
  intros Hv. unfold val2memstr, mem_text. cbn [andb]. rewrite (proj2 (Z.ltb_ge value 0)) by done.
  replace (if mem_format value <=? pformat then pformat else mem_format value)
    with (Z.max (mem_format value) pformat); [done|].
  destruct (Z.leb_spec (mem_format value) pformat); lia.
Qed.

(** Totals. *)
Lemma val2memstr_total_width value pformat nsecs :
  0 <= value < 2 ^ 63 ->
  (length (val2memstr value pformat false nsecs) <= 7)%nat /\
  (value <= 999 * ONEPBYTE -> length (val2memstr value pformat false nsecs) = 6%nat).
Proof.
  intros Hv. rewrite val2memstr_total by lia. pose proof (mem_format_range value).
  apply mem_text_total; [done|lia|lia].
Qed.

(** Negative values: the format is chosen for ten times the size, so that there
    is a position for the sign. *)
Lemma rne_opp n d : 0 < d -> rne (- n) d = - rne n d.
Proof.
  intros Hd. unfold rne.
  assert (Hm : n mod d = 0 /\ - n / d = - (n / d) /\ (- n) mod d = 0 \/
    0 < n mod d /\ - n / d = - (n / d) - 1 /\ (- n) mod d = d - n mod d).
  { pose proof (Z.mod_pos_bound n d Hd). destruct (Z.eq_dec (n mod d) 0).
    - left. split; [done|]. split; [by apply Z_div_zero_opp_full | by apply Z_mod_zero_opp_full].
    - right. split; [lia|]. split; [apply Z_div_nz_opp_full; lia | by apply Z_mod_nz_opp_full]. }
  pose proof (Z.mod_pos_bound n d Hd). destruct Hm as [(E & -> & ->) | (E & -> & ->)].
  - rewrite E. rewrite (proj2 (Z.ltb_lt (2 * 0) d)) by lia. done.
  - destruct (Z.ltb_spec (2 * (n mod d)) d) as [H1|H1]; destruct (Z.ltb_spec d (2 * (n mod d))) as [H2|H2];
      destruct (Z.ltb_spec (2 * (d - n mod d)) d); destruct (Z.ltb_spec d (2 * (d - n mod d))); try lia.
    replace (- (n / d) - 1) with (- (n / d + 1)) by lia.
    rewrite Z.even_opp, Z.even_add. destruct (Z.even (n / d)); cbn; lia.
Qed.

Lemma dbl_opp n d : 0 < d -> dbl (- n) d = (- (dbl n d).1, (dbl n d).2).
Proof.
  intros Hd. unfold dbl, bin. destruct (Z.eqb_spec n 0) as [->|Hn]; [done|].
  rewrite (proj2 (Z.eqb_neq (- n) 0)) by lia. rewrite Z.abs_opp. cbn [fst snd].
  rewrite Z.mul_opp_l, rne_opp; [f_equal; lia|].
  pose proof (Z.pow_pos_nonneg 2). apply Z.mul_pos_pos; [done|]. apply Z.pow_pos_nonneg; lia.
Qed.

Lemma fmt_f_opp_length n d : 0 <= n -> 0 < d ->
  (length (fmt_f 1 (- n, d)) <= 1 + length (fmt_f 1 (n, d)))%nat.
Proof.
  intros Hn Hd. unfold fmt_f. cbn [fst snd]. rewrite Z.mul_opp_l, rne_opp, Z.abs_opp by done.
  rewrite (proj2 (Z.ltb_ge n 0)) by lia. destruct (- n <? 0); cbn; lia.
Qed.

Lemma fmt_unit_negative value unit T : 0 <= 10 * value <= T * unit -> 0 < unit -> 0 <= T < 1000 ->
  length (fmt_unit 5 (- value) unit) = 5%nat.
Proof.
  intros Hv Hu HT. unfold fmt_unit. cbn zeta. rewrite (dbl_opp value 1) by lia. cbn [fst snd].
  destruct (dbl_upper value 1) as (A1 & A2 & _); [lia|lia|].
  rewrite dbl_opp by nia. destruct (fmt_unit_tenths value unit T) as [H1 H2]; [lia|lia|lia|]. cbn zeta in *.
  set (v := dbl value 1) in *. destruct (dbl_upper v.1 (v.2 * unit)) as (B1 & B2 & _); [done|nia|].
  set (x := dbl v.1 (v.2 * unit)) in *. rewrite pad_length; [done|lia|].
  pose proof (fmt_f_opp_length x.1 x.2 B1 B2) as HL. etransitivity; [exact HL|].
  unfold fmt_f. cbn [fst snd]. rewrite (proj2 (Z.ltb_ge x.1 0)) by done. change (10 ^ Z.of_nat 1) with 10.
  set (t := rne (x.1 * 10) x.2) in *. rewrite Z.abs_eq, length_app by lia. cbn [length].
  rewrite fmt_0d_length by (lia || (apply Z.mod_pos_bound; lia)).
  assert (length (dec (t / 10)) <= 2)%nat; [|change (Z.to_nat 5) with 5%nat; lia].
  apply dec_length_le; [lia|]. split; [apply Z.div_pos; lia|]. apply Z.div_lt_upper_bound; cbn; lia.
Qed.

Lemma val2memstr_negative value nsecs : 0 < value -> 10 * value <= 999 * ONEPBYTE ->
  length (val2memstr (- value) KBFORMAT false nsecs) = 6%nat.
Proof.
  intros Hv Ho. unfold val2memstr. rewrite (proj2 (Z.ltb_lt (- value) 0)) by lia. cbn [andb].
  rewrite Z.opp_involutive, i64_id by (unfold in_i64, ONEPBYTE in *; lia). set (v := value * 10).
  set (f := if mem_format v <=? KBFORMAT then KBFORMAT else mem_format v).
  assert (Hf : mem_format v <= f /\ 1 <= f <= 5).
  { pose proof (mem_format_range v). unfold f, KBFORMAT. destruct (Z.leb_spec (mem_format v) 1); lia. }
  destruct Hf as [Hm Hf]. pose proof (mem_format_limit v f) as HL. assert (Ev : v = value * 10) by done. clearbody v f.
  unfold format_limit, ANYFORMAT, KBFORMAT, MBFORMAT, GBFORMAT, TBFORMAT, PBFORMAT,
    MAXBYTE, MAXKBYTE, MAXMBYTE, MAXGBYTE, MAXTBYTE, ONEKBYTE, ONEMBYTE, ONEGBYTE, ONETBYTE, ONEPBYTE in *.
  destruct (Z.eqb_spec f 0); [lia|]. unfold chars. cbn [String.list_ascii_of_string]. rewrite !app_nil_r.
  destruct (Z.eqb_spec f 1); [|destruct (Z.eqb_spec f 2); [|destruct (Z.eqb_spec f 3);
    [|destruct (Z.eqb_spec f 4); [|destruct (Z.eqb_spec f 5)]]]]; try lia; subst f; rewrite length_app; cbn [length].
  - rewrite Z.quot_opp_l, Z.quot_div_nonneg by lia. rewrite pad_length; [done|lia|].
    assert (value / 1024 < 10000) by (apply Z.div_lt_upper_bound; lia). pose proof (Z.div_pos value 1024 ltac:(lia) ltac:(lia)).
    unfold fmt_d. destruct (Z.ltb_spec (- (value / 1024)) 0) as [Hs|Hs]; cbn [length].
    + rewrite Z.opp_involutive. pose proof (dec_length_le (value / 1024) 4 ltac:(lia) ltac:(lia)) as HD.
      change (Z.to_nat (6 - 1)) with 5%nat. lia.
    + replace (- (value / 1024)) with 0 by lia. vm_compute. lia.
  - change (6 - 1) with 5. rewrite (fmt_unit_negative value 1048576 999); lia.
  - change (6 - 1) with 5. rewrite (fmt_unit_negative value 1073741824 999); lia.
  - change (6 - 1) with 5. rewrite (fmt_unit_negative value 1099511627776 999); lia.
  - change (6 - 1) with 5. rewrite (fmt_unit_negative value 1125899906842624 999); lia.
Qed.

(** Six positions, for growth as well as for shrinkage. *)
Lemma val2memstr_six value nsecs : - (999 * ONEPBYTE) <= 10 * value -> value <= 999 * ONEPBYTE ->
  length (val2memstr value KBFORMAT false nsecs) = 6%nat.
Proof.
  intros Hl Hu. destruct (Z.le_gt_cases 0 value).
  - apply (val2memstr_total_width value KBFORMAT nsecs); [unfold ONEPBYTE in *; lia | done].
  - rewrite <-(Z.opp_involutive value). apply val2memstr_negative; lia.
Qed.

(** Averages: never more than seven positions when the product that verifies
    the value does not overflow. *)
Lemma mem_text_average value verify aformat :
  0 <= value -> 100 * value <= verify < 2 ^ 63 -> 0 <= aformat -> mem_format verify <= aformat ->
  (length (mem_text 4 value aformat (chars "/s")) <= 7)%nat.
Proof.
  intros Hv Hver Hf Hm. unfold mem_text.
  pose proof (mem_format_limit verify aformat) as HL.
  unfold format_limit, ANYFORMAT, KBFORMAT, MBFORMAT, GBFORMAT, TBFORMAT, PBFORMAT,
    MAXBYTE, MAXKBYTE, MAXMBYTE, MAXGBYTE, MAXTBYTE, ONEKBYTE, ONEMBYTE, ONEGBYTE, ONETBYTE, ONEPBYTE in *.
  unfold chars. cbn [String.list_ascii_of_string].
  destruct (Z.eqb_spec aformat 0); [|destruct (Z.eqb_spec aformat 1); [|destruct (Z.eqb_spec aformat 2);
    [|destruct (Z.eqb_spec aformat 3); [|destruct (Z.eqb_spec aformat 4); [|destruct (Z.eqb_spec aformat 5)]]]]].
  - rewrite length_app, fmt_d_nonneg, pad_length by (lia || (apply (dec_length_le value 4); cbn; lia)).
    cbn. lia.
  - pose proof (mem_text_dec 4 (Z.quot value 1024) "K"%char (chars "/s") 3) as HD.
    rewrite Z.quot_div_nonneg in * by lia.
    destruct HD; [lia| |lia|cbn in *; lia].
    split; [apply Z.div_pos; lia | apply Z.div_lt_upper_bound; cbn; lia].
  - pose proof (mem_text_unit 4 value 1048576 "M"%char (chars "/s") 10 2) as HD.
    destruct HD; [lia..|cbn; lia|cbn in *; lia].
  - pose proof (mem_text_unit 4 value 1073741824 "G"%char (chars "/s") 10 2) as HD.
    destruct HD; [lia..|cbn; lia|cbn in *; lia].
  - pose proof (mem_text_unit 4 value 1099511627776 "T"%char (chars "/s") 10 2) as HD.
    destruct HD; [lia..|cbn; lia|cbn in *; lia].
  - pose proof (mem_text_unit 4 value 1125899906842624 "P"%char (chars "/s") 82 2) as HD.
    destruct HD; [lia..|cbn; lia|cbn in *; lia].
  - cbn. lia.
Qed.

(** Averages. *)
Lemma val2memstr_average value pformat nsecs : 0 <= value -> 100 * value < 2 ^ 63 -> 0 < nsecs ->
  val2memstr value pformat true nsecs =
    mem_text 4 (Z.quot value nsecs) (Z.max (mem_format (Z.quot (value * 100) nsecs)) pformat) (chars "/s").
Proof.
  intros Hv Ho Hn. unfold val2memstr, mem_text. rewrite (proj2 (Z.eqb_neq nsecs 0)) by lia. cbn [andb negb].
  rewrite (proj2 (Z.ltb_ge value 0)) by done. rewrite i64_id by (unfold in_i64; lia).
  set (verify := Z.quot (value * 100) nsecs).
  replace (if mem_format verify <=? pformat then pformat else mem_format verify)
    with (Z.max (mem_format verify) pformat); [done|].
  destruct (Z.leb_spec (mem_format verify) pformat); lia.
Qed.

Lemma val2memstr_average_width value pformat nsecs :
  0 <= value -> 100 * value < 2 ^ 63 -> 0 < nsecs ->
  (length (val2memstr value pformat true nsecs) <= 7)%nat.
Proof.
  intros Hv Ho Hn. rewrite val2memstr_average by done. set (verify := Z.quot (value * 100) nsecs).
  pose proof (mem_format_range verify). unfold verify in *.
  rewrite !Z.quot_div_nonneg in * by lia. apply (mem_text_average _ (value * 100 / nsecs)); [| |lia|lia].
  - apply Z.div_pos; lia.
  - split; [|apply Z.div_lt_upper_bound; nia]. apply Z.div_le_lower_bound; [done|].
    pose proof (Z.mul_div_le value nsecs Hn). nia.
Qed.

(** One digit before the point. *)
Lemma fmt_unit_three value unit : 0 <= 10 * value <= 99 * unit -> 0 < unit -> length (fmt_unit 3 value unit) = 3%nat.
Proof.
  intros Hv Hu. destruct (fmt_unit_tenths value unit 99) as [H1 H2]; [done|done|lia|].
  unfold fmt_unit. cbn zeta in *. set (x := dbl (dbl value 1).1 ((dbl value 1).2 * unit)) in *.
  rewrite pad_length; [done|lia|]. unfold fmt_f. rewrite (proj2 (Z.ltb_ge x.1 0)) by done.
  change (10 ^ Z.of_nat 1) with 10. set (t := rne (x.1 * 10) x.2) in *. rewrite Z.abs_eq by lia.
  rewrite length_app. cbn [length]. rewrite fmt_0d_length by (lia || (apply Z.mod_pos_bound; lia)).
  assert (length (dec (t / 10)) <= 1)%nat; [|change (Z.to_nat 3) with 3%nat; lia].
  apply dec_length_le; [lia|]. split; [apply Z.div_pos; lia|]. apply Z.div_lt_upper_bound; cbn; lia.
Qed.

(** The unit that is chosen for [value] in [nsecs] seconds leaves one digit: the
    average is at most 9.9 units, or so large that the next unit is chosen. *)
Definition one_digit (value nsecs : Z) : Prop :=
  Forall (fun unit => 10 * value <= 99 * unit * nsecs \/ (999 * unit + 1) * nsecs <= 100 * value)
    [ONEMBYTE; ONEGBYTE; ONETBYTE] /\ 10 * value <= 99 * ONEPBYTE * nsecs.

(** Then an average has exactly six positions. *)
Lemma val2memstr_average_six value nsecs : 0 <= value -> 100 * value < 2 ^ 63 -> 0 < nsecs -> one_digit value nsecs ->
  length (val2memstr value KBFORMAT true nsecs) = 6%nat.
Proof.
  intros Hv Ho Hn [HU HP]. repeat (apply Forall_cons in HU as [? HU]). clear HU.
  rewrite val2memstr_average by done.
  pose proof (mem_format_range (Z.quot (value * 100) nsecs)) as HR.
  set (verify := Z.quot (value * 100) nsecs) in *. set (f := Z.max (mem_format verify) KBFORMAT).
  assert (Hf : mem_format verify <= f /\ 1 <= f <= 5) by (unfold f, KBFORMAT; lia).
  destruct Hf as [Hm Hf]. pose proof (mem_format_limit verify f) as HL. clearbody f.
  assert (Ev : verify = value * 100 / nsecs) by (unfold verify; rewrite Z.quot_div_nonneg; lia). clearbody verify.
  rewrite Z.quot_div_nonneg by lia. set (a := value / nsecs).
  assert (Ha : 0 <= a /\ a * nsecs <= value /\ (a * 100 <= verify)).
  { pose proof (Z.mul_div_le value nsecs Hn). split; [apply Z.div_pos; lia|]. split; [unfold a; nia|].
    rewrite Ev. apply Z.div_le_lower_bound; [done|]. unfold a. nia. }
  assert (Hbig : forall unit, (999 * unit + 1) * nsecs <= 100 * value -> 999 * unit < verify).
  { intros unit Hb. rewrite Ev. apply Z.lt_le_trans with (999 * unit + 1); [lia|]. apply Z.div_le_lower_bound; nia. }
  assert (Hone : forall unit, 10 * value <= 99 * unit * nsecs -> 10 * a <= 99 * unit).
  { intros unit Hb. apply (Z.mul_le_mono_pos_r _ _ nsecs); [done|]. nia. }
  clearbody a. unfold mem_text.
  unfold format_limit, ANYFORMAT, KBFORMAT, MBFORMAT, GBFORMAT, TBFORMAT, PBFORMAT,
    MAXBYTE, MAXKBYTE, MAXMBYTE, MAXGBYTE, MAXTBYTE in *.
  destruct (Z.eqb_spec f 0); [lia|].
  destruct (Z.eqb_spec f 1); [|destruct (Z.eqb_spec f 2); [|destruct (Z.eqb_spec f 3);
    [|destruct (Z.eqb_spec f 4); [|destruct (Z.eqb_spec f 5)]]]]; try lia; subst f; cbn [Z.eqb] in HL.
  - unfold ONEKBYTE in *. rewrite Z.quot_div_nonneg by lia.
    destruct (mem_text_dec 4 (a / 1024) "K"%char (chars "/s") 3) as [L1 L2]; [lia| |lia|cbn in *; lia].
    split; [apply Z.div_pos; lia | apply Z.div_lt_upper_bound; cbn; lia].
  - rewrite length_app, fmt_unit_three; [done| |unfold ONEMBYTE; lia]. split; [lia|]. apply Hone.
    destruct H as [|Hb%Hbig]; [done|]. lia.
  - rewrite length_app, fmt_unit_three; [done| |unfold ONEGBYTE; lia]. split; [lia|]. apply Hone.
    destruct H0 as [|Hb%Hbig]; [done|]. lia.
  - rewrite length_app, fmt_unit_three; [done| |unfold ONETBYTE; lia]. split; [lia|]. apply Hone.
    destruct H1 as [|Hb%Hbig]; [done|]. lia.
  - rewrite length_app, fmt_unit_three; [done| |unfold ONEPBYTE; lia]. split; [lia|]. by apply Hone.
Qed.

(** val2memstr prints a total in at most seven characters, and in exactly six
    up to 999 petabytes; it prints an average per second in at most seven
    characters when a hundred times the value is a 64-bit integer. *)
Theorem val2memstr_width value pformat nsecs :
  0 <= value < 2 ^ 63 ->
  (length (val2memstr value pformat false nsecs) <= 7)%nat /\
  (value <= 999 * ONEPBYTE -> length (val2memstr value pformat false nsecs) = 6%nat) /\
  (100 * value < 2 ^ 63 -> 0 < nsecs -> (length (val2memstr value pformat true nsecs) <= 7)%nat).
Proof.
  intros Hv. destruct (val2memstr_total_width value pformat nsecs Hv) as [H1 H2].
  split; [done|]. split; [done|]. intros Ho Hn. apply val2memstr_average_width; lia.
Qed.

(** ** Concrete values *)

Lemma val2memstr_width_witness :
  length (val2memstr (5 * 2 ^ 30) KBFORMAT false 10) = 6%nat /\
  (length (val2memstr (5 * 2 ^ 30) KBFORMAT true 10) <= 7)%nat.
Proof.
  destruct (val2memstr_width (5 * 2 ^ 30) KBFORMAT 10) as (_ & H2 & H3); [lia|].
  split; [apply H2 | apply H3]; unfold ONEPBYTE; lia.
Defined.
