(* ===== verification/SstatStores.v ===== *)
(** * Stores to the members of [struct sstat]

    One definition [set_structure_member] per member that [photosyst] stores by
    itself. *)
From S2P Require Import Prelude Sstat.

Definition set_memstat_physmem (v : Z) (x : memstat.memstat) : memstat.memstat :=
  memstat.mk v x.(memstat.freemem) x.(memstat.buffermem) x.(memstat.slabmem) x.(memstat.cachemem)
    x.(memstat.cachedrt) x.(memstat.totswap) x.(memstat.freeswap) x.(memstat.pgscans) x.(memstat.pgsteal)
    x.(memstat.allocstall) x.(memstat.swouts) x.(memstat.swins) x.(memstat.commitlim) x.(memstat.committed)
    x.(memstat.shmem) x.(memstat.shmrss) x.(memstat.shmswp) x.(memstat.slabreclaim) x.(memstat.tothugepage)
    x.(memstat.freehugepage) x.(memstat.hugepagesz) x.(memstat.vmwballoon) x.(memstat.cfuture).
Definition set_memstat_freemem (v : Z) (x : memstat.memstat) : memstat.memstat :=
  memstat.mk x.(memstat.physmem) v x.(memstat.buffermem) x.(memstat.slabmem) x.(memstat.cachemem)
    x.(memstat.cachedrt) x.(memstat.totswap) x.(memstat.freeswap) x.(memstat.pgscans) x.(memstat.pgsteal)
    x.(memstat.allocstall) x.(memstat.swouts) x.(memstat.swins) x.(memstat.commitlim) x.(memstat.committed)
    x.(memstat.shmem) x.(memstat.shmrss) x.(memstat.shmswp) x.(memstat.slabreclaim) x.(memstat.tothugepage)
    x.(memstat.freehugepage) x.(memstat.hugepagesz) x.(memstat.vmwballoon) x.(memstat.cfuture).
Definition set_memstat_buffermem (v : Z) (x : memstat.memstat) : memstat.memstat :=
  memstat.mk x.(memstat.physmem) x.(memstat.freemem) v x.(memstat.slabmem) x.(memstat.cachemem)
    x.(memstat.cachedrt) x.(memstat.totswap) x.(memstat.freeswap) x.(memstat.pgscans) x.(memstat.pgsteal)
    x.(memstat.allocstall) x.(memstat.swouts) x.(memstat.swins) x.(memstat.commitlim) x.(memstat.committed)
    x.(memstat.shmem) x.(memstat.shmrss) x.(memstat.shmswp) x.(memstat.slabreclaim) x.(memstat.tothugepage)
    x.(memstat.freehugepage) x.(memstat.hugepagesz) x.(memstat.vmwballoon) x.(memstat.cfuture).
Definition set_memstat_slabmem (v : Z) (x : memstat.memstat) : memstat.memstat :=
  memstat.mk x.(memstat.physmem) x.(memstat.freemem) x.(memstat.buffermem) v x.(memstat.cachemem)
    x.(memstat.cachedrt) x.(memstat.totswap) x.(memstat.freeswap) x.(memstat.pgscans) x.(memstat.pgsteal)
    x.(memstat.allocstall) x.(memstat.swouts) x.(memstat.swins) x.(memstat.commitlim) x.(memstat.committed)
    x.(memstat.shmem) x.(memstat.shmrss) x.(memstat.shmswp) x.(memstat.slabreclaim) x.(memstat.tothugepage)
    x.(memstat.freehugepage) x.(memstat.hugepagesz) x.(memstat.vmwballoon) x.(memstat.cfuture).
Definition set_memstat_cachemem (v : Z) (x : memstat.memstat) : memstat.memstat :=
  memstat.mk x.(memstat.physmem) x.(memstat.freemem) x.(memstat.buffermem) x.(memstat.slabmem) v
    x.(memstat.cachedrt) x.(memstat.totswap) x.(memstat.freeswap) x.(memstat.pgscans) x.(memstat.pgsteal)
    x.(memstat.allocstall) x.(memstat.swouts) x.(memstat.swins) x.(memstat.commitlim) x.(memstat.committed)
    x.(memstat.shmem) x.(memstat.shmrss) x.(memstat.shmswp) x.(memstat.slabreclaim) x.(memstat.tothugepage)
    x.(memstat.freehugepage) x.(memstat.hugepagesz) x.(memstat.vmwballoon) x.(memstat.cfuture).
Definition set_memstat_cachedrt (v : Z) (x : memstat.memstat) : memstat.memstat :=
  memstat.mk x.(memstat.physmem) x.(memstat.freemem) x.(memstat.buffermem) x.(memstat.slabmem)
    x.(memstat.cachemem) v x.(memstat.totswap) x.(memstat.freeswap) x.(memstat.pgscans) x.(memstat.pgsteal)
    x.(memstat.allocstall) x.(memstat.swouts) x.(memstat.swins) x.(memstat.commitlim) x.(memstat.committed)
    x.(memstat.shmem) x.(memstat.shmrss) x.(memstat.shmswp) x.(memstat.slabreclaim) x.(memstat.tothugepage)
    x.(memstat.freehugepage) x.(memstat.hugepagesz) x.(memstat.vmwballoon) x.(memstat.cfuture).
Definition set_memstat_totswap (v : Z) (x : memstat.memstat) : memstat.memstat :=
  memstat.mk x.(memstat.physmem) x.(memstat.freemem) x.(memstat.buffermem) x.(memstat.slabmem)
    x.(memstat.cachemem) x.(memstat.cachedrt) v x.(memstat.freeswap) x.(memstat.pgscans) x.(memstat.pgsteal)
    x.(memstat.allocstall) x.(memstat.swouts) x.(memstat.swins) x.(memstat.commitlim) x.(memstat.committed)
    x.(memstat.shmem) x.(memstat.shmrss) x.(memstat.shmswp) x.(memstat.slabreclaim) x.(memstat.tothugepage)
    x.(memstat.freehugepage) x.(memstat.hugepagesz) x.(memstat.vmwballoon) x.(memstat.cfuture).
Definition set_memstat_freeswap (v : Z) (x : memstat.memstat) : memstat.memstat :=
  memstat.mk x.(memstat.physmem) x.(memstat.freemem) x.(memstat.buffermem) x.(memstat.slabmem)
    x.(memstat.cachemem) x.(memstat.cachedrt) x.(memstat.totswap) v x.(memstat.pgscans) x.(memstat.pgsteal)
    x.(memstat.allocstall) x.(memstat.swouts) x.(memstat.swins) x.(memstat.commitlim) x.(memstat.committed)
    x.(memstat.shmem) x.(memstat.shmrss) x.(memstat.shmswp) x.(memstat.slabreclaim) x.(memstat.tothugepage)
    x.(memstat.freehugepage) x.(memstat.hugepagesz) x.(memstat.vmwballoon) x.(memstat.cfuture).
Definition set_memstat_pgscans (v : Z) (x : memstat.memstat) : memstat.memstat :=
  memstat.mk x.(memstat.physmem) x.(memstat.freemem) x.(memstat.buffermem) x.(memstat.slabmem)
    x.(memstat.cachemem) x.(memstat.cachedrt) x.(memstat.totswap) x.(memstat.freeswap) v x.(memstat.pgsteal)
    x.(memstat.allocstall) x.(memstat.swouts) x.(memstat.swins) x.(memstat.commitlim) x.(memstat.committed)
    x.(memstat.shmem) x.(memstat.shmrss) x.(memstat.shmswp) x.(memstat.slabreclaim) x.(memstat.tothugepage)
    x.(memstat.freehugepage) x.(memstat.hugepagesz) x.(memstat.vmwballoon) x.(memstat.cfuture).
Definition set_memstat_pgsteal (v : Z) (x : memstat.memstat) : memstat.memstat :=
  memstat.mk x.(memstat.physmem) x.(memstat.freemem) x.(memstat.buffermem) x.(memstat.slabmem)
    x.(memstat.cachemem) x.(memstat.cachedrt) x.(memstat.totswap) x.(memstat.freeswap) x.(memstat.pgscans) v
    x.(memstat.allocstall) x.(memstat.swouts) x.(memstat.swins) x.(memstat.commitlim) x.(memstat.committed)
    x.(memstat.shmem) x.(memstat.shmrss) x.(memstat.shmswp) x.(memstat.slabreclaim) x.(memstat.tothugepage)
    x.(memstat.freehugepage) x.(memstat.hugepagesz) x.(memstat.vmwballoon) x.(memstat.cfuture).
Definition set_memstat_allocstall (v : Z) (x : memstat.memstat) : memstat.memstat :=
  memstat.mk x.(memstat.physmem) x.(memstat.freemem) x.(memstat.buffermem) x.(memstat.slabmem)
    x.(memstat.cachemem) x.(memstat.cachedrt) x.(memstat.totswap) x.(memstat.freeswap) x.(memstat.pgscans)
    x.(memstat.pgsteal) v x.(memstat.swouts) x.(memstat.swins) x.(memstat.commitlim) x.(memstat.committed)
    x.(memstat.shmem) x.(memstat.shmrss) x.(memstat.shmswp) x.(memstat.slabreclaim) x.(memstat.tothugepage)
    x.(memstat.freehugepage) x.(memstat.hugepagesz) x.(memstat.vmwballoon) x.(memstat.cfuture).
Definition set_memstat_swouts (v : Z) (x : memstat.memstat) : memstat.memstat :=
  memstat.mk x.(memstat.physmem) x.(memstat.freemem) x.(memstat.buffermem) x.(memstat.slabmem)
    x.(memstat.cachemem) x.(memstat.cachedrt) x.(memstat.totswap) x.(memstat.freeswap) x.(memstat.pgscans)
    x.(memstat.pgsteal) x.(memstat.allocstall) v x.(memstat.swins) x.(memstat.commitlim) x.(memstat.committed)
    x.(memstat.shmem) x.(memstat.shmrss) x.(memstat.shmswp) x.(memstat.slabreclaim) x.(memstat.tothugepage)
    x.(memstat.freehugepage) x.(memstat.hugepagesz) x.(memstat.vmwballoon) x.(memstat.cfuture).
Definition set_memstat_swins (v : Z) (x : memstat.memstat) : memstat.memstat :=
  memstat.mk x.(memstat.physmem) x.(memstat.freemem) x.(memstat.buffermem) x.(memstat.slabmem)
    x.(memstat.cachemem) x.(memstat.cachedrt) x.(memstat.totswap) x.(memstat.freeswap) x.(memstat.pgscans)
    x.(memstat.pgsteal) x.(memstat.allocstall) x.(memstat.swouts) v x.(memstat.commitlim)
    x.(memstat.committed) x.(memstat.shmem) x.(memstat.shmrss) x.(memstat.shmswp) x.(memstat.slabreclaim)
    x.(memstat.tothugepage) x.(memstat.freehugepage) x.(memstat.hugepagesz) x.(memstat.vmwballoon)
    x.(memstat.cfuture).
Definition set_memstat_commitlim (v : Z) (x : memstat.memstat) : memstat.memstat :=
  memstat.mk x.(memstat.physmem) x.(memstat.freemem) x.(memstat.buffermem) x.(memstat.slabmem)
    x.(memstat.cachemem) x.(memstat.cachedrt) x.(memstat.totswap) x.(memstat.freeswap) x.(memstat.pgscans)
    x.(memstat.pgsteal) x.(memstat.allocstall) x.(memstat.swouts) x.(memstat.swins) v x.(memstat.committed)
    x.(memstat.shmem) x.(memstat.shmrss) x.(memstat.shmswp) x.(memstat.slabreclaim) x.(memstat.tothugepage)
    x.(memstat.freehugepage) x.(memstat.hugepagesz) x.(memstat.vmwballoon) x.(memstat.cfuture).
Definition set_memstat_committed (v : Z) (x : memstat.memstat) : memstat.memstat :=
  memstat.mk x.(memstat.physmem) x.(memstat.freemem) x.(memstat.buffermem) x.(memstat.slabmem)
    x.(memstat.cachemem) x.(memstat.cachedrt) x.(memstat.totswap) x.(memstat.freeswap) x.(memstat.pgscans)
    x.(memstat.pgsteal) x.(memstat.allocstall) x.(memstat.swouts) x.(memstat.swins) x.(memstat.commitlim) v
    x.(memstat.shmem) x.(memstat.shmrss) x.(memstat.shmswp) x.(memstat.slabreclaim) x.(memstat.tothugepage)
    x.(memstat.freehugepage) x.(memstat.hugepagesz) x.(memstat.vmwballoon) x.(memstat.cfuture).
Definition set_memstat_shmem (v : Z) (x : memstat.memstat) : memstat.memstat :=
  memstat.mk x.(memstat.physmem) x.(memstat.freemem) x.(memstat.buffermem) x.(memstat.slabmem)
    x.(memstat.cachemem) x.(memstat.cachedrt) x.(memstat.totswap) x.(memstat.freeswap) x.(memstat.pgscans)
    x.(memstat.pgsteal) x.(memstat.allocstall) x.(memstat.swouts) x.(memstat.swins) x.(memstat.commitlim)
    x.(memstat.committed) v x.(memstat.shmrss) x.(memstat.shmswp) x.(memstat.slabreclaim)
    x.(memstat.tothugepage) x.(memstat.freehugepage) x.(memstat.hugepagesz) x.(memstat.vmwballoon)
    x.(memstat.cfuture).
Definition set_memstat_shmrss (v : Z) (x : memstat.memstat) : memstat.memstat :=
  memstat.mk x.(memstat.physmem) x.(memstat.freemem) x.(memstat.buffermem) x.(memstat.slabmem)
    x.(memstat.cachemem) x.(memstat.cachedrt) x.(memstat.totswap) x.(memstat.freeswap) x.(memstat.pgscans)
    x.(memstat.pgsteal) x.(memstat.allocstall) x.(memstat.swouts) x.(memstat.swins) x.(memstat.commitlim)
    x.(memstat.committed) x.(memstat.shmem) v x.(memstat.shmswp) x.(memstat.slabreclaim)
    x.(memstat.tothugepage) x.(memstat.freehugepage) x.(memstat.hugepagesz) x.(memstat.vmwballoon)
    x.(memstat.cfuture).
Definition set_memstat_shmswp (v : Z) (x : memstat.memstat) : memstat.memstat :=
  memstat.mk x.(memstat.physmem) x.(memstat.freemem) x.(memstat.buffermem) x.(memstat.slabmem)
    x.(memstat.cachemem) x.(memstat.cachedrt) x.(memstat.totswap) x.(memstat.freeswap) x.(memstat.pgscans)
    x.(memstat.pgsteal) x.(memstat.allocstall) x.(memstat.swouts) x.(memstat.swins) x.(memstat.commitlim)
    x.(memstat.committed) x.(memstat.shmem) x.(memstat.shmrss) v x.(memstat.slabreclaim)
    x.(memstat.tothugepage) x.(memstat.freehugepage) x.(memstat.hugepagesz) x.(memstat.vmwballoon)
    x.(memstat.cfuture).
Definition set_memstat_slabreclaim (v : Z) (x : memstat.memstat) : memstat.memstat :=
  memstat.mk x.(memstat.physmem) x.(memstat.freemem) x.(memstat.buffermem) x.(memstat.slabmem)
    x.(memstat.cachemem) x.(memstat.cachedrt) x.(memstat.totswap) x.(memstat.freeswap) x.(memstat.pgscans)
    x.(memstat.pgsteal) x.(memstat.allocstall) x.(memstat.swouts) x.(memstat.swins) x.(memstat.commitlim)
    x.(memstat.committed) x.(memstat.shmem) x.(memstat.shmrss) x.(memstat.shmswp) v x.(memstat.tothugepage)
    x.(memstat.freehugepage) x.(memstat.hugepagesz) x.(memstat.vmwballoon) x.(memstat.cfuture).
Definition set_memstat_tothugepage (v : Z) (x : memstat.memstat) : memstat.memstat :=
  memstat.mk x.(memstat.physmem) x.(memstat.freemem) x.(memstat.buffermem) x.(memstat.slabmem)
    x.(memstat.cachemem) x.(memstat.cachedrt) x.(memstat.totswap) x.(memstat.freeswap) x.(memstat.pgscans)
    x.(memstat.pgsteal) x.(memstat.allocstall) x.(memstat.swouts) x.(memstat.swins) x.(memstat.commitlim)
    x.(memstat.committed) x.(memstat.shmem) x.(memstat.shmrss) x.(memstat.shmswp) x.(memstat.slabreclaim) v
    x.(memstat.freehugepage) x.(memstat.hugepagesz) x.(memstat.vmwballoon) x.(memstat.cfuture).
Definition set_memstat_freehugepage (v : Z) (x : memstat.memstat) : memstat.memstat :=
  memstat.mk x.(memstat.physmem) x.(memstat.freemem) x.(memstat.buffermem) x.(memstat.slabmem)
    x.(memstat.cachemem) x.(memstat.cachedrt) x.(memstat.totswap) x.(memstat.freeswap) x.(memstat.pgscans)
    x.(memstat.pgsteal) x.(memstat.allocstall) x.(memstat.swouts) x.(memstat.swins) x.(memstat.commitlim)
    x.(memstat.committed) x.(memstat.shmem) x.(memstat.shmrss) x.(memstat.shmswp) x.(memstat.slabreclaim)
    x.(memstat.tothugepage) v x.(memstat.hugepagesz) x.(memstat.vmwballoon) x.(memstat.cfuture).
Definition set_memstat_hugepagesz (v : Z) (x : memstat.memstat) : memstat.memstat :=
  memstat.mk x.(memstat.physmem) x.(memstat.freemem) x.(memstat.buffermem) x.(memstat.slabmem)
    x.(memstat.cachemem) x.(memstat.cachedrt) x.(memstat.totswap) x.(memstat.freeswap) x.(memstat.pgscans)
    x.(memstat.pgsteal) x.(memstat.allocstall) x.(memstat.swouts) x.(memstat.swins) x.(memstat.commitlim)
    x.(memstat.committed) x.(memstat.shmem) x.(memstat.shmrss) x.(memstat.shmswp) x.(memstat.slabreclaim)
    x.(memstat.tothugepage) x.(memstat.freehugepage) v x.(memstat.vmwballoon) x.(memstat.cfuture).
Definition set_memstat_vmwballoon (v : Z) (x : memstat.memstat) : memstat.memstat :=
  memstat.mk x.(memstat.physmem) x.(memstat.freemem) x.(memstat.buffermem) x.(memstat.slabmem)
    x.(memstat.cachemem) x.(memstat.cachedrt) x.(memstat.totswap) x.(memstat.freeswap) x.(memstat.pgscans)
    x.(memstat.pgsteal) x.(memstat.allocstall) x.(memstat.swouts) x.(memstat.swins) x.(memstat.commitlim)
    x.(memstat.committed) x.(memstat.shmem) x.(memstat.shmrss) x.(memstat.shmswp) x.(memstat.slabreclaim)
    x.(memstat.tothugepage) x.(memstat.freehugepage) x.(memstat.hugepagesz) v x.(memstat.cfuture).

Definition set_freqcnt_maxfreq (v : Z) (x : freqcnt.freqcnt) : freqcnt.freqcnt :=
  freqcnt.mk v x.(freqcnt.cnt) x.(freqcnt.ticks).
Definition set_freqcnt_cnt (v : Z) (x : freqcnt.freqcnt) : freqcnt.freqcnt :=
  freqcnt.mk x.(freqcnt.maxfreq) v x.(freqcnt.ticks).
Definition set_freqcnt_ticks (v : Z) (x : freqcnt.freqcnt) : freqcnt.freqcnt :=
  freqcnt.mk x.(freqcnt.maxfreq) x.(freqcnt.cnt) v.

Definition set_percpu_freqcnt (v : freqcnt.freqcnt) (x : percpu.percpu) : percpu.percpu :=
  percpu.mk x.(percpu.cpunr) x.(percpu.stime) x.(percpu.utime) x.(percpu.ntime) x.(percpu.itime)
    x.(percpu.wtime) x.(percpu.Itime) x.(percpu.Stime) x.(percpu.steal) x.(percpu.guest) v x.(percpu.instr)
    x.(percpu.cycle) x.(percpu.cfuture).
Definition set_percpu_instr (v : Z) (x : percpu.percpu) : percpu.percpu :=
  percpu.mk x.(percpu.cpunr) x.(percpu.stime) x.(percpu.utime) x.(percpu.ntime) x.(percpu.itime)
    x.(percpu.wtime) x.(percpu.Itime) x.(percpu.Stime) x.(percpu.steal) x.(percpu.guest) x.(percpu.freqcnt) v
    x.(percpu.cycle) x.(percpu.cfuture).
Definition set_percpu_cycle (v : Z) (x : percpu.percpu) : percpu.percpu :=
  percpu.mk x.(percpu.cpunr) x.(percpu.stime) x.(percpu.utime) x.(percpu.ntime) x.(percpu.itime)
    x.(percpu.wtime) x.(percpu.Itime) x.(percpu.Stime) x.(percpu.steal) x.(percpu.guest) x.(percpu.freqcnt)
    x.(percpu.instr) v x.(percpu.cfuture).

Definition set_cpustat_nrcpu (v : Z) (x : cpustat.cpustat) : cpustat.cpustat :=
  cpustat.mk v x.(cpustat.devint) x.(cpustat.csw) x.(cpustat.nprocs) x.(cpustat.lavg1) x.(cpustat.lavg5)
    x.(cpustat.lavg15) x.(cpustat.cfuture) x.(cpustat.all) x.(cpustat.cpu).
Definition set_cpustat_devint (v : Z) (x : cpustat.cpustat) : cpustat.cpustat :=
  cpustat.mk x.(cpustat.nrcpu) v x.(cpustat.csw) x.(cpustat.nprocs) x.(cpustat.lavg1) x.(cpustat.lavg5)
    x.(cpustat.lavg15) x.(cpustat.cfuture) x.(cpustat.all) x.(cpustat.cpu).
Definition set_cpustat_csw (v : Z) (x : cpustat.cpustat) : cpustat.cpustat :=
  cpustat.mk x.(cpustat.nrcpu) x.(cpustat.devint) v x.(cpustat.nprocs) x.(cpustat.lavg1) x.(cpustat.lavg5)
    x.(cpustat.lavg15) x.(cpustat.cfuture) x.(cpustat.all) x.(cpustat.cpu).
Definition set_cpustat_nprocs (v : Z) (x : cpustat.cpustat) : cpustat.cpustat :=
  cpustat.mk x.(cpustat.nrcpu) x.(cpustat.devint) x.(cpustat.csw) v x.(cpustat.lavg1) x.(cpustat.lavg5)
    x.(cpustat.lavg15) x.(cpustat.cfuture) x.(cpustat.all) x.(cpustat.cpu).
Definition set_cpustat_all (v : percpu.percpu) (x : cpustat.cpustat) : cpustat.cpustat :=
  cpustat.mk x.(cpustat.nrcpu) x.(cpustat.devint) x.(cpustat.csw) x.(cpustat.nprocs) x.(cpustat.lavg1)
    x.(cpustat.lavg5) x.(cpustat.lavg15) x.(cpustat.cfuture) v x.(cpustat.cpu).
Definition set_cpustat_cpu (v : list percpu.percpu) (x : cpustat.cpustat) : cpustat.cpustat :=
  cpustat.mk x.(cpustat.nrcpu) x.(cpustat.devint) x.(cpustat.csw) x.(cpustat.nprocs) x.(cpustat.lavg1)
    x.(cpustat.lavg5) x.(cpustat.lavg15) x.(cpustat.cfuture) x.(cpustat.all) v.

Definition set_perdsk_name (v : string) (x : perdsk.perdsk) : perdsk.perdsk :=
  perdsk.mk v x.(perdsk.nread) x.(perdsk.nrsect) x.(perdsk.nwrite) x.(perdsk.nwsect) x.(perdsk.io_ms)
    x.(perdsk.avque) x.(perdsk.cfuture).
Definition set_perdsk_nread (v : Z) (x : perdsk.perdsk) : perdsk.perdsk :=
  perdsk.mk x.(perdsk.name) v x.(perdsk.nrsect) x.(perdsk.nwrite) x.(perdsk.nwsect) x.(perdsk.io_ms)
    x.(perdsk.avque) x.(perdsk.cfuture).
Definition set_perdsk_nrsect (v : Z) (x : perdsk.perdsk) : perdsk.perdsk :=
  perdsk.mk x.(perdsk.name) x.(perdsk.nread) v x.(perdsk.nwrite) x.(perdsk.nwsect) x.(perdsk.io_ms)
    x.(perdsk.avque) x.(perdsk.cfuture).
Definition set_perdsk_nwrite (v : Z) (x : perdsk.perdsk) : perdsk.perdsk :=
  perdsk.mk x.(perdsk.name) x.(perdsk.nread) x.(perdsk.nrsect) v x.(perdsk.nwsect) x.(perdsk.io_ms)
    x.(perdsk.avque) x.(perdsk.cfuture).
Definition set_perdsk_nwsect (v : Z) (x : perdsk.perdsk) : perdsk.perdsk :=
  perdsk.mk x.(perdsk.name) x.(perdsk.nread) x.(perdsk.nrsect) x.(perdsk.nwrite) v x.(perdsk.io_ms)
    x.(perdsk.avque) x.(perdsk.cfuture).
Definition set_perdsk_io_ms (v : Z) (x : perdsk.perdsk) : perdsk.perdsk :=
  perdsk.mk x.(perdsk.name) x.(perdsk.nread) x.(perdsk.nrsect) x.(perdsk.nwrite) x.(perdsk.nwsect) v
    x.(perdsk.avque) x.(perdsk.cfuture).
Definition set_perdsk_avque (v : Z) (x : perdsk.perdsk) : perdsk.perdsk :=
  perdsk.mk x.(perdsk.name) x.(perdsk.nread) x.(perdsk.nrsect) x.(perdsk.nwrite) x.(perdsk.nwsect)
    x.(perdsk.io_ms) v x.(perdsk.cfuture).

Definition set_dskstat_ndsk (v : Z) (x : dskstat.dskstat) : dskstat.dskstat :=
  dskstat.mk v x.(dskstat.nmdd) x.(dskstat.nlvm) x.(dskstat.dsk) x.(dskstat.mdd) x.(dskstat.lvm).
Definition set_dskstat_nmdd (v : Z) (x : dskstat.dskstat) : dskstat.dskstat :=
  dskstat.mk x.(dskstat.ndsk) v x.(dskstat.nlvm) x.(dskstat.dsk) x.(dskstat.mdd) x.(dskstat.lvm).
Definition set_dskstat_nlvm (v : Z) (x : dskstat.dskstat) : dskstat.dskstat :=
  dskstat.mk x.(dskstat.ndsk) x.(dskstat.nmdd) v x.(dskstat.dsk) x.(dskstat.mdd) x.(dskstat.lvm).
Definition set_dskstat_dsk (v : list perdsk.perdsk) (x : dskstat.dskstat) : dskstat.dskstat :=
  dskstat.mk x.(dskstat.ndsk) x.(dskstat.nmdd) x.(dskstat.nlvm) v x.(dskstat.mdd) x.(dskstat.lvm).
Definition set_dskstat_mdd (v : list perdsk.perdsk) (x : dskstat.dskstat) : dskstat.dskstat :=
  dskstat.mk x.(dskstat.ndsk) x.(dskstat.nmdd) x.(dskstat.nlvm) x.(dskstat.dsk) v x.(dskstat.lvm).
Definition set_dskstat_lvm (v : list perdsk.perdsk) (x : dskstat.dskstat) : dskstat.dskstat :=
  dskstat.mk x.(dskstat.ndsk) x.(dskstat.nmdd) x.(dskstat.nlvm) x.(dskstat.dsk) x.(dskstat.mdd) v.

Definition set_perintf_name (v : string) (x : perintf.perintf) : perintf.perintf :=
  perintf.mk v x.(perintf.rbyte) x.(perintf.rpack) x.(perintf.rerrs) x.(perintf.rdrop) x.(perintf.rfifo)
    x.(perintf.rframe) x.(perintf.rcompr) x.(perintf.rmultic) x.(perintf.rfuture) x.(perintf.sbyte)
    x.(perintf.spack) x.(perintf.serrs) x.(perintf.sdrop) x.(perintf.sfifo) x.(perintf.scollis)
    x.(perintf.scarrier) x.(perintf.scompr) x.(perintf.sfuture) x.(perintf.type) x.(perintf.speed)
    x.(perintf.speedp) x.(perintf.duplex) x.(perintf.cfuture).
Definition set_perintf_rbyte (v : Z) (x : perintf.perintf) : perintf.perintf :=
  perintf.mk x.(perintf.name) v x.(perintf.rpack) x.(perintf.rerrs) x.(perintf.rdrop) x.(perintf.rfifo)
    x.(perintf.rframe) x.(perintf.rcompr) x.(perintf.rmultic) x.(perintf.rfuture) x.(perintf.sbyte)
    x.(perintf.spack) x.(perintf.serrs) x.(perintf.sdrop) x.(perintf.sfifo) x.(perintf.scollis)
    x.(perintf.scarrier) x.(perintf.scompr) x.(perintf.sfuture) x.(perintf.type) x.(perintf.speed)
    x.(perintf.speedp) x.(perintf.duplex) x.(perintf.cfuture).
Definition set_perintf_rpack (v : Z) (x : perintf.perintf) : perintf.perintf :=
  perintf.mk x.(perintf.name) x.(perintf.rbyte) v x.(perintf.rerrs) x.(perintf.rdrop) x.(perintf.rfifo)
    x.(perintf.rframe) x.(perintf.rcompr) x.(perintf.rmultic) x.(perintf.rfuture) x.(perintf.sbyte)
    x.(perintf.spack) x.(perintf.serrs) x.(perintf.sdrop) x.(perintf.sfifo) x.(perintf.scollis)
    x.(perintf.scarrier) x.(perintf.scompr) x.(perintf.sfuture) x.(perintf.type) x.(perintf.speed)
    x.(perintf.speedp) x.(perintf.duplex) x.(perintf.cfuture).
Definition set_perintf_rerrs (v : Z) (x : perintf.perintf) : perintf.perintf :=
  perintf.mk x.(perintf.name) x.(perintf.rbyte) x.(perintf.rpack) v x.(perintf.rdrop) x.(perintf.rfifo)
    x.(perintf.rframe) x.(perintf.rcompr) x.(perintf.rmultic) x.(perintf.rfuture) x.(perintf.sbyte)
    x.(perintf.spack) x.(perintf.serrs) x.(perintf.sdrop) x.(perintf.sfifo) x.(perintf.scollis)
    x.(perintf.scarrier) x.(perintf.scompr) x.(perintf.sfuture) x.(perintf.type) x.(perintf.speed)
    x.(perintf.speedp) x.(perintf.duplex) x.(perintf.cfuture).
Definition set_perintf_rdrop (v : Z) (x : perintf.perintf) : perintf.perintf :=
  perintf.mk x.(perintf.name) x.(perintf.rbyte) x.(perintf.rpack) x.(perintf.rerrs) v x.(perintf.rfifo)
    x.(perintf.rframe) x.(perintf.rcompr) x.(perintf.rmultic) x.(perintf.rfuture) x.(perintf.sbyte)
    x.(perintf.spack) x.(perintf.serrs) x.(perintf.sdrop) x.(perintf.sfifo) x.(perintf.scollis)
    x.(perintf.scarrier) x.(perintf.scompr) x.(perintf.sfuture) x.(perintf.type) x.(perintf.speed)
    x.(perintf.speedp) x.(perintf.duplex) x.(perintf.cfuture).
Definition set_perintf_rfifo (v : Z) (x : perintf.perintf) : perintf.perintf :=
  perintf.mk x.(perintf.name) x.(perintf.rbyte) x.(perintf.rpack) x.(perintf.rerrs) x.(perintf.rdrop) v
    x.(perintf.rframe) x.(perintf.rcompr) x.(perintf.rmultic) x.(perintf.rfuture) x.(perintf.sbyte)
    x.(perintf.spack) x.(perintf.serrs) x.(perintf.sdrop) x.(perintf.sfifo) x.(perintf.scollis)
    x.(perintf.scarrier) x.(perintf.scompr) x.(perintf.sfuture) x.(perintf.type) x.(perintf.speed)
    x.(perintf.speedp) x.(perintf.duplex) x.(perintf.cfuture).
Definition set_perintf_rframe (v : Z) (x : perintf.perintf) : perintf.perintf :=
  perintf.mk x.(perintf.name) x.(perintf.rbyte) x.(perintf.rpack) x.(perintf.rerrs) x.(perintf.rdrop)
    x.(perintf.rfifo) v x.(perintf.rcompr) x.(perintf.rmultic) x.(perintf.rfuture) x.(perintf.sbyte)
    x.(perintf.spack) x.(perintf.serrs) x.(perintf.sdrop) x.(perintf.sfifo) x.(perintf.scollis)
    x.(perintf.scarrier) x.(perintf.scompr) x.(perintf.sfuture) x.(perintf.type) x.(perintf.speed)
    x.(perintf.speedp) x.(perintf.duplex) x.(perintf.cfuture).
Definition set_perintf_rcompr (v : Z) (x : perintf.perintf) : perintf.perintf :=
  perintf.mk x.(perintf.name) x.(perintf.rbyte) x.(perintf.rpack) x.(perintf.rerrs) x.(perintf.rdrop)
    x.(perintf.rfifo) x.(perintf.rframe) v x.(perintf.rmultic) x.(perintf.rfuture) x.(perintf.sbyte)
    x.(perintf.spack) x.(perintf.serrs) x.(perintf.sdrop) x.(perintf.sfifo) x.(perintf.scollis)
    x.(perintf.scarrier) x.(perintf.scompr) x.(perintf.sfuture) x.(perintf.type) x.(perintf.speed)
    x.(perintf.speedp) x.(perintf.duplex) x.(perintf.cfuture).
Definition set_perintf_rmultic (v : Z) (x : perintf.perintf) : perintf.perintf :=
  perintf.mk x.(perintf.name) x.(perintf.rbyte) x.(perintf.rpack) x.(perintf.rerrs) x.(perintf.rdrop)
    x.(perintf.rfifo) x.(perintf.rframe) x.(perintf.rcompr) v x.(perintf.rfuture) x.(perintf.sbyte)
    x.(perintf.spack) x.(perintf.serrs) x.(perintf.sdrop) x.(perintf.sfifo) x.(perintf.scollis)
    x.(perintf.scarrier) x.(perintf.scompr) x.(perintf.sfuture) x.(perintf.type) x.(perintf.speed)
    x.(perintf.speedp) x.(perintf.duplex) x.(perintf.cfuture).
Definition set_perintf_sbyte (v : Z) (x : perintf.perintf) : perintf.perintf :=
  perintf.mk x.(perintf.name) x.(perintf.rbyte) x.(perintf.rpack) x.(perintf.rerrs) x.(perintf.rdrop)
    x.(perintf.rfifo) x.(perintf.rframe) x.(perintf.rcompr) x.(perintf.rmultic) x.(perintf.rfuture) v
    x.(perintf.spack) x.(perintf.serrs) x.(perintf.sdrop) x.(perintf.sfifo) x.(perintf.scollis)
    x.(perintf.scarrier) x.(perintf.scompr) x.(perintf.sfuture) x.(perintf.type) x.(perintf.speed)
    x.(perintf.speedp) x.(perintf.duplex) x.(perintf.cfuture).
Definition set_perintf_spack (v : Z) (x : perintf.perintf) : perintf.perintf :=
  perintf.mk x.(perintf.name) x.(perintf.rbyte) x.(perintf.rpack) x.(perintf.rerrs) x.(perintf.rdrop)
    x.(perintf.rfifo) x.(perintf.rframe) x.(perintf.rcompr) x.(perintf.rmultic) x.(perintf.rfuture)
    x.(perintf.sbyte) v x.(perintf.serrs) x.(perintf.sdrop) x.(perintf.sfifo) x.(perintf.scollis)
    x.(perintf.scarrier) x.(perintf.scompr) x.(perintf.sfuture) x.(perintf.type) x.(perintf.speed)
    x.(perintf.speedp) x.(perintf.duplex) x.(perintf.cfuture).
Definition set_perintf_serrs (v : Z) (x : perintf.perintf) : perintf.perintf :=
  perintf.mk x.(perintf.name) x.(perintf.rbyte) x.(perintf.rpack) x.(perintf.rerrs) x.(perintf.rdrop)
    x.(perintf.rfifo) x.(perintf.rframe) x.(perintf.rcompr) x.(perintf.rmultic) x.(perintf.rfuture)
    x.(perintf.sbyte) x.(perintf.spack) v x.(perintf.sdrop) x.(perintf.sfifo) x.(perintf.scollis)
    x.(perintf.scarrier) x.(perintf.scompr) x.(perintf.sfuture) x.(perintf.type) x.(perintf.speed)
    x.(perintf.speedp) x.(perintf.duplex) x.(perintf.cfuture).
Definition set_perintf_sdrop (v : Z) (x : perintf.perintf) : perintf.perintf :=
  perintf.mk x.(perintf.name) x.(perintf.rbyte) x.(perintf.rpack) x.(perintf.rerrs) x.(perintf.rdrop)
    x.(perintf.rfifo) x.(perintf.rframe) x.(perintf.rcompr) x.(perintf.rmultic) x.(perintf.rfuture)
    x.(perintf.sbyte) x.(perintf.spack) x.(perintf.serrs) v x.(perintf.sfifo) x.(perintf.scollis)
    x.(perintf.scarrier) x.(perintf.scompr) x.(perintf.sfuture) x.(perintf.type) x.(perintf.speed)
    x.(perintf.speedp) x.(perintf.duplex) x.(perintf.cfuture).
Definition set_perintf_sfifo (v : Z) (x : perintf.perintf) : perintf.perintf :=
  perintf.mk x.(perintf.name) x.(perintf.rbyte) x.(perintf.rpack) x.(perintf.rerrs) x.(perintf.rdrop)
    x.(perintf.rfifo) x.(perintf.rframe) x.(perintf.rcompr) x.(perintf.rmultic) x.(perintf.rfuture)
    x.(perintf.sbyte) x.(perintf.spack) x.(perintf.serrs) x.(perintf.sdrop) v x.(perintf.scollis)
    x.(perintf.scarrier) x.(perintf.scompr) x.(perintf.sfuture) x.(perintf.type) x.(perintf.speed)
    x.(perintf.speedp) x.(perintf.duplex) x.(perintf.cfuture).
Definition set_perintf_scollis (v : Z) (x : perintf.perintf) : perintf.perintf :=
  perintf.mk x.(perintf.name) x.(perintf.rbyte) x.(perintf.rpack) x.(perintf.rerrs) x.(perintf.rdrop)
    x.(perintf.rfifo) x.(perintf.rframe) x.(perintf.rcompr) x.(perintf.rmultic) x.(perintf.rfuture)
    x.(perintf.sbyte) x.(perintf.spack) x.(perintf.serrs) x.(perintf.sdrop) x.(perintf.sfifo) v
    x.(perintf.scarrier) x.(perintf.scompr) x.(perintf.sfuture) x.(perintf.type) x.(perintf.speed)
    x.(perintf.speedp) x.(perintf.duplex) x.(perintf.cfuture).
Definition set_perintf_scarrier (v : Z) (x : perintf.perintf) : perintf.perintf :=
  perintf.mk x.(perintf.name) x.(perintf.rbyte) x.(perintf.rpack) x.(perintf.rerrs) x.(perintf.rdrop)
    x.(perintf.rfifo) x.(perintf.rframe) x.(perintf.rcompr) x.(perintf.rmultic) x.(perintf.rfuture)
    x.(perintf.sbyte) x.(perintf.spack) x.(perintf.serrs) x.(perintf.sdrop) x.(perintf.sfifo)
    x.(perintf.scollis) v x.(perintf.scompr) x.(perintf.sfuture) x.(perintf.type) x.(perintf.speed)
    x.(perintf.speedp) x.(perintf.duplex) x.(perintf.cfuture).
Definition set_perintf_scompr (v : Z) (x : perintf.perintf) : perintf.perintf :=
  perintf.mk x.(perintf.name) x.(perintf.rbyte) x.(perintf.rpack) x.(perintf.rerrs) x.(perintf.rdrop)
    x.(perintf.rfifo) x.(perintf.rframe) x.(perintf.rcompr) x.(perintf.rmultic) x.(perintf.rfuture)
    x.(perintf.sbyte) x.(perintf.spack) x.(perintf.serrs) x.(perintf.sdrop) x.(perintf.sfifo)
    x.(perintf.scollis) x.(perintf.scarrier) v x.(perintf.sfuture) x.(perintf.type) x.(perintf.speed)
    x.(perintf.speedp) x.(perintf.duplex) x.(perintf.cfuture).

Definition set_intfstat_nrintf (v : Z) (x : intfstat.intfstat) : intfstat.intfstat :=
  intfstat.mk v x.(intfstat.intf).
Definition set_intfstat_intf (v : list perintf.perintf) (x : intfstat.intfstat) : intfstat.intfstat :=
  intfstat.mk x.(intfstat.nrintf) v.

Definition set_nfsserver_rpcread (v : Z) (x : nfsserver.nfsserver) : nfsserver.nfsserver :=
  nfsserver.mk x.(nfsserver.netcnt) x.(nfsserver.netudpcnt) x.(nfsserver.nettcpcnt) x.(nfsserver.nettcpcon)
    x.(nfsserver.rpccnt) x.(nfsserver.rpcbadfmt) x.(nfsserver.rpcbadaut) x.(nfsserver.rpcbadcln) v
    x.(nfsserver.rpcwrite) x.(nfsserver.rchits) x.(nfsserver.rcmiss) x.(nfsserver.rcnoca)
    x.(nfsserver.nrbytes) x.(nfsserver.nwbytes) x.(nfsserver.future).
Definition set_nfsserver_rpcwrite (v : Z) (x : nfsserver.nfsserver) : nfsserver.nfsserver :=
  nfsserver.mk x.(nfsserver.netcnt) x.(nfsserver.netudpcnt) x.(nfsserver.nettcpcnt) x.(nfsserver.nettcpcon)
    x.(nfsserver.rpccnt) x.(nfsserver.rpcbadfmt) x.(nfsserver.rpcbadaut) x.(nfsserver.rpcbadcln)
    x.(nfsserver.rpcread) v x.(nfsserver.rchits) x.(nfsserver.rcmiss) x.(nfsserver.rcnoca)
    x.(nfsserver.nrbytes) x.(nfsserver.nwbytes) x.(nfsserver.future).

Definition set_nfsclient_rpcread (v : Z) (x : nfsclient.nfsclient) : nfsclient.nfsclient :=
  nfsclient.mk x.(nfsclient.rpccnt) x.(nfsclient.rpcretrans) x.(nfsclient.rpcautrefresh) v
    x.(nfsclient.rpcwrite) x.(nfsclient.future).
Definition set_nfsclient_rpcwrite (v : Z) (x : nfsclient.nfsclient) : nfsclient.nfsclient :=
  nfsclient.mk x.(nfsclient.rpccnt) x.(nfsclient.rpcretrans) x.(nfsclient.rpcautrefresh) x.(nfsclient.rpcread)
    v x.(nfsclient.future).

Definition set_pernfsmount_mountdev (v : string) (x : pernfsmount.pernfsmount) : pernfsmount.pernfsmount :=
  pernfsmount.mk v x.(pernfsmount.age) x.(pernfsmount.bytesread) x.(pernfsmount.byteswrite)
    x.(pernfsmount.bytesdread) x.(pernfsmount.bytesdwrite) x.(pernfsmount.bytestotread)
    x.(pernfsmount.bytestotwrite) x.(pernfsmount.pagesmread) x.(pernfsmount.pagesmwrite)
    x.(pernfsmount.future).
Definition set_pernfsmount_age (v : Z) (x : pernfsmount.pernfsmount) : pernfsmount.pernfsmount :=
  pernfsmount.mk x.(pernfsmount.mountdev) v x.(pernfsmount.bytesread) x.(pernfsmount.byteswrite)
    x.(pernfsmount.bytesdread) x.(pernfsmount.bytesdwrite) x.(pernfsmount.bytestotread)
    x.(pernfsmount.bytestotwrite) x.(pernfsmount.pagesmread) x.(pernfsmount.pagesmwrite)
    x.(pernfsmount.future).

Definition set_nfsmounts_nrmounts (v : Z) (x : nfsmounts.nfsmounts) : nfsmounts.nfsmounts :=
  nfsmounts.mk v x.(nfsmounts.nfsmnt).
Definition set_nfsmounts_nfsmnt (v : list pernfsmount.pernfsmount) (x : nfsmounts.nfsmounts) : nfsmounts.nfsmounts :=
  nfsmounts.mk x.(nfsmounts.nrmounts) v.

Definition set_nfsstat_server (v : nfsserver.nfsserver) (x : nfsstat.nfsstat) : nfsstat.nfsstat :=
  nfsstat.mk v x.(nfsstat.client) x.(nfsstat.nfsmounts).
Definition set_nfsstat_client (v : nfsclient.nfsclient) (x : nfsstat.nfsstat) : nfsstat.nfsstat :=
  nfsstat.mk x.(nfsstat.server) v x.(nfsstat.nfsmounts).
Definition set_nfsstat_nfsmounts (v : nfsmounts.nfsmounts) (x : nfsstat.nfsstat) : nfsstat.nfsstat :=
  nfsstat.mk x.(nfsstat.server) x.(nfsstat.client) v.

Definition set_percontainer_ctid (v : Z) (x : percontainer.percontainer) : percontainer.percontainer :=
  percontainer.mk v x.(percontainer.numproc) x.(percontainer.system) x.(percontainer.user)
    x.(percontainer.nice) x.(percontainer.uptime) x.(percontainer.physpages).
Definition set_percontainer_numproc (v : Z) (x : percontainer.percontainer) : percontainer.percontainer :=
  percontainer.mk x.(percontainer.ctid) v x.(percontainer.system) x.(percontainer.user) x.(percontainer.nice)
    x.(percontainer.uptime) x.(percontainer.physpages).
Definition set_percontainer_physpages (v : Z) (x : percontainer.percontainer) : percontainer.percontainer :=
  percontainer.mk x.(percontainer.ctid) x.(percontainer.numproc) x.(percontainer.system) x.(percontainer.user)
    x.(percontainer.nice) x.(percontainer.uptime) v.

Definition set_contstat_nrcontainer (v : Z) (x : contstat.contstat) : contstat.contstat :=
  contstat.mk v x.(contstat.cont).
Definition set_contstat_cont (v : list percontainer.percontainer) (x : contstat.contstat) : contstat.contstat :=
  contstat.mk x.(contstat.nrcontainer) v.

Definition set_netstat_ipv4 (v : ipv4_stats.ipv4_stats) (x : netstat.netstat) : netstat.netstat :=
  netstat.mk v x.(netstat.icmpv4) x.(netstat.udpv4) x.(netstat.ipv6) x.(netstat.icmpv6) x.(netstat.udpv6)
    x.(netstat.tcp).
Definition set_netstat_icmpv4 (v : icmpv4_stats.icmpv4_stats) (x : netstat.netstat) : netstat.netstat :=
  netstat.mk x.(netstat.ipv4) v x.(netstat.udpv4) x.(netstat.ipv6) x.(netstat.icmpv6) x.(netstat.udpv6)
    x.(netstat.tcp).
Definition set_netstat_udpv4 (v : udpv4_stats.udpv4_stats) (x : netstat.netstat) : netstat.netstat :=
  netstat.mk x.(netstat.ipv4) x.(netstat.icmpv4) v x.(netstat.ipv6) x.(netstat.icmpv6) x.(netstat.udpv6)
    x.(netstat.tcp).
Definition set_netstat_ipv6 (v : ipv6_stats.ipv6_stats) (x : netstat.netstat) : netstat.netstat :=
  netstat.mk x.(netstat.ipv4) x.(netstat.icmpv4) x.(netstat.udpv4) v x.(netstat.icmpv6) x.(netstat.udpv6)
    x.(netstat.tcp).
Definition set_netstat_icmpv6 (v : icmpv6_stats.icmpv6_stats) (x : netstat.netstat) : netstat.netstat :=
  netstat.mk x.(netstat.ipv4) x.(netstat.icmpv4) x.(netstat.udpv4) x.(netstat.ipv6) v x.(netstat.udpv6)
    x.(netstat.tcp).
Definition set_netstat_udpv6 (v : udpv6_stats.udpv6_stats) (x : netstat.netstat) : netstat.netstat :=
  netstat.mk x.(netstat.ipv4) x.(netstat.icmpv4) x.(netstat.udpv4) x.(netstat.ipv6) x.(netstat.icmpv6) v
    x.(netstat.tcp).
Definition set_netstat_tcp (v : tcp_stats.tcp_stats) (x : netstat.netstat) : netstat.netstat :=
  netstat.mk x.(netstat.ipv4) x.(netstat.icmpv4) x.(netstat.udpv4) x.(netstat.ipv6) x.(netstat.icmpv6)
    x.(netstat.udpv6) v.

Definition set_sstat_cpu (v : cpustat.cpustat) (x : sstat.sstat) : sstat.sstat :=
  sstat.mk v x.(sstat.mem) x.(sstat.net) x.(sstat.intf) x.(sstat.dsk) x.(sstat.nfs) x.(sstat.cfs)
    x.(sstat.www).
Definition set_sstat_mem (v : memstat.memstat) (x : sstat.sstat) : sstat.sstat :=
  sstat.mk x.(sstat.cpu) v x.(sstat.net) x.(sstat.intf) x.(sstat.dsk) x.(sstat.nfs) x.(sstat.cfs)
    x.(sstat.www).
Definition set_sstat_net (v : netstat.netstat) (x : sstat.sstat) : sstat.sstat :=
  sstat.mk x.(sstat.cpu) x.(sstat.mem) v x.(sstat.intf) x.(sstat.dsk) x.(sstat.nfs) x.(sstat.cfs)
    x.(sstat.www).
Definition set_sstat_intf (v : intfstat.intfstat) (x : sstat.sstat) : sstat.sstat :=
  sstat.mk x.(sstat.cpu) x.(sstat.mem) x.(sstat.net) v x.(sstat.dsk) x.(sstat.nfs) x.(sstat.cfs)
    x.(sstat.www).
Definition set_sstat_dsk (v : dskstat.dskstat) (x : sstat.sstat) : sstat.sstat :=
  sstat.mk x.(sstat.cpu) x.(sstat.mem) x.(sstat.net) x.(sstat.intf) v x.(sstat.nfs) x.(sstat.cfs)
    x.(sstat.www).
Definition set_sstat_nfs (v : nfsstat.nfsstat) (x : sstat.sstat) : sstat.sstat :=
  sstat.mk x.(sstat.cpu) x.(sstat.mem) x.(sstat.net) x.(sstat.intf) x.(sstat.dsk) v x.(sstat.cfs)
    x.(sstat.www).
Definition set_sstat_cfs (v : contstat.contstat) (x : sstat.sstat) : sstat.sstat :=
  sstat.mk x.(sstat.cpu) x.(sstat.mem) x.(sstat.net) x.(sstat.intf) x.(sstat.dsk) x.(sstat.nfs) v
    x.(sstat.www).

(** ** Changes of a structure inside the sample *)

Definition upd_cpu (f : cpustat.cpustat -> cpustat.cpustat) (s : sstat.sstat) : sstat.sstat :=
  set_sstat_cpu (f s.(sstat.cpu)) s.
Definition upd_mem (f : memstat.memstat -> memstat.memstat) (s : sstat.sstat) : sstat.sstat :=
  set_sstat_mem (f s.(sstat.mem)) s.
Definition upd_net (f : netstat.netstat -> netstat.netstat) (s : sstat.sstat) : sstat.sstat :=
  set_sstat_net (f s.(sstat.net)) s.
Definition upd_dsk (f : dskstat.dskstat -> dskstat.dskstat) (s : sstat.sstat) : sstat.sstat :=
  set_sstat_dsk (f s.(sstat.dsk)) s.
Definition upd_nfs (f : nfsstat.nfsstat -> nfsstat.nfsstat) (s : sstat.sstat) : sstat.sstat :=
  set_sstat_nfs (f s.(sstat.nfs)) s.
