(* ===== verification/Photosyst.v ===== *)
(** * System counters from /proc: the first part of [photosyst], photosyst.c

    /proc/stat, loadavg, the frequency files, vmstat, meminfo, vmmemctl, net/dev,
    net/snmp and net/snmp6. A file is its text; [None] is a file that cannot be
    opened. What a line does not tell stays as it was, also in the variables of
    the function: [cnts] and [nam] keep the values of the line before. [None] as
    a result is a store outside an array. *)
From Stdlib Require Import Ascii.
From S2P Require Import Prelude Format Sscanf Sstat SstatStores Various.

#[local] Open Scope c_scope.

Definition MAXCNT : nat := 64.

(** The variables that the parts share. *)
Module scan.
Record scan := mk {
  cnts : list Z;
  nam : text;
  si : sstat.sstat
}.
End scan.

Definition set_cnt (k : nat) (v : Z) (s : scan.scan) : scan.scan :=
  scan.mk (<[k := v]> s.(scan.cnts)) s.(scan.nam) s.(scan.si).
Definition set_nam (t : text) (s : scan.scan) : scan.scan := scan.mk s.(scan.cnts) t s.(scan.si).
Definition upd_si (f : sstat.sstat -> sstat.sstat) (s : scan.scan) : scan.scan :=
  scan.mk s.(scan.cnts) s.(scan.nam) (f s.(scan.si)).

Definition cnt (s : scan.scan) (k : nat) : Z := s.(scan.cnts) !!! k.

(** A name and [n] counters. *)
Definition name_and_counters (n : nat) : list (value -> scan.scan -> scan.scan) :=
  str set_nam :: ((fun k => num (set_cnt k)) <$> seq 0 n).

(** [nam] has 64 bytes. *)
Definition scan_line (line : text) (fmt : string) (n : nat) (s : scan.scan) : option (nat * scan.scan) :=
  r ← scan_into line fmt (name_and_counters n) s;
  if (length r.2.(scan.nam) <? 64)%nat then Some r else None.

Definition is_name (s : scan.scan) (name : string) : bool := bool_decide (s.(scan.nam) = chars name).

(** The lines of a file, one after the other. *)
Fixpoint each_line {S} (f : text -> S -> option S) (ls : list text) (s : S) : option S :=
  match ls with
  | [] => Some s
  | l :: ls => s ← f l s; each_line f ls s
  end.

Definition LINEBUF : nat := 1024.

Definition read_file {S} (f : text -> S -> option S) (file : option text) (s : S) : option S :=
  match file with
  | None => Some s
  | Some t => each_line f (lines LINEBUF t) s
  end.

(** ** stat *)

Definition SCANSTATCPU : string :=
  "%s   %lld %lld %lld %lld %lld %lld %lld " ++
  "%lld %lld %lld %lld %lld %lld %lld %lld ".

(** The counters of a processor, of which [nr - 1] were read. *)
Definition cpu_figures (nr : nat) (s : scan.scan) (p : percpu.percpu) : percpu.percpu :=
  let c := cnt s in
  let recent := (5 <? nr)%nat in
  percpu.mk p.(percpu.cpunr) (c 2%nat) (c 0%nat) (c 1%nat) (c 3%nat)
    (if recent then c 4%nat else p.(percpu.wtime))
    (if recent then c 5%nat else p.(percpu.Itime))
    (if recent then c 6%nat else p.(percpu.Stime))
    (if recent && (8 <? nr)%nat then c 7%nat else p.(percpu.steal))
    (if recent && (9 <? nr)%nat then c 8%nat else p.(percpu.guest))
    p.(percpu.freqcnt) p.(percpu.instr) p.(percpu.cycle) p.(percpu.cfuture).

Definition set_cpunr (v : Z) (p : percpu.percpu) : percpu.percpu :=
  percpu.mk v p.(percpu.stime) p.(percpu.utime) p.(percpu.ntime) p.(percpu.itime) p.(percpu.wtime)
    p.(percpu.Itime) p.(percpu.Stime) p.(percpu.steal) p.(percpu.guest) p.(percpu.freqcnt) p.(percpu.instr)
    p.(percpu.cycle) p.(percpu.cfuture).

(** A store to [cpu[i]]. *)
Definition at_cpu (i : Z) (f : percpu.percpu -> percpu.percpu) (c : cpustat.cpustat) : option cpustat.cpustat :=
  if i <? 0 then None
  else
    p ← c.(cpustat.cpu) !! Z.to_nat i;
    Some (set_cpustat_cpu (<[Z.to_nat i := f p]> c.(cpustat.cpu)) c).

Definition stat_file_line (line : text) (s : scan.scan) : option scan.scan :=
  '(nr, s) ← scan_line line SCANSTATCPU 15 s;
  if (nr <? 2)%nat then Some s
  else if is_name s "cpu" then
    Some (upd_si (upd_cpu (fun c => set_cpustat_all (cpu_figures nr s c.(cpustat.all)) c)) s)
  else if starts "cpu" s.(scan.nam) then
    let i := atoi (drop 3 s.(scan.nam)) in
    if Z.of_nat MAXCPU <=? i then Some s
    else
      let c := s.(scan.si).(sstat.cpu) in
      c ← at_cpu i (fun p => cpu_figures nr s (set_cpunr i p)) c;
      Some (upd_si (upd_cpu (fun _ => set_cpustat_nrcpu (c.(cpustat.nrcpu) +64 1) c)) s)
  else if is_name s "ctxt" then Some (upd_si (upd_cpu (set_cpustat_csw (cnt s 0))) s)
  else if is_name s "intr" then Some (upd_si (upd_cpu (set_cpustat_devint (cnt s 0))) s)
  else if is_name s "processes" then Some (upd_si (upd_cpu (set_cpustat_nprocs (cnt s 0))) s)
  else if is_name s "swap" then
    Some (upd_si (upd_mem (fun m => set_memstat_swouts (cnt s 1) (set_memstat_swins (cnt s 0) m))) s)
  else Some s.

Definition stat_file (file : option text) (s : scan.scan) : option scan.scan :=
  s' ← read_file stat_file_line file s;
  Some (match file with
        | None => s'
        | Some _ =>
            if s'.(scan.si).(sstat.cpu).(cpustat.nrcpu) =? 0 then upd_si (upd_cpu (set_cpustat_nrcpu 1)) s' else s'
        end).

(** ** loadavg *)

(** The bits of the [float] nearest to [n / d], not negative and of a normal
    size. *)
Definition flt_bits (n d : Z) : Z :=
  if n =? 0 then 0
  else
    let k := Z.log2 n - Z.log2 d in
    let large := d * 2 ^ Z.max 0 k <=? n * 2 ^ Z.max 0 (- k) in
    let e := if large then k else k - 1 in
    let m := rne (n * 2 ^ Z.max 0 (23 - e)) (d * 2 ^ Z.max 0 (e - 23)) in
    (e + 127) * 2 ^ 23 + (m - 2 ^ 23).

(** [%f] on what the kernel prints: digits, and a point with digits. *)
Definition scan_float (l : text) : option (Z * text) :=
  '(n, rest) ← scan_nat (skip_space l);
  match rest with
  | c :: rest' =>
      if Ascii.eqb c "." then
        match scan_nat rest' with
        | Some (frac, rest'') =>
            let p := 10 ^ Z.of_nat (length rest' - length rest'') in
            Some (flt_bits (n * p + frac) p, rest'')
        | None => Some (flt_bits n 1, rest')
        end
      else Some (flt_bits n 1, rest)
  | [] => Some (flt_bits n 1, rest)
  end.

Definition set_lavg (a b c : Z) (x : cpustat.cpustat) : cpustat.cpustat :=
  cpustat.mk x.(cpustat.nrcpu) x.(cpustat.devint) x.(cpustat.csw) x.(cpustat.nprocs) a b c
    x.(cpustat.cfuture) x.(cpustat.all) x.(cpustat.cpu).

Definition loadavg_file (file : option text) (s : scan.scan) : scan.scan :=
  match file ≫= fun t => head (lines LINEBUF t) with
  | None => s
  | Some line =>
      match scan_float line with
      | None => s
      | Some (lavg1, rest) =>
          match scan_float rest with
          | None => s
          | Some (lavg5, rest) =>
              match scan_float rest with
              | None => s
              | Some (lavg15, _) => upd_si (upd_cpu (set_lavg lavg1 lavg5 lavg15)) s
              end
          end
      end
  end.

(** ** Frequency scaling *)

(** The files of /sys/devices/system/cpu/cpu<i>/cpufreq. *)
Module cpufreq.
Record cpufreq := mk {
  time_in_state : option text;
  cpuinfo_max_freq : option text;
  scaling_cur_freq : option text
}.
End cpufreq.

(** [fscanf(fp, '%lld')] *)
Definition fscan_lld (l : text) : option (option (Z * text)) :=
  match convert false (CInt true 64) l with
  | Done (VInt z) rest => Some (Some (z, rest))
  | Done _ _ | Fails => Some None
  | Undefined => None
  end.

(** [while (fscanf(fp, '%lld %lld', &f, &cnt) == 2)]: the maximum, the sum, the
    hits, and whether a line was read. *)
Fixpoint time_in_state (fuel : nat) (l : text) (maxfreq sum hits : Z) (didone : bool) : option (Z * Z * Z * bool) :=
  match fuel with
  | O => None
  | S fuel =>
      a ← fscan_lld l;
      match a with
      | None => Some (maxfreq, sum, hits, didone)
      | Some (f, l) =>
          b ← fscan_lld l;
          match b with
          | None => Some (maxfreq, sum, hits, didone)
          | Some (cnt, l) =>
              let f := Z.quot f 1000 in
              time_in_state fuel l (if maxfreq <? f then f else maxfreq) (sum +64 i64 (f * cnt)) (hits +64 cnt) true
          end
      end
  end.

(** The figures of one processor, and [didone]. *)
Definition one_freq (files : cpufreq.cpufreq) (q : freqcnt.freqcnt) (didone : bool) : option (freqcnt.freqcnt * bool) :=
  match files.(cpufreq.time_in_state) with
  | Some t =>
      '(maxfreq, sum, hits, didone) ← time_in_state (S (length t)) t 0 0 0 didone;
      Some (freqcnt.mk maxfreq sum hits, didone)
  | None =>
      q ← (match files.(cpufreq.cpuinfo_max_freq) with
           | Some t => r ← fscan_lld t;
                       Some (match r with Some (f, _) => set_freqcnt_maxfreq (Z.quot f 1000) q | None => q end)
           | None => Some (set_freqcnt_maxfreq 0 q)
           end);
      match files.(cpufreq.scaling_cur_freq) with
      | Some t => r ← fscan_lld t;
                  Some (match r with
                        | Some (f, _) => (set_freqcnt_ticks 0 (set_freqcnt_cnt (Z.quot f 1000) q), true)
                        | None => (q, didone)
                        end)
      | None => Some (set_freqcnt_ticks 0 (set_freqcnt_cnt 0 q), didone)
      end
  end.

(** [for (i = 0; i < si->cpu.nrcpu; ++i)] *)
Fixpoint freqs (n : nat) (files : Z -> cpufreq.cpufreq) (i : nat) (c : cpustat.cpustat) (didone : bool) :
  option (cpustat.cpustat * bool) :=
  match n with
  | O => Some (c, didone)
  | S n =>
      p ← c.(cpustat.cpu) !! i;
      '(q, didone) ← one_freq (files (Z.of_nat i)) p.(percpu.freqcnt) didone;
      freqs n files (S i) (set_cpustat_cpu (<[i := set_percpu_freqcnt q p]> c.(cpustat.cpu)) c) didone
  end.

(** One line of cpuinfo: the processor number and the figures. *)
Definition cpuinfo_line (line : text) (st : Z * cpustat.cpustat) : option (Z * cpustat.cpustat) :=
  '(cpuno, c) ← (if starts "processor" line then
                   r ← scan_into line "%*s %*s %d" [num (fun z (st : Z * cpustat.cpustat) => (z, st.2))] st; Some r.2
                 else Some st);
  if starts "cpu MHz" line && (0 <=? cpuno) && (cpuno <? c.(cpustat.nrcpu)) then
    p ← c.(cpustat.cpu) !! Z.to_nat cpuno;
    r ← scan_into line "%*s %*s %*s %lld" [num set_freqcnt_cnt] p.(percpu.freqcnt);
    Some (cpuno, set_cpustat_cpu (<[Z.to_nat cpuno := set_percpu_freqcnt r.2 p]> c.(cpustat.cpu)) c)
  else Some (cpuno, c).

Definition frequencies (files : Z -> cpufreq.cpufreq) (cpuinfo : option text) (s : scan.scan) : option scan.scan :=
  let c := s.(scan.si).(sstat.cpu) in
  match freqs (Z.to_nat c.(cpustat.nrcpu)) files 0 c false with
  | None => None
  | Some (c, didone) =>
      c ← (if didone then Some c else r ← read_file cpuinfo_line cpuinfo (-1, c); Some r.2);
      Some (upd_si (upd_cpu (fun _ => c)) s)
  end.

(** ** vmstat, meminfo and vmmemctl *)

Definition mem_store (f : Z -> memstat.memstat -> memstat.memstat) (v : Z) (s : scan.scan) : option scan.scan :=
  Some (upd_si (upd_mem (f v)) s).

Definition vmstat_line (line : text) (s : scan.scan) : option scan.scan :=
  '(nr, s) ← scan_line line "%s %lld" 1 s;
  let m := s.(scan.si).(sstat.mem) in
  if (nr <? 2)%nat then Some s
  else if is_name s "pswpin" then mem_store set_memstat_swins (cnt s 0) s
  else if is_name s "pswpout" then mem_store set_memstat_swouts (cnt s 0) s
  else if starts "pgscan_" s.(scan.nam) then mem_store set_memstat_pgscans (m.(memstat.pgscans) +64 cnt s 0) s
  else if starts "pgsteal_" s.(scan.nam) then mem_store set_memstat_pgsteal (m.(memstat.pgsteal) +64 cnt s 0) s
  else if is_name s "allocstall" then mem_store set_memstat_allocstall (cnt s 0) s
  else Some s.

Definition MEMINFOFMT : string :=
  "%s %lld %lld %lld %lld %lld %lld %lld " ++
  "%lld %lld %lld" ++ String "010" EmptyString.

(** The values in front of the file: -1 is unknown. *)
Definition meminfo_start (m : memstat.memstat) : memstat.memstat :=
  set_memstat_committed 0 (set_memstat_freeswap (-1) (set_memstat_totswap (-1) (set_memstat_shmem 0
    (set_memstat_slabreclaim 0 (set_memstat_slabmem 0 (set_memstat_cachemem (-1) (set_memstat_buffermem (-1)
      (set_memstat_freemem (-1) (set_memstat_physmem (-1) m))))))))).

(** [pagesize] is positive. *)
Section pages.
Context (pagesize : Z).

Definition kbpages (v : Z) : Z := Z.quot (i64 (v * 1024)) pagesize.

Definition meminfo_line (line : text) (s : scan.scan) : option scan.scan :=
  '(nr, s) ← scan_line line MEMINFOFMT 10 s;
  let m := s.(scan.si).(sstat.mem) in
  let c := cnt s in
  let unknown (old : Z) (f : Z -> memstat.memstat -> memstat.memstat) :=
    if old =? -1 then mem_store f (kbpages (c 0%nat)) s else Some s in
  if (nr <? 2)%nat then Some s
  else if is_name s "Mem:" then
    Some (upd_si (upd_mem (fun m =>
      set_memstat_buffermem (Z.quot (c 4%nat) pagesize) (set_memstat_freemem (Z.quot (c 2%nat) pagesize)
        (set_memstat_physmem (Z.quot (c 0%nat) pagesize) m)))) s)
  else if is_name s "Swap:" then
    Some (upd_si (upd_mem (fun m =>
      set_memstat_freeswap (Z.quot (c 2%nat) pagesize) (set_memstat_totswap (Z.quot (c 0%nat) pagesize) m))) s)
  else if is_name s "Cached:" then unknown m.(memstat.cachemem) set_memstat_cachemem
  else if is_name s "Dirty:" then mem_store set_memstat_cachedrt (kbpages (c 0%nat)) s
  else if is_name s "MemTotal:" then unknown m.(memstat.physmem) set_memstat_physmem
  else if is_name s "MemFree:" then unknown m.(memstat.freemem) set_memstat_freemem
  else if is_name s "Buffers:" then unknown m.(memstat.buffermem) set_memstat_buffermem
  else if is_name s "Shmem:" then mem_store set_memstat_shmem (kbpages (c 0%nat)) s
  else if is_name s "SwapTotal:" then unknown m.(memstat.totswap) set_memstat_totswap
  else if is_name s "SwapFree:" then unknown m.(memstat.freeswap) set_memstat_freeswap
  else if is_name s "Slab:" then mem_store set_memstat_slabmem (kbpages (c 0%nat)) s
  else if is_name s "SReclaimable:" then mem_store set_memstat_slabreclaim (kbpages (c 0%nat)) s
  else if is_name s "Committed_AS:" then mem_store set_memstat_committed (kbpages (c 0%nat)) s
  else if is_name s "CommitLimit:" then mem_store set_memstat_commitlim (kbpages (c 0%nat)) s
  else if is_name s "HugePages_Total:" then mem_store set_memstat_tothugepage (c 0%nat) s
  else if is_name s "HugePages_Free:" then mem_store set_memstat_freehugepage (c 0%nat) s
  else if is_name s "Hugepagesize:" then mem_store set_memstat_hugepagesz (i64 (c 0%nat * 1024)) s
  else Some s.
End pages.

Definition meminfo_file (pagesize : Z) (file : option text) (s : scan.scan) : option scan.scan :=
  read_file (meminfo_line pagesize) file (upd_si (upd_mem meminfo_start) s).

(** The loop over vmmemctl ends at the line that starts with [current:]; the
    number of values that were read is not looked at. *)
Fixpoint vmmemctl_lines (ls : list text) (s : scan.scan) : option scan.scan :=
  match ls with
  | [] => Some s
  | l :: ls =>
      r ← scan_line l "%s %lld " 1 s;
      if is_name r.2 "current:" then mem_store set_memstat_vmwballoon (cnt r.2 0) r.2
      else vmmemctl_lines ls r.2
  end.

Definition vmmemctl_file (file : option text) (s : scan.scan) : option scan.scan :=
  let s := upd_si (upd_mem (set_memstat_vmwballoon 0)) s in
  match file with
  | None => Some s
  | Some t => vmmemctl_lines (lines LINEBUF t) s
  end.

(** ** net/dev *)

Definition INTFFMT : string :=
  "%15s %lld %lld %lld %lld %lld %lld %lld " ++
  "%lld %lld %lld %lld %lld %lld %lld %lld " ++
  "%lld" ++ String "010" EmptyString.

Definition INTFSTORES : list (value -> perintf.perintf -> perintf.perintf) :=
  [str (fun t => set_perintf_name (str_of t)); num set_perintf_rbyte; num set_perintf_rpack; num set_perintf_rerrs;
   num set_perintf_rdrop; num set_perintf_rfifo; num set_perintf_rframe; num set_perintf_rcompr;
   num set_perintf_rmultic; num set_perintf_sbyte; num set_perintf_spack; num set_perintf_serrs;
   num set_perintf_sdrop; num set_perintf_sfifo; num set_perintf_scollis; num set_perintf_scarrier;
   num set_perintf_scompr].

(** The first colon becomes a space. *)
Fixpoint colon_to_space (l : text) : text :=
  match l with
  | [] => []
  | c :: l' => if Ascii.eqb c ":" then " "%char :: l' else c :: colon_to_space l'
  end.

(** The entry [i] is filled by every line, and kept by a complete one. *)
Fixpoint intf_lines (ls : list text) (i : nat) (intf : list perintf.perintf) : option (nat * list perintf.perintf) :=
  match ls with
  | [] => Some (i, intf)
  | l :: ls =>
      p ← intf !! i;
      '(nr, p) ← scan_into (colon_to_space l) INTFFMT INTFSTORES p;
      let intf := <[i := p]> intf in
      if Nat.eqb nr 17 then
        if (MAXINTF - 1 <=? S i)%nat then Some (S i, intf) else intf_lines ls (S i) intf
      else intf_lines ls i intf
  end.

Definition intf_file (file : option text) (st : intfstat.intfstat) : option intfstat.intfstat :=
  match file with
  | None => Some st
  | Some t =>
      '(i, intf) ← intf_lines (lines LINEBUF t) 0 st.(intfstat.intf);
      p ← intf !! i;
      Some (intfstat.mk (Z.of_nat i) (<[i := set_perintf_name EmptyString p]> intf))
  end.

(** ** net/snmp *)

Definition SNMPFMT : string :=
  "%s   %lld %lld %lld %lld %lld %lld %lld %lld %lld " ++
  "%lld %lld %lld %lld %lld %lld %lld %lld %lld %lld " ++
  "%lld %lld %lld %lld %lld %lld %lld %lld %lld %lld " ++
  "%lld %lld %lld %lld %lld %lld %lld %lld %lld %lld " ++
  "%lld" ++ String "010" EmptyString.

(** [memcpy(x, cnts, sizeof *x)] *)
Definition copy_counters {A} `{Table A} (s : scan.scan) (x : A) : option A :=
  of_members (take (length (members x)) s.(scan.cnts)).

Definition snmp_line (line : text) (s : scan.scan) : option scan.scan :=
  '(nr, s) ← scan_line line SNMPFMT 40 s;
  let n := s.(scan.si).(sstat.net) in
  if (nr <? 2)%nat then Some s
  else if is_name s "Ip:" then
    x ← copy_counters s n.(netstat.ipv4); Some (upd_si (upd_net (set_netstat_ipv4 x)) s)
  else if is_name s "Icmp:" then
    x ← copy_counters s n.(netstat.icmpv4); Some (upd_si (upd_net (set_netstat_icmpv4 x)) s)
  else if is_name s "Tcp:" then
    x ← copy_counters s n.(netstat.tcp); Some (upd_si (upd_net (set_netstat_tcp x)) s)
  else if is_name s "Udp:" then
    x ← copy_counters s n.(netstat.udpv4); Some (upd_si (upd_net (set_netstat_udpv4 x)) s)
  else Some s.

(** ** net/snmp6 *)

(** The names of [v6tab]; the values they point to are the members of
    [ipv6_tmp], [icmpv6_tmp] and [udpv6_tmp] in this order. *)
Definition v6tab : list string := [
  "Ip6InReceives"; "Ip6InHdrErrors"; "Ip6InTooBigErrors"; "Ip6InNoRoutes"; "Ip6InAddrErrors";
  "Ip6InUnknownProtos"; "Ip6InTruncatedPkts"; "Ip6InDiscards"; "Ip6InDelivers"; "Ip6OutForwDatagrams";
  "Ip6OutRequests"; "Ip6OutDiscards"; "Ip6OutNoRoutes"; "Ip6ReasmTimeout"; "Ip6ReasmReqds"; "Ip6ReasmOKs";
  "Ip6ReasmFails"; "Ip6FragOKs"; "Ip6FragFails"; "Ip6FragCreates"; "Ip6InMcastPkts"; "Ip6OutMcastPkts";
  "Icmp6InMsgs"; "Icmp6InErrors"; "Icmp6InDestUnreachs"; "Icmp6InPktTooBigs"; "Icmp6InTimeExcds";
  "Icmp6InParmProblems"; "Icmp6InEchos"; "Icmp6InEchoReplies"; "Icmp6InGroupMembQueries";
  "Icmp6InGroupMembResponses"; "Icmp6InGroupMembReductions"; "Icmp6InRouterSolicits";
  "Icmp6InRouterAdvertisements"; "Icmp6InNeighborSolicits"; "Icmp6InNeighborAdvertisements";
  "Icmp6InRedirects"; "Icmp6OutMsgs"; "Icmp6OutDestUnreachs"; "Icmp6OutPktTooBigs"; "Icmp6OutTimeExcds";
  "Icmp6OutParmProblems"; "Icmp6OutEchoReplies"; "Icmp6OutRouterSolicits"; "Icmp6OutNeighborSolicits";
  "Icmp6OutNeighborAdvertisements"; "Icmp6OutRedirects"; "Icmp6OutGroupMembResponses";
  "Icmp6OutGroupMembReductions";
  "Udp6InDatagrams"; "Udp6NoPorts"; "Udp6InErrors"; "Udp6OutDatagrams"].

Definition v6tab_entries : nat := length v6tab.

(** The first entry of that name. *)
Fixpoint v6_search (names : list string) (nam : text) : option nat :=
  match names with
  | [] => None
  | n :: names => if bool_decide (chars n = nam) then Some O else S <$> v6_search names nam
  end.

(** A line: the position in the table from which the next search starts, the
    values and the variables. *)
Definition snmp6_line (line : text) (st : nat * list Z * scan.scan) : option (nat * list Z * scan.scan) :=
  let '(cur, vals, s) := st in
  r ← scan_into line "%s %lld" [str (fun t (x : text * Z) => (t, x.2)); num (fun z (x : text * Z) => (x.1, z))]
        (s.(scan.nam), 0);
  let '(nr, (nam, countval)) := r in
  let s := set_nam nam s in
  if negb (length nam <? 64)%nat then None
  else if (nr <? 2)%nat then Some (cur, vals, s)
  else
    here ← v6tab !! cur;
    let found := if bool_decide (chars here = nam) then Some cur else v6_search v6tab nam in
    let vals := match found with Some k => <[k := countval]> vals | None => vals end in
    let cur := default v6tab_entries found in
    Some (if (v6tab_entries <=? S cur)%nat then O else S cur, vals, s).

Definition snmp6_file (file : option text) (s : scan.scan) : option scan.scan :=
  match file with
  | None => Some s
  | Some t =>
      '(_, vals, s) ← each_line snmp6_line (lines LINEBUF t) (O, replicate v6tab_entries 0, s);
      let n := s.(scan.si).(sstat.net) in
      let n4 := length (members n.(netstat.ipv6)) in
      let n5 := length (members n.(netstat.icmpv6)) in
      a ← of_members (take n4 vals);
      b ← of_members (take n5 (drop n4 vals));
      c ← of_members (drop (n4 + n5) vals);
      Some (upd_si (upd_net (fun n => set_netstat_udpv6 c (set_netstat_icmpv6 b (set_netstat_ipv6 a n)))) s)
  end.
