(* ===== verification/Photodisk.v ===== *)
(** * Disks: the disk part of [photosyst], photosyst.c

    The files partitions and diskstats, the recognition of disks by the regular
    expressions of [validdisk], and the names of logical volumes. *)
From Stdlib Require Import Ascii.
From S2P Require Import Prelude Format Sscanf Sstat SstatStores Photosyst.

(** ** Basic regular expressions, as far as [validdisk] uses them *)

Inductive atom :=
  | Alit (c : ascii)
  | Aany
  | Arange (lo hi : ascii).

Definition atom_matches (a : atom) (c : ascii) : bool :=
  match a with
  | Alit x => Ascii.eqb x c
  | Aany => true
  | Arange lo hi => (nat_of_ascii lo <=? nat_of_ascii c)%nat && (nat_of_ascii c <=? nat_of_ascii hi)%nat
  end.

(** An item is an atom, repeated any number of times when starred. *)
Module regex.
Record regex := mk {
  at_start : bool;
  items : list (atom * bool);
  at_end : bool
}.
End regex.

Fixpoint parse_items (fuel : nat) (l : text) : option (list (atom * bool)) :=
  match fuel with
  | O => match l with [] => Some [] | _ => None end
  | S fuel =>
      let item a rest :=
        match rest with
        | s :: rest' => if Ascii.eqb s "*" then its ← parse_items fuel rest'; Some ((a, true) :: its)
                        else its ← parse_items fuel rest; Some ((a, false) :: its)
        | [] => Some [(a, false)]
        end in
      match l with
      | [] => Some []
      | c :: l' =>
          if Ascii.eqb c "[" then
            match l' with
            | lo :: dash :: hi :: close :: rest =>
                if Ascii.eqb dash "-" && Ascii.eqb close "]" then item (Arange lo hi) rest else None
            | _ => None
            end
          else if Ascii.eqb c "." then item Aany l'
          else item (Alit c) l'
      end
  end.

(** [regcomp] *)
Definition regcomp (e : string) : option regex.regex :=
  let l := chars e in
  let '(start, l) := match l with c :: l' => if Ascii.eqb c "^" then (true, l') else (false, l) | [] => (false, []) end in
  let '(fin, l) := match last l with
                   | Some c => if Ascii.eqb c "$" then (true, take (length l - 1) l) else (false, l)
                   | None => (false, l)
                   end in
  its ← parse_items (length l) l; Some (regex.mk start its fin).

(** Whether the items match the text from here on. *)
Fixpoint match_here (fin : bool) (items : list (atom * bool)) : text -> bool :=
  match items with
  | [] => fun l => match l with [] => true | _ => negb fin end
  | (a, star) :: items =>
      if star then
        fix repeat_atom (l : text) : bool :=
          match_here fin items l ||
          match l with c :: l' => atom_matches a c && repeat_atom l' | [] => false end
      else
        fun l => match l with c :: l' => atom_matches a c && match_here fin items l' | [] => false end
  end.

Fixpoint match_anywhere (fin : bool) (items : list (atom * bool)) (l : text) : bool :=
  match_here fin items l || match l with [] => false | _ :: l' => match_anywhere fin items l' end.

(** [regexec(...) == 0] *)
Definition regexec (r : regex.regex) (l : text) : bool :=
  if r.(regex.at_start) then match_here r.(regex.at_end) r.(regex.items) l
  else match_anywhere r.(regex.at_end) r.(regex.items) l.

(** ** Names *)

Definition MAXDKNAM : nat := 32.

Inductive dsktype := NONTYPE | DSKTYPE | MDDTYPE | LVMTYPE.
#[export] Instance dsktype_eq_dec : EqDecision dsktype.
Proof. solve_decision. Defined.

Definition nullmodname (curname : text) (px : perdsk.perdsk) (maxlen : nat) : perdsk.perdsk :=
  set_perdsk_name (str_of (take (maxlen - 1) curname)) px.

(** The local variables of [abbrevname1]; [junk] is their content before. *)
Module hostdisk.
Record hostdisk := mk { cutype : text; hostnum : Z; busnum : Z; targetnum : Z; lunnum : Z }.
End hostdisk.

Definition HOSTSTORES : list (value -> hostdisk.hostdisk -> hostdisk.hostdisk) :=
  [str (fun t h => hostdisk.mk t h.(hostdisk.hostnum) h.(hostdisk.busnum) h.(hostdisk.targetnum) h.(hostdisk.lunnum));
   num (fun z h => hostdisk.mk h.(hostdisk.cutype) z h.(hostdisk.busnum) h.(hostdisk.targetnum) h.(hostdisk.lunnum));
   num (fun z h => hostdisk.mk h.(hostdisk.cutype) h.(hostdisk.hostnum) z h.(hostdisk.targetnum) h.(hostdisk.lunnum));
   num (fun z h => hostdisk.mk h.(hostdisk.cutype) h.(hostdisk.hostnum) h.(hostdisk.busnum) z h.(hostdisk.lunnum));
   num (fun z h => hostdisk.mk h.(hostdisk.cutype) h.(hostdisk.hostnum) h.(hostdisk.busnum) h.(hostdisk.targetnum) z)].

(** [cutype] has 128 bytes. *)
Definition abbrevname1 (junk : hostdisk.hostdisk) (curname : text) (px : perdsk.perdsk) (maxlen : nat) :
  option perdsk.perdsk :=
  r ← scan_into curname "%[^/]/host%d/bus%d/target%d/lun%d" HOSTSTORES junk;
  let h := r.2 in
  c ← head h.(hostdisk.cutype);
  if (128 <=? length h.(hostdisk.cutype))%nat then None
  else
    let t := c :: chars "-h" ++ fmt_d h.(hostdisk.hostnum) ++ chars "b" ++ fmt_d h.(hostdisk.busnum) ++
             chars "t" ++ fmt_d h.(hostdisk.targetnum) in
    Some (set_perdsk_name (str_of (take (maxlen - 1) t)) px).

(** ** Logical volumes *)

Definition NUMDMHASH : Z := 64.
Definition DMHASH (x y : Z) : Z := u32 (x + y) mod NUMDMHASH.

(** [struct devmap] without its link *)
Module devmap.
Record devmap := mk { major : Z; minor : Z; name : text }.
End devmap.

(** What [stat] tells: [S_ISBLK(st_mode)], and the numbers in [st_rdev]. *)
Module statbuf.
Record statbuf := mk { st_isblk : bool; st_major : Z; st_minor : Z }.
End statbuf.

(** /dev/mapper: the names in the order of [readdir], none when it cannot be
    opened, and the answers of [stat] to a path. *)
Module mapdir.
Record mapdir := mk { entries : list text; stat : text -> option statbuf.statbuf }.
End mapdir.

Definition MAPDIR : text := chars "/dev/mapper".

(** [char path[64]]: the end of a longer path is lost. *)
Definition map_path (d_name : text) : text := take 63 (MAPDIR ++ chars "/" ++ d_name).

(** The chains of [devmaps], in an array of [NUMDMHASH]. *)
Definition devmaps : Type := list (list devmap.devmap).

(** An entry of the directory: other things than block devices are skipped. *)
Definition add_devmap (stat : text -> option statbuf.statbuf) (m : devmaps) (d_name : text) : devmaps :=
  match stat (map_path d_name) with
  | None => m
  | Some statbuf =>
      if negb statbuf.(statbuf.st_isblk) then m
      else
        let dmp := devmap.mk statbuf.(statbuf.st_major) statbuf.(statbuf.st_minor) (take (MAXDKNAM - 1) d_name) in
        let hashix := Z.to_nat (DMHASH dmp.(devmap.major) dmp.(devmap.minor)) in
        <[hashix := dmp :: m !!! hashix]> m
  end.

(** The static variables: [None] before the first call. *)
Definition read_mapdir (dir : mapdir.mapdir) : devmaps :=
  foldl (add_devmap dir.(mapdir.stat)) (replicate (Z.to_nat NUMDMHASH) []) dir.(mapdir.entries).

(** [while (dmp)] *)
Fixpoint chain_find (major minor : Z) (chain : list devmap.devmap) : option devmap.devmap :=
  match chain with
  | [] => None
  | dmp :: chain =>
      if (dmp.(devmap.major) =? major) && (dmp.(devmap.minor) =? minor) then Some dmp
      else chain_find major minor chain
  end.

Definition lvmmapname (dir : mapdir.mapdir) (st : option devmaps) (major minor : Z) (curname : text)
    (px : perdsk.perdsk) (maxlen : nat) : option devmaps * perdsk.perdsk :=
  let m := match st with Some m => m | None => read_mapdir dir end in
  let name := match chain_find major minor (m !!! Z.to_nat (DMHASH major minor)) with
              | Some dmp => dmp.(devmap.name)
              | None => curname
              end in
  (Some m, set_perdsk_name (str_of (take (maxlen - 1) name)) px).

(** ** isdisk *)

Inductive modname := MNone | MNull | MLvm | MAbbrev.

Definition validdisk : list (string * modname * dsktype) := [
  ("^ram[0-9][0-9]*$", MNone, NONTYPE);
  ("^loop[0-9][0-9]*$", MNone, NONTYPE);
  ("^sd[a-z][a-z]*$", MNull, DSKTYPE);
  ("^dm-[0-9][0-9]*$", MLvm, LVMTYPE);
  ("^md[0-9][0-9]*$", MNull, MDDTYPE);
  ("^vd[a-z][a-z]*$", MNull, DSKTYPE);
  ("^nvme[0-9][0-9]*n[0-9][0-9]*$", MNull, DSKTYPE);
  ("^nbd[0-9][0-9]*$", MNull, DSKTYPE);
  ("^hd[a-z]$", MNull, DSKTYPE);
  ("^rd/c[0-9][0-9]*d[0-9][0-9]*$", MNull, DSKTYPE);
  ("^cciss/c[0-9][0-9]*d[0-9][0-9]*$", MNull, DSKTYPE);
  ("^fio[a-z][a-z]*$", MNull, DSKTYPE);
  ("/host.*/bus.*/target.*/lun.*/disc", MAbbrev, DSKTYPE);
  ("^xvd[a-z][a-z]*[0-9]*$", MNull, DSKTYPE);
  ("^dasd[a-z][a-z]*$", MNull, DSKTYPE);
  ("^mmcblk[0-9][0-9]*$", MNull, DSKTYPE);
  ("^emcpower[a-z][a-z]*$", MNull, DSKTYPE)].

(** What the recognition finds around it: /dev/mapper, and the content of the
    local variables of [abbrevname1]. *)
Module diskenv.
Record diskenv := mk { devmapper : mapdir.mapdir; hostjunk : hostdisk.hostdisk }.
End diskenv.

(** The first expression that matches. *)
Fixpoint recognize (table : list (string * modname * dsktype)) (curname : text) : option (modname * dsktype) :=
  match table with
  | [] => Some (MNone, NONTYPE)
  | (e, m, t) :: table =>
      r ← regcomp e; if regexec r curname then Some (m, t) else recognize table curname
  end.

Definition isdisk (e : diskenv.diskenv) (st : option devmaps) (major minor : Z) (curname : text)
    (px : perdsk.perdsk) (maxlen : nat) : option (dsktype * option devmaps * perdsk.perdsk) :=
  '(m, t) ← recognize validdisk curname;
  match t, m with
  | NONTYPE, _ | _, MNone => Some (t, st, px)
  | _, MNull => Some (t, st, nullmodname curname px maxlen)
  | _, MLvm => let r := lvmmapname e.(diskenv.devmapper) st major minor curname px maxlen in Some (t, r.1, r.2)
  | _, MAbbrev => px ← abbrevname1 e.(diskenv.hostjunk) curname px maxlen; Some (t, st, px)
  end.

(** ** partitions *)

Definition PARTFMT : string :=
  "%*d %*d %*d %255s %lld %*d %lld %*d " ++
  "%lld %*d %lld %*d %*d %lld %lld".

(** [diskname] and the entry that is filled. *)
Definition dstr (f : text -> text) : value -> text * perdsk.perdsk -> text * perdsk.perdsk :=
  str (fun t x => (f t, x.2)).
Definition dnum (f : Z -> perdsk.perdsk -> perdsk.perdsk) : value -> text * perdsk.perdsk -> text * perdsk.perdsk :=
  num (fun z x => (x.1, f z x.2)).

Definition PERDSKSTORES : list (value -> text * perdsk.perdsk -> text * perdsk.perdsk) :=
  [dstr id; dnum set_perdsk_nread; dnum set_perdsk_nrsect; dnum set_perdsk_nwrite; dnum set_perdsk_nwsect;
   dnum set_perdsk_io_ms; dnum set_perdsk_avque].

Fixpoint partition_lines (e : diskenv.diskenv) (ls : list text) (i : nat) (diskname : text)
    (st : option devmaps) (dsk : list perdsk.perdsk) : option (nat * option devmaps * list perdsk.perdsk) :=
  match ls with
  | [] => Some (i, st, dsk)
  | l :: ls =>
      p ← dsk !! i;
      '(nr, (diskname, p)) ← scan_into l PARTFMT PERDSKSTORES (diskname, p);
      if Nat.eqb nr 7 then
        '(t, st, p) ← isdisk e st 0 0 diskname p MAXDKNAM;
        let dsk := <[i := p]> dsk in
        if bool_decide (t = DSKTYPE) then
          if (MAXDSK - 1 <=? S i)%nat then Some (S i, st, dsk) else partition_lines e ls (S i) diskname st dsk
        else partition_lines e ls i diskname st dsk
      else partition_lines e ls i diskname st (<[i := p]> dsk)
  end.

(** The static [part_stats], the names of volumes and the disks. *)
Definition partitions_file (e : diskenv.diskenv) (file : option text) (part_stats : bool) (st : option devmaps)
    (d : dskstat.dskstat) : option (bool * option devmaps * dskstat.dskstat) :=
  match (if part_stats then file else None) with
  | None => Some (part_stats, st, d)
  | Some t =>
      '(i, st, dsk) ← partition_lines e (lines LINEBUF t) 0 [] st d.(dskstat.dsk);
      p ← dsk !! i;
      let dsk := <[i := set_perdsk_name EmptyString p]> dsk in
      Some (part_stats && negb (Nat.eqb i 0), st,
            set_dskstat_ndsk (Z.of_nat i) (set_dskstat_dsk dsk d))
  end.

(** ** diskstats *)

Definition DISKFMT : string :=
  "%d %d %255s %lld %*d %lld %*d " ++
  "%lld %*d %lld %*d %*d %lld %lld".

(** The local variables of this part. *)
Module diskvars.
Record diskvars := mk { major : Z; minor : Z; diskname : text; tmpdsk : perdsk.perdsk }.
End diskvars.

Definition on_disk (f : value -> text * perdsk.perdsk -> text * perdsk.perdsk) (v : value) (x : diskvars.diskvars) :
  diskvars.diskvars :=
  let r := f v (x.(diskvars.diskname), x.(diskvars.tmpdsk)) in
  diskvars.mk x.(diskvars.major) x.(diskvars.minor) r.1 r.2.

Definition DISKSTORES : list (value -> diskvars.diskvars -> diskvars.diskvars) :=
  num (fun z x => diskvars.mk (u32 z) x.(diskvars.minor) x.(diskvars.diskname) x.(diskvars.tmpdsk)) ::
  num (fun z x => diskvars.mk x.(diskvars.major) (u32 z) x.(diskvars.diskname) x.(diskvars.tmpdsk)) ::
  (on_disk <$> PERDSKSTORES).

(** [if (n < max-1) table[n++] = tmpdsk] *)
Definition append_disk (max : nat) (p : perdsk.perdsk) (n : Z) (table : list perdsk.perdsk) :
  option (Z * list perdsk.perdsk) :=
  if n <? Z.of_nat max - 1 then
    _ ← table !! Z.to_nat n; Some (n + 1, <[Z.to_nat n := p]> table)
  else Some (n, table).

Definition keep_disk (t : dsktype) (p : perdsk.perdsk) (d : dskstat.dskstat) : option dskstat.dskstat :=
  match t with
  | NONTYPE => Some d
  | DSKTYPE => '(n, l) ← append_disk MAXDSK p d.(dskstat.ndsk) d.(dskstat.dsk);
               Some (set_dskstat_ndsk n (set_dskstat_dsk l d))
  | MDDTYPE => '(n, l) ← append_disk MAXMDD p d.(dskstat.nmdd) d.(dskstat.mdd);
               Some (set_dskstat_nmdd n (set_dskstat_mdd l d))
  | LVMTYPE => '(n, l) ← append_disk MAXLVM p d.(dskstat.nlvm) d.(dskstat.lvm);
               Some (set_dskstat_nlvm n (set_dskstat_lvm l d))
  end.

Fixpoint diskstat_lines (e : diskenv.diskenv) (ls : list text) (x : diskvars.diskvars) (st : option devmaps)
    (d : dskstat.dskstat) : option (option devmaps * dskstat.dskstat) :=
  match ls with
  | [] => Some (st, d)
  | l :: ls =>
      '(nr, x) ← scan_into l DISKFMT DISKSTORES x;
      if Nat.eqb nr 9 then
        '(t, st, p) ← isdisk e st x.(diskvars.major) x.(diskvars.minor) x.(diskvars.diskname) x.(diskvars.tmpdsk) MAXDKNAM;
        let x := diskvars.mk x.(diskvars.major) x.(diskvars.minor) x.(diskvars.diskname) p in
        d ← keep_disk t p d;
        diskstat_lines e ls x st d
      else diskstat_lines e ls x st d
  end.

(** [table[n].name[0] = 0] *)
Definition terminate (n : Z) (table : list perdsk.perdsk) : option (list perdsk.perdsk) :=
  p ← table !! Z.to_nat n; Some (<[Z.to_nat n := set_perdsk_name EmptyString p]> table).

Definition diskstats_file (e : diskenv.diskenv) (file : option text) (junk : diskvars.diskvars) (st : option devmaps)
    (d : dskstat.dskstat) : option (option devmaps * dskstat.dskstat) :=
  match file with
  | None => Some (st, d)
  | Some t =>
      '(st, d) ← diskstat_lines e (lines LINEBUF t) junk st
                   (set_dskstat_nlvm 0 (set_dskstat_nmdd 0 (set_dskstat_ndsk 0 d)));
      dsk ← terminate d.(dskstat.ndsk) d.(dskstat.dsk);
      mdd ← terminate d.(dskstat.nmdd) d.(dskstat.mdd);
      lvm ← terminate d.(dskstat.nlvm) d.(dskstat.lvm);
      Some (st, set_dskstat_lvm lvm (set_dskstat_mdd mdd (set_dskstat_dsk dsk d)))
  end.
