(* ===== verification/Photonfs.v ===== *)
(** * NFS, containers and event counters: the last part of [photosyst]

    The files of NFS server and client, the mounts, the containers of OpenVZ,
    the event counters of the processors, and [photosyst] as a whole. *)
From Stdlib Require Import Ascii.
From S2P Require Import Prelude Format Sscanf Sstat SstatStores Privs Photosyst Photodisk.

#[local] Open Scope c_scope.

(** ** Labelled counters *)

(** A label and [cnt]. *)
Module labelled.
Record labelled := mk { label : text; cnt : list Z }.
End labelled.

Definition LABELSTORES (n : nat) : list (value -> labelled.labelled -> labelled.labelled) :=
  str (fun t x => labelled.mk t x.(labelled.cnt)) ::
  ((fun k => num (fun v x => labelled.mk x.(labelled.label) (<[k := v]> x.(labelled.cnt)))) <$> seq 0 n).

Definition is_label (x : labelled.labelled) (s : string) : bool := bool_decide (x.(labelled.label) = chars s).

(** ** net/rpc/nfsd *)

Definition NFSDFMT : string :=
  "%31s %lld %lld %lld %lld %lld" ++
  "%lld %lld %lld %lld %lld" ++ "%lld %lld %lld %lld %lld" ++
  "%lld %lld %lld %lld %lld" ++ "%lld %lld %lld %lld %lld" ++
  "%lld %lld %lld %lld %lld" ++ "%lld %lld %lld %lld %lld" ++
  "%lld %lld %lld %lld %lld".

Definition server_add (r w : Z) (v : nfsserver.nfsserver) : nfsserver.nfsserver :=
  set_nfsserver_rpcwrite (v.(nfsserver.rpcwrite) +64 w) (set_nfsserver_rpcread (v.(nfsserver.rpcread) +64 r) v).

Definition nfsd_figures (x : labelled.labelled) (v : nfsserver.nfsserver) : nfsserver.nfsserver :=
  let c k := x.(labelled.cnt) !!! k in
  if is_label x "rc" then
    nfsserver.mk v.(nfsserver.netcnt) v.(nfsserver.netudpcnt) v.(nfsserver.nettcpcnt) v.(nfsserver.nettcpcon)
      v.(nfsserver.rpccnt) v.(nfsserver.rpcbadfmt) v.(nfsserver.rpcbadaut) v.(nfsserver.rpcbadcln)
      v.(nfsserver.rpcread) v.(nfsserver.rpcwrite) (c 0%nat) (c 1%nat) (c 2%nat)
      v.(nfsserver.nrbytes) v.(nfsserver.nwbytes) v.(nfsserver.future)
  else if is_label x "io" then
    nfsserver.mk v.(nfsserver.netcnt) v.(nfsserver.netudpcnt) v.(nfsserver.nettcpcnt) v.(nfsserver.nettcpcon)
      v.(nfsserver.rpccnt) v.(nfsserver.rpcbadfmt) v.(nfsserver.rpcbadaut) v.(nfsserver.rpcbadcln)
      v.(nfsserver.rpcread) v.(nfsserver.rpcwrite) v.(nfsserver.rchits) v.(nfsserver.rcmiss) v.(nfsserver.rcnoca)
      (c 0%nat) (c 1%nat) v.(nfsserver.future)
  else if is_label x "net" then
    nfsserver.mk (c 0%nat) (c 1%nat) (c 2%nat) (c 3%nat)
      v.(nfsserver.rpccnt) v.(nfsserver.rpcbadfmt) v.(nfsserver.rpcbadaut) v.(nfsserver.rpcbadcln)
      v.(nfsserver.rpcread) v.(nfsserver.rpcwrite) v.(nfsserver.rchits) v.(nfsserver.rcmiss) v.(nfsserver.rcnoca)
      v.(nfsserver.nrbytes) v.(nfsserver.nwbytes) v.(nfsserver.future)
  else if is_label x "rpc" then
    nfsserver.mk v.(nfsserver.netcnt) v.(nfsserver.netudpcnt) v.(nfsserver.nettcpcnt) v.(nfsserver.nettcpcon)
      (c 0%nat) (c 1%nat) (c 2%nat) (c 3%nat)
      v.(nfsserver.rpcread) v.(nfsserver.rpcwrite) v.(nfsserver.rchits) v.(nfsserver.rcmiss) v.(nfsserver.rcnoca)
      v.(nfsserver.nrbytes) v.(nfsserver.nwbytes) v.(nfsserver.future)
  else if is_label x "proc2" then server_add (c 7%nat) (c 9%nat) v
  else if is_label x "proc3" then server_add (c 7%nat) (c 8%nat) v
  else if is_label x "proc4ops" then server_add (c 26%nat) (c 39%nat) v
  else v.

Definition nfsd_line (line : text) (st : text * nfsserver.nfsserver) : option (text * nfsserver.nfsserver) :=
  r ← scan_into line NFSDFMT (LABELSTORES 40) (labelled.mk st.1 (replicate 40 0));
  Some (r.2.(labelled.label), if (r.1 <? 2)%nat then st.2 else nfsd_figures r.2 st.2).

(** ** net/rpc/nfs *)

Definition NFSFMT : string := "%31s %lld %lld %lld %lld %lld" ++ "%lld %lld %lld %lld %lld".

Definition client_add (r w : Z) (v : nfsclient.nfsclient) : nfsclient.nfsclient :=
  set_nfsclient_rpcwrite (v.(nfsclient.rpcwrite) +64 w) (set_nfsclient_rpcread (v.(nfsclient.rpcread) +64 r) v).

Definition nfs_figures (x : labelled.labelled) (v : nfsclient.nfsclient) : nfsclient.nfsclient :=
  let c k := x.(labelled.cnt) !!! k in
  if is_label x "rpc" then
    nfsclient.mk (c 0%nat) (c 1%nat) (c 2%nat) v.(nfsclient.rpcread) v.(nfsclient.rpcwrite) v.(nfsclient.future)
  else if is_label x "proc2" then client_add (c 7%nat) (c 9%nat) v
  else if is_label x "proc3" then client_add (c 7%nat) (c 8%nat) v
  else if is_label x "proc4" then client_add (c 2%nat) (c 3%nat) v
  else v.

Definition nfs_line (line : text) (st : text * nfsclient.nfsclient) : option (text * nfsclient.nfsclient) :=
  r ← scan_into line NFSFMT (LABELSTORES 10) (labelled.mk st.1 (replicate 10 0));
  Some (r.2.(labelled.label), if (r.1 <? 2)%nat then st.2 else nfs_figures r.2 st.2).

(** ** self/mountstats *)

(** The local variables of this part. *)
Module mountvars.
Record mountvars := mk { mountdev : text; fstype : text; counts : labelled.labelled }.
End mountvars.

Definition set_dev_fstype (x : text * text) (m : mountvars.mountvars) : mountvars.mountvars :=
  mountvars.mk x.1 x.2 m.(mountvars.counts).

Definition mount_figures (c : nat -> Z) (x : pernfsmount.pernfsmount) : pernfsmount.pernfsmount :=
  pernfsmount.mk x.(pernfsmount.mountdev) x.(pernfsmount.age) (c 0%nat) (c 1%nat) (c 2%nat) (c 3%nat) (c 4%nat)
    (c 5%nat) (c 6%nat) (c 7%nat) x.(pernfsmount.future).

Fixpoint mount_lines (ls : list text) (m : mountvars.mountvars) (i : nat) (mnts : list pernfsmount.pernfsmount) :
  option (nat * list pernfsmount.pernfsmount) :=
  match ls with
  | [] => Some (i, mnts)
  | l :: ls =>
      '(nr, df) ← scan_into l "device %127s mounted on %*s with fstype %31s"
                    [str (fun t (x : text * text) => (t, x.2)); str (fun t (x : text * text) => (x.1, t))]
                    (m.(mountvars.mountdev), m.(mountvars.fstype));
      let m := set_dev_fstype df m in
      if Nat.eqb nr 2 then mount_lines ls m i mnts
      else if negb (starts "nfs" m.(mountvars.fstype)) then mount_lines ls m i mnts
      else
        '(nr, x) ← scan_into l "%31s %lld %lld %lld %lld %lld %lld %lld %lld" (LABELSTORES 8) m.(mountvars.counts);
        let m := mountvars.mk m.(mountvars.mountdev) m.(mountvars.fstype) x in
        let c k := x.(labelled.cnt) !!! k in
        if (nr <? 2)%nat then mount_lines ls m i mnts
        else if is_label x "age:" then
          p ← mnts !! i;
          mount_lines ls m i
            (<[i := set_pernfsmount_age (c 0%nat) (set_pernfsmount_mountdev (str_of m.(mountvars.mountdev)) p)]> mnts)
        else if is_label x "bytes:" then
          p ← mnts !! i;
          let mnts := <[i := mount_figures c p]> mnts in
          if (MAXNFSMOUNT - 1 <=? S i)%nat then Some (S i, mnts) else mount_lines ls m (S i) mnts
        else mount_lines ls m i mnts
  end.

Definition mountstats_file (file : option text) (junk : mountvars.mountvars) (v : nfsmounts.nfsmounts) :
  option nfsmounts.nfsmounts :=
  match file with
  | None => Some v
  | Some t => r ← mount_lines (lines LINEBUF t) junk 0 v.(nfsmounts.nfsmnt); Some (nfsmounts.mk (Z.of_nat r.1) r.2)
  end.

(** ** user_beancounters and vz/vestat *)

(** [ctid], [label] and [cnt]. *)
Definition BEANSTORES : list (value -> Z * text * Z -> Z * text * Z) :=
  [num (fun v x => (v, x.1.2, x.2)); str (fun t x => (x.1.1, t, x.2)); num (fun v x => (x.1, v))].

Definition bean_figure (label : text) (cnt : Z) (p : percontainer.percontainer) : percontainer.percontainer :=
  if bool_decide (label = chars "numproc") then set_percontainer_numproc cnt p
  else if bool_decide (label = chars "physpages") then set_percontainer_physpages cnt p
  else p.

(** [i] is the entry of the current container, -1 before the first; the loop
    ends with [i] at [MAXCONTAINER] when there is one more. *)
Fixpoint bean_lines (ls : list text) (x : Z * text * Z) (i : Z) (cont : list percontainer.percontainer) :
  option (Z * list percontainer.percontainer) :=
  match ls with
  | [] => Some (i, cont)
  | l :: ls =>
      '(nr, x) ← scan_into l "%lu: %31s %lld" BEANSTORES x;
      if Nat.eqb nr 3 then
        let i := i + 1 in
        if Z.of_nat MAXCONTAINER <=? i then Some (i, cont)
        else
          p ← cont !! Z.to_nat i;
          bean_lines ls x i (<[Z.to_nat i := bean_figure x.1.2 x.2 (set_percontainer_ctid x.1.1 p)]> cont)
      else
        '(nr, y) ← scan_into l "%31s %lld" (drop 1 BEANSTORES) x;
        if negb (Nat.eqb nr 2) || (i =? -1) then bean_lines ls y i cont
        else
          p ← cont !! Z.to_nat i;
          bean_lines ls y i (<[Z.to_nat i := bean_figure y.1.2 y.2 p]> cont)
  end.

(** The search for a container by its id, among [n] from [i] on; an index
    outside the array is [None]. *)
Fixpoint find_cont (n : nat) (i : nat) (ctid : Z) (cont : list percontainer.percontainer) : option (option nat) :=
  match n with
  | O => Some None
  | S n => p ← cont !! i; if p.(percontainer.ctid) =? ctid then Some (Some i) else find_cont n (S i) ctid cont
  end.

Definition vestat_figures (c : nat -> Z) (p : percontainer.percontainer) : percontainer.percontainer :=
  percontainer.mk p.(percontainer.ctid) p.(percontainer.numproc) (c 2%nat) (c 0%nat) (c 1%nat) (c 3%nat)
    p.(percontainer.physpages).

Definition VESTATFMT : string := "%lu  %lld %lld %lld %lld" ++ "%lld %lld %lld %lld %lld".

Definition VESTATSTORES : list (value -> Z * list Z -> Z * list Z) :=
  num (fun v x => (v, x.2)) :: ((fun k => num (fun v x => (x.1, <[k := v]> x.2))) <$> seq 0 9).

(** [cnt] has eight elements: the ninth value is stored behind it. *)
Definition vestat_line (nrcontainer : Z) (line : text) (st : Z * list Z * list percontainer.percontainer) :
  option (Z * list Z * list percontainer.percontainer) :=
  let '(ctid, cnt, cont) := st in
  '(nr, (ctid, cnt)) ← scan_into line VESTATFMT VESTATSTORES (ctid, cnt);
  if (nr <? 9)%nat then Some (ctid, cnt, cont)
  else if (9 <? nr)%nat then None
  else
    found ← find_cont (Z.to_nat nrcontainer) 0 ctid cont;
    match found with
    | None => Some (ctid, cnt, cont)
    | Some i =>
        p ← cont !! i;
        Some (ctid, cnt, <[i := vestat_figures (fun k => cnt !!! k) p]> cont)
    end.

Definition containers_file (beans vestat : option text) (v : contstat.contstat) : option contstat.contstat :=
  match beans with
  | None => Some v
  | Some t =>
      '(i, cont) ← bean_lines (lines LINEBUF t) (0, [], 0) (-1) v.(contstat.cont);
      let nr := i + 1 in
      '(_, _, cont) ← read_file (vestat_line nr) vestat (0, replicate 8 0, cont);
      Some (contstat.mk nr cont)
  end.

(** ** Event counters of the processors *)

(** The kernel's side: the descriptors that [perf_event_open] gives for the
    instructions and cycles of a processor, what a [read] gives, and the result
    of [droprootprivs]. *)
Module perfenv.
Record perfenv := mk {
  open_instr : Z -> Z;
  open_cycle : Z -> Z;
  read_count : Z -> option Z;
  drop_rc : Z;
  drop_errno : Z
}.
End perfenv.

(** The static variables; [fds] are [fdi] and [fdc]. *)
Module perfstate.
Record perfstate := mk { firstcall : bool; cpualloced : Z; fds : list (Z * Z) }.
End perfstate.

Definition set_events (instr cycle : Z) (p : percpu.percpu) : percpu.percpu :=
  set_percpu_cycle cycle (set_percpu_instr instr p).

(** The counters of the processors from [i] on, with the totals. *)
Fixpoint read_events (e : perfenv.perfenv) (fds : list (Z * Z)) (i : nat) (cs : cpustat.cpustat) :
  option cpustat.cpustat :=
  match fds with
  | [] => Some cs
  | (fdi, fdc) :: fds =>
      if fdi =? -1 then read_events e fds (S i) cs
      else
        p ← cs.(cpustat.cpu) !! i;
        let p := set_events (default p.(percpu.instr) (e.(perfenv.read_count) fdi))
                   (default p.(percpu.cycle) (e.(perfenv.read_count) fdc)) p in
        let all := cs.(cpustat.all) in
        let all := set_events (all.(percpu.instr) +64 p.(percpu.instr)) (all.(percpu.cycle) +64 p.(percpu.cycle)) all in
        read_events e fds (S i) (set_cpustat_all all (set_cpustat_cpu (<[i := p]> cs.(cpustat.cpu)) cs))
  end.

Definition getperfevents (e : perfenv.perfenv) (st : perfstate.perfstate) (cs : cpustat.cpustat) :
  run (perfstate.perfstate * cpustat.cpustat) :=
  if st.(perfstate.firstcall) then
    let n := Z.to_nat cs.(cpustat.nrcpu) in
    let fds := (fun i => (e.(perfenv.open_instr) (Z.of_nat i), e.(perfenv.open_cycle) (Z.of_nat i))) <$> seq 0 n in
    let success := existsb (fun fd => (0 <=? fd.1) || (0 <=? fd.2)) fds in
    if droprootprivs e.(perfenv.drop_rc) e.(perfenv.drop_errno) =? 0 then Some (Exit 42)
    else if success then
      mret (M := run) (perfstate.mk false cs.(cpustat.nrcpu) fds,
                       set_cpustat_all (set_events 1 1 cs.(cpustat.all)) cs)
    else mret (M := run) (perfstate.mk false 0 [], cs)
  else if st.(perfstate.cpualloced) =? 0 then mret (M := run) (st, cs)
  else
    cs ← may_fault (read_events e st.(perfstate.fds) 0 (set_cpustat_all (set_events 0 0 cs.(cpustat.all)) cs));
    mret (M := run) (st, cs).

(** ** photosyst *)

(** The files, as texts. *)
Module procfiles.
Record procfiles := mk {
  stat : option text;
  loadavg : option text;
  cpufreqs : Z -> cpufreq.cpufreq;
  cpuinfo : option text;
  vmstat : option text;
  meminfo : option text;
  vmmemctl : option text;
  net_dev : option text;
  net_snmp : option text;
  net_snmp6 : option text;
  partitions : option text;
  diskstats : option text;
  nfsd : option text;
  nfs : option text;
  mountstats : option text;
  user_beancounters : option text;
  vestat : option text
}.
End procfiles.

(** The other calls: whether the directory can be changed to /proc and back,
    [SHM_INFO], the privileges, the disks and the event counters. [junk] is the
    content of the variables that are not initialised. *)
Module systenv.
Record systenv := mk {
  pagesize : Z;
  cwd_ok : bool;
  back_ok : bool;
  shm_info : option (Z * Z);
  drop_rc : Z;
  drop_errno : Z;
  disks : diskenv.diskenv;
  perf : perfenv.perfenv;
  junk_cnts : list Z;
  junk_disk : diskvars.diskvars;
  junk_mount : mountvars.mountvars
}.
End systenv.

(** The static variables. *)
Module syststate.
Record syststate := mk {
  part_stats : bool;
  devmaps : option Photodisk.devmaps;
  events : perfstate.perfstate
}.
End syststate.

Definition syststate_start : syststate.syststate := syststate.mk true None (perfstate.mk true 0 []).

(** From stat to snmp6. *)
Definition counters (env : systenv.systenv) (f : procfiles.procfiles) : option sstat.sstat :=
  let s := scan.mk env.(systenv.junk_cnts) [] sstat_zero in
  s ← stat_file f.(procfiles.stat) s;
  let s := loadavg_file f.(procfiles.loadavg) s in
  s ← frequencies f.(procfiles.cpufreqs) f.(procfiles.cpuinfo) s;
  s ← read_file vmstat_line f.(procfiles.vmstat) s;
  s ← meminfo_file env.(systenv.pagesize) f.(procfiles.meminfo) s;
  s ← vmmemctl_file f.(procfiles.vmmemctl) s;
  intf ← intf_file f.(procfiles.net_dev) s.(scan.si).(sstat.intf);
  let s := upd_si (set_sstat_intf intf) s in
  s ← read_file snmp_line f.(procfiles.net_snmp) s;
  s ← snmp6_file f.(procfiles.net_snmp6) s;
  Some s.(scan.si).

(** The disks and the shared memory. *)
Definition disks (env : systenv.systenv) (f : procfiles.procfiles) (st : syststate.syststate) (si : sstat.sstat) :
  option (syststate.syststate * sstat.sstat) :=
  '(part_stats, maps, d) ← partitions_file env.(systenv.disks) f.(procfiles.partitions)
                              st.(syststate.part_stats) st.(syststate.devmaps) si.(sstat.dsk);
  '(maps, d) ← diskstats_file env.(systenv.disks) f.(procfiles.diskstats) env.(systenv.junk_disk) maps d;
  let si := set_sstat_dsk d si in
  Some (syststate.mk part_stats maps st.(syststate.events),
        match env.(systenv.shm_info) with
        | None => si
        | Some (rss, swp) => upd_mem (fun m => set_memstat_shmswp swp (set_memstat_shmrss rss m)) si
        end).

(** NFS. *)
Definition nfs_counters (env : systenv.systenv) (f : procfiles.procfiles) (v : nfsstat.nfsstat) : option nfsstat.nfsstat :=
  server ← read_file nfsd_line f.(procfiles.nfsd) ([], v.(nfsstat.server));
  client ← read_file nfs_line f.(procfiles.nfs) ([], v.(nfsstat.client));
  mounts ← mountstats_file f.(procfiles.mountstats) env.(systenv.junk_mount) v.(nfsstat.nfsmounts);
  Some (nfsstat.mk server.2 client.2 mounts).

Definition photosyst (env : systenv.systenv) (f : procfiles.procfiles) (st : syststate.syststate) :
  run (syststate.syststate * sstat.sstat) :=
  if negb env.(systenv.cwd_ok) then Some (Exit 53)
  else
    si ← may_fault (counters env f);
    r ← may_fault (disks env f st si);
    let '(st, si) := (r : syststate.syststate * sstat.sstat) in
    nfs ← may_fault (nfs_counters env f si.(sstat.nfs));
    let si := set_sstat_nfs nfs si in
    if droprootprivs env.(systenv.drop_rc) env.(systenv.drop_errno) =? 0 then Some (Exit 42)
    else
      cont ← may_fault (containers_file f.(procfiles.user_beancounters) f.(procfiles.vestat) si.(sstat.cfs));
      let si := set_sstat_cfs cont si in
      if negb env.(systenv.back_ok) then Some (Exit 53)
      else
        r ← getperfevents env.(systenv.perf) st.(syststate.events) si.(sstat.cpu);
        mret (M := run) (syststate.mk st.(syststate.part_stats) st.(syststate.devmaps) r.1,
                         set_sstat_cpu r.2 si).
