(* ===== verification/PhotosystShape.v ===== *)
(** * photosyst: the shape of a sample

    The lengths of the arrays are kept by every step; the tables of interfaces
    and disks are ended; the counts lie inside their arrays. *)
From Stdlib Require Import Ascii.
From S2P Require Import Prelude Format Sscanf Sstat SstatStores Privs SystFacts SystMain Photosyst Photodisk Photonfs.

(** The lengths of the arrays. *)
Definition dims (si : sstat.sstat) : list nat :=
  [length si.(sstat.cpu).(cpustat.cpu); length si.(sstat.intf).(intfstat.intf);
   length si.(sstat.dsk).(dskstat.dsk); length si.(sstat.dsk).(dskstat.mdd); length si.(sstat.dsk).(dskstat.lvm);
   length si.(sstat.nfs).(nfsstat.nfsmounts).(nfsmounts.nfsmnt); length si.(sstat.cfs).(contstat.cont)].

Definition array_dims : list nat := [MAXCPU; MAXINTF; MAXDSK; MAXMDD; MAXLVM; MAXNFSMOUNT; MAXCONTAINER].

(** Everything but the processors, memory and protocols. *)
Definition rest_of (si : sstat.sstat) : intfstat.intfstat * dskstat.dskstat * nfsstat.nfsstat * contstat.contstat :=
  (si.(sstat.intf), si.(sstat.dsk), si.(sstat.nfs), si.(sstat.cfs)).

(** What the readers of memory and protocol counters leave as it is. *)
Definition calm (a b : sstat.sstat) : Prop := a.(sstat.cpu) = b.(sstat.cpu) /\ rest_of a = rest_of b.

Lemma calm_refl a : calm a a.
Proof. done. Qed.
Lemma calm_trans a b c : calm a b -> calm b c -> calm a c.
Proof. intros [E1 E2] [E3 E4]. split; congruence. Qed.
Lemma calm_mem f s : calm s.(scan.si) (upd_si (upd_mem f) s).(scan.si).
Proof. done. Qed.
Lemma calm_net f s : calm s.(scan.si) (upd_si (upd_net f) s).(scan.si).
Proof. done. Qed.

(** The readers of processors also keep the length of that array. *)
Definition keeps (a b : sstat.sstat) : Prop :=
  rest_of a = rest_of b /\
  length a.(sstat.cpu).(cpustat.cpu) = length b.(sstat.cpu).(cpustat.cpu).

Lemma keeps_refl a : keeps a a.
Proof. done. Qed.
Lemma keeps_trans a b c : keeps a b -> keeps b c -> keeps a c.
Proof. intros [E1 E2] [E3 E4]. split; congruence. Qed.
Lemma keeps_cpu f s : length (f s.(scan.si).(sstat.cpu)).(cpustat.cpu) = length s.(scan.si).(sstat.cpu).(cpustat.cpu) ->
  keeps s.(scan.si) (upd_si (upd_cpu f) s).(scan.si).
Proof. intros H. split; [done | by symmetry]. Qed.
Lemma keeps_mem f s : keeps s.(scan.si) (upd_si (upd_mem f) s).(scan.si).
Proof. done. Qed.

#[export] Hint Resolve calm_refl calm_mem calm_net keeps_refl keeps_cpu keeps_mem : sample.
Ltac kept := match goal with H : Some _ = Some _ |- _ => apply (inj Some) in H; subst; auto with sample end.

(** ** Stores of [sscanf] *)

Lemma stores_keep {S} (P : S -> S -> Prop) (fs : list (value -> S -> S)) vs s :
  (forall s, P s s) -> (forall a b c, P a b -> P b c -> P a c) ->
  Forall (fun f => forall v s, P s (f v s)) fs -> P s (stores fs vs s).
Proof.
  intros Hr Ht HF. revert vs s. induction HF as [|f fs Hf HF IH]; intros [|v vs] s; cbn; auto.
  eapply Ht; [apply Hf | apply IH].
Qed.

Lemma scan_into_keep {S} (P : S -> S -> Prop) l fmt (fs : list (value -> S -> S)) s r :
  (forall s, P s s) -> (forall a b c, P a b -> P b c -> P a c) ->
  Forall (fun f => forall v s, P s (f v s)) fs -> scan_into l fmt fs s = Some r -> P s r.2.
Proof.
  intros Hr Ht HF. unfold scan_into. destruct (sscanf l fmt) as [vs|]; cbn; [|done].
  intros [= <-]. by apply stores_keep.
Qed.

Lemma name_stores_si n : Forall (fun f => forall v s, (f v s).(scan.si) = s.(scan.si)) (name_and_counters n).
Proof.
  unfold name_and_counters. apply Forall_cons. split; [by intros [] ?|].
  apply Forall_forall. intros f Hf. apply list_elem_of_fmap in Hf as (k & -> & _). by intros [] ?.
Qed.

Lemma scan_line_si l fmt n s nr s' : scan_line l fmt n s = Some (nr, s') -> s'.(scan.si) = s.(scan.si).
Proof.
  unfold scan_line. destruct (scan_into _ _ _ _) as [x|] eqn:E; mstep; [|done].
  destruct (_ <? 64)%nat; [|done]. intros [= ->].
  refine (scan_into_keep (fun a b => b.(scan.si) = a.(scan.si)) l fmt _ s _ _ _ (name_stores_si n) E);
    [done | congruence].
Qed.

Ltac scanned_line :=
  match goal with
  | H : context [scan_line ?l ?f ?n ?s] |- _ =>
      let E := fresh "E" in let nr := fresh "nr" in let s' := fresh "s'" in
      destruct (scan_line l f n s) as [[nr s']|] eqn:E; [|discriminate H]; cbn [mbind option_bind] in H;
      apply scan_line_si in E; rewrite <-E; clear E
  end.

(** ** The lines of the counter files *)

(** Conversion need not look into the scanner. *)
#[local] Opaque scan_line scan_into.

Definition line_keeps (R : sstat.sstat -> sstat.sstat -> Prop) (f : text -> scan.scan -> option scan.scan) : Prop :=
  forall l s s', f l s = Some s' -> R s.(scan.si) s'.(scan.si).

Lemma each_line_keep {S} (P : S -> S -> Prop) f ls s s' :
  (forall s, P s s) -> (forall a b c, P a b -> P b c -> P a c) ->
  (forall l s s', f l s = Some s' -> P s s') -> each_line f ls s = Some s' -> P s s'.
Proof.
  intros Hr Ht Hf. revert s. induction ls as [|l ls IH]; intros s; cbn; [by intros [= <-]|].
  destruct (f l s) as [s1|] eqn:E; cbn; [|done]. intros H. eapply Ht; [by eapply Hf | by apply IH].
Qed.

Lemma read_file_keep {S} (P : S -> S -> Prop) f file s s' :
  (forall s, P s s) -> (forall a b c, P a b -> P b c -> P a c) ->
  (forall l s s', f l s = Some s' -> P s s') -> read_file f file s = Some s' -> P s s'.
Proof.
  intros Hr Ht Hf. unfold read_file. destruct file; [by apply each_line_keep | by intros [= <-]].
Qed.

Lemma read_keeps R f file s s' : (forall a, R a a) -> (forall a b c, R a b -> R b c -> R a c) ->
  line_keeps R f -> read_file f file s = Some s' -> R s.(scan.si) s'.(scan.si).
Proof.
  intros Hr Ht Hf. apply (read_file_keep (fun a b => R a.(scan.si) b.(scan.si))); eauto.
Qed.

Lemma at_cpu_length i f c c' : at_cpu i f c = Some c' ->
  length c'.(cpustat.cpu) = length c.(cpustat.cpu).
Proof.
  unfold at_cpu. destruct (i <? 0); [done|]. destruct (_ !! _); cbn; [|done]. intros [= <-]. cbn.
  apply length_insert.
Qed.

Lemma stat_line_keeps : line_keeps keeps stat_file_line.
Proof.
  intros l s s' H. unfold stat_file_line in H. scanned_line.
  destruct (nr <? 2)%nat; [kept|]. destruct (is_name _ _); [kept|].
  destruct (starts _ _).
  { destruct (_ <=? _); [kept|]. destruct (at_cpu _ _ _) as [c|] eqn:Ec; cbn [mbind option_bind] in H; [|done].
    apply at_cpu_length in Ec. kept. }
  repeat (destruct (is_name _ _); [kept|]). kept.
Qed.

Lemma vmstat_line_keeps : line_keeps calm vmstat_line.
Proof.
  intros l s s' H. unfold vmstat_line, mem_store in H. scanned_line.
  repeat match type of H with (if ?b then _ else _) = _ => destruct b end; kept.
Qed.

Lemma meminfo_line_keeps pagesize : line_keeps calm (meminfo_line pagesize).
Proof.
  intros l s s' H. unfold meminfo_line, mem_store in H. scanned_line. cbv zeta in H.
  repeat match type of H with (if ?b then _ else _) = _ => destruct b end; kept.
Qed.

Lemma snmp_line_keeps : line_keeps calm snmp_line.
Proof.
  intros l s s' H. unfold snmp_line in H. scanned_line. cbv zeta in H.
  repeat match type of H with
  | (if ?b then _ else _) = _ => destruct b
  | (?m ≫= _) = _ => destruct m; cbn [mbind option_bind] in H; [|discriminate H]
  end; kept.
Qed.

Lemma vmmemctl_lines_keeps ls s s' : vmmemctl_lines ls s = Some s' -> calm s.(scan.si) s'.(scan.si).
Proof.
  revert s. induction ls as [|l ls IH]; intros s H; cbn [vmmemctl_lines] in H; [kept|].
  scanned_line. cbn [snd] in *. destruct (is_name _ _); [unfold mem_store in H; kept|]. by apply IH.
Qed.

Lemma snmp6_line_si l st st' : snmp6_line l st = Some st' -> st'.2.(scan.si) = st.2.(scan.si).
Proof.
  destruct st as [[cur vals] s]. intros H. unfold snmp6_line in H.
  destruct (scan_into _ _ _ _) as [[nr [nam v]]|]; cbn [mbind option_bind] in H; [|done]. cbv zeta in H.
  destruct (negb _); [done|]. destruct (nr <? 2)%nat; [by apply (inj Some) in H; subst|].
  destruct (v6tab !! cur); cbn [mbind option_bind] in H; [|done]. by apply (inj Some) in H; subst.
Qed.

Lemma snmp6_file_keeps file s s' : snmp6_file file s = Some s' -> calm s.(scan.si) s'.(scan.si).
Proof.
  unfold snmp6_file. destruct file as [t|]; [|intros H; kept].
  destruct (each_line _ _ _) as [[[cur vals] x]|] eqn:E; mstep; [|done]. cbv zeta.
  apply (each_line_keep (fun a b => b.2.(scan.si) = a.2.(scan.si))) in E; [|done|congruence|apply snmp6_line_si].
  cbn [snd] in E. rewrite <-E. intros H.
  repeat match type of H with (?m ≫= _) = _ => destruct m; cbn [mbind option_bind] in H; [|discriminate H] end.
  kept.
Qed.

(** ** Frequencies *)

Lemma freqs_shape n files i c d c' d' : freqs n files i c d = Some (c', d') ->
  length c'.(cpustat.cpu) = length c.(cpustat.cpu) /\ c'.(cpustat.nrcpu) = c.(cpustat.nrcpu) /\
  ((i + n <= length c.(cpustat.cpu))%nat \/ n = 0%nat).
Proof.
  revert i c d. induction n as [|n IH]; intros i c d H; cbn [freqs] in H; [simplify_eq; auto|].
  destruct (cpustat.cpu c !! i) as [p|] eqn:Ep; cbn [mbind option_bind] in H; [|done].
  apply lookup_lt_Some in Ep.
  destruct (one_freq _ _ _) as [[q d1]|]; cbn [mbind option_bind] in H; [|done].
  apply IH in H as (H1 & H2 & H3). cbn in H1, H2, H3. rewrite length_insert in H1, H3. repeat split; [done..|lia].
Qed.

Lemma cpuinfo_line_shape l st st' : cpuinfo_line l st = Some st' ->
  length st'.2.(cpustat.cpu) = length st.2.(cpustat.cpu) /\ st'.2.(cpustat.nrcpu) = st.2.(cpustat.nrcpu).
Proof.
  unfold cpuinfo_line. intros H.
  assert (Hx : forall x, (if starts "processor" l then
      r ← scan_into l "%*s %*s %d" [num (fun z (st : Z * cpustat.cpustat) => (z, st.2))] st; Some r.2 else Some st) = Some x ->
    x.2 = st.2).
  { intros x. destruct (starts "processor" l); [|intros ?; by simplify_eq].
    destruct (scan_into _ _ _ _) as [r|] eqn:E; mstep; [|done]. intros ?; simplify_eq.
    refine (scan_into_keep (fun a b => b.2 = a.2) l _ _ st r _ _ _ E); [done | congruence |].
    apply Forall_cons. split; [by intros [] ?|]. by apply Forall_nil. }
  destruct (if starts "processor" l then _ else _) as [[cpuno c]|]; cbn [mbind option_bind] in H; [|done].
  specialize (Hx _ eq_refl). cbn [snd] in Hx. subst c.
  destruct (_ && _ && _); [|by simplify_eq].
  destruct (_ !! _) as [p|]; cbn [mbind option_bind] in H; [|done].
  destruct (scan_into _ _ _ _) as [r|]; cbn [mbind option_bind] in H; [|done]. simplify_eq. cbn.
  by rewrite length_insert.
Qed.

Lemma frequencies_shape files cpuinfo s s' : frequencies files cpuinfo s = Some s' ->
  keeps s.(scan.si) s'.(scan.si) /\
  s'.(scan.si).(sstat.cpu).(cpustat.nrcpu) <= Z.of_nat (length s'.(scan.si).(sstat.cpu).(cpustat.cpu)).
Proof.
  unfold frequencies. destruct (freqs _ _ _ _ _) as [[c d]|] eqn:Ef; [|done].
  apply freqs_shape in Ef as (L & N & B).
  assert (Hc : forall c', (if d then Some c else r ← read_file cpuinfo_line cpuinfo (-1, c); Some r.2) = Some c' ->
    length c'.(cpustat.cpu) = length c.(cpustat.cpu) /\ c'.(cpustat.nrcpu) = c.(cpustat.nrcpu)).
  { intros c'. destruct d; [intros ?; by simplify_eq|].
    destruct (read_file _ _ _) as [r|] eqn:E; mstep; [|done]. intros ?; simplify_eq.
    refine (read_file_keep (fun a b => length b.2.(cpustat.cpu) = length a.2.(cpustat.cpu) /\
      b.2.(cpustat.nrcpu) = a.2.(cpustat.nrcpu)) _ _ _ _ _ _ cpuinfo_line_shape E); [done|].
    intros a b x [E1 E2] [E3 E4]. split; congruence. }
  destruct (if d then _ else _) as [c'|]; mstep; [|done]. specialize (Hc _ eq_refl) as [L' N'].
  intros H. apply (inj Some) in H. subst s'. split; [apply keeps_cpu; congruence|].
  cbn. rewrite N', L', N. rewrite L. lia.
Qed.

(** ** Interfaces *)

(** A table with [n] entries in front of an entry without name. *)
Definition table_ok {A} (name : A -> string) (max : nat) (n : Z) (l : list A) : Prop :=
  0 <= n < Z.of_nat max /\ length l = max /\
  exists z, l !! Z.to_nat n = Some z /\ name z = EmptyString.

(** Such a table is ended for the functions that look for the empty name. *)
Lemma table_ended {A} (name : A -> string) max n l : table_ok name max n l -> ended name l.
Proof.
  intros (_ & _ & z & Hz & Ez). clear max. revert Hz. generalize (Z.to_nat n) as k. clear n.
  induction l as [|a l IH]; intros k Hk; [done|]. unfold ended. cbn [nnamed].
  destruct (str_nonempty (name a)) eqn:Ea.
  - destruct k as [|k]; cbn in Hk; [simplify_eq; by rewrite Ez in Ea|].
    destruct (IH k Hk) as [H1 H2]. split; [|done]. intros [|i] x Hi Hx; cbn in Hx; [by simplify_eq|].
    apply (H1 i x); [lia|done].
  - split; [lia|]. by exists a.
Qed.

Lemma intf_lines_shape ls : forall i intf i' intf', (i < MAXINTF - 1)%nat ->
  intf_lines ls i intf = Some (i', intf') -> (i' <= MAXINTF - 1)%nat /\ length intf' = length intf.
Proof.
  induction ls as [|l ls IH]; intros i intf i' intf' Hi H; cbn [intf_lines] in H; [simplify_eq; split; [lia|done]|].
  bind in H as p Eb1.
  bind in H as [nr q] Eb2.
  destruct (Nat.eqb nr 17).
  - destruct (Nat.leb_spec (MAXINTF - 1) (S i)) as [Hle|Hle].
    + apply (inj Some) in H. simplify_eq. rewrite length_insert. split; [lia|done].
    + apply IH in H; [|lia]. by rewrite length_insert in H.
  - apply IH in H; [|lia]. by rewrite length_insert in H.
Qed.

Lemma intf_file_shape file v v' : length v.(intfstat.intf) = MAXINTF -> table_ok perintf.name MAXINTF v.(intfstat.nrintf) v.(intfstat.intf) ->
  intf_file file v = Some v' -> table_ok perintf.name MAXINTF v'.(intfstat.nrintf) v'.(intfstat.intf).
Proof.
  intros Hl Hok. unfold intf_file. destruct file as [t|]; [|intros ?; by simplify_eq].
  intros H. bind in H as [i intf] E. apply intf_lines_shape in E as [Hi Hle]; [|unfold MAXINTF; lia].
  bind in H as p Ep. apply (inj Some) in H. subst v'.
  unfold table_ok. cbn [intfstat.nrintf intfstat.intf]. rewrite length_insert, Nat2Z.id.
  split; [unfold MAXINTF in *; lia|]. split; [congruence|]. eexists.
  split; [apply list_lookup_insert_eq; by eapply lookup_lt_Some | done].
Qed.

(** ** Disks *)

Definition disk_dims (d : dskstat.dskstat) : nat * nat * nat :=
  (length d.(dskstat.dsk), length d.(dskstat.mdd), length d.(dskstat.lvm)).

Lemma partition_lines_shape e ls : forall i name st dsk i' st' dsk', (i < MAXDSK - 1)%nat ->
  partition_lines e ls i name st dsk = Some (i', st', dsk') ->
  (i' <= MAXDSK - 1)%nat /\ length dsk' = length dsk.
Proof.
  induction ls as [|l ls IH]; intros i name st dsk i' st' dsk' Hi H; cbn [partition_lines] in H;
    [simplify_eq; split; [lia|done]|].
  bind in H as p Eb3.
  bind in H as [nr [name' q]] Eb4.
  destruct (Nat.eqb nr 7).
  - bind in H as [[ty st1] r] Eb5.
    destruct (bool_decide (ty = DSKTYPE)).
    + destruct (Nat.leb_spec (MAXDSK - 1) (S i)) as [Hle|Hle].
      * apply (inj Some) in H. simplify_eq. rewrite length_insert. split; [lia|done].
      * apply IH in H; [|lia]. by rewrite length_insert in H.
    + apply IH in H; [|lia]. by rewrite length_insert in H.
  - apply IH in H; [|lia]. by rewrite length_insert in H.
Qed.

Lemma append_disk_shape max p n l n' l' : 0 <= n <= Z.of_nat max - 1 -> append_disk max p n l = Some (n', l') ->
  0 <= n' <= Z.of_nat max - 1 /\ length l' = length l.
Proof.
  unfold append_disk. intros Hn. destruct (Z.ltb_spec n (Z.of_nat max - 1)); [|intros ?; by simplify_eq].
  destruct (l !! Z.to_nat n); mstep; [|done]. intros H'. apply (inj Some) in H'. simplify_eq.
  rewrite length_insert. split; [lia|done].
Qed.

Definition disk_counts (d : dskstat.dskstat) : Prop :=
  0 <= d.(dskstat.ndsk) <= Z.of_nat MAXDSK - 1 /\ 0 <= d.(dskstat.nmdd) <= Z.of_nat MAXMDD - 1 /\
  0 <= d.(dskstat.nlvm) <= Z.of_nat MAXLVM - 1.

Lemma keep_disk_shape t p d d' : disk_counts d -> keep_disk t p d = Some d' ->
  disk_counts d' /\ disk_dims d' = disk_dims d.
Proof.
  intros (H1 & H2 & H3) H. unfold disk_counts, disk_dims.
  destruct t; cbn [keep_disk] in H; [by simplify_eq|..].
  all: bind in H as [n l] E.
  all: apply append_disk_shape in E as [Hn El]; [|assumption].
  all: apply (inj Some) in H; subst d'; cbn; rewrite El; repeat split; tauto.
Qed.

Lemma diskstat_lines_shape e ls : forall x st d st' d', disk_counts d ->
  diskstat_lines e ls x st d = Some (st', d') -> disk_counts d' /\ disk_dims d' = disk_dims d.
Proof.
  induction ls as [|l ls IH]; intros x st d st' d' Hd H; cbn [diskstat_lines] in H; [by simplify_eq|].
  bind in H as [nr y] Eb7.
  destruct (Nat.eqb nr 9); [|by eapply IH].
  bind in H as [[ty st1] r] Eb8.
  bind in H as d1 E.
  apply keep_disk_shape in E as [E1 E2]; [|done]. apply IH in H as [H1 H2]; [|done]. split; congruence.
Qed.

Lemma terminate_shape max n l l' : 0 <= n <= Z.of_nat max - 1 -> length l = max -> terminate n l = Some l' ->
  table_ok perdsk.name max n l'.
Proof.
  intros Hn Hl. unfold terminate. destruct (l !! Z.to_nat n) as [p|] eqn:Ep; mstep; [|done].
  intros H. apply (inj Some) in H. subst l'. split; [lia|]. rewrite length_insert. split; [done|].
  eexists.
  split; [apply list_lookup_insert_eq; by eapply lookup_lt_Some | done].
Qed.

Definition disks_table (d : dskstat.dskstat) : Prop :=
  table_ok perdsk.name MAXDSK d.(dskstat.ndsk) d.(dskstat.dsk) /\
  table_ok perdsk.name MAXMDD d.(dskstat.nmdd) d.(dskstat.mdd) /\
  table_ok perdsk.name MAXLVM d.(dskstat.nlvm) d.(dskstat.lvm).

Lemma disks_shape env f st si st' si' : disks_table si.(sstat.dsk) ->
  disks env f st si = Some (st', si') ->
  disks_table si'.(sstat.dsk) /\ si'.(sstat.cpu) = si.(sstat.cpu) /\ si'.(sstat.intf) = si.(sstat.intf) /\
  si'.(sstat.nfs) = si.(sstat.nfs) /\ si'.(sstat.cfs) = si.(sstat.cfs).
Proof.
  intros Hd H. unfold disks in H.
  bind in H as [[ps maps] d] E1.
  bind in H as [maps' d'] E2.
  assert (Hd1 : disks_table d).
  { unfold partitions_file in E1. destruct (if syststate.part_stats st then _ else _) as [t|]; [|by simplify_eq].
    bind in E1 as [[i st1] dsk] E.
    apply partition_lines_shape in E as [Hi Hl]; [|unfold MAXDSK; lia].
    bind in E1 as p Ep.
    apply (inj Some) in E1. cbv zeta in E1. injection E1 as <- <- <-. destruct Hd as ((_ & L & _) & Hm & Hv).
    split; [|done]. unfold table_ok. cbn. rewrite length_insert, Nat2Z.id.
    split; [unfold MAXDSK in *; lia|]. split; [congruence|]. eexists.
  split; [apply list_lookup_insert_eq; by eapply lookup_lt_Some | done]. }
  assert (Hd2 : disks_table d').
  { unfold diskstats_file in E2. destruct (procfiles.diskstats f) as [t|]; [|by simplify_eq].
    bind in E2 as [st1 d1] E.
    apply diskstat_lines_shape in E as [(C1 & C2 & C3) D]; [|repeat split; by vm_compute].
    destruct Hd1 as ((_ & L1 & _) & (_ & L2 & _) & (_ & L3 & _)).
    unfold disk_dims in D. cbn in D. injection D as D1 D2 D3.
    bind in E2 as dsk T1.
    bind in E2 as mdd T2.
    bind in E2 as lvm T3.
    apply (inj Some) in E2. injection E2 as <- <-.
    split; [|split]; cbn; (eapply terminate_shape; [eassumption | | eassumption]; congruence). }
  apply (inj Some) in H. injection H as <- <-. destruct (systenv.shm_info env) as [[rss swp]|]; done.
Qed.

(** ** NFS mounts and containers *)

Lemma mount_lines_shape ls : forall m i l i' l', (i < MAXNFSMOUNT - 1)%nat ->
  mount_lines ls m i l = Some (i', l') -> (i' <= MAXNFSMOUNT - 1)%nat /\ length l' = length l.
Proof.
  induction ls as [|x ls IH]; intros m i l i' l' Hi H; cbn [mount_lines] in H; [simplify_eq; split; [lia|done]|].
  bind in H as [nr df] E1. destruct (Nat.eqb nr 2); [by eapply IH|]. destruct (negb _); [by eapply IH|].
  bind in H as [nr' y] E2. destruct (nr' <? 2)%nat; [by eapply IH|].
  destruct (is_label y "age:").
  { bind in H as p Ep. apply IH in H; [|done]. by rewrite length_insert in H. }
  destruct (is_label y "bytes:"); [|by eapply IH].
  bind in H as p Ep. destruct (Nat.leb_spec (MAXNFSMOUNT - 1) (S i)).
  - apply (inj Some) in H. injection H as <- <-. rewrite length_insert. split; [lia|done].
  - apply IH in H; [|lia]. by rewrite length_insert in H.
Qed.

Lemma bean_lines_shape ls : forall x i l i' l', -1 <= i < Z.of_nat MAXCONTAINER ->
  bean_lines ls x i l = Some (i', l') -> -1 <= i' <= Z.of_nat MAXCONTAINER /\ length l' = length l.
Proof.
  induction ls as [|t ls IH]; intros x i l i' l' Hi H; cbn [bean_lines] in H; [simplify_eq; split; [lia|done]|].
  bind in H as [nr y] E1. destruct (Nat.eqb nr 3).
  - destruct (Z.leb_spec (Z.of_nat MAXCONTAINER) (i + 1)).
    + apply (inj Some) in H. injection H as <- <-. split; [lia|done].
    + bind in H as p Ep. apply IH in H; [|lia]. by rewrite length_insert in H.
  - bind in H as [nr' z] E2. destruct (_ || _); [by eapply IH|].
    bind in H as p Ep. apply IH in H; [|lia]. by rewrite length_insert in H.
Qed.

Lemma vestat_line_shape n l st st' : vestat_line n l st = Some st' -> length st'.2 = length st.2.
Proof.
  destruct st as [[ctid cnt] cont]. intros H. unfold vestat_line in H. bind in H as [nr [c k]] E1.
  destruct (nr <? 9)%nat; [by apply (inj Some) in H; subst|]. destruct (9 <? nr)%nat; [done|].
  bind in H as [i|] E2; [|by apply (inj Some) in H; subst].
  bind in H as p Ep. apply (inj Some) in H. subst. apply length_insert.
Qed.

Lemma containers_shape beans vestat v v' : length v.(contstat.cont) = MAXCONTAINER ->
  0 <= v.(contstat.nrcontainer) <= Z.of_nat MAXCONTAINER + 1 ->
  containers_file beans vestat v = Some v' ->
  length v'.(contstat.cont) = MAXCONTAINER /\ 0 <= v'.(contstat.nrcontainer) <= Z.of_nat MAXCONTAINER + 1.
Proof.
  intros Hl Hn H. unfold containers_file in H. destruct beans as [t|]; [|by simplify_eq].
  bind in H as [i cont] E1. apply bean_lines_shape in E1 as [Hi Hc]; [|unfold MAXCONTAINER; lia].
  bind in H as [[a b] cont'] E2. apply (inj Some) in H. subst v'. cbn [contstat.cont contstat.nrcontainer].
  split; [|lia].
  assert (E : length cont' = length cont); [|congruence].
  refine (read_file_keep (fun a b => length b.2 = length a.2) _ _ _ _ _ _ (vestat_line_shape _) E2);
    [done | congruence].
Qed.

(** ** Event counters *)

Definition same_cpus (a b : cpustat.cpustat) : Prop :=
  length a.(cpustat.cpu) = length b.(cpustat.cpu) /\ a.(cpustat.nrcpu) = b.(cpustat.nrcpu).

Lemma read_events_shape e fds : forall i cs cs', read_events e fds i cs = Some cs' -> same_cpus cs cs'.
Proof.
  induction fds as [|[fi fc] fds IH]; intros i cs cs' H; cbn [read_events] in H; [by simplify_eq|].
  destruct (fi =? -1); [by eapply IH|]. bind in H as p Ep. apply IH in H as [H1 H2].
  split; [|done]. rewrite <-H1. cbn. by rewrite length_insert.
Qed.

Lemma getperfevents_shape e st cs st' cs' : getperfevents e st cs = Some (Ret (st', cs')) -> same_cpus cs cs'.
Proof.
  unfold getperfevents. destruct (perfstate.firstcall st).
  - destruct (_ =? 0); [done|]. destruct (existsb _ _); intros H; cbv [mret run_ret] in H; by simplify_eq.
  - destruct (_ =? 0); [intros H; cbv [mret run_ret] in H; by simplify_eq|].
    destruct (read_events _ _ _ _) as [c|] eqn:E; cbn; [|done]. apply read_events_shape in E.
    intros H. cbv [mret run_ret] in H. simplify_eq. exact E.
Qed.

(** ** The sample *)

(** What the functions that work on samples rely on. *)
Record sample_ok (si : sstat.sstat) : Prop := {
  sample_cpus : length si.(sstat.cpu).(cpustat.cpu) = MAXCPU /\
    si.(sstat.cpu).(cpustat.nrcpu) <= Z.of_nat MAXCPU;
  sample_intfs : table_ok perintf.name MAXINTF si.(sstat.intf).(intfstat.nrintf) si.(sstat.intf).(intfstat.intf);
  sample_disks : disks_table si.(sstat.dsk);
  sample_mounts : length si.(sstat.nfs).(nfsstat.nfsmounts).(nfsmounts.nfsmnt) = MAXNFSMOUNT /\
    0 <= si.(sstat.nfs).(nfsstat.nfsmounts).(nfsmounts.nrmounts) <= Z.of_nat MAXNFSMOUNT - 1;
  sample_conts : length si.(sstat.cfs).(contstat.cont) = MAXCONTAINER /\
    0 <= si.(sstat.cfs).(contstat.nrcontainer) <= Z.of_nat MAXCONTAINER + 1
}.

Lemma zero_table {A} (name : A -> string) max (z : A) : name z = EmptyString -> (0 < max)%nat ->
  table_ok name max 0 (replicate max z).
Proof.
  intros Hz Hm. split; [lia|]. split; [apply length_replicate|]. exists z. split; [|done].
  apply lookup_replicate_2. lia.
Qed.

Lemma disks_zero : disks_table dskstat_zero.
Proof.
  split; [|split]; cbn [dskstat.dsk dskstat.mdd dskstat.lvm dskstat.ndsk dskstat.nmdd dskstat.nlvm dskstat_zero];
    (apply zero_table; [done | unfold MAXDSK, MAXMDD, MAXLVM; lia]).
Qed.

(** Up to the balloon of VMware: processors and memory change, nothing else. *)
Lemma counters_head env f s1 s2 s3 s4 s5 :
  stat_file f.(procfiles.stat) (scan.mk env.(systenv.junk_cnts) [] sstat_zero) = Some s1 ->
  frequencies f.(procfiles.cpufreqs) f.(procfiles.cpuinfo) (loadavg_file f.(procfiles.loadavg) s1) = Some s2 ->
  read_file vmstat_line f.(procfiles.vmstat) s2 = Some s3 ->
  meminfo_file env.(systenv.pagesize) f.(procfiles.meminfo) s3 = Some s4 ->
  vmmemctl_file f.(procfiles.vmmemctl) s4 = Some s5 ->
  keeps sstat_zero s2.(scan.si) /\ calm s2.(scan.si) s5.(scan.si) /\
  s2.(scan.si).(sstat.cpu).(cpustat.nrcpu) <= Z.of_nat (length s2.(scan.si).(sstat.cpu).(cpustat.cpu)).
Proof.
  intros E1 E2 E3 E4 E5.
  assert (K1 : keeps sstat_zero s1.(scan.si)).
  { unfold stat_file in E1. bind in E1 as s0 E0.
    apply (read_keeps keeps) in E0; [|apply keeps_refl|apply keeps_trans|apply stat_line_keeps].
    apply (inj Some) in E1. subst s1. destruct (procfiles.stat f); [|done].
    destruct (_ =? 0); [|done]. eapply keeps_trans; [exact E0|]. by apply keeps_cpu. }
  assert (KL : keeps s1.(scan.si) (loadavg_file (procfiles.loadavg f) s1).(scan.si)).
  { unfold loadavg_file. destruct (_ ≫= _) as [line|]; [|done].
    repeat (destruct (scan_float _) as [[? ?]|]; [|done]). by apply keeps_cpu. }
  apply frequencies_shape in E2 as [K2 N2].
  apply (read_keeps calm) in E3; [|apply calm_refl|apply calm_trans|apply vmstat_line_keeps].
  assert (K4 : calm s3.(scan.si) s4.(scan.si)).
  { unfold meminfo_file in E4.
    apply (read_keeps calm) in E4; [|apply calm_refl|apply calm_trans|apply meminfo_line_keeps].
    eapply calm_trans; [|exact E4]. apply calm_mem. }
  assert (K5 : calm s4.(scan.si) s5.(scan.si)).
  { unfold vmmemctl_file in E5. destruct (procfiles.vmmemctl f) as [t|].
    - apply vmmemctl_lines_keeps in E5. eapply calm_trans; [|exact E5]. apply calm_mem.
    - apply (inj Some) in E5. subst s5. apply calm_mem. }
  split; [exact (keeps_trans _ _ _ K1 (keeps_trans _ _ _ KL K2))|].
  split; [exact (calm_trans _ _ _ E3 (calm_trans _ _ _ K4 K5)) | exact N2].
Qed.

(** No interface is there before net/dev is read. *)
Lemma head_intf s2 s5 : keeps sstat_zero s2.(scan.si) -> calm s2.(scan.si) s5.(scan.si) ->
  s5.(scan.si).(sstat.intf) = sstat.intf sstat_zero.
Proof. intros [R _] [_ R5]. unfold rest_of in *. congruence. Qed.

(** The counters: processors and interfaces in their arrays, the rest untouched. *)
Lemma counters_shape env f si : counters env f = Some si ->
  length si.(sstat.cpu).(cpustat.cpu) = MAXCPU /\ si.(sstat.cpu).(cpustat.nrcpu) <= Z.of_nat MAXCPU /\
  table_ok perintf.name MAXINTF si.(sstat.intf).(intfstat.nrintf) si.(sstat.intf).(intfstat.intf) /\
  si.(sstat.dsk) = dskstat_zero /\ si.(sstat.nfs) = nfsstat_zero /\ si.(sstat.cfs) = contstat_zero.
Proof.
  intros H. unfold counters in H.
  bind in H as s1 E1. bind in H as s2 E2. bind in H as s3 E3. bind in H as s4 E4. bind in H as s5 E5.
  bind in H as v E6. bind in H as s7 E7. bind in H as s8 E8. apply (inj Some) in H. subst si.
  destruct (counters_head _ _ _ _ _ _ _ E1 E2 E3 E4 E5) as (K & C & N2).
  pose proof (head_intf _ _ K C) as Hi. destruct K as [R L], C as [C5 R5].
  apply (read_keeps calm) in E7; [|apply calm_refl|apply calm_trans|apply snmp_line_keeps].
  apply snmp6_file_keeps in E8.
  destruct (calm_trans _ _ _ E7 E8) as [C8 R8]. unfold rest_of in *.
  assert (Hz : intfstat.intf s5.(scan.si).(sstat.intf) = replicate MAXINTF perintf_zero /\
               intfstat.nrintf s5.(scan.si).(sstat.intf) = 0).
  { by rewrite Hi. }
  destruct Hz as [Hz1 Hz2].
  apply intf_file_shape in E6; [|rewrite Hz1; apply length_replicate
    | rewrite Hz1, Hz2; apply zero_table; [done|unfold MAXINTF; lia]].
  cbn [upd_si scan.si set_sstat_intf sstat.cpu sstat.intf sstat.dsk sstat.nfs sstat.cfs] in C8, R8.
  assert (Hc : sstat.cpu (scan.si s8) = sstat.cpu (scan.si s2)) by congruence.
  assert (Hl : length (cpustat.cpu (sstat.cpu (scan.si s2))) = MAXCPU).
  { rewrite <-L. apply length_replicate. }
  rewrite Hc, Hl. split; [done|]. split; [rewrite <-Hl; exact N2|].
  assert (sstat.intf (scan.si s8) = v) as -> by congruence. split; [exact E6|].
  change dskstat_zero with (sstat.dsk sstat_zero). change nfsstat_zero with (sstat.nfs sstat_zero).
  change contstat_zero with (sstat.cfs sstat_zero). split; [|split]; congruence.
Qed.

(** Whatever the files hold, a sample that is delivered has this shape. *)
Theorem photosyst_shape env f st st' si :
  photosyst env f st = Some (Ret (st', si)) -> sample_ok si.
Proof.
  intros H. unfold photosyst in H. destruct (negb _); [done|].
  destruct (counters env f) as [si1|] eqn:E1; cbn [may_fault mbind option_bind run_bind] in H; [|done].
  apply counters_shape in E1 as (C1 & C2 & I & D & N & F).
  destruct (disks env f st si1) as [[st2 si2]|] eqn:E2; cbn [may_fault mbind option_bind run_bind] in H; [|done].
  apply disks_shape in E2 as (D2 & P2 & I2 & N2 & F2); [|rewrite D; apply disks_zero].
  destruct (nfs_counters env f _) as [nfs|] eqn:E3; cbn [may_fault mbind option_bind run_bind] in H; [|done].
  destruct (_ =? 0); [done|].
  destruct (containers_file _ _ _) as [cont|] eqn:E4; cbn [may_fault mbind option_bind run_bind] in H; [|done].
  cbn [set_sstat_nfs sstat.cfs] in E4. rewrite F2, F in E4.
  apply containers_shape in E4 as [L4 B4]; [|apply length_replicate | unfold MAXCONTAINER; cbn; lia].
  destruct (negb _); [done|].
  destruct (getperfevents _ _ _) as [[|[p cs]]|] eqn:E5; cbn [mbind run_bind] in H; [done| |done].
  apply getperfevents_shape in E5 as [L5 N5]. cbn [set_sstat_cfs set_sstat_nfs sstat.cpu] in L5, N5.
  cbv [mret run_ret] in H. injection H as _ <-. cbn [fst snd].
  assert (M : length nfs.(nfsstat.nfsmounts).(nfsmounts.nfsmnt) = MAXNFSMOUNT /\
    0 <= nfs.(nfsstat.nfsmounts).(nfsmounts.nrmounts) <= Z.of_nat MAXNFSMOUNT - 1).
  { unfold nfs_counters in E3. rewrite N2, N in E3. bind in E3 as server Es. bind in E3 as client Ec.
    bind in E3 as mounts Em. apply (inj Some) in E3. subst nfs. cbn [nfsstat.nfsmounts].
    unfold mountstats_file in Em. destruct (procfiles.mountstats f) as [t|].
    - bind in Em as [i l] El. apply mount_lines_shape in El as [Hi Hl]; [|unfold MAXNFSMOUNT; lia].
      apply (inj Some) in Em. subst mounts. cbn [fst snd nfsmounts.nfsmnt nfsmounts.nrmounts].
      rewrite Hl. split; [apply length_replicate | unfold MAXNFSMOUNT in *; lia].
    - apply (inj Some) in Em. subst mounts. split; [apply length_replicate|].
      split; by vm_compute. }
  split; cbn [set_sstat_cpu set_sstat_cfs set_sstat_nfs sstat.cpu sstat.intf sstat.dsk sstat.nfs sstat.cfs].
  - rewrite <-L5, <-N5, P2. done.
  - by rewrite I2.
  - done.
  - done.
  - done.
Qed.
