(* ===== verification/PhotosystDefined.v ===== *)
(** * photosyst: when a sample is defined

    The conditions on the files under which no store of [photosyst] leaves its
    array, and the proof that it then returns, however many processors,
    interfaces, disks and mounts the files name. *)
From Stdlib Require Import Ascii.
From S2P Require Import Prelude Format Sscanf Sstat SstatStores Privs SystFacts SystMain Photosyst Photodisk Photonfs PhotosystShape.


(** ** Values and formats *)

Definition is_str (v : value) : bool := match v with VStr _ => true | VInt _ => false end.
Definition conv_str (c : conv) : bool := match c with CStr _ | CNot _ _ => true | _ => false end.

(** The kinds of the values that a format assigns. *)
Definition kinds (ds : list directive) : list bool :=
  omap (fun d => match d with Dconv false c => Some (conv_str c) | _ => None end) ds.

Lemma convert_kind s c l v rest : convert s c l = Done v rest -> is_str v = conv_str c.
Proof.
  destruct c; cbn [convert].
  - destruct (scan_nat _) as [[n r]|]; [|done]. destruct (_ || _); [|done]. by intros [= <- _].
  - destruct l; [done|]. by intros [= <- _].
  - destruct (token _ _); [done|]. by intros [= <- _].
  - destruct (run_until _ _ _); [done|]. by intros [= <- _].
Qed.

Lemma scanf_kinds ds : forall l vs, scanf ds l = Some vs -> (is_str <$> vs) `prefix_of` kinds ds.
Proof.
  assert (Hnil : forall l : list bool, is_str <$> [] `prefix_of` l) by (intros l; apply prefix_nil).
  induction ds as [|[|c|sup c] ds IH]; intros l vs; cbn [scanf]; [by intros [= <-]|apply IH| |].
  - destruct l as [|x l]; [by intros [= <-]|]. destruct (Ascii.eqb x c); [apply IH | by intros [= <-]].
  - destruct (convert sup c l) as [| |v rest] eqn:E; [by intros [= <-] | done|].
    intros H. bind in H as vs' E'. apply IH in E'. injection H as <-. apply convert_kind in E.
    destruct sup; [exact E'|]. cbn. rewrite E. by apply prefix_cons.
Qed.

Definition format_kinds (fmt : string) : list bool := default [] (kinds <$> parse_format fmt).

Lemma sscanf_kinds l fmt vs : sscanf l fmt = Some vs -> (is_str <$> vs) `prefix_of` format_kinds fmt.
Proof.
  unfold sscanf, format_kinds. destruct (parse_format fmt) as [ds|]; [|done]. apply scanf_kinds.
Qed.

(** ** Conditions on the lines of a file *)

(** The numbers of a line fit the types that they are read into. *)
Definition scans (fmt : string) (l : text) : Prop := is_Some (sscanf l fmt).

(** Also, the name in front of them has room. *)
Definition named (fmt : string) (l : text) : Prop :=
  exists vs, sscanf l fmt = Some vs /\ forall t, head vs = Some (VStr t) -> (length t < 64)%nat.

Definition file_lines (file : option text) : list text := default [] (lines LINEBUF <$> file).
Definition each (P : text -> Prop) (file : option text) : Prop := forall l, l ∈ file_lines file -> P l.

Lemma each_line_defined {S} (I : S -> Prop) f ls : forall s, I s ->
  (forall l s, l ∈ ls -> I s -> exists s', f l s = Some s' /\ I s') -> exists s', each_line f ls s = Some s' /\ I s'.
Proof.
  induction ls as [|l ls IH]; intros s Hs Hf; [by exists s|]. cbn [each_line].
  destruct (Hf l s) as (s1 & -> & H1); [by left|done|]. mstep. apply IH; [done|]. intros l' s' Hl. apply Hf. by right.
Qed.

Lemma read_file_defined {S} (I : S -> Prop) f file s : I s ->
  (forall l s, l ∈ file_lines file -> I s -> exists s', f l s = Some s' /\ I s') ->
  exists s', read_file f file s = Some s' /\ I s'.
Proof. unfold read_file. destruct file as [t|]; [apply each_line_defined | intros H _; by exists s]. Qed.

Lemma bind_eq {A B} (m : option A) (f : A -> option B) x : m = Some x -> (m ≫= f) = f x.
Proof. by intros ->. Qed.

Lemma scan_into_defined {S} fmt l (fs : list (value -> S -> S)) s vs : sscanf l fmt = Some vs ->
  scan_into l fmt fs s = Some (length vs, stores fs vs s).
Proof. intros H. unfold scan_into. by rewrite H. Qed.

#[local] Opaque sscanf scan_into.

(** ** Lines of counters *)

(** The variables that the parts share. *)
Definition ready (s : scan.scan) : Prop := (length s.(scan.nam) < 64)%nat /\ length s.(scan.cnts) = MAXCNT.

Lemma stores_cnts vs : forall k m s,
  let s' := stores ((fun k => num (set_cnt k)) <$> seq k m) vs s in
  s'.(scan.nam) = s.(scan.nam) /\ length s'.(scan.cnts) = length s.(scan.cnts) /\ s'.(scan.si) = s.(scan.si).
Proof.
  induction vs as [|v vs IH]; intros k m s; [by destruct m|]. destruct m as [|m]; [done|]. cbn.
  destruct (IH (S k) m (num (set_cnt k) v s)) as (-> & -> & ->). destruct v; [|done]. cbn. by rewrite length_insert.
Qed.

(** A line is read; what comes first in it is the name. *)
Lemma scan_line_defined fmt n l s : named fmt l -> head (format_kinds fmt) = Some true -> ready s ->
  exists vs s', sscanf l fmt = Some vs /\ scan_line l fmt n s = Some (length vs, s') /\ ready s' /\
    s'.(scan.si) = s.(scan.si) /\ (vs <> [] -> exists t vs', vs = VStr t :: vs' /\ s'.(scan.nam) = t).
Proof.
  intros (vs & E & Hn) Hk [H1 H2]. pose proof (sscanf_kinds _ _ _ E) as Hp.
  assert (Hv : vs <> [] -> exists t vs', vs = VStr t :: vs').
  { destruct vs as [|v vs]; [done|]. destruct Hp as [k Hp]. rewrite Hp in Hk. injection Hk as Hk. intros _.
    destruct v; [done|]. eauto. }
  unfold scan_line. rewrite (scan_into_defined _ _ _ _ _ E). mstep. cbn [snd].
  assert (HS : exists s', stores (name_and_counters n) vs s = s' /\ ready s' /\ s'.(scan.si) = s.(scan.si) /\
    (vs <> [] -> exists t vs', vs = VStr t :: vs' /\ s'.(scan.nam) = t)).
  { eexists. split; [reflexivity|]. unfold name_and_counters. destruct vs as [|v vs]; [done|].
    destruct (Hv ltac:(done)) as (t & vs' & [= -> ->]). cbn [stores str].
    destruct (stores_cnts vs' 0 n (set_nam t s)) as (En & Ec & Es). unfold ready. rewrite En, Ec, Es.
    split; [split; [by apply Hn | done]|]. split; [done|]. eauto. }
  destruct HS as (s' & -> & Hr & Hsi & Hnam). rewrite (proj2 (Nat.ltb_lt _ _)) by apply Hr.
  exists vs, s'. eauto.
Qed.

Lemma ready_upd f s : ready s -> ready (upd_si f s).
Proof. done. Qed.
#[export] Hint Resolve ready_upd : sample.

Ltac line_read n H :=
  let vs := fresh "vs" in let s := fresh "s" in let E := fresh "E" in let Hr := fresh "Hr" in
  let Hsi := fresh "Hsi" in let Hnam := fresh "Hnam" in
  destruct (scan_line_defined _ n _ _ H eq_refl ltac:(eassumption)) as (vs & s & E & -> & Hr & Hsi & Hnam); mstep.
Ltac cases := repeat match goal with |- exists _, (if ?b then _ else _) = _ /\ _ => destruct b end;
  eexists; (split; [reflexivity|]); auto with sample.

(** ** stat *)

(** The processor that a line of stat is about. *)
Definition cpu_of (l : text) : option Z :=
  match sscanf l SCANSTATCPU with
  | Some (VStr t :: _) =>
      if starts "cpu" t && bool_decide (t <> chars "cpu") then Some (atoi (drop 3 t)) else None
  | _ => None
  end.

Record stat_ok (file : option text) : Prop := {
  stat_named : each (named SCANSTATCPU) file;
  stat_numbered : each (fun l => forall i, cpu_of l = Some i -> 0 <= i) file;
  stat_count : (length (omap cpu_of (file_lines file)) <= MAXCPU)%nat
}.

(** Processors are counted, and the array keeps its size. *)
Definition cpus_in (n : nat) (s : scan.scan) : Prop :=
  0 <= s.(scan.si).(sstat.cpu).(cpustat.nrcpu) <= Z.of_nat n /\
  length s.(scan.si).(sstat.cpu).(cpustat.cpu) = MAXCPU.

Lemma stat_line_defined l s k : named SCANSTATCPU l -> (forall i, cpu_of l = Some i -> 0 <= i) ->
  ready s -> cpus_in k s -> (k <= MAXCPU)%nat ->
  exists s', stat_file_line l s = Some s' /\ ready s' /\
    cpus_in (k + length (option_list (cpu_of l))) s'.
Proof.
  intros Hl Hi Hs [Hn Hc] Hk. unfold stat_file_line.
  line_read 15%nat Hl. unfold cpus_in in *. rewrite <-Hsi in Hn, Hc.
  assert (Hsame : ready s0 /\ 0 <= cpustat.nrcpu (sstat.cpu (scan.si s0)) <= Z.of_nat (k + length (option_list (cpu_of l))) /\
    length (cpustat.cpu (sstat.cpu (scan.si s0))) = MAXCPU) by (split; [done|]; split; [lia|done]).
  destruct (length vs <? 2)%nat eqn:E2; [by eexists|].
  destruct Hnam as (t & vs' & -> & Ht); [by intros ->|].
  unfold is_name. rewrite Ht. case_bool_decide as Ecpu; [by eexists|].
  destruct (starts "cpu" t) eqn:Es.
  2:{ unfold is_name. repeat case_bool_decide; by eexists. }
  assert (Ei : cpu_of l = Some (atoi (drop 3 t))).
  { unfold cpu_of. rewrite E, Es. cbn. by rewrite bool_decide_true. }
  destruct (_ <=? _) eqn:Emax; [by eexists|]. apply Z.leb_gt in Emax. specialize (Hi _ Ei).
  unfold at_cpu. rewrite (proj2 (Z.ltb_ge _ _)) by done.
  destruct (lookup_lt_is_Some_2 (cpustat.cpu (sstat.cpu (scan.si s0))) (Z.to_nat (atoi (drop 3 t)))) as [p ->]; [lia|].
  mstep. eexists. split; [reflexivity|]. split; [done|]. rewrite Ei. cbn. rewrite length_insert.
  split; [|done]. unfold MAXCPU in *. rewrite i64_id by (unfold in_i64; lia). lia.
Qed.

Lemma stat_lines_defined ls : forall s k, (forall l, l ∈ ls -> named SCANSTATCPU l) ->
  (forall l, l ∈ ls -> forall i, cpu_of l = Some i -> 0 <= i) -> (k + length (omap cpu_of ls) <= MAXCPU)%nat ->
  ready s -> cpus_in k s -> exists s', each_line stat_file_line ls s = Some s' /\ ready s' /\ cpus_in MAXCPU s'.
Proof.
  induction ls as [|l ls IH]; intros s k Hl Hi Hk Hs Hc; cbn [each_line].
  - exists s. split; [done|]. split; [done|]. destruct Hc. split; [lia|done].
  - assert (EL : length (omap cpu_of (l :: ls)) = (length (option_list (cpu_of l)) + length (omap cpu_of ls))%nat).
    { cbn. destruct (cpu_of l); done. }
    destruct (stat_line_defined l s k) as (s1 & -> & H1 & H2); [apply Hl; by left | apply Hi; by left | done | done | lia |].
    mstep. apply (IH s1 (k + length (option_list (cpu_of l)))%nat); [|  | lia | done | done].
    + intros x Hx. apply Hl. by right.
    + intros x Hx. apply Hi. by right.
Qed.

Lemma stat_file_defined file s : stat_ok file -> ready s -> cpus_in 0 s ->
  exists s', stat_file file s = Some s' /\ ready s' /\ cpus_in MAXCPU s'.
Proof.
  intros [Hl Hi Hn] Hs Hc. unfold stat_file, read_file. destruct file as [t|].
  - destruct (stat_lines_defined (lines LINEBUF t) s 0 Hl Hi Hn Hs Hc) as (s' & -> & H1 & H2 & H3). mstep.
    eexists. split; [reflexivity|]. destruct (_ =? 0); [|done]. split; [done|]. split; [cbn; unfold MAXCPU; lia | done].
  - mstep. exists s. split; [done|]. split; [done|]. destruct Hc. split; [unfold MAXCPU; lia|done].
Qed.

Lemma loadavg_ready file s : ready s -> ready (loadavg_file file s).
Proof.
  intros H. unfold loadavg_file. destruct (_ ≫= _) as [line|]; [|done].
  by repeat (destruct (scan_float _) as [[? ?]|]; [|done]).
Qed.

Lemma loadavg_cpus file s n : cpus_in n s -> cpus_in n (loadavg_file file s).
Proof.
  intros H. unfold loadavg_file. destruct (_ ≫= _) as [line|]; [|done].
  by repeat (destruct (scan_float _) as [[? ?]|]; [|done]).
Qed.

(** ** Frequencies *)

(** The numbers of a text fit 64 bits, wherever the reading of one starts. *)
Definition fits64 (l : text) : Prop := forall a b, l = a ++ b -> is_Some (fscan_lld b).

Lemma scan_digits_shorter acc l : exists a, l = a ++ (scan_digits acc l).2.
Proof.
  revert acc. induction l as [|c l IH]; intros acc; [by exists []|]. cbn [scan_digits].
  destruct (isdigit c); [|by exists []]. destruct (IH (10 * acc + digit_val c)) as [a E]. exists (c :: a).
  cbn. by rewrite <-E.
Qed.

Lemma skip_space_suffix l : exists a, l = a ++ skip_space l.
Proof.
  induction l as [|c l [a IH]]; [by exists []|]. cbn [skip_space]. destruct (isspace c); [|by exists []].
  exists (c :: a). cbn. by rewrite <-IH.
Qed.

Lemma fscan_shorter l z rest : fscan_lld l = Some (Some (z, rest)) -> exists a, l = a ++ rest /\ a <> [].
Proof.
  unfold fscan_lld, convert. destruct (skip_space_suffix l) as [a Ea].
  assert (Eb : exists b, skip_space l = b ++ (scan_sign (skip_space l)).2).
  { destruct (skip_space l) as [|c l']; [by exists []|]. cbn [scan_sign].
    destruct (Ascii.eqb c "-"); [by exists [c]|]. destruct (Ascii.eqb c "+"); [by exists [c] | by exists []]. }
  destruct Eb as [b Eb]. destruct (scan_nat _) as [[n r]|] eqn:En; [|done].
  destruct (_ || _); [|done]. intros [= _ <-]. unfold scan_nat in En.
  destruct (scan_sign (skip_space l)).2 as [|c l'] eqn:El; [done|]. destruct (isdigit c) eqn:Ec; [|done].
  injection En as En. cbn [scan_digits] in En. rewrite Ec in En.
  destruct (scan_digits_shorter (10 * 0 + digit_val c) l') as [d Ed]. rewrite En in Ed. cbn [snd] in Ed.
  exists (a ++ b ++ c :: d). split; [|by destruct a, b]. rewrite <-!app_assoc. cbn [app]. rewrite <-Ed, <-Eb. exact Ea.
Qed.

Lemma fits64_drop a l : fits64 (a ++ l) -> fits64 l.
Proof. intros H b c ->. apply (H (a ++ b)). by rewrite app_assoc. Qed.

Lemma time_in_state_defined fuel : forall l m s h d, fits64 l -> (length l < fuel)%nat ->
  is_Some (time_in_state fuel l m s h d).
Proof.
  induction fuel as [|fuel IH]; intros l m s h d Hl Hf; [lia|]. cbn [time_in_state].
  destruct (Hl [] l eq_refl) as [[[f l1]|] E1]; rewrite E1; mstep; [|done].
  destruct (fscan_shorter _ _ _ E1) as (a & -> & Ha). apply fits64_drop in Hl.
  destruct (Hl [] l1 eq_refl) as [[[c l2]|] E2]; rewrite E2; mstep; [|done].
  destruct (fscan_shorter _ _ _ E2) as (b & -> & Hb). apply fits64_drop in Hl. apply IH; [done|].
  rewrite !length_app in Hf. destruct a; [done|]. cbn in Hf. lia.
Qed.

Definition fits_file (file : option text) : Prop := forall t, file = Some t -> fits64 t.

Record freq_ok (files : cpufreq.cpufreq) : Prop := {
  freq_states : fits_file files.(cpufreq.time_in_state);
  freq_max : fits_file files.(cpufreq.cpuinfo_max_freq);
  freq_cur : fits_file files.(cpufreq.scaling_cur_freq)
}.

Lemma one_freq_defined files q d : freq_ok files -> is_Some (one_freq files q d).
Proof.
  intros [H1 H2 H3]. unfold one_freq. destruct (cpufreq.time_in_state files) as [t|].
  - destruct (time_in_state_defined (S (length t)) t 0 0 0 d) as [[[[? ?] ?] ?] ->]; [by apply H1 | lia | done].
  - assert (Hq : exists q', (match cpufreq.cpuinfo_max_freq files with
        | Some t => r ← fscan_lld t; Some (match r with Some (f, _) => set_freqcnt_maxfreq (Z.quot f 1000) q | None => q end)
        | None => Some (set_freqcnt_maxfreq 0 q) end) = Some q').
    { destruct (cpufreq.cpuinfo_max_freq files) as [t|]; [|by eexists].
      destruct (H2 t eq_refl [] t eq_refl) as [r ->]. by eexists. }
    destruct Hq as [q' ->]. mstep. destruct (cpufreq.scaling_cur_freq files) as [t|]; [|done].
    destruct (H3 t eq_refl [] t eq_refl) as [r ->]. done.
Qed.

Lemma freqs_defined n files : (forall i, freq_ok (files i)) -> forall i c d,
  (i + n <= length c.(cpustat.cpu))%nat -> is_Some (freqs n files i c d).
Proof.
  intros Hf. induction n as [|n IH]; intros i c d Hl; [done|]. cbn [freqs].
  destruct (lookup_lt_is_Some_2 (cpustat.cpu c) i) as [p ->]; [lia|]. mstep.
  destruct (one_freq_defined (files (Z.of_nat i)) (percpu.freqcnt p) d (Hf _)) as [[q d'] ->]. mstep.
  apply IH. cbn. rewrite length_insert. lia.
Qed.

Definition cpuinfo_ok (l : text) : Prop :=
  (starts "processor" l = true -> scans "%*s %*s %d" l) /\
  (starts "cpu MHz" l = true -> scans "%*s %*s %*s %lld" l).

Lemma cpuinfo_line_defined l st : cpuinfo_ok l -> length st.2.(cpustat.cpu) = MAXCPU ->
  st.2.(cpustat.nrcpu) <= Z.of_nat MAXCPU ->
  exists st', cpuinfo_line l st = Some st' /\ length st'.2.(cpustat.cpu) = MAXCPU /\
    st'.2.(cpustat.nrcpu) <= Z.of_nat MAXCPU.
Proof.
  intros [H1 H2] Hc Hn.
  assert (HS : is_Some (cpuinfo_line l st)).
  2:{ destruct HS as [st' E]. exists st'. split; [done|]. destruct (cpuinfo_line_shape _ _ _ E) as [-> ->]. done. }
  unfold cpuinfo_line.
  assert (Hx : exists x, (if starts "processor" l then
      r ← scan_into l "%*s %*s %d" [num (fun z (st : Z * cpustat.cpustat) => (z, st.2))] st; Some r.2 else Some st) = Some x /\
      x.2 = st.2).
  { destruct (starts "processor" l); [|by exists st]. destruct (H1 eq_refl) as [vs E].
    rewrite (scan_into_defined _ _ _ _ _ E). mstep. eexists. split; [reflexivity|]. cbn.
    destruct vs as [|[z|t] [|v vs]]; done. }
  destruct Hx as ([no c] & -> & Ex). mstep. cbn [snd] in Ex. subst c.
  destruct (starts "cpu MHz" l) eqn:Em; [|done]. destruct (Z.leb_spec 0 no); [|done].
  destruct (Z.ltb_spec no (cpustat.nrcpu st.2)); [|done]. cbn [andb].
  destruct (lookup_lt_is_Some_2 (cpustat.cpu st.2) (Z.to_nat no)) as [p ->]; [lia|]. mstep.
  destruct (H2 eq_refl) as [vs E]. by rewrite (scan_into_defined _ _ _ _ _ E).
Qed.

Lemma frequencies_defined files cpuinfo s : (forall i, freq_ok (files i)) -> each cpuinfo_ok cpuinfo ->
  ready s -> cpus_in MAXCPU s -> exists s', frequencies files cpuinfo s = Some s' /\ ready s'.
Proof.
  intros Hf Hi Hs [Hn Hc]. unfold frequencies.
  destruct (freqs_defined (Z.to_nat (cpustat.nrcpu (sstat.cpu (scan.si s)))) files Hf 0
    (sstat.cpu (scan.si s)) false) as [[c d] E]; [lia|]. rewrite E.
  apply freqs_shape in E as (L & N & _).
  destruct d; mstep; [by eexists|].
  destruct (read_file_defined (fun st => length st.2.(cpustat.cpu) = MAXCPU /\ st.2.(cpustat.nrcpu) <= Z.of_nat MAXCPU)
    cpuinfo_line cpuinfo (-1, c)) as (r & -> & _); [cbn [snd]; lia | | mstep; by eexists].
  intros l st Hl [H1 H2]. destruct (cpuinfo_line_defined l st (Hi l Hl) H1 H2) as (st' & E & H). by exists st'.
Qed.

(** ** Memory *)

Lemma vmstat_line_defined l s : named "%s %lld" l -> ready s -> exists s', vmstat_line l s = Some s' /\ ready s'.
Proof. intros Hl Hs. unfold vmstat_line, mem_store. line_read 1%nat Hl. cases. Qed.

Lemma meminfo_line_defined pagesize l s : named MEMINFOFMT l -> ready s ->
  exists s', meminfo_line pagesize l s = Some s' /\ ready s'.
Proof.
  intros Hl Hs. unfold meminfo_line, mem_store. line_read 10%nat Hl. cases.
Qed.

Lemma vmmemctl_lines_defined ls : forall s, (forall l, l ∈ ls -> named "%s %lld " l) -> ready s ->
  exists s', vmmemctl_lines ls s = Some s' /\ ready s'.
Proof.
  induction ls as [|l ls IH]; intros s Hl Hs; [by exists s|]. cbn [vmmemctl_lines].
  assert (H : named "%s %lld " l) by (apply Hl; by left). line_read 1%nat H. cbn [snd].
  destruct (is_name _ _); [by eexists|]. apply IH; [|done]. intros x Hx. apply Hl. by right.
Qed.

Lemma vmmemctl_file_defined file s : each (named "%s %lld ") file -> ready s ->
  exists s', vmmemctl_file file s = Some s' /\ ready s'.
Proof.
  intros Hl Hs. unfold vmmemctl_file. destruct file as [t|]; [|by eexists]. by apply vmmemctl_lines_defined.
Qed.

(** ** Interfaces *)

(** The table has room for as many lines as there may be: the entry behind the
    last complete one is inside. *)
Lemma intf_lines_cons l ls i intf p vs : intf !! i = Some p -> sscanf (colon_to_space l) INTFFMT = Some vs ->
  intf_lines (l :: ls) i intf =
  let intf := <[i := stores INTFSTORES vs p]> intf in
  if Nat.eqb (length vs) 17 then
    if (MAXINTF - 1 <=? S i)%nat then Some (S i, intf) else intf_lines ls (S i) intf
  else intf_lines ls i intf.
Proof.
  intros H1 H2. refine (eq_trans (bind_eq _ _ _ H1) _).
  exact (bind_eq _ _ _ (scan_into_defined _ _ INTFSTORES p _ H2)).
Qed.

Lemma intf_lines_defined ls : forall i intf, (forall l, l ∈ ls -> scans INTFFMT (colon_to_space l)) ->
  (i < MAXINTF - 1)%nat -> length intf = MAXINTF -> is_Some (intf_lines ls i intf).
Proof.
  induction ls as [|l ls IH]; intros i intf Hl Hi Hn; [by eexists|].
  destruct (lookup_lt_is_Some_2 intf i) as [p Ep]; [lia|].
  destruct (Hl l) as [vs E]; [by left|]. rewrite (intf_lines_cons _ _ _ _ _ _ Ep E). cbv zeta.
  assert (Hls : forall x, x ∈ ls -> scans INTFFMT (colon_to_space x)) by (intros x Hx; apply Hl; by right).
  destruct (Nat.eqb _ 17); [|apply IH; [assumption|assumption|by rewrite length_insert]].
  destruct (Nat.leb_spec (MAXINTF - 1) (S i)); [by eexists|]. apply IH; [done|assumption|by rewrite length_insert].
Qed.

Lemma intf_file_defined file v : each (fun l => scans INTFFMT (colon_to_space l)) file ->
  length v.(intfstat.intf) = MAXINTF -> is_Some (intf_file file v).
Proof.
  intros Hl Hn. unfold intf_file. destruct file as [t|]; [|done].
  destruct (intf_lines_defined (lines LINEBUF t) 0 (intfstat.intf v) Hl) as [[i intf] E]; [unfold MAXINTF; lia|done|].
  rewrite E. apply intf_lines_shape in E as [Hi Hle]; [|unfold MAXINTF; lia]. mstep.
  destruct (lookup_lt_is_Some_2 intf i) as [p ->]; [unfold MAXINTF in *; lia|]. by eexists.
Qed.

(** ** snmp and snmp6 *)

Lemma copy_counters_defined {A} `{TableLaws A} s (x : A) : ready s -> (length (members x) <= MAXCNT)%nat ->
  is_Some (copy_counters s x).
Proof.
  intros [_ Hs] Hx. unfold copy_counters.
  destruct (of_members_length (take (length (members x)) s.(scan.cnts)) x) as (y & E & _); [|by exists y].
  rewrite length_take. lia.
Qed.

Lemma snmp_line_defined l s : named SNMPFMT l -> ready s -> exists s', snmp_line l s = Some s' /\ ready s'.
Proof.
  intros Hl Hs. unfold snmp_line. line_read 40%nat Hl. destruct (_ <? 2)%nat; [by eexists|].
  set (n := sstat.net (scan.si s0)). clearbody n.
  destruct (copy_counters_defined s0 n.(netstat.ipv4) Hr) as [? E1]; [by apply Nat.leb_le; destruct n.(netstat.ipv4)|].
  destruct (copy_counters_defined s0 n.(netstat.icmpv4) Hr) as [? E2]; [by apply Nat.leb_le; destruct n.(netstat.icmpv4)|].
  destruct (copy_counters_defined s0 n.(netstat.tcp) Hr) as [? E3]; [by apply Nat.leb_le; destruct n.(netstat.tcp)|].
  destruct (copy_counters_defined s0 n.(netstat.udpv4) Hr) as [? E4]; [by apply Nat.leb_le; destruct n.(netstat.udpv4)|].
  rewrite E1, E2, E3, E4. mstep. cases.
Qed.

Lemma snmp6_line_defined l st : named "%s %lld" l -> (st.1.1 < v6tab_entries)%nat ->
  length st.1.2 = v6tab_entries -> ready st.2 ->
  exists st', snmp6_line l st = Some st' /\ (st'.1.1 < v6tab_entries)%nat /\
    length st'.1.2 = v6tab_entries /\ ready st'.2.
Proof.
  destruct st as [[cur vals] s]. cbn [fst snd]. intros (vs & E & Hn) Hcur Hvals [H1 H2]. unfold snmp6_line.
  pose proof (sscanf_kinds _ _ _ E) as Hp. rewrite (scan_into_defined _ _ _ _ _ E). mstep.
  destruct (stores _ vs _) as [nam v] eqn:Es. cbv beta iota zeta.
  assert (Hnam : (length nam < 64)%nat).
  { destruct vs as [|[z|t] vs]; [by injection Es as <- _| |].
    - destruct Hp as [k Hp]. discriminate Hp.
    - assert (nam = t) as ->; [|by apply Hn]. destruct vs as [|[z|t'] [|? ?]]; cbn in Es; congruence. }
  cbn [set_nam scan.nam]. rewrite (proj2 (Nat.ltb_lt _ _)) by done. cbn [negb].
  destruct (_ <? 2)%nat; [by eexists|].
  destruct (lookup_lt_is_Some_2 v6tab cur Hcur) as [here ->]. mstep. eexists. split; [reflexivity|]. cbn [fst snd].
  split; [|split; [|done]].
  - destruct (Nat.leb_spec v6tab_entries (S (default v6tab_entries
      (if bool_decide (chars here = nam) then Some cur else v6_search v6tab nam)))) as [_|Hlt]; [apply Nat.ltb_lt; reflexivity | exact Hlt].
  - case_bool_decide; [by rewrite length_insert|]. destruct (v6_search v6tab nam); [by rewrite length_insert | done].
Qed.

Lemma snmp6_file_defined file s : each (named "%s %lld") file -> ready s ->
  is_Some (snmp6_file file s).
Proof.
  intros Hl Hs. unfold snmp6_file. destruct file as [t|]; [|done].
  destruct (each_line_defined (fun st => (st.1.1 < v6tab_entries)%nat /\ length st.1.2 = v6tab_entries /\ ready st.2)
    snmp6_line (lines LINEBUF t) (0%nat, replicate v6tab_entries 0, s)) as ([[cur vals] s'] & -> & _ & Hv & _).
  { split; [apply Nat.ltb_lt; reflexivity|]. split; [apply length_replicate | done]. }
  { intros l st Hin (A & B & C). destruct (snmp6_line_defined l st (Hl l Hin) A B C) as (st' & E & H). by exists st'. }
  mstep. cbn [fst snd] in Hv. cbv zeta. set (n := sstat.net (scan.si s')). clearbody n.
  destruct (of_members_length (take (length (members n.(netstat.ipv6))) vals) n.(netstat.ipv6)) as (a & -> & _).
  { rewrite length_take, Hv. destruct n.(netstat.ipv6); by vm_compute. }
  mstep. destruct (of_members_length (take (length (members n.(netstat.icmpv6)))
    (drop (length (members n.(netstat.ipv6))) vals)) n.(netstat.icmpv6)) as (b & -> & _).
  { rewrite length_take, length_drop, Hv. destruct n.(netstat.ipv6), n.(netstat.icmpv6); by vm_compute. }
  mstep. destruct (of_members_length (drop (length (members n.(netstat.ipv6)) + length (members n.(netstat.icmpv6))) vals)
    n.(netstat.udpv6)) as (c & -> & _); [|done].
  rewrite length_drop, Hv. destruct n.(netstat.ipv6), n.(netstat.icmpv6), n.(netstat.udpv6); by vm_compute.
Qed.

(** ** Disks *)

Lemma validdisk_compiles : Forall (fun e => is_Some (regcomp e.1.1)) validdisk.
Proof. repeat (apply Forall_cons; split; [eexists; vm_compute; reflexivity|]). by apply Forall_nil. Qed.

Lemma recognize_defined table name : Forall (fun e => is_Some (regcomp e.1.1)) table ->
  is_Some (recognize table name).
Proof.
  induction 1 as [|[[e m] t] table [r Er] _ IH]; [by eexists|]. cbn [recognize]. cbn [fst] in Er. rewrite Er. mstep.
  destruct (regexec r name); [by eexists | exact IH].
Qed.

(** A name of devfs, with directories for host, bus, target and unit, has parts
    in front of them that fit into [cutype], and numbers that fit an [int]. *)
Definition devname_ok (e : diskenv.diskenv) (name : text) : Prop :=
  forall t px, recognize validdisk name = Some (MAbbrev, t) ->
  is_Some (abbrevname1 e.(diskenv.hostjunk) name px MAXDKNAM).

Lemma isdisk_defined e st major minor name px : devname_ok e name ->
  is_Some (isdisk e st major minor name px MAXDKNAM).
Proof.
  intros Hn. unfold isdisk. destruct (recognize_defined validdisk name validdisk_compiles) as [[m t] E].
  rewrite E. mstep. specialize (Hn t px).
  destruct t, m; try (by eexists); destruct (Hn E) as [q ->]; mstep; by eexists.
Qed.

(** The numbers of a line fit, and the names in it are fine. *)
Definition disk_line_ok (e : diskenv.diskenv) (fmt : string) (l : text) : Prop :=
  exists vs, sscanf l fmt = Some vs /\ forall t, VStr t ∈ vs -> devname_ok e t.

Lemma partition_lines_cons e l ls i name st dsk p vs : dsk !! i = Some p -> sscanf l PARTFMT = Some vs ->
  partition_lines e (l :: ls) i name st dsk =
  let '(diskname, p) := stores PERDSKSTORES vs (name, p) in
  if Nat.eqb (length vs) 7 then
    '(t, st, p) ← isdisk e st 0 0 diskname p MAXDKNAM;
    let dsk := <[i := p]> dsk in
    if bool_decide (t = DSKTYPE) then
      if (MAXDSK - 1 <=? S i)%nat then Some (S i, st, dsk) else partition_lines e ls (S i) diskname st dsk
    else partition_lines e ls i diskname st dsk
  else partition_lines e ls i diskname st (<[i := p]> dsk).
Proof.
  intros H1 H2. refine (eq_trans (bind_eq _ _ _ H1) _).
  exact (bind_eq _ _ _ (scan_into_defined _ _ PERDSKSTORES (name, p) _ H2)).
Qed.

(** The name that a line stores. *)
Lemma dstores_name vs : forall (fs : list (Z -> perdsk.perdsk -> perdsk.perdsk)) x,
  (stores (dnum <$> fs) vs x).1 = x.1.
Proof.
  Transparent stores. induction vs as [|v vs IH]; intros [|f fs] x; try done. cbn. rewrite IH. by destruct v.
Qed.

Lemma perdsk_name vs x : is_str <$> vs `prefix_of` format_kinds PARTFMT -> vs <> [] ->
  exists t, VStr t ∈ vs /\ (stores PERDSKSTORES vs x).1 = t.
Proof.
  intros [k Hk] Hne. destruct vs as [|[z|t] vs]; [done|discriminate Hk|]. exists t. split; [by left|].
  exact (dstores_name vs [set_perdsk_nread; set_perdsk_nrsect; set_perdsk_nwrite; set_perdsk_nwsect;
    set_perdsk_io_ms; set_perdsk_avque] (t, x.2)).
Qed.

Lemma partition_lines_defined e ls : forall i name st dsk, (forall l, l ∈ ls -> disk_line_ok e PARTFMT l) ->
  (i < MAXDSK - 1)%nat -> length dsk = MAXDSK -> is_Some (partition_lines e ls i name st dsk).
Proof.
  induction ls as [|l ls IH]; intros i name st dsk Hl Hi Hn; [by eexists|].
  destruct (lookup_lt_is_Some_2 dsk i) as [p Ep]; [lia|].
  destruct (Hl l) as (vs & E & Ht); [by left|]. rewrite (partition_lines_cons _ _ _ _ _ _ _ _ _ Ep E).
  assert (Hls : forall x, x ∈ ls -> disk_line_ok e PARTFMT x) by (intros x Hx; apply Hl; by right).
  pose proof (perdsk_name vs (name, p) (sscanf_kinds _ _ _ E)) as Hname.
  destruct (stores PERDSKSTORES vs (name, p)) as [name' q]. cbn [fst] in Hname.
  destruct (Nat.eqb_spec (length vs) 7) as [E7|]; [|apply IH; [assumption|assumption|by rewrite length_insert]].
  destruct Hname as (t & Hin & ->); [by intros ->|].
  destruct (isdisk_defined e st 0 0 t q (Ht t Hin)) as [[[ty st'] r] ->]. mstep. cbv zeta.
  destruct (bool_decide _); [|apply IH; [assumption|assumption|by rewrite length_insert]].
  destruct (Nat.leb_spec (MAXDSK - 1) (S i)); [by eexists|]. apply IH; [assumption|assumption|by rewrite length_insert].
Qed.

Definition dsk_sizes (d : dskstat.dskstat) : Prop := disk_dims d = (MAXDSK, MAXMDD, MAXLVM).

Lemma partitions_file_defined e file ps st d : each (disk_line_ok e PARTFMT) file -> dsk_sizes d ->
  exists ps' st' d', partitions_file e file ps st d = Some (ps', st', d') /\ dsk_sizes d'.
Proof.
  intros Hl Hd. unfold partitions_file. destruct file as [t|]; [|destruct ps; by eexists _, _, _].
  destruct ps; [|by eexists _, _, _]. injection Hd as H1 H2 H3.
  destruct (partition_lines_defined e (lines LINEBUF t) 0 [] st (dskstat.dsk d) Hl) as [[[i st'] dsk] E];
    [apply Nat.ltb_lt; reflexivity | done |].
  rewrite E. mstep. apply partition_lines_shape in E as [Hi Hle]; [|apply Nat.ltb_lt; reflexivity].
  destruct (lookup_lt_is_Some_2 dsk i) as [p ->]; [rewrite Hle, H1; unfold MAXDSK in *; lia|]. mstep.
  eexists _, _, _. split; [reflexivity|]. unfold dsk_sizes, disk_dims. cbn. by rewrite length_insert, Hle, H1, H2, H3.
Qed.

Lemma append_disk_defined max p n l : 0 <= n -> length l = max -> is_Some (append_disk max p n l).
Proof.
  intros Hn Hl. unfold append_disk. destruct (Z.ltb_spec n (Z.of_nat max - 1)); [|by eexists].
  destruct (lookup_lt_is_Some_2 l (Z.to_nat n)) as [q ->]; [lia|]. by eexists.
Qed.

Lemma keep_disk_defined t p d : disk_counts d -> dsk_sizes d -> is_Some (keep_disk t p d).
Proof.
  intros (H1 & H2 & H3) Hd. injection Hd as D1 D2 D3. destruct t; cbn [keep_disk]; [by eexists|..].
  - destruct (append_disk_defined MAXDSK p (dskstat.ndsk d) (dskstat.dsk d)) as [[n l] ->]; [lia|done|]. by eexists.
  - destruct (append_disk_defined MAXMDD p (dskstat.nmdd d) (dskstat.mdd d)) as [[n l] ->]; [lia|done|]. by eexists.
  - destruct (append_disk_defined MAXLVM p (dskstat.nlvm d) (dskstat.lvm d)) as [[n l] ->]; [lia|done|]. by eexists.
Qed.

Lemma diskstat_lines_cons e l ls x st d vs : sscanf l DISKFMT = Some vs ->
  diskstat_lines e (l :: ls) x st d =
  let x := stores DISKSTORES vs x in
  if Nat.eqb (length vs) 9 then
    '(t, st, p) ← isdisk e st x.(diskvars.major) x.(diskvars.minor) x.(diskvars.diskname) x.(diskvars.tmpdsk) MAXDKNAM;
    let x := diskvars.mk x.(diskvars.major) x.(diskvars.minor) x.(diskvars.diskname) p in
    d ← keep_disk t p d; diskstat_lines e ls x st d
  else diskstat_lines e ls x st d.
Proof. intros H. exact (bind_eq _ _ _ (scan_into_defined _ _ DISKSTORES x _ H)). Qed.

Lemma dskstores_name vs : forall fs x,
  (stores (on_disk <$> (dnum <$> fs)) vs x).(diskvars.diskname) = x.(diskvars.diskname).
Proof. induction vs as [|v vs IH]; intros [|f fs] x; try done. cbn. rewrite IH. by destruct v. Qed.

Lemma disk_name vs x : is_str <$> vs `prefix_of` format_kinds DISKFMT -> (3 <= length vs)%nat ->
  exists t, VStr t ∈ vs /\ (stores DISKSTORES vs x).(diskvars.diskname) = t.
Proof.
  intros [k Hk] Hlen. destruct vs as [|[z1|?] [|[z2|?] [|[?|t] vs]]]; cbn in Hlen; try lia; try discriminate Hk.
  exists t. split; [do 2 right; by left|].
  exact (dskstores_name vs [set_perdsk_nread; set_perdsk_nrsect; set_perdsk_nwrite; set_perdsk_nwsect;
    set_perdsk_io_ms; set_perdsk_avque] (diskvars.mk (u32 z1) (u32 z2) t x.(diskvars.tmpdsk))).
Qed.

Lemma diskstat_lines_defined e ls : forall x st d, (forall l, l ∈ ls -> disk_line_ok e DISKFMT l) ->
  disk_counts d -> dsk_sizes d -> is_Some (diskstat_lines e ls x st d).
Proof.
  induction ls as [|l ls IH]; intros x st d Hl Hc Hd; [by eexists|].
  destruct (Hl l) as (vs & E & Ht); [by left|]. rewrite (diskstat_lines_cons _ _ _ _ _ _ _ E).
  assert (Hls : forall x, x ∈ ls -> disk_line_ok e DISKFMT x) by (intros y Hy; apply Hl; by right).
  pose proof (disk_name vs x (sscanf_kinds _ _ _ E)) as Hname. cbv zeta.
  generalize dependent (stores DISKSTORES vs x). intros y Hname.
  destruct (Nat.eqb_spec (length vs) 9) as [E9|]; [|by apply IH].
  destruct Hname as (t & Hin & ->); [lia|].
  destruct (isdisk_defined e st (diskvars.major y) (diskvars.minor y) t (diskvars.tmpdsk y) (Ht t Hin)) as [[[ty st'] r] ->].
  mstep. destruct (keep_disk_defined ty r d Hc Hd) as [d' E']. rewrite E'. mstep.
  apply keep_disk_shape in E' as [Hc' Hd']; [|done]. apply IH; [done|done|]. unfold dsk_sizes. by rewrite Hd'.
Qed.

Lemma terminate_defined n l max : 0 <= n <= Z.of_nat max - 1 -> length l = max -> is_Some (terminate n l).
Proof.
  intros Hn Hl. unfold terminate. destruct (lookup_lt_is_Some_2 l (Z.to_nat n)) as [p ->]; [lia|]. by eexists.
Qed.

Lemma diskstats_file_defined e file x st d : each (disk_line_ok e DISKFMT) file -> dsk_sizes d ->
  is_Some (diskstats_file e file x st d).
Proof.
  intros Hl Hd. unfold diskstats_file. destruct file as [t|]; [|by eexists].
  set (d0 := set_dskstat_nlvm _ _).
  assert (Hc0 : disk_counts d0) by (repeat split; apply Z.leb_le; reflexivity).
  destruct (diskstat_lines_defined e (lines LINEBUF t) x st d0 Hl Hc0 Hd) as [[st' d'] E]. rewrite E. mstep.
  apply diskstat_lines_shape in E as [(C1 & C2 & C3) D]; [|done]. unfold dsk_sizes in Hd.
  change (disk_dims d0) with (disk_dims d) in D. rewrite Hd in D. injection D as D1 D2 D3.
  destruct (terminate_defined (dskstat.ndsk d') (dskstat.dsk d') MAXDSK C1 D1) as [l1 ->]. mstep.
  destruct (terminate_defined (dskstat.nmdd d') (dskstat.mdd d') MAXMDD C2 D2) as [l2 ->]. mstep.
  destruct (terminate_defined (dskstat.nlvm d') (dskstat.lvm d') MAXLVM C3 D3) as [l3 ->]. mstep.
  by eexists.
Qed.

(** ** NFS *)

Definition MOUNTFMT : string := "device %127s mounted on %*s with fstype %31s".
Definition MOUNTCNTFMT : string := "%31s %lld %lld %lld %lld %lld %lld %lld %lld".

Lemma mount_lines_defined ls : forall m i l, (forall x, x ∈ ls -> scans MOUNTFMT x /\ scans MOUNTCNTFMT x) ->
  (i < MAXNFSMOUNT - 1)%nat -> length l = MAXNFSMOUNT -> is_Some (mount_lines ls m i l).
Proof.
  induction ls as [|x ls IH]; intros m i l Hl Hi Hn; [by eexists|].
  destruct (Hl x) as [[vs E] [vs' E']]; [by left|].
  assert (Hls : forall y, y ∈ ls -> scans MOUNTFMT y /\ scans MOUNTCNTFMT y) by (intros y Hy; apply Hl; by right).
  set (fs := [str (fun t (x : text * text) => (t, x.2)); str (fun t (x : text * text) => (x.1, t))]).
  pose proof (scan_into_defined MOUNTFMT x fs (m.(mountvars.mountdev), m.(mountvars.fstype)) vs E) as E1.
  refine (eq_ind_r is_Some _ (bind_eq _ _ _ E1)). cbv beta iota zeta.
  destruct (Nat.eqb _ 2); [by apply IH|]. destruct (negb _); [by apply IH|].
  match goal with |- is_Some (mbind _ (scan_into _ _ _ ?s)) =>
    refine (eq_ind_r is_Some _ (bind_eq _ _ _ (scan_into_defined MOUNTCNTFMT x (LABELSTORES 8) s vs' E'))) end.
  cbv beta iota zeta. destruct (_ <? 2)%nat; [by apply IH|].
  destruct (lookup_lt_is_Some_2 l i) as [p Ep]; [lia|].
  destruct (is_label _ "age:").
  { rewrite (bind_eq _ _ _ Ep). apply IH; [done|done|by rewrite length_insert]. }
  destruct (is_label _ "bytes:"); [|by apply IH]. rewrite (bind_eq _ _ _ Ep). cbv zeta.
  destruct (Nat.leb_spec (MAXNFSMOUNT - 1) (S i)); [by eexists|]. apply IH; [done|done|by rewrite length_insert].
Qed.

Record nfs_ok (nfsd nfs mountstats : option text) : Prop := {
  nfs_server : each (scans NFSDFMT) nfsd;
  nfs_client : each (scans NFSFMT) nfs;
  nfs_mounts : each (fun l => scans MOUNTFMT l /\ scans MOUNTCNTFMT l) mountstats
}.

Lemma nfs_counters_defined env f v : nfs_ok f.(procfiles.nfsd) f.(procfiles.nfs) f.(procfiles.mountstats) ->
  length v.(nfsstat.nfsmounts).(nfsmounts.nfsmnt) = MAXNFSMOUNT -> is_Some (nfs_counters env f v).
Proof.
  intros [H1 H2 H3] Hv. unfold nfs_counters.
  destruct (read_file_defined (fun _ => True) nfsd_line (procfiles.nfsd f) ([], nfsstat.server v)) as (a & -> & _); [done| |].
  { intros l s Hl _. destruct (H1 l Hl) as [vs E]. unfold nfsd_line. rewrite (scan_into_defined _ _ _ _ _ E). by eexists. }
  mstep.
  destruct (read_file_defined (fun _ => True) nfs_line (procfiles.nfs f) ([], nfsstat.client v)) as (b & -> & _); [done| |].
  { intros l s Hl _. destruct (H2 l Hl) as [vs E]. unfold nfs_line. rewrite (scan_into_defined _ _ _ _ _ E). by eexists. }
  mstep. unfold mountstats_file. destruct (procfiles.mountstats f) as [t|]; [|by eexists].
  destruct (mount_lines_defined (lines LINEBUF t) (systenv.junk_mount env) 0 (nfsmounts.nfsmnt (nfsstat.nfsmounts v)))
    as [r ->]; [exact H3 | apply Nat.ltb_lt; reflexivity | done |]. mstep. by eexists.
Qed.

(** ** Containers *)

Definition BEANFMT : string := "%lu: %31s %lld".
Definition BEANCNTFMT : string := "%31s %lld".

(** A line with which a container begins. *)
Definition begins (l : text) : bool :=
  match sscanf l BEANFMT with Some vs => Nat.eqb (length vs) 3 | None => false end.

Lemma bean_lines_defined ls : forall x i cont, (forall l, l ∈ ls -> scans BEANFMT l /\ scans BEANCNTFMT l) ->
  -1 <= i < Z.of_nat MAXCONTAINER -> length cont = MAXCONTAINER ->
  exists i' cont', bean_lines ls x i cont = Some (i', cont') /\ i' <= i + Z.of_nat (length (List.filter begins ls)).
Proof.
  induction ls as [|l ls IH]; intros x i cont Hl Hi Hn; [exists i, cont; split; [done|cbn; lia]|].
  destruct (Hl l) as [[vs E] [vs' E']]; [by left|].
  assert (Hls : forall y, y ∈ ls -> scans BEANFMT y /\ scans BEANCNTFMT y) by (intros y Hy; apply Hl; by right).
  set (P := fun o : option (Z * list percontainer.percontainer) => exists i' cont', o = Some (i', cont') /\
    i' <= i + Z.of_nat (length (List.filter begins (l :: ls)))).
  change (P (bean_lines (l :: ls) x i cont)).
  refine (eq_ind_r P _ (bind_eq _ _ _ (scan_into_defined BEANFMT l BEANSTORES x vs E))). cbv beta iota zeta.
  assert (Hb : begins l = Nat.eqb (length vs) 3) by (unfold begins; by rewrite E).
  assert (Hf : length (List.filter begins (l :: ls)) =
    ((if Nat.eqb (length vs) 3 then 1 else 0) + length (List.filter begins ls))%nat).
  { cbn [List.filter]. rewrite Hb. by destruct (Nat.eqb _ 3). }
  unfold P. clear P. rewrite Hf. destruct (Nat.eqb (length vs) 3).
  - destruct (Z.leb_spec (Z.of_nat MAXCONTAINER) (i + 1)); [eexists _, _; split; [done|lia]|].
    destruct (lookup_lt_is_Some_2 cont (Z.to_nat (i + 1))) as [p Ep]; [lia|]. rewrite (bind_eq _ _ _ Ep).
    match goal with |- exists i' c', ?t = _ /\ _ => assert (HI : exists i' c', t = Some (i', c') /\
      i' <= i + 1 + Z.of_nat (length (List.filter begins ls))) by (apply IH; [done | lia | by rewrite length_insert]) end.
    destruct HI as (i' & c' & HI & Hi').
    exists i', c'. split; [exact HI | lia].
  - set (P := fun o : option (Z * list percontainer.percontainer) => exists i' cont', o = Some (i', cont') /\
      i' <= i + Z.of_nat (0 + length (List.filter begins ls))).
    refine (eq_ind_r P _ (bind_eq _ _ _ (scan_into_defined BEANCNTFMT l (drop 1 BEANSTORES) _ vs' E'))).
    cbv beta iota zeta. unfold P. cbn [Nat.add]. destruct (negb _ || _) eqn:Eb; [by apply IH|].
    apply orb_false_iff in Eb as [_ Eb%Z.eqb_neq].
    destruct (lookup_lt_is_Some_2 cont (Z.to_nat i)) as [p Ep]; [lia|]. rewrite (bind_eq _ _ _ Ep).
    apply IH; [done | done | by rewrite length_insert].
Qed.

Lemma find_cont_defined n : forall i ctid cont, (i + n <= length cont)%nat ->
  exists r, find_cont n i ctid cont = Some r /\ forall k, r = Some k -> (k < length cont)%nat.
Proof.
  induction n as [|n IH]; intros i ctid cont Hl; [by exists None|]. cbn [find_cont].
  destruct (lookup_lt_is_Some_2 cont i) as [p ->]; [lia|]. mstep.
  destruct (_ =? ctid); [|apply IH; lia]. exists (Some i). split; [done|]. intros k [= <-]. lia.
Qed.

(** A line of vestat with at most nine values: the number of the container and
    eight counters. *)
Definition vestat_ok (l : text) : Prop := exists vs, sscanf l VESTATFMT = Some vs /\ (length vs <= 9)%nat.

Lemma vestat_line_defined nr l st : vestat_ok l -> (Z.to_nat nr <= length st.2)%nat ->
  exists st', vestat_line nr l st = Some st' /\ length st'.2 = length st.2.
Proof.
  intros (vs & E & Hv) Hn. destruct st as [[ctid cnt] cont]. cbn [snd] in *.
  assert (HS : is_Some (vestat_line nr l (ctid, cnt, cont))).
  2:{ destruct HS as [st' HS]. exists st'. split; [done|]. exact (vestat_line_shape _ _ _ _ HS). }
  unfold vestat_line. rewrite (scan_into_defined _ _ _ _ _ E). mstep. destruct (stores _ _ _) as [c k].
  destruct (_ <? 9)%nat; [by eexists|]. rewrite (proj2 (Nat.ltb_ge _ _)) by lia.
  destruct (find_cont_defined (Z.to_nat nr) 0 c cont Hn) as (r & -> & Hr). mstep.
  destruct r as [i|]; [|by eexists]. destruct (lookup_lt_is_Some_2 cont i) as [p ->]; [by apply Hr|]. by eexists.
Qed.

Record containers_ok (beans vestat : option text) : Prop := {
  beans_scan : each (fun l => scans BEANFMT l /\ scans BEANCNTFMT l) beans;
  beans_count : (length (List.filter begins (file_lines beans)) <= MAXCONTAINER)%nat;
  vestat_scan : each vestat_ok vestat
}.

Lemma containers_defined beans vestat v : containers_ok beans vestat ->
  length v.(contstat.cont) = MAXCONTAINER -> is_Some (containers_file beans vestat v).
Proof.
  intros [H1 H2 H3] Hv. unfold containers_file. destruct beans as [t|]; [|by eexists].
  destruct (bean_lines_defined (lines LINEBUF t) (0, [], 0) (-1) (contstat.cont v) H1) as (i & cont & E & Hi);
    [unfold MAXCONTAINER; lia | done |].
  rewrite E. mstep. apply bean_lines_shape in E as [_ Hc]; [|unfold MAXCONTAINER; lia].
  cbn [file_lines fmap option_fmap option_map default from_option] in H2.
  assert (Hi' : i + 1 <= Z.of_nat MAXCONTAINER) by (unfold file_lines in H2; cbn in H2; lia).
  destruct (read_file_defined (fun st => length st.2 = MAXCONTAINER) (vestat_line (i + 1)) vestat
    (0, replicate 8 0, cont)) as ([[a b] c] & -> & _); [cbn; lia | | mstep; by eexists].
  intros l st Hl Hs. destruct (vestat_line_defined (i + 1) l st (H3 l Hl)) as (st' & E & Hst); [lia|].
  exists st'. split; [done|lia].
Qed.

(** ** Event counters *)

(** The descriptors belong to processors in the array. *)
Definition events_ok (st : perfstate.perfstate) : Prop := (length st.(perfstate.fds) <= MAXCPU)%nat.

Lemma read_events_defined e fds : forall i cs, (i + length fds <= length cs.(cpustat.cpu))%nat ->
  is_Some (read_events e fds i cs).
Proof.
  induction fds as [|[fi fc] fds IH]; intros i cs Hl; [by eexists|]. cbn [read_events length] in *.
  destruct (fi =? -1); [apply IH; lia|]. destruct (lookup_lt_is_Some_2 (cpustat.cpu cs) i) as [p ->]; [lia|]. mstep.
  apply IH. cbn. rewrite length_insert. lia.
Qed.

Lemma getperfevents_defined e st cs : events_ok st -> length cs.(cpustat.cpu) = MAXCPU ->
  cs.(cpustat.nrcpu) <= Z.of_nat MAXCPU ->
  getperfevents e st cs = Some (Exit 42) /\ droprootprivs e.(perfenv.drop_rc) e.(perfenv.drop_errno) = 0 \/
  exists st' cs', getperfevents e st cs = Some (Ret (st', cs')) /\ events_ok st'.
Proof.
  intros He Hl Hn. unfold getperfevents. destruct (perfstate.firstcall st).
  - destruct (Z.eqb_spec (droprootprivs (perfenv.drop_rc e) (perfenv.drop_errno e)) 0); [by left|]. right.
    destruct (existsb _ _); eexists _, _; (split; [reflexivity|]);
      unfold events_ok; cbn [perfstate.fds]; [rewrite length_fmap, length_seq; lia | cbn; lia].
  - right. destruct (_ =? 0); [by eexists _, _|].
    destruct (read_events_defined e (perfstate.fds st) 0 (set_cpustat_all (set_events 0 0 cs.(cpustat.all)) cs)) as [c E].
    { unfold events_ok in He. change (cpustat.cpu (set_cpustat_all _ cs)) with (cpustat.cpu cs). lia. }
    rewrite E. by eexists _, _.
Qed.

(** ** The sample *)

(** The files: numbers that fit the types they are read into and names that fit
    their arrays; no more processors and containers than there is room for, and
    lines of vestat without more values than there is room for. *)
Record files_ok (env : systenv.systenv) (f : procfiles.procfiles) : Prop := {
  files_cnts : length env.(systenv.junk_cnts) = MAXCNT;
  files_stat : stat_ok f.(procfiles.stat);
  files_freq : forall i, freq_ok (f.(procfiles.cpufreqs) i);
  files_cpuinfo : each cpuinfo_ok f.(procfiles.cpuinfo);
  files_vmstat : each (named "%s %lld") f.(procfiles.vmstat);
  files_meminfo : each (named MEMINFOFMT) f.(procfiles.meminfo);
  files_vmmemctl : each (named "%s %lld ") f.(procfiles.vmmemctl);
  files_net_dev : each (fun l => scans INTFFMT (colon_to_space l)) f.(procfiles.net_dev);
  files_net_snmp : each (named SNMPFMT) f.(procfiles.net_snmp);
  files_net_snmp6 : each (named "%s %lld") f.(procfiles.net_snmp6);
  files_partitions : each (disk_line_ok env.(systenv.disks) PARTFMT) f.(procfiles.partitions);
  files_diskstats : each (disk_line_ok env.(systenv.disks) DISKFMT) f.(procfiles.diskstats);
  files_nfs : nfs_ok f.(procfiles.nfsd) f.(procfiles.nfs) f.(procfiles.mountstats);
  files_containers : containers_ok f.(procfiles.user_beancounters) f.(procfiles.vestat)
}.

Lemma counters_defined env f : files_ok env f -> is_Some (counters env f).
Proof.
  intros []. unfold counters.
  destruct (stat_file_defined (procfiles.stat f) (scan.mk env.(systenv.junk_cnts) [] sstat_zero)) as (s1 & E1 & R1 & C1);
    [done | split; [cbn; lia | done] | split; [cbn; lia | apply length_replicate] |].
  rewrite (bind_eq _ _ _ E1). apply (loadavg_ready (procfiles.loadavg f)) in R1.
  apply (loadavg_cpus (procfiles.loadavg f)) in C1.
  destruct (frequencies_defined (procfiles.cpufreqs f) (procfiles.cpuinfo f) _ ltac:(done) ltac:(done) R1 C1)
    as (s2 & E2 & R2). rewrite (bind_eq _ _ _ E2).
  destruct (read_file_defined ready vmstat_line (procfiles.vmstat f) s2 R2) as (s3 & E3 & R3);
    [intros; by apply vmstat_line_defined; auto|]. rewrite (bind_eq _ _ _ E3).
  destruct (read_file_defined ready (meminfo_line (systenv.pagesize env)) (procfiles.meminfo f)
    (upd_si (upd_mem meminfo_start) s3) R3) as (s4 & E4 & R4);
    [intros; by apply meminfo_line_defined; auto|]. rewrite (bind_eq _ _ _ E4).
  destruct (vmmemctl_file_defined (procfiles.vmmemctl f) s4 ltac:(done) R4) as (s5 & E5 & R5).
  rewrite (bind_eq _ _ _ E5).
  assert (Hintf : length (intfstat.intf (sstat.intf (scan.si s5))) = MAXINTF).
  { destruct (counters_head _ _ _ _ _ _ _ E1 E2 E3 E4 E5) as (K & C & _).
    rewrite (head_intf _ _ K C). apply length_replicate. }
  destruct (intf_file_defined (procfiles.net_dev f) _ ltac:(done) Hintf) as [v E6]. rewrite (bind_eq _ _ _ E6).
  destruct (read_file_defined ready snmp_line (procfiles.net_snmp f) (upd_si (set_sstat_intf v) s5) R5) as (s7 & E7 & R7);
    [intros; by apply snmp_line_defined; auto|]. rewrite (bind_eq _ _ _ E7).
  destruct (snmp6_file_defined (procfiles.net_snmp6 f) s7 ltac:(done) R7) as [s8 E8]. rewrite (bind_eq _ _ _ E8).
  by eexists.
Qed.

Lemma disks_defined env f st si : files_ok env f -> disks_table si.(sstat.dsk) -> is_Some (disks env f st si).
Proof.
  intros [] ((_ & L1 & _) & (_ & L2 & _) & (_ & L3 & _)). unfold disks.
  assert (Hd : dsk_sizes si.(sstat.dsk)) by (unfold dsk_sizes, disk_dims; congruence).
  destruct (partitions_file_defined (systenv.disks env) (procfiles.partitions f) (syststate.part_stats st)
    (syststate.devmaps st) (sstat.dsk si) ltac:(done) Hd) as (ps & maps & d & E & Hd').
  rewrite (bind_eq _ _ _ E). cbv beta iota.
  destruct (diskstats_file_defined (systenv.disks env) (procfiles.diskstats f) (systenv.junk_disk env) maps d
    ltac:(done) Hd') as [[maps' d'] E']. rewrite (bind_eq _ _ _ E'). by eexists.
Qed.

(** *** The conditions on concrete files *)

Lemma each_check (P : text -> Prop) (b : text -> bool) file : (forall l, b l = true -> P l) ->
  forallb b (file_lines file) = true -> each P file.
Proof. intros Hb HF l Hl. rewrite forallb_forall in HF. by apply Hb, HF, list_elem_of_In. Qed.

Definition scansb (fmt : string) (l : text) : bool := if sscanf l fmt then true else false.
Definition namedb (fmt : string) (l : text) : bool :=
  match sscanf l fmt with
  | Some (VStr t :: _) => (length t <? 64)%nat
  | Some _ => true
  | None => false
  end.
Definition disk_lineb (fmt : string) (l : text) : bool :=
  match sscanf l fmt with
  | Some vs => forallb (fun v => match v with
                                 | VStr t => match recognize validdisk t with Some (MAbbrev, _) => false | _ => true end
                                 | VInt _ => true end) vs
  | None => false
  end.

Lemma scansb_ok fmt l : scansb fmt l = true -> scans fmt l.
Proof. unfold scansb, scans. by destruct (sscanf l fmt). Qed.

Lemma namedb_ok fmt l : namedb fmt l = true -> named fmt l.
Proof.
  unfold namedb, named. destruct (sscanf l fmt) as [vs|]; [|done]. intros H. exists vs. split; [done|].
  destruct vs as [|[z|t] vs]; [done..|]. apply Nat.ltb_lt in H. by intros t' [= <-].
Qed.

Lemma disk_lineb_ok e fmt l : disk_lineb fmt l = true -> disk_line_ok e fmt l.
Proof.
  unfold disk_lineb, disk_line_ok. destruct (sscanf l fmt) as [vs|]; [|done]. intros H. exists vs. split; [done|].
  intros t Hin ty px E. rewrite forallb_forall in H. specialize (H _ (proj1 (list_elem_of_In _ _) Hin)).
  cbv beta iota in H. by rewrite E in H.
Qed.

(** C22: Whatever number of interfaces, disks and mounts the files of /proc and
    /sys name, photosyst returns, and the sample has the shape that the rest of
    the program relies on: the arrays have their sizes, the counts lie inside
    them (one more than the array for containers), and the tables of interfaces
    and disks end with an empty name. It ends the program only when a directory
    cannot be changed or the privileges cannot be dropped. The conditions: every
    number fits its type and every name its array, a disk under /host and /bus
    has the parts that abbrevname1 reads, there are no more lines of processors
    and containers than there is room for, and the lines of vestat have at most
    nine values (a complete one, of OpenVZ, is written past its array:
    vestat_overrun). The event counters stay in their array for the next call. *)
Theorem photosyst_sample_ok env f st : files_ok env f -> events_ok st.(syststate.events) ->
  exists r, photosyst env f st = Some r /\
    match r with
    | Ret (st', si) => sample_ok si /\ events_ok st'.(syststate.events)
    | Exit c =>
        c = 53 /\ (env.(systenv.cwd_ok) = false \/ env.(systenv.back_ok) = false) \/
        c = 42 /\ (droprootprivs env.(systenv.drop_rc) env.(systenv.drop_errno) = 0 \/
                  droprootprivs env.(systenv.perf).(perfenv.drop_rc) env.(systenv.perf).(perfenv.drop_errno) = 0)
    end.
Proof.
  intros Hf Hst. pose proof (photosyst_shape env f st) as HS. unfold photosyst in *.
  destruct (systenv.cwd_ok env); cbn [negb] in *; [|eexists; split; [reflexivity | cbn; tauto]].
  destruct (counters_defined env f Hf) as [si1 E1]. pose proof (counters_shape env f si1 E1) as (C1 & C2 & I & D & N & F).
  rewrite E1, run_fault in *.
  assert (Hd : disks_table (sstat.dsk si1)) by (rewrite D; apply disks_zero).
  destruct (disks_defined env f st si1 Hf Hd) as [[st2 si2] E2].
  pose proof (disks_shape env f st si1 st2 si2 Hd E2) as (D2 & P2 & I2 & N2 & F2).
  assert (Hev : syststate.events st2 = syststate.events st).
  { unfold disks in E2. bind in E2 as [[? ?] ?] Ea. bind in E2 as [? ?] Eb. by injection E2 as <- _. }
  rewrite E2, run_fault in *.
  destruct (nfs_counters_defined env f (sstat.nfs si2) (files_nfs _ _ Hf)) as [nfs E3].
  { rewrite N2, N. apply length_replicate. }
  rewrite E3, run_fault in *.
  destruct (Z.eqb_spec (droprootprivs (systenv.drop_rc env) (systenv.drop_errno env)) 0); [eexists; split; [reflexivity | cbn; tauto]|].
  destruct (containers_defined (procfiles.user_beancounters f) (procfiles.vestat f) (sstat.cfs si2) (files_containers _ _ Hf))
    as [cont E4]; [rewrite F2, F; apply length_replicate|].
  change (sstat.cfs (set_sstat_nfs nfs si2)) with (sstat.cfs si2) in *. rewrite E4, run_fault in *.
  destruct (systenv.back_ok env); cbn [negb] in *; [|eexists; split; [reflexivity | cbn; tauto]].
  change (sstat.cpu (set_sstat_cfs cont (set_sstat_nfs nfs si2))) with (sstat.cpu si2) in *.
  destruct (getperfevents_defined (systenv.perf env) (syststate.events st2) (sstat.cpu si2)) as
    [[E5 Hp]|(p & cs & E5 & Hp)]; [by rewrite Hev | by rewrite P2 | by rewrite P2 | |].
  - rewrite E5. eexists; split; [reflexivity | cbn; tauto].
  - rewrite E5, run_Ret in *. eexists. split; [reflexivity|]. cbn [fst snd] in *. split; [|done].
    by eapply HS.
Qed.
