(* ===== verification/PhotosystFacts.v ===== *)
(** * photosyst: what the files tell

    /proc/stat as the kernel writes it, the names of logical volumes, the
    recognition of disks, and concrete samples. *)
From Stdlib Require Import Ascii.
From S2P Require Import Prelude Format Sscanf SscanfFacts Sstat SstatStores Photosyst Photodisk Photonfs PhotosystShape PhotosystDefined.

Lemma scan_line_eq l fmt n s r : scan_into l fmt (name_and_counters n) s = Some r ->
  (length r.2.(scan.nam) < 64)%nat -> scan_line l fmt n s = Some r.
Proof. intros H Hl. unfold scan_line. rewrite H. mstep. by rewrite (proj2 (Nat.ltb_lt _ _)). Qed.

#[local] Opaque scan_line scan_into.

(** ** A name and counters *)

(** [n] conversions on the counters of a line: as many as there are. *)
Lemma scanf_counters n zs tail : Forall in_i64 zs -> spaces tail ->
  scanf (replicate n (Dconv false (CInt true 64))) (columns [" "%char] zs ++ tail) = Some (VInt <$> take n zs).
Proof.
  intros HF Ht. assert (Hends : ends_token tail).
  { destruct tail as [|c tail]; [done|]. by apply Forall_cons in Ht as [Hc _]. }
  revert n. induction HF as [|z zs Hz HF IH]; intros n.
  - destruct n as [|n]; [done|]. cbn [replicate scanf].
    change (columns [" "%char] [] ++ tail) with tail.
    assert (convert false (CInt true 64) tail = Fails) as ->; [|done]. cbn [convert]. assert (skip_space tail = []) as ->; [|done].
    rewrite <-(app_nil_r tail). by rewrite skip_space_app.
  - destruct n as [|n]; [done|]. cbn [replicate scanf].
    change (columns [" "%char] (z :: zs)) with (([" "%char] ++ fmt_d z) ++ columns [" "%char] zs).
    rewrite <-!app_assoc. rewrite convert_number; [| |repeat constructor|].
    + rewrite IH. done.
    + unfold int_fits. cbn [orb]. destruct Hz. rewrite (proj2 (Z.leb_le _ _)), (proj2 (Z.ltb_lt _ _)); [done|lia..].
    + apply ends_stops, columns_ends; [repeat constructor | done | done].
Qed.

Lemma scanf_counters_lead n lead l : spaces lead ->
  scanf (replicate n (Dconv false (CInt true 64))) (lead ++ l) = scanf (replicate n (Dconv false (CInt true 64))) l.
Proof. intros Hl. destruct n as [|n]; [done|]. cbn [replicate scanf convert]. by rewrite skip_space_app. Qed.

Definition counter_format (fmt : string) (n : nat) : bool :=
  match parse_format fmt with
  | Some ds => forallb skipping ds &&
      bool_decide (List.filter is_conv ds = Dconv false (CStr None) :: replicate n (Dconv false (CInt true 64)))
  | None => false
  end.

(** A name, perhaps more white space, then numbers, each behind a space. *)
Definition counter_line (name lead : text) (zs : list Z) (tail : text) : text :=
  name ++ lead ++ columns [" "%char] zs ++ tail.

Lemma spaces_end l : spaces l -> ends_token l.
Proof. destruct l as [|c l]; [done|]. by intros [Hc _]%Forall_cons. Qed.

Lemma sscanf_counters fmt n name lead zs tail : counter_format fmt n = true ->
  solid name -> spaces lead -> Forall in_i64 zs -> spaces tail ->
  sscanf (counter_line name lead zs tail) fmt = Some (VStr name :: (VInt <$> take n zs)).
Proof.
  intros Hf Hn Hlead HF Ht. unfold counter_format in Hf. unfold sscanf.
  destruct (parse_format fmt) as [ds|]; [|done]. apply andb_true_iff in Hf as [Hs Hc].
  apply bool_decide_eq_true in Hc. cbn [mbind option_bind]. rewrite scanf_convs by done. rewrite Hc.
  cbn [scanf]. unfold counter_line.
  pose proof (convert_printed false (CStr None) (VStr name) [] (lead ++ columns [" "%char] zs ++ tail)) as E.
  cbn [app print] in E. rewrite E.
  - rewrite scanf_counters_lead, scanf_counters by done. done.
  - cbn. destruct Hn as [Hne HF']. rewrite bool_decide_true by done. rewrite andb_true_r. cbn.
    apply forallb_forall. intros c Hc'. apply negb_true_iff. apply list_elem_of_In in Hc'.
    exact (proj1 (Forall_forall _ _) HF' c Hc').
  - by apply Forall_nil.
  - destruct lead as [|c lead]; [|by apply Forall_cons in Hlead as [Hc' _]].
    apply columns_ends; [repeat constructor | done | by apply spaces_end].
Qed.

(** The counters go to the front of [cnts]. *)
Lemma stores_counters si nam : forall zs k m cnts, (k + m <= length cnts)%nat -> (length zs <= m)%nat ->
  stores ((fun k => num (set_cnt k)) <$> seq k m) (VInt <$> zs) (scan.mk cnts nam si) =
  scan.mk (take k cnts ++ zs ++ drop (k + length zs) cnts) nam si.
Proof.
  induction zs as [|z zs IH]; intros k m cnts Hk Hl.
  - cbn [fmap list_fmap]. assert (E : forall fs s, stores (S := scan.scan) fs [] s = s) by (by intros []).
    rewrite E. cbn [app length]. rewrite Nat.add_0_r, take_drop. done.
  - destruct m as [|m]; [cbn in Hl; lia|]. cbn [seq fmap list_fmap stores num].
    change (set_cnt k z (scan.mk cnts nam si)) with (scan.mk (<[k := z]> cnts) nam si).
    rewrite IH by (rewrite ?length_insert; cbn in Hl; lia). f_equal.
    rewrite (drop_insert_lt cnts) by lia. rewrite (take_S_r _ _ z) by (apply list_lookup_insert_eq; cbn in Hl; lia).
    rewrite take_insert_ge by lia. rewrite <-app_assoc. cbn [app length]. do 3 f_equal. f_equal. lia.
Qed.

(** A line whose name is short. *)
Lemma scan_line_counters fmt n name lead zs tail s : counter_format fmt n = true ->
  solid name -> (length name < 64)%nat -> spaces lead -> Forall in_i64 zs -> spaces tail ->
  (length zs <= n <= length s.(scan.cnts))%nat ->
  scan_line (counter_line name lead zs tail) fmt n s =
    Some (S (length zs), scan.mk (zs ++ drop (length zs) s.(scan.cnts)) name s.(scan.si)).
Proof.
  intros Hf Hn Hl Hlead HF Ht Hz. Transparent scan_line scan_into. unfold scan_line, scan_into.
  rewrite (sscanf_counters fmt n) by done. Opaque scan_line scan_into. cbn [mbind option_bind].
  rewrite take_ge by lia. destruct s as [cnts nam si]. unfold name_and_counters. cbn [stores str].
  change (set_nam name (scan.mk cnts nam si)) with (scan.mk cnts name si).
  rewrite stores_counters by (cbn in Hz; lia). cbn [snd scan.nam fst app length Nat.add take].
  rewrite (proj2 (Nat.ltb_lt _ _)) by done. by rewrite length_fmap.
Qed.

(** ** /proc/stat *)

(** What the kernel tells: the counters of all processors, those of each
    processor, and other lines with a name and counters. *)
Module kstat.
Record kstat := mk {
  all : list Z;
  cpus : list (list Z);
  others : list (text * list Z)
}.
End kstat.

Definition cpu_name (i : nat) : text := chars "cpu" ++ dec (Z.of_nat i).

Definition stat_line_of (x : text * text * list Z) : text := counter_line x.1.1 x.1.2 x.2 [].

Fixpoint cpu_rows (n : nat) (cpus : list (list Z)) : list (text * text * list Z) :=
  match cpus with
  | [] => []
  | zs :: cpus => (cpu_name n, [], zs) :: cpu_rows (S n) cpus
  end.

Definition stat_rows (k : kstat.kstat) : list (text * text * list Z) :=
  (chars "cpu", [" "%char], k.(kstat.all)) ::
  cpu_rows 0 k.(kstat.cpus) ++
  ((fun o => (o.1, [], o.2)) <$> k.(kstat.others)).

Definition stat_text (k : kstat.kstat) : text := (stat_line_of <$> stat_rows k) ≫= fun l => l ++ [newline].

(** A line that fits into the buffer. *)
Definition row_ok (x : text * text * list Z) : Prop :=
  solid x.1.1 /\ zero ∉ x.1.1 /\ (length x.1.1 < 64)%nat /\ Forall in_i64 x.2 /\ (1 <= length x.2 <= 15)%nat /\
  (length (stat_line_of x) + 1 < LINEBUF)%nat.

Definition small (z : Z) : Prop := 0 <= z < 10 ^ 18.

(** A line with any number of counters below [10 ^ 18]. *)
Definition long_row (o : text * list Z) : Prop :=
  solid o.1 /\ zero ∉ o.1 /\ (length o.1 < 64)%nat /\ Forall small o.2 /\ o.2 <> [].

(** The lines of processors have ten counters and fit into the buffer. So do the
    others, or they have any number of counters below [10 ^ 18], like the line
    of interrupts, which [fgets] reads in parts; their names do not start with
    cpu. *)
Record kstat_ok (k : kstat.kstat) : Prop := {
  ks_rows : Forall row_ok ((chars "cpu", [" "%char], k.(kstat.all)) :: cpu_rows 0 k.(kstat.cpus));
  ks_ten : Forall (fun zs => length zs = 10%nat) (k.(kstat.all) :: k.(kstat.cpus));
  ks_count : (1 <= length k.(kstat.cpus) <= MAXCPU)%nat;
  ks_other_rows : Forall (fun o => row_ok (o.1, [], o.2) \/ long_row o) k.(kstat.others);
  ks_others : Forall (fun o => starts "cpu" o.1 = false /\ o.1 <> chars "swap") k.(kstat.others)
}.

(** The counters of a processor. *)
Definition figures (zs : list Z) (p : percpu.percpu) : percpu.percpu :=
  percpu.mk p.(percpu.cpunr) (zs !!! 2%nat) (zs !!! 0%nat) (zs !!! 1%nat) (zs !!! 3%nat) (zs !!! 4%nat)
    (zs !!! 5%nat) (zs !!! 6%nat) (zs !!! 7%nat) (zs !!! 8%nat)
    p.(percpu.freqcnt) p.(percpu.instr) p.(percpu.cycle) p.(percpu.cfuture).

Lemma cpu_figures_ten zs rest nam si p : length zs = 10%nat ->
  cpu_figures 11 (scan.mk (zs ++ rest) nam si) p = figures zs p.
Proof.
  intros Hl. unfold cpu_figures, figures, cnt. cbn [Nat.ltb Nat.leb andb scan.cnts].
  rewrite !lookup_total_app_l by lia. done.
Qed.

(** One line: the counters [cnts] keep their number. *)
Definition row_line (x : text * text * list Z) : text := stat_line_of x ++ [newline].

Definition scanned (x : text * text * list Z) (s : scan.scan) : scan.scan :=
  scan.mk (x.2 ++ drop (length x.2) s.(scan.cnts)) x.1.1 s.(scan.si).

Lemma scan_row x s : row_ok x -> spaces x.1.2 -> length s.(scan.cnts) = MAXCNT ->
  scan_line (row_line x) SCANSTATCPU 15 s = Some (S (length x.2), scanned x s) /\
  length (scanned x s).(scan.cnts) = MAXCNT.
Proof.
  intros (Hn & _ & Hl & HF & Hz & _) Hs Hc. destruct x as [[name lead] zs]. cbn [fst snd] in *. split.
  - unfold row_line, stat_line_of, counter_line. cbn [fst snd]. rewrite app_nil_r, <-!app_assoc.
    apply (scan_line_counters SCANSTATCPU 15 name lead zs [newline]); try done.
    + by repeat constructor.
    + unfold MAXCNT in Hc. lia.
  - cbn [scanned scan.cnts fst snd]. rewrite length_app, length_drop. unfold MAXCNT in *. lia.
Qed.

(** The line of all processors. *)
Lemma stat_line_all zs s : row_ok (chars "cpu", [" "%char], zs) -> length zs = 10%nat ->
  length s.(scan.cnts) = MAXCNT ->
  exists s', stat_file_line (row_line (chars "cpu", [" "%char], zs)) s = Some s' /\ length s'.(scan.cnts) = MAXCNT /\
    s'.(scan.si) = upd_cpu (fun c => set_cpustat_all (figures zs c.(cpustat.all)) c) s.(scan.si).
Proof.
  intros Hr Hl Hc. destruct (scan_row _ s Hr ltac:(by repeat constructor) Hc) as [E Hlen].
  unfold stat_file_line. rewrite E. cbn [mbind option_bind snd]. rewrite Hl. cbn [Nat.ltb Nat.leb].
  unfold is_name, scanned. cbn [scan.nam fst]. rewrite bool_decide_true by done.
  eexists. split; [done|]. split; [exact Hlen|]. cbn [upd_si scan.si]. unfold upd_cpu.
  by rewrite cpu_figures_ten.
Qed.

Lemma cpu_name_not i : cpu_name i <> chars "cpu".
Proof.
  unfold cpu_name. intros E. apply (f_equal length) in E. rewrite length_app in E. cbn in E.
  pose proof (dec_nonempty (Z.of_nat i)). lia.
Qed.

Lemma atoi_cpu_name i : (i < MAXCPU)%nat -> atoi (drop 3 (cpu_name i)) = Z.of_nat i.
Proof.
  intros Hi. unfold cpu_name. change (drop 3 (chars "cpu" ++ dec (Z.of_nat i))) with (dec (Z.of_nat i)).
  unfold atoi. unfold MAXCPU in Hi.
  assert (strtol (dec (Z.of_nat i)) = Some (Z.of_nat i, false, [])) as ->.
  { rewrite <-(app_nil_r (dec _)). apply strtol_dec; [lia|done]. }
  apply i32_id. unfold in_i32. lia.
Qed.

(** The line of one processor. *)
Lemma stat_line_cpu i zs s p : row_ok (cpu_name i, [], zs) -> length zs = 10%nat ->
  length s.(scan.cnts) = MAXCNT -> (i < MAXCPU)%nat -> s.(scan.si).(sstat.cpu).(cpustat.cpu) !! i = Some p ->
  exists s', stat_file_line (row_line (cpu_name i, [], zs)) s = Some s' /\ length s'.(scan.cnts) = MAXCNT /\
    s'.(scan.si) = upd_cpu (fun c => set_cpustat_nrcpu (i64 (c.(cpustat.nrcpu) + 1))
      (set_cpustat_cpu (<[i := figures zs (set_cpunr (Z.of_nat i) p)]> c.(cpustat.cpu)) c)) s.(scan.si).
Proof.
  intros Hr Hl Hc Hi Hp. destruct (scan_row _ s Hr ltac:(by repeat constructor) Hc) as [E Hlen].
  unfold stat_file_line. rewrite E. cbn [mbind option_bind snd]. rewrite Hl. cbn [Nat.ltb Nat.leb].
  unfold is_name, scanned. cbn [scan.nam scan.si fst snd]. rewrite bool_decide_false by apply cpu_name_not.
  assert (starts "cpu" (cpu_name i) = true) as -> by (unfold cpu_name, starts; apply prefixed_app).
  rewrite atoi_cpu_name by done. rewrite (proj2 (Z.leb_gt _ _)) by lia.
  unfold at_cpu. rewrite (proj2 (Z.ltb_ge _ 0)), Nat2Z.id, Hp by lia. cbn [mbind option_bind].
  eexists. split; [done|]. split; [exact Hlen|]. cbn [upd_si scan.si]. unfold upd_cpu.
  rewrite cpu_figures_ten by done. done.
Qed.

(** The effect of another line. *)
Definition other_effect (o : text * list Z) (c : cpustat.cpustat) : cpustat.cpustat :=
  let v := o.2 !!! 0%nat in
  if bool_decide (o.1 = chars "ctxt") then set_cpustat_csw v c
  else if bool_decide (o.1 = chars "intr") then set_cpustat_devint v c
  else if bool_decide (o.1 = chars "processes") then set_cpustat_nprocs v c
  else c.

Lemma upd_cpu_id si : upd_cpu (fun c => c) si = si.
Proof. by destruct si. Qed.

Lemma stat_line_other o s : row_ok (o.1, [], o.2) -> starts "cpu" o.1 = false -> o.1 <> chars "swap" ->
  length s.(scan.cnts) = MAXCNT ->
  exists s', stat_file_line (row_line (o.1, [], o.2)) s = Some s' /\ length s'.(scan.cnts) = MAXCNT /\
    s'.(scan.si) = upd_cpu (other_effect o) s.(scan.si).
Proof.
  intros Hr Hcpu Hswap Hc. destruct (scan_row _ s Hr ltac:(by repeat constructor) Hc) as [E Hlen].
  destruct Hr as (_ & _ & _ & _ & Hz & _). destruct o as [name zs]. cbn [fst snd] in *.
  unfold stat_file_line. rewrite E. cbn [mbind option_bind].
  rewrite (proj2 (Nat.ltb_ge _ 2)) by lia.
  unfold is_name. change (scan.nam (scanned (name, [], zs) s)) with name. rewrite Hcpu.
  assert (Hv : cnt (scanned (name, [], zs) s) 0 = zs !!! 0%nat).
  { unfold cnt, scanned. cbn [scan.cnts fst snd]. by rewrite lookup_total_app_l by lia. }
  unfold other_effect. cbn [fst snd].
  rewrite (bool_decide_false (name = chars "cpu")) by (intros ->; done).
  rewrite (bool_decide_false (name = chars "swap")) by done.
  repeat case_bool_decide; rewrite ?Hv; eexists; (split; [reflexivity|]); (split; [exact Hlen|]); try done.
  by rewrite upd_cpu_id.
Qed.

(** ** Lines that are longer than the buffer *)

(** A text of digits and white space without more than 18 digits in a row, of
    which [k] come before it. *)
Fixpoint numeric (k : nat) (l : text) : bool :=
  match l with
  | [] => true
  | c :: l => if isdigit c then (k <? 18)%nat && numeric (S k) l else isspace c && numeric 0 l
  end.

Lemma numeric_le l : forall j k, (j <= k)%nat -> numeric k l = true -> numeric j l = true.
Proof.
  induction l as [|c l IH]; intros j k Hj; [done|]. cbn [numeric]. destruct (isdigit c); [|done].
  rewrite !andb_true_iff, !Nat.ltb_lt. intros [Hk Hl]. split; [lia|]. apply (IH (S j) (S k)); [lia|done].
Qed.

Lemma numeric_app a : forall b k, numeric k (a ++ b) = true -> numeric k a = true /\ numeric 0 b = true.
Proof.
  induction a as [|c a IH]; intros b k; cbn [app numeric]; [intros H; split; [done|]; revert H; apply numeric_le; lia|].
  destruct (isdigit c); rewrite !andb_true_iff; intros [H1 H2]; by destruct (IH _ _ H2).
Qed.

Lemma numeric_digits ds l : forall k, Forall (fun c => isdigit c = true) ds -> (k + length ds <= 18)%nat ->
  ends_token l -> numeric 0 l = true -> numeric k (ds ++ l) = true.
Proof.
  induction ds as [|c ds IH]; intros k HF Hk He Hl; cbn [app].
  - destruct l as [|c l]; [done|]. cbn [ends_token numeric] in *. by rewrite (space_no_digit _ He) in *.
  - apply Forall_cons in HF as [Hc HF]. cbn [length numeric] in *. rewrite Hc. apply andb_true_iff. split; [by apply Nat.ltb_lt; lia|].
    apply IH; [done|lia|done|done].
Qed.

Lemma numeric_columns zs l : Forall small zs -> ends_token l -> numeric 0 l = true ->
  numeric 0 (columns [" "%char] zs ++ l) = true.
Proof.
  intros HF He Hl. induction HF as [|z zs Hz HF IH]; [done|].
  change (columns [" "%char] (z :: zs)) with (([" "%char] ++ fmt_d z) ++ columns [" "%char] zs).
  rewrite <-!app_assoc. cbn [app numeric]. change (isdigit " ") with false. cbn [andb].
  change (isspace " ") with true. cbn [andb]. unfold fmt_d. destruct Hz. rewrite (proj2 (Z.ltb_ge z 0)) by lia.
  apply numeric_digits; [by apply dec_digits | | by apply columns_ends; [repeat constructor | |] | done].
  cbn. apply dec_length_le; lia.
Qed.

Lemma numeric_skip l : numeric 0 l = true -> numeric 0 (skip_space l) = true.
Proof.
  intros H. destruct (skip_space_suffix l) as [a E]. rewrite E in H.
  by destruct (numeric_app a _ 0 H).
Qed.

Lemma numeric_sign l : numeric 0 l = true -> scan_sign l = (false, l).
Proof.
  destruct l as [|c l]; [done|]. cbn [numeric scan_sign]. intros H.
  destruct (Ascii.eqb_spec c "-") as [->|]; [done|]. destruct (Ascii.eqb_spec c "+") as [->|]; [done | done].
Qed.

(** A number in such a text is small. *)
Lemma scan_digits_small l : forall k acc, 0 <= acc < 10 ^ Z.of_nat k -> (k <= 18)%nat -> numeric k l = true ->
  0 <= (scan_digits acc l).1 < 10 ^ 18 /\ numeric 0 (scan_digits acc l).2 = true.
Proof.
  assert (Hpow : forall k acc, (k <= 18)%nat -> 0 <= acc < 10 ^ Z.of_nat k -> 0 <= acc < 10 ^ 18).
  { intros k acc Hk Ha. split; [lia|]. apply Z.lt_le_trans with (10 ^ Z.of_nat k); [lia|].
    apply Z.pow_le_mono_r; lia. }
  induction l as [|c l IH]; intros k acc Ha Hk Hl; cbn [scan_digits]; [split; [by apply (Hpow k) | done]|].
  cbn [numeric] in Hl. destruct (isdigit c) eqn:Ec.
  - apply andb_true_iff in Hl as [Hk'%Nat.ltb_lt Hl]. apply (IH (S k)); [|lia|done].
    unfold isdigit, digit_val in *. apply andb_true_iff in Ec as [H1%Z.leb_le H2%Z.leb_le].
    replace (Z.of_nat (S k)) with (Z.of_nat k + 1) by lia. rewrite Z.pow_add_r by lia. lia.
  - cbn [fst snd]. split; [by apply (Hpow k)|]. cbn [numeric]. by rewrite Ec.
Qed.

Lemma token_numeric n l : numeric 0 l = true -> ends_token l \/ (exists c l', l = c :: l' /\ isdigit c = true) ->
  Forall (fun c => isdigit c = true) (token n l) /\ (length (token n l) <= 18)%nat.
Proof.
  intros H _. assert (HG : forall k, numeric k l = true -> (k <= 18)%nat ->
    Forall (fun c => isdigit c = true) (token n l) /\ (k + length (token n l) <= 18)%nat).
  { clear H. revert n. induction l as [|c l IH]; intros n k Hl Hk; [destruct n; by split; [apply Forall_nil | cbn; lia]|].
    destruct n as [|n]; [by split; [apply Forall_nil | cbn; lia]|]. cbn [token numeric] in *.
    destruct (isdigit c) eqn:Ec.
    - rewrite (digit_no_space _ Ec). apply andb_true_iff in Hl as [Hk'%Nat.ltb_lt Hl].
      destruct (IH n (S k) Hl ltac:(lia)) as [HF Hlen]. split; [by constructor | cbn; lia].
    - apply andb_true_iff in Hl as [-> _]. by split; [apply Forall_nil | cbn; lia]. }
  apply (HG 0%nat); [done|lia].
Qed.

(** The conversions of a name and of counters. *)
Definition plain_conv (d : directive) : bool :=
  match d with Dconv false (CStr None) | Dconv false (CInt true 64) => true | _ => false end.

Lemma convert_last_column d l : plain_conv d = true -> numeric 0 l = true -> exists c, d = Dconv false c /\
  (convert false c l = Fails \/ exists v rest, convert false c l = Done v rest /\ numeric 0 rest = true /\
     forall t, v = VStr t -> Forall (fun c => isdigit c = true) t /\ (length t <= 18)%nat /\ t <> []).
Proof.
  intros Hd Hl. destruct d as [|?|[] c]; try discriminate Hd. exists c. split; [done|].
  destruct c as [[] bits| |[]|]; try discriminate Hd.
  - destruct (Z.eq_dec bits 64) as [->|Hb]; [|by destruct bits as [|[]|]; try discriminate Hd;
      repeat match goal with p : positive |- _ => destruct p; try discriminate Hd end].
    cbn [convert]. pose proof (numeric_skip l Hl) as Hs. rewrite (numeric_sign _ Hs). cbn [fst snd orb].
    unfold scan_nat. destruct (skip_space l) as [|c l'] eqn:E; [by left|]. destruct (isdigit c) eqn:Ec; [|by left].
    destruct (scan_digits_small (c :: l') 0 0) as [Hn Hr]; [done|lia|done|].
    destruct (scan_digits 0 (c :: l')) as [n rest]. cbn [fst snd] in *. right.
    assert (int_fits true 64 n = true) as ->; [unfold int_fits; lia|]. exists (VInt n), rest. done.
  - cbn [convert default from_option]. pose proof (numeric_skip l Hl) as Hs.
    set (l' := skip_space l) in *. clearbody l'.
    destruct (token_numeric (length l') l' Hs) as [HF Hlen].
    { destruct l' as [|c l']; [by left|]. cbn [numeric ends_token] in Hs |- *. destruct (isdigit c) eqn:Ec; [right; eauto|].
      left. by apply andb_true_iff in Hs as [-> _]. }
    destruct (token (length l') l') as [|x t] eqn:E; [by left|]. right. exists (VStr (x :: t)), (drop (length (x :: t)) l').
    split; [done|]. split; [|by intros t' [= <-]].
    rewrite <-(take_drop (length (x :: t)) l') in Hs. by apply numeric_app in Hs as [_ Hs].
Qed.

Lemma scanf_plain ds : forall l, forallb plain_conv ds = true -> numeric 0 l = true ->
  exists vs, scanf ds l = Some vs /\
    Forall (fun v => forall t, v = VStr t -> Forall (fun c => isdigit c = true) t /\ (length t <= 18)%nat /\ t <> []) vs.
Proof.
  induction ds as [|d ds IH]; intros l Hds Hl; [by exists []|]. cbn [forallb] in Hds.
  apply andb_true_iff in Hds as [Hd Hds]. destruct (convert_last_column d l Hd Hl) as (c & -> & HC). cbn [scanf].
  destruct HC as [->|(v & rest & -> & Hr & Hv)]; [by exists []|].
  destruct (IH rest Hds Hr) as (vs & -> & HF). mstep. exists (v :: vs). split; [done|]. by constructor.
Qed.

Lemma counter_plain n : forallb plain_conv (Dconv false (CStr None) :: replicate n (Dconv false (CInt true 64))) = true.
Proof. cbn. by induction n as [|n IH]. Qed.

(** The format of a line of stat: a name and fifteen counters. *)
Lemma sscanf_stat l : sscanf l SCANSTATCPU =
  scanf (Dconv false (CStr None) :: replicate 15 (Dconv false (CInt true 64))) l.
Proof.
  assert (Hf : counter_format SCANSTATCPU 15 = true) by reflexivity. unfold counter_format in Hf. unfold sscanf.
  destruct (parse_format SCANSTATCPU) as [ds|]; [|done]. apply andb_true_iff in Hf as [Hs Hc].
  apply bool_decide_eq_true in Hc. mstep. by rewrite scanf_convs, Hc.
Qed.

(** What follows in the file after the first part of a long line: nothing of the
    sample changes. *)
Lemma stat_line_numeric l s : numeric 0 l = true -> ready s ->
  exists s', stat_file_line l s = Some s' /\ ready s' /\ s'.(scan.si) = s.(scan.si).
Proof.
  intros Hl Hs. destruct (scanf_plain _ l (counter_plain 15) Hl) as (vs & E & HF). rewrite <-sscanf_stat in E.
  assert (Hn : named SCANSTATCPU l).
  { exists vs. split; [done|]. intros t Ht. destruct vs as [|v vs]; [done|]. injection Ht as ->.
    apply Forall_cons in HF as [HF _]. destruct (HF t eq_refl) as (_ & H & _). lia. }
  unfold stat_file_line. destruct (scan_line_defined _ 15 l s Hn eq_refl Hs) as (vs' & s' & E' & -> & Hr & Hsi & Hnam).
  rewrite E in E'. injection E' as <-. mstep. destruct (_ <? 2)%nat eqn:E2; [by eexists|].
  destruct Hnam as (t & vs' & -> & Ht); [by intros ->|]. apply Forall_cons in HF as [HF _].
  destruct (HF t eq_refl) as (HD & _ & Hne). destruct t as [|c t]; [done|]. apply Forall_cons in HD as [Hc _].
  assert (Hst : starts "cpu" (c :: t) = false).
  { destruct (starts "cpu" (c :: t)) eqn:Es; [|done]. unfold starts in Es.
    change (Ascii.eqb "c" c && prefixed (chars "pu") t = true) in Es.
    apply andb_true_iff in Es as [Es _]. apply Ascii.eqb_eq in Es as <-. discriminate Hc. }
  unfold is_name. rewrite Ht, Hst.
  repeat match goal with |- context [bool_decide (c :: t = chars ?x)] =>
    rewrite (bool_decide_false (c :: t = chars x)) by (intros [= -> _]; discriminate Hc) end.
  by eexists.
Qed.

Lemma fgets_app n l : l = (fgets n l).1 ++ (fgets n l).2.
Proof.
  revert l. induction n as [|n IH]; intros [|c l]; try done. cbn. destruct (Ascii.eqb c "010"); [done|].
  cbn. by rewrite <-IH.
Qed.

Lemma numeric_zero k l : numeric k l = true -> zero ∉ l.
Proof.
  revert k. induction l as [|c l IH]; intros k; [intros _; apply not_elem_of_nil|]. cbn [numeric]. intros H.
  apply not_elem_of_cons. split; [intros <-; discriminate H|].
  destruct (isdigit c); apply andb_true_iff in H as [_ H]; eauto.
Qed.

Lemma lines_numeric size fuel : forall l, numeric 0 l = true ->
  Forall (fun x => numeric 0 x = true) (cstr <$> lines_fuel fuel size l).
Proof.
  induction fuel as [|fuel IH]; intros l Hl; [by apply Forall_nil|]. destruct l as [|c l]; [by apply Forall_nil|].
  cbn [lines_fuel fmap list_fmap]. rewrite (fgets_app (size - 1) (c :: l)) in Hl. apply numeric_app in Hl as [H1 H2].
  constructor; [|by apply IH]. rewrite cstr_id; [done | by eapply numeric_zero].
Qed.

Lemma lines_unfold size l : (1 < size)%nat -> l <> [] ->
  lines size l = cstr (fgets (size - 1) l).1 :: lines size (fgets (size - 1) l).2.
Proof.
  intros Hs Hl. unfold lines. destruct l as [|c l]; [done|]. cbn [length lines_fuel fmap list_fmap]. f_equal.
  rewrite lines_fuel_enough; [done|done|]. destruct size as [|[|m]]; try lia.
  pose proof (fgets_shorter m (c :: l) ltac:(done)). cbn [length Nat.sub] in *. lia.
Qed.

(** Lines end at a newline, however many parts there are before it. *)
Lemma fgets_full n : forall s l, newline ∉ s -> (n <= length s)%nat -> fgets n (s ++ l) = (take n s, drop n s ++ l).
Proof.
  induction n as [|n IH]; intros s l Hs Hn; [done|]. destruct s as [|c s]; [cbn in Hn; lia|].
  apply not_elem_of_cons in Hs as [Hc Hs]. cbn [app fgets take drop]. fold newline.
  rewrite (proj2 (Ascii.eqb_neq c newline)) by done. cbn in Hn. by rewrite IH by (done || lia).
Qed.

Lemma lines_split size s l : (1 < size)%nat -> newline ∉ s ->
  lines size (s ++ newline :: l) = lines size (s ++ [newline]) ++ lines size l.
Proof.
  intros Hs. remember (length s) as n eqn:En. revert s En.
  induction n as [n IH] using (well_founded_induction lt_wf). intros s -> Hn.
  rewrite (lines_unfold size (s ++ newline :: l)), (lines_unfold size (s ++ [newline])) by (done || by destruct s).
  destruct (Nat.ltb_spec (length s) (size - 1)) as [Hlt|Hge].
  - rewrite !fgets_line by done. done.
  - rewrite !fgets_full by done. cbn [fst snd app]. f_equal. apply (IH (length (drop (size - 1) s))); [|done|].
    + rewrite length_drop. lia.
    + intros Hin. apply Hn. rewrite <-(take_drop (size - 1) s). apply elem_of_app. by right.
Qed.

Lemma lines_bind size (ls : list text) : (1 < size)%nat -> Forall (fun s => newline ∉ s) ls ->
  lines size (ls ≫= fun s => s ++ [newline]) = ls ≫= fun s => lines size (s ++ [newline]).
Proof.
  intros Hs. induction 1 as [|s ls Hn _ IH]; [done|]. rewrite !bind_cons, <-app_assoc.
  rewrite <-IH. exact (lines_split size s _ Hs Hn).
Qed.

(** Its parts: the name and the first counter come first. *)
Lemma long_lines name z zs : long_row (name, z :: zs) -> exists r ls,
  lines LINEBUF (row_line (name, [], z :: zs)) = (name ++ " "%char :: dec z ++ r) :: ls /\
  numeric 0 r = true /\ ends_token r /\ Forall (fun x => numeric 0 x = true) ls.
Proof.
  intros (Hn & Hz & Hl & HF & _). cbn [fst snd] in *. apply Forall_cons in HF as [Hz0 HF].
  set (head := name ++ " "%char :: dec z). set (t := columns [" "%char] zs ++ [newline]).
  assert (Et : row_line (name, [], z :: zs) = head ++ t).
  { unfold row_line, stat_line_of, counter_line, head, t. cbn [fst snd app]. rewrite app_nil_r.
    change (columns [" "%char] (z :: zs)) with (" "%char :: fmt_d z ++ columns [" "%char] zs).
    unfold fmt_d. rewrite (proj2 (Z.ltb_ge z 0)) by apply Hz0. rewrite <-!app_assoc. cbn [app]. by rewrite <-!app_assoc. }
  assert (Hhead : (length head <= LINEBUF - 1)%nat).
  { unfold head. rewrite length_app. cbn [length]. pose proof (dec_length_le z 18 ltac:(lia) Hz0).
    unfold LINEBUF. lia. }
  assert (Hnl : newline ∉ head /\ zero ∉ head).
  { unfold head. pose proof (dec_digits z (proj1 Hz0)) as HD. rewrite Forall_forall in HD.
    destruct Hn as [_ Hn]. rewrite Forall_forall in Hn.
    split; (rewrite elem_of_app, elem_of_cons; intros [H|[H|H]]; [|discriminate H|by specialize (HD _ H)]).
    - by specialize (Hn _ H). - done. }
  assert (Hnum : numeric 0 t = true).
  { apply numeric_columns; [done|done|done]. }
  assert (Hends : ends_token t) by (apply columns_ends; [by repeat constructor | done | done]).
  assert (Efg : fgets (LINEBUF - 1) (head ++ t) =
    (head ++ (fgets (LINEBUF - 1 - length head) t).1, (fgets (LINEBUF - 1 - length head) t).2)).
  { revert Hhead Hnl. generalize (LINEBUF - 1)%nat. generalize head. clear. intros h.
    induction h as [|c h IH]; intros n Hle [Hnl Hz]; cbn [app length].
    - rewrite Nat.sub_0_r. by destruct (fgets n t).
    - destruct n as [|n]; [cbn in Hle; lia|]. apply not_elem_of_cons in Hnl as [Hc Hnl].
      apply not_elem_of_cons in Hz as [_ Hz]. cbn [fgets]. fold newline.
      rewrite (proj2 (Ascii.eqb_neq c newline)) by done. rewrite IH by (done || (cbn in Hle; lia)). done. }
  set (r := (fgets (LINEBUF - 1 - length head) t).1) in *. set (rest := (fgets (LINEBUF - 1 - length head) t).2) in *.
  pose proof (fgets_app (LINEBUF - 1 - length head) t) as Esplit. fold r rest in Esplit.
  rewrite Esplit in Hnum. apply numeric_app in Hnum as [Hr Hrest].
  exists r, (lines LINEBUF rest). split; [|split; [done|split]].
  - rewrite Et, lines_unfold, Efg; [|unfold LINEBUF; lia | unfold head; by destruct name]. cbn [fst snd].
    rewrite cstr_id; [unfold head; by rewrite <-app_assoc|]. rewrite elem_of_app. intros [H|H]; [by apply Hnl|].
    by apply (numeric_zero _ _ Hr).
  - destruct r as [|c r']; [done|]. rewrite Esplit in Hends. exact Hends.
  - by apply lines_numeric.
Qed.

(** The stores behind a counter leave it. *)
Lemma stores_behind vs : forall k m s j, (j < k)%nat ->
  cnt (stores ((fun k => num (set_cnt k)) <$> seq k m) vs s) j = cnt s j.
Proof.
  induction vs as [|v vs IH]; intros k m s j Hj; [by destruct m|]. destruct m as [|m]; [done|]. cbn.
  rewrite IH by lia. destruct v; [|done]. unfold cnt. cbn. by rewrite list_lookup_total_insert_ne by lia.
Qed.

Lemma each_line_app {S} (f : text -> S -> option S) a b s :
  each_line f (a ++ b) s = (s' ← each_line f a s; each_line f b s').
Proof.
  revert s. induction a as [|l a IH]; intros s; [done|]. cbn [app each_line].
  destruct (f l s) as [s'|]; cbn [mbind option_bind]; [apply IH | done].
Qed.

#[local] Instance percpu_inhabited : Inhabited percpu.percpu := populate percpu_zero.

(** The array after the lines of the processors from [n] on. *)
Fixpoint fill (n : nat) (cpus : list (list Z)) (l : list percpu.percpu) : list percpu.percpu :=
  match cpus with
  | [] => l
  | zs :: cpus => fill (S n) cpus (<[n := figures zs (set_cpunr (Z.of_nat n) (l !!! n))]> l)
  end.

Lemma fill_length cpus : forall n l, length (fill n cpus l) = length l.
Proof. induction cpus as [|zs cpus IH]; intros n l; cbn; [done|]. by rewrite IH, length_insert. Qed.

Lemma fill_lookup cpus : forall n l j, (n + length cpus <= length l)%nat ->
  fill n cpus l !! j =
    match (if (n <=? j)%nat then cpus !! (j - n)%nat else None) with
    | Some zs => Some (figures zs (set_cpunr (Z.of_nat j) (l !!! j)))
    | None => l !! j
    end.
Proof.
  induction cpus as [|zs cpus IH]; intros n l j Hl; cbn [fill length] in *.
  - destruct (n <=? j)%nat; done.
  - rewrite IH by (rewrite length_insert; lia).
    destruct (Nat.lt_trichotomy n j) as [H|[->|H]].
    + rewrite (proj2 (Nat.leb_le (S n) j)), (proj2 (Nat.leb_le n j)) by lia.
      replace (j - n)%nat with (S (j - S n)) by lia. cbn [lookup list_lookup].
      rewrite list_lookup_total_insert_ne, list_lookup_insert_ne by lia. done.
    + rewrite (proj2 (Nat.leb_gt (S j) j)), (proj2 (Nat.leb_le j j)) by lia. rewrite Nat.sub_diag. cbn [lookup list_lookup].
      by rewrite list_lookup_insert_eq by lia.
    + rewrite (proj2 (Nat.leb_gt (S n) j)), (proj2 (Nat.leb_gt n j)) by lia. by rewrite list_lookup_insert_ne by lia.
Qed.

Lemma cpu_rows_read cpus : forall n s, Forall row_ok (cpu_rows n cpus) -> Forall (fun zs => length zs = 10%nat) cpus ->
  length s.(scan.cnts) = MAXCNT -> length s.(scan.si).(sstat.cpu).(cpustat.cpu) = MAXCPU ->
  (n + length cpus <= MAXCPU)%nat -> s.(scan.si).(sstat.cpu).(cpustat.nrcpu) = Z.of_nat n ->
  exists s', each_line stat_file_line (row_line <$> cpu_rows n cpus) s = Some s' /\ length s'.(scan.cnts) = MAXCNT /\
    s'.(scan.si) = upd_cpu (fun c => set_cpustat_nrcpu (c.(cpustat.nrcpu) + Z.of_nat (length cpus))
      (set_cpustat_cpu (fill n cpus c.(cpustat.cpu)) c)) s.(scan.si).
Proof.
  induction cpus as [|zs cpus IH]; intros n s Hr Hten Hc Hl Hn Hk.
  - exists s. split; [done|]. split; [done|]. cbn [length fill]. unfold upd_cpu.
    change (Z.of_nat 0) with 0. rewrite Z.add_0_r. by destruct s as [? ? [[] ? ? ? ? ? ? ?]].
  - cbn [cpu_rows fmap list_fmap each_line length] in *.
    apply Forall_cons in Hr as [Hr Hrs]. apply Forall_cons in Hten as [Ht Hts].
    destruct (lookup_lt_is_Some_2 (cpustat.cpu (sstat.cpu (scan.si s))) n ltac:(lia)) as [p Hp].
    destruct (stat_line_cpu n zs s p Hr Ht Hc ltac:(lia) Hp) as (s1 & E1 & Hc1 & Es1).
    rewrite E1. cbn [mbind option_bind].
    assert (En : i64 (cpustat.nrcpu (sstat.cpu (scan.si s)) + 1) = Z.of_nat (S n)).
    { rewrite Hk. unfold MAXCPU in Hn. rewrite i64_id by (unfold in_i64; lia). lia. }
    destruct (IH (S n) s1) as (s2 & E2 & Hc2 & Es2); try done.
    + rewrite Es1. cbn. by rewrite length_insert.
    + lia.
    + rewrite Es1. exact En.
    + exists s2. split; [exact E2|]. split; [exact Hc2|]. rewrite Es2, Es1. unfold upd_cpu.
      cbn [set_sstat_cpu sstat.cpu set_cpustat_nrcpu set_cpustat_cpu cpustat.nrcpu cpustat.cpu fill].
      rewrite En, Hk, (list_lookup_total_correct _ _ _ Hp). unfold set_sstat_cpu, set_cpustat_nrcpu. cbn. do 2 f_equal. lia.
Qed.

(** The lines hold no zero byte. *)
Lemma counter_bytes zs c : c ∈ columns [" "%char] zs -> c <> newline /\ c <> zero.
Proof.
  unfold columns. intros Hc. apply list_elem_of_bind in Hc as (z & Hc & _).
  apply elem_of_app in Hc as [Hc|Hc]; [by apply list_elem_of_singleton in Hc as ->|].
  assert (Hd : forall n, 0 <= n -> c ∈ dec n -> c <> newline /\ c <> zero).
  { intros n Hn Hin. pose proof (dec_digits n Hn) as HF. rewrite Forall_forall in HF. specialize (HF _ Hin).
    split; intros ->; by cbn in HF. }
  unfold fmt_d in Hc. destruct (Z.ltb_spec z 0); [|by apply (Hd z)].
  apply elem_of_cons in Hc as [->|Hc]; [done|]. apply (Hd (- z)); [lia|done].
Qed.

Lemma row_plain x : row_ok x -> spaces x.1.2 -> newline ∉ x.1.2 -> zero ∉ x.1.2 ->
  newline ∉ stat_line_of x /\ zero ∉ stat_line_of x /\ (length (stat_line_of x) + 1 < LINEBUF)%nat.
Proof.
  intros (Hn & Hz & _ & _ & _ & Hl) Hs Hnl Hzl. destruct x as [[name lead] zs]. cbn [fst snd] in *.
  unfold stat_line_of, counter_line. cbn [fst snd]. rewrite !elem_of_app. split_and!; [| |exact Hl].
  - intros [H|[H|[H|H]]]; [|done| |by apply elem_of_nil in H].
    + destruct Hn as [_ Hn]. rewrite Forall_forall in Hn. by specialize (Hn _ H).
    + by destruct (counter_bytes _ _ H).
  - intros [H|[H|[H|H]]]; [done|done| |by apply elem_of_nil in H]. by destruct (counter_bytes _ _ H).
Qed.

(** A line that starts with a name and a counter. *)
Lemma stat_line_lead name z zs r s : solid name -> (length name < 64)%nat -> starts "cpu" name = false ->
  name <> chars "swap" -> small z -> numeric 0 r = true -> ends_token r -> length s.(scan.cnts) = MAXCNT ->
  exists s', stat_file_line (name ++ " "%char :: dec z ++ r) s = Some s' /\ ready s' /\
    s'.(scan.si) = upd_cpu (other_effect (name, z :: zs)) s.(scan.si).
Proof.
  intros Hn Hl Hcpu Hswap Hz Hr He Hc.
  assert (Hfmt : forallb plain_conv (replicate 14 (Dconv false (CInt true 64))) = true) by reflexivity.
  destruct (scanf_plain _ r Hfmt Hr) as (vs & E & _).
  assert (ES : sscanf (name ++ " "%char :: dec z ++ r) SCANSTATCPU = Some (VStr name :: VInt z :: vs)).
  { rewrite sscanf_stat. change (replicate 15 ?x) with (x :: replicate 14 x). cbn [scanf].
    pose proof (convert_printed false (CStr None) (VStr name) [] (" "%char :: dec z ++ r)) as E1.
    cbn [app print] in E1. rewrite E1; [| |by apply Forall_nil|done].
    2:{ cbn. destruct Hn as [Hne HF]. rewrite bool_decide_true by done. rewrite andb_true_r. cbn.
        apply forallb_forall. intros c Hin. apply negb_true_iff. apply list_elem_of_In in Hin.
        exact (proj1 (Forall_forall _ _) HF c Hin). }
    pose proof (convert_number false true 64 z [" "%char] r) as E2. unfold fmt_d in E2.
    destruct Hz as [Hz1 Hz2]. rewrite (proj2 (Z.ltb_ge z 0)) in E2 by lia. cbn [app] in E2. rewrite E2.
    - by rewrite E.
    - unfold int_fits. cbn [orb]. lia.
    - by repeat constructor.
    - by apply ends_stops. }
  set (s0 := set_cnt 0 z (set_nam name s)).
  pose proof (scan_into_defined SCANSTATCPU _ (name_and_counters 15) s _ ES) as EI.
  change (stores (name_and_counters 15) (VStr name :: VInt z :: vs) s)
    with (stores ((fun k => num (set_cnt k)) <$> seq 1 14) vs s0) in EI.
  destruct (stores_cnts vs 1 14 s0) as (En & Ec & Es). pose proof (stores_behind vs 1 14 s0 0 ltac:(lia)) as E0.
  cbv zeta in En, Ec, Es. revert EI En Ec Es E0. generalize (stores ((fun k => num (set_cnt k)) <$> seq 1 14) vs s0).
  intros s' EI En Ec Es E0. change (scan.nam s0) with name in En. change (scan.si s0) with (scan.si s) in Es.
  assert (Ec' : length s'.(scan.cnts) = MAXCNT) by (rewrite Ec; cbn; by rewrite length_insert).
  assert (Ez : cnt s' 0 = z).
  { rewrite E0. unfold cnt. cbn. rewrite list_lookup_total_insert_eq; [done|]. rewrite Hc. unfold MAXCNT. lia. }
  assert (Hr' : ready s') by (split; [by rewrite En | done]).
  unfold stat_file_line. rewrite (scan_line_eq _ _ _ _ _ EI) by (cbn [snd]; by rewrite En).
  mstep. cbn [length Nat.ltb Nat.leb].
  unfold is_name. rewrite En, Hcpu. unfold other_effect. cbn [fst snd].
  rewrite (bool_decide_false (name = chars "cpu")) by (intros ->; done).
  rewrite (bool_decide_false (name = chars "swap")) by done. rewrite Ez, <-Es.
  repeat case_bool_decide; eexists; (split; [reflexivity|]); (split; [exact Hr'|]); try done.
  by rewrite upd_cpu_id.
Qed.

Lemma numeric_lines_read ls : forall s, Forall (fun x => numeric 0 x = true) ls -> ready s ->
  exists s', each_line stat_file_line ls s = Some s' /\ ready s' /\ s'.(scan.si) = s.(scan.si).
Proof.
  induction ls as [|l ls IH]; intros s HF Hs; [by exists s|]. apply Forall_cons in HF as [Hl HF]. cbn [each_line].
  destruct (stat_line_numeric l s Hl Hs) as (s1 & -> & H1 & E1). mstep.
  destruct (IH s1 HF H1) as (s2 & -> & H2 & E2). exists s2. split; [done|]. split; [done|congruence].
Qed.

Lemma row_lines x : row_ok x -> spaces x.1.2 -> newline ∉ x.1.2 -> zero ∉ x.1.2 ->
  lines LINEBUF (row_line x) = [row_line x].
Proof.
  intros Hr H1 H2 H3. pose proof (lines_concat LINEBUF [stat_line_of x]) as E. cbn in E.
  rewrite app_nil_r in E. apply E; [unfold LINEBUF; lia|]. constructor; [by apply row_plain | by apply Forall_nil].
Qed.

Lemma other_read o s : row_ok (o.1, [], o.2) \/ long_row o -> starts "cpu" o.1 = false -> o.1 <> chars "swap" ->
  length s.(scan.cnts) = MAXCNT ->
  exists s', each_line stat_file_line (lines LINEBUF (row_line (o.1, [], o.2))) s = Some s' /\
    length s'.(scan.cnts) = MAXCNT /\ s'.(scan.si) = upd_cpu (other_effect o) s.(scan.si).
Proof.
  intros [Hr|Hr] Hcpu Hswap Hc.
  - rewrite row_lines by (done || by apply Forall_nil || apply not_elem_of_nil).
    destruct (stat_line_other o s Hr Hcpu Hswap Hc) as (s' & E & H). cbn [each_line]. rewrite E. mstep. by exists s'.
  - destruct o as [name [|z zs]]; [by destruct Hr as (_ & _ & _ & _ & ?)|]. cbn [fst snd] in *.
    destruct (long_lines name z zs Hr) as (r & ls & -> & Hnum & He & HF). destruct Hr as (Hn & _ & Hl & HS & _).
    apply Forall_cons in HS as [Hz _]. cbn [each_line].
    destruct (stat_line_lead name z zs r s Hn Hl Hcpu Hswap Hz Hnum He Hc) as (s1 & -> & H1 & E1). mstep.
    destruct (numeric_lines_read ls s1 HF H1) as (s2 & -> & [_ H2] & E2).
    exists s2. split; [done|]. split; [done|congruence].
Qed.

Lemma others_read others : forall s, Forall (fun o => row_ok (o.1, [], o.2) \/ long_row o) others ->
  Forall (fun o => starts "cpu" o.1 = false /\ o.1 <> chars "swap") others -> length s.(scan.cnts) = MAXCNT ->
  exists s', each_line stat_file_line (others ≫= fun o => lines LINEBUF (row_line (o.1, [], o.2))) s = Some s' /\
    length s'.(scan.cnts) = MAXCNT /\
    s'.(scan.si) = upd_cpu (fun c => foldl (fun c o => other_effect o c) c others) s.(scan.si).
Proof.
  induction others as [|o others IH]; intros s Hr Ho Hc; [exists s; by rewrite upd_cpu_id|].
  rewrite bind_cons, each_line_app. apply Forall_cons in Hr as [Hr Hrs]. apply Forall_cons in Ho as [[Ho1 Ho2] Hos].
  destruct (other_read o s Hr Ho1 Ho2 Hc) as (s1 & E1 & Hc1 & Es1). rewrite E1. cbn [mbind option_bind].
  destruct (IH s1 Hrs Hos Hc1) as (s2 & E2 & Hc2 & Es2). exists s2. split; [exact E2|]. split; [exact Hc2|].
  rewrite Es2, Es1. by destruct (scan.si s).
Qed.

(** The last value of a name. *)
Definition last_of (name : string) (others : list (text * list Z)) (old : Z) : Z :=
  foldl (fun v o => if bool_decide (o.1 = chars name) then o.2 !!! 0%nat else v) old others.

Lemma others_effect others : forall c,
  let c' := foldl (fun c o => other_effect o c) c others in
  c'.(cpustat.all) = c.(cpustat.all) /\ c'.(cpustat.cpu) = c.(cpustat.cpu) /\ c'.(cpustat.nrcpu) = c.(cpustat.nrcpu) /\
  c'.(cpustat.csw) = last_of "ctxt" others c.(cpustat.csw) /\
  c'.(cpustat.devint) = last_of "intr" others c.(cpustat.devint) /\
  c'.(cpustat.nprocs) = last_of "processes" others c.(cpustat.nprocs).
Proof.
  induction others as [|[name zs] others IH]; intros c; [done|]. unfold last_of. cbn zeta. cbn [foldl fst snd].
  destruct (IH (other_effect (name, zs) c)) as (-> & -> & -> & -> & -> & ->).
  unfold other_effect, last_of. cbn [fst snd].
  destruct (decide (name = chars "ctxt")) as [->|N1]; [done|]. rewrite !(bool_decide_false _ N1).
  destruct (decide (name = chars "intr")) as [->|N2]; [done|]. rewrite !(bool_decide_false _ N2).
  destruct (decide (name = chars "processes")) as [->|N3]; [done|]. rewrite !(bool_decide_false _ N3). done.
Qed.

Lemma stat_rows_spaces k x : x ∈ stat_rows k -> spaces x.1.2 /\ newline ∉ x.1.2 /\ zero ∉ x.1.2.
Proof.
  assert (Hnil : forall x : text * text * list Z, x.1.2 = [] -> spaces x.1.2 /\ newline ∉ x.1.2 /\ zero ∉ x.1.2).
  { intros y ->. split; [by apply Forall_nil|]. split; apply not_elem_of_nil. }
  unfold stat_rows. rewrite elem_of_cons, elem_of_app. intros [->|[H|H]].
  - cbn [fst snd]. split; [by repeat constructor|]. split; by intros ?%list_elem_of_singleton.
  - apply Hnil. revert H. generalize 0%nat. generalize (kstat.cpus k). intros l.
    induction l as [|zs l IH]; intros n; cbn [cpu_rows]; [by intros ?%elem_of_nil|].
    rewrite elem_of_cons. intros [->|H]; [done | by apply (IH (S n))].
  - apply list_elem_of_fmap in H as (o & -> & _). by apply Hnil.
Qed.

Lemma stat_lines k : kstat_ok k -> lines LINEBUF (stat_text k) =
  (row_line <$> ((chars "cpu", [" "%char], k.(kstat.all)) :: cpu_rows 0 k.(kstat.cpus))) ++
  (k.(kstat.others) ≫= fun o => lines LINEBUF (row_line (o.1, [], o.2))).
Proof.
  intros [Hr _ _ Ho _]. pose proof (stat_rows_spaces k) as Hsp. unfold stat_text.
  assert (Hplain : forall x, x ∈ stat_rows k -> newline ∉ stat_line_of x).
  { intros x Hx. destruct (Hsp x Hx) as (H1 & H2 & H3).
    assert (Hs : solid x.1.1).
    { unfold stat_rows in Hx. rewrite app_comm_cons, elem_of_app in Hx. destruct Hx as [Hx|Hx].
      - by apply (proj1 (Forall_forall _ _) Hr).
      - apply list_elem_of_fmap in Hx as (o & -> & Hin).
        destruct (proj1 (Forall_forall _ _) Ho o Hin) as [[? _]|[? _]]; done. }
    unfold stat_line_of, counter_line. rewrite !elem_of_app. intros [H|[H|[H|H]]]; [|done| |by apply elem_of_nil in H].
    - destruct Hs as [_ Hs]. rewrite Forall_forall in Hs. by specialize (Hs _ H).
    - by destruct (counter_bytes _ _ H). }
  rewrite lines_bind; [|unfold LINEBUF; lia | by apply Forall_fmap, Forall_forall].
  unfold stat_rows at 1. rewrite app_comm_cons, fmap_app, bind_app. f_equal.
  - assert (Hin : forall x, x ∈ (chars "cpu", [" "%char], k.(kstat.all)) :: cpu_rows 0 k.(kstat.cpus) -> x ∈ stat_rows k).
    { intros x Hx. unfold stat_rows. rewrite app_comm_cons, elem_of_app. by left. }
    revert Hin Hr. generalize ((chars "cpu", [" "%char], k.(kstat.all)) :: cpu_rows 0 k.(kstat.cpus)). intros l Hin Hr.
    induction Hr as [|x l Hx Hr IH]; [done|]. rewrite !fmap_cons, bind_cons.
    destruct (Hsp x) as (H1 & H2 & H3); [apply Hin; by left|].
    change (stat_line_of x ++ [newline]) with (row_line x). rewrite row_lines by done. cbn [app]. f_equal.
    apply IH. intros y Hy. apply Hin. by right.
  - rewrite <-list_fmap_compose. generalize (kstat.others k). intros l. induction l as [|o l IH]; [done|].
    rewrite fmap_cons, !bind_cons. by rewrite IH.
Qed.

(** C10: From a /proc/stat with ten counters per processor photosyst takes, for
    the total and for each processor at its own place, the first nine of them in
    the order of the file (the tenth has no member), the number of processors,
    and the first counter of the last lines of ctxt, intr and processes, also
    where a line of any length, like that of the interrupts, is read in parts by
    a buffer of 1024 characters; the rest of the sample, and the processors that
    the file does not name, stay as they were. The counters fit 64 bits; those
    of a long line are below 10^18. *)
Theorem stat_file_reads k s : kstat_ok k ->
  length s.(scan.cnts) = MAXCNT -> s.(scan.si).(sstat.cpu).(cpustat.nrcpu) = 0 ->
  length s.(scan.si).(sstat.cpu).(cpustat.cpu) = MAXCPU ->
  exists s', stat_file (Some (stat_text k)) s = Some s' /\
    let c := s.(scan.si).(sstat.cpu) in
    let c' := s'.(scan.si).(sstat.cpu) in
    s'.(scan.si) = set_sstat_cpu c' s.(scan.si) /\
    c'.(cpustat.nrcpu) = Z.of_nat (length k.(kstat.cpus)) /\
    c'.(cpustat.all) = figures k.(kstat.all) c.(cpustat.all) /\
    (forall i zs, k.(kstat.cpus) !! i = Some zs ->
       c'.(cpustat.cpu) !! i = Some (figures zs (set_cpunr (Z.of_nat i) (c.(cpustat.cpu) !!! i)))) /\
    (forall i, (length k.(kstat.cpus) <= i)%nat -> c'.(cpustat.cpu) !! i = c.(cpustat.cpu) !! i) /\
    c'.(cpustat.csw) = last_of "ctxt" k.(kstat.others) c.(cpustat.csw) /\
    c'.(cpustat.devint) = last_of "intr" k.(kstat.others) c.(cpustat.devint) /\
    c'.(cpustat.nprocs) = last_of "processes" k.(kstat.others) c.(cpustat.nprocs).
Proof.
  intros Hk0 Hc Hnr Hlen. pose proof (stat_lines k Hk0) as Elines. destruct Hk0 as [Hrows Hten Hcount Hoth Hothers].
  apply Forall_cons in Hrows as [Hall Hcpus]. apply Forall_cons in Hten as [Ht10 Hten].
  unfold stat_file, read_file. rewrite Elines, fmap_cons, <-app_comm_cons.
  cbn [each_line]. destruct (stat_line_all _ s Hall Ht10 Hc) as (s1 & -> & Hc1 & E1). cbn [mbind option_bind].
  rewrite each_line_app.
  destruct (cpu_rows_read (kstat.cpus k) 0 s1) as (s2 & -> & Hc2 & E2); [done..| | | |].
  { by rewrite E1. } { lia. } { by rewrite E1. }
  cbn [mbind option_bind].
  destruct (others_read (kstat.others k) s2 Hoth Hothers Hc2) as (s3 & -> & _ & E3). cbn [mbind option_bind].
  rewrite E3, E2, E1. unfold upd_cpu. cbn [set_sstat_cpu sstat.cpu].
  match goal with |- context [foldl (fun c o => other_effect o c) ?c0 ?l] =>
    destruct (others_effect l c0) as (Ha & Hcpu & Hk & Hcsw & Hdev & Hnp) end.
  rewrite Hk. cbn [set_cpustat_nrcpu set_cpustat_cpu set_cpustat_all cpustat.nrcpu]. rewrite Hnr.
  rewrite (proj2 (Z.eqb_neq _ 0)) by lia. eexists. split; [reflexivity|]. rewrite E3, E2, E1.
  unfold upd_cpu. cbn [set_sstat_cpu sstat.cpu]. cbn zeta. rewrite Hk, Ha, Hcpu, Hcsw, Hdev, Hnp.
  cbn [set_cpustat_nrcpu set_cpustat_cpu set_cpustat_all cpustat.nrcpu cpustat.all cpustat.cpu cpustat.csw cpustat.devint
       cpustat.nprocs].
  split; [by destruct (scan.si s)|]. split; [by rewrite Hnr|]. split; [done|].
  split; [|split; [|done]].
  - intros i zs Hi. rewrite fill_lookup by lia. cbn [Nat.leb]. by rewrite Nat.sub_0_r, Hi.
  - intros i Hi. rewrite fill_lookup by lia. cbn [Nat.leb]. by rewrite Nat.sub_0_r, lookup_ge_None_2.
Qed.

(** ** An example of /proc/stat *)

Definition a_stat : kstat.kstat :=
  kstat.mk [30; 1; 20; 900; 5; 0; 3; 0; 0; 0]
    [[10; 1; 5; 450; 5; 0; 3; 0; 0; 0]; [20; 0; 15; 450; 0; 0; 0; 0; 0; 0]]
    [(chars "intr", [4711; 0; 9]); (chars "ctxt", [8000]); (chars "btime", [1700000000]);
     (chars "processes", [321]); (chars "procs_running", [1])].

Definition row_okb (x : text * text * list Z) : bool :=
  bool_decide (x.1.1 <> []) && forallb (fun c => negb (isspace c)) x.1.1 && bool_decide (zero ∉ x.1.1) &&
  (length x.1.1 <? 64)%nat && forallb (fun z => (- 2 ^ 63 <=? z) && (z <? 2 ^ 63)) x.2 &&
  (1 <=? length x.2)%nat && (length x.2 <=? 15)%nat && (length (stat_line_of x) + 1 <? LINEBUF)%nat.

Lemma row_okb_ok x : row_okb x = true -> row_ok x.
Proof.
  unfold row_okb, row_ok, solid. rewrite !andb_true_iff, !bool_decide_eq_true, !forallb_forall.
  intros (((((((Hne & Hn) & Hz) & Hl) & HF) & H1) & H15) & Hb).
  split_and!; try done; try (apply Nat.ltb_lt; done); try (apply Nat.leb_le; done).
  - apply Forall_forall. intros c Hc. apply negb_true_iff, Hn. by apply list_elem_of_In.
  - apply Forall_forall. intros z Hin. specialize (HF z (proj1 (list_elem_of_In _ _) Hin)).
    unfold in_i64. lia.
Qed.

Lemma a_stat_ok : kstat_ok a_stat.
Proof.
  assert (Hb : forall l, forallb row_okb l = true -> Forall row_ok l).
  { intros l H. rewrite forallb_forall in H. apply Forall_forall. intros x Hx. by apply row_okb_ok, H, list_elem_of_In. }
  split.
  - apply Hb. vm_compute. reflexivity.
  - repeat constructor.
  - unfold MAXCPU. cbn. lia.
  - assert (H : Forall row_ok ((fun o => (o.1, [], o.2)) <$> (kstat.others a_stat))) by (apply Hb; vm_compute; reflexivity).
    rewrite Forall_fmap in H. eapply Forall_impl; [exact H|]. intros o Ho. by left.
  - repeat constructor; vm_compute; congruence.
Qed.

(** Also with a line of interrupts that is longer than the buffer. *)
Definition a_long_stat : kstat.kstat :=
  kstat.mk a_stat.(kstat.all) a_stat.(kstat.cpus)
    ((chars "intr", 4711 :: replicate 1500 0) :: drop 1 a_stat.(kstat.others)).

Lemma a_long_stat_ok : kstat_ok a_long_stat.
Proof.
  destruct a_stat_ok as [H1 H2 H3 H4 H5]. split; [exact H1|exact H2|exact H3| |].
  - apply Forall_cons in H4 as [_ H4]. apply Forall_cons. split; [right|exact H4].
    split_and!; [split; [done|by repeat constructor]| |cbn; lia| |done].
    + intros H. repeat (apply elem_of_cons in H as [H|H]; [discriminate H|]). by apply elem_of_nil in H.
    + constructor; [split; lia|]. apply Forall_replicate. split; lia.
  - apply Forall_cons in H5 as [_ H5]. apply Forall_cons. split; [by split|exact H5].
Qed.

Lemma stat_file_reads_witness :
  exists s', stat_file (Some (stat_text a_long_stat))
    (scan.mk (replicate MAXCNT 7) [] (set_sstat_cpu (set_cpustat_cpu (replicate MAXCPU percpu_zero) (sstat.cpu sstat_zero)) sstat_zero)) = Some s' /\
    s'.(scan.si).(sstat.cpu).(cpustat.nrcpu) = 2 /\ s'.(scan.si).(sstat.cpu).(cpustat.csw) = 8000 /\
    s'.(scan.si).(sstat.cpu).(cpustat.devint) = 4711.
Proof.
  destruct (stat_file_reads a_long_stat
    (scan.mk (replicate MAXCNT 7) [] (set_sstat_cpu (set_cpustat_cpu (replicate MAXCPU percpu_zero) (sstat.cpu sstat_zero)) sstat_zero))
    a_long_stat_ok eq_refl eq_refl (length_replicate _ _)) as (s' & E & _ & Hn & _ & _ & _ & Hc & Hd & _).
  exists s'. split; [exact E|]. split; [exact Hn|]. split; [exact Hc | exact Hd].
Defined.
