(* ===== verification/PhotosystMain.v ===== *)
(** * photosyst: names of volumes, kinds of disks, and whole samples

    The hash table of logical volumes against the directory it was made from;
    which disks are counted; concrete samples, and what happens with more
    containers than there is room for. *)
From Stdlib Require Import Ascii.
From S2P Require Import Prelude Format Sscanf SscanfFacts Sstat SstatStores Photosyst Photodisk Photonfs PhotosystShape PhotosystDefined PhotosystFacts.

(** ** The names of logical volumes *)

(** The device numbers of an entry, when it is a block device. *)
Definition block_device (dir : mapdir.mapdir) (d_name : text) : option (Z * Z) :=
  b ← dir.(mapdir.stat) (map_path d_name);
  if statbuf.st_isblk b then Some (statbuf.st_major b, statbuf.st_minor b) else None.

(** The last block device of the directory with these numbers. *)
Definition volume (dir : mapdir.mapdir) (major minor : Z) : option text :=
  take (MAXDKNAM - 1) <$>
    last (filter (fun d_name => block_device dir d_name = Some (major, minor)) dir.(mapdir.entries)).

Lemma DMHASH_bound x y : (Z.to_nat (DMHASH x y) < Z.to_nat NUMDMHASH)%nat.
Proof. unfold DMHASH, NUMDMHASH. pose proof (Z.mod_pos_bound (u32 (x + y)) 64). lia. Qed.

Lemma add_devmap_length stat m d_name : length (add_devmap stat m d_name) = length m.
Proof. unfold add_devmap. destruct (stat _) as [b|]; [|done]. destruct (negb _); [done | apply length_insert]. Qed.

Definition lookup_volume (m : devmaps) (major minor : Z) : option text :=
  devmap.name <$> chain_find major minor (m !!! Z.to_nat (DMHASH major minor)).

Lemma lookup_add dir m d_name major minor : length m = Z.to_nat NUMDMHASH ->
  lookup_volume (add_devmap dir.(mapdir.stat) m d_name) major minor =
    if decide (block_device dir d_name = Some (major, minor))
    then Some (take (MAXDKNAM - 1) d_name) else lookup_volume m major minor.
Proof.
  intros Hl. unfold lookup_volume, add_devmap, block_device, devmaps in *.
  destruct (mapdir.stat dir _) as [[[] mj mn]|]; cbn; [|by rewrite decide_False by done..].
  case_decide as E.
  - injection E as -> ->. rewrite list_lookup_total_insert_eq by (rewrite Hl; apply DMHASH_bound).
    cbn. by rewrite !Z.eqb_refl.
  - destruct (decide (DMHASH mj mn = DMHASH major minor)) as [->|Hne].
    + rewrite list_lookup_total_insert_eq by (rewrite Hl; apply DMHASH_bound). cbn.
      destruct (Z.eqb_spec mj major) as [->|]; cbn; [|done]. destruct (Z.eqb_spec mn minor) as [->|]; [done|done].
    + rewrite list_lookup_total_insert_ne; [done|]. intros EZ. apply Hne.
      unfold DMHASH, NUMDMHASH in *. pose proof (Z.mod_pos_bound (u32 (mj + mn)) 64).
      pose proof (Z.mod_pos_bound (u32 (major + minor)) 64). lia.
Qed.

Lemma foldl_add_length stat names : forall m, length (foldl (add_devmap stat) m names) = length m.
Proof. induction names as [|x names IH]; intros m; [done|]. cbn. by rewrite IH, add_devmap_length. Qed.

Lemma read_mapdir_volume dir major minor : lookup_volume (read_mapdir dir) major minor = volume dir major minor.
Proof.
  unfold read_mapdir, volume. induction dir.(mapdir.entries) as [|x names IH] using rev_ind.
  - cbn [foldl]. unfold lookup_volume, devmaps. by rewrite lookup_total_replicate_2 by apply DMHASH_bound.
  - rewrite foldl_snoc, lookup_add, filter_app, IH by (by rewrite foldl_add_length, length_replicate). cbn.
    case_decide; [by rewrite last_snoc | by rewrite app_nil_r].
Qed.

(** An entry with 52 or more characters is sought under a path that is cut, and
    is no volume unless such a path exists. *)
Lemma long_name_cut dir name rest : length name = 51%nat ->
  dir.(mapdir.stat) (MAPDIR ++ chars "/" ++ name) = None -> block_device dir (name ++ rest) = None.
Proof.
  intros Hl Hs. unfold block_device, map_path. rewrite !app_assoc, take_app_le, take_ge, <-app_assoc.
  - by rewrite Hs.
  - rewrite !length_app, Hl. done.
  - rewrite !length_app, Hl. cbn. lia.
Qed.

(** C32: The hash chains of lvmmapname are equivalent to a search of the directory
    of volumes: the name is that of the last entry that stat, asked for its
    path in 63 characters, tells to be a block device with the same numbers,
    cut to 31 characters, or the name from the kernel when there is none; later
    calls answer from the directory of the first call. *)
Theorem lvmmapname_volume dir dir' major minor curname px maxlen :
  let named := set_perdsk_name (str_of (take (maxlen - 1) (default curname (volume dir major minor)))) px in
  lvmmapname dir None major minor curname px maxlen = (Some (read_mapdir dir), named) /\
  lvmmapname dir' (Some (read_mapdir dir)) major minor curname px maxlen = (Some (read_mapdir dir), named).
Proof.
  cbn zeta. unfold lvmmapname. rewrite <-read_mapdir_volume. unfold lookup_volume, devmaps.
  by destruct (chain_find _ _ _).
Qed.

(** ** Disks *)

Definition letter (c : ascii) : bool := atom_matches (Arange "a" "z") c.
Definition digit (c : ascii) : bool := atom_matches (Arange "0" "9") c.

Lemma match_star a l : match_here true [(a, true)] l = forallb (atom_matches a) l.
Proof.
  induction l as [|c l IH]; [done|]. change (match_here true [(a, true)] (c :: l)) with
    (false || (atom_matches a c && match_here true [(a, true)] l)). by rewrite IH.
Qed.

(** An expression that begins with a character the text does not hold. *)
Lemma match_anywhere_absent fin c items l : c ∉ l -> match_anywhere fin ((Alit c, false) :: items) l = false.
Proof.
  induction l as [|x l IH]; [done|]. intros H. apply not_elem_of_cons in H as [Hc H]. cbn [match_anywhere match_here atom_matches].
  rewrite IH by done. by rewrite (proj2 (Ascii.eqb_neq c x)) by done.
Qed.

Lemma recognize_no e m t table l r : regcomp e = Some r -> regexec r l = false ->
  recognize ((e, m, t) :: table) l = recognize table l.
Proof. intros E F. cbn [recognize]. rewrite E. cbn [mbind option_bind]. by rewrite F. Qed.

Lemma recognize_yes e m t table l r : regcomp e = Some r -> regexec r l = true ->
  recognize ((e, m, t) :: table) l = Some (m, t).
Proof. intros E F. cbn [recognize]. rewrite E. cbn [mbind option_bind]. by rewrite F. Qed.

(** An entry whose expression differs in its first characters. *)
Ltac entry_no := erewrite recognize_no by reflexivity.

Lemma recognize_sd ls : recognize validdisk (chars "sd" ++ ls) =
  if match ls with [] => false | _ => forallb letter ls end then Some (MNull, DSKTYPE)
  else recognize (drop 3 validdisk) (chars "sd" ++ ls).
Proof.
  unfold validdisk. do 2 entry_no. cbn [recognize drop].
  assert (E : exists r, regcomp "^sd[a-z][a-z]*$" = Some r /\ forall l,
    regexec r (chars "sd" ++ l) = match l with [] => false | _ => forallb letter l end).
  { eexists. split; [reflexivity|]. intros [|c l]; [done|].
    change (atom_matches (Arange "a" "z") c && match_here true [(Arange "a" "z", true)] l = forallb letter (c :: l)).
    by rewrite match_star. }
  destruct E as (r & E & F). rewrite E. cbn [mbind option_bind]. by rewrite F.
Qed.

Lemma recognize_sd_none ls : "/"%char ∉ ls -> recognize (drop 3 validdisk) (chars "sd" ++ ls) = Some (MNone, NONTYPE).
Proof.
  intros H. unfold validdisk. cbn [drop]. do 9 entry_no.
  erewrite recognize_no; [|reflexivity|].
  2:{ apply (match_anywhere_absent _ "/"%char). intros Hin. apply elem_of_app in Hin as [Hin|Hin]; [|done].
      repeat (apply elem_of_cons in Hin as [Hin|Hin]; [discriminate Hin|]). by apply elem_of_nil in Hin. }
  by do 4 entry_no.
Qed.

(** A SCSI disk is counted under its own name; its partitions are not. *)
Theorem scsi_disks e st major minor ls c rest px maxlen :
  ls <> [] -> forallb letter ls = true -> letter c = false -> "/"%char ∉ ls ++ c :: rest ->
  isdisk e st major minor (chars "sd" ++ ls) px maxlen =
    Some (DSKTYPE, st, set_perdsk_name (str_of (take (maxlen - 1) (chars "sd" ++ ls))) px) /\
  isdisk e st major minor (chars "sd" ++ ls ++ c :: rest) px maxlen = Some (NONTYPE, st, px).
Proof.
  intros Hne Hl Hc Hs. unfold isdisk. rewrite !recognize_sd. split.
  - destruct ls as [|x ls]; [done|]. rewrite Hl. done.
  - destruct (ls ++ c :: rest) as [|x l] eqn:E; [by destruct ls|].
    assert (forallb letter (x :: l) = false) as ->.
    { rewrite <-E, forallb_app. cbn [forallb]. rewrite Hc. by rewrite andb_false_r. }
    by rewrite recognize_sd_none.
Qed.

Lemma scsi_disks_witness e px :
  isdisk e None 8 0 (chars "sda") px MAXDKNAM = Some (DSKTYPE, None, set_perdsk_name "sda" px) /\
  isdisk e None 8 1 (chars "sda1") px MAXDKNAM = Some (NONTYPE, None, px).
Proof.
  destruct (scsi_disks e None 8 0 (chars "a") "1"%char [] px MAXDKNAM) as [H1 _]; [done|done|done| |].
  { vm_compute. intros H. repeat (apply elem_of_cons in H as [H|H]; [discriminate H|]). by apply elem_of_nil in H. }
  destruct (scsi_disks e None 8 1 (chars "a") "1"%char [] px MAXDKNAM) as [_ H2]; [done|done|done| |].
  { vm_compute. intros H. repeat (apply elem_of_cons in H as [H|H]; [discriminate H|]). by apply elem_of_nil in H. }
  split; [exact H1 | exact H2].
Defined.

(** ** Containers *)

(** A file of [n] containers, with ids from 101 on. *)
Definition beans (n : nat) : text :=
  seq 101 n ≫= fun i => fmt_d (Z.of_nat i) ++ chars ":  numproc  3 4 5 6 0" ++ [newline].

(** With one container more than there is room for, the count is one too many,
    and looking for a container that is not there reads behind the array. *)
Lemma containers_overrun :
  (exists v, containers_file (Some (beans (S MAXCONTAINER))) None contstat_zero = Some v /\
    v.(contstat.nrcontainer) = Z.of_nat MAXCONTAINER + 1 /\ length v.(contstat.cont) = MAXCONTAINER) /\
  containers_file (Some (beans (S MAXCONTAINER)))
    (Some (chars "9 1 2 3 4 5 6 7 8 " ++ [newline])) contstat_zero = None.
Proof. split; [eexists; split; [vm_compute; reflexivity | by split] | vm_compute; reflexivity]. Qed.

(** The nine counters of a line of vestat do not fit into [cnt]. *)
Lemma vestat_overrun :
  containers_file (Some (beans 1)) (Some (chars "101 1 2 3 4 5 6 7 8 9" ++ [newline])) contstat_zero = None.
Proof. vm_compute. reflexivity. Qed.

(** ** A sample *)

Definition a_procfiles : procfiles.procfiles :=
  procfiles.mk (Some (stat_text a_stat)) (Some (chars "0.20 0.18 0.12 1/80 11206"))
    (fun _ => cpufreq.mk None None None) None None
    (Some (chars "MemTotal:        4020 kB" ++ [newline])) None
    (Some (chars "    lo:     100      10    0    0    0     0          0         0      100      10    0    0    0     0       0          0" ++ [newline]))
    None None None
    (Some (chars "   8       0 sda 100 20 3000 40 50 60 700 80 0 90 100" ++ [newline] ++
           chars "   8       1 sda1 90 20 2900 40 50 60 700 80 0 90 100" ++ [newline]))
    None None None None None.

Definition a_systenv : systenv.systenv :=
  systenv.mk 4096 true true (Some (10, 2)) 0 22
    (diskenv.mk (mapdir.mk [] (fun _ => None)) (hostdisk.mk [] 0 0 0 0))
    (perfenv.mk (fun _ => -1) (fun _ => -1) (fun _ => None) 0 22)
    (replicate MAXCNT 0)
    (diskvars.mk 0 0 [] perdsk_zero)
    (mountvars.mk [] [] (labelled.mk [] [])).

Lemma no_freq_ok : freq_ok (cpufreq.mk None None None).
Proof. by split. Qed.

Lemma a_files_ok : files_ok a_systenv a_procfiles.
Proof.
  split; cbn [a_procfiles procfiles.cpuinfo procfiles.vmstat procfiles.meminfo procfiles.vmmemctl procfiles.net_dev
    procfiles.net_snmp procfiles.net_snmp6 procfiles.partitions procfiles.diskstats procfiles.nfsd procfiles.nfs
    procfiles.mountstats procfiles.user_beancounters procfiles.vestat procfiles.cpufreqs].
  1: apply length_replicate.
  2: { intros _. exact no_freq_ok. }
  2,3,5,7,8,9: intros l Hl; by apply elem_of_nil in Hl.
  - split.
    + apply (each_check _ _ _ (namedb_ok SCANSTATCPU)). vm_compute. reflexivity.
    + apply (each_check _ (fun l => match cpu_of l with Some i => 0 <=? i | None => true end)).
      * intros l Hb i Hi. rewrite Hi in Hb. by apply Z.leb_le.
      * vm_compute. reflexivity.
    + apply Nat.leb_le. vm_compute. reflexivity.
  - apply (each_check _ _ _ (namedb_ok MEMINFOFMT)). vm_compute. reflexivity.
  - apply (each_check _ _ _ (fun l => scansb_ok INTFFMT (colon_to_space l))). vm_compute. reflexivity.
  - apply (each_check _ _ _ (disk_lineb_ok _ DISKFMT)). vm_compute. reflexivity.
  - split; intros l Hl; by apply elem_of_nil in Hl.
  - split; [intros l Hl; by apply elem_of_nil in Hl | apply Nat.leb_le; reflexivity | intros l Hl; by apply elem_of_nil in Hl].
Qed.

Lemma photosyst_sample_ok_witness :
  exists st si, photosyst a_systenv a_procfiles syststate_start = Some (Ret (st, si)) /\ sample_ok si /\
    si.(sstat.dsk).(dskstat.ndsk) = 1.
Proof.
  assert (E : exists r, photosyst a_systenv a_procfiles syststate_start = Some (Ret r) /\
    r.2.(sstat.dsk).(dskstat.ndsk) = 1).
  { eexists. split; [vm_compute; reflexivity | reflexivity]. }
  destruct E as ([st si] & E & Hd). exists st, si.
  destruct (photosyst_sample_ok a_systenv a_procfiles syststate_start a_files_ok) as (r & E' & HS).
  { apply Nat.leb_le. reflexivity. }
  rewrite E in E'. injection E' as <-. split; [exact E|]. split; [apply HS | exact Hd].
Defined.
