(* ===== verification/Printf.v ===== *)
(** * printf

    The conversions of [printf] and [sprintf]: flags [-] and [0], a width (also
    as an argument), a precision, length modifiers, and the conversions d, i, u,
    s, c, f and %. *)
From Stdlib Require Import Ascii.
From S2P Require Import Prelude Format.

(** An argument: integers of any type, strings, characters, and doubles. *)
Inductive arg :=
  | AInt (z : Z)
  | AStr (s : text)
  | AChr (c : ascii)
  | AFlt (x : Z * Z).

Inductive pwidth := WNone | WFixed (n : nat) | WArg.

(** A part of a format: a character, or a conversion. *)
Inductive part :=
  | Plit (c : ascii)
  | Pconv (minus zero : bool) (width : pwidth) (prec : option nat) (conv : ascii).

Definition flag_char (c : ascii) (l : text) : bool * text :=
  match l with x :: l' => if Ascii.eqb x c then (true, l') else (false, l) | [] => (false, []) end.

Fixpoint skip_modifiers (l : text) : text :=
  match l with
  | c :: l' => if Ascii.eqb c "l" || Ascii.eqb c "h" then skip_modifiers l' else l
  | [] => []
  end.

(** What follows the percent sign. *)
Definition parse_conv (l : text) : option (part * text) :=
  let '(minus, l) := flag_char "-" l in
  let '(zero, l) := flag_char "0" l in
  let '(width, l) := match flag_char "*" l with
                     | (true, l) => (WArg, l)
                     | (false, l) => match scan_nat l with
                                     | Some (n, l) => (WFixed (Z.to_nat n), l)
                                     | None => (WNone, l)
                                     end
                     end in
  let '(prec, l) := match flag_char "." l with
                    | (true, l) => match scan_nat l with
                                   | Some (n, l) => (Some (Z.to_nat n), l)
                                   | None => (Some O, l)
                                   end
                    | (false, l) => (None, l)
                    end in
  match skip_modifiers l with
  | conv :: l => Some (Pconv minus zero width prec conv, l)
  | [] => None
  end.

Fixpoint parse_parts (fuel : nat) (l : text) : option (list part) :=
  match l, fuel with
  | [], _ => Some []
  | _, O => None
  | c :: l, S fuel =>
      if Ascii.eqb c "%" then
        '(p, l) ← parse_conv l; ps ← parse_parts fuel l; Some (p :: ps)
      else ps ← parse_parts fuel l; Some (Plit c :: ps)
  end.

Definition parse_printf (fmt : string) : option (list part) :=
  let l := chars fmt in parse_parts (length l) l.

(** One value; [None] is a conversion that does not fit its argument. *)
(** A double that is not finite has the denominator 0: infinities, and the
    number that is none as the quotient of zeros gives it. *)
Definition fmt_double (k : nat) (x : Z * Z) : text :=
  if x.2 =? 0 then
    String.list_ascii_of_string (if x.1 =? 0 then "-nan" else if x.1 <? 0 then "-inf" else "inf")
  else fmt_f k x.

Definition convert_arg (minus zero : bool) (width : nat) (prec : option nat) (conv : ascii) (a : arg) : option text :=
  let padded (t : text) := pad (if minus then - Z.of_nat width else Z.of_nat width) t in
  match a with
  | AInt z =>
      if Ascii.eqb conv "d" || Ascii.eqb conv "i" then
        Some (padded (if zero && negb minus then fmt_0d width z else fmt_d z))
      else if Ascii.eqb conv "u" then
        if z <? 0 then None else Some (padded (if zero && negb minus then fmt_0d width z else dec z))
      else None
  | AStr s => if Ascii.eqb conv "s" then Some (padded (match prec with Some n => take n s | None => s end)) else None
  | AChr c => if Ascii.eqb conv "c" then Some (padded [c]) else None
  | AFlt x => if Ascii.eqb conv "f" then Some (padded (fmt_double (default 6%nat prec) x)) else None
  end.

Fixpoint print_parts (ps : list part) (args : list arg) : option text :=
  match ps with
  | [] => match args with [] => Some [] | _ => None end
  | Plit c :: ps => t ← print_parts ps args; Some (c :: t)
  | Pconv minus zero width prec conv :: ps =>
      if Ascii.eqb conv "%" then t ← print_parts ps args; Some ("%"%char :: t)
      else
        '(w, args) ← match width, args with
                     | WNone, _ => Some (O, args)
                     | WFixed n, _ => Some (n, args)
                     | WArg, AInt n :: args => if n <? 0 then None else Some (Z.to_nat n, args)
                     | WArg, _ => None
                     end;
        match args with
        | a :: args => t ← convert_arg minus zero w prec conv a; rest ← print_parts ps args; Some (t ++ rest)
        | [] => None
        end
  end.

(** A format that is no valid format, or has other arguments, is [None]. *)
Definition printf (fmt : string) (args : list arg) : option text :=
  ps ← parse_printf fmt; print_parts ps args.

Example printf_words : printf "%s %d%% [%5.1f|%-4s|%03d]" [AStr (chars "cpu"); AInt 12; AFlt (13, 4); AStr (chars "ab"); AInt 7]
  = Some (chars "cpu 12% [  3.2|ab  |007]").
Proof. reflexivity. Qed.
