(* ===== verification/Parseable.v ===== *)
(** * Parseable output: parseable.c

    [parsedef] selects labels, [parseout] prints the lines of the selected
    labels. What is printed is the result; a print function also returns the
    sample, which [print_CPU] changes. [None] is a read outside an array. *)
From Stdlib Require Import Ascii.
From S2P Require Import Prelude Format Printf Sscanf Tstat Sstat SstatStores Netatopif Photoproc Deviattask Various.

#[local] Open Scope c_scope.

(** The end of a line in a format. *)
Definition nl : string := String "010" EmptyString.

(** The global variables that are printed, and the conversion of the C library. *)
Module parsenv.
Record parsenv := mk {
  nodename : text;
  hertz : Z;
  pagesize : Z;
  supportflags : Z;
  localtime : Z -> tm.tm
}.
End parsenv.

Definition chr (z : Z) : ascii := ascii_of_nat (Z.to_nat (z mod 256)).
Definition yesno (b : bool) : ascii := if b then "y"%char else "n"%char.
Definition flagged (flags bit : Z) : bool := negb (Z.land flags bit =? 0).

(** A print function: the header, the sample, the tasks and their number. *)
Definition prifunc : Type := text -> sstat.sstat -> list tstat.tstat -> Z -> option (text * sstat.sstat).

(** [for (i=0; table[i].name[0]; i++)] *)
Fixpoint each_named {A} (name : A -> string) (row : A -> option text) (table : list A) : option text :=
  match table with
  | [] => None
  | x :: table =>
      if str_nonempty (name x) then t ← row x; rest ← each_named name row table; Some (t ++ rest)
      else Some []
  end.

(** [for (i=0; i < n; i++)], from [i] on *)
Fixpoint each_upto {A} (n : nat) (i : nat) (row : nat -> A -> option text) (table : list A) : option text :=
  match n with
  | O => Some []
  | S n =>
      match table with
      | [] => None
      | x :: table => t ← row i x; rest ← each_upto n (S i) row table; Some (t ++ rest)
      end
  end.

Definition calc_freqscale (maxfreq cnt ticks : Z) : Z * Z :=
  if negb (maxfreq =? 0) && negb (ticks =? 0) then
    let freq := i64 (Z.quot cnt ticks) in (freq, i32 (Z.quot (i64 (100 * freq)) maxfreq))
  else if negb (maxfreq =? 0) then (cnt, i32 (Z.quot (i64 (100 * cnt)) maxfreq))
  else if negb (cnt =? 0) then (cnt, 100)
  else (0, 100).

(** The sums over the first [n] processors. *)
Fixpoint freq_sums (n : nat) (cpus : list percpu.percpu) (cnt ticks : Z) : option (Z * Z) :=
  match n with
  | O => Some (cnt, ticks)
  | S n =>
      match cpus with
      | [] => None
      | p :: cpus =>
          let f := p.(percpu.freqcnt) in
          freq_sums n cpus (cnt +64 f.(freqcnt.cnt)) (ticks +64 f.(freqcnt.ticks))
      end
  end.

Definition maxfreq_of (cpus : list percpu.percpu) : option Z :=
  p ← head cpus; Some p.(percpu.freqcnt).(freqcnt.maxfreq).

Section print.
Context (e : parsenv.parsenv).

Definition CPU_FMT : string := ("%s %u %lld %lld %lld %lld %lld %lld %lld %lld %lld %lld %lld %d %lld %lld" ++ nl)%string.
Definition CPU_args (hp : text) (c : cpustat.cpustat) (freq freqperc : Z) : list arg :=
  let all := c.(cpustat.all) in
  [AStr hp; AInt e.(parsenv.hertz); AInt c.(cpustat.nrcpu); AInt all.(percpu.stime); AInt all.(percpu.utime);
   AInt all.(percpu.ntime); AInt all.(percpu.itime); AInt all.(percpu.wtime); AInt all.(percpu.Itime);
   AInt all.(percpu.Stime); AInt all.(percpu.steal); AInt all.(percpu.guest); AInt freq; AInt freqperc;
   AInt all.(percpu.instr); AInt all.(percpu.cycle)].

(** The first sample carries no events. *)
Definition drop_marks (ss : sstat.sstat) : sstat.sstat :=
  let all := ss.(sstat.cpu).(cpustat.all) in
  if all.(percpu.instr) =? 1 then
    upd_cpu (set_cpustat_all (set_percpu_cycle 0 (set_percpu_instr 0 all))) ss
  else ss.

Definition print_CPU : prifunc := fun hp ss ps nact =>
  let cs := ss.(sstat.cpu) in
  '(cnt, ticks) ← freq_sums (Z.to_nat cs.(cpustat.nrcpu)) cs.(cpustat.cpu) 0 0;
  maxfreq ← maxfreq_of cs.(cpustat.cpu);
  let r := calc_freqscale maxfreq cnt ticks in
  let ss := drop_marks ss in
  t ← printf CPU_FMT (CPU_args hp ss.(sstat.cpu) r.1 r.2);
  Some (t, ss).

Definition cpu_FMT : string := ("%s %u %d %lld %lld %lld %lld %lld %lld %lld %lld %lld %lld %d %lld %lld" ++ nl)%string.
Definition cpu_args (hp : text) (i : nat) (p : percpu.percpu) (freq freqperc : Z) : list arg :=
  [AStr hp; AInt e.(parsenv.hertz); AInt (Z.of_nat i); AInt p.(percpu.stime); AInt p.(percpu.utime);
   AInt p.(percpu.ntime); AInt p.(percpu.itime); AInt p.(percpu.wtime); AInt p.(percpu.Itime);
   AInt p.(percpu.Stime); AInt p.(percpu.steal); AInt p.(percpu.guest); AInt freq; AInt freqperc;
   AInt p.(percpu.instr); AInt p.(percpu.cycle)].

Definition print_cpu : prifunc := fun hp ss ps nact =>
  let cs := ss.(sstat.cpu) in
  t ← each_upto (Z.to_nat cs.(cpustat.nrcpu)) 0 (fun i p =>
        maxfreq ← maxfreq_of cs.(cpustat.cpu);
        let f := p.(percpu.freqcnt) in
        let r := calc_freqscale maxfreq f.(freqcnt.cnt) f.(freqcnt.ticks) in
        printf cpu_FMT (cpu_args hp i p r.1 r.2)) cs.(cpustat.cpu);
  Some (t, ss).

Definition CPL_FMT : string := ("%s %lld %.2f %.2f %.2f %lld %lld" ++ nl)%string.
Definition CPL_args (hp : text) (c : cpustat.cpustat) : list arg :=
  [AStr hp; AInt c.(cpustat.nrcpu); AFlt (flt_value c.(cpustat.lavg1)); AFlt (flt_value c.(cpustat.lavg5));
   AFlt (flt_value c.(cpustat.lavg15)); AInt c.(cpustat.csw); AInt c.(cpustat.devint)].

Definition print_CPL : prifunc := fun hp ss ps nact =>
  t ← printf CPL_FMT (CPL_args hp ss.(sstat.cpu)); Some (t, ss).

Definition MEM_FMT : string := ("%s %u %lld %lld %lld %lld %lld %lld %lld %lld %lld %lld %lld %lld %lld %lld" ++ nl)%string.
Definition MEM_args (hp : text) (m : memstat.memstat) : list arg :=
  [AStr hp; AInt e.(parsenv.pagesize); AInt m.(memstat.physmem); AInt m.(memstat.freemem);
   AInt m.(memstat.cachemem); AInt m.(memstat.buffermem); AInt m.(memstat.slabmem); AInt m.(memstat.cachedrt);
   AInt m.(memstat.slabreclaim); AInt m.(memstat.vmwballoon); AInt m.(memstat.shmem); AInt m.(memstat.shmrss);
   AInt m.(memstat.shmswp); AInt m.(memstat.hugepagesz); AInt m.(memstat.tothugepage);
   AInt m.(memstat.freehugepage)].

Definition print_MEM : prifunc := fun hp ss ps nact =>
  t ← printf MEM_FMT (MEM_args hp ss.(sstat.mem)); Some (t, ss).

Definition SWP_FMT : string := ("%s %u %lld %lld %lld %lld %lld" ++ nl)%string.
Definition SWP_args (hp : text) (m : memstat.memstat) : list arg :=
  [AStr hp; AInt e.(parsenv.pagesize); AInt m.(memstat.totswap); AInt m.(memstat.freeswap); AInt 0;
   AInt m.(memstat.committed); AInt m.(memstat.commitlim)].

Definition print_SWP : prifunc := fun hp ss ps nact =>
  t ← printf SWP_FMT (SWP_args hp ss.(sstat.mem)); Some (t, ss).

Definition PAG_FMT : string := ("%s %u %lld %lld %lld %lld %lld" ++ nl)%string.
Definition PAG_args (hp : text) (m : memstat.memstat) : list arg :=
  [AStr hp; AInt e.(parsenv.pagesize); AInt m.(memstat.pgscans); AInt m.(memstat.allocstall); AInt 0;
   AInt m.(memstat.swins); AInt m.(memstat.swouts)].

Definition print_PAG : prifunc := fun hp ss ps nact =>
  t ← printf PAG_FMT (PAG_args hp ss.(sstat.mem)); Some (t, ss).

(** The three print functions for disks differ in the table only. *)
Definition DISK_FMT : string := ("%s %s %lld %lld %lld %lld %lld" ++ nl)%string.
Definition disk_args (hp : text) (p : perdsk.perdsk) : list arg :=
  [AStr hp; AStr (chars p.(perdsk.name)); AInt p.(perdsk.io_ms); AInt p.(perdsk.nread); AInt p.(perdsk.nrsect);
   AInt p.(perdsk.nwrite); AInt p.(perdsk.nwsect)].

Definition print_LVM : prifunc := fun hp ss ps nact =>
  t ← each_named perdsk.name (fun p => printf DISK_FMT (disk_args hp p)) ss.(sstat.dsk).(dskstat.lvm);
  Some (t, ss).
Definition print_MDD : prifunc := fun hp ss ps nact =>
  t ← each_named perdsk.name (fun p => printf DISK_FMT (disk_args hp p)) ss.(sstat.dsk).(dskstat.mdd);
  Some (t, ss).
Definition print_DSK : prifunc := fun hp ss ps nact =>
  t ← each_named perdsk.name (fun p => printf DISK_FMT (disk_args hp p)) ss.(sstat.dsk).(dskstat.dsk);
  Some (t, ss).

Definition NFM_FMT : string := ("%s %s %lld %lld %lld %lld %lld %lld %lld %lld" ++ nl)%string.
Definition NFM_args (hp : text) (p : pernfsmount.pernfsmount) : list arg :=
  [AStr hp; AStr (chars p.(pernfsmount.mountdev)); AInt p.(pernfsmount.bytestotread);
   AInt p.(pernfsmount.bytestotwrite); AInt p.(pernfsmount.bytesread); AInt p.(pernfsmount.byteswrite);
   AInt p.(pernfsmount.bytesdread); AInt p.(pernfsmount.bytesdwrite); AInt p.(pernfsmount.pagesmread);
   AInt p.(pernfsmount.pagesmwrite)].

Definition print_NFM : prifunc := fun hp ss ps nact =>
  let m := ss.(sstat.nfs).(nfsstat.nfsmounts) in
  t ← each_upto (Z.to_nat m.(nfsmounts.nrmounts)) 0 (fun _ p => printf NFM_FMT (NFM_args hp p)) m.(nfsmounts.nfsmnt);
  Some (t, ss).

Definition NFC_FMT : string := ("%s %lld %lld %lld %lld %lld" ++ nl)%string.
Definition NFC_args (hp : text) (n : nfsclient.nfsclient) : list arg :=
  [AStr hp; AInt n.(nfsclient.rpccnt); AInt n.(nfsclient.rpcread); AInt n.(nfsclient.rpcwrite);
   AInt n.(nfsclient.rpcretrans); AInt n.(nfsclient.rpcautrefresh)].

Definition print_NFC : prifunc := fun hp ss ps nact =>
  t ← printf NFC_FMT (NFC_args hp ss.(sstat.nfs).(nfsstat.client)); Some (t, ss).

Definition NFS_FMT : string := ("%s %lld %lld %lld %lld %lld %lld %lld %lld %lld %lld %lld %lld %lld %lld %lld" ++ nl)%string.
Definition NFS_args (hp : text) (n : nfsserver.nfsserver) : list arg :=
  [AStr hp; AInt n.(nfsserver.rpccnt); AInt n.(nfsserver.rpcread); AInt n.(nfsserver.rpcwrite);
   AInt n.(nfsserver.nrbytes); AInt n.(nfsserver.nwbytes); AInt n.(nfsserver.rpcbadfmt);
   AInt n.(nfsserver.rpcbadaut); AInt n.(nfsserver.rpcbadcln); AInt n.(nfsserver.netcnt);
   AInt n.(nfsserver.nettcpcnt); AInt n.(nfsserver.netudpcnt); AInt n.(nfsserver.nettcpcon);
   AInt n.(nfsserver.rchits); AInt n.(nfsserver.rcmiss); AInt n.(nfsserver.rcnoca)].

Definition print_NFS : prifunc := fun hp ss ps nact =>
  t ← printf NFS_FMT (NFS_args hp ss.(sstat.nfs).(nfsstat.server)); Some (t, ss).

Definition UPPER_FMT : string := ("%s %s %lld %lld %lld %lld %lld %lld %lld %lld" ++ nl)%string.
Definition upper_args (hp : text) (n : netstat.netstat) : list arg :=
  let tcp := n.(netstat.tcp) in
  let ipv4 := n.(netstat.ipv4) in
  let ipv6 := n.(netstat.ipv6) in
  let udpv4 := n.(netstat.udpv4) in
  let udpv6 := n.(netstat.udpv6) in
  [AStr hp; AStr (chars "upper"); AInt tcp.(tcp_stats.InSegs); AInt tcp.(tcp_stats.OutSegs);
   AInt (udpv4.(udpv4_stats.InDatagrams) +64 udpv6.(udpv6_stats.Udp6InDatagrams));
   AInt (udpv4.(udpv4_stats.OutDatagrams) +64 udpv6.(udpv6_stats.Udp6OutDatagrams));
   AInt (ipv4.(ipv4_stats.InReceives) +64 ipv6.(ipv6_stats.Ip6InReceives));
   AInt (ipv4.(ipv4_stats.OutRequests) +64 ipv6.(ipv6_stats.Ip6OutRequests));
   AInt (ipv4.(ipv4_stats.InDelivers) +64 ipv6.(ipv6_stats.Ip6InDelivers));
   AInt (ipv4.(ipv4_stats.ForwDatagrams) +64 ipv6.(ipv6_stats.Ip6OutForwDatagrams))].

Definition NET_FMT : string := ("%s %s %lld %lld %lld %lld %ld %d" ++ nl)%string.
Definition NET_args (hp : text) (p : perintf.perintf) : list arg :=
  [AStr hp; AStr (chars p.(perintf.name)); AInt p.(perintf.rpack); AInt p.(perintf.rbyte);
   AInt p.(perintf.spack); AInt p.(perintf.sbyte); AInt p.(perintf.speed); AInt p.(perintf.duplex)].

Definition print_NET : prifunc := fun hp ss ps nact =>
  t ← printf UPPER_FMT (upper_args hp ss.(sstat.net));
  rest ← each_named perintf.name (fun p => printf NET_FMT (NET_args hp p)) ss.(sstat.intf).(intfstat.intf);
  Some (t ++ rest, ss).

(** ** Tasks *)

Definition PRG_FMT : string := ("%s %d (%s) %c %d %d %d %d %d %ld (%s) %d %d %d %d %d %d %d %d %d %d %ld %c %d %d %s" ++ nl)%string.
Definition PRG_args (hp : text) (t : tstat.tstat) : list arg :=
  let g := t.(tstat.gen) in
  [AStr hp; AInt g.(tgen.pid); AStr (chars g.(tgen.name)); AChr (chr g.(tgen.state)); AInt g.(tgen.ruid);
   AInt g.(tgen.rgid); AInt g.(tgen.tgid); AInt g.(tgen.nthr); AInt g.(tgen.excode); AInt g.(tgen.btime);
   AStr (chars g.(tgen.cmdline)); AInt g.(tgen.ppid); AInt g.(tgen.nthrrun); AInt g.(tgen.nthrslpi);
   AInt g.(tgen.nthrslpu); AInt g.(tgen.euid); AInt g.(tgen.egid); AInt g.(tgen.suid); AInt g.(tgen.sgid);
   AInt g.(tgen.fsuid); AInt g.(tgen.fsgid); AInt g.(tgen.elaps); AChr (yesno (negb (g.(tgen.isproc) =? 0)));
   AInt g.(tgen.vpid); AInt g.(tgen.ctid);
   AStr (if str_nonempty g.(tgen.container) then chars g.(tgen.container) else chars "-")].

Definition print_PRG : prifunc := fun hp ss ps nact =>
  t ← each_upto (Z.to_nat nact) 0 (fun _ t => printf PRG_FMT (PRG_args hp t)) ps; Some (t, ss).

Definition PRC_FMT : string := ("%s %d (%s) %c %u %lld %lld %d %d %d %d %d %d %d %c" ++ nl)%string.
Definition PRC_args (hp : text) (t : tstat.tstat) : list arg :=
  let g := t.(tstat.gen) in
  let c := t.(tstat.cpu) in
  [AStr hp; AInt g.(tgen.pid); AStr (chars g.(tgen.name)); AChr (chr g.(tgen.state)); AInt e.(parsenv.hertz);
   AInt c.(tcpu.utime); AInt c.(tcpu.stime); AInt c.(tcpu.nice); AInt c.(tcpu.prio); AInt c.(tcpu.rtprio);
   AInt c.(tcpu.policy); AInt c.(tcpu.curcpu); AInt c.(tcpu.sleepavg); AInt g.(tgen.tgid);
   AChr (yesno (negb (g.(tgen.isproc) =? 0)))].

Definition print_PRC : prifunc := fun hp ss ps nact =>
  t ← each_upto (Z.to_nat nact) 0 (fun _ t => printf PRC_FMT (PRC_args hp t)) ps; Some (t, ss).

Definition PRM_FMT : string := ("%s %d (%s) %c %u %lld %lld %lld %lld %lld %lld %lld %lld %lld %lld %lld %d %c %lld" ++ nl)%string.
Definition PRM_args (hp : text) (t : tstat.tstat) : list arg :=
  let g := t.(tstat.gen) in
  let m := t.(tstat.mem) in
  [AStr hp; AInt g.(tgen.pid); AStr (chars g.(tgen.name)); AChr (chr g.(tgen.state)); AInt e.(parsenv.pagesize);
   AInt m.(tmem.vmem); AInt m.(tmem.rmem); AInt m.(tmem.vexec); AInt m.(tmem.vgrow); AInt m.(tmem.rgrow);
   AInt m.(tmem.minflt); AInt m.(tmem.majflt); AInt m.(tmem.vlibs); AInt m.(tmem.vdata); AInt m.(tmem.vstack);
   AInt m.(tmem.vswap); AInt g.(tgen.tgid); AChr (yesno (negb (g.(tgen.isproc) =? 0)));
   AInt (if m.(tmem.pmem) =? -1 then 0 else m.(tmem.pmem))].

Definition print_PRM : prifunc := fun hp ss ps nact =>
  t ← each_upto (Z.to_nat nact) 0 (fun _ t => printf PRM_FMT (PRM_args hp t)) ps; Some (t, ss).

Definition PRD_FMT : string := ("%s %d (%s) %c %c %c %lld %lld %lld %lld %lld %d n %c" ++ nl)%string.
Definition PRD_args (hp : text) (t : tstat.tstat) : list arg :=
  let g := t.(tstat.gen) in
  let d := t.(tstat.dsk) in
  [AStr hp; AInt g.(tgen.pid); AStr (chars g.(tgen.name)); AChr (chr g.(tgen.state)); AChr "n";
   AChr (yesno (flagged e.(parsenv.supportflags) IOSTAT)); AInt d.(tdsk.rio); AInt d.(tdsk.rsz);
   AInt d.(tdsk.wio); AInt d.(tdsk.wsz); AInt d.(tdsk.cwsz); AInt g.(tgen.tgid);
   AChr (yesno (negb (g.(tgen.isproc) =? 0)))].

Definition print_PRD : prifunc := fun hp ss ps nact =>
  t ← each_upto (Z.to_nat nact) 0 (fun _ t => printf PRD_FMT (PRD_args hp t)) ps; Some (t, ss).

Definition PRN_FMT : string := ("%s %d (%s) %c %c %lld %lld %lld %lld %lld %lld %lld %lld %d %d %d %c" ++ nl)%string.
Definition PRN_args (hp : text) (t : tstat.tstat) : list arg :=
  let g := t.(tstat.gen) in
  let n := t.(tstat.net) in
  [AStr hp; AInt g.(tgen.pid); AStr (chars g.(tgen.name)); AChr (chr g.(tgen.state));
   AChr (yesno (flagged e.(parsenv.supportflags) NETATOP)); AInt n.(tnet.tcpsnd); AInt n.(tnet.tcpssz);
   AInt n.(tnet.tcprcv); AInt n.(tnet.tcprsz); AInt n.(tnet.udpsnd); AInt n.(tnet.udpssz); AInt n.(tnet.udprcv);
   AInt n.(tnet.udprsz); AInt 0; AInt 0; AInt g.(tgen.tgid); AChr (yesno (negb (g.(tgen.isproc) =? 0)))].

Definition print_PRN : prifunc := fun hp ss ps nact =>
  t ← each_upto (Z.to_nat nact) 0 (fun _ t => printf PRN_FMT (PRN_args hp t)) ps; Some (t, ss).

(** ** Labels *)

Definition labeldef : list (string * prifunc) := [
  ("CPU", print_CPU);
  ("cpu", print_cpu);
  ("CPL", print_CPL);
  ("MEM", print_MEM);
  ("SWP", print_SWP);
  ("PAG", print_PAG);
  ("LVM", print_LVM);
  ("MDD", print_MDD);
  ("DSK", print_DSK);
  ("NFM", print_NFM);
  ("NFC", print_NFC);
  ("NFS", print_NFS);
  ("NET", print_NET);
  ("PRG", print_PRG);
  ("PRC", print_PRC);
  ("PRM", print_PRM);
  ("PRD", print_PRD);
  ("PRN", print_PRN)].

(** The output of the selected labels; [valid] is the member of [labeldef]. *)
Fixpoint parse_labels (defs : list (string * prifunc)) (valid : list bool) (curtime numsecs : Z) (ss : sstat.sstat)
    (ps : list tstat.tstat) (nact : Z) : option (text * sstat.sstat) :=
  match defs, valid with
  | (label, f) :: defs, v :: valid =>
      if (v : bool) then
        header ← printf "%s %s %ld %s %s %d"
          [AStr (chars label); AStr e.(parsenv.nodename); AInt curtime; AStr (convdate e.(parsenv.localtime) curtime);
           AStr (convtime e.(parsenv.localtime) curtime); AInt numsecs];
        '(t, ss) ← f (take 255 header) ss ps nact;
        '(rest, ss) ← parse_labels defs valid curtime numsecs ss ps nact;
        Some (t ++ rest, ss)
      else parse_labels defs valid curtime numsecs ss ps nact
  | _, _ => Some ([], ss)
  end.

Definition RRBOOT : Z := 1.

Definition parseout (valid : list bool) (curtime numsecs : Z) (devtstat : devtstat.devtstat) (ss : sstat.sstat)
    (flags : Z) : option (text * sstat.sstat) :=
  '(t, ss) ← parse_labels labeldef valid curtime numsecs ss
               devtstat.(devtstat.taskall) devtstat.(devtstat.ntaskall);
  Some ((if flagged flags RRBOOT then chars "RESET" ++ [newline] else []) ++ t ++ chars "SEP" ++ [newline], ss).
End print.

Definition label_names : list string :=
  ["CPU"; "cpu"; "CPL"; "MEM"; "SWP"; "PAG"; "LVM"; "MDD"; "DSK"; "NFM"; "NFC"; "NFS"; "NET"; "PRG"; "PRC"; "PRM";
   "PRD"; "PRN"].

(** The label up to the next comma, and what follows it. *)
Fixpoint cut_comma (l : text) : text * text :=
  match l with
  | [] => ([], [])
  | c :: l => if Ascii.eqb c "," then ([], l) else let r := cut_comma l in (c :: r.1, r.2)
  end.

Fixpoint find_label (names : list string) (l : text) : option nat :=
  match names with
  | [] => None
  | n :: names => if bool_decide (chars n = l) then Some O else S <$> find_label names l
  end.

(** [while (pd < ep)]; the loop runs at most once per character. *)
Fixpoint parsedef_loop (fuel : nat) (pd : text) (valid : list bool) : option (Z * list bool) :=
  match pd, fuel with
  | [], _ => Some (1, valid)
  | _, O => None
  | _, S fuel =>
      let '(label, rest) := cut_comma pd in
      match find_label label_names label with
      | Some i => parsedef_loop fuel rest (<[i := true]> valid)
      | None =>
          if bool_decide (label = chars "ALL") then Some (1, replicate (length valid) true)
          else Some (0, valid)
      end
  end.

Definition parsedef (pd : text) (valid : list bool) : option (Z * list bool) :=
  match pd with
  | c :: _ => if Ascii.eqb c "-" then Some (0, valid) else parsedef_loop (length pd) pd valid
  | [] => parsedef_loop (length pd) pd valid
  end.
