(* ===== verification/ParseableFacts.v ===== *)
(** * What a reader of parseable output gets

    The lines of the system labels, split at line ends and at blanks, give back
    the header and the figures; the selection of labels. *)
From Stdlib Require Import Ascii.
From S2P Require Import Prelude Format Printf Sscanf SscanfFacts Tstat Sstat SstatStores SystFacts Deviattask Various VariousFacts Parseable.

#[local] Open Scope c_scope.

(** ** Splitting a text at a character *)

Fixpoint split_on (c : ascii) (l : text) : list text :=
  match l with
  | [] => [[]]
  | x :: l =>
      if Ascii.eqb x c then [] :: split_on c l
      else match split_on c l with
           | w :: ws => (x :: w) :: ws
           | [] => [[x]]
           end
  end.

Fixpoint join (c : ascii) (ws : list text) : text :=
  match ws with
  | [] => []
  | [w] => w
  | w :: ws => w ++ c :: join c ws
  end.

Lemma split_on_absent c w : c ∉ w -> split_on c w = [w].
Proof.
  induction w as [|x w IH]; [done|]. intros H. apply not_elem_of_cons in H as [Hx H]. cbn.
  rewrite (proj2 (Ascii.eqb_neq x c)) by done. by rewrite IH.
Qed.

Lemma split_on_app c w l : c ∉ w -> split_on c (w ++ c :: l) = w :: split_on c l.
Proof.
  induction w as [|x w IH]; cbn; [by rewrite Ascii.eqb_refl|]. intros H. apply not_elem_of_cons in H as [Hx H].
  rewrite (proj2 (Ascii.eqb_neq x c)) by done. by rewrite IH.
Qed.

Lemma split_join c ws : ws <> [] -> Forall (fun w => c ∉ w) ws -> split_on c (join c ws) = ws.
Proof.
  intros Hne HF. induction HF as [|w ws Hw HF IH]; [done|]. destruct ws as [|w' ws].
  - by apply split_on_absent.
  - change (join c (w :: w' :: ws)) with (w ++ c :: join c (w' :: ws)). rewrite split_on_app by done. by rewrite IH.
Qed.

Lemma split_lines c ls : Forall (fun w => c ∉ w) ls -> split_on c (ls ≫= fun l => l ++ [c]) = ls ++ [[]].
Proof.
  induction 1 as [|w ls Hw _ IH]; [done|]. cbn [mbind list_bind app]. rewrite <-app_assoc. cbn [app].
  rewrite split_on_app by done. by rewrite IH.
Qed.

Lemma join_absent c d ws : c <> d -> Forall (fun w => d ∉ w) ws -> d ∉ join c ws.
Proof.
  intros Hcd HF. induction HF as [|w ws Hw HF IH]; [apply not_elem_of_nil|]. destruct ws as [|w' ws]; [done|].
  change (join c (w :: w' :: ws)) with (w ++ c :: join c (w' :: ws)). rewrite elem_of_app, elem_of_cons. intros [H|[H|H]]; [done | by apply Hcd | done].
Qed.

(** ** Printed cells *)

(** Neither a blank nor the end of a line. *)
Definition cell (t : text) : Prop := " "%char ∉ t /\ newline ∉ t.

Lemma solid_cell t : Forall (fun c => isspace c = false) t -> cell t.
Proof.
  intros H. split; intros Hin; by pose proof (proj1 (Forall_forall _ _) H _ Hin).
Qed.

Lemma digits_cell t : Forall (fun c => isdigit c = true) t -> Forall (fun c => isspace c = false) t.
Proof. intros H. eapply Forall_impl; [exact H|]. apply digit_no_space. Qed.

Lemma pad_left_0_digits w t : Forall (fun c => isdigit c = true) t ->
  Forall (fun c => isdigit c = true) (pad_left "0" w t).
Proof. intros H. unfold pad_left. apply Forall_app. split; [|done]. apply Forall_replicate. done. Qed.

Lemma fmt_0d_solid k z : Forall (fun c => isspace c = false) (fmt_0d k z).
Proof.
  unfold fmt_0d. destruct (Z.ltb_spec z 0).
  - constructor; [done|]. apply digits_cell, pad_left_0_digits, dec_digits. lia.
  - apply digits_cell, pad_left_0_digits, dec_digits. lia.
Qed.

Lemma fmt_f_solid k x : Forall (fun c => isspace c = false) (fmt_f k x).
Proof.
  unfold fmt_f.
  assert (H : forall a, 0 <= a -> Forall (fun c => isspace c = false)
    (match k with O => dec a | _ => dec (a / 10 ^ Z.of_nat k) ++ "."%char :: fmt_0d k (a mod 10 ^ Z.of_nat k) end)).
  { intros a Ha. assert (Hp : 0 < 10 ^ Z.of_nat k) by (apply Z.pow_pos_nonneg; lia).
    destruct k as [|k]; [by apply digits_cell, dec_digits|].
    apply Forall_app. split; [apply digits_cell, dec_digits, Z.div_pos; lia|].
    constructor; [done | apply fmt_0d_solid]. }
  specialize (H _ (Z.abs_nonneg (rne (x.1 * 10 ^ Z.of_nat k) x.2))).
  destruct (x.1 <? 0); [by constructor | done].
Qed.

Lemma convdate_cell lt t : cell (convdate lt t).
Proof.
  apply solid_cell. unfold convdate. cbn zeta. rewrite !Forall_app, !Forall_cons, Forall_app, ?Forall_cons.
  auto using fmt_0d_solid.
Qed.

Lemma convtime_cell lt t : cell (convtime lt t).
Proof.
  apply solid_cell. unfold convtime. cbn zeta. rewrite !Forall_app, !Forall_cons, Forall_app, ?Forall_cons.
  auto using fmt_0d_solid.
Qed.

(** ** Rows *)

Definition arg_text (a : arg) : text :=
  match a with
  | AInt z => fmt_d z
  | AStr s => s
  | AChr c => [c]
  | AFlt x => fmt_double 2 x
  end.

(** A line: the header and the figures, with a blank between two. *)
Definition line_of (hp : text) (row : list arg) : text := join " " (hp :: (arg_text <$> row)).

(** What a reader finds in a word. *)
Definition reads (w : text) (a : arg) : Prop :=
  match a with
  | AInt z => strtol w = Some (z, false, [])
  | _ => w = arg_text a
  end.

Definition arg_ok (a : arg) : Prop :=
  match a with
  | AInt z => in_i64 z
  | AStr s => cell s
  | AChr c => cell [c]
  | AFlt x => 0 < x.2
  end.

Lemma arg_cell a : arg_ok a -> cell (arg_text a).
Proof.
  destruct a as [z|s|c|x]; cbn; intros H; try done.
  - apply solid_cell, fmt_d_solid.
  - unfold fmt_double. rewrite (proj2 (Z.eqb_neq _ 0)) by lia. apply solid_cell, fmt_f_solid.
Qed.

Lemma strtol_fmt_d z : in_i64 z -> strtol (fmt_d z) = Some (z, false, []).
Proof.
  intros Hz. unfold strtol. rewrite <-(app_nil_r (fmt_d z)). rewrite skip_space_solid by apply fmt_d_solid.
  destruct (scan_printed z [] I) as (neg & m & E1 & E2 & E3). rewrite E1. cbn [snd fst]. rewrite E2, E3.
  unfold in_i64 in Hz. unfold int_fits.
  rewrite (proj2 (Z.leb_le _ z)), (proj2 (Z.ltb_lt z _)) by (cbn; lia). cbn. repeat f_equal. lia.
Qed.

Lemma arg_reads a : arg_ok a -> reads (arg_text a) a.
Proof. destruct a as [z|s|c|x]; cbn; intros H; [by apply strtol_fmt_d | done..]. Qed.

(** The line of a label, split at blanks. *)
Lemma line_split hp row : Forall arg_ok row ->
  split_on " " (line_of hp row) = split_on " " hp ++ (arg_text <$> row) /\
  (newline ∉ hp -> newline ∉ line_of hp row).
Proof.
  intros HF. assert (HC : Forall cell (arg_text <$> row)).
  { apply Forall_fmap. eapply Forall_impl; [exact HF|]. apply arg_cell. }
  unfold line_of. split.
  - destruct (arg_text <$> row) as [|w ws] eqn:E; [by rewrite app_nil_r|].
    change (join " " (hp :: w :: ws)) with (hp ++ " "%char :: join " " (w :: ws)).
    assert (H : forall l, split_on " " (hp ++ " "%char :: l) = split_on " " hp ++ split_on " " l).
    { clear. intros l. induction hp as [|x hp IH]; [done|]. cbn [app split_on].
      destruct (Ascii.eqb x " "); [by rewrite IH|]. rewrite IH. destruct (split_on " " hp) eqn:E'; [|done].
      destruct hp as [|y hp]; [done|]. cbn in E'. destruct (Ascii.eqb y " "); [done|]. by destruct (split_on " " hp). }
    rewrite H, split_join; [done | done|]. eapply Forall_impl; [exact HC|]. by intros t [Ht _].
  - intros Hhp. apply join_absent; [done|]. constructor; [done|]. eapply Forall_impl; [exact HC|]. by intros t [_ Ht].
Qed.

(** ** The rows of the labels *)

Definition sum_of (f : percpu.percpu -> Z) (l : list percpu.percpu) : Z := foldr (fun p s => f p + s) 0 l.

Lemma freq_sums_total n : forall cpus cnt ticks, (n <= length cpus)%nat ->
  freq_sums n cpus (i64 cnt) (i64 ticks) =
    Some (i64 (cnt + sum_of (fun p => p.(percpu.freqcnt).(freqcnt.cnt)) (take n cpus)),
          i64 (ticks + sum_of (fun p => p.(percpu.freqcnt).(freqcnt.ticks)) (take n cpus))).
Proof.
  induction n as [|n IH]; intros cpus cnt ticks Hn; [cbn; by rewrite !Z.add_0_r|].
  destruct cpus as [|p cpus]; [cbn in Hn; lia|]. cbn [freq_sums take sum_of foldr].
  rewrite !i64_add_l. rewrite IH by (cbn in Hn; lia). unfold sum_of. by rewrite !Z.add_assoc.
Qed.

(** The arguments behind the header. *)
Definition behind (args : list arg) : list arg := tail args.

Section rows.
Context (e : parsenv.parsenv).

Definition freq_of (cs : cpustat.cpustat) (cnt ticks : Z) : Z * Z :=
  calc_freqscale (default 0 (maxfreq_of cs.(cpustat.cpu))) cnt ticks.

Definition CPU_rows (ss : sstat.sstat) : list (list arg) :=
  let cs := ss.(sstat.cpu) in
  let here := take (Z.to_nat cs.(cpustat.nrcpu)) cs.(cpustat.cpu) in
  let r := freq_of cs (i64 (sum_of (fun p => p.(percpu.freqcnt).(freqcnt.cnt)) here))
                      (i64 (sum_of (fun p => p.(percpu.freqcnt).(freqcnt.ticks)) here)) in
  [behind (CPU_args e [] (drop_marks ss).(sstat.cpu) r.1 r.2)].

Definition cpu_rows (ss : sstat.sstat) : list (list arg) :=
  let cs := ss.(sstat.cpu) in
  imap (fun i p => let f := p.(percpu.freqcnt) in
                   let r := freq_of cs f.(freqcnt.cnt) f.(freqcnt.ticks) in
                   behind (cpu_args e [] i p r.1 r.2))
    (take (Z.to_nat cs.(cpustat.nrcpu)) cs.(cpustat.cpu)).

(** The entries up to the empty name. *)
Fixpoint upto_empty {A} (name : A -> string) (l : list A) : list A :=
  match l with
  | [] => []
  | x :: l => if str_nonempty (name x) then x :: upto_empty name l else []
  end.

Definition disk_rows (table : sstat.sstat -> list perdsk.perdsk) (ss : sstat.sstat) : list (list arg) :=
  (fun p => behind (disk_args [] p)) <$> upto_empty perdsk.name (table ss).

Definition NFM_rows (ss : sstat.sstat) : list (list arg) :=
  let m := ss.(sstat.nfs).(nfsstat.nfsmounts) in
  (fun p => behind (NFM_args [] p)) <$> take (Z.to_nat m.(nfsmounts.nrmounts)) m.(nfsmounts.nfsmnt).

Definition NET_rows (ss : sstat.sstat) : list (list arg) :=
  behind (upper_args [] ss.(sstat.net)) ::
  ((fun p => behind (NET_args [] p)) <$> upto_empty perintf.name ss.(sstat.intf).(intfstat.intf)).

(** The system labels, in the order of [labeldef]. *)
Definition system_rows : list (string * (sstat.sstat -> list (list arg))) := [
  ("CPU", CPU_rows);
  ("cpu", cpu_rows);
  ("CPL", fun ss => [behind (CPL_args [] ss.(sstat.cpu))]);
  ("MEM", fun ss => [behind (MEM_args e [] ss.(sstat.mem))]);
  ("SWP", fun ss => [behind (SWP_args e [] ss.(sstat.mem))]);
  ("PAG", fun ss => [behind (PAG_args e [] ss.(sstat.mem))]);
  ("LVM", disk_rows (fun ss => ss.(sstat.dsk).(dskstat.lvm)));
  ("MDD", disk_rows (fun ss => ss.(sstat.dsk).(dskstat.mdd)));
  ("DSK", disk_rows (fun ss => ss.(sstat.dsk).(dskstat.dsk)));
  ("NFM", NFM_rows);
  ("NFC", fun ss => [behind (NFC_args [] ss.(sstat.nfs).(nfsstat.client))]);
  ("NFS", fun ss => [behind (NFS_args [] ss.(sstat.nfs).(nfsstat.server))]);
  ("NET", NET_rows)].

(** What the print functions rely on. *)
Record printable (ss : sstat.sstat) : Prop := {
  pr_hertz : 0 <= e.(parsenv.hertz);
  pr_pagesize : 0 <= e.(parsenv.pagesize);
  pr_cpus : (Z.to_nat ss.(sstat.cpu).(cpustat.nrcpu) <= length ss.(sstat.cpu).(cpustat.cpu))%nat /\
            ss.(sstat.cpu).(cpustat.cpu) <> [];
  pr_disks : Forall (fun t => exists n, terminated perdsk.name n t)
               [ss.(sstat.dsk).(dskstat.lvm); ss.(sstat.dsk).(dskstat.mdd); ss.(sstat.dsk).(dskstat.dsk)];
  pr_mounts : (Z.to_nat ss.(sstat.nfs).(nfsstat.nfsmounts).(nfsmounts.nrmounts) <=
               length ss.(sstat.nfs).(nfsstat.nfsmounts).(nfsmounts.nfsmnt))%nat;
  pr_intfs : exists n, terminated perintf.name n ss.(sstat.intf).(intfstat.intf)
}.

Definition rows_text (hp : text) (rows : list (list arg)) : text :=
  (line_of hp <$> rows) ≫= fun l => l ++ [newline].

(** A print function prints these rows and turns the sample into [upd]. *)
Definition prints (f : prifunc) (rows : sstat.sstat -> list (list arg)) (upd : sstat.sstat -> sstat.sstat) : Prop :=
  forall hp ss ps nact, printable ss -> f hp ss ps nact = Some (rows_text hp (rows ss), upd ss).

End rows.

(** ** Formats of columns *)

(** The columns of a format, a blank between two, and the end of the line. *)
Fixpoint interleave (cs : list part) : list part :=
  match cs with
  | [] => [Plit newline]
  | [c] => [c; Plit newline]
  | c :: cs => c :: Plit " " :: interleave cs
  end.

Definition converts (c : part) (a : arg) : Prop :=
  match c with
  | Pconv minus zero WNone prec conv =>
      Ascii.eqb conv "%" = false /\ convert_arg minus zero 0 prec conv a = Some (arg_text a)
  | _ => False
  end.

Lemma print_columns cs args : Forall2 converts cs args ->
  print_parts (interleave cs) args = Some (join " " (arg_text <$> args) ++ [newline]).
Proof.
  induction 1 as [|c a cs args Hc HF IH]; [done|].
  destruct c as [|minus zero [| |] prec conv]; cbn in Hc; try done. destruct Hc as [Hp Hc].
  destruct HF as [|c' a' cs args Hc' HF].
  - cbn [interleave print_parts fmap list_fmap join]. rewrite Hp. mstep. by rewrite Hc.
  - change (interleave (Pconv minus zero WNone prec conv :: c' :: cs)) with
      (Pconv minus zero WNone prec conv :: Plit " " :: interleave (c' :: cs)).
    cbn [print_parts]. rewrite Hp. mstep. rewrite Hc. mstep. rewrite IH. mstep.
    change (join " " (arg_text <$> a :: a' :: args)) with (arg_text a ++ " "%char :: join " " (arg_text <$> a' :: args)).
    by rewrite <-app_assoc.
Qed.

(** The columns of a format. *)
Fixpoint columns_of (ps : list part) : list part :=
  match ps with
  | [] => []
  | Plit _ :: ps => columns_of ps
  | c :: ps => c :: columns_of ps
  end.

Definition format_columns (fmt : string) : list part := columns_of (default [] (parse_printf fmt)).

Lemma printf_columns fmt args : parse_printf fmt = Some (interleave (format_columns fmt)) ->
  Forall2 converts (format_columns fmt) args ->
  printf fmt args = Some (join " " (arg_text <$> args) ++ [newline]).
Proof. intros E HF. unfold printf. rewrite E. mstep. by apply print_columns. Qed.

Lemma converts_unsigned z : 0 <= z -> converts (Pconv false false WNone None "u") (AInt z).
Proof. intros Hz. split; [done|]. cbn. rewrite (proj2 (Z.ltb_ge z 0)) by done. by rewrite fmt_d_nonneg. Qed.

(** A format that is a table, with arguments that fit. *)
Ltac printed :=
  match goal with |- printf ?f _ = _ =>
    apply (printf_columns f); [vm_compute; reflexivity|];
    let cs := eval vm_compute in (format_columns f) in change (format_columns f) with cs
  end;
  repeat first [apply Forall2_nil_2 | apply Forall2_cons_2];
  first [by apply converts_unsigned | split; reflexivity].

(** The line of a label. *)
Definition line_text (hp : text) (row : list arg) : text := line_of hp row ++ [newline].

Section printed.
Context (e : parsenv.parsenv) (Hh : 0 <= e.(parsenv.hertz)) (Hp : 0 <= e.(parsenv.pagesize)).

Lemma CPU_printed hp c f q : printf CPU_FMT (CPU_args e hp c f q) = Some (line_text hp (behind (CPU_args e [] c f q))).
Proof. printed. Qed.
Lemma cpu_printed hp i p f q : printf cpu_FMT (cpu_args e hp i p f q) = Some (line_text hp (behind (cpu_args e [] i p f q))).
Proof. printed. Qed.
Lemma CPL_printed hp c : printf CPL_FMT (CPL_args hp c) = Some (line_text hp (behind (CPL_args [] c))).
Proof. printed. Qed.
Lemma MEM_printed hp m : printf MEM_FMT (MEM_args e hp m) = Some (line_text hp (behind (MEM_args e [] m))).
Proof. printed. Qed.
Lemma SWP_printed hp m : printf SWP_FMT (SWP_args e hp m) = Some (line_text hp (behind (SWP_args e [] m))).
Proof. printed. Qed.
Lemma PAG_printed hp m : printf PAG_FMT (PAG_args e hp m) = Some (line_text hp (behind (PAG_args e [] m))).
Proof. printed. Qed.
Lemma disk_printed hp p : printf DISK_FMT (disk_args hp p) = Some (line_text hp (behind (disk_args [] p))).
Proof. printed. Qed.
Lemma NFM_printed hp p : printf NFM_FMT (NFM_args hp p) = Some (line_text hp (behind (NFM_args [] p))).
Proof. printed. Qed.
Lemma NFC_printed hp n : printf NFC_FMT (NFC_args hp n) = Some (line_text hp (behind (NFC_args [] n))).
Proof. printed. Qed.
Lemma NFS_printed hp n : printf NFS_FMT (NFS_args hp n) = Some (line_text hp (behind (NFS_args [] n))).
Proof. printed. Qed.
Lemma upper_printed hp n : printf UPPER_FMT (upper_args hp n) = Some (line_text hp (behind (upper_args [] n))).
Proof. printed. Qed.
Lemma NET_printed hp p : printf NET_FMT (NET_args hp p) = Some (line_text hp (behind (NET_args [] p))).
Proof. printed. Qed.
End printed.

(** ** Loops *)

Lemma rows_text_cons hp row rows : rows_text hp (row :: rows) = line_text hp row ++ rows_text hp rows.
Proof. done. Qed.

Lemma each_named_rows {A} (name : A -> string) f (row : A -> list arg) hp n l :
  terminated name n l -> (forall x, f x = Some (line_text hp (row x))) ->
  each_named name f l = Some (rows_text hp (row <$> upto_empty name l)).
Proof.
  intros HT Hf. revert n HT. induction l as [|x l IH]; intros n [Hn (y & Hy & He)]; [by destruct n|].
  cbn [each_named upto_empty]. destruct (str_nonempty (name x)) eqn:Ex; [|done].
  destruct n as [|n]; [cbn in Hy; congruence|].
  rewrite Hf. mstep. rewrite (IH n).
  - done.
  - split; [|by exists y]. intros i z Hi Hz. apply (Hn (S i)); [lia|done].
Qed.

Lemma each_upto_rows {A} f (row : nat -> A -> list arg) hp : forall n i l, (n <= length l)%nat ->
  (forall j x, f j x = Some (line_text hp (row j x))) ->
  each_upto n i f l = Some (rows_text hp (imap (fun j => row (i + j)%nat) (take n l))).
Proof.
  induction n as [|n IH]; intros i l Hn Hf; [done|]. destruct l as [|x l]; [cbn in Hn; lia|].
  cbn [each_upto take]. rewrite Hf. mstep. rewrite IH by (cbn in Hn; lia || done). mstep.
  rewrite imap_cons, rows_text_cons, Nat.add_0_r.
  rewrite (imap_ext _ ((fun j => row (i + j)%nat) ∘ S) (take n l)); [done|]. intros j y _. cbn. by rewrite Nat.add_succ_r.
Qed.

Lemma imap_const {A B} (f : A -> B) l : imap (fun _ => f) l = f <$> l.
Proof. induction l as [|x l IH]; [done|]. rewrite imap_cons. cbn. by f_equal. Qed.

(** ** The print functions *)

Section prints.
Context (e : parsenv.parsenv).

Lemma one_line (f : prifunc) (row : sstat.sstat -> list arg) :
  (forall hp ss ps nact, printable e ss -> f hp ss ps nact = Some (line_text hp (row ss), ss)) ->
  prints e f (fun ss => [row ss]) id.
Proof. intros H hp ss ps nact Hok. rewrite H by done. by rewrite rows_text_cons, app_nil_r. Qed.

Lemma maxfreq_some cpus : cpus <> [] -> exists m, maxfreq_of cpus = Some m.
Proof. destruct cpus as [|p cpus]; [done|]. intros _. by eexists. Qed.

Lemma print_CPU_rows : prints e (print_CPU e) (CPU_rows e) drop_marks.
Proof.
  intros hp ss ps nact [Hh _ [Hl Hne] _ _ _]. unfold print_CPU, CPU_rows, freq_of.
  destruct (maxfreq_some _ Hne) as [m Em]. rewrite Em.
  pose proof (freq_sums_total _ (cpustat.cpu (sstat.cpu ss)) 0 0 Hl) as E. rewrite !Z.add_0_l in E.
  change (i64 0) with 0 in E. rewrite E. mstep. cbv zeta. cbn [default]. rewrite CPU_printed by done. mstep.
  by rewrite rows_text_cons, app_nil_r.
Qed.

Lemma print_cpu_rows : prints e (print_cpu e) (cpu_rows e) id.
Proof.
  intros hp ss ps nact [Hh _ [Hl Hne] _ _ _]. unfold print_cpu, cpu_rows, freq_of.
  destruct (maxfreq_some _ Hne) as [m Em]. rewrite Em. cbn [default].
  rewrite (each_upto_rows _ (fun i p => let f := p.(percpu.freqcnt) in
             let r := calc_freqscale m f.(freqcnt.cnt) f.(freqcnt.ticks) in behind (cpu_args e [] i p r.1 r.2)) hp);
    [done|done|].
  intros j x. mstep. by apply cpu_printed.
Qed.

Lemma print_disks_rows (table : sstat.sstat -> list perdsk.perdsk) (f : prifunc) :
  (forall hp ss ps nact, f hp ss ps nact =
     t ← each_named perdsk.name (fun p => printf DISK_FMT (disk_args hp p)) (table ss); Some (t, ss)) ->
  (forall ss, printable e ss -> exists n, terminated perdsk.name n (table ss)) -> prints e f (disk_rows table) id.
Proof.
  intros Hf Ht hp ss ps nact Hok. rewrite Hf. destruct (Ht ss Hok) as [n HT].
  rewrite (each_named_rows _ _ (fun p => behind (disk_args [] p)) hp n) by (done || intros; apply disk_printed). done.
Qed.

Lemma print_NFM_rows : prints e print_NFM NFM_rows id.
Proof.
  intros hp ss ps nact []. unfold print_NFM, NFM_rows.
  rewrite (each_upto_rows _ (fun _ p => behind (NFM_args [] p)) hp) by (done || intros; apply NFM_printed).
  mstep. by rewrite imap_const.
Qed.

Lemma print_NET_rows : prints e print_NET NET_rows id.
Proof.
  intros hp ss ps nact [_ _ _ _ _ [n HT]]. unfold print_NET, NET_rows. rewrite upper_printed. mstep.
  rewrite (each_named_rows _ _ (fun p => behind (NET_args [] p)) hp n) by (done || intros; apply NET_printed). done.
Qed.

Lemma disks_of ss : printable e ss -> forall t,
  t ∈ [ss.(sstat.dsk).(dskstat.lvm); ss.(sstat.dsk).(dskstat.mdd); ss.(sstat.dsk).(dskstat.dsk)] ->
  exists n, terminated perdsk.name n t.
Proof. intros [_ _ _ HD _ _] t Ht. by apply (proj1 (Forall_forall _ _) HD). Qed.

(** Every system label prints its rows. *)
Lemma system_prints : Forall2 (fun d r => d.1 = r.1 /\
    prints e d.2 r.2 (if bool_decide (r.1 = "CPU") then drop_marks else id))
  (take 13 (labeldef e)) (system_rows e).
Proof.
  unfold labeldef, system_rows. cbn [take].
  repeat (apply Forall2_cons_2; [split; [done|]; cbn [fst snd];
    first [rewrite bool_decide_true by done | rewrite bool_decide_false by done] |]); [..|apply Forall2_nil_2].
  - apply print_CPU_rows.
  - apply print_cpu_rows.
  - apply one_line. intros. unfold print_CPL. by rewrite CPL_printed.
  - apply one_line. intros ??? ? []. unfold print_MEM. by rewrite MEM_printed.
  - apply one_line. intros ??? ? []. unfold print_SWP. by rewrite SWP_printed.
  - apply one_line. intros ??? ? []. unfold print_PAG. by rewrite PAG_printed.
  - apply print_disks_rows; [done|]. intros ss Hok. eapply disks_of; [exact Hok | set_solver].
  - apply print_disks_rows; [done|]. intros ss Hok. eapply disks_of; [exact Hok | set_solver].
  - apply print_disks_rows; [done|]. intros ss Hok. eapply disks_of; [exact Hok | set_solver].
  - apply print_NFM_rows.
  - apply one_line. intros. unfold print_NFC. by rewrite NFC_printed.
  - apply one_line. intros. unfold print_NFS. by rewrite NFS_printed.
  - apply print_NET_rows.
Qed.

(** Printing the line of all processors changes no row. *)
Lemma rows_drop_marks ss : Forall (fun r => r.2 (drop_marks ss) = r.2 ss) (system_rows e).
Proof.
  unfold system_rows. repeat (apply Forall_cons; split); [..|apply Forall_nil; done]; cbn [fst snd];
    unfold drop_marks; destruct (_ =? 1) eqn:E; try done.
  unfold CPU_rows, drop_marks. cbn. rewrite E. done.
Qed.

Lemma printable_drop_marks ss : printable e ss -> printable e (drop_marks ss).
Proof. intros []. unfold drop_marks. destruct (_ =? 1); by split. Qed.
End prints.

(** ** The output *)

Fixpoint selected {A} (valid : list bool) (l : list A) : list A :=
  match valid, l with
  | v :: valid, x :: l => if (v : bool) then x :: selected valid l else selected valid l
  | _, _ => []
  end.

Lemma selected_sub {A} valid (l : list A) x : x ∈ selected valid l -> x ∈ l.
Proof.
  revert valid. induction l as [|y l IH]; intros [|[] valid]; cbn; try done; rewrite ?elem_of_cons.
  - by intros ?%elem_of_nil.
  - intros [->|H]; [by left | right; by eapply IH].
  - intros H. right. by eapply IH.
Qed.

Section output.
Context (e : parsenv.parsenv) (curtime numsecs : Z).

Definition header_words (label : string) : list text :=
  [chars label; e.(parsenv.nodename); fmt_d curtime; convdate e.(parsenv.localtime) curtime;
   convtime e.(parsenv.localtime) curtime; fmt_d numsecs].

Definition header (label : string) : text := join " " (header_words label).

(** What the selected labels tell, one entry per line. *)
Definition told (valid : list bool) (ss : sstat.sstat) : list (string * list arg) :=
  selected valid (system_rows e) ≫= fun r => (fun row => (r.1, row)) <$> r.2 ss.

Lemma header_printed label : printf "%s %s %ld %s %s %d"
  [AStr (chars label); AStr e.(parsenv.nodename); AInt curtime; AStr (convdate e.(parsenv.localtime) curtime);
   AStr (convtime e.(parsenv.localtime) curtime); AInt numsecs] = Some (header label).
Proof.
  transitivity (Some (chars label ++ " "%char :: e.(parsenv.nodename) ++ " "%char :: fmt_d curtime ++
    " "%char :: convdate e.(parsenv.localtime) curtime ++ " "%char :: convtime e.(parsenv.localtime) curtime ++
    " "%char :: fmt_d numsecs ++ [])); [reflexivity|]. by rewrite app_nil_r.
Qed.

(** The header fits its area. *)
Definition header_fits : Prop := forall label, label ∈ label_names -> (length (header label) <= 255)%nat.

Lemma parse_labels_app defs1 : forall defs2 valid1 valid2 ss ps nact, length defs1 = length valid1 ->
  parse_labels e (defs1 ++ defs2) (valid1 ++ valid2) curtime numsecs ss ps nact =
    '(t1, ss) ← parse_labels e defs1 valid1 curtime numsecs ss ps nact;
    '(t2, ss) ← parse_labels e defs2 valid2 curtime numsecs ss ps nact; Some (t1 ++ t2, ss).
Proof.
  induction defs1 as [|[label f] defs1 IH]; intros defs2 [|v valid1] valid2 ss ps nact Hl; try done.
  - cbn [app parse_labels]. mstep. by destruct (parse_labels _ _ _ _ _ _ _ _) as [[t s]|].
  - injection Hl as Hl. cbn [app parse_labels]. destruct v; [|by apply IH].
    rewrite header_printed. mstep. destruct (f _ ss ps nact) as [[t ss1]|]; [|done]. mstep.
    rewrite IH by done. destruct (parse_labels e defs1 _ _ _ _ _ _) as [[t1 ss2]|]; [|done]. mstep.
    destruct (parse_labels e defs2 _ _ _ _ _ _) as [[t2 ss3]|]; [|done]. mstep. by rewrite app_assoc.
Qed.

Lemma parse_labels_none defs n ss ps nact :
  parse_labels e defs (replicate n false) curtime numsecs ss ps nact = Some ([], ss).
Proof.
  revert n. induction defs as [|[label f] defs IH]; intros [|n]; try done. cbn [replicate parse_labels]. apply IH.
Qed.

Lemma drop_marks_idemp ss : drop_marks (drop_marks ss) = drop_marks ss.
Proof. unfold drop_marks at 2 3. destruct (_ =? 1) eqn:E; [done|]. unfold drop_marks. by rewrite E. Qed.

Lemma parse_labels_rows ps nact : header_fits -> forall defs rows,
  Forall2 (fun d r => d.1 = r.1 /\ prints e d.2 r.2 (if bool_decide (r.1 = "CPU") then drop_marks else id)) defs rows ->
  Forall (fun r => r.1 ∈ label_names) rows -> (forall ss, Forall (fun r => r.2 (drop_marks ss) = r.2 ss) rows) ->
  forall valid ss, printable e ss ->
  parse_labels e defs valid curtime numsecs ss ps nact =
    Some (selected valid rows ≫= fun r => rows_text (header r.1) (r.2 ss),
          if bool_decide ("CPU" ∈ (selected valid rows).*1) then drop_marks ss else ss).
Proof.
  intros Hfit defs rows HF. induction HF as [|[label f] [label' r] defs rows [El Hf] HF IH]; intros Hn Hst valid ss Hok.
  - by destruct valid as [|[]].
  - cbn [fst snd] in *. subst label'. apply Forall_cons in Hn as [Hn Hns].
    assert (Hst' : forall ss, Forall (fun r => r.2 (drop_marks ss) = r.2 ss) rows).
    { intros s. by destruct (proj1 (Forall_cons _ _ _) (Hst s)). }
    destruct valid as [|[] valid]; [done| |by apply IH]. cbn [parse_labels selected]. rewrite header_printed. mstep.
    rewrite take_ge by (by apply Hfit). rewrite Hf by done. mstep. cbn [fst snd mbind list_bind fmap list_fmap].
    destruct (decide (label = "CPU")) as [->|Hc].
    + rewrite bool_decide_true by done. rewrite IH by (done || by apply printable_drop_marks). mstep.
      rewrite (bool_decide_true ("CPU" ∈ "CPU" :: _)) by set_solver.
      assert (E : forall l : list (string * (sstat.sstat -> list (list arg))), (forall x, x ∈ l -> x ∈ rows) ->
        (l ≫= fun r => rows_text (header r.1) (r.2 (drop_marks ss))) = l ≫= fun r => rows_text (header r.1) (r.2 ss)).
      { induction l as [|x l IHl]; intros Hin; [done|]. cbn [mbind list_bind]. f_equal.
        - f_equal. apply (proj1 (Forall_forall _ _) (Hst' ss)), Hin. by left.
        - apply IHl. intros y Hy. apply Hin. by right. }
      rewrite E by (intros x; apply selected_sub). rewrite drop_marks_idemp.
      destruct (bool_decide (_ ∈ (selected valid rows).*1)); reflexivity.
    + rewrite (bool_decide_false (label = _)) by done. unfold id. rewrite IH by done. mstep.
      erewrite bool_decide_ext; [reflexivity|]. rewrite elem_of_cons. split; [by right|]. intros [H|?]; [by destruct Hc | done].
Qed.
End output.

Lemma told_label e valid ss t : t ∈ told e valid ss -> t.1 ∈ label_names.
Proof.
  unfold told. intros H. apply list_elem_of_bind in H as (r & Ht & Hr). apply list_elem_of_fmap in Ht as (row & -> & _).
  apply selected_sub in Hr. cbn [fst]. unfold system_rows in Hr.
  repeat (apply elem_of_cons in Hr as [->|Hr]; [cbn [fst]; unfold label_names; set_solver|]). by apply elem_of_nil in Hr.
Qed.

Lemma header_cells e curtime numsecs label : cell e.(parsenv.nodename) -> label ∈ label_names ->
  Forall cell (header_words e curtime numsecs label).
Proof.
  intros Hnode Hin. assert (Hc : cell (chars label)).
  { assert (HF : Forall (fun l => Forall (fun c => isspace c = false) (chars l)) label_names)
      by (unfold label_names; repeat constructor).
    apply solid_cell. exact (proj1 (Forall_forall _ _) HF label Hin). }
  unfold header_words. repeat (apply Forall_cons; split); try apply Forall_nil; try done;
    try apply convdate_cell; try apply convtime_cell; apply solid_cell, fmt_d_solid.
Qed.

Lemma told_text e curtime numsecs valid ss :
  (selected valid (system_rows e) ≫= fun r => rows_text (header e curtime numsecs r.1) (r.2 ss)) =
  ((fun t => line_of (header e curtime numsecs t.1) t.2) <$> told e valid ss) ≫= fun l => l ++ [newline].
Proof.
  unfold told. generalize (selected valid (system_rows e)). intros l. induction l as [|r l IH]; [done|].
  rewrite !bind_cons, fmap_app, bind_app, <-IH. f_equal. unfold rows_text. rewrite <-list_fmap_compose. done.
Qed.

Lemma not_elem_of_chars c t : existsb (Ascii.eqb c) t = false -> c ∉ t.
Proof.
  intros H Hin. apply not_true_iff_false in H. apply H. apply existsb_exists. exists c.
  split; [by apply list_elem_of_In | apply Ascii.eqb_refl].
Qed.

(** C8: Reading the output back: when the figures of the sample are 64-bit numbers
    and no name in it holds a blank or a newline, parseout for labels of the
    system prints one line per element of the sample, in the order of the
    labels, and splitting the text at its newlines and blanks gives back, for
    every line, the label, the node, the time stamp, and one word per figure
    that the print function of the label lists, which reads as that figure;
    the text ends with SEP, and the sample is unchanged but for the events of
    a first sample. *)
Theorem parseout_read e valid curtime numsecs dts ss flags :
  length valid = 13%nat -> printable e ss -> cell e.(parsenv.nodename) -> header_fits e curtime numsecs ->
  Forall (fun t => Forall arg_ok t.2) (told e valid ss) ->
  exists ss' lines out,
    parseout e (valid ++ replicate 5 false) curtime numsecs dts ss flags = Some (out, ss') /\
    ss' = (if bool_decide ("CPU" ∈ (selected valid (system_rows e)).*1) then drop_marks ss else ss) /\
    split_on newline out =
      (if flagged flags RRBOOT then [chars "RESET"] else []) ++ lines ++ [chars "SEP"; []] /\
    Forall2 (fun line t => exists ws, split_on " " line = header_words e curtime numsecs t.1 ++ ws /\ Forall2 reads ws t.2)
      lines (told e valid ss).
Proof.
  intros Hl Hok Hnode Hfit Hargs. set (ps := dts.(devtstat.taskall)). set (nact := dts.(devtstat.ntaskall)).
  pose proof (parse_labels_rows e curtime numsecs ps nact Hfit _ _ (system_prints e)) as HP.
  specialize (HP ltac:(unfold system_rows, label_names; repeat constructor) (rows_drop_marks e) valid ss Hok).
  eexists _, ((fun t => line_of (header e curtime numsecs t.1) t.2) <$> told e valid ss), _. split.
  { unfold parseout. fold ps nact. rewrite <-(take_drop 13 (labeldef e)).
    rewrite parse_labels_app by (rewrite length_take; done). rewrite HP. mstep. rewrite parse_labels_none. mstep. reflexivity. }
  split; [reflexivity|].
  assert (HL : Forall (fun t => split_on " " (line_of (header e curtime numsecs t.1) t.2) =
      header_words e curtime numsecs t.1 ++ (arg_text <$> t.2) /\
    newline ∉ line_of (header e curtime numsecs t.1) t.2) (told e valid ss)).
  { apply Forall_forall. intros t Ht. pose proof (proj1 (Forall_forall _ _) Hargs t Ht) as Hrow.
    pose proof (header_cells e curtime numsecs t.1 Hnode (told_label e valid ss t Ht)) as Hc.
    destruct (line_split (header e curtime numsecs t.1) t.2 Hrow) as [-> Hn]. unfold header at 1 2. split.
    - rewrite split_join; [done | done|]. eapply Forall_impl; [exact Hc|]. by intros x [Hx _].
    - apply Hn, join_absent; [done|]. eapply Forall_impl; [exact Hc|]. by intros x [_ Hx]. }
  split.
  - rewrite app_nil_r, told_text. destruct (flagged flags RRBOOT).
    + change (chars "RESET" ++ [newline]) with ([chars "RESET"] ≫= fun l => l ++ [newline]).
      change (chars "SEP" ++ [newline]) with ([chars "SEP"] ≫= fun l => l ++ [newline]).
      rewrite <-!bind_app, split_lines; [by rewrite <-!app_assoc|].
      rewrite !Forall_app. split; [|split]; try (apply Forall_singleton; apply not_elem_of_chars; vm_compute; reflexivity).
      apply Forall_fmap. eapply Forall_impl; [exact HL|]. by intros t [_ Ht].
    + change (chars "SEP" ++ [newline]) with ([chars "SEP"] ≫= fun l => l ++ [newline]).
      rewrite app_nil_l, <-bind_app, split_lines; [by rewrite <-!app_assoc|].
      rewrite Forall_app. split; [|apply Forall_singleton; apply not_elem_of_chars; vm_compute; reflexivity].
      apply Forall_fmap. eapply Forall_impl; [exact HL|]. by intros t [_ Ht].
  - apply Forall2_fmap_l, Forall_Forall2_diag. apply Forall_forall. intros t Ht.
    exists (arg_text <$> t.2). split; [apply (proj1 (Forall_forall _ _) HL t Ht)|].
    pose proof (proj1 (Forall_forall _ _) Hargs t Ht) as Hrow. cbn beta in Hrow.
    apply Forall2_fmap_l, Forall_Forall2_diag. eapply Forall_impl; [exact Hrow|]. apply arg_reads.
Qed.

(** ** The selection of labels *)

Lemma cut_comma_app w l : ","%char ∉ w -> cut_comma (w ++ ","%char :: l) = (w, l).
Proof.
  induction w as [|c w IH]; [done|]. intros H. apply not_elem_of_cons in H as [Hc H]. cbn [app cut_comma].
  rewrite (proj2 (Ascii.eqb_neq c ",")) by done. by rewrite IH.
Qed.

Lemma cut_comma_all w : ","%char ∉ w -> cut_comma w = (w, []).
Proof.
  induction w as [|c w IH]; [done|]. intros H. apply not_elem_of_cons in H as [Hc H]. cbn [cut_comma].
  rewrite (proj2 (Ascii.eqb_neq c ",")) by done. by rewrite IH.
Qed.

Lemma chars_inj s t : chars s = chars t -> s = t.
Proof. intros H. rewrite <-(String.string_of_list_ascii_of_string s), <-(String.string_of_list_ascii_of_string t). by f_equal. Qed.

Lemma find_label_known names label i : NoDup names -> names !! i = Some label -> find_label names (chars label) = Some i.
Proof.
  intros HN. revert i. induction HN as [|n names Hn HN IH]; intros i Hi; [done|]. cbn [find_label].
  destruct i as [|i]; cbn in Hi; [injection Hi as ->; by rewrite bool_decide_true|].
  rewrite bool_decide_false by (intros E%chars_inj; subst n; apply Hn; by eapply list_elem_of_lookup_2). by rewrite (IH i).
Qed.

Lemma find_label_unknown names l : Forall (fun n => chars n <> l) names -> find_label names l = None.
Proof. induction 1 as [|n names Hn _ IH]; [done|]. cbn. by rewrite bool_decide_false, IH. Qed.

(** The labels of [ls] are valid now. *)
Definition mark (ls : list string) (valid : list bool) : list bool :=
  zip_with (fun n v => v || bool_decide (n ∈ ls)) label_names valid.

Lemma labels_distinct : NoDup label_names.
Proof. apply (bool_decide_unpack _). vm_compute. exact I. Qed.

Lemma mark_nil valid : length valid = 18%nat -> mark [] valid = valid.
Proof.
  intros Hl. apply list_eq. intros i. unfold mark. rewrite lookup_zip_with.
  destruct (label_names !! i) as [n|] eqn:En; mstep.
  - destruct (valid !! i) as [v|]; mstep; [|done]. rewrite bool_decide_false by apply not_elem_of_nil. by rewrite orb_false_r.
  - symmetry. apply lookup_ge_None_2. apply lookup_ge_None_1 in En. cbn in En. lia.
Qed.

Lemma mark_cons label ls i valid : label_names !! i = Some label ->
  mark ls (<[i := true]> valid) = mark (label :: ls) valid.
Proof.
  intros Hi. apply list_eq. intros j. unfold mark. rewrite !lookup_zip_with.
  destruct (label_names !! j) as [n|] eqn:En; mstep; [|done].
  destruct (decide (i = j)) as [<-|Hne].
  - destruct (valid !! i) as [v|] eqn:Ev.
    + rewrite list_lookup_insert_eq by (by eapply lookup_lt_Some). mstep. assert (n = label) as -> by congruence.
      rewrite (bool_decide_true (label ∈ label :: ls)) by set_solver. by rewrite orb_true_r.
    + rewrite list_insert_ge by (by apply lookup_ge_None_1). by rewrite Ev.
  - rewrite list_lookup_insert_ne by done. destruct (valid !! j) as [v|]; mstep; [|done]. do 2 f_equal.
    apply bool_decide_ext. rewrite elem_of_cons. split; [by right|]. intros [->|]; [|done]. exfalso. apply Hne.
    by eapply (NoDup_lookup label_names i j label); [apply labels_distinct|..].
Qed.

(** One label of the list. *)
Definition plain_label (l : text) : Prop := l <> [] /\ ","%char ∉ l.

Lemma loop_more fuel label rest valid : plain_label label -> (length label < fuel)%nat ->
  parsedef_loop fuel (label ++ ","%char :: rest) valid =
    match find_label label_names label with
    | Some i => parsedef_loop (fuel - 1) rest (<[i := true]> valid)
    | None => if bool_decide (label = chars "ALL") then Some (1, replicate (length valid) true) else Some (0, valid)
    end.
Proof.
  intros [Hne Hc] Hf. destruct label as [|c label]; [done|]. destruct fuel as [|fuel]; [cbn in Hf; lia|].
  cbn [app parsedef_loop]. rewrite (cut_comma_app (c :: label) rest Hc : cut_comma (c :: label ++ ","%char :: rest) = _).
  by rewrite Nat.sub_1_r.
Qed.

Lemma loop_last fuel label valid : plain_label label -> (length label <= fuel)%nat ->
  parsedef_loop fuel label valid =
    match find_label label_names label with
    | Some i => Some (1, <[i := true]> valid)
    | None => if bool_decide (label = chars "ALL") then Some (1, replicate (length valid) true) else Some (0, valid)
    end.
Proof.
  intros [Hne Hc] Hf. destruct label as [|c label]; [done|]. destruct fuel as [|fuel]; [cbn in Hf; lia|].
  cbn [parsedef_loop]. rewrite cut_comma_all by done.
  destruct (find_label label_names (c :: label)); [|done]. by destruct fuel.
Qed.

Lemma known_plain label : label ∈ label_names -> plain_label (chars label) /\ head (chars label) <> Some "-"%char.
Proof.
  intros Hin. assert (HF : Forall (fun l => bool_decide (chars l <> []) && negb (existsb (Ascii.eqb ",") (chars l)) &&
    bool_decide (head (chars l) <> Some "-"%char) = true) label_names) by (by repeat constructor).
  pose proof (proj1 (Forall_forall _ _) HF label Hin) as H. cbn beta in H.
  apply andb_true_iff in H as [[H1 H2]%andb_true_iff H3]. split; [split|].
  - by apply bool_decide_eq_true in H1.
  - apply not_elem_of_chars. by apply negb_true_iff.
  - by apply bool_decide_eq_true in H3.
Qed.

(** Known labels, then [more]. *)
Lemma loop_known ls more : forall fuel valid, Forall (.∈ label_names) ls -> length valid = 18%nat -> more <> [] ->
  (length (join "," ((chars <$> ls) ++ more)) <= fuel)%nat ->
  exists fuel', parsedef_loop fuel (join "," ((chars <$> ls) ++ more)) valid =
      parsedef_loop fuel' (join "," more) (mark ls valid) /\ (length (join "," more) <= fuel')%nat.
Proof.
  induction ls as [|l ls IH]; intros fuel valid HF Hl Hm Hf.
  - exists fuel. cbn [fmap list_fmap app] in *. by rewrite mark_nil.
  - apply Forall_cons in HF as [Hin HF]. destruct (known_plain l Hin) as [Hp _].
    destruct ((chars <$> ls) ++ more) as [|x xs] eqn:E; [destruct ls; [by destruct more|done]|].
    change (join "," ((chars <$> l :: ls) ++ more)) with (join "," (chars l :: ((chars <$> ls) ++ more))) in *.
    rewrite E in *. change (join "," (chars l :: x :: xs)) with (chars l ++ ","%char :: join "," (x :: xs)) in *.
    rewrite length_app in Hf. cbn [length] in Hf. rewrite loop_more by (done || lia).
    apply list_elem_of_lookup in Hin as [i Hi]. rewrite (find_label_known _ l i) by (done || apply labels_distinct).
    destruct (IH (fuel - 1)%nat (<[i := true]> valid)) as (f' & E' & Hf'); [done | by rewrite length_insert | done | lia |].
    rewrite E'. rewrite (mark_cons l ls i) by done. by exists f'.
Qed.

(** Known labels only. *)
Lemma loop_all ls : forall fuel valid, Forall (.∈ label_names) ls -> length valid = 18%nat -> ls <> [] ->
  (length (join "," (chars <$> ls)) <= fuel)%nat ->
  parsedef_loop fuel (join "," (chars <$> ls)) valid = Some (1, mark ls valid).
Proof.
  induction ls as [|l ls IH]; intros fuel valid HF Hl Hne Hf; [done|].
  apply Forall_cons in HF as [Hin HF]. destruct (known_plain l Hin) as [Hp _].
  apply list_elem_of_lookup in Hin as [i Hi].
  assert (Ei : find_label label_names (chars l) = Some i) by (by apply find_label_known, Hi; apply labels_distinct).
  assert (Hl' : length (<[i := true]> valid) = 18%nat) by (by rewrite length_insert).
  destruct ls as [|l' ls].
  - cbn [fmap list_fmap join] in *. rewrite loop_last, Ei by done. by rewrite <-(mark_cons l [] i), mark_nil.
  - change (join "," (chars <$> l :: l' :: ls)) with (chars l ++ ","%char :: join "," (chars <$> l' :: ls)) in *.
    rewrite length_app in Hf. cbn [length] in Hf. rewrite loop_more, Ei by (done || lia).
    rewrite IH by (done || lia). by rewrite (mark_cons l (l' :: ls) i).
Qed.

Lemma parsedef_plain pd valid : head pd <> Some "-"%char -> parsedef pd valid = parsedef_loop (length pd) pd valid.
Proof.
  intros H. destruct pd as [|c pd]; [done|]. unfold parsedef. rewrite (proj2 (Ascii.eqb_neq c "-")); [done|].
  intros ->. by apply H.
Qed.

Lemma join_head (w : text) ws : w <> [] -> head (join "," (w :: ws)) = head w.
Proof. destruct w as [|c w]; [done|]. by destruct ws. Qed.

Lemma join_more_head ls more : Forall (.∈ label_names) ls -> head (join "," more) <> Some "-"%char ->
  head (join "," ((chars <$> ls) ++ more)) <> Some "-"%char.
Proof.
  intros HF Hm. destruct HF as [|l ls Hl _]; [done|]. cbn [fmap list_fmap app].
  destruct (known_plain l Hl) as [[Hne _] Hh]. by rewrite join_head.
Qed.

(** Options of the parseable output: parsedef accepts a list of labels
    separated by commas, in any order and repeated, and marks exactly these
    labels; ALL marks every label, whatever follows it; and at the first label
    that is not known it fails, with the labels before it marked. *)
Theorem parsedef_spec ls valid : Forall (.∈ label_names) ls -> length valid = 18%nat ->
  (ls <> [] -> parsedef (join "," (chars <$> ls)) valid = Some (1, mark ls valid)) /\
  (forall rest, parsedef (join "," ((chars <$> ls) ++ chars "ALL" :: rest)) valid = Some (1, replicate 18 true)) /\
  (forall label rest, plain_label label -> head label <> Some "-"%char -> label <> chars "ALL" ->
     (forall l, l ∈ label_names -> chars l <> label) ->
     parsedef (join "," ((chars <$> ls) ++ label :: rest)) valid = Some (0, mark ls valid)).
Proof.
  intros HF Hl.
  assert (Hmark : length (mark ls valid) = 18%nat).
  { unfold mark. rewrite length_zip_with, Hl. done. }
  assert (Hunknown : forall label rest fuel, plain_label label -> (forall l, l ∈ label_names -> chars l <> label) ->
    (length (join "," (label :: rest)) <= fuel)%nat ->
    parsedef_loop fuel (join "," (label :: rest)) (mark ls valid) =
      if bool_decide (label = chars "ALL") then Some (1, replicate 18 true) else Some (0, mark ls valid)).
  { intros label rest fuel Hp Hno Hf.
    assert (E : find_label label_names label = None) by (by apply find_label_unknown, Forall_forall).
    destruct rest as [|r rest].
    - cbn [join] in *. by rewrite loop_last, E, Hmark.
    - change (join "," (label :: r :: rest)) with (label ++ ","%char :: join "," (r :: rest)) in *.
      rewrite length_app in Hf. cbn [length] in Hf. by rewrite loop_more, E, Hmark by (done || lia). }
  split; [|split].
  - intros Hne. rewrite parsedef_plain; [by apply loop_all|]. destruct HF as [|l ls Hin _]; [done|].
    destruct (known_plain l Hin) as [[Hne' _] Hh]. cbn [fmap list_fmap]. by rewrite join_head.
  - intros rest. rewrite parsedef_plain by (apply join_more_head; [done|]; by rewrite join_head).
    destruct (loop_known ls (chars "ALL" :: rest) _ valid HF Hl ltac:(done) (le_n _)) as (f' & E & Hf'). rewrite E.
    rewrite Hunknown; [by rewrite bool_decide_true| | |done].
    + split; [done|]. apply not_elem_of_chars. by vm_compute.
    + intros l Hin E'%chars_inj. subst l. revert Hin. apply (bool_decide_unpack _). vm_compute. exact I.
  - intros label rest Hp Hh HA Hno.
    rewrite parsedef_plain by (apply join_more_head; [done|]; rewrite join_head; [done | apply Hp]).
    destruct (loop_known ls (label :: rest) _ valid HF Hl ltac:(done) (le_n _)) as (f' & E & Hf'). rewrite E.
    rewrite Hunknown by done. by rewrite bool_decide_false.
Qed.

(** ** Concrete output *)

Definition an_env : parsenv.parsenv :=
  parsenv.mk (chars "host") 100 4096 20 (fun _ => tm.mk 1 2 3 4 5 100).

(** One disk, one processor. *)
Definition a_sample : sstat.sstat :=
  set_sstat_dsk (set_dskstat_dsk [perdsk.mk "sda" 1 2 3 4 5 6 []; perdsk_zero] (sstat.dsk sstat_zero))
    (set_sstat_cpu (set_cpustat_nrcpu 1 (sstat.cpu sstat_zero)) sstat_zero).

(** CPU, DSK and NET. *)
Definition a_selection : list bool :=
  [true; false; false; false; false; false; false; false; true; false; false; false; true].

Lemma zero_terminated {A} (name : A -> string) n (z : A) : (0 < n)%nat -> name z = EmptyString ->
  terminated name 0 (replicate n z).
Proof. intros Hn Hz. split; [lia|]. exists z. rewrite Hz. split; [by apply lookup_replicate_2 | done]. Qed.

Lemma a_sample_printable : printable an_env a_sample.
Proof.
  split; try (cbn; lia).
  - split; [vm_compute; lia|]. by vm_compute.
  - repeat (apply Forall_cons; split); [| | |done].
    + exists 0%nat. apply (zero_terminated perdsk.name MAXLVM); [unfold MAXLVM; lia|done].
    + exists 0%nat. apply (zero_terminated perdsk.name MAXMDD); [unfold MAXMDD; lia|done].
    + exists 1%nat. split; [|by exists perdsk_zero]. intros [|i] x Hi Hx; [by injection Hx as <-|lia].
  - exists 0%nat. apply (zero_terminated perintf.name MAXINTF); [unfold MAXINTF; lia|done].
Qed.

Definition arg_okb (a : arg) : bool :=
  match a with
  | AInt z => (- 2 ^ 63 <=? z) && (z <? 2 ^ 63)
  | AStr s => negb (existsb (fun c => Ascii.eqb c " " || Ascii.eqb c newline) s)
  | AChr c => negb (Ascii.eqb c " " || Ascii.eqb c newline)
  | AFlt x => 0 <? x.2
  end.

Lemma arg_okb_ok a : arg_okb a = true -> arg_ok a.
Proof.
  destruct a as [z|s|c|x]; cbn [arg_okb arg_ok].
  - unfold in_i64. lia.
  - intros H%negb_true_iff. assert (Hx : forall c, c ∈ s -> Ascii.eqb c " " || Ascii.eqb c newline = false).
    { intros c Hc. apply not_true_iff_false. intros E. apply not_true_iff_false in H. apply H. apply existsb_exists.
      exists c. split; [by apply list_elem_of_In | done]. }
    split; intros Hin; specialize (Hx _ Hin); done.
  - intros [H1 H2]%negb_true_iff%orb_false_iff. split; intros Hin%list_elem_of_singleton; subst c; done.
  - lia.
Qed.

Lemma parseout_read_witness : exists ss' lines out,
  parseout an_env (a_selection ++ replicate 5 false) 1000 10 (devtstat.mk [] [] [] 0 0 0 0 0 0 0 0) a_sample 1 = Some (out, ss') /\
  split_on newline out = [chars "RESET"] ++ lines ++ [chars "SEP"; []] /\ length lines = 3%nat.
Proof.
  destruct (parseout_read an_env a_selection 1000 10 (devtstat.mk [] [] [] 0 0 0 0 0 0 0 0) a_sample 1)
    as (ss' & lines & out & E & _ & Hs & HF); [done | apply a_sample_printable | split; apply not_elem_of_chars; by vm_compute | | |].
  - intros label Hin. unfold label_names in Hin.
    repeat (apply elem_of_cons in Hin as [->|Hin]; [vm_compute; lia|]). by apply elem_of_nil in Hin.
  - assert (H : forallb (fun t => forallb arg_okb t.2) (told an_env a_selection a_sample) = true) by (vm_compute; reflexivity).
    rewrite forallb_forall in H. apply Forall_forall. intros t Ht. specialize (H t (proj1 (list_elem_of_In _ _) Ht)).
    rewrite forallb_forall in H. apply Forall_forall. intros a Ha. by apply arg_okb_ok, H, list_elem_of_In.
  - exists ss', lines, out. split; [exact E|]. split; [exact Hs|]. apply Forall2_length in HF. rewrite HF. by vm_compute.
Defined.

Lemma parsedef_spec_witness :
  parsedef (chars "CPU,DSK,NET") (replicate 18 false) = Some (1, a_selection ++ replicate 5 false).
Proof.
  destruct (parsedef_spec ["CPU"; "DSK"; "NET"] (replicate 18 false)) as [H _]; [|done|].
  - apply (bool_decide_unpack _). vm_compute. exact I.
  - exact (H ltac:(done)).
Defined.
