(* ===== verification/Showprocs.v ===== *)
(** * The columns of the process list: showprocs.c

    One definition per conversion function and per [proc_printdef]. A conversion
    gives the text that it writes to its buffer; [None] is a division by zero.
    This build has no ncurses ([screen] is not set). *)
From Stdlib Require Import Ascii.
From S2P Require Import Prelude Format Tstat Netatopif Deviattask Various.

(** What the conversions find around them; [idwidth] is the [width] member of
    the columns PID, TID, PPID and VPID, which [init_proc_prints] sets for the
    four at once. *)
Module prtenv.
Record prtenv := mk {
  hertz : Z;
  supportflags : Z;
  getpwuid : Z -> option text;
  getgrgid : Z -> option text;
  localtime : Z -> tm.tm;
  startoffset : Z;
  idwidth : Z
}.
End prtenv.

Definition conversion : Type := prtenv.prtenv -> tstat.tstat -> bool -> Z -> option text.

(** [proc_printdef] *)
Module printdef.
Record printdef := mk {
  head : option string;
  configname : string;
  doactiveconvert : conversion;
  doexitconvert : conversion;
  width : Z;
  varwidth : Z
}.
End printdef.

(** [%*.*s]: at most that many characters, padded to the width. *)
Definition fmt_s (width : Z) (prec : option nat) (s : text) : text :=
  pad width (match prec with Some n => take n s | None => s end).

(** [val2cpustr(ticks * 1000 / hertz, buf)] *)
Definition cpu_text (e : prtenv.prtenv) (ticks : Z) : option text :=
  if e.(prtenv.hertz) =? 0 then None else Some (val2cpustr (Z.quot (i64 (ticks * 1000)) e.(prtenv.hertz))).

(** [btime + elaps / hertz] *)
Definition end_time (e : prtenv.prtenv) (cur : tstat.tstat) : option Z :=
  if e.(prtenv.hertz) =? 0 then None
  else Some (i64 (cur.(tstat.gen).(tgen.btime) + Z.quot cur.(tstat.gen).(tgen.elaps) e.(prtenv.hertz))).

(** The average size of a packet, an [int]. *)
Definition average_size (sz cnt : Z) : Z := if cnt =? 0 then 0 else i32 (Z.quot sz cnt).

(** Bytes in [nsecs] seconds as kilobits per second. *)
Definition bandwidth (bytes nsecs : Z) : option Z :=
  if nsecs =? 0 then None else Some (Z.quot (Z.quot bytes 125) nsecs).

Definition format_bandw (kbps : Z) : text :=
  let '(kbps, c) :=
    if kbps <? 10000 then (kbps, "K"%char)
    else if kbps <? 10000 * 1000 then (Z.quot kbps 1000, "M"%char)
    else if kbps <? 10000 * 1000 * 1000 then (Z.quot kbps (1000 * 1000), "G"%char)
    else (Z.quot (Z.quot (Z.quot kbps 1000) 1000) 1000, "T"%char) in
  pad 4 (fmt_d kbps) ++ " "%char :: c :: chars "bps".

(** ** The conversions and columns *)

Definition procprt_NOTAVAIL_4 : conversion := fun e cur avgval nsecs =>
  Some (chars "   ?").
Definition procprt_NOTAVAIL_5 : conversion := fun e cur avgval nsecs =>
  Some (chars "    ?").
Definition procprt_NOTAVAIL_6 : conversion := fun e cur avgval nsecs =>
  Some (chars "     ?").
Definition procprt_NOTAVAIL_7 : conversion := fun e cur avgval nsecs =>
  Some (chars "      ?").

Definition procprt_TID_ae : conversion := fun e cur avgval nsecs =>
  Some (if negb (cur.(tstat.gen).(tgen.isproc) =? 0) then pad e.(prtenv.idwidth) (chars "-") else pad e.(prtenv.idwidth) (fmt_d cur.(tstat.gen).(tgen.pid))).
Definition procprt_TID : printdef.printdef :=
  printdef.mk (Some "TID") "TID" procprt_TID_ae procprt_TID_ae 5 0.

Definition procprt_PID_a : conversion := fun e cur avgval nsecs =>
  Some (pad e.(prtenv.idwidth) (fmt_d cur.(tstat.gen).(tgen.tgid))).
Definition procprt_PID_e : conversion := fun e cur avgval nsecs =>
  Some (if cur.(tstat.gen).(tgen.pid) =? 0 then pad e.(prtenv.idwidth) (chars "?") else pad e.(prtenv.idwidth) (fmt_d cur.(tstat.gen).(tgen.tgid))).
Definition procprt_PID : printdef.printdef :=
  printdef.mk (Some "PID") "PID" procprt_PID_a procprt_PID_e 5 0.

Definition procprt_PPID_a : conversion := fun e cur avgval nsecs =>
  Some (pad e.(prtenv.idwidth) (fmt_d cur.(tstat.gen).(tgen.ppid))).
Definition procprt_PPID_e : conversion := fun e cur avgval nsecs =>
  Some (pad e.(prtenv.idwidth) (chars "-")).
Definition procprt_PPID : printdef.printdef :=
  printdef.mk (Some "PPID") "PPID" procprt_PPID_a procprt_PPID_e 5 0.

Definition procprt_VPID_a : conversion := fun e cur avgval nsecs =>
  Some (pad e.(prtenv.idwidth) (fmt_d cur.(tstat.gen).(tgen.vpid))).
Definition procprt_VPID_e : conversion := fun e cur avgval nsecs =>
  Some (pad e.(prtenv.idwidth) (chars "-")).
Definition procprt_VPID : printdef.printdef :=
  printdef.mk (Some "VPID") "VPID" procprt_VPID_a procprt_VPID_e 5 0.

Definition procprt_CTID_a : conversion := fun e cur avgval nsecs =>
  Some (pad 5 (fmt_d cur.(tstat.gen).(tgen.ctid))).
Definition procprt_CTID_e : conversion := fun e cur avgval nsecs =>
  Some (chars "    -").
Definition procprt_CTID : printdef.printdef :=
  printdef.mk (Some " CTID") "CTID" procprt_CTID_a procprt_CTID_e 5 0.

Definition procprt_CID_a : conversion := fun e cur avgval nsecs =>
  Some (if str_nonempty cur.(tstat.gen).(tgen.container) then fmt_s (-12) None (chars cur.(tstat.gen).(tgen.container)) else fmt_s (-12) None (chars "host--------")).
Definition procprt_CID_e : conversion := fun e cur avgval nsecs =>
  Some (if str_nonempty cur.(tstat.gen).(tgen.container) then fmt_s (-12) None (chars cur.(tstat.gen).(tgen.container)) else fmt_s (-12) None (chars "?")).
Definition procprt_CID : printdef.printdef :=
  printdef.mk (Some "CID         ") "CID" procprt_CID_a procprt_CID_e 12 0.

Definition procprt_SYSCPU_ae : conversion := fun e cur avgval nsecs =>
  cpu_text e (cur.(tstat.cpu).(tcpu.stime)).
Definition procprt_SYSCPU : printdef.printdef :=
  printdef.mk (Some "SYSCPU") "SYSCPU" procprt_SYSCPU_ae procprt_SYSCPU_ae 6 0.

Definition procprt_USRCPU_ae : conversion := fun e cur avgval nsecs =>
  cpu_text e (cur.(tstat.cpu).(tcpu.utime)).
Definition procprt_USRCPU : printdef.printdef :=
  printdef.mk (Some "USRCPU") "USRCPU" procprt_USRCPU_ae procprt_USRCPU_ae 6 0.

Definition procprt_VGROW_a : conversion := fun e cur avgval nsecs =>
  Some (val2memstr (i64 (cur.(tstat.mem).(tmem.vgrow) * 1024)) KBFORMAT false 0).
Definition procprt_VGROW_e : conversion := fun e cur avgval nsecs =>
  Some (chars "    0K").
Definition procprt_VGROW : printdef.printdef :=
  printdef.mk (Some " VGROW") "VGROW" procprt_VGROW_a procprt_VGROW_e 6 0.

Definition procprt_RGROW_a : conversion := fun e cur avgval nsecs =>
  Some (val2memstr (i64 (cur.(tstat.mem).(tmem.rgrow) * 1024)) KBFORMAT false 0).
Definition procprt_RGROW_e : conversion := fun e cur avgval nsecs =>
  Some (chars "    0K").
Definition procprt_RGROW : printdef.printdef :=
  printdef.mk (Some " RGROW") "RGROW" procprt_RGROW_a procprt_RGROW_e 6 0.

Definition procprt_MINFLT_ae : conversion := fun e cur avgval nsecs =>
  val2valstr cur.(tstat.mem).(tmem.minflt) 6 avgval nsecs.
Definition procprt_MINFLT : printdef.printdef :=
  printdef.mk (Some "MINFLT") "MINFLT" procprt_MINFLT_ae procprt_MINFLT_ae 6 0.

Definition procprt_MAJFLT_ae : conversion := fun e cur avgval nsecs =>
  val2valstr cur.(tstat.mem).(tmem.majflt) 6 avgval nsecs.
Definition procprt_MAJFLT : printdef.printdef :=
  printdef.mk (Some "MAJFLT") "MAJFLT" procprt_MAJFLT_ae procprt_MAJFLT_ae 6 0.

Definition procprt_VSTEXT_a : conversion := fun e cur avgval nsecs =>
  Some (val2memstr (i64 (cur.(tstat.mem).(tmem.vexec) * 1024)) KBFORMAT false 0).
Definition procprt_VSTEXT_e : conversion := fun e cur avgval nsecs =>
  Some (chars "    0K").
Definition procprt_VSTEXT : printdef.printdef :=
  printdef.mk (Some "VSTEXT") "VSTEXT" procprt_VSTEXT_a procprt_VSTEXT_e 6 0.

Definition procprt_VSIZE_a : conversion := fun e cur avgval nsecs =>
  Some (val2memstr (i64 (cur.(tstat.mem).(tmem.vmem) * 1024)) KBFORMAT false 0).
Definition procprt_VSIZE_e : conversion := fun e cur avgval nsecs =>
  Some (chars "    0K").
Definition procprt_VSIZE : printdef.printdef :=
  printdef.mk (Some " VSIZE") "VSIZE" procprt_VSIZE_a procprt_VSIZE_e 6 0.

Definition procprt_RSIZE_a : conversion := fun e cur avgval nsecs =>
  Some (val2memstr (i64 (cur.(tstat.mem).(tmem.rmem) * 1024)) KBFORMAT false 0).
Definition procprt_RSIZE_e : conversion := fun e cur avgval nsecs =>
  Some (chars "    0K").
Definition procprt_RSIZE : printdef.printdef :=
  printdef.mk (Some " RSIZE") "RSIZE" procprt_RSIZE_a procprt_RSIZE_e 6 0.

Definition procprt_PSIZE_a : conversion := fun e cur avgval nsecs =>
  if u64 cur.(tstat.mem).(tmem.pmem) =? u64 (-1) then Some (chars "    ?K")
  else Some (val2memstr (i64 (cur.(tstat.mem).(tmem.pmem) * 1024)) KBFORMAT false 0).
Definition procprt_PSIZE_e : conversion := fun e cur avgval nsecs =>
  Some (chars "    0K").
Definition procprt_PSIZE : printdef.printdef :=
  printdef.mk (Some " PSIZE") "PSIZE" procprt_PSIZE_a procprt_PSIZE_e 6 0.

Definition procprt_VSLIBS_a : conversion := fun e cur avgval nsecs =>
  Some (val2memstr (i64 (cur.(tstat.mem).(tmem.vlibs) * 1024)) KBFORMAT false 0).
Definition procprt_VSLIBS_e : conversion := fun e cur avgval nsecs =>
  Some (chars "    0K").
Definition procprt_VSLIBS : printdef.printdef :=
  printdef.mk (Some "VSLIBS") "VSLIBS" procprt_VSLIBS_a procprt_VSLIBS_e 6 0.

Definition procprt_VDATA_a : conversion := fun e cur avgval nsecs =>
  Some (val2memstr (i64 (cur.(tstat.mem).(tmem.vdata) * 1024)) KBFORMAT false 0).
Definition procprt_VDATA_e : conversion := fun e cur avgval nsecs =>
  Some (chars "    0K").
Definition procprt_VDATA : printdef.printdef :=
  printdef.mk (Some " VDATA") "VDATA" procprt_VDATA_a procprt_VDATA_e 6 0.

Definition procprt_VSTACK_a : conversion := fun e cur avgval nsecs =>
  Some (val2memstr (i64 (cur.(tstat.mem).(tmem.vstack) * 1024)) KBFORMAT false 0).
Definition procprt_VSTACK_e : conversion := fun e cur avgval nsecs =>
  Some (chars "    0K").
Definition procprt_VSTACK : printdef.printdef :=
  printdef.mk (Some "VSTACK") "VSTACK" procprt_VSTACK_a procprt_VSTACK_e 6 0.

Definition procprt_SWAPSZ_a : conversion := fun e cur avgval nsecs =>
  Some (val2memstr (i64 (cur.(tstat.mem).(tmem.vswap) * 1024)) KBFORMAT false 0).
Definition procprt_SWAPSZ_e : conversion := fun e cur avgval nsecs =>
  Some (chars "    0K").
Definition procprt_SWAPSZ : printdef.printdef :=
  printdef.mk (Some "SWAPSZ") "SWAPSZ" procprt_SWAPSZ_a procprt_SWAPSZ_e 6 0.

Definition procprt_CMD_a : conversion := fun e cur avgval nsecs =>
  Some (fmt_s (-14) (Some 14%nat) (chars cur.(tstat.gen).(tgen.name))).
Definition procprt_CMD_e : conversion := fun e cur avgval nsecs =>
  Some (fmt_s (-14) (Some 14%nat) (chars "<" ++ fmt_s 0 (Some 12%nat) (chars cur.(tstat.gen).(tgen.name)) ++ chars ">")).
Definition procprt_CMD : printdef.printdef :=
  printdef.mk (Some "CMD           ") "CMD" procprt_CMD_a procprt_CMD_e 14 0.

Definition procprt_RUID_ae : conversion := fun e cur avgval nsecs =>
  Some (match e.(prtenv.getpwuid) cur.(tstat.gen).(tgen.ruid) with
        | Some pw_name => fmt_s (-8) (Some 8%nat) pw_name
        | None => take 8 (pad (-8) (fmt_d cur.(tstat.gen).(tgen.ruid)))
        end).
Definition procprt_RUID : printdef.printdef :=
  printdef.mk (Some "RUID    ") "RUID" procprt_RUID_ae procprt_RUID_ae 8 0.

Definition procprt_EUID_a : conversion := fun e cur avgval nsecs =>
  Some (match e.(prtenv.getpwuid) cur.(tstat.gen).(tgen.euid) with
        | Some pw_name => fmt_s (-8) (Some 8%nat) pw_name
        | None => take 8 (pad (-8) (fmt_d cur.(tstat.gen).(tgen.euid)))
        end).
Definition procprt_EUID_e : conversion := fun e cur avgval nsecs =>
  Some (chars "-       ").
Definition procprt_EUID : printdef.printdef :=
  printdef.mk (Some "EUID    ") "EUID" procprt_EUID_a procprt_EUID_e 8 0.

Definition procprt_SUID_a : conversion := fun e cur avgval nsecs =>
  Some (match e.(prtenv.getpwuid) cur.(tstat.gen).(tgen.suid) with
        | Some pw_name => fmt_s (-8) (Some 8%nat) pw_name
        | None => take 8 (pad (-8) (fmt_d cur.(tstat.gen).(tgen.suid)))
        end).
Definition procprt_SUID_e : conversion := fun e cur avgval nsecs =>
  Some (chars "-       ").
Definition procprt_SUID : printdef.printdef :=
  printdef.mk (Some "SUID    ") "SUID" procprt_SUID_a procprt_SUID_e 8 0.

Definition procprt_FSUID_a : conversion := fun e cur avgval nsecs =>
  Some (match e.(prtenv.getpwuid) cur.(tstat.gen).(tgen.fsuid) with
        | Some pw_name => fmt_s (-8) (Some 8%nat) pw_name
        | None => take 8 (pad (-8) (fmt_d cur.(tstat.gen).(tgen.fsuid)))
        end).
Definition procprt_FSUID_e : conversion := fun e cur avgval nsecs =>
  Some (chars "-       ").
Definition procprt_FSUID : printdef.printdef :=
  printdef.mk (Some "FSUID   ") "FSUID" procprt_FSUID_a procprt_FSUID_e 8 0.

Definition procprt_RGID_ae : conversion := fun e cur avgval nsecs =>
  let groupname := match e.(prtenv.getgrgid) cur.(tstat.gen).(tgen.rgid) with
                   | Some gr_name => gr_name
                   | None => take 15 (fmt_d cur.(tstat.gen).(tgen.rgid))
                   end in
  Some (fmt_s (-8) (Some 8%nat) groupname).
Definition procprt_RGID : printdef.printdef :=
  printdef.mk (Some "RGID    ") "RGID" procprt_RGID_ae procprt_RGID_ae 8 0.

Definition procprt_EGID_a : conversion := fun e cur avgval nsecs =>
  let groupname := match e.(prtenv.getgrgid) cur.(tstat.gen).(tgen.egid) with
                   | Some gr_name => gr_name
                   | None => take 15 (fmt_d cur.(tstat.gen).(tgen.egid))
                   end in
  Some (fmt_s (-8) (Some 8%nat) groupname).
Definition procprt_EGID_e : conversion := fun e cur avgval nsecs =>
  Some (chars "-       ").
Definition procprt_EGID : printdef.printdef :=
  printdef.mk (Some "EGID    ") "EGID" procprt_EGID_a procprt_EGID_e 8 0.

Definition procprt_SGID_a : conversion := fun e cur avgval nsecs =>
  let groupname := match e.(prtenv.getgrgid) cur.(tstat.gen).(tgen.sgid) with
                   | Some gr_name => gr_name
                   | None => take 15 (fmt_d cur.(tstat.gen).(tgen.sgid))
                   end in
  Some (fmt_s (-8) (Some 8%nat) groupname).
Definition procprt_SGID_e : conversion := fun e cur avgval nsecs =>
  Some (chars "-       ").
Definition procprt_SGID : printdef.printdef :=
  printdef.mk (Some "SGID    ") "SGID" procprt_SGID_a procprt_SGID_e 8 0.

Definition procprt_FSGID_a : conversion := fun e cur avgval nsecs =>
  let groupname := match e.(prtenv.getgrgid) cur.(tstat.gen).(tgen.fsgid) with
                   | Some gr_name => gr_name
                   | None => take 15 (fmt_d cur.(tstat.gen).(tgen.fsgid))
                   end in
  Some (fmt_s (-8) (Some 8%nat) groupname).
Definition procprt_FSGID_e : conversion := fun e cur avgval nsecs =>
  Some (chars "-       ").
Definition procprt_FSGID : printdef.printdef :=
  printdef.mk (Some "FSGID   ") "FSGID" procprt_FSGID_a procprt_FSGID_e 8 0.

Definition procprt_STDATE_ae : conversion := fun e cur avgval nsecs =>
  Some (convdate e.(prtenv.localtime) cur.(tstat.gen).(tgen.btime)).
Definition procprt_STDATE : printdef.printdef :=
  printdef.mk (Some "  STDATE  ") "STDATE" procprt_STDATE_ae procprt_STDATE_ae 10 0.

Definition procprt_STTIME_ae : conversion := fun e cur avgval nsecs =>
  Some (convtime e.(prtenv.localtime) cur.(tstat.gen).(tgen.btime)).
Definition procprt_STTIME : printdef.printdef :=
  printdef.mk (Some " STTIME ") "STTIME" procprt_STTIME_ae procprt_STTIME_ae 8 0.

Definition procprt_ENDATE_a : conversion := fun e cur avgval nsecs =>
  Some (chars "  active  ").
Definition procprt_ENDATE_e : conversion := fun e cur avgval nsecs =>
  t ← end_time e cur; Some (convdate e.(prtenv.localtime) t).
Definition procprt_ENDATE : printdef.printdef :=
  printdef.mk (Some "  ENDATE  ") "ENDATE" procprt_ENDATE_a procprt_ENDATE_e 10 0.

Definition procprt_ENTIME_a : conversion := fun e cur avgval nsecs =>
  Some (chars " active ").
Definition procprt_ENTIME_e : conversion := fun e cur avgval nsecs =>
  t ← end_time e cur; Some (convtime e.(prtenv.localtime) t).
Definition procprt_ENTIME : printdef.printdef :=
  printdef.mk (Some " ENTIME ") "ENTIME" procprt_ENTIME_a procprt_ENTIME_e 8 0.

Definition procprt_THR_a : conversion := fun e cur avgval nsecs =>
  Some (pad 4 (fmt_d cur.(tstat.gen).(tgen.nthr))).
Definition procprt_THR_e : conversion := fun e cur avgval nsecs =>
  Some (chars "   0").
Definition procprt_THR : printdef.printdef :=
  printdef.mk (Some " THR") "THR" procprt_THR_a procprt_THR_e 4 0.

Definition procprt_TRUN_a : conversion := fun e cur avgval nsecs =>
  Some (pad 4 (fmt_d cur.(tstat.gen).(tgen.nthrrun))).
Definition procprt_TRUN_e : conversion := fun e cur avgval nsecs =>
  Some (chars "   0").
Definition procprt_TRUN : printdef.printdef :=
  printdef.mk (Some "TRUN") "TRUN" procprt_TRUN_a procprt_TRUN_e 4 0.

Definition procprt_TSLPI_a : conversion := fun e cur avgval nsecs =>
  Some (pad 5 (fmt_d cur.(tstat.gen).(tgen.nthrslpi))).
Definition procprt_TSLPI_e : conversion := fun e cur avgval nsecs =>
  Some (chars "    0").
Definition procprt_TSLPI : printdef.printdef :=
  printdef.mk (Some "TSLPI") "TSLPI" procprt_TSLPI_a procprt_TSLPI_e 5 0.

Definition procprt_TSLPU_a : conversion := fun e cur avgval nsecs =>
  Some (pad 5 (fmt_d cur.(tstat.gen).(tgen.nthrslpu))).
Definition procprt_TSLPU_e : conversion := fun e cur avgval nsecs =>
  Some (chars "    0").
Definition procprt_TSLPU : printdef.printdef :=
  printdef.mk (Some "TSLPU") "TSLPU" procprt_TSLPU_a procprt_TSLPU_e 5 0.

Definition SCHED_NORMAL : Z := 0.
Definition SCHED_FIFO : Z := 1.
Definition SCHED_RR : Z := 2.
Definition SCHED_BATCH : Z := 3.
Definition SCHED_ISO : Z := 4.
Definition SCHED_IDLE : Z := 5.
Definition SCHED_DEADLINE : Z := 6.
Definition procprt_POLI_a : conversion := fun e cur avgval nsecs =>
  let policy := cur.(tstat.cpu).(tcpu.policy) in
  Some (chars (
    if policy =? SCHED_NORMAL then "norm" else
    if policy =? SCHED_FIFO then "fifo" else
    if policy =? SCHED_RR then "rr  " else
    if policy =? SCHED_BATCH then "btch" else
    if policy =? SCHED_ISO then "iso " else
    if policy =? SCHED_IDLE then "idle" else
    if policy =? SCHED_DEADLINE then "dead" else
    "?   ")).
Definition procprt_POLI_e : conversion := fun e cur avgval nsecs =>
  Some (chars "-   ").
Definition procprt_POLI : printdef.printdef :=
  printdef.mk (Some "POLI") "POLI" procprt_POLI_a procprt_POLI_e 4 0.

Definition procprt_NICE_a : conversion := fun e cur avgval nsecs =>
  Some (pad 4 (fmt_d cur.(tstat.cpu).(tcpu.nice))).
Definition procprt_NICE_e : conversion := fun e cur avgval nsecs =>
  Some (chars "   -").
Definition procprt_NICE : printdef.printdef :=
  printdef.mk (Some "NICE") "NICE" procprt_NICE_a procprt_NICE_e 4 0.

Definition procprt_PRI_a : conversion := fun e cur avgval nsecs =>
  Some (pad 3 (fmt_d cur.(tstat.cpu).(tcpu.prio))).
Definition procprt_PRI_e : conversion := fun e cur avgval nsecs =>
  Some (chars "  -").
Definition procprt_PRI : printdef.printdef :=
  printdef.mk (Some "PRI") "PRI" procprt_PRI_a procprt_PRI_e 3 0.

Definition procprt_RTPR_a : conversion := fun e cur avgval nsecs =>
  Some (pad 4 (fmt_d cur.(tstat.cpu).(tcpu.rtprio))).
Definition procprt_RTPR_e : conversion := fun e cur avgval nsecs =>
  Some (chars "   -").
Definition procprt_RTPR : printdef.printdef :=
  printdef.mk (Some "RTPR") "RTPR" procprt_RTPR_a procprt_RTPR_e 4 0.

Definition procprt_CURCPU_a : conversion := fun e cur avgval nsecs =>
  Some (pad 5 (fmt_d cur.(tstat.cpu).(tcpu.curcpu))).
Definition procprt_CURCPU_e : conversion := fun e cur avgval nsecs =>
  Some (chars "    -").
Definition procprt_CURCPU : printdef.printdef :=
  printdef.mk (Some "CPUNR") "CPUNR" procprt_CURCPU_a procprt_CURCPU_e 5 0.

Definition procprt_ST_a : conversion := fun e cur avgval nsecs =>
  Some (chars (if Z.land cur.(tstat.gen).(tgen.excode) (- 2 ^ 31) =? 0 then "--" else "N-")).
Definition procprt_ST_e : conversion := fun e cur avgval nsecs =>
  let excode := cur.(tstat.gen).(tgen.excode) in
  Some ([if Z.land excode (- 2 ^ 31) =? 0 then "-"%char else "N"%char;
         if Z.land excode 0xff =? 0 then "E"%char
         else if Z.land excode 0x80 =? 0 then "S"%char else "C"%char]).
Definition procprt_ST : printdef.printdef :=
  printdef.mk (Some "ST") "ST" procprt_ST_a procprt_ST_e 2 0.

Definition procprt_EXC_a : conversion := fun e cur avgval nsecs =>
  Some (chars "  -").
Definition procprt_EXC_e : conversion := fun e cur avgval nsecs =>
  let excode := cur.(tstat.gen).(tgen.excode) in
  Some (pad 3 (fmt_d (if Z.land excode 0xff =? 0 then Z.land (Z.shiftr excode 8) 0xff else Z.land excode 0x7f))).
Definition procprt_EXC : printdef.printdef :=
  printdef.mk (Some "EXC") "EXC" procprt_EXC_a procprt_EXC_e 3 0.

Definition procprt_S_a : conversion := fun e cur avgval nsecs =>
  Some [ascii_of_nat (Z.to_nat (cur.(tstat.gen).(tgen.state) mod 256))].
Definition procprt_S_e : conversion := fun e cur avgval nsecs =>
  Some (chars "E").
Definition procprt_S : printdef.printdef :=
  printdef.mk (Some "S") "S" procprt_S_a procprt_S_e 1 0.

Definition procprt_COMMAND_LINE_ae : conversion := fun e cur avgval nsecs =>
    let pline := chars (if str_nonempty cur.(tstat.gen).(tgen.cmdline) then cur.(tstat.gen).(tgen.cmdline) else
    cur.(tstat.gen).(tgen.name)) in
  let cmdlen := Z.of_nat (length pline) in
  let curoffset := if e.(prtenv.startoffset) <=? cmdlen then e.(prtenv.startoffset) else cmdlen in
  if curoffset <? 0 then None else Some (fmt_s 0 (Some CMDLEN) (drop (Z.to_nat curoffset) pline)).
Definition procprt_COMMAND_LINE : printdef.printdef :=
  printdef.mk (Some "COMMAND-LINE (horizontal scroll with <- and -> keys)") "COMMAND-LINE" procprt_COMMAND_LINE_ae procprt_COMMAND_LINE_ae 0 1.

Definition procprt_NPROCS_ae : conversion := fun e cur avgval nsecs =>
  val2valstr cur.(tstat.gen).(tgen.pid) 6 false 0.
Definition procprt_NPROCS : printdef.printdef :=
  printdef.mk (Some "NPROCS") "NPROCS" procprt_NPROCS_ae procprt_NPROCS_ae 6 0.

Definition procprt_RDDSK_a : conversion := fun e cur avgval nsecs =>
  Some (val2memstr (i64 (cur.(tstat.dsk).(tdsk.rsz) * 512)) KBFORMAT avgval nsecs).
Definition procprt_RDDSK_e : conversion := fun e cur avgval nsecs =>
  Some (chars "     -").
Definition procprt_RDDSK : printdef.printdef :=
  printdef.mk (Some " RDDSK") "RDDSK" procprt_RDDSK_a procprt_RDDSK_e 6 0.

Definition procprt_WRDSK_a : conversion := fun e cur avgval nsecs =>
  Some (val2memstr (i64 (cur.(tstat.dsk).(tdsk.wsz) * 512)) KBFORMAT avgval nsecs).
Definition procprt_WRDSK_e : conversion := fun e cur avgval nsecs =>
  Some (chars "     -").
Definition procprt_WRDSK : printdef.printdef :=
  printdef.mk (Some " WRDSK") "WRDSK" procprt_WRDSK_a procprt_WRDSK_e 6 0.

Definition procprt_CWRDSK_a : conversion := fun e cur avgval nsecs =>
  let d := cur.(tstat.dsk) in
  let nett_wsz := if d.(tdsk.cwsz) <? d.(tdsk.wsz) then i64 (d.(tdsk.wsz) - d.(tdsk.cwsz)) else 0 in
  Some (val2memstr (i64 (nett_wsz * 512)) KBFORMAT avgval nsecs).
Definition procprt_CWRDSK : printdef.printdef :=
  printdef.mk (Some " WRDSK") "CWRDSK" procprt_CWRDSK_a procprt_WRDSK_e 6 0.

Definition procprt_WCANCEL_a : conversion := fun e cur avgval nsecs =>
  Some (val2memstr (i64 (cur.(tstat.dsk).(tdsk.cwsz) * 512)) KBFORMAT avgval nsecs).
Definition procprt_WCANCEL_e : conversion := fun e cur avgval nsecs =>
  Some (chars "     -").
Definition procprt_WCANCEL : printdef.printdef :=
  printdef.mk (Some "WCANCL") "WCANCL" procprt_WCANCEL_a procprt_WCANCEL_e 6 0.

Definition procprt_TCPRCV_a : conversion := fun e cur avgval nsecs =>
  val2valstr cur.(tstat.net).(tnet.tcprcv) 6 avgval nsecs.
Definition procprt_TCPRCV_e : conversion := fun e cur avgval nsecs =>
  if netatopd_on e.(prtenv.supportflags) then val2valstr cur.(tstat.net).(tnet.tcprcv) 6 avgval nsecs
  else Some (chars "     -").
Definition procprt_TCPRCV : printdef.printdef :=
  printdef.mk (Some "TCPRCV") "TCPRCV" procprt_TCPRCV_a procprt_TCPRCV_e 6 0.

Definition procprt_TCPRASZ_a : conversion := fun e cur avgval nsecs =>
  val2valstr (average_size cur.(tstat.net).(tnet.tcprsz) cur.(tstat.net).(tnet.tcprcv)) 7 false 0.
Definition procprt_TCPRASZ_e : conversion := fun e cur avgval nsecs =>
    if netatopd_on e.(prtenv.supportflags) then val2valstr (average_size cur.(tstat.net).(tnet.tcprsz)
    cur.(tstat.net).(tnet.tcprcv)) 7 false 0
  else Some (chars "      -").
Definition procprt_TCPRASZ : printdef.printdef :=
  printdef.mk (Some "TCPRASZ") "TCPRASZ" procprt_TCPRASZ_a procprt_TCPRASZ_e 7 0.

Definition procprt_TCPSND_a : conversion := fun e cur avgval nsecs =>
  val2valstr cur.(tstat.net).(tnet.tcpsnd) 6 avgval nsecs.
Definition procprt_TCPSND_e : conversion := fun e cur avgval nsecs =>
  if netatopd_on e.(prtenv.supportflags) then val2valstr cur.(tstat.net).(tnet.tcpsnd) 6 avgval nsecs
  else Some (chars "     -").
Definition procprt_TCPSND : printdef.printdef :=
  printdef.mk (Some "TCPSND") "TCPSND" procprt_TCPSND_a procprt_TCPSND_e 6 0.

Definition procprt_TCPSASZ_a : conversion := fun e cur avgval nsecs =>
  val2valstr (average_size cur.(tstat.net).(tnet.tcpssz) cur.(tstat.net).(tnet.tcpsnd)) 7 false 0.
Definition procprt_TCPSASZ_e : conversion := fun e cur avgval nsecs =>
    if netatopd_on e.(prtenv.supportflags) then val2valstr (average_size cur.(tstat.net).(tnet.tcpssz)
    cur.(tstat.net).(tnet.tcpsnd)) 7 false 0
  else Some (chars "      -").
Definition procprt_TCPSASZ : printdef.printdef :=
  printdef.mk (Some "TCPSASZ") "TCPSASZ" procprt_TCPSASZ_a procprt_TCPSASZ_e 7 0.

Definition procprt_UDPRCV_a : conversion := fun e cur avgval nsecs =>
  val2valstr cur.(tstat.net).(tnet.udprcv) 6 avgval nsecs.
Definition procprt_UDPRCV_e : conversion := fun e cur avgval nsecs =>
  if netatopd_on e.(prtenv.supportflags) then val2valstr cur.(tstat.net).(tnet.udprcv) 6 avgval nsecs
  else Some (chars "     -").
Definition procprt_UDPRCV : printdef.printdef :=
  printdef.mk (Some "UDPRCV") "UDPRCV" procprt_UDPRCV_a procprt_UDPRCV_e 6 0.

Definition procprt_UDPRASZ_a : conversion := fun e cur avgval nsecs =>
  val2valstr (average_size cur.(tstat.net).(tnet.udprsz) cur.(tstat.net).(tnet.udprcv)) 7 false 0.
Definition procprt_UDPRASZ_e : conversion := fun e cur avgval nsecs =>
    if netatopd_on e.(prtenv.supportflags) then val2valstr (average_size cur.(tstat.net).(tnet.udprsz)
    cur.(tstat.net).(tnet.udprcv)) 7 false 0
  else Some (chars "      -").
Definition procprt_UDPRASZ : printdef.printdef :=
  printdef.mk (Some "UDPRASZ") "UDPRASZ" procprt_UDPRASZ_a procprt_UDPRASZ_e 7 0.

Definition procprt_UDPSND_a : conversion := fun e cur avgval nsecs =>
  val2valstr cur.(tstat.net).(tnet.udpsnd) 6 avgval nsecs.
Definition procprt_UDPSND_e : conversion := fun e cur avgval nsecs =>
  if netatopd_on e.(prtenv.supportflags) then val2valstr cur.(tstat.net).(tnet.udpsnd) 6 avgval nsecs
  else Some (chars "     -").
Definition procprt_UDPSND : printdef.printdef :=
  printdef.mk (Some "UDPSND") "UDPSND" procprt_UDPSND_a procprt_UDPSND_e 6 0.

Definition procprt_UDPSASZ_a : conversion := fun e cur avgval nsecs =>
  val2valstr (average_size cur.(tstat.net).(tnet.udpssz) cur.(tstat.net).(tnet.udpsnd)) 7 false 0.
Definition procprt_UDPSASZ_e : conversion := fun e cur avgval nsecs =>
    if netatopd_on e.(prtenv.supportflags) then val2valstr (average_size cur.(tstat.net).(tnet.udpssz)
    cur.(tstat.net).(tnet.udpsnd)) 7 false 0
  else Some (chars "      -").
Definition procprt_UDPSASZ : printdef.printdef :=
  printdef.mk (Some "UDPSASZ") "UDPSASZ" procprt_UDPSASZ_a procprt_UDPSASZ_e 7 0.

Definition procprt_RNET_a : conversion := fun e cur avgval nsecs =>
  val2valstr (i64 (cur.(tstat.net).(tnet.tcprcv) + cur.(tstat.net).(tnet.udprcv))) 5 avgval nsecs.
Definition procprt_RNET_e : conversion := fun e cur avgval nsecs =>
    if netatopd_on e.(prtenv.supportflags) then val2valstr (i64 (cur.(tstat.net).(tnet.tcprcv) +
    cur.(tstat.net).(tnet.udprcv))) 5 avgval nsecs
  else Some (chars "    -").
Definition procprt_RNET : printdef.printdef :=
  printdef.mk (Some " RNET") "RNET" procprt_RNET_a procprt_RNET_e 5 0.

Definition procprt_SNET_a : conversion := fun e cur avgval nsecs =>
  val2valstr (i64 (cur.(tstat.net).(tnet.tcpsnd) + cur.(tstat.net).(tnet.udpsnd))) 5 avgval nsecs.
Definition procprt_SNET_e : conversion := fun e cur avgval nsecs =>
    if netatopd_on e.(prtenv.supportflags) then val2valstr (i64 (cur.(tstat.net).(tnet.tcpsnd) +
    cur.(tstat.net).(tnet.udpsnd))) 5 avgval nsecs
  else Some (chars "    -").
Definition procprt_SNET : printdef.printdef :=
  printdef.mk (Some " SNET") "SNET" procprt_SNET_a procprt_SNET_e 5 0.

Definition procprt_BANDWI_a : conversion := fun e cur avgval nsecs =>
    kbps ← bandwidth (i64 (cur.(tstat.net).(tnet.tcprsz) + cur.(tstat.net).(tnet.udprsz))) nsecs; Some
    (format_bandw kbps).
Definition procprt_BANDWI_e : conversion := fun e cur avgval nsecs =>
    if netatopd_on e.(prtenv.supportflags) then kbps ← bandwidth (i64 (cur.(tstat.net).(tnet.tcprsz) +
    cur.(tstat.net).(tnet.udprsz))) nsecs; Some (format_bandw kbps)
  else Some (chars "        -").
Definition procprt_BANDWI : printdef.printdef :=
  printdef.mk (Some "   BANDWI") "BANDWI" procprt_BANDWI_a procprt_BANDWI_e 9 0.

Definition procprt_BANDWO_a : conversion := fun e cur avgval nsecs =>
    kbps ← bandwidth (i64 (cur.(tstat.net).(tnet.tcpssz) + cur.(tstat.net).(tnet.udpssz))) nsecs; Some
    (format_bandw kbps).
Definition procprt_BANDWO_e : conversion := fun e cur avgval nsecs =>
    if netatopd_on e.(prtenv.supportflags) then kbps ← bandwidth (i64 (cur.(tstat.net).(tnet.tcpssz) +
    cur.(tstat.net).(tnet.udpssz))) nsecs; Some (format_bandw kbps)
  else Some (chars "        -").
Definition procprt_BANDWO : printdef.printdef :=
  printdef.mk (Some "   BANDWO") "BANDWO" procprt_BANDWO_a procprt_BANDWO_e 9 0.

Definition procprt_SORTITEM_ae : conversion := fun e cur avgval nsecs =>
  Some [].
Definition procprt_SORTITEM : printdef.printdef :=
  printdef.mk (None) "SORTITEM" procprt_SORTITEM_ae procprt_SORTITEM_ae 4 0.

