(* ===== verification/Compar.v ===== *)
(** * Sort functions: the comparators of showlinux.c and the sorting they are for

    A comparator answers with a negative, zero or positive number. [qsort] may
    rely on it being the sign of a total preorder ([Comparator]). *)
From Stdlib Require Import Ascii Sorted.
From S2P Require Import Prelude Tstat Sstat.

(** ** Comparators *)

Class Comparator {A} (cmp : A -> A -> Z) := {
  cmp_flip : forall a b, Z.sgn (cmp b a) = - Z.sgn (cmp a b);
  cmp_trans : forall a b c, cmp a b <= 0 -> cmp b c <= 0 -> cmp a c <= 0;
}.

(** [strcmp]: the order of the first bytes that differ, as unsigned [char];
    the value is one of -1, 0 and 1. *)
Fixpoint strcmp (s t : string) : Z :=
  match s, t with
  | EmptyString, EmptyString => 0
  | EmptyString, String _ _ => -1
  | String _ _, EmptyString => 1
  | String a s', String b t' =>
      let x := nat_of_ascii a in
      let y := nat_of_ascii b in
      if (x <? y)%nat then -1 else if (y <? x)%nat then 1 else strcmp s' t'
  end.

Definition compmem (a b : tstat.tstat) : Z :=
  let amem := a.(tstat.mem).(tmem.rmem) in
  let bmem := b.(tstat.mem).(tmem.rmem) in
  if amem <? bmem then 1 else if bmem <? amem then -1 else 0.

Definition compcpu (a b : tstat.tstat) : Z :=
  let acpu := i64 (a.(tstat.cpu).(tcpu.stime) + a.(tstat.cpu).(tcpu.utime)) in
  let bcpu := i64 (b.(tstat.cpu).(tcpu.stime) + b.(tstat.cpu).(tcpu.utime)) in
  if acpu <? bcpu then 1 else if bcpu <? acpu then -1 else compmem a b.

Definition dsk_load (t : tstat.tstat) : Z :=
  let d := t.(tstat.dsk) in
  if d.(tdsk.cwsz) <? d.(tdsk.wsz) then i64 (i64 (d.(tdsk.rio) + d.(tdsk.wsz)) - d.(tdsk.cwsz))
  else d.(tdsk.rio).

Definition compdsk (a b : tstat.tstat) : Z :=
  let adsk := dsk_load a in
  let bdsk := dsk_load b in
  if adsk <? bdsk then 1 else if bdsk <? adsk then -1 else compcpu a b.

Definition net_load (t : tstat.tstat) : Z :=
  let n := t.(tstat.net) in
  i64 (n.(tnet.tcpssz) + n.(tnet.tcprsz) + n.(tnet.udpssz) + n.(tnet.udprsz)).

Definition compnet (a b : tstat.tstat) : Z :=
  let anet := net_load a in
  let bnet := net_load b in
  if anet <? bnet then 1 else if bnet <? anet then -1 else compcpu a b.

Definition compusr (a b : tstat.tstat) : Z :=
  let uida := a.(tstat.gen).(tgen.ruid) in
  let uidb := b.(tstat.gen).(tgen.ruid) in
  if uidb <? uida then 1 else if uida <? uidb then -1 else 0.

Definition compnam (a b : tstat.tstat) : Z :=
  strcmp a.(tstat.gen).(tgen.name) b.(tstat.gen).(tgen.name).

Definition compcon (a b : tstat.tstat) : Z :=
  strcmp a.(tstat.gen).(tgen.container) b.(tstat.gen).(tgen.container).

Definition cpucompar (a b : percpu.percpu) : Z :=
  let aidle := i64 (a.(percpu.itime) + a.(percpu.wtime)) in
  let bidle := i64 (b.(percpu.itime) + b.(percpu.wtime)) in
  if aidle <? bidle then -1 else if bidle <? aidle then 1 else 0.

Definition diskcompar (a b : perdsk.perdsk) : Z :=
  let amsio := a.(perdsk.io_ms) in
  let bmsio := b.(perdsk.io_ms) in
  if amsio <? bmsio then 1 else if bmsio <? amsio then -1 else 0.

(** The busy factor of an interface whose speed is known. *)
Definition intf_factor (x : perintf.perintf) : Z :=
  let r := x.(perintf.rbyte) in
  let s := x.(perintf.sbyte) in
  let speed := x.(perintf.speed) in
  if speed =? 0 then 0
  else if negb (x.(perintf.duplex) =? 0) then
    Z.quot (i64 ((if s <? r then r else s) * 10)) speed
  else Z.quot (i64 (i64 (r + s) * 10)) speed.

Definition intfcompar (a b : perintf.perintf) : Z :=
  let aspeed := negb (a.(perintf.speed) =? 0) in
  let bspeed := negb (b.(perintf.speed) =? 0) in
  let afactor := intf_factor a in
  let bfactor := intf_factor b in
  if aspeed && bspeed then
    if afactor <? bfactor then 1 else if bfactor <? afactor then -1 else 0
  else if negb aspeed && negb bspeed then
    let asum := i64 (a.(perintf.rbyte) + a.(perintf.sbyte)) in
    let bsum := i64 (b.(perintf.rbyte) + b.(perintf.sbyte)) in
    if asum <? bsum then 1 else if bsum <? asum then -1 else 0
  else if aspeed then -1 else 1.

Definition nfs_used (n : pernfsmount.pernfsmount) : Z :=
  i64 (n.(pernfsmount.bytesread) + n.(pernfsmount.byteswrite) + n.(pernfsmount.bytesdread) +
       n.(pernfsmount.bytesdwrite) + n.(pernfsmount.bytestotread) + n.(pernfsmount.bytestotwrite) +
       n.(pernfsmount.pagesmread) + n.(pernfsmount.pagesmwrite)).

Definition nfsmcompar (a b : pernfsmount.pernfsmount) : Z :=
  let aused := nfs_used a in
  let bused := nfs_used b in
  if aused <? bused then 1 else if bused <? aused then -1 else 0.

Definition cont_used (c : percontainer.percontainer) : Z :=
  i64 (c.(percontainer.system) + c.(percontainer.user) + c.(percontainer.nice)).

Definition contcompar (a b : percontainer.percontainer) : Z :=
  let aused := cont_used a in
  let bused := cont_used b in
  if aused <? bused then 1 else if bused <? aused then -1 else 0.

(** ** They are comparators *)

(** Descending order of a key, ties decided by another comparator. *)
Definition desc {A} (key : A -> Z) (next : A -> A -> Z) (a b : A) : Z :=
  if key a <? key b then 1 else if key b <? key a then -1 else next a b.

#[export] Instance desc_comparator {A} (key : A -> Z) next `{!Comparator next} :
  Comparator (desc key next).
Proof.
  split; unfold desc.
  - intros a b. destruct (Z.ltb_spec (key b) (key a)), (Z.ltb_spec (key a) (key b)); try lia; try done.
    apply cmp_flip.
  - intros a b c. destruct (Z.ltb_spec (key a) (key b)); [lia|].
    destruct (Z.ltb_spec (key b) (key c)); [lia|].
    destruct (Z.ltb_spec (key b) (key a)), (Z.ltb_spec (key c) (key b)), (Z.ltb_spec (key a) (key c)),
      (Z.ltb_spec (key c) (key a)); try lia. apply cmp_trans.
Qed.

#[export] Instance equal_comparator {A} : Comparator (fun _ _ : A => 0).
Proof. split; done. Qed.

(** Comparison of images. *)
#[export] Instance on_comparator {A B} (f : A -> B) cmp `{!Comparator cmp} :
  Comparator (fun a b => cmp (f a) (f b)).
Proof. split; intros; [apply cmp_flip | by eapply cmp_trans]. Qed.

#[export] Instance compmem_comparator : Comparator compmem.
Proof. exact (desc_comparator (fun t => t.(tstat.mem).(tmem.rmem)) (fun _ _ => 0)). Qed.
#[export] Instance compcpu_comparator : Comparator compcpu.
Proof.
  exact (desc_comparator (fun t => i64 (t.(tstat.cpu).(tcpu.stime) + t.(tstat.cpu).(tcpu.utime))) compmem).
Qed.
#[export] Instance compdsk_comparator : Comparator compdsk.
Proof. exact (desc_comparator dsk_load compcpu). Qed.
#[export] Instance compnet_comparator : Comparator compnet.
Proof. exact (desc_comparator net_load compcpu). Qed.
#[export] Instance diskcompar_comparator : Comparator diskcompar.
Proof. exact (desc_comparator perdsk.io_ms (fun _ _ => 0)). Qed.
#[export] Instance nfsmcompar_comparator : Comparator nfsmcompar.
Proof. exact (desc_comparator nfs_used (fun _ _ => 0)). Qed.
#[export] Instance contcompar_comparator : Comparator contcompar.
Proof. exact (desc_comparator cont_used (fun _ _ => 0)). Qed.

(** Ascending order of a key is the descending order of its opposite. *)
Lemma asc_desc {A} (key : A -> Z) a b :
  (if key b <? key a then 1 else if key a <? key b then -1 else 0) = desc (fun x => - key x) (fun _ _ => 0) a b.
Proof.
  unfold desc. destruct (Z.ltb_spec (key b) (key a)), (Z.ltb_spec (key a) (key b)),
    (Z.ltb_spec (- key a) (- key b)), (Z.ltb_spec (- key b) (- key a)); lia.
Qed.

Lemma comparator_ext {A} (f g : A -> A -> Z) : (forall a b, f a b = g a b) -> Comparator g -> Comparator f.
Proof. intros E H. split; intros *; rewrite !E; [apply cmp_flip | apply cmp_trans]. Qed.

#[export] Instance compusr_comparator : Comparator compusr.
Proof. eapply comparator_ext; [intros a b; apply (asc_desc (fun t => t.(tstat.gen).(tgen.ruid)))|apply _]. Qed.

#[export] Instance cpucompar_comparator : Comparator cpucompar.
Proof.
  apply (comparator_ext _ (desc (fun c => - i64 (c.(percpu.itime) + c.(percpu.wtime))) (fun _ _ => 0))); [|apply _].
  intros a b. rewrite <-(asc_desc (fun c => i64 (c.(percpu.itime) + c.(percpu.wtime)))).
  unfold cpucompar. repeat case_match; lia.
Qed.

(** An interface of known speed comes before one of unknown speed. *)
#[export] Instance intfcompar_comparator : Comparator intfcompar.
Proof.
  apply (comparator_ext _ (desc (fun x => c_bool (negb (x.(perintf.speed) =? 0)))
    (desc (fun x => if x.(perintf.speed) =? 0 then i64 (x.(perintf.rbyte) + x.(perintf.sbyte))
                    else intf_factor x) (fun _ _ => 0)))); [|apply _].
  intros a b. unfold intfcompar, desc.
  destruct (a.(perintf.speed) =? 0), (b.(perintf.speed) =? 0); cbn; repeat case_match; lia || done.
Qed.

Lemma strcmp_flip s t : strcmp t s = - strcmp s t.
Proof.
  revert t. induction s as [|a s IH]; intros [|b t]; cbn [strcmp]; try done.
  destruct (Nat.ltb_spec (nat_of_ascii a) (nat_of_ascii b)), (Nat.ltb_spec (nat_of_ascii b) (nat_of_ascii a));
    try lia; apply IH.
Qed.

Lemma strcmp_trans s t u : strcmp s t <= 0 -> strcmp t u <= 0 -> strcmp s u <= 0.
Proof.
  revert t u. induction s as [|a s IH]; intros [|b t] [|c u]; cbn [strcmp]; try lia.
  destruct (Nat.ltb_spec (nat_of_ascii a) (nat_of_ascii b)), (Nat.ltb_spec (nat_of_ascii b) (nat_of_ascii a)),
    (Nat.ltb_spec (nat_of_ascii b) (nat_of_ascii c)), (Nat.ltb_spec (nat_of_ascii c) (nat_of_ascii b)),
    (Nat.ltb_spec (nat_of_ascii a) (nat_of_ascii c)), (Nat.ltb_spec (nat_of_ascii c) (nat_of_ascii a));
    try lia; apply IH.
Qed.

Lemma strcmp_zero s t : strcmp s t = 0 <-> s = t.
Proof.
  revert t. induction s as [|a s IH]; intros [|b t]; cbn [strcmp]; try done.
  destruct (Nat.ltb_spec (nat_of_ascii a) (nat_of_ascii b)); [split; [done|]; intros [= -> ->]; lia|].
  destruct (Nat.ltb_spec (nat_of_ascii b) (nat_of_ascii a)); [split; [done|]; intros [= -> ->]; lia|].
  rewrite IH. assert (E : nat_of_ascii a = nat_of_ascii b) by lia.
  apply (f_equal ascii_of_nat) in E. rewrite !ascii_nat_embedding in E. split; [by intros ->; subst|].
  by intros [= _ ->].
Qed.

#[export] Instance strcmp_comparator : Comparator strcmp.
Proof. split; [intros a b; rewrite (strcmp_flip a b); lia | exact strcmp_trans]. Qed.
#[export] Instance compnam_comparator : Comparator compnam.
Proof. exact (on_comparator (fun t => t.(tstat.gen).(tgen.name)) strcmp). Qed.
#[export] Instance compcon_comparator : Comparator compcon.
Proof. exact (on_comparator (fun t => t.(tstat.gen).(tgen.container)) strcmp). Qed.

(** ** qsort

    What the C library promises: the elements in an order that the comparator
    accepts; the order of equal elements is not specified. *)

Class QSort := {
  qsort : forall {A}, (A -> A -> Z) -> list A -> list A;
  qsort_perm : forall {A} (cmp : A -> A -> Z) l, Comparator cmp -> qsort cmp l ≡ₚ l;
  qsort_sorted : forall {A} (cmp : A -> A -> Z) l, Comparator cmp ->
    StronglySorted (fun a b => cmp a b <= 0) (qsort cmp l);
}.

(** A stable instance. *)
Fixpoint insert_by {A} (cmp : A -> A -> Z) (x : A) (l : list A) : list A :=
  match l with
  | [] => [x]
  | y :: l' => if cmp x y <=? 0 then x :: l else y :: insert_by cmp x l'
  end.

Definition isort {A} (cmp : A -> A -> Z) (l : list A) : list A := foldr (insert_by cmp) [] l.

Lemma insert_by_perm {A} (cmp : A -> A -> Z) x l : insert_by cmp x l ≡ₚ x :: l.
Proof.
  induction l as [|y l IH]; cbn; [done|]. destruct (_ <=? 0); [done|]. rewrite IH. apply Permutation_swap.
Qed.

Lemma insert_by_sorted {A} (cmp : A -> A -> Z) `{!Comparator cmp} x l :
  StronglySorted (fun a b => cmp a b <= 0) l -> StronglySorted (fun a b => cmp a b <= 0) (insert_by cmp x l).
Proof.
  induction 1 as [|y l HS IH HF]; cbn; [by repeat constructor|].
  destruct (Z.leb_spec (cmp x y) 0).
  - constructor; [by constructor|]. constructor; [done|]. eapply Forall_impl; [exact HF|].
    cbn. intros z Hz. by apply (cmp_trans x y z).
  - constructor; [done|]. rewrite insert_by_perm. constructor; [|done].
    pose proof (cmp_flip x y). lia.
Qed.

#[export] Instance isort_qsort : QSort | 10.
Proof.
  refine {| qsort A := isort |}.
  - intros A cmp l _. induction l as [|x l IH]; cbn; [done|]. by rewrite insert_by_perm, IH.
  - intros A cmp l HC. induction l as [|x l IH]; cbn; [constructor|]. by apply insert_by_sorted.
Defined.

(** ** The property *)

(** C40: Every comparator that the program hands to qsort is the sign of a total
    preorder: swapping the arguments flips the sign, and the order is
    transitive. *)
Theorem comparators_consistent :
  Comparator compcpu /\ Comparator compdsk /\ Comparator compmem /\ Comparator compnet /\
  Comparator compusr /\ Comparator compnam /\ Comparator compcon /\ Comparator cpucompar /\
  Comparator diskcompar /\ Comparator intfcompar /\ Comparator nfsmcompar /\ Comparator contcompar.
Proof. do 11 (split; [apply _|]). apply _. Qed.
