(* ===== verification/Cumulate.v ===== *)
(** * Processes per user, program and container

    cumusers, cumprogs, cumconts, accumulate and procsuppress of
    showgeneric.c, totalcap of showlinux.c. Regular expressions are arguments:
    the answer of [regexec] is zero for a match. *)
From Stdlib Require Import Ascii.
From S2P Require Import Prelude Tstat Sstat Counter Compar.

Definition USERSTUB : Z := 9999999.
Definition STATE_EXIT : Z := 69. (* 'E' *)

(** [struct pselection]; [userid] ends with [USERSTUB], [pid] with 0. *)
Module pselection.
Record pselection := mk {
  userid : list Z;
  pid : list Z;
  prognamesz : Z;
  progregex : string -> Z;
  argnamesz : Z;
  argregex : string -> Z;
  container : string
}.
End pselection.

(** ** procsuppress *)

(** The first 12 bytes of a zero-padded array, for [memcmp]. *)
Definition bytes12 (s : string) : list ascii :=
  take 12 (String.list_ascii_of_string s ++ replicate 12 "000"%char).

Definition suppress_user (curstat : tstat.tstat) (sel : pselection.pselection) : option bool :=
  let ruid := u32 curstat.(tstat.gen).(tgen.ruid) in
  first ← sel.(pselection.userid) !! 0%nat;
  if first =? USERSTUB then Some false
  else
    u ← scan (fun x => (x =? USERSTUB) || (x =? ruid)) 0 sel.(pselection.userid);
    x ← sel.(pselection.userid) !! u;
    Some (negb (x =? ruid)).

Definition suppress_pid (curstat : tstat.tstat) (sel : pselection.pselection) : option bool :=
  let pid := curstat.(tstat.gen).(tgen.pid) in
  first ← sel.(pselection.pid) !! 0%nat;
  if first =? 0 then Some false
  else
    i ← scan (fun x => (x =? 0) || (x =? pid)) 0 sel.(pselection.pid);
    x ← sel.(pselection.pid) !! i;
    Some (negb (x =? pid)).

Definition suppress_name (curstat : tstat.tstat) (sel : pselection.pselection) : bool :=
  negb (sel.(pselection.prognamesz) =? 0) &&
  negb (sel.(pselection.progregex) curstat.(tstat.gen).(tgen.name) =? 0).

Definition suppress_arg (curstat : tstat.tstat) (sel : pselection.pselection) : bool :=
  let g := curstat.(tstat.gen) in
  negb (sel.(pselection.argnamesz) =? 0) &&
  negb (sel.(pselection.argregex)
          (if str_nonempty g.(tgen.cmdline) then g.(tgen.cmdline) else g.(tgen.name)) =? 0).

Definition suppress_container (curstat : tstat.tstat) (sel : pselection.pselection) : bool :=
  match sel.(pselection.container) with
  | EmptyString => false
  | String c _ =>
      if Ascii.eqb c "H"%char then str_nonempty curstat.(tstat.gen).(tgen.container)
      else negb (bool_decide (bytes12 sel.(pselection.container) =
                              bytes12 curstat.(tstat.gen).(tgen.container)))
  end.

(** function that checks if the current process is selected or suppressed;
    returns 1 (suppress) or 0 (do not suppress) *)
Definition procsuppress (curstat : tstat.tstat) (sel : pselection.pselection) : option Z :=
  user ← suppress_user curstat sel;
  if (user : bool) then Some 1
  else
    pid ← suppress_pid curstat sel;
    if (pid : bool) then Some 1
    else if suppress_name curstat sel then Some 1
    else if suppress_arg curstat sel then Some 1
    else if suppress_container curstat sel then Some 1
    else Some 0.

(** ** accumulate *)

Definition nett_wsz (t : tstat.tstat) : Z :=
  if t.(tstat.dsk).(tdsk.cwsz) <? t.(tstat.dsk).(tdsk.wsz)
  then i64 (t.(tstat.dsk).(tdsk.wsz) - t.(tstat.dsk).(tdsk.cwsz)) else 0.

Open Scope c_scope.

Definition acc_gen (proc cur : tgen.tgen) : tgen.tgen :=
  {| tgen.tgid := cur.(tgen.tgid); tgen.pid := i32 (cur.(tgen.pid) + 1) (* misuse as counter *);
     tgen.ppid := cur.(tgen.ppid); tgen.ruid := cur.(tgen.ruid); tgen.euid := cur.(tgen.euid);
     tgen.suid := cur.(tgen.suid); tgen.fsuid := cur.(tgen.fsuid); tgen.rgid := cur.(tgen.rgid);
     tgen.egid := cur.(tgen.egid); tgen.sgid := cur.(tgen.sgid); tgen.fsgid := cur.(tgen.fsgid);
     tgen.nthr := i32 (cur.(tgen.nthr) + proc.(tgen.nthr));
     tgen.name := cur.(tgen.name); tgen.isproc := 1; tgen.state := cur.(tgen.state);
     tgen.excode := cur.(tgen.excode); tgen.btime := cur.(tgen.btime); tgen.elaps := cur.(tgen.elaps);
     tgen.cmdline := cur.(tgen.cmdline); tgen.nthrslpi := cur.(tgen.nthrslpi);
     tgen.nthrslpu := cur.(tgen.nthrslpu); tgen.nthrrun := cur.(tgen.nthrrun);
     tgen.ctid := cur.(tgen.ctid); tgen.vpid := cur.(tgen.vpid);
     tgen.wasinactive := cur.(tgen.wasinactive); tgen.container := cur.(tgen.container) |}.

Definition acc_cpu (proc cur : tcpu.tcpu) : tcpu.tcpu :=
  {| tcpu.utime := cur.(tcpu.utime) +64 proc.(tcpu.utime);
     tcpu.stime := cur.(tcpu.stime) +64 proc.(tcpu.stime);
     tcpu.nice := cur.(tcpu.nice); tcpu.prio := cur.(tcpu.prio); tcpu.rtprio := cur.(tcpu.rtprio);
     tcpu.policy := cur.(tcpu.policy); tcpu.curcpu := cur.(tcpu.curcpu);
     tcpu.sleepavg := cur.(tcpu.sleepavg); tcpu.ifuture := cur.(tcpu.ifuture);
     tcpu.cfuture := cur.(tcpu.cfuture) |}.

(** The sizes take the place of the numbers of transfers. *)
Definition acc_dsk (proc : tstat.tstat) (cur : tdsk.tdsk) : tdsk.tdsk :=
  let rio := cur.(tdsk.rio) +64 proc.(tstat.dsk).(tdsk.rsz) in
  let wio := cur.(tdsk.wio) +64 nett_wsz proc in
  {| tdsk.rio := rio; tdsk.rsz := rio; tdsk.wio := wio; tdsk.wsz := wio;
     tdsk.cwsz := cur.(tdsk.cwsz); tdsk.cfuture := cur.(tdsk.cfuture) |}.

Definition acc_net (proc cur : tnet.tnet) : tnet.tnet :=
  {| tnet.tcpsnd := cur.(tnet.tcpsnd) +64 proc.(tnet.tcpsnd);
     tnet.tcpssz := cur.(tnet.tcpssz) +64 proc.(tnet.tcpssz);
     tnet.tcprcv := cur.(tnet.tcprcv) +64 proc.(tnet.tcprcv);
     tnet.tcprsz := cur.(tnet.tcprsz) +64 proc.(tnet.tcprsz);
     tnet.udpsnd := cur.(tnet.udpsnd) +64 proc.(tnet.udpsnd);
     tnet.udpssz := cur.(tnet.udpssz) +64 proc.(tnet.udpssz);
     tnet.udprcv := cur.(tnet.udprcv) +64 proc.(tnet.udprcv);
     tnet.udprsz := cur.(tnet.udprsz) +64 proc.(tnet.udprsz);
     tnet.avail1 := cur.(tnet.avail1); tnet.avail2 := cur.(tnet.avail2);
     tnet.cfuture := cur.(tnet.cfuture) |}.

(** A proportional size that is unknown (-1) makes the sum unknown. *)
Definition acc_mem (proc cur : tmem.tmem) : tmem.tmem :=
  {| tmem.minflt := cur.(tmem.minflt); tmem.majflt := cur.(tmem.majflt); tmem.vexec := cur.(tmem.vexec);
     tmem.vmem := cur.(tmem.vmem) +64 proc.(tmem.vmem);
     tmem.rmem := cur.(tmem.rmem) +64 proc.(tmem.rmem);
     tmem.pmem := if cur.(tmem.pmem) =? -1 then cur.(tmem.pmem)
                  else if proc.(tmem.pmem) =? -1 then -1 else cur.(tmem.pmem) +64 proc.(tmem.pmem);
     tmem.vgrow := cur.(tmem.vgrow) +64 proc.(tmem.vgrow);
     tmem.rgrow := cur.(tmem.rgrow) +64 proc.(tmem.rgrow);
     tmem.vdata := cur.(tmem.vdata) +64 proc.(tmem.vdata);
     tmem.vstack := cur.(tmem.vstack) +64 proc.(tmem.vstack);
     tmem.vlibs := cur.(tmem.vlibs) +64 proc.(tmem.vlibs);
     tmem.vswap := cur.(tmem.vswap) +64 proc.(tmem.vswap);
     tmem.cfuture := cur.(tmem.cfuture) |}.

(** accumulate relevant counters from individual task to combined task *)
Definition accumulate (curproc curstat : tstat.tstat) : tstat.tstat :=
  {| tstat.gen := acc_gen curproc.(tstat.gen) curstat.(tstat.gen);
     tstat.cpu := acc_cpu curproc.(tstat.cpu) curstat.(tstat.cpu);
     tstat.dsk := acc_dsk curproc curstat.(tstat.dsk);
     tstat.mem := if curproc.(tstat.gen).(tgen.state) =? STATE_EXIT then curstat.(tstat.mem)
                  else acc_mem curproc.(tstat.mem) curstat.(tstat.mem);
     tstat.net := acc_net curproc.(tstat.net) curstat.(tstat.net) |}.

(** ** The loops *)

(** The list under construction: [u] is the place of the pointer that moves
    through it. *)
Module cumlist.
Record cumlist := mk {
  list : Datatypes.list tstat.tstat;
  u : nat;
  num : Z
}.
End cumlist.

Section cumulate.
Context `{QSort} (sel : pselection.pselection) (suppressexit : bool).

(** The process is left out: not selected, or exited and not wanted. *)
Definition left_out (curproc : tstat.tstat) : option bool :=
  s ← procsuppress curproc sel;
  Some (negb (s =? 0) || ((curproc.(tstat.gen).(tgen.state) =? STATE_EXIT) && suppressexit)).

(** One process in the new list. *)
Definition cum_step {K} `{EqDecision K} (key : tgen.tgen -> K) (set_key : K -> tgen.tgen -> tgen.tgen)
    (curproc : tstat.tstat) (s : cumlist.cumlist) : option cumlist.cumlist :=
  out ← left_out curproc;
  if (out : bool) then Some s
  else
    slot ← s.(cumlist.list) !! s.(cumlist.u);
    if decide (key slot.(tstat.gen) = key curproc.(tstat.gen)) then
      l ← arr_set s.(cumlist.list) s.(cumlist.u) (accumulate curproc slot);
      Some (cumlist.mk l s.(cumlist.u) s.(cumlist.num))
    else
      let '(u, num) := if negb (slot.(tstat.gen).(tgen.pid) =? 0)
                       then (S s.(cumlist.u), i32 (s.(cumlist.num) + 1))
                       else (s.(cumlist.u), s.(cumlist.num)) in
      slot ← s.(cumlist.list) !! u;
      l ← arr_set s.(cumlist.list) u
            (accumulate curproc (upd_gen (set_key (key curproc.(tstat.gen))) slot));
      Some (cumlist.mk l u num).

Fixpoint cum_loop {K} `{EqDecision K} (key : tgen.tgen -> K) (set_key : K -> tgen.tgen -> tgen.tgen)
    (curprocs : list tstat.tstat) (s : cumlist.cumlist) : option cumlist.cumlist :=
  match curprocs with
  | [] => Some s
  | p :: curprocs' => s ← cum_step key set_key p s; cum_loop key set_key curprocs' s
  end.

(** The last one is counted when it holds a process. *)
Definition cum_end (s : cumlist.cumlist) : option (Z * list tstat.tstat) :=
  slot ← s.(cumlist.list) !! s.(cumlist.u);
  Some (if negb (slot.(tstat.gen).(tgen.pid) =? 0) then i32 (s.(cumlist.num) + 1) else s.(cumlist.num),
        s.(cumlist.list)).

(** [curprocs] holds the [numprocs] processes, and is sorted; the result is the
    sorted list, the number of users and their list. *)
Definition cumusers (curprocs curusers : list tstat.tstat) :
    option (list tstat.tstat * (Z * list tstat.tstat)) :=
  let curprocs := qsort compusr curprocs in
  s ← cum_loop tgen.ruid set_ruid curprocs (cumlist.mk curusers 0 0);
  r ← cum_end s;
  Some (curprocs, r).

Definition cumprogs (curprocs curprogs : list tstat.tstat) :
    option (list tstat.tstat * (Z * list tstat.tstat)) :=
  let curprocs := qsort compnam curprocs in
  s ← cum_loop tgen.name set_name curprocs (cumlist.mk curprogs 0 0);
  r ← cum_end s;
  Some (curprocs, r).

Definition cumconts (curprocs curconts : list tstat.tstat) :
    option (list tstat.tstat * (Z * list tstat.tstat)) :=
  let curprocs := qsort compcon curprocs in
  s ← cum_loop tgen.container set_container curprocs (cumlist.mk curconts 0 0);
  r ← cum_end s;
  Some (curprocs, r).
End cumulate.

(** ** totalcap *)

(** [struct syscap] *)
Module syscap.
Record syscap := mk {
  nrcpu : Z;
  availcpu : Z;
  availmem : Z;
  availdsk : Z;
  availnet : Z
}.
End syscap.

Definition cap_step (curstat : tstat.tstat) (s : Z * Z) : Z * Z :=
  let n := curstat.(tstat.net) in
  (s.1 +64 curstat.(tstat.dsk).(tdsk.rsz) +64 nett_wsz curstat,
   s.2 +64 n.(tnet.tcpssz) +64 n.(tnet.tcprsz) +64 n.(tnet.udpssz) +64 n.(tnet.udprsz)).

(** [pagesize] is an unsigned int. *)
Definition totalcap (pagesize : Z) (sstat : sstat.sstat) (proclist : list tstat.tstat) : syscap.syscap :=
  let all := sstat.(sstat.cpu).(cpustat.all) in
  let t := foldl (fun s c => cap_step c s) (0, 0) proclist in
  {| syscap.nrcpu := i32 sstat.(sstat.cpu).(cpustat.nrcpu);
     syscap.availcpu := i64 (all.(percpu.stime) + all.(percpu.utime) + all.(percpu.ntime) +
                             all.(percpu.itime) + all.(percpu.wtime) + all.(percpu.Itime) +
                             all.(percpu.Stime) + all.(percpu.steal));
     syscap.availmem := Z.quot (i64 (sstat.(sstat.mem).(memstat.physmem) * pagesize)) 1024;
     syscap.availdsk := t.1;
     syscap.availnet := t.2 |}.
