(* ===== verification/CumFacts.v ===== *)
(** * What cumusers, cumprogs and cumconts compute

    The list has one entry per key of the selected processes, each the
    accumulation of the processes with that key. *)
From Stdlib Require Import Ascii Sorted.
From S2P Require Import Prelude Tstat Sstat Counter Compar Cumulate.

(** ** Selection *)

Definition sel_ok (sel : pselection.pselection) : Prop :=
  USERSTUB ∈ sel.(pselection.userid) /\ 0 ∈ sel.(pselection.pid).


Lemma suppress_user_total curstat sel : sel_ok sel -> is_Some (suppress_user curstat sel).
Proof.
  intros [[k Hk]%list_elem_of_lookup _]. unfold suppress_user.
  destruct (lookup_lt_is_Some_2 sel.(pselection.userid) 0) as [x Hx];
    [apply lookup_lt_Some in Hk; lia|]. rewrite Hx. mstep. destruct (x =? USERSTUB); [eauto|].
  destruct (scan_stops (fun y => (y =? USERSTUB) || (y =? u32 curstat.(tstat.gen).(tgen.ruid)))
    sel.(pselection.userid) 0 k USERSTUB) as (u & Eu & Hu); [lia | done | done |].
  rewrite Eu. mstep. apply scan_spec in Eu as (_ & (y & Hy & _) & _). rewrite Hy. mstep. eauto.
Qed.

Lemma suppress_pid_total curstat sel : sel_ok sel -> is_Some (suppress_pid curstat sel).
Proof.
  intros [_ [k Hk]%list_elem_of_lookup]. unfold suppress_pid.
  destruct (lookup_lt_is_Some_2 sel.(pselection.pid) 0) as [x Hx];
    [apply lookup_lt_Some in Hk; lia|]. rewrite Hx. mstep. destruct (x =? 0); [eauto|].
  destruct (scan_stops (fun y => (y =? 0) || (y =? curstat.(tstat.gen).(tgen.pid)))
    sel.(pselection.pid) 0 k 0) as (u & Eu & Hu); [lia | done | done |].
  rewrite Eu. mstep. apply scan_spec in Eu as (_ & (y & Hy & _) & _). rewrite Hy. mstep. eauto.
Qed.

Lemma procsuppress_total curstat sel : sel_ok sel ->
  exists r, procsuppress curstat sel = Some r /\ (r = 0 \/ r = 1).
Proof.
  intros HS. unfold procsuppress. destruct (suppress_user_total curstat sel HS) as [[] ->]; mstep; [eauto|].
  destruct (suppress_pid_total curstat sel HS) as [[] ->]; mstep; [eauto|].
  repeat case_match; eauto.
Qed.

(** The search in a list that ends with [stub]: an empty list selects all. *)
Definition wanted (v : Z) (l : list Z) : Prop := l = [] \/ v ∈ l.

Lemma suppress_listed stub v us rest : stub ∉ us -> v ≠ stub ->
  exists b, (first ← (us ++ stub :: rest) !! 0%nat;
    if first =? stub then Some false
    else
      u ← scan (fun x => (x =? stub) || (x =? v)) 0 (us ++ stub :: rest);
      x ← (us ++ stub :: rest) !! u;
      Some (negb (x =? v))) = Some b /\ (b = false <-> wanted v us).
Proof.
  intros HU HR. destruct us as [|x us].
  { exists false. cbn. rewrite Z.eqb_refl. split; [done|]. split; [by left | done]. }
  exists (bool_decide (v ∉ x :: us)). unfold wanted. rewrite bool_decide_eq_false.
  split; [|split; [intros H; right; destruct (decide (v ∈ x :: us)); tauto | intros [|]; [done | tauto]]].
  cbn [app lookup list_lookup]. mstep. rewrite (proj2 (Z.eqb_neq x stub)) by set_solver.
  change (x :: us ++ stub :: rest) with ((x :: us) ++ stub :: rest).
  set (l := x :: us) in *. clearbody l. destruct (decide (v ∈ l)) as [Hin|Hnin].
  - rewrite bool_decide_eq_false_2 by naive_solver.
    apply list_elem_of_lookup in Hin as Hk. destruct Hk as [k Hk].
    destruct (scan_stops (fun y => (y =? stub) || (y =? v)) (l ++ stub :: rest) 0 k v)
      as (u & Eu & Hu); [lia | by apply lookup_app_l_Some | by rewrite Z.eqb_refl, orb_true_r |].
    rewrite Eu. mstep. apply scan_spec in Eu as (_ & (y & Hy & Es) & _). rewrite Hy. mstep.
    apply lookup_lt_Some in Hk. rewrite lookup_app_l in Hy by lia.
    apply list_elem_of_lookup_2 in Hy. apply orb_true_iff in Es as [Es%Z.eqb_eq|Es]; [by subst|].
    by rewrite Es.
  - rewrite bool_decide_eq_true_2 by done.
    assert (scan (fun y => (y =? stub) || (y =? v)) 0 (l ++ stub :: rest) = Some (length l)) as ->.
    { apply scan_spec. split; [lia|]. split.
      - exists stub. rewrite lookup_app_r, Nat.sub_diag by lia. split; [done|]. by rewrite Z.eqb_refl.
      - intros i y Hi Hy. rewrite lookup_app_l in Hy by lia. apply list_elem_of_lookup_2 in Hy.
        apply orb_false_iff. rewrite !Z.eqb_neq. split; intros ->; done. }
    mstep. rewrite lookup_app_r, Nat.sub_diag by lia. cbn [lookup list_lookup]. mstep. f_equal.
    apply negb_true_iff, Z.eqb_neq. congruence.
Qed.

(** The container of a task: any, the host or a container by its first bytes. *)
Definition container_wanted (t : tstat.tstat) (sel : pselection.pselection) : Prop :=
  match sel.(pselection.container) with
  | EmptyString => True
  | String c _ =>
      if decide (c = "H"%char) then t.(tstat.gen).(tgen.container) = EmptyString
      else bytes12 sel.(pselection.container) = bytes12 t.(tstat.gen).(tgen.container)
  end.

Lemma suppress_container_wanted t sel : suppress_container t sel = false <-> container_wanted t sel.
Proof.
  unfold suppress_container, container_wanted. destruct (pselection.container sel) as [|c r]; [done|].
  destruct (Ascii.eqb_spec c "H"%char) as [->|Hne].
  - rewrite decide_True by done. unfold str_nonempty. by rewrite negb_false_iff, String.eqb_eq.
  - rewrite decide_False by done. by rewrite negb_false_iff, bool_decide_eq_true.
Qed.

(** C35: procsuppress returns 0 exactly for the processes that pass every
    selection in use: the list of users, the list of PIDs, the regular
    expressions on the name and on the command line, and the container; it
    returns 1 for all others. *)
Theorem procsuppress_spec t sel us ps rest1 rest2 :
  sel.(pselection.userid) = us ++ USERSTUB :: rest1 -> USERSTUB ∉ us ->
  u32 t.(tstat.gen).(tgen.ruid) ≠ USERSTUB ->
  sel.(pselection.pid) = ps ++ 0 :: rest2 -> 0 ∉ ps -> t.(tstat.gen).(tgen.pid) ≠ 0 ->
  let g := t.(tstat.gen) in
  exists r, procsuppress t sel = Some r /\ (r = 0 \/ r = 1) /\
    (r = 0 <-> wanted (u32 g.(tgen.ruid)) us /\ wanted g.(tgen.pid) ps /\
       (sel.(pselection.prognamesz) ≠ 0 -> sel.(pselection.progregex) g.(tgen.name) = 0) /\
       (sel.(pselection.argnamesz) ≠ 0 ->
        sel.(pselection.argregex) (if str_nonempty g.(tgen.cmdline) then g.(tgen.cmdline) else g.(tgen.name)) = 0) /\
       container_wanted t sel).
Proof.
  intros Eu Hu Hru Ep Hp Hpid g. pose proof (suppress_container_wanted t sel) as Hc.
  destruct (suppress_listed USERSTUB (u32 g.(tgen.ruid)) us rest1 Hu Hru) as (bu & E1 & Hbu).
  destruct (suppress_listed 0 g.(tgen.pid) ps rest2 Hp Hpid) as (bp & E2 & Hbp).
  unfold procsuppress, suppress_user, suppress_pid. fold g. rewrite Eu, Ep, E1. mstep.
  assert (Hn : suppress_name t sel = false <->
    (sel.(pselection.prognamesz) ≠ 0 -> sel.(pselection.progregex) g.(tgen.name) = 0)).
  { unfold suppress_name. fold g. rewrite andb_false_iff, !negb_false_iff, !Z.eqb_eq.
    destruct (decide (sel.(pselection.prognamesz) = 0)); tauto. }
  assert (Ha : suppress_arg t sel = false <-> (sel.(pselection.argnamesz) ≠ 0 ->
    sel.(pselection.argregex) (if str_nonempty g.(tgen.cmdline) then g.(tgen.cmdline) else g.(tgen.name)) = 0)).
  { unfold suppress_arg. fold g. rewrite andb_false_iff, !negb_false_iff, !Z.eqb_eq.
    destruct (decide (sel.(pselection.argnamesz) = 0)); tauto. }
  destruct bu; [exists 1; intuition congruence|]. rewrite E2. mstep.
  destruct bp; [exists 1; intuition congruence|].
  destruct (suppress_name t sel); [exists 1; intuition congruence|].
  destruct (suppress_arg t sel); [exists 1; intuition congruence|].
  destruct (suppress_container t sel); [exists 1 | exists 0]; intuition congruence.
Qed.

(** ** What an accumulated entry holds *)

Fixpoint zsum {A} (f : A -> Z) (l : list A) : Z :=
  match l with [] => 0 | x :: l' => f x + zsum f l' end.

Lemma zsum_snoc {A} (f : A -> Z) l x : zsum f (l ++ [x]) = zsum f l + f x.
Proof. induction l; cbn in *; lia. Qed.

Definition alive (t : tstat.tstat) : bool := negb (t.(tstat.gen).(tgen.state) =? STATE_EXIT).

Definition in_cpu (f : tcpu.tcpu -> Z) (t : tstat.tstat) : Z := f t.(tstat.cpu).
Definition in_net (f : tnet.tnet -> Z) (t : tstat.tstat) : Z := f t.(tstat.net).
Definition in_mem (f : tmem.tmem -> Z) (t : tstat.tstat) : Z := f t.(tstat.mem).

(** The counters of [t] are the sums over the processes [l]; memory is that of
    the processes that have not exited, and a proportional size that is unknown
    (-1) for one of them is unknown for the sum. *)
Record summed (l : list tstat.tstat) (t : tstat.tstat) : Prop := {
  sm_num : t.(tstat.gen).(tgen.pid) = i32 (Z.of_nat (length l));
  sm_nthr : t.(tstat.gen).(tgen.nthr) = i32 (zsum (fun p => p.(tstat.gen).(tgen.nthr)) l);
  sm_cpu : forall f, f ∈ [tcpu.utime; tcpu.stime] -> in_cpu f t = i64 (zsum (in_cpu f) l);
  sm_read : t.(tstat.dsk).(tdsk.rsz) = i64 (zsum (fun p => p.(tstat.dsk).(tdsk.rsz)) l);
  sm_reads : t.(tstat.dsk).(tdsk.rio) = t.(tstat.dsk).(tdsk.rsz);
  sm_written : t.(tstat.dsk).(tdsk.wsz) = i64 (zsum nett_wsz l);
  sm_writes : t.(tstat.dsk).(tdsk.wio) = t.(tstat.dsk).(tdsk.wsz);
  sm_net : forall f, f ∈ [tnet.tcpsnd; tnet.tcpssz; tnet.tcprcv; tnet.tcprsz;
                          tnet.udpsnd; tnet.udpssz; tnet.udprcv; tnet.udprsz] ->
    in_net f t = i64 (zsum (in_net f) l);
  sm_mem : forall f, f ∈ [tmem.vmem; tmem.rmem; tmem.vgrow; tmem.rgrow; tmem.vdata; tmem.vstack;
                          tmem.vlibs; tmem.vswap] ->
    in_mem f t = i64 (zsum (in_mem f) (List.filter alive l));
  sm_unknown : (exists p, p ∈ l /\ alive p = true /\ in_mem tmem.pmem p = -1) -> in_mem tmem.pmem t = -1;
  sm_pmem : (forall p, p ∈ l -> alive p = true -> 0 <= in_mem tmem.pmem p) ->
    zsum (in_mem tmem.pmem) (List.filter alive l) < 2 ^ 63 ->
    in_mem tmem.pmem t = zsum (in_mem tmem.pmem) (List.filter alive l)
}.

Lemma summed_start t : (forall f, in_mem f t = f tmem_zero) -> (forall f, in_cpu f t = f tcpu_zero) ->
  (forall f, in_net f t = f tnet_zero) -> t.(tstat.dsk) = tdsk_zero ->
  t.(tstat.gen).(tgen.pid) = 0 -> t.(tstat.gen).(tgen.nthr) = 0 -> summed [] t.
Proof.
  intros Hm Hc Hn Hd Hp Ht. split; rewrite ?Hd, ?Hp, ?Ht; try done.
  - intros f Hf. rewrite Hc. set_unfold in Hf. destruct_or! Hf; by subst.
  - intros f Hf. rewrite Hn. set_unfold in Hf. destruct_or! Hf; by subst.
  - intros f Hf. rewrite Hm. set_unfold in Hf. destruct_or! Hf; by subst.
  - intros (p & Hin & _). set_solver.
Qed.

Lemma filter_snoc l p :
  List.filter alive (l ++ [p]) = List.filter alive l ++ (if alive p then [p] else []).
Proof. by rewrite List.filter_app. Qed.

Lemma zsum_nonneg {A} (f : A -> Z) l : (forall x, x ∈ l -> 0 <= f x) -> 0 <= zsum f l.
Proof.
  induction l as [|x l IH]; intros H; cbn; [done|].
  pose proof (H x ltac:(by left)). assert (0 <= zsum f l) by (apply IH; set_solver). lia.
Qed.

(** The proportional size of one more process. *)
Lemma summed_pmem l t p : summed l t ->
  let t' := accumulate p t in
  ((exists q, q ∈ l ++ [p] /\ alive q = true /\ in_mem tmem.pmem q = -1) -> in_mem tmem.pmem t' = -1) /\
  ((forall q, q ∈ l ++ [p] -> alive q = true -> 0 <= in_mem tmem.pmem q) ->
    zsum (in_mem tmem.pmem) (List.filter alive (l ++ [p])) < 2 ^ 63 ->
    in_mem tmem.pmem t' = zsum (in_mem tmem.pmem) (List.filter alive (l ++ [p]))).
Proof.
  intros S t'. pose proof (sm_unknown _ _ S) as HU. pose proof (sm_pmem _ _ S) as HP.
  unfold t', accumulate, in_mem in *. cbn [tstat.mem]. rewrite filter_snoc. unfold alive in *.
  destruct (_ =? STATE_EXIT) eqn:E; cbn [negb] in *.
  { rewrite app_nil_r. split.
    - intros (q & [Hq|Hq%list_elem_of_singleton]%elem_of_app & Ha & Hq1); [apply HU; by exists q|].
      subst q. by rewrite E in Ha.
    - intros Hall Hlt. apply HP; [|done]. intros q Hq. apply Hall. set_solver. }
  rewrite zsum_snoc. cbn [acc_mem tmem.pmem]. split.
  - intros (q & [Hq|Hq%list_elem_of_singleton]%elem_of_app & Ha & Hq1).
    + rewrite HU by (by exists q). done.
    + subst q. rewrite Hq1. destruct (_ =? -1) eqn:E1; [lia | done].
  - intros Hall Hlt. assert (Hp0 : 0 <= p.(tstat.mem).(tmem.pmem)).
    { apply Hall; [apply elem_of_app; right; by left | by rewrite E]. }
    assert (Hl : forall q, q ∈ l -> negb (q.(tstat.gen).(tgen.state) =? STATE_EXIT) = true ->
      0 <= q.(tstat.mem).(tmem.pmem)) by (intros q Hq; apply Hall, elem_of_app; by left).
    assert (Hs : 0 <= zsum (fun t => t.(tstat.mem).(tmem.pmem))
      (List.filter (fun t => negb (t.(tstat.gen).(tgen.state) =? STATE_EXIT)) l)).
    { apply zsum_nonneg. intros x Hx. rewrite list_elem_of_In, filter_In, <-list_elem_of_In in Hx.
      destruct Hx as [Hx1 Hx2]. by apply Hl. }
    rewrite HP by (done || lia). rewrite (proj2 (Z.eqb_neq _ (-1))) by lia.
    rewrite (proj2 (Z.eqb_neq p.(tstat.mem).(tmem.pmem) (-1))) by lia.
    apply i64_id. unfold in_i64. lia.
Qed.

Lemma summed_snoc l t p : summed l t -> summed (l ++ [p]) (accumulate p t).
Proof.
  intros S. pose proof (summed_pmem l t p S) as [HU HP].
  destruct S as [S1 S2 S3 S4 S5 S6 S7 S8 S9 _ _].
  split; try done; unfold accumulate, in_cpu, in_net, in_mem in *;
    cbn [tstat.gen tstat.cpu tstat.dsk tstat.mem tstat.net acc_gen acc_dsk tgen.pid tgen.nthr
         tdsk.rsz tdsk.rio tdsk.wsz tdsk.wio] in *.
  - rewrite S1, i32_add_l, length_app. f_equal. cbn. lia.
  - by rewrite S2, i32_add_l, zsum_snoc.
  - intros f Hf. pose proof (S3 f Hf) as E. set_unfold in Hf.
    destruct_or! Hf; subst; cbn [acc_cpu tcpu.utime tcpu.stime]; by rewrite E, i64_add_l, zsum_snoc.
  - by rewrite S5, S4, i64_add_l, zsum_snoc.
  - by rewrite S7, S6, i64_add_l, zsum_snoc.
  - intros f Hf. pose proof (S8 f Hf) as E. set_unfold in Hf.
    destruct_or! Hf; subst; cbn; by rewrite E, i64_add_l, zsum_snoc.
  - intros f Hf. pose proof (S9 f Hf) as E. rewrite filter_snoc. unfold alive in *.
    destruct (_ =? STATE_EXIT); cbn [negb]; [by rewrite app_nil_r|]. set_unfold in Hf.
    destruct_or! Hf; subst; cbn; by rewrite E, i64_add_l, zsum_snoc.
Qed.

(** ** Grouping *)

Section groups.
Context `{QSort} (sel : pselection.pselection) (suppressexit : bool) (Hsel : sel_ok sel).
Context {K : Type} `{EqDecision K} (key : tgen.tgen -> K) (set_key : K -> tgen.tgen -> tgen.tgen).
Context (key_set : forall k g, key (set_key k g) = k).
Context (pid_set : forall k g, (set_key k g).(tgen.pid) = g.(tgen.pid)).
Context (nthr_set : forall k g, (set_key k g).(tgen.nthr) = g.(tgen.nthr)).
Context (key_acc : forall p g, key (acc_gen p g) = key g).
Context (set_zero : set_key (key tgen_zero) tgen_zero = tgen_zero).

Definition keyof (t : tstat.tstat) : K := key t.(tstat.gen).

(** The process takes part. *)
Definition chosen (t : tstat.tstat) : bool :=
  match left_out sel suppressexit t with Some b => negb b | None => false end.

Lemma left_out_total t : left_out sel suppressexit t = Some (negb (chosen t)).
Proof.
  unfold chosen. destruct (procsuppress_total t sel Hsel) as (r & E & _).
  unfold left_out. rewrite E. mstep. by rewrite negb_involutive.
Qed.

Definition pick (l : list tstat.tstat) : list tstat.tstat := List.filter chosen l.

(** The entry of a key: its processes accumulated in their order. *)
Definition entry (k : K) (l : list tstat.tstat) : tstat.tstat :=
  foldl (fun c p => accumulate p c) (upd_gen (set_key k) tstat_zero)
    (filter (fun p => keyof p = k) l).

Lemma entry_snoc k l p :
  entry k (l ++ [p]) = if decide (keyof p = k) then accumulate p (entry k l) else entry k l.
Proof.
  unfold entry. rewrite filter_app, foldl_app. rewrite filter_cons, filter_nil. by case_decide.
Qed.

Lemma entry_key k l : keyof (entry k l) = k.
Proof.
  induction l as [|p l IH] using rev_ind; [apply key_set|]. rewrite entry_snoc. case_decide; [|done].
  unfold keyof, accumulate in *. cbn. by rewrite key_acc.
Qed.

Lemma entry_pid k l : Z.of_nat (length l) < 2 ^ 31 ->
  (entry k l).(tstat.gen).(tgen.pid) = Z.of_nat (length (filter (fun p => keyof p = k) l)).
Proof.
  intros Hl. induction l as [|p l IH] using rev_ind; [unfold entry; cbn; by rewrite pid_set|].
  rewrite length_app in Hl. cbn in Hl. specialize (IH ltac:(lia)).
  rewrite entry_snoc, filter_app, filter_cons, filter_nil, length_app. case_decide; [|cbn; lia].
  cbn. pose proof (length_filter (fun p => keyof p = k) l). rewrite IH, i32_id; [lia|]. unfold in_i32. lia.
Qed.

Lemma entry_summed k l : summed (filter (fun p => keyof p = k) l) (entry k l).
Proof.
  induction l as [|p l IH] using rev_ind.
  - unfold entry. cbn. apply summed_start; cbn; try done; rewrite ?pid_set, ?nthr_set; done.
  - rewrite entry_snoc, filter_app, filter_cons, filter_nil. case_decide; [by apply summed_snoc|].
    by rewrite app_nil_r.
Qed.

(** The state after the processes [done]: [ks] are the keys so far. *)
Record cum_inv (arr : list tstat.tstat) (done : list tstat.tstat) (ks : list K) (s : cumlist.cumlist) : Prop := {
  ci_nodup : NoDup ks;
  ci_keys : forall k, k ∈ ks <-> exists p, p ∈ done /\ keyof p = k;
  ci_last : forall p, last done = Some p -> last ks = Some (keyof p);
  ci_u : s.(cumlist.u) = Nat.pred (length ks);
  ci_num : s.(cumlist.num) = Z.of_nat (Nat.pred (length ks));
  ci_len : length s.(cumlist.list) = length arr;
  ci_slot : forall i k, ks !! i = Some k -> s.(cumlist.list) !! i = Some (entry k done);
  ci_rest : forall i, (length ks <= i)%nat -> s.(cumlist.list) !! i = arr !! i
}.

Lemma last_snoc_nat {A} (l : list A) k : last l = Some k -> l !! Nat.pred (length l) = Some k.
Proof. by rewrite last_lookup. Qed.

(** A chosen process of the key that was handled last. *)
Lemma cum_step_same arr done ks s p k :
  cum_inv arr done ks s -> last ks = Some k -> keyof p = k -> chosen p = true ->
  exists s', cum_step sel suppressexit key set_key p s = Some s' /\ cum_inv arr (done ++ [p]) ks s'.
Proof.
  intros [I1 I2 I3 I4 I5 I6 I7 I8] Hk Ep Hc.
  pose proof (last_snoc_nat _ _ Hk) as Hkl. pose proof (I7 _ _ Hkl) as Hs.
  unfold cum_step. rewrite left_out_total, Hc. mstep. cbn [negb]. rewrite I4, Hs. mstep.
  rewrite decide_True by (change (keyof (entry k done) = keyof p); by rewrite entry_key).
  rewrite arr_set_Some by by eapply lookup_lt_Some. mstep. eexists. split; [done|].
  split; cbn; try done.
  - intros k'. rewrite I2. split; [intros (q & Hq & E); exists q; set_solver|].
    intros (q & [Hq|Hq%list_elem_of_singleton]%elem_of_app & E); [eauto|]. subst q.
    apply I2. subst k' k. apply list_elem_of_lookup. eauto.
  - intros q. rewrite last_snoc. intros [= <-]. by rewrite Ep.
  - by rewrite length_insert.
  - intros i k' Hi. destruct (decide (i = Nat.pred (length ks))) as [->|Hne].
    + rewrite Hkl in Hi. injection Hi as <-. rewrite list_lookup_insert_eq by by eapply lookup_lt_Some.
      by rewrite entry_snoc, decide_True.
    + rewrite list_lookup_insert_ne by done. rewrite (I7 i k' Hi), entry_snoc, decide_False; [done|].
      intros E. apply Hne. eapply NoDup_lookup; [done|done|]. by rewrite <-E, Ep.
  - intros i Hi. rewrite list_lookup_insert_ne; [by apply I8|]. apply lookup_lt_Some in Hkl. lia.
Qed.

Lemma fresh_slot_inv arr done ks p l u num :
  (forall i, (i < length arr)%nat -> arr !! i = Some tstat_zero) ->
  NoDup ks -> (forall k, k ∈ ks <-> exists p, p ∈ done /\ keyof p = k) -> keyof p ∉ ks ->
  (length ks < length arr)%nat -> length l = length arr -> u = length ks -> num = Z.of_nat (length ks) ->
  (forall i k, ks !! i = Some k -> l !! i = Some (entry k done)) ->
  (forall i, (length ks <= i)%nat -> l !! i = arr !! i) ->
  cum_inv arr (done ++ [p]) (ks ++ [keyof p])
    (cumlist.mk (<[u := accumulate p (upd_gen (set_key (keyof p)) tstat_zero)]> l) u num).
Proof.
  intros Hz ND HK Hnew Hroom Hl -> -> Hslot Hrest.
  assert (Hnone : entry (keyof p) done = upd_gen (set_key (keyof p)) tstat_zero).
  { unfold entry. assert (filter (fun q => keyof q = keyof p) done = []) as ->; [|done].
    destruct (filter _ done) as [|q r] eqn:E; [done|]. destruct Hnew.
    assert (Hq : q ∈ filter (fun q => keyof q = keyof p) done) by (rewrite E; set_solver).
    apply list_elem_of_filter in Hq as [Eq Hq]. apply HK. eauto. }
  split; cbn; rewrite ?length_insert, ?length_app; cbn [length]; try done; try lia.
  - apply NoDup_app. split; [done|]. split; [set_solver|]. apply NoDup_singleton.
  - intros k. rewrite elem_of_app, HK, list_elem_of_singleton. split.
    + intros [(q & Hq & E)| ->]; [exists q | exists p]; set_solver.
    + intros (q & [Hq|Hq%list_elem_of_singleton]%elem_of_app & E); [left; eauto|]. subst q. by right.
  - intros q. rewrite !last_snoc. by intros [= <-].
  - intros i k Hi. destruct (decide (i = length ks)) as [->|Hne].
    + rewrite list_lookup_insert_eq by lia. rewrite lookup_app_r, Nat.sub_diag in Hi by lia.
      cbn in Hi. simplify_eq. by rewrite entry_snoc, decide_True, Hnone.
    + rewrite list_lookup_insert_ne by done. assert (i < length ks)%nat.
      { apply lookup_lt_Some in Hi. rewrite length_app in Hi. cbn in Hi. lia. }
      rewrite lookup_app_l in Hi by done. rewrite (Hslot i k Hi), entry_snoc, decide_False; [done|].
      intros E. apply Hnew. rewrite E. by eapply list_elem_of_lookup_2.
  - intros i Hi. rewrite list_lookup_insert_ne by lia. apply Hrest. lia.
Qed.

Lemma cum_step_new arr done ks s p :
  (forall i, (i < length arr)%nat -> arr !! i = Some tstat_zero) ->
  cum_inv arr done ks s -> keyof p ∉ ks -> chosen p = true ->
  (length ks < length arr)%nat -> Z.of_nat (length arr) < 2 ^ 31 -> Z.of_nat (length done) < 2 ^ 31 ->
  exists s', cum_step sel suppressexit key set_key p s = Some s' /\
    cum_inv arr (done ++ [p]) (ks ++ [keyof p]) s'.
Proof.
  intros Hz [I1 I2 I3 I4 I5 I6 I7 I8] Hnew Hc Hroom Hsz Hd.
  unfold cum_step. rewrite left_out_total, Hc. mstep. cbn [negb].
  destruct (decide (ks = [])) as [->|Hne].
  - cbn in I4, I5. rewrite I4, I8, Hz by (cbn; lia). mstep.
    assert (HF : cum_inv arr (done ++ [p]) ([] ++ [keyof p]) (cumlist.mk
      (<[0%nat := accumulate p (upd_gen (set_key (keyof p)) tstat_zero)]> s.(cumlist.list)) 0 0)).
    { by apply fresh_slot_inv. }
    destruct (decide _) as [E|E].
    + rewrite arr_set_Some by lia. mstep. rewrite I5. eexists. split; [done|].
      assert (Ez : upd_gen (set_key (keyof p)) tstat_zero = tstat_zero).
      { unfold upd_gen, keyof. rewrite <-E. cbn [tstat.gen tstat_zero]. by rewrite set_zero. }
      by rewrite Ez in HF.
    + cbn [negb Z.eqb tgen.pid tstat.gen tstat_zero tgen_zero]. rewrite I8, Hz by (cbn; lia). mstep.
      rewrite arr_set_Some by lia. mstep. rewrite I5. eexists. split; [done|]. exact HF.
  - destruct (last ks) as [k|] eqn:Hk; [|by apply last_None in Hk].
    pose proof (last_snoc_nat _ _ Hk) as Hkl. rewrite I4, (I7 _ _ Hkl). mstep.
    assert (Hkin : k ∈ ks) by by eapply list_elem_of_lookup_2.
    rewrite decide_False by (change (keyof (entry k done) ≠ keyof p); rewrite entry_key; by intros ->).
    assert (Hpid : (entry k done).(tstat.gen).(tgen.pid) =? 0 = false).
    { rewrite entry_pid by done. apply Z.eqb_neq. destruct (proj1 (I2 k) Hkin) as (q & Hq & E).
      assert (Hf : q ∈ filter (fun p => keyof p = k) done) by by apply list_elem_of_filter.
      destruct (filter _ done); [set_solver|]. cbn. lia. }
    rewrite Hpid. cbn [negb]. apply lookup_lt_Some in Hkl.
    replace (S (Nat.pred (length ks))) with (length ks) by lia.
    rewrite I8, Hz by lia. mstep. rewrite arr_set_Some by lia. mstep. eexists. split; [done|].
    rewrite I5, i32_id by (unfold in_i32; lia). apply fresh_slot_inv; try done; lia.
Qed.

(** ** The loop over sorted processes *)

Context (cmp : tstat.tstat -> tstat.tstat -> Z) `{!Comparator cmp}.
Context (cmp_key : forall p q, cmp p q = 0 <-> keyof p = keyof q).

(** In a sorted list, a key that occurred is the key of the last process. *)
Lemma sorted_last done p rest q k :
  StronglySorted (fun a b => cmp a b <= 0) (done ++ p :: rest) ->
  q ∈ done -> keyof q = keyof p -> last done = Some k -> keyof k = keyof p.
Proof.
  intros HS Hq E Hk. apply cmp_key. pose proof (cmp_flip k p) as F1. pose proof (cmp_flip q p) as F2.
  assert (HA : forall a b l r, StronglySorted (fun a b => cmp a b <= 0) (l ++ r) -> a ∈ l -> b ∈ r -> cmp a b <= 0).
  { clear. intros a b l r. induction l as [|x l IH]; [set_solver|]. intros HS Ha Hb.
    inversion HS as [|? ? HS' HF]; subst. apply elem_of_cons in Ha as [->|Ha]; [|by apply IH].
    rewrite Forall_forall in HF. apply HF. set_solver. }
  assert (Hkp : cmp k p <= 0).
  { apply (HA _ _ done (p :: rest)); [done | by apply last_Some_elem_of | set_solver]. }
  assert (Hqp : cmp q p = 0) by by apply cmp_key.
  assert (Hqk : cmp q k <= 0).
  { apply last_Some in Hk as [l ->]. rewrite <-app_assoc in HS. apply elem_of_app in Hq as [Hq|Hq].
    - apply (HA _ _ l ([k] ++ p :: rest)); [done | done | set_solver].
    - apply list_elem_of_singleton in Hq as ->. assert (cmp k k = 0) by by apply cmp_key. lia. }
  assert (cmp p k <= 0) by (apply (cmp_trans p q k); lia). lia.
Qed.

Lemma keys_length arr done ks s : cum_inv arr done ks s -> (length ks <= length done)%nat.
Proof.
  intros HI. rewrite <-(length_fmap keyof done). apply submseteq_length, NoDup_submseteq; [apply HI|].
  intros k Hk. apply (ci_keys _ _ _ _ HI) in Hk as (p & Hp & <-). by apply list_elem_of_fmap_2.
Qed.

Lemma cum_loop_inv arr rest : (forall i, (i < length arr)%nat -> arr !! i = Some tstat_zero) ->
  Z.of_nat (length arr) < 2 ^ 31 -> forall done ks s,
  StronglySorted (fun a b => cmp a b <= 0) (done ++ pick rest) ->
  cum_inv arr done ks s -> (length (done ++ pick rest) <= length arr)%nat ->
  exists s' ks', cum_loop sel suppressexit key set_key rest s = Some s' /\
    cum_inv arr (done ++ pick rest) ks' s'.
Proof.
  intros Hz Hsz. induction rest as [|p rest IH]; intros done ks s HS HI Hl; cbn [cum_loop pick List.filter] in *.
  - rewrite app_nil_r. eauto.
  - destruct (chosen p) eqn:Hc.
    + change (List.filter chosen rest) with (pick rest) in *.
      pose proof (keys_length _ _ _ _ HI). rewrite length_app in Hl. cbn in Hl.
      assert (Hstep : exists s' ks', cum_step sel suppressexit key set_key p s = Some s' /\
        cum_inv arr (done ++ [p]) ks' s').
      { destruct (decide (keyof p ∈ ks)) as [Hin|Hnew].
        - apply (ci_keys _ _ _ _ HI) in Hin as (q & Hq & E).
          destruct (last done) as [k|] eqn:Hk; [|apply last_None in Hk; subst done; set_solver].
          pose proof (sorted_last _ _ _ _ _ HS Hq E Hk) as Ek.
          destruct (cum_step_same arr done ks s p (keyof k)) as (s' & ? & ?); [done| |done|done|eauto].
          by apply (ci_last _ _ _ _ HI).
        - destruct (cum_step_new arr done ks s p) as (s' & ? & ?); try done; try lia. eauto. }
      destruct Hstep as (s' & ks' & -> & HI'). mstep.
      change (p :: pick rest) with ([p] ++ pick rest) in *. rewrite app_assoc in *.
      apply (IH _ ks'); [done | done |]. rewrite !length_app. cbn. lia.
    + unfold cum_step at 1. rewrite left_out_total, Hc. mstep. cbn [negb]. by apply (IH _ ks).
Qed.

Lemma pick_sorted l : StronglySorted (fun a b => cmp a b <= 0) l ->
  StronglySorted (fun a b => cmp a b <= 0) (pick l).
Proof.
  induction 1 as [|x l HS IH HF]; cbn; [constructor|]. destruct (chosen x); [|done].
  constructor; [done|]. rewrite Forall_forall in *. intros y Hy. apply HF.
  apply list_elem_of_In in Hy. apply filter_In in Hy as [Hy _]. by apply list_elem_of_In.
Qed.

(** The list has one entry per key of the chosen processes, with the key and
    with the sums over the chosen processes of that key. *)
Definition grouped (procs : list tstat.tstat) (num : Z) (users : list tstat.tstat) : Prop :=
  exists ks, NoDup ks /\ num = Z.of_nat (length ks) /\
    (forall k, k ∈ ks <-> exists p, p ∈ pick procs /\ keyof p = k) /\
    (forall i k, ks !! i = Some k -> exists t, users !! i = Some t /\ keyof t = k /\
       summed (filter (fun p => keyof p = k) (pick procs)) t).

Lemma cum_all arr procs :
  (forall i, (i < length arr)%nat -> arr !! i = Some tstat_zero) ->
  Z.of_nat (length arr) < 2 ^ 31 -> (0 < length arr)%nat -> (length procs <= length arr)%nat ->
  StronglySorted (fun a b => cmp a b <= 0) procs ->
  exists s num users, cum_loop sel suppressexit key set_key procs (cumlist.mk arr 0 0) = Some s /\
    cum_end s = Some (num, users) /\ grouped procs num users.
Proof.
  intros Hz Hsz Hpos Hl HS.
  assert (HI : cum_inv arr [] [] (cumlist.mk arr 0 0)).
  { split; cbn; try done. - apply NoDup_nil_2. - set_solver. }
  assert (Hpl : (length (pick procs) <= length procs)%nat) by apply filter_length_le.
  destruct (cum_loop_inv arr procs Hz Hsz [] [] _ (pick_sorted _ HS) HI) as (s & ks & -> & HI'); [cbn; lia|].
  cbn [app] in HI'. pose proof (keys_length _ _ _ _ HI') as Hk.
  exists s, (Z.of_nat (length ks)), s.(cumlist.list). split; [done|]. split.
  - unfold cum_end. rewrite (ci_u _ _ _ _ HI'). destruct (last ks) as [k|] eqn:Ek.
    + pose proof (last_snoc_nat _ _ Ek) as Hkl. rewrite (ci_slot _ _ _ _ HI' _ _ Hkl). mstep.
      rewrite entry_pid by lia. rewrite (ci_num _ _ _ _ HI'). apply lookup_lt_Some in Hkl as Hlt.
      destruct (proj1 (ci_keys _ _ _ _ HI' k)) as (q & Hq & E); [by eapply list_elem_of_lookup_2|].
      assert (Hf : q ∈ filter (fun p => keyof p = k) (pick procs)) by by apply list_elem_of_filter.
      rewrite (proj2 (Z.eqb_neq _ 0)) by (destruct (filter _ _); [set_solver|cbn; lia]).
      cbn [negb]. rewrite i32_id by (unfold in_i32; lia). do 2 f_equal. lia.
    + apply last_None in Ek. subst ks. cbn [length Nat.pred].
      rewrite (ci_rest _ _ _ _ HI'), Hz by (cbn; lia). mstep. by rewrite (ci_num _ _ _ _ HI').
  - exists ks. split; [apply HI'|]. split; [done|]. split; [apply HI'|].
    intros i k Hi. exists (entry k (pick procs)). split; [by apply HI'|].
    split; [apply entry_key | apply entry_summed].
Qed.
End groups.

(** ** The three lists *)

Lemma compusr_key p q : compusr p q = 0 <-> p.(tstat.gen).(tgen.ruid) = q.(tstat.gen).(tgen.ruid).
Proof. unfold compusr. repeat case_match; lia. Qed.

Lemma compnam_key p q : compnam p q = 0 <-> p.(tstat.gen).(tgen.name) = q.(tstat.gen).(tgen.name).
Proof. apply strcmp_zero. Qed.

Lemma compcon_key p q : compcon p q = 0 <-> p.(tstat.gen).(tgen.container) = q.(tstat.gen).(tgen.container).
Proof. apply strcmp_zero. Qed.

(** The new list is allocated with zeros, one entry per process. *)
Definition zero_list (arr procs : list tstat.tstat) : Prop :=
  (forall i, (i < length arr)%nat -> arr !! i = Some tstat_zero) /\
  Z.of_nat (length arr) < 2 ^ 31 /\ (0 < length arr)%nat /\ length procs = length arr.

Section lists.
Context `{QSort} (sel : pselection.pselection) (suppressexit : bool) (Hsel : sel_ok sel).

Lemma cum_sorted {K} `{EqDecision K} (key : tgen.tgen -> K) set_key cmp `{!Comparator cmp} procs arr :
  (forall k g, key (set_key k g) = k) -> (forall k g, (set_key k g).(tgen.pid) = g.(tgen.pid)) ->
  (forall k g, (set_key k g).(tgen.nthr) = g.(tgen.nthr)) ->
  (forall p g, key (acc_gen p g) = key g) -> set_key (key tgen_zero) tgen_zero = tgen_zero ->
  (forall p q, cmp p q = 0 <-> key p.(tstat.gen) = key q.(tstat.gen)) -> zero_list arr procs ->
  exists s num users, cum_loop sel suppressexit key set_key (qsort cmp procs) (cumlist.mk arr 0 0) = Some s /\
    cum_end s = Some (num, users) /\ grouped sel suppressexit key (qsort cmp procs) num users.
Proof.
  intros H1 H2 H3 H4 H5 H6 (Hz & Hsz & Hpos & Hl).
  apply (cum_all sel suppressexit Hsel key set_key H1 H2 H3 H4 H5 cmp H6); try done.
  - rewrite (qsort_perm cmp procs _). lia.
  - by apply qsort_sorted.
Qed.

Lemma cumusers_grouped procs arr : zero_list arr procs ->
  exists num users, cumusers sel suppressexit procs arr = Some (qsort compusr procs, (num, users)) /\
    grouped sel suppressexit tgen.ruid (qsort compusr procs) num users.
Proof.
  intros Hz. destruct (cum_sorted tgen.ruid set_ruid compusr procs arr) as (s & n & u & E1 & E2 & HG);
    try done; [apply compusr_key|]. exists n, u. unfold cumusers. rewrite E1. mstep. by rewrite E2.
Qed.

Lemma cumprogs_grouped procs arr : zero_list arr procs ->
  exists num progs, cumprogs sel suppressexit procs arr = Some (qsort compnam procs, (num, progs)) /\
    grouped sel suppressexit tgen.name (qsort compnam procs) num progs.
Proof.
  intros Hz. destruct (cum_sorted tgen.name set_name compnam procs arr) as (s & n & u & E1 & E2 & HG);
    try done; [apply compnam_key|]. exists n, u. unfold cumprogs. rewrite E1. mstep. by rewrite E2.
Qed.

Lemma cumconts_grouped procs arr : zero_list arr procs ->
  exists num conts, cumconts sel suppressexit procs arr = Some (qsort compcon procs, (num, conts)) /\
    grouped sel suppressexit tgen.container (qsort compcon procs) num conts.
Proof.
  intros Hz. destruct (cum_sorted tgen.container set_container compcon procs arr) as (s & n & u & E1 & E2 & HG);
    try done; [apply compcon_key|]. exists n, u. unfold cumconts. rewrite E1. mstep. by rewrite E2.
Qed.

(** C34: cumusers, cumprogs and cumconts sort the processes by user, name or
    container and return one entry for each user, program or container that
    has a selected process, and their number; the counters of an entry are the
    sums over all its selected processes: number of processes and threads,
    processor ticks, disk and network transfers, memory of the processes still
    alive. *)
Theorem lists_grouped procs arr : zero_list arr procs ->
  (exists num users, cumusers sel suppressexit procs arr = Some (qsort compusr procs, (num, users)) /\
    grouped sel suppressexit tgen.ruid (qsort compusr procs) num users) /\
  (exists num progs, cumprogs sel suppressexit procs arr = Some (qsort compnam procs, (num, progs)) /\
    grouped sel suppressexit tgen.name (qsort compnam procs) num progs) /\
  (exists num conts, cumconts sel suppressexit procs arr = Some (qsort compcon procs, (num, conts)) /\
    grouped sel suppressexit tgen.container (qsort compcon procs) num conts).
Proof.
  intros Hz. split_and!; [by apply cumusers_grouped | by apply cumprogs_grouped | by apply cumconts_grouped].
Qed.
End lists.

(** ** Totals of the system *)

Definition dsk_transfer (t : tstat.tstat) : Z := t.(tstat.dsk).(tdsk.rsz) + nett_wsz t.
Definition net_transfer (t : tstat.tstat) : Z :=
  let n := t.(tstat.net) in n.(tnet.tcpssz) + n.(tnet.tcprsz) + n.(tnet.udpssz) + n.(tnet.udprsz).

Lemma cap_sum l a b :
  foldl (fun s c => cap_step c s) (i64 a, i64 b) l =
  (i64 (a + zsum dsk_transfer l), i64 (b + zsum net_transfer l)).
Proof.
  revert a b. induction l as [|t l IH]; intros a b; cbn [foldl zsum]; [by rewrite !Z.add_0_r|].
  assert (E : cap_step t (i64 a, i64 b) = (i64 (a + dsk_transfer t), i64 (b + net_transfer t))).
  { unfold cap_step, dsk_transfer, net_transfer. cbn [fst snd]. autorewrite with cint.
    f_equal; rewrite <-!Z.add_assoc, !i64_add_l, <-?Z.add_assoc, ?i64_add_l; apply (f_equal i64); lia. }
  rewrite E, IH. f_equal; apply (f_equal i64); lia.
Qed.

(** totalcap makes the disk capacity the sum over all processes of the
    sectors read and of the net sectors written, and the network capacity the
    sum of the bytes sent and received. *)
Theorem totalcap_transfers pagesize ss l :
  (totalcap pagesize ss l).(syscap.availdsk) = i64 (zsum dsk_transfer l) /\
  (totalcap pagesize ss l).(syscap.availnet) = i64 (zsum net_transfer l).
Proof. unfold totalcap. cbn. change (0, 0) with (i64 0, i64 0). by rewrite cap_sum. Qed.

(** ** Concrete processes *)

Definition a_proc (pid ruid : Z) (name container : string) (utime : Z) : tstat.tstat :=
  {| tstat.gen := tgen.mk pid pid 1 ruid ruid ruid ruid 0 0 0 0 1 name 1 83 0 100 0 name 1 0 0 0 0 0 container;
     tstat.cpu := tcpu.mk utime 0 0 0 0 0 0 0 tcpu_zero.(tcpu.ifuture) tcpu_zero.(tcpu.cfuture);
     tstat.dsk := tdsk_zero; tstat.mem := tmem_zero; tstat.net := tnet_zero |}.

Definition some_procs : list tstat.tstat :=
  [a_proc 10 5 "sh" EmptyString 3; a_proc 11 7 "vi" "c1" 4; a_proc 12 5 "vi" "c1" 8].

Definition no_selection : pselection.pselection :=
  pselection.mk [USERSTUB] [0] 0 (fun _ => 0) 0 (fun _ => 0) EmptyString.
Definition select_5 : pselection.pselection :=
  pselection.mk [5; USERSTUB] [0] 2 (fun s => if str_same s "vi" then 0 else 1) 0 (fun _ => 0) EmptyString.

Lemma no_selection_ok : sel_ok no_selection.
Proof. split; by left. Qed.

Lemma some_zero : zero_list (replicate 3 tstat_zero) some_procs.
Proof.
  unfold zero_list. rewrite length_replicate. split; [|split_and!; try done; cbn; lia].
  intros i Hi. by apply lookup_replicate_2.
Qed.

Lemma procsuppress_spec_witness :
  procsuppress (a_proc 12 5 "vi" "c1" 8) select_5 = Some 0 /\ procsuppress (a_proc 11 7 "vi" "c1" 4) select_5 = Some 1.
Proof.
  assert (Hu : USERSTUB ∉ [5]) by (intros H%list_elem_of_singleton; done).
  assert (Hp : 0 ∉ ([] : list Z)) by apply not_elem_of_nil. split.
  - destruct (procsuppress_spec (a_proc 12 5 "vi" "c1" 8) select_5 [5] [] [] [] eq_refl Hu ltac:(done) eq_refl Hp
      ltac:(done)) as (r & E & _ & H).
    rewrite E. f_equal. apply H. split; [right; by left|]. split; [by left|]. split; done.
  - destruct (procsuppress_spec (a_proc 11 7 "vi" "c1" 4) select_5 [5] [] [] [] eq_refl Hu ltac:(done) eq_refl Hp
      ltac:(done)) as (q & E & [E0|E1] & H); [|by rewrite E, E1].
    apply H in E0 as ([?|Hin%list_elem_of_singleton] & _); done.
Defined.

Lemma lists_grouped_witness :
  (exists procs users, cumusers no_selection false some_procs (replicate 3 tstat_zero) = Some (procs, (2, users)) /\
    grouped no_selection false tgen.ruid procs 2 users) /\
  (exists procs progs, cumprogs no_selection false some_procs (replicate 3 tstat_zero) = Some (procs, (2, progs)) /\
    grouped no_selection false tgen.name procs 2 progs) /\
  exists procs conts, cumconts no_selection false some_procs (replicate 3 tstat_zero) = Some (procs, (2, conts)) /\
    grouped no_selection false tgen.container procs 2 conts.
Proof.
  destruct (lists_grouped no_selection false no_selection_ok some_procs _ some_zero)
    as ((n & u & E & G) & (n2 & u2 & E2 & G2) & (n3 & u3 & E3 & G3)).
  assert (H1 : n = 2) by (vm_compute in E; congruence). assert (H2 : n2 = 2) by (vm_compute in E2; congruence).
  assert (H3 : n3 = 2) by (vm_compute in E3; congruence). subst. split_and!; by eauto.
Defined.
