(* ===== verification/Showline.v ===== *)
(** * The layout of the process list: showprocs.c and showlinux.c

    The descriptions of the columns in the configuration ([makeargv],
    [make_proc_prints], [init_proc_prints], [priphead] with the built-in
    layouts), the choice of the columns that fit a line ([getspacings]), the
    header line and the process lines, and the hand-over of the processes to
    the viewer ([priproc]). A pointer to a [proc_printdef] is its index in the
    table [allprocpdefs], which is part of the state because
    [init_proc_prints] and [getspacings] change widths and headers.

    The sums of column widths are not wrapped to 32 bits: a line has at most
    [MAXITEMS] columns. This build has no ncurses, so that every column is
    followed by a single space. *)
From Stdlib Require Import Ascii.
From S2P Require Import Prelude Format Sscanf Tstat Netatopif Deviattask Photoproc Various Showprocs Cumulate.

Definition MAXITEMS : nat := 80.
Definition INT_MAX : Z := 2 ^ 31 - 1.

(** ** Pairs of a column and its priority *)

Module printpair.
Record printpair := mk { f : nat; prio : Z }.
End printpair.

(** ** Choosing the columns: [gettotwidth], [getspacings] *)

Fixpoint gettotwidth (defs : list printdef.printdef) (elems : list printpair.printpair) (col varw : Z) :
  option (Z * Z) :=
  match elems with
  | [] => Some (col, varw)
  | el :: elems =>
      d ← defs !! el.(printpair.f);
      gettotwidth defs elems
        (col + (if d.(printdef.varwidth) =? 0 then d.(printdef.width) else 0))
        (varw + d.(printdef.varwidth))
  end.

(** The first column of the lowest priority; [lowestprio] starts at 999999 and
    [lowestprio_index] at -1, which is [None]. *)
Fixpoint lowest (elems : list printpair.printpair) (i : nat) (best : Z * option nat) : Z * option nat :=
  match elems with
  | [] => best
  | el :: elems =>
      lowest elems (S i) (if el.(printpair.prio) <? best.1 then (el.(printpair.prio), Some i) else best)
  end.

Definition lowestprio_index (elems : list printpair.printpair) : option nat := (lowest elems 0 (999999, None)).2.

Definition space_required (elems : list printpair.printpair) (col varwidth : Z) : Z :=
  col + Z.of_nat (length elems) - 1 + 12 * varwidth.

(** [while (col + nitems-1 + 12*varwidth > maxw)]: the columns that are kept,
    with their widths; [None] reads [newelems[-1]]. *)
Fixpoint remove_columns (fuel : nat) (defs : list printdef.printdef) (maxw : Z)
    (elems : list printpair.printpair) (col varwidth : Z) : option (list printpair.printpair * Z * Z) :=
  if maxw <? space_required elems col varwidth then
    match fuel with
    | O => None
    | S fuel =>
        i ← lowestprio_index elems;
        el ← elems !! i;
        d ← defs !! el.(printpair.f);
        remove_columns fuel defs maxw (delete i elems)
          (col - d.(printdef.width)) (varwidth - d.(printdef.varwidth))
    end
  else Some (elems, col, varwidth).

Definition set_width (w : Z) (d : printdef.printdef) : printdef.printdef :=
  printdef.mk d.(printdef.head) d.(printdef.configname) d.(printdef.doactiveconvert)
    d.(printdef.doexitconvert) w d.(printdef.varwidth).

(** The column of variable width takes what is left. *)
Definition widen (w : Z) (defs : list printdef.printdef) (el : printpair.printpair) : list printdef.printdef :=
  match defs !! el.(printpair.f) with
  | Some d => if d.(printdef.varwidth) =? 0 then defs else <[el.(printpair.f) := set_width w d]> defs
  | None => defs
  end.

Definition dbl_add (x y : Z * Z) : Z * Z := dbl (x.1 * y.2 + y.1 * x.2) (x.2 * y.2).
Definition dbl_sub (x y : Z * Z) : Z * Z := dbl (x.1 * y.2 - y.1 * x.2) (x.2 * y.2).

(** The spaces after [n] columns: [spacings[j]=(int)todo+0.5]. *)
Fixpoint spread (n : nat) (over todo : Z * Z) : list Z :=
  match n with
  | O => []
  | S n =>
      let s := Z.quot (2 * Z.quot todo.1 todo.2 + 1) 2 in
      s :: spread n over (dbl_add (dbl_sub todo (s, 1)) over)
  end.

(** The table, the columns to print and the spaces after them. *)
Definition getspacings (defs : list printdef.printdef) (maxw : Z) (elemptr : list printpair.printpair) :
  option (list printdef.printdef * list printpair.printpair * list Z) :=
  '(col, varwidth) ← gettotwidth defs elemptr 0 0;
  if Nat.eqb (length elemptr) 1 then Some (defs, elemptr, [0])
  else
    '(newelems, col, varwidth) ← remove_columns (length elemptr) defs maxw elemptr col varwidth;
    let nitems := length newelems in
    if negb (varwidth =? 0) then
      let w := maxw - col - (Z.of_nat nitems - 1) in
      Some (foldl (widen w) defs (take nitems elemptr), newelems, replicate nitems 1)
    else
      let over := dbl (maxw - col) (Z.of_nat nitems - 1) in
      Some (defs, newelems, spread (nitems - 1) over over ++ [0]).

(** ** The header and the lines *)

Definition MSORTCPU : Z := 67.
Definition MSORTDSK : Z := 68.
Definition MSORTMEM : Z := 77.
Definition MSORTNET : Z := 78.

Definition columnhead (order : Z) : option text :=
  if order =? MSORTCPU then Some (chars "CPU") else
  if order =? MSORTMEM then Some (chars "MEM") else
  if order =? MSORTDSK then Some (chars "DSK") else
  if order =? MSORTNET then Some (chars "NET") else None.

(** The header of a column with its space. *)
Definition head_cell (d : printdef.printdef) (order : Z) (autosort : bool) : option text :=
  match d.(printdef.head) with
  | None => chead ← columnhead order; Some ((if autosort then chars "A" else chars " ") ++ chead ++ chars " ")
  | Some chead => Some (chars chead ++ chars " ")
  end.

(** [sprintf(buf+col, ...)] into [size] bytes, column after column. *)
Fixpoint head_cells (defs : list printdef.printdef) (size : Z) (order : Z) (autosort : bool)
    (elems : list printpair.printpair) (buf : text) : option text :=
  match elems with
  | [] => Some buf
  | el :: elems =>
      d ← defs !! el.(printpair.f);
      cell ← head_cell d order autosort;
      let buf := buf ++ cell in
      if Z.of_nat (length buf) + 1 <=? size then head_cells defs size order autosort elems buf else None
  end.

(** The table, the columns for the process lines, and the header. *)
Definition showhdrline (defs : list printdef.printdef) (maxw : Z) (elemptr : list printpair.printpair)
    (showorder : Z) (autosort : bool) :
  option (list printdef.printdef * list printpair.printpair * text) :=
  '(defs, newelems, _) ← getspacings defs maxw elemptr;
  let bufsz := maxw + 1 in
  buf ← head_cells defs (bufsz + 2) showorder autosort newelems [];
  Some (defs, newelems, [newline] ++ buf ++ [newline]).

Definition exited_state : Z := 69.

(** [%3.0lf%%] *)
Definition perc_text (perc : Z * Z) : text := pad 3 (fmt_f 0 perc) ++ chars "%".

Definition proc_cell (e : prtenv.prtenv) (d : printdef.printdef) (curstat : tstat.tstat) (perc : Z * Z)
    (nsecs : Z) (avgval : bool) : option text :=
  t ← (match d.(printdef.head) with
       | None => Some (perc_text perc)
       | Some _ =>
           (if curstat.(tstat.gen).(tgen.state) =? exited_state then d.(printdef.doexitconvert)
            else d.(printdef.doactiveconvert)) e curstat avgval nsecs
       end);
  Some (t ++ chars " ").

Fixpoint proc_cells (e : prtenv.prtenv) (defs : list printdef.printdef) (elems : list printpair.printpair)
    (curstat : tstat.tstat) (perc : Z * Z) (nsecs : Z) (avgval : bool) : option text :=
  match elems with
  | [] => Some []
  | el :: elems =>
      d ← defs !! el.(printpair.f);
      cell ← proc_cell e d curstat perc nsecs avgval;
      rest ← proc_cells e defs elems curstat perc nsecs avgval;
      Some (cell ++ rest)
  end.

Definition showprocline (e : prtenv.prtenv) (defs : list printdef.printdef) (newelems : list printpair.printpair)
    (curstat : tstat.tstat) (perc : Z * Z) (nsecs : Z) (avgval : bool) : option text :=
  line ← proc_cells e defs newelems curstat perc nsecs avgval; Some (line ++ [newline]).

(** ** The table of columns *)

Definition allprocpdefs : list printdef.printdef := [
  procprt_PID; procprt_TID; procprt_PPID; procprt_SYSCPU; procprt_USRCPU; procprt_VGROW; procprt_RGROW;
  procprt_MINFLT; procprt_MAJFLT; procprt_VSTEXT; procprt_VSIZE; procprt_RSIZE; procprt_PSIZE;
  procprt_VSLIBS; procprt_VDATA; procprt_VSTACK; procprt_SWAPSZ; procprt_CMD; procprt_RUID; procprt_EUID;
  procprt_SUID; procprt_FSUID; procprt_RGID; procprt_EGID; procprt_SGID; procprt_FSGID; procprt_CTID;
  procprt_VPID; procprt_CID; procprt_STDATE; procprt_STTIME; procprt_ENDATE; procprt_ENTIME; procprt_THR;
  procprt_TRUN; procprt_TSLPI; procprt_TSLPU; procprt_POLI; procprt_NICE; procprt_PRI; procprt_RTPR;
  procprt_CURCPU; procprt_ST; procprt_EXC; procprt_S; procprt_COMMAND_LINE; procprt_NPROCS; procprt_RDDSK;
  procprt_WRDSK; procprt_CWRDSK; procprt_WCANCEL; procprt_TCPRCV; procprt_TCPRASZ; procprt_TCPSND;
  procprt_TCPSASZ; procprt_UDPRCV; procprt_UDPRASZ; procprt_UDPSND; procprt_UDPSASZ; procprt_RNET;
  procprt_SNET; procprt_BANDWI; procprt_BANDWO; procprt_SORTITEM].

(** The columns whose width depends on the system, by their names. *)
Definition idprocpdefs : list string := ["PID"; "TID"; "PPID"; "VPID"].

(** A store of [bytes] bytes, from the offset [first] on, in an area of [size]
    bytes from [malloc]. *)
Module heapwrite.
Record heapwrite := mk { size : Z; first : Z; bytes : Z }.
End heapwrite.

(** [char *p = malloc(numdigits) + 1; sprintf(p, '%*s', numdigits, head);] for a
    header that is shorter than the column. *)
Definition reformat (numdigits : Z) (d : printdef.printdef) : printdef.printdef * list heapwrite.heapwrite :=
  match d.(printdef.head) with
  | Some head =>
      if Z.of_nat (String.length head) <? u64 numdigits then
        let p := pad numdigits (chars head) in
        (printdef.mk (Some (String.string_of_list_ascii p)) d.(printdef.configname)
           d.(printdef.doactiveconvert) d.(printdef.doexitconvert) numdigits d.(printdef.varwidth),
         [heapwrite.mk numdigits 1 (Z.of_nat (length p) + 1)])
      else (set_width numdigits d, [])
  | None => (set_width numdigits d, [])
  end.

Definition is_idcolumn (d : printdef.printdef) : bool := bool_decide (d.(printdef.configname) ∈ idprocpdefs).

(** The digits of /proc/sys/kernel/pid_max: [strlen(linebuf) - 1]. *)
Definition pid_digits (pid_max : option text) : Z :=
  match pid_max with
  | None => 5
  | Some l => match l with
              | [] => 5
              | _ => Z.of_nat (length (cstr (fgets 63 l).1)) - 1
              end
  end.

Definition init_proc_prints (pid_max : option text) (defs : list printdef.printdef) :
  list printdef.printdef * list heapwrite.heapwrite :=
  let numdigits := pid_digits pid_max in
  let rs := (fun d => if is_idcolumn d then reformat numdigits d else (d, [])) <$> defs in
  (rs.*1, concat rs.*2).

(** ** The configuration of the columns *)

Definition blank (c : ascii) : bool := Ascii.eqb c " " || Ascii.eqb c "009".

Fixpoint skip_blank (p : text) : text :=
  match p with
  | c :: p' => if blank c then skip_blank p' else p
  | [] => []
  end.

(** The name before the colon and the text after it. *)
Fixpoint split_colon (p : text) : option (text * text) :=
  match p with
  | [] => None
  | c :: p' => if Ascii.eqb c ":" then Some ([], p')
               else r ← split_colon p'; Some (c :: r.1, r.2)
  end.

(** The loop of [makeargv] with [room] entries left; [Exit 1] is a message and
    [cleanstop(1)]. *)
Fixpoint parse_pairs (room : nat) (p : text) : exitor (list (text * Z)) :=
  match room with
  | O => Ret []
  | S room =>
      match skip_blank p with
      | [] => Ret []
      | p =>
          match split_colon p with
          | None => Exit 1
          | Some (name, p) =>
              match strtol p with
              | None => Exit 1
              | Some (lprio, erange, p) =>
                  if erange || (INT_MAX <=? lprio) || (lprio <? 0) then Exit 1
                  else rest ← parse_pairs room p; Ret ((name, lprio) :: rest)
              end
          end
      end
  end.

Definition makeargv (line : text) : exitor (list (text * Z)) := parse_pairs (MAXITEMS - 1) line.

(** The first entry with that name. *)
Fixpoint find_name (names : list string) (name : text) : option nat :=
  match names with
  | [] => None
  | n :: names => if bool_decide (chars n = name) then Some O else S <$> find_name names name
  end.

Fixpoint resolve (names : list string) (items : list (text * Z)) : exitor (list printpair.printpair) :=
  match items with
  | [] => Ret []
  | (name, prio) :: items =>
      match find_name names name with
      | None => Exit 1
      | Some j => rest ← resolve names items; Ret (printpair.mk j prio :: rest)
      end
  end.

(** The names of a system line are those of its [permissables]. *)
Definition make_sys_prints (maxn : nat) (pairs : text) (permissables : list string) :
  exitor (list printpair.printpair) :=
  items ← makeargv pairs; resolve permissables (take (maxn - 1) items).

Definition make_proc_prints (maxn : nat) (pairs : text) : exitor (list printpair.printpair) :=
  items ← makeargv pairs; resolve (printdef.configname <$> allprocpdefs) (take (maxn - 1) items).
