(* ===== verification/Prihead.v ===== *)
(** * The process list and its configuration: showlinux.c

    [priphead] with the built-in layouts, [priproc], and the handlers of the
    numeric settings of the configuration file. *)
From Stdlib Require Import Ascii.
From S2P Require Import Prelude Format Sscanf Tstat Netatopif Deviattask Photoproc Various Showprocs Cumulate Showline.

(** ** The layouts *)

(** The arrays of pairs, the table of columns and the static variables. *)
Module layout.
Record layout := mk {
  defs : list printdef.printdef;
  heap : list heapwrite.heapwrite;
  memprocs : list printpair.printpair;
  schedprocs : list printpair.printpair;
  genprocs : list printpair.printpair;
  dskprocs : list printpair.printpair;
  netprocs : list printpair.printpair;
  varprocs : list printpair.printpair;
  cmdprocs : list printpair.printpair;
  ownprocs : list printpair.printpair;
  totusers : list printpair.printpair;
  totprocs : list printpair.printpair;
  totconts : list printpair.printpair;
  newelems : list printpair.printpair;
  firsttime : bool;
  prev_supportflags : Z;
  prev_threadview : Z
}.
End layout.

Definition built_in (pairs : string) : exitor (list printpair.printpair) := make_proc_prints MAXITEMS (chars pairs).

Definition MEMPROCS : string :=
  "PID:10 TID:3 MINFLT:2 MAJFLT:2 VSTEXT:4 VSLIBS:4 VDATA:4 VSTACK:4 VSIZE:6 RSIZE:7 PSIZE:5 VGROW:7 RGROW:8 SWAPSZ:5 RUID:1 EUID:0 SORTITEM:9 CMD:10".
Definition SCHEDPROCS : string :=
  "PID:10 TID:6 CID:5 VPID:4 CTID:4 TRUN:7 TSLPI:7 TSLPU:7 POLI:8 NICE:9 PRI:9 RTPR:9 CPUNR:8 ST:8 EXC:8 S:8 SORTITEM:10 CMD:10".
Definition DSKPROCS : string := "PID:10 TID:4 RDDSK:9 WRDSK:9 WCANCL:8 SORTITEM:10 CMD:10".
Definition NETPROCS : string :=
  "PID:10 TID:6 TCPRCV:9 TCPRASZ:4 TCPSND:9 TCPSASZ:4 UDPRCV:8 UDPRASZ:3 UDPSND:8 UDPSASZ:3 BANDWI:10 BANDWO:10 SORTITEM:10 CMD:10".
Definition VARPROCS : string :=
  "PID:10 TID:4 PPID:9 CID:2 VPID:1 CTID:1 RUID:8 RGID:8 EUID:5 EGID:4 SUID:3 SGID:2 FSUID:3 FSGID:2 STDATE:7 STTIME:7 ENDATE:5 ENTIME:5 ST:6 EXC:6 S:6 SORTITEM:10 CMD:10".
Definition CMDPROCS : string := "PID:10 TID:4 S:8 SORTITEM:10 COMMAND-LINE:10".
Definition TOTALS : string :=
  "NPROCS:10 SYSCPU:9 USRCPU:9 VSIZE:6 RSIZE:8 PSIZE:8 SWAPSZ:5 RDDSK:7 CWRDSK:7 RNET:6 SNET:6 SORTITEM:10 ".
Definition TOTUSERS : string := (TOTALS ++ "RUID:10")%string.
Definition TOTPROCS : string := (TOTALS ++ "CMD:10")%string.
Definition TOTCONTS : string := (TOTALS ++ "CID:10")%string.

Definition FORMPID : string := "PID:10 ".
Definition FORMTID : string := "TID:6 ".
Definition FORMCID : string := "CID:5 ".
Definition FORMCPU : string := "SYSCPU:9 USRCPU:9 ".
Definition FORMMEM : string := "VGROW:8 RGROW:8 ".
Definition FORMDSK : string := "RDDSK:7 CWRDSK:7 ".
Definition FORMNET : string := "RNET:6 SNET:6 ".
Definition FORMMSC : string := "RUID:3 EUID:2 ST:4 EXC:4 THR:4 S:4 CPUNR:4 ".
Definition FORMEND : string := "SORTITEM:10 CMD:10".

Definition flag (flags bit : Z) : bool := negb (Z.land flags bit =? 0).

Definition dynamic_format (supportflags threadview : Z) : string :=
  (FORMPID ++ (if (threadview =? 0)%Z then EmptyString else FORMTID) ++
   (if flag supportflags DOCKSTAT then FORMCID else EmptyString) ++ FORMCPU ++ FORMMEM ++
   (if flag supportflags IOSTAT then FORMDSK else EmptyString) ++
   (if flag supportflags NETATOP then FORMNET else EmptyString) ++ FORMMSC ++ FORMEND)%string.

(** The area [format] has 300 bytes. *)
Definition make_proc_dynamicgen (supportflags threadview : Z) : run (list printpair.printpair) :=
  let format := dynamic_format supportflags threadview in
  if (String.length format + 1 <=? 300)%nat then Some (built_in format) else None.

(** [firsttime] stays 1. *)
Definition determine_layout (pid_max : option text) (st : layout.layout) : exitor layout.layout :=
  if st.(layout.firsttime) then
    let r := init_proc_prints pid_max st.(layout.defs) in
    memprocs ← built_in MEMPROCS;
    schedprocs ← built_in SCHEDPROCS;
    dskprocs ← built_in DSKPROCS;
    netprocs ← built_in NETPROCS;
    varprocs ← built_in VARPROCS;
    cmdprocs ← built_in CMDPROCS;
    totusers ← built_in TOTUSERS;
    totprocs ← built_in TOTPROCS;
    totconts ← built_in TOTCONTS;
    Ret (layout.mk r.1 (st.(layout.heap) ++ r.2) memprocs schedprocs st.(layout.genprocs) dskprocs netprocs
           varprocs cmdprocs st.(layout.ownprocs) totusers totprocs totconts st.(layout.newelems)
           st.(layout.firsttime) st.(layout.prev_supportflags) st.(layout.prev_threadview))
  else Ret st.

Definition set_generic (genprocs : list printpair.printpair) (supportflags threadview : Z) (st : layout.layout) :
  layout.layout :=
  layout.mk st.(layout.defs) st.(layout.heap) st.(layout.memprocs) st.(layout.schedprocs) genprocs
    st.(layout.dskprocs) st.(layout.netprocs) st.(layout.varprocs) st.(layout.cmdprocs) st.(layout.ownprocs)
    st.(layout.totusers) st.(layout.totprocs) st.(layout.totconts) st.(layout.newelems) st.(layout.firsttime)
    supportflags threadview.

Definition set_shown (defs : list printdef.printdef) (newelems : list printpair.printpair) (st : layout.layout) :
  layout.layout :=
  layout.mk defs st.(layout.heap) st.(layout.memprocs) st.(layout.schedprocs) st.(layout.genprocs)
    st.(layout.dskprocs) st.(layout.netprocs) st.(layout.varprocs) st.(layout.cmdprocs) st.(layout.ownprocs)
    st.(layout.totusers) st.(layout.totprocs) st.(layout.totconts) newelems st.(layout.firsttime)
    st.(layout.prev_supportflags) st.(layout.prev_threadview).

Definition MPROCGEN : Z := 103.
Definition MPROCMEM : Z := 109.
Definition MPROCDSK : Z := 100.
Definition MPROCNET : Z := 110.
Definition MPROCSCH : Z := 115.
Definition MPROCVAR : Z := 118.
Definition MPROCARG : Z := 99.
Definition MPROCOWN : Z := 111.
Definition MCUMUSER : Z := 117.
Definition MCUMPROC : Z := 112.
Definition MCUMCONT : Z := 106.

(** The columns of a kind of report. *)
Definition report (st : layout.layout) (showtype : Z) : option (list printpair.printpair) :=
  if showtype =? MPROCGEN then Some st.(layout.genprocs) else
  if showtype =? MPROCMEM then Some st.(layout.memprocs) else
  if showtype =? MPROCDSK then Some st.(layout.dskprocs) else
  if showtype =? MPROCNET then Some st.(layout.netprocs) else
  if showtype =? MPROCVAR then Some st.(layout.varprocs) else
  if showtype =? MPROCARG then Some st.(layout.cmdprocs) else
  if showtype =? MPROCOWN then Some st.(layout.ownprocs) else
  if showtype =? MPROCSCH then Some st.(layout.schedprocs) else
  if showtype =? MCUMUSER then Some st.(layout.totusers) else
  if showtype =? MCUMPROC then Some st.(layout.totprocs) else
  if showtype =? MCUMCONT then Some st.(layout.totconts) else None.

(** The new state, the kind of report, the sort order and the text. *)
Definition priphead (pid_max : option text) (supportflags threadview linelen : Z) (st : layout.layout)
    (showtype showorder : Z) (autosort : bool) : run (layout.layout * Z * Z * text) :=
  st ← Some (determine_layout pid_max st);
  let changed := negb (st.(layout.prev_supportflags) =? supportflags) ||
                 negb (st.(layout.prev_threadview) =? threadview) in
  st ← (if changed then
          genprocs ← make_proc_dynamicgen supportflags threadview;
          mret (M := run) (set_generic genprocs supportflags threadview st)
        else mret (M := run) st);
  let nonet := changed && (showtype =? MPROCNET) && negb (flag supportflags NETATOP) in
  let showtype := if nonet then MPROCGEN else showtype in
  let showorder := if nonet then MSORTCPU else showorder in
  match report st showtype with
  | None => mret (M := run) (st, showtype, showorder, [])
  | Some elemptr =>
      r ← may_fault (showhdrline st.(layout.defs) linelen elemptr showorder autosort);
      mret (M := run) (set_shown r.1.1 r.1.2 st, showtype, showorder, r.2)
  end.

(** ** Handing over the processes: [priproc] *)

Definition MAX_PROC : nat := 512.

(** The memory shared with the viewer, without its mutex and condition. *)
Module sharemem.
Record sharemem := mk {
  num_proc : Z;
  nsecs : Z;
  avgval : Z;
  curstat : list tstat.tstat
}.
End sharemem.

(** Doubles; a division by zero gives an infinity or no number, with
    denominator 0. *)
Definition dbl_div (x y : Z * Z) : Z * Z :=
  if y.1 =? 0 then (Z.sgn x.1, 0) else dbl (Z.sgn y.1 * x.1 * y.2) (x.2 * Z.abs y.1).
Definition dbl_mul (x : Z * Z) (k : Z) : Z * Z := dbl (x.1 * k) x.2.
Definition dbl_cap (x : Z * Z) (bound : Z) : Z * Z := if bound * x.2 <? x.1 then (bound, 1) else x.

(** The percentage of the resource by which the list is sorted; [None] is a
    division by zero of integers. *)
Definition occupation (sb : syscap.syscap) (curstat : tstat.tstat) (showorder : Z) : option (Z * Z) :=
  let share (x avail : Z) :=
    if avail =? 0 then (0, 1) else dbl_cap (dbl_div (dbl_mul (dbl x 1) 100) (dbl avail 1)) 100 in
  if showorder =? MSORTCPU then
    if sb.(syscap.availcpu) =? 0 then Some (0, 1)
    else if sb.(syscap.nrcpu) =? 0 then None
    else
      let c := curstat.(tstat.cpu) in
      let used := dbl_mul (dbl (i64 (c.(tcpu.stime) + c.(tcpu.utime))) 1) 100 in
      let perc := dbl_div used (dbl (Z.quot sb.(syscap.availcpu) sb.(syscap.nrcpu)) 1) in
      Some (dbl_cap (dbl_cap perc (100 * sb.(syscap.nrcpu))) (100 * curstat.(tstat.gen).(tgen.nthr)))
  else if showorder =? MSORTMEM then Some (share curstat.(tstat.mem).(tmem.rmem) sb.(syscap.availmem))
  else if showorder =? MSORTDSK then
    Some (share (i64 (curstat.(tstat.dsk).(tdsk.rsz) + nett_wsz curstat)) sb.(syscap.availdsk))
  else if showorder =? MSORTNET then
    let n := curstat.(tstat.net) in
    Some (share (n.(tnet.tcpssz) +64 n.(tnet.tcprsz) +64 n.(tnet.udpssz) +64 n.(tnet.udprsz)) sb.(syscap.availnet))
  else Some (0, 1).

(** The loop from [i] on; an index outside [proclist] or [zsm->curstat] is [None].
    Without ncurses the percentage is not shown. *)
Fixpoint priproc_loop (n : nat) (proclist : list tstat.tstat) (i : nat) (curline : Z) (showorder : Z)
    (sb : syscap.syscap) (nsecs avgval : Z) (zsm : sharemem.sharemem) : option (Z * sharemem.sharemem) :=
  match n with
  | O => Some (curline, zsm)
  | S n =>
      curstat ← proclist !! i;
      _ ← zsm.(sharemem.curstat) !! i;
      let zsm := sharemem.mk (i32 (zsm.(sharemem.num_proc) + 1)) nsecs avgval
                   (<[i := curstat]> zsm.(sharemem.curstat)) in
      _ ← occupation sb curstat showorder;
      priproc_loop n proclist (S i) (i32 (curline + 1)) showorder sb nsecs avgval zsm
  end.

Definition priproc (proclist : list tstat.tstat) (firstproc lastproc : nat) (curline : Z) (showorder : Z)
    (sb : syscap.syscap) (nsecs avgval : Z) (zsm : sharemem.sharemem) : option (Z * sharemem.sharemem) :=
  priproc_loop (lastproc - firstproc) proclist firstproc curline showorder sb nsecs avgval zsm.

(** ** Settings of the configuration file *)

(** The critical percentages. *)
Module badness.
Record badness := mk {
  cpubadness : Z;
  membadness : Z;
  swpbadness : Z;
  dskbadness : Z;
  netbadness : Z;
  pagbadness : Z;
  almostcrit : Z
}.
End badness.

Definition default_badness : badness.badness := badness.mk 90 90 80 70 90 10 80.

Definition get_posval (val : text) : exitor Z :=
  let value := atoi val in
  if numeric val =? 0 then Exit 1 else if value <? 0 then Exit 1 else Ret value.

Definition get_perc (val : text) : exitor Z :=
  value ← get_posval val;
  if (value <? 0) || (100 <? value) then Exit 1 else Ret value.

Definition do_cpucritperc (val : text) (b : badness.badness) : exitor badness.badness :=
  v ← get_perc val;
  Ret (badness.mk v b.(badness.membadness) b.(badness.swpbadness) b.(badness.dskbadness)
         b.(badness.netbadness) b.(badness.pagbadness) b.(badness.almostcrit)).
Definition do_memcritperc (val : text) (b : badness.badness) : exitor badness.badness :=
  v ← get_perc val;
  Ret (badness.mk b.(badness.cpubadness) v b.(badness.swpbadness) b.(badness.dskbadness)
         b.(badness.netbadness) b.(badness.pagbadness) b.(badness.almostcrit)).
Definition do_swpcritperc (val : text) (b : badness.badness) : exitor badness.badness :=
  v ← get_perc val;
  Ret (badness.mk b.(badness.cpubadness) b.(badness.membadness) v b.(badness.dskbadness)
         b.(badness.netbadness) b.(badness.pagbadness) b.(badness.almostcrit)).
Definition do_dskcritperc (val : text) (b : badness.badness) : exitor badness.badness :=
  v ← get_perc val;
  Ret (badness.mk b.(badness.cpubadness) b.(badness.membadness) b.(badness.swpbadness) v
         b.(badness.netbadness) b.(badness.pagbadness) b.(badness.almostcrit)).
Definition do_netcritperc (val : text) (b : badness.badness) : exitor badness.badness :=
  v ← get_perc val;
  Ret (badness.mk b.(badness.cpubadness) b.(badness.membadness) b.(badness.swpbadness)
         b.(badness.dskbadness) v b.(badness.pagbadness) b.(badness.almostcrit)).
Definition do_swoutcritsec (val : text) (b : badness.badness) : exitor badness.badness :=
  v ← get_posval val;
  Ret (badness.mk b.(badness.cpubadness) b.(badness.membadness) b.(badness.swpbadness)
         b.(badness.dskbadness) b.(badness.netbadness) v b.(badness.almostcrit)).
Definition do_almostcrit (val : text) (b : badness.badness) : exitor badness.badness :=
  v ← get_perc val;
  Ret (badness.mk b.(badness.cpubadness) b.(badness.membadness) b.(badness.swpbadness)
         b.(badness.dskbadness) b.(badness.netbadness) b.(badness.pagbadness) v).
