(* ===== verification/ShowprocsFacts.v ===== *)
(** * The widths of the columns of the process list *)
From Stdlib Require Import Ascii.
From S2P Require Import Prelude Format Sscanf Tstat Netatopif Deviattask Various VariousFacts Cumulate Showprocs Showline.

(** ** What the columns have room for *)

(** An integer that is printed in at most [w] characters. *)
Definition int_room (w v : Z) : Prop := - 10 ^ (w - 1) < v < 10 ^ w.

(** A count that [val2valstr] prints without an exponent. *)
Definition count_room (w v : Z) : Prop := 0 <= v < 10 ^ w - 1.

(** A number of units of [unit] bytes: from -99.9 to 999 petabytes. *)
Definition mem_room (unit v : Z) : Prop := - (999 * ONEPBYTE) <= 10 * (v * unit) /\ v * unit <= 999 * ONEPBYTE.

(** The same for a figure that is printed per second when [avg] is set, with /s
    behind it. *)
Definition rate_room (avg : bool) (nsecs w v : Z) : Prop :=
  if avg then 0 <= v /\ v + nsecs < 2 ^ 63 /\ count_room (w - 2) ((v + nsecs / 2) / nsecs) else count_room w v.

Definition size_room (avg : bool) (nsecs v : Z) : Prop :=
  if avg then 0 <= v /\ 100 * (v * 512) < 2 ^ 63 /\ one_digit (v * 512) nsecs else mem_room 512 v.

(** Clock ticks: just under a hundred days. *)
Definition cpu_room (hertz v : Z) : Prop := 0 <= v < 2 ^ 53 /\ v * 1000 < 8638000000 * hertz.

(** Bytes: below ten thousand terabits per second. *)
Definition bandw_room (v : Z) : Prop := 0 <= v < 125 * 10 ^ 13.

Definition calendar_ok (tt : tm.tm) : Prop :=
  clock_ok tt /\ -1900 <= tt.(tm.tm_year) < 8100 /\ 0 <= tt.(tm.tm_mon) <= 11 /\ 1 <= tt.(tm.tm_mday) <= 31.

(** The surroundings: the clock runs, dates have a year of four digits. *)
Record env_room (e : prtenv.prtenv) : Prop := {
  room_hertz : 0 < e.(prtenv.hertz);
  room_localtime : forall t, calendar_ok (e.(prtenv.localtime) t);
  room_idwidth : 1 <= e.(prtenv.idwidth)
}.

Record gen_room (w : Z) (g : tgen.tgen) : Prop := {
  room_ids : Forall (int_room w) [g.(tgen.tgid); g.(tgen.pid); g.(tgen.ppid); g.(tgen.vpid)];
  room_nprocs : count_room 6 g.(tgen.pid);
  room_ctid : int_room 5 g.(tgen.ctid);
  room_threads : int_room 4 g.(tgen.nthr) /\ int_room 4 g.(tgen.nthrrun) /\
    int_room 5 g.(tgen.nthrslpi) /\ int_room 5 g.(tgen.nthrslpu);
  room_container : (length (chars g.(tgen.container)) <= 12)%nat
}.

Record cpu_fits (hertz : Z) (c : tcpu.tcpu) : Prop := {
  room_times : cpu_room hertz c.(tcpu.stime) /\ cpu_room hertz c.(tcpu.utime);
  room_sched : int_room 4 c.(tcpu.nice) /\ int_room 3 c.(tcpu.prio) /\ int_room 4 c.(tcpu.rtprio) /\
    int_room 5 c.(tcpu.curcpu)
}.

Section figures.
Context (avg : bool) (nsecs : Z).

Record mem_fits (m : tmem.tmem) : Prop := {
  room_faults : rate_room avg nsecs 6 m.(tmem.minflt) /\ rate_room avg nsecs 6 m.(tmem.majflt);
  room_sizes : Forall (mem_room 1024)
    [m.(tmem.vgrow); m.(tmem.rgrow); m.(tmem.vexec); m.(tmem.vmem); m.(tmem.rmem); m.(tmem.pmem);
     m.(tmem.vlibs); m.(tmem.vdata); m.(tmem.vstack); m.(tmem.vswap)]
}.

(** What was written and not cancelled. *)
Definition nett (d : tdsk.tdsk) : Z := if d.(tdsk.cwsz) <? d.(tdsk.wsz) then d.(tdsk.wsz) - d.(tdsk.cwsz) else 0.

Record dsk_fits (d : tdsk.tdsk) : Prop := {
  room_transfers : Forall (size_room avg nsecs) [d.(tdsk.rsz); d.(tdsk.wsz); d.(tdsk.cwsz); nett d];
  room_written : 0 <= d.(tdsk.cwsz)
}.

Record net_fits (n : tnet.tnet) : Prop := {
  room_packets : Forall (rate_room avg nsecs 6) [n.(tnet.tcprcv); n.(tnet.tcpsnd); n.(tnet.udprcv); n.(tnet.udpsnd)];
  room_averages : Forall (count_room 7)
    [average_size n.(tnet.tcprsz) n.(tnet.tcprcv); average_size n.(tnet.tcpssz) n.(tnet.tcpsnd);
     average_size n.(tnet.udprsz) n.(tnet.udprcv); average_size n.(tnet.udpssz) n.(tnet.udpsnd)];
  room_totals : rate_room avg nsecs 5 (n.(tnet.tcprcv) + n.(tnet.udprcv)) /\
    rate_room avg nsecs 5 (n.(tnet.tcpsnd) + n.(tnet.udpsnd));
  room_bandwidth : bandw_room (n.(tnet.tcprsz) + n.(tnet.udprsz)) /\ bandw_room (n.(tnet.tcpssz) + n.(tnet.udpssz))
}.

(** A process of which every figure has room in its column. *)
Record figures_fit (e : prtenv.prtenv) (cur : tstat.tstat) : Prop := {
  fit_gen : gen_room e.(prtenv.idwidth) cur.(tstat.gen);
  fit_cpu : cpu_fits e.(prtenv.hertz) cur.(tstat.cpu);
  fit_mem : mem_fits cur.(tstat.mem);
  fit_dsk : dsk_fits cur.(tstat.dsk);
  fit_net : net_fits cur.(tstat.net)
}.
End figures.

(** ** Texts of a width *)

Definition has_width (w : Z) (t : option text) : Prop := exists s, t = Some s /\ length s = Z.to_nat w.

Lemma has_width_some w s : length s = Z.to_nat w -> has_width w (Some s).
Proof. by exists s. Qed.

Lemma fmt_d_room w v : 1 <= w -> int_room w v -> (length (fmt_d v) <= Z.to_nat w)%nat.
Proof.
  intros Hw [Hl Hu]. unfold fmt_d. destruct (Z.ltb_spec v 0) as [H|H].
  - cbn [length]. assert (w = 1 \/ 2 <= w) as [->|Hw'] by lia; [cbn in *; lia|].
    pose proof (dec_length_le (- v) (Z.to_nat (w - 1)) ltac:(lia)) as HD.
    rewrite Z2Nat.id in HD by lia. specialize (HD ltac:(lia)). lia.
  - apply dec_length_le; [lia|]. rewrite Z2Nat.id by lia. lia.
Qed.

Lemma width_d w v : 1 <= w -> int_room w v -> has_width w (Some (pad w (fmt_d v))).
Proof. intros Hw Hv. apply has_width_some, pad_length; [lia | by apply fmt_d_room]. Qed.

Lemma width_count w v nsecs : 1 <= w <= 15 -> count_room w v -> has_width w (val2valstr v w false nsecs).
Proof.
  intros Hw Hv. unfold has_width, val2valstr, count_room in *. cbn [andb].
  rewrite (proj2 (Z.ltb_ge v 0)) by lia. rewrite maxval_exact by lia.
  rewrite (proj2 (Z.ltb_lt v _)) by lia. eexists. split; [done|].
  rewrite app_nil_r, fmt_d_nonneg by lia. apply pad_length; [lia|].
  apply dec_length_le; [lia|]. rewrite Z2Nat.id; lia.
Qed.

Lemma width_rate avg nsecs w v : 0 < nsecs -> 3 <= w <= 15 -> rate_room avg nsecs w v ->
  has_width w (val2valstr v w avg nsecs).
Proof.
  intros Hn Hw. destruct avg; cbn [rate_room]; [|by apply width_count; lia].
  intros (H0 & Hs & Hr). pose proof (width_count (w - 2) _ 0 ltac:(lia) Hr) as (t & E & L).
  unfold val2valstr in *. cbn [andb] in *. rewrite (proj2 (Z.eqb_neq nsecs 0)) by lia. cbn [negb].
  assert (Hh : 0 <= nsecs / 2 <= nsecs) by (split; [apply Z.div_pos; lia | apply Z.div_le_upper_bound; lia]).
  rewrite (Z.quot_div_nonneg nsecs) by lia. rewrite i64_id by (unfold in_i64; lia). rewrite Z.quot_div_nonneg by lia.
  unfold count_room in Hr. set (x := (v + nsecs / 2) / nsecs) in *.
  rewrite (proj2 (Z.ltb_ge x 0)) in * by lia. rewrite maxval_exact in * by lia.
  rewrite (proj2 (Z.ltb_lt x _)) in * by lia. injection E as <-. rewrite app_nil_r in L.
  apply has_width_some. rewrite length_app, L. cbn. lia.
Qed.

Lemma width_mem unit v nsecs : mem_room unit v ->
  has_width 6 (Some (val2memstr (i64 (v * unit)) KBFORMAT false nsecs)).
Proof.
  intros [H1 H2]. unfold ONEPBYTE in *. rewrite i64_id by (unfold in_i64; lia).
  apply has_width_some, val2memstr_six; unfold ONEPBYTE; lia.
Qed.

Lemma width_size avg nsecs v : 0 < nsecs -> size_room avg nsecs v ->
  has_width 6 (Some (val2memstr (i64 (v * 512)) KBFORMAT avg nsecs)).
Proof.
  intros Hn. destruct avg; cbn [size_room]; [|by apply width_mem].
  intros (H0 & H1 & H2). rewrite i64_id by (unfold in_i64; lia).
  apply has_width_some, val2memstr_average_six; done || lia.
Qed.

Lemma width_cpu e v : 0 < e.(prtenv.hertz) -> cpu_room e.(prtenv.hertz) v -> has_width 6 (cpu_text e v).
Proof.
  intros Hz [H1 H2]. unfold cpu_text. rewrite (proj2 (Z.eqb_neq _ 0)) by lia.
  rewrite i64_id by (unfold in_i64; lia). apply has_width_some, val2cpustr_width.
  rewrite Z.quot_div_nonneg by lia. split; [apply Z.div_pos; lia | apply Z.div_lt_upper_bound; lia].
Qed.

Lemma fmt_s_trunc w s : (0 < w)%nat -> length (fmt_s (- Z.of_nat w) (Some w) s) = w.
Proof.
  intros Hw. unfold fmt_s, pad. rewrite (proj2 (Z.ltb_lt _ 0)) by lia.
  rewrite length_app, length_replicate, Z.opp_involutive, Nat2Z.id, length_take. lia.
Qed.

Lemma pad_neg_le w s : (0 < w)%nat -> (length s <= w)%nat -> length (pad (- Z.of_nat w) s) = w.
Proof.
  intros Hw Hs. unfold pad. rewrite (proj2 (Z.ltb_lt _ 0)) by lia.
  rewrite length_app, length_replicate, Z.opp_involutive, Nat2Z.id. lia.
Qed.

Lemma width_name (o : option text) v :
  has_width 8 (Some (match o with Some n => fmt_s (-8) (Some 8%nat) n | None => take 8 (pad (-8) (fmt_d v)) end)).
Proof.
  apply has_width_some. destruct o as [n|]; [exact (fmt_s_trunc 8 n ltac:(lia))|].
  change (-8) with (- Z.of_nat 8). unfold pad. rewrite (proj2 (Z.ltb_lt _ 0)) by lia.
  rewrite length_take, length_app, length_replicate, Z.opp_involutive, Nat2Z.id. change (Z.to_nat 8) with 8%nat. lia.
Qed.

Lemma width_bandw v nsecs : 0 < nsecs -> bandw_room v ->
  has_width 9 (kbps ← bandwidth (i64 v) nsecs; Some (format_bandw kbps)).
Proof.
  intros Hn [H1 H2]. unfold bandwidth. rewrite (proj2 (Z.eqb_neq nsecs 0)) by lia. cbn.
  rewrite i64_id by (unfold in_i64; lia).
  set (k := Z.quot (Z.quot v 125) nsecs).
  assert (Hk : 0 <= k < 10 ^ 13).
  { unfold k. rewrite (Z.quot_div_nonneg v) by lia. pose proof (Z.div_pos v 125 H1 ltac:(lia)).
    rewrite Z.quot_div_nonneg by lia. split; [apply Z.div_pos; lia|].
    apply Z.div_lt_upper_bound; [lia|]. assert (v / 125 < 10 ^ 13) by (apply Z.div_lt_upper_bound; lia). nia. }
  apply has_width_some. unfold format_bandw.
  assert (H4 : forall k c, 0 <= k < 10000 -> length (pad 4 (fmt_d k) ++ " "%char :: c :: chars "bps") = 9%nat).
  { intros k' c Hk'. rewrite length_app, pad_length; [done|lia|]. apply (fmt_d_room 4); [lia|].
    unfold int_room. lia. }
  assert (HQ : forall x d m, 0 <= x < d * m -> 0 < d -> 0 <= Z.quot x d < m).
  { intros x d m Hx Hd. rewrite Z.quot_div_nonneg by lia.
    split; [apply Z.div_pos; lia | apply Z.div_lt_upper_bound; lia]. }
  destruct (Z.ltb_spec k 10000); [apply H4; lia|].
  destruct (Z.ltb_spec k (10000 * 1000)); [apply H4, HQ; lia|].
  destruct (Z.ltb_spec k (10000 * 1000 * 1000)); [apply H4, HQ; lia|].
  apply H4, HQ; [|lia]. apply HQ; [|lia]. apply HQ; lia.
Qed.

(** ** The table *)

(** The columns as [init_proc_prints] leaves them. *)
Definition columns_after (pid_max : option text) : list printdef.printdef := (init_proc_prints pid_max allprocpdefs).1.

Lemma columns_map pid_max : columns_after pid_max =
  (fun d => if is_idcolumn d then (reformat (pid_digits pid_max) d).1 else d) <$> allprocpdefs.
Proof.
  unfold columns_after, init_proc_prints. cbn [fst]. rewrite <-list_fmap_compose. apply list_fmap_ext.
  intros i d _. cbn. by destruct (is_idcolumn d).
Qed.

Lemma reformat_shape n d : let r := (reformat n d).1 in
  r.(printdef.width) = n /\ r.(printdef.doactiveconvert) = d.(printdef.doactiveconvert) /\
  r.(printdef.doexitconvert) = d.(printdef.doexitconvert) /\ r.(printdef.varwidth) = d.(printdef.varwidth).
Proof. unfold reformat. repeat case_match; cbn; done. Qed.

Lemma chars_length s : length (chars s) = String.length s.
Proof. induction s as [|c s IH]; [done|]. unfold chars in *. cbn. by rewrite IH. Qed.

Lemma reformat_head n d h : d.(printdef.head) = Some h -> Z.of_nat (String.length h) <= n < 2 ^ 64 ->
  exists h', (reformat n d).1.(printdef.head) = Some h' /\ length (chars h') = Z.to_nat n.
Proof.
  intros Hh Hn. unfold reformat. rewrite Hh, u64_id by lia.
  assert (Hl : length (chars h) = String.length h) by apply chars_length.
  destruct (Z.ltb_spec (Z.of_nat (String.length h)) n); cbn.
  - eexists. split; [done|]. unfold chars at 1. rewrite String.list_ascii_of_string_of_list_ascii.
    apply pad_length; lia.
  - exists h. split; [done|]. lia.
Qed.

(** The percentages that the sort column has room for. *)
Definition perc_room (p : Z * Z) : Prop := 0 <= p.1 /\ 0 < p.2 /\ p.1 <= 999 * p.2.

Lemma perc_width p : perc_room p -> length (perc_text p) = 4%nat.
Proof.
  intros (H1 & H2 & H3). unfold perc_text, fmt_f. change (10 ^ Z.of_nat 0) with 1.
  rewrite Z.mul_1_r, (proj2 (Z.ltb_ge p.1 0)) by lia. pose proof (rne_nonneg p.1 p.2 H1 H2).
  pose proof (rne_upper p.1 p.2 H2). rewrite Z.abs_eq, length_app, pad_length; [done|lia| |lia].
  apply (dec_length_le _ 3); [lia|]. change (10 ^ Z.of_nat 3) with 1000. nia.
Qed.

(** A column: its header and the text of a process, each with a space. *)
Definition column_ok (e : prtenv.prtenv) (cur : tstat.tstat) (perc : Z * Z) (nsecs : Z) (avgval : bool)
    (order : Z) (autosort : bool) (d : printdef.printdef) : Prop :=
  d.(printdef.varwidth) = 0 ->
  has_width (d.(printdef.width) + 1) (head_cell d order autosort) /\
  has_width (d.(printdef.width) + 1) (proc_cell e d cur perc nsecs avgval).

Lemma column_intro e cur perc nsecs avgval order autosort d h :
  d.(printdef.head) = Some h -> 0 <= d.(printdef.width) -> length (chars h) = Z.to_nat d.(printdef.width) ->
  (d.(printdef.varwidth) = 0 ->
     has_width d.(printdef.width) (d.(printdef.doactiveconvert) e cur avgval nsecs) /\
     has_width d.(printdef.width) (d.(printdef.doexitconvert) e cur avgval nsecs)) ->
  column_ok e cur perc nsecs avgval order autosort d.
Proof.
  intros Hh Hw Hl Hc Hv. specialize (Hc Hv) as [(a & Ea & La) (x & Ex & Lx)].
  unfold head_cell, proc_cell. rewrite Hh. split.
  - apply has_width_some. rewrite length_app. cbn. lia.
  - destruct (_ =? exited_state); [rewrite Ex | rewrite Ea]; cbn; apply has_width_some; rewrite length_app; cbn; lia.
Qed.

Lemma sortitem_ok e cur perc nsecs avgval order autosort : perc_room perc -> is_Some (columnhead order) ->
  column_ok e cur perc nsecs avgval order autosort procprt_SORTITEM.
Proof.
  intros Hp [t Ht] _. unfold head_cell, proc_cell. cbn [printdef.head procprt_SORTITEM].
  assert (length t = 3%nat) as Hl.
  { unfold columnhead in Ht. repeat case_match; simplify_eq; done. }
  rewrite Ht. split; apply has_width_some.
  - rewrite !length_app, Hl. by destruct autosort.
  - rewrite length_app, perc_width by done. done.
Qed.

Lemma width_group (s : text) : has_width 8 (Some (fmt_s (-8) (Some 8%nat) s)).
Proof. apply has_width_some. exact (fmt_s_trunc 8 s ltac:(lia)). Qed.

Lemma width_command (s : text) : has_width 14 (Some (fmt_s (-14) (Some 14%nat) s)).
Proof. apply has_width_some. exact (fmt_s_trunc 14 s ltac:(lia)). Qed.

Lemma width_container (s : text) : (length s <= 12)%nat -> has_width 12 (Some (fmt_s (-12) None s)).
Proof. intros Hs. apply has_width_some. exact (pad_neg_le 12 s ltac:(lia) Hs). Qed.

Lemma width_date localtime t : calendar_ok (localtime t) -> has_width 10 (Some (convdate localtime t)).
Proof. intros (Hc & Hy & Hm & Hd). apply has_width_some. by apply convdate_width. Qed.

Lemma width_time localtime t : calendar_ok (localtime t) -> has_width 8 (Some (convtime localtime t)).
Proof. intros (Hc & _). apply has_width_some. by apply convtime_width. Qed.

Lemma width_exit_code x : has_width 3 (Some (pad 3 (fmt_d
  (if Z.land x 255 =? 0 then Z.land (Z.shiftr x 8) 255 else Z.land x 127)))).
Proof.
  apply width_d; [lia|]. unfold int_room.
  assert (HB : forall y n, 0 <= n -> 0 <= Z.land y (Z.ones n) < 2 ^ n).
  { intros y n Hy. rewrite Z.land_ones by done. apply Z.mod_pos_bound, Z.pow_pos_nonneg; lia. }
  pose proof (HB (Z.shiftr x 8) 8 ltac:(lia)). pose proof (HB x 7 ltac:(lia)).
  change (Z.ones 8) with 255 in *. change (Z.ones 7) with 127 in *. destruct (_ =? 0); lia.
Qed.

Lemma width_if (b : bool) w t u : has_width w t -> has_width w u -> has_width w (if b then t else u).
Proof. by destruct b. Qed.

Lemma width_end e cur w (f : Z -> text) : 0 < e.(prtenv.hertz) -> (forall t, has_width w (Some (f t))) ->
  has_width w (t ← end_time e cur; Some (f t)).
Proof. intros Hz Hw. unfold end_time. rewrite (proj2 (Z.eqb_neq _ 0)) by lia. apply Hw. Qed.

Lemma count_room_i64 w v : 1 <= w <= 15 -> count_room w v -> count_room w (i64 v).
Proof.
  intros Hw [H1 H2]. pose proof (pow10_mono w 15). split; rewrite i64_id by (unfold in_i64; lia); lia.
Qed.

Lemma rate_room_i64 avg nsecs w v : 0 < nsecs -> 1 <= w <= 15 -> rate_room avg nsecs w v -> rate_room avg nsecs w (i64 v).
Proof.
  intros Hn Hw. destruct avg; cbn [rate_room]; [|by apply count_room_i64].
  intros (H0 & H1 & H2). rewrite i64_id by (unfold in_i64; lia). done.
Qed.

Lemma nett_room avg nsecs d : dsk_fits avg nsecs d ->
  size_room avg nsecs (if d.(tdsk.cwsz) <? d.(tdsk.wsz) then i64 (d.(tdsk.wsz) - d.(tdsk.cwsz)) else 0).
Proof.
  intros [HF H0]. repeat (apply Forall_cons in HF as [? HF]). clear HF. unfold nett in *.
  destruct (Z.ltb_spec d.(tdsk.cwsz) d.(tdsk.wsz)); [|done]. rewrite i64_id; [done|].
  unfold size_room, mem_room, ONEPBYTE, in_i64 in *. destruct avg; lia.
Qed.

(** Unfolds the conversion of a column. *)
Ltac unfold_conversion :=
  match goal with |- has_width _ (?f ?e ?cur ?a ?n) => unfold f; cbv beta zeta end.

(** The width of one text, by its form. *)
Ltac text_width :=
  repeat (match goal with |- has_width _ (if _ then _ else _) => apply width_if end);
  first
    [ apply width_d; [lia | first [assumption | tauto]]
    | apply width_count; [lia | first [assumption | apply count_room_i64; [lia | assumption]]]
    | apply width_rate; [assumption | lia | first [assumption | apply rate_room_i64; [assumption | lia | assumption]]]
    | apply width_mem; assumption
    | apply width_size; [assumption | first [assumption | by apply nett_room]]
    | apply width_cpu; assumption
    | apply width_bandw; assumption
    | apply width_name
    | apply width_group
    | apply width_command
    | apply width_exit_code
    | apply width_date; auto
    | apply width_time; auto
    | apply width_end; [assumption|]; intros; first [apply width_date | apply width_time]; auto
    | apply has_width_some; repeat case_match; reflexivity
    | repeat case_match; first [by apply width_container | by apply has_width_some] ].

Ltac column :=
  let Hv := fresh in let Hid := fresh in let Hh := fresh in
  intros Hv Hid Hh;
  first
    [ discriminate Hv
    | vm_compute in Hid; discriminate Hid
    | cbn in Hh; destruct Hh; discriminate
    | match goal with |- context [printdef.width ?d] => unfold d end;
      cbn [printdef.width printdef.doactiveconvert printdef.doexitconvert];
      split; unfold_conversion; text_width ].

Ltac rooms := repeat match goal with
  | H : Forall _ (_ :: _) |- _ => apply Forall_cons in H as [? H]
  | H : _ /\ _ |- _ => destruct H
  end.

Section table.
Context (e : prtenv.prtenv) (cur : tstat.tstat) (perc : Z * Z) (nsecs : Z) (avgval : bool) (order : Z) (autosort : bool).
Context (He : env_room e) (Hf : figures_fit avgval nsecs e cur) (Hn : 0 < nsecs).

Lemma plain_columns : Forall (fun d =>
   d.(printdef.varwidth) = 0 -> is_idcolumn d = false -> is_Some d.(printdef.head) ->
   has_width d.(printdef.width) (d.(printdef.doactiveconvert) e cur avgval nsecs) /\
   has_width d.(printdef.width) (d.(printdef.doexitconvert) e cur avgval nsecs)) allprocpdefs.
Proof.
  destruct He as [Hz Hc Hi]. destruct Hf as [[] [] [] Hdsk []]. pose proof Hdsk as []. rooms.
  unfold allprocpdefs. repeat (apply Forall_cons; split; [column|]). by apply Forall_nil.
Qed.

Lemma id_columns : Forall (fun d => is_idcolumn d = true ->
   has_width e.(prtenv.idwidth) (d.(printdef.doactiveconvert) e cur avgval nsecs) /\
   has_width e.(prtenv.idwidth) (d.(printdef.doexitconvert) e cur avgval nsecs)) allprocpdefs.
Proof.
  destruct He as [Hz Hc Hi]. destruct Hf as [[] _ _ _ _]. rooms.
  unfold allprocpdefs. repeat (apply Forall_cons; split; [intros Hid|]); [..|by apply Forall_nil].
  all: try (vm_compute in Hid; discriminate Hid); clear Hid.
  all: match goal with |- context [printdef.doactiveconvert ?d] => unfold d end.
  all: cbn [printdef.doactiveconvert printdef.doexitconvert]; split; unfold_conversion.
  all: repeat case_match; first
    [ apply width_d; assumption | apply has_width_some, pad_length; cbn; lia ].
Qed.

Lemma plain_heads : Forall (fun d => d.(printdef.varwidth) = 0 -> is_idcolumn d = false ->
   0 <= d.(printdef.width) /\ (d.(printdef.head) = None -> d = procprt_SORTITEM) /\
   (forall h, d.(printdef.head) = Some h -> length (chars h) = Z.to_nat d.(printdef.width))) allprocpdefs.
Proof.
  unfold allprocpdefs. repeat (apply Forall_cons; split; [intros Hv Hid|]); [..|by apply Forall_nil].
  all: try discriminate Hv; try (vm_compute in Hid; discriminate Hid); clear Hv Hid.
  all: split; [cbn; lia|]; split; [first [discriminate | reflexivity]|].
  all: intros h Hh; first [discriminate Hh | injection Hh as <-; reflexivity].
Qed.

Lemma id_heads : Forall (fun d => is_idcolumn d = true ->
   exists h, d.(printdef.head) = Some h /\ (String.length h <= 4)%nat) allprocpdefs.
Proof.
  unfold allprocpdefs. repeat (apply Forall_cons; split; [intros Hid|]); [..|by apply Forall_nil].
  all: first [vm_compute in Hid; discriminate Hid | eexists; split; [reflexivity | cbn; lia]].
Qed.

Lemma pid_digits_le pid_max : pid_digits pid_max <= 62.
Proof.
  unfold pid_digits. destruct pid_max as [[|c l]|]; [lia| |lia].
  assert (HF : forall n l, (length (fgets n l).1 <= n)%nat).
  { induction n as [|n IH]; intros [|x k]; cbn; try lia.
    destruct (Ascii.eqb x "010"); cbn; [lia|]. specialize (IH k). lia. }
  assert (HC : forall l, (length (cstr l) <= length l)%nat).
  { induction l0 as [|x k IH]; cbn; [lia|]. destruct (Ascii.eqb x zero); cbn; lia. }
  specialize (HF 63%nat (c :: l)). specialize (HC (fgets 63 (c :: l)).1). lia.
Qed.

(** Every column of the table has the width that it declares. *)
Lemma columns_ok pid_max :
  e.(prtenv.idwidth) = pid_digits pid_max -> 4 <= e.(prtenv.idwidth) ->
  perc_room perc -> is_Some (columnhead order) ->
  Forall (column_ok e cur perc nsecs avgval order autosort) (columns_after pid_max).
Proof.
  intros Hw H4 Hp Ho. rewrite columns_map. apply Forall_fmap. unfold compose.
  pose proof (pid_digits_le pid_max) as Hle. rewrite <-Hw in *.
  apply Forall_forall. intros d Hd. cbn.
  pose proof (proj1 (Forall_forall _ _) plain_columns d Hd) as Pc.
  pose proof (proj1 (Forall_forall _ _) id_columns d Hd) as Ic.
  pose proof (proj1 (Forall_forall _ _) plain_heads d Hd) as Ph.
  pose proof (proj1 (Forall_forall _ _) id_heads d Hd) as Ih. cbn beta in *.
  destruct (is_idcolumn d) eqn:Eid.
  - specialize (Ic eq_refl). destruct (Ih eq_refl) as (h & Eh & Hl).
    destruct (reformat_shape e.(prtenv.idwidth) d) as (S1 & S2 & S3 & S4).
    destruct (reformat_head e.(prtenv.idwidth) d h Eh ltac:(lia)) as (h' & Eh' & Hl').
    eapply column_intro; [exact Eh' | rewrite S1; lia | by rewrite S1 |]. intros _. by rewrite S1, S2, S3.
  - destruct d.(printdef.head) as [h|] eqn:Eh.
    + intros Hv. destruct (Ph Hv eq_refl) as (P1 & P2 & P3).
      apply (column_intro _ _ _ _ _ _ _ _ h); auto.
    + intros Hv. destruct (Ph Hv eq_refl) as (P1 & P2 & P3). rewrite P2 by done. by apply sortitem_ok.
Qed.
End table.
