(* ===== verification/ShowlineFacts.v ===== *)
(** * The layout of the process list: theorems *)
From Stdlib Require Import Ascii.
From S2P Require Import Prelude Format Sscanf SscanfFacts Tstat Various VariousFacts Cumulate Showprocs Showline ShowprocsFacts.

(** ** Removing columns *)

Definition prios (elems : list printpair.printpair) : list Z := printpair.prio <$> elems.

(** What is known of the columns of a line: they are in the table, their
    widths are not negative, a column of variable width has none yet. *)
Definition column_shape (d : printdef.printdef) : Prop :=
  0 <= d.(printdef.width) /\
  (d.(printdef.varwidth) = 0 \/ d.(printdef.varwidth) = 1 /\ d.(printdef.width) = 0).

Definition elem_ok (defs : list printdef.printdef) (el : printpair.printpair) : Prop :=
  (exists d, defs !! el.(printpair.f) = Some d /\ column_shape d) /\ el.(printpair.prio) < 999999.

(** The positions that a line of columns takes at least, with their spaces. *)
Definition line_space (defs : list printdef.printdef) (elems : list printpair.printpair) : option Z :=
  '(col, varwidth) ← gettotwidth defs elems 0 0; Some (space_required elems col varwidth).

Lemma gettotwidth_add defs elems col varw c v :
  gettotwidth defs elems (col + c) (varw + v) =
  (r ← gettotwidth defs elems col varw; Some (r.1 + c, r.2 + v)).
Proof.
  revert col varw. induction elems as [|el elems IH]; intros col varw; cbn; [done|].
  destruct (defs !! printpair.f el) as [d|]; cbn; [|done]. rewrite <-IH. f_equal; lia.
Qed.

Lemma gettotwidth_start defs elems col varw :
  gettotwidth defs elems col varw = (r ← gettotwidth defs elems 0 0; Some (r.1 + col, r.2 + varw)).
Proof. rewrite <-gettotwidth_add. done. Qed.

Lemma gettotwidth_app defs a b col varw :
  gettotwidth defs (a ++ b) col varw = (r ← gettotwidth defs a col varw; gettotwidth defs b r.1 r.2).
Proof.
  revert col varw. induction a as [|el a IH]; intros col varw; cbn; [done|].
  destruct (defs !! printpair.f el) as [d|]; cbn; [|done]. by rewrite IH.
Qed.

(** Taking a column out takes its width out. *)
Lemma gettotwidth_delete defs elems i el d col varw :
  elems !! i = Some el -> defs !! el.(printpair.f) = Some d -> column_shape d ->
  gettotwidth defs elems 0 0 = Some (col, varw) ->
  gettotwidth defs (delete i elems) 0 0 = Some (col - d.(printdef.width), varw - d.(printdef.varwidth)).
Proof.
  intros Hi Hd [Hw Hv] Ht. pose proof (take_drop_middle elems i el Hi) as E.
  rewrite <-E in Ht. rewrite delete_take_drop. rewrite gettotwidth_app in Ht |- *.
  destruct (gettotwidth defs (take i elems) 0 0) as [[c v]|]; cbn in *; [|done]. rewrite Hd in Ht. cbn in Ht.
  rewrite gettotwidth_start in Ht |- *. destruct (gettotwidth defs (drop (S i) elems) 0 0) as [[c' v']|]; [|done].
  cbn in *. injection Ht as <- <-. destruct Hv as [-> | [-> ->]]; cbn; f_equal; f_equal; lia.
Qed.

(** [lowest] finds the first minimum below its start. *)
Lemma lowest_spec elems i best :
  (lowest elems i best = best /\ Forall (fun el => best.1 <= el.(printpair.prio)) elems) \/
  (exists j el, elems !! j = Some el /\ lowest elems i best = (el.(printpair.prio), Some (i + j)%nat) /\
     el.(printpair.prio) < best.1 /\ Forall (fun el' => el.(printpair.prio) <= el'.(printpair.prio)) elems).
Proof.
  revert i best. induction elems as [|el elems IH]; intros i best; [left; done|]. cbn [lowest].
  destruct (Z.ltb_spec el.(printpair.prio) best.1) as [Hlt|Hge].
  - destruct (IH (S i) (el.(printpair.prio), Some i)) as [[-> HF] | (j & el' & Hj & -> & Hlt' & HF)]; right.
    + exists O, el. rewrite Nat.add_0_r. repeat split; [done|]. by apply Forall_cons.
    + exists (S j), el'. cbn in Hlt'. split; [done|]. split; [f_equal; f_equal; lia|]. split; [lia|].
      apply Forall_cons. split; [lia|done].
  - destruct (IH (S i) best) as [[-> HF] | (j & el' & Hj & -> & Hlt' & HF)]; [left | right].
    + split; [done|]. by apply Forall_cons.
    + exists (S j), el'. split; [done|]. split; [f_equal; f_equal; lia|]. split; [lia|].
      apply Forall_cons. split; [lia|done].
Qed.

Lemma lowestprio_found elems : elems <> [] -> Forall (fun el => el.(printpair.prio) < 999999) elems ->
  exists j el, lowestprio_index elems = Some j /\ elems !! j = Some el /\
    Forall (fun el' => el.(printpair.prio) <= el'.(printpair.prio)) elems.
Proof.
  intros Hne HF. unfold lowestprio_index.
  destruct (lowest_spec elems 0 (999999, None)) as [[_ HG] | (j & el & Hj & -> & _ & HG)].
  - destruct elems as [|el elems]; [done|]. apply Forall_cons in HF as [H1 _]. apply Forall_cons in HG as [H2 _].
    cbn in H2. lia.
  - by exists j, el.
Qed.

(** The loop ends within its fuel, never looks before the first column, and
    leaves a sublist that fits; what it removed is of no higher priority. *)
Lemma remove_columns_spec fuel defs maxw elems col varw :
  Forall (elem_ok defs) elems -> gettotwidth defs elems 0 0 = Some (col, varw) ->
  (length elems <= fuel)%nat -> -1 <= maxw ->
  exists kept gone col' varw',
    remove_columns fuel defs maxw elems col varw = Some (kept, col', varw') /\
    gettotwidth defs kept 0 0 = Some (col', varw') /\ space_required kept col' varw' <= maxw /\
    sublist kept elems /\ elems ≡ₚ kept ++ gone /\
    Forall (fun g => Forall (fun k => g.(printpair.prio) <= k.(printpair.prio)) kept) gone /\
    (space_required elems col varw <= maxw -> kept = elems).
Proof.
  intros HF Ht Hfuel Hm. revert elems col varw HF Ht Hfuel.
  induction fuel as [|fuel IH]; intros elems col varw HF Ht Hfuel; cbn [remove_columns];
    destruct (Z.ltb_spec maxw (space_required elems col varw)) as [Hlt|Hge].
  1: { destruct elems; [|cbn in Hfuel; lia]. cbn in Ht. injection Ht as <- <-.
       unfold space_required in Hlt. cbn in Hlt. lia. }
  1, 3: exists elems, [], col, varw; rewrite app_nil_r; repeat split; done.
  destruct (lowestprio_found elems) as (j & el & -> & Hj & Hmin).
  { intros ->. cbn in Ht. injection Ht as <- <-. unfold space_required in Hlt. cbn in Hlt. lia. }
  { eapply Forall_impl; [exact HF|]. by intros x [_ Hx]. }
  destruct (proj1 (Forall_lookup _ _) HF j el Hj) as [(d & Hd & Hs) Hp]. cbn. rewrite Hj. cbn. rewrite Hd. cbn.
  pose proof (gettotwidth_delete defs elems j el d col varw Hj Hd Hs Ht) as Ht'.
  assert (Hperm : elems ≡ₚ el :: delete j elems).
  { by apply delete_Permutation. }
  destruct (IH (delete j elems) _ _ (Forall_delete _ _ _ HF) Ht') as
    (kept & gone & col' & varw' & E & Hk & Hsp & Hsub & Hpm & Hpr & _).
  { rewrite length_delete by (rewrite Hj; eauto). lia. }
  exists kept, (el :: gone), col', varw'. split; [exact E|]. split; [done|]. split; [done|].
  split; [etransitivity; [exact Hsub | apply sublist_delete]|]. split.
  { rewrite Hperm, Hpm. by rewrite Permutation_middle. }
  split; [|lia]. apply Forall_cons. split; [|done].
  apply Forall_forall. intros k Hkin. apply (proj1 (Forall_forall _ _) Hmin).
  rewrite Hperm. right. rewrite Hpm. apply elem_of_app. by left.
Qed.

(** C28: getspacings ends, looks only at columns that exist, and leaves a
    selection of the columns that fits the line, or the only column as it is,
    whatever its width: a column that was removed has no higher priority than
    one that was kept, and nothing is removed from a line that fits. The
    conditions: every priority is below 999999, and a column of variable width
    has width 0, as it has until a header widens it. *)
Theorem getspacings_fits defs maxw elemptr :
  -1 <= maxw -> Forall (elem_ok defs) elemptr ->
  exists defs' kept gone spacings,
    getspacings defs maxw elemptr = Some (defs', kept, spacings) /\
    (length elemptr <> 1%nat -> exists n, line_space defs kept = Some n /\ n <= maxw) /\
    sublist kept elemptr /\ elemptr ≡ₚ kept ++ gone /\
    (forall g k, g ∈ gone -> k ∈ kept -> g.(printpair.prio) <= k.(printpair.prio)) /\
    (forall n, line_space defs elemptr = Some n -> n <= maxw -> kept = elemptr).
Proof.
  intros Hm HF. unfold getspacings.
  assert (Ht : exists col varw, gettotwidth defs elemptr 0 0 = Some (col, varw)).
  { clear Hm. induction HF as [|el elems [(d & Hd & _) _] _ IH]; cbn; [eauto|]. rewrite Hd. cbn.
    rewrite gettotwidth_start. destruct IH as (c & v & ->). cbn. eauto. }
  destruct Ht as (col & varw & Ht). rewrite Ht. cbn [mbind option_bind].
  destruct (Nat.eqb_spec (length elemptr) 1) as [H1|H1].
  { exists defs, elemptr, [], [0]. rewrite app_nil_r. repeat split; try done. by intros g k Hg%not_elem_of_nil. }
  destruct (remove_columns_spec (length elemptr) defs maxw elemptr col varw HF Ht (le_n _) Hm)
    as (kept & gone & col' & varw' & -> & Hk & Hsp & Hsub & Hpm & Hpr & Hid). cbn [mbind option_bind].
  assert (Hprio : forall g k, g ∈ gone -> k ∈ kept -> g.(printpair.prio) <= k.(printpair.prio)).
  { intros g k Hg Hkin. pose proof (proj1 (Forall_forall _ _) Hpr g Hg) as Hg'.
    exact (proj1 (Forall_forall _ _) Hg' k Hkin). }
  assert (Hsame : forall n, line_space defs elemptr = Some n -> n <= maxw -> kept = elemptr).
  { intros n Hn Hle. apply Hid. unfold line_space in Hn. rewrite Ht in Hn. cbn in Hn. by injection Hn as <-. }
  assert (Hfit : exists n, line_space defs kept = Some n /\ n <= maxw).
  { unfold line_space. rewrite Hk. cbn. eauto. }
  destruct (negb (varw' =? 0)); eexists _, kept, gone, _; repeat (split; [done || eauto|]); done.
Qed.

(** With priorities of 999999 and above, which the configuration accepts, the
    loop reads the element before the first. *)
Lemma getspacings_high_priorities :
  make_proc_prints MAXITEMS (chars "CMD:1000000 CID:2000000") = Ret [printpair.mk 17 1000000; printpair.mk 28 2000000] /\
  getspacings allprocpdefs 20 [printpair.mk 17 1000000; printpair.mk 28 2000000] = None.
Proof. split; by vm_compute. Qed.

(** ** The header fits its buffer *)

(** A column of fixed width whose header has that width (the sort column: 4). *)
Definition head_ok (order : Z) (autosort : bool) (d : printdef.printdef) : Prop :=
  0 <= d.(printdef.width) /\ d.(printdef.varwidth) = 0 /\ has_width (d.(printdef.width) + 1) (head_cell d order autosort).

Lemma head_cells_fit defs order autosort elems size buf col varw c0 :
  Forall (fun el => exists d, defs !! el.(printpair.f) = Some d /\ head_ok order autosort d) elems ->
  gettotwidth defs elems c0 0 = Some (col, varw) ->
  Z.of_nat (length buf) + (col - c0) + Z.of_nat (length elems) + 1 <= size -> 
  exists t, head_cells defs size order autosort elems buf = Some t /\
    Z.of_nat (length t) = Z.of_nat (length buf) + (col - c0) + Z.of_nat (length elems).
Proof.
  intros HF. revert buf c0. induction HF as [|el elems (d & Hd & Hw & Hv & (s & Es & Ls)) HF IH]; intros buf c0 Ht Hs.
  - cbn in Ht. injection Ht as <- <-. exists buf. cbn. split; [done|lia].
  - cbn [gettotwidth head_cells] in *. rewrite Hd in Ht |- *. cbn [mbind option_bind] in *. rewrite Hv in Ht.
    cbn [Z.eqb Z.add] in Ht. rewrite Es. cbn [mbind option_bind length] in *.
    assert (Hcol : c0 + d.(printdef.width) <= col).
    { rewrite gettotwidth_start in Ht. destruct (gettotwidth defs elems 0 0) as [[c v]|] eqn:E; [|done].
      cbn in Ht. injection Ht as <- _. enough (0 <= c) by lia.
      clear -HF E. revert c v E. induction HF as [|x l (y & Hy & Hwy & Hvy & _) HF IH]; intros c v E.
      - cbn in E. injection E as <- _. lia.
      - cbn in E. rewrite Hy in E. cbn in E. rewrite Hvy in E. cbn [Z.eqb] in E. rewrite gettotwidth_start in E.
        destruct (gettotwidth defs l 0 0) as [[c' v']|]; [|done]. cbn in E. injection E as <- _.
        specialize (IH _ _ eq_refl). lia. }
    rewrite length_app, Ls. rewrite (proj2 (Z.leb_le _ _)) by lia.
    destruct (IH (buf ++ s) _ Ht) as (t & Et & Lt); [rewrite length_app, Ls; lia|].
    exists t. split; [exact Et|]. rewrite Lt, length_app, Ls. lia.
Qed.

Lemma no_varwidth defs elems col varw c0 order autosort :
  Forall (fun el => exists d, defs !! el.(printpair.f) = Some d /\ head_ok order autosort d) elems ->
  gettotwidth defs elems c0 0 = Some (col, varw) -> varw = 0.
Proof.
  intros HF. revert c0. induction HF as [|el elems (d & Hd & _ & Hv & _) _ IH]; intros c0; cbn [gettotwidth].
  - congruence.
  - rewrite Hd. cbn. rewrite Hv. apply IH.
Qed.

(** For columns of fixed width, showhdrline ends with a header of at most one
    character more than the line, which fits the buffer that it has, and the
    columns that it leaves to the process lines are a selection of those asked
    for. *)
Theorem showhdrline_fits defs maxw elemptr order autosort :
  -1 <= maxw -> length elemptr <> 1%nat -> Forall (elem_ok defs) elemptr ->
  Forall (fun el => exists d, defs !! el.(printpair.f) = Some d /\ head_ok order autosort d) elemptr ->
  exists newelems hdr,
    showhdrline defs maxw elemptr order autosort = Some (defs, newelems, [newline] ++ hdr ++ [newline]) /\
    Z.of_nat (length hdr) <= maxw + 1 /\ sublist newelems elemptr.
Proof.
  intros Hm H1 HF HH. unfold showhdrline, getspacings.
  destruct (gettotwidth defs elemptr 0 0) as [[col varw]|] eqn:Ht; cbn [mbind option_bind].
  2: { exfalso. clear -HF Ht. revert Ht. generalize 0 at 1 as c. generalize 0 as v.
       induction HF as [|el elems [(d & Hd & _) _] _ IH]; intros v c; cbn; [done|]. rewrite Hd. cbn. apply IH. }
  destruct (Nat.eqb_spec (length elemptr) 1) as [?|_]; [done|].
  destruct (remove_columns_spec (length elemptr) defs maxw elemptr col varw HF Ht (le_n _) Hm)
    as (kept & gone & col' & varw' & -> & Hk & Hsp & Hsub & Hpm & _). cbn [mbind option_bind].
  assert (HHk : Forall (fun el => exists d, defs !! el.(printpair.f) = Some d /\ head_ok order autosort d) kept).
  { rewrite Hpm in HH. by apply Forall_app in HH as [HH _]. }
  pose proof (no_varwidth _ _ _ _ _ _ _ HHk Hk) as ->. cbn [Z.eqb negb mbind option_bind].
  unfold space_required in Hsp.
  destruct (head_cells_fit defs order autosort kept (maxw + 1 + 2) [] col' 0 0 HHk Hk) as (t & -> & Lt);
    [cbn [length]; lia|]. cbn [mbind option_bind length] in *.
  exists kept, t. split; [done|]. split; [lia | done].
Qed.

(** The header of the command line is longer than the twelve positions that are
    reserved for it: a line of 44 positions gets a header that does not fit the
    buffer for 80. *)
Definition wide_line : list printpair.printpair := (fun i => printpair.mk i 9) <$> [0; 1; 2; 3; 4; 45]%nat.

Lemma showhdrline_overrun :
  make_proc_prints MAXITEMS (chars "PID:9 TID:9 PPID:9 SYSCPU:9 USRCPU:9 COMMAND-LINE:9") = Ret wide_line /\
  line_space (columns_after (Some (chars "32768" ++ [newline]))) wide_line = Some 44 /\
  showhdrline (columns_after (Some (chars "32768" ++ [newline]))) 80 wide_line MSORTCPU false = None.
Proof. repeat split; by vm_compute. Qed.

(** ** The header and the process lines *)

Definition cells_of (f : printdef.printdef -> option text) (defs : list printdef.printdef)
    (elems : list printpair.printpair) : option (list text) :=
  mapM (fun el => d ← defs !! el.(printpair.f); f d) elems.

Lemma proc_cells_concat e defs elems cur perc nsecs avgval :
  proc_cells e defs elems cur perc nsecs avgval =
  (@concat ascii) <$> cells_of (fun d => proc_cell e d cur perc nsecs avgval) defs elems.
Proof.
  unfold cells_of. induction elems as [|el elems IH]; cbn; [done|].
  destruct (defs !! printpair.f el); cbn; [|done]. destruct (proc_cell _ _ _ _ _ _); cbn; [|done].
  rewrite IH. by destruct (mapM _ elems).
Qed.

Definition fixed_elem (defs : list printdef.printdef) (el : printpair.printpair) : Prop :=
  exists d, defs !! el.(printpair.f) = Some d /\ d.(printdef.varwidth) = 0.

Lemma cells_width (f : printdef.printdef -> option text) defs elems :
  Forall (fun d => d.(printdef.varwidth) = 0 -> has_width (d.(printdef.width) + 1) (f d)) defs ->
  Forall (fixed_elem defs) elems ->
  exists ts, cells_of f defs elems = Some ts /\
    Some (length <$> ts) = mapM (fun el => d ← defs !! el.(printpair.f); Some (Z.to_nat (d.(printdef.width) + 1))) elems.
Proof.
  intros HF He. unfold cells_of. induction He as [|el elems (d & Hd & Hv) He (ts & Ets & Lts)]; [by exists []|].
  cbn. rewrite Hd. cbn. destruct (proj1 (Forall_lookup _ _) HF _ _ Hd Hv) as (s & -> & Ls). cbn.
  rewrite Ets. cbn. exists (s :: ts). split; [done|]. rewrite <-Lts. cbn. by rewrite Ls.
Qed.

(** C29: The columns are a table: when the figures of a process have room, every
    column of fixed width prints exactly as many characters as its header, its
    declared width, for active and for exited processes, for totals and for
    averages per second, so that a process line has its columns where the
    header line has them. Room means few enough digits for the column; an
    average of bytes per second must not be where val2memstr prints 10.0. *)
Theorem lines_aligned e cur perc nsecs avgval order autosort pid_max elems :
  env_room e -> figures_fit avgval nsecs e cur -> 0 < nsecs -> perc_room perc -> is_Some (columnhead order) ->
  e.(prtenv.idwidth) = pid_digits pid_max -> 4 <= e.(prtenv.idwidth) ->
  Forall (fixed_elem (columns_after pid_max)) elems ->
  exists heads texts,
    cells_of (fun d => head_cell d order autosort) (columns_after pid_max) elems = Some heads /\
    showprocline e (columns_after pid_max) elems cur perc nsecs avgval = Some (concat texts ++ [newline]) /\
    length <$> texts = length <$> heads /\
    Some (length <$> heads) =
      mapM (fun el => d ← columns_after pid_max !! el.(printpair.f); Some (Z.to_nat (d.(printdef.width) + 1))) elems.
Proof.
  intros He Hf Hn Hp Ho Hw H4 Hel.
  pose proof (columns_ok e cur perc nsecs avgval order autosort He Hf Hn pid_max Hw H4 Hp Ho) as HC.
  destruct (cells_width (fun d => head_cell d order autosort) (columns_after pid_max) elems) as (hs & Eh & Lh);
    [eapply Forall_impl; [exact HC|]; intros d Hd Hv; apply (Hd Hv) | done |].
  destruct (cells_width (fun d => proc_cell e d cur perc nsecs avgval) (columns_after pid_max) elems) as (ts & Et & Lt);
    [eapply Forall_impl; [exact HC|]; intros d Hd Hv; apply (Hd Hv) | done |].
  exists hs, ts. split; [done|]. unfold showprocline. rewrite proc_cells_concat, Et. cbn.
  split; [done|]. split; [|done]. rewrite <-Lh in Lt. by injection Lt.
Qed.

(** ** Reading the configuration of a line *)

Definition item_ok (it : text * Z) : Prop :=
  ":"%char ∉ it.1 /\ (match it.1 with c :: _ => blank c = false | [] => True end) /\ 0 <= it.2 < INT_MAX.

Definition print_item (it : text * Z) : text := it.1 ++ ":"%char :: dec it.2.

Fixpoint print_items (items : list (text * Z)) : text :=
  match items with
  | [] => []
  | it :: items => print_item it ++ " "%char :: print_items items
  end.

Lemma split_colon_app name p : ":"%char ∉ name -> split_colon (name ++ ":"%char :: p) = Some (name, p).
Proof.
  induction name as [|c name IH]; intros H; cbn; [done|]. apply not_elem_of_cons in H as [Hc H].
  destruct (Ascii.eqb_spec c ":"); [congruence|]. by rewrite IH.
Qed.

Lemma skip_blank_item it p : item_ok it -> skip_blank (print_item it ++ p) = print_item it ++ p.
Proof.
  destruct it as [name prio]. intros (_ & Hb & _). unfold print_item. cbn [fst snd] in *.
  destruct name as [|c name]; cbn; [done|]. by rewrite Hb.
Qed.

Lemma print_item_cons it p : exists c r, print_item it ++ p = c :: r.
Proof. destruct it as [[|c name] prio]; cbn; eauto. Qed.

(** makeargv reads a configuration line of name:priority pairs, separated by
    blanks, back as the pairs. *)
Theorem makeargv_print items : Forall item_ok items -> (length items < MAXITEMS)%nat ->
  makeargv (print_items items) = Ret items.
Proof.
  intros HF Hl. unfold makeargv, MAXITEMS in *. assert (Hl' : (length items <= 79)%nat) by lia. clear Hl.
  change (80 - 1)%nat with 79%nat. revert Hl'. generalize 79%nat as room.
  assert (Hlead : forall room p, parse_pairs room (" "%char :: p) = parse_pairs room p) by (intros [|]; done).
  induction HF as [|it items Hit HF IH]; intros room Hl; [by destruct room|].
  destruct room as [|room]; [cbn in Hl; lia|]. cbn [print_items parse_pairs].
  rewrite skip_blank_item by done.
  destruct (print_item_cons it (" "%char :: print_items items)) as (c & r & E). rewrite E, <-E.
  destruct it as [name prio]. destruct Hit as (Hc & _ & Hp). unfold print_item, INT_MAX in *. cbn [fst snd] in *.
  rewrite <-app_assoc. cbn [app]. rewrite split_colon_app by done.
  rewrite strtol_dec by (done || lia).
  rewrite (proj2 (Z.leb_gt _ prio)), (proj2 (Z.ltb_ge prio 0)) by lia. cbn [orb].
  rewrite Hlead, IH by (cbn in Hl; lia). done.
Qed.

(** ** Concrete lines *)

Definition elem_okb (defs : list printdef.printdef) (el : printpair.printpair) : bool :=
  match defs !! el.(printpair.f) with
  | Some d => (0 <=? d.(printdef.width)) &&
              ((d.(printdef.varwidth) =? 0) || (d.(printdef.varwidth) =? 1) && (d.(printdef.width) =? 0)) &&
              (el.(printpair.prio) <? 999999)
  | None => false
  end.

Lemma elem_okb_ok defs elems : forallb (elem_okb defs) elems = true -> Forall (elem_ok defs) elems.
Proof.
  intros H. apply Forall_forall. intros el Hel. apply list_elem_of_In in Hel.
  pose proof (proj1 (forallb_forall _ _) H el Hel) as Hb. unfold elem_okb in Hb. unfold elem_ok, column_shape.
  destruct (defs !! printpair.f el) as [d|]; [|done].
  apply andb_true_iff in Hb as [[H1 H2]%andb_true_iff H3%Z.ltb_lt]. apply Z.leb_le in H1.
  split; [|done]. exists d. split; [done|]. split; [done|].
  apply orb_true_iff in H2 as [H2%Z.eqb_eq | [H2%Z.eqb_eq H4%Z.eqb_eq]%andb_true_iff]; auto.
Qed.

Definition head_okb (defs : list printdef.printdef) (order : Z) (autosort : bool) (el : printpair.printpair) : bool :=
  match defs !! el.(printpair.f) with
  | Some d => (0 <=? d.(printdef.width)) && (d.(printdef.varwidth) =? 0) &&
              match head_cell d order autosort with
              | Some t => Nat.eqb (length t) (Z.to_nat (d.(printdef.width) + 1))
              | None => false
              end
  | None => false
  end.

Lemma head_okb_ok defs order autosort elems : forallb (head_okb defs order autosort) elems = true ->
  Forall (fun el => exists d, defs !! el.(printpair.f) = Some d /\ head_ok order autosort d) elems.
Proof.
  intros H. apply Forall_forall. intros el Hel. apply list_elem_of_In in Hel.
  pose proof (proj1 (forallb_forall _ _) H el Hel) as Hb. unfold head_okb in Hb. unfold head_ok, has_width.
  destruct (defs !! printpair.f el) as [d|]; [|done].
  apply andb_true_iff in Hb as [[H1%Z.leb_le H2%Z.eqb_eq]%andb_true_iff H3]. exists d.
  destruct (head_cell d order autosort) as [t|]; [|done]. apply Nat.eqb_eq in H3. eauto 6.
Qed.

(** A system with five digits for process ids, and the generic report. *)
Definition some_pid_max : option text := Some (chars "32768" ++ [newline]).
Definition generic_line : list printpair.printpair :=
  [printpair.mk 0 10; printpair.mk 3 9; printpair.mk 4 9; printpair.mk 5 8; printpair.mk 6 8; printpair.mk 47
   7; printpair.mk 49 7; printpair.mk 18 3; printpair.mk 19 2; printpair.mk 42 4; printpair.mk 43 4;
   printpair.mk 33 4; printpair.mk 44 4; printpair.mk 41 4; printpair.mk 63 10; printpair.mk 17 10].

Lemma getspacings_fits_witness : exists defs' kept gone spacings,
  getspacings (columns_after some_pid_max) 80 generic_line = Some (defs', kept, spacings) /\
  generic_line ≡ₚ kept ++ gone.
Proof.
  destruct (getspacings_fits (columns_after some_pid_max) 80 generic_line) as (d & k & g & s & E & _ & _ & P & _).
  - lia.
  - apply elem_okb_ok. by vm_compute.
  - by exists d, k, g, s.
Defined.

Lemma showhdrline_fits_witness : exists newelems hdr,
  showhdrline (columns_after some_pid_max) 80 generic_line MSORTCPU true =
    Some (columns_after some_pid_max, newelems, [newline] ++ hdr ++ [newline]) /\
  Z.of_nat (length hdr) <= 81.
Proof.
  destruct (showhdrline_fits (columns_after some_pid_max) 80 generic_line MSORTCPU true) as (n & h & E & L & _).
  - lia.
  - done.
  - apply elem_okb_ok. by vm_compute.
  - apply head_okb_ok. by vm_compute.
  - exists n, h. split; [exact E | lia].
Defined.

Lemma makeargv_print_witness :
  makeargv (chars "PID:10 CMD:9 ") = Ret [(chars "PID", 10); (chars "CMD", 9)].
Proof.
  apply (makeargv_print [(chars "PID", 10); (chars "CMD", 9)]); [|unfold MAXITEMS; cbn; lia].
  repeat (apply Forall_cons; split); [| |by apply Forall_nil].
  all: split; [eapply bool_decide_unpack; vm_compute; exact I | split; [reflexivity | by vm_compute]].
Defined.

Definition quiet_env : prtenv.prtenv :=
  prtenv.mk 100 0 (fun _ => None) (fun _ => None) (fun _ => tm.mk 0 0 12 1 0 120) 0 5.

(** A process that read 20 Mbyte and wrote 7 Gbyte, in 10 seconds. *)
Definition a_writer : tstat.tstat :=
  let t := tstat_zero in
  tstat.mk t.(tstat.gen) t.(tstat.cpu) (tdsk.mk 10 40960 20 14680064 0 []) t.(tstat.mem) t.(tstat.net).

Lemma a_writer_fits : figures_fit true 10 quiet_env a_writer.
Proof.
  assert (H1 : one_digit (40960 * 512) 10) by (split; [|vm_compute; done]; apply Forall_forall; intros u Hu;
    repeat (apply elem_of_cons in Hu as [->|Hu]; [vm_compute; by left|]); by apply elem_of_nil in Hu).
  assert (H2 : one_digit (14680064 * 512) 10).
  { split; [|vm_compute; done]. apply Forall_cons_2; [right; vm_compute; done|].
    repeat (apply Forall_cons_2; [left; vm_compute; done|]). by apply Forall_nil_2. }
  assert (H0 : one_digit (0 * 512) 10) by (split; [|vm_compute; done]; apply Forall_forall; intros u Hu;
    repeat (apply elem_of_cons in Hu as [->|Hu]; [vm_compute; by left|]); by apply elem_of_nil in Hu).
  split; [| | |split; [|done]|]; [..|repeat apply Forall_cons_2; try apply Forall_nil_2; cbn; split_and!; done || lia|];
    repeat constructor; vm_compute; first [done | lia].
Qed.

Lemma lines_aligned_witness : exists heads texts,
  cells_of (fun d => head_cell d MSORTCPU true) (columns_after some_pid_max) generic_line = Some heads /\
  showprocline quiet_env (columns_after some_pid_max) generic_line a_writer (50, 1) 10 true =
    Some (concat texts ++ [newline]) /\
  length <$> texts = length <$> heads.
Proof.
  destruct (lines_aligned quiet_env a_writer (50, 1) 10 true MSORTCPU true some_pid_max generic_line)
    as (hs & ts & E1 & E2 & E3 & _).
  - split; [done | intros t; unfold calendar_ok, clock_ok; cbn; lia | cbn; lia].
  - exact a_writer_fits.
  - lia.
  - unfold perc_room. cbn. lia.
  - by eexists.
  - by vm_compute.
  - cbn. lia.
  - apply Forall_forall. intros el Hel.
    pose proof (proj1 (Forall_forall _ _) (elem_okb_ok (columns_after some_pid_max) generic_line ltac:(by vm_compute)) el Hel)
      as [(d & Hd & _) _]. exists d. split; [done|].
    pose proof (proj1 (Forall_forall _ _) (head_okb_ok (columns_after some_pid_max) MSORTCPU true generic_line
      ltac:(by vm_compute)) el Hel) as (d' & Hd' & _ & Hv & _). congruence.
  - by exists hs, ts.
Defined.
