(* ===== verification/PriheadFacts.v ===== *)
(** * The process list and its configuration: theorems *)
From Stdlib Require Import Ascii.
From S2P Require Import Prelude Format Sscanf SscanfFacts Tstat Netatopif Photoproc Various VariousFacts Cumulate Showprocs Showline Prihead ShowprocsFacts ShowlineFacts.

(** ** The built-in layouts *)

(** Every name of a built-in layout is known, so that the program does not stop
    there; the static variable that should prevent a second initialisation
    keeps its value, so that every header line reads the number of digits again
    and allocates what it needs. *)
Lemma determine_layout_returns pid_max st : exists st', determine_layout pid_max st = Ret st' /\
  st'.(layout.firsttime) = st.(layout.firsttime) /\
  (st.(layout.firsttime) = true ->
     st'.(layout.heap) = st.(layout.heap) ++ (init_proc_prints pid_max st.(layout.defs)).2).
Proof.
  unfold determine_layout. destruct (layout.firsttime st) eqn:Ef; [|by exists st].
  repeat match goal with
  | |- context [built_in ?s] => let r := eval vm_compute in (built_in s) in change (built_in s) with r
  end.
  eexists. split; [reflexivity|]. done.
Qed.

Lemma dynamicgen_returns supportflags threadview : exists genprocs,
  make_proc_dynamicgen supportflags threadview = Some (Ret genprocs).
Proof.
  unfold make_proc_dynamicgen, dynamic_format.
  destruct (threadview =? 0); destruct (flag supportflags DOCKSTAT); destruct (flag supportflags IOSTAT);
    destruct (flag supportflags NETATOP); eexists; vm_compute; reflexivity.
Qed.

(** The new header of an id column is written two bytes past its area. *)
Lemma reformat_overrun n d r w : 0 <= n < 2 ^ 63 -> reformat n d = (r, [w]) ->
  w.(heapwrite.size) = n /\ w.(heapwrite.first) + w.(heapwrite.bytes) = n + 2.
Proof.
  intros Hn. unfold reformat. destruct (printdef.head d) as [h|]; [|done]. rewrite u64_id by lia.
  destruct (Z.ltb_spec (Z.of_nat (String.length h)) n) as [Hlt|]; [|done]. intros [= <- <-]. cbn.
  split; [done|]. rewrite pad_length; [lia|lia|]. rewrite chars_length. lia.
Qed.

(** ** priproc *)

(** The seconds and the kind of values are stored with each process. *)
Definition stamped (n : nat) (nsecs avgval : Z) (old new : sharemem.sharemem) : Prop :=
  new.(sharemem.nsecs) = (if Nat.eqb n 0 then old.(sharemem.nsecs) else nsecs) /\
  new.(sharemem.avgval) = (if Nat.eqb n 0 then old.(sharemem.avgval) else avgval).

(** The slots from [i] on hold the processes from [i] on. *)
Definition handed_over (proclist : list tstat.tstat) (firstproc lastproc : nat) (old new : list tstat.tstat) : Prop :=
  forall j, new !! j = if decide (firstproc <= j < lastproc)%nat then proclist !! j else old !! j.

Lemma occupation_total sb cur order :
  (sb.(syscap.nrcpu) <> 0 \/ sb.(syscap.availcpu) = 0 \/ order <> MSORTCPU) ->
  exists p, occupation sb cur order = Some p.
Proof.
  intros H. unfold occupation. destruct (Z.eqb_spec order MSORTCPU).
  - destruct (Z.eqb_spec (syscap.availcpu sb) 0); [eauto|].
    destruct (Z.eqb_spec (syscap.nrcpu sb) 0); [tauto | eauto].
  - repeat case_match; eauto.
Qed.

Section handover.
Context (proclist : list tstat.tstat) (order : Z) (sb : syscap.syscap) (nsecs avgval : Z).
Context (Hsb : sb.(syscap.nrcpu) <> 0 \/ sb.(syscap.availcpu) = 0 \/ order <> MSORTCPU).

Lemma priproc_loop_spec n i curline zsm :
  (i + n <= length proclist)%nat -> length zsm.(sharemem.curstat) = MAX_PROC -> (i + n <= MAX_PROC)%nat ->
  in_i32 (curline + Z.of_nat n) -> in_i32 curline -> in_i32 zsm.(sharemem.num_proc) ->
  in_i32 (zsm.(sharemem.num_proc) + Z.of_nat n) ->
  exists zsm', priproc_loop n proclist i curline order sb nsecs avgval zsm = Some (curline + Z.of_nat n, zsm') /\
    handed_over proclist i (i + n) zsm.(sharemem.curstat) zsm'.(sharemem.curstat) /\
    zsm'.(sharemem.num_proc) = zsm.(sharemem.num_proc) + Z.of_nat n /\ stamped n nsecs avgval zsm zsm'.
Proof.
  revert i curline zsm. induction n as [|n IH]; intros i curline zsm Hp Hl Hm Hc1 Hc2 Hn1 Hn2; cbn [priproc_loop].
  - exists zsm. rewrite !Z.add_0_r. split; [done|]. split; [|by split]. intros j. rewrite decide_False by lia. done.
  - destruct (lookup_lt_is_Some_2 proclist i ltac:(lia)) as [cur Ec]. rewrite Ec. cbn [mbind option_bind].
    destruct (lookup_lt_is_Some_2 (sharemem.curstat zsm) i ltac:(lia)) as [old Eo]. rewrite Eo. cbn [mbind option_bind].
    destruct (occupation_total sb cur order Hsb) as [p ->]. cbn [mbind option_bind].
    unfold in_i32 in *. rewrite !(i32_id (_ + 1)) by (unfold in_i32; lia).
    destruct (IH (S i) (curline + 1) (sharemem.mk (sharemem.num_proc zsm + 1) nsecs avgval
      (<[i:=cur]> (sharemem.curstat zsm)))) as (zsm' & E & Hh & Hnum & Hs1 & Hs2);
      cbn [sharemem.curstat sharemem.num_proc sharemem.nsecs sharemem.avgval] in *; rewrite ?length_insert; try lia.
    exists zsm'. split; [rewrite E; f_equal; f_equal; lia|].
    split; [|split; [lia|]; split; cbn [Nat.eqb]; [rewrite Hs1|rewrite Hs2]; by destruct (Nat.eqb n 0)].
    intros j. rewrite Hh. destruct (decide (j = i)) as [->|Hne].
    + rewrite decide_False, decide_True by lia. rewrite list_lookup_insert_eq by lia. done.
    + rewrite list_lookup_insert_ne by done. destruct (decide (S i <= j < S i + n)%nat).
      * by rewrite decide_True by lia.
      * by rewrite decide_False by lia.
Qed.

Lemma priproc_loop_overrun n i curline zsm :
  length zsm.(sharemem.curstat) = MAX_PROC -> (MAX_PROC < i + n)%nat -> (i <= MAX_PROC)%nat ->
  priproc_loop n proclist i curline order sb nsecs avgval zsm = None.
Proof.
  revert i curline zsm. induction n as [|n IH]; intros i curline zsm Hl Hm Hi; [lia|]. cbn [priproc_loop].
  destruct (proclist !! i) as [cur|]; cbn [mbind option_bind]; [|done].
  destruct (sharemem.curstat zsm !! i) as [old|] eqn:Eo; cbn [mbind option_bind]; [|done].
  apply lookup_lt_Some in Eo. destruct (occupation sb cur order); cbn [mbind option_bind]; [|done].
  apply IH; cbn [sharemem.curstat]; rewrite ?length_insert; lia.
Qed.
End handover.

(** priproc puts the processes from firstproc to lastproc into the slots of
    the same number in the memory that it shares with the viewer, and counts
    them; the other slots keep their content. The memory has 512 slots, and a
    longer list is written past its end. *)
Theorem priproc_hands_over proclist firstproc lastproc curline order sb nsecs avgval zsm :
  (sb.(syscap.nrcpu) <> 0 \/ sb.(syscap.availcpu) = 0 \/ order <> MSORTCPU) ->
  length zsm.(sharemem.curstat) = MAX_PROC -> (firstproc <= lastproc <= length proclist)%nat ->
  (firstproc <= MAX_PROC)%nat ->
  0 <= curline < 2 ^ 30 -> 0 <= zsm.(sharemem.num_proc) < 2 ^ 30 ->
  ((lastproc <= MAX_PROC)%nat -> exists zsm',
     priproc proclist firstproc lastproc curline order sb nsecs avgval zsm =
       Some (curline + Z.of_nat (lastproc - firstproc), zsm') /\
     handed_over proclist firstproc lastproc zsm.(sharemem.curstat) zsm'.(sharemem.curstat) /\
     zsm'.(sharemem.num_proc) = zsm.(sharemem.num_proc) + Z.of_nat (lastproc - firstproc) /\
     stamped (lastproc - firstproc) nsecs avgval zsm zsm') /\
  ((MAX_PROC < lastproc)%nat ->
     priproc proclist firstproc lastproc curline order sb nsecs avgval zsm = None).
Proof.
  intros Hsb Hl Hp Hf Hc Hn. unfold priproc. split; intros Hm.
  - destruct (priproc_loop_spec proclist order sb nsecs avgval Hsb (lastproc - firstproc) firstproc curline zsm)
      as (zsm' & E & Hh & Hnum); try done; unfold in_i32, MAX_PROC in *; try lia.
    exists zsm'. split; [exact E|]. split; [|done].
    replace (firstproc + (lastproc - firstproc))%nat with lastproc in Hh by lia. done.
  - apply priproc_loop_overrun; [done | lia | lia].
Qed.

(** ** Settings *)

Lemma get_posval_dec v : 0 <= v < 2 ^ 31 -> get_posval (dec v) = Ret v.
Proof.
  intros Hv. unfold get_posval, atoi.
  assert (strtol (dec v) = Some (v, false, [])) as -> by (rewrite <-(app_nil_r (dec v)); apply strtol_dec; [lia|done]).
  rewrite i32_id by (unfold in_i32; lia).
  rewrite (proj2 (numeric_spec (dec v))) by (apply dec_digits; lia). cbn.
  by rewrite (proj2 (Z.ltb_ge v 0)) by lia.
Qed.

(** A critical percentage is accepted exactly when it is a number of digits
    from 0 to 100: its decimal form is stored as that value, any larger number
    stops the program, and so does every text that is not a number; whatever
    is stored lies between 0 and 100. *)
Theorem get_perc_spec :
  (forall v, 0 <= v <= 100 -> get_perc (dec v) = Ret v) /\
  (forall v, 100 < v < 2 ^ 31 -> get_perc (dec v) = Exit 1) /\
  (forall val, numeric val = 0 -> get_perc val = Exit 1) /\
  (forall val v, get_perc val = Ret v -> 0 <= v <= 100).
Proof.
  unfold get_perc. split; [|split; [|split]].
  - intros v Hv. rewrite get_posval_dec by lia. cbn.
    by rewrite (proj2 (Z.ltb_ge v 0)), (proj2 (Z.ltb_ge 100 v)) by lia.
  - intros v Hv. rewrite get_posval_dec by lia. cbn.
    rewrite (proj2 (Z.ltb_ge v 0)), (proj2 (Z.ltb_lt 100 v)) by lia. done.
  - intros val Hn. unfold get_posval. by rewrite Hn.
  - intros val v. destruct (get_posval val) as [|x]; cbn; [done|].
    destruct (Z.ltb_spec x 0); [done|]. destruct (Z.ltb_spec 100 x); [done|]. intros [= <-]. lia.
Qed.

(** A number of ten digits and more can be accepted as another one. *)
Lemma get_perc_wraps : get_perc (chars "4294967316") = Ret 20.
Proof. by vm_compute. Qed.

Lemma priproc_hands_over_witness : exists zsm',
  priproc [tstat_zero] 0 1 0 MSORTMEM (syscap.mk 1 0 0 0 0) 10 0 (sharemem.mk 0 0 0 (replicate MAX_PROC tstat_zero)) =
    Some (1, zsm') /\ zsm'.(sharemem.num_proc) = 1.
Proof.
  destruct (priproc_hands_over [tstat_zero] 0 1 0 MSORTMEM (syscap.mk 1 0 0 0 0) 10 0
    (sharemem.mk 0 0 0 (replicate MAX_PROC tstat_zero))) as [H _]; try (cbn; lia).
  - reflexivity.
  - destruct H as (z & E & _ & N & _); [unfold MAX_PROC; lia|]. by exists z.
Defined.
