(* ===== verification/Showsys.v ===== *)
(** * The system lines: showsys.c

    One definition per conversion function and per [sys_printdef], the buffer
    each conversion writes to with its size, and [showsysline], which selects
    the items of a line and spreads them over its width. This build has no
    ncurses: a line has [linelen] characters and ends with a newline. *)
From Stdlib Require Import Ascii.
From S2P Require Import Prelude Format Printf Sscanf Tstat Sstat SstatStores Netatopif Photoproc Deviattask Various Showprocs Cumulate Showline Prihead.

#[local] Open Scope c_scope.

Definition COLORINFO : Z := 2.
Definition COLORALMOST : Z := 3.
Definition COLORCRIT : Z := 4.

(** The figures that are passed beside the sample. *)
Module extraparam.
Record extraparam := mk {
  totut : Z;
  totst : Z;
  nact : Z;
  nproc : Z;
  ntrun : Z;
  ntslpi : Z;
  ntslpu : Z;
  nzomb : Z;
  nexit : Z;
  noverflow : Z;
  avgval : Z;
  nsecs : Z;
  mstot : Z;
  iotot : Z;
  perdsk : list perdsk.perdsk;
  index : Z;
  cputot : Z;
  percputot : Z
}.
End extraparam.

(** The global variables. *)
Module sysenv.
Record sysenv := mk {
  hertz : Z;
  pagesize : Z;
  supportflags : Z;
  linelen : Z
}.
End sysenv.

(** What the conversions change: the sample behind the first pointer ([None] is
    a null pointer), the colour, and the static variable of [sysprt_PRCNNEXIT]. *)
Module sysst.
Record sysst := mk {
  sample : option sstat.sstat;
  color : Z;
  firstcall : bool
}.
End sysst.

(** [None] is a division by zero, an access outside an array, or a store outside
    a buffer; quotients of doubles that are not finite are not modelled and
    [None] as well. *)
Definition M (A : Type) : Type := sysst.sysst -> option (A * sysst.sysst).
#[export] Instance M_ret : MRet M := fun A a st => Some (a, st).
#[export] Instance M_bind : MBind M := fun A B f m st =>
  match m st with None => None | Some (a, st) => f a st end.

Definition lift {A} (o : option A) : M A := fun st => match o with Some a => Some (a, st) | None => None end.
Definition sample : M sstat.sstat := fun st => lift st.(sysst.sample) st.
Definition set_sample (s : sstat.sstat) : M unit := fun st =>
  Some (tt, sysst.mk (Some s) st.(sysst.color) st.(sysst.firstcall)).
Definition setcolor (c : Z) : M unit := fun st =>
  Some (tt, sysst.mk st.(sysst.sample) c st.(sysst.firstcall)).
Definition firstcall : M bool := fun st => Some (st.(sysst.firstcall), st).
Definition no_firstcall : M unit := fun st =>
  Some (tt, sysst.mk st.(sysst.sample) st.(sysst.color) false).

(** A conversion: the extra parameters and the badness. *)
Definition conversion : Type := sysenv.sysenv -> extraparam.extraparam -> Z -> M text.

(** [sys_printdef] *)
Module sysdef.
Record sysdef := mk {
  configname : string;
  doconvert : conversion
}.
End sysdef.

(** A store of [t] and its end at [buf + off], where [static char buf[size]]
    starts as [init]: the string that is in the buffer. *)
Definition buffer (size : nat) (init : string) (off : nat) (t : option text) : M text :=
  t ← lift t;
  if (off + length t + 1 <=? size)%nat then mret (take off (chars init) ++ t) else lift None.

(** [snprintf] into [n] bytes. *)
Definition snprintf (n : nat) (t : option text) : option text := take (n - 1) <$> t.

(** ** The arrays *)

Definition at_index {A} (l : list A) (i : Z) : option A := if i <? 0 then None else l !! Z.to_nat i.

Definition cpu_at (x : extraparam.extraparam) : M percpu.percpu :=
  s ← sample; lift (at_index s.(sstat.cpu).(cpustat.cpu) x.(extraparam.index)).
Definition intf_at (x : extraparam.extraparam) : M perintf.perintf :=
  s ← sample; lift (at_index s.(sstat.intf).(intfstat.intf) x.(extraparam.index)).
Definition cont_at (x : extraparam.extraparam) : M percontainer.percontainer :=
  s ← sample; lift (at_index s.(sstat.cfs).(contstat.cont) x.(extraparam.index)).
Definition mount_at (x : extraparam.extraparam) : M pernfsmount.pernfsmount :=
  s ← sample; lift (at_index s.(sstat.nfs).(nfsstat.nfsmounts).(nfsmounts.nfsmnt) x.(extraparam.index)).
Definition disk_at (x : extraparam.extraparam) : M perdsk.perdsk :=
  lift (at_index x.(extraparam.perdsk) x.(extraparam.index)).

Definition set_perintf_speed (v : Z) (i : perintf.perintf) : perintf.perintf :=
  perintf.mk i.(perintf.name) i.(perintf.rbyte) i.(perintf.rpack) i.(perintf.rerrs) i.(perintf.rdrop)
    i.(perintf.rfifo) i.(perintf.rframe) i.(perintf.rcompr) i.(perintf.rmultic) i.(perintf.rfuture)
    i.(perintf.sbyte) i.(perintf.spack) i.(perintf.serrs) i.(perintf.sdrop) i.(perintf.sfifo)
    i.(perintf.scollis) i.(perintf.scarrier) i.(perintf.scompr) i.(perintf.sfuture) i.(perintf.type)
    v i.(perintf.speedp) i.(perintf.duplex) i.(perintf.cfuture).

Definition set_intf_at (x : extraparam.extraparam) (i : perintf.perintf) : M unit :=
  s ← sample;
  let f := s.(sstat.intf) in
  set_sample (set_sstat_intf (set_intfstat_intf (<[Z.to_nat x.(extraparam.index) := i]> f.(intfstat.intf)) f) s).

(** ** Figures *)

Definition averaged (x : extraparam.extraparam) : bool := negb (x.(extraparam.avgval) =? 0).

(** Integer division. *)
Definition cdiv (a b : Z) : option Z := if b =? 0 then None else Some (Z.quot a b).

Definition cpu_text_of (e : sysenv.sysenv) (ticks : Z) : option text :=
  val2cpustr <$> cdiv (i64 (ticks * 1000)) e.(sysenv.hertz).

Definition finite (x : Z * Z) : option (Z * Z) := if x.2 =? 0 then None else Some x.
Definition frac_lt (x y : Z * Z) : bool := x.1 * y.2 <? y.1 * x.2.
Definition dbl_over (x : Z * Z) (k : Z) : Z * Z := dbl x.1 (x.2 * k).

(** [v * 100.0 / tot], and its value as a [float]. *)
Definition percentage (v tot : Z) : option (Z * Z) :=
  finite (dbl_div (dbl_mul (dbl v 1) 100) (dbl tot 1)).
Definition as_float (x : Z * Z) : Z * Z := flt x.1 x.2.

Definition float_perc (fmt : string) (v tot : Z) : M text :=
  perc ← lift (as_float <$> percentage v tot);
  _ ← (if frac_lt (1, 1) perc then setcolor (-1) else mret tt);
  buffer 15 "" 0 (printf fmt [AFlt perc]).

Definition double_perc (fmt : string) (v tot : Z) : M text :=
  perc ← lift (percentage v tot);
  buffer 15 "" 0 (printf fmt [AFlt perc]).

Definition dofmt_cpufreq (maxfreq cnt ticks : Z) : text :=
  if negb (ticks =? 0) then chars "avgf " ++ val2Hzstr (Z.quot cnt ticks)
  else if negb (cnt =? 0) then chars "curf " ++ val2Hzstr cnt
  else chars "curf    ?MHz".

(** The loop of [sumscaling] over the first [n] processors. *)
Fixpoint sum_freqs (n : nat) (cpus : list percpu.percpu) (maxfreq cnt ticks : Z) : option (Z * Z * Z) :=
  match n with
  | O => Some (maxfreq, cnt, ticks)
  | S n =>
      match cpus with
      | [] => None
      | p :: cpus =>
          let f := p.(percpu.freqcnt) in
          sum_freqs n cpus (maxfreq +64 f.(freqcnt.maxfreq)) (cnt +64 f.(freqcnt.cnt)) (ticks +64 f.(freqcnt.ticks))
      end
  end.

Definition sumscaling (s : sstat.sstat) : option (Z * Z * Z) :=
  sum_freqs (Z.to_nat (i32 s.(sstat.cpu).(cpustat.nrcpu))) s.(sstat.cpu).(cpustat.cpu) 0 0 0.

Definition dofmt_cpuscale (maxfreq cnt ticks : Z) : option text :=
  if negb (ticks =? 0) then
    let curfreq := Z.quot cnt ticks in
    let perc := if negb (maxfreq =? 0) then i32 (Z.quot (i64 (100 * curfreq)) maxfreq) else 0 in
    app (chars "avgscal") <$> printf "%4d%%" [AInt perc]
  else if negb (maxfreq =? 0) then
    app (chars "curscal") <$> printf "%4lld%%" [AInt (Z.quot (i64 (100 * cnt)) maxfreq)]
  else Some (chars "curscal   ?%").

(** Instructions per cycle, in two decimals. *)
Definition ipc_value (instr cycle : Z) : Z * Z :=
  as_float (dbl_over (dbl (Z.quot (i64 (instr * 100)) cycle) 1) 100).

Definition load_text (width : nat) (lavg : Z * Z) : option text :=
  Some (pad (Z.of_nat width) (fmt_f (if frac_lt (999, 1) lavg then 0%nat else 2%nat) lavg)).

(** The last [n] characters. *)
Definition last_chars (n : nat) (l : text) : text := drop (length l - n) l.

(** The text before and after the first colon. *)
Definition before_colon (l : text) : option text := fst <$> split_colon l.
Definition after_colon (l : text) : option text := snd <$> split_colon l.

(** The busy percentage of an interface: kilobits per second against megabits
    per second. *)
Definition intf_busy (i : perintf.perintf) (ival oval : Z) : option Z :=
  let full := i64 (i.(perintf.speed) * 10) in
  if negb (i.(perintf.duplex) =? 0) then cdiv (if oval <? ival then ival else oval) full
  else cdiv (i64 (ival + oval)) full.

Definition makenetspeed (val nsecs : Z) : M text :=
  val ← lift (bandwidth val nsecs);
  let '(val, c) :=
    if val <? 10000 then (val, "K"%char)
    else if val <? 10000 * 1000 then (Z.quot val 1000, "M"%char)
    else if val <? 10000 * 1000 * 1000 then (Z.quot val (1000 * 1000), "G"%char)
    else (Z.quot (Z.quot (Z.quot val 1000) 1000) 1000, "T"%char) in
  buffer 16 "si      ?bps" 3 (printf "%4lld %cbps" [AInt val; AChr c]).

(** ** The items *)

(** *** Processes *)

Definition sysprt_PRCSYS : conversion := fun e x badness =>
  buffer 15 "sys   " 6 (cpu_text_of e x.(extraparam.totst)).
Definition syspdef_PRCSYS : sysdef.sysdef := sysdef.mk "PRCSYS" sysprt_PRCSYS.

Definition sysprt_PRCUSER : conversion := fun e x badness =>
  buffer 15 "user  " 6 (cpu_text_of e x.(extraparam.totut)).
Definition syspdef_PRCUSER : sysdef.sysdef := sysdef.mk "PRCUSER" sysprt_PRCUSER.

Definition sysprt_PRCNPROC : conversion := fun e x badness =>
  buffer 15 "#proc     " 6 (val2valstr (x.(extraparam.nproc)) 6 false 0).
Definition syspdef_PRCNPROC : sysdef.sysdef := sysdef.mk "PRCNPROC" sysprt_PRCNPROC.

Definition sysprt_PRCNRUNNING : conversion := fun e x badness =>
  buffer 15 "#trun     " 6 (val2valstr (x.(extraparam.ntrun)) 6 false 0).
Definition syspdef_PRCNRUNNING : sysdef.sysdef := sysdef.mk "PRCNRUNNING" sysprt_PRCNRUNNING.

Definition sysprt_PRCNSLEEPING : conversion := fun e x badness =>
  buffer 15 "#tslpi    " 8 (val2valstr (x.(extraparam.ntslpi)) 4 false 0).
Definition syspdef_PRCNSLEEPING : sysdef.sysdef := sysdef.mk "PRCNSLEEPING" sysprt_PRCNSLEEPING.

Definition sysprt_PRCNDSLEEPING : conversion := fun e x badness =>
  buffer 15 "#tslpu    " 8 (val2valstr (x.(extraparam.ntslpu)) 4 false 0).
Definition syspdef_PRCNDSLEEPING : sysdef.sysdef := sysdef.mk "PRCNDSLEEPING" sysprt_PRCNDSLEEPING.

Definition sysprt_PRCNZOMBIE : conversion := fun e x badness =>
  let nzomb := x.(extraparam.nzomb) in
  _ ← (if 30 <? nzomb then setcolor COLORALMOST else mret tt);
  _ ← (if 50 <? nzomb then setcolor COLORCRIT else mret tt);
  buffer 15 "#zombie   " 8 (val2valstr nzomb 4 false 0).
Definition syspdef_PRCNZOMBIE : sysdef.sysdef := sysdef.mk "PRCNZOMBIE" sysprt_PRCNZOMBIE.

Definition sysprt_PRCNNEXIT : conversion := fun e x badness =>
  if negb (Z.land e.(sysenv.supportflags) ACCTACTIVE =? 0) then
    if negb (x.(extraparam.noverflow) =? 0) then
      _ ← setcolor COLORCRIT;
      buffer 15 "#exit >   " 7 (val2valstr x.(extraparam.nexit) 5 (averaged x) x.(extraparam.nsecs))
    else buffer 15 "#exit     " 6 (val2valstr x.(extraparam.nexit) 6 (averaged x) x.(extraparam.nsecs))
  else
    first ← firstcall;
    _ ← (if (first : bool) then _ ← setcolor COLORCRIT; no_firstcall else setcolor COLORINFO);
    mret (chars "no  procacct").
Definition syspdef_PRCNNEXIT : sysdef.sysdef := sysdef.mk "PRCNNEXIT" sysprt_PRCNNEXIT.

(** *** Processors *)

Definition sysprt_CPUSYS : conversion := fun e x badness =>
  s ← sample;
  float_perc "sys  %6.0f%%" (s.(sstat.cpu).(cpustat.all).(percpu.stime)) x.(extraparam.percputot).
Definition syspdef_CPUSYS : sysdef.sysdef := sysdef.mk "CPUSYS" sysprt_CPUSYS.

Definition sysprt_CPUUSER : conversion := fun e x badness =>
  s ← sample;
  float_perc "user %6.0f%%" (i64 (s.(sstat.cpu).(cpustat.all).(percpu.utime) + s.(sstat.cpu).(cpustat.all).(percpu.ntime))) x.(extraparam.percputot).
Definition syspdef_CPUUSER : sysdef.sysdef := sysdef.mk "CPUUSER" sysprt_CPUUSER.

Definition sysprt_CPUIRQ : conversion := fun e x badness =>
  s ← sample;
  float_perc "irq  %6.0f%%" (i64 (s.(sstat.cpu).(cpustat.all).(percpu.Itime) + s.(sstat.cpu).(cpustat.all).(percpu.Stime))) x.(extraparam.percputot).
Definition syspdef_CPUIRQ : sysdef.sysdef := sysdef.mk "CPUIRQ" sysprt_CPUIRQ.

Definition sysprt_CPUIDLE : conversion := fun e x badness =>
  s ← sample;
  double_perc "idle %6.0f%%" (s.(sstat.cpu).(cpustat.all).(percpu.itime)) x.(extraparam.percputot).
Definition syspdef_CPUIDLE : sysdef.sysdef := sysdef.mk "CPUIDLE" sysprt_CPUIDLE.

Definition sysprt_CPUWAIT : conversion := fun e x badness =>
  s ← sample;
  double_perc "wait %6.0f%%" (s.(sstat.cpu).(cpustat.all).(percpu.wtime)) x.(extraparam.percputot).
Definition syspdef_CPUWAIT : sysdef.sysdef := sysdef.mk "CPUWAIT" sysprt_CPUWAIT.

Definition sysprt_CPUISYS : conversion := fun e x badness =>
  c ← cpu_at x;
  float_perc "sys  %6.0f%%" (c.(percpu.stime)) x.(extraparam.percputot).
Definition syspdef_CPUISYS : sysdef.sysdef := sysdef.mk "CPUISYS" sysprt_CPUISYS.

Definition sysprt_CPUIUSER : conversion := fun e x badness =>
  c ← cpu_at x;
  float_perc "user %6.0f%%" (i64 (c.(percpu.utime) + c.(percpu.ntime))) x.(extraparam.percputot).
Definition syspdef_CPUIUSER : sysdef.sysdef := sysdef.mk "CPUIUSER" sysprt_CPUIUSER.

Definition sysprt_CPUIIRQ : conversion := fun e x badness =>
  c ← cpu_at x;
  float_perc "irq  %6.0f%%" (i64 (c.(percpu.Itime) + c.(percpu.Stime))) x.(extraparam.percputot).
Definition syspdef_CPUIIRQ : sysdef.sysdef := sysdef.mk "CPUIIRQ" sysprt_CPUIIRQ.

Definition sysprt_CPUIIDLE : conversion := fun e x badness =>
  c ← cpu_at x;
  double_perc "idle %6.0f%%" (c.(percpu.itime)) x.(extraparam.percputot).
Definition syspdef_CPUIIDLE : sysdef.sysdef := sysdef.mk "CPUIIDLE" sysprt_CPUIIDLE.

Definition sysprt_CPUIWAIT : conversion := fun e x badness =>
  c ← cpu_at x;
  perc ← lift (percentage c.(percpu.wtime) x.(extraparam.percputot));
  buffer 15 "" 0 (printf "cpu%03d w%3.0f%%" [AInt c.(percpu.cpunr); AFlt perc]).
Definition syspdef_CPUIWAIT : sysdef.sysdef := sysdef.mk "CPUIWAIT" sysprt_CPUIWAIT.

Definition sysprt_CPUIFREQ : conversion := fun e x badness =>
  c ← cpu_at x;
  let f := c.(percpu.freqcnt) in
  buffer 15 "" 0 (Some (dofmt_cpufreq f.(freqcnt.maxfreq) f.(freqcnt.cnt) f.(freqcnt.ticks))).
Definition syspdef_CPUIFREQ : sysdef.sysdef := sysdef.mk "CPUIFREQ" sysprt_CPUIFREQ.

Definition sysprt_CPUFREQ : conversion := fun e x badness =>
  s ← sample;
  let n := i32 s.(sstat.cpu).(cpustat.nrcpu) in
  '(maxfreq, cnt, ticks) ← lift (sumscaling s);
  maxfreq ← lift (cdiv maxfreq n); cnt ← lift (cdiv cnt n); ticks ← lift (cdiv ticks n);
  buffer 15 "" 0 (Some (dofmt_cpufreq maxfreq cnt ticks)).
Definition syspdef_CPUFREQ : sysdef.sysdef := sysdef.mk "CPUFREQ" sysprt_CPUFREQ.

Definition sysprt_CPUISCALE : conversion := fun e x badness =>
  c ← cpu_at x;
  let f := c.(percpu.freqcnt) in
  buffer 15 "" 0 (dofmt_cpuscale f.(freqcnt.maxfreq) f.(freqcnt.cnt) f.(freqcnt.ticks)).
Definition syspdef_CPUISCALE : sysdef.sysdef := sysdef.mk "CPUISCALE" sysprt_CPUISCALE.

Definition sysprt_CPUSCALE : conversion := fun e x badness =>
  s ← sample;
  let n := i32 s.(sstat.cpu).(cpustat.nrcpu) in
  '(maxfreq, cnt, ticks) ← lift (sumscaling s);
  maxfreq ← lift (cdiv maxfreq n); cnt ← lift (cdiv cnt n); ticks ← lift (cdiv ticks n);
  buffer 15 "" 0 (dofmt_cpuscale maxfreq cnt ticks).
Definition syspdef_CPUSCALE : sysdef.sysdef := sysdef.mk "CPUSCALE" sysprt_CPUSCALE.

Definition sysprt_CPUSTEAL : conversion := fun e x badness =>
  s ← sample;
  float_perc "steal %5.0f%%" (s.(sstat.cpu).(cpustat.all).(percpu.steal)) x.(extraparam.percputot).
Definition syspdef_CPUSTEAL : sysdef.sysdef := sysdef.mk "CPUSTEAL" sysprt_CPUSTEAL.

Definition sysprt_CPUISTEAL : conversion := fun e x badness =>
  c ← cpu_at x;
  float_perc "steal %5.0f%%" (c.(percpu.steal)) x.(extraparam.percputot).
Definition syspdef_CPUISTEAL : sysdef.sysdef := sysdef.mk "CPUISTEAL" sysprt_CPUISTEAL.

Definition sysprt_CPUGUEST : conversion := fun e x badness =>
  s ← sample;
  float_perc "guest %5.0f%%" (s.(sstat.cpu).(cpustat.all).(percpu.guest)) x.(extraparam.percputot).
Definition syspdef_CPUGUEST : sysdef.sysdef := sysdef.mk "CPUGUEST" sysprt_CPUGUEST.

Definition sysprt_CPUIGUEST : conversion := fun e x badness =>
  c ← cpu_at x;
  float_perc "guest %5.0f%%" (c.(percpu.guest)) x.(extraparam.percputot).
Definition syspdef_CPUIGUEST : sysdef.sysdef := sysdef.mk "CPUIGUEST" sysprt_CPUIGUEST.

Definition sysprt_CPUIPC : conversion := fun e x badness =>
  s ← sample;
  let cycle := s.(sstat.cpu).(cpustat.all).(percpu.cycle) in
  if cycle =? 0 then _ ← setcolor COLORINFO; buffer 15 "" 0 (Some (chars "ipc notavail"))
  else if cycle =? 1 then _ ← setcolor COLORINFO; buffer 15 "" 0 (Some (chars "ipc  initial"))
  else
    buffer 15 "" 0 (printf "ipc %8.2f" [AFlt (ipc_value s.(sstat.cpu).(cpustat.all).(percpu.instr) cycle)]).
Definition syspdef_CPUIPC : sysdef.sysdef := sysdef.mk "CPUIPC" sysprt_CPUIPC.

Definition sysprt_CPUIIPC : conversion := fun e x badness =>
  s ← sample;
  let cycle := s.(sstat.cpu).(cpustat.all).(percpu.cycle) in
  if cycle =? 0 then _ ← setcolor COLORINFO; buffer 15 "" 0 (Some (chars "ipc notavail"))
  else if cycle =? 1 then _ ← setcolor COLORINFO; buffer 15 "" 0 (Some (chars "ipc  initial"))
  else
    c ← cpu_at x;
    let ipc := if c.(percpu.cycle) =? 0 then (0, 1) else ipc_value c.(percpu.instr) c.(percpu.cycle) in
    buffer 15 "" 0 (printf "ipc %8.2f" [AFlt ipc]).
Definition syspdef_CPUIIPC : sysdef.sysdef := sysdef.mk "CPUIIPC" sysprt_CPUIIPC.

Definition sysprt_CPUCYCLE : conversion := fun e x badness =>
  s ← sample;
  let cycle := s.(sstat.cpu).(cpustat.all).(percpu.cycle) in
  if cycle =? 0 then _ ← setcolor COLORINFO; buffer 15 "cycl " 5 (Some (chars "unknown"))
  else if cycle =? 1 then _ ← setcolor COLORINFO; buffer 15 "cycl " 5 (Some (chars "initial"))
  else
    v ← lift (v ← cdiv (Z.quot cycle 1000000) x.(extraparam.nsecs); cdiv v s.(sstat.cpu).(cpustat.nrcpu));
    buffer 15 "cycl " 5 (Some (val2Hzstr v)).
Definition syspdef_CPUCYCLE : sysdef.sysdef := sysdef.mk "CPUCYCLE" sysprt_CPUCYCLE.

Definition sysprt_CPUICYCLE : conversion := fun e x badness =>
  s ← sample;
  let cycle := s.(sstat.cpu).(cpustat.all).(percpu.cycle) in
  if cycle =? 0 then _ ← setcolor COLORINFO; buffer 15 "cycl " 5 (Some (chars "unknown"))
  else if cycle =? 1 then _ ← setcolor COLORINFO; buffer 15 "cycl " 5 (Some (chars "initial"))
  else
    c ← cpu_at x;
    v ← lift (cdiv (Z.quot c.(percpu.cycle) 1000000) x.(extraparam.nsecs));
    buffer 15 "cycl " 5 (Some (val2Hzstr v)).
Definition syspdef_CPUICYCLE : sysdef.sysdef := sysdef.mk "CPUICYCLE" sysprt_CPUICYCLE.

(** *** Load *)

Definition sysprt_CPLAVG1 : conversion := fun e x badness =>
  s ← sample;
  buffer 15 "avg1 " 5 (load_text 7 (flt_value s.(sstat.cpu).(cpustat.lavg1))).
Definition syspdef_CPLAVG1 : sysdef.sysdef := sysdef.mk "CPLAVG1" sysprt_CPLAVG1.

Definition sysprt_CPLAVG5 : conversion := fun e x badness =>
  s ← sample;
  buffer 15 "avg5 " 5 (load_text 7 (flt_value s.(sstat.cpu).(cpustat.lavg5))).
Definition syspdef_CPLAVG5 : sysdef.sysdef := sysdef.mk "CPLAVG5" sysprt_CPLAVG5.

Definition sysprt_CPLAVG15 : conversion := fun e x badness =>
  s ← sample;
  let lavg15 := flt_value s.(sstat.cpu).(cpustat.lavg15) in
  let limit := flt (i64 (2 * s.(sstat.cpu).(cpustat.nrcpu))) 1 in
  _ ← (if frac_lt limit lavg15 then setcolor COLORALMOST else mret tt);
  buffer 15 "avg15 " 6 (load_text 6 lavg15).
Definition syspdef_CPLAVG15 : sysdef.sysdef := sysdef.mk "CPLAVG15" sysprt_CPLAVG15.

Definition sysprt_CPLCSW : conversion := fun e x badness =>
  s ← sample;
  buffer 16 "csw    " 4 (val2valstr (s.(sstat.cpu).(cpustat.csw)) 8 (averaged x) x.(extraparam.nsecs)).
Definition syspdef_CPLCSW : sysdef.sysdef := sysdef.mk "CPLCSW" sysprt_CPLCSW.

Definition sysprt_PRCCLONES : conversion := fun e x badness =>
  s ← sample;
  buffer 16 "clones " 7 (val2valstr (s.(sstat.cpu).(cpustat.nprocs)) 5 (averaged x) x.(extraparam.nsecs)).
Definition syspdef_PRCCLONES : sysdef.sysdef := sysdef.mk "PRCCLONES" sysprt_PRCCLONES.

Definition sysprt_CPLNUMCPU : conversion := fun e x badness =>
  s ← sample;
  buffer 16 "numcpu " 7 (val2valstr (s.(sstat.cpu).(cpustat.nrcpu)) 5 false x.(extraparam.nsecs)).
Definition syspdef_CPLNUMCPU : sysdef.sysdef := sysdef.mk "CPLNUMCPU" sysprt_CPLNUMCPU.

Definition sysprt_CPLINTR : conversion := fun e x badness =>
  s ← sample;
  buffer 16 "intr   " 5 (val2valstr (s.(sstat.cpu).(cpustat.devint)) 7 (averaged x) x.(extraparam.nsecs)).
Definition syspdef_CPLINTR : sysdef.sysdef := sysdef.mk "CPLINTR" sysprt_CPLINTR.

(** *** Memory *)

Definition sysprt_MEMTOT : conversion := fun e x badness =>
  _ ← setcolor (-1);
  s ← sample;
  buffer 16 "tot   " 6 (Some (val2memstr (i64 (s.(sstat.mem).(memstat.physmem) * e.(sysenv.pagesize))) MBFORMAT false 0)).
Definition syspdef_MEMTOT : sysdef.sysdef := sysdef.mk "MEMTOT" sysprt_MEMTOT.

Definition sysprt_MEMFREE : conversion := fun e x badness =>
  _ ← setcolor (-1);
  s ← sample;
  buffer 16 "free  " 6 (Some (val2memstr (i64 (s.(sstat.mem).(memstat.freemem) * e.(sysenv.pagesize))) MBFORMAT false 0)).
Definition syspdef_MEMFREE : sysdef.sysdef := sysdef.mk "MEMFREE" sysprt_MEMFREE.

Definition sysprt_MEMCACHE : conversion := fun e x badness =>
  _ ← setcolor (-1);
  s ← sample;
  buffer 16 "cache " 6 (Some (val2memstr (i64 (s.(sstat.mem).(memstat.cachemem) * e.(sysenv.pagesize))) MBFORMAT false 0)).
Definition syspdef_MEMCACHE : sysdef.sysdef := sysdef.mk "MEMCACHE" sysprt_MEMCACHE.

Definition sysprt_MEMDIRTY : conversion := fun e x badness =>
  s ← sample;
  buffer 16 "dirty " 6 (Some (val2memstr (i64 (s.(sstat.mem).(memstat.cachedrt) * e.(sysenv.pagesize))) MBFORMAT false 0)).
Definition syspdef_MEMDIRTY : sysdef.sysdef := sysdef.mk "MEMDIRTY" sysprt_MEMDIRTY.

Definition sysprt_MEMBUFFER : conversion := fun e x badness =>
  _ ← setcolor (-1);
  s ← sample;
  buffer 16 "buff  " 6 (Some (val2memstr (i64 (s.(sstat.mem).(memstat.buffermem) * e.(sysenv.pagesize))) MBFORMAT false 0)).
Definition syspdef_MEMBUFFER : sysdef.sysdef := sysdef.mk "MEMBUFFER" sysprt_MEMBUFFER.

Definition sysprt_MEMSLAB : conversion := fun e x badness =>
  _ ← setcolor (-1);
  s ← sample;
  buffer 16 "slab  " 6 (Some (val2memstr (i64 (s.(sstat.mem).(memstat.slabmem) * e.(sysenv.pagesize))) MBFORMAT false 0)).
Definition syspdef_MEMSLAB : sysdef.sysdef := sysdef.mk "MEMSLAB" sysprt_MEMSLAB.

Definition sysprt_RECSLAB : conversion := fun e x badness =>
  _ ← setcolor (-1);
  s ← sample;
  buffer 16 "slrec " 6 (Some (val2memstr (i64 (s.(sstat.mem).(memstat.slabreclaim) * e.(sysenv.pagesize))) MBFORMAT false 0)).
Definition syspdef_RECSLAB : sysdef.sysdef := sysdef.mk "RECSLAB" sysprt_RECSLAB.

Definition sysprt_SHMEM : conversion := fun e x badness =>
  _ ← setcolor (-1);
  s ← sample;
  buffer 16 "shmem  " 6 (Some (val2memstr (i64 (s.(sstat.mem).(memstat.shmem) * e.(sysenv.pagesize))) MBFORMAT false 0)).
Definition syspdef_SHMEM : sysdef.sysdef := sysdef.mk "SHMEM" sysprt_SHMEM.

Definition sysprt_SHMRSS : conversion := fun e x badness =>
  _ ← setcolor (-1);
  s ← sample;
  buffer 16 "shrss  " 6 (Some (val2memstr (i64 (s.(sstat.mem).(memstat.shmrss) * e.(sysenv.pagesize))) MBFORMAT false 0)).
Definition syspdef_SHMRSS : sysdef.sysdef := sysdef.mk "SHMRSS" sysprt_SHMRSS.

Definition sysprt_SHMSWP : conversion := fun e x badness =>
  _ ← setcolor (-1);
  s ← sample;
  buffer 16 "shswp  " 6 (Some (val2memstr (i64 (s.(sstat.mem).(memstat.shmswp) * e.(sysenv.pagesize))) MBFORMAT false 0)).
Definition syspdef_SHMSWP : sysdef.sysdef := sysdef.mk "SHMSWP" sysprt_SHMSWP.

Definition sysprt_HUPTOT : conversion := fun e x badness =>
  _ ← setcolor (-1);
  s ← sample;
  buffer 16 "hptot  " 6 (Some (val2memstr (i64 (s.(sstat.mem).(memstat.tothugepage) * s.(sstat.mem).(memstat.hugepagesz))) MBFORMAT false 0)).
Definition syspdef_HUPTOT : sysdef.sysdef := sysdef.mk "HUPTOT" sysprt_HUPTOT.

Definition sysprt_HUPUSE : conversion := fun e x badness =>
  _ ← setcolor (-1);
  s ← sample;
  buffer 16 "hpuse  " 6 (Some (val2memstr (i64 (i64 (s.(sstat.mem).(memstat.tothugepage) - s.(sstat.mem).(memstat.freehugepage)) * s.(sstat.mem).(memstat.hugepagesz))) MBFORMAT false 0)).
Definition syspdef_HUPUSE : sysdef.sysdef := sysdef.mk "HUPUSE" sysprt_HUPUSE.

Definition sysprt_VMWBAL : conversion := fun e x badness =>
  _ ← setcolor (-1);
  s ← sample;
  buffer 16 "vmbal  " 6 (Some (val2memstr (i64 (s.(sstat.mem).(memstat.vmwballoon) * e.(sysenv.pagesize))) MBFORMAT false 0)).
Definition syspdef_VMWBAL : sysdef.sysdef := sysdef.mk "VMWBAL" sysprt_VMWBAL.

Definition sysprt_SWPTOT : conversion := fun e x badness =>
  _ ← setcolor (-1);
  s ← sample;
  buffer 16 "tot    " 6 (Some (val2memstr (i64 (s.(sstat.mem).(memstat.totswap) * e.(sysenv.pagesize))) MBFORMAT false 0)).
Definition syspdef_SWPTOT : sysdef.sysdef := sysdef.mk "SWPTOT" sysprt_SWPTOT.

Definition sysprt_SWPFREE : conversion := fun e x badness =>
  _ ← setcolor (-1);
  s ← sample;
  buffer 16 "free  " 6 (Some (val2memstr (i64 (s.(sstat.mem).(memstat.freeswap) * e.(sysenv.pagesize))) MBFORMAT false 0)).
Definition syspdef_SWPFREE : sysdef.sysdef := sysdef.mk "SWPFREE" sysprt_SWPFREE.

Definition sysprt_SWPCOMMITTED : conversion := fun e x badness =>
  s ← sample;
  let m := s.(sstat.mem) in
  t ← buffer 16 "vmcom  " 6 (Some (val2memstr (i64 (m.(memstat.committed) * e.(sysenv.pagesize))) MBFORMAT false 0));
  _ ← (if negb (m.(memstat.commitlim) =? 0) && (m.(memstat.commitlim) <? m.(memstat.committed))
       then setcolor COLORALMOST else mret tt);
  mret t.
Definition syspdef_SWPCOMMITTED : sysdef.sysdef := sysdef.mk "SWPCOMMITTED" sysprt_SWPCOMMITTED.

Definition sysprt_SWPCOMMITLIM : conversion := fun e x badness =>
  s ← sample;
  let m := s.(sstat.mem) in
  t ← buffer 16 "vmlim  " 6 (Some (val2memstr (i64 (m.(memstat.commitlim) * e.(sysenv.pagesize))) MBFORMAT false 0));
  _ ← (if negb (m.(memstat.commitlim) =? 0) && (m.(memstat.commitlim) <? m.(memstat.committed))
       then setcolor COLORINFO else mret tt);
  mret t.
Definition syspdef_SWPCOMMITLIM : sysdef.sysdef := sysdef.mk "SWPCOMMITLIM" sysprt_SWPCOMMITLIM.

(** *** Paging *)

Definition sysprt_PAGSCAN : conversion := fun e x badness =>
  s ← sample;
  buffer 16 "scan  " 5 (val2valstr (s.(sstat.mem).(memstat.pgscans)) 7 (averaged x) x.(extraparam.nsecs)).
Definition syspdef_PAGSCAN : sysdef.sysdef := sysdef.mk "PAGSCAN" sysprt_PAGSCAN.

Definition sysprt_PAGSTEAL : conversion := fun e x badness =>
  s ← sample;
  buffer 16 "steal  " 6 (val2valstr (s.(sstat.mem).(memstat.pgsteal)) 6 (averaged x) x.(extraparam.nsecs)).
Definition syspdef_PAGSTEAL : sysdef.sysdef := sysdef.mk "PAGSTEAL" sysprt_PAGSTEAL.

Definition sysprt_PAGSTALL : conversion := fun e x badness =>
  s ← sample;
  buffer 16 "stall  " 6 (val2valstr (s.(sstat.mem).(memstat.allocstall)) 6 (averaged x) x.(extraparam.nsecs)).
Definition syspdef_PAGSTALL : sysdef.sysdef := sysdef.mk "PAGSTALL" sysprt_PAGSTALL.

Definition sysprt_PAGSWIN : conversion := fun e x badness =>
  s ← sample;
  buffer 16 "swin   " 5 (val2valstr (s.(sstat.mem).(memstat.swins)) 7 (averaged x) x.(extraparam.nsecs)).
Definition syspdef_PAGSWIN : sysdef.sysdef := sysdef.mk "PAGSWIN" sysprt_PAGSWIN.

Definition sysprt_PAGSWOUT : conversion := fun e x badness =>
  _ ← setcolor (-1);
  s ← sample;
  buffer 16 "swout  " 6 (val2valstr (s.(sstat.mem).(memstat.swouts)) 6 (averaged x) x.(extraparam.nsecs)).
Definition syspdef_PAGSWOUT : sysdef.sysdef := sysdef.mk "PAGSWOUT" sysprt_PAGSWOUT.

(** *** Containers *)

Definition sysprt_CONTNAME : conversion := fun e x badness =>
  _ ← setcolor (-1);
  c ← cont_at x;
  buffer 32 "ctid " 5 (printf "%7lu" [AInt c.(percontainer.ctid)]).
Definition syspdef_CONTNAME : sysdef.sysdef := sysdef.mk "CONTNAME" sysprt_CONTNAME.

Definition sysprt_CONTNPROC : conversion := fun e x badness =>
  _ ← setcolor (-1);
  c ← cont_at x;
  buffer 16 "nproc  " 6 (val2valstr (c.(percontainer.numproc)) 6 (averaged x) x.(extraparam.nsecs)).
Definition syspdef_CONTNPROC : sysdef.sysdef := sysdef.mk "CONTNPROC" sysprt_CONTNPROC.

Definition sysprt_CONTCPU : conversion := fun e x badness =>
  c ← cont_at x;
  let used := c.(percontainer.system) +64 c.(percontainer.user) +64 c.(percontainer.nice) in
  _ ← setcolor (-1);
  if negb (c.(percontainer.uptime) =? 0) then
    perc ← lift (as_float <$> percentage used c.(percontainer.uptime));
    buffer 16 "" 0 (printf "cpubusy %3.0f%%" [AFlt perc])
  else buffer 16 "" 0 (printf "cpubusy   ?%%" []).
Definition syspdef_CONTCPU : sysdef.sysdef := sysdef.mk "CONTCPU" sysprt_CONTCPU.

Definition sysprt_CONTMEM : conversion := fun e x badness =>
  _ ← setcolor (-1);
  c ← cont_at x;
  buffer 16 "mem   " 6 (Some (val2memstr (i64 (c.(percontainer.physpages) * e.(sysenv.pagesize))) MBFORMAT false 0)).
Definition syspdef_CONTMEM : sysdef.sysdef := sysdef.mk "CONTMEM" sysprt_CONTMEM.

(** *** Disks *)

Definition sysprt_DSKNAME : conversion := fun e x badness =>
  _ ← setcolor (-1);
  d ← disk_at x;
  buffer 16 "" 0 (printf "%12.12s" [AStr (last_chars 12 (chars d.(perdsk.name)))]).
Definition syspdef_DSKNAME : sysdef.sysdef := sysdef.mk "DSKNAME" sysprt_DSKNAME.

Definition sysprt_DSKBUSY : conversion := fun e x badness =>
  _ ← setcolor (-1);
  d ← disk_at x;
  let perc := dbl_div (dbl_mul (dbl d.(perdsk.io_ms) 1) 100) (dbl x.(extraparam.mstot) 1) in
  if negb (perc.2 =? 0) && (0 <=? perc.1) && dbl_lt perc 1000000
  then buffer 16 "busy  " 5 (printf "%6.0lf%%" [AFlt perc])
  else buffer 16 "busy  " 5 (printf "%6.0lf%%" [AFlt (999999, 1)]).
Definition syspdef_DSKBUSY : sysdef.sysdef := sysdef.mk "DSKBUSY" sysprt_DSKBUSY.

Definition sysprt_DSKNREAD : conversion := fun e x badness =>
  _ ← setcolor (-1);
  d ← disk_at x;
  buffer 16 "read  " 5 (val2valstr (if 0 <=? d.(perdsk.nread) then d.(perdsk.nread) else 0) 7 (averaged x) x.(extraparam.nsecs)).
Definition syspdef_DSKNREAD : sysdef.sysdef := sysdef.mk "DSKNREAD" sysprt_DSKNREAD.

Definition sysprt_DSKNWRITE : conversion := fun e x badness =>
  _ ← setcolor (-1);
  d ← disk_at x;
  buffer 16 "write " 6 (val2valstr (if 0 <=? d.(perdsk.nwrite) then d.(perdsk.nwrite) else 0) 6 (averaged x) x.(extraparam.nsecs)).
Definition syspdef_DSKNWRITE : sysdef.sysdef := sysdef.mk "DSKNWRITE" sysprt_DSKNWRITE.

Definition sysprt_DSKKBPERWR : conversion := fun e x badness =>
  d ← disk_at x;
  buffer 16 "KiB/w " 6 (val2valstr (if 0 <? d.(perdsk.nwrite) then Z.quot (Z.quot d.(perdsk.nwsect) d.(perdsk.nwrite)) 2 else 0) 6 false x.(extraparam.nsecs)).
Definition syspdef_DSKKBPERWR : sysdef.sysdef := sysdef.mk "DSKKBPERWR" sysprt_DSKKBPERWR.

Definition sysprt_DSKKBPERRD : conversion := fun e x badness =>
  d ← disk_at x;
  buffer 16 "KiB/r " 6 (val2valstr (if 0 <? d.(perdsk.nread) then Z.quot (Z.quot d.(perdsk.nrsect) d.(perdsk.nread)) 2 else 0) 6 false x.(extraparam.nsecs)).
Definition syspdef_DSKKBPERRD : sysdef.sysdef := sysdef.mk "DSKKBPERRD" sysprt_DSKKBPERRD.

Definition sysprt_DSKMBPERSECWR : conversion := fun e x badness =>
  d ← disk_at x;
  rate ← lift (finite (dbl_div (dbl_over (dbl_over (dbl d.(perdsk.nwsect) 1) 2) 1024) (dbl x.(extraparam.nsecs) 1)));
  buffer 16 "MBw/s " 6 (snprintf 10 (printf "%6.1lf" [AFlt rate])).
Definition syspdef_DSKMBPERSECWR : sysdef.sysdef := sysdef.mk "DSKMBPERSECWR" sysprt_DSKMBPERSECWR.

Definition sysprt_DSKMBPERSECRD : conversion := fun e x badness =>
  d ← disk_at x;
  rate ← lift (finite (dbl_div (dbl_over (dbl_over (dbl d.(perdsk.nrsect) 1) 2) 1024) (dbl x.(extraparam.nsecs) 1)));
  buffer 16 "MBr/s " 6 (snprintf 10 (printf "%6.1lf" [AFlt rate])).
Definition syspdef_DSKMBPERSECRD : sysdef.sysdef := sysdef.mk "DSKMBPERSECRD" sysprt_DSKMBPERSECRD.

Definition sysprt_DSKAVQUEUE : conversion := fun e x badness =>
  d ← disk_at x;
  let avq := if 0 <? d.(perdsk.io_ms) then dbl_div (dbl d.(perdsk.avque) 1) (dbl d.(perdsk.io_ms) 1) else (0, 1) in
  buffer 16 "avq  " 4 (printf "%8.2f" [AFlt avq]).
Definition syspdef_DSKAVQUEUE : sysdef.sysdef := sysdef.mk "DSKAVQUEUE" sysprt_DSKAVQUEUE.

Definition sysprt_DSKAVIO : conversion := fun e x badness =>
  d ← disk_at x;
  let tim := if 0 <? x.(extraparam.iotot)
             then dbl_div (dbl d.(perdsk.io_ms) 1) (dbl x.(extraparam.iotot) 1) else (0, 1) in
  _ ← setcolor (-1);
  if frac_lt (100, 1) tim then buffer 16 "avio  " 5 (printf "%4.0lf ms" [AFlt tim])
  else if frac_lt (10, 1) tim then buffer 16 "avio  " 5 (printf "%4.1lf ms" [AFlt tim])
  else buffer 16 "avio  " 5 (printf "%4.2lf ms" [AFlt tim]).
Definition syspdef_DSKAVIO : sysdef.sysdef := sysdef.mk "DSKAVIO" sysprt_DSKAVIO.

(** *** Network *)

Definition sysprt_NETTRANSPORT : conversion := fun e x badness =>
  mret (chars "transport   ").
Definition syspdef_NETTRANSPORT : sysdef.sysdef := sysdef.mk "NETTRANSPORT" sysprt_NETTRANSPORT.

Definition sysprt_NETTCPI : conversion := fun e x badness =>
  s ← sample;
  buffer 16 "tcpi   " 5 (val2valstr (s.(sstat.net).(netstat.tcp).(tcp_stats.InSegs)) 7 (averaged x) x.(extraparam.nsecs)).
Definition syspdef_NETTCPI : sysdef.sysdef := sysdef.mk "NETTCPI" sysprt_NETTCPI.

Definition sysprt_NETTCPO : conversion := fun e x badness =>
  s ← sample;
  buffer 16 "tcpo   " 5 (val2valstr (s.(sstat.net).(netstat.tcp).(tcp_stats.OutSegs)) 7 (averaged x) x.(extraparam.nsecs)).
Definition syspdef_NETTCPO : sysdef.sysdef := sysdef.mk "NETTCPO" sysprt_NETTCPO.

Definition sysprt_NETTCPACTOPEN : conversion := fun e x badness =>
  s ← sample;
  buffer 16 "tcpao  " 6 (val2valstr (s.(sstat.net).(netstat.tcp).(tcp_stats.ActiveOpens)) 6 (averaged x) x.(extraparam.nsecs)).
Definition syspdef_NETTCPACTOPEN : sysdef.sysdef := sysdef.mk "NETTCPACTOPEN" sysprt_NETTCPACTOPEN.

Definition sysprt_NETTCPPASVOPEN : conversion := fun e x badness =>
  s ← sample;
  buffer 16 "tcppo  " 6 (val2valstr (s.(sstat.net).(netstat.tcp).(tcp_stats.PassiveOpens)) 6 (averaged x) x.(extraparam.nsecs)).
Definition syspdef_NETTCPPASVOPEN : sysdef.sysdef := sysdef.mk "NETTCPPASVOPEN" sysprt_NETTCPPASVOPEN.

Definition sysprt_NETTCPRETRANS : conversion := fun e x badness =>
  s ← sample;
  buffer 16 "tcprs  " 6 (val2valstr (s.(sstat.net).(netstat.tcp).(tcp_stats.RetransSegs)) 6 (averaged x) x.(extraparam.nsecs)).
Definition syspdef_NETTCPRETRANS : sysdef.sysdef := sysdef.mk "NETTCPRETRANS" sysprt_NETTCPRETRANS.

Definition sysprt_NETTCPINERR : conversion := fun e x badness =>
  s ← sample;
  buffer 16 "tcpie  " 6 (val2valstr (s.(sstat.net).(netstat.tcp).(tcp_stats.InErrs)) 6 (averaged x) x.(extraparam.nsecs)).
Definition syspdef_NETTCPINERR : sysdef.sysdef := sysdef.mk "NETTCPINERR" sysprt_NETTCPINERR.

Definition sysprt_NETTCPORESET : conversion := fun e x badness =>
  s ← sample;
  buffer 16 "tcpor  " 6 (val2valstr (s.(sstat.net).(netstat.tcp).(tcp_stats.OutRsts)) 6 (averaged x) x.(extraparam.nsecs)).
Definition syspdef_NETTCPORESET : sysdef.sysdef := sysdef.mk "NETTCPORESET" sysprt_NETTCPORESET.

Definition sysprt_NETUDPNOPORT : conversion := fun e x badness =>
  s ← sample;
  buffer 16 "udpnp  " 6 (val2valstr (s.(sstat.net).(netstat.udpv4).(udpv4_stats.NoPorts)) 6 (averaged x) x.(extraparam.nsecs)).
Definition syspdef_NETUDPNOPORT : sysdef.sysdef := sysdef.mk "NETUDPNOPORT" sysprt_NETUDPNOPORT.

Definition sysprt_NETUDPINERR : conversion := fun e x badness =>
  s ← sample;
  buffer 16 "udpie  " 6 (val2valstr (s.(sstat.net).(netstat.udpv4).(udpv4_stats.InErrors)) 6 (averaged x) x.(extraparam.nsecs)).
Definition syspdef_NETUDPINERR : sysdef.sysdef := sysdef.mk "NETUDPINERR" sysprt_NETUDPINERR.

Definition sysprt_NETUDPI : conversion := fun e x badness =>
  s ← sample;
  buffer 16 "udpi   " 5 (val2valstr (i64 (s.(sstat.net).(netstat.udpv4).(udpv4_stats.InDatagrams) + s.(sstat.net).(netstat.udpv6).(udpv6_stats.Udp6InDatagrams))) 7 (averaged x) x.(extraparam.nsecs)).
Definition syspdef_NETUDPI : sysdef.sysdef := sysdef.mk "NETUDPI" sysprt_NETUDPI.

Definition sysprt_NETUDPO : conversion := fun e x badness =>
  s ← sample;
  buffer 16 "udpo   " 5 (val2valstr (i64 (s.(sstat.net).(netstat.udpv4).(udpv4_stats.OutDatagrams) + s.(sstat.net).(netstat.udpv6).(udpv6_stats.Udp6OutDatagrams))) 7 (averaged x) x.(extraparam.nsecs)).
Definition syspdef_NETUDPO : sysdef.sysdef := sysdef.mk "NETUDPO" sysprt_NETUDPO.

Definition sysprt_NETNETWORK : conversion := fun e x badness =>
  mret (chars "network     ").
Definition syspdef_NETNETWORK : sysdef.sysdef := sysdef.mk "NETNETWORK" sysprt_NETNETWORK.

Definition sysprt_NETIPI : conversion := fun e x badness =>
  s ← sample;
  buffer 16 "ipi    " 4 (val2valstr (i64 (s.(sstat.net).(netstat.ipv4).(ipv4_stats.InReceives) + s.(sstat.net).(netstat.ipv6).(ipv6_stats.Ip6InReceives))) 8 (averaged x) x.(extraparam.nsecs)).
Definition syspdef_NETIPI : sysdef.sysdef := sysdef.mk "NETIPI" sysprt_NETIPI.

Definition sysprt_NETIPO : conversion := fun e x badness =>
  s ← sample;
  buffer 16 "ipo    " 4 (val2valstr (i64 (s.(sstat.net).(netstat.ipv4).(ipv4_stats.OutRequests) + s.(sstat.net).(netstat.ipv6).(ipv6_stats.Ip6OutRequests))) 8 (averaged x) x.(extraparam.nsecs)).
Definition syspdef_NETIPO : sysdef.sysdef := sysdef.mk "NETIPO" sysprt_NETIPO.

Definition sysprt_NETIPFRW : conversion := fun e x badness =>
  s ← sample;
  buffer 16 "ipfrw  " 6 (val2valstr (i64 (s.(sstat.net).(netstat.ipv4).(ipv4_stats.ForwDatagrams) + s.(sstat.net).(netstat.ipv6).(ipv6_stats.Ip6OutForwDatagrams))) 6 (averaged x) x.(extraparam.nsecs)).
Definition syspdef_NETIPFRW : sysdef.sysdef := sysdef.mk "NETIPFRW" sysprt_NETIPFRW.

Definition sysprt_NETIPDELIV : conversion := fun e x badness =>
  s ← sample;
  buffer 16 "deliv  " 6 (val2valstr (i64 (s.(sstat.net).(netstat.ipv4).(ipv4_stats.InDelivers) + s.(sstat.net).(netstat.ipv6).(ipv6_stats.Ip6InDelivers))) 6 (averaged x) x.(extraparam.nsecs)).
Definition syspdef_NETIPDELIV : sysdef.sysdef := sysdef.mk "NETIPDELIV" sysprt_NETIPDELIV.

Definition sysprt_NETICMPIN : conversion := fun e x badness =>
  s ← sample;
  buffer 16 "icmpi  " 6 (val2valstr (i64 (s.(sstat.net).(netstat.icmpv4).(icmpv4_stats.InMsgs) + s.(sstat.net).(netstat.icmpv6).(icmpv6_stats.Icmp6InMsgs))) 6 (averaged x) x.(extraparam.nsecs)).
Definition syspdef_NETICMPIN : sysdef.sysdef := sysdef.mk "NETICMPIN" sysprt_NETICMPIN.

Definition sysprt_NETICMPOUT : conversion := fun e x badness =>
  s ← sample;
  buffer 16 "icmpo  " 6 (val2valstr (i64 (s.(sstat.net).(netstat.icmpv4).(icmpv4_stats.OutMsgs) + s.(sstat.net).(netstat.icmpv6).(icmpv6_stats.Icmp6OutMsgs))) 6 (averaged x) x.(extraparam.nsecs)).
Definition syspdef_NETICMPOUT : sysdef.sysdef := sysdef.mk "NETICMPOUT" sysprt_NETICMPOUT.

Definition sysprt_NETNAME : conversion := fun e x badness =>
  i ← intf_at x;
  ival ← lift (bandwidth i.(perintf.rbyte) x.(extraparam.nsecs));
  oval ← lift (bandwidth i.(perintf.sbyte) x.(extraparam.nsecs));
  _ ← setcolor (-1);
  let name := AStr (chars i.(perintf.name)) in
  if negb (i.(perintf.speed) =? 0) then
    busy ← lift (intf_busy i ival oval);
    '(i, busy) ← (if (100 <? busy) && (i.(perintf.speed) <? i.(perintf.speedp)) then
                    let i := set_perintf_speed i.(perintf.speedp) i in
                    _ ← set_intf_at x i;
                    busy ← lift (intf_busy i ival oval); mret (i, busy)
                  else mret (i, busy));
    buffer 16 "" 0 (snprintf 15 (printf "%-7.7s %3lld%%" [name; AInt busy]))
  else buffer 16 "" 0 ((fun t => take 8 t ++ chars "----") <$> snprintf 15 (printf "%-7.7s ----" [name])).
Definition syspdef_NETNAME : sysdef.sysdef := sysdef.mk "NETNAME" sysprt_NETNAME.

Definition sysprt_NETPCKI : conversion := fun e x badness =>
  _ ← setcolor (-1);
  i ← intf_at x;
  buffer 16 "pcki  " 5 (val2valstr (i.(perintf.rpack)) 7 (averaged x) x.(extraparam.nsecs)).
Definition syspdef_NETPCKI : sysdef.sysdef := sysdef.mk "NETPCKI" sysprt_NETPCKI.

Definition sysprt_NETPCKO : conversion := fun e x badness =>
  _ ← setcolor (-1);
  i ← intf_at x;
  buffer 16 "pcko  " 5 (val2valstr (i.(perintf.spack)) 7 (averaged x) x.(extraparam.nsecs)).
Definition syspdef_NETPCKO : sysdef.sysdef := sysdef.mk "NETPCKO" sysprt_NETPCKO.

Definition sysprt_NETSPEEDMAX : conversion := fun e x badness =>
  i ← intf_at x;
  _ ← setcolor (-1);
  let speed := i.(perintf.speed) in
  if speed <? 10000 then buffer 16 "" 0 (snprintf 16 (printf "sp %4lld Mbps" [AInt speed]))
  else buffer 16 "" 0 (snprintf 16 (printf "sp %4lld Gbps" [AInt (Z.quot speed 1000)])).
Definition syspdef_NETSPEEDMAX : sysdef.sysdef := sysdef.mk "NETSPEEDMAX" sysprt_NETSPEEDMAX.

Definition sysprt_NETSPEEDIN : conversion := fun e x badness =>
  _ ← setcolor (-1);
  i ← intf_at x;
  ps ← makenetspeed i.(perintf.rbyte) x.(extraparam.nsecs);
  mret (chars "si" ++ drop 2 ps).
Definition syspdef_NETSPEEDIN : sysdef.sysdef := sysdef.mk "NETSPEEDIN" sysprt_NETSPEEDIN.

Definition sysprt_NETSPEEDOUT : conversion := fun e x badness =>
  _ ← setcolor (-1);
  i ← intf_at x;
  ps ← makenetspeed i.(perintf.sbyte) x.(extraparam.nsecs);
  mret (chars "so" ++ drop 2 ps).
Definition syspdef_NETSPEEDOUT : sysdef.sysdef := sysdef.mk "NETSPEEDOUT" sysprt_NETSPEEDOUT.

Definition sysprt_NETCOLLIS : conversion := fun e x badness =>
  i ← intf_at x;
  buffer 16 "coll  " 5 (val2valstr (i.(perintf.scollis)) 7 (averaged x) x.(extraparam.nsecs)).
Definition syspdef_NETCOLLIS : sysdef.sysdef := sysdef.mk "NETCOLLIS" sysprt_NETCOLLIS.

Definition sysprt_NETMULTICASTIN : conversion := fun e x badness =>
  i ← intf_at x;
  buffer 16 "mlti " 5 (val2valstr (i.(perintf.rmultic)) 7 (averaged x) x.(extraparam.nsecs)).
Definition syspdef_NETMULTICASTIN : sysdef.sysdef := sysdef.mk "NETMULTICASTIN" sysprt_NETMULTICASTIN.

Definition sysprt_NETRCVERR : conversion := fun e x badness =>
  i ← intf_at x;
  buffer 16 "erri   " 5 (val2valstr (i.(perintf.rerrs)) 7 (averaged x) x.(extraparam.nsecs)).
Definition syspdef_NETRCVERR : sysdef.sysdef := sysdef.mk "NETRCVERR" sysprt_NETRCVERR.

Definition sysprt_NETSNDERR : conversion := fun e x badness =>
  i ← intf_at x;
  buffer 16 "erro   " 5 (val2valstr (i.(perintf.serrs)) 7 (averaged x) x.(extraparam.nsecs)).
Definition syspdef_NETSNDERR : sysdef.sysdef := sysdef.mk "NETSNDERR" sysprt_NETSNDERR.

Definition sysprt_NETRCVDROP : conversion := fun e x badness =>
  i ← intf_at x;
  buffer 16 "drpi   " 5 (val2valstr (i.(perintf.rdrop)) 7 (averaged x) x.(extraparam.nsecs)).
Definition syspdef_NETRCVDROP : sysdef.sysdef := sysdef.mk "NETRCVDROP" sysprt_NETRCVDROP.

Definition sysprt_NETSNDDROP : conversion := fun e x badness =>
  i ← intf_at x;
  buffer 16 "drpo   " 5 (val2valstr (i.(perintf.sdrop)) 7 (averaged x) x.(extraparam.nsecs)).
Definition syspdef_NETSNDDROP : sysdef.sysdef := sysdef.mk "NETSNDDROP" sysprt_NETSNDDROP.

(** *** NFS *)

Definition sysprt_NFMSERVER : conversion := fun e x badness =>
  m ← mount_at x;
  let mntdev := match before_colon (chars m.(pernfsmount.mountdev)) with Some l => l | None => chars "?" end in
  buffer 16 "srv " 4 (printf "%8.8s" [AStr mntdev]).
Definition syspdef_NFMSERVER : sysdef.sysdef := sysdef.mk "NFMSERVER" sysprt_NFMSERVER.

Definition sysprt_NFMPATH : conversion := fun e x badness =>
  m ← mount_at x;
  let mntdev := chars m.(pernfsmount.mountdev) in
  let ps := match after_colon mntdev with Some l => l | None => mntdev end in
  buffer 16 "" 0 (printf "%12.12s" [AStr (last_chars 12 ps)]).
Definition syspdef_NFMPATH : sysdef.sysdef := sysdef.mk "NFMPATH" sysprt_NFMPATH.

Definition sysprt_NFMTOTREAD : conversion := fun e x badness =>
  m ← mount_at x;
  buffer 16 "read   " 6 (Some (val2memstr (m.(pernfsmount.bytestotread)) KBFORMAT (averaged x) x.(extraparam.nsecs))).
Definition syspdef_NFMTOTREAD : sysdef.sysdef := sysdef.mk "NFMTOTREAD" sysprt_NFMTOTREAD.

Definition sysprt_NFMTOTWRITE : conversion := fun e x badness =>
  m ← mount_at x;
  buffer 16 "write   " 6 (Some (val2memstr (m.(pernfsmount.bytestotwrite)) KBFORMAT (averaged x) x.(extraparam.nsecs))).
Definition syspdef_NFMTOTWRITE : sysdef.sysdef := sysdef.mk "NFMTOTWRITE" sysprt_NFMTOTWRITE.

Definition sysprt_NFMNREAD : conversion := fun e x badness =>
  m ← mount_at x;
  buffer 16 "nread    " 6 (Some (val2memstr (m.(pernfsmount.bytesread)) KBFORMAT (averaged x) x.(extraparam.nsecs))).
Definition syspdef_NFMNREAD : sysdef.sysdef := sysdef.mk "NFMNREAD" sysprt_NFMNREAD.

Definition sysprt_NFMNWRITE : conversion := fun e x badness =>
  m ← mount_at x;
  buffer 16 "nwrit    " 6 (Some (val2memstr (m.(pernfsmount.byteswrite)) KBFORMAT (averaged x) x.(extraparam.nsecs))).
Definition syspdef_NFMNWRITE : sysdef.sysdef := sysdef.mk "NFMNWRITE" sysprt_NFMNWRITE.

Definition sysprt_NFMDREAD : conversion := fun e x badness =>
  m ← mount_at x;
  buffer 16 "dread    " 6 (Some (val2memstr (m.(pernfsmount.bytesdread)) KBFORMAT (averaged x) x.(extraparam.nsecs))).
Definition syspdef_NFMDREAD : sysdef.sysdef := sysdef.mk "NFMDREAD" sysprt_NFMDREAD.

Definition sysprt_NFMDWRITE : conversion := fun e x badness =>
  m ← mount_at x;
  buffer 16 "dwrit    " 6 (Some (val2memstr (m.(pernfsmount.bytesdwrite)) KBFORMAT (averaged x) x.(extraparam.nsecs))).
Definition syspdef_NFMDWRITE : sysdef.sysdef := sysdef.mk "NFMDWRITE" sysprt_NFMDWRITE.

Definition sysprt_NFMMREAD : conversion := fun e x badness =>
  m ← mount_at x;
  buffer 16 "mread    " 6 (Some (val2memstr (i64 (m.(pernfsmount.pagesmread) * e.(sysenv.pagesize))) KBFORMAT (averaged x) x.(extraparam.nsecs))).
Definition syspdef_NFMMREAD : sysdef.sysdef := sysdef.mk "NFMMREAD" sysprt_NFMMREAD.

Definition sysprt_NFMMWRITE : conversion := fun e x badness =>
  m ← mount_at x;
  buffer 16 "mwrit    " 6 (Some (val2memstr (i64 (m.(pernfsmount.pagesmwrite) * e.(sysenv.pagesize))) KBFORMAT (averaged x) x.(extraparam.nsecs))).
Definition syspdef_NFMMWRITE : sysdef.sysdef := sysdef.mk "NFMMWRITE" sysprt_NFMMWRITE.

Definition sysprt_NFCRPCCNT : conversion := fun e x badness =>
  s ← sample;
  buffer 16 "rpc   " 4 (val2valstr (s.(sstat.nfs).(nfsstat.client).(nfsclient.rpccnt)) 8 (averaged x) x.(extraparam.nsecs)).
Definition syspdef_NFCRPCCNT : sysdef.sysdef := sysdef.mk "NFCRPCCNT" sysprt_NFCRPCCNT.

Definition sysprt_NFCRPCREAD : conversion := fun e x badness =>
  s ← sample;
  buffer 16 "read   " 5 (val2valstr (s.(sstat.nfs).(nfsstat.client).(nfsclient.rpcread)) 7 (averaged x) x.(extraparam.nsecs)).
Definition syspdef_NFCRPCREAD : sysdef.sysdef := sysdef.mk "NFCRPCREAD" sysprt_NFCRPCREAD.

Definition sysprt_NFCRPCWRITE : conversion := fun e x badness =>
  s ← sample;
  buffer 16 "write   " 6 (val2valstr (s.(sstat.nfs).(nfsstat.client).(nfsclient.rpcwrite)) 6 (averaged x) x.(extraparam.nsecs)).
Definition syspdef_NFCRPCWRITE : sysdef.sysdef := sysdef.mk "NFCRPCWRITE" sysprt_NFCRPCWRITE.

Definition sysprt_NFCRPCRET : conversion := fun e x badness =>
  s ← sample;
  buffer 16 "retxmit " 8 (val2valstr (s.(sstat.nfs).(nfsstat.client).(nfsclient.rpcretrans)) 4 (averaged x) x.(extraparam.nsecs)).
Definition syspdef_NFCRPCRET : sysdef.sysdef := sysdef.mk "NFCRPCRET" sysprt_NFCRPCRET.

Definition sysprt_NFCRPCARF : conversion := fun e x badness =>
  s ← sample;
  buffer 16 "autref  " 7 (val2valstr (s.(sstat.nfs).(nfsstat.client).(nfsclient.rpcautrefresh)) 5 (averaged x) x.(extraparam.nsecs)).
Definition syspdef_NFCRPCARF : sysdef.sysdef := sysdef.mk "NFCRPCARF" sysprt_NFCRPCARF.

Definition sysprt_NFSRPCCNT : conversion := fun e x badness =>
  s ← sample;
  buffer 16 "rpc   " 4 (val2valstr (s.(sstat.nfs).(nfsstat.server).(nfsserver.rpccnt)) 8 (averaged x) x.(extraparam.nsecs)).
Definition syspdef_NFSRPCCNT : sysdef.sysdef := sysdef.mk "NFSRPCCNT" sysprt_NFSRPCCNT.

Definition sysprt_NFSRPCREAD : conversion := fun e x badness =>
  s ← sample;
  buffer 16 "cread   " 6 (val2valstr (s.(sstat.nfs).(nfsstat.server).(nfsserver.rpcread)) 6 (averaged x) x.(extraparam.nsecs)).
Definition syspdef_NFSRPCREAD : sysdef.sysdef := sysdef.mk "NFSRPCREAD" sysprt_NFSRPCREAD.

Definition sysprt_NFSRPCWRITE : conversion := fun e x badness =>
  s ← sample;
  buffer 16 "cwrit   " 6 (val2valstr (s.(sstat.nfs).(nfsstat.server).(nfsserver.rpcwrite)) 6 (averaged x) x.(extraparam.nsecs)).
Definition syspdef_NFSRPCWRITE : sysdef.sysdef := sysdef.mk "NFSRPCWRITE" sysprt_NFSRPCWRITE.

Definition sysprt_NFSBADFMT : conversion := fun e x badness =>
  s ← sample;
  buffer 16 "badfmt   " 7 (val2valstr (s.(sstat.nfs).(nfsstat.server).(nfsserver.rpcbadfmt)) 5 (averaged x) x.(extraparam.nsecs)).
Definition syspdef_NFSBADFMT : sysdef.sysdef := sysdef.mk "NFSBADFMT" sysprt_NFSBADFMT.

Definition sysprt_NFSBADAUT : conversion := fun e x badness =>
  s ← sample;
  buffer 16 "badaut   " 7 (val2valstr (s.(sstat.nfs).(nfsstat.server).(nfsserver.rpcbadaut)) 5 (averaged x) x.(extraparam.nsecs)).
Definition syspdef_NFSBADAUT : sysdef.sysdef := sysdef.mk "NFSBADAUT" sysprt_NFSBADAUT.

Definition sysprt_NFSBADCLN : conversion := fun e x badness =>
  s ← sample;
  buffer 16 "badcln   " 7 (val2valstr (s.(sstat.nfs).(nfsstat.server).(nfsserver.rpcbadcln)) 5 (averaged x) x.(extraparam.nsecs)).
Definition syspdef_NFSBADCLN : sysdef.sysdef := sysdef.mk "NFSBADCLN" sysprt_NFSBADCLN.

Definition sysprt_NFSNETTCP : conversion := fun e x badness =>
  s ← sample;
  buffer 16 "nettcp   " 7 (val2valstr (s.(sstat.nfs).(nfsstat.server).(nfsserver.nettcpcnt)) 5 (averaged x) x.(extraparam.nsecs)).
Definition syspdef_NFSNETTCP : sysdef.sysdef := sysdef.mk "NFSNETTCP" sysprt_NFSNETTCP.

Definition sysprt_NFSNETUDP : conversion := fun e x badness =>
  s ← sample;
  buffer 16 "netudp   " 7 (val2valstr (s.(sstat.nfs).(nfsstat.server).(nfsserver.netudpcnt)) 5 (averaged x) x.(extraparam.nsecs)).
Definition syspdef_NFSNETUDP : sysdef.sysdef := sysdef.mk "NFSNETUDP" sysprt_NFSNETUDP.

Definition sysprt_NFSNRBYTES : conversion := fun e x badness =>
  s ← sample;
  let v := s.(sstat.nfs).(nfsstat.server).(nfsserver.nrbytes) in
  rate ← lift (finite (dbl_div (dbl_over (dbl_over (dbl v 1) 1024) 1024) (dbl x.(extraparam.nsecs) 1)));
  buffer 32 "MBcr/s " 7 (printf "%5.1lf" [AFlt rate]).
Definition syspdef_NFSNRBYTES : sysdef.sysdef := sysdef.mk "NFSNRBYTES" sysprt_NFSNRBYTES.

Definition sysprt_NFSNWBYTES : conversion := fun e x badness =>
  s ← sample;
  let v := s.(sstat.nfs).(nfsstat.server).(nfsserver.nwbytes) in
  rate ← lift (finite (dbl_div (dbl_over (dbl_over (dbl v 1) 1024) 1024) (dbl x.(extraparam.nsecs) 1)));
  buffer 32 "MBcw/s " 7 (printf "%5.1lf" [AFlt rate]).
Definition syspdef_NFSNWBYTES : sysdef.sysdef := sysdef.mk "NFSNWBYTES" sysprt_NFSNWBYTES.

Definition sysprt_NFSRCHITS : conversion := fun e x badness =>
  s ← sample;
  buffer 16 "rchits   " 8 (val2valstr (s.(sstat.nfs).(nfsstat.server).(nfsserver.rchits)) 4 (averaged x) x.(extraparam.nsecs)).
Definition syspdef_NFSRCHITS : sysdef.sysdef := sysdef.mk "NFSRCHITS" sysprt_NFSRCHITS.

Definition sysprt_NFSRCMISS : conversion := fun e x badness =>
  s ← sample;
  buffer 16 "rcmiss   " 8 (val2valstr (s.(sstat.nfs).(nfsstat.server).(nfsserver.rcmiss)) 4 (averaged x) x.(extraparam.nsecs)).
Definition syspdef_NFSRCMISS : sysdef.sysdef := sysdef.mk "NFSRCMISS" sysprt_NFSRCMISS.

Definition sysprt_NFSRCNOCA : conversion := fun e x badness =>
  s ← sample;
  buffer 16 "rcnoca   " 8 (val2valstr (s.(sstat.nfs).(nfsstat.server).(nfsserver.rcnoca)) 4 (averaged x) x.(extraparam.nsecs)).
Definition syspdef_NFSRCNOCA : sysdef.sysdef := sysdef.mk "NFSRCNOCA" sysprt_NFSRCNOCA.

Definition sysprt_BLANKBOX : conversion := fun e x badness =>
  mret (chars "            ").
Definition syspdef_BLANKBOX : sysdef.sysdef := sysdef.mk "BLANKBOX" sysprt_BLANKBOX.

(** ** A line *)

Definition dbl_plus (x y : Z * Z) : Z * Z := dbl (x.1 * y.2 + y.1 * x.2) (x.2 * y.2).
Definition dbl_less (x : Z * Z) : Z * Z := dbl (x.1 - x.2) x.2.

(** [while (charslackused > 0.5)]: a blank per turn. *)
Fixpoint blank_loop (fuel : nat) (used : Z * Z) : option (text * (Z * Z)) :=
  match fuel with
  | O => None
  | S f =>
      if frac_lt (1, 2) used then '(t, used) ← blank_loop f (dbl_less used); Some (" "%char :: t, used)
      else Some ([], used)
  end.

(** One turn takes 1 of the slack. *)
Definition slack_fuel (used : Z * Z) : nat := Z.to_nat (used.1 / used.2 + 2).

Definition addblanks (charslackused charslackover : Z * Z) : option (text * (Z * Z)) :=
  let used := dbl_plus charslackused charslackover in blank_loop (slack_fuel used) used.

Definition MAXELEMS : nat := 40.

(** [while (nitems > avail)]; without an item below 999999 the move starts in
    front of the array. *)
Fixpoint fit_items (fuel : nat) (avail : Z) (elems : list printpair.printpair) : option (list printpair.printpair) :=
  if avail <? Z.of_nat (length elems) then
    match fuel with
    | O => None
    | S f => i ← lowestprio_index elems; fit_items f avail (delete i elems)
    end
  else Some elems.

(** The blank boxes after an item. *)
Fixpoint box_loop (fuel : nat) (itemslackused charslackused charslackover : Z * Z) :
  option (text * (Z * Z) * (Z * Z)) :=
  match fuel with
  | O => None
  | S f =>
      if frac_lt (1, 2) itemslackused then
        '(b1, charslackused) ← addblanks charslackused charslackover;
        '(b2, charslackused) ← addblanks charslackused charslackover;
        '(t, itemslackused, charslackused) ← box_loop f (dbl_less itemslackused) charslackused charslackover;
        Some (b1 ++ chars " | " ++ chars "            " ++ b2 ++ t, itemslackused, charslackused)
      else Some ([], itemslackused, charslackused)
  end.

Fixpoint print_items (e : sysenv.sysenv) (defs : list sysdef.sysdef) (x : extraparam.extraparam) (badness : Z)
    (slackitemsover charslackover : Z * Z) (elems : list printpair.printpair)
    (itemslackused charslackused : Z * Z) : M text :=
  match elems with
  | [] => mret []
  | el :: elems =>
      curelem ← lift (defs !! el.(printpair.f));
      '(b1, charslackused) ← lift (addblanks charslackused charslackover);
      _ ← setcolor 0;
      itemp ← curelem.(sysdef.doconvert) e x badness;
      let itemslackused := dbl_plus itemslackused slackitemsover in
      '(boxes, itemslackused, charslackused) ←
        lift (box_loop (slack_fuel itemslackused) itemslackused charslackused charslackover);
      '(b2, charslackused) ← lift (addblanks charslackused charslackover);
      rest ← print_items e defs x badness slackitemsover charslackover elems itemslackused charslackused;
      mret (chars " | " ++ b1 ++ itemp ++ boxes ++ b2 ++ rest)
  end.

(** How many items fit, and the slack per item and per place for blanks. *)
Definition avail_of (linelen : Z) : Z := Z.quot (linelen - 5) 15.
Definition slack_items (avail nitems : Z) : Z * Z :=
  if 1 <? nitems then dbl_div (dbl (avail - nitems) 1) (dbl nitems 1) else dbl (Z.quot (avail - nitems) 2) 1.
Definition slack_chars (linelen avail : Z) : Z * Z :=
  dbl_div (dbl (Z.rem (linelen - 5) 15) 1) (dbl (avail * 2) 1).

(** [elemptr] refers to the table [defs]; the result is what is printed. *)
Definition showsysline (e : sysenv.sysenv) (defs : list sysdef.sysdef) (elemptr : list printpair.printpair)
    (x : extraparam.extraparam) (labeltext : string) (badness : Z) : M text :=
  let avail := avail_of e.(sysenv.linelen) in
  let elems := take (MAXELEMS - 1) elemptr in
  elems ← lift (fit_items (length elems) avail elems);
  line ← print_items e defs x badness (slack_items avail (Z.of_nat (length elems)))
           (slack_chars e.(sysenv.linelen) avail) elems (0, 1) (0, 1);
  mret (chars labeltext ++ line ++ chars " |" ++ [newline]).
