(* ===== verification/SyslineFacts.v ===== *)
(** * The width of a system line

    The slack of a line is kept in doubles; the errors of their rounding stay
    far below a half, so the blanks and the blank boxes add up to the width. *)
From Stdlib Require Import Ascii QArith Lqa.
From S2P Require Import Prelude Format VariousFacts Various Showprocs Showline ShowlineFacts Prihead Photoproc Sscanf Sstat Showsys.

(** ** Fractions as rational numbers *)

Definition val (x : Z * Z) : Q := inject_Z x.1 / inject_Z x.2.
Definition frac (x : Z * Z) : Prop := 0 < x.2.

#[local] Open Scope Z_scope.

Lemma inject_pos z : 0 < z -> (0 < inject_Z z)%Q.
Proof. intros H. unfold Qlt. cbn. lia. Qed.

Lemma pos_neq z : 0 < z -> ~ (inject_Z z == 0)%Q.
Proof. intros H E. unfold Qeq in E. cbn in E. lia. Qed.

Lemma val_scale x : frac x -> (inject_Z x.1 == val x * inject_Z x.2)%Q.
Proof. intros H. unfold val. field. by apply pos_neq. Qed.

Lemma frac_lt_val x y : frac x -> frac y -> frac_lt x y = true <-> (val x < val y)%Q.
Proof.
  intros Hx Hy. unfold frac_lt. rewrite Z.ltb_lt. unfold frac in *.
  pose proof (inject_pos _ Hx) as Px. pose proof (inject_pos _ Hy) as Py.
  pose proof (val_scale x Hx) as Ex. pose proof (val_scale y Hy) as Ey.
  rewrite Zlt_Qlt, !inject_Z_mult, Ex, Ey.
  setoid_replace (val x * inject_Z x.2 * inject_Z y.2)%Q with (val x * (inject_Z x.2 * inject_Z y.2))%Q using relation Qeq by ring.
  setoid_replace (val y * inject_Z y.2 * inject_Z x.2)%Q with (val y * (inject_Z x.2 * inject_Z y.2))%Q using relation Qeq by ring.
  assert (0 < inject_Z x.2 * inject_Z y.2)%Q as P by by apply Qmult_lt_0_compat.
  by rewrite Qmult_lt_r.
Qed.

Lemma rne_near n d : 0 < d -> 2 * Z.abs (rne n d * d - n) <= d.
Proof.
  intros Hd. unfold rne. pose proof (Z.div_mod n d ltac:(lia)) as E. pose proof (Z.mod_pos_bound n d Hd).
  destruct (Z.ltb_spec (2 * (n mod d)) d); [nia|].
  destruct (Z.ltb_spec d (2 * (n mod d))); [nia|].
  destruct (Z.even (n / d)); nia.
Qed.

(** The error of a [double]: [2 ^ -53] of the value. *)
Lemma bin_error p n d : 1 <= p -> 0 < d ->
  0 < (bin p n d).2 /\ Z.abs ((bin p n d).1 * d - n * (bin p n d).2) * 2 ^ p <= Z.abs n * (bin p n d).2.
Proof.
  intros Hp Hd. unfold bin. destruct (Z.eqb_spec n 0) as [->|Hne]; [cbn; lia|].
  cbn [fst snd]. set (a := Z.abs n).
  set (k := Z.log2 a - Z.log2 d).
  set (e := if d * 2 ^ Z.max 0 k <=? a * 2 ^ Z.max 0 (- k) then k - (p - 1) else k - p).
  assert (Ha : 0 < a) by (unfold a; lia).
  assert (H52 : d * 2 ^ Z.max 0 e * 2 ^ (p - 1) <= a * 2 ^ Z.max 0 (- e)).
  { unfold e. destruct (Z.leb_spec (d * 2 ^ Z.max 0 k) (a * 2 ^ Z.max 0 (- k))).
    - pose proof (pow_le_shift a d k (p - 1) Ha Hd ltac:(lia)) as HS.
      replace (- (k - (p - 1))) with (p - 1 - k) by lia. by apply HS.
    - pose proof (pow_le_shift a d (k - 1) (p - 1) Ha Hd ltac:(lia) (pow_le_log a d Ha Hd)) as HS.
      replace (k - p) with (k - 1 - (p - 1)) by lia. replace (- (k - 1 - (p - 1))) with (p - 1 - (k - 1)) by lia.
      exact HS. }
  pose proof (Z.pow_pos_nonneg 2 (Z.max 0 e) ltac:(lia) ltac:(lia)) as P1.
  pose proof (Z.pow_pos_nonneg 2 (Z.max 0 (- e)) ltac:(lia) ltac:(lia)) as P2.
  pose proof (Z.pow_pos_nonneg 2 (p - 1) ltac:(lia) ltac:(lia)) as P3.
  replace (2 ^ p) with (2 * 2 ^ (p - 1)) by (rewrite <-Z.pow_succ_r by lia; f_equal; lia).
  set (E1 := 2 ^ Z.max 0 e) in *. set (E2 := 2 ^ Z.max 0 (- e)) in *. set (E3 := 2 ^ (p - 1)) in *.
  pose proof (rne_near (n * E2) (d * E1) ltac:(nia)) as Hr.
  set (m := rne (n * E2) (d * E1)) in *. split; [done|].
  replace (m * E1 * d - n * E2) with (m * (d * E1) - n * E2) by lia.
  assert (a * E2 = Z.abs n * E2) as -> by done. nia.
Qed.

Definition eps : Q := 1 # 9007199254740992.

Lemma abs_bound n B : (- B <= inject_Z n)%Q -> (inject_Z n <= B)%Q -> (inject_Z (Z.abs n) <= B)%Q.
Proof. intros H1 H2. destruct (Z.abs_eq_or_opp n) as [-> | ->]; [done|]. rewrite inject_Z_opp. lra. Qed.

Lemma dbl_near n d B : 0 < d -> (- B <= val (n, d))%Q -> (val (n, d) <= B)%Q ->
  frac (dbl n d) /\
  (val (n, d) - B * eps <= val (dbl n d))%Q /\ (val (dbl n d) <= val (n, d) + B * eps)%Q.
Proof.
  intros Hd HB1 HB2. destruct (bin_error 53 n d ltac:(lia) Hd) as [Hf He]. split; [exact Hf|].
  change (bin 53 n d) with (dbl n d) in *. set (x := dbl n d) in *.
  pose proof (val_scale (n, d) Hd) as Eq. pose proof (val_scale x Hf) as Ev.
  pose proof (inject_pos d Hd) as PD. pose proof (inject_pos x.2 Hf) as PX.
  set (q := val (n, d)) in *. set (v := val x) in *. cbn [fst snd] in Eq.
  set (D := inject_Z d) in *. set (X2 := inject_Z x.2) in *.
  assert (HN : (inject_Z (Z.abs n) <= B * D)%Q).
  { apply abs_bound; rewrite Eq.
    - setoid_replace (- (B * D))%Q with ((- B) * D)%Q using relation Qeq by ring. apply Qmult_le_compat_r; [done | lra].
    - apply Qmult_le_compat_r; [done | lra]. }
  assert (HX : (inject_Z (x.1 * d - n * x.2) * inject_Z (2 ^ 53) <= B * D * X2)%Q /\
               (- (B * D * X2) <= inject_Z (x.1 * d - n * x.2) * inject_Z (2 ^ 53))%Q).
  { assert (inject_Z (Z.abs n * x.2) <= B * D * X2)%Q as HX.
    { rewrite inject_Z_mult. apply Qmult_le_compat_r; [done|]. fold X2. lra. }
    split; rewrite <-inject_Z_mult.
    - eapply Qle_trans; [|exact HX]. rewrite <-Zle_Qle. lia.
    - apply Qopp_le_compat in HX. eapply Qle_trans; [exact HX|]. rewrite <-inject_Z_opp, <-Zle_Qle. lia. }
  unfold Z.sub in HX. rewrite (inject_Z_plus (x.1 * d)), inject_Z_opp, !inject_Z_mult, Eq, Ev in HX.
  fold D X2 in HX. change (inject_Z (2 ^ 53)) with (inject_Z 9007199254740992) in HX.
  assert (PDX : (0 < X2 * D)%Q) by by apply Qmult_lt_0_compat.
  unfold eps. destruct HX as [HX1 HX2].
  split; apply (Qmult_le_r _ _ (X2 * D) PDX); unfold inject_Z in *; lra.
Qed.

Lemma val_pair_plus x y : frac x -> frac y ->
  (val ((x.1 * y.2 + y.1 * x.2)%Z, (x.2 * y.2)%Z) == val x + val y)%Q.
Proof.
  intros Hx Hy. unfold val. cbn [fst snd]. rewrite inject_Z_plus, !inject_Z_mult.
  field. split; by apply pos_neq.
Qed.

Lemma val_pair_less x : frac x -> (val ((x.1 - x.2)%Z, x.2) == val x - 1)%Q.
Proof.
  intros Hx. unfold val. cbn [fst snd]. unfold Z.sub. rewrite inject_Z_plus, inject_Z_opp.
  field. by apply pos_neq.
Qed.

(** Values stay below [2 ^ 17]; one operation is wrong by at most [delta]. *)
Definition limit : Q := 131072 # 1.
Definition delta : Q := 1 # 68719476736.

Definition near (q : Q) (x : Z * Z) : Prop :=
  frac x /\ (q - delta <= val x)%Q /\ (val x <= q + delta)%Q.

Lemma near_dbl n d q : 0 < d -> (val (n, d) == q)%Q -> (- limit <= q)%Q -> (q <= limit)%Q -> near q (dbl n d).
Proof.
  intros Hd Hq H1 H2. destruct (dbl_near n d limit Hd) as (F & A & B); [lra|lra|].
  split; [exact F|]. rewrite Hq in A, B. unfold limit, eps, delta in *. split; lra.
Qed.

Lemma plus_near x y : frac x -> frac y -> (- limit <= val x + val y)%Q -> (val x + val y <= limit)%Q ->
  near (val x + val y) (dbl_plus x y).
Proof.
  intros Hx Hy H1 H2. unfold dbl_plus. apply near_dbl; [unfold frac in *; nia | by apply val_pair_plus | done..].
Qed.

Lemma less_near x : frac x -> (- limit <= val x - 1)%Q -> (val x - 1 <= limit)%Q -> near (val x - 1) (dbl_less x).
Proof. intros Hx H1 H2. unfold dbl_less. apply near_dbl; [done | by apply val_pair_less | done..]. Qed.

Lemma half_spec x : frac x -> if frac_lt (1, 2) x then (1 # 2 < val x)%Q else (val x <= 1 # 2)%Q.
Proof.
  intros Hx. assert (E : (val (1, 2)%Z == 1 # 2)%Q) by done.
  destruct (frac_lt (1, 2) x) eqn:F.
  - apply frac_lt_val in F; [|done..]. by rewrite E in F.
  - apply Qnot_lt_le. intros L. rewrite <-E in L. apply frac_lt_val in L; [congruence | done..].
Qed.

Definition nq (n : nat) : Q := inject_Z (Z.of_nat n).

Lemma nq_S n : (nq (S n) == nq n + 1)%Q.
Proof. unfold nq. rewrite Nat2Z.inj_succ, <-Z.add_1_r, inject_Z_plus. done. Qed.
Lemma nq_plus m n : (nq (m + n) == nq m + nq n)%Q.
Proof. unfold nq. by rewrite Nat2Z.inj_add, inject_Z_plus. Qed.
Lemma nq_pos n : (0 <= nq n)%Q.
Proof. unfold nq. unfold Qle. cbn. lia. Qed.

(** [u'] is what is left of [u] after [k] turns that take 1. *)
Definition drained (u : Z * Z) (k : nat) (u' : Z * Z) : Prop :=
  frac u' /\ (val u' <= 1 # 2)%Q /\
  (val u - nq k - nq k * delta <= val u')%Q /\ (val u' <= val u - nq k + nq k * delta)%Q /\
  ((val u <= val u')%Q \/ (- (1 # 2) - delta <= val u')%Q).

(** The turns that are enough. *)
Definition enough (u : Z * Z) (m : nat) : Prop := (val u + nq m * delta <= nq m + (1 # 2))%Q.

Lemma enough_less u m u1 : enough u (S m) -> near (val u - 1) u1 -> enough u1 m.
Proof.
  unfold enough, near. rewrite nq_S. intros H (_ & _ & H1). unfold delta in *.
  pose proof (nq_pos m). lra.
Qed.

Lemma drained_less u u1 k u' : (1 # 2 < val u)%Q -> near (val u - 1) u1 -> drained u1 k u' -> drained u (S k) u'.
Proof.
  intros L (_ & A & B) (F & H & C & D & E). split; [done|]. split; [done|]. rewrite nq_S. unfold delta in *.
  pose proof (nq_pos k). split; [lra|]. split; [lra|]. right. destruct E; lra.
Qed.

Lemma drained_stop u : frac u -> (val u <= 1 # 2)%Q -> drained u 0 u.
Proof. intros F H. split; [done|]. split; [done|]. change (nq 0) with 0%Q. repeat split; [lra..|]. left. lra. Qed.

Lemma blank_loop_spec m : forall fuel u, (m < fuel)%nat -> frac u -> enough u m -> (-1 <= val u)%Q -> (val u <= limit)%Q ->
  exists t u', blank_loop fuel u = Some (t, u') /\ drained u (length t) u' /\ (length t <= m)%nat.
Proof.
  induction m as [|m IH]; intros fuel u Hf F E L U; (destruct fuel as [|fuel]; [lia|]); cbn [blank_loop];
    pose proof (half_spec u F) as Hh; destruct (frac_lt (1, 2) u).
  - exfalso. unfold enough in E. change (nq 0) with 0%Q in E. unfold delta in E. lra.
  - eexists _, _. split; [reflexivity|]. split; [by apply drained_stop | cbn; lia].
  - pose proof (less_near u F) as N. unfold limit in *. specialize (N ltac:(lra) ltac:(lra)).
    destruct (IH fuel (dbl_less u)) as (t & u' & -> & D & Hk); [lia | apply N | by eapply enough_less | ..].
    + destruct N as (_ & N & _). unfold delta in N. lra.
    + destruct N as (_ & _ & N). unfold delta in N. lra.
    + eexists _, _. split; [reflexivity|]. split; [by apply (drained_less u (dbl_less u)) | cbn; lia].
  - eexists _, _. split; [reflexivity|]. split; [by apply drained_stop | cbn; lia].
Qed.

Lemma slack_fuel_enough u : frac u -> (-1 <= val u)%Q -> (val u <= limit)%Q ->
  exists m, (m < slack_fuel u)%nat /\ enough u m /\ (nq m <= val u + 1)%Q.
Proof.
  intros F L U. set (q := u.1 / u.2).
  pose proof (val_scale u F) as E. pose proof (inject_pos u.2 F) as P. unfold frac in F.
  pose proof (Z.div_mod u.1 u.2 ltac:(lia)) as D. pose proof (Z.mod_pos_bound u.1 u.2 F) as M. fold q in D.
  assert (Hq1 : (inject_Z q <= val u)%Q).
  { apply (Qmult_le_r _ _ _ P). rewrite <-E, <-inject_Z_mult, <-Zle_Qle. lia. }
  assert (Hq2 : (val u < inject_Z q + 1)%Q).
  { apply (Qmult_lt_r _ _ _ P). rewrite <-E. change 1%Q with (inject_Z 1).
    rewrite <-inject_Z_plus, <-inject_Z_mult, <-Zlt_Qlt. nia. }
  assert (Hq : - 2 < q).
  { rewrite Zlt_Qlt. change (inject_Z (-2)) with (-2)%Q. lra. }
  exists (Z.to_nat (q + 1)). unfold slack_fuel. fold q. split; [lia|].
  unfold enough, nq. rewrite Z2Nat.id, inject_Z_plus by lia. change (inject_Z 1) with 1%Q.
  unfold limit, delta in *. split; lra.
Qed.

(** ** The blanks *)

Definition eta : Q := 16 * delta.

(** After [j] calls of [addblanks], with [K] blanks. *)
Definition calls (sc : Z * Z) (j K : nat) (cu : Z * Z) : Prop :=
  frac cu /\ (val cu <= 1 # 2)%Q /\ (- (1 # 2) - nq j * eta <= val cu)%Q /\
  (nq j * val sc - nq K - nq j * eta <= val cu)%Q /\ (val cu <= nq j * val sc - nq K + nq j * eta)%Q.

Lemma nq_le m n : (m <= n)%nat -> (nq m <= nq n)%Q.
Proof. intros H. unfold nq. rewrite <-Zle_Qle. lia. Qed.

Lemma nq_leZ m z : Z.of_nat m <= z -> (nq m <= inject_Z z)%Q.
Proof. intros H. unfold nq. by rewrite <-Zle_Qle. Qed.

Lemma nq_le_inv m (q : Q) n : (nq m <= q)%Q -> (q < nq n + 1)%Q -> (m <= n)%nat.
Proof.
  intros A B. assert (nq m < nq (S n))%Q as H by (rewrite nq_S; lra).
  unfold nq in H. rewrite <-Zlt_Qlt in H. lia.
Qed.

Lemma addblanks_spec sc j K cu : frac sc -> (0 <= val sc)%Q -> (val sc <= 8)%Q -> (nq j * eta <= 1 # 4)%Q ->
  calls sc j K cu ->
  exists t cu', addblanks cu sc = Some (t, cu') /\ calls sc (S j) (K + length t) cu'.
Proof.
  intros Fs S0 S8 Hj (F & H & L & C1 & C2).
  pose proof (plus_near cu sc F Fs) as N. unfold limit, eta in *. specialize (N ltac:(lra) ltac:(lra)).
  unfold addblanks. set (u := dbl_plus cu sc) in *. destruct N as (Fu & N1 & N2).
  assert (Hd : (delta <= 1 # 4)%Q) by done.
  destruct (slack_fuel_enough u Fu) as (m & Hm & En & Hm2); [lra | unfold limit; lra |].
  destruct (blank_loop_spec m (slack_fuel u) u Hm Fu En) as (t & u' & -> & D & Hk); [lra | unfold limit; lra|].
  exists t, u'. split; [done|]. destruct D as (Fu' & H' & D1 & D2 & D3).
  assert (Hk10 : (nq (length t) <= 10)%Q).
  { eapply Qle_trans; [by apply nq_le|]. lra. }
  pose proof (nq_pos (length t)) as Hk0. unfold calls, eta. rewrite nq_S, nq_plus.
  assert (Hk' : (nq (length t) * delta <= 10 * delta)%Q) by (apply Qmult_le_compat_r; done).
  split; [done|]. split; [done|]. assert (0 <= delta)%Q as D0 by done.
  split; [destruct D3; lra|]. split; lra.
Qed.

(** ** The boxes *)

Lemma box_loop_spec sc m : forall fuel iu j K cu, frac sc -> (0 <= val sc)%Q -> (val sc <= 8)%Q ->
  (m < fuel)%nat -> frac iu -> enough iu m -> (-1 <= val iu)%Q -> (val iu <= limit)%Q ->
  (nq (j + 2 * m) * eta <= 1 # 4)%Q -> calls sc j K cu ->
  exists t iu' cu' b k, box_loop fuel iu cu sc = Some (t, iu', cu') /\ drained iu b iu' /\
    calls sc (j + 2 * b) (K + k) cu' /\ length t = (15 * b + k)%nat /\ (b <= m)%nat.
Proof.
  induction m as [|m IH]; intros fuel iu j K cu Fs S0 S8 Hf F E L U Hj C; (destruct fuel as [|fuel]; [lia|]);
    cbn [box_loop]; pose proof (half_spec iu F) as Hh; destruct (frac_lt (1, 2) iu).
  - exfalso. unfold enough in E. change (nq 0) with 0%Q in E. unfold delta in E. lra.
  - eexists [], iu, cu, 0%nat, 0%nat. rewrite !Nat.add_0_r. split; [done|]. split; [by apply drained_stop | split; [done|]; split; [done | lia]].
  - assert (Hle : forall i, (i <= j + 2 * S m)%nat -> (nq i * eta <= 1 # 4)%Q).
    { intros i Hi. eapply Qle_trans; [|exact Hj]. apply Qmult_le_compat_r; [by apply nq_le | done]. }
    destruct (addblanks_spec sc j K cu Fs S0 S8 (Hle j ltac:(lia)) C) as (b1 & cu1 & -> & C1). cbn [mbind option_bind].
    destruct (addblanks_spec sc _ _ cu1 Fs S0 S8 (Hle (S j) ltac:(lia)) C1) as (b2 & cu2 & -> & C2). cbn [mbind option_bind].
    pose proof (less_near iu F) as N. unfold limit in *. specialize (N ltac:(lra) ltac:(lra)).
    destruct (IH fuel (dbl_less iu) (S (S j)) (K + length b1 + length b2)%nat cu2)
      as (t & iu' & cu' & b & k & -> & D & C' & Hl & Hbm); [done..| lia | apply N | by eapply enough_less | | | |done|].
    + destruct N as (_ & N & _). unfold delta in N. lra.
    + destruct N as (_ & _ & N). unfold delta in N. lra.
    + apply Hle. lia.
    + cbn [mbind option_bind]. eexists _, iu', cu', (S b), (length b1 + length b2 + k)%nat. split; [reflexivity|].
      split; [by apply (drained_less iu (dbl_less iu))|].
      replace (j + 2 * S b)%nat with (S (S j) + 2 * b)%nat by lia.
      replace (K + (length b1 + length b2 + k))%nat with (K + length b1 + length b2 + k)%nat by lia.
      split; [done|]. split; [|lia]. rewrite !length_app, Hl. change (length (chars " | ")) with 3%nat.
      change (length (chars "            ")) with 12%nat. lia.
  - eexists [], iu, cu, 0%nat, 0%nat. rewrite !Nat.add_0_r. split; [done|]. split; [by apply drained_stop | split; [done|]; split; [done | lia]].
Qed.

(** ** The items *)

Definition zeta : Q := 2 * delta.

(** After [n] items and [B] boxes. *)
Definition turns (si : Z * Z) (n B : nat) (iu : Z * Z) : Prop :=
  frac iu /\ (val iu <= 1 # 2)%Q /\ (- (1 # 2) - nq (n + B) * zeta <= val iu)%Q /\
  (nq n * val si - nq B - nq (n + B) * zeta <= val iu)%Q /\ (val iu <= nq n * val si - nq B + nq (n + B) * zeta)%Q.

Definition most : Q := 70000 # 1.

Lemma turns_bound si n B iu : turns si n B iu -> (nq n <= most)%Q -> (nq n * val si <= most)%Q ->
  (nq B <= 2 * most + 2)%Q.
Proof.
  intros (_ & _ & L & _ & C) Hn Hs. rewrite nq_plus in *. unfold zeta, delta, most in *. pose proof (nq_pos B). lra.
Qed.

Lemma turn_spec si n B iu : frac si -> (0 <= val si)%Q -> (val si <= most)%Q -> turns si n B iu ->
  (nq n <= most)%Q -> (nq n * val si <= most)%Q ->
  exists m, (m < slack_fuel (dbl_plus iu si))%nat /\ enough (dbl_plus iu si) m /\ (nq m <= most + 2)%Q /\
    frac (dbl_plus iu si) /\ (-1 <= val (dbl_plus iu si))%Q /\ (val (dbl_plus iu si) <= limit)%Q /\
    forall b iu', drained (dbl_plus iu si) b iu' -> turns si (S n) (B + b) iu'.
Proof.
  intros Fs S0 S8 T Hn Hs. pose proof (turns_bound si n B iu T Hn Hs) as HB.
  destruct T as (F & H & L & C1 & C2). rewrite nq_plus in *.
  pose proof (plus_near iu si F Fs) as N. unfold limit, zeta, most, delta in *.
  specialize (N ltac:(lra) ltac:(lra)). set (u := dbl_plus iu si) in *. destruct N as (Fu & N1 & N2).
  unfold delta in *.
  destruct (slack_fuel_enough u Fu) as (m & Hm & En & Hm2); [lra | unfold limit; lra |].
  exists m. split; [done|]. split; [done|]. split; [lra|]. split; [done|]. split; [lra|]. split; [lra|].
  intros b iu' (Fu' & H' & D1 & D2 & D3). unfold turns, zeta, delta in *. pose proof (nq_pos b).
  rewrite !nq_plus, nq_S. split; [done|]. split; [done|].
  split; [destruct D3; lra|]. split; lra.
Qed.

(** Every item succeeds with 12 characters, from states that satisfy [P] to such states. *)
Definition wide (e : sysenv.sysenv) (defs : list sysdef.sysdef) (x : extraparam.extraparam) (badness : Z)
    (P : sysst.sysst -> Prop) (el : printpair.printpair) : Prop :=
  exists d, defs !! el.(printpair.f) = Some d /\
  forall st, P st -> exists t st', d.(sysdef.doconvert) e x badness (sysst.mk st.(sysst.sample) 0 st.(sysst.firstcall))
                                     = Some (t, st') /\ length t = 12%nat /\ P st'.

Lemma lift_some {A B} (a : A) (f : A -> M B) st : mbind (M := M) f (lift (Some a)) st = f a st.
Proof. done. Qed.

Lemma bind_some {A B} (m : M A) (f : A -> M B) st a st' : m st = Some (a, st') ->
  mbind (M := M) f m st = f a st'.
Proof. intros E. unfold mbind, M_bind. by rewrite E. Qed.

Lemma setcolor_bind {B} c (f : unit -> M B) st :
  mbind (M := M) f (setcolor c) st = f tt (sysst.mk st.(sysst.sample) c st.(sysst.firstcall)).
Proof. done. Qed.

Lemma calls_index n B : (2 * n + 2 * B)%nat = (2 * (n + B))%nat.
Proof. lia. Qed.

Lemma few_calls i : (nq i <= 8 * most + 16)%Q -> (nq i * eta <= 1 # 4)%Q.
Proof. unfold most, eta, delta. lra. Qed.

Lemma print_items_spec e defs x badness P si sc : frac si -> frac sc -> (0 <= val si)%Q -> (0 <= val sc)%Q -> (val sc <= 8)%Q ->
  forall elems n B K iu cu st,
  (nq (n + length elems) <= most)%Q -> (nq (n + length elems) * val si <= most)%Q ->
  Forall (wide e defs x badness P) elems -> P st ->
  turns si n B iu -> calls sc (2 * (n + B)) K cu ->
  exists line st' b k iu' cu',
    print_items e defs x badness si sc elems iu cu st = Some (line, st') /\ P st' /\
    length line = (15 * (length elems + b) + k)%nat /\
    turns si (n + length elems) (B + b) iu' /\ calls sc (2 * (n + length elems + (B + b))) (K + k) cu'.
Proof.
  intros Fi Fs I0 S0 S8. induction elems as [|el elems IH]; intros n B K iu cu st HN HS HF HP T C; cbn [print_items].
  { cbn [length] in *. exists [], st, 0%nat, 0%nat, iu, cu. rewrite !Nat.add_0_r. done. }
  apply Forall_cons in HF as [(d & Hd & Hw) HF]. cbn [length] in HN, HS.
  replace (n + S (length elems))%nat with (S n + length elems)%nat in * by lia.
  assert (Hn : (nq n <= most)%Q) by (eapply Qle_trans; [apply (nq_le n (S n + length elems)); lia | done]).
  assert (Hns : (nq n * val si <= most)%Q).
  { eapply Qle_trans; [|exact HS]. apply Qmult_le_compat_r; [apply nq_le; lia | done]. }
  assert (Hsi : (val si <= most)%Q).
  { eapply Qle_trans; [|exact HS]. setoid_replace (val si) with (1 * val si)%Q using relation Qeq at 1 by ring.
    apply Qmult_le_compat_r; [|done]. change 1%Q with (nq 1). apply nq_le. lia. }
  pose proof (turns_bound si n B iu T Hn Hns) as HB.
  destruct (turn_spec si n B iu Fi I0 Hsi T Hn Hns) as (m & Hm & En & Hm2 & Fu & L & U & Hturn).
  assert (Hfew : forall i, (i <= 2 * (n + B) + 1 + 2 * m + 1)%nat -> (nq i * eta <= 1 # 4)%Q).
  { intros i Hi. apply few_calls. eapply Qle_trans; [by apply nq_le|].
    rewrite !nq_plus. change (nq (2 * (n + B))) with (nq ((n + B) + ((n + B) + 0))).
    change (nq (2 * m)) with (nq (m + (m + 0))). rewrite !nq_plus. change (nq 0) with 0%Q. change (nq 1) with 1%Q.
    unfold most in *. lra. }
  rewrite Hd. rewrite lift_some.
  destruct (addblanks_spec sc _ _ cu Fs S0 S8 (Hfew (2 * (n + B))%nat ltac:(lia)) C) as (b1 & cu1 & -> & C1).
  rewrite lift_some, setcolor_bind. destruct (Hw st HP) as (t & st1 & Ht & Hl & HP1).
  rewrite (bind_some _ _ _ _ _ Ht).
  destruct (box_loop_spec sc m (slack_fuel (dbl_plus iu si)) (dbl_plus iu si) (S (2 * (n + B))) (K + length b1)%nat cu1)
    as (boxes & iu2 & cu2 & b & k & -> & D & C2 & Hb & Hbm); [done..| apply Hfew; lia | done|].
  rewrite lift_some.
  destruct (addblanks_spec sc _ _ cu2 Fs S0 S8 (Hfew (S (2 * (n + B)) + 2 * b)%nat ltac:(lia)) C2) as (b2 & cu3 & -> & C3).
  rewrite lift_some.
  replace (S (S (2 * (n + B)) + 2 * b))%nat with (2 * (S n + (B + b)))%nat in C3 by lia.
  destruct (IH (S n) (B + b)%nat _ iu2 cu3 st1 HN HS HF HP1 (Hturn b iu2 D) C3)
    as (line & st' & b' & k' & iu' & cu' & Hline & HP' & Hlen & T' & C').
  rewrite (bind_some _ _ _ _ _ Hline).
  eexists _, st', (b + b')%nat, (length b1 + k + length b2 + k')%nat, iu', cu'.
  split; [reflexivity|]. split; [done|]. rewrite !Nat.add_assoc in *.
  split; [rewrite !length_app, Hlen, Hl, Hb; change (length (chars " | ")) with 3%nat; cbn [length]; lia|].
  replace (n + length (el :: elems))%nat with (S n + length elems)%nat by (cbn [length]; lia). done.
Qed.

(** ** The slack *)

Lemma rne_1 z : rne z 1 = z.
Proof. unfold rne. rewrite Z.div_1_r, Z.mod_1_r. done. Qed.

Lemma dbl_int n : 0 <= n < 2 ^ 52 -> frac (dbl n 1) /\ (val (dbl n 1) == inject_Z n)%Q /\ 0 <= (dbl n 1).1 /\
  (0 < n -> 0 < (dbl n 1).1).
Proof.
  intros Hn. unfold dbl, bin. destruct (Z.eqb_spec n 0) as [->|Hne]; [done|].
  rewrite Z.abs_eq by lia. cbn [fst snd]. change (Z.log2 1) with 0. rewrite !Z.sub_0_r.
  pose proof (Z.log2_spec n ltac:(lia)) as Hl. pose proof (Z.log2_nonneg n) as H0.
  assert (Hk : Z.log2 n < 52) by (apply Z.log2_lt_pow2; lia).
  rewrite (Z.max_r 0 (Z.log2 n)), (Z.max_l 0 (- Z.log2 n)), Z.mul_1_l, Z.pow_0_r, Z.mul_1_r by lia.
  rewrite (proj2 (Z.leb_le _ _)) by lia.
  rewrite (Z.max_l 0 (Z.log2 n - (53 - 1))), Z.pow_0_r, Z.mul_1_r, (Z.mul_1_l 1), rne_1 by lia.
  set (E := 2 ^ _). assert (HE : 0 < E) by (apply Z.pow_pos_nonneg; lia).
  cbn [fst snd]. split; [exact HE|]. split; [|nia].
  unfold val. cbn [fst snd]. rewrite inject_Z_mult. field. by apply pos_neq.
Qed.

Lemma div_int u v : 0 <= u < 2 ^ 17 -> 0 < v < 2 ^ 52 ->
  near (inject_Z u / inject_Z v) (dbl_div (dbl u 1) (dbl v 1)).
Proof.
  intros Hu Hv. destruct (dbl_int u ltac:(lia)) as (Fx & Ex & Px & _).
  destruct (dbl_int v ltac:(lia)) as (Fy & Ey & _ & Py).
  unfold dbl_div. set (x := dbl u 1) in *. set (y := dbl v 1) in *. specialize (Py ltac:(lia)).
  rewrite (proj2 (Z.eqb_neq _ _)) by lia. rewrite Z.sgn_pos, Z.mul_1_l, Z.abs_eq by lia.
  pose proof (inject_pos v ltac:(lia)) as Pv. unfold frac in *.
  assert (Hval : (val ((x.1 * y.2)%Z, (x.2 * y.1)%Z) == inject_Z u / inject_Z v)%Q).
  { rewrite <-Ex, <-Ey. unfold val. cbn [fst snd]. rewrite !inject_Z_mult.
    field. repeat split; by apply pos_neq. }
  assert (Hge : (0 <= inject_Z u / inject_Z v)%Q).
  { apply Qle_shift_div_l; [done|]. rewrite Qmult_0_l. change 0%Q with (inject_Z 0). rewrite <-Zle_Qle. lia. }
  apply near_dbl; [nia | done | |].
  - unfold limit. lra.
  - apply Qle_shift_div_r; [done|]. unfold limit. change (131072 # 1)%Q with (inject_Z 131072).
    rewrite <-inject_Z_mult, <-Zle_Qle. nia.
Qed.

(** ** The selection *)

(** The loop ends within its fuel and removes only items of no higher priority. *)
Lemma fit_items_spec fuel avail elems : 0 <= avail -> (length elems <= fuel)%nat ->
  Forall (fun el => el.(printpair.prio) < 999999) elems ->
  exists kept gone, fit_items fuel avail elems = Some kept /\ sublist kept elems /\ elems ≡ₚ kept ++ gone /\
    length kept = Nat.min (Z.to_nat avail) (length elems) /\
    Forall (fun g => Forall (fun k => g.(printpair.prio) <= k.(printpair.prio)) kept) gone.
Proof.
  intros Ha. revert elems. induction fuel as [|fuel IH]; intros elems Hf HF; cbn [fit_items];
    destruct (Z.ltb_spec avail (Z.of_nat (length elems))) as [Hlt|Hge]; try lia.
  1, 3: exists elems, []; rewrite app_nil_r; split_and!; try done; lia.
  destruct (lowestprio_found elems) as (j & el & -> & Hj & Hmin); [intros -> ; cbn in Hlt; lia | done |].
  cbn [mbind option_bind]. pose proof (delete_Permutation elems j el Hj) as Hperm.
  assert (Hlen : length elems = S (length (delete j elems))) by (rewrite Hperm at 1; done).
  destruct (IH (delete j elems) ltac:(lia) (Forall_delete _ _ _ HF)) as (kept & gone & -> & Hsub & Hpm & Hk & Hpr).
  exists kept, (el :: gone). split; [done|]. split; [etransitivity; [exact Hsub | apply sublist_delete]|].
  split; [by rewrite Hperm, Hpm, Permutation_middle|]. split; [lia|]. apply Forall_cons. split; [|done].
  apply Forall_forall. intros k Hkin. apply (proj1 (Forall_forall _ _) Hmin).
  rewrite Hperm. right. rewrite Hpm. apply elem_of_app. by left.
Qed.

Lemma fit_items_id fuel avail elems : Z.of_nat (length elems) <= avail -> fit_items fuel avail elems = Some elems.
Proof. intros H. destruct fuel; cbn [fit_items]; by rewrite (proj2 (Z.ltb_ge _ _)). Qed.

(** C30: When a system line has more items than fit, the items of the lowest
    priorities are left out: the line is that of a selection of the items, in
    their order, of as many items as fit (of the first 39), and no item outside
    has a higher priority than one inside. The line has at least 5 columns, and
    priorities are below 999999. *)
Theorem showsysline_selects e defs elemptr x labeltext badness :
  5 <= e.(sysenv.linelen) -> Forall (fun el => el.(printpair.prio) < 999999) elemptr ->
  exists kept gone,
    sublist kept (take (MAXELEMS - 1) elemptr) /\ take (MAXELEMS - 1) elemptr ≡ₚ kept ++ gone /\
    length kept = Nat.min (Z.to_nat (avail_of e.(sysenv.linelen))) (length (take (MAXELEMS - 1) elemptr)) /\
    (forall g k, g ∈ gone -> k ∈ kept -> g.(printpair.prio) <= k.(printpair.prio)) /\
    forall st, showsysline e defs elemptr x labeltext badness st = showsysline e defs kept x labeltext badness st.
Proof.
  intros Hl HF. set (elems := take (MAXELEMS - 1) elemptr). set (avail := avail_of e.(sysenv.linelen)).
  assert (Ha : 0 <= avail) by (apply Z.quot_pos; lia).
  assert (HF' : Forall (fun el => el.(printpair.prio) < 999999) elems) by by apply Forall_take.
  destruct (fit_items_spec (length elems) avail elems Ha (le_n _) HF') as (kept & gone & Hfit & Hsub & Hpm & Hk & Hpr).
  exists kept, gone. split; [done|]. split; [done|]. split; [done|]. split.
  { intros g k Hg Hkin. pose proof (proj1 (Forall_forall _ _) Hpr g Hg) as Hg'.
    exact (proj1 (Forall_forall _ _) Hg' k Hkin). }
  intros st. unfold showsysline. fold elems avail.
  assert (Ht : take (MAXELEMS - 1) kept = kept).
  { apply take_ge. unfold elems in Hk. rewrite length_take in Hk. lia. }
  rewrite Ht, (fit_items_id (length kept) avail kept) by lia. by rewrite Hfit.
Qed.

(** ** The width *)

Definition LINE_LIMIT : Z := 1000000.

Lemma turns_start si : turns si 0 0 (0, 1).
Proof.
  unfold turns. change (nq (0 + 0)) with 0%Q. change (nq 0) with 0%Q. change (val (0, 1)%Z) with (0 / 1)%Q.
  unfold Qdiv. split; [done|]. repeat split; lra.
Qed.
Lemma calls_start sc : calls sc 0 0 (0, 1).
Proof.
  unfold calls. change (nq 0) with 0%Q. change (val (0, 1)%Z) with (0 / 1)%Q.
  unfold Qdiv. split; [done|]. repeat split; lra.
Qed.

Lemma dbl_div_nonneg u v : 0 <= u < 2 ^ 52 -> 0 < v < 2 ^ 52 -> (0 <= val (dbl_div (dbl u 1) (dbl v 1)))%Q.
Proof.
  intros Hu Hv. destruct (dbl_int u Hu) as (Fx & _ & Px & _).
  destruct (dbl_int v ltac:(lia)) as (Fy & _ & _ & Py). specialize (Py ltac:(lia)). unfold frac in *.
  unfold dbl_div. rewrite (proj2 (Z.eqb_neq _ _)), Z.sgn_pos, Z.mul_1_l, Z.abs_eq by lia.
  destruct (dbl_upper ((dbl u 1).1 * (dbl v 1).2) ((dbl u 1).2 * (dbl v 1).1)) as (A & B & _); [nia|nia|].
  unfold val. apply Qle_shift_div_l; [by apply inject_pos|]. rewrite Qmult_0_l.
  change 0%Q with (inject_Z 0). by rewrite <-Zle_Qle.
Qed.

(** [n] times a quotient [m / n]. *)
Lemma near_share (n m : nat) x : (0 < n)%nat -> near (inject_Z (Z.of_nat m) / inject_Z (Z.of_nat n)) x ->
  frac x /\ (nq m - nq n * delta <= nq n * val x)%Q /\ (nq n * val x <= nq m + nq n * delta)%Q.
Proof.
  intros Hn (F & A & B). split; [done|]. fold (nq m) (nq n) in *.
  assert (E : (nq n * (nq m / nq n) == nq m)%Q) by (field; apply pos_neq; lia).
  pose proof (nq_pos n) as P.
  split; rewrite <-E.
  - setoid_replace (nq n * (nq m / nq n) - nq n * delta)%Q with ((nq m / nq n - delta) * nq n)%Q using relation Qeq by ring.
    rewrite (Qmult_comm (nq n) (val x)). by apply Qmult_le_compat_r.
  - setoid_replace (nq n * (nq m / nq n) + nq n * delta)%Q with ((nq m / nq n + delta) * nq n)%Q using relation Qeq by ring.
    rewrite (Qmult_comm (nq n) (val x)). by apply Qmult_le_compat_r.
Qed.

(** All boxes, all blanks. *)
Lemma turns_end si N m b iu : (N <= 40)%nat -> Z.of_nat m <= 70000 -> (nq N * val si <= nq m + nq N * delta)%Q ->
  (nq m - nq N * delta <= nq N * val si)%Q -> turns si N b iu -> b = m.
Proof.
  intros HN Hm S1 S2 T. apply nq_le in HN. apply nq_leZ in Hm. change (nq 40) with (40 # 1)%Q in HN.
  unfold delta, inject_Z in *.
  destruct T as (_ & H & L & C1 & C2). rewrite nq_plus in *. unfold zeta, delta in *.
  pose proof (nq_pos b). pose proof (nq_pos N).
  assert (nq b <= 140000)%Q by lra.
  apply Nat.le_antisymm; eapply nq_le_inv; [apply Qle_refl | | apply Qle_refl |]; lra.
Qed.

Lemma calls_end sc j r k cu : Z.of_nat j <= 140000 -> (nq j * val sc <= nq r + nq j * delta)%Q ->
  (nq r - nq j * delta <= nq j * val sc)%Q -> calls sc j k cu -> k = r.
Proof.
  intros Hj S1 S2 (_ & H & L & C1 & C2). apply nq_leZ in Hj.
  unfold eta, delta, inject_Z in *. pose proof (nq_pos j).
  apply Nat.le_antisymm; eapply nq_le_inv; [apply Qle_refl | | apply Qle_refl |]; lra.
Qed.

(** The line of [N] items, when they fit. *)
Lemma print_line_width e defs x badness P linelen elems st :
  35 <= linelen <= LINE_LIMIT -> (2 <= length elems <= 39)%nat ->
  Z.of_nat (length elems) <= avail_of linelen ->
  Forall (wide e defs x badness P) elems -> P st ->
  exists line st', print_items e defs x badness (slack_items (avail_of linelen) (Z.of_nat (length elems)))
                     (slack_chars linelen (avail_of linelen)) elems (0, 1) (0, 1) st = Some (line, st') /\
    P st' /\ Z.of_nat (length line) = linelen - 5.
Proof.
  intros Hl HN Ha HF HP. unfold LINE_LIMIT in Hl.
  pose proof (Z.quot_rem (linelen - 5) 15 ltac:(lia)) as Hq.
  pose proof (Z.rem_bound_pos (linelen - 5) 15 ltac:(lia) ltac:(lia)) as Hr.
  unfold avail_of in *. set (a := Z.quot (linelen - 5) 15) in *. unfold slack_items, slack_chars.
  set (r := Z.rem (linelen - 5) 15) in *. set (N := length elems) in *.
  rewrite (proj2 (Z.ltb_lt 1 _)) by lia.
  set (si := dbl_div _ _). set (sc := dbl_div (dbl r 1) _).
  assert (Ha' : 0 <= a - Z.of_nat N < 70000) by lia.
  pose proof (div_int (a - Z.of_nat N) (Z.of_nat N) ltac:(lia) ltac:(lia)) as Ni. fold si in Ni.
  pose proof (div_int r (a * 2) ltac:(lia) ltac:(lia)) as Nc. fold sc in Nc.
  pose proof (dbl_div_nonneg (a - Z.of_nat N) (Z.of_nat N) ltac:(lia) ltac:(lia)) as I0. fold si in I0.
  pose proof (dbl_div_nonneg r (a * 2) ltac:(lia) ltac:(lia)) as S0. fold sc in S0.
  assert (exists m, a - Z.of_nat N = Z.of_nat m) as [m Em] by (exists (Z.to_nat (a - Z.of_nat N)); lia).
  assert (exists rn, r = Z.of_nat rn) as [rn Er] by (exists (Z.to_nat r); lia).
  assert (Ej : a * 2 = Z.of_nat (2 * (N + m))) by lia.
  rewrite Em in Ni. rewrite Er, Ej in Nc.
  destruct (near_share N m si ltac:(lia) Ni) as (Fi & I1 & I2).
  destruct (near_share (2 * (N + m)) rn sc ltac:(lia) Nc) as (Fc & C1 & C2).
  assert (S8 : (val sc <= 8)%Q).
  { assert (nq rn <= 14)%Q as Hrn by (change 14%Q with (nq 14); apply nq_le; lia).
    assert (4 <= nq (2 * (N + m)))%Q as Hj by (change 4%Q with (nq 4); apply nq_le; lia).
    unfold delta in *. nra. }
  assert (HmQ : (nq m <= 69999)%Q) by (change 69999%Q with (inject_Z 69999); apply nq_leZ; lia).
  assert (HNQ : (nq N <= 39)%Q) by (change 39%Q with (nq 39); apply nq_le; lia).
  destruct (print_items_spec e defs x badness P si sc Fi Fc I0 S0 S8 elems 0 0 0 (0, 1) (0, 1) st)
    as (line & st' & b & k & iu & cu & E & HP' & Hlen & T & C); [| |done|done|apply turns_start|apply calls_start|].
  { unfold most. cbn [Nat.add]. fold N. lra. }
  { unfold most, delta in *. cbn [Nat.add]. fold N. lra. }
  exists line, st'. split; [exact E|]. split; [done|]. cbn [Nat.add] in T, C. fold N in T, C, Hlen.
  assert (b = m) as -> by (eapply (turns_end si N); eauto; lia).
  assert (k = rn) as -> by (eapply (calls_end sc (2 * (N + m))); eauto; lia).
  lia.
Qed.

Lemma length_chars s : length (chars s) = String.length s.
Proof. unfold chars. induction s as [|c s IH]; cbn; congruence. Qed.

(** From 35 columns on, a line of at least two items of 12 characters
    each has exactly as many characters as the line is long: the blank boxes and
    the blanks between the boxes add up, rounding included. *)
Lemma showsysline_width e defs elemptr x labeltext badness P st :
  35 <= e.(sysenv.linelen) <= LINE_LIMIT -> (2 <= length elemptr)%nat ->
  Forall (fun el => el.(printpair.prio) < 999999) elemptr ->
  Forall (wide e defs x badness P) elemptr -> P st -> String.length labeltext = 3%nat ->
  exists line st', showsysline e defs elemptr x labeltext badness st = Some (line ++ [newline], st') /\
    Z.of_nat (length line) = e.(sysenv.linelen) /\ P st'.
Proof.
  intros Hl HN Hprio HF HP Hlab. pose proof (Z.quot_le_lower_bound (e.(sysenv.linelen) - 5) 15 2 ltac:(lia) ltac:(lia)) as Ha.
  fold (avail_of e.(sysenv.linelen)) in Ha. unfold showsysline.
  set (avail := avail_of e.(sysenv.linelen)) in *. set (elems := take (MAXELEMS - 1) elemptr).
  assert (He : (2 <= length elems <= 39)%nat).
  { unfold elems. rewrite length_take. change (MAXELEMS - 1)%nat with 39%nat. lia. }
  destruct (fit_items_spec (length elems) avail elems ltac:(lia) (le_n _) (Forall_take _ _ _ Hprio))
    as (kept & gone & -> & Hsub & _ & Hk & _).
  rewrite lift_some.
  assert (HFk : Forall (wide e defs x badness P) kept).
  { apply Forall_forall. intros el Hel. apply (proj1 (Forall_forall _ _) (Forall_take _ 39 _ HF)).
    eapply elem_of_submseteq; [exact Hel|]. by apply sublist_submseteq. }
  destruct (print_line_width e defs x badness P e.(sysenv.linelen) kept st Hl ltac:(lia) ltac:(fold avail; lia) HFk HP)
    as (line & st' & E & HP' & Hlen). fold avail in E.
  rewrite (bind_some _ _ _ _ _ E).
  exists (chars labeltext ++ line ++ chars " |"), st'.
  split; [by rewrite <-!app_assoc|]. split; [|done].
  rewrite !length_app. rewrite length_chars, Hlab.
  change (length (chars " |")) with 2%nat. lia.
Qed.

(** ** Concrete values *)

Definition env_of (linelen : Z) : sysenv.sysenv := sysenv.mk 100 4096 0 linelen.
Definition param_zero : extraparam.extraparam := extraparam.mk 0 0 0 0 0 0 0 0 0 0 0 1 0 0 [] 0 0 0.
Definition two_items : list sysdef.sysdef := [syspdef_NETTRANSPORT; syspdef_BLANKBOX].

Lemma showsysline_selects_witness :
  exists kept gone : list printpair.printpair,
    length kept = 3%nat /\ length gone = 1%nat /\
    forall st, showsysline (env_of 50) two_items [printpair.mk 0 4; printpair.mk 1 1; printpair.mk 0 2; printpair.mk 0 3]
                 param_zero "NET" 0 st = showsysline (env_of 50) two_items kept param_zero "NET" 0 st.
Proof.
  destruct (showsysline_selects (env_of 50) two_items
    [printpair.mk 0 4; printpair.mk 1 1; printpair.mk 0 2; printpair.mk 0 3] param_zero "NET" 0)
    as (kept & gone & _ & Hp & Hl & _ & E).
  - cbn. lia.
  - repeat constructor; cbn; lia.
  - change (length kept = 3%nat) in Hl. exists kept, gone. split; [exact Hl|]. split; [|exact E].
    apply Permutation_length in Hp. rewrite length_app, Hl in Hp. change (4 = 3 + length gone)%nat in Hp. lia.
Defined.

Lemma showsysline_width_witness : exists line st',
  showsysline (env_of 97) two_items [printpair.mk 0 4; printpair.mk 1 1; printpair.mk 0 2] param_zero "NET" 0
    (sysst.mk None 0 true) = Some (line ++ [newline], st') /\ Z.of_nat (length line) = 97.
Proof.
  destruct (showsysline_width (env_of 97) two_items [printpair.mk 0 4; printpair.mk 1 1; printpair.mk 0 2] param_zero "NET" 0
    (fun _ => True) (sysst.mk None 0 true)) as (line & st' & E & Hl & _).
  - cbn. unfold LINE_LIMIT. lia.
  - cbn. lia.
  - repeat constructor; cbn; lia.
  - repeat constructor; eexists; (split; [reflexivity|]); intros st _; eexists _, _; (split; [reflexivity|]); done.
  - done.
  - done.
  - exists line, st'. split; [exact E | exact Hl].
Defined.

(** Without slack for a second item, the boxes of a single item are counted by a
    division of integers, and the line is shorter. *)
Lemma single_item_short : exists line st',
  showsysline (env_of 80) two_items [printpair.mk 0 4] param_zero "NET" 0 (sysst.mk None 0 true) = Some (line, st') /\
  length line = 51%nat.
Proof. eexists _, _. split; [vm_compute; reflexivity | reflexivity]. Qed.

(** Priorities of 999999 and above, which the configuration accepts, let the
    loop move the array from the element before the first. *)
Lemma high_priorities_fault :
  showsysline (env_of 20) two_items [printpair.mk 0 1000000; printpair.mk 0 1000000] param_zero "NET" 0
    (sysst.mk None 0 true) = None.
Proof. by vm_compute. Qed.
