(* ===== verification/Prisyst.v ===== *)
(** * The system part of the screen: showlinux.c

    The tables of items, the lines with their built-in layouts and the settings
    that replace them, [pricumproc], [prisyst] and [pridisklike]. What is printed
    is collected in the state. *)
From Stdlib Require Import Ascii.
From S2P Require Import Prelude Format Tstat Sstat Netatopif Photoproc Deviattask Compar Showprocs Cumulate Showline Prihead Showsys.

#[local] Open Scope c_scope.

(** ** The tables of items *)

Definition prcsyspdefs : list sysdef.sysdef := [
  syspdef_PRCSYS; syspdef_PRCUSER; syspdef_PRCNPROC; syspdef_PRCNRUNNING; syspdef_PRCNSLEEPING;
  syspdef_PRCNDSLEEPING; syspdef_PRCNZOMBIE; syspdef_PRCCLONES; syspdef_PRCNNEXIT; syspdef_BLANKBOX].
Definition cpusyspdefs : list sysdef.sysdef := [
  syspdef_CPUSYS; syspdef_CPUUSER; syspdef_CPUIRQ; syspdef_CPUIDLE; syspdef_CPUWAIT; syspdef_BLANKBOX;
  syspdef_CPUIPC; syspdef_CPUCYCLE; syspdef_CPUFREQ; syspdef_CPUSCALE; syspdef_CPUSTEAL; syspdef_CPUGUEST;
  syspdef_BLANKBOX].
Definition cpisyspdefs : list sysdef.sysdef := [
  syspdef_CPUISYS; syspdef_CPUIUSER; syspdef_CPUIIRQ; syspdef_CPUIIDLE; syspdef_CPUIWAIT; syspdef_BLANKBOX;
  syspdef_CPUIIPC; syspdef_CPUICYCLE; syspdef_CPUIFREQ; syspdef_CPUISCALE; syspdef_CPUISTEAL;
  syspdef_CPUIGUEST; syspdef_BLANKBOX].
Definition cplsyspdefs : list sysdef.sysdef := [
  syspdef_CPLAVG1; syspdef_CPLAVG5; syspdef_CPLAVG15; syspdef_CPLCSW; syspdef_CPLNUMCPU; syspdef_CPLINTR;
  syspdef_BLANKBOX].
Definition memsyspdefs : list sysdef.sysdef := [
  syspdef_MEMTOT; syspdef_MEMFREE; syspdef_MEMCACHE; syspdef_MEMDIRTY; syspdef_MEMBUFFER; syspdef_MEMSLAB;
  syspdef_RECSLAB; syspdef_BLANKBOX; syspdef_SHMEM; syspdef_SHMRSS; syspdef_SHMSWP; syspdef_BLANKBOX;
  syspdef_VMWBAL; syspdef_BLANKBOX; syspdef_HUPTOT; syspdef_HUPUSE].
Definition swpsyspdefs : list sysdef.sysdef := [
  syspdef_SWPTOT; syspdef_SWPFREE; syspdef_SWPCOMMITTED; syspdef_SWPCOMMITLIM; syspdef_BLANKBOX].
Definition pagsyspdefs : list sysdef.sysdef := [
  syspdef_PAGSCAN; syspdef_PAGSTEAL; syspdef_PAGSTALL; syspdef_PAGSWIN; syspdef_PAGSWOUT; syspdef_BLANKBOX].
Definition contsyspdefs : list sysdef.sysdef := [
  syspdef_CONTNAME; syspdef_CONTNPROC; syspdef_CONTCPU; syspdef_CONTMEM; syspdef_BLANKBOX].
Definition dsksyspdefs : list sysdef.sysdef := [
  syspdef_DSKNAME; syspdef_DSKBUSY; syspdef_DSKNREAD; syspdef_DSKNWRITE; syspdef_DSKMBPERSECWR;
  syspdef_DSKMBPERSECRD; syspdef_DSKKBPERWR; syspdef_DSKKBPERRD; syspdef_DSKAVQUEUE; syspdef_DSKAVIO;
  syspdef_BLANKBOX].
Definition nfsmntsyspdefs : list sysdef.sysdef := [
  syspdef_NFMPATH; syspdef_NFMSERVER; syspdef_NFMTOTREAD; syspdef_NFMTOTWRITE; syspdef_NFMNREAD;
  syspdef_NFMNWRITE; syspdef_NFMDREAD; syspdef_NFMDWRITE; syspdef_NFMMREAD; syspdef_NFMMWRITE;
  syspdef_BLANKBOX].
Definition nfcsyspdefs : list sysdef.sysdef := [
  syspdef_NFCRPCCNT; syspdef_NFCRPCREAD; syspdef_NFCRPCWRITE; syspdef_NFCRPCRET; syspdef_NFCRPCARF;
  syspdef_BLANKBOX].
Definition nfssyspdefs : list sysdef.sysdef := [
  syspdef_NFSRPCCNT; syspdef_NFSRPCREAD; syspdef_NFSRPCWRITE; syspdef_NFSNRBYTES; syspdef_NFSNWBYTES;
  syspdef_NFSNETTCP; syspdef_NFSNETUDP; syspdef_NFSBADFMT; syspdef_NFSBADAUT; syspdef_NFSBADCLN;
  syspdef_NFSRCHITS; syspdef_NFSRCMISS; syspdef_NFSRCNOCA; syspdef_BLANKBOX].
Definition nettranssyspdefs : list sysdef.sysdef := [
  syspdef_NETTRANSPORT; syspdef_NETTCPI; syspdef_NETTCPO; syspdef_NETUDPI; syspdef_NETUDPO;
  syspdef_NETTCPACTOPEN; syspdef_NETTCPPASVOPEN; syspdef_NETTCPRETRANS; syspdef_NETTCPINERR;
  syspdef_NETTCPORESET; syspdef_NETUDPNOPORT; syspdef_NETUDPINERR; syspdef_BLANKBOX].
Definition netnetsyspdefs : list sysdef.sysdef := [
  syspdef_NETNETWORK; syspdef_NETIPI; syspdef_NETIPO; syspdef_NETIPFRW; syspdef_NETIPDELIV;
  syspdef_NETICMPIN; syspdef_NETICMPOUT; syspdef_BLANKBOX].
Definition netintfsyspdefs : list sysdef.sysdef := [
  syspdef_NETNAME; syspdef_NETPCKI; syspdef_NETPCKO; syspdef_NETSPEEDMAX; syspdef_NETSPEEDIN;
  syspdef_NETSPEEDOUT; syspdef_NETCOLLIS; syspdef_NETMULTICASTIN; syspdef_NETRCVERR; syspdef_NETSNDERR;
  syspdef_NETRCVDROP; syspdef_NETSNDDROP; syspdef_BLANKBOX].

(** ** The lines *)

Module syslines.
Record syslines := mk {
  sysprcline : list printpair.printpair;
  allcpuline : list printpair.printpair;
  indivcpuline : list printpair.printpair;
  cplline : list printpair.printpair;
  memline : list printpair.printpair;
  swpline : list printpair.printpair;
  pagline : list printpair.printpair;
  contline : list printpair.printpair;
  dskline : list printpair.printpair;
  nfsmountline : list printpair.printpair;
  nfcline : list printpair.printpair;
  nfsline : list printpair.printpair;
  nettransportline : list printpair.printpair;
  netnetline : list printpair.printpair;
  netinterfaceline : list printpair.printpair
}.
End syslines.

Definition SYSPRCLINE : string :=
  "PRCSYS:8 PRCUSER:8 BLANKBOX:0 PRCNPROC:7 PRCNRUNNING:5 PRCNSLEEPING:5 PRCNDSLEEPING:5 PRCNZOMBIE:5 PRCCLONES:4 BLANKBOX:0 PRCNNEXIT:6".
Definition ALLCPULINE : string :=
  "CPUSYS:9 CPUUSER:8 CPUIRQ:6 BLANKBOX:0 CPUIDLE:7 CPUWAIT:7 CPUSTEAL:2 CPUGUEST:3 BLANKBOX:0 CPUIPC:5 CPUCYCLE:4 CPUFREQ:4 CPUSCALE:4 ".
Definition INDIVCPULINE : string :=
  "CPUISYS:9 CPUIUSER:8 CPUIIRQ:6 BLANKBOX:0 CPUIIDLE:7 CPUIWAIT:7 CPUISTEAL:2 CPUIGUEST:3 BLANKBOX:0 CPUIIPC:5 CPUICYCLE:4 CPUIFREQ:4 CPUISCALE:4 ".
Definition CPLLINE : string :=
  "CPLAVG1:4 CPLAVG5:3 CPLAVG15:2 BLANKBOX:0 CPLCSW:6 CPLINTR:5 BLANKBOX:0 CPLNUMCPU:1".
Definition MEMLINE : string :=
  "MEMTOT:6 MEMFREE:7 MEMCACHE:5 MEMDIRTY:3 MEMBUFFER:5 MEMSLAB:5 RECSLAB:2 BLANKBOX:0 SHMEM:4 SHMRSS:3 SHMSWP:1 BLANKBOX:0 VMWBAL:4 BLANKBOX:0 HUPTOT:4 HUPUSE:3 ".
Definition SWPLINE : string :=
  "SWPTOT:3 SWPFREE:4 BLANKBOX:0 BLANKBOX:0 BLANKBOX:0 BLANKBOX:0 BLANKBOX:0 BLANKBOX:0 SWPCOMMITTED:5 SWPCOMMITLIM:6".
Definition PAGLINE : string :=
  "PAGSCAN:3 PAGSTEAL:3 PAGSTALL:1 BLANKBOX:0 BLANKBOX:0 BLANKBOX:0 BLANKBOX:0 BLANKBOX:0 PAGSWIN:3 PAGSWOUT:4".
Definition CONTLINE : string :=
  "CONTNAME:8 CONTNPROC:7 CONTCPU:6 CONTMEM:6 BLANKBOX:0 BLANKBOX:0 ".
Definition DSKLINE : string :=
  "DSKNAME:8 DSKBUSY:7 DSKNREAD:6 DSKNWRITE:6 DSKKBPERRD:4 DSKKBPERWR:4 DSKMBPERSECRD:5 DSKMBPERSECWR:5 DSKAVQUEUE:1 DSKAVIO:5".
Definition NFSMOUNTLINE : string :=
  "NFMPATH:8 NFMSERVER:8 NFMTOTREAD:8 NFMTOTWRITE:8 BLANKBOX:0 NFMNREAD:7 NFMNWRITE:6 BLANKBOX:0 NFMDREAD:5 NFMDWRITE:4 BLANKBOX:0 NFMMREAD:3 NFMMWRITE:2 BLANKBOX:0 BLANKBOX:0".
Definition NFCLINE : string :=
  "NFCRPCCNT:8 NFCRPCREAD:7 NFCRPCWRITE:7 NFCRPCRET:5 NFCRPCARF:5 BLANKBOX:0 BLANKBOX:0 BLANKBOX:0 BLANKBOX:0 BLANKBOX:0 ".
Definition NFSLINE : string :=
  "NFSRPCCNT:8 NFSRPCREAD:6 NFSRPCWRITE:6 BLANKBOX:0 NFSNRBYTES:7 NFSNWBYTES:7 BLANKBOX:0 NFSNETTCP:5 NFSNETUDP:5 BLANKBOX:0 NFSRCHITS:3 NFSRCMISS:2 NFSRCNOCA:1 BLANKBOX:0 NFSBADFMT:4 NFSBADAUT:4 NFSBADCLN:4 ".
Definition NETTRANSPORTLINE : string :=
  "NETTRANSPORT:9 NETTCPI:8 NETTCPO:8 NETUDPI:8 NETUDPO:8 NETTCPACTOPEN:6 NETTCPPASVOPEN:5 NETTCPRETRANS:4 NETTCPINERR:3 NETTCPORESET:2 NETUDPNOPORT:1 NETUDPINERR:3".
Definition NETNETLINE : string :=
  "NETNETWORK:5 NETIPI:4 NETIPO:4 NETIPFRW:4 NETIPDELIV:4 BLANKBOX:0 BLANKBOX:0 BLANKBOX:0 NETICMPIN:1 NETICMPOUT:1 ".
Definition NETINTERFACELINE : string :=
  "NETNAME:8 BLANKBOX:0 NETPCKI:7 NETPCKO:7 BLANKBOX:0 NETSPEEDMAX:5 NETSPEEDIN:6 NETSPEEDOUT:6 BLANKBOX:0 NETCOLLIS:2 NETMULTICASTIN:2 NETRCVERR:4 NETSNDERR:4 NETRCVDROP:3 NETSNDDROP:3".

(** A line that is not configured gets its built-in items. *)
Definition default_line (pairs : string) (defs : list sysdef.sysdef) (line : list printpair.printpair) :
  exitor (list printpair.printpair) :=
  match line with
  | [] => make_sys_prints MAXITEMS (chars pairs) (sysdef.configname <$> defs)
  | _ => Ret line
  end.

Definition built_in_lines (ls : syslines.syslines) : exitor syslines.syslines :=
  sysprcline ← default_line SYSPRCLINE prcsyspdefs ls.(syslines.sysprcline);
  allcpuline ← default_line ALLCPULINE cpusyspdefs ls.(syslines.allcpuline);
  indivcpuline ← default_line INDIVCPULINE cpisyspdefs ls.(syslines.indivcpuline);
  cplline ← default_line CPLLINE cplsyspdefs ls.(syslines.cplline);
  memline ← default_line MEMLINE memsyspdefs ls.(syslines.memline);
  swpline ← default_line SWPLINE swpsyspdefs ls.(syslines.swpline);
  pagline ← default_line PAGLINE pagsyspdefs ls.(syslines.pagline);
  contline ← default_line CONTLINE contsyspdefs ls.(syslines.contline);
  dskline ← default_line DSKLINE dsksyspdefs ls.(syslines.dskline);
  nfsmountline ← default_line NFSMOUNTLINE nfsmntsyspdefs ls.(syslines.nfsmountline);
  nfcline ← default_line NFCLINE nfcsyspdefs ls.(syslines.nfcline);
  nfsline ← default_line NFSLINE nfssyspdefs ls.(syslines.nfsline);
  nettransportline ← default_line NETTRANSPORTLINE nettranssyspdefs ls.(syslines.nettransportline);
  netnetline ← default_line NETNETLINE netnetsyspdefs ls.(syslines.netnetline);
  netinterfaceline ← default_line NETINTERFACELINE netintfsyspdefs ls.(syslines.netinterfaceline);
  Ret (syslines.mk sysprcline allcpuline indivcpuline cplline memline swpline pagline contline dskline
         nfsmountline nfcline nfsline nettransportline netnetline netinterfaceline).

(** ** Settings of the configuration file *)

Definition do_ownsysprcline (val : text) (ls : syslines.syslines) : exitor syslines.syslines :=
  line ← make_sys_prints MAXITEMS val (sysdef.configname <$> prcsyspdefs);
  Ret (syslines.mk
         line ls.(syslines.allcpuline) ls.(syslines.indivcpuline) ls.(syslines.cplline)
         ls.(syslines.memline) ls.(syslines.swpline) ls.(syslines.pagline) ls.(syslines.contline)
         ls.(syslines.dskline) ls.(syslines.nfsmountline) ls.(syslines.nfcline)
         ls.(syslines.nfsline) ls.(syslines.nettransportline) ls.(syslines.netnetline)
         ls.(syslines.netinterfaceline)).
Definition do_ownallcpuline (val : text) (ls : syslines.syslines) : exitor syslines.syslines :=
  line ← make_sys_prints MAXITEMS val (sysdef.configname <$> cpusyspdefs);
  Ret (syslines.mk
         ls.(syslines.sysprcline) line ls.(syslines.indivcpuline) ls.(syslines.cplline)
         ls.(syslines.memline) ls.(syslines.swpline) ls.(syslines.pagline) ls.(syslines.contline)
         ls.(syslines.dskline) ls.(syslines.nfsmountline) ls.(syslines.nfcline)
         ls.(syslines.nfsline) ls.(syslines.nettransportline) ls.(syslines.netnetline)
         ls.(syslines.netinterfaceline)).
Definition do_ownindivcpuline (val : text) (ls : syslines.syslines) : exitor syslines.syslines :=
  line ← make_sys_prints MAXITEMS val (sysdef.configname <$> cpisyspdefs);
  Ret (syslines.mk
         ls.(syslines.sysprcline) ls.(syslines.allcpuline) line ls.(syslines.cplline)
         ls.(syslines.memline) ls.(syslines.swpline) ls.(syslines.pagline) ls.(syslines.contline)
         ls.(syslines.dskline) ls.(syslines.nfsmountline) ls.(syslines.nfcline)
         ls.(syslines.nfsline) ls.(syslines.nettransportline) ls.(syslines.netnetline)
         ls.(syslines.netinterfaceline)).
Definition do_owncplline (val : text) (ls : syslines.syslines) : exitor syslines.syslines :=
  line ← make_sys_prints MAXITEMS val (sysdef.configname <$> cplsyspdefs);
  Ret (syslines.mk
         ls.(syslines.sysprcline) ls.(syslines.allcpuline) ls.(syslines.indivcpuline) line
         ls.(syslines.memline) ls.(syslines.swpline) ls.(syslines.pagline) ls.(syslines.contline)
         ls.(syslines.dskline) ls.(syslines.nfsmountline) ls.(syslines.nfcline)
         ls.(syslines.nfsline) ls.(syslines.nettransportline) ls.(syslines.netnetline)
         ls.(syslines.netinterfaceline)).
Definition do_ownmemline (val : text) (ls : syslines.syslines) : exitor syslines.syslines :=
  line ← make_sys_prints MAXITEMS val (sysdef.configname <$> memsyspdefs);
  Ret (syslines.mk
         ls.(syslines.sysprcline) ls.(syslines.allcpuline) ls.(syslines.indivcpuline)
         ls.(syslines.cplline) line ls.(syslines.swpline) ls.(syslines.pagline)
         ls.(syslines.contline) ls.(syslines.dskline) ls.(syslines.nfsmountline)
         ls.(syslines.nfcline) ls.(syslines.nfsline) ls.(syslines.nettransportline)
         ls.(syslines.netnetline) ls.(syslines.netinterfaceline)).
Definition do_ownswpline (val : text) (ls : syslines.syslines) : exitor syslines.syslines :=
  line ← make_sys_prints MAXITEMS val (sysdef.configname <$> swpsyspdefs);
  Ret (syslines.mk
         ls.(syslines.sysprcline) ls.(syslines.allcpuline) ls.(syslines.indivcpuline)
         ls.(syslines.cplline) ls.(syslines.memline) line ls.(syslines.pagline)
         ls.(syslines.contline) ls.(syslines.dskline) ls.(syslines.nfsmountline)
         ls.(syslines.nfcline) ls.(syslines.nfsline) ls.(syslines.nettransportline)
         ls.(syslines.netnetline) ls.(syslines.netinterfaceline)).
Definition do_ownpagline (val : text) (ls : syslines.syslines) : exitor syslines.syslines :=
  line ← make_sys_prints MAXITEMS val (sysdef.configname <$> pagsyspdefs);
  Ret (syslines.mk
         ls.(syslines.sysprcline) ls.(syslines.allcpuline) ls.(syslines.indivcpuline)
         ls.(syslines.cplline) ls.(syslines.memline) ls.(syslines.swpline) line
         ls.(syslines.contline) ls.(syslines.dskline) ls.(syslines.nfsmountline)
         ls.(syslines.nfcline) ls.(syslines.nfsline) ls.(syslines.nettransportline)
         ls.(syslines.netnetline) ls.(syslines.netinterfaceline)).
Definition do_owndskline (val : text) (ls : syslines.syslines) : exitor syslines.syslines :=
  line ← make_sys_prints MAXITEMS val (sysdef.configname <$> dsksyspdefs);
  Ret (syslines.mk
         ls.(syslines.sysprcline) ls.(syslines.allcpuline) ls.(syslines.indivcpuline)
         ls.(syslines.cplline) ls.(syslines.memline) ls.(syslines.swpline) ls.(syslines.pagline)
         ls.(syslines.contline) line ls.(syslines.nfsmountline) ls.(syslines.nfcline)
         ls.(syslines.nfsline) ls.(syslines.nettransportline) ls.(syslines.netnetline)
         ls.(syslines.netinterfaceline)).
Definition do_ownnettransportline (val : text) (ls : syslines.syslines) : exitor syslines.syslines :=
  line ← make_sys_prints MAXITEMS val (sysdef.configname <$> nettranssyspdefs);
  Ret (syslines.mk
         ls.(syslines.sysprcline) ls.(syslines.allcpuline) ls.(syslines.indivcpuline)
         ls.(syslines.cplline) ls.(syslines.memline) ls.(syslines.swpline) ls.(syslines.pagline)
         ls.(syslines.contline) ls.(syslines.dskline) ls.(syslines.nfsmountline)
         ls.(syslines.nfcline) ls.(syslines.nfsline) line ls.(syslines.netnetline)
         ls.(syslines.netinterfaceline)).
Definition do_ownnetnetline (val : text) (ls : syslines.syslines) : exitor syslines.syslines :=
  line ← make_sys_prints MAXITEMS val (sysdef.configname <$> netnetsyspdefs);
  Ret (syslines.mk
         ls.(syslines.sysprcline) ls.(syslines.allcpuline) ls.(syslines.indivcpuline)
         ls.(syslines.cplline) ls.(syslines.memline) ls.(syslines.swpline) ls.(syslines.pagline)
         ls.(syslines.contline) ls.(syslines.dskline) ls.(syslines.nfsmountline)
         ls.(syslines.nfcline) ls.(syslines.nfsline) ls.(syslines.nettransportline) line
         ls.(syslines.netinterfaceline)).
Definition do_ownnetinterfaceline (val : text) (ls : syslines.syslines) : exitor syslines.syslines :=
  line ← make_sys_prints MAXITEMS val (sysdef.configname <$> netintfsyspdefs);
  Ret (syslines.mk
         ls.(syslines.sysprcline) ls.(syslines.allcpuline) ls.(syslines.indivcpuline)
         ls.(syslines.cplline) ls.(syslines.memline) ls.(syslines.swpline) ls.(syslines.pagline)
         ls.(syslines.contline) ls.(syslines.dskline) ls.(syslines.nfsmountline)
         ls.(syslines.nfcline) ls.(syslines.nfsline) ls.(syslines.nettransportline)
         ls.(syslines.netnetline) line).

(** ** Printing lines *)

(** The sample, the static variable of [sysprt_PRCNNEXIT], the text so far,
    [curline], [highbadness] and [*highorderp]. *)
Module display.
Record display := mk {
  sample : sstat.sstat;
  firstcall : bool;
  out : text;
  curline : Z;
  highbadness : Z;
  highorder : Z
}.
End display.

Definition displayed (t : text) (st : sysst.sysst) (d : display.display) : display.display :=
  display.mk (default d.(display.sample) st.(sysst.sample)) st.(sysst.firstcall) (d.(display.out) ++ t)
    d.(display.curline) d.(display.highbadness) d.(display.highorder).

(** A line, with the pointer to the sample or a null pointer. *)
Definition sysline (sample : option sstat.sstat) (e : sysenv.sysenv) (defs : list sysdef.sysdef)
    (line : list printpair.printpair) (x : extraparam.extraparam) (labeltext : string) (badness : Z)
    (d : display.display) : option display.display :=
  '(t, st) ← showsysline e defs line x labeltext badness (sysst.mk sample 0 d.(display.firstcall));
  Some (displayed t st d).

(** [curline++] *)
Definition next_line (d : display.display) : display.display :=
  display.mk d.(display.sample) d.(display.firstcall) d.(display.out) (i32 (d.(display.curline) + 1))
    d.(display.highbadness) d.(display.highorder).

Definition line_of (e : sysenv.sysenv) (defs : list sysdef.sysdef) (line : list printpair.printpair)
    (x : extraparam.extraparam) (labeltext : string) (badness : Z) (d : display.display) : option display.display :=
  next_line <$> sysline (Some d.(display.sample)) e defs line x labeltext badness d.

(** [if (highbadness < badness)] *)
Definition raise_badness (badness order : Z) (d : display.display) : display.display :=
  if d.(display.highbadness) <? badness then
    display.mk d.(display.sample) d.(display.firstcall) d.(display.out) d.(display.curline) badness order
  else d.

(** A [double] as a [count_t]: the fraction is cut off; what does not fit, and
    what is no number, gives the smallest integer on this processor. *)
Definition count_of (x : Z * Z) : Z :=
  let v := Z.quot x.1 x.2 in
  if (x.2 =? 0) || (v <? - 2 ^ 63) || (2 ^ 63 <=? v) then - 2 ^ 63 else v.

(** [part * 100.0 / whole] *)
Definition busy_of (part whole : Z) : Z := count_of (dbl_div (dbl_mul (dbl part 1) 100) (dbl whole 1)).

(** The badness, an [unsigned int], of a percentage against its critical value. *)
Definition badness_of (busy crit : Z) : Z :=
  if crit =? 0 then 0 else u32 (Z.quot (i64 (busy * 100)) crit).

(** ** The extra parameters *)

Definition with_index (i : Z) (x : extraparam.extraparam) : extraparam.extraparam :=
  extraparam.mk x.(extraparam.totut) x.(extraparam.totst) x.(extraparam.nact) x.(extraparam.nproc)
    x.(extraparam.ntrun) x.(extraparam.ntslpi) x.(extraparam.ntslpu) x.(extraparam.nzomb) x.(extraparam.nexit)
    x.(extraparam.noverflow) x.(extraparam.avgval) x.(extraparam.nsecs) x.(extraparam.mstot) x.(extraparam.iotot)
    x.(extraparam.perdsk) i x.(extraparam.cputot) x.(extraparam.percputot).
Definition with_percputot (v : Z) (x : extraparam.extraparam) : extraparam.extraparam :=
  extraparam.mk x.(extraparam.totut) x.(extraparam.totst) x.(extraparam.nact) x.(extraparam.nproc)
    x.(extraparam.ntrun) x.(extraparam.ntslpi) x.(extraparam.ntslpu) x.(extraparam.nzomb) x.(extraparam.nexit)
    x.(extraparam.noverflow) x.(extraparam.avgval) x.(extraparam.nsecs) x.(extraparam.mstot) x.(extraparam.iotot)
    x.(extraparam.perdsk) x.(extraparam.index) x.(extraparam.cputot) v.
Definition with_totals (nsecs avgval cputot percputot : Z) (x : extraparam.extraparam) : extraparam.extraparam :=
  extraparam.mk x.(extraparam.totut) x.(extraparam.totst) x.(extraparam.nact) x.(extraparam.nproc)
    x.(extraparam.ntrun) x.(extraparam.ntslpi) x.(extraparam.ntslpu) x.(extraparam.nzomb) x.(extraparam.nexit)
    x.(extraparam.noverflow) avgval nsecs x.(extraparam.mstot) x.(extraparam.iotot)
    x.(extraparam.perdsk) x.(extraparam.index) cputot percputot.
Definition with_mstot (v : Z) (x : extraparam.extraparam) : extraparam.extraparam :=
  extraparam.mk x.(extraparam.totut) x.(extraparam.totst) x.(extraparam.nact) x.(extraparam.nproc)
    x.(extraparam.ntrun) x.(extraparam.ntslpi) x.(extraparam.ntslpu) x.(extraparam.nzomb) x.(extraparam.nexit)
    x.(extraparam.noverflow) x.(extraparam.avgval) x.(extraparam.nsecs) v x.(extraparam.iotot)
    x.(extraparam.perdsk) x.(extraparam.index) x.(extraparam.cputot) x.(extraparam.percputot).
Definition with_disk (disks : list perdsk.perdsk) (i iotot : Z) (x : extraparam.extraparam) : extraparam.extraparam :=
  extraparam.mk x.(extraparam.totut) x.(extraparam.totst) x.(extraparam.nact) x.(extraparam.nproc)
    x.(extraparam.ntrun) x.(extraparam.ntslpi) x.(extraparam.ntslpu) x.(extraparam.nzomb) x.(extraparam.nexit)
    x.(extraparam.noverflow) x.(extraparam.avgval) x.(extraparam.nsecs) x.(extraparam.mstot) iotot
    disks i x.(extraparam.cputot) x.(extraparam.percputot).

(** ** The line of the processes: [pricumproc] *)

(** The first [n] entries of [procactive], in [taskall]. *)
Fixpoint cpu_sums (n : nat) (taskall : list tstat.tstat) (procactive : list (option nat)) (totut totst : Z) :
  option (Z * Z) :=
  match n with
  | O => Some (totut, totst)
  | S n =>
      match procactive with
      | Some k :: procactive =>
          t ← taskall !! k;
          cpu_sums n taskall procactive (totut +64 t.(tstat.cpu).(tcpu.utime)) (totst +64 t.(tstat.cpu).(tcpu.stime))
      | _ => None
      end
  end.

(** [x] is the uninitialised local variable. *)
Definition pricumproc (e : sysenv.sysenv) (ls : syslines.syslines) (devtstat : devtstat.devtstat)
    (nexit noverflow avgval nsecs : Z) (x : extraparam.extraparam) (d : display.display) : option display.display :=
  '(totut, totst) ← cpu_sums (Z.to_nat devtstat.(devtstat.nprocactive)) devtstat.(devtstat.taskall)
                      devtstat.(devtstat.procactive) 0 0;
  let x :=
    extraparam.mk totut totst x.(extraparam.nact) (i32 devtstat.(devtstat.nprocall))
      (i32 devtstat.(devtstat.totrun)) (i32 devtstat.(devtstat.totslpi)) (i32 devtstat.(devtstat.totslpu))
      (i32 devtstat.(devtstat.totzombie)) nexit (i32 noverflow) avgval nsecs x.(extraparam.mstot)
      x.(extraparam.iotot) x.(extraparam.perdsk) x.(extraparam.index) x.(extraparam.cputot) x.(extraparam.percputot) in
  sysline (Some d.(display.sample)) e prcsyspdefs ls.(syslines.sysprcline) x "PRC" 0 d.

(** ** The lines of the resources: [prisyst] *)

Definition cpu_total (p : percpu.percpu) : Z :=
  p.(percpu.stime) +64 p.(percpu.utime) +64 p.(percpu.ntime) +64 p.(percpu.itime) +64
  p.(percpu.wtime) +64 p.(percpu.Itime) +64 p.(percpu.Stime) +64 p.(percpu.steal).

Definition cpu_busy (p : percpu.percpu) (tot : Z) : Z :=
  busy_of (tot -64 p.(percpu.itime) -64 p.(percpu.wtime)) tot.

Definition or_one (v : Z) : Z := if v =? 0 then 1 else v.

(** The selection of the names ([regexec]) and the maximum numbers of lines. *)
Module sysselect.
Record sysselect := mk {
  lvmregex : option (text -> bool);
  dskregex : option (text -> bool);
  itfregex : option (text -> bool);
  maxcpulines : Z;
  maxdsklines : Z;
  maxmddlines : Z;
  maxlvmlines : Z;
  maxintlines : Z;
  maxnfslines : Z;
  maxcontlines : Z
}.
End sysselect.

Definition suppressed (regex : option (text -> bool)) (name : string) : bool :=
  match regex with Some selected => negb (selected (chars name)) | None => false end.

Section prisyst.
Context (e : sysenv.sysenv) (b : badness.badness) (ls : syslines.syslines) (sel : sysselect.sysselect).
Context (fixedhead : bool).

(** Processor [i] and the [n - 1] after it. *)
Fixpoint cpu_lines (n : nat) (i lin : Z) (x : extraparam.extraparam) (d : display.display) :
  option (extraparam.extraparam * display.display) :=
  match n with
  | O => Some (with_index i x, d)
  | S n =>
      if lin <? sel.(sysselect.maxcpulines) then
        p ← at_index d.(display.sample).(sstat.cpu).(cpustat.cpu) i;
        let tot := cpu_total p in
        if (tot =? (p.(percpu.itime) +64 p.(percpu.wtime))) && negb fixedhead then
          cpu_lines n (i + 1) lin (with_percputot tot x) d
        else
          let badness := badness_of (cpu_busy p tot) b.(badness.cpubadness) in
          let x := with_percputot (or_one tot) (with_index i x) in
          d ← line_of e cpisyspdefs ls.(syslines.indivcpuline) x "cpu" badness (raise_badness badness MSORTCPU d);
          cpu_lines n (i + 1) (lin + 1) x d
      else Some (with_index i x, d)
  end.

Definition prisyst_cpu (nsecs avgval : Z) (x : extraparam.extraparam) (d : display.display) :
  option (extraparam.extraparam * display.display) :=
  let cpu := d.(display.sample).(sstat.cpu) in
  let cputot := cpu_total cpu.(cpustat.all) in
  let badness := badness_of (cpu_busy cpu.(cpustat.all) cputot) b.(badness.cpubadness) in
  percputot ← cdiv (or_one cputot) cpu.(cpustat.nrcpu);
  let x := with_totals nsecs avgval (or_one cputot) (or_one percputot) x in
  d ← line_of e cpusyspdefs ls.(syslines.allcpuline) x "CPU" badness (raise_badness badness MSORTCPU d);
  '(x, d) ← (if 1 <? cpu.(cpustat.nrcpu) then cpu_lines (Z.to_nat cpu.(cpustat.nrcpu)) 0 0 x d else Some (x, d));
  d ← line_of e cplsyspdefs ls.(syslines.cplline) x "CPL" 0 d;
  Some (x, d).

Definition prisyst_mem (x : extraparam.extraparam) (d : display.display) : option display.display :=
  let m := d.(display.sample).(sstat.mem) in
  let used := m.(memstat.physmem) -64 m.(memstat.freemem) -64 m.(memstat.cachemem) -64
              m.(memstat.buffermem) -64 m.(memstat.slabreclaim) +64 m.(memstat.shmem) in
  let badness := badness_of (busy_of used m.(memstat.physmem)) b.(badness.membadness) in
  line_of e memsyspdefs ls.(syslines.memline) x "MEM" badness (raise_badness badness MSORTMEM d).

Definition prisyst_swap (x : extraparam.extraparam) (d : display.display) : option display.display :=
  let m := d.(display.sample).(sstat.mem) in
  let badness := badness_of (busy_of (m.(memstat.totswap) -64 m.(memstat.freeswap)) m.(memstat.totswap))
                   b.(badness.swpbadness) in
  line_of e swpsyspdefs ls.(syslines.swpline) x "SWP" badness (raise_badness badness MSORTMEM d).

Definition prisyst_paging (nsecs : Z) (x : extraparam.extraparam) (d : display.display) : option display.display :=
  let m := d.(display.sample).(sstat.mem) in
  if fixedhead || negb (m.(memstat.pgscans) =? 0) || negb (m.(memstat.pgsteal) =? 0) ||
     negb (m.(memstat.allocstall) =? 0) || negb (m.(memstat.swins) =? 0) || negb (m.(memstat.swouts) =? 0) then
    persec ← cdiv m.(memstat.swouts) nsecs;
    let busy := Z.min (i64 (persec * b.(badness.pagbadness))) 100 in
    let badness := badness_of busy b.(badness.membadness) in
    let d := raise_badness badness MSORTMEM d in
    let almost := u32 b.(badness.almostcrit) in
    let badness := if (0 <? persec) && negb (b.(badness.pagbadness) =? 0) && negb (almost =? 0) && (badness <? almost)
                   then almost else badness in
    line_of e pagsyspdefs ls.(syslines.pagline) x "PAG" badness d
  else Some d.

(** A loop over an array in which a condition selects the elements that get a
    line: [n] elements from [i] on. *)
Fixpoint element_lines {A} (n : nat) (maxlines i lin : Z) (get : display.display -> list A) (shown : A -> bool)
    (defs : list sysdef.sysdef) (line : list printpair.printpair) (label : string)
    (x : extraparam.extraparam) (d : display.display) : option (extraparam.extraparam * display.display) :=
  match n with
  | O => Some (with_index i x, d)
  | S n =>
      if lin <? maxlines then
        a ← at_index (get d) i;
        if shown a then
          d ← line_of e defs line (with_index i x) label 0 d;
          element_lines n maxlines (i + 1) (lin + 1) get shown defs line label x d
        else element_lines n maxlines (i + 1) lin get shown defs line label x d
      else Some (with_index i x, d)
  end.

Definition cont_shown (c : percontainer.percontainer) : bool :=
  fixedhead || negb (c.(percontainer.system) =? 0) || negb (c.(percontainer.user) =? 0) ||
  negb (c.(percontainer.nice) =? 0).

Definition prisyst_cont (x : extraparam.extraparam) (d : display.display) :
  option (extraparam.extraparam * display.display) :=
  element_lines (Z.to_nat d.(display.sample).(sstat.cfs).(contstat.nrcontainer)) sel.(sysselect.maxcontlines) 0 0
    (fun d => d.(display.sample).(sstat.cfs).(contstat.cont)) cont_shown
    contsyspdefs ls.(syslines.contline) "CON" x d.

Definition mount_shown (nsecs : Z) (m : pernfsmount.pernfsmount) : bool :=
  negb (nfs_used m =? 0) || (m.(pernfsmount.age) <? nsecs) || fixedhead.

Definition prisyst_nfs (nsecs : Z) (x : extraparam.extraparam) (d : display.display) :
  option (extraparam.extraparam * display.display) :=
  let nfs := d.(display.sample).(sstat.nfs) in
  '(x, d) ← element_lines (Z.to_nat nfs.(nfsstat.nfsmounts).(nfsmounts.nrmounts)) sel.(sysselect.maxnfslines) 0 0
              (fun d => d.(display.sample).(sstat.nfs).(nfsstat.nfsmounts).(nfsmounts.nfsmnt)) (mount_shown nsecs)
              nfsmntsyspdefs ls.(syslines.nfsmountline) "NFM" x d;
  d ← (if negb (nfs.(nfsstat.client).(nfsclient.rpccnt) =? 0) || fixedhead
       then line_of e nfcsyspdefs ls.(syslines.nfcline) x "NFC" 0 d else Some d);
  d ← (if negb (nfs.(nfsstat.server).(nfsserver.rpccnt) =? 0) || fixedhead
       then line_of e nfssyspdefs ls.(syslines.nfsline) x "NFS" 0 d else Some d);
  Some (x, d).

(** Disk-like devices from [i] on: [n] bounds the array. *)
Fixpoint pridisklike (n : nat) (i lin : Z) (disks : list perdsk.perdsk) (label : string) (maxlines : Z)
    (regex : option (text -> bool)) (x : extraparam.extraparam) (d : display.display) :
  option (extraparam.extraparam * display.display) :=
  match n with
  | O => None
  | S n =>
      dk ← at_index disks i;
      if str_nonempty dk.(perdsk.name) && (lin <? maxlines) then
        if suppressed regex dk.(perdsk.name) then pridisklike n (i + 1) lin disks label maxlines regex x d
        else
          let iotot := dk.(perdsk.nread) +64 dk.(perdsk.nwrite) in
          let x := with_disk disks i iotot x in
          let badness := badness_of (busy_of dk.(perdsk.io_ms) x.(extraparam.mstot)) b.(badness.dskbadness) in
          let d := if flag e.(sysenv.supportflags) IOSTAT then raise_badness badness MSORTDSK d else d in
          if negb (iotot =? 0) || fixedhead then
            d ← next_line <$> sysline None e dsksyspdefs ls.(syslines.dskline) x label badness d;
            pridisklike n (i + 1) (lin + 1) disks label maxlines regex x d
          else pridisklike n (i + 1) lin disks label maxlines regex x d
      else Some (with_disk disks i x.(extraparam.iotot) x, d)
  end.

Definition disk_lines (disks : list perdsk.perdsk) := pridisklike (S (length disks)) 0 0 disks.

Definition prisyst_disk (x : extraparam.extraparam) (d : display.display) :
  option (extraparam.extraparam * display.display) :=
  let s := d.(display.sample) in
  ms ← cdiv (i64 (x.(extraparam.cputot) * 1000)) e.(sysenv.hertz);
  mstot ← cdiv ms s.(sstat.cpu).(cpustat.nrcpu);
  let x := with_mstot mstot x in
  '(x, d) ← disk_lines s.(sstat.dsk).(dskstat.lvm) "LVM" sel.(sysselect.maxlvmlines) sel.(sysselect.lvmregex) x d;
  '(x, d) ← disk_lines s.(sstat.dsk).(dskstat.mdd) "MDD" sel.(sysselect.maxmddlines) None x d;
  disk_lines s.(sstat.dsk).(dskstat.dsk) "DSK" sel.(sysselect.maxdsklines) sel.(sysselect.dskregex) x d.

(** Interfaces from [i] on. *)
Fixpoint interface_lines (n : nat) (i lin nsecs : Z) (x : extraparam.extraparam) (d : display.display) :
  option (extraparam.extraparam * display.display) :=
  match n with
  | O => None
  | S n =>
      f ← at_index d.(display.sample).(sstat.intf).(intfstat.intf) i;
      if str_nonempty f.(perintf.name) && (lin <? sel.(sysselect.maxintlines)) then
        if negb (f.(perintf.rpack) =? 0) || negb (f.(perintf.spack) =? 0) || fixedhead then
          if suppressed sel.(sysselect.itfregex) f.(perintf.name) then interface_lines n (i + 1) lin nsecs x d
          else
            ival ← bandwidth f.(perintf.rbyte) nsecs;
            oval ← bandwidth f.(perintf.sbyte) nsecs;
            busy ← (if f.(perintf.speed) =? 0 then Some 0 else intf_busy f ival oval);
            let badness := badness_of busy b.(badness.netbadness) in
            let d := if flag e.(sysenv.supportflags) NETATOP then raise_badness badness MSORTNET d else d in
            d ← line_of e netintfsyspdefs ls.(syslines.netinterfaceline) (with_index i x) "NET" badness d;
            interface_lines n (i + 1) (lin + 1) nsecs x d
        else interface_lines n (i + 1) lin nsecs x d
      else Some (with_index i x, d)
  end.

Definition transport_shown (s : sstat.sstat) : bool :=
  let n := s.(sstat.net) in
  negb (n.(netstat.tcp).(tcp_stats.InSegs) =? 0) || negb (n.(netstat.tcp).(tcp_stats.OutSegs) =? 0) ||
  negb (n.(netstat.udpv4).(udpv4_stats.InDatagrams) =? 0) ||
  negb (n.(netstat.udpv6).(udpv6_stats.Udp6InDatagrams) =? 0) ||
  negb (n.(netstat.udpv4).(udpv4_stats.OutDatagrams) =? 0) ||
  negb (n.(netstat.udpv6).(udpv6_stats.Udp6OutDatagrams) =? 0) || fixedhead.

Definition ip_shown (s : sstat.sstat) : bool :=
  let n := s.(sstat.net) in
  negb (n.(netstat.ipv4).(ipv4_stats.InReceives) =? 0) || negb (n.(netstat.ipv6).(ipv6_stats.Ip6InReceives) =? 0) ||
  negb (n.(netstat.ipv4).(ipv4_stats.OutRequests) =? 0) ||
  negb (n.(netstat.ipv6).(ipv6_stats.Ip6OutRequests) =? 0) || fixedhead.

Definition prisyst_net (nsecs : Z) (x : extraparam.extraparam) (d : display.display) :
  option (extraparam.extraparam * display.display) :=
  let s := d.(display.sample) in
  d ← (if transport_shown s then line_of e nettranssyspdefs ls.(syslines.nettransportline) x "NET" 0 d else Some d);
  d ← (if ip_shown s then line_of e netnetsyspdefs ls.(syslines.netnetline) x "NET" 0 d else Some d);
  interface_lines (S (length s.(sstat.intf).(intfstat.intf))) 0 0 nsecs x d.

(** The order of a system that is hardly loaded. *)
Definition settle_order (d : display.display) : display.display :=
  if (d.(display.highbadness) <? 70) && (d.(display.highorder) =? MSORTMEM) then
    display.mk d.(display.sample) d.(display.firstcall) d.(display.out) d.(display.curline)
      d.(display.highbadness) MSORTCPU
  else d.

Definition start_badness (d : display.display) : display.display :=
  display.mk d.(display.sample) d.(display.firstcall) d.(display.out) d.(display.curline) 0 d.(display.highorder).

(** [x] is the uninitialised local variable. *)
Definition prisyst (nsecs avgval : Z) (x : extraparam.extraparam) (d : display.display) : option display.display :=
  '(x, d) ← prisyst_cpu nsecs avgval x (start_badness d);
  d ← prisyst_mem x d;
  d ← prisyst_swap x d;
  d ← prisyst_paging nsecs x d;
  '(x, d) ← prisyst_cont x d;
  '(x, d) ← prisyst_disk x d;
  '(x, d) ← prisyst_nfs nsecs x d;
  '(x, d) ← prisyst_net nsecs x d;
  Some (settle_order d).
End prisyst.
