(* ===== verification/PrisystFacts.v ===== *)
(** * Which resource is the most critical one

    [prisyst] collects the highest badness and the sort order that belongs to
    it; every step can only raise it. *)
From Stdlib Require Import Ascii.
From S2P Require Import Prelude Format Printf Various Sscanf Tstat Sstat SstatStores Showprocs Showline Prihead Showsys SyslineFacts Prisyst.

(** ** Items that leave the sample *)

Definition keeps {A} (m : M A) : Prop :=
  forall st a st', m st = Some (a, st') -> st'.(sysst.sample) = st.(sysst.sample).

#[local] Open Scope c_scope.

Create HintDb keeps.

Lemma keeps_bind {A B} (m : M A) (f : A -> M B) : keeps m -> (forall a, keeps (f a)) -> keeps (mbind (M := M) f m).
Proof.
  intros Hm Hf st b st' E. unfold mbind, M_bind in E. destruct (m st) as [[a st1]|] eqn:E1; [|done].
  rewrite (Hf _ _ _ _ E). by eapply Hm.
Qed.
Lemma keeps_ret {A} (a : A) : keeps (mret a).
Proof. intros st b st' E. by injection E as _ <-. Qed.
Lemma keeps_lift {A} (o : option A) : keeps (lift o).
Proof. intros st b st' E. unfold lift in E. destruct o; [|done]. by injection E as _ <-. Qed.
Lemma keeps_sample : keeps sample.
Proof. intros st b st' E. unfold sample in E. by eapply keeps_lift. Qed.
Lemma keeps_setcolor c : keeps (setcolor c).
Proof. intros st b st' E. by injection E as _ <-. Qed.
Lemma keeps_if {A} (c : bool) (m1 m2 : M A) : keeps m1 -> keeps m2 -> keeps (if c then m1 else m2).
Proof. by destruct c. Qed.
Lemma keeps_buffer size init off t : keeps (buffer size init off t).
Proof.
  unfold buffer. apply keeps_bind; [apply keeps_lift|]. intros a. apply keeps_if; [apply keeps_ret | apply keeps_lift].
Qed.

#[export] Hint Resolve keeps_ret keeps_lift keeps_sample keeps_setcolor keeps_buffer : keeps.

Ltac keeps_steps :=
  repeat first
    [ progress cbv zeta | progress auto with keeps
    | apply keeps_bind; [|intros ?]
    | apply keeps_if
    | match goal with
      | |- keeps (let '(_, _) := ?p in _) => destruct p
      | |- keeps (cpu_at _) => unfold cpu_at
      | |- keeps (float_perc _ _ _) => unfold float_perc
      | |- keeps (double_perc _ _ _) => unfold double_perc
      end ].

Definition keeping (d : sysdef.sysdef) : Prop := forall e x badness, keeps (d.(sysdef.doconvert) e x badness).

Lemma cpu_items_keep : Forall keeping (cpusyspdefs ++ cpisyspdefs ++ cplsyspdefs ++ memsyspdefs).
Proof.
  unfold cpusyspdefs, cpisyspdefs, cplsyspdefs, memsyspdefs. cbn [app].
  repeat (apply Forall_cons; split;
    [ match goal with |- keeping ?d => unfold d end; intros e x badness; cbn [sysdef.doconvert];
      match goal with |- keeps (?p _ _ _) => unfold p end; keeps_steps |]).
  apply Forall_nil. done.
Qed.

Lemma print_items_keep e defs x badness si sc elems iu cu : Forall keeping defs ->
  keeps (print_items e defs x badness si sc elems iu cu).
Proof.
  intros HF. revert iu cu. induction elems as [|el elems IH]; intros iu cu; cbn [print_items]; [auto with keeps|].
  intros st t st' E. unfold mbind at 1, M_bind at 1, lift at 1 in E.
  destruct (defs !! el.(printpair.f)) as [d|] eqn:Hd; [|done].
  pose proof (proj1 (Forall_lookup _ _) HF _ _ Hd) as Hk.
  revert E. apply keeps_bind; [auto with keeps|]. intros [b1 cu1].
  apply keeps_bind; [auto with keeps|]. intros _. apply keeps_bind; [apply Hk|]. intros itemp. cbv zeta.
  apply keeps_bind; [auto with keeps|]. intros [[boxes iu2] cu2].
  apply keeps_bind; [auto with keeps|]. intros [b2 cu3].
  apply keeps_bind; [apply IH|]. auto with keeps.
Qed.

Lemma showsysline_keeps e defs elemptr x label badness : Forall keeping defs ->
  keeps (showsysline e defs elemptr x label badness).
Proof.
  intros HF. unfold showsysline. cbv zeta. apply keeps_bind; [auto with keeps|]. intros kept.
  apply keeps_bind; [by apply print_items_keep|]. auto with keeps.
Qed.

(** ** Steps *)

Lemma raise_badness_same bn order d :
  let d' := raise_badness bn order d in
  d'.(display.sample) = d.(display.sample) /\ d'.(display.out) = d.(display.out) /\
  d'.(display.curline) = d.(display.curline).
Proof. unfold raise_badness. by destruct (_ <? _). Qed.

(** The orders of processes. *)
Definition sort_orders : list Z := [MSORTCPU; MSORTMEM; MSORTDSK; MSORTNET].
Definition ordered (d : display.display) : Prop := d.(display.highorder) ∈ sort_orders.

(** The highest badness does not go down, the order changes only with it, and it
    stays an order of processes. *)
Definition rises (d d' : display.display) : Prop :=
  (d.(display.highbadness) <= d'.(display.highbadness) /\ (ordered d -> ordered d')) /\
  (d'.(display.highbadness) = d.(display.highbadness) -> d'.(display.highorder) = d.(display.highorder)).

#[export] Instance rises_refl : Reflexive rises.
Proof. intros d. split; [split; [lia | auto] | auto]. Qed.
#[export] Instance rises_trans : Transitive rises.
Proof.
  intros d1 d2 d3 [[H1 S1] O1] [[H2 S2] O2]. split; [split; [lia | auto]|]. intros E. rewrite O2 by lia. apply O1. lia.
Qed.

Lemma rises_badness d d' : rises d d' -> d.(display.highbadness) <= d'.(display.highbadness).
Proof. by intros [[H _] _]. Qed.

(** A key of the four orders is one of them. *)
Ltac an_order := unfold sort_orders; repeat first [apply list_elem_of_here | apply list_elem_of_further].

Lemma raise_rises bn order d : order ∈ sort_orders ->
  rises d (raise_badness bn order d) /\ bn <= (raise_badness bn order d).(display.highbadness).
Proof.
  intros Ho. unfold raise_badness, rises, ordered. destruct (Z.ltb_spec d.(display.highbadness) bn); cbn;
    (repeat split; try lia; auto).
Qed.

Lemma sysline_rises smp e defs line x label bn d d' :
  sysline smp e defs line x label bn d = Some d' ->
  rises d d' /\ d'.(display.highbadness) = d.(display.highbadness).
Proof.
  unfold sysline. destruct (showsysline _ _ _ _ _ _ _) as [[t st]|]; cbn; [|done]. intros E. by injection E as <-.
Qed.

Lemma line_of_rises e defs line x label bn d d' :
  line_of e defs line x label bn d = Some d' -> rises d d'.
Proof.
  unfold line_of. destruct (sysline _ _ _ _ _ _ _ _) as [d1|] eqn:E; cbn; [|done]. intros H. injection H as <-.
  apply sysline_rises in E as [E _]. etransitivity; [exact E|]. split; [split; cbn; [lia | auto] | done].
Qed.

Lemma line_of_keeps e defs line x label bn d d' : Forall keeping defs ->
  line_of e defs line x label bn d = Some d' -> d'.(display.sample) = d.(display.sample).
Proof.
  intros HF. unfold line_of, sysline. destruct (showsysline _ _ _ _ _ _ _) as [[t st]|] eqn:E; cbn; [|done].
  intros H. injection H as <-. pose proof (showsysline_keeps e defs line x label bn HF _ _ _ E) as Hk.
  cbn in Hk. unfold next_line, displayed. cbn. by rewrite Hk.
Qed.

Section steps.
Context (e : sysenv.sysenv) (b : badness.badness) (ls : syslines.syslines) (sel : sysselect.sysselect).
Context (fixedhead : bool).

Lemma cpu_lines_rises n i lin x d x' d' : cpu_lines e b ls sel fixedhead n i lin x d = Some (x', d') -> rises d d'.
Proof.
  revert i lin x d. induction n as [|n IH]; intros i lin x d; cbn [cpu_lines]; [intros E; by injection E as _ <-|].
  destruct (_ <? _); [|intros E; by injection E as _ <-].
  destruct (at_index _ i) as [p|]; cbn [mbind option_bind]; [|done]. destruct (_ && _); [apply IH|].
  destruct (line_of _ _ _ _ _ _ _) as [d1|] eqn:E1; cbn [mbind option_bind]; [|done]. intros E. apply IH in E.
  etransitivity; [|exact E]. etransitivity; [apply raise_rises; an_order | by eapply line_of_rises].
Qed.

Lemma cpu_lines_keep n i lin x d x' d' : cpu_lines e b ls sel fixedhead n i lin x d = Some (x', d') ->
  d'.(display.sample) = d.(display.sample).
Proof.
  pose proof cpu_items_keep as HF. apply Forall_app in HF as [_ HF]. apply Forall_app in HF as [HF _].
  revert i lin x d. induction n as [|n IH]; intros i lin x d; cbn [cpu_lines]; [intros E; by injection E as _ <-|].
  destruct (_ <? _); [|intros E; by injection E as _ <-].
  destruct (at_index _ i) as [p|]; cbn [mbind option_bind]; [|done]. destruct (_ && _); [apply IH|].
  destruct (line_of _ _ _ _ _ _ _) as [d1|] eqn:E1; cbn [mbind option_bind]; [|done]. intros E. apply IH in E.
  rewrite E. apply line_of_keeps in E1; [|done]. rewrite E1. apply raise_badness_same.
Qed.

Lemma element_lines_rises {A} n maxlines i lin (get : display.display -> list A) shown defs line label x d x' d' :
  element_lines e n maxlines i lin get shown defs line label x d = Some (x', d') -> rises d d'.
Proof.
  revert i lin d. induction n as [|n IH]; intros i lin d; cbn [element_lines]; [intros E; by injection E as _ <-|].
  destruct (_ <? _); [|intros E; by injection E as _ <-].
  destruct (at_index _ i) as [a|]; cbn [mbind option_bind]; [|done]. destruct (shown a); [|apply IH].
  destruct (line_of _ _ _ _ _ _ _) as [d1|] eqn:E1; cbn [mbind option_bind]; [|done]. intros E. apply IH in E.
  etransitivity; [by eapply line_of_rises | exact E].
Qed.

Lemma pridisklike_rises n i lin disks label maxlines regex x d x' d' :
  pridisklike e b ls fixedhead n i lin disks label maxlines regex x d = Some (x', d') -> rises d d'.
Proof.
  revert i lin x d. induction n as [|n IH]; intros i lin x d; cbn [pridisklike]; [done|].
  destruct (at_index disks i) as [dk|]; cbn [mbind option_bind]; [|done].
  destruct (_ && _); [|intros E; by injection E as _ <-]. destruct (suppressed _ _); [apply IH|]. cbv zeta.
  set (d1 := if flag _ _ then _ else d).
  assert (H1 : rises d d1) by (unfold d1; destruct (flag _ _); [apply raise_rises; an_order | done]).
  destruct (_ || _).
  - destruct (sysline _ _ _ _ _ _ _ _) as [d2|] eqn:E2; cbn [mbind option_bind fmap option_fmap option_map]; [|done].
    intros E. apply IH in E. apply sysline_rises in E2 as [E2 _].
    etransitivity; [exact H1|]. etransitivity; [exact E2|]. exact E.
  - intros E. apply IH in E. by etransitivity.
Qed.

Lemma intf_lines_rises n i lin nsecs x d x' d' :
  interface_lines e b ls sel fixedhead n i lin nsecs x d = Some (x', d') -> rises d d'.
Proof.
  revert i lin d. induction n as [|n IH]; intros i lin d; cbn [interface_lines]; [done|].
  destruct (at_index _ i) as [f|]; cbn [mbind option_bind]; [|done].
  destruct (_ && _); [|intros E; by injection E as _ <-]. destruct (_ || _); [|apply IH].
  destruct (suppressed _ _); [apply IH|].
  destruct (bandwidth f.(perintf.rbyte) nsecs) as [ival|]; cbn [mbind option_bind]; [|done].
  destruct (bandwidth f.(perintf.sbyte) nsecs) as [oval|]; cbn [mbind option_bind]; [|done].
  destruct (if perintf.speed f =? 0 then Some 0 else intf_busy f ival oval) as [busy|]; cbn [mbind option_bind]; [|done].
  cbv zeta. set (d1 := if flag _ _ then _ else d).
  assert (H1 : rises d d1) by (unfold d1; destruct (flag _ _); [apply raise_rises; an_order | done]).
  destruct (line_of _ _ _ _ _ _ _) as [d2|] eqn:E2; cbn [mbind option_bind]; [|done]. intros E. apply IH in E.
  etransitivity; [exact H1|]. etransitivity; [by eapply line_of_rises | exact E].
Qed.

(** ** The parts *)

Definition cpu_badness (s : sstat.sstat) : Z :=
  let all := s.(sstat.cpu).(cpustat.all) in
  badness_of (cpu_busy all (cpu_total all)) b.(badness.cpubadness).
Definition mem_badness (s : sstat.sstat) : Z :=
  let m := s.(sstat.mem) in
  badness_of (busy_of (m.(memstat.physmem) -64 m.(memstat.freemem) -64 m.(memstat.cachemem) -64
                       m.(memstat.buffermem) -64 m.(memstat.slabreclaim) +64 m.(memstat.shmem))
                m.(memstat.physmem)) b.(badness.membadness).
Definition swap_badness (s : sstat.sstat) : Z :=
  let m := s.(sstat.mem) in
  badness_of (busy_of (m.(memstat.totswap) -64 m.(memstat.freeswap)) m.(memstat.totswap)) b.(badness.swpbadness).

Lemma prisyst_cpu_rises nsecs avgval x d x' d' : prisyst_cpu e b ls sel fixedhead nsecs avgval x d = Some (x', d') ->
  rises d d' /\ cpu_badness d.(display.sample) <= d'.(display.highbadness) /\
  d'.(display.sample) = d.(display.sample).
Proof.
  pose proof cpu_items_keep as HF. apply Forall_app in HF as [HF1 HF]. apply Forall_app in HF as [HF2 HF]. apply Forall_app in HF as [HF3 _].
  unfold prisyst_cpu. cbv zeta. intros E. bind in E as pc Epc. bind in E as d1 E1. bind in E as [x2 d2] E2.
  bind in E as d3 E3. injection E as <- <-.
  destruct (raise_rises (cpu_badness d.(display.sample)) MSORTCPU d ltac:(an_order)) as [R0 B0].
  pose proof (line_of_rises _ _ _ _ _ _ _ _ E1) as R1. pose proof (line_of_keeps _ _ _ _ _ _ _ _ HF1 E1) as K1.
  pose proof (line_of_rises _ _ _ _ _ _ _ _ E3) as R3. pose proof (line_of_keeps _ _ _ _ _ _ _ _ HF3 E3) as K3.
  assert (rises d1 d2 /\ d2.(display.sample) = d1.(display.sample)) as [R2 K2].
  { destruct (1 <? _); [|injection E2 as _ <-; split; [reflexivity|done]].
    split; [by eapply cpu_lines_rises | by eapply cpu_lines_keep]. }
  split; [exact (transitivity R0 (transitivity R1 (transitivity R2 R3)))|]. split.
  - etransitivity; [exact B0|]. etransitivity; [apply (rises_badness _ _ R1)|]. etransitivity; [apply (rises_badness _ _ R2)|]. apply (rises_badness _ _ R3).
  - rewrite K3, K2, K1. apply raise_badness_same.
Qed.

Lemma prisyst_mem_rises x d d' : prisyst_mem e b ls x d = Some d' ->
  rises d d' /\ mem_badness d.(display.sample) <= d'.(display.highbadness) /\
  d'.(display.sample) = d.(display.sample).
Proof.
  pose proof cpu_items_keep as HF. apply Forall_app in HF as [_ HF]. apply Forall_app in HF as [_ HF].
  apply Forall_app in HF as [_ HF]. unfold prisyst_mem. cbv zeta. intros E.
  destruct (raise_rises (mem_badness d.(display.sample)) MSORTMEM d ltac:(an_order)) as [R0 B0].
  pose proof (line_of_rises _ _ _ _ _ _ _ _ E) as R1. split; [exact (transitivity R0 R1)|].
  split; [etransitivity; [exact B0 | apply (rises_badness _ _ R1)]|]. rewrite (line_of_keeps _ _ _ _ _ _ _ _ HF E).
  apply raise_badness_same.
Qed.

Lemma prisyst_swap_rises x d d' : prisyst_swap e b ls x d = Some d' ->
  rises d d' /\ swap_badness d.(display.sample) <= d'.(display.highbadness).
Proof.
  unfold prisyst_swap. cbv zeta. intros E.
  destruct (raise_rises (swap_badness d.(display.sample)) MSORTMEM d ltac:(an_order)) as [R0 B0].
  pose proof (line_of_rises _ _ _ _ _ _ _ _ E) as R1. split; [exact (transitivity R0 R1)|].
  etransitivity; [exact B0 | apply (rises_badness _ _ R1)].
Qed.

Lemma prisyst_paging_rises nsecs x d d' : prisyst_paging e b ls fixedhead nsecs x d = Some d' -> rises d d'.
Proof.
  unfold prisyst_paging. cbv zeta. destruct (_ || _); [|intros E; by injection E as <-]. intros E.
  bind in E as persec Ep.
  etransitivity; [|by eapply line_of_rises]. apply (raise_rises _ MSORTMEM). an_order.
Qed.

Lemma some_line_rises (c : bool) defs line x label bn d d' :
  (if c then line_of e defs line x label bn d else Some d) = Some d' -> rises d d'.
Proof. destruct c; [apply line_of_rises | intros E; by injection E as <-]. Qed.

Lemma prisyst_rest_rises nsecs x d d' :
  ('(x, d) ← prisyst_cont e ls sel fixedhead x d;
   '(x, d) ← prisyst_disk e b ls sel fixedhead x d;
   '(x, d) ← prisyst_nfs e ls sel fixedhead nsecs x d;
   '(x, d) ← prisyst_net e b ls sel fixedhead nsecs x d;
   Some (settle_order d)) = Some d' ->
  exists d1, rises d d1 /\ d' = settle_order d1.
Proof.
  intros E. bind in E as [x1 d1] E1. bind in E as [x2 d2] E2. bind in E as [x3 d3] E3. bind in E as [x4 d4] E4.
  injection E as <-. exists d4. split; [|done].
  apply element_lines_rises in E1. etransitivity; [exact E1|].
  unfold prisyst_disk in E2. cbv zeta in E2. bind in E2 as ms Em. bind in E2 as mst Emst.
  bind in E2 as [y1 f1] D1. bind in E2 as [y2 f2] D2. apply pridisklike_rises in D1, D2, E2.
  etransitivity; [exact (transitivity D1 (transitivity D2 E2))|].
  unfold prisyst_nfs in E3. cbv zeta in E3. bind in E3 as [z1 g1] N1. bind in E3 as g2 N2. bind in E3 as g3 N3.
  injection E3 as _ <-. apply element_lines_rises in N1. apply some_line_rises in N2, N3.
  etransitivity; [exact (transitivity N1 (transitivity N2 N3))|].
  unfold prisyst_net in E4. cbv zeta in E4. bind in E4 as h1 H1. bind in E4 as h2 H2. apply intf_lines_rises in E4.
  apply some_line_rises in H1, H2. exact (transitivity H1 (transitivity H2 E4)).
Qed.

(** C31: The badness that prisyst ends with is at least that of the processors
    together, of the memory and of the swap space; memory is proposed as the
    sort order only from badness 70 on; and while nothing is busy at all the
    order stays as it was, but for memory, which becomes processor order. *)
Theorem prisyst_order nsecs avgval x d d' :
  prisyst e b ls sel fixedhead nsecs avgval x d = Some d' ->
  Z.max (cpu_badness d.(display.sample)) (Z.max (mem_badness d.(display.sample)) (swap_badness d.(display.sample)))
    <= d'.(display.highbadness) /\
  (d'.(display.highorder) = MSORTMEM -> 70 <= d'.(display.highbadness)) /\
  (d'.(display.highbadness) = 0 ->
     d'.(display.highorder) = if d.(display.highorder) =? MSORTMEM then MSORTCPU else d.(display.highorder)).
Proof.
  intros E. unfold prisyst in E. bind in E as [x1 d1] E1. bind in E as d2 E2. bind in E as d3 E3. bind in E as d4 E4.
  apply prisyst_rest_rises in E as (d5 & R5 & ->).
  apply prisyst_cpu_rises in E1 as (R1 & B1 & K1). apply prisyst_mem_rises in E2 as (R2 & B2 & K2).
  apply prisyst_swap_rises in E3 as [R3 B3]. apply prisyst_paging_rises in E4 as R4.
  rewrite K2, K1 in B3. rewrite K1 in B2. cbn in B1, B2, B3.
  assert (R : rises (start_badness d) d5).
  { exact (transitivity R1 (transitivity R2 (transitivity R3 (transitivity R4 R5)))). }
  destruct R as [[HR _] OR]. cbn in HR, OR.
  destruct R2 as [[H2 _] _], R3 as [[H3 _] _], R4 as [[H4 _] _], R5 as [[H5 _] _].
  assert (Hb : (settle_order d5).(display.highbadness) = d5.(display.highbadness)).
  { unfold settle_order. by destruct (_ && _). }
  rewrite Hb. split; [lia|]. unfold settle_order.
  destruct (Z.ltb_spec d5.(display.highbadness) 70), (Z.eqb_spec d5.(display.highorder) MSORTMEM) as [Em|Em]; cbn.
  - split; [done|]. intros H0. rewrite OR in Em by done. by rewrite Em.
  - split; [done|]. intros H0. rewrite OR in * by done. by rewrite (proj2 (Z.eqb_neq _ _)).
  - split; [lia|]. lia.
  - split; [lia|]. lia.
Qed.

(** Whatever is busy, prisyst names an order of processes. *)
Theorem prisyst_orders nsecs avgval x d d' : d.(display.highorder) ∈ sort_orders ->
  prisyst e b ls sel fixedhead nsecs avgval x d = Some d' -> d'.(display.highorder) ∈ sort_orders.
Proof.
  intros Ho E. unfold prisyst in E. bind in E as [x1 d1] E1. bind in E as d2 E2. bind in E as d3 E3. bind in E as d4 E4.
  apply prisyst_rest_rises in E as (d5 & R5 & ->).
  apply prisyst_cpu_rises in E1 as (R1 & _). apply prisyst_mem_rises in E2 as (R2 & _).
  apply prisyst_swap_rises in E3 as [R3 _]. apply prisyst_paging_rises in E4 as R4.
  destruct (transitivity R1 (transitivity R2 (transitivity R3 (transitivity R4 R5)))) as [[_ HO] _].
  unfold settle_order. destruct (_ && _); [cbn; an_order | by apply HO].
Qed.
End steps.

(** ** Concrete values *)

Definition no_lines : syslines.syslines := syslines.mk [] [] [] [] [] [] [] [] [] [] [] [] [] [] [].

(** The built-in layouts are accepted. *)
Definition builtin : syslines.syslines :=
  match built_in_lines no_lines with Ret ls => ls | Exit _ => no_lines end.

Lemma built_in_accepted : built_in_lines no_lines = Ret builtin.
Proof. by vm_compute. Qed.

Definition all_lines : sysselect.sysselect := sysselect.mk None None None 10 10 10 10 10 10 10.
Definition one_cpu : sstat.sstat :=
  upd_cpu (fun c => set_cpustat_nrcpu 1 (set_cpustat_all (percpu.mk 0 95 0 0 5 0 0 0 0 0 freqcnt_zero 0 0 [0; 0]) c)) sstat_zero.
Definition display_start (s : sstat.sstat) : display.display := display.mk s true [] 2 0 MSORTMEM.

Lemma prisyst_order_witness : exists d',
  prisyst (env_of 80) default_badness builtin all_lines false 10 0 param_zero (display_start one_cpu) = Some d' /\
  cpu_badness default_badness one_cpu = 105 /\ 105 <= d'.(display.highbadness) /\ d'.(display.highorder) = MSORTCPU.
Proof.
  destruct (prisyst (env_of 80) default_badness builtin all_lines false 10 0 param_zero (display_start one_cpu))
    as [d'|] eqn:E; [|exfalso; vm_compute in E; discriminate E].
  exists d'. split; [reflexivity|].
  destruct (prisyst_order (env_of 80) default_badness builtin all_lines false 10 0 param_zero (display_start one_cpu) d' E)
    as (H1 & _). vm_compute in E. injection E as <-. split; [by vm_compute|]. split; [|reflexivity].
  etransitivity; [|exact H1]. vm_compute. discriminate.
Defined.
