(* ===== verification/ShowsysFacts.v ===== *)
(** * The items of the system lines

    Texts and buffers: the items of the memory, swap, paging and protocol lines
    stay inside their buffers whatever the counters are; where an item does not,
    the value from which on it does not. *)
From Stdlib Require Import Ascii.
From S2P Require Import Prelude Format Printf Various VariousFacts Sscanf Tstat Sstat SstatStores Showline Prihead Showsys SyslineFacts Prisyst PrisystFacts.

(** ** Values in a width *)

(** Any 64-bit value: at most two characters more than the width. *)
Lemma val2valstr_total value width nsecs : 3 <= width <= 15 -> in_i64 value ->
  exists t, val2valstr value width false nsecs = Some t /\ (length t <= Z.to_nat width + 2)%nat.
Proof.
  intros Hw Hv. unfold in_i64 in Hv. destruct (Z.lt_ge_cases value 0) as [Hn|Hp].
  - unfold val2valstr. cbn [andb]. rewrite (proj2 (Z.ltb_lt value 0)) by lia. eexists. split; [done|].
    rewrite app_nil_r, pad_length by (cbn; lia). lia.
  - destruct (Z.lt_ge_cases value (10 ^ width - 1)) as [Hs|Hl].
    + destruct (val2valstr_fits value width nsecs) as (t & -> & _ & Hl); [lia|lia|]. exists t. split; [done|lia].
    + destruct (val2valstr_exponent value width nsecs) as (v & e & t & -> & -> & He & Hr & Hb & _); [lia|lia|].
      eexists. split; [done|]. pose proof (pow10_mono 0 (width - 3)). change (10 ^ 0) with 1 in *.
      assert (E : 10 ^ (width - 1) = 10 * 10 ^ (width - 2)) by (rewrite <-Z.pow_succ_r by lia; f_equal; lia).
      assert (He19 : e < 100).
      { destruct (Z.lt_ge_cases e 100); [done|]. exfalso. pose proof (pow10_mono 21 e).
        assert (10 ^ 21 = 1000 * 10 ^ 18) by done. nia. }
      rewrite length_app, pad_length_max by lia. cbn [length].
      pose proof (dec_length_le v (Z.to_nat (width - 1)) ltac:(lia)) as Hdv.
      rewrite Z2Nat.id, E in Hdv by lia. pose proof (dec_length_le e 2 ltac:(lia) ltac:(cbn; lia)). lia.
Qed.

(** Averages per second keep two positions for their suffix. *)
Lemma val2valstr_average value width nsecs : 5 <= width <= 15 -> in_i64 value -> 0 < nsecs < 2 ^ 31 ->
  exists t, val2valstr value width true nsecs = Some t /\ (length t <= Z.to_nat width + 2)%nat.
Proof.
  intros Hw Hv Hn. unfold val2valstr. cbn [andb]. rewrite (proj2 (Z.eqb_neq nsecs 0)) by lia. cbn [negb].
  set (v := Z.quot (i64 (value + Z.quot nsecs 2)) nsecs).
  assert (Hv' : in_i64 v).
  { unfold v. pose proof (i64_range (value + Z.quot nsecs 2)) as HR. set (w := i64 _) in *. unfold in_i64 in *.
    Z.to_euclidean_division_equations. nia. }
  destruct (val2valstr_total v (width - 2) 0 ltac:(lia) Hv') as (t & Et & Hl).
  assert (E : forall sfx : text,
    (if v <? 0 then Some (pad (width - 2) (chars "?") ++ sfx)
     else if v <? maxval_of (width - 2) then Some (pad (width - 2) (fmt_d v) ++ sfx)
     else if width - 2 <? 3 then Some (fmt_d v ++ sfx)
     else r ← shorten SHORTEN_FUEL (maxval_of (width - 2 - 2)) v 0 0;
          let '(value, exp, remain) := r in
          let value := if 5 <=? remain then value + 1 else value in
          Some (pad (width - 2 - 2) (fmt_d value) ++ "e"%char :: fmt_d exp ++ sfx)) = Some (t ++ sfx)).
  { intros sfx. unfold val2valstr in Et. cbn [andb] in Et.
    destruct (v <? 0); [injection Et as <-; by rewrite app_nil_r|].
    destruct (v <? maxval_of (width - 2)); [injection Et as <-; by rewrite app_nil_r|].
    destruct (width - 2 <? 3); [injection Et as <-; by rewrite app_nil_r|].
    destruct (shorten _ _ _ _ _) as [[[v1 e1] r1]|]; [|done]. cbn [mbind option_bind] in *. injection Et as <-.
    rewrite app_nil_r, <-app_assoc. done. }
  exists (t ++ chars "/s"). split; [apply E|]. rewrite length_app. change (length (chars "/s")) with 2%nat. lia.
Qed.

(** ** Items *)

(** The largest [count_t], and 999 petabytes, the largest size of six characters. *)
Definition MAXCOUNT : Z := 2 ^ 63 - 1.
Definition PB999 : Z := 999 * ONEPBYTE.

(** The item succeeds with a text of [lo] to [hi] characters, and leaves the sample. *)
Definition writes (lo hi : nat) (m : M text) (st : sysst.sysst) : Prop :=
  exists t st', m st = Some (t, st') /\ (lo <= length t <= hi)%nat /\ st'.(sysst.sample) = st.(sysst.sample).

(** A text for the buffers, of which the smallest has 15 bytes. *)
Notation fits := (writes 0 14).

Lemma writes_setcolor lo hi c (f : unit -> M text) st :
  writes lo hi (f tt) (sysst.mk st.(sysst.sample) c st.(sysst.firstcall)) ->
  writes lo hi (mbind (M := M) f (setcolor c)) st.
Proof. intros (t & st' & E & H). exists t, st'. rewrite setcolor_bind. done. Qed.

Lemma writes_sample lo hi s (f : sstat.sstat -> M text) st :
  st.(sysst.sample) = Some s -> writes lo hi (f s) st -> writes lo hi (mbind (M := M) f sample) st.
Proof.
  intros Hs (t & st' & E & H). exists t, st'. split; [|exact H].
  unfold mbind, M_bind, sample. rewrite Hs. exact E.
Qed.

Lemma writes_ret lo hi t st : (lo <= length t <= hi)%nat -> writes lo hi (mret t) st.
Proof. intros H. by exists t, st. Qed.

Lemma writes_colored lo hi (c : bool) k m st : writes lo hi m st ->
  writes lo hi (t ← m; _ ← (if c then setcolor k else mret tt); mret t) st.
Proof.
  intros (t & st' & E & Hl & Hs). unfold writes. rewrite (bind_some _ _ _ _ _ E).
  destruct c; eexists t, _; (split; [reflexivity|]); done.
Qed.

Lemma buffer_text size init off t st : (off + length t < size)%nat ->
  buffer size init off (Some t) st = Some (take off (chars init) ++ t, st).
Proof. intros H. unfold buffer. rewrite lift_some. by rewrite (proj2 (Nat.leb_le _ _)) by lia. Qed.

Lemma writes_buffer lo hi size init off t st : (off <= length (chars init))%nat ->
  (lo <= off + length t <= hi)%nat -> (hi < size)%nat ->
  writes lo hi (buffer size init off (Some t)) st.
Proof.
  intros Ho Hl Hs. eexists _, st. split; [apply buffer_text; lia|]. rewrite length_app, length_take. split; [lia|done].
Qed.

Lemma fits_val size init off value width x st : (off + Z.to_nat width = 12)%nat -> (off <= length (chars init))%nat ->
  (15 <= size)%nat -> 5 <= width <= 15 -> in_i64 value -> 0 < x.(extraparam.nsecs) < 2 ^ 31 ->
  fits (buffer size init off (val2valstr value width (averaged x) x.(extraparam.nsecs))) st.
Proof.
  intros Ho Hi Hs Hw Hv Hn.
  assert (exists t, val2valstr value width (averaged x) x.(extraparam.nsecs) = Some t /\
            (length t <= Z.to_nat width + 2)%nat) as (t & -> & Hl).
  { destruct (averaged x); [by apply val2valstr_average | apply val2valstr_total; [lia|done]]. }
  apply writes_buffer; lia.
Qed.

Lemma fits_mem init value st : (6 <= length (chars init))%nat -> 0 <= value < 2 ^ 63 ->
  fits (buffer 16 init 6 (Some (val2memstr value MBFORMAT false 0))) st.
Proof.
  intros Hi Hv. pose proof (proj1 (val2memstr_total_width value MBFORMAT 0 Hv)). apply writes_buffer; lia.
Qed.

Lemma wide_mem init value st : (6 <= length (chars init))%nat -> 0 <= value <= PB999 ->
  writes 12 12 (buffer 16 init 6 (Some (val2memstr value MBFORMAT false 0))) st.
Proof.
  intros Hi Hv. assert (0 <= value < 2 ^ 63) as Hv' by (unfold PB999, ONEPBYTE in Hv; lia).
  pose proof (proj2 (val2memstr_total_width value MBFORMAT 0 Hv') (proj2 Hv)). apply writes_buffer; lia.
Qed.

(** ** The lines whose items never leave their buffers *)

(** Numbers of pages that are sizes of at most [B] bytes. *)
Definition pages_below (B : Z) (e : sysenv.sysenv) (v : Z) : Prop := 0 <= v * e.(sysenv.pagesize) <= B.

(** No memory size is negative or above [B]. *)
Record sizes_below (B : Z) (e : sysenv.sysenv) (m : memstat.memstat) : Prop := {
  sb_pages : Forall (pages_below B e)
    [m.(memstat.physmem); m.(memstat.freemem); m.(memstat.cachemem); m.(memstat.cachedrt); m.(memstat.buffermem);
     m.(memstat.slabmem); m.(memstat.slabreclaim); m.(memstat.shmem); m.(memstat.shmrss); m.(memstat.shmswp);
     m.(memstat.vmwballoon); m.(memstat.totswap); m.(memstat.freeswap); m.(memstat.committed); m.(memstat.commitlim)];
  sb_hugetot : 0 <= m.(memstat.tothugepage) * m.(memstat.hugepagesz) <= B;
  sb_hugeuse : 0 <= (m.(memstat.tothugepage) - m.(memstat.freehugepage)) * m.(memstat.hugepagesz) <= B;
  sb_huge : in_i64 (m.(memstat.tothugepage) - m.(memstat.freehugepage));
}.

(** The counters of paging are 64-bit. *)
Definition paging_ok (m : memstat.memstat) : Prop := Forall in_i64
  [m.(memstat.pgscans); m.(memstat.pgsteal); m.(memstat.allocstall); m.(memstat.swins); m.(memstat.swouts)].

(** The protocol counters that are shown by themselves are 64-bit. *)
Record net_ok (n : netstat.netstat) : Prop := {
  no_tcp : Forall in_i64 (members n.(netstat.tcp));
  no_udp : Forall in_i64 (members n.(netstat.udpv4));
}.

Lemma in_i64_sum a b : in_i64 (i64 (a + b)).
Proof. apply i64_range. Qed.

(** One item of a table: unfold it, run its first steps, and leave its text. *)
Ltac item_steps Hs :=
  match goal with |- writes _ _ (sysdef.doconvert ?d _ _ _) _ => unfold d; cbn [sysdef.doconvert] end;
  match goal with |- writes _ _ (?p _ _ _) _ => unfold p end;
  repeat first [ apply writes_setcolor | eapply writes_sample; [exact Hs|] ]; cbv zeta; try apply writes_colored.

Ltac each_item tac := repeat (apply Forall_cons; split; [tac|]); [..|apply Forall_nil; done].

Lemma size_range B v : B <= MAXCOUNT -> 0 <= v <= B -> 0 <= i64 v <= B.
Proof. unfold MAXCOUNT. intros HB H. rewrite i64_id by (unfold in_i64; lia). done. Qed.

Lemma memory_items B lo hi e x badness s st : B <= MAXCOUNT -> (lo <= 12 <= hi)%nat ->
  (forall init value st, (6 <= length (chars init))%nat -> 0 <= value <= B ->
     writes lo hi (buffer 16 init 6 (Some (val2memstr value MBFORMAT false 0))) st) ->
  st.(sysst.sample) = Some s -> sizes_below B e s.(sstat.mem) ->
  Forall (fun d => writes lo hi (d.(sysdef.doconvert) e x badness) st) (memsyspdefs ++ swpsyspdefs).
Proof.
  intros HB Hlo Hw Hs [Hp Ht Hu Hh]. rewrite !Forall_cons in Hp. unfold pages_below in Hp. destruct_and! Hp.
  unfold memsyspdefs, swpsyspdefs. cbn [app].
  each_item ltac:(item_steps Hs; first [ apply writes_ret; cbn; lia
    | apply Hw; [cbn; lia|]; rewrite ?(i64_id (_ - _)) by done; by apply size_range ]).
Qed.

Lemma paging_items_fit e x badness s st : st.(sysst.sample) = Some s -> paging_ok s.(sstat.mem) ->
  0 < x.(extraparam.nsecs) < 2 ^ 31 ->
  Forall (fun d => fits (d.(sysdef.doconvert) e x badness) st) pagsyspdefs.
Proof.
  intros Hs Hp Hn. unfold paging_ok in Hp. rewrite !Forall_cons in Hp. destruct_and! Hp. unfold pagsyspdefs.
  each_item ltac:(item_steps Hs;
    first [ apply writes_ret; cbn; lia | apply fits_val; [done | cbn; lia | lia | lia | done | done] ]).
Qed.

Lemma protocol_items_fit e x badness s st : st.(sysst.sample) = Some s -> net_ok s.(sstat.net) ->
  0 < x.(extraparam.nsecs) < 2 ^ 31 ->
  Forall (fun d => fits (d.(sysdef.doconvert) e x badness) st) (nettranssyspdefs ++ netnetsyspdefs).
Proof.
  intros Hs [Ht Hu] Hn. cbn [members tcp_stats_table udpv4_stats_table] in Ht, Hu.
  rewrite !Forall_cons in Ht. rewrite !Forall_cons in Hu. destruct_and! Ht. destruct_and! Hu. unfold nettranssyspdefs, netnetsyspdefs. cbn [app].
  each_item ltac:(item_steps Hs; first [ apply writes_ret; cbn; lia
    | apply fits_val; [done | cbn; lia | lia | lia | by first [assumption | apply in_i64_sum] | done] ]).
Qed.

(** C25: Whatever the memory figures (sizes up to the largest count_t) and the
    protocol counters are, no item of the lines MEM, SWP, PAG and NET
    (protocols) faults: each is written inside its buffer, in at most 14
    characters, and leaves the sample as it is. *)
Theorem resource_items_safe e x badness s st :
  st.(sysst.sample) = Some s -> sizes_below MAXCOUNT e s.(sstat.mem) -> paging_ok s.(sstat.mem) ->
  net_ok s.(sstat.net) -> 0 < x.(extraparam.nsecs) < 2 ^ 31 ->
  Forall (fun d => fits (d.(sysdef.doconvert) e x badness) st)
    (memsyspdefs ++ swpsyspdefs ++ pagsyspdefs ++ nettranssyspdefs ++ netnetsyspdefs).
Proof.
  intros Hs Hm Hpag Hnet Hn.
  assert (H1 : Forall (fun d => fits (d.(sysdef.doconvert) e x badness) st) (memsyspdefs ++ swpsyspdefs)).
  { apply (memory_items MAXCOUNT 0 14 e x badness s st); [done | lia | | done | done].
    intros init value st' Hi Hv. apply fits_mem; [done|]. unfold MAXCOUNT in Hv. lia. } apply Forall_app in H1 as [H1 H2].
  pose proof (protocol_items_fit e x badness s st Hs Hnet Hn) as H3. apply Forall_app in H3 as [H3 H4].
  rewrite !Forall_app. pose proof (paging_items_fit e x badness s st Hs Hpag Hn). by split_and!.
Qed.

(** ** Items that can leave their buffers *)

(** The first number of milliseconds that is shown as 10000 days. *)
Definition TEN_THOUSAND_DAYS : Z := 863998169500.

Lemma val2cpustr_eight v : 0 <= v -> v + 500 < 2 ^ 63 ->
  (length (val2cpustr v) <= 8)%nat <-> v < TEN_THOUSAND_DAYS.
Proof.
  intros H0 Hv. unfold TEN_THOUSAND_DAYS. destruct (Z.lt_ge_cases v 8638000000) as [Hs|Hl].
  { rewrite val2cpustr_width by lia. lia. }
  unfold val2cpustr, MAXMSEC, MAXSEC, MAXMIN. rewrite (i64_id (v + 500)) by (unfold in_i64; lia).
  rewrite (proj2 (Z.ltb_ge v 100000)) by lia.
  rewrite !Z.quot_div_nonneg, !Z.rem_mod_nonneg by (try apply Z.div_pos; try lia; Z.to_euclidean_division_equations; lia).
  set (sec := (v + 500) / 1000). rewrite (proj2 (Z.ltb_ge sec 6000)) by (unfold sec; Z.to_euclidean_division_equations; lia).
  set (min := (sec + 30) / 60).
  rewrite (proj2 (Z.ltb_ge min 6000)) by (unfold min, sec; Z.to_euclidean_division_equations; lia).
  set (hour := (min + 30) / 60).
  assert (Hh : 0 <= hour mod 24 < 24) by (apply Z.mod_pos_bound; lia).
  rewrite !length_app, fmt_0d_length by (cbn; lia). change (length (chars "d")) with 1%nat. change (length (chars "h")) with 1%nat.
  assert (Hd : 0 <= hour / 24) by (unfold hour, min, sec; Z.to_euclidean_division_equations; lia).
  rewrite fmt_d_nonneg, pad_length_max by lia. change (Z.to_nat 2) with 2%nat.
  assert (Hiff : hour / 24 < 10000 <-> v < 863998169500).
  { unfold hour, min, sec. Z.to_euclidean_division_equations. lia. }
  rewrite <-Hiff. destruct (Z.lt_ge_cases (hour / 24) 10000) as [Hs|Hg].
  - pose proof (dec_length_le (hour / 24) 4 ltac:(lia) ltac:(cbn; lia)). lia.
  - pose proof (dec_length_ge (hour / 24) 4 Hd ltac:(cbn; lia)). lia.
Qed.

Lemma buffer_none size init off t st :
  buffer size init off (Some t) st = None <-> (size <= off + length t)%nat.
Proof.
  unfold buffer. rewrite lift_some. destruct (Nat.leb_spec (off + length t + 1) size); cbn; split; try done; lia.
Qed.

Lemma cpu_item_none e ticks init st : 0 < e.(sysenv.hertz) -> 0 <= ticks -> ticks * 1000 + 500 < 2 ^ 63 ->
  buffer 15 init 6 (cpu_text_of e ticks) st = None <-> TEN_THOUSAND_DAYS <= Z.quot (ticks * 1000) e.(sysenv.hertz).
Proof.
  intros Hh Ht Hv. unfold cpu_text_of, cdiv. rewrite (proj2 (Z.eqb_neq _ _)), i64_id by (unfold in_i64; lia).
  cbn [fmap option_fmap option_map]. rewrite buffer_none.
  set (v := Z.quot _ _). assert (Hq : 0 <= v /\ v <= ticks * 1000) by (unfold v; Z.to_euclidean_division_equations; nia).
  pose proof (val2cpustr_eight v ltac:(lia) ltac:(lia)). lia.
Qed.

(** C26: The items for the processor time of all processes write outside their 15
    bytes exactly when that time reaches 863998169500 milliseconds, just under
    ten thousand days: a thousand processors since ten days. *)
Theorem cpu_items_overrun e x badness st :
  0 < e.(sysenv.hertz) ->
  0 <= x.(extraparam.totst) -> x.(extraparam.totst) * 1000 + 500 < 2 ^ 63 ->
  0 <= x.(extraparam.totut) -> x.(extraparam.totut) * 1000 + 500 < 2 ^ 63 ->
  (sysprt_PRCSYS e x badness st = None <->
     TEN_THOUSAND_DAYS <= Z.quot (x.(extraparam.totst) * 1000) e.(sysenv.hertz)) /\
  (sysprt_PRCUSER e x badness st = None <->
     TEN_THOUSAND_DAYS <= Z.quot (x.(extraparam.totut) * 1000) e.(sysenv.hertz)).
Proof. intros Hh H1 H2 H3 H4. split; by apply cpu_item_none. Qed.

(** Retransmissions and cache counters have four positions; an average per
    second of 100000 and more writes outside the 16 bytes. *)
Lemma rate_item_none value nsecs init st : 0 < nsecs < 2 ^ 31 -> 0 <= value < 2 ^ 62 ->
  buffer 16 init 8 (val2valstr value 4 true nsecs) st = None <-> 100000 <= avg_value value nsecs.
Proof.
  intros Hn Hv. unfold val2valstr, avg_value. cbn [andb]. rewrite (proj2 (Z.eqb_neq nsecs 0)) by lia. cbn [negb].
  set (v := Z.quot _ nsecs). change (4 - 2) with 2. rewrite maxval_exact by lia.
  assert (0 <= v) as H0.
  { unfold v. rewrite i64_id by (unfold in_i64; Z.to_euclidean_division_equations; lia).
    apply Z.quot_pos; [|lia]. Z.to_euclidean_division_equations; lia. }
  rewrite (proj2 (Z.ltb_ge v 0)) by done. rewrite !fmt_d_nonneg by done. change (10 ^ 2 - 1) with 99.
  destruct (Z.ltb_spec v 99) as [Hs|Hl].
  - rewrite buffer_none, length_app, pad_length by (lia || apply (dec_length_le v 2); cbn; lia).
    change (length (chars "/s")) with 2%nat. change (Z.to_nat 2) with 2%nat. lia.
  - change (2 <? 3) with true. cbv iota. rewrite buffer_none, length_app. change (length (chars "/s")) with 2%nat.
    destruct (Z.lt_ge_cases v 100000).
    + pose proof (dec_length_le v 5 ltac:(lia) ltac:(cbn; lia)). lia.
    + pose proof (dec_length_ge v 5 H0 ltac:(cbn; lia)). lia.
Qed.

(** ** The lines of memory and swap *)

(** A configured line: two items and more of the table, with usual priorities. *)
Definition line_ok (defs : list sysdef.sysdef) (line : list printpair.printpair) : Prop :=
  (2 <= length line)%nat /\
  Forall (fun el => el.(printpair.prio) < 999999 /\ (el.(printpair.f) < length defs)%nat) line.

Lemma items_wide e defs line x badness s : line_ok defs line ->
  (forall st, st.(sysst.sample) = Some s -> Forall (fun d => writes 12 12 (d.(sysdef.doconvert) e x badness) st) defs) ->
  Forall (wide e defs x badness (fun st => st.(sysst.sample) = Some s)) line.
Proof.
  intros [_ HF] Hw. eapply Forall_impl; [exact HF|]. intros el [_ Hf].
  destruct (lookup_lt_is_Some_2 defs el.(printpair.f) Hf) as [d Hd]. exists d. split; [done|]. intros st Hs.
  destruct (proj1 (Forall_lookup _ _) (Hw (sysst.mk st.(sysst.sample) 0 st.(sysst.firstcall)) Hs) _ _ Hd)
    as (t & st' & E & Hl & Hs'). exists t, st'. split; [exact E|]. split; [lia|]. rewrite Hs'. exact Hs.
Qed.

Lemma line_of_width e defs line x label badness d :
  35 <= e.(sysenv.linelen) <= LINE_LIMIT -> String.length label = 3%nat -> line_ok defs line ->
  (forall st, st.(sysst.sample) = Some d.(display.sample) ->
     Forall (fun f => writes 12 12 (f.(sysdef.doconvert) e x badness) st) defs) ->
  exists t firstcall, Z.of_nat (length t) = e.(sysenv.linelen) /\
    line_of e defs line x label badness d =
      Some (display.mk d.(display.sample) firstcall (d.(display.out) ++ t ++ [newline])
              (i32 (d.(display.curline) + 1)) d.(display.highbadness) d.(display.highorder)).
Proof.
  intros Hl Hlab Hok Hw.
  destruct (showsysline_width e defs line x label badness (fun st => st.(sysst.sample) = Some d.(display.sample))
    (sysst.mk (Some d.(display.sample)) 0 d.(display.firstcall))) as (t & st' & E & Ht & Hs); [done | apply Hok | | by apply items_wide | done | done |].
  { eapply Forall_impl; [apply Hok|]. by intros el [Hp _]. }
  exists t, st'.(sysst.firstcall). split; [done|]. unfold line_of, sysline. rewrite E. cbn.
  unfold displayed, next_line. cbn. by rewrite Hs.
Qed.

Lemma memory_items_wide e x badness s st : sizes_below PB999 e s.(sstat.mem) -> st.(sysst.sample) = Some s ->
  Forall (fun d => writes 12 12 (d.(sysdef.doconvert) e x badness) st) (memsyspdefs ++ swpsyspdefs).
Proof.
  intros Hm Hs. apply (memory_items PB999 12 12 e x badness s st); [by vm_compute | lia | | done | done].
  intros init value st' Hi Hv. by apply wide_mem.
Qed.

(** C23: The lines MEM and SWP, configured in any way with at least two items of
    priorities below 999999 (with others there are faults,
    high_priorities_fault), are printed without a fault and have exactly the
    length of the line, from 35 to a million columns, when no size is negative
    or above 999 petabytes: the items have their 12 characters, and the blank
    boxes and blanks, which are spread with rounded doubles, add up to the rest. *)
Theorem memory_lines_width e b ls x d :
  35 <= e.(sysenv.linelen) <= LINE_LIMIT -> sizes_below PB999 e d.(display.sample).(sstat.mem) ->
  line_ok memsyspdefs ls.(syslines.memline) -> line_ok swpsyspdefs ls.(syslines.swpline) ->
  exists mline sline d',
    (d1 ← prisyst_mem e b ls x d; prisyst_swap e b ls x d1) = Some d' /\
    d'.(display.out) = d.(display.out) ++ mline ++ [newline] ++ sline ++ [newline] /\
    Z.of_nat (length mline) = e.(sysenv.linelen) /\ Z.of_nat (length sline) = e.(sysenv.linelen) /\
    d'.(display.sample) = d.(display.sample).
Proof.
  intros Hl Hm Hml Hsl. unfold prisyst_mem. set (bm := badness_of _ _).
  destruct (raise_badness_same bm MSORTMEM d) as (Es & Eo & _). set (d1 := raise_badness bm MSORTMEM d) in *.
  destruct (line_of_width e memsyspdefs ls.(syslines.memline) x "MEM" bm d1 Hl eq_refl Hml)
    as (mline & f1 & Lm & ->).
  { rewrite Es. intros st Hs. pose proof (memory_items_wide e x bm _ st Hm Hs) as HF. by apply Forall_app in HF as [HF _]. }
  cbn [mbind option_bind]. set (d2 := display.mk _ _ _ _ _ _). unfold prisyst_swap. set (bs := badness_of _ _).
  destruct (raise_badness_same bs MSORTMEM d2) as (Es2 & Eo2 & _). set (d3 := raise_badness bs MSORTMEM d2) in *.
  destruct (line_of_width e swpsyspdefs ls.(syslines.swpline) x "SWP" bs d3 Hl eq_refl Hsl)
    as (sline & f2 & Ls & ->).
  { rewrite Es2. cbn. rewrite Es. intros st Hs. pose proof (memory_items_wide e x bs _ st Hm Hs) as HF.
    by apply Forall_app in HF as [_ HF]. }
  exists mline, sline. eexists. split; [reflexivity|]. cbn. rewrite Eo2. cbn. rewrite Eo, <-!app_assoc.
  split; [done|]. split; [done|]. split; [done|]. by rewrite Es2.
Qed.

(** ** Concrete values *)

Lemma sizes_zero B e : 0 <= B -> sizes_below B e memstat_zero.
Proof. intros H. split; [repeat constructor; cbn; lia | cbn; lia | cbn; lia | by unfold in_i64]. Qed.

Lemma resource_items_safe_witness :
  Forall (fun d => fits (d.(sysdef.doconvert) (env_of 80) param_zero 0) (sysst.mk (Some sstat_zero) 0 true))
    (memsyspdefs ++ swpsyspdefs ++ pagsyspdefs ++ nettranssyspdefs ++ netnetsyspdefs).
Proof.
  apply (resource_items_safe (env_of 80) param_zero 0 sstat_zero).
  - reflexivity.
  - apply sizes_zero. by vm_compute.
  - repeat constructor; by vm_compute.
  - split; repeat constructor; by vm_compute.
  - cbn. lia.
Defined.

Lemma cpu_items_overrun_witness :
  let x := extraparam.mk 1000 86400000000 0 0 0 0 0 0 0 0 0 1 0 0 [] 0 0 0 in
  let st := sysst.mk None 0 true in
  sysprt_PRCSYS (env_of 80) x 0 st = None /\ sysprt_PRCUSER (env_of 80) x 0 st <> None.
Proof.
  intros x st. destruct (cpu_items_overrun (env_of 80) x 0 st) as [H1 H2]; [cbn; lia..|].
  split; [apply H1; vm_compute; discriminate|]. intros E. apply H2 in E. vm_compute in E. by destruct E.
Defined.

Lemma line_ok_dec defs line :
  (2 <=? length line)%nat && forallb (fun el => (el.(printpair.prio) <? 999999) && (el.(printpair.f) <? length defs)%nat) line = true ->
  line_ok defs line.
Proof.
  intros H. apply andb_prop in H as [H1 H2]. split; [by apply Nat.leb_le|].
  apply Forall_forall. intros el Hel. rewrite forallb_forall in H2. apply list_elem_of_In in Hel.
  apply H2 in Hel. apply andb_prop in Hel as [Ha Hb]. split; [by apply Z.ltb_lt | by apply Nat.ltb_lt].
Qed.

Lemma memory_lines_width_witness : exists mline sline d',
  (d1 ← prisyst_mem (env_of 97) default_badness builtin param_zero (display_start one_cpu);
   prisyst_swap (env_of 97) default_badness builtin param_zero d1) = Some d' /\
  d'.(display.out) = mline ++ [newline] ++ sline ++ [newline] /\
  Z.of_nat (length mline) = 97 /\ Z.of_nat (length sline) = 97.
Proof.
  destruct (memory_lines_width (env_of 97) default_badness builtin param_zero (display_start one_cpu))
    as (mline & sline & d' & E & Ho & Hm & Hs & _).
  - cbn. unfold LINE_LIMIT. lia.
  - apply (sizes_zero PB999). by vm_compute.
  - apply line_ok_dec. by vm_compute.
  - apply line_ok_dec. by vm_compute.
  - exists mline, sline, d'. split; [exact E|]. split; [exact Ho|]. split; [exact Hm | exact Hs].
Defined.
