(* ===== verification/Bandwidth.v ===== *)
(** * Traffic per connection: packetcap.c

    The list of connections with their bytes, and the packet handler that
    fills it. The two functions on the list stand in zsocket.c as well, word
    for word; the packet handler of that file has its body commented out and
    records nothing, the one modelled here is packetcap.c's. A packet is the
    list of its captured bytes; reading past them is [None]. The host is
    little-endian: fields of a header are read as the host reads them, [ntohs]
    swaps. *)
From S2P Require Import Prelude.

(** ** The list *)

(** [struct bandwidth], its link apart. *)
Module bandwidth.
Record bandwidth := mk {
  source : Z;
  dest : Z;
  sport : Z;
  dport : Z;
  data : Z
}.
End bandwidth.

(** [Lbandwidth]: [None] before the first connection. *)
Notation blist := (option (list bandwidth.bandwidth)).

Definition same_flow (source dest sport dport : Z) (b : bandwidth.bandwidth) : bool :=
  (b.(bandwidth.source) =? source) && (b.(bandwidth.dest) =? dest) &&
  (b.(bandwidth.dport) =? dport) && (b.(bandwidth.sport) =? sport).

(** The place of the node that is found. *)
Fixpoint lookup_from (i : nat) (source dest sport dport : Z) (l : list bandwidth.bandwidth) : option nat :=
  match l with
  | [] => None
  | b :: l' => if same_flow source dest sport dport b then Some i
               else lookup_from (S i) source dest sport dport l'
  end.

Definition lookupBandwidth (L : blist) (source dest sport dport : Z) : option nat :=
  match L with
  | None => None
  | Some l => lookup_from 0 source dest sport dport l
  end.

Definition add_data (data : Z) (b : bandwidth.bandwidth) : bandwidth.bandwidth :=
  {| bandwidth.source := b.(bandwidth.source); bandwidth.dest := b.(bandwidth.dest);
     bandwidth.sport := b.(bandwidth.sport); bandwidth.dport := b.(bandwidth.dport);
     bandwidth.data := u32 (b.(bandwidth.data) + data) |}.

Definition addBandwidth (L : blist) (source dest sport dport data : Z) : blist :=
  match lookupBandwidth L source dest sport dport with
  | Some i => match L with Some l => Some (alter (add_data data) i l) | None => None end
  | None =>
      let node := bandwidth.mk source dest sport dport data in
      match L with
      | None => Some [node]
      | Some l => Some (node :: l)
      end
  end.

(** ** The packet handler *)

Definition SIZE_ETHERNET : nat := 14.
Definition IPPROTO_TCP : Z := 6.
Definition IPPROTO_UDP : Z := 17.

Definition ntohs (x : Z) : Z := Z.lor (Z.shiftl (Z.land x 255) 8) (Z.shiftr x 8).

(** [IP_HL] and [TH_OFF] *)
Definition IP_HL (ip_vhl : Z) : Z := Z.land ip_vhl 0x0f.
Definition TH_OFF (th_offx2 : Z) : Z := Z.shiftr (Z.land th_offx2 0xf0) 4.

(** The payload size is an [int] that becomes the [uint32_t] argument. *)
Definition got_packet (L : blist) (packet : list Z) : option blist :=
  let ip := SIZE_ETHERNET in
  ip_vhl ← packet !! ip;
  let size_ip := IP_HL ip_vhl * 4 in
  if size_ip <? 20 then Some L
  else
    ip_p ← packet !! (ip + 9)%nat;
    if ip_p =? IPPROTO_TCP then
      let tcp := (ip + Z.to_nat size_ip)%nat in
      th_offx2 ← packet !! (tcp + 12)%nat;
      let size_tcp := TH_OFF th_offx2 * 4 in
      if size_tcp <? 20 then Some L
      else
        ip_len ← read16 packet (ip + 2);
        let size_payload := ntohs ip_len - (size_ip + size_tcp) in
        src ← read32 packet (ip + 12);
        dst ← read32 packet (ip + 16);
        sport ← read16 packet tcp;
        dport ← read16 packet (tcp + 2);
        Some (addBandwidth L src dst sport dport (u32 size_payload))
    else if ip_p =? IPPROTO_UDP then
      let udp := (ip + Z.to_nat size_ip)%nat in
      let size_udp := 8 in
      ip_len ← read16 packet (ip + 2);
      let size_payload := ntohs ip_len - (size_ip + size_udp) in
      src ← read32 packet (ip + 12);
      dst ← read32 packet (ip + 16);
      sport ← read16 packet udp;
      dport ← read16 packet (udp + 2);
      Some (addBandwidth L src dst sport dport (u32 size_payload))
    else Some L.

(** ** What the list promises: a map from connections to bytes *)

Notation flow := (Z * Z * Z * Z)%type.

Definition flow_of (b : bandwidth.bandwidth) : flow :=
  (b.(bandwidth.source), b.(bandwidth.dest), b.(bandwidth.sport), b.(bandwidth.dport)).

Definition nodes (L : blist) : list bandwidth.bandwidth := default [] L.

(** No connection occurs twice, and the map holds the data of each. *)
Definition blist_map (L : blist) (m : gmap flow Z) : Prop :=
  NoDup (flow_of <$> nodes L) /\
  forall k d, m !! k = Some d <-> exists b, b ∈ nodes L /\ flow_of b = k /\ b.(bandwidth.data) = d.

Lemma same_flow_spec s d sp dp b : same_flow s d sp dp b = true <-> flow_of b = (s, d, sp, dp).
Proof.
  unfold same_flow, flow_of. rewrite !andb_true_iff, !Z.eqb_eq. split; [intros [[[-> ->] ->] ->]; done|].
  intros [= -> -> -> ->]. done.
Qed.

Lemma lookup_from_spec i s d sp dp l :
  match lookup_from i s d sp dp l with
  | Some k => exists j b, k = (i + j)%nat /\ l !! j = Some b /\ flow_of b = (s, d, sp, dp)
  | None => forall b, b ∈ l -> flow_of b ≠ (s, d, sp, dp)
  end.
Proof.
  revert i. induction l as [|x l IH]; intros i; cbn; [set_solver|].
  destruct (same_flow s d sp dp x) eqn:E.
  - exists 0%nat, x. rewrite Nat.add_0_r. split; [done|]. split; [done|]. by apply same_flow_spec.
  - specialize (IH (S i)). destruct (lookup_from _ _ _ _ _ l) as [k|].
    + destruct IH as (j & b & -> & Hj & Hb). exists (S j), b. split; [lia|]. done.
    + intros b [->|Hb]%elem_of_cons; [|by apply IH].
      intros Hx. apply same_flow_spec in Hx. congruence.
Qed.

Lemma lookup_nodes L s d sp dp :
  lookupBandwidth L s d sp dp = lookup_from 0 s d sp dp (nodes L).
Proof. by destruct L. Qed.

(** Looking up answers with the bytes of the connection. *)
Lemma lookup_map L m s d sp dp : blist_map L m ->
  m !! (s, d, sp, dp) = i ← lookupBandwidth L s d sp dp; bandwidth.data <$> nodes L !! i.
Proof.
  intros [ND HM]. rewrite lookup_nodes. pose proof (lookup_from_spec 0 s d sp dp (nodes L)) as HL.
  destruct (lookup_from _ _ _ _ _ _) as [k|]; cbn.
  - destruct HL as (j & b & -> & Hj & Hb). cbn. rewrite Hj. cbn. apply HM. exists b.
    split; [by eapply list_elem_of_lookup_2 | done].
  - destruct (m !! _) as [x|] eqn:Hm; [|done]. apply HM in Hm as (b & Hb & E & _). by destruct (HL b).
Qed.

Lemma alter_flows f i (l : list bandwidth.bandwidth) :
  (forall b, flow_of (f b) = flow_of b) -> flow_of <$> alter f i l = flow_of <$> l.
Proof.
  intros Hf. revert i. induction l as [|x l IH]; intros [|i]; cbn; try done; f_equal; [apply Hf | apply IH].
Qed.

(** C37: addBandwidth keeps the list of connections a finite map from (addresses,
    ports) to bytes: it adds the bytes, modulo 2^32, to the connection and
    leaves all other connections alone. *)
Theorem addBandwidth_map L m s d sp dp data : blist_map L m -> 0 <= data < 2 ^ 32 ->
  blist_map (addBandwidth L s d sp dp data)
    (<[(s, d, sp, dp) := u32 (default 0 (m !! (s, d, sp, dp)) + data)]> m).
Proof.
  intros HB Hd. pose proof (lookup_map L m s d sp dp HB) as Hlk. destruct HB as [ND HM].
  unfold addBandwidth. rewrite lookup_nodes in *.
  pose proof (lookup_from_spec 0 s d sp dp (nodes L)) as HL.
  destruct (lookup_from _ _ _ _ _ _) as [k|].
  - destruct HL as (j & b & -> & Hj & Hb). cbn [Nat.add] in *.
    destruct L as [l|]; [|done]. cbn [nodes default from_option] in *. change (id l) with l in *.
    cbn in Hlk. rewrite Hj in Hlk. cbn in Hlk. rewrite Hlk. cbn [default from_option].
    split; cbn [nodes default from_option]; change (id (alter ?f j l)) with (alter f j l).
    { by rewrite alter_flows. }
    intros k x. rewrite lookup_insert. case_decide as Ek.
    + subst k. split.
      * intros [= <-]. exists (add_data data b). split; [|done].
        apply list_elem_of_lookup. exists j. rewrite list_lookup_alter_eq, Hj. done.
      * intros (c & Hc & E & <-). apply list_elem_of_lookup in Hc as [i Hi].
        destruct (decide (i = j)) as [->|Hne].
        -- rewrite list_lookup_alter_eq, Hj in Hi. cbn in Hi. by simplify_eq.
        -- rewrite list_lookup_alter_ne in Hi by done. exfalso. apply Hne.
           eapply NoDup_lookup; [exact ND | by rewrite list_lookup_fmap, Hi |].
           rewrite list_lookup_fmap, Hj. cbn. congruence.
    + rewrite (HM k x). split; intros (c & Hc & E & Ex); exists c; (split; [|done]);
        apply list_elem_of_lookup in Hc as [i Hi]; apply list_elem_of_lookup; exists i;
        (destruct (decide (i = j)) as [->|Hne]; [|by rewrite list_lookup_alter_ne in * by done]).
      * by simplify_eq.
      * rewrite list_lookup_alter_eq, Hj in Hi. cbn in Hi. by simplify_eq.
  - assert (Hnode : addBandwidth L s d sp dp data = Some (bandwidth.mk s d sp dp data :: nodes L)).
    { unfold addBandwidth. rewrite lookup_nodes.
      pose proof (lookup_from_spec 0 s d sp dp (nodes L)) as HL2.
      destruct (lookup_from _ _ _ _ _ _) as [k|]; [|by destruct L].
      destruct HL2 as (j & b & _ & Hj & Hb). destruct (HL b); [by eapply list_elem_of_lookup_2 | done]. }
    cbn in Hlk. rewrite Hlk. cbn [default from_option]. rewrite Z.add_0_l, u32_id by done.
    assert (E : match L with Some l => Some (bandwidth.mk s d sp dp data :: l)
                | None => Some [bandwidth.mk s d sp dp data] end =
                Some (bandwidth.mk s d sp dp data :: nodes L)) by by destruct L.
    rewrite E. split; cbn.
    { constructor; [|done]. intros (b & Eb & Hb)%list_elem_of_fmap. by destruct (HL b Hb). }
    intros k x. rewrite lookup_insert. case_decide as Ek.
    + subst k. split; [intros [= <-]; eexists; split; [by left | done]|].
      intros (c & [->|Hc]%elem_of_cons & Ec & <-); [done|]. by destruct (HL c Hc).
    + rewrite (HM k x). split; intros (c & Hc & Ec); exists c; (split; [|done]); [by right|].
      apply elem_of_cons in Hc as [->|Hc]; [|done]. destruct Ec as [<- _]. by destruct Ek.
Qed.

(** ** Packets *)

Lemma ntohs_bytes a b : 0 <= a < 256 -> 0 <= b < 256 -> ntohs (a + 256 * b) = 256 * a + b.
Proof.
  intros Ha Hb. unfold ntohs.
  change 255 with (Z.ones 8). rewrite Z.land_ones, Z.shiftl_mul_pow2, Z.shiftr_div_pow2 by lia.
  change (2 ^ 8) with 256. replace ((a + 256 * b) mod 256) with a by (Z.to_euclidean_division_equations; lia).
  replace ((a + 256 * b) / 256) with b by (Z.to_euclidean_division_equations; lia).
  rewrite <-Z.lxor_lor, <-Z.add_nocarry_lxor.
  - lia.
  - apply Z.bits_inj'. intros n Hn. rewrite Z.land_spec, Z.bits_0. destruct (Z.lt_ge_cases n 8).
    + replace (a * 256) with (a * 2 ^ 8) by lia. rewrite Z.mul_pow2_bits_low by lia. done.
    + rewrite (Z.bits_above_log2 b n), andb_false_r; [done | lia |].
      destruct (decide (b = 0)) as [->|]; [cbn; lia|]. apply Z.lt_le_trans with 8; [|done].
      apply Z.log2_lt_pow2; lia.
  - apply Z.bits_inj'. intros n Hn. rewrite Z.land_spec, Z.bits_0. destruct (Z.lt_ge_cases n 8).
    + replace (a * 256) with (a * 2 ^ 8) by lia. rewrite Z.mul_pow2_bits_low by lia. done.
    + rewrite (Z.bits_above_log2 b n), andb_false_r; [done | lia |].
      destruct (decide (b = 0)) as [->|]; [cbn; lia|]. apply Z.lt_le_trans with 8; [|done].
      apply Z.log2_lt_pow2; lia.
Qed.

Definition is_byte (z : Z) : Prop := 0 <= z < 256.

(** A TCP packet that was captured with its headers: [hl] and [off] are the
    header lengths in words, [hi] and [lo] the bytes of the total length. *)
Record tcp_packet (p : list Z) (hl off hi lo : Z) : Prop := {
  tp_bytes : Forall is_byte p;
  tp_vhl : exists v, p !! 14%nat = Some v /\ IP_HL v = hl;
  tp_hl : 5 <= hl;
  tp_proto : p !! 23%nat = Some IPPROTO_TCP;
  tp_len : p !! 16%nat = Some hi /\ p !! 17%nat = Some lo;
  tp_off : exists v, p !! (14 + Z.to_nat (hl * 4) + 12)%nat = Some v /\ TH_OFF v = off;
  tp_off_min : 5 <= off
}.

(** C38: got_packet adds, for a TCP packet captured with its headers, the total
    length of the IP header minus both header lengths to the connection of its
    addresses and ports; a length that is too small wraps modulo 2^32. *)
Theorem got_packet_tcp_step L p hl off hi lo : tcp_packet p hl off hi lo ->
  exists src dst sport dport, got_packet L p =
    Some (addBandwidth L src dst sport dport (u32 (256 * hi + lo - 4 * (hl + off)))) /\
    read32 p 26 = Some src /\ read32 p 30 = Some dst /\
    read16 p (14 + Z.to_nat (hl * 4)) = Some sport /\ read16 p (16 + Z.to_nat (hl * 4)) = Some dport.
Proof.
  intros [Hb (v & Hv & <-) Hhl Hp (Hhi & Hlo) (w & Hw & <-) Hoff].
  assert (Hlen : (14 + Z.to_nat (IP_HL v * 4) + 12 < length p)%nat) by by eapply lookup_lt_Some.
  unfold got_packet, SIZE_ETHERNET. rewrite Hv. mstep.
  rewrite (proj2 (Z.ltb_ge _ 20)) by lia. change (14 + 9)%nat with 23%nat. rewrite Hp. mstep.
  cbn [Z.eqb IPPROTO_TCP Pos.eqb]. rewrite Hw. mstep. rewrite (proj2 (Z.ltb_ge _ 20)) by lia.
  assert (E16 : read16 p 16 = Some (hi + 256 * lo)) by (unfold read16; by rewrite Hhi, Hlo).
  change (14 + 2)%nat with 16%nat. rewrite E16. mstep.
  assert (Hbyte : forall i x, p !! i = Some x -> is_byte x).
  { intros i x Hx. rewrite Forall_forall in Hb. apply Hb. by eapply list_elem_of_lookup_2. }
  rewrite ntohs_bytes by (by eapply Hbyte).
  change (14 + 12)%nat with 26%nat. change (14 + 16)%nat with 30%nat.
  destruct (read_in p 26) as [a Ea]; [lia|]. destruct (read_in p 28) as [b Eb]; [lia|].
  destruct (read_in p 30) as [c Ec]; [lia|]. destruct (read_in p 32) as [d Ed]; [lia|].
  destruct (read_in p (14 + Z.to_nat (IP_HL v * 4))) as [e Ee]; [lia|].
  destruct (read_in p (16 + Z.to_nat (IP_HL v * 4))) as [f Ef]; [lia|].
  unfold read32. change (26 + 2)%nat with 28%nat. change (30 + 2)%nat with 32%nat.
  rewrite Ea, Eb, Ec, Ed, Ee. mstep.
  replace (14 + Z.to_nat (IP_HL v * 4) + 2)%nat with (16 + Z.to_nat (IP_HL v * 4))%nat by lia.
  rewrite Ef. mstep. eexists _, _, _, _. split; [|done]. do 3 f_equal. lia.
Qed.

(** Other protocols leave the list alone. *)
Lemma got_packet_other L p v proto :
  p !! 14%nat = Some v -> p !! 23%nat = Some proto -> proto ≠ IPPROTO_TCP -> proto ≠ IPPROTO_UDP ->
  got_packet L p = Some L.
Proof.
  intros Hv Hp Ht Hu. unfold got_packet, SIZE_ETHERNET. rewrite Hv. mstep.
  destruct (_ <? 20); [done|]. change (14 + 9)%nat with 23%nat. rewrite Hp. mstep.
  by rewrite (proj2 (Z.eqb_neq _ _) Ht), (proj2 (Z.eqb_neq _ _) Hu).
Qed.

(** ** Concrete traffic *)

Lemma empty_map : blist_map None ∅.
Proof.
  split; [constructor|]. intros k d. rewrite lookup_empty. split; [done|].
  intros (b & Hb & _). by apply elem_of_nil in Hb.
Qed.

Lemma addBandwidth_map_witness : exists L,
  L = addBandwidth (addBandwidth None 1 2 80 4000 100) 1 2 80 4000 (2 ^ 32 - 1) /\
  blist_map L {[(1, 2, 80, 4000) := 99]}.
Proof.
  eexists. split; [reflexivity|].
  assert (H1 : 0 <= 100 < 2 ^ 32) by lia. assert (H2 : 0 <= 2 ^ 32 - 1 < 2 ^ 32) by lia.
  pose proof (addBandwidth_map _ _ 1 2 80 4000 _ (addBandwidth_map None ∅ 1 2 80 4000 100 empty_map H1) H2) as H.
  revert H. rewrite lookup_insert_eq, lookup_empty. rewrite insert_insert_eq. by vm_compute (u32 _).
Defined.

(** A segment of 4 bytes: 20 bytes of IP header and 20 of TCP header. *)
Definition a_segment (total : Z) : list Z :=
  replicate 14 0 ++ [0x45; 0; 0; total; 0; 0; 0; 0; 64; 6; 0; 0; 10; 0; 0; 1; 10; 0; 0; 2] ++
  [0; 80; 15; 160; 0; 0; 0; 0; 0; 0; 0; 0; 0x50; 0; 0; 0; 0; 0; 0; 0].

Lemma a_segment_ok total : 0 <= total < 256 -> tcp_packet (a_segment total) 5 5 0 total.
Proof.
  intros Ht. split; try done; try lia.
  - unfold a_segment, is_byte. cbn [replicate app]. repeat (constructor; [lia|]). constructor.
  - by exists 0x45.
  - by exists 0x50.
Qed.

(** With a total length of 39 the payload is one byte less than nothing. *)
Lemma got_packet_tcp_step_witness :
  got_packet None (a_segment 44) = Some (addBandwidth None 16777226 33554442 20480 40975 4) /\
  got_packet None (a_segment 39) = Some (addBandwidth None 16777226 33554442 20480 40975 (2 ^ 32 - 1)).
Proof.
  split.
  - destruct (got_packet_tcp_step None _ _ _ _ _ (a_segment_ok 44 ltac:(lia)))
      as (s & d & p & q & E & Hs & Hd & Hp & Hq).
    rewrite E. vm_compute in Hs, Hd, Hp, Hq. by simplify_eq.
  - destruct (got_packet_tcp_step None _ _ _ _ _ (a_segment_ok 39 ltac:(lia)))
      as (s & d & p & q & E & Hs & Hd & Hp & Hq).
    rewrite E. vm_compute in Hs, Hd, Hp, Hq. by simplify_eq.
Defined.
