(* ===== verification/Zsocket.v ===== *)
(** * Sockets and their processes: zsocket.c

    The inode of a socket link, the cache of programs by inode, and the
    addresses of /proc/net/tcp. *)
From Stdlib Require Import Ascii.
From S2P Require Import Prelude Format Ifprop Bandwidth.

(** ** The inode of a link *)

Definition PRG_SOCKET_PFX : text := chars "socket:[".
Definition PRG_SOCKET_PFX2 : text := chars "[0000]:".

(** The value of a digit of [strtoul]. *)
Definition digit_of (c : ascii) : option Z :=
  let n := Z.of_nat (nat_of_ascii c) in
  if (48 <=? n) && (n <=? 57) then Some (n - 48)
  else if (97 <=? n) && (n <=? 122) then Some (n - 87)
  else if (65 <=? n) && (n <=? 90) then Some (n - 55)
  else None.

(** The digits below [base] in front: their value and the rest. *)
Fixpoint scan_base (base acc : Z) (l : text) : Z * text :=
  match l with
  | [] => (acc, [])
  | c :: l' => match digit_of c with
               | Some d => if d <? base then scan_base base (base * acc + d) l' else (acc, l)
               | None => (acc, l)
               end
  end.

Definition starts_digit (base : Z) (l : text) : bool :=
  match l with
  | c :: _ => match digit_of c with Some d => d <? base | None => false end
  | [] => false
  end.

Definition ULONG_MAX : Z := 2 ^ 64 - 1.

(** [strtoul(s, &end, 0)]: the value and the text at [end]; without digits
    nothing is taken. *)
Definition strtoul (s : text) : Z * text :=
  let l := skip_space s in
  let '(neg, l) := match l with
                   | c :: l' => if Ascii.eqb c "-"%char then (true, l')
                                else if Ascii.eqb c "+"%char then (false, l') else (false, l)
                   | [] => (false, [])
                   end in
  let '(base, l) :=
    match l with
    | c :: l' =>
        if Ascii.eqb c "0"%char then
          match l' with
          | x :: l'' => if (Ascii.eqb x "x"%char || Ascii.eqb x "X"%char) && starts_digit 16 l''
                        then (16, l'') else (8, l)
          | [] => (8, l)
          end
        else (10, l)
    | [] => (10, l)
    end in
  if starts_digit base l then
    let '(v, rest) := scan_base base 0 l in
    (if ULONG_MAX <? v then ULONG_MAX else if (neg : bool) then u64 (- v) else v, rest)
  else (0, s).

(** [strtoul] with the checks that follow it: the return value, and what is
    stored in [*inode_p]. *)
Definition take_inode (s : text) : Z * option Z :=
  let '(v, serr) := strtoul s in
  (match serr with
   | [] => if v =? ULONG_MAX then -1 else 0
   | _ => -1
   end, Some v).

Definition last_char (l : text) : option ascii := last l.

Definition extract_type_1_socket_inode (lname : text) : Z * option Z :=
  if (length lname <? length PRG_SOCKET_PFX + 3)%nat then (-1, None)
  else if negb (bool_decide (take (length PRG_SOCKET_PFX) lname = PRG_SOCKET_PFX)) then (-1, None)
  else if negb (bool_decide (last_char lname = Some "]"%char)) then (-1, None)
  else
    let inode_str_len := (length lname - length PRG_SOCKET_PFX - 1)%nat in
    take_inode (take inode_str_len (drop (length PRG_SOCKET_PFX) lname)).

Definition extract_type_2_socket_inode (lname : text) : Z * option Z :=
  if (length lname <? length PRG_SOCKET_PFX2 + 1)%nat then (-1, None)
  else if negb (bool_decide (take (length PRG_SOCKET_PFX2) lname = PRG_SOCKET_PFX2)) then (-1, None)
  else take_inode (drop (length PRG_SOCKET_PFX2) lname).

(** ** The cache of programs *)

Definition PRG_HASH_SIZE : Z := 211.
Definition PROGNAME_WIDTH : nat := 20.
Definition SELINUX_WIDTH : nat := 50.

(** [struct prg_node], its link apart. *)
Module prg_node.
Record prg_node := mk {
  inode : Z;
  name : text;
  scon : text
}.
End prg_node.

Definition PRG_HASHIT (x : Z) : nat := Z.to_nat (x mod PRG_HASH_SIZE).

(** [safe_strncpy(dst, src, size)] *)
Definition safe_strncpy (src : text) (size : nat) : text := take (size - 1) src.

(** The security context keeps its end. *)
Definition copy_scon (scon : text) : text :=
  let len := Z.of_nat (length scon) - Z.of_nat SELINUX_WIDTH + 1 in
  if 0 <? len then safe_strncpy (drop (Z.to_nat (len + 1)) scon) SELINUX_WIDTH
  else safe_strncpy scon SELINUX_WIDTH.

Definition has_inode (inode : Z) (pn : prg_node.prg_node) : bool := pn.(prg_node.inode) =? inode.

(** The first program of an inode is kept; a new one goes to the end of its
    chain. *)
Definition prg_cache_add (prg_hash : list (list prg_node.prg_node)) (inode : Z) (name scon : text) :
    option (list (list prg_node.prg_node)) :=
  let hi := PRG_HASHIT inode in
  chain ← prg_hash !! hi;
  if existsb (has_inode inode) chain then Some prg_hash
  else
    arr_set prg_hash hi
      (chain ++ [prg_node.mk inode (safe_strncpy name PROGNAME_WIDTH) (copy_scon scon)]).

Definition prg_cache_get (prg_hash : list (list prg_node.prg_node)) (inode : Z) : option text :=
  chain ← prg_hash !! PRG_HASHIT inode;
  Some (match List.find (has_inode inode) chain with
        | Some pn => pn.(prg_node.name)
        | None => chars "-"
        end).

Definition prg_hash_start : list (list prg_node.prg_node) := replicate (Z.to_nat PRG_HASH_SIZE) [].

(** ** Addresses *)

Definition digitParser (x : Z) : ascii := if (0 <=? x) && (x <=? 9) then digit x else "000"%char.

(** The value of an upper-case hexadecimal digit. *)
Definition hexval (c : ascii) : option Z :=
  let n := Z.of_nat (nat_of_ascii c) in
  if (48 <=? n) && (n <=? 57) then Some (n - 48)
  else if (65 <=? n) && (n <=? 70) then Some (n - 55)
  else None.

(** [temp = 16 * temp + digit]: other characters are skipped. *)
Definition hex_step (c : ascii) (temp : Z) : Z :=
  match hexval c with Some d => 16 * temp + d | None => temp end.

(** One character of the address; the bytes are written from the last to the
    first, three digits each. *)
Definition addr_step (addr : text) (i : nat) (s : Z * text) : option (Z * text) :=
  c ← addr !! i;
  let temp := i32 (hex_step c s.1) in
  if Nat.odd i then
    let k := (i / 2 * 4)%nat in
    out ← arr_set s.2 (12 - k) (if 99 <? temp then digitParser (temp / 100) else "0"%char);
    out ← arr_set out (13 - k) (if 9 <? temp then digitParser ((temp / 10) mod 10) else "0"%char);
    out ← arr_set out (14 - k) (digitParser ((temp mod 100) mod 10));
    out ← (if (i =? 7)%nat then Some out else arr_set out (11 - k) "."%char);
    Some (0, out)
  else Some (temp, s.2).

(** [output] is the content of the 16 bytes before; the result after. *)
Definition addressParser (addr output : text) : option text :=
  r ← for_lt 8 (addr_step addr) (0, output);
  Some r.2.

(** ** The bandwidth of a connection *)

Module keys.
Record keys := mk {
  source : Z;
  dest : Z;
  reS : Z;
  reD : Z
}.
End keys.

Definition key_step (rem_addr local_addr : text) (i : nat) (s : keys.keys) : option keys.keys :=
  r ← rem_addr !! i;
  l ← local_addr !! i;
  let dest := u32 (hex_step r s.(keys.dest)) in
  let source := u32 (hex_step l s.(keys.source)) in
  if Nat.odd i then
    let m := if (i =? 7)%nat then 16 * 16 * 16 else if (i =? 5)%nat then 16 * 16
             else if (i =? 3)%nat then 16 else 1 in
    Some (keys.mk 0 0 (u32 (s.(keys.reS) + source * m)) (u32 (s.(keys.reD) + dest * m)))
  else Some (keys.mk source dest s.(keys.reS) s.(keys.reD)).

Definition bandwidth_keys (rem_addr local_addr : text) : option keys.keys :=
  for_lt 8 (key_step rem_addr local_addr) (keys.mk 0 0 0 0).

(** The conversion of a [uint32_t] to [float]: 24 bits are kept. *)
Definition to_float (n : Z) : Z :=
  if n <? 2 ^ 24 then n else let e := Z.log2 n - 23 in rne n (2 ^ e) * 2 ^ e.

Definition findBandwidth (L : blist) (rem_addr local_addr : text) (rem_port local_port : Z) : option Z :=
  k ← bandwidth_keys rem_addr local_addr;
  match lookupBandwidth L k.(keys.reS) k.(keys.reD) (u16 local_port) (u16 rem_port) with
  | Some i => l ← L; b ← l !! i; Some (to_float b.(bandwidth.data))
  | None => Some 0
  end.

(** * What zsocket.c promises: inodes read back, the cache is a map, addresses
    are printed in full. *)

(** ** Inodes *)

Lemma digit_of_isdigit c : isdigit c = true -> digit_of c = Some (digit_val c) /\ 0 <= digit_val c < 10.
Proof.
  unfold isdigit, digit_of, digit_val. intros H. rewrite H. split; [done|].
  apply andb_true_iff in H as [H1%Z.leb_le H2%Z.leb_le]. lia.
Qed.

Lemma scan_base_digits acc l : Forall (fun c => isdigit c = true) l ->
  scan_base 10 acc l = (foldl (fun a c => 10 * a + digit_val c) acc l, []).
Proof.
  intros HF. revert acc. induction HF as [|c l Hc HF IH]; intros acc; cbn [scan_base foldl]; [done|].
  destruct (digit_of_isdigit c Hc) as [-> Hd]. rewrite (proj2 (Z.ltb_lt _ _)) by lia. apply IH.
Qed.

(** The first digit of a positive number is not zero. *)
Lemma dec_first n : 0 < n -> exists d r, dec n = digit d :: r /\ 1 <= d <= 9.
Proof.
  intros Hn. unfold dec. pose proof (dec_fuel n ltac:(lia)) as Hf. revert Hf.
  generalize (S (Z.to_nat (Z.log2 n))). intros f. revert n Hn.
  induction f as [|f IH]; intros n Hn Hf; [cbn in Hf; lia|]. cbn [digits].
  destruct (Z.ltb_spec n 10) as [Hs|Hs]; [exists n, []; split; [done|lia]|].
  rewrite Nat2Z.inj_succ, Z.pow_succ_r in Hf by lia.
  destruct (IH (n / 10)) as (d & r & -> & Hd).
  - apply Z.div_str_pos. lia.
  - apply Z.div_lt_upper_bound; lia.
  - exists d, (r ++ [digit (n mod 10)]). done.
Qed.

Lemma digit_facts d : 1 <= d <= 9 ->
  isspace (digit d) = false /\ Ascii.eqb (digit d) "-" = false /\ Ascii.eqb (digit d) "+" = false /\
  Ascii.eqb (digit d) "0" = false.
Proof.
  intros H. assert (d = 1 \/ d = 2 \/ d = 3 \/ d = 4 \/ d = 5 \/ d = 6 \/ d = 7 \/ d = 8 \/ d = 9)
    as Hd by lia. by repeat destruct Hd as [->|Hd]; [..|subst d].
Qed.

(** In front of a digit that is not zero the text is a decimal number. *)
Lemma strtoul_decimal d r : 1 <= d <= 9 -> Forall (fun c => isdigit c = true) (digit d :: r) ->
  strtoul (digit d :: r) =
    let v := foldl (fun a c => 10 * a + digit_val c) 0 (digit d :: r) in
    (if ULONG_MAX <? v then ULONG_MAX else v, []).
Proof.
  intros Hd HF. destruct (digit_facts d Hd) as (F1 & F2 & F3 & F4). unfold strtoul. cbn [skip_space].
  rewrite F1, F2, F3, F4. cbv beta iota.
  assert (Hst : starts_digit 10 (digit d :: r) = true).
  { apply Forall_cons in HF as [Hc _]. unfold starts_digit.
    destruct (digit_of_isdigit _ Hc) as [-> Hv]. apply Z.ltb_lt. lia. }
  by rewrite Hst, scan_base_digits.
Qed.

Lemma strtoul_dec n : 0 < n <= ULONG_MAX -> strtoul (dec n) = (n, []).
Proof.
  intros Hn. destruct (dec_first n) as (d & r & E & Hd); [lia|].
  pose proof (dec_digits n ltac:(lia)) as HF. rewrite E in *. rewrite strtoul_decimal, <-E by done.
  unfold dec. rewrite digits_value by (split; [lia | apply dec_fuel; lia]).
  rewrite Z.mul_0_l, Z.add_0_l. cbv zeta. by rewrite (proj2 (Z.ltb_ge _ _)) by lia.
Qed.

Lemma take_inode_dec n : 0 < n < ULONG_MAX -> take_inode (dec n) = (0, Some n).
Proof.
  intros Hn. unfold take_inode. rewrite strtoul_dec by lia. cbv beta iota.
  by rewrite (proj2 (Z.eqb_neq _ _)) by lia.
Qed.

(** extract_type_1_socket_inode reads back every inode of at least two digits
    from a link printed as socket:[inode]. *)
Theorem extract_type_1_print n : 10 <= n < ULONG_MAX ->
  extract_type_1_socket_inode (PRG_SOCKET_PFX ++ dec n ++ chars "]") = (0, Some n).
Proof.
  intros Hn. unfold extract_type_1_socket_inode. pose proof (dec_length_ge n 1 ltac:(lia) ltac:(cbn; lia)) as Hl.
  assert (Hlen : length (PRG_SOCKET_PFX ++ dec n ++ chars "]") = (9 + length (dec n))%nat).
  { rewrite !length_app. cbn [length chars String.list_ascii_of_string].
    change (length PRG_SOCKET_PFX) with 8%nat. lia. }
  rewrite Hlen. change (length PRG_SOCKET_PFX) with 8%nat.
  rewrite (proj2 (Nat.ltb_ge _ _)) by lia.
  rewrite bool_decide_eq_true_2 by (by rewrite take_app_length').
  rewrite bool_decide_eq_true_2 by (change (chars "]") with ["]"%char]; unfold last_char; by rewrite app_assoc, last_snoc). cbn [negb].
  rewrite drop_app_length' by done. rewrite take_app_length' by lia. apply take_inode_dec. lia.
Qed.

Lemma extract_type_2_print n : 0 < n < ULONG_MAX ->
  extract_type_2_socket_inode (PRG_SOCKET_PFX2 ++ dec n) = (0, Some n).
Proof.
  intros Hn. unfold extract_type_2_socket_inode. pose proof (dec_nonempty n) as Hl.
  change (length PRG_SOCKET_PFX2) with 7%nat.
  rewrite (proj2 (Nat.ltb_ge _ _)) by (rewrite length_app; change (length PRG_SOCKET_PFX2) with 7%nat; lia).
  rewrite bool_decide_eq_true_2 by (by rewrite take_app_length'). cbn [negb].
  rewrite drop_app_length' by done. apply take_inode_dec. lia.
Qed.

(** ** The cache *)

Definition cache_ok (h : list (list prg_node.prg_node)) : Prop :=
  length h = Z.to_nat PRG_HASH_SIZE.

Lemma hashit_lt x : (PRG_HASHIT x < Z.to_nat PRG_HASH_SIZE)%nat.
Proof. unfold PRG_HASHIT. pose proof (Z.mod_pos_bound x PRG_HASH_SIZE). unfold PRG_HASH_SIZE in *. lia. Qed.

Lemma cache_chain h x : cache_ok h -> is_Some (h !! PRG_HASHIT x).
Proof. intros HC. apply lookup_lt_is_Some_2. rewrite HC. apply hashit_lt. Qed.

(** The program of an inode, when the cache has one. *)
Definition cached (h : list (list prg_node.prg_node)) (inode : Z) : option text :=
  chain ← h !! PRG_HASHIT inode; prg_node.name <$> List.find (has_inode inode) chain.

Lemma cache_get h inode : cache_ok h ->
  prg_cache_get h inode = Some (default (chars "-") (cached h inode)).
Proof.
  intros HC. unfold prg_cache_get, cached. destruct (cache_chain h inode HC) as [chain ->]. cbn.
  by destruct (List.find _ chain).
Qed.

Lemma find_existsb {A} (f : A -> bool) l : existsb f l = true -> is_Some (List.find f l).
Proof. induction l as [|x l IH]; cbn; [done|]. destruct (f x); [eauto|]. cbn. auto. Qed.

Lemma find_app {A} (f : A -> bool) l x :
  List.find f (l ++ [x]) = match List.find f l with Some y => Some y | None => if f x then Some x else None end.
Proof. induction l as [|y l IH]; cbn; [done|]. by destruct (f y). Qed.

Lemma existsb_find_none {A} (f : A -> bool) l : existsb f l = false -> List.find f l = None.
Proof. induction l as [|x l IH]; cbn; [done|]. destruct (f x); [done|]. apply IH. Qed.

(** The first name added for an inode is kept, other inodes are not affected. *)
Lemma cache_add_spec h inode name scon : cache_ok h ->
  exists h', prg_cache_add h inode name scon = Some h' /\ cache_ok h' /\
    forall x, cached h' x =
      if decide (x = inode) then Some (default (safe_strncpy name PROGNAME_WIDTH) (cached h inode))
      else cached h x.
Proof.
  intros HC. unfold prg_cache_add, cached. destruct (cache_chain h inode HC) as [chain Hch]. rewrite Hch. mstep.
  destruct (existsb (has_inode inode) chain) eqn:Ex.
  - exists h. split; [done|]. split; [done|]. intros x. case_decide as E; [subst x|done]. rewrite Hch. cbn.
    destruct (find_existsb _ _ Ex) as [pn ->]. done.
  - rewrite arr_set_Some by by eapply lookup_lt_Some. eexists. split; [done|].
    split; [unfold cache_ok; by rewrite length_insert|]. intros x.
    destruct (decide (PRG_HASHIT x = PRG_HASHIT inode)) as [Eh|Eh].
    + rewrite Eh, list_lookup_insert_eq by by eapply lookup_lt_Some. cbn. rewrite find_app, Hch. cbn.
      case_decide as E.
      * subst x. rewrite existsb_find_none by done. unfold has_inode at 1. cbn. by rewrite Z.eqb_refl.
      * destruct (List.find (has_inode x) chain); [done|]. unfold has_inode at 1. cbn.
        by rewrite (proj2 (Z.eqb_neq inode x)) by congruence.
    + rewrite list_lookup_insert_ne by done. case_decide as E; [by subst|]. done.
Qed.

(** prg_cache_add stores the program of an inode, cut to the width of the
    field, unless the inode has one already, which is kept; the programs of
    other inodes do not change, and prg_cache_get answers with the stored
    program or a dash. *)
Theorem cache_add h inode name scon : cache_ok h ->
  exists h', prg_cache_add h inode name scon = Some h' /\ cache_ok h' /\
    (forall x, cached h' x =
      if decide (x = inode) then Some (default (safe_strncpy name PROGNAME_WIDTH) (cached h inode))
      else cached h x) /\
    forall x, prg_cache_get h' x = Some (default (chars "-") (cached h' x)).
Proof.
  intros HC. destruct (cache_add_spec h inode name scon HC) as (h' & E & HC' & H). exists h'.
  split_and!; try done. intros x. by apply cache_get.
Qed.

(** ** Addresses *)

Definition hexdigit (d : Z) : ascii := ascii_of_nat (Z.to_nat (if d <? 10 then 48 + d else 55 + d)).

(** A byte in the files of /proc/net: two upper-case digits. *)
Definition hex2 (p : Z) : text := [hexdigit (p / 16); hexdigit (p mod 16)].

Lemma bounded_all (P : Z -> bool) n :
  forallb (fun i => P (Z.of_nat i)) (seq 0 n) = true -> forall z, 0 <= z < Z.of_nat n -> P z = true.
Proof.
  intros H z Hz. rewrite forallb_forall in H. rewrite <-(Z2Nat.id z) by lia. apply H. apply in_seq. lia.
Qed.

Lemma hexval_digit h : 0 <= h < 16 -> hexval (hexdigit h) = Some h.
Proof.
  intros H. pose proof (bounded_all (fun h => bool_decide (hexval (hexdigit h) = Some h)) 16) as HB.
  specialize (HB eq_refl h H). by apply bool_decide_eq_true in HB.
Qed.


(** The three characters the parser writes for a byte. *)
Definition three (p : Z) : text :=
  [if 99 <? p then digitParser (p / 100) else "0"%char;
   if 9 <? p then digitParser ((p / 10) mod 10) else "0"%char;
   digitParser ((p mod 100) mod 10)].

Lemma three_fmt p : 0 <= p < 256 -> three p = fmt_0d 3 p.
Proof.
  intros H. pose proof (bounded_all (fun p => bool_decide (three p = fmt_0d 3 p)) 256) as HB.
  assert (HC : bool_decide (three p = fmt_0d 3 p) = true) by (apply HB; [by vm_compute | done]).
  by apply bool_decide_eq_true in HC.
Qed.

(** Two steps of a loop at once. *)
Lemma for_while_two {S} (n : nat) (body : nat -> S -> option S) f i s : (Datatypes.S i < n)%nat ->
  for_while (fun i _ => Some (Z.of_nat i <? Z.of_nat n)) body (Datatypes.S (Datatypes.S f)) i s =
    s' ← (k ← body i s; body (Datatypes.S i) k);
    for_while (fun i _ => Some (Z.of_nat i <? Z.of_nat n)) body f (Datatypes.S (Datatypes.S i)) s'.
Proof.
  intros Hi. cbn [for_while]. mstep. rewrite (proj2 (Z.ltb_lt _ _)) by lia.
  destruct (body i s) as [k|]; [|done]. mstep. by rewrite (proj2 (Z.ltb_lt _ _)) by lia.
Qed.

(** What the parser writes for the byte that ends at place [j]. *)
Definition put_byte (j : nat) (p : Z) (out : text) : text :=
  let k := (j / 2 * 4)%nat in
  let out := <[(12 - k)%nat := nth 0 (three p) "0"%char]> out in
  let out := <[(13 - k)%nat := nth 1 (three p) "0"%char]> out in
  let out := <[(14 - k)%nat := nth 2 (three p) "0"%char]> out in
  if (j =? 7)%nat then out else <[(11 - k)%nat := "."%char]> out.

Lemma addr_pair addr i p out : Nat.odd i = false -> Nat.odd (S i) = true -> length out = 16%nat ->
  addr !! i = Some (hexdigit (p / 16)) -> addr !! S i = Some (hexdigit (p mod 16)) -> 0 <= p < 256 ->
  (k ← addr_step addr i (0, out); addr_step addr (S i) k) = Some (0, put_byte (S i) p out).
Proof.
  intros Hi Hi' Hl A1 A2 Hp. unfold addr_step at 2, hex_step. rewrite A1. mstep.
  assert (0 <= p / 16 < 16 /\ 0 <= p mod 16 < 16) as (? & ?) by (Z.to_euclidean_division_equations; lia).
  rewrite Hi, hexval_digit by done. cbn [fst snd]. rewrite (i32_id (16 * 0 + _)) by (unfold in_i32; lia).
  rewrite ?Z.mul_0_r, ?Z.add_0_l. unfold addr_step, hex_step. rewrite A2. mstep. rewrite Hi', hexval_digit by done.
  cbn [fst snd]. rewrite <-Z.div_mod by lia. rewrite i32_id by (unfold in_i32; lia).
  cbv zeta. rewrite arr_set_Some by lia. mstep. rewrite arr_set_Some by (rewrite length_insert; lia). mstep.
  rewrite arr_set_Some by (rewrite !length_insert; lia). mstep. unfold put_byte.
  destruct (_ =? 7)%nat; [done|]. by rewrite arr_set_Some by (rewrite !length_insert; lia).
Qed.

Lemma put_byte_length j p out : length (put_byte j p out) = length out.
Proof. unfold put_byte. destruct (_ =? 7)%nat; by rewrite !length_insert. Qed.

(** addressParser turns the eight hexadecimal digits of an address into four
    decimal numbers of three digits each, in reverse order and separated by
    dots, and leaves the last character of the output alone. *)
Theorem addressParser_bytes p0 p1 p2 p3 out o : length out = 16%nat -> out !! 15%nat = Some o ->
  Forall (fun p => 0 <= p < 256) [p0; p1; p2; p3] ->
  addressParser (hex2 p0 ++ hex2 p1 ++ hex2 p2 ++ hex2 p3) out =
    Some (fmt_0d 3 p3 ++ "."%char :: fmt_0d 3 p2 ++ "."%char :: fmt_0d 3 p1 ++ "."%char :: fmt_0d 3 p0 ++ [o]).
Proof.
  intros Hl Ho HF. rewrite !Forall_cons in HF. destruct HF as (H0 & H1 & H2 & H3 & _).
  rewrite <-!three_fmt by done. unfold addressParser, for_lt. change 8 with (Z.of_nat 8). rewrite Nat2Z.id.
  set (addr := hex2 p0 ++ _).
  rewrite for_while_two, (addr_pair addr 0 p0) by (done || lia). mstep.
  rewrite for_while_two, (addr_pair addr 2 p1) by (done || lia || by rewrite !put_byte_length). mstep.
  rewrite for_while_two, (addr_pair addr 4 p2) by (done || lia || by rewrite !put_byte_length). mstep.
  rewrite for_while_two, (addr_pair addr 6 p3) by (done || lia || by rewrite !put_byte_length). mstep.
  cbn [for_while]. mstep. change (Z.of_nat 8 <? Z.of_nat 8) with false. cbv iota. mstep. cbn [snd].
  do 16 (destruct out as [|? out]; [done|]). destruct out; [|done]. cbn in Ho. by injection Ho as ->.
Qed.

(** ** The key of a connection *)

(** The weight of the byte that ends at place [i]. *)
Definition key_weight (i : nat) : Z :=
  if (i =? 7)%nat then 16 * 16 * 16 else if (i =? 5)%nat then 16 * 16 else if (i =? 3)%nat then 16 else 1.

Lemma key_pair rem loc i p q s d : Nat.odd i = false -> Nat.odd (S i) = true ->
  rem !! i = Some (hexdigit (p / 16)) -> rem !! S i = Some (hexdigit (p mod 16)) ->
  loc !! i = Some (hexdigit (q / 16)) -> loc !! S i = Some (hexdigit (q mod 16)) ->
  0 <= p < 256 -> 0 <= q < 256 ->
  (k ← key_step rem loc i (keys.mk 0 0 s d); key_step rem loc (S i) k) =
    Some (keys.mk 0 0 (u32 (s + q * key_weight (S i))) (u32 (d + p * key_weight (S i)))).
Proof.
  intros Hi Hi' R1 R2 L1 L2 Hp Hq. unfold key_step at 2, hex_step. rewrite R1, L1. mstep.
  assert (0 <= p / 16 < 16 /\ 0 <= q / 16 < 16 /\ 0 <= p mod 16 < 16 /\ 0 <= q mod 16 < 16)
    as (? & ? & ? & ?) by (Z.to_euclidean_division_equations; lia).
  rewrite Hi, !hexval_digit by done. cbn [keys.dest keys.source keys.reS keys.reD].
  rewrite !(u32_id (16 * 0 + _)) by lia. rewrite ?Z.mul_0_r, ?Z.add_0_l.
  unfold key_step, hex_step. rewrite R2, L2. mstep. rewrite Hi', !hexval_digit by done.
  cbn [keys.dest keys.source keys.reS keys.reD]. rewrite <-!Z.div_mod by lia.
  rewrite !(u32_id p), !(u32_id q) by lia. done.
Qed.

Definition key_of (p0 p1 p2 p3 : Z) : Z := p0 + p1 * 16 + p2 * 256 + p3 * 4096.

Lemma bandwidth_keys_bytes p0 p1 p2 p3 q0 q1 q2 q3 :
  Forall (fun p => 0 <= p < 256) [p0; p1; p2; p3; q0; q1; q2; q3] ->
  bandwidth_keys (hex2 p0 ++ hex2 p1 ++ hex2 p2 ++ hex2 p3) (hex2 q0 ++ hex2 q1 ++ hex2 q2 ++ hex2 q3) =
    Some (keys.mk 0 0 (key_of q0 q1 q2 q3) (key_of p0 p1 p2 p3)).
Proof.
  rewrite !Forall_cons. intros (H0 & H1 & H2 & H3 & G0 & G1 & G2 & G3 & _).
  unfold bandwidth_keys, for_lt. change 8 with (Z.of_nat 8). rewrite Nat2Z.id.
  set (rem := hex2 p0 ++ _). set (loc := hex2 q0 ++ _).
  rewrite for_while_two, (key_pair rem loc 0 p0 q0) by (done || lia). mstep.
  rewrite for_while_two, (key_pair rem loc 2 p1 q1) by (done || lia). mstep.
  rewrite for_while_two, (key_pair rem loc 4 p2 q2) by (done || lia). mstep.
  rewrite for_while_two, (key_pair rem loc 6 p3 q3) by (done || lia). mstep.
  cbn [for_while]. mstep. change (Z.of_nat 8 <? Z.of_nat 8) with false. cbv iota. mstep. cbn [snd].
  unfold key_of, key_weight. cbn [Nat.eqb]. rewrite (u32_id (0 + q0 * 1)), (u32_id (0 + p0 * 1)) by lia.
  rewrite (u32_id (0 + q0 * 1 + _)), (u32_id (0 + p0 * 1 + _)) by lia.
  rewrite (u32_id (0 + q0 * 1 + _ + _)), (u32_id (0 + p0 * 1 + _ + _)) by lia.
  do 2 f_equal; rewrite u32_id; lia.
Qed.

(** A connection whose local address ends in a byte that is not zero is not
    found, whatever was recorded: its key is smaller than any such address. *)
Lemma key_of_small p0 p1 p2 p3 : Forall (fun p => 0 <= p < 256) [p0; p1; p2; p3] ->
  0 <= key_of p0 p1 p2 p3 < 2 ^ 24.
Proof. rewrite !Forall_cons. unfold key_of. lia. Qed.

(** The keys that findBandwidth computes weigh the bytes of an address by 1,
    16, 256 and 4096, so that a connection recorded under an address of 2^24
    or more, that is, one that ends in a byte other than zero, is never found
    and its bandwidth is 0. *)
Theorem findBandwidth_never L p0 p1 p2 p3 q0 q1 q2 q3 rp lp :
  Forall (fun p => 0 <= p < 256) [p0; p1; p2; p3; q0; q1; q2; q3] ->
  (forall b, b ∈ nodes L -> 2 ^ 24 <= b.(bandwidth.source)) ->
  findBandwidth L (hex2 p0 ++ hex2 p1 ++ hex2 p2 ++ hex2 p3) (hex2 q0 ++ hex2 q1 ++ hex2 q2 ++ hex2 q3) rp lp =
    Some 0.
Proof.
  intros HF HL. unfold findBandwidth. rewrite bandwidth_keys_bytes by done. mstep.
  cbn [keys.reS keys.reD]. rewrite lookup_nodes.
  pose proof (lookup_from_spec 0 (key_of q0 q1 q2 q3) (key_of p0 p1 p2 p3) (u16 lp) (u16 rp) (nodes L)) as HS.
  destruct (lookup_from _ _ _ _ _ _) as [k|]; [|done].
  destruct HS as (j & b & _ & Hj & Hb). apply list_elem_of_lookup_2, HL in Hj.
  rewrite !Forall_cons in HF. destruct HF as (H0 & H1 & H2 & H3 & G0 & G1 & G2 & G3 & _).
  pose proof (key_of_small q0 q1 q2 q3 ltac:(by rewrite !Forall_cons)) as Hk.
  unfold flow_of in Hb. injection Hb as Hs _ _ _. lia.
Qed.

(** ** Concrete connections *)

Lemma extract_type_1_print_witness : extract_type_1_socket_inode (chars "socket:[18543]") = (0, Some 18543).
Proof. apply (extract_type_1_print 18543). unfold ULONG_MAX. lia. Defined.

Lemma prg_hash_start_ok : cache_ok prg_hash_start.
Proof. by vm_compute. Qed.

(** The inodes 7 and 218 share a chain. *)
Lemma cache_add_witness : exists h h',
  prg_cache_add prg_hash_start 7 (chars "12/sshd") (chars "-") = Some h /\
  prg_cache_add h 218 (chars "40/nginx") (chars "-") = Some h' /\
  cached h' 7 = Some (chars "12/sshd") /\ cached h' 218 = Some (chars "40/nginx").
Proof.
  destruct (cache_add prg_hash_start 7 (chars "12/sshd") (chars "-") prg_hash_start_ok) as (h & E & HC & H & _).
  destruct (cache_add h 218 (chars "40/nginx") (chars "-") HC) as (h' & E' & _ & H' & _).
  exists h, h'. split; [exact E|]. split; [exact E'|]. rewrite !H'.
  rewrite decide_False, decide_True, !H, decide_True, decide_False by done. split; by vm_compute.
Defined.

(** 127.0.0.1 *)
Lemma addressParser_bytes_witness :
  addressParser (chars "0100007F") (replicate 16 "x"%char) = Some (chars "127.000.000.001x").
Proof.
  change (chars "0100007F") with (hex2 1 ++ hex2 0 ++ hex2 0 ++ hex2 127).
  rewrite (addressParser_bytes 1 0 0 127 (replicate 16 "x"%char) "x"%char); [by vm_compute | done | done |].
  repeat (constructor; [lia|]). constructor.
Defined.

(** The traffic of the connection 10.0.0.1:80 to 10.0.0.2:4000 is recorded, and
    not found. *)
Lemma findBandwidth_never_witness :
  findBandwidth (addBandwidth None 16777226 33554442 80 4000 500) (chars "0A000002") (chars "0A000001") 4000 80
    = Some 0.
Proof.
  apply (findBandwidth_never _ 10 0 0 2 10 0 0 1).
  - repeat (constructor; [lia|]). constructor.
  - intros b Hb. cbn in Hb. apply list_elem_of_singleton in Hb as ->. cbn. lia.
Defined.
