(* ===== verification/Acctproc.v ===== *)
(** * Process accounting: acctproc.c

    The records of exited processes: expansion of the compressed counters, the
    conversion of a record into a process sample, the number of records that
    wait, reading them and skipping them, with the shadow files of atopacctd.

    Files are lists of bytes. [acctfs] is what the calls of one moment see of
    the system: the file that the kernel writes, the shadow files by sequence
    number, the contents of the file [current], the locks and semaphores. *)
From S2P Require Import Prelude Tstat Privs.

(** ** Records *)

Definition ACCT_COMM : nat := 16.

(** [struct acct]: the default layout, 64 bytes. *)
Module acct.
Record acct := mk {
  ac_flag : Z; ac_version : Z;
  ac_uid16 : Z; ac_gid16 : Z; ac_tty : Z; ac_btime : Z;
  ac_utime : Z; ac_stime : Z; ac_etime : Z; ac_mem : Z; ac_io : Z; ac_rw : Z;
  ac_minflt : Z; ac_majflt : Z; ac_swaps : Z;
  ac_ahz : Z; ac_exitcode : Z;
  ac_comm : list Z;
  ac_etime_hi : Z; ac_etime_lo : Z; ac_uid : Z; ac_gid : Z
}.
End acct.

(** [struct acct_v3], 64 bytes; [ac_etime] is the representation of a [float]. *)
Module acct_v3.
Record acct_v3 := mk {
  ac_flag : Z; ac_version : Z; ac_tty : Z; ac_exitcode : Z;
  ac_uid : Z; ac_gid : Z; ac_pid : Z; ac_ppid : Z; ac_btime : Z; ac_etime : Z;
  ac_utime : Z; ac_stime : Z; ac_mem : Z; ac_io : Z; ac_rw : Z;
  ac_minflt : Z; ac_majflt : Z; ac_swaps : Z;
  ac_comm : list Z
}.
End acct_v3.

(** The members at their places in the bytes of the structure. *)
Definition acct_of (b : list Z) : option acct.acct :=
  flag ← b !! 0%nat; version ← b !! 1%nat;
  uid16 ← read16 b 2; gid16 ← read16 b 4; tty ← read16 b 6; btime ← read32 b 8;
  utime ← read16 b 12; stime ← read16 b 14; etime ← read16 b 16; mem ← read16 b 18;
  io ← read16 b 20; rw ← read16 b 22; minflt ← read16 b 24; majflt ← read16 b 26;
  swaps ← read16 b 28; ahz ← read16 b 30; exitcode ← read32 b 32;
  etime_hi ← b !! 53%nat; etime_lo ← read16 b 54; uid ← read32 b 56; gid ← read32 b 60;
  Some (acct.mk flag version uid16 gid16 tty btime utime stime etime mem io rw minflt majflt swaps
          ahz exitcode (take (ACCT_COMM + 1) (drop 36 b)) etime_hi etime_lo uid gid).

Definition acct_v3_of (b : list Z) : option acct_v3.acct_v3 :=
  flag ← b !! 0%nat; version ← b !! 1%nat; tty ← read16 b 2; exitcode ← read32 b 4;
  uid ← read32 b 8; gid ← read32 b 12; pid ← read32 b 16; ppid ← read32 b 20;
  btime ← read32 b 24; etime ← read32 b 28;
  utime ← read16 b 32; stime ← read16 b 34; mem ← read16 b 36; io ← read16 b 38; rw ← read16 b 40;
  minflt ← read16 b 42; majflt ← read16 b 44; swaps ← read16 b 46;
  Some (acct_v3.mk flag version tty exitcode uid gid pid ppid btime etime utime stime mem io rw
          minflt majflt swaps (take ACCT_COMM (drop 48 b))).

(** [sizeof(struct acct)] and [sizeof(struct acct_v3)] *)
Definition SIZEOF_ACCT : Z := 64.
Definition SIZEOF_ACCT_V3 : Z := 64.

(** expand the special compression-methods *)
Fixpoint expand (exp : nat) (val : Z) : Z :=
  match exp with
  | O => val
  | S exp' => expand exp' (i64 (Z.shiftl val 3))
  end.

Definition acctexp (ct : Z) : Z :=
  let exp := Z.land (Z.shiftr ct 13) 0x7 in (* obtain  3 bits base-8 exponent *)
  let val := Z.land ct 0x1fff in            (* obtain 13 bits mantissa        *)
  expand (Z.to_nat exp) val.

(** The conversion of a [float] to a 64-bit integer; [None] when the value has
    no integer part of that size. *)
Definition float_to_long (bits : Z) : option Z :=
  let e := Z.land (Z.shiftr bits 23) 255 in
  let m := Z.land bits 0x7fffff in
  let v := if e =? 0 then 0
           else if 150 <=? e then Z.shiftl (m + 0x800000) (e - 150)
           else Z.shiftr (m + 0x800000) (150 - e) in
  if (e =? 255) || (2 ^ 63 <=? v) then None
  else Some (if Z.testbit bits 31 then - v else v).

(** The string in an array of characters; [None] when it is not terminated
    within the array. *)
Fixpoint char_string (l : list Z) : option string :=
  match l with
  | [] => None
  | c :: l' =>
      if c =? 0 then Some EmptyString
      else s ← char_string l'; Some (String (Ascii.ascii_of_nat (Z.to_nat c)) s)
  end.

(** [strcpy(api->gen.name, ...)] writes outside the array above [PNAMLEN]. *)
Definition copy_name (l : list Z) : option string :=
  s ← char_string l;
  if (String.length s <=? PNAMLEN)%nat then Some s else None.

(** ** Filling process info from an accounting record *)

Definition STATE_E : Z := 69. (* 'E' *)

Definition acct_gen (g : tgen.tgen) (pid ppid excode ruid rgid btime elaps : Z) (name : string) : tgen.tgen :=
  {| tgen.tgid := pid; tgen.pid := pid; tgen.ppid := ppid; tgen.ruid := ruid;
     tgen.euid := g.(tgen.euid); tgen.suid := g.(tgen.suid); tgen.fsuid := g.(tgen.fsuid);
     tgen.rgid := rgid; tgen.egid := g.(tgen.egid); tgen.sgid := g.(tgen.sgid);
     tgen.fsgid := g.(tgen.fsgid); tgen.nthr := 1; tgen.name := name; tgen.isproc := 1;
     tgen.state := STATE_E; tgen.excode := excode; tgen.btime := btime; tgen.elaps := elaps;
     tgen.cmdline := g.(tgen.cmdline); tgen.nthrslpi := g.(tgen.nthrslpi);
     tgen.nthrslpu := g.(tgen.nthrslpu); tgen.nthrrun := g.(tgen.nthrrun);
     tgen.ctid := g.(tgen.ctid); tgen.vpid := g.(tgen.vpid);
     tgen.wasinactive := g.(tgen.wasinactive); tgen.container := g.(tgen.container) |}.

Definition acct_counters (api : tstat.tstat) (gen : tgen.tgen) (stime utime minflt majflt rw : Z) : tstat.tstat :=
  let c := api.(tstat.cpu) in let d := api.(tstat.dsk) in let m := api.(tstat.mem) in
  {| tstat.gen := gen;
     tstat.cpu := {| tcpu.utime := acctexp utime; tcpu.stime := acctexp stime;
       tcpu.nice := c.(tcpu.nice); tcpu.prio := c.(tcpu.prio); tcpu.rtprio := c.(tcpu.rtprio);
       tcpu.policy := c.(tcpu.policy); tcpu.curcpu := c.(tcpu.curcpu);
       tcpu.sleepavg := c.(tcpu.sleepavg); tcpu.ifuture := c.(tcpu.ifuture);
       tcpu.cfuture := c.(tcpu.cfuture) |};
     tstat.dsk := {| tdsk.rio := acctexp rw; tdsk.rsz := d.(tdsk.rsz); tdsk.wio := d.(tdsk.wio);
       tdsk.wsz := d.(tdsk.wsz); tdsk.cwsz := d.(tdsk.cwsz); tdsk.cfuture := d.(tdsk.cfuture) |};
     tstat.mem := {| tmem.minflt := acctexp minflt; tmem.majflt := acctexp majflt;
       tmem.vexec := m.(tmem.vexec); tmem.vmem := m.(tmem.vmem); tmem.rmem := m.(tmem.rmem);
       tmem.pmem := m.(tmem.pmem); tmem.vgrow := m.(tmem.vgrow); tmem.rgrow := m.(tmem.rgrow);
       tmem.vdata := m.(tmem.vdata); tmem.vstack := m.(tmem.vstack); tmem.vlibs := m.(tmem.vlibs);
       tmem.vswap := m.(tmem.vswap); tmem.cfuture := m.(tmem.cfuture) |};
     tstat.net := api.(tstat.net) |}.

(** The elapsed time of the default layout is copied as it is, compressed. *)
Definition fill_v2 (api : tstat.tstat) (r : acct.acct) : option tstat.tstat :=
  name ← copy_name r.(acct.ac_comm);
  Some (acct_counters api
    (acct_gen api.(tstat.gen) 0 0 (i32 r.(acct.ac_exitcode)) r.(acct.ac_uid16) r.(acct.ac_gid16)
       r.(acct.ac_btime) r.(acct.ac_etime) name)
    r.(acct.ac_stime) r.(acct.ac_utime) r.(acct.ac_minflt) r.(acct.ac_majflt) r.(acct.ac_rw)).

Definition fill_v3 (api : tstat.tstat) (r : acct_v3.acct_v3) : option tstat.tstat :=
  elaps ← float_to_long r.(acct_v3.ac_etime);
  name ← copy_name r.(acct_v3.ac_comm);
  Some (acct_counters api
    (acct_gen api.(tstat.gen) (i32 r.(acct_v3.ac_pid)) (i32 r.(acct_v3.ac_ppid))
       (i32 r.(acct_v3.ac_exitcode)) (i32 r.(acct_v3.ac_uid)) (i32 r.(acct_v3.ac_gid))
       r.(acct_v3.ac_btime) elaps name)
    r.(acct_v3.ac_stime) r.(acct_v3.ac_utime) r.(acct_v3.ac_minflt) r.(acct_v3.ac_majflt)
    r.(acct_v3.ac_rw)).

(** One record of the layout in use; [bytes] is what [read] delivered: with less
    than a record nothing is stored. *)
Definition fill_record (acctversion acctrecsz : Z) (bytes : list Z) (api : tstat.tstat) : option tstat.tstat :=
  if Z.of_nat (length bytes) <? acctrecsz then Some api
  else if acctversion =? 2 then r ← acct_of bytes; fill_v2 api r
  else r ← acct_v3_of bytes; fill_v3 api r.

(** ** The accounting files and the state of the module *)

Definition ACCTMAXFILESZ : Z := 200 * 1024 * 1024.
Definition ATOPACCTTOT : Z := 100.

(** What the system calls find. *)
Module acctfs.
Record acctfs := mk {
  classic : list Z;               (* the accounting file that was opened directly *)
  shadow : Z -> option (list Z);  (* the shadow files, by sequence number *)
  current : option Z;             (* the sequence number in the file [current] *)
  lockable : Z -> bool;           (* a read lock on a shadow file is granted *)
  semval : Z;                     (* the inverted counter of atop's own accounting *)
  truncated : bool;               (* [truncate] succeeds *)
  seteuid : Z * Z                 (* result and errno of [seteuid] *)
}.
End acctfs.

(** An open file. *)
Inductive acctfile :=
  | Classic
  | Shadow (seq : Z).

(** The static variables, and the offset of the open file. *)
Module accts.
Record accts := mk {
  acctatop : bool;
  acctsize : Z;
  acctrecsz : Z;
  acctversion : Z;
  acctfd : option acctfile;       (* [None] is -1 *)
  offset : Z;
  curshadowseq : Z;
  maxshadowrec : Z
}.
End accts.

Definition content (fs : acctfs.acctfs) (f : acctfile) : list Z :=
  match f with
  | Classic => fs.(acctfs.classic)
  | Shadow seq => default [] (fs.(acctfs.shadow) seq)
  end.

(** [st_size] of an open file. *)
Definition st_size (fs : acctfs.acctfs) (f : acctfile) : Z := Z.of_nat (length (content fs f)).

Definition set_acctsize (v : Z) (s : accts.accts) : accts.accts :=
  accts.mk s.(accts.acctatop) v s.(accts.acctrecsz) s.(accts.acctversion) s.(accts.acctfd)
    s.(accts.offset) s.(accts.curshadowseq) s.(accts.maxshadowrec).
Definition set_offset (v : Z) (s : accts.accts) : accts.accts :=
  accts.mk s.(accts.acctatop) s.(accts.acctsize) s.(accts.acctrecsz) s.(accts.acctversion) s.(accts.acctfd)
    v s.(accts.curshadowseq) s.(accts.maxshadowrec).

(** [read(fd, buf, n)] at the offset of the open file. *)
Definition read_file (b : list Z) (offset n : Z) : list Z := take (Z.to_nat n) (drop (Z.to_nat offset) b).

(** ** acctprocnt *)

(** get the number of exited processes written in the process-account file
    since the previous sample; [None] is a division by zero *)
Definition acctprocnt (fs : acctfs.acctfs) (s : accts.accts) : option (Z * accts.accts) :=
  match s.(accts.acctfd) with
  | None => Some (0, s)
  | Some f =>
      let size := st_size fs f in
      let recsz := s.(accts.acctrecsz) in
      if recsz =? 0 then None
      else if negb (s.(accts.maxshadowrec) =? 0) then
        let numrecs := u64 (Z.quot (i64 (size - s.(accts.acctsize))) recsz) in
        if Z.quot size recsz <? s.(accts.maxshadowrec) then Some (numrecs, s)
        else
          match fs.(acctfs.current) with
          | None => Some (numrecs, s)
          | Some newseq =>
              if newseq =? s.(accts.curshadowseq) then Some (numrecs, s)
              else
                let newsize := match fs.(acctfs.shadow) newseq with
                               | Some b => Z.of_nat (length b)
                               | None => size (* [stat] failed *)
                               end in
                Some (u64 (numrecs + (i64 ((newseq - s.(accts.curshadowseq) - 1) * s.(accts.maxshadowrec)) +
                                      Z.quot newsize recsz)), s)
          end
      else
        let s := if size <? s.(accts.acctsize) (* accounting reset? *)
                 then set_acctsize 0 (set_offset 0 s) else s in
        Some (u64 (Z.quot (i64 (size - s.(accts.acctsize))) recsz), s)
  end.

(** ** acctvers *)

(** determine the version of the accounting-record layout/length and reposition
    the seek-pointer to the end of the accounting file; [inl] is the code of
    [cleanstop] *)
Definition acctvers (fs : acctfs.acctfs) (f : acctfile) (s : accts.accts) : option (Z + Z * accts.accts) :=
  let bytes := read_file (content fs f) s.(accts.offset) SIZEOF_ACCT in
  let s := set_offset (s.(accts.offset) + Z.of_nat (length bytes)) s in
  if Z.of_nat (length bytes) <? SIZEOF_ACCT then Some (inr (0, s))
  else
    tmprec ← acct_of bytes;
    let version := Z.land tmprec.(acct.ac_version) 0x0f in
    if (version =? 2) || (version =? 3) then
      let recsz := if version =? 2 then SIZEOF_ACCT else SIZEOF_ACCT_V3 in
      let s := accts.mk s.(accts.acctatop) s.(accts.acctsize) recsz version s.(accts.acctfd)
                 s.(accts.offset) s.(accts.curshadowseq) s.(accts.maxshadowrec) in
      r ← acctprocnt fs s;
      let size := i64 (r.1 * recsz) in
      Some (inr (1, set_offset size (set_acctsize size r.2)))
    else Some (inl 8).

(** ** Switching and skipping *)

(** switch to the next accounting shadow file *)
Definition switchshadow (fs : acctfs.acctfs) (s : accts.accts) : accts.accts :=
  let seq := i64 (s.(accts.curshadowseq) + 1) in
  let moved := match fs.(acctfs.shadow) seq with
               | Some _ => fs.(acctfs.lockable) seq
               | None => false
               end in
  accts.mk s.(accts.acctatop) s.(accts.acctsize) s.(accts.acctrecsz) s.(accts.acctversion)
    (if moved then Some (Shadow seq) else s.(accts.acctfd))
    (if moved then 0 else s.(accts.offset)) seq s.(accts.maxshadowrec).

(** reposition the seek offset in the process accounting file to skip
    processes that have not been read *)
Definition acctrepos (fs : acctfs.acctfs) (s : accts.accts) (noverflow : Z) : option accts.accts :=
  match s.(accts.acctfd) with
  | None => Some s
  | Some _ =>
      let skip := u32 (noverflow * s.(accts.acctrecsz)) in
      if negb (s.(accts.maxshadowrec) =? 0) then
        let virtoffset := i64 (s.(accts.acctsize) + skip) in
        let maxshadowsz := i64 (s.(accts.maxshadowrec) * s.(accts.acctrecsz)) in
        if maxshadowsz =? 0 then None
        else
          let switches := Z.quot virtoffset maxshadowsz in
          let s := set_acctsize (Z.rem virtoffset maxshadowsz) s in
          s ← for_lt switches (fun _ s => Some (switchshadow fs s)) s;
          Some (set_offset s.(accts.acctsize) s)
      else
        Some (set_acctsize (i64 (s.(accts.acctsize) + skip))
                (set_offset (i64 (s.(accts.offset) + skip)) s))
  end.

(** ** acctrestarttrial *)

(** What a call leaves: the files and the state, or the end of the program. *)
Inductive acctend :=
  | Cleanstopped (code : Z)
  | Going (fs : acctfs.acctfs) (s : accts.accts).

Definition truncate_classic (fs : acctfs.acctfs) : acctfs.acctfs :=
  acctfs.mk [] fs.(acctfs.shadow) fs.(acctfs.current) fs.(acctfs.lockable) fs.(acctfs.semval)
    fs.(acctfs.truncated) fs.(acctfs.seteuid).

(** stop process accounting, truncate the process accounting file to zero and
    start process accounting again, when this atop is the only user *)
Definition acctrestarttrial (fs : acctfs.acctfs) (f : acctfile) (s : accts.accts) : acctend :=
  if negb s.(accts.acctatop) then Going fs s
  else if negb (s.(accts.acctsize) =? st_size fs f) then Going fs s
  else if fs.(acctfs.semval) <? ATOPACCTTOT - 1 then Going fs s
  else
    let '(fs, s) := if fs.(acctfs.truncated) then (truncate_classic fs, set_offset 0 s) else (fs, s) in
    if droprootprivs fs.(acctfs.seteuid).1 fs.(acctfs.seteuid).2 =? 0 then Cleanstopped 42
    else Going fs (set_acctsize 0 s).

(** ** acctphotoproc *)

(** The state of the loop: [statacc.st_size] and [accproc]. *)
Module photo.
Record photo := mk {
  s : accts.accts;
  size : Z;
  accproc : list tstat.tstat
}.
End photo.

Definition photo_step (fs : acctfs.acctfs) (nrexit : nat) (p : photo.photo) : option photo.photo :=
  let s := p.(photo.s) in
  (* in case of shadow accounting files, we might have to switch from the
     current accouting file to the next *)
  '(s, size) ← (if negb (s.(accts.maxshadowrec) =? 0) && (p.(photo.size) <=? s.(accts.acctsize)) then
                  let s := switchshadow fs s in
                  f ← s.(accts.acctfd);
                  Some (set_acctsize 0 s, st_size fs f)
                else Some (s, p.(photo.size)));
  f ← s.(accts.acctfd);
  api ← p.(photo.accproc) !! nrexit;
  '(api, s) ← (if (s.(accts.acctversion) =? 2) || (s.(accts.acctversion) =? 3) then
                 let bytes := read_file (content fs f) s.(accts.offset) s.(accts.acctrecsz) in
                 api ← fill_record s.(accts.acctversion) s.(accts.acctrecsz) bytes api;
                 Some (api, set_offset (s.(accts.offset) + Z.of_nat (length bytes)) s)
               else Some (api, s));
  accproc ← arr_set p.(photo.accproc) nrexit api;
  Some (photo.mk (set_acctsize (i64 (s.(accts.acctsize) + s.(accts.acctrecsz))) s) size accproc).

(** read the process records from the process accounting file, that are
    written since the previous cycle; the result is the number of records, the
    processes and the end *)
Definition acctphotoproc (fs : acctfs.acctfs) (s : accts.accts) (accproc : list tstat.tstat)
    (nrprocs : Z) : option (Z * list tstat.tstat * acctend) :=
  match s.(accts.acctfd) with
  | None => Some (0, accproc, Going fs s)
  | Some f =>
      p ← for_lt nrprocs (photo_step fs) (photo.mk s (st_size fs f) accproc);
      let s := p.(photo.s) in
      f ← s.(accts.acctfd);
      let e := if (ACCTMAXFILESZ <? s.(accts.acctsize)) && (s.(accts.maxshadowrec) =? 0)
               then acctrestarttrial fs f s else Going fs s in
      Some (Z.max 0 nrprocs, p.(photo.accproc), e)
  end.
