(* ===== verification/AcctFacts.v ===== *)
(** * What reading the accounting records promises

    The shadow files form one stream of records: record [n] stands in file
    [n / max] at place [n mod max]. The state of acctproc.c is a position of
    this stream; acctprocnt counts what is left, acctphotoproc reads on from
    the position across the files, acctrepos skips. *)
From S2P Require Import Prelude Tstat Privs Acctproc.

(** ** The compressed counters *)

Lemma expand_value n v : 0 <= v -> v * 8 ^ Z.of_nat n < 2 ^ 63 -> expand n v = v * 8 ^ Z.of_nat n.
Proof.
  revert v. induction n as [|n IH]; intros v Hv H; cbn [expand]; [cbn; lia|].
  rewrite Nat2Z.inj_succ, Z.pow_succ_r in H |- * by lia.
  assert (E : Z.shiftl v 3 = v * 8) by (by rewrite Z.shiftl_mul_pow2 by lia).
  assert (Hp : 0 < 8 ^ Z.of_nat n) by (apply Z.pow_pos_nonneg; lia).
  assert (v * 8 <= v * (8 * 8 ^ Z.of_nat n)) by nia.
  rewrite E, i64_id by (unfold in_i64; lia). rewrite IH; lia.
Qed.

Lemma acctexp_parts ct : 0 <= ct < 2 ^ 16 ->
  Z.land (Z.shiftr ct 13) 0x7 = ct / 2 ^ 13 /\ Z.land ct 0x1fff = ct mod 2 ^ 13.
Proof.
  intros H. change 0x7 with (Z.ones 3). change 0x1fff with (Z.ones 13).
  rewrite !Z.land_ones, Z.shiftr_div_pow2 by lia. split; [|done].
  apply Z.mod_small. split; [apply Z.div_pos; lia | apply Z.div_lt_upper_bound; lia].
Qed.

(** acctexp expands a compressed counter of an accounting record to mantissa
    times eight to the power of the exponent, below 2^34. *)
Theorem acctexp_value ct : 0 <= ct < 2 ^ 16 ->
  acctexp ct = ct mod 2 ^ 13 * 8 ^ (ct / 2 ^ 13) /\ 0 <= acctexp ct < 2 ^ 34.
Proof.
  intros H. destruct (acctexp_parts ct H) as [E1 E2]. unfold acctexp. rewrite E1, E2.
  pose proof (Z.mod_pos_bound ct (2 ^ 13) ltac:(lia)) as Hm.
  assert (He : 0 <= ct / 2 ^ 13 <= 7).
  { split; [apply Z.div_pos; lia|]. apply Z.lt_succ_r, Z.div_lt_upper_bound; lia. }
  assert (Hp : 0 < 8 ^ (ct / 2 ^ 13) <= 8 ^ 7).
  { split; [apply Z.pow_pos_nonneg; lia | apply Z.pow_le_mono_r; lia]. }
  change (8 ^ 7) with 2097152 in Hp.
  assert (Hb : 0 <= ct mod 2 ^ 13 * 8 ^ (ct / 2 ^ 13) < 2 ^ 34) by nia.
  rewrite expand_value by (rewrite ?Z2Nat.id by lia; lia). rewrite Z2Nat.id by lia. done.
Qed.

(** ** The stream *)

Section stream.
Context (fs : acctfs.acctfs) (max first new last : Z).

(** The shadow files from [first] to [new] are there, full but for the last,
    which holds [last] records. *)
Record shadows_ok : Prop := {
  so_current : fs.(acctfs.current) = Some new;
  so_full : forall seq, first <= seq < new -> exists b,
    fs.(acctfs.shadow) seq = Some b /\ Z.of_nat (length b) = max * 64;
  so_last : exists b, fs.(acctfs.shadow) new = Some b /\ Z.of_nat (length b) = last * 64;
  so_lock : forall seq, first < seq <= new -> fs.(acctfs.lockable) seq = true;
  so_max : 0 < max;
  so_range : 0 <= last <= max;
  so_first : 0 <= first <= new;
  so_bound : (new + 1) * max * 64 < 2 ^ 62
}.
Context (HD : shadows_ok).

Definition total : Z := new * max + last.

(** The bytes of record [n]. *)
Definition record (n : Z) : list Z :=
  read_file (content fs (Shadow (n / max))) (n mod max * 64) 64.

(** The number of records of a file. *)
Definition count (seq : Z) : Z := if seq =? new then last else max.

Lemma count_size seq : first <= seq <= new -> st_size fs (Shadow seq) = count seq * 64.
Proof.
  intros H. unfold st_size, content, count. destruct (Z.eqb_spec seq new) as [->|].
  - destruct (so_last HD) as (b & E & L). by rewrite E.
  - destruct (so_full HD seq) as (b & E & L); [lia|]. by rewrite E.
Qed.

Lemma count_range seq : 0 <= count seq <= max.
Proof. unfold count. pose proof (so_range HD). pose proof (so_max HD). destruct (_ =? _); lia. Qed.

Lemma shadow_exists seq : first <= seq <= new -> is_Some (fs.(acctfs.shadow) seq).
Proof.
  intros H. destruct (decide (seq = new)) as [->|].
  - destruct (so_last HD) as (b & -> & _). eauto.
  - destruct (so_full HD seq) as (b & -> & _); [lia|]. eauto.
Qed.

Lemma file_bound seq k : first <= seq <= new -> 0 <= k <= max -> 0 <= seq * max + k /\ (seq * max + k) * 64 < 2 ^ 62.
Proof. intros H Hk. pose proof (so_bound HD). pose proof (so_first HD). pose proof (so_max HD). nia. Qed.

(** A record that is there. *)
Lemma record_at seq k : first <= seq <= new -> 0 <= k < count seq ->
  record (seq * max + k) = read_file (content fs (Shadow seq)) (k * 64) 64 /\
  length (record (seq * max + k)) = 64%nat.
Proof.
  intros Hs Hk. pose proof (count_range seq) as Hc. unfold record.
  assert (E1 : (seq * max + k) / max = seq) by (rewrite Z.div_add_l, Z.div_small by lia; lia).
  assert (E2 : (seq * max + k) mod max = k) by (rewrite Z.add_comm, Z.mod_add, Z.mod_small by lia; lia).
  rewrite E1, E2. split; [done|]. pose proof (count_size seq Hs) as Hl. unfold st_size in Hl.
  unfold read_file. rewrite length_take, length_drop. lia.
Qed.

(** The state is at position [p]. *)
Record at_pos (version : Z) (s : accts.accts) (p : Z) : Prop := {
  ap_fd : s.(accts.acctfd) = Some (Shadow s.(accts.curshadowseq));
  ap_offset : s.(accts.offset) = s.(accts.acctsize);
  ap_size : s.(accts.acctsize) = (p - s.(accts.curshadowseq) * max) * 64;
  ap_place : 0 <= p - s.(accts.curshadowseq) * max <= count s.(accts.curshadowseq);
  ap_seq : first <= s.(accts.curshadowseq) <= new;
  ap_recsz : s.(accts.acctrecsz) = 64;
  ap_max : s.(accts.maxshadowrec) = max;
  ap_version : s.(accts.acctversion) = version
}.

Lemma left_ok version s p : at_pos version s p -> acctprocnt fs s = Some (total - p, s).
Proof.
  intros [Efd Eo Ez Hp Hs Er Em _]. unfold acctprocnt. rewrite Efd, Er, Em. cbn [Z.eqb].
  set (cur := s.(accts.curshadowseq)) in *. set (k := p - cur * max) in *.
  pose proof (so_max HD) as Hmax. pose proof (count_range cur) as Hc. pose proof (file_bound cur max Hs ltac:(lia)) as Hb.
  pose proof (file_bound new max ltac:(pose proof (so_first HD); lia) ltac:(lia)) as Hbn.
  pose proof (so_range HD) as Hr. pose proof (so_first HD) as Hf.
  rewrite (proj2 (Z.eqb_neq max 0)) by lia. cbn [negb]. rewrite count_size by done.
  rewrite Ez, i64_id by (unfold in_i64; nia).
  replace (count cur * 64 - k * 64) with ((count cur - k) * 64) by lia. rewrite !Z.quot_mul by lia.
  assert (Hu : u64 (count cur - k) = count cur - k) by (unfold u64; apply Z.mod_small; nia).
  rewrite Hu, (so_current HD). unfold total. destruct (Z.ltb_spec (count cur) max) as [Hlt|Hge].
  - unfold count in *. destruct (Z.eqb_spec cur new); [|lia]. do 2 f_equal. lia.
  - destruct (Z.eqb_spec new cur) as [E|E].
    + unfold count in *. rewrite (proj2 (Z.eqb_eq cur new)) in * by done. do 2 f_equal. lia.
    + destruct (so_last HD) as (b & Eb & Lb). rewrite Eb, Lb, Z.quot_mul by lia.
      unfold count in *. rewrite (proj2 (Z.eqb_neq cur new)) in * by lia.
      rewrite (i64_id ((new - cur - 1) * max)) by (unfold in_i64; nia).
      unfold u64. rewrite Z.mod_small by nia. do 2 f_equal. lia.
Qed.

(** ** Switching *)

Lemma switch_ok s : first <= s.(accts.curshadowseq) < new ->
  switchshadow fs s = accts.mk s.(accts.acctatop) s.(accts.acctsize) s.(accts.acctrecsz) s.(accts.acctversion)
    (Some (Shadow (s.(accts.curshadowseq) + 1))) 0 (s.(accts.curshadowseq) + 1) s.(accts.maxshadowrec).
Proof.
  intros H. unfold switchshadow. pose proof (so_first HD). pose proof (so_max HD).
  assert (Hb : new < 2 ^ 62) by (pose proof (so_bound HD); nia).
  rewrite i64_id by (unfold in_i64; lia).
  destruct (shadow_exists (s.(accts.curshadowseq) + 1)) as [b ->]; [lia|].
  by rewrite (so_lock HD) by lia.
Qed.

(** ** Reading *)

(** Within a file that still holds the record, without a switch. *)
Lemma read_step version s p l i api t : at_pos version s p -> version = 2 \/ version = 3 ->
  p - s.(accts.curshadowseq) * max < count s.(accts.curshadowseq) ->
  l !! i = Some api -> fill_record version 64 (record p) api = Some t ->
  exists s', photo_step fs i (photo.mk s (st_size fs (Shadow s.(accts.curshadowseq))) l) =
      Some (photo.mk s' (st_size fs (Shadow s.(accts.curshadowseq))) (<[i := t]> l)) /\
    s'.(accts.curshadowseq) = s.(accts.curshadowseq) /\ at_pos version s' (p + 1).
Proof.
  intros [Efd Eo Ez Hp Hs Er Em Ev] Hv Hlt Hl Hfill. unfold photo_step.
  cbn [photo.s photo.size photo.accproc]. rewrite count_size, Em by done.
  rewrite (proj2 (Z.leb_gt _ s.(accts.acctsize))) by lia. rewrite andb_false_r. mstep. rewrite Efd. mstep.
  rewrite Hl. mstep. assert (Ev' : (s.(accts.acctversion) =? 2) || (s.(accts.acctversion) =? 3) = true).
  { rewrite Ev. by destruct Hv as [-> | ->]. }
  rewrite Ev', Ev.
  set (cur := s.(accts.curshadowseq)) in *. set (k := p - cur * max) in *.
  destruct (record_at cur k Hs ltac:(lia)) as [Erec Elen]. replace (cur * max + k) with p in * by lia.
  rewrite Eo, Er, Ez, <-Erec, Hfill. mstep.
  rewrite arr_set_Some by (by eapply lookup_lt_Some). mstep.
  pose proof (count_range cur) as Hc. pose proof (file_bound cur (k + 1) Hs ltac:(lia)) as Hb.
  pose proof (so_first HD) as Hf. pose proof (so_max HD) as Hm.
  eexists. split; [done|]. split; [done|]. split; try done; cbn; rewrite ?Ez, ?Er, ?Eo, ?Elen.
  - by rewrite i64_id by (unfold in_i64; nia).
  - rewrite i64_id by (unfold in_i64; nia). fold cur. lia.
  - fold cur. lia.
Qed.

(** The position behind the last record of a file that is not the last one is
    the first position of the next file. *)
Lemma next_file version s p : at_pos version s p -> s.(accts.curshadowseq) < new ->
  p - s.(accts.curshadowseq) * max = count s.(accts.curshadowseq) ->
  at_pos version (set_acctsize 0 (switchshadow fs s)) p.
Proof.
  intros [Efd Eo Ez Hp Hs Er Em Ev] Hlt Hend. rewrite switch_ok by lia.
  assert (E : count s.(accts.curshadowseq) = max).
  { unfold count. destruct (Z.eqb_spec s.(accts.curshadowseq) new); [lia | done]. }
  pose proof (count_range (s.(accts.curshadowseq) + 1)).
  split; try done; cbn [accts.acctsize accts.curshadowseq set_acctsize]; lia.
Qed.

Lemma photo_step_ok version s p l i api t : at_pos version s p -> version = 2 \/ version = 3 -> p < total ->
  l !! i = Some api -> fill_record version 64 (record p) api = Some t ->
  exists s', photo_step fs i (photo.mk s (st_size fs (Shadow s.(accts.curshadowseq))) l) =
      Some (photo.mk s' (st_size fs (Shadow s'.(accts.curshadowseq))) (<[i := t]> l)) /\
    at_pos version s' (p + 1).
Proof.
  intros HP Hv Hp Hl Hfill. pose proof (ap_seq _ _ _ HP) as Hs. pose proof (ap_place _ _ _ HP) as Hpl.
  destruct (decide (p - s.(accts.curshadowseq) * max < count s.(accts.curshadowseq))) as [Hlt|Hge].
  { destruct (read_step version s p l i api t) as (s' & E & Ec & H'); try done.
    exists s'. rewrite Ec. done. }
  assert (Hn : s.(accts.curshadowseq) < new).
  { destruct (decide (s.(accts.curshadowseq) = new)) as [E|]; [|lia].
    unfold total, count in *. rewrite E, Z.eqb_refl in *. lia. }
  pose proof (next_file version s p HP Hn ltac:(lia)) as HP'.
  set (s1 := set_acctsize 0 (switchshadow fs s)) in *.
  assert (Ecur : s1.(accts.curshadowseq) = s.(accts.curshadowseq) + 1) by (unfold s1; by rewrite switch_ok by lia).
  assert (E0 : s1.(accts.acctsize) = 0) by done.
  pose proof (ap_size _ _ _ HP') as Ez'. pose proof (ap_seq _ _ _ HP') as Hs'.
  assert (Hc : 0 < count s1.(accts.curshadowseq)).
  { unfold count, total in *. destruct (Z.eqb_spec s1.(accts.curshadowseq) new); [nia|]. apply HD. }
  destruct (read_step version s1 p l i api t) as (s' & E & Ec & H'); try done; [lia|].
  exists s'. rewrite Ec. split; [|done]. rewrite <-E. unfold photo_step at 1 2. cbn [photo.s photo.size photo.accproc].
  rewrite (count_size s.(accts.curshadowseq)), (ap_size _ _ _ HP), (ap_max _ _ _ HP) by done.
  rewrite (proj2 (Z.eqb_neq max 0)) by (pose proof (so_max HD); lia).
  rewrite (proj2 (Z.leb_le (count s.(accts.curshadowseq) * 64) _)) by lia. cbn [negb andb]. fold s1.
  assert (Efd0 : (switchshadow fs s).(accts.acctfd) = Some (Shadow s1.(accts.curshadowseq))) by apply HP'.
  rewrite Efd0. mstep. rewrite (ap_max _ _ _ HP'), (count_size s1.(accts.curshadowseq)), E0 by done.
  rewrite (proj2 (Z.leb_gt _ 0)) by lia. by rewrite andb_false_r.
Qed.

(** The loop. *)
Lemma photo_loop version s p accproc n : at_pos version s p -> version = 2 \/ version = 3 ->
  0 <= n -> p + n <= total ->
  (forall i, Z.of_nat i < n -> is_Some (api ← accproc !! i; fill_record version 64 (record (p + Z.of_nat i)) api)) ->
  exists s' out, for_lt n (photo_step fs) (photo.mk s (st_size fs (Shadow s.(accts.curshadowseq))) accproc) =
      Some (photo.mk s' (st_size fs (Shadow s'.(accts.curshadowseq))) out) /\
    at_pos version s' (p + n) /\ length out = length accproc /\
    (forall i, Z.of_nat i < n -> out !! i = api ← accproc !! i; fill_record version 64 (record (p + Z.of_nat i)) api) /\
    (forall i, n <= Z.of_nat i -> out !! i = accproc !! i).
Proof.
  intros HP Hv Hn Ht Hfill.
  set (Inv := fun (i : nat) (q : photo.photo) => exists s' out,
    q = photo.mk s' (st_size fs (Shadow s'.(accts.curshadowseq))) out /\ at_pos version s' (p + Z.of_nat i) /\
    length out = length accproc /\
    (forall j, (j < i)%nat -> out !! j = api ← accproc !! j; fill_record version 64 (record (p + Z.of_nat j)) api) /\
    (forall j, (i <= j)%nat -> out !! j = accproc !! j)).
  destruct (for_lt_inv (photo_step fs) Inv n
    (photo.mk s (st_size fs (Shadow s.(accts.curshadowseq))) accproc)) as (q & E & s' & out & -> & H1 & H2 & H3 & H4).
  - intros i q Hi (s1 & out & -> & H1 & H2 & H3 & H4).
    destruct (Hfill i Hi) as [t Et]. destruct (accproc !! i) as [api|] eqn:Ea; [|done]. cbn in Et.
    destruct (photo_step_ok version s1 (p + Z.of_nat i) out i api t) as (s2 & E & HP2); try done; [lia | | ].
    { by rewrite H4. }
    exists (photo.mk s2 (st_size fs (Shadow s2.(accts.curshadowseq))) (<[i := t]> out)). split; [done|].
    exists s2, (<[i := t]> out). split; [done|]. split; [by replace (p + Z.of_nat (S i)) with (p + Z.of_nat i + 1) by lia|].
    apply lookup_lt_Some in Ea as Hlt. split; [by rewrite length_insert|]. split.
    + intros j Hj. destruct (decide (j = i)) as [->|].
      * rewrite list_lookup_insert_eq by lia. by rewrite Ea.
      * rewrite list_lookup_insert_ne by done. apply H3. lia.
    + intros j Hj. rewrite list_lookup_insert_ne by lia. apply H4. lia.
  - exists s, accproc. split; [done|]. split; [by rewrite Z.add_0_r|]. split; [done|]. split; [lia | done].
  - exists s', out. split; [done|]. rewrite Z2Nat.id in H1 by done. split; [done|]. split; [done|].
    split; intros i Hi; [apply H3 | apply H4]; lia.
Qed.

(** ** Skipping *)

Lemma switches_ok s n : 0 <= n -> first <= s.(accts.curshadowseq) -> s.(accts.curshadowseq) + n <= new ->
  s.(accts.acctfd) = Some (Shadow s.(accts.curshadowseq)) ->
  exists s', for_lt n (fun _ s => Some (switchshadow fs s)) s = Some s' /\
    s'.(accts.acctfd) = Some (Shadow (s.(accts.curshadowseq) + n)) /\
    s'.(accts.curshadowseq) = s.(accts.curshadowseq) + n /\ s'.(accts.acctsize) = s.(accts.acctsize) /\
    s'.(accts.acctrecsz) = s.(accts.acctrecsz) /\ s'.(accts.maxshadowrec) = s.(accts.maxshadowrec) /\
    s'.(accts.acctversion) = s.(accts.acctversion).
Proof.
  intros Hn Hf Hl Hfd.
  destruct (for_lt_inv (fun _ s => Some (switchshadow fs s)) (fun i s' =>
    s'.(accts.acctfd) = Some (Shadow (s.(accts.curshadowseq) + Z.of_nat i)) /\
    s'.(accts.curshadowseq) = s.(accts.curshadowseq) + Z.of_nat i /\ s'.(accts.acctsize) = s.(accts.acctsize) /\
    s'.(accts.acctrecsz) = s.(accts.acctrecsz) /\ s'.(accts.maxshadowrec) = s.(accts.maxshadowrec) /\
    s'.(accts.acctversion) = s.(accts.acctversion)) n s) as (s' & E & H).
  - intros i s1 Hi (_ & H2 & H3 & H4 & H5 & H6). exists (switchshadow fs s1). split; [done|].
    rewrite switch_ok by lia. cbn. rewrite H2. split_and!; try done; [|lia]. do 2 f_equal. lia.
  - rewrite Z.add_0_r. done.
  - exists s'. rewrite Z2Nat.id in H by done. done.
Qed.

Lemma skip_ok version s p n : at_pos version s p -> 0 <= n -> n * 64 < 2 ^ 32 ->
  p + n <= total -> p + n < (new + 1) * max ->
  exists s', acctrepos fs s n = Some s' /\ at_pos version s' (p + n).
Proof.
  intros [Efd Eo Ez Hp Hs Er Em Ev] Hn Hsmall Ht Hfile. unfold acctrepos. rewrite Efd, Er, Em.
  pose proof (so_max HD) as Hmax. pose proof (so_first HD) as Hf. pose proof (so_bound HD) as HB.
  rewrite (proj2 (Z.eqb_neq max 0)) by lia. cbn [negb]. rewrite u32_id by lia.
  set (cur := s.(accts.curshadowseq)) in *. set (k := p - cur * max) in *.
  pose proof (file_bound cur max Hs ltac:(lia)) as Hb. pose proof (count_range cur) as Hc.
  rewrite (i64_id (max * 64)) by (unfold in_i64; nia). rewrite Ez, i64_id by (unfold in_i64; nia).
  rewrite (proj2 (Z.eqb_neq (max * 64) 0)) by lia.
  replace (k * 64 + n * 64) with ((k + n) * 64) by lia.
  rewrite Z.quot_div_nonneg, Z.rem_mod_nonneg by lia. rewrite Z.div_mul_cancel_r, Z.mul_mod_distr_r by lia.
  pose proof (Z.div_mod (k + n) max ltac:(lia)) as Hdm. pose proof (Z.mod_pos_bound (k + n) max Hmax) as Hm.
  assert (Hd0 : 0 <= (k + n) / max) by (apply Z.div_pos; lia).
  assert (Hd : cur + (k + n) / max <= new) by nia.
  destruct (switches_ok (set_acctsize ((k + n) mod max * 64) s) ((k + n) / max))
    as (s' & E & H1 & H2 & H3 & H4 & H5 & H6); try done; [apply Hs|].
  rewrite E. mstep. exists (set_offset s'.(accts.acctsize) s'). split; [done|].
  cbn [accts.curshadowseq accts.acctsize accts.acctrecsz accts.maxshadowrec accts.acctversion set_acctsize] in H1, H2, H3, H4, H5, H6.
  fold cur in H1, H2. split; cbn [accts.acctfd accts.offset accts.acctsize accts.curshadowseq accts.acctrecsz
    accts.maxshadowrec accts.acctversion set_offset].
  - by rewrite H1, H2.
  - done.
  - rewrite H3, H2. nia.
  - rewrite H2. unfold count. destruct (Z.eqb_spec (cur + (k + n) / max) new) as [En|]; [|nia].
    unfold total in Ht. nia.
  - rewrite H2. lia.
  - by rewrite H4.
  - by rewrite H5.
  - by rewrite H6.
Qed.

(** C11: With the shadow files of atopacctd, acctprocnt gives the number of
    records that wait; acctphotoproc reads any number of them, fills process i
    from the i-th waiting record, also across the ends of files, and leaves
    the other processes alone; acctrepos skips further records; afterwards
    acctprocnt gives what is left. *)
Theorem acct_stream version s p accproc n m : at_pos version s p -> version = 2 \/ version = 3 ->
  0 <= n -> 0 <= m -> m * 64 < 2 ^ 32 -> p + n + m <= total -> p + n + m < (new + 1) * max ->
  (forall i, Z.of_nat i < n -> is_Some (api ← accproc !! i; fill_record version 64 (record (p + Z.of_nat i)) api)) ->
  acctprocnt fs s = Some (total - p, s) /\
  exists s1 s2 out, acctphotoproc fs s accproc n = Some (n, out, Going fs s1) /\
    length out = length accproc /\
    (forall i, Z.of_nat i < n -> out !! i = api ← accproc !! i; fill_record version 64 (record (p + Z.of_nat i)) api) /\
    (forall i, n <= Z.of_nat i -> out !! i = accproc !! i) /\
    acctprocnt fs s1 = Some (total - p - n, s1) /\
    acctrepos fs s1 m = Some s2 /\ acctprocnt fs s2 = Some (total - p - n - m, s2).
Proof.
  intros HP Hv Hn Hm Hs Ht Hf Hfill. split; [by apply (left_ok version)|].
  destruct (photo_loop version s p accproc n) as (s1 & out & E & HP1 & Hl & Hlo & Hhi); try done; [lia|].
  destruct (skip_ok version s1 (p + n) m) as (s2 & E2 & HP2); try done.
  exists s1, s2, out. split; [|split; [done|split; [done|split; [done|split]]]].
  - unfold acctphotoproc. rewrite (ap_fd _ _ _ HP), E. mstep.
    cbn [photo.s photo.accproc]. rewrite (ap_fd _ _ _ HP1). mstep.
    rewrite (ap_max _ _ _ HP1), (proj2 (Z.eqb_neq max 0)) by (pose proof (so_max HD); lia).
    rewrite andb_false_r. by rewrite Z.max_r by done.
  - rewrite (left_ok version s1 _ HP1). do 2 f_equal. lia.
  - split; [done|]. rewrite (left_ok version s2 _ HP2). do 2 f_equal. lia.
Qed.
End stream.

(** ** Concrete files *)

(** A record of the layout with version 3: PID, user ticks and a name. *)
Definition a_v3_record (pid utime : Z) (name : list Z) : list Z :=
  [0; 3] ++ replicate 14 0 ++ [pid; 0; 0; 0] ++ replicate 12 0 ++ [utime; 0] ++ replicate 14 0 ++
  name ++ replicate (16 - length name) 0.

(** Files 5 and 6 are full with two records, file 7 holds one. *)
Definition a_shadow (seq : Z) : option (list Z) :=
  if seq =? 5 then Some (a_v3_record 10 7 [115; 104] ++ a_v3_record 11 8 [118; 105])
  else if seq =? 6 then Some (a_v3_record 12 9 [108; 115] ++ a_v3_record 13 10 [100; 102])
  else if seq =? 7 then Some (a_v3_record 14 11 [112; 115]) else None.

Definition some_files : acctfs.acctfs :=
  acctfs.mk [] a_shadow (Some 7) (fun _ => true) 0 false (0, 0).

(** The first record of file 5 was read. *)
Definition a_state : accts.accts := accts.mk false 64 64 3 (Some (Shadow 5)) 64 5 2.

Lemma some_files_ok : shadows_ok some_files 2 5 7 1.
Proof.
  split; try done.
  - intros seq H. assert (seq = 5 \/ seq = 6) as [-> | ->] by lia; eexists; (split; [reflexivity | done]).
  - eexists. split; [reflexivity|]. done.
Qed.

Lemma a_state_ok : at_pos 2 5 7 1 3 a_state 11.
Proof. by split. Qed.

Lemma acctexp_value_witness : acctexp 16389 = 5 * 8 ^ 2 /\ 0 <= acctexp 16389 < 2 ^ 34.
Proof. apply (acctexp_value 16389). lia. Defined.

Lemma acct_stream_witness : exists s1 s2 out,
  acctprocnt some_files a_state = Some (4, a_state) /\
  acctphotoproc some_files a_state (replicate 3 tstat_zero) 2 = Some (2, out, Going some_files s1) /\
  (tgen.pid ∘ tstat.gen <$> out) = [11; 12; 0] /\ acctprocnt some_files s1 = Some (2, s1) /\
  acctrepos some_files s1 1 = Some s2 /\ acctprocnt some_files s2 = Some (1, s2).
Proof.
  destruct (acct_stream some_files 2 5 7 1 some_files_ok 3 a_state 11 (replicate 3 tstat_zero) 2 1 a_state_ok)
    as (E0 & s1 & s2 & out & E1 & Hl & Hlo & Hhi & E2 & E3 & E4);
    [by right | lia | lia | lia | unfold total; lia | lia | |].
  - intros i Hi. assert (i = 0 \/ i = 1)%nat as [-> | ->] by lia; by eexists.
  - exists s1, s2, out. split; [exact E0|]. split; [exact E1|]. clear E0 E1.
    split; [|split; [exact E2 | split; [exact E3 | exact E4]]]. clear E2 E3 E4.
    pose proof (Hlo 0%nat ltac:(lia)) as H0. pose proof (Hlo 1%nat ltac:(lia)) as H1.
    pose proof (Hhi 2%nat ltac:(lia)) as H2. clear Hlo Hhi.
    vm_compute in H0, H1. destruct out as [|x [|y [|z [|]]]]; [discriminate..| |discriminate]. cbn in H2.
    injection H0 as ->. injection H1 as ->. by injection H2 as ->.
Defined.
