(* ===== verification/Atopacctd.v ===== *)
(** * The accounting daemon: atopacctd.c

    The daemon copies the records that the kernel appends to the source file
    into a sequence of shadow files, which its clients read (acctproc.c). The
    state holds the static variables, the variables of [main] that
    [awaitprocterm] is given, the table of open descriptors, the shadow files
    and the contents of the file [current]; what netlink, the clock, the
    semaphore and the calls on files answer is the input of a step. *)
From S2P Require Import Prelude Acctproc.

Definition RETRYCNT : Z := 10.
Definition NORECINTERVAL : Z := 3600.
Definition GCINTERVAL : Z := 60.
Definition SEMTOTAL : Z := 100.
Definition MAXSHADOWREC : Z := 10000.
Definition MAXORIGSZ : Z := 1024 * 1024.
Definition ABUFSIZE : Z := 16000.
Definition EINTR : Z := 4.
Definition ENOMEM : Z := 12.
Definition ENOBUFS : Z := 105.

(** What an open descriptor refers to. *)
Inductive fdfile :=
  | FShadow (seq : Z)
  | FOther.

Module daemon.
Record daemon := mk {
  (* static variables of awaitprocterm and pass2shadow *)
  arecsize : Z;
  netlinkactive : Z;
  atotsize : Z;
  stotsize : Z;
  maxshadowsz : Z;
  reclast : Z;
  nrskipped : Z;
  (* static variables of the file and of setcurrent *)
  maxshadowrec : Z;
  cfd : Z;
  (* variables of main *)
  sfd : Z;
  shadowbusy : Z;
  oldshadow : Z;
  curshadow : Z;
  (* the system *)
  fds : gmap Z fdfile;
  files : gmap Z (list Z);
  current : option (Z * Z)
}.
End daemon.

(** Setters of the members that change one at a time. *)
Definition set_netlinkactive (v : Z) (d : daemon.daemon) : daemon.daemon :=
  daemon.mk d.(daemon.arecsize) v d.(daemon.atotsize) d.(daemon.stotsize) d.(daemon.maxshadowsz)
    d.(daemon.reclast) d.(daemon.nrskipped) d.(daemon.maxshadowrec) d.(daemon.cfd) d.(daemon.sfd)
    d.(daemon.shadowbusy) d.(daemon.oldshadow) d.(daemon.curshadow) d.(daemon.fds) d.(daemon.files)
    d.(daemon.current).
Definition set_arec (arecsize maxshadowsz : Z) (d : daemon.daemon) : daemon.daemon :=
  daemon.mk arecsize d.(daemon.netlinkactive) d.(daemon.atotsize) d.(daemon.stotsize) maxshadowsz
    d.(daemon.reclast) d.(daemon.nrskipped) d.(daemon.maxshadowrec) d.(daemon.cfd) d.(daemon.sfd)
    d.(daemon.shadowbusy) d.(daemon.oldshadow) d.(daemon.curshadow) d.(daemon.fds) d.(daemon.files)
    d.(daemon.current).
Definition set_atotsize (v : Z) (d : daemon.daemon) : daemon.daemon :=
  daemon.mk d.(daemon.arecsize) d.(daemon.netlinkactive) v d.(daemon.stotsize) d.(daemon.maxshadowsz)
    d.(daemon.reclast) d.(daemon.nrskipped) d.(daemon.maxshadowrec) d.(daemon.cfd) d.(daemon.sfd)
    d.(daemon.shadowbusy) d.(daemon.oldshadow) d.(daemon.curshadow) d.(daemon.fds) d.(daemon.files)
    d.(daemon.current).
Definition set_stotsize (v : Z) (d : daemon.daemon) : daemon.daemon :=
  daemon.mk d.(daemon.arecsize) d.(daemon.netlinkactive) d.(daemon.atotsize) v d.(daemon.maxshadowsz)
    d.(daemon.reclast) d.(daemon.nrskipped) d.(daemon.maxshadowrec) d.(daemon.cfd) d.(daemon.sfd)
    d.(daemon.shadowbusy) d.(daemon.oldshadow) d.(daemon.curshadow) d.(daemon.fds) d.(daemon.files)
    d.(daemon.current).
Definition set_reclast (v : Z) (d : daemon.daemon) : daemon.daemon :=
  daemon.mk d.(daemon.arecsize) d.(daemon.netlinkactive) d.(daemon.atotsize) d.(daemon.stotsize)
    d.(daemon.maxshadowsz) v d.(daemon.nrskipped) d.(daemon.maxshadowrec) d.(daemon.cfd) d.(daemon.sfd)
    d.(daemon.shadowbusy) d.(daemon.oldshadow) d.(daemon.curshadow) d.(daemon.fds) d.(daemon.files)
    d.(daemon.current).
Definition set_nrskipped (v : Z) (d : daemon.daemon) : daemon.daemon :=
  daemon.mk d.(daemon.arecsize) d.(daemon.netlinkactive) d.(daemon.atotsize) d.(daemon.stotsize)
    d.(daemon.maxshadowsz) d.(daemon.reclast) v d.(daemon.maxshadowrec) d.(daemon.cfd) d.(daemon.sfd)
    d.(daemon.shadowbusy) d.(daemon.oldshadow) d.(daemon.curshadow) d.(daemon.fds) d.(daemon.files)
    d.(daemon.current).
Definition set_currency (cfd : Z) (fds : gmap Z fdfile) (current : option (Z * Z)) (d : daemon.daemon) : daemon.daemon :=
  daemon.mk d.(daemon.arecsize) d.(daemon.netlinkactive) d.(daemon.atotsize) d.(daemon.stotsize)
    d.(daemon.maxshadowsz) d.(daemon.reclast) d.(daemon.nrskipped) d.(daemon.maxshadowrec) cfd
    d.(daemon.sfd) d.(daemon.shadowbusy) d.(daemon.oldshadow) d.(daemon.curshadow) fds d.(daemon.files)
    current.
Definition set_sfd (sfd : Z) (fds : gmap Z fdfile) (files : gmap Z (list Z)) (d : daemon.daemon) : daemon.daemon :=
  daemon.mk d.(daemon.arecsize) d.(daemon.netlinkactive) d.(daemon.atotsize) d.(daemon.stotsize)
    d.(daemon.maxshadowsz) d.(daemon.reclast) d.(daemon.nrskipped) d.(daemon.maxshadowrec) d.(daemon.cfd)
    sfd d.(daemon.shadowbusy) d.(daemon.oldshadow) d.(daemon.curshadow) fds files d.(daemon.current).
Definition set_shadows (shadowbusy oldshadow curshadow : Z) (files : gmap Z (list Z)) (d : daemon.daemon) : daemon.daemon :=
  daemon.mk d.(daemon.arecsize) d.(daemon.netlinkactive) d.(daemon.atotsize) d.(daemon.stotsize)
    d.(daemon.maxshadowsz) d.(daemon.reclast) d.(daemon.nrskipped) d.(daemon.maxshadowrec) d.(daemon.cfd)
    d.(daemon.sfd) shadowbusy oldshadow curshadow d.(daemon.fds) files d.(daemon.current).

(** ** Descriptors *)

(** The system gives the lowest descriptor that is free. *)
Fixpoint free_from (fuel : nat) (i : Z) (fds : gmap Z fdfile) : Z :=
  match fuel with
  | O => i
  | S f => match fds !! i with Some _ => free_from f (i + 1) fds | None => i end
  end.

Definition lowest_free (fds : gmap Z fdfile) : Z := free_from (size fds) 0 fds.

(** ** Shadow files *)

(** create first shadow file with requested sequence number; [creat] fails when
    [ok] is not set. The new descriptor is the result. *)
Definition createshadow (ok : bool) (seq : Z) (d : daemon.daemon) : exitor (Z * daemon.daemon) :=
  if ok then
    let fd := lowest_free d.(daemon.fds) in
    Ret (fd, set_sfd d.(daemon.sfd) (<[fd := FShadow seq]> d.(daemon.fds))
               (<[seq := []]> d.(daemon.files)) d)
  else Exit 5.

(** [write(fd, b, n)]: to a shadow file that is linked, behind what was written.
    [room] is the number of bytes that there is place for: no more of [b] are
    stored, and [None] is an error. -1 when the descriptor is not open. *)
Definition write_fd (room : option Z) (fd : Z) (b : list Z) (d : daemon.daemon) : Z * daemon.daemon :=
  match room, d.(daemon.fds) !! fd with
  | Some room, Some f =>
      let b := take (Z.to_nat room) b in
      (Z.of_nat (length b),
       match f with
       | FShadow seq => set_sfd d.(daemon.sfd) d.(daemon.fds) (alter (fun c => c ++ b) seq d.(daemon.files)) d
       | FOther => d
       end)
  | _, _ => (-1, d)
  end.

(** transfer process accounting data to shadow file; [space] is the answer of
    [fstatvfs], blocks and free blocks, and then the room for [write]; what was
    passed counts in full unless [write] fails *)
Definition pass2shadow (space : option (Z * Z) * option Z) (sfd : Z) (sbuf : list Z) (d : daemon.daemon) :
    exitor (Z * daemon.daemon) :=
  let full := match space.1 with
              | Some (f_blocks, f_bfree) =>
                  (f_blocks =? 0) || (u64 (f_bfree * 100) / f_blocks <? 5)
              | None => false
              end in
  if full then Ret (0, set_nrskipped (u64 (d.(daemon.nrskipped) + 1)) d)
  else
    let d := set_nrskipped 0 d in
    let w := write_fd space.2 sfd sbuf d in
    if w.1 =? -1 then Exit 7 else Ret (Z.of_nat (length sbuf), w.2).

(** write sequence number of current (newest) file; [ok] is the result of [creat] *)
Definition setcurrent (ok : bool) (curshadow : Z) (d : daemon.daemon) : daemon.daemon :=
  let data := Some (curshadow, d.(daemon.maxshadowrec)) in
  if d.(daemon.cfd) =? -1 then
    if ok then
      let fd := lowest_free d.(daemon.fds) in
      set_currency fd (<[fd := FOther]> d.(daemon.fds)) data d
    else d
  else set_currency d.(daemon.cfd) d.(daemon.fds) data d.

(** remove old shadow files not being in use any more: from the oldest on, up to
    the first one that is missing or locked by a reader *)
Fixpoint gcshadows_loop (fuel : nat) (locked : Z -> bool) (old curshadow : Z)
    (files : gmap Z (list Z)) : option (Z * gmap Z (list Z)) :=
  match fuel with
  | O => None
  | S f =>
      if old <? curshadow then
        match files !! old with
        | None => Some (old, files)
        | Some _ =>
            if locked old then Some (old, files)
            else gcshadows_loop f locked (u64 (old + 1)) curshadow (delete old files)
        end
      else Some (old, files)
  end.

Definition gcshadows (locked : Z -> bool) (oldshadow curshadow : Z) (files : gmap Z (list Z)) :
    option (Z * gmap Z (list Z)) :=
  gcshadows_loop (S (size files)) locked oldshadow curshadow files.

(** determine the size of an accounting record *)
Definition acctsize (b : list Z) : option Z :=
  v ← b !! 1%nat;
  Some (match Z.land v 0x0f with
        | 2 => SIZEOF_ACCT
        | 3 => SIZEOF_ACCT_V3
        | _ => 0
        end).

(** ** The inputs of a step *)

Module answers.
Record answers := mk {
  recv : Z;                        (* netlink_recv *)
  reads : list (option (list Z));  (* reads of the source file; [None] is -1, no more is 0 *)
  nows : Z * Z * Z;                (* time(0), in the order of the calls *)
  truncated : bool * bool;         (* truncate, when no record came and when the file is big *)
  attempts : list (bool * list Z); (* swonpacct: acct, and the results of read *)
  semval : Z;                      (* the public semaphore *)
  space1 : option (Z * Z) * option Z;  (* fstatvfs and write, first call *)
  space2 : option (Z * Z) * option Z;  (* second call *)
  creatable : bool;                (* creat of a shadow file *)
  locked : Z -> bool               (* a reader holds a lock *)
}.
End answers.

(** [while ((asz = read(...)) == 0 && --retrycount) nanosleep(...)] *)
Fixpoint read_records (retrycount : nat) (reads : list (option (list Z))) : option (list Z) :=
  match retrycount with
  | O => Some []
  | S n =>
      match reads with
      | [] => Some []
      | Some [] :: reads' => read_records n reads'
      | r :: _ => r
      end
  end.

(** switch on the process accounting mechanism: -1 in case of permanent failure,
    otherwise number of bytes read; the attempts go on until one delivers a
    record *)
Fixpoint swonpacct (attempts : list (bool * list Z)) : option Z :=
  match attempts with
  | [] => None
  | (false, _) :: _ => Some (-1)
  | (true, ns) :: attempts' =>
      match List.find (fun n => 0 <? n) (take 40 ns) with
      | Some n => Some n
      | None => swonpacct attempts'
      end
  end.

(** NUMCLIENTS *)
Definition numclients (a : answers.answers) : Z := SEMTOTAL - a.(answers.semval).

(** ** awaitprocterm *)

(** The answer of netlink: go on, or return this value. *)
Definition await_netlink (a : answers.answers) (d : daemon.daemon) : option (Z * daemon.daemon) :=
  if negb (d.(daemon.netlinkactive) =? 0) then
    let rv := a.(answers.recv) in
    if rv =? 0 then Some (-1, d)
    else if rv <? 0 then
      if (- rv =? EINTR) || (- rv =? ENOMEM) || (- rv =? ENOBUFS) then None
      else Some (0, set_netlinkactive 0 d) (* polling mode wanted *)
    else None
  else None.

(** No client uses the shadow files: when one did till now, they are removed and
    the daemon starts again with sequence 0. *)
Definition no_clients (a : answers.answers) (d : daemon.daemon) : option (exitor daemon.daemon) :=
  if d.(daemon.shadowbusy) =? 0 then Some (Ret d)
  else
    g ← gcshadows a.(answers.locked) d.(daemon.oldshadow) (u64 (d.(daemon.curshadow) + 1)) d.(daemon.files);
    let d := set_stotsize 0 (set_shadows d.(daemon.shadowbusy) 0 0 g.2 d) in
    let d := set_sfd d.(daemon.sfd) (delete d.(daemon.sfd) d.(daemon.fds)) d.(daemon.files) d in
    Some ('(_, d) ← createshadow a.(answers.creatable) d.(daemon.curshadow) d;
          let d := setcurrent a.(answers.creatable) d.(daemon.curshadow) d in
          Ret (set_shadows 0 d.(daemon.oldshadow) d.(daemon.curshadow) d.(daemon.files) d)).

(** [if ((ssz = pass2shadow(...)) > 0) stotsize += ssz;] *)
Definition pass (space : option (Z * Z) * option Z) (sfd : Z) (b : list Z) (d : daemon.daemon) : exitor daemon.daemon :=
  '(ssz, d) ← pass2shadow space sfd b d;
  Ret (if 0 <? ssz then set_stotsize (u64 (d.(daemon.stotsize) + ssz)) d else d).

(** switch to next sequence number *)
Definition next_shadow (a : answers.answers) (sfd : Z) (d : daemon.daemon) : exitor (Z * daemon.daemon) :=
  let d := set_sfd d.(daemon.sfd) (delete sfd d.(daemon.fds)) d.(daemon.files) d in
  let d := set_shadows d.(daemon.shadowbusy) d.(daemon.oldshadow) (u64 (d.(daemon.curshadow) + 1))
             d.(daemon.files) d in
  '(sfd, d) ← createshadow a.(answers.creatable) d.(daemon.curshadow) d;
  Ret (sfd, set_stotsize 0 (setcurrent a.(answers.creatable) d.(daemon.curshadow) d)).

(** transfer process accounting data to shadow file but take care to fill a
    shadow file exactly to its maximum and not more; the variable [sfd] of the
    function is lost when it returns *)
Definition transfer (a : answers.answers) (abuf : list Z) (d : daemon.daemon) : exitor daemon.daemon :=
  let asz := Z.of_nat (length abuf) in
  let sfd := d.(daemon.sfd) in
  let fits := u64 (d.(daemon.stotsize) + asz) <=? d.(daemon.maxshadowsz) in
  let partsz := if fits then 0 else i32 (d.(daemon.maxshadowsz) - d.(daemon.stotsize)) in
  let remsz := if fits then 0 else asz - partsz in
  d ← pass a.(answers.space1) sfd (if fits then abuf else take (Z.to_nat partsz) abuf) d;
  if d.(daemon.maxshadowsz) <=? d.(daemon.stotsize) then
    '(sfd, d) ← next_shadow a sfd d;
    if remsz =? 0 then Ret d
    else pass a.(answers.space2) sfd (drop (Z.to_nat partsz) abuf) d
  else Ret d.

(** The part after the records were read. *)
Definition handle_records (a : answers.answers) (abuf : list Z) (d : daemon.daemon) :
    option (exitor (Z * daemon.daemon)) :=
  let d := set_reclast a.(answers.nows).1.1 d in
  arec ← (if d.(daemon.arecsize) =? 0 then acctsize abuf else Some d.(daemon.arecsize));
  if arec =? 0 then Some (Ret (-1, d))
  else
    let d := if d.(daemon.arecsize) =? 0
             then set_arec arec (u64 (d.(daemon.maxshadowrec) * arec)) d else d in
    let total := u64 (d.(daemon.atotsize) + Z.of_nat (length abuf)) in
    let d := set_atotsize (if (MAXORIGSZ <=? total) && a.(answers.truncated).2 then 0 else total) d in
    if numclients a =? 0 then
      r ← no_clients a d;
      Some (d ← r; Ret (1, d))
    else
      let d := set_shadows 1 d.(daemon.oldshadow) d.(daemon.curshadow) d.(daemon.files) d in
      Some (d ← transfer a abuf d; Ret (1, d)).

(** wait for at least one process termination and copy process accounting
    record(s) from the source process accounting file to the current shadow
    accounting file: 0 - no record read, 1 - at least one record read, -1 -
    irrecoverable failure *)
Definition awaitprocterm (a : answers.answers) (d : daemon.daemon) : option (exitor (Z * daemon.daemon)) :=
  match await_netlink a d with
  | Some r => Some (Ret r)
  | None =>
      let retrycount := if d.(daemon.netlinkactive) =? 0 then 1 else RETRYCNT in
      match read_records (Z.to_nat retrycount) a.(answers.reads) with
      | None => Some (Ret (-1, d))
      | Some [] =>
          if (d.(daemon.reclast) + NORECINTERVAL <? a.(answers.nows).1.1) && negb (d.(daemon.reclast) =? 0) then
            d ← (if a.(answers.truncated).1 then
                   n ← swonpacct a.(answers.attempts); Some (set_atotsize (u64 n) d)
                 else Some d);
            Some (Ret (0, set_reclast a.(answers.nows).1.2 d))
          else Some (Ret (0, d))
      | Some abuf => handle_records a abuf d
      end
  end.

(** ** main *)

(** The shadow directory at the start: sequence 0; the descriptors that are
    open then are those of stderr and of the source file; [creatable] are the
    results of the calls of [creat]. *)
Definition daemon_start (creatable : bool * bool) (fds : gmap Z fdfile) : exitor daemon.daemon :=
  let d := daemon.mk 0 1 0 0 0 0 0 MAXSHADOWREC (-1) 0 0 0 0 fds ∅ None in
  '(sfd, d) ← createshadow creatable.1 0 d;
  Ret (setcurrent creatable.2 0 (set_sfd sfd d.(daemon.fds) d.(daemon.files) d)).

(** One turn of the main loop: [None] ends the loop. [gclast] is the time of the
    last garbage collection. *)
Definition main_step (a : answers.answers) (gclast : Z) (d : daemon.daemon) :
    option (exitor (option (Z * daemon.daemon))) :=
  r ← awaitprocterm a d;
  match r with
  | Exit c => Some (Exit c)
  | Ret (state, d) =>
      if state =? -1 then Some (Ret None)
      else if negb (d.(daemon.shadowbusy) =? 0) && (gclast + GCINTERVAL <? a.(answers.nows).2) then
        g ← gcshadows a.(answers.locked) d.(daemon.oldshadow) d.(daemon.curshadow) d.(daemon.files);
        Some (Ret (Some (a.(answers.nows).2,
          set_shadows d.(daemon.shadowbusy) g.1 d.(daemon.curshadow) g.2 d)))
      else Some (Ret (Some (gclast, d)))
  end.
