(* ===== verification/AtopacctdFacts.v ===== *)
(** * What the accounting daemon promises its readers

    While a reader is there, the shadow files from the one that the oldest reader
    holds on are full but for the last, and together they hold every record
    that the daemon has read, in order: the state that acctproc.c relies on. *)
From S2P Require Import Prelude Tstat Privs Acctproc AcctFacts Atopacctd.

(** ** Descriptors *)

Lemma free_from_spec fds i : forall fuel k, 0 <= k <= i -> (forall j, k <= j < i -> is_Some (fds !! j)) ->
  fds !! i = None -> i - k <= Z.of_nat fuel -> free_from fuel k fds = i.
Proof.
  induction fuel as [|f IH]; intros k Hk Hj Hi Hf; cbn; [lia|].
  destruct (decide (k = i)) as [->|Hne]; [by rewrite Hi|].
  destruct (Hj k) as [x ->]; [lia|]. apply IH; [lia | intros; apply Hj; lia | done | lia].
Qed.

Lemma below_size {A} (m : gmap Z A) i : 0 <= i -> (forall j, 0 <= j < i -> is_Some (m !! j)) -> i <= Z.of_nat (size m).
Proof.
  intros Hi H.
  assert (Hs : list_to_set (seqZ 0 i) ⊆ (dom m : gset Z)).
  { intros x Hx. apply elem_of_list_to_set, elem_of_seqZ in Hx. apply elem_of_dom, H. lia. }
  apply subseteq_size in Hs. rewrite size_list_to_set, length_seqZ, size_dom in Hs by apply NoDup_seqZ. lia.
Qed.

(** A descriptor that is closed while all lower ones are open is the next one
    that the system gives. *)
Lemma lowest_free_closed fds sfd : 0 <= sfd -> (forall j, 0 <= j < sfd -> is_Some (fds !! j)) ->
  lowest_free (delete sfd fds) = sfd.
Proof.
  intros H0 H. assert (H' : forall j, 0 <= j < sfd -> is_Some (delete sfd fds !! j)).
  { intros j Hj. rewrite lookup_delete_ne by lia. by apply H. }
  apply free_from_spec; [lia | done | by rewrite lookup_delete_eq |].
  pose proof (below_size _ _ H0 H'). lia.
Qed.

Lemma free_from_range fds : forall fuel i, i <= free_from fuel i fds <= i + Z.of_nat fuel /\
  (forall j, i <= j < free_from fuel i fds -> is_Some (fds !! j)) /\
  (free_from fuel i fds < i + Z.of_nat fuel -> fds !! free_from fuel i fds = None).
Proof.
  induction fuel as [|f IH]; intros i; cbn; [split_and!; intros; lia|].
  destruct (fds !! i) as [x|] eqn:E; [|split_and!; try done; intros; lia].
  destruct (IH (i + 1)) as (H1 & H2 & H3). split_and!; [lia | lia | | intros; apply H3; lia].
  intros j Hj. destruct (decide (j = i)) as [->|]; [by eexists | apply H2; lia].
Qed.

Lemma lowest_free_spec fds : 0 <= lowest_free fds /\
  (forall j, 0 <= j < lowest_free fds -> is_Some (fds !! j)) /\ fds !! lowest_free fds = None.
Proof.
  destruct (free_from_range fds (size fds) 0) as (H1 & H2 & H3). fold (lowest_free fds) in *.
  split_and!; [lia | done |]. destruct (fds !! lowest_free fds) as [x|] eqn:E; [|done]. exfalso.
  assert (Hs : lowest_free fds = Z.of_nat (size fds)).
  { destruct (Z.lt_ge_cases (lowest_free fds) (0 + Z.of_nat (size fds))) as [H|]; [specialize (H3 H); congruence | lia]. }
  assert (Hb : lowest_free fds + 1 <= Z.of_nat (size fds)); [|lia].
  apply below_size; [lia|]. intros j Hj. destruct (decide (j = lowest_free fds)) as [->|]; [by eexists | apply H2; lia].
Qed.

(** ** The directory *)

(** The files from [lo] to the current one: [k] records are in the last. *)
Record dir_ok (lo k : Z) (d : daemon.daemon) : Prop := {
  do_fd : d.(daemon.fds) !! d.(daemon.sfd) = Some (FShadow d.(daemon.curshadow));
  do_low : 0 <= d.(daemon.sfd) /\ forall j, 0 <= j < d.(daemon.sfd) -> is_Some (d.(daemon.fds) !! j);
  do_cfd : d.(daemon.cfd) ≠ -1;
  do_current : d.(daemon.current) = Some (d.(daemon.curshadow), d.(daemon.maxshadowrec));
  do_size : d.(daemon.arecsize) = 64 /\ d.(daemon.maxshadowsz) = d.(daemon.maxshadowrec) * 64;
  do_full : forall seq, lo <= seq < d.(daemon.curshadow) -> exists b,
    d.(daemon.files) !! seq = Some b /\ Z.of_nat (length b) = d.(daemon.maxshadowrec) * 64;
  do_last : exists b, d.(daemon.files) !! d.(daemon.curshadow) = Some b /\ Z.of_nat (length b) = k * 64;
  do_stot : d.(daemon.stotsize) = k * 64 /\ 0 <= k < d.(daemon.maxshadowrec);
  do_range : 0 <= lo <= d.(daemon.curshadow) /\ (d.(daemon.curshadow) + 1) * d.(daemon.maxshadowrec) * 64 < 2 ^ 62
}.

(** What a reader sees of it. *)
Definition fs_of (d : daemon.daemon) : acctfs.acctfs :=
  acctfs.mk [] (fun seq => d.(daemon.files) !! seq) (fst <$> d.(daemon.current)) (fun _ => true) 0 false (0, 0).

Lemma dir_shadows lo k d : dir_ok lo k d ->
  shadows_ok (fs_of d) d.(daemon.maxshadowrec) lo d.(daemon.curshadow) k.
Proof.
  intros H. pose proof (do_stot _ _ _ H). pose proof (do_range _ _ _ H). split; cbn; try done; try lia.
  - by rewrite (do_current _ _ _ H).
  - apply H.
  - apply H.
Qed.

(** ** Passing data *)

(** Five percent of the filesystem are free, as far as it is known. *)
Definition has_space (space : option (Z * Z) * option Z) : Prop :=
  match space.1 with
  | Some (f_blocks, f_bfree) => f_blocks ≠ 0 /\ 5 <= u64 (f_bfree * 100) / f_blocks
  | None => True
  end.

(** Then [write] stores up to [n] bytes. *)
Definition writes (space : option (Z * Z) * option Z) (n : Z) : Prop :=
  has_space space /\ exists room, space.2 = Some room /\ n <= room.

Definition passed (seq : Z) (b : list Z) (d : daemon.daemon) : daemon.daemon :=
  set_stotsize (d.(daemon.stotsize) + Z.of_nat (length b))
    (set_sfd d.(daemon.sfd) d.(daemon.fds) (alter (fun c => c ++ b) seq d.(daemon.files)) (set_nrskipped 0 d)).

Lemma space_full (space : option (Z * Z) * option Z) : has_space space ->
  match space.1 with
  | Some (f_blocks, f_bfree) => (f_blocks =? 0) || (u64 (f_bfree * 100) / f_blocks <? 5)
  | None => false
  end = false.
Proof.
  unfold has_space. destruct space.1 as [[bl fr]|]; [|done]. intros [Hb0 Hfr].
  rewrite (proj2 (Z.eqb_neq _ _)) by done. by apply Z.ltb_ge.
Qed.

Lemma pass_ok space n sfd seq b d : writes space n -> Z.of_nat (length b) <= n ->
  d.(daemon.fds) !! sfd = Some (FShadow seq) ->
  b ≠ [] -> 0 <= d.(daemon.stotsize) -> d.(daemon.stotsize) + Z.of_nat (length b) < 2 ^ 64 ->
  pass space sfd b d = Ret (passed seq b d).
Proof.
  intros [Hs (room & Hr & Hn)] Hl Hfd Hb H0 Hlt. unfold pass, pass2shadow. rewrite (space_full _ Hs).
  unfold write_fd. cbn [daemon.fds set_nrskipped]. rewrite Hr, Hfd. cbn zeta. rewrite take_ge by lia. cbn [fst snd].
  rewrite (proj2 (Z.eqb_neq (Z.of_nat (length b)) (-1))) by lia. cbn.
  rewrite (proj2 (Z.ltb_lt 0 (Z.of_nat (length b)))) by (destruct b; cbn; [done|lia]).
  unfold u64. by rewrite Z.mod_small by lia.
Qed.

(** A short write counts as a complete one: the place of the next record in the
    file is not where the size says. *)
Lemma short_write_counted space room sfd seq b d : has_space space -> space.2 = Some room -> 0 <= room ->
  d.(daemon.fds) !! sfd = Some (FShadow seq) ->
  b ≠ [] -> 0 <= d.(daemon.stotsize) -> d.(daemon.stotsize) + Z.of_nat (length b) < 2 ^ 64 ->
  exists d', pass space sfd b d = Ret d' /\
    d'.(daemon.files) !! seq = (fun c => c ++ take (Z.to_nat room) b) <$> d.(daemon.files) !! seq /\
    d'.(daemon.stotsize) = d.(daemon.stotsize) + Z.of_nat (length b).
Proof.
  intros Hs Hr H0r Hfd Hb H0 Hlt. unfold pass, pass2shadow. rewrite (space_full _ Hs).
  unfold write_fd. cbn [daemon.fds set_nrskipped]. rewrite Hr, Hfd. cbn [fst snd].
  rewrite (proj2 (Z.eqb_neq _ (-1))) by lia. cbn.
  rewrite (proj2 (Z.ltb_lt 0 (Z.of_nat (length b)))) by (destruct b; cbn; [done|lia]).
  eexists. split; [reflexivity|]. cbn. rewrite lookup_alter_eq. split; [done|].
  unfold u64. by rewrite Z.mod_small by lia.
Qed.

(** Without space nothing is written, and the data is counted as skipped. *)
Lemma pass_full space sfd b d : ~ has_space space -> pass space sfd b d = Ret (set_nrskipped (u64 (d.(daemon.nrskipped) + 1)) d).
Proof.
  intros Hs. unfold pass, pass2shadow. destruct space as [[[bl fr]|] room]; [|by destruct Hs]. cbn [fst].
  replace ((bl =? 0) || (u64 (fr * 100) / bl <? 5)) with true; [done|].
  symmetry. apply orb_true_iff. rewrite Z.eqb_eq, Z.ltb_lt. cbn in Hs.
  destruct (decide (bl = 0)); [by left|right]. destruct (Z.lt_ge_cases (u64 (fr * 100) / bl) 5); tauto.
Qed.

(** ** Switching to the next file *)

Lemma next_shadow_ok a lo d : a.(answers.creatable) = true ->
  0 <= d.(daemon.sfd) -> (forall j, 0 <= j < d.(daemon.sfd) -> is_Some (d.(daemon.fds) !! j)) ->
  d.(daemon.cfd) ≠ -1 -> 0 <= lo <= d.(daemon.curshadow) -> d.(daemon.curshadow) + 1 < 2 ^ 62 ->
  let seq := d.(daemon.curshadow) + 1 in
  exists d', next_shadow a d.(daemon.sfd) d = Ret (d.(daemon.sfd), d') /\
    d' = set_stotsize 0 (set_currency d.(daemon.cfd)
           (<[d.(daemon.sfd) := FShadow seq]> (delete d.(daemon.sfd) d.(daemon.fds)))
           (Some (seq, d.(daemon.maxshadowrec)))
           (set_sfd d.(daemon.sfd) (<[d.(daemon.sfd) := FShadow seq]> (delete d.(daemon.sfd) d.(daemon.fds)))
             (<[seq := []]> d.(daemon.files))
             (set_shadows d.(daemon.shadowbusy) d.(daemon.oldshadow) seq d.(daemon.files) d))).
Proof.
  intros Hc H0 Hl Hcfd Hr Hs seq. eexists. split; [|done]. unfold next_shadow, createshadow.
  cbn [daemon.fds daemon.files daemon.curshadow daemon.sfd daemon.shadowbusy daemon.oldshadow set_sfd set_shadows].
  rewrite Hc. rewrite lowest_free_closed by done. cbn. unfold setcurrent. cbn.
  rewrite (proj2 (Z.eqb_neq _ _)) by done. unfold u64. rewrite Z.mod_small by lia. done.
Qed.

(** ** Records of a file *)

Lemma read_file_app_l b c off n : 0 <= off -> 0 <= n -> off + n <= Z.of_nat (length b) ->
  read_file (b ++ c) off n = read_file b off n.
Proof.
  intros H0 Hn H. unfold read_file. rewrite drop_app_le by lia. apply take_app_le. rewrite length_drop. lia.
Qed.

Lemma read_file_app_r b c off n : Z.of_nat (length b) <= off ->
  read_file (b ++ c) off n = read_file c (off - Z.of_nat (length b)) n.
Proof.
  intros H. unfold read_file. rewrite drop_app_ge by lia. do 2 f_equal. lia.
Qed.

Lemma read_file_take p c off n : 0 <= off -> 0 <= n -> off + n <= p -> read_file (take (Z.to_nat p) c) off n = read_file c off n.
Proof.
  intros H0 Hn H. unfold read_file. rewrite skipn_firstn_comm, take_take. f_equal. lia.
Qed.

Lemma read_file_drop p c off n : 0 <= p -> 0 <= off -> read_file (drop (Z.to_nat p) c) off n = read_file c (p + off) n.
Proof. intros H0 H. unfold read_file. rewrite drop_drop. do 2 f_equal. lia. Qed.

Lemma file_record d max seq b j : d.(daemon.files) !! seq = Some b -> 0 <= j < max ->
  record (fs_of d) max (seq * max + j) = read_file b (j * 64) 64.
Proof.
  intros Hb Hj. unfold record.
  assert (E1 : (seq * max + j) / max = seq) by (rewrite Z.div_add_l, Z.div_small by lia; lia).
  assert (E2 : (seq * max + j) mod max = j) by (rewrite Z.add_comm, Z.mod_add, Z.mod_small by lia; lia).
  rewrite E1, E2. cbn. by rewrite Hb.
Qed.

(** ** The transfer *)

(** The data is appended to the stream of the directory. *)
Record appended (lo k n : Z) (abuf : list Z) (d : daemon.daemon) (k' : Z) (d' : daemon.daemon) : Prop := {
  ad_ok : dir_ok lo k' d';
  ad_max : d'.(daemon.maxshadowrec) = d.(daemon.maxshadowrec);
  ad_place : d'.(daemon.curshadow) * d.(daemon.maxshadowrec) + k' =
             d.(daemon.curshadow) * d.(daemon.maxshadowrec) + k + n;
  ad_other : d'.(daemon.oldshadow) = d.(daemon.oldshadow) /\ d'.(daemon.shadowbusy) = d.(daemon.shadowbusy);
  ad_seq : d.(daemon.curshadow) <= d'.(daemon.curshadow);
  ad_kept : forall i, lo * d.(daemon.maxshadowrec) <= i < d.(daemon.curshadow) * d.(daemon.maxshadowrec) + k ->
    record (fs_of d') d.(daemon.maxshadowrec) i = record (fs_of d) d.(daemon.maxshadowrec) i;
  ad_new : forall i, 0 <= i < n ->
    record (fs_of d') d.(daemon.maxshadowrec) (d.(daemon.curshadow) * d.(daemon.maxshadowrec) + k + i) =
    read_file abuf (i * 64) 64
}.

(** The records of two files: [b] grows by [c], the next file starts with [e]. *)
Lemma records_grow lo k n m d d' b c e :
  let max := d.(daemon.maxshadowrec) in let cur := d.(daemon.curshadow) in
  0 <= lo <= cur -> 0 <= k < max -> 0 <= m <= n -> k + m <= max -> n - m <= max ->
  (forall seq, lo <= seq < cur -> d'.(daemon.files) !! seq = d.(daemon.files) !! seq) ->
  d.(daemon.files) !! cur = Some b -> d'.(daemon.files) !! cur = Some (b ++ c) ->
  Z.of_nat (length b) = k * 64 -> Z.of_nat (length c) = m * 64 ->
  (m < n -> k + m = max /\ d'.(daemon.files) !! (cur + 1) = Some e /\ Z.of_nat (length e) = (n - m) * 64) ->
  (forall i, lo * max <= i < cur * max + k -> record (fs_of d') max i = record (fs_of d) max i) /\
  (forall i, 0 <= i < n -> record (fs_of d') max (cur * max + k + i) = read_file (c ++ e) (i * 64) 64).
Proof.
  intros max cur Hlo Hk Hm Hkm Hnm Hold Hb Hc Lb Lc He. split.
  - intros i Hi. assert (Hmax : 0 < max) by lia.
    pose proof (Z.div_mod i max ltac:(lia)) as Ei. pose proof (Z.mod_pos_bound i max Hmax) as Hmod.
    destruct (decide (i / max = cur)) as [E|E].
    + rewrite Ei, E, (Z.mul_comm max). rewrite (file_record d' max cur (b ++ c)), (file_record d max cur b) by done.
      apply read_file_app_l; nia.
    + unfold record, content. cbn. rewrite Hold; [done|]. split; [apply Z.div_le_lower_bound; lia|].
      assert (i / max < cur + 1) by (apply Z.div_lt_upper_bound; nia). lia.
  - intros i Hi. destruct (decide (i < m)) as [Hlt|Hge].
    + rewrite <-Z.add_assoc, (file_record d' max cur (b ++ c)) by (done || lia).
      rewrite read_file_app_r by lia. rewrite read_file_app_l by lia. f_equal. lia.
    + destruct He as (Efull & Ee & Le); [lia|].
      replace (cur * max + k + i) with ((cur + 1) * max + (i - m)) by lia.
      rewrite (file_record d' max (cur + 1) e) by (done || lia).
      rewrite read_file_app_r by lia. f_equal. lia.
Qed.

(** All data fits, and the file is not full yet. *)
Lemma transfer_fits a lo k n abuf d : dir_ok lo k d -> writes a.(answers.space1) (n * 64) ->
  Z.of_nat (length abuf) = n * 64 -> 0 < n -> k + n < d.(daemon.maxshadowrec) ->
  transfer a abuf d = Ret (passed d.(daemon.curshadow) abuf d) /\
  appended lo k n abuf d (k + n) (passed d.(daemon.curshadow) abuf d).
Proof.
  intros [D1 D2 D3 D4 [D5 D5'] D6 (b & D7 & D7') [D8 D8'] [D9 D9']] Hs Hl Hn Hk.
  assert (Hb62 : d.(daemon.maxshadowrec) * 64 < 2 ^ 62) by nia. split.
  - unfold transfer. rewrite D8, D5'.
    assert (Ef : u64 (k * 64 + Z.of_nat (length abuf)) <=? d.(daemon.maxshadowrec) * 64 = true).
    { unfold u64. rewrite Z.mod_small by lia. apply Z.leb_le. lia. }
    rewrite Ef.
    rewrite (pass_ok _ (n * 64) _ d.(daemon.curshadow)); [|done|lia|done|intros ->; cbn in Hl; lia|lia|lia]. cbn.
    rewrite D5', (proj2 (Z.leb_gt _ _)) by lia. done.
  - edestruct (records_grow lo k n n d (passed d.(daemon.curshadow) abuf d) b abuf []) as [R1 R2]; cbn; try done; try lia.
    + intros seq Hseq. by rewrite lookup_alter_ne by lia.
    + by rewrite lookup_alter_eq, D7.
    + split; [|done|cbn; lia|done|done|exact R1|].
      * split; cbn; try done.
        -- intros seq Hseq. rewrite lookup_alter_ne by lia. by apply D6.
        -- exists (b ++ abuf). rewrite lookup_alter_eq, D7. split; [done|]. rewrite length_app. lia.
        -- lia.
      * rewrite app_nil_r in R2. exact R2.
Qed.

(** The file is filled to its maximum; the rest goes to the next one. *)
Lemma transfer_over a lo k n abuf d : dir_ok lo k d -> writes a.(answers.space1) (n * 64) ->
  writes a.(answers.space2) (n * 64) -> a.(answers.creatable) = true -> (d.(daemon.curshadow) + 2) * d.(daemon.maxshadowrec) * 64 < 2 ^ 62 ->
  Z.of_nat (length abuf) = n * 64 -> n < d.(daemon.maxshadowrec) -> d.(daemon.maxshadowrec) <= k + n ->
  d.(daemon.maxshadowrec) * 64 < 2 ^ 31 ->
  exists d', transfer a abuf d = Ret d' /\ appended lo k n abuf d (k + n - d.(daemon.maxshadowrec)) d'.
Proof.
  intros [D1 [D2 D2'] D3 D4 [D5 D5'] D6 (b & D7 & D7') [D8 D8'] [D9 D9']] Hs1 Hs2 Hc Hbound Hl Hn Hk H31.
  set (max := d.(daemon.maxshadowrec)) in *. set (cur := d.(daemon.curshadow)) in *.
  set (part := (max - k) * 64).
  assert (Hpart : 0 < part <= n * 64) by lia.
  assert (Lt : Z.of_nat (length (take (Z.to_nat part) abuf)) = part) by (rewrite length_take; lia).
  assert (Ld : Z.of_nat (length (drop (Z.to_nat part) abuf)) = (k + n - max) * 64) by (rewrite length_drop; lia).
  set (d1 := passed cur (take (Z.to_nat part) abuf) d).
  assert (Hpass : pass a.(answers.space1) d.(daemon.sfd) (take (Z.to_nat part) abuf) d = Ret d1).
  { apply (pass_ok _ (n * 64)); try done; [lia| |lia|lia]. intros E. rewrite E in Lt. cbn in Lt. lia. }
  destruct (next_shadow_ok a lo d1) as (d2 & E2 & Ed2); cbn; try done; [nia|].
  (* the state at the end, with the remaining data *)
  set (d3 := if k + n - max =? 0 then d2 else passed (cur + 1) (drop (Z.to_nat part) abuf) d2).
  assert (Et : transfer a abuf d = Ret d3).
  { unfold transfer. rewrite D8, D5'.
    assert (Eu : u64 (k * 64 + Z.of_nat (length abuf)) = k * 64 + Z.of_nat (length abuf))
      by (unfold u64; by rewrite Z.mod_small by lia).
    rewrite Eu. assert (Efull : d1.(daemon.maxshadowsz) <=? d1.(daemon.stotsize) = true).
    { apply Z.leb_le. cbn. rewrite D5', D8, Lt. lia. }
    destruct (Z.leb_spec (k * 64 + Z.of_nat (length abuf)) (max * 64)) as [Hle|Hgt].
    - assert (Ez : k + n - max = 0) by lia. unfold d3. rewrite Ez. cbn [Z.eqb].
      assert (Etake : take (Z.to_nat part) abuf = abuf) by (apply take_ge; lia).
      rewrite Etake in Hpass. rewrite Hpass. cbn [mbind exitor_bind]. rewrite Efull. change d.(daemon.sfd) with d1.(daemon.sfd).
      rewrite E2. done.
    - replace (i32 (max * 64 - k * 64)) with part by (rewrite i32_id by (unfold in_i32; lia); lia).
      rewrite Hpass. cbn [mbind exitor_bind]. rewrite Efull. change d.(daemon.sfd) with d1.(daemon.sfd).
      rewrite E2. cbn [mbind exitor_bind]. unfold d3.
      rewrite (proj2 (Z.eqb_neq (Z.of_nat (length abuf) - part) 0)) by lia.
      rewrite (proj2 (Z.eqb_neq (k + n - max) 0)) by lia.
      apply (pass_ok _ (n * 64)); rewrite ?Ed2; cbn; try done; [lia|by rewrite lookup_insert_eq| |lia].
      intros E. rewrite E in Ld. cbn in Ld. lia. }
  exists d3. split; [done|].
  assert (F : d3.(daemon.files) = <[cur + 1 := drop (Z.to_nat part) abuf]>
    (alter (fun c => c ++ take (Z.to_nat part) abuf) cur d.(daemon.files))).
  { unfold d3. destruct (Z.eqb_spec (k + n - max) 0) as [Ez|]; rewrite Ed2; cbn.
    - rewrite drop_ge by lia. done.
    - rewrite alter_insert_eq. done. }
  assert (G : d3.(daemon.fds) = <[d.(daemon.sfd) := FShadow (cur + 1)]> (delete d.(daemon.sfd) d.(daemon.fds)) /\
    d3.(daemon.sfd) = d.(daemon.sfd) /\ d3.(daemon.cfd) = d.(daemon.cfd) /\
    d3.(daemon.current) = Some (cur + 1, max) /\ d3.(daemon.curshadow) = cur + 1 /\
    d3.(daemon.maxshadowrec) = max /\ d3.(daemon.arecsize) = 64 /\ d3.(daemon.maxshadowsz) = max * 64 /\
    d3.(daemon.stotsize) = (k + n - max) * 64 /\ d3.(daemon.oldshadow) = d.(daemon.oldshadow) /\
    d3.(daemon.shadowbusy) = d.(daemon.shadowbusy)).
  { unfold d3. destruct (Z.eqb_spec (k + n - max) 0) as [Ez|]; rewrite Ed2; cbn; split_and!; try done; lia. }
  destruct G as (G1 & G2 & G3 & G4 & G5 & G6 & G7 & G8 & G9 & G10 & G11).
  assert (Fcur : d3.(daemon.files) !! cur = Some (b ++ take (Z.to_nat part) abuf)).
  { rewrite F, lookup_insert_ne, lookup_alter_eq by lia. fold cur in D7. by rewrite D7. }
  assert (Fold : forall seq, lo <= seq < cur -> d3.(daemon.files) !! seq = d.(daemon.files) !! seq).
  { intros seq Hseq. by rewrite F, lookup_insert_ne, lookup_alter_ne by lia. }
  edestruct (records_grow lo k n (max - k) d d3 b (take (Z.to_nat part) abuf) (drop (Z.to_nat part) abuf))
    as [R1 R2]; fold max cur; try done; try lia.
  { intros _. split; [lia|]. rewrite F, lookup_insert_eq. split; [done|]. lia. }
  rewrite take_drop in R2. split; [|done|rewrite G5; fold max cur; lia|done|rewrite G5; fold cur; lia|exact R1|exact R2].
  split; rewrite ?G1, ?G2, ?G3, ?G4, ?G5, ?G6, ?G7, ?G8, ?G9; try done.
  - by rewrite lookup_insert_eq.
  - split; [done|]. intros j Hj. rewrite lookup_insert_ne, lookup_delete_ne by lia. by apply D2'.
  - intros seq Hseq. destruct (decide (seq = cur)) as [->|].
    + eexists. split; [exact Fcur|]. rewrite length_app. lia.
    + rewrite Fold by lia. apply D6. lia.
  - exists (drop (Z.to_nat part) abuf). rewrite F, lookup_insert_eq. split; [done|]. lia.
  - lia.
  - fold cur in D9. split; [lia|]. nia.
Qed.

(** ** A step of the daemon, and its readers *)

(** The record size is known, or the first record will tell. *)
Definition dir_ready (lo k : Z) (d : daemon.daemon) : Prop :=
  dir_ok lo k (set_arec 64 (d.(daemon.maxshadowrec) * 64) d) /\
  (d.(daemon.arecsize) = 64 /\ d.(daemon.maxshadowsz) = d.(daemon.maxshadowrec) * 64 \/ d.(daemon.arecsize) = 0).

Lemma dir_ok_ready lo k d : dir_ok lo k d -> dir_ready lo k d.
Proof.
  intros D. split; [by destruct D; split | left; apply D].
Qed.

(** What the daemon finds: it is woken up and reads [n] records of a known layout. *)
Record arrives (a : answers.answers) (n : Z) (abuf : list Z) (d : daemon.daemon) : Prop := {
  ar_wake : 0 < a.(answers.recv) \/ d.(daemon.netlinkactive) = 0;
  ar_reads : exists rest, a.(answers.reads) = Some abuf :: rest;
  ar_layout : acctsize abuf = Some 64;
  ar_len : Z.of_nat (length abuf) = n * 64;
  ar_n : 0 < n
}.

(** Moreover a reader is there, files can be written and created. *)
Record delivers (a : answers.answers) (n : Z) (abuf : list Z) (d : daemon.daemon) : Prop := {
  dl_arrives : arrives a n abuf d;
  dl_client : numclients a ≠ 0;
  dl_space : writes a.(answers.space1) (n * 64) /\ writes a.(answers.space2) (n * 64);
  dl_creat : a.(answers.creatable) = true
}.

(** The limits of the code: a read is smaller than a shadow file, sizes are far
    from overflow. *)
Definition within_limits (n : Z) (d : daemon.daemon) : Prop :=
  n < d.(daemon.maxshadowrec) /\ d.(daemon.maxshadowrec) * 64 < 2 ^ 31 /\
  (d.(daemon.curshadow) + 2) * d.(daemon.maxshadowrec) * 64 < 2 ^ 62.

Lemma transfer_ok a lo k n abuf d : dir_ok lo k d -> delivers a n abuf d -> within_limits n d ->
  exists k' d', transfer a abuf d = Ret d' /\ appended lo k n abuf d k' d'.
Proof.
  intros D [[_ _ _ Hl Hn] _ [Hs1 Hs2] Hc] (W1 & W2 & W3).
  destruct (Z.lt_ge_cases (k + n) d.(daemon.maxshadowrec)) as [H|H].
  - destruct (transfer_fits a lo k n abuf d) as [E HA]; try done. eauto.
  - destruct (transfer_over a lo k n abuf d) as (d' & E & HA); try done. eauto.
Qed.

Lemma arrives_reads a n abuf d : arrives a n abuf d ->
  await_netlink a d = None /\
  read_records (Z.to_nat (if d.(daemon.netlinkactive) =? 0 then 1 else RETRYCNT)) a.(answers.reads) = Some abuf.
Proof.
  intros [Hw (rest & Hr) _ Hl Hn]. split.
  - unfold await_netlink. destruct (Z.eqb_spec d.(daemon.netlinkactive) 0); [done|]. cbn [negb].
    destruct Hw as [Hw|]; [|done]. rewrite (proj2 (Z.eqb_neq _ 0)), (proj2 (Z.ltb_ge _ 0)) by lia. done.
  - rewrite Hr. destruct abuf as [|x abuf]; [cbn in Hl; lia|]. by destruct (_ =? 0).
Qed.

(** The state when the records were read and the size of a record is known. *)
Definition counted (time tot : Z) (d : daemon.daemon) : daemon.daemon :=
  set_atotsize tot (set_reclast time (set_arec 64 (d.(daemon.maxshadowrec) * 64) d)).

Lemma counted_dir_ok time tot lo k d : dir_ready lo k d -> dir_ok lo k (counted time tot d).
Proof. intros [[] _]. by split. Qed.

(** With records, the call depends on the number of clients only. *)
Lemma await_arrived a lo k n abuf d : dir_ready lo k d -> arrives a n abuf d -> exists time tot,
  awaitprocterm a d =
    if numclients a =? 0 then r ← no_clients a (counted time tot d); Some (d ← r; Ret (1, d))
    else Some (d ← transfer a abuf (let d := counted time tot d in
                 set_shadows 1 d.(daemon.oldshadow) d.(daemon.curshadow) d.(daemon.files) d); Ret (1, d)).
Proof.
  intros [D HR] HA. destruct (arrives_reads _ _ _ _ HA) as [Ew Er].
  pose proof (ar_len _ _ _ _ HA) as Hl. pose proof (ar_n _ _ _ _ HA) as Hn.
  pose proof (do_range _ _ _ D) as Hr. pose proof (do_stot _ _ _ D) as [_ Hk]. cbn in Hr, Hk.
  unfold awaitprocterm. rewrite Ew, Er. destruct abuf as [|x abuf]; [cbn in Hl; lia|].
  set (b := x :: abuf) in *. unfold handle_records. cbn [daemon.arecsize set_reclast].
  assert (Ea : (if d.(daemon.arecsize) =? 0 then acctsize b else Some d.(daemon.arecsize)) = Some 64).
  { destruct HR as [[E _]|E]; rewrite E; cbn [Z.eqb]; [done | apply HA]. }
  rewrite Ea. mstep. change (64 =? 0) with false. cbn match.
  match goal with |- context [set_atotsize ?t ?u] => set (tot := t); set (d0 := u) end.
  assert (E0 : d0 = set_reclast a.(answers.nows).1.1 (set_arec 64 (d.(daemon.maxshadowrec) * 64) d)).
  { unfold d0. destruct HR as [[E E']|E]; rewrite E; cbn [Z.eqb].
    - destruct d. cbn in *. by subst.
    - unfold u64. cbn. rewrite Z.mod_small by nia. done. }
  rewrite E0. by eexists _, tot.
Qed.

Lemma await_ok a lo k n abuf d : dir_ready lo k d -> delivers a n abuf d -> within_limits n d ->
  exists k' d', awaitprocterm a d = Some (Ret (1, d')) /\ d'.(daemon.shadowbusy) = 1 /\
    appended lo k n abuf (set_shadows 1 d.(daemon.oldshadow) d.(daemon.curshadow) d.(daemon.files) d) k' d'.
Proof.
  intros D HD HW. destruct (await_arrived a lo k n abuf d D (dl_arrives _ _ _ _ HD)) as (time & tot & ->).
  rewrite (proj2 (Z.eqb_neq _ 0)) by apply HD. cbn zeta. set (d1 := set_shadows 1 _ _ _ _).
  assert (D1 : dir_ok lo k d1) by (destruct (counted_dir_ok time tot _ _ _ D); split; done).
  assert (HD1 : delivers a n abuf d1) by (destruct HD as [[]]; split; done).
  destruct (transfer_ok a lo k n abuf d1 D1 HD1 HW) as (k' & d' & Et & HA). exists k', d'. rewrite Et.
  split; [done|]. split; [apply HA|]. destruct HA. split; assumption.
Qed.

(** The files and their numbers are those of before. *)
Definition same_dir (d d' : daemon.daemon) : Prop :=
  d'.(daemon.files) = d.(daemon.files) /\ d'.(daemon.curshadow) = d.(daemon.curshadow) /\
  d'.(daemon.oldshadow) = d.(daemon.oldshadow) /\ d'.(daemon.maxshadowrec) = d.(daemon.maxshadowrec) /\
  forall lo k, dir_ready lo k d -> dir_ready lo k d'.

(** In a filesystem that is filled for more than 95%, the daemon goes on,
    writes to no shadow file and creates none, and counts the buffers that it
    has skipped. *)
Theorem full_filesystem_skips a lo k n abuf d : dir_ready lo k d -> arrives a n abuf d ->
  numclients a ≠ 0 -> ~ has_space a.(answers.space1) ->
  exists d', awaitprocterm a d = Some (Ret (1, d')) /\ same_dir d d' /\
    d'.(daemon.nrskipped) = u64 (d.(daemon.nrskipped) + 1).
Proof.
  intros D HA Hc Hs. destruct (await_arrived a lo k n abuf d D HA) as (time & tot & ->).
  rewrite (proj2 (Z.eqb_neq _ 0)) by done. cbn zeta. pose proof (counted_dir_ok time tot _ _ _ D) as D1.
  pose proof (do_stot _ _ _ D1) as [Es Hk]. pose proof (do_size _ _ _ D1) as [_ Em].
  unfold transfer. rewrite pass_full by done. cbn [mbind exitor_bind].
  cbn [set_shadows set_nrskipped daemon.stotsize daemon.maxshadowsz].
  rewrite (proj2 (Z.leb_gt _ _)) by lia. eexists. split; [reflexivity|]. split; [|done]. split_and!; try done.
  intros lo' k' D'. apply dir_ok_ready. destruct (counted_dir_ok time tot _ _ _ D'). by split.
Qed.

(** The daemon is woken up by a process that has ended, and there is no record
    in all reads; when accounting is switched on again, it delivers. *)
Record idle (a : answers.answers) : Prop := {
  id_wake : 0 < a.(answers.recv);
  id_reads : Forall (fun r => r = Some []) a.(answers.reads);
  id_acct : is_Some (swonpacct a.(answers.attempts))
}.

Lemma idle_reads reads : forall retrycount, Forall (fun r => r = Some []) reads -> read_records retrycount reads = Some [].
Proof.
  induction reads as [|r reads IH]; intros [|n] H; try done. apply Forall_cons in H as [-> H]. cbn. by apply IH.
Qed.

Lemma await_idle a d : idle a -> exists d', awaitprocterm a d = Some (Ret (0, d')) /\ same_dir d d'.
Proof.
  intros [Hw Hr [m Hm]]. unfold awaitprocterm, await_netlink.
  assert (E : (if negb (d.(daemon.netlinkactive) =? 0) then
      if a.(answers.recv) =? 0 then Some (-1, d)
      else if a.(answers.recv) <? 0 then
        if (- a.(answers.recv) =? EINTR) || (- a.(answers.recv) =? ENOMEM) || (- a.(answers.recv) =? ENOBUFS)
        then None else Some (0, set_netlinkactive 0 d) else None
    else None) = None).
  { destruct (negb _); [|done]. by rewrite (proj2 (Z.eqb_neq _ 0)), (proj2 (Z.ltb_ge _ 0)) by lia. }
  cbn zeta. rewrite E, idle_reads by done. rewrite Hm. mstep. destruct (_ && _).
  - destruct a.(answers.truncated).1; mstep; eexists; (split; [reflexivity|]); split_and!; try done;
      intros lo k [D HR]; (split; [destruct D; by split | exact HR]).
  - eexists. split; [reflexivity|]. by split_and!.
Qed.

(** ** Garbage collection *)

(** The files from [old] to [new - 1] are gone, the others are kept. *)
Definition collected (old new : Z) (files files' : gmap Z (list Z)) : Prop :=
  forall seq, files' !! seq = if (old <=? seq) && (seq <? new) then None else files !! seq.

Lemma gcshadows_loop_spec locked cur : cur < 2 ^ 64 -> forall fuel old files, 0 <= old ->
  (size files < fuel)%nat ->
  exists new files', gcshadows_loop fuel locked old cur files = Some (new, files') /\
    old <= new <= Z.max old cur /\ collected old new files files' /\
    (forall seq, old <= seq < new -> is_Some (files !! seq) /\ locked seq = false) /\
    (new < cur -> files !! new = None \/ locked new = true).
Proof.
  intros Hc. induction fuel as [|f IH]; intros old files H0 Hf; [lia|]. cbn.
  assert (Hstop : collected old old files files).
  { intros seq. replace ((old <=? seq) && (seq <? old)) with false; [done|]. symmetry. apply andb_false_iff.
    rewrite Z.leb_gt, Z.ltb_ge. lia. }
  destruct (Z.ltb_spec old cur) as [Hlt|]; [|exists old, files; split_and!; try done; lia].
  destruct (files !! old) as [b|] eqn:Eb; [|exists old, files; split_and!; try done; try lia; by left].
  destruct (locked old) eqn:El; [exists old, files; split_and!; try done; try lia; by right|].
  unfold u64. rewrite Z.mod_small by lia.
  destruct (IH (old + 1) (delete old files)) as (new & files' & E & Hn & Hcol & Hgone & Hend); [lia| |].
  { rewrite map_size_delete, Eb. pose proof (map_size_non_empty_iff files). 
    assert (size files ≠ 0)%nat; [|cbn; lia]. apply H. intros ->. by rewrite lookup_empty in Eb. }
  exists new, files'. split; [done|]. split; [lia|]. split; [|split].
  - intros seq. rewrite Hcol. destruct (decide (seq = old)) as [->|Hne].
    + rewrite (proj2 (Z.leb_gt (old + 1) old)) by lia. cbn. rewrite lookup_delete_eq.
      by rewrite Z.leb_refl, (proj2 (Z.ltb_lt old new)) by lia.
    + rewrite lookup_delete_ne by done. destruct (Z.leb_spec (old + 1) seq), (Z.leb_spec old seq); done || lia.
  - intros seq Hs. destruct (decide (seq = old)) as [->|Hne]; [by rewrite Eb|].
    destruct (Hgone seq) as [Hx Hl]; [lia|]. split; [|done]. by rewrite lookup_delete_ne in Hx by done.
  - intros Hlt'. destruct (Hend Hlt') as [Hx|]; [left | by right]. by rewrite lookup_delete_ne in Hx by lia.
Qed.

Lemma collected_kept old new files files' seq : collected old new files files' -> new <= seq -> files' !! seq = files !! seq.
Proof. intros H Hs. rewrite H, (proj2 (Z.ltb_ge seq new)) by lia. by rewrite andb_false_r. Qed.

(** Collection leaves the directory of a reader that holds file [lo]. *)
Lemma gc_dir_ok locked lo k d : dir_ok lo k d -> 0 <= d.(daemon.oldshadow) <= lo -> locked lo = true ->
  exists new files', gcshadows locked d.(daemon.oldshadow) d.(daemon.curshadow) d.(daemon.files) = Some (new, files') /\
    0 <= new <= lo /\
    let d' := set_shadows d.(daemon.shadowbusy) new d.(daemon.curshadow) files' d in
    dir_ok lo k d' /\ forall seq, lo <= seq -> d'.(daemon.files) !! seq = d.(daemon.files) !! seq.
Proof.
  intros D Ho Hl. pose proof (do_range _ _ _ D) as Hr. pose proof (do_stot _ _ _ D) as [_ Hk].
  destruct (gcshadows_loop_spec locked d.(daemon.curshadow) ltac:(nia) (S (size d.(daemon.files)))
    d.(daemon.oldshadow) d.(daemon.files)) as (new & files' & E & Hn & Hcol & Hgone & _); [lia | lia |].
  assert (Hnew : new <= lo).
  { destruct (Z.le_gt_cases new lo) as [|Hgt]; [done|]. destruct (Hgone lo) as [_ Hx]; [lia|]. by rewrite Hl in Hx. }
  exists new, files'. split; [done|]. split; [lia|].
  assert (Hkeep : forall seq, lo <= seq -> files' !! seq = d.(daemon.files) !! seq).
  { intros seq Hs. apply (collected_kept _ _ _ _ _ Hcol). lia. }
  destruct D as [D1 D2 D3 D4 D5 D6 (b & Eb & Lb) D8 D9]. split; [|exact Hkeep].
  split; try done; cbn.
  - intros seq Hs. rewrite Hkeep by lia. by apply D6.
  - exists b. split; [|done]. by rewrite Hkeep by lia.
Qed.

(** ** Daemon and reader as a queue *)

(** The records of a buffer. *)
Definition chunks (n : Z) (abuf : list Z) : list (list Z) := (fun i => read_file abuf (i * 64) 64) <$> seqZ 0 n.

(** The queue of a reader with state [s]: the records from its position up to the
    last one. The reader locks the file that it has open. *)
Definition feeds (d : daemon.daemon) (version : Z) (s : accts.accts) (q : list (list Z)) : Prop :=
  exists k p, dir_ready s.(accts.curshadowseq) k d /\ 0 <= d.(daemon.oldshadow) <= s.(accts.curshadowseq) /\
    at_pos d.(daemon.maxshadowrec) s.(accts.curshadowseq) d.(daemon.curshadow) k version s p /\
    q = record (fs_of d) d.(daemon.maxshadowrec) <$>
          seqZ p (d.(daemon.curshadow) * d.(daemon.maxshadowrec) + k - p).

Lemma dir_ready_shadows lo k d : dir_ready lo k d ->
  shadows_ok (fs_of d) d.(daemon.maxshadowrec) lo d.(daemon.curshadow) k.
Proof. intros [D _]. exact (dir_shadows _ _ _ D). Qed.

(** A later file becomes the last one. *)
Lemma at_pos_grow max lo cur k cur' k' version s p : at_pos max lo cur k version s p -> 0 <= k < max -> 0 <= k' ->
  cur <= cur' -> cur * max + k <= cur' * max + k' -> at_pos max lo cur' k' version s p.
Proof.
  intros [A1 A2 A3 A4 A5 A6 A7 A8] Hk Hk' Hc Ht. split; try done; [|lia].
  unfold count in *. destruct (Z.eqb_spec s.(accts.curshadowseq) cur), (Z.eqb_spec s.(accts.curshadowseq) cur'); nia.
Qed.

(** The reader moves on. *)
Lemma at_pos_lo max lo cur k version s p : at_pos max lo cur k version s p ->
  at_pos max s.(accts.curshadowseq) cur k version s p.
Proof. intros [A1 A2 A3 A4 A5 A6 A7 A8]. split; try done. lia. Qed.

Lemma dir_ready_lo lo lo' k d : dir_ready lo k d -> lo <= lo' <= d.(daemon.curshadow) -> dir_ready lo' k d.
Proof.
  intros [[D1 D2 D3 D4 D5 D6 D7 D8 D9] HR] H. split; [|done]. cbn in *.
  split; try done; cbn; [|lia]. intros seq Hs. apply D6. lia.
Qed.

Lemma feeds_length d version s q : feeds d version s q -> acctprocnt (fs_of d) s = Some (Z.of_nat (length q), s).
Proof.
  intros (k & p & D & _ & HP & ->). rewrite (left_ok _ _ _ _ _ (dir_ready_shadows _ _ _ D) _ _ _ HP).
  rewrite length_fmap, length_seqZ. unfold total. do 2 f_equal.
  pose proof (ap_place _ _ _ _ _ _ _ HP) as Hp. pose proof (ap_seq _ _ _ _ _ _ _ HP) as Hs.
  pose proof (do_stot _ _ _ (proj1 D)) as [_ Hk]. cbn in Hk.
  unfold count in Hp. destruct (Z.eqb_spec s.(accts.curshadowseq) d.(daemon.curshadow)); nia.
Qed.

(** The reader takes records from the front. *)
Lemma feeds_take d version s q accproc n : feeds d version s q -> version = 2 \/ version = 3 ->
  0 <= n <= Z.of_nat (length q) ->
  (forall i, Z.of_nat i < n -> is_Some (api ← accproc !! i; r ← q !! i; fill_record version 64 r api)) ->
  exists s' out, acctphotoproc (fs_of d) s accproc n = Some (n, out, Going (fs_of d) s') /\
    length out = length accproc /\
    (forall i, Z.of_nat i < n -> out !! i = api ← accproc !! i; r ← q !! i; fill_record version 64 r api) /\
    (forall i, n <= Z.of_nat i -> out !! i = accproc !! i) /\
    feeds d version s' (drop (Z.to_nat n) q).
Proof.
  intros (k & p & D & Ho & HP & Hq) Hv Hn Hfill.
  pose proof (dir_ready_shadows _ _ _ D) as HS. set (max := d.(daemon.maxshadowrec)) in *.
  set (cur := d.(daemon.curshadow)) in *. set (rest := cur * max + k - p) in *.
  assert (Hlq : Z.of_nat (length q) <= Z.max 0 rest) by (rewrite Hq, length_fmap, length_seqZ; lia).
  assert (Hrec : forall i, Z.of_nat i < n -> q !! i = Some (record (fs_of d) max (p + Z.of_nat i))).
  { intros i Hi. rewrite Hq, list_lookup_fmap, lookup_seqZ_lt by lia. done. }
  assert (Hfill' : forall i, Z.of_nat i < n ->
    is_Some (api ← accproc !! i; fill_record version 64 (record (fs_of d) max (p + Z.of_nat i)) api)).
  { intros i Hi. specialize (Hfill i Hi). rewrite Hrec in Hfill by done. exact Hfill. }
  pose proof (ap_place _ _ _ _ _ _ _ HP) as Hp. pose proof (so_max _ _ _ _ _ HS) as Hmax.
  destruct (decide (0 <= rest)) as [Hrest|Hrest].
  2:{ exfalso. pose proof (ap_seq _ _ _ _ _ _ _ HP) as Hs. pose proof (so_range _ _ _ _ _ HS) as Hk.
      unfold count in Hp. destruct (Z.eqb_spec s.(accts.curshadowseq) cur); nia. }
  destruct (photo_loop _ _ _ _ _ HS version s p accproc n HP Hv ltac:(lia)
    ltac:(unfold total; lia) Hfill') as (s' & out & E & HP' & Hl & Hlo & Hhi).
  exists s', out. split; [|split; [done|split; [|split; [done|]]]].
  - unfold acctphotoproc. rewrite (ap_fd _ _ _ _ _ _ _ HP), E. mstep. cbn [photo.s photo.accproc].
    rewrite (ap_fd _ _ _ _ _ _ _ HP'). mstep. rewrite (ap_max _ _ _ _ _ _ _ HP'), (proj2 (Z.eqb_neq max 0)) by lia.
    rewrite andb_false_r. by rewrite Z.max_r by lia.
  - intros i Hi. rewrite Hrec by done. by apply Hlo.
  - pose proof (ap_seq _ _ _ _ _ _ _ HP') as Hs'. exists k, (p + n). fold max cur. split; [|split; [|split]].
    + apply (dir_ready_lo s.(accts.curshadowseq)); [done|]. fold cur. lia.
    + lia.
    + by eapply at_pos_lo.
    + rewrite Hq, <-fmap_drop. f_equal. replace rest with (n + (rest - n)) by lia.
      rewrite seqZ_app, drop_app_length' by (rewrite ?length_seqZ; lia). f_equal; lia.
Qed.

Lemma record_same d d' max i : (forall seq, i / max = seq -> d'.(daemon.files) !! seq = d.(daemon.files) !! seq) ->
  record (fs_of d') max i = record (fs_of d) max i.
Proof. intros H. unfold record, content. cbn. by rewrite H. Qed.

(** The daemon appends what it read. *)
Lemma feeds_put a d version s q n abuf : feeds d version s q -> delivers a n abuf d -> within_limits n d ->
  exists d', awaitprocterm a d = Some (Ret (1, d')) /\
    feeds d' version s (q ++ chunks n abuf) /\ d'.(daemon.maxshadowrec) = d.(daemon.maxshadowrec) /\
    d.(daemon.curshadow) <= d'.(daemon.curshadow) <= d.(daemon.curshadow) + 1.
Proof.
  intros (k & p & D & Ho & HP & Hq) HD HW.
  set (lo := s.(accts.curshadowseq)) in *. set (max := d.(daemon.maxshadowrec)) in *.
  set (cur := d.(daemon.curshadow)) in *.
  destruct (await_ok a lo k n abuf d D HD HW) as (k' & d' & E & _ & [D1 Em Ht [Eo _] Hcur Hkept Hnew]).
  cbn [set_shadows daemon.maxshadowrec daemon.curshadow daemon.oldshadow] in Em, Hcur, Ht, Eo, Hkept, Hnew.
  change (record (fs_of (set_shadows 1 _ _ _ d))) with (record (fs_of d)) in Hkept.
  fold max cur in Em, Hcur, Ht, Hkept, Hnew. exists d'. split; [exact E|].
  pose proof (ap_place _ _ _ _ _ _ _ HP) as Hp. pose proof (ap_seq _ _ _ _ _ _ _ HP) as Hs. fold lo in Hp, Hs.
  pose proof (do_stot _ _ _ (proj1 D)) as [_ Hk]. pose proof (do_stot _ _ _ D1) as [_ Hk'].
  pose proof (ar_n _ _ _ _ (dl_arrives _ _ _ _ HD)) as Hn0. cbn in Hk. fold max in Hk. rewrite Em in Hk'.
  pose proof (proj1 HW) as Hnmax. fold max in Hnmax. split; [|split; [done | nia]].
  assert (Hpt : lo * max <= p <= cur * max + k).
  { unfold count in Hp. destruct (Z.eqb_spec lo cur) as [->|]; nia. }
  exists k', p. rewrite Em. split; [by apply dir_ok_ready|]. split; [fold lo; lia|]. split.
  { apply (at_pos_grow _ _ cur k); try done; lia. }
  rewrite Ht. replace (cur * max + k + n - p) with ((cur * max + k - p) + n) by lia.
  rewrite seqZ_app, fmap_app, Hq by lia. f_equal.
  - apply list_fmap_ext. intros j i Hi. apply lookup_seqZ in Hi as [-> Hi]. rewrite Hkept by lia. done.
  - replace (p + (cur * max + k - p)) with (cur * max + k) by lia. unfold chunks.
    apply list_eq_same_length with (n := Z.to_nat n); rewrite ?length_fmap, ?length_seqZ; try done.
    intros j x y Hj. rewrite !list_lookup_fmap, !lookup_seqZ_lt by lia. cbn. intros [= <-] [= <-].
    rewrite Hnew by lia. f_equal; lia.
Qed.

(** A directory that did not change gives the reader what it gave. *)
Lemma feeds_same d d' version s q : feeds d version s q -> same_dir d d' -> feeds d' version s q.
Proof.
  intros (k & p & D & Ho & HP & Hq) (Ef & Ec & Eo & Em & HD). exists k, p. rewrite Ec, Eo, Em.
  split; [by apply HD|]. split; [done|]. split; [done|]. rewrite Hq. apply list_fmap_ext. intros j i _.
  symmetry. apply record_same. intros seq _. by rewrite Ef.
Qed.

(** Collection keeps the queue of a reader that locks its file. *)
Lemma main_feeds a gclast d state d1 version s q : awaitprocterm a d = Some (Ret (state, d1)) -> state ≠ -1 ->
  feeds d1 version s q -> a.(answers.locked) s.(accts.curshadowseq) = true ->
  exists gclast' d', main_step a gclast d = Some (Ret (Some (gclast', d'))) /\ feeds d' version s q /\
    d'.(daemon.maxshadowrec) = d1.(daemon.maxshadowrec) /\ d'.(daemon.curshadow) = d1.(daemon.curshadow).
Proof.
  intros E Hst HF Hlock. unfold main_step. rewrite E. mstep. rewrite (proj2 (Z.eqb_neq state (-1))) by done.
  destruct (_ && _); [|by exists gclast, d1]. destruct HF as (k & p & [D HR] & Ho & HP & Hq).
  destruct (gc_dir_ok a.(answers.locked) _ k _ D) as (new & files' & Eg & Hn & D2 & Hk); [exact Ho | done |].
  cbn [set_arec daemon.oldshadow daemon.curshadow daemon.files] in Eg, Hk. rewrite Eg. mstep.
  eexists _, _. split; [reflexivity|]. split; [|done]. exists k, p.
  split; [split; [exact D2 | exact HR]|]. split; [cbn; lia|]. split; [exact HP|].
  rewrite Hq. apply list_fmap_ext. intros j i Hi. apply lookup_seqZ in Hi as [-> Hi].
  symmetry. apply record_same. intros seq <-. apply Hk.
  pose proof (ap_place _ _ _ _ _ _ _ HP) as Hp.
  pose proof (do_stot _ _ _ D) as [_ Hk0]. cbn in Hk0. apply Z.div_le_lower_bound; [lia|].
  unfold count in Hp. cbn. nia.
Qed.

(** What a turn of the main loop meets: records that it stores, records while
    the filesystem is full, or no record. *)
Inductive turn :=
  | Stores (n : Z) (abuf : list Z)
  | Skips (n : Z) (abuf : list Z)
  | Idles.

(** The answers of such a turn, in any state; the reader locks the file [lo]. *)
Definition turn_ok (lo max : Z) (step : turn * answers.answers) : Prop :=
  let '(t, a) := step in
  a.(answers.locked) lo = true /\
  match t with
  | Stores n abuf => (forall d, delivers a n abuf d) /\ n < max
  | Skips n abuf => (forall d, arrives a n abuf d) /\ numclients a ≠ 0 /\ ~ has_space a.(answers.space1)
  | Idles => idle a
  end.

(** The records that the turns store. *)
Definition turn_records (step : turn * answers.answers) : list (list Z) :=
  match step.1 with Stores n abuf => chunks n abuf | Skips _ _ | Idles => [] end.

Definition all_records (steps : list (turn * answers.answers)) : list (list Z) := steps ≫= turn_records.

(** A number of turns of the main loop. *)
Fixpoint main_run (steps : list answers.answers) (gclast : Z) (d : daemon.daemon) :
    option (exitor (option (Z * daemon.daemon))) :=
  match steps with
  | [] => Some (Ret (Some (gclast, d)))
  | a :: steps' =>
      r ← main_step a gclast d;
      match r with
      | Ret (Some (gclast, d)) => main_run steps' gclast d
      | r => Some r
      end
  end.

Lemma turn_feeds t a gclast d version s q : feeds d version s q ->
  turn_ok s.(accts.curshadowseq) d.(daemon.maxshadowrec) (t, a) -> d.(daemon.maxshadowrec) * 64 < 2 ^ 31 ->
  (d.(daemon.curshadow) + 2) * d.(daemon.maxshadowrec) * 64 < 2 ^ 62 ->
  exists gclast' d', main_step a gclast d = Some (Ret (Some (gclast', d'))) /\
    feeds d' version s (q ++ turn_records (t, a)) /\ d'.(daemon.maxshadowrec) = d.(daemon.maxshadowrec) /\
    d.(daemon.curshadow) <= d'.(daemon.curshadow) <= d.(daemon.curshadow) + 1.
Proof.
  intros HF [Hl Ht] H31 Hb.
  assert (H : exists st d1, awaitprocterm a d = Some (Ret (st, d1)) /\ st ≠ -1 /\
    feeds d1 version s (q ++ turn_records (t, a)) /\ d1.(daemon.maxshadowrec) = d.(daemon.maxshadowrec) /\
    d.(daemon.curshadow) <= d1.(daemon.curshadow) <= d.(daemon.curshadow) + 1).
  { destruct t as [n abuf|n abuf|]; cbn [turn_records fst]; rewrite ?app_nil_r.
    - destruct Ht as [HD Hn]. destruct (feeds_put a d version s q n abuf HF (HD d)) as (d1 & E & H); [by split_and!|].
      by exists 1, d1.
    - destruct Ht as (HA & Hc & Hs). pose proof HF as (k & p & D & _).
      destruct (full_filesystem_skips a _ k n abuf d D (HA d) Hc Hs) as (d1 & E & HS & _).
      exists 1, d1. split; [done|]. split; [done|]. split; [exact (feeds_same _ _ _ _ _ HF HS)|].
      destruct HS as (_ & -> & _ & -> & _). split; [done | lia].
    - destruct (await_idle a d Ht) as (d1 & E & HS).
      exists 0, d1. split; [done|]. split; [done|]. split; [exact (feeds_same _ _ _ _ _ HF HS)|].
      destruct HS as (_ & -> & _ & -> & _). split; [done | lia]. }
  destruct H as (st & d1 & E & Hst & HF1 & Em & Hc).
  destruct (main_feeds a gclast d st d1 version s _ E Hst HF1 Hl) as (g & d' & E' & HF' & Em' & Ec').
  exists g, d'. by rewrite Em', Ec'.
Qed.

Lemma main_run_feeds version s max : forall steps gclast d q, feeds d version s q ->
  Forall (turn_ok s.(accts.curshadowseq) max) steps -> d.(daemon.maxshadowrec) = max -> 0 < max -> max * 64 < 2 ^ 31 ->
  (d.(daemon.curshadow) + 1 + Z.of_nat (length steps)) * max * 64 < 2 ^ 62 ->
  exists gclast' d', main_run steps.*2 gclast d = Some (Ret (Some (gclast', d'))) /\
    feeds d' version s (q ++ all_records steps).
Proof.
  induction steps as [|[t a] steps IH]; intros gclast d q HF HA Hm H0 H31 Hb.
  { exists gclast, d. split; [done|]. by rewrite app_nil_r. }
  apply Forall_cons in HA as [Ht HA]. cbn [length] in Hb. rewrite <-Hm in Ht.
  destruct (turn_feeds t a gclast d version s q HF Ht) as (g1 & d1 & E & HF1 & Em & Hc); [by rewrite Hm | rewrite Hm; nia |].
  cbn [main_run fmap list_fmap snd]. rewrite E. mstep.
  destruct (IH g1 d1 _ HF1 HA) as (g' & d' & E' & HF'); [congruence | done | done | nia |].
  exists g', d'. split; [done|]. by rewrite <-app_assoc in HF'.
Qed.

(** At the start the files are those of sequence 0, empty. *)
Lemma daemon_start_ready fds : exists d, daemon_start (true, true) fds = Ret d /\ dir_ready 0 0 d /\
  d.(daemon.shadowbusy) = 0 /\ d.(daemon.oldshadow) = 0 /\ d.(daemon.curshadow) = 0 /\
  d.(daemon.maxshadowrec) = MAXSHADOWREC.
Proof.
  eexists. split; [reflexivity|]. split; [|done]. split; [|by right].
  destruct (lowest_free_spec fds) as (H0 & Hlow & Hfree). set (fd := lowest_free fds) in *.
  destruct (lowest_free_spec (<[fd := FShadow 0]> fds)) as (H0' & _ & Hfree').
  set (cfd := lowest_free (<[fd := FShadow 0]> fds)) in *.
  assert (Hne : cfd ≠ fd) by (intros E; by rewrite E, lookup_insert_eq in Hfree').
  split; try done; cbn.
  - fold fd cfd. by rewrite lookup_insert_ne, lookup_insert_eq by done.
  - fold fd cfd. split; [done|]. intros j Hj. destruct (decide (j = cfd)) as [->|]; [by rewrite lookup_insert_eq|].
    rewrite !lookup_insert_ne by lia. by apply Hlow.
  - fold fd cfd. lia.
  - intros seq Hs. lia.
  - exists []. by rewrite lookup_insert_eq.
Qed.

(** C5: What the daemon stores, its readers get: a reader with a queue of
    waiting records sleeps, with its shadow file locked, while the main loop of
    atopacctd makes any number of turns. Each turn reads records and stores them
    (five percent of the filesystem are free, write takes all bytes and creat
    succeeds), or skips them because the filesystem is full, or reads nothing; a
    turn that stores reads less than a shadow file holds, and sizes are far from
    overflow. Then acctprocnt gives the length of the queue and the number of
    the records stored, acctphotoproc with this number fills process i from the
    i-th of them, in the order of the kernel, and nothing is left. The records
    are of a layout that acctphotoproc knows, and the table of processes has
    room. *)
Theorem records_delivered version s steps gclast d q accproc : feeds d version s q -> version = 2 \/ version = 3 ->
  Forall (turn_ok s.(accts.curshadowseq) d.(daemon.maxshadowrec)) steps -> d.(daemon.maxshadowrec) * 64 < 2 ^ 31 ->
  (d.(daemon.curshadow) + 1 + Z.of_nat (length steps)) * d.(daemon.maxshadowrec) * 64 < 2 ^ 62 ->
  let all := q ++ all_records steps in let n := Z.of_nat (length all) in
  (forall i, (i < length all)%nat -> is_Some (api ← accproc !! i; r ← all !! i; fill_record version 64 r api)) ->
  exists gclast' d' s' out, main_run steps.*2 gclast d = Some (Ret (Some (gclast', d'))) /\
    acctprocnt (fs_of d') s = Some (n, s) /\
    acctphotoproc (fs_of d') s accproc n = Some (n, out, Going (fs_of d') s') /\
    (forall i, (i < length all)%nat -> out !! i = api ← accproc !! i; r ← all !! i; fill_record version 64 r api) /\
    acctprocnt (fs_of d') s' = Some (0, s') /\ feeds d' version s' [].
Proof.
  intros HF Hv HA H31 Hb all n Hfill.
  assert (Hmax : 0 < d.(daemon.maxshadowrec)).
  { destruct HF as (k & p & [D _] & _). pose proof (do_stot _ _ _ D) as [_ Hk]. cbn in Hk. lia. }
  destruct (main_run_feeds version s _ steps gclast d q HF HA eq_refl Hmax H31 Hb) as (g' & d' & E & HF').
  destruct (feeds_take d' version s all accproc n HF' Hv) as (s' & out & E2 & _ & Hlo & _ & HF2); [lia | |].
  { intros i Hi. apply Hfill. lia. }
  rewrite drop_ge in HF2 by (unfold all in *; lia).
  exists g', d', s', out. split; [done|]. split; [exact (feeds_length _ _ _ _ HF')|]. split; [done|].
  split; [intros i Hi; apply Hlo; lia|]. split; [exact (feeds_length _ _ _ _ HF2) | done].
Qed.

(** C33: gcshadows ends and removes the oldest shadow files up to the first one
    that a reader holds or that is missing; no file that is in use, no file
    behind it and not the current file is removed. *)
Theorem gcshadows_oldest locked old cur files : 0 <= old -> cur < 2 ^ 64 ->
  exists new files', gcshadows locked old cur files = Some (new, files') /\
    old <= new <= Z.max old cur /\ collected old new files files' /\
    (forall seq, old <= seq < new -> is_Some (files !! seq) /\ locked seq = false) /\
    (forall seq, locked seq = true -> files' !! seq = files !! seq) /\
    (new < cur -> files !! new = None \/ locked new = true).
Proof.
  intros H0 Hc. destruct (gcshadows_loop_spec locked cur Hc (S (size files)) old files H0 ltac:(lia))
    as (new & files' & E & Hn & Hcol & Hgone & Hend).
  exists new, files'. split_and!; try done; try lia. intros seq Hl. rewrite Hcol.
  destruct (Z.leb_spec old seq), (Z.ltb_spec seq new); try done. destruct (Hgone seq) as [_ Hx]; [lia | congruence].
Qed.

(** When the last reader has gone, the next records make the daemon
    remove all shadow files and start again with sequence 0 and an empty file;
    the records themselves go nowhere. *)
Theorem last_reader_gone a k n abuf d : dir_ready d.(daemon.oldshadow) k d -> arrives a n abuf d ->
  numclients a = 0 -> d.(daemon.shadowbusy) ≠ 0 -> a.(answers.creatable) = true ->
  (forall seq, a.(answers.locked) seq = false) ->
  exists d', awaitprocterm a d = Some (Ret (1, d')) /\ dir_ready 0 0 d' /\
    d'.(daemon.shadowbusy) = 0 /\ d'.(daemon.oldshadow) = 0 /\ d'.(daemon.curshadow) = 0 /\
    d'.(daemon.files) !! 0 = Some [] /\
    (forall seq, 0 < seq -> d.(daemon.oldshadow) <= seq <= d.(daemon.curshadow) -> d'.(daemon.files) !! seq = None).
Proof.
  intros D HA Hc Hbusy Hcr Hl. destruct (await_arrived a _ k n abuf d D HA) as (time & tot & ->).
  rewrite (proj2 (Z.eqb_eq _ 0)) by done. pose proof (counted_dir_ok time tot _ _ _ D) as D1.
  set (d1 := counted time tot d) in *. pose proof (do_range _ _ _ D1) as Hr. pose proof (do_stot _ _ _ D1) as [_ Hk].
  destruct D1 as [D1 [D2 D2'] D3 D4 D5 D6 (b & D7 & _) D8 D9].
  unfold no_clients. rewrite (proj2 (Z.eqb_neq d1.(daemon.shadowbusy) 0)) by done.
  unfold u64 at 1. rewrite Z.mod_small by nia.
  destruct (gcshadows_loop_spec a.(answers.locked) (d1.(daemon.curshadow) + 1) ltac:(nia)
    (S (size d1.(daemon.files))) d1.(daemon.oldshadow) d1.(daemon.files))
    as (new & files' & E & Hn & Hcol & _ & Hend); [apply Hr | lia |].
  assert (Enew : new = d1.(daemon.curshadow) + 1).
  { destruct (Z.lt_ge_cases new (d1.(daemon.curshadow) + 1)) as [Hlt|]; [|unfold d1 in *; cbn in *; lia].
    destruct (Hend Hlt) as [Hx|Hx]; [|by rewrite Hl in Hx].
    destruct (decide (new = d1.(daemon.curshadow))) as [->|]; [congruence|].
    destruct (D6 new) as (b' & Eb & _); [unfold d1 in *; cbn in *; lia | congruence]. }
  unfold gcshadows. rewrite E. mstep. unfold createshadow. rewrite Hcr.
  cbn [set_stotsize set_shadows set_sfd daemon.fds daemon.sfd daemon.files daemon.curshadow daemon.oldshadow mbind exitor_bind].
  rewrite lowest_free_closed by done.
  unfold setcurrent. cbn [set_sfd set_stotsize set_shadows daemon.cfd]. rewrite (proj2 (Z.eqb_neq d1.(daemon.cfd) (-1))) by done.
  cbn [set_currency set_shadows daemon.oldshadow daemon.curshadow daemon.files mbind exitor_bind].
  eexists. split; [reflexivity|]. split; [apply dir_ok_ready; split; try done; cbn|split_and!; try done; cbn].
  - by rewrite lookup_insert_eq.
  - split; [done|]. intros j Hj. rewrite lookup_insert_ne, lookup_delete_ne by lia. by apply D2'.
  - intros seq Hs. lia.
  - exists []. by rewrite lookup_insert_eq.
  - unfold d1 in Hk. cbn in Hk. lia.
  - unfold d1 in Hr, Hk. cbn in Hr, Hk. nia.
  - by rewrite lookup_insert_eq.
  - intros seq H0 Hs. rewrite lookup_insert_ne by lia. rewrite Hcol.
    unfold d1 in Enew |- *. cbn in *. destruct (Z.leb_spec d.(daemon.oldshadow) seq), (Z.ltb_spec seq new); done || lia.
Qed.

(** ** A concrete directory *)

(** Two records per file: file 5 is full, file 6 holds one. *)
Definition a_daemon : daemon.daemon :=
  daemon.mk 64 1 0 64 128 0 0 2 4 3 1 5 6
    (list_to_map [(0, FOther); (1, FOther); (2, FOther); (3, FShadow 6); (4, FOther)])
    (list_to_map [(5, a_v3_record 10 7 [115; 104] ++ a_v3_record 11 8 [118; 105]); (6, a_v3_record 12 9 [108; 115])])
    (Some (6, 2)).

Lemma a_daemon_ok : dir_ok 5 1 a_daemon.
Proof.
  split; try done.
  - split; [done|]. intros j Hj. assert (j = 0 \/ j = 1 \/ j = 2) as [-> | [-> | ->]] by (cbn in Hj; lia); by eexists.
  - intros seq Hs. assert (seq = 5) as -> by (cbn in Hs; lia). eexists. by split.
  - eexists. by split.
Qed.

(** A turn that reads the record of the process [pid]; [semval] is the public
    semaphore, [space] the answer about the filesystem. *)
Definition some_answers (pid semval : Z) (space : option (Z * Z)) (locked : Z -> bool) : answers.answers :=
  answers.mk 20 [Some (a_v3_record pid 1 [108; 115])] (100, 100, 100) (true, true) [] semval (space, Some 4096) (space, Some 4096) true locked.

Lemma some_arrives pid semval space locked d : arrives (some_answers pid semval space locked) 1 (a_v3_record pid 1 [108; 115]) d.
Proof. split; try done; [by left | by eexists]. Qed.

(** A turn that finds no record. *)
Definition idle_answers (locked : Z -> bool) : answers.answers :=
  answers.mk 20 [] (100, 100, 100) (true, true) [(true, [64])] 99 (None, None) (None, None) true locked.

(** Four turns: the second finds the filesystem full, the third no record. *)
Definition some_steps : list (turn * answers.answers) :=
  [(Stores 1 (a_v3_record 13 1 [108; 115]), some_answers 13 99 None (Z.eqb 5));
   (Skips 1 (a_v3_record 14 1 [108; 115]), some_answers 14 99 (Some (100, 4)) (Z.eqb 5));
   (Idles, idle_answers (Z.eqb 5));
   (Stores 1 (a_v3_record 14 1 [108; 115]), some_answers 14 99 (Some (100, 50)) (Z.eqb 5))].

Lemma some_delivers pid space d : has_space (space, Some 4096) ->
  delivers (some_answers pid 99 space (Z.eqb 5)) 1 (a_v3_record pid 1 [108; 115]) d.
Proof. intros H. split; try done; [apply some_arrives|]. by split; (split; [exact H | by exists 4096]). Qed.

Lemma some_steps_ok : Forall (turn_ok 5 2) some_steps.
Proof.
  repeat first [apply Forall_nil | apply Forall_cons; split]; try done; cbn [turn_ok]; (split; [done|]).
  - split; [intros d; by apply some_delivers | done].
  - split; [intros d; apply some_arrives|]. split; [done|]. intros [_ H]. vm_compute in H. by apply H.
  - split; [intros d; apply some_delivers; by split | done].
Qed.

(** Two records wait in file 5 and 6. *)
Lemma a_daemon_feeds : feeds a_daemon 3 a_state [a_v3_record 11 8 [118; 105]; a_v3_record 12 9 [108; 115]].
Proof.
  exists 1, 11. split; [apply dir_ok_ready, a_daemon_ok|]. split; [done|]. split; [by split | reflexivity].
Qed.

Lemma records_delivered_witness : exists gclast' d' s' out,
  main_run some_steps.*2 0 a_daemon = Some (Ret (Some (gclast', d'))) /\
  acctprocnt (fs_of d') a_state = Some (4, a_state) /\
  acctphotoproc (fs_of d') a_state (replicate 4 tstat_zero) 4 = Some (4, out, Going (fs_of d') s') /\
  (forall i, (i < 4)%nat -> tgen.pid ∘ tstat.gen <$> out !! i = Some (11 + Z.of_nat i)) /\
  acctprocnt (fs_of d') s' = Some (0, s').
Proof.
  destruct (records_delivered 3 a_state some_steps 0 a_daemon _ (replicate 4 tstat_zero) a_daemon_feeds)
    as (g & d' & s' & out & E1 & E2 & E3 & Hout & E4 & _).
  - by right.
  - apply some_steps_ok.
  - done.
  - done.
  - intros i Hi. change (i < 4)%nat in Hi. assert (i = 0 \/ i = 1 \/ i = 2 \/ i = 3)%nat as [-> | [-> | [-> | ->]]] by lia; by eexists.
  - exists g, d', s', out. split; [exact E1|]. split; [exact E2|]. split; [exact E3|]. split; [|exact E4].
    intros i Hi. rewrite (Hout i Hi). clear -Hi.
    assert (i = 0 \/ i = 1 \/ i = 2 \/ i = 3)%nat as [-> | [-> | [-> | ->]]] by lia; reflexivity.
Defined.

Lemma gcshadows_oldest_witness : exists new files', gcshadows (Z.eqb 6) 5 7 a_daemon.(daemon.files) = Some (new, files') /\
  5 <= new <= 7 /\ files' !! 6 = a_daemon.(daemon.files) !! 6.
Proof.
  destruct (gcshadows_oldest (Z.eqb 6) 5 7 a_daemon.(daemon.files)) as (new & files' & E & Hn & _ & _ & Hl & _); [lia|lia|].
  exists new, files'. split; [exact E|]. split; [exact Hn|]. by apply Hl.
Defined.

Lemma last_reader_gone_witness : exists d', awaitprocterm (some_answers 13 100 None (fun _ => false)) a_daemon = Some (Ret (1, d')) /\
  dir_ready 0 0 d' /\ d'.(daemon.files) !! 5 = None /\ d'.(daemon.files) !! 0 = Some [].
Proof.
  destruct (last_reader_gone (some_answers 13 100 None (fun _ => false)) 1 1 (a_v3_record 13 1 [108; 115]) a_daemon)
    as (d' & E & D & _ & _ & _ & H0 & Hgone); try done.
  - apply dir_ok_ready, a_daemon_ok.
  - apply some_arrives.
  - exists d'. split; [exact E|]. split; [exact D|]. split; [|exact H0]. by apply Hgone.
Defined.

Lemma full_filesystem_skips_witness : exists d',
  awaitprocterm (some_answers 13 99 (Some (100, 4)) (Z.eqb 5)) a_daemon = Some (Ret (1, d')) /\
  d'.(daemon.files) = a_daemon.(daemon.files) /\ d'.(daemon.nrskipped) = 1.
Proof.
  destruct (full_filesystem_skips (some_answers 13 99 (Some (100, 4)) (Z.eqb 5)) 5 1 1 (a_v3_record 13 1 [108; 115]) a_daemon)
    as (d' & E & (Ef & _) & En); try done.
  - apply dir_ok_ready, a_daemon_ok.
  - apply some_arrives.
  - intros [_ H]. vm_compute in H. by apply H.
  - exists d'. split; [exact E|]. split; [exact Ef | exact En].
Defined.
