(* ===== verification/Rawlog.v ===== *)
(** * The raw log: rawlog.c

    A raw log is a header and a sequence of samples; a sample is a record of
    fixed size, the compressed [struct sstat] and the compressed array of
    [struct tstat]. [rawwrite] appends a sample, [rawread] walks through the
    samples, forward and back, and hands each to the display.

    Files are lists of bytes. How the two structures lie in memory is the class
    [Image], the compression of zlib the class [Zlib]; the conversion of time,
    the file system, [gunzip], [execvp] and the display ([vis.show_samp]) are
    parameters. A read of an open file does not fail and delivers what is
    there. *)
From Stdlib Require Import Ascii.
From S2P Require Import Prelude Format Various Netatopif Photoproc Sscanf Parseable.

(** ** Bytes of integers, as a little-endian host stores them *)

Fixpoint le (n : nat) (z : Z) : list Z :=
  match n with
  | O => []
  | S n' => z mod 256 :: le n' (z / 256)
  end.

Fixpoint unle (l : list Z) : Z :=
  match l with
  | [] => 0
  | b :: l' => b + 256 * unle l'
  end.

(** The member of [len] bytes at offset [off]. *)
Definition member (b : list Z) (off len : nat) : Z := unle (take len (drop off b)).
Definition zeros (n : nat) : list Z := replicate n 0.

(** ** Flags *)

Definition RRLAST : Z := 0x0002.
Definition RRNETATOP : Z := 0x0004.
Definition RRNETATOPD : Z := 0x0008.
Definition RRACCTACTIVE : Z := 0x0010.
Definition RRIOSTAT : Z := 0x0020.
Definition RRDOCKSTAT : Z := 0x0040.

Definition RAWLOGNG : Z := Z.lor ACCTACTIVE (Z.lor IOSTAT (Z.lor NETATOP NETATOPD)).

(** ** The header and the record of a sample *)

Definition MYMAGIC : Z := 0xfeedbeef.

(** [struct rawheader]; the members for future use are zero when they are
    written and are not looked at, [utsname] is the image of its structure. *)
Module rawheader.
Record rawheader := mk {
  magic : Z;
  aversion : Z;
  rawheadlen : Z;
  rawreclen : Z;
  hertz : Z;
  sstatlen : Z;
  tstatlen : Z;
  utsname : list Z;
  pagesize : Z;
  supportflags : Z;
  osrel : Z;
  osvers : Z;
  ossub : Z
}.
End rawheader.

(** [struct rawrecord], without the members for future use. *)
Module rawrecord.
Record rawrecord := mk {
  curtime : Z;
  flags : Z;
  scomplen : Z;
  pcomplen : Z;
  interval : Z;
  ndeviat : Z;
  nactproc : Z;
  ntask : Z;
  totproc : Z;
  totrun : Z;
  totslpi : Z;
  totslpu : Z;
  totzomb : Z;
  nexit : Z;
  noverflow : Z
}.
End rawrecord.

Definition SIZEOF_RAWHEADER : nat := 480.
Definition SIZEOF_RAWRECORD : nat := 96.
Definition SIZEOF_UTSNAME : nat := 390.

Definition header_image (rh : rawheader.rawheader) : list Z :=
  le 4 rh.(rawheader.magic) ++ le 2 rh.(rawheader.aversion) ++ zeros 4 ++
  le 2 rh.(rawheader.rawheadlen) ++ le 2 rh.(rawheader.rawreclen) ++
  le 2 rh.(rawheader.hertz) ++ zeros 12 ++ le 4 rh.(rawheader.sstatlen) ++
  le 4 rh.(rawheader.tstatlen) ++ resize SIZEOF_UTSNAME 0 rh.(rawheader.utsname) ++ zeros 10 ++
  le 4 rh.(rawheader.pagesize) ++ le 4 rh.(rawheader.supportflags) ++
  le 4 rh.(rawheader.osrel) ++ le 4 rh.(rawheader.osvers) ++ le 4 rh.(rawheader.ossub) ++ zeros 24.

Definition header_of (b : list Z) : rawheader.rawheader :=
  rawheader.mk (member b 0 4) (member b 4 2) (member b 10 2) (member b 12 2) (member b 14 2)
    (member b 28 4) (member b 32 4) (take SIZEOF_UTSNAME (drop 36 b)) (member b 436 4)
    (i32 (member b 440 4)) (i32 (member b 444 4)) (i32 (member b 448 4)) (i32 (member b 452 4)).

Definition record_image (rr : rawrecord.rawrecord) : list Z :=
  le 8 rr.(rawrecord.curtime) ++ le 2 rr.(rawrecord.flags) ++ zeros 6 ++
  le 4 rr.(rawrecord.scomplen) ++ le 4 rr.(rawrecord.pcomplen) ++ le 4 rr.(rawrecord.interval) ++
  le 4 rr.(rawrecord.ndeviat) ++ le 4 rr.(rawrecord.nactproc) ++ le 4 rr.(rawrecord.ntask) ++
  le 4 rr.(rawrecord.totproc) ++ le 4 rr.(rawrecord.totrun) ++ le 4 rr.(rawrecord.totslpi) ++
  le 4 rr.(rawrecord.totslpu) ++ le 4 rr.(rawrecord.totzomb) ++ le 4 rr.(rawrecord.nexit) ++
  le 4 rr.(rawrecord.noverflow) ++ zeros 28.

Definition record_of (b : list Z) : rawrecord.rawrecord :=
  rawrecord.mk (i64 (member b 0 8)) (member b 8 2) (member b 16 4) (member b 20 4) (member b 24 4)
    (member b 28 4) (member b 32 4) (member b 36 4) (member b 40 4) (member b 44 4)
    (member b 48 4) (member b 52 4) (member b 56 4) (member b 60 4) (member b 64 4).

(** ** The version of the program: version.c *)

Definition ATOPVERS : text := chars "2.3.0".

(** [sscanf] with two numbers and a point between them; the text above has
    both. *)
Definition getnumvers : option Z :=
  '(vers1, rest) ← scan_nat ATOPVERS;
  match rest with
  | c :: rest' => if Ascii.eqb c "."%char then '(vers2, _) ← scan_nat rest';
                    Some (u16 (Z.shiftl vers1 8 + vers2)) else None
  | [] => None
  end.
Definition numvers : Z := default 0 getnumvers.

(** ** What rawlog.c relies on *)

(** A C structure: its size and its bytes in memory. *)
Class Image (T : Type) := {
  sizeof : nat;
  image : T -> list Z;
  of_image : list Z -> T;
  image_length t : length (image t) = sizeof;
  of_image_image t : of_image (image t) = t
}.
#[global] Arguments sizeof T {_}.

Definition Z_OK : Z := 0.
Definition Z_STREAM_END : Z := 1.
Definition Z_NEED_DICT : Z := 2.
Definition Z_DATA_ERROR : Z := -3.
Definition Z_MEM_ERROR : Z := -4.
Definition Z_BUF_ERROR : Z := -5.

(** [compress] and [uncompress]: the source and the room at the destination;
    the code that is returned and the bytes that are stored. What [compress]
    stores with success [uncompress] turns back. *)
Class Zlib := {
  compress : list Z -> nat -> Z * list Z;
  uncompress : list Z -> nat -> Z * list Z;
  compress_room s n c : compress s n = (Z_OK, c) -> (length c <= n)%nat;
  compress_bytes s n c : compress s n = (Z_OK, c) -> c ≠ [];
  uncompress_compress s n c m : compress s n = (Z_OK, c) -> (length s <= m)%nat ->
    uncompress c m = (Z_OK, s)
}.

(** The codes that are no failure; every other one ends the program. *)
Definition testcompval (rv : Z) : exitor unit :=
  if (rv =? Z_OK) || (rv =? Z_STREAM_END) || (rv =? Z_NEED_DICT) then Ret tt else Exit 7.

(** The list of tasks and its indices as [struct devtstat] holds them; a
    pointer into [taskall] is a position. *)
Module rawtasks.
Record rawtasks (T : Type) := mk {
  taskall : list T;
  procall : list nat;
  procactive : list nat;
  ntaskactive : Z;
  nprocall : Z;
  nprocactive : Z;
  totrun : Z;
  totslpi : Z;
  totslpu : Z;
  totzombie : Z
}.
Arguments mk {T}.
Arguments taskall {T}. Arguments procall {T}. Arguments procactive {T}.
Arguments ntaskactive {T}. Arguments nprocall {T}. Arguments nprocactive {T}.
Arguments totrun {T}. Arguments totslpi {T}. Arguments totslpu {T}. Arguments totzombie {T}.
End rawtasks.
Notation rawtasks := rawtasks.rawtasks.

(** What the header tells of the system. *)
Module sysinfo.
Record sysinfo := mk {
  utsname : list Z;
  osrel : Z;
  osvers : Z;
  ossub : Z;
  hertz : Z;
  pagesize : Z
}.
End sysinfo.

(** ** Writing *)

(** The raw file as the writer sees it: its content, whether it can be opened
    for reading and writing, created and truncated, how many bytes the file
    system still takes, and the offset behind the descriptor [rawfd] that
    [rawwrite] keeps ([None] is -1). *)
Module rawdisk.
Record rawdisk := mk {
  file : option (list Z);
  rdwr : bool;
  creatable : bool;
  truncatable : bool;
  room : nat;
  rawfd : option nat
}.
End rawdisk.
Notation rawdisk := rawdisk.rawdisk.

Definition set_file (f : list Z) (d : rawdisk) : rawdisk :=
  rawdisk.mk (Some f) d.(rawdisk.rdwr) d.(rawdisk.creatable) d.(rawdisk.truncatable)
    d.(rawdisk.room) d.(rawdisk.rawfd).
Definition set_room (n : nat) (d : rawdisk) : rawdisk :=
  rawdisk.mk d.(rawdisk.file) d.(rawdisk.rdwr) d.(rawdisk.creatable) d.(rawdisk.truncatable)
    n d.(rawdisk.rawfd).
Definition set_rawfd (fd : option nat) (d : rawdisk) : rawdisk :=
  rawdisk.mk d.(rawdisk.file) d.(rawdisk.rdwr) d.(rawdisk.creatable) d.(rawdisk.truncatable)
    d.(rawdisk.room) fd.

(** A computation on the disk that can end the program: what it did stays. *)
Definition io (A : Type) : Type := rawdisk -> exitor A * rawdisk.
#[export] Instance io_ret : MRet io := fun A x d => (Ret x, d).
#[export] Instance io_bind : MBind io := fun A B f m d =>
  match m d with
  | (Ret x, d') => f x d'
  | (Exit c, d') => (Exit c, d')
  end.
Definition cleanstop {A} (code : Z) : io A := fun d => (Exit code, d).
Definition io_exitor {A} (x : exitor A) : io A := fun d => (x, d).

(** [write(fd, data, n)] at offset [o]: it stores what the file system takes;
    nothing at all, when something was to be stored, is the result -1. *)
Definition write_at (o : nat) (data : list Z) : io bool := fun d =>
  let f := default [] d.(rawdisk.file) in
  let n := Nat.min (length data) (length f - o + d.(rawdisk.room)) in
  if (n =? 0)%nat && negb (length data =? 0)%nat then (Ret false, d)
  else
    let f' := resize o 0 f ++ take n data ++ drop (o + n) f in
    (Ret true, set_rawfd (Some (o + n)%nat)
       (set_room (d.(rawdisk.room) - (length f' - length f)) (set_file f' d))).

(** [ftruncate(rawfd, size)] *)
Definition ftruncate (size : nat) : io bool := fun d =>
  if d.(rawdisk.truncatable) then
    let f := default [] d.(rawdisk.file) in
    (Ret true, set_room (d.(rawdisk.room) + (length f - size)) (set_file (resize size 0 f) d))
  else (Ret false, d).

Section rawlog.
Context {Task Sys : Type} `{!Image Task, !Image Sys, !Zlib}.
(** The settings that go into the header, and the support flags. *)
Context (info : sysinfo.sysinfo) (supportflags : Z).

(** The lengths in a header are those of this program. *)
Definition lengths_differ (rh : rawheader.rawheader) : bool :=
  negb (rh.(rawheader.sstatlen) =? Z.of_nat (sizeof Sys)) ||
  negb (rh.(rawheader.tstatlen) =? Z.of_nat (sizeof Task)) ||
  negb (rh.(rawheader.rawheadlen) =? Z.of_nat SIZEOF_RAWHEADER) ||
  negb (rh.(rawheader.rawreclen) =? Z.of_nat SIZEOF_RAWRECORD).

Definition new_header : rawheader.rawheader :=
  rawheader.mk MYMAGIC (Z.lor numvers 0x8000) (Z.of_nat SIZEOF_RAWHEADER) (Z.of_nat SIZEOF_RAWRECORD)
    info.(sysinfo.hertz) (Z.of_nat (sizeof Sys)) (Z.of_nat (sizeof Task)) info.(sysinfo.utsname)
    info.(sysinfo.pagesize) (Z.lor supportflags RAWLOGNG) info.(sysinfo.osrel) info.(sysinfo.osvers)
    info.(sysinfo.ossub).

(** The file exists: read and verify the header record, go to the end. *)
Definition rawwopen_existing (f : list Z) : io unit := fun d =>
  if (length f <? SIZEOF_RAWHEADER)%nat then cleanstop 7 d
  else
    let rh := header_of f in
    if negb (rh.(rawheader.magic) =? MYMAGIC) then cleanstop 7 d
    else if lengths_differ rh then cleanstop 7 d
    else (Ret tt, set_rawfd (Some (length f)) d).

(** The file does not exist, or can not be opened: [creat] empties it. *)
Definition rawwopen_new : io unit := fun d =>
  if d.(rawdisk.creatable) then
    let old := length (default [] d.(rawdisk.file)) in
    (written ← write_at 0 (header_image new_header);
     if (written : bool) then mret tt else cleanstop 7)
      (set_rawfd (Some 0%nat) (set_room (d.(rawdisk.room) + old) (set_file [] d)))
  else cleanstop 7 d.

Definition rawwopen : io unit := fun d =>
  match d.(rawdisk.file) with
  | Some f => if d.(rawdisk.rdwr) then rawwopen_existing f d else rawwopen_new d
  | None => rawwopen_new d
  end.

(** The write of one part of a sample; when it fails the file gets the size
    back that it had before the sample. *)
Definition write_part (size : nat) (data : list Z) : io unit := fun d =>
  (written ← write_at (default 0%nat d.(rawdisk.rawfd)) data;
   if (written : bool) then mret tt
   else ok ← ftruncate size; if (ok : bool) then cleanstop 7 else cleanstop 8) d.

Definition flag_if (b : bool) (f : Z) : Z := if b then f else 0.

Definition record_flags (flag : Z) : Z :=
  Z.lor (flag_if (flagged flag RRBOOT) RRBOOT)
    (Z.lor (flag_if (flagged supportflags ACCTACTIVE) RRACCTACTIVE)
      (Z.lor (flag_if (flagged supportflags IOSTAT) RRIOSTAT)
        (Z.lor (flag_if (flagged supportflags NETATOP) RRNETATOP)
          (Z.lor (flag_if (flagged supportflags NETATOPD) RRNETATOPD)
            (flag_if (flagged supportflags DOCKSTAT) RRDOCKSTAT))))).

Definition task_bytes (l : list Task) : list Z := concat (map image l).

Definition new_record (curtime numsecs : Z) (tasks : rawtasks Task) (nexit noverflow flag : Z)
    (scomplen pcomplen : nat) : rawrecord.rawrecord :=
  let ntaskall := Z.of_nat (length tasks.(rawtasks.taskall)) in
  rawrecord.mk curtime (record_flags flag) (Z.of_nat scomplen) (Z.of_nat pcomplen) numsecs ntaskall
    tasks.(rawtasks.nprocactive) ntaskall tasks.(rawtasks.nprocall) tasks.(rawtasks.totrun)
    tasks.(rawtasks.totslpi) tasks.(rawtasks.totslpu) tasks.(rawtasks.totzombie) nexit noverflow.

(** A sample appended to the open file; [malloc] gives the compression buffers
    the size of what they hold. *)
Definition write_sample (curtime numsecs : Z) (tasks : rawtasks Task) (sstat : Sys)
    (nexit noverflow flag : Z) : io unit := fun d =>
  let size := length (default [] d.(rawdisk.file)) in
  let '(rv, scompbuf) := compress (image sstat) (sizeof Sys) in
  let '(rv', pcompbuf) := compress (task_bytes tasks.(rawtasks.taskall))
                            (sizeof Task * length tasks.(rawtasks.taskall)) in
  let rr := new_record curtime numsecs tasks nexit noverflow flag (length scompbuf) (length pcompbuf) in
  (io_exitor (testcompval rv);;
   io_exitor (testcompval rv');;
   write_part size (record_image rr);;
   write_part size scompbuf;;
   write_part size pcompbuf) d.

(** take care that the log file is opened *)
Definition open_first : io unit := fun d =>
  match d.(rawdisk.rawfd) with None => rawwopen d | Some _ => (Ret tt, d) end.

Definition rawwrite (curtime numsecs : Z) (tasks : rawtasks Task) (sstat : Sys)
    (nexit noverflow flag : Z) : io unit :=
  open_first;;
  write_sample curtime numsecs tasks sstat nexit noverflow flag.
End rawlog.
Arguments lengths_differ Task Sys {_ _} rh.
Arguments new_header Task Sys {_ _} info supportflags.
Arguments rawwopen Task Sys {_ _} info supportflags.
Arguments rawwopen_existing Task Sys {_ _} f.
Arguments rawwopen_new Task Sys {_ _} info supportflags.
Arguments open_first Task Sys {_ _} info supportflags.

(** ** The name of the file that is read *)

Definition RAWNAMESZ : nat := 256.
Definition BASEPATH : text := chars "/var/log/atop".

(** verify if a particular ascii-string is in the format yyyymmdd *)
Definition lookslikedatetome (p : text) : bool :=
  let at_ i := default "000"%char (p !! i) in
  forallb (fun i => isdigit (at_ i)) (seq 0 8) &&
  Ascii.eqb (at_ 0%nat) "2"%char &&
  (nat_of_ascii (at_ 4%nat) <=? nat_of_ascii "1"%char)%nat &&
  (nat_of_ascii (at_ 6%nat) <=? nat_of_ascii "3"%char)%nat.

Section rawname.
(** [access(name, F_OK) == 0], the conversion of time and the time of the call. *)
Context (present : text -> bool) (localtime : Z -> tm.tm) (now : Z).

(** the standard log file of a moment *)
Definition daily_name (t : Z) : text :=
  let tp := localtime t in
  take (RAWNAMESZ - 1)
    (BASEPATH ++ chars "/atop_" ++ fmt_0d 4 (i32 (tp.(tm.tm_year) + 1900)) ++
     fmt_0d 2 (i32 (tp.(tm.tm_mon) + 1)) ++ fmt_0d 2 tp.(tm.tm_mday)).

Definition dated_name (savedname : text) : text :=
  take (RAWNAMESZ - 1) (BASEPATH ++ chars "/atop_" ++ savedname).

(** one or more 'y' characters: the log of so many days ago *)
Definition yesterdays_name (rawname : text) : text :=
  let len := length rawname in
  if present rawname then rawname
  else if decide (rawname = replicate len "y"%char)
  then daily_name (i64 (now - i32 (Z.of_nat len * 3600 * 24)))
  else rawname.

Definition raw_name (rawname : text) : text :=
  match length rawname with
  | O => daily_name now
  | 8%nat =>
      if present rawname then rawname
      else if lookslikedatetome rawname then dated_name rawname
      else yesterdays_name rawname
  | _ => yesterdays_name rawname
  end.
End rawname.

(** ** Reading *)

(** What the display is called with. *)
Module shown.
Record shown (Task Sys : Type) := mk {
  curtime : Z;
  interval : Z;
  devtstat : rawtasks Task;
  sstat : Sys;
  nexit : Z;
  noverflow : Z;
  flags : Z;
  sampcnt : Z;
  supportflags : Z
}.
Arguments mk {Task Sys}.
Arguments curtime {Task Sys}. Arguments interval {Task Sys}. Arguments devtstat {Task Sys}.
Arguments sstat {Task Sys}. Arguments nexit {Task Sys}. Arguments noverflow {Task Sys}.
Arguments flags {Task Sys}. Arguments sampcnt {Task Sys}. Arguments supportflags {Task Sys}.
End shown.
Notation shown := shown.shown.

(** The variables of [rawread], the globals that change while it runs and the
    state of the display. [offlist] holds the entries of the backtrack list that
    have been written, [offsize] is the size of its memory; [sstat] is the
    memory of the local structure. *)
Module rawst.
Record rawst (V : Type) := mk {
  pos : nat;
  offlist : list nat;
  offsize : nat;
  offcur : nat;
  sstat : list Z;
  lastcmd : Z;
  begintime : Z;
  supportflags : Z;
  sampcnt : Z;
  vis : V
}.
Arguments mk {V}.
Arguments pos {V}. Arguments offlist {V}. Arguments offsize {V}. Arguments offcur {V}.
Arguments sstat {V}. Arguments lastcmd {V}. Arguments begintime {V}.
Arguments supportflags {V}. Arguments sampcnt {V}. Arguments vis {V}.
End rawst.
Notation rawst := rawst.rawst.

Definition OFFCHUNK : nat := 256.
Definition MSAMPPREV : Z := 84.   (* 'T' *)
Definition MRESET : Z := 114.     (* 'r' *)
Definition MSAMPBRANCH : Z := 98. (* 'b' *)
Definition MQUIT : Z := 113.      (* 'q' *)

(** An entry of a list of which the first [length l] have been written. *)
Definition put_entry (size : nat) (l : list nat) (i x : nat) : option (list nat) :=
  if decide (i < size)%nat then
    if decide (i < length l)%nat then Some (<[i := x]> l)
    else if decide (i = length l) then Some (l ++ [x]) else None
  else None.

Section setters.
Context {V : Type}.
Implicit Types s : rawst V.

Definition set_pos p s := rawst.mk p s.(rawst.offlist) s.(rawst.offsize) s.(rawst.offcur)
  s.(rawst.sstat) s.(rawst.lastcmd) s.(rawst.begintime) s.(rawst.supportflags) s.(rawst.sampcnt) s.(rawst.vis).
Definition set_off l size cur s := rawst.mk s.(rawst.pos) l size cur
  s.(rawst.sstat) s.(rawst.lastcmd) s.(rawst.begintime) s.(rawst.supportflags) s.(rawst.sampcnt) s.(rawst.vis).
Definition set_offcur cur s := set_off s.(rawst.offlist) s.(rawst.offsize) cur s.
Definition set_sstat b s := rawst.mk s.(rawst.pos) s.(rawst.offlist) s.(rawst.offsize) s.(rawst.offcur)
  b s.(rawst.lastcmd) s.(rawst.begintime) s.(rawst.supportflags) s.(rawst.sampcnt) s.(rawst.vis).
Definition set_lastcmd c s := rawst.mk s.(rawst.pos) s.(rawst.offlist) s.(rawst.offsize) s.(rawst.offcur)
  s.(rawst.sstat) c s.(rawst.begintime) s.(rawst.supportflags) s.(rawst.sampcnt) s.(rawst.vis).
Definition set_begintime b s := rawst.mk s.(rawst.pos) s.(rawst.offlist) s.(rawst.offsize) s.(rawst.offcur)
  s.(rawst.sstat) s.(rawst.lastcmd) b s.(rawst.supportflags) s.(rawst.sampcnt) s.(rawst.vis).
Definition set_counted f n s := rawst.mk s.(rawst.pos) s.(rawst.offlist) s.(rawst.offsize) s.(rawst.offcur)
  s.(rawst.sstat) s.(rawst.lastcmd) s.(rawst.begintime) f n s.(rawst.vis).
Definition set_display c b (v : V) s := rawst.mk s.(rawst.pos) s.(rawst.offlist) s.(rawst.offsize) s.(rawst.offcur)
  s.(rawst.sstat) c b s.(rawst.supportflags) s.(rawst.sampcnt) v.
End setters.

(** How a pass ends: go on with the record header at hand, the end of the log
    is reached, or the function returns. *)
Inductive pass_result (St : Type) :=
  | Again (s : St)
  | AtEnd (s : St)
  | Finished (s : St).
Arguments Again {St} s.
Arguments AtEnd {St} s.
Arguments Finished {St} s.

(** A computation without faults among those that can have one. *)
Definition lift {A} (x : exitor A) : run A := Some x.

Fixpoint chunks (n size : nat) (b : list Z) : list (list Z) :=
  match n with
  | O => []
  | S n' => take size b :: chunks n' size (drop size b)
  end.

(** The positions from [i] on of the entries that pass a test. *)
Fixpoint indices {A} (P : A -> bool) (i : nat) (l : list A) : list nat :=
  match l with
  | [] => []
  | x :: l' => if P x then i :: indices P (S i) l' else indices P (S i) l'
  end.

(** A support flag follows the flag of the sample. *)
Definition follow (on : bool) (f flags : Z) : Z :=
  if on then set_flags f flags else clear_flags f flags.

Section reading.
Context {Task Sys V : Type} `{!Image Task, !Image Sys, !Zlib}.
(** [gen.isproc] and [gen.wasinactive] of a task; the conversion of time; the
    display: the command it returns, [begintime] as it leaves it, its state. *)
Context (isproc wasinactive : Task -> bool) (localtime : Z -> tm.tm)
  (show_samp : shown Task Sys -> Z -> V -> run (Z * Z * V)).
(** The open file, [endtime], and what [malloc] finds in fresh memory. *)
Context (file : list Z) (endtime : Z) (junk : nat -> list Z).

(** [getrawsstat] and [getrawtstat]: compressed bytes from the current offset
    into the memory [dest]; the callers stop with 7 at a short read. A length
    that is negative as an [int] is more than [malloc] gives. *)
Definition getraw (complen : Z) (dest : list Z) (s : rawst V) : exitor (list Z * rawst V) :=
  let complen := i32 complen in
  if complen <? 0 then Exit 13
  else
    let n := Z.to_nat complen in
    let compbuf := take n (drop s.(rawst.pos) file) in
    if (length compbuf <? n)%nat then Exit 7
    else
      let '(rv, out) := uncompress compbuf (length dest) in
      testcompval rv;;
      Ret (out ++ drop (length out) dest, set_pos (s.(rawst.pos) + n) s).

(** The array and its lists of pointers; the lists have the sizes that the
    record gives them, [None] is a write behind their end. *)
Definition list_tasks (rr : rawrecord.rawrecord) (taskall : list Task) : option (rawtasks Task) :=
  let procall := indices isproc 0 taskall in
  let procactive := indices (fun t => isproc t && negb (wasinactive t)) 0 taskall in
  let room := if rr.(rawrecord.totproc) <? rr.(rawrecord.nactproc)
              then rr.(rawrecord.nactproc) else rr.(rawrecord.totproc) in
  if (Z.of_nat (length procall) <=? room) &&
     (Z.of_nat (length procactive) <=? rr.(rawrecord.nactproc)) then
    Some (rawtasks.mk taskall procall procactive
            (Z.of_nat (length (indices (fun t => negb (wasinactive t)) 0 taskall)))
            (Z.of_nat (length procall)) (Z.of_nat (length procactive))
            rr.(rawrecord.totrun) rr.(rawrecord.totslpi) rr.(rawrecord.totslpu) rr.(rawrecord.totzomb))
  else None.

Definition sample_supportflags (rh : rawheader.rawheader) (rr : rawrecord.rawrecord) (flags : Z) : Z :=
  let on := flagged rr.(rawrecord.flags) in
  let flags := if Z.land rh.(rawheader.supportflags) RAWLOGNG =? RAWLOGNG
               then follow (on RRIOSTAT) IOSTAT (follow (on RRACCTACTIVE) ACCTACTIVE flags)
               else flags in
  follow (on RRDOCKSTAT) DOCKSTAT (follow (on RRNETATOPD) NETATOPD (follow (on RRNETATOP) NETATOP flags)).

(** [RRBOOT] of the record; [RRLAST] when no other record can follow. *)
Definition shown_flags (rh : rawheader.rawheader) (rr : rawrecord.rawrecord) (pos : nat) : Z :=
  Z.lor (Z.land rr.(rawrecord.flags) RRBOOT)
    (flag_if (Z.of_nat (length file) - Z.of_nat pos <=? rh.(rawheader.rawreclen)) RRLAST).

(** What the command of the display asks for; [None] is an entry of the
    backtrack list that was never written. *)
Definition jump (i : nat) (s : rawst V) : option (rawst V) :=
  p ← s.(rawst.offlist) !! i; Some (set_pos p s).

Definition obey (secsinday : Z) (s : rawst V) : option (rawst V) :=
  let cmd := s.(rawst.lastcmd) in
  if cmd =? MSAMPPREV then
    let cur := if (2 <=? s.(rawst.offcur))%nat then (s.(rawst.offcur) - 2)%nat else 0%nat in
    jump cur (set_offcur cur s)
  else if cmd =? MRESET then jump 0 (set_offcur 1 s)
  else if (cmd =? MSAMPBRANCH) && negb (s.(rawst.begintime) =? 0) && (s.(rawst.begintime) <? secsinday)
  then jump 0 (set_offcur 1 s)
  else Some s.

(** Decompress a sample, show it and obey. *)
Definition read_sample (rh : rawheader.rawheader) (rr : rawrecord.rawrecord) (secsinday : Z)
    (s : rawst V) : run (rawst V) :=
  '(sstat, s) ← lift (getraw rr.(rawrecord.scomplen) s.(rawst.sstat) s);
  let n := Z.to_nat rr.(rawrecord.ndeviat) in
  '(bytes, s) ← lift (getraw rr.(rawrecord.pcomplen) (resize (sizeof Task * n) 0 (junk (sizeof Task * n)))
                        (set_sstat sstat s));
  devtstat ← may_fault (list_tasks rr (map of_image (chunks n (sizeof Task) bytes)));
  let s := set_counted (sample_supportflags rh rr s.(rawst.supportflags)) (u64 (s.(rawst.sampcnt) + 1)) s in
  '(cmd, begintime, vis) ← show_samp
      (shown.mk rr.(rawrecord.curtime) rr.(rawrecord.interval) devtstat (of_image s.(rawst.sstat))
         rr.(rawrecord.nexit) rr.(rawrecord.noverflow) (shown_flags rh rr s.(rawst.pos))
         s.(rawst.sampcnt) s.(rawst.supportflags))
      s.(rawst.begintime) s.(rawst.vis);
  may_fault (obey secsinday (set_display cmd begintime vis s)).

(** store the offset of the raw record in the offset list; in case of offset
    list overflow, extend the list *)
Definition remember (offset : nat) (s : rawst V) : option (rawst V) :=
  l ← put_entry s.(rawst.offsize) s.(rawst.offlist) s.(rawst.offcur) offset;
  let cur := S s.(rawst.offcur) in
  Some (set_off l (if (s.(rawst.offsize) <=? cur)%nat then s.(rawst.offsize) + OFFCHUNK else s.(rawst.offsize))%nat
          cur s).

(** The body of the inner loop with its condition. *)
Definition next_record (rh : rawheader.rawheader) (s : rawst V) : run (pass_result (rawst V)) :=
  let rawreclen := Z.to_nat rh.(rawheader.rawreclen) in
  let b := take rawreclen (drop s.(rawst.pos) file) in
  let here := (s.(rawst.pos) + length b)%nat in
  if negb (length b =? rawreclen)%nat then lift (Ret (AtEnd (set_pos here s)))
  else
    let rr := record_of b in
    let secsinday := u32 (daysecs localtime rr.(rawrecord.curtime)) in
    s ← may_fault (remember (here - rawreclen) (set_pos here s));
    if negb (s.(rawst.begintime) =? 0) && (secsinday <? s.(rawst.begintime)) then
      let skip := Z.to_nat (u32 (rr.(rawrecord.scomplen) + rr.(rawrecord.pcomplen))) in
      lift (Ret (Again (set_pos (s.(rawst.pos) + skip) (set_lastcmd 1 s))))
    else
      let s := set_begintime 0 s in (* allow earlier times from now on *)
      if negb (endtime =? 0) && (endtime <? secsinday) then lift (Ret (Finished s))
      else s ← read_sample rh rr secsinday s; lift (Ret (Again s)).

Fixpoint records (fuel : nat) (rh : rawheader.rawheader) (s : rawst V) : run (pass_result (rawst V)) :=
  match fuel with
  | O => None
  | S fuel' =>
      p ← next_record rh s;
      match p with
      | Again s => records fuel' rh s
      | p => lift (Ret p)
      end
  end.

(** After the last record: back to it. *)
Definition last_again (s : rawst V) : option (rawst V) :=
  let s := set_begintime 0 s in
  let s := set_offcur (s.(rawst.offcur) - 1) s in
  jump s.(rawst.offcur) s.

Fixpoint walk (fuel : nat) (rh : rawheader.rawheader) (s : rawst V) : run (rawst V) :=
  if negb (s.(rawst.lastcmd) =? 0) && negb (s.(rawst.lastcmd) =? MQUIT) then
    match fuel with
    | O => None
    | S fuel' =>
        p ← records (S fuel') rh s;
        match p with
        | AtEnd s => s ← may_fault (last_again s); walk fuel' rh s
        | Again s | Finished s => lift (Ret s)
        end
    end
  else lift (Ret s).

(** The start of the walk, behind the header. *)
Definition rawst_init (supportflags begintime : Z) (sstat : list Z) (vis : V) : rawst V :=
  rawst.mk SIZEOF_RAWHEADER [SIZEOF_RAWHEADER] OFFCHUNK 1 sstat 88 (* 'X' *) begintime supportflags 0 vis.

(** What the header of the file says: no log of this program, a log of another
    version that has to be read by that version, or a header to go on with. *)
Inductive header_check :=
  | NotALog
  | Incompatible (majorversion minorversion : Z)
  | Accepted (rh : rawheader.rawheader).

Definition check_header : header_check :=
  if (length file <? SIZEOF_RAWHEADER)%nat then NotALog
  else
    let rh := header_of (take SIZEOF_RAWHEADER file) in
    if negb (rh.(rawheader.magic) =? MYMAGIC) then NotALog
    else if lengths_differ Task Sys rh then
      Incompatible (Z.land (Z.shiftr rh.(rawheader.aversion) 8) 0x7f) (Z.land rh.(rawheader.aversion) 0xff)
    else Accepted rh.

(** The version in the header is not the one of this program. *)
Definition version_differs (majorversion minorversion : Z) : bool :=
  negb (majorversion =? Z.shiftr numvers 8) || negb (minorversion =? Z.land numvers 0x7f).

(** What the header tells of the system replaces what is known. *)
Definition info_of (rh : rawheader.rawheader) (info : sysinfo.sysinfo) : sysinfo.sysinfo :=
  sysinfo.mk rh.(rawheader.utsname) rh.(rawheader.osrel) rh.(rawheader.osvers) rh.(rawheader.ossub)
    (if rh.(rawheader.hertz) =? 0 then info.(sysinfo.hertz) else rh.(rawheader.hertz))
    (if rh.(rawheader.pagesize) =? 0 then info.(sysinfo.pagesize) else rh.(rawheader.pagesize)).
End reading.
Arguments check_header Task Sys {_ _} file.

(** The end of [rawread]: it returns, the program stops, or another program
    takes its place. *)
Inductive rawend (V : Type) :=
  | Shown (info : sysinfo.sysinfo) (s : rawst V)
  | Stopped (code : Z)
  | Replaced (program : text).
Arguments Shown {V} info s.
Arguments Stopped {V} code.
Arguments Replaced {V} program.

Section rawread.
Context {Task Sys V : Type} `{!Image Task, !Image Sys, !Zlib}.
Context (isproc wasinactive : Task -> bool) (localtime : Z -> tm.tm)
  (show_samp : shown Task Sys -> Z -> V -> run (Z * Z * V)).
Context (endtime : Z) (junk : nat -> list Z).
(** The file system: [access], [open] for reading, the permission to read; the
    time of the call; a file for the decompressed log, and [gunzip]. *)
Context (present readable : text -> bool) (open_file : text -> option (list Z)) (now : Z)
  (mkstemp : bool) (gunzip : list Z -> option (list Z)).
(** The name the program was called by; whether its privileges are given up,
    and which programs can be executed. *)
Context (argv0 : text) (setresuid : bool) (execvp : text -> bool).

(** open raw file; if it is not there, a compressed one is decompressed *)
Definition open_raw (rawname : text) : exitor (list Z) :=
  match open_file rawname with
  | Some f => Ret f
  | None =>
      let tmpname1 := take (RAWNAMESZ - 1) (rawname ++ chars ".gz") in
      if readable tmpname1 && mkstemp then
        match open_file tmpname1 ≫= gunzip with Some f => Ret f | None => Exit 7 end
      else Exit 7
  end.

(** try to activate another version to read this log file *)
Definition other_version (majorversion minorversion : Z) : text :=
  let p := match strrchr "/"%char argv0 with Some i => drop (S i) argv0 | None => argv0 end in
  take 1023 (p ++ "-"%char :: fmt_d majorversion ++ "."%char :: fmt_d minorversion).

Definition try_other_version (majorversion minorversion : Z) : rawend V :=
  let tmpbuf := other_version majorversion minorversion in
  if negb setresuid then Stopped 1
  else if execvp tmpbuf then Replaced tmpbuf
  else Stopped 7.

Definition rawread (fuel : nat) (rawname : text) (info : sysinfo.sysinfo) (begintime : Z)
    (sstat : list Z) (vis : V) : option (rawend V) :=
  match open_raw (raw_name present localtime now rawname) with
  | Exit code => Some (Stopped code)
  | Ret file =>
      match check_header Task Sys file with
      | NotALog => Some (Stopped 7)
      | Incompatible majorversion minorversion =>
          Some (if version_differs majorversion minorversion
                then try_other_version majorversion minorversion else Stopped 7)
      | Accepted rh =>
          r ← walk isproc wasinactive localtime show_samp file endtime junk fuel rh
                (rawst_init rh.(rawheader.supportflags) begintime sstat vis);
          Some match r with Exit code => Stopped code | Ret s => Shown (info_of rh info) s end
      end
  end.
End rawread.
