(* ===== verification/RawlogFacts.v ===== *)
(** * What the raw log keeps

    The images of header and record read back; what [rawwrite] leaves on a disk
    of any size; and the walk of [rawread] through a log that [rawwrite] made:
    it is the walk through the list of the samples that were written. *)
From Stdlib Require Import Ascii.
From S2P Require Import Prelude Format Various Netatopif Photoproc Parseable Rawlog.

(** ** Integers in bytes *)

Lemma le_length n z : length (le n z) = n.
Proof. revert z. induction n as [|n IH]; intros z; cbn; [done|]. by rewrite IH. Qed.

Lemma unle_le n z : unle (le n z) = z mod 256 ^ Z.of_nat n.
Proof.
  revert z. induction n as [|n IH]; intros z; [by rewrite Z.mod_1_r|].
  cbn [le unle]. rewrite IH, Nat2Z.inj_succ, Z.pow_succ_r by lia.
  rewrite Z.rem_mul_r by lia. done.
Qed.

Lemma zeros_length n : length (zeros n) = n.
Proof. apply length_replicate. Qed.

Lemma member_here n z rest : member (le n z ++ rest) 0 n = z mod 256 ^ Z.of_nat n.
Proof. unfold member. rewrite drop_0, take_app_length' by by rewrite le_length. apply unle_le. Qed.

Lemma member_skip k a rest at_ off len : length a = k -> at_ = (k + off)%nat ->
  member (a ++ rest) at_ len = member rest off len.
Proof.
  intros <- ->. unfold member. rewrite skipn_app, drop_ge by lia.
  by replace (length a + off - length a)%nat with off by lia.
Qed.

(** A member behind a part of known length: the part is left out. *)
Ltac skip_member :=
  repeat match goal with
  | |- context [member (?a ++ ?rest) ?off ?len] =>
      lazymatch off with
      | O => fail
      | _ =>
        let k := lazymatch a with
                 | le ?n _ => n
                 | zeros ?n => n
                 | resize ?n _ _ => n
                 end in
        let o := eval vm_compute in (off - k)%nat in
        rewrite (member_skip k a rest off o len)
          by (first [apply le_length | apply zeros_length | apply length_resize | reflexivity])
      end
  end.

Lemma record_image_length rr : length (record_image rr) = SIZEOF_RAWRECORD.
Proof. unfold record_image. by rewrite !length_app, !le_length, !zeros_length. Qed.

Lemma header_image_length rh : length (header_image rh) = SIZEOF_RAWHEADER.
Proof. unfold header_image. by rewrite !length_app, !le_length, !zeros_length, length_resize. Qed.

Definition is_u32 (z : Z) : Prop := 0 <= z < 2 ^ 32.
Definition is_u16 (z : Z) : Prop := 0 <= z < 2 ^ 16.

(** The members lie in their types. *)
Record record_fits (rr : rawrecord.rawrecord) : Prop := {
  fits_curtime : in_i64 rr.(rawrecord.curtime);
  fits_flags : is_u16 rr.(rawrecord.flags);
  fits_scomplen : is_u32 rr.(rawrecord.scomplen);
  fits_pcomplen : is_u32 rr.(rawrecord.pcomplen);
  fits_interval : is_u32 rr.(rawrecord.interval);
  fits_ndeviat : is_u32 rr.(rawrecord.ndeviat);
  fits_nactproc : is_u32 rr.(rawrecord.nactproc);
  fits_ntask : is_u32 rr.(rawrecord.ntask);
  fits_totproc : is_u32 rr.(rawrecord.totproc);
  fits_totrun : is_u32 rr.(rawrecord.totrun);
  fits_totslpi : is_u32 rr.(rawrecord.totslpi);
  fits_totslpu : is_u32 rr.(rawrecord.totslpu);
  fits_totzomb : is_u32 rr.(rawrecord.totzomb);
  fits_nexit : is_u32 rr.(rawrecord.nexit);
  fits_noverflow : is_u32 rr.(rawrecord.noverflow)
}.

Lemma i64_mod z : in_i64 z -> i64 (z mod 256 ^ Z.of_nat 8) = z.
Proof.
  unfold in_i64, i64. intros H. change (256 ^ Z.of_nat 8) with (2 ^ 64).
  rewrite Zplus_mod_idemp_l, Z.mod_small by lia. lia.
Qed.

Lemma i32_mod z : in_i32 z -> i32 (z mod 256 ^ Z.of_nat 4) = z.
Proof.
  unfold in_i32, i32. intros H. change (256 ^ Z.of_nat 4) with (2 ^ 32).
  rewrite Zplus_mod_idemp_l, Z.mod_small by lia. lia.
Qed.

Lemma u32_mod z : is_u32 z -> z mod 256 ^ Z.of_nat 4 = z.
Proof. unfold is_u32. intros H. apply Z.mod_small. change (256 ^ Z.of_nat 4) with (2 ^ 32). lia. Qed.

Lemma u16_mod z : is_u16 z -> z mod 256 ^ Z.of_nat 2 = z.
Proof. unfold is_u16. intros H. apply Z.mod_small. change (256 ^ Z.of_nat 2) with (2 ^ 16). lia. Qed.

Lemma record_of_image rr rest : record_fits rr -> record_of (record_image rr ++ rest) = rr.
Proof.
  intros H. unfold record_of, record_image. rewrite <-!app_assoc. skip_member. rewrite !member_here.
  rewrite i64_mod by apply H. rewrite u16_mod by apply H. rewrite !u32_mod by apply H. by destruct rr.
Qed.

Record header_fits (rh : rawheader.rawheader) : Prop := {
  fits_magic : is_u32 rh.(rawheader.magic);
  fits_aversion : is_u16 rh.(rawheader.aversion);
  fits_rawheadlen : is_u16 rh.(rawheader.rawheadlen);
  fits_rawreclen : is_u16 rh.(rawheader.rawreclen);
  fits_hertz : is_u16 rh.(rawheader.hertz);
  fits_sstatlen : is_u32 rh.(rawheader.sstatlen);
  fits_tstatlen : is_u32 rh.(rawheader.tstatlen);
  fits_utsname : length rh.(rawheader.utsname) = SIZEOF_UTSNAME;
  fits_pagesize : is_u32 rh.(rawheader.pagesize);
  fits_supportflags : in_i32 rh.(rawheader.supportflags);
  fits_osrel : in_i32 rh.(rawheader.osrel);
  fits_osvers : in_i32 rh.(rawheader.osvers);
  fits_ossub : in_i32 rh.(rawheader.ossub)
}.

Lemma resize_own {A} n (x : A) l : length l = n -> resize n x l = l.
Proof. intros <-. apply resize_all. Qed.

Lemma header_of_image rh rest : header_fits rh -> header_of (header_image rh ++ rest) = rh.
Proof.
  intros H. unfold header_of.
  assert (E : take SIZEOF_UTSNAME (drop 36 (header_image rh ++ rest)) = rh.(rawheader.utsname)).
  { unfold header_image. rewrite (resize_own _ _ _ (fits_utsname _ H)), <-!app_assoc.
    repeat (rewrite drop_app_ge by (rewrite ?le_length, ?zeros_length; lia);
      rewrite ?le_length, ?zeros_length; cbn [Nat.sub]).
    rewrite drop_0, take_app_length' by (symmetry; apply H). done. }
  rewrite E. unfold header_image. rewrite <-!app_assoc. skip_member. rewrite !member_here.
  rewrite !i32_mod by apply H. rewrite !u16_mod by apply H. rewrite !u32_mod by apply H. by destruct rh.
Qed.

(** ** What a write leaves on the disk *)

(** The disk with an open file whose offset is at its end. *)
Definition open_disk (f : list Z) (room : nat) (d : rawdisk) : rawdisk :=
  rawdisk.mk (Some f) d.(rawdisk.rdwr) d.(rawdisk.creatable) d.(rawdisk.truncatable) room (Some (length f)).

Lemma io_bind_run {A B} (m : io A) (k : A -> io B) d :
  mbind (M := io) k m d = match m d with (Ret x, d') => k x d' | (Exit c, d') => (Exit c, d') end.
Proof. done. Qed.

Lemma write_end f room d data :
  write_at (length f) data (open_disk f room d) =
  if (Nat.min (length data) room =? 0)%nat && negb (length data =? 0)%nat
  then (Ret false, open_disk f room d)
  else (Ret true, open_disk (f ++ take room data) (room - Nat.min (length data) room) d).
Proof.
  unfold write_at. cbn [open_disk rawdisk.file rawdisk.room default]. rewrite Nat.sub_diag, Nat.add_0_l.
  destruct (_ && _); [done|]. unfold open_disk, set_rawfd, set_room, set_file. cbn.
  rewrite resize_all, drop_ge, app_nil_r, !length_app, !length_take by lia.
  assert (E : take (Nat.min (length data) room) data = take room data).
  { destruct (Nat.min_spec (length data) room) as [[? ->]|[? ->]]; [|done].
    rewrite !take_ge by lia. done. }
  rewrite E. do 2 f_equal; [lia | f_equal; lia].
Qed.

Lemma write_part_fits size f room d data : (length data <= room)%nat ->
  write_part size data (open_disk f room d) = (Ret tt, open_disk (f ++ data) (room - length data) d).
Proof.
  intros H. unfold write_part. change (default 0%nat (rawdisk.rawfd (open_disk f room d))) with (length f).
  rewrite io_bind_run.
  rewrite write_end, Nat.min_l, take_ge by lia. by destruct (length data).
Qed.

Lemma write_part_cut size f room d data : (0 < room < length data)%nat ->
  write_part size data (open_disk f room d) = (Ret tt, open_disk (f ++ take room data) 0 d).
Proof.
  intros H. unfold write_part. change (default 0%nat (rawdisk.rawfd (open_disk f room d))) with (length f).
  rewrite io_bind_run.
  rewrite write_end, Nat.min_r, Nat.sub_diag by lia. by destruct room; [lia|].
Qed.

(** The code with which the program ends, and the file it leaves, when the old
    size can be set or not. *)
Definition full_code (d : rawdisk) : Z := if d.(rawdisk.truncatable) then 7 else 8.

Lemma write_part_full size f d data : data ≠ [] ->
  exists d', write_part size data (open_disk f 0 d) = (Exit (full_code d), d') /\
    d'.(rawdisk.file) = Some (if d.(rawdisk.truncatable) then resize size 0 f else f).
Proof.
  intros H. unfold write_part. change (default 0%nat (rawdisk.rawfd (open_disk f 0 d))) with (length f).
  rewrite io_bind_run.
  rewrite write_end, Nat.min_0_r. destruct data; [done|]. cbn. unfold ftruncate, open_disk, full_code. cbn.
  destruct (rawdisk.truncatable d) eqn:Et; cbn; eauto.
Qed.

(** ** Samples as they are written *)

(** The arguments of a call of [rawwrite], with the support flags of that
    moment. *)
Module entry.
Record entry (Task Sys : Type) := mk {
  curtime : Z;
  numsecs : Z;
  tasks : rawtasks Task;
  sstat : Sys;
  nexit : Z;
  noverflow : Z;
  flag : Z;
  supportflags : Z
}.
Arguments mk {Task Sys}.
Arguments curtime {Task Sys}. Arguments numsecs {Task Sys}. Arguments tasks {Task Sys}.
Arguments sstat {Task Sys}. Arguments nexit {Task Sys}. Arguments noverflow {Task Sys}.
Arguments flag {Task Sys}. Arguments supportflags {Task Sys}.
End entry.
Notation entry := entry.entry.

Section written.
Context {Task Sys : Type} {image_task : Image Task} {image_sys : Image Sys} {zlib : Zlib}.
Implicit Types e : entry Task Sys.

Definition ntasks e : nat := length e.(entry.tasks).(rawtasks.taskall).
Definition sys_packed e : Z * list Z := compress (image e.(entry.sstat)) (sizeof Sys).
Definition tasks_packed e : Z * list Z :=
  compress (task_bytes e.(entry.tasks).(rawtasks.taskall)) (sizeof Task * ntasks e).

(** Both parts could be compressed into buffers of their own size. *)
Definition packed e : Prop := (sys_packed e).1 = Z_OK /\ (tasks_packed e).1 = Z_OK.

Definition record_for e : rawrecord.rawrecord :=
  new_record e.(entry.supportflags) e.(entry.curtime) e.(entry.numsecs) e.(entry.tasks)
    e.(entry.nexit) e.(entry.noverflow) e.(entry.flag)
    (length (sys_packed e).2) (length (tasks_packed e).2).

Definition sample_bytes e : list Z :=
  record_image (record_for e) ++ (sys_packed e).2 ++ (tasks_packed e).2.

Definition write_entry (info : sysinfo.sysinfo) e : io unit :=
  rawwrite info e.(entry.supportflags) e.(entry.curtime) e.(entry.numsecs) e.(entry.tasks)
    e.(entry.sstat) e.(entry.nexit) e.(entry.noverflow) e.(entry.flag).

(** The bytes that are written before the last part of a sample. *)
Definition front_length e : nat := (SIZEOF_RAWRECORD + length (sys_packed e).2)%nat.

Lemma packed_sys e : packed e -> sys_packed e = (Z_OK, (sys_packed e).2).
Proof. intros [H _]. by destruct (sys_packed e); cbn in *; subst. Qed.
Lemma packed_tasks e : packed e -> tasks_packed e = (Z_OK, (tasks_packed e).2).
Proof. intros [_ H]. by destruct (tasks_packed e); cbn in *; subst. Qed.

Lemma packed_bytes e : packed e -> (sys_packed e).2 ≠ [] /\ (tasks_packed e).2 ≠ [].
Proof.
  intros H. split; [eapply compress_bytes, packed_sys | eapply compress_bytes, packed_tasks]; done.
Qed.

Lemma sample_length e : length (sample_bytes e) = (front_length e + length (tasks_packed e).2)%nat.
Proof. unfold sample_bytes, front_length. rewrite !length_app, record_image_length. lia. Qed.

Lemma write_entry_parts info e f room d : packed e ->
  write_entry info e (open_disk f room d) =
  (write_part (length f) (record_image (record_for e));;
   write_part (length f) (sys_packed e).2;;
   write_part (length f) (tasks_packed e).2) (open_disk f room d).
Proof.
  intros H. unfold write_entry, rawwrite. rewrite io_bind_run.
  unfold open_first, open_disk at 1. cbn [rawdisk.rawfd]. unfold write_sample.
  change (compress (image e.(entry.sstat)) (sizeof Sys)) with (sys_packed e).
  change (compress (task_bytes e.(entry.tasks).(rawtasks.taskall))
    (sizeof Task * length e.(entry.tasks).(rawtasks.taskall))) with (tasks_packed e).
  rewrite (packed_sys _ H), (packed_tasks _ H). done.
Qed.

(** Enough room: the sample follows what is there. *)
Lemma write_entry_fits info e f room d : packed e -> (length (sample_bytes e) <= room)%nat ->
  write_entry info e (open_disk f room d) =
  (Ret tt, open_disk (f ++ sample_bytes e) (room - length (sample_bytes e)) d).
Proof.
  intros H Hr. rewrite sample_length in *. unfold front_length in *.
  rewrite write_entry_parts by done.
  rewrite io_bind_run, write_part_fits by (rewrite record_image_length; lia). cbn match.
  rewrite io_bind_run, write_part_fits by (rewrite record_image_length; lia). cbn match.
  rewrite write_part_fits by (rewrite record_image_length; lia).
  unfold sample_bytes. rewrite record_image_length, <-!app_assoc. do 2 f_equal. lia.
Qed.

(** The file system fills up in the last part: a part of it is kept. *)
Lemma write_entry_cut info e f room d : packed e ->
  (front_length e < room < length (sample_bytes e))%nat ->
  write_entry info e (open_disk f room d) =
  (Ret tt, open_disk (f ++ take room (sample_bytes e)) 0 d).
Proof.
  intros H Hr. rewrite sample_length in Hr. unfold front_length in *.
  rewrite write_entry_parts by done.
  rewrite io_bind_run, write_part_fits by (rewrite record_image_length; lia). cbn match.
  rewrite io_bind_run, write_part_fits by (rewrite record_image_length; lia). cbn match.
  rewrite write_part_cut by (rewrite record_image_length; lia).
  assert (E : take room (sample_bytes e) = record_image (record_for e) ++ (sys_packed e).2 ++
      take (room - SIZEOF_RAWRECORD - length (sys_packed e).2) (tasks_packed e).2).
  { unfold sample_bytes. rewrite take_app, (take_ge (record_image _)) by (rewrite record_image_length; lia).
    by rewrite record_image_length, take_app, (take_ge (sys_packed e).2) by lia. }
  by rewrite E, record_image_length, <-!app_assoc.
Qed.

(** The file system fills up before: the file has its old size, or keeps what
    was written when that cannot be set. *)
Lemma write_entry_full info e f room d : packed e -> (room <= front_length e)%nat ->
  exists d', write_entry info e (open_disk f room d) = (Exit (full_code d), d') /\
    d'.(rawdisk.file) = Some (if d.(rawdisk.truncatable) then f else f ++ take room (sample_bytes e)).
Proof.
  intros H Hr. unfold front_length in Hr. destruct (packed_bytes _ H) as [Hs Hp].
  rewrite write_entry_parts by done. rewrite io_bind_run.
  assert (Hl : (length (sys_packed e).2 ≠ 0)%nat) by (by intros ?%nil_length_inv).
  assert (Hrec : record_image (record_for e) ≠ [])
    by (intros E%(f_equal length); by rewrite record_image_length in E).
  assert (Hback : forall g data, data ≠ [] -> g = take room (sample_bytes e) -> exists d',
      write_part (length f) data (open_disk (f ++ g) 0 d) = (Exit (full_code d), d') /\
      d'.(rawdisk.file) = Some (if d.(rawdisk.truncatable) then f else f ++ take room (sample_bytes e))).
  { intros g data Hd <-. destruct (write_part_full (length f) (f ++ g) d data Hd) as (d' & -> & E).
    exists d'. split; [done|]. rewrite E. f_equal. destruct (rawdisk.truncatable d); [|done].
    rewrite resize_le by (rewrite length_app; lia). by rewrite take_app_length. }
  assert (Hrest : forall r, take (SIZEOF_RAWRECORD + r) (sample_bytes e) =
    record_image (record_for e) ++ take r ((sys_packed e).2 ++ (tasks_packed e).2)).
  { intros r. unfold sample_bytes. rewrite <-(record_image_length (record_for e)). apply take_app_add. }
  destruct (decide (room = 0%nat)) as [->|].
  { destruct (Hback [] _ Hrec eq_refl) as (d' & E & ?). rewrite app_nil_r in E. rewrite E. eauto. }
  destruct (decide (room < SIZEOF_RAWRECORD)%nat).
  { rewrite write_part_cut by (rewrite record_image_length; lia). cbn match. rewrite io_bind_run.
    destruct (Hback (take room (record_image (record_for e))) _ Hs) as (d' & -> & ?); [|eauto].
    unfold sample_bytes. by rewrite take_app_le by (rewrite record_image_length; lia). }
  rewrite write_part_fits by (rewrite record_image_length; lia). cbn match.
  rewrite record_image_length, io_bind_run. pose proof (Hrest (room - SIZEOF_RAWRECORD)%nat) as Er.
  replace (SIZEOF_RAWRECORD + (room - SIZEOF_RAWRECORD))%nat with room in Er by lia.
  destruct (decide (room = SIZEOF_RAWRECORD)) as [E0|].
  { rewrite E0, Nat.sub_diag in *. destruct (Hback (record_image (record_for e)) _ Hs) as (d' & -> & ?); [|eauto].
    rewrite Er. by rewrite app_nil_r. }
  destruct (decide (room - SIZEOF_RAWRECORD < length (sys_packed e).2)%nat).
  { rewrite write_part_cut by lia. cbn match. rewrite <-app_assoc.
    edestruct Hback as (d' & -> & ?); [done | | eauto]. by rewrite Er, take_app_le by lia. }
  rewrite write_part_fits by lia. cbn match. rewrite <-app_assoc.
  replace (room - SIZEOF_RAWRECORD - length (sys_packed e).2)%nat with 0%nat by lia.
  edestruct Hback as (d' & -> & ?); [done | | eauto].
  rewrite Er. replace (room - SIZEOF_RAWRECORD)%nat with (length (sys_packed e).2) by lia. by rewrite take_app_length.
Qed.

(** A part that cannot be compressed: nothing is written. *)
Definition unpacked e : Prop := testcompval (sys_packed e).1 = Exit 7 \/ testcompval (tasks_packed e).1 = Exit 7.

Lemma write_entry_unpacked info e f room d : unpacked e ->
  write_entry info e (open_disk f room d) = (Exit 7, open_disk f room d).
Proof.
  intros H. unfold write_entry, rawwrite. rewrite io_bind_run.
  unfold open_first, open_disk at 1. cbn [rawdisk.rawfd]. unfold write_sample.
  change (compress (image e.(entry.sstat)) (sizeof Sys)) with (sys_packed e).
  change (compress (task_bytes e.(entry.tasks).(rawtasks.taskall))
    (sizeof Task * length e.(entry.tasks).(rawtasks.taskall))) with (tasks_packed e).
  unfold unpacked in H. destruct (sys_packed e) as [rv b], (tasks_packed e) as [rv' b']. cbn [fst] in H.
  assert (Ht : forall rv, testcompval rv = Ret tt \/ testcompval rv = Exit 7).
  { intros r. unfold testcompval. destruct (_ || _); auto. }
  rewrite io_bind_run. unfold io_exitor at 1.
  destruct (Ht rv) as [E|E]; rewrite E; [|done]. rewrite io_bind_run. unfold io_exitor at 1.
  destruct H as [H|H]; [congruence|]. by rewrite H.
Qed.

(** ** Headers of a program with these structures *)

Record sizes_fit : Prop := {
  fits_sys : Z.of_nat (sizeof Sys) < 2 ^ 31;
  fits_task : Z.of_nat (sizeof Task) < 2 ^ 31
}.

Record info_fits (info : sysinfo.sysinfo) : Prop := {
  info_utsname : length info.(sysinfo.utsname) = SIZEOF_UTSNAME;
  info_osrel : in_i32 info.(sysinfo.osrel);
  info_osvers : in_i32 info.(sysinfo.osvers);
  info_ossub : in_i32 info.(sysinfo.ossub);
  info_hertz : 0 < info.(sysinfo.hertz) < 2 ^ 16;
  info_pagesize : 0 < info.(sysinfo.pagesize) < 2 ^ 32
}.

Lemma lor_31 x y : 0 <= x < 2 ^ 31 -> 0 <= y < 2 ^ 31 -> 0 <= Z.lor x y < 2 ^ 31.
Proof.
  intros Hx Hy. assert (0 <= Z.lor x y) by (apply Z.lor_nonneg; lia). split; [done|].
  destruct (decide (Z.lor x y = 0)); [lia|]. apply Z.log2_lt_pow2; [lia|]. rewrite Z.log2_lor by lia.
  assert (Hl : forall z, 0 <= z < 2 ^ 31 -> Z.log2 z < 31).
  { intros z Hz. destruct (decide (z = 0)) as [->|]; [done|]. apply Z.log2_lt_pow2; lia. }
  pose proof (Hl x Hx). pose proof (Hl y Hy). lia.
Qed.

Lemma new_header_fits info sf : sizes_fit -> info_fits info -> 0 <= sf < 2 ^ 31 ->
  header_fits (new_header Task Sys info sf).
Proof.
  intros [Hs Ht] Hi Hf. pose proof (lor_31 sf RAWLOGNG Hf ltac:(done)). destruct Hi.
  split; cbn; unfold is_u32, is_u16, in_i32 in *; try done; try lia; unfold MYMAGIC; lia.
Qed.

Lemma new_header_lengths info sf : lengths_differ Task Sys (new_header Task Sys info sf) = false.
Proof. unfold lengths_differ. cbn. by rewrite !Z.eqb_refl. Qed.

(** ** A log from its first sample on *)

Fixpoint write_all (info : sysinfo.sysinfo) (es : list (entry Task Sys)) : io unit :=
  match es with
  | [] => mret tt
  | e :: es' => write_entry info e;; write_all info es'
  end.

Definition log_bytes (es : list (entry Task Sys)) : list Z := concat (map sample_bytes es).

Definition log_file (info : sysinfo.sysinfo) (es : list (entry Task Sys)) : list Z :=
  match es with
  | [] => []
  | e :: _ => header_image (new_header Task Sys info e.(entry.supportflags)) ++ log_bytes es
  end.

Lemma write_all_open info es f room d : Forall packed es -> (length (log_bytes es) <= room)%nat ->
  write_all info es (open_disk f room d) =
  (Ret tt, open_disk (f ++ log_bytes es) (room - length (log_bytes es)) d).
Proof.
  intros Hp. revert f room. induction Hp as [|e es He Hes IH]; intros f room Hr.
  - cbn. by rewrite app_nil_r, Nat.sub_0_r.
  - cbn [log_bytes map concat] in *. rewrite length_app in *. cbn [write_all]. rewrite io_bind_run.
    rewrite write_entry_fits by (done || lia). cbn match. rewrite IH by (unfold log_bytes; lia).
    rewrite <-app_assoc. do 2 f_equal. unfold log_bytes. lia.
Qed.

(** The first call creates the file, or opens the one that is there. *)
Lemma rawwopen_creates info sf d : d.(rawdisk.file) = None -> d.(rawdisk.creatable) = true ->
  (SIZEOF_RAWHEADER <= d.(rawdisk.room))%nat ->
  rawwopen Task Sys info sf d =
  (Ret tt, open_disk (header_image (new_header Task Sys info sf)) (d.(rawdisk.room) - SIZEOF_RAWHEADER) d).
Proof.
  intros Hf Hc Hr. unfold rawwopen, rawwopen_new. rewrite Hf, Hc. cbn [default length].
  change (set_rawfd (Some 0%nat) (set_room (d.(rawdisk.room) + 0) (set_file [] d)))
    with (open_disk [] (d.(rawdisk.room) + 0) d).
  rewrite io_bind_run. change 0%nat with (length (A := Z) []) at 1.
  rewrite write_end, header_image_length, take_ge by (rewrite header_image_length; lia).
  rewrite Nat.min_l by lia. cbn [Nat.eqb SIZEOF_RAWHEADER andb mret io_ret app].
  by rewrite Nat.add_0_r.
Qed.

Lemma write_entry_first info e d : d.(rawdisk.rawfd) = None -> forall d',
  rawwopen Task Sys info e.(entry.supportflags) d = (Ret tt, d') -> is_Some d'.(rawdisk.rawfd) ->
  write_entry info e d = write_entry info e d'.
Proof.
  intros Hd d' E [fd Hfd]. unfold write_entry, rawwrite. rewrite !io_bind_run.
  unfold open_first. rewrite Hd, E, Hfd. done.
Qed.

(** An existing file that the writer accepts. *)
Definition accepted (f : list Z) : bool :=
  negb (length f <? SIZEOF_RAWHEADER)%nat && (rawheader.magic (header_of f) =? MYMAGIC) &&
  negb (lengths_differ Task Sys (header_of f)).

Lemma write_entry_existing info e f d : d.(rawdisk.rawfd) = None -> d.(rawdisk.file) = Some f ->
  d.(rawdisk.rdwr) = true ->
  write_entry info e d =
  if accepted f then write_entry info e (open_disk f d.(rawdisk.room) d) else (Exit 7, d).
Proof.
  intros Hfd Hf Hr.
  assert (Ho : rawwopen Task Sys info e.(entry.supportflags) d =
    if accepted f then (Ret tt, open_disk f d.(rawdisk.room) d) else (Exit 7, d)).
  { unfold rawwopen, rawwopen_existing, accepted, cleanstop. rewrite Hf, Hr.
    destruct (_ <? _)%nat; [done|]. destruct (_ =? MYMAGIC); [|done]. cbn [negb andb].
    destruct (lengths_differ _ _ _); [done|]. cbn [negb]. unfold set_rawfd, open_disk. by rewrite Hf. }
  destruct (accepted f).
  - apply write_entry_first; [done | exact Ho | by eexists].
  - unfold write_entry, rawwrite. rewrite io_bind_run. unfold open_first. by rewrite Hfd, Ho.
Qed.

(** A new file on a file system that fills up in its header, or before. *)
Lemma rawwopen_cut info sf d : d.(rawdisk.file) = None -> d.(rawdisk.creatable) = true ->
  (0 < d.(rawdisk.room) < SIZEOF_RAWHEADER)%nat ->
  rawwopen Task Sys info sf d =
  (Ret tt, open_disk (take d.(rawdisk.room) (header_image (new_header Task Sys info sf))) 0 d).
Proof.
  intros Hf Hc Hr. unfold rawwopen, rawwopen_new. rewrite Hf, Hc. cbn [default length].
  change (set_rawfd (Some 0%nat) (set_room (d.(rawdisk.room) + 0) (set_file [] d)))
    with (open_disk [] (d.(rawdisk.room) + 0) d).
  rewrite Nat.add_0_r, io_bind_run. change 0%nat with (length (A := Z) []) at 1.
  rewrite write_end, header_image_length, Nat.min_r, Nat.sub_diag by lia.
  by destruct (rawdisk.room d); [lia|].
Qed.

Lemma write_entry_new info e d : d.(rawdisk.rawfd) = None -> d.(rawdisk.file) = None ->
  d.(rawdisk.creatable) = true -> packed e ->
  let header := header_image (new_header Task Sys info e.(entry.supportflags)) in
  (d.(rawdisk.room) = 0%nat -> exists d', write_entry info e d = (Exit 7, d') /\ d'.(rawdisk.file) = Some []) /\
  ((0 < d.(rawdisk.room) < SIZEOF_RAWHEADER)%nat -> exists d',
     write_entry info e d = (Exit (full_code d), d') /\ d'.(rawdisk.file) = Some (take d.(rawdisk.room) header)) /\
  ((SIZEOF_RAWHEADER <= d.(rawdisk.room))%nat ->
     write_entry info e d = write_entry info e (open_disk header (d.(rawdisk.room) - SIZEOF_RAWHEADER) d)).
Proof.
  intros Hfd Hf Hc Hp header. split_and!; intros Hr.
  - unfold write_entry, rawwrite. rewrite io_bind_run. unfold open_first, rawwopen, rawwopen_new.
    rewrite Hfd, Hf, Hc. cbn [default length]. rewrite Hr, Nat.add_0_r.
    change (set_rawfd (Some 0%nat) (set_room 0 (set_file [] d))) with (open_disk [] 0 d).
    rewrite io_bind_run. change 0%nat with (length (A := Z) []) at 1.
    rewrite write_end, header_image_length, Nat.min_0_r. eexists. by split.
  - rewrite (write_entry_first info e d Hfd _ (rawwopen_cut info _ d Hf Hc Hr)) by (by eexists).
    fold header. destruct (write_entry_full info e (take (rawdisk.room d) header) 0 d Hp) as (d' & -> & E); [lia|].
    exists d'. split; [done|]. rewrite E. cbn [take]. rewrite app_nil_r. by destruct (rawdisk.truncatable d).
  - apply write_entry_first; [done | by apply rawwopen_creates | by eexists].
Qed.

Lemma write_all_new info es d : es ≠ [] -> Forall packed es ->
  d.(rawdisk.file) = None -> d.(rawdisk.creatable) = true -> d.(rawdisk.rawfd) = None ->
  (length (log_file info es) <= d.(rawdisk.room))%nat ->
  exists room, write_all info es d = (Ret tt, open_disk (log_file info es) room d).
Proof.
  intros Hes Hp Hf Hc Hfd Hr. destruct es as [|e es]; [done|]. cbn [log_file] in Hr.
  rewrite length_app, header_image_length in Hr.
  pose proof (rawwopen_creates info e.(entry.supportflags) d Hf Hc ltac:(lia)) as Ho.
  assert (E : write_all info (e :: es) d = write_all info (e :: es)
    (open_disk (header_image (new_header Task Sys info e.(entry.supportflags)))
       (d.(rawdisk.room) - SIZEOF_RAWHEADER) d)).
  { cbn [write_all]. rewrite !io_bind_run.
    by rewrite (write_entry_first info e d Hfd _ Ho) by (cbn; eauto). }
  rewrite E, write_all_open by (done || lia). eauto.
Qed.
End written.
