(* ===== verification/RawlogMain.v ===== *)
(** * The walk through a raw log

    [browse] is what a reader of a log is offered: a position in the list of
    the samples, moved by the commands of the display and by the interval that
    is asked for. [walk_browses] shows that [walk] implements it on the bytes
    that [rawwrite] left, whatever the display does; the theorems on [rawread]
    follow from it. *)
From Stdlib Require Import Ascii.
From S2P Require Import Prelude Format Various Netatopif Photoproc Parseable Rawlog RawlogFacts.

(** ** The samples as a list that is walked through *)

Module browser.
Record browser (V : Type) := mk {
  next : nat;
  lastcmd : Z;
  begintime : Z;
  supportflags : Z;
  sampcnt : Z;
  vis : V
}.
Arguments mk {V}.
Arguments next {V}. Arguments lastcmd {V}. Arguments begintime {V}.
Arguments supportflags {V}. Arguments sampcnt {V}. Arguments vis {V}.
End browser.
Notation browser := browser.browser.

(** The flags that a sample carries. *)
Definition carried_flags : list Z := [ACCTACTIVE; IOSTAT; NETATOP; NETATOPD; DOCKSTAT].

(** The support flags while a sample is shown: those that it was written with,
    the others as they were. *)
Definition take_over (new old : Z) : Z :=
  fold_left (fun flags f => follow (flagged new f) f flags) carried_flags old.

(** Where a command leads after sample [n]. *)
Definition turn (cmd begintime secs : Z) (n : nat) : nat :=
  if cmd =? MSAMPPREV then Nat.pred n
  else if cmd =? MRESET then 0
  else if (cmd =? MSAMPBRANCH) && negb (begintime =? 0) && (begintime <? secs) then 0
  else S n.

Section browse.
Context {Task Sys V : Type}.
Context (localtime : Z -> tm.tm) (show_samp : shown Task Sys -> Z -> V -> run (Z * Z * V)).
Context (endtime : Z) (es : list (entry Task Sys)).

Definition secs (e : entry Task Sys) : Z := u32 (daysecs localtime e.(entry.curtime)).

Definition shown_entry (n : nat) (e : entry Task Sys) (sampcnt supportflags : Z) : shown Task Sys :=
  shown.mk e.(entry.curtime) e.(entry.numsecs) e.(entry.tasks) e.(entry.sstat)
    e.(entry.nexit) e.(entry.noverflow)
    (Z.lor (flag_if (flagged e.(entry.flag) RRBOOT) RRBOOT) (flag_if (S n =? length es)%nat RRLAST))
    sampcnt supportflags.

Definition browse_entry (e : entry Task Sys) (v : browser V) : run (browser V) :=
  let flags := take_over e.(entry.supportflags) v.(browser.supportflags) in
  let count := u64 (v.(browser.sampcnt) + 1) in
  '(cmd, begintime, vis) ← show_samp (shown_entry v.(browser.next) e count flags)
                             v.(browser.begintime) v.(browser.vis);
  lift (Ret (browser.mk (turn cmd begintime (secs e) v.(browser.next)) cmd begintime flags count vis)).

Definition set_next (n : nat) (cmd begintime : Z) (v : browser V) : browser V :=
  browser.mk n cmd begintime v.(browser.supportflags) v.(browser.sampcnt) v.(browser.vis).

Definition browse_step (v : browser V) : run (pass_result (browser V)) :=
  match es !! v.(browser.next) with
  | None => lift (Ret (AtEnd v))
  | Some e =>
      if negb (v.(browser.begintime) =? 0) && (secs e <? v.(browser.begintime))
      then lift (Ret (Again (set_next (S v.(browser.next)) 1 v.(browser.begintime) v)))
      else
        let v := set_next v.(browser.next) v.(browser.lastcmd) 0 v in
        if negb (endtime =? 0) && (endtime <? secs e) then lift (Ret (Finished v))
        else v ← browse_entry e v; lift (Ret (Again v))
  end.

Fixpoint browse_on (fuel : nat) (v : browser V) : run (pass_result (browser V)) :=
  match fuel with
  | O => None
  | S fuel' =>
      p ← browse_step v;
      match p with
      | Again v => browse_on fuel' v
      | p => lift (Ret p)
      end
  end.

Fixpoint browse (fuel : nat) (v : browser V) : run (browser V) :=
  if negb (v.(browser.lastcmd) =? 0) && negb (v.(browser.lastcmd) =? MQUIT) then
    match fuel with
    | O => None
    | S fuel' =>
        p ← browse_on (S fuel') v;
        match p with
        | AtEnd v => browse fuel' (set_next (length es - 1) v.(browser.lastcmd) 0 v)
        | Again v | Finished v => lift (Ret v)
        end
    end
  else lift (Ret v).

Definition browse_init (supportflags begintime : Z) (vis : V) : browser V :=
  browser.mk 0 88 begintime supportflags 0 vis.
End browse.

(** ** Computations that go the same way *)

Definition run_rel {A B} (R : A -> B -> Prop) (x : run A) (y : run B) : Prop :=
  match x, y with
  | None, None => True
  | Some (Exit c), Some (Exit c') => c = c'
  | Some (Ret a), Some (Ret b) => R a b
  | _, _ => False
  end.

Lemma run_rel_bind {A B A' B'} (R : A -> B -> Prop) (R' : A' -> B' -> Prop) (x : run A) (y : run B) f g :
  run_rel R x y -> (forall a b, R a b -> run_rel R' (f a) (g b)) ->
  run_rel R' (mbind (M := run) f x) (mbind (M := run) g y).
Proof. intros H Hk. destruct x as [[]|], y as [[]|]; cbn in *; try done. by apply Hk. Qed.

Lemma run_rel_ret {A B} (R : A -> B -> Prop) a b : R a b -> run_rel R (lift (Ret a)) (lift (Ret b)).
Proof. done. Qed.

Lemma run_rel_same {A} (x : run A) : run_rel eq x x.
Proof. by destruct x as [[]|]. Qed.

Definition pass_rel {A B} (R Rend R' : A -> B -> Prop) (x : pass_result A) (y : pass_result B) : Prop :=
  match x, y with
  | Again a, Again b => R a b
  | AtEnd a, AtEnd b => Rend a b
  | Finished a, Finished b => R' a b
  | _, _ => False
  end.

(** ** The flags of a record *)

Lemma flagged_record sf flag f g : In (f, g)
  [(ACCTACTIVE, RRACCTACTIVE); (IOSTAT, RRIOSTAT); (NETATOP, RRNETATOP); (NETATOPD, RRNETATOPD);
   (DOCKSTAT, RRDOCKSTAT)] -> flagged (record_flags sf flag) g = flagged sf f.
Proof.
  intros H. unfold record_flags.
  destruct (flagged flag RRBOOT) eqn:E0, (flagged sf ACCTACTIVE) eqn:E1, (flagged sf IOSTAT) eqn:E2,
    (flagged sf NETATOP) eqn:E3, (flagged sf NETATOPD) eqn:E4, (flagged sf DOCKSTAT) eqn:E5;
  cbn in H; destruct_or! H; simplify_eq; rewrite ?E1, ?E2, ?E3, ?E4, ?E5; reflexivity.
Qed.

Lemma record_boot sf flag : Z.land (record_flags sf flag) RRBOOT = flag_if (flagged flag RRBOOT) RRBOOT.
Proof.
  unfold record_flags.
  by destruct (flagged flag RRBOOT), (flagged sf ACCTACTIVE), (flagged sf IOSTAT),
    (flagged sf NETATOP), (flagged sf NETATOPD), (flagged sf DOCKSTAT).
Qed.

Lemma record_flags_range sf flag : is_u16 (record_flags sf flag).
Proof.
  unfold record_flags.
  by destruct (flagged flag RRBOOT), (flagged sf ACCTACTIVE), (flagged sf IOSTAT),
    (flagged sf NETATOP), (flagged sf NETATOPD), (flagged sf DOCKSTAT).
Qed.

(** A header of this program says that the samples carry the flags. *)
Lemma lor_mask x m : Z.land (Z.lor x m) m = m.
Proof.
  apply Z.bits_inj'. intros i Hi. rewrite Z.land_spec, Z.lor_spec.
  by destruct (Z.testbit x i), (Z.testbit m i).
Qed.

Lemma sample_flags rh rr sf flag old :
  Z.land rh.(rawheader.supportflags) RAWLOGNG = RAWLOGNG ->
  rr.(rawrecord.flags) = record_flags sf flag ->
  sample_supportflags rh rr old = take_over sf old.
Proof.
  intros Hh Hr. unfold sample_supportflags, take_over, carried_flags. rewrite Hh, Hr, Z.eqb_refl.
  cbn [fold_left]. cbv zeta.
  rewrite (flagged_record sf flag ACCTACTIVE RRACCTACTIVE), (flagged_record sf flag IOSTAT RRIOSTAT),
    (flagged_record sf flag NETATOP RRNETATOP), (flagged_record sf flag NETATOPD RRNETATOPD),
    (flagged_record sf flag DOCKSTAT RRDOCKSTAT) by (cbn; tauto).
  done.
Qed.

(** ** What is read of a sample is what was written *)

Lemma chunks_images {Task} `{!Image Task} (l : list Task) rest :
  map of_image (chunks (length l) (sizeof Task) (task_bytes l ++ rest)) = l.
Proof.
  induction l as [|t l IH]; cbn; [done|]. unfold task_bytes in *. cbn [map concat].
  rewrite <-app_assoc, take_app_length' by (symmetry; apply image_length).
  rewrite drop_app_length' by (symmetry; apply image_length). by rewrite of_image_image, IH.
Qed.

Lemma task_bytes_length {Task} `{!Image Task} (l : list Task) :
  length (task_bytes l) = (sizeof Task * length l)%nat.
Proof.
  unfold task_bytes. induction l as [|t l IH]; cbn; [lia|]. rewrite length_app, image_length, IH. lia.
Qed.

Lemma indices_mono {A} (P Q : A -> bool) i l : (forall x, P x = true -> Q x = true) ->
  (length (indices P i l) <= length (indices Q i l))%nat.
Proof.
  intros H. revert i. induction l as [|x l IH]; intros i; cbn; [done|].
  pose proof (IH (S i)). destruct (P x) eqn:E; [rewrite (H x E); cbn; lia|].
  destruct (Q x); cbn; lia.
Qed.

Lemma indices_length {A} (P : A -> bool) i l : (length (indices P i l) <= length l)%nat.
Proof. revert i. induction l as [|x l IH]; intros i; cbn; [done|]. pose proof (IH (S i)). destruct (P x); cbn; lia. Qed.

Section refinement.
Context {Task Sys V : Type} {image_task : Image Task} {image_sys : Image Sys} {zlib : Zlib}.
Context (isproc wasinactive : Task -> bool) (localtime : Z -> tm.tm)
  (show_samp : shown Task Sys -> Z -> V -> run (Z * Z * V)).
Context (endtime : Z) (junk : nat -> list Z).
Implicit Types (e : entry Task Sys) (s : rawst V).

(** The lists and counts of the tasks are those that belong to the array, as
    [deviattask] leaves them. *)
Record well_listed (t : rawtasks Task) : Prop := {
  wl_procall : t.(rawtasks.procall) = indices isproc 0 t.(rawtasks.taskall);
  wl_procactive : t.(rawtasks.procactive) =
    indices (fun x => isproc x && negb (wasinactive x)) 0 t.(rawtasks.taskall);
  wl_ntaskactive : t.(rawtasks.ntaskactive) =
    Z.of_nat (length (indices (fun x => negb (wasinactive x)) 0 t.(rawtasks.taskall)));
  wl_nprocall : t.(rawtasks.nprocall) = Z.of_nat (length t.(rawtasks.procall));
  wl_nprocactive : t.(rawtasks.nprocactive) = Z.of_nat (length t.(rawtasks.procactive))
}.

(** A sample that can be written and whose numbers fit the record. *)
Record entry_ok (e : entry Task Sys) : Prop := {
  ok_packed : packed e;
  ok_tasks : well_listed e.(entry.tasks);
  ok_curtime : in_i64 e.(entry.curtime);
  ok_numsecs : is_u32 e.(entry.numsecs);
  ok_nexit : is_u32 e.(entry.nexit);
  ok_noverflow : is_u32 e.(entry.noverflow);
  ok_totrun : is_u32 e.(entry.tasks).(rawtasks.totrun);
  ok_totslpi : is_u32 e.(entry.tasks).(rawtasks.totslpi);
  ok_totslpu : is_u32 e.(entry.tasks).(rawtasks.totslpu);
  ok_totzombie : is_u32 e.(entry.tasks).(rawtasks.totzombie);
  ok_ntasks : Z.of_nat (ntasks e) < 2 ^ 31;
  ok_room : Z.of_nat (sizeof Task * ntasks e) < 2 ^ 31
}.

Lemma packed_rooms e : packed e ->
  (length (sys_packed e).2 <= sizeof Sys)%nat /\ (length (tasks_packed e).2 <= sizeof Task * ntasks e)%nat.
Proof.
  intros H. split; eapply compress_room; [apply (packed_sys _ H) | apply (packed_tasks _ H)].
Qed.

Lemma record_for_fits e : sizes_fit (Task := Task) (Sys := Sys) -> entry_ok e -> record_fits (record_for e).
Proof.
  intros [Hs Ht] H. pose proof (packed_rooms e (ok_packed _ H)) as [Hr1 Hr2].
  pose proof (ok_ntasks _ H) as Hn. pose proof (ok_room _ H) as Hr. destruct (ok_tasks _ H).
  pose proof (indices_length isproc 0 e.(entry.tasks).(rawtasks.taskall)) as H1.
  pose proof (indices_length (fun x => isproc x && negb (wasinactive x)) 0
    e.(entry.tasks).(rawtasks.taskall)) as H2. unfold ntasks in *.
  split; cbn; try apply H; try apply record_flags_range; unfold is_u32; try lia.
  - rewrite wl_nprocactive0, wl_procactive0. lia.
  - rewrite wl_nprocall0, wl_procall0. lia.
Qed.

Lemma list_tasks_back e : well_listed e.(entry.tasks) ->
  list_tasks isproc wasinactive (record_for e) e.(entry.tasks).(rawtasks.taskall) = Some e.(entry.tasks).
Proof.
  intros [H1 H2 H3 H4 H5]. unfold list_tasks. cbn [record_for new_record rawrecord.totproc rawrecord.nactproc
    rawrecord.totrun rawrecord.totslpi rawrecord.totslpu rawrecord.totzomb].
  rewrite <-H1, <-H2, <-H3, <-H4, <-H5.
  assert (Hm : e.(entry.tasks).(rawtasks.nprocactive) <= e.(entry.tasks).(rawtasks.nprocall)).
  { rewrite H4, H5, H1, H2. apply Nat2Z.inj_le, indices_mono. by intros x [-> _]%andb_true_iff. }
  rewrite (proj2 (Z.ltb_ge _ _) Hm), (proj2 (Z.leb_le _ _)), Z.leb_refl by lia. cbn [andb].
  by destruct (entry.tasks e).
Qed.

Context (header : list Z) (rh : rawheader.rawheader) (es : list (entry Task Sys)).
Context (Hheader : length header = SIZEOF_RAWHEADER)
  (Hreclen : rh.(rawheader.rawreclen) = Z.of_nat SIZEOF_RAWRECORD)
  (Hflags : Z.land rh.(rawheader.supportflags) RAWLOGNG = RAWLOGNG)
  (Hsizes : sizes_fit (Task := Task) (Sys := Sys)) (Hes : Forall entry_ok es).

Definition file : list Z := header ++ log_bytes es.
(** The offset of sample [n]. *)
Definition offset (n : nat) : nat := (SIZEOF_RAWHEADER + length (log_bytes (take n es)))%nat.
#[local] Arguments offset : simpl never.

Lemma offset_S n e : es !! n = Some e -> offset (S n) = (offset n + length (sample_bytes e))%nat.
Proof.
  intros H. unfold offset, log_bytes. rewrite (take_S_r _ _ _ H), map_app, concat_app. cbn [map concat].
  rewrite !length_app. cbn. lia.
Qed.

Lemma drop_offset n : drop (offset n) file = log_bytes (drop n es).
Proof.
  unfold offset, file. rewrite drop_app_ge by lia. rewrite Hheader.
  replace (SIZEOF_RAWHEADER + length (log_bytes (take n es)) - SIZEOF_RAWHEADER)%nat
    with (length (log_bytes (take n es))) by lia.
  rewrite <-(take_drop n es) at 2. unfold log_bytes. rewrite map_app, concat_app. apply drop_app_length.
Qed.

Lemma file_at n e : es !! n = Some e ->
  drop (offset n) file = sample_bytes e ++ log_bytes (drop (S n) es).
Proof. intros H. rewrite drop_offset, (drop_S _ _ _ H). done. Qed.

Lemma file_behind n e k : es !! n = Some e ->
  drop (offset n + k) file = drop k (sample_bytes e ++ log_bytes (drop (S n) es)).
Proof. intros H. by rewrite <-(file_at _ _ H), drop_drop. Qed.

(** ** Places in the file and the backtrack list *)

(** Sample [n] is the next one: the entries below [offcur] are the offsets of
    the samples before it. The first entry is the offset behind the header and
    stands beside the offset of sample 0, until a step back from there. *)
Record placed (p n : nat) (s : rawst V) : Prop := {
  pl_pos : s.(rawst.pos) = p;
  pl_first : s.(rawst.offlist) !! 0%nat = Some (offset 0);
  pl_list : exists shift, (shift <= 1)%nat /\ s.(rawst.offcur) = (n + shift)%nat /\
    forall j, (j < n + shift)%nat -> s.(rawst.offlist) !! j = Some (offset (j - shift));
  pl_size : (s.(rawst.offcur) < s.(rawst.offsize))%nat;
  pl_sstat : length s.(rawst.sstat) = sizeof Sys
}.

(** What the display and the settings see. *)
Record alike (s : rawst V) (v : browser V) : Prop := {
  al_lastcmd : s.(rawst.lastcmd) = v.(browser.lastcmd);
  al_begintime : s.(rawst.begintime) = v.(browser.begintime);
  al_supportflags : s.(rawst.supportflags) = v.(browser.supportflags);
  al_sampcnt : s.(rawst.sampcnt) = v.(browser.sampcnt);
  al_vis : s.(rawst.vis) = v.(browser.vis)
}.

Definition at_sample (s : rawst V) (v : browser V) : Prop :=
  placed (offset v.(browser.next)) v.(browser.next) s /\ (v.(browser.next) <= length es)%nat /\ alike s v.

(** Behind the last sample. *)
Definition at_last (s : rawst V) (v : browser V) : Prop :=
  (exists p, placed p (length es) s) /\ alike s v.

Lemma placed_moved p q n s : placed p n s -> placed q n (set_pos q s).
Proof. intros [? ? ? ? ?]. by split. Qed.

Lemma alike_moved p s v : alike s v -> alike (set_pos p s) v.
Proof. intros [? ? ? ? ?]. by split. Qed.

Lemma list_reaches (l : list nat) k (f : nat -> nat) :
  (forall j, (j < k)%nat -> l !! j = Some (f j)) -> (k <= length l)%nat.
Proof.
  intros H. destruct (decide (k <= length l)%nat) as [|Hn]; [done|].
  pose proof (H (length l) ltac:(lia)) as E. by rewrite lookup_ge_None_2 in E by lia.
Qed.

Lemma put_entry_ok size l i x : (i < size)%nat -> (i <= length l)%nat ->
  exists l', put_entry size l i x = Some l' /\ l' !! i = Some x /\ forall j, j ≠ i -> l' !! j = l !! j.
Proof.
  intros Hs Hi. unfold put_entry. rewrite decide_True by done. case_decide.
  - eexists. split; [done|]. rewrite list_lookup_insert_eq by done. split; [done|].
    intros j Hj. by rewrite list_lookup_insert_ne.
  - rewrite decide_True by lia. eexists. split; [done|]. replace i with (length l) by lia.
    rewrite lookup_app_r, Nat.sub_diag by lia. split; [done|]. intros j Hj.
    destruct (decide (j < length l)%nat); [by rewrite lookup_app_l|].
    rewrite !lookup_ge_None_2; [done | lia | rewrite length_app; cbn; lia].
Qed.

Lemma remember_ok p n s : placed p n s -> exists s', remember (offset n) s = Some s' /\
  placed p (S n) s' /\ forall v, alike s v -> alike s' v.
Proof.
  intros [Hp Hf (shift & Hsh & Hc & Hl) Hz Hs]. unfold remember.
  destruct (put_entry_ok s.(rawst.offsize) s.(rawst.offlist) s.(rawst.offcur) (offset n))
    as (l' & -> & Hn & Ho); [done | rewrite Hc; exact (list_reaches _ _ _ Hl) |]. cbn.
  eexists. split; [done|]. split; [|intros v [? ? ? ? ?]; by split].
  split; cbn; try done.
  - destruct (decide (s.(rawst.offcur) = 0%nat)) as [E|]; [|by rewrite Ho by lia].
    rewrite E in Hn. rewrite Hn. do 2 f_equal. lia.
  - exists shift. split; [done|]. split; [lia|]. intros j Hj.
    destruct (decide (j = s.(rawst.offcur))) as [->|]; [rewrite Hn; do 2 f_equal; lia|].
    rewrite Ho by done. apply Hl. lia.
  - case_match eqn:E; [apply Nat.leb_le in E | apply Nat.leb_gt in E]; unfold OFFCHUNK; lia.
Qed.

(** A jump back to sample [m] over entry [c] of the list. *)
Lemma jump_ok p n s shift c m : placed p n s -> (c < s.(rawst.offcur))%nat ->
  (shift <= 1)%nat -> c = (m + shift)%nat -> s.(rawst.offlist) !! c = Some (offset m) ->
  (forall j, (j < c)%nat -> s.(rawst.offlist) !! j = Some (offset (j - shift))) ->
  exists s', jump c (set_offcur c s) = Some s' /\ placed (offset m) m s' /\
    forall v, alike s v -> alike s' v.
Proof.
  intros [Hp Hf Hl Hz Hs] Hc Hsh Ec Hat Hlow. unfold jump. cbn. rewrite Hat. cbn.
  eexists. split; [done|]. split; [|intros v [? ? ? ? ?]; by split].
  split; cbn; try done; [|lia]. exists shift. split; [done|]. split; [done|]. intros j Hj. apply Hlow. lia.
Qed.

(** One entry back from [offcur], or two: the previous samples. *)
Lemma back_ok p n s k : placed p n s -> (k = 1 \/ k = 2)%nat -> exists s',
  jump (s.(rawst.offcur) - k) (set_offcur (s.(rawst.offcur) - k) s) = Some s' /\
  placed (offset (n - k)) (n - k) s' /\ forall v, alike s v -> alike s' v.
Proof.
  intros HP Hk. pose proof HP as [_ Hf (shift & Hsh & Hc & Hl) Hz Hs].
  destruct (decide (k <= n)%nat).
  - destruct (decide (s.(rawst.offcur) = 0%nat)); [lia|].
    apply (jump_ok p n s shift _ _ HP); [lia | done | lia | rewrite Hl by lia; do 2 f_equal; lia |].
    intros j Hj. apply Hl. lia.
  - replace (s.(rawst.offcur) - k)%nat with 0%nat by lia. replace (n - k)%nat with 0%nat by lia.
    unfold jump. cbn. rewrite Hf. cbn. eexists. split; [done|]. split; [|intros v [? ? ? ? ?]; by split].
    split; cbn; try done; [|lia]. exists 0%nat. split; [lia|]. split; [done|]. lia.
Qed.

Lemma reset_ok p n s : placed p (S n) s -> exists s', jump 0 (set_offcur 1 s) = Some s' /\
  placed (offset 0) 0 s' /\ forall v, alike s v -> alike s' v.
Proof.
  intros [_ Hf (shift & Hsh & Hc & Hl) Hz Hs]. unfold jump. cbn. rewrite Hf. cbn.
  eexists. split; [done|]. split; [|intros v [? ? ? ? ?]; by split].
  split; cbn; try done; [|lia]. exists 1%nat. split; [done|]. split; [done|].
  intros j Hj. by replace j with 0%nat by lia.
Qed.

(** The command of the display leads where [turn] says. *)
Lemma obey_ok n s secs : placed (offset (S n)) (S n) s ->
  let m := turn s.(rawst.lastcmd) s.(rawst.begintime) secs n in
  exists s', obey secs s = Some s' /\ placed (offset m) m s' /\ forall v, alike s v -> alike s' v.
Proof.
  intros HP. unfold obey, turn. cbv zeta. destruct (_ =? MSAMPPREV).
  { destruct (back_ok _ _ _ 2 HP) as (s' & E & HP' & Ha); [lia|]. exists s'. split; [|split; [|done]].
    - destruct (2 <=? s.(rawst.offcur))%nat eqn:Ec; [done|]. apply Nat.leb_gt in Ec.
      by replace (s.(rawst.offcur) - 2)%nat with 0%nat in E by lia.
    - by replace (Nat.pred n) with (S n - 2)%nat by lia. }
  destruct (_ =? MRESET); [by eapply reset_ok|].
  destruct (_ && _); [by eapply reset_ok|]. eauto.
Qed.

(** ** Reading a sample *)

Lemma getraw_ok p c rest dest out s : s.(rawst.pos) = p -> drop p file = c ++ rest ->
  Z.of_nat (length c) < 2 ^ 31 -> uncompress c (length dest) = (Z_OK, out) -> length out = length dest ->
  getraw file (Z.of_nat (length c)) dest s = Ret (out, set_pos (p + length c) s).
Proof.
  intros <- Hd Hc Hu Hl. unfold getraw. cbv zeta. rewrite i32_id by (unfold in_i32; lia).
  rewrite (proj2 (Z.ltb_ge _ 0)), Nat2Z.id, Hd by lia.
  rewrite take_app_length, (proj2 (Nat.ltb_ge _ _)), Hu by lia. cbn.
  by rewrite Hl, drop_all, app_nil_r.
Qed.

(** The positions of the parts of sample [n]. *)
Lemma sys_at n e : es !! n = Some e -> drop (offset n + SIZEOF_RAWRECORD) file =
  (sys_packed e).2 ++ (tasks_packed e).2 ++ log_bytes (drop (S n) es).
Proof.
  intros H. rewrite (file_behind _ _ _ H). unfold sample_bytes. rewrite <-!app_assoc.
  by rewrite drop_app_length' by (symmetry; apply record_image_length).
Qed.

Lemma tasks_at n e : es !! n = Some e ->
  drop (offset n + SIZEOF_RAWRECORD + length (sys_packed e).2) file =
  (tasks_packed e).2 ++ log_bytes (drop (S n) es).
Proof. intros H. by rewrite <-drop_drop, (sys_at _ _ H), drop_app_length. Qed.

Lemma entry_at n e : es !! n = Some e -> entry_ok e.
Proof. intros H. rewrite Forall_lookup in Hes. by eapply Hes. Qed.

Lemma read_sys n e s : es !! n = Some e -> placed (offset n + SIZEOF_RAWRECORD) (S n) s ->
  getraw file (record_for e).(rawrecord.scomplen) s.(rawst.sstat) s =
  Ret (image e.(entry.sstat), set_pos (offset n + SIZEOF_RAWRECORD + length (sys_packed e).2) s).
Proof.
  intros He HP. pose proof (ok_packed _ (entry_at _ _ He)) as Hpk.
  pose proof (packed_rooms _ Hpk) as [Hr _]. pose proof (fits_sys Hsizes).
  apply (getraw_ok _ _ ((tasks_packed e).2 ++ log_bytes (drop (S n) es))).
  - apply HP.
  - by apply sys_at.
  - lia.
  - eapply uncompress_compress; [apply (packed_sys _ Hpk)|]. rewrite (pl_sstat _ _ _ HP), image_length. done.
  - by rewrite (pl_sstat _ _ _ HP), image_length.
Qed.

Lemma read_tasks n e s : es !! n = Some e ->
  s.(rawst.pos) = (offset n + SIZEOF_RAWRECORD + length (sys_packed e).2)%nat ->
  getraw file (record_for e).(rawrecord.pcomplen)
    (resize (sizeof Task * ntasks e) 0 (junk (sizeof Task * ntasks e))) s =
  Ret (task_bytes e.(entry.tasks).(rawtasks.taskall), set_pos (offset (S n)) s).
Proof.
  intros He HP. pose proof (ok_packed _ (entry_at _ _ He)) as Hpk.
  pose proof (packed_rooms _ Hpk) as [_ Hr]. pose proof (ok_room _ (entry_at _ _ He)).
  replace (offset (S n)) with
    (offset n + SIZEOF_RAWRECORD + length (sys_packed e).2 + length (tasks_packed e).2)%nat
    by (rewrite (offset_S _ _ He), sample_length; unfold front_length; lia).
  apply (getraw_ok _ _ (log_bytes (drop (S n) es))).
  - done.
  - by apply tasks_at.
  - lia.
  - eapply uncompress_compress; [apply (packed_tasks _ Hpk)|]. by rewrite length_resize, task_bytes_length.
  - by rewrite length_resize, task_bytes_length.
Qed.

(** [RRLAST] stands for the last sample of the log. *)
Lemma last_flag n e : es !! n = Some e ->
  (Z.of_nat (length file) - Z.of_nat (offset (S n)) <=? rh.(rawheader.rawreclen)) = (S n =? length es)%nat.
Proof.
  intros He. rewrite Hreclen. pose proof (lookup_lt_Some _ _ _ He) as Hn.
  assert (El : length file = (offset (S n) + length (log_bytes (drop (S n) es)))%nat).
  { rewrite <-drop_offset, length_drop. cut (offset (S n) <= length file)%nat; [lia|].
    unfold file, offset. rewrite length_app, Hheader. unfold log_bytes.
    rewrite <-(take_drop (S n) es) at 2. rewrite map_app, concat_app, length_app. lia. }
  rewrite El, Nat2Z.inj_add. destruct (Nat.eqb_spec (S n) (length es)) as [E|E].
  - rewrite E, drop_all. cbn [log_bytes map concat length]. apply Z.leb_le. unfold SIZEOF_RAWRECORD. lia.
  - destruct (lookup_lt_is_Some_2 es (S n)) as [e' He']; [lia|].
    rewrite (drop_S _ _ _ He'). unfold log_bytes. cbn [map concat]. rewrite length_app.
    pose proof (sample_length e') as Hl. unfold front_length in Hl.
    destruct (packed_bytes e' (ok_packed _ (entry_at _ _ He'))) as [Hb _].
    destruct (sys_packed e').2; [done|]. cbn [length] in Hl. apply Z.leb_gt. lia.
Qed.

Lemma lift_bind {A B} (x : A) (f : A -> run B) : mbind (M := run) f (lift (Ret x)) = f x.
Proof. done. Qed.
Lemma fault_bind {A B} (x : A) (f : A -> run B) : mbind (M := run) f (may_fault (Some x)) = f x.
Proof. done. Qed.

Lemma read_sample_ok e s v : es !! v.(browser.next) = Some e ->
  placed (offset v.(browser.next) + SIZEOF_RAWRECORD) (S v.(browser.next)) s -> alike s v ->
  run_rel at_sample
    (read_sample isproc wasinactive show_samp file junk rh (record_for e) (secs localtime e) s)
    (browse_entry localtime show_samp es e v).
Proof.
  set (n := v.(browser.next)). intros He HP HA. unfold read_sample.
  rewrite (read_sys _ _ _ He HP), lift_bind.
  replace (Z.to_nat (rawrecord.ndeviat (record_for e))) with (ntasks e) by (cbn; by rewrite Nat2Z.id).
  rewrite (read_tasks n) by done. rewrite lift_bind, <-(app_nil_r (task_bytes _)).
  unfold ntasks at 1. rewrite chunks_images, list_tasks_back by apply (ok_tasks _ (entry_at _ _ He)).
  rewrite fault_bind. cbn [set_counted set_pos set_sstat rawst.sstat rawst.pos rawst.sampcnt
    rawst.supportflags rawst.begintime rawst.vis].
  rewrite of_image_image, (sample_flags rh (record_for e) e.(entry.supportflags) e.(entry.flag)) by done.
  unfold shown_flags. rewrite (last_flag _ _ He).
  change (rawrecord.flags (record_for e)) with (record_flags e.(entry.supportflags) e.(entry.flag)).
  rewrite record_boot. destruct HA as [Hc Hb Hf Hn Hv]. rewrite Hb, Hf, Hn, Hv.
  unfold browse_entry. fold n.
  apply (run_rel_bind eq); [apply run_rel_same|]. intros ? [[cmd begintime] vis] ->.
  set (s' := set_display _ _ _ _).
  assert (HP' : placed (offset (S n)) (S n) s').
  { destruct HP as [? ? ? ? ?]. split; try done. cbn. by rewrite image_length. }
  destruct (obey_ok n s' (secs localtime e) HP') as (s'' & -> & HP'' & HA'').
  apply run_rel_ret. split; [done|]. cbn [browser.next].
  split; [|by apply HA''; split]. pose proof (lookup_lt_Some _ _ _ He).
  unfold turn. repeat case_match; lia.
Qed.

(** ** The walk *)

Lemma raw_record_at n e : es !! n = Some e ->
  take SIZEOF_RAWRECORD (drop (offset n) file) = record_image (record_for e).
Proof.
  intros He. rewrite (file_at _ _ He). unfold sample_bytes. rewrite <-app_assoc.
  by rewrite take_app_length' by (symmetry; apply record_image_length).
Qed.

Lemma skip_at n e : es !! n = Some e ->
  (offset n + SIZEOF_RAWRECORD + Z.to_nat (u32 ((record_for e).(rawrecord.scomplen) +
    (record_for e).(rawrecord.pcomplen))) = offset (S n))%nat.
Proof.
  intros He. rewrite (offset_S _ _ He), sample_length. unfold front_length.
  pose proof (packed_rooms _ (ok_packed _ (entry_at _ _ He))) as [H1 H2].
  pose proof (ok_room _ (entry_at _ _ He)). pose proof (fits_sys Hsizes).
  cbn [record_for new_record rawrecord.scomplen rawrecord.pcomplen]. rewrite u32_id by lia. lia.
Qed.

Lemma next_record_ok s v : at_sample s v ->
  run_rel (pass_rel at_sample at_last alike)
    (next_record isproc wasinactive localtime show_samp file endtime junk rh s)
    (browse_step localtime show_samp endtime es v).
Proof.
  intros (HP & Hn & HA). unfold next_record, browse_step. cbv zeta.
  rewrite Hreclen, Nat2Z.id, (pl_pos _ _ _ HP).
  destruct (es !! v.(browser.next)) as [e|] eqn:He.
  2:{ apply lookup_ge_None in He. rewrite drop_offset, (drop_ge es) by done. change (log_bytes []) with (@nil Z).
      rewrite take_nil. apply run_rel_ret. cbn [pass_rel length].
      replace (browser.next v) with (length es) in * by lia.
      split; [eexists; by eapply placed_moved | by apply alike_moved]. }
  rewrite (raw_record_at _ _ He), record_image_length, Nat.eqb_refl. cbn [negb].
  rewrite <-(app_nil_r (record_image _)), record_of_image by (apply record_for_fits; [done|]; by eapply entry_at).
  replace (offset (browser.next v) + SIZEOF_RAWRECORD - SIZEOF_RAWRECORD)%nat
    with (offset (browser.next v)) by lia.
  destruct (remember_ok (offset v.(browser.next) + SIZEOF_RAWRECORD) v.(browser.next)
    (set_pos (offset v.(browser.next) + SIZEOF_RAWRECORD) s)) as (s' & -> & HP' & HA');
    [by eapply placed_moved|]. rewrite fault_bind.
  assert (HA1 : alike s' v) by by apply HA', alike_moved.
  change (u32 (daysecs localtime (rawrecord.curtime (record_for e)))) with (secs localtime e).
  rewrite (al_begintime _ _ HA1). destruct (negb _ && (_ <? _)) eqn:Eb.
  - apply run_rel_ret. cbn [pass_rel]. change (rawst.pos (set_lastcmd 1 s')) with (rawst.pos s').
    rewrite (pl_pos _ _ _ HP'), (skip_at _ _ He).
    pose proof (lookup_lt_Some _ _ _ He). split; [|split; [cbn; lia|]].
    + destruct HP' as [? ? ? ? ?]. by split.
    + destruct HA1 as [? ? ? ? ?]. by split.
  - destruct (negb (endtime =? 0) && _).
    { apply run_rel_ret. destruct HA1 as [? ? ? ? ?]. by split. }
    apply (run_rel_bind at_sample); [|intros; by apply run_rel_ret].
    apply read_sample_ok; cbn [set_next browser.next]; [done | |].
    + destruct HP' as [? ? ? ? ?]. by split.
    + destruct HA1 as [? ? ? ? ?]. by split.
Qed.

Lemma records_ok fuel s v : at_sample s v ->
  run_rel (pass_rel at_sample at_last alike)
    (records isproc wasinactive localtime show_samp file endtime junk fuel rh s)
    (browse_on localtime show_samp endtime es fuel v).
Proof.
  revert s v. induction fuel as [|fuel IH]; intros s v H; [done|]. cbn [records browse_on].
  apply (run_rel_bind (pass_rel at_sample at_last alike)); [by apply next_record_ok|].
  intros [] [] Hp; cbn in Hp; try done. by apply IH.
Qed.

(** Whatever the display answers, [walk] does what [browse] does. *)
Lemma walk_browses fuel s v : at_sample s v ->
  run_rel alike
    (walk isproc wasinactive localtime show_samp file endtime junk fuel rh s)
    (browse localtime show_samp endtime es fuel v).
Proof.
  revert s v. induction fuel as [|fuel IH]; intros s v (HP & Hn & HA);
    cbn [walk browse]; rewrite (al_lastcmd _ _ HA); destruct (negb _ && negb _); try done.
  apply (run_rel_bind (pass_rel at_sample at_last alike)); [by apply records_ok|].
  intros [s1|s1|s1] [v1|v1|v1] Hp; cbn [pass_rel] in Hp; try done; [apply run_rel_ret, Hp|].
  destruct Hp as [[p HP1] HA1]. unfold last_again.
  destruct (back_ok p (length es) (set_begintime 0 s1) 1) as (s2 & E & HP2 & HA2);
    [destruct HP1 as [? ? ? ? ?]; by split | lia |].
  cbn [set_offcur set_off rawst.offcur set_begintime] in E |- *. rewrite E, fault_bind. apply IH.
  split; [done|]. split; [cbn; lia|]. apply HA2. destruct HA1 as [? ? ? ? ?]. by split.
Qed.

Lemma start_at v flags begintime sstat : length sstat = sizeof Sys ->
  at_sample (rawst_init flags begintime sstat v) (browse_init flags begintime v).
Proof.
  intros Hs. split; [|split; [cbn; lia | by split]].
  assert (E : offset 0 = SIZEOF_RAWHEADER) by (unfold offset; rewrite take_0; apply Nat.add_0_r).
  change (browser.next (browse_init flags begintime v)) with 0%nat.
  split; [by rewrite E | by rewrite E | | by apply Nat.ltb_lt | done].
  exists 1%nat. split; [done|]. split; [done|]. intros j Hj. replace j with 0%nat by (cbn in Hj; lia).
  change (0 - 1)%nat with 0%nat. by rewrite E.
Qed.
End refinement.

(** ** From the calls of rawwrite to those of the display *)

Section composition.
Context {Task Sys V : Type} {image_task : Image Task} {image_sys : Image Sys} {zlib : Zlib}.
Context (isproc wasinactive : Task -> bool) (localtime : Z -> tm.tm)
  (show_samp : shown Task Sys -> Z -> V -> run (Z * Z * V)).
Context (endtime : Z) (junk : nat -> list Z).
Context (present readable : text -> bool) (open_file : text -> option (list Z)) (now : Z)
  (mkstemp : bool) (gunzip : list Z -> option (list Z)) (argv0 : text) (setresuid : bool)
  (execvp : text -> bool).

(** [rawread] on these surroundings. *)
Definition rawread_here (fuel : nat) (rawname : text) (old : sysinfo.sysinfo) (begintime : Z)
    (sstat : list Z) (vis : V) : option (rawend V) :=
  rawread isproc wasinactive localtime show_samp endtime junk present readable open_file now mkstemp
    gunzip argv0 setresuid execvp fuel rawname old begintime sstat vis.

Lemma info_back info sf old : info_fits info ->
  info_of (new_header Task Sys info sf) old = info.
Proof.
  intros H. unfold info_of. cbn. pose proof (info_hertz _ H). pose proof (info_pagesize _ H).
  rewrite !(proj2 (Z.eqb_neq _ 0)) by lia. by destruct info.
Qed.

(** A log with the header of this program and any samples, also none. *)
Lemma rawread_log info sf es rawname fuel old begintime sstat vis :
  sizes_fit (Task := Task) (Sys := Sys) -> info_fits info -> 0 <= sf < 2 ^ 31 ->
  Forall (entry_ok isproc wasinactive) es -> length sstat = sizeof Sys ->
  open_file (raw_name present localtime now rawname) =
    Some (header_image (new_header Task Sys info sf) ++ log_bytes es) ->
  match browse localtime show_samp endtime es fuel (browse_init (Z.lor sf RAWLOGNG) begintime vis) with
  | None => rawread_here fuel rawname old begintime sstat vis = None
  | Some (Exit c) => rawread_here fuel rawname old begintime sstat vis = Some (Stopped c)
  | Some (Ret v) => exists s,
      rawread_here fuel rawname old begintime sstat vis = Some (Shown info s) /\ alike s v
  end.
Proof.
  intros Hsz Hi Hsf Hes Hs Hopen. set (rh := new_header Task Sys info sf) in *.
  assert (Hck : check_header Task Sys (header_image rh ++ log_bytes es) = Accepted rh).
  { unfold check_header. rewrite length_app, header_image_length, (proj2 (Nat.ltb_ge _ _)) by lia.
    rewrite take_app_length' by by rewrite header_image_length.
    rewrite <-(app_nil_r (header_image rh)), header_of_image by by apply new_header_fits.
    unfold rh. by rewrite new_header_lengths. }
  unfold rawread_here, rawread, open_raw. rewrite Hopen, Hck.
  pose proof (walk_browses isproc wasinactive localtime show_samp endtime junk (header_image rh) rh es
    (header_image_length rh) eq_refl (lor_mask sf RAWLOGNG) Hsz Hes fuel
    (rawst_init rh.(rawheader.supportflags) begintime sstat vis)
    (browse_init rh.(rawheader.supportflags) begintime vis)) as Hw.
  specialize (Hw (start_at (header_image rh) es (header_image_length rh) _ _ _ _ Hs)).
  unfold file in Hw. change (rawheader.supportflags rh) with (Z.lor sf RAWLOGNG) in *.
  destruct (browse _ _ _ _ _ _) as [[c|v]|], (walk _ _ _ _ _ _ _ _ _ _) as [[c'|s]|]; cbn in Hw; try done.
  - cbn. by rewrite Hw.
  - cbn. exists s. unfold rh. by rewrite info_back.
Qed.

(** A disk without the log, on which there is room for it. *)
Record fresh_disk (d : rawdisk) (room : nat) : Prop := {
  fd_file : d.(rawdisk.file) = None;
  fd_creatable : d.(rawdisk.creatable) = true;
  fd_rawfd : d.(rawdisk.rawfd) = None;
  fd_room : (room <= d.(rawdisk.room))%nat
}.

(** The result of [rawread] for the result of [browse]. *)
Definition shows_as (info : sysinfo.sysinfo) (x : run (browser V)) (y : option (rawend V)) : Prop :=
  match x with
  | None => y = None
  | Some (Exit c) => y = Some (Stopped c)
  | Some (Ret v) => exists s, y = Some (Shown info s) /\ alike s v
  end.

(** C6: The raw log refines a list of samples: what successive calls of rawwrite
    put into a new log, rawread walks through as through the list of these
    samples. For every display and any number of steps, the display gets each
    sample with the values that were written, with its tasks and lists of
    processes, the flags for the first after a boot and for the last, and the
    support flags of its moment; the commands of the display lead to the
    previous sample, to the first one or past begintime, the end of the log
    leads back to the last sample, and the backtrack list is never read where
    it was not written. *)
Theorem rawread_browses info e es d rawname fuel old begintime sstat vis :
  sizes_fit (Task := Task) (Sys := Sys) -> info_fits info -> 0 <= e.(entry.supportflags) < 2 ^ 31 ->
  Forall (entry_ok isproc wasinactive) (e :: es) -> length sstat = sizeof Sys ->
  fresh_disk d (length (log_file info (e :: es))) ->
  exists file d', write_all info (e :: es) d = (Ret tt, d') /\ d'.(rawdisk.file) = Some file /\
    (open_file (raw_name present localtime now rawname) = Some file ->
     shows_as info
       (browse localtime show_samp endtime (e :: es) fuel
          (browse_init (Z.lor e.(entry.supportflags) RAWLOGNG) begintime vis))
       (rawread_here fuel rawname old begintime sstat vis)).
Proof.
  intros Hsz Hi Hsf Hes Hs [Hf Hc Hfd Hr].
  destruct (write_all_new info (e :: es) d) as [room E]; try done.
  { eapply Forall_impl; [exact Hes|]. intros x Hx. apply Hx. }
  eexists _, _. split; [exact E|]. split; [done|]. intros Ho. by apply rawread_log.
Qed.

(** A log that has a header and no sample yet: [rawread] tries to read the
    first sample again and again, for every number of steps. *)
Theorem rawread_empty_log info sf rawname fuel old begintime sstat vis :
  sizes_fit (Task := Task) (Sys := Sys) -> info_fits info -> 0 <= sf < 2 ^ 31 ->
  length sstat = sizeof Sys ->
  open_file (raw_name present localtime now rawname) =
    Some (header_image (new_header Task Sys info sf)) ->
  rawread_here fuel rawname old begintime sstat vis = None.
Proof.
  intros Hsz Hi Hsf Hs Ho.
  pose proof (rawread_log info sf [] rawname fuel old begintime sstat vis Hsz Hi Hsf (Forall_nil_2 _) Hs) as H.
  cbn [log_bytes map concat] in H. rewrite app_nil_r in H. specialize (H Ho).
  assert (E : forall n b, browse localtime show_samp endtime [] n
    (browse_init (Z.lor sf RAWLOGNG) b vis) = None); [|by rewrite E in H].
  intros n. induction n as [|n IH]; intros b; [done|].
  change (browse localtime show_samp endtime [] n (browse_init (Z.lor sf RAWLOGNG) 0 vis) = None). apply IH.
Qed.
End composition.

(** ** Printing an interval of a log *)

Section interval.
Context {Task Sys : Type} {image_task : Image Task} {image_sys : Image Sys} {zlib : Zlib}.
Context (localtime : Z -> tm.tm) (begintime endtime : Z).
Implicit Types (e : entry Task Sys) (x : shown Task Sys).

(** A display that prints each sample and asks for nothing. *)
Definition print_samp x (begintime : Z) (printed : list (shown Task Sys)) :
    run (Z * Z * list (shown Task Sys)) :=
  lift (Ret (0, begintime, printed ++ [x])).

(** The values of a sample, as they are shown and as they are written. *)
Definition content x := (x.(shown.curtime), x.(shown.interval), x.(shown.devtstat), x.(shown.sstat),
  x.(shown.nexit), x.(shown.noverflow)).
Definition written e := (e.(entry.curtime), e.(entry.numsecs), e.(entry.tasks), e.(entry.sstat),
  e.(entry.nexit), e.(entry.noverflow)).

(** The samples from the first one on that is not too early; the samples
    before the first one that is too late. A time of 0 is no bound. *)
Fixpoint from_begin (es : list (entry Task Sys)) : list (entry Task Sys) :=
  match es with
  | [] => []
  | e :: es' => if negb (begintime =? 0) && (secs localtime e <? begintime) then from_begin es' else es
  end.
Fixpoint until_end (es : list (entry Task Sys)) : list (entry Task Sys) :=
  match es with
  | [] => []
  | e :: es' => if negb (endtime =? 0) && (endtime <? secs localtime e) then [] else e :: until_end es'
  end.

(** What is printed; of a log that is too early altogether the last sample. *)
Definition interval (es : list (entry Task Sys)) : list (entry Task Sys) :=
  match from_begin es with
  | [] => until_end (drop (length es - 1) es)
  | l => until_end l
  end.

Context (es : list (entry Task Sys)).

Lemma print_entry e v : browse_entry localtime print_samp es e v =
  let flags := take_over e.(entry.supportflags) v.(browser.supportflags) in
  let count := u64 (v.(browser.sampcnt) + 1) in
  lift (Ret (browser.mk (S v.(browser.next)) 0 v.(browser.begintime) flags count
    (v.(browser.vis) ++ [shown_entry es v.(browser.next) e count flags]))).
Proof. done. Qed.

Lemma print_rest l : forall fuel v, drop v.(browser.next) es = l -> (length l < fuel)%nat ->
  v.(browser.begintime) = 0 -> exists p,
  browse_on localtime print_samp endtime es fuel v = lift (Ret p) /\
  match p with
  | Again _ => False
  | AtEnd v' => map content v'.(browser.vis) = map content v.(browser.vis) ++ map written (until_end l) /\
      (l ≠ [] -> v'.(browser.lastcmd) = 0) /\ (l = [] -> v' = v)
  | Finished v' => map content v'.(browser.vis) = map content v.(browser.vis) ++ map written (until_end l)
  end.
Proof.
  induction l as [|e l IH]; intros fuel v Hd Hfuel Hb; (destruct fuel as [|fuel]; [cbn in Hfuel; lia|]);
    cbn [browse_on]; unfold browse_step.
  - rewrite lookup_ge_None_2 by (apply (f_equal length) in Hd; rewrite length_drop in Hd; cbn in Hd; lia).
    eexists. split; [done|]. cbn. by rewrite app_nil_r.
  - assert (He : es !! v.(browser.next) = Some e)
      by by rewrite <-(Nat.add_0_r v.(browser.next)), <-lookup_drop, Hd.
    rewrite He, Hb. cbn [Z.eqb negb andb until_end].
    destruct (negb (endtime =? 0) && _).
    { eexists. split; [done|]. cbn. by rewrite app_nil_r. }
    rewrite print_entry. cbv zeta. rewrite !lift_bind. cbn [set_next browser.next].
    edestruct (IH fuel) as (p & -> & Hp); [| | |exists p; split; [done|]]; cbn [browser.next browser.begintime].
    + by rewrite <-(Nat.add_1_r v.(browser.next)), <-drop_drop, Hd.
    + cbn in Hfuel. lia.
    + done.
    + cbn [browser.vis set_next] in Hp. rewrite map_app in Hp. cbn [map] in Hp |- *.
      destruct p as [v'|v'|v']; [done| |by rewrite <-app_assoc in Hp].
      destruct Hp as (Hm & Hl & Hnil). rewrite <-app_assoc in Hm. split; [exact Hm|].
      split; [|done]. intros _. destruct l; [by rewrite Hnil | by apply Hl].
Qed.

Lemma skip_early l : forall k fuel v, drop v.(browser.next) es = l ->
  (length l < fuel)%nat -> v.(browser.begintime) = begintime -> begintime ≠ 0 ->
  k = (length l - length (from_begin l))%nat ->
  exists fuel', (length (from_begin l) < fuel')%nat /\
  browse_on localtime print_samp endtime es fuel v =
  browse_on localtime print_samp endtime es fuel'
    (set_next (v.(browser.next) + k) (if (k =? 0)%nat then v.(browser.lastcmd) else 1) begintime v).
Proof.
  induction l as [|e l IH]; intros k fuel v Hd Hf Hb Hne Hk.
  - exists fuel. split; [done|]. cbn in Hk. subst k. rewrite Nat.add_0_r. cbn.
    f_equal. destruct v; cbn in *. by subst.
  - cbn [from_begin] in *. rewrite (proj2 (Z.eqb_neq _ _) Hne) in *. cbn [negb andb] in *.
    destruct (secs localtime e <? begintime) eqn:E.
    + destruct fuel as [|fuel]; [lia|]. cbn [browse_on]. unfold browse_step.
      assert (He : es !! v.(browser.next) = Some e)
        by by rewrite <-(Nat.add_0_r v.(browser.next)), <-lookup_drop, Hd.
      rewrite He, Hb, (proj2 (Z.eqb_neq _ _) Hne), E. cbn [negb andb]. rewrite lift_bind.
      assert (Hlen : (length (from_begin l) <= length l)%nat).
      { clear. induction l as [|e l IHl]; cbn; [done|]. destruct (_ && _); cbn; lia. }
      destruct (IH (length l - length (from_begin l))%nat fuel
        (set_next (S v.(browser.next)) 1 begintime v)) as (fuel' & Hf' & ->); try done.
      * cbn [set_next browser.next]. by rewrite <-(Nat.add_1_r v.(browser.next)), <-drop_drop, Hd.
      * cbn in Hf. lia.
      * exists fuel'. split; [done|]. f_equal. cbn [set_next browser.next browser.lastcmd].
        cbn [length] in Hk. destruct (Nat.eqb_spec k 0); [lia|].
        unfold set_next. cbn. f_equal; [lia|]. by case_match.
    + exists fuel. split; [done|]. rewrite Nat.sub_diag in Hk. subst k. rewrite Nat.add_0_r. cbn.
      f_equal. destruct v; cbn in *. by subst.
Qed.

Lemma from_begin_length l : (length (from_begin l) <= length l)%nat.
Proof. induction l as [|e l IH]; cbn; [done|]. destruct (_ && _); cbn; lia. Qed.

Lemma from_begin_drop l : from_begin l = drop (length l - length (from_begin l)) l.
Proof.
  induction l as [|e l IH]; cbn [from_begin]; [done|]. destruct (_ && _).
  - pose proof (from_begin_length l). cbn [length].
    replace (S (length l) - length (from_begin l))%nat with (S (length l - length (from_begin l))) by lia.
    exact IH.
  - by rewrite Nat.sub_diag.
Qed.

Lemma from_begin_head l e rest : from_begin l = e :: rest ->
  negb (begintime =? 0) && (secs localtime e <? begintime) = false.
Proof.
  induction l as [|e' l IH]; cbn; [done|].
  destruct (negb (begintime =? 0) && (secs localtime e' <? begintime)) eqn:E; [done|]. by intros [= -> _].
Qed.

(** A first sample that is not too early ends the search. *)
Lemma search_ends fuel v e : es !! v.(browser.next) = Some e ->
  negb (v.(browser.begintime) =? 0) && (secs localtime e <? v.(browser.begintime)) = false ->
  browse_on localtime print_samp endtime es fuel v =
  browse_on localtime print_samp endtime es fuel (set_next v.(browser.next) v.(browser.lastcmd) 0 v).
Proof.
  intros He Hn. destruct fuel as [|fuel]; [done|]. cbn [browse_on]. unfold browse_step.
  cbn [set_next browser.next browser.begintime]. rewrite He, Hn. done.
Qed.

(** When the samples [l] have been printed the walk ends. *)
Definition printed_all (l : list (entry Task Sys)) (start : list (shown Task Sys))
    (p : pass_result (browser (list (shown Task Sys)))) : Prop :=
  match p with
  | Again _ => False
  | AtEnd v' => map content v'.(browser.vis) = map content start ++ map written (until_end l) /\
      v'.(browser.lastcmd) = 0
  | Finished v' => map content v'.(browser.vis) = map content start ++ map written (until_end l)
  end.

Lemma print_all l fuel v : drop v.(browser.next) es = l -> (length l < fuel)%nat ->
  v.(browser.begintime) = 0 -> l ≠ [] -> exists p,
  browse_on localtime print_samp endtime es fuel v = lift (Ret p) /\ printed_all l v.(browser.vis) p.
Proof.
  intros Hd Hf Hb Hl. destruct (print_rest l fuel v Hd Hf Hb) as (p & E & Hp). exists p. split; [done|].
  destruct p as [v'|v'|v']; [done| |done]. destruct Hp as (? & Hc & _). split; [done|]. by apply Hc.
Qed.

Lemma browse_ends fuel v p l : v.(browser.lastcmd) ≠ 0 -> v.(browser.lastcmd) ≠ MQUIT ->
  browse_on localtime print_samp endtime es (S fuel) v = lift (Ret p) -> printed_all l v.(browser.vis) p ->
  exists v', browse localtime print_samp endtime es (S fuel) v = lift (Ret v') /\
    map content v'.(browser.vis) = map content v.(browser.vis) ++ map written (until_end l).
Proof.
  intros H0 Hq E Hp. cbn [browse]. rewrite !(proj2 (Z.eqb_neq _ _)) by done. cbn [negb andb].
  rewrite E, lift_bind. destruct p as [v'|v'|v']; [done| |by eauto]. destruct Hp as (Hm & Hc).
  exists (set_next (length es - 1) v'.(browser.lastcmd) 0 v'). split; [|done].
  by destruct fuel; cbn [browse set_next browser.lastcmd]; rewrite Hc.
Qed.

Lemma browse_rest fuel v : (length es < fuel)%nat -> (v.(browser.next) < length es)%nat ->
  v.(browser.begintime) = 0 -> v.(browser.lastcmd) ≠ 0 -> v.(browser.lastcmd) ≠ MQUIT ->
  exists v', browse localtime print_samp endtime es fuel v = lift (Ret v') /\
    map content v'.(browser.vis) =
    map content v.(browser.vis) ++ map written (until_end (drop v.(browser.next) es)).
Proof.
  intros Hf Hn Hb H0 Hq. destruct fuel as [|fuel]; [lia|].
  destruct (print_all (drop v.(browser.next) es) (S fuel) v) as (p & E & Hp); try done.
  - rewrite length_drop. lia.
  - intros D%(f_equal length). rewrite length_drop in D. cbn in D. lia.
  - by apply (browse_ends fuel v p).
Qed.

Lemma browse_interval fuel flags : es ≠ [] -> (S (S (length es)) < fuel)%nat ->
  exists v', browse localtime print_samp endtime es fuel (browse_init flags begintime []) = lift (Ret v') /\
    map content v'.(browser.vis) = map written (interval es).
Proof.
  intros Hes Hf. pose proof (from_begin_length es) as Hlen.
  assert (Hn : length es ≠ 0%nat) by (by intros ?%nil_length_inv).
  unfold interval. destruct (decide (begintime = 0)) as [Hb|Hb].
  { assert (E : from_begin es = es) by (destruct es; [done|]; cbn [from_begin]; by rewrite Hb).
    rewrite E. destruct (browse_rest fuel (browse_init flags begintime [])) as (v' & E' & Hm);
      [lia | cbn; lia | done | done | done |]. exists v'. split; [exact E'|].
    rewrite Hm. cbn [browse_init browser.next browser.vis map app]. rewrite drop_0. by destruct es. }
  destruct fuel as [|fuel]; [lia|].
  destruct (skip_early es _ (S fuel) (browse_init flags begintime []) eq_refl ltac:(lia) eq_refl Hb eq_refl)
    as (fuel' & Hf' & E).
  cbn [browse_init browser.next] in E. rewrite Nat.add_0_l in E. set (k := (_ - _)%nat) in E.
  assert (Hd : from_begin es = drop k es) by apply from_begin_drop.
  destruct (from_begin es) as [|e rest] eqn:Er.
  - cbn [length] in k. subst k. rewrite Nat.sub_0_r in *.
    destruct fuel' as [|fuel']; [cbn in Hf'; lia|]. cbn [browse browse_init browser.lastcmd].
    change (negb (88 =? 0) && negb (88 =? MQUIT)) with true. cbn match.
    change (browser.mk 0 88 begintime flags 0 []) with (browse_init (V := list (shown Task Sys)) flags begintime []).
    rewrite E. cbn [browse_on]. unfold browse_step. cbn [set_next browser.next].
    rewrite lookup_ge_None_2 by lia. rewrite !lift_bind, (proj2 (Nat.eqb_neq _ _) Hn).
    destruct (browse_rest fuel (set_next (length es - 1) 1 0 (browse_init flags begintime [])))
      as (v' & E' & Hm); [lia | cbn; lia | done | done | done |].
    exists v'. split; [exact E'|]. by rewrite Hm.
  - assert (He : es !! k = Some e) by (by rewrite <-(Nat.add_0_r k), <-lookup_drop, <-Hd).
    pose proof (from_begin_head es e rest Er) as Hh.
    set (cmd := if (k =? 0)%nat then _ else _) in E.
    rewrite (search_ends _ (set_next k cmd begintime _) e He Hh) in E.
    destruct (print_all (e :: rest) fuel' (set_next k cmd 0 (browse_init flags begintime [])))
      as (p & Ep & Hp); [done | done | done | done |].
    change (set_next _ _ 0 (set_next k cmd begintime (browse_init flags begintime [])))
      with (set_next k cmd 0 (browse_init (V := list (shown Task Sys)) flags begintime [])) in E.
    rewrite Ep in E. by apply (browse_ends fuel (browse_init flags begintime []) p (e :: rest)).
Qed.
End interval.

Section printing.
Context {Task Sys : Type} {image_task : Image Task} {image_sys : Image Sys} {zlib : Zlib}.
Context (isproc wasinactive : Task -> bool) (localtime : Z -> tm.tm) (endtime : Z) (junk : nat -> list Z).
Context (present readable : text -> bool) (open_file : text -> option (list Z)) (now : Z)
  (mkstemp : bool) (gunzip : list Z -> option (list Z)) (argv0 : text) (setresuid : bool)
  (execvp : text -> bool).

(** C14: With a display that prints, rawread returns, and has printed the samples
    between begintime and endtime with their values in the order they were
    written: from the first sample that is not too early, up to the first one
    that is too late; of a log that is too early altogether, the last sample. *)
Theorem rawread_prints info (e : entry Task Sys) es rawname fuel old begintime sstat :
  sizes_fit (Task := Task) (Sys := Sys) -> info_fits info -> 0 <= e.(entry.supportflags) < 2 ^ 31 ->
  Forall (entry_ok isproc wasinactive) (e :: es) -> length sstat = sizeof Sys ->
  open_file (raw_name present localtime now rawname) = Some (log_file info (e :: es)) ->
  (S (S (length (e :: es))) < fuel)%nat ->
  exists s, rawread_here isproc wasinactive localtime print_samp endtime junk present readable open_file now
      mkstemp gunzip argv0 setresuid execvp fuel rawname old begintime sstat [] = Some (Shown info s) /\
    map content s.(rawst.vis) = map written (interval localtime begintime endtime (e :: es)).
Proof.
  intros Hsz Hi Hsf Hes Hs Ho Hf.
  destruct (browse_interval localtime begintime endtime (e :: es) fuel
    (Z.lor e.(entry.supportflags) RAWLOGNG)) as (v & E & Hm); [done | done |].
  pose proof (rawread_log isproc wasinactive localtime print_samp endtime junk present readable open_file now
    mkstemp gunzip argv0 setresuid execvp info e.(entry.supportflags) (e :: es) rawname fuel old begintime
    sstat [] Hsz Hi Hsf Hes Hs Ho) as H.
  rewrite E in H. cbn in H. destruct H as (s & -> & Ha). exists s. split; [done|].
  by rewrite (al_vis _ _ Ha).
Qed.
End printing.

(** ** A file system that fills up *)

(** C15: rawwrite on a file system that fills up. With the log open a sample is in
    the log as a whole; or, when there is no room for its first two parts, the
    program ends with code 7 and the log is what it was, or with code 8 and a
    cut sample when the old size cannot be set; or, when there is room for all
    but a part of the last part, the call succeeds and leaves a cut sample in
    the log. A sample that cannot be compressed ends the program with code 7
    and no change. The first call opens a log that exists and can be read and
    written, or ends with code 7 when its header is not that of this program;
    it creates a log that does not exist: in front of a file system that is
    full it ends with code 7 and leaves an empty log; when there is room for a
    part of the header it ends with 7 or 8 and leaves that part; else it goes
    on behind the header. *)
Theorem rawwrite_outcome {Task Sys : Type} `{!Image Task, !Image Sys, !Zlib}
    info (e : entry Task Sys) d :
  let sample := sample_bytes e in
  let front := front_length e in
  let header := header_image (new_header Task Sys info e.(entry.supportflags)) in
  (forall f room,
    (packed e -> (length sample <= room)%nat -> write_entry info e (open_disk f room d) =
       (Ret tt, open_disk (f ++ sample) (room - length sample) d)) /\
    (packed e -> (front < room < length sample)%nat -> write_entry info e (open_disk f room d) =
       (Ret tt, open_disk (f ++ take room sample) 0 d)) /\
    (packed e -> (room <= front)%nat -> exists d', write_entry info e (open_disk f room d) = (Exit (full_code d), d') /\
       d'.(rawdisk.file) = Some (if d.(rawdisk.truncatable) then f else f ++ take room sample)) /\
    (unpacked e -> write_entry info e (open_disk f room d) = (Exit 7, open_disk f room d))) /\
  (d.(rawdisk.rawfd) = None ->
    (forall f, d.(rawdisk.file) = Some f -> d.(rawdisk.rdwr) = true ->
       write_entry info e d =
       if accepted (Task := Task) (Sys := Sys) f then write_entry info e (open_disk f d.(rawdisk.room) d)
       else (Exit 7, d)) /\
    (d.(rawdisk.file) = None -> d.(rawdisk.creatable) = false -> write_entry info e d = (Exit 7, d)) /\
    (d.(rawdisk.file) = None -> d.(rawdisk.creatable) = true -> packed e ->
       (d.(rawdisk.room) = 0%nat -> exists d', write_entry info e d = (Exit 7, d') /\ d'.(rawdisk.file) = Some []) /\
       ((0 < d.(rawdisk.room) < SIZEOF_RAWHEADER)%nat -> exists d',
          write_entry info e d = (Exit (full_code d), d') /\ d'.(rawdisk.file) = Some (take d.(rawdisk.room) header)) /\
       ((SIZEOF_RAWHEADER <= d.(rawdisk.room))%nat ->
          write_entry info e d = write_entry info e (open_disk header (d.(rawdisk.room) - SIZEOF_RAWHEADER) d)))).
Proof.
  cbv zeta. split.
  - intros f room. split_and!; intros; [by apply write_entry_fits | by apply write_entry_cut |
      by apply write_entry_full | by apply write_entry_unpacked].
  - intros Hfd. split_and!; [intros; by apply write_entry_existing | | intros; by apply write_entry_new].
    intros Hf Hc. unfold write_entry, rawwrite. rewrite io_bind_run. unfold open_first, rawwopen, rawwopen_new.
    by rewrite Hfd, Hf, Hc.
Qed.

(** ** A small log *)

Definition byte_on (b : Z) : bool := negb (b =? 0).

(** A task of two bytes, [isproc] and [wasinactive]; a system of one byte. *)
#[local] Program Instance small_task : Image (bool * bool) := {
  sizeof := 2;
  image t := [c_bool t.1; c_bool t.2];
  of_image b := (byte_on (default 0 (b !! 0%nat)), byte_on (default 0 (b !! 1%nat)))
}.
Next Obligation. done. Qed.
Next Obligation. by intros [[] []]. Qed.
#[local] Program Instance small_sys : Image bool := {
  sizeof := 1;
  image s := [c_bool s];
  of_image b := byte_on (default 0 (b !! 0%nat))
}.
Next Obligation. done. Qed.
Next Obligation. by intros []. Qed.

(** The compression that stores what it gets. *)
#[local] Program Instance stored : Zlib := {
  compress s n := if ((length s =? 0) || (n <? length s))%nat then (Z_BUF_ERROR, []) else (Z_OK, s);
  uncompress c n := if (n <? length c)%nat then (Z_BUF_ERROR, []) else (Z_OK, c)
}.
Next Obligation.
  intros s n c. cbn beta. destruct (Nat.eqb_spec (length s) 0), (Nat.ltb_spec n (length s)); cbn; intros [=]; by subst.
Qed.
Next Obligation.
  intros s n c. cbn beta. destruct (Nat.eqb_spec (length s) 0), (Nat.ltb_spec n (length s)); cbn; intros [=]; subst.
  by intros ->.
Qed.
Next Obligation.
  intros s n c m. cbn beta. destruct (Nat.eqb_spec (length s) 0), (Nat.ltb_spec n (length s)); cbn [orb]; intros [=]; subst.
  intros Hm. by rewrite (proj2 (Nat.ltb_ge _ _)).
Qed.

Definition small_tasks : rawtasks (bool * bool) :=
  rawtasks.mk [(true, false); (false, false); (true, true)] [0; 2]%nat [0]%nat 2 2 1 1 2 0 0.
Definition small_entry (t : Z) (s : bool) : entry (bool * bool) bool :=
  entry.mk t 600 small_tasks s 0 0 0 IOSTAT.
Definition small_info : sysinfo.sysinfo := sysinfo.mk (zeros SIZEOF_UTSNAME) 4 15 0 100 4096.
Definition clock (t : Z) : tm.tm := tm.mk (t mod 60) (t / 60 mod 60) (t / 3600) 1 0 118.
Definition new_disk (room : nat) : rawdisk := rawdisk.mk None false true true room None.

(** A display with a list of commands that notes the times it has shown. *)
Definition scripted (x : shown (bool * bool) bool) (begintime : Z) (v : list Z * list Z) :
    run (Z * Z * (list Z * list Z)) :=
  lift (Ret (hd 0 v.1, begintime, (tl v.1, v.2 ++ [x.(shown.curtime)]))).

Definition small_log : list (entry (bool * bool) bool) :=
  [small_entry 3600 true; small_entry 4200 false; small_entry 4800 true].

Lemma small_entry_ok t s : in_i64 t ->
  entry_ok fst snd (small_entry t s).
Proof. intros H. by split. Qed.

Lemma small_log_ok : Forall (entry_ok fst snd) small_log.
Proof. repeat constructor; done. Qed.

Lemma small_sizes : sizes_fit (Task := bool * bool) (Sys := bool).
Proof. by split. Qed.

Lemma small_info_fits : info_fits small_info.
Proof. split; try done; cbn; unfold in_i32; lia. Qed.

(** One sample forward, one back, to the start, then to the end. *)
Definition small_script : list Z := [1; MSAMPPREV; 1; MRESET; 1; 1; 0].

Lemma rawread_browses_witness : exists file d',
  write_all small_info small_log (new_disk 2000) = (Ret tt, d') /\ d'.(rawdisk.file) = Some file /\
  (Some (log_file small_info small_log) = Some file ->
   shows_as small_info
     (browse clock scripted 0 small_log 20 (browse_init (Z.lor IOSTAT RAWLOGNG) 0 (small_script, [])))
     (rawread_here fst snd clock scripted 0 zeros (fun _ => true) (fun _ => true)
        (fun _ => Some (log_file small_info small_log)) 0 true Some (chars "atop") true (fun _ => false)
        20 (chars "log") small_info 0 [0] (small_script, []))).
Proof.
  apply (rawread_browses fst snd clock scripted 0 zeros (fun _ => true) (fun _ => true)
    (fun _ => Some (log_file small_info small_log)) 0 true Some (chars "atop") true (fun _ => false)
    small_info (small_entry 3600 true) [small_entry 4200 false; small_entry 4800 true]
    (new_disk 2000) (chars "log") 20 small_info 0 [0] (small_script, [])).
  - exact small_sizes.
  - exact small_info_fits.
  - done.
  - exact small_log_ok.
  - done.
  - split; try done. by apply Nat.leb_le; vm_compute.
Defined.

Example small_walk :
  match browse clock scripted 0 small_log 20
    (browse_init (Z.lor IOSTAT RAWLOGNG) 0 (small_script, [])) with
  | Some (Ret v) => v.(browser.vis).2
  | _ => []
  end = [3600; 4200; 3600; 4200; 3600; 4200; 4800].
Proof. vm_compute. reflexivity. Qed.

Lemma rawread_prints_witness : exists s,
  rawread_here fst snd clock print_samp 4500 zeros (fun _ => true) (fun _ => true)
    (fun _ => Some (log_file small_info small_log)) 0 true Some (chars "atop") true (fun _ => false)
    6 (chars "log") small_info 4000 [0] [] = Some (Shown small_info s) /\
  map content s.(rawst.vis) = [written (small_entry 4200 false)].
Proof.
  apply (rawread_prints fst snd clock 4500 zeros (fun _ => true) (fun _ => true)
    (fun _ => Some (log_file small_info small_log)) 0 true Some (chars "atop") true (fun _ => false)
    small_info (small_entry 3600 true) [small_entry 4200 false; small_entry 4800 true]
    (chars "log") 6 small_info 4000 [0]).
  - exact small_sizes.
  - exact small_info_fits.
  - done.
  - exact small_log_ok.
  - done.
  - done.
  - by apply Nat.ltb_lt.
Defined.

Lemma rawwrite_outcome_witness :
  let e := small_entry 3600 true in
  ((length (sample_bytes e) <= 100)%nat -> write_entry small_info e (open_disk [] 100 (new_disk 0)) =
     (Ret tt, open_disk ([] ++ sample_bytes e) (100 - length (sample_bytes e)) (new_disk 0))) /\
  ((front_length e < 100 < length (sample_bytes e))%nat ->
     write_entry small_info e (open_disk [] 100 (new_disk 0)) =
     (Ret tt, open_disk ([] ++ take 100 (sample_bytes e)) 0 (new_disk 0))) /\
  ((100 <= front_length e)%nat -> exists d',
     write_entry small_info e (open_disk [] 100 (new_disk 0)) = (Exit 7, d') /\
     d'.(rawdisk.file) = Some []).
Proof.
  destruct (rawwrite_outcome small_info (small_entry 3600 true) (new_disk 0)) as [H _].
  destruct (H [] 100%nat) as (H1 & H2 & H3 & _). assert (Hp : packed (small_entry 3600 true)) by (by split).
  cbv zeta. split; [exact (H1 Hp)|]. split; [exact (H2 Hp)|]. exact (H3 Hp).
Defined.

Lemma rawread_empty_log_witness :
  rawread_here fst snd clock scripted 0 zeros (fun _ => true) (fun _ => true)
    (fun _ => Some (header_image (new_header (bool * bool) bool small_info IOSTAT))) 0 true Some
    (chars "atop") true (fun _ => false) 1000 (chars "log") small_info 0 [0] (small_script, []) = None.
Proof.
  apply (rawread_empty_log fst snd clock scripted 0 zeros (fun _ => true) (fun _ => true)
    (fun _ => Some (header_image (new_header (bool * bool) bool small_info IOSTAT))) 0 true Some
    (chars "atop") true (fun _ => false) small_info IOSTAT);
    [exact small_sizes | exact small_info_fits | done | done | done].
Defined.
