(* ===== verification/Sarlines.v ===== *)
(** * The lines of activity reports: atopsar.c

    One definition per function that prints the head or the line of a report,
    and the table of the reports. A line function gives the text that it
    prints, the number of lines it claims to have printed (0 when the report is
    not available), and what it leaves behind: the sample, in which [ifline]
    corrects the speed of an interface, and the variables [firstcall] of the
    reports about units. Doubles that are not finite are printed as the C
    library prints them ([Printf.fmt_double]). [None] is a division of integers by
    zero or an access behind an array. *)
From Stdlib Require Import Ascii.
From S2P Require Import Prelude Format Printf Sscanf Tstat Sstat SstatStores Netatopif Photoproc Deviattask Various Showprocs Compar Cumulate Showline Prihead Showsys Parseable.

#[local] Open Scope c_scope.

(** ** Doubles that need not be finite *)

Definition xmul (x : Z * Z) (k : Z) : Z * Z :=
  if x.2 =? 0 then (Z.sgn (x.1 * k), 0) else dbl_mul x k.
Definition xdiv (x y : Z * Z) : Z * Z :=
  if x.2 =? 0 then (Z.sgn x.1 * (if y.1 <? 0 then -1 else 1), 0) else dbl_div x y.

(** The conversion to [unsigned int]: of a value that is outside of every
    integer type, the processor delivers zero in the lower half. *)
Definition to_uint (x : Z * Z) : Z :=
  if x.2 =? 0 then 0
  else let q := Z.quot x.1 x.2 in if Z.abs q <? 2 ^ 63 then u32 q else 0.

(** A division of integers. *)
Definition quot (x y : Z) : option Z := if y =? 0 then None else Some (i64 (Z.quot x y)).

(** ** What the lines depend on *)

(** The settings. *)
Module sarenv.
Record sarenv := mk {
  cpubadness : Z;
  membadness : Z;
  swpbadness : Z;
  pagbadness : Z;
  dskbadness : Z;
  netbadness : Z;
  almostcrit : Z;
  pagesize : Z;
  hertz : Z;
  supportflags : Z;
  usecolors : bool;
  usemarkers : bool;
  allresources : bool
}.
End sarenv.

(** The parameters of a line function beside the sample; [ts] tells whether
    there are process statistics. *)
Module sarargs.
Record sarargs := mk {
  ts : bool;
  ps : list tstat.tstat;
  nactproc : Z;
  deltasec : Z;
  deltatic : Z;
  hz : Z;
  tstamp : text;
  ppres : Z;
  ntrun : Z;
  ntslpi : Z;
  ntslpu : Z;
  pexit : Z;
  pzombie : Z
}.
End sarargs.

(** The variables [firstcall] of [gendskline], [nfmline], [ifline] and
    [IFline]. *)
Module sarfirst.
Record sarfirst := mk {
  first_dsk : bool;
  first_nfm : bool;
  first_if : bool;
  first_IF : bool
}.
End sarfirst.

Definition set_first_dsk (f : sarfirst.sarfirst) : sarfirst.sarfirst :=
  sarfirst.mk false f.(sarfirst.first_nfm) f.(sarfirst.first_if) f.(sarfirst.first_IF).
Definition set_first_nfm (f : sarfirst.sarfirst) : sarfirst.sarfirst :=
  sarfirst.mk f.(sarfirst.first_dsk) false f.(sarfirst.first_if) f.(sarfirst.first_IF).
Definition set_first_if (f : sarfirst.sarfirst) : sarfirst.sarfirst :=
  sarfirst.mk f.(sarfirst.first_dsk) f.(sarfirst.first_nfm) false f.(sarfirst.first_IF).
Definition set_first_IF (f : sarfirst.sarfirst) : sarfirst.sarfirst :=
  sarfirst.mk f.(sarfirst.first_dsk) f.(sarfirst.first_nfm) f.(sarfirst.first_if) false.

(** The result of a line function: text, lines, the sample and [firstcall]. *)
Definition priline : Type := sarargs.sarargs -> sstat.sstat -> sarfirst.sarfirst ->
  option (text * Z * sstat.sstat * sarfirst.sarfirst).

(** A function that prints one line. *)
Definition one_line (s : sstat.sstat) (fs : sarfirst.sarfirst) (line : option text) :
    option (text * Z * sstat.sstat * sarfirst.sarfirst) :=
  t ← line; Some (t, 1, s, fs).

(** A message instead of the line. *)
Definition not_available (s : sstat.sstat) (fs : sarfirst.sarfirst) (message : string) :
    option (text * Z * sstat.sstat * sarfirst.sarfirst) :=
  Some (chars message ++ [newline], 0, s, fs).

Definition per_second (a : sarargs.sarargs) (v : Z) : arg :=
  AFlt (xdiv (dbl v 1) (dbl a.(sarargs.deltasec) 1)).

(** ** Heads *)

Definition cpuhead : option text := printf "cpu  %%usr %%nice %%sys %%irq %%softirq  %%steal %%guest  %%wait %%idle  _cpu_" [].
Definition prochead : option text := printf "pswch/s devintr/s  clones/s  loadavg1 loadavg5 loadavg15       _load_" [].
Definition taskhead : option text := printf "clones/s pexit/s  curproc curzomb    thrrun thrslpi thrslpu _procthr_" [].
Definition memhead : option text := printf "memtotal memfree buffers cached dirty slabmem  swptotal swpfree _mem_" [].
Definition swaphead : option text := printf "pagescan/s   swapin/s  swapout/s        commitspc  commitlim   _swap_" [].
Definition lvmhead : option text := printf "disk           busy read/s KB/read  writ/s KB/writ avque avserv _lvm_" [].
Definition mddhead : option text := printf "disk           busy read/s KB/read  writ/s KB/writ avque avserv _mdd_" [].
Definition dskhead : option text := printf "disk           busy read/s KB/read  writ/s KB/writ avque avserv _dsk_" [].
Definition nfmhead : option text := printf "mounted_device                          physread/s  physwrit/s  _nfm_" [].
Definition nfchead : option text := printf "     rpc/s   rpcread/s  rpcwrite/s  retrans/s  autrefresh/s     _nfc_" [].
Definition nfshead : option text := printf "  rpc/s  rpcread/s rpcwrite/s MBcr/s  MBcw/s  nettcp/s netudp/s _nfs_" [].
Definition ifhead : option text := printf "interf busy ipack/s opack/s iKbyte/s oKbyte/s imbps ombps maxmbps_if_" [].
Definition IFhead : option text := printf "interf ierr/s oerr/s coll/s idrop/s odrop/s iframe/s ocarrier/s  _if_" [].
Definition ipv4head : option text := printf "inrecv/s outreq/s indeliver/s forward/s reasmok/s fragcreat/s  _ipv4_" [].
Definition IPv4head : option text := printf "in: dsc/s hder/s ader/s unkp/s ratim/s rfail/s out: dsc/s nrt/s_ipv4_" [].
Definition icmpv4head : option text := printf "intot/s outtot/s  inecho/s inerep/s  otecho/s oterep/s       _icmpv4_" [].
Definition ICMPv4head : option text := printf "ierr/s isq/s ird/s idu/s ite/s oerr/s osq/s ord/s odu/s ote/s_icmpv4_" [].
Definition udpv4head : option text := printf "indgram/s outdgram/s   inerr/s  noport/s                      _udpv4_" [].
Definition ipv6head : option text := printf "inrecv/s outreq/s inmc/s outmc/s indeliv/s reasmok/s fragcre/s _ipv6_" [].
Definition IPv6head : option text := printf "in: dsc/s hder/s ader/s unkp/s ratim/s rfail/s out: dsc/s nrt/s_ipv6_" [].
Definition icmpv6head : option text := printf "intot/s outtot/s inerr/s innsol/s innadv/s otnsol/s otnadv/s  _icmp6_" [].
Definition ICMPv6head : option text := printf "iecho/s ierep/s oerep/s idu/s odu/s ird/s ord/s ite/s ote/s  _icmpv6_" [].
Definition udpv6head : option text := printf "indgram/s outdgram/s   inerr/s  noport/s                      _udpv6_" [].
Definition tcphead : option text := printf "insegs/s outsegs/s  actopen/s pasopen/s  nowopen                _tcp_" [].
Definition TCPhead : option text := printf "inerr/s  retrans/s  attfail/s  estabreset/s  outreset/s         _tcp_" [].
Definition topchead : option text := printf "  pid command  cpu%% |   pid command  cpu%% |   pid command  cpu%%_top3_" [].
Definition topmhead : option text := printf "  pid command  mem%% |   pid command  mem%% |   pid command  mem%%_top3_" [].
Definition topdhead : option text := printf "  pid command  dsk%% |   pid command  dsk%% |   pid command  dsk%%_top3_" [].
Definition topnhead : option text := printf "  pid command  net%% |   pid command  net%% |   pid command  net%%_top3_" [].

(** ** Colours and markers *)

Definition esc : ascii := "027"%char.
Definition COLSETHEAD : text := esc :: chars "[30;43m".
Definition COLSETMED : text := esc :: chars "[36m".
Definition COLSETHIGH : text := esc :: chars "[31m".
Definition COLRESET : text := esc :: chars "[00m".

Section lines.
Context (e : sarenv.sarenv) {Q : QSort}.

Definition almost (badness : Z) : bool :=
  negb (e.(sarenv.almostcrit) =? 0) && (e.(sarenv.almostcrit) <=? badness).

(** The text that switches colours on, and [coloron]. *)
Definition preprint (badness : Z) : text * bool :=
  if e.(sarenv.usecolors) then
    if 100 <=? badness then (COLSETHIGH, true)
    else if almost badness then (COLSETMED, true) else ([], false)
  else ([], false).

Definition postprint (coloron : bool) (badness : Z) : text :=
  (if coloron then COLRESET else []) ++
  (if e.(sarenv.usemarkers) then
     if 100 <=? badness then chars " *" else if almost badness then chars " +" else []
   else []) ++ [newline].

Definition painted (badness : Z) (line : option text) : option text :=
  t ← line;
  let pre := preprint badness in Some (pre.1 ++ t ++ postprint pre.2 badness).

(** ** Processors *)

Definition cputicks (c : percpu.percpu) : Z :=
  c.(percpu.stime) +64 c.(percpu.utime) +64 c.(percpu.ntime) +64 c.(percpu.itime) +64
  c.(percpu.wtime) +64 c.(percpu.Itime) +64 c.(percpu.Stime) +64 c.(percpu.steal).

Definition or_1 (z : Z) : Z := if z =? 0 then 1 else z. (* avoid divide-by-zero *)

Definition cpu_overload (c : percpu.percpu) (cputot : Z) : Z :=
  if e.(sarenv.cpubadness) =? 0 then 0
  else
    let busy := cputot -64 c.(percpu.itime) -64 c.(percpu.wtime) in
    to_uint (xdiv (xmul (xdiv (xmul (dbl busy 1) 100) (dbl cputot 1)) 100) (dbl e.(sarenv.cpubadness) 1)).

(** The columns of a processor; for all of them together [scale] multiplies
    with their number. *)
Definition cpu_columns (scale : Z * Z -> Z * Z) (c : percpu.percpu) (cputot : Z) : list arg :=
  (fun v => AFlt (scale (xdiv (xmul (dbl v 1) 100) (dbl cputot 1)))) <$>
  [c.(percpu.utime); c.(percpu.ntime); c.(percpu.stime); c.(percpu.Itime); c.(percpu.Stime);
   c.(percpu.steal); c.(percpu.guest); c.(percpu.wtime); c.(percpu.itime)].

Definition cpu_unit (tstamp : text) (i : nat) (c : percpu.percpu) : option text :=
  let cputot := or_1 (cputicks c) in
  t ← painted (cpu_overload c cputot)
        (printf "%4d %5.0lf %5.0lf %4.0lf %4.0lf %8.0lf %7.0f %6.0lf %6.0lf %5.0lf"
           (AInt (Z.of_nat i) :: cpu_columns id c cputot));
  Some (tstamp ++ chars " " ++ t).

Definition cpuline : priline := fun a s fs =>
  let cpu := s.(sstat.cpu) in
  let nrcpu := cpu.(cpustat.nrcpu) in
  let cputot := or_1 (cputicks cpu.(cpustat.all)) in
  t ← painted (cpu_overload cpu.(cpustat.all) cputot)
        (printf "all %5.0lf %5.0lf %4.0lf %4.0lf %8.0lf %7.0f %6.0f %6.0lf %5.0lf"
           (cpu_columns (fun x => xmul x nrcpu) cpu.(cpustat.all) cputot));
  if 1 <? nrcpu then
    units ← each_upto (Z.to_nat nrcpu) 0 (cpu_unit a.(sarargs.tstamp)) cpu.(cpustat.cpu);
    Some (t ++ units, 1 + nrcpu, s, fs)
  else Some (t, 1, s, fs).

Definition procline : priline := fun a s fs =>
  one_line s fs (printf ("%7.0lf %9.0lf %9.2lf  %8.2lf %8.2lf  %8.2lf" ++ nl)%string
   [per_second a s.(sstat.cpu).(cpustat.csw); per_second a s.(sstat.cpu).(cpustat.devint);
    per_second a s.(sstat.cpu).(cpustat.nprocs); AFlt (flt_value s.(sstat.cpu).(cpustat.lavg1));
    AFlt (flt_value s.(sstat.cpu).(cpustat.lavg5)); AFlt (flt_value s.(sstat.cpu).(cpustat.lavg15))]).

Definition taskline : priline := fun a s fs =>
  if a.(sarargs.ppres) =? 0 then not_available s fs "report not available for live measurements....."
  else
    let figures := [per_second a s.(sstat.cpu).(cpustat.nprocs); per_second a a.(sarargs.pexit);
                    AInt (i32 (a.(sarargs.nactproc) - a.(sarargs.pexit))); AInt a.(sarargs.pzombie)] in
    one_line s fs
      (if a.(sarargs.ts) then
         printf ("%8.2lf %7.2lf  %7d %7d    %6d %7d %7d" ++ nl)%string
           (figures ++ [AInt a.(sarargs.ntrun); AInt a.(sarargs.ntslpi); AInt a.(sarargs.ntslpu)])
       else printf ("%8.2lf %7.2lf  %7d %7d" ++ nl)%string figures).

(** ** Memory *)

Definition share_badness (used total limit : Z) : Z :=
  if limit =? 0 then 0
  else to_uint (xdiv (xmul (xdiv (xmul (dbl used 1) 100) (dbl total 1)) 100) (dbl limit 1)).

(** Pages in megabytes. *)
Definition megabytes (pages : Z) : Z :=
  i64 (Z.quot (i64 (pages * (e.(sarenv.pagesize) / 1024))) 1024).

Definition memline : priline := fun a s fs =>
  let m := s.(sstat.mem) in
  let mbadness := share_badness
    (m.(memstat.physmem) -64 m.(memstat.freemem) -64 m.(memstat.cachemem) -64 m.(memstat.buffermem))
    m.(memstat.physmem) e.(sarenv.membadness) in
  let sbadness := share_badness (m.(memstat.totswap) -64 m.(memstat.freeswap)) m.(memstat.totswap)
    e.(sarenv.swpbadness) in
  one_line s fs
    (painted (if sbadness <=? mbadness then mbadness else sbadness)
       (printf "%7lldM %6lldM %6lldM %5lldM %4lldM %6lldM  %7lldM %6lldM"
          ((fun p => AInt (megabytes p)) <$>
           [m.(memstat.physmem); m.(memstat.freemem); m.(memstat.buffermem); m.(memstat.cachemem);
            m.(memstat.cachedrt); m.(memstat.slabmem); m.(memstat.totswap); m.(memstat.freeswap)]))).

Definition swap_overload (m : memstat.memstat) (deltasec : Z) : option Z :=
  rate ← quot m.(memstat.swouts) deltasec;
  let badness := if e.(sarenv.membadness) =? 0 then 0
                 else u32 (Z.quot (i64 (i64 (rate * e.(sarenv.pagbadness)) * 100)) e.(sarenv.membadness)) in
  let badness := if (0 <? rate) && negb (e.(sarenv.pagbadness) =? 0) &&
                    negb (e.(sarenv.almostcrit) =? 0) && (badness <? e.(sarenv.almostcrit))
                 then e.(sarenv.almostcrit) else badness in
  Some (if negb (m.(memstat.commitlim) =? 0) && (m.(memstat.commitlim) <? m.(memstat.committed))
        then 100 else badness).

Definition swapline : priline := fun a s fs =>
  let m := s.(sstat.mem) in
  badness ← swap_overload m a.(sarargs.deltasec);
  one_line s fs
    (painted badness
       (printf "%10.2lf  %9.2lf  %9.2lf       %9lluM %9lluM"
          [per_second a m.(memstat.pgscans); per_second a m.(memstat.swins); per_second a m.(memstat.swouts);
           AInt (u64 (megabytes m.(memstat.committed))); AInt (u64 (megabytes m.(memstat.commitlim)))])).

(** ** Reports about units *)

(** The loop over the first [n] units: a unit is left out, or its line follows
    the time stamp when it is not the first. *)
Fixpoint unit_lines {A} (n : nat) (tstamp : text) (line : A -> option (option text * A)) (l : list A)
    (nlines : Z) : option (text * Z * list A) :=
  match n with
  | O => Some ([], nlines, l)
  | S n' =>
      match l with
      | [] => None
      | x :: l' =>
          '(r, x) ← line x;
          match r with
          | None =>
              '(t, nlines, l') ← unit_lines n' tstamp line l' nlines;
              Some (t, nlines, x :: l')
          | Some u =>
              '(t, nlines', l') ← unit_lines n' tstamp line l' (nlines + 1);
              Some ((if nlines =? 0 then [] else tstamp ++ chars "  ") ++ u ++ t, nlines', x :: l')
          end
      end
  end.

(** A report without units is an empty line. *)
Definition at_least_one (t : text) (nlines : Z) : text * Z :=
  if nlines =? 0 then (t ++ [newline], nlines + 1) else (t, nlines).

(** The last characters of a name. *)
Definition name_end (n : nat) (name : text) : text :=
  if (n <? length name)%nat then drop (length name - n) name else name.

(** ** Disks *)

(** The milliseconds of one processor during the interval. *)
Definition interval_ms (s : sstat.sstat) : option Z :=
  x ← quot (i64 (cputicks s.(sstat.cpu).(cpustat.all) * 1000)) e.(sarenv.hertz);
  quot x s.(sstat.cpu).(cpustat.nrcpu).

Definition ratio (x : Z * Z) (d : Z) : Z * Z := if d =? 0 then (0, 1) else xdiv x (dbl d 1).

Definition disk_unit (first : bool) (mstot : Z) (d : perdsk.perdsk) : option (option text * perdsk.perdsk) :=
  let iotot := d.(perdsk.nread) +64 d.(perdsk.nwrite) in
  if (iotot =? 0) && negb first && negb e.(sarenv.allresources) then Some (None, d)
  else
    let ms v k := ratio (xmul (dbl v 1) k) mstot in
    let kb sect n := if n =? 0 then (0, 1) else dbl_over (xdiv (dbl sect 1) (dbl n 1)) 2 in
    t ← painted (share_badness d.(perdsk.io_ms) mstot e.(sarenv.dskbadness))
          (printf "%-14s %3.0lf%% %6.1lf %7.1lf %7.1lf %7.1lf %5.1lf %6.2lf ms"
             [AStr (name_end 14 (chars d.(perdsk.name)));
              AFlt (ms d.(perdsk.io_ms) 100); AFlt (ms d.(perdsk.nread) 1000);
              AFlt (kb d.(perdsk.nrsect) d.(perdsk.nread)); AFlt (ms d.(perdsk.nwrite) 1000);
              AFlt (kb d.(perdsk.nwsect) d.(perdsk.nwrite));
              AFlt (ratio (dbl d.(perdsk.avque) 1) d.(perdsk.io_ms));
              AFlt (ratio (dbl d.(perdsk.io_ms) 1) iotot)]);
    Some (Some t, d).

Definition disk_table (selector : ascii) (d : dskstat.dskstat) : option (list perdsk.perdsk * Z) :=
  if Ascii.eqb selector "l" then Some (d.(dskstat.lvm), d.(dskstat.nlvm))
  else if Ascii.eqb selector "m" then Some (d.(dskstat.mdd), d.(dskstat.nmdd))
  else if Ascii.eqb selector "d" then Some (d.(dskstat.dsk), d.(dskstat.ndsk))
  else None.

Definition gendskline (s : sstat.sstat) (tstamp : text) (selector : ascii) (fs : sarfirst.sarfirst) :
    option (text * Z * sstat.sstat * sarfirst.sarfirst) :=
  match disk_table selector s.(sstat.dsk) with
  | None => Some ([], 0, s, fs)
  | Some (table, nunit) =>
      mstot ← interval_ms s;
      '(t, nlines, _) ← unit_lines (Z.to_nat nunit) tstamp (disk_unit fs.(sarfirst.first_dsk) mstot) table 0;
      let r := at_least_one t nlines in
      Some (r.1, r.2, s, set_first_dsk fs)
  end.

Definition lvmline : priline := fun a s fs => gendskline s a.(sarargs.tstamp) "l" fs.
Definition mddline : priline := fun a s fs => gendskline s a.(sarargs.tstamp) "m" fs.
Definition dskline : priline := fun a s fs => gendskline s a.(sarargs.tstamp) "d" fs.

(** ** NFS *)

Definition mount_unit (first : bool) (deltasec : Z) (m : pernfsmount.pernfsmount) :
    option (option text * pernfsmount.pernfsmount) :=
  let new := m.(pernfsmount.age) <? deltasec in
  if first || e.(sarenv.allresources) || new || negb (m.(pernfsmount.bytestotread) =? 0) ||
     negb (m.(pernfsmount.bytestotwrite) =? 0) then
    let rate v := AFlt (xdiv (dbl_over (dbl v 1) 1024) (dbl deltasec 1)) in
    t ← printf ("%-38s %10.3lfK %10.3lfK    %c" ++ nl)%string
          [AStr (name_end 38 (chars m.(pernfsmount.mountdev))); rate m.(pernfsmount.bytestotread);
           rate m.(pernfsmount.bytestotwrite); AChr (if new then "M"%char else " "%char)];
    Some (Some t, m)
  else Some (None, m).

Definition nfmline : priline := fun a s fs =>
  let mounts := s.(sstat.nfs).(nfsstat.nfsmounts) in
  '(t, nlines, _) ← unit_lines (Z.to_nat mounts.(nfsmounts.nrmounts)) a.(sarargs.tstamp)
                      (mount_unit fs.(sarfirst.first_nfm) a.(sarargs.deltasec)) mounts.(nfsmounts.nfsmnt) 0;
  let r := at_least_one t nlines in
  Some (r.1, r.2, s, set_first_nfm fs).

Definition nfcline : priline := fun a s fs =>
  one_line s fs (printf ("%10.2lf  %10.2lf  %10.2lf %10.2lf  %12.2lf" ++ nl)%string
   [per_second a s.(sstat.nfs).(nfsstat.client).(nfsclient.rpccnt);
    per_second a s.(sstat.nfs).(nfsstat.client).(nfsclient.rpcread);
    per_second a s.(sstat.nfs).(nfsstat.client).(nfsclient.rpcwrite);
    per_second a s.(sstat.nfs).(nfsstat.client).(nfsclient.rpcretrans);
    per_second a s.(sstat.nfs).(nfsstat.client).(nfsclient.rpcautrefresh)]).

Definition nfsline : priline := fun a s fs =>
  one_line s fs (printf ("%7.2lf %10.2lf %10.2lf %6.2lf %7.2lf %9.2lf %8.2lf" ++ nl)%string
   [per_second a s.(sstat.nfs).(nfsstat.server).(nfsserver.rpccnt);
    per_second a s.(sstat.nfs).(nfsstat.server).(nfsserver.rpcread);
    per_second a s.(sstat.nfs).(nfsstat.server).(nfsserver.rpcwrite);
    AFlt (xdiv (dbl_over (dbl_over (dbl s.(sstat.nfs).(nfsstat.server).(nfsserver.nrbytes) 1) 1024) 1024) (dbl a.(sarargs.deltasec) 1));
    AFlt (xdiv (dbl_over (dbl_over (dbl s.(sstat.nfs).(nfsstat.server).(nfsserver.nwbytes) 1) 1024) 1024) (dbl a.(sarargs.deltasec) 1));
    per_second a s.(sstat.nfs).(nfsstat.server).(nfsserver.nettcpcnt);
    per_second a s.(sstat.nfs).(nfsstat.server).(nfsserver.netudpcnt)]).

(** ** Interfaces *)

Definition intf_idle (first : bool) (f : perintf.perintf) : bool :=
  negb first && negb e.(sarenv.allresources) && (f.(perintf.rpack) =? 0) && (f.(perintf.spack) =? 0).

(** Percentage of the speed, which is not 0. *)
Definition busy_share (f : perintf.perintf) (speed ival oval : Z) : Z :=
  if negb (f.(perintf.duplex) =? 0)
  then i64 (Z.quot (if oval <? ival then i64 (ival * 100) else i64 (oval * 100)) speed)
  else i64 (Z.quot (i64 ((ival +64 oval) * 100)) speed).

Definition set_speed (v : Z) (f : perintf.perintf) : perintf.perintf :=
  {| perintf.name := f.(perintf.name); perintf.rbyte := f.(perintf.rbyte); perintf.rpack := f.(perintf.rpack);
     perintf.rerrs := f.(perintf.rerrs); perintf.rdrop := f.(perintf.rdrop); perintf.rfifo := f.(perintf.rfifo);
     perintf.rframe := f.(perintf.rframe); perintf.rcompr := f.(perintf.rcompr);
     perintf.rmultic := f.(perintf.rmultic); perintf.rfuture := f.(perintf.rfuture);
     perintf.sbyte := f.(perintf.sbyte); perintf.spack := f.(perintf.spack); perintf.serrs := f.(perintf.serrs);
     perintf.sdrop := f.(perintf.sdrop); perintf.sfifo := f.(perintf.sfifo);
     perintf.scollis := f.(perintf.scollis); perintf.scarrier := f.(perintf.scarrier);
     perintf.scompr := f.(perintf.scompr); perintf.sfuture := f.(perintf.sfuture);
     perintf.type := f.(perintf.type); perintf.speed := v; perintf.speedp := f.(perintf.speedp);
     perintf.duplex := f.(perintf.duplex); perintf.cfuture := f.(perintf.cfuture) |}.

(** A speed that is too low for the traffic gives way to the previous one. *)
Definition corrected_speed (f : perintf.perintf) (ival oval : Z) : perintf.perintf :=
  if (100 <? busy_share f f.(perintf.speed) ival oval) && (f.(perintf.speed) <? f.(perintf.speedp))
  then set_speed f.(perintf.speedp) f else f.

Definition intf_unit (first : bool) (a : sarargs.sarargs) (f : perintf.perintf) :
    option (option text * perintf.perintf) :=
  if intf_idle first f then Some (None, f)
  else
    ival ← quot (Z.quot f.(perintf.rbyte) 125000) a.(sarargs.deltasec);
    oval ← quot (Z.quot f.(perintf.sbyte) 125000) a.(sarargs.deltasec);
    let known := negb (f.(perintf.speed) =? 0) in
    let f := if known then corrected_speed f ival oval else f in
    (* a previous speed of 0 is above a negative one only *)
    if known && (f.(perintf.speed) =? 0) then None
    else
      let busy := if known then busy_share f f.(perintf.speed) ival oval else 0 in
      busyval ← (if known then printf "%3.0lf%%" [AFlt (dbl busy 1)] else Some (chars "?"));
      let dupval := if known then if negb (f.(perintf.duplex) =? 0) then "f"%char else "h"%char else " "%char in
      let badness := if e.(sarenv.netbadness) =? 0 then 0
                     else to_uint (xdiv (xmul (dbl busy 1) 100) (dbl e.(sarenv.netbadness) 1)) in
      let kbytes v := AFlt (xdiv (dbl_over (dbl v 1) 1024) (dbl a.(sarargs.deltasec) 1)) in
      t ← painted badness
            (printf "%-6s %4s %7.1lf %7.1lf %8.0lf %8.0lf %5lld %5lld %7ld %c"
               [AStr (name_end 6 (chars f.(perintf.name))); AStr (take 15 busyval);
                per_second a f.(perintf.rpack); per_second a f.(perintf.spack);
                kbytes f.(perintf.rbyte); kbytes f.(perintf.sbyte); AInt ival; AInt oval;
                AInt f.(perintf.speed); AChr dupval]);
      Some (Some t, f).

Definition set_intf (l : list perintf.perintf) (s : sstat.sstat) : sstat.sstat :=
  sstat.mk s.(sstat.cpu) s.(sstat.mem) s.(sstat.net) (intfstat.mk s.(sstat.intf).(intfstat.nrintf) l)
    s.(sstat.dsk) s.(sstat.nfs) s.(sstat.cfs) s.(sstat.www).

Definition ifline : priline := fun a s fs =>
  '(t, nlines, l) ← unit_lines (Z.to_nat s.(sstat.intf).(intfstat.nrintf)) a.(sarargs.tstamp)
                      (intf_unit fs.(sarfirst.first_if) a) s.(sstat.intf).(intfstat.intf) 0;
  let r := at_least_one t nlines in
  Some (r.1, r.2, set_intf l s, set_first_if fs).

Definition interr_unit (first : bool) (a : sarargs.sarargs) (f : perintf.perintf) :
    option (option text * perintf.perintf) :=
  if intf_idle first f then Some (None, f)
  else
    t ← printf ("%-6s %6.2lf %6.2lf %6.2lf %7.2lf %7.2lf %8.2lf %10.2lf" ++ nl)%string
          (AStr (name_end 6 (chars f.(perintf.name))) ::
           (per_second a <$> [f.(perintf.rerrs); f.(perintf.serrs); f.(perintf.scollis); f.(perintf.rdrop);
                              f.(perintf.sdrop); f.(perintf.rframe); f.(perintf.scarrier)]));
    Some (Some t, f).

Definition IFline : priline := fun a s fs =>
  '(t, nlines, _) ← unit_lines (Z.to_nat s.(sstat.intf).(intfstat.nrintf)) a.(sarargs.tstamp)
                      (interr_unit fs.(sarfirst.first_IF) a) s.(sstat.intf).(intfstat.intf) 0;
  let r := at_least_one t nlines in
  Some (r.1, r.2, s, set_first_IF fs).

(** ** Protocols *)

Definition ipv4line : priline := fun a s fs =>
  one_line s fs (printf ("%8.1lf %8.1lf %11.1lf %9.1lf %9.1lf %11.1lf" ++ nl)%string
   [per_second a s.(sstat.net).(netstat.ipv4).(ipv4_stats.InReceives);
    per_second a s.(sstat.net).(netstat.ipv4).(ipv4_stats.OutRequests);
    per_second a s.(sstat.net).(netstat.ipv4).(ipv4_stats.InDelivers);
    per_second a s.(sstat.net).(netstat.ipv4).(ipv4_stats.Forwarding);
    per_second a s.(sstat.net).(netstat.ipv4).(ipv4_stats.ReasmOKs);
    per_second a s.(sstat.net).(netstat.ipv4).(ipv4_stats.FragCreates)]).

Definition IPv4line : priline := fun a s fs =>
  one_line s fs (printf ("    %5.1lf %6.1lf %6.1lf %6.1lf %7.1lf %7.1lf      %5.1lf %5.1lf" ++ nl)%string
   [per_second a s.(sstat.net).(netstat.ipv4).(ipv4_stats.InDiscards);
    per_second a s.(sstat.net).(netstat.ipv4).(ipv4_stats.InHdrErrors);
    per_second a s.(sstat.net).(netstat.ipv4).(ipv4_stats.InAddrErrors);
    per_second a s.(sstat.net).(netstat.ipv4).(ipv4_stats.InUnknownProtos);
    per_second a s.(sstat.net).(netstat.ipv4).(ipv4_stats.ReasmTimeout);
    per_second a s.(sstat.net).(netstat.ipv4).(ipv4_stats.ReasmFails);
    per_second a s.(sstat.net).(netstat.ipv4).(ipv4_stats.OutDiscards);
    per_second a s.(sstat.net).(netstat.ipv4).(ipv4_stats.OutNoRoutes)]).

Definition icmpv4line : priline := fun a s fs =>
  one_line s fs (printf ("%7.1lf %8.1lf  %8.2lf %8.2lf  %8.2lf %8.2lf" ++ nl)%string
   [per_second a s.(sstat.net).(netstat.icmpv4).(icmpv4_stats.InMsgs);
    per_second a s.(sstat.net).(netstat.icmpv4).(icmpv4_stats.OutMsgs);
    per_second a s.(sstat.net).(netstat.icmpv4).(icmpv4_stats.InEchos);
    per_second a s.(sstat.net).(netstat.icmpv4).(icmpv4_stats.OutEchos);
    per_second a s.(sstat.net).(netstat.icmpv4).(icmpv4_stats.InEchoReps);
    per_second a s.(sstat.net).(netstat.icmpv4).(icmpv4_stats.OutEchoReps)]).

Definition ICMPv4line : priline := fun a s fs =>
  one_line s fs (printf ("%6.2lf %5.2lf %5.2lf %5.2lf %5.2lf %6.2lf %5.2lf %5.2lf %5.2lf %5.2lf" ++ nl)%string
   [per_second a s.(sstat.net).(netstat.icmpv4).(icmpv4_stats.InErrors);
    per_second a s.(sstat.net).(netstat.icmpv4).(icmpv4_stats.InSrcQuenchs);
    per_second a s.(sstat.net).(netstat.icmpv4).(icmpv4_stats.InRedirects);
    per_second a s.(sstat.net).(netstat.icmpv4).(icmpv4_stats.InDestUnreachs);
    per_second a s.(sstat.net).(netstat.icmpv4).(icmpv4_stats.InTimeExcds);
    per_second a s.(sstat.net).(netstat.icmpv4).(icmpv4_stats.OutErrors);
    per_second a s.(sstat.net).(netstat.icmpv4).(icmpv4_stats.OutSrcQuenchs);
    per_second a s.(sstat.net).(netstat.icmpv4).(icmpv4_stats.OutRedirects);
    per_second a s.(sstat.net).(netstat.icmpv4).(icmpv4_stats.OutDestUnreachs);
    per_second a s.(sstat.net).(netstat.icmpv4).(icmpv4_stats.OutTimeExcds)]).

Definition udpv4line : priline := fun a s fs =>
  one_line s fs (printf ("%9.1lf %10.1lf   %7.2lf %9.2lf" ++ nl)%string
   [per_second a s.(sstat.net).(netstat.udpv4).(udpv4_stats.InDatagrams);
    per_second a s.(sstat.net).(netstat.udpv4).(udpv4_stats.OutDatagrams);
    per_second a s.(sstat.net).(netstat.udpv4).(udpv4_stats.InErrors);
    per_second a s.(sstat.net).(netstat.udpv4).(udpv4_stats.NoPorts)]).

Definition ipv6line : priline := fun a s fs =>
  one_line s fs (printf ("%8.1lf %8.1lf %6.1lf %7.1lf %9.1lf %9.1lf %9.1lf" ++ nl)%string
   [per_second a s.(sstat.net).(netstat.ipv6).(ipv6_stats.Ip6InReceives);
    per_second a s.(sstat.net).(netstat.ipv6).(ipv6_stats.Ip6OutRequests);
    per_second a s.(sstat.net).(netstat.ipv6).(ipv6_stats.Ip6InMcastPkts);
    per_second a s.(sstat.net).(netstat.ipv6).(ipv6_stats.Ip6OutMcastPkts);
    per_second a s.(sstat.net).(netstat.ipv6).(ipv6_stats.Ip6InDelivers);
    per_second a s.(sstat.net).(netstat.ipv6).(ipv6_stats.Ip6ReasmOKs);
    per_second a s.(sstat.net).(netstat.ipv6).(ipv6_stats.Ip6FragCreates)]).

Definition IPv6line : priline := fun a s fs =>
  one_line s fs (printf ("    %5.1lf %6.1lf %6.1lf %6.1lf %7.1lf %7.1lf      %5.1lf %5.1lf" ++ nl)%string
   [per_second a s.(sstat.net).(netstat.ipv6).(ipv6_stats.Ip6InDiscards);
    per_second a s.(sstat.net).(netstat.ipv6).(ipv6_stats.Ip6InHdrErrors);
    per_second a s.(sstat.net).(netstat.ipv6).(ipv6_stats.Ip6InAddrErrors);
    per_second a s.(sstat.net).(netstat.ipv6).(ipv6_stats.Ip6InUnknownProtos);
    per_second a s.(sstat.net).(netstat.ipv6).(ipv6_stats.Ip6ReasmTimeout);
    per_second a s.(sstat.net).(netstat.ipv6).(ipv6_stats.Ip6ReasmFails);
    per_second a s.(sstat.net).(netstat.ipv6).(ipv6_stats.Ip6OutDiscards);
    per_second a s.(sstat.net).(netstat.ipv6).(ipv6_stats.Ip6OutNoRoutes)]).

Definition icmpv6line : priline := fun a s fs =>
  one_line s fs (printf ("%7.1lf %8.1lf %7.2lf %8.2lf %8.2lf %8.2lf %8.2lf" ++ nl)%string
   [per_second a s.(sstat.net).(netstat.icmpv6).(icmpv6_stats.Icmp6InMsgs);
    per_second a s.(sstat.net).(netstat.icmpv6).(icmpv6_stats.Icmp6OutMsgs);
    per_second a s.(sstat.net).(netstat.icmpv6).(icmpv6_stats.Icmp6InErrors);
    per_second a s.(sstat.net).(netstat.icmpv6).(icmpv6_stats.Icmp6InNeighborSolicits);
    per_second a s.(sstat.net).(netstat.icmpv6).(icmpv6_stats.Icmp6InNeighborAdvertisements);
    per_second a s.(sstat.net).(netstat.icmpv6).(icmpv6_stats.Icmp6OutNeighborSolicits);
    per_second a s.(sstat.net).(netstat.icmpv6).(icmpv6_stats.Icmp6OutNeighborAdvertisements)]).

Definition ICMPv6line : priline := fun a s fs =>
  one_line s fs (printf ("%7.2lf %7.2lf %7.2lf %5.2lf %5.2lf %5.2lf %5.2lf %5.2lf %5.2lf" ++ nl)%string
   [per_second a s.(sstat.net).(netstat.icmpv6).(icmpv6_stats.Icmp6InEchos);
    per_second a s.(sstat.net).(netstat.icmpv6).(icmpv6_stats.Icmp6InEchoReplies);
    per_second a s.(sstat.net).(netstat.icmpv6).(icmpv6_stats.Icmp6OutEchoReplies);
    per_second a s.(sstat.net).(netstat.icmpv6).(icmpv6_stats.Icmp6InDestUnreachs);
    per_second a s.(sstat.net).(netstat.icmpv6).(icmpv6_stats.Icmp6OutDestUnreachs);
    per_second a s.(sstat.net).(netstat.icmpv6).(icmpv6_stats.Icmp6InRedirects);
    per_second a s.(sstat.net).(netstat.icmpv6).(icmpv6_stats.Icmp6OutRedirects);
    per_second a s.(sstat.net).(netstat.icmpv6).(icmpv6_stats.Icmp6InTimeExcds);
    per_second a s.(sstat.net).(netstat.icmpv6).(icmpv6_stats.Icmp6OutTimeExcds)]).

Definition udpv6line : priline := fun a s fs =>
  one_line s fs (printf ("%9.1lf %10.1lf   %7.2lf %9.2lf" ++ nl)%string
   [per_second a s.(sstat.net).(netstat.udpv6).(udpv6_stats.Udp6InDatagrams);
    per_second a s.(sstat.net).(netstat.udpv6).(udpv6_stats.Udp6OutDatagrams);
    per_second a s.(sstat.net).(netstat.udpv6).(udpv6_stats.Udp6InErrors);
    per_second a s.(sstat.net).(netstat.udpv6).(udpv6_stats.Udp6NoPorts)]).

Definition tcpline : priline := fun a s fs =>
  one_line s fs (printf ("%8.1lf %9.1lf  %9.1lf %9.1lf  %7lld" ++ nl)%string
   [per_second a s.(sstat.net).(netstat.tcp).(tcp_stats.InSegs);
    per_second a s.(sstat.net).(netstat.tcp).(tcp_stats.OutSegs);
    per_second a s.(sstat.net).(netstat.tcp).(tcp_stats.ActiveOpens);
    per_second a s.(sstat.net).(netstat.tcp).(tcp_stats.PassiveOpens);
    AInt s.(sstat.net).(netstat.tcp).(tcp_stats.CurrEstab)]).

Definition TCPline : priline := fun a s fs =>
  one_line s fs (printf ("%7.1lf  %9.1lf  %9.1lf  %12.1lf  %10.1lf" ++ nl)%string
   [per_second a s.(sstat.net).(netstat.tcp).(tcp_stats.InErrs);
    per_second a s.(sstat.net).(netstat.tcp).(tcp_stats.RetransSegs);
    per_second a s.(sstat.net).(netstat.tcp).(tcp_stats.AttemptFails);
    per_second a s.(sstat.net).(netstat.tcp).(tcp_stats.EstabResets);
    per_second a s.(sstat.net).(netstat.tcp).(tcp_stats.OutRsts)]).

(** ** The three processes with the largest consumption *)

(** The columns of the process at place [i] of the sorted list; [None] inside
    when it is not shown. *)
Definition top_columns (a : sarargs.sarargs) (sorted : list tstat.tstat) (part : tstat.tstat -> option (Z * Z))
    (i : nat) : option (option (list arg)) :=
  if a.(sarargs.nactproc) <? Z.of_nat (S i) then Some None
  else
    t ← sorted !! i;
    Some (x ← part t; Some [AInt t.(tstat.gen).(tgen.pid); AStr (chars t.(tstat.gen).(tgen.name)); AFlt x]).

Definition top_cell (full blank : string) (columns : option (list arg)) : option text :=
  match columns with
  | Some args => printf full args
  | None => printf blank [AStr (chars " ")]
  end.

Definition top_line (a : sarargs.sarargs) (s : sstat.sstat) (fs : sarfirst.sarfirst)
    (sorted : list tstat.tstat) (part : tstat.tstat -> option (Z * Z)) :
    option (text * Z * sstat.sstat * sarfirst.sarfirst) :=
  c0 ← top_columns a sorted part 0; t0 ← top_cell "%5d %-8.8s %3.0lf%% | " "%19s | " c0;
  c1 ← top_columns a sorted part 1; t1 ← top_cell "%5d %-8.8s %3.0lf%% | " "%19s | " c1;
  c2 ← top_columns a sorted part 2;
  t2 ← top_cell ("%5d %-8.8s %3.0lf%%" ++ nl)%string ("%19s" ++ nl)%string c2;
  Some (t0 ++ t1 ++ t2, 1, s, fs).

(** The share of a consumption that is positive. *)
Definition positive_share (v avail : Z) : option (Z * Z) :=
  if 0 <? v then Some (xdiv (xmul (dbl v 1) 100) (dbl avail 1)) else None.

Definition topcline : priline := fun a s fs =>
  if negb a.(sarargs.ts) then not_available s fs "report not available....."
  else
    let sorted := qsort compcpu a.(sarargs.ps) in
    q ← quot (cputicks s.(sstat.cpu).(cpustat.all)) s.(sstat.cpu).(cpustat.nrcpu);
    let availcpu := or_1 q in
    top_line a s fs sorted
      (fun t => positive_share (t.(tstat.cpu).(tcpu.stime) +64 t.(tstat.cpu).(tcpu.utime)) availcpu).

Definition topmline : priline := fun a s fs =>
  if negb a.(sarargs.ts) then not_available s fs "report not available....."
  else
    let sorted := qsort compmem a.(sarargs.ps) in
    let availmem := i64 (Z.quot (i64 (s.(sstat.mem).(memstat.physmem) * e.(sarenv.pagesize))) 1024) in
    top_line a s fs sorted
      (fun t => Some (xdiv (xmul (dbl t.(tstat.mem).(tmem.rmem) 1) 100) (dbl availmem 1))).

(** The sum of a consumption over the processes. *)
Definition consumption (f : tstat.tstat -> Z) (a : sarargs.sarargs) : option Z :=
  if a.(sarargs.nactproc) <=? Z.of_nat (length a.(sarargs.ps)) then
    Some (fold_left (fun sum t => sum +64 f t) (take (Z.to_nat a.(sarargs.nactproc)) a.(sarargs.ps)) 0)
  else None.

Definition disk_accesses (t : tstat.tstat) : Z := t.(tstat.dsk).(tdsk.rio) +64 t.(tstat.dsk).(tdsk.wio).

Definition topdline : priline := fun a s fs =>
  if negb a.(sarargs.ts) then not_available s fs "report not available....."
  else if negb (flagged e.(sarenv.supportflags) IOSTAT)
  then not_available s fs "no per-process disk counters available....."
  else
    sum ← consumption disk_accesses a;
    top_line a s fs (qsort compdsk a.(sarargs.ps)) (fun t => positive_share (disk_accesses t) (or_1 sum)).

Definition topnline : priline := fun a s fs =>
  if negb a.(sarargs.ts) then not_available s fs "report not available....."
  else if negb (flagged e.(sarenv.supportflags) NETATOP)
  then not_available s fs "no per-process network counters available....."
  else
    sum ← consumption net_load a;
    top_line a s fs (qsort compnet a.(sarargs.ps)) (fun t => positive_share (net_load t) (or_1 sum)).
End lines.

(** ** The table of reports *)

Module pridef.
Record pridef := mk {
  cntcat : text;
  flag : ascii;
  prihead : option text;
  priline : sarargs.sarargs -> sstat.sstat -> sarfirst.sarfirst ->
    option (text * Z * sstat.sstat * sarfirst.sarfirst);
  about : string
}.
End pridef.

Section table.
Context (e : sarenv.sarenv) {Q : QSort}.

Definition pridef_table : list pridef.pridef := [
  pridef.mk (chars "c") "c" cpuhead (cpuline e) "cpu utilization";
  pridef.mk (chars "c") "p" prochead procline "process(or) load";
  pridef.mk (chars "c") "P" taskhead taskline "processes & threads";
  pridef.mk (chars "m") "m" memhead (memline e) "memory & swapspace";
  pridef.mk (chars "m") "s" swaphead (swapline e) "swap rate";
  pridef.mk (chars "cd") "l" lvmhead (lvmline e) "logical volume activity";
  pridef.mk (chars "cd") "f" mddhead (mddline e) "multiple device activity";
  pridef.mk (chars "cd") "d" dskhead (dskline e) "disk activity";
  pridef.mk (chars "n") "n" nfmhead (nfmline e) "NFS client mounts";
  pridef.mk (chars "n") "j" nfchead nfcline "NFS client activity";
  pridef.mk (chars "n") "J" nfshead nfsline "NFS server activity";
  pridef.mk (chars "n") "i" ifhead (ifline e) "net-interf (general)";
  pridef.mk (chars "n") "I" IFhead (IFline e) "net-interf (errors)";
  pridef.mk (chars "n") "w" ipv4head ipv4line "ip   v4    (general)";
  pridef.mk (chars "n") "W" IPv4head IPv4line "ip   v4    (errors)";
  pridef.mk (chars "n") "y" icmpv4head icmpv4line "icmp v4    (general)";
  pridef.mk (chars "n") "Y" ICMPv4head ICMPv4line "icmp v4    (per type)";
  pridef.mk (chars "n") "u" udpv4head udpv4line "udp  v4";
  pridef.mk (chars "n") "z" ipv6head ipv6line "ip   v6    (general)";
  pridef.mk (chars "n") "Z" IPv6head IPv6line "ip   v6    (errors)";
  pridef.mk (chars "n") "k" icmpv6head icmpv6line "icmp v6    (general)";
  pridef.mk (chars "n") "K" ICMPv6head ICMPv6line "icmp v6    (per type)";
  pridef.mk (chars "n") "U" udpv6head udpv6line "udp  v6";
  pridef.mk (chars "n") "t" tcphead tcpline "tcp        (general)";
  pridef.mk (chars "n") "T" TCPhead TCPline "tcp        (errors)";
  pridef.mk [] "O" topchead topcline "top-3 processes cpu";
  pridef.mk [] "G" topmhead (topmline e) "top-3 processes memory";
  pridef.mk [] "D" topdhead (topdline e) "top-3 processes disk";
  pridef.mk [] "N" topnhead (topnline e) "top-3 processes network"].

End table.
