(* ===== verification/Atopsar.v ===== *)
(** * Activity reports: atopsar.c

    [reportraw] is the display that [rawread] calls for atopsar: it prints the
    head of the report when it is due, adds samples up when they are to be
    summarized, prints a line for a sample or a sum, and tells of restarts of
    the log. [reportlive] is called with the deviations of live samples. The
    functions of the table are in [Sarlines].

    [localtime], [mktime], the current time and the size of the terminal are
    parameters. What is printed is collected in the state; the static variables
    of [reportraw] and [reportlive], of which a run uses one, share their
    places. *)
From Stdlib Require Import Ascii.
From S2P Require Import Prelude Format Printf Sscanf Tstat Sstat Various Compar Totalsyst Parseable Rawlog Sarlines.

(** ** Settings *)

(** What the flags of the command or of the file .atoprc set. *)
Module saropts.
Record saropts := mk {
  stampalways : bool;
  usecolors : Z;
  usemarkers : bool;
  repeathead : Z;
  allresources : bool;
  wanted : list bool;
  numreports : Z
}.
End saropts.

Definition set_stampalways (o : saropts.saropts) : saropts.saropts :=
  saropts.mk true o.(saropts.usecolors) o.(saropts.usemarkers) o.(saropts.repeathead)
    o.(saropts.allresources) o.(saropts.wanted) o.(saropts.numreports).
Definition set_usecolors (c : Z) (o : saropts.saropts) : saropts.saropts :=
  saropts.mk o.(saropts.stampalways) c o.(saropts.usemarkers) o.(saropts.repeathead)
    o.(saropts.allresources) o.(saropts.wanted) o.(saropts.numreports).
Definition set_usemarkers (o : saropts.saropts) : saropts.saropts :=
  saropts.mk o.(saropts.stampalways) o.(saropts.usecolors) true o.(saropts.repeathead)
    o.(saropts.allresources) o.(saropts.wanted) o.(saropts.numreports).
Definition set_repeathead (n : Z) (o : saropts.saropts) : saropts.saropts :=
  saropts.mk o.(saropts.stampalways) o.(saropts.usecolors) o.(saropts.usemarkers) n
    o.(saropts.allresources) o.(saropts.wanted) o.(saropts.numreports).
Definition set_allresources (o : saropts.saropts) : saropts.saropts :=
  saropts.mk o.(saropts.stampalways) o.(saropts.usecolors) o.(saropts.usemarkers) o.(saropts.repeathead)
    true o.(saropts.wanted) o.(saropts.numreports).
Definition set_reports (w : list bool) (n : Z) (o : saropts.saropts) : saropts.saropts :=
  saropts.mk o.(saropts.stampalways) o.(saropts.usecolors) o.(saropts.usemarkers) o.(saropts.repeathead)
    o.(saropts.allresources) w n.

(** The first report with a flag that is not wanted yet. *)
Fixpoint find_flag (flags : list ascii) (wanted : list bool) (c : ascii) : option nat :=
  match flags, wanted with
  | f :: flags, w :: wanted =>
      if Ascii.eqb f c && negb w then Some O else S <$> find_flag flags wanted c
  | _, _ => None
  end.

(** The number of lines after which heads are repeated; [ws_row] is the answer
    of the terminal, when there is one. *)
Definition head_lines (ws_row : option Z) : Z :=
  match ws_row with Some rows => u32 (rows - 1) | None => 23 end.

(** One of the default flags; [flags] are those of the table of reports. *)
Definition sar_flag (flags : list ascii) (ws_row : option Z) (c : ascii) (o : saropts.saropts) : saropts.saropts :=
  if Ascii.eqb c "-" then o
  else if Ascii.eqb c "S" then set_stampalways o
  else if Ascii.eqb c "x" then set_usecolors 0 o
  else if Ascii.eqb c "C" then set_usecolors 97 o (* 'a' *)
  else if Ascii.eqb c "M" then set_usemarkers o
  else if Ascii.eqb c "H" then set_repeathead (head_lines ws_row) o
  else if Ascii.eqb c "a" then set_allresources o
  else if Ascii.eqb c "A" then
    set_reports (replicate (length flags) true) (Z.of_nat (length flags)) o
  else
    match find_flag flags o.(saropts.wanted) c with
    | Some j => set_reports (<[j := true]> o.(saropts.wanted)) (o.(saropts.numreports) + 1) o
    | None => o
    end.

Definition do_atopsarflags (flags : list ascii) (ws_row : option Z) (val : text) (o : saropts.saropts) :
    saropts.saropts :=
  fold_left (fun o c => sar_flag flags ws_row c o) val o.

(** if no report-flags have been specified, take the first *)
Definition default_report (o : saropts.saropts) : saropts.saropts :=
  if o.(saropts.numreports) =? 0 then set_reports (<[0%nat := true]> o.(saropts.wanted)) 1 o else o.

(** ** The state of the reports *)

(** The sums since the last line, and what is remembered of the last sample. *)
Module sarsum.
Record sarsum := mk {
  sampsum : Z;
  totalsec : Z;
  totalexit : Z;
  totsyst : sstat.sstat;
  lasttime : Z;
  lastnpres : Z;
  lastntrun : Z;
  lastntslpi : Z;
  lastntslpu : Z;
  lastnzomb : Z
}.
End sarsum.

(** New sums up to sample [until]. *)
Definition new_sums (until : Z) (u : sarsum.sarsum) : sarsum.sarsum :=
  sarsum.mk (u32 until) 0 0 sstat_zero u.(sarsum.lasttime) u.(sarsum.lastnpres) u.(sarsum.lastntrun)
    u.(sarsum.lastntslpi) u.(sarsum.lastntslpu) u.(sarsum.lastnzomb).

Module sarst.
Record sarst := mk {
  wanted : list bool;
  numreports : Z;
  prinow : nat;
  daylim : Z;
  pretime : Z;
  firstcall : bool;
  curline : Z;
  headline : Z;
  sums : sarsum.sarsum;
  firsts : sarfirst.sarfirst;
  out : text
}.
End sarst.
Notation sarst := sarst.sarst.

Section setters.
Implicit Types st : sarst.

Definition set_wanted w n st := sarst.mk w n st.(sarst.prinow) st.(sarst.daylim) st.(sarst.pretime)
  st.(sarst.firstcall) st.(sarst.curline) st.(sarst.headline) st.(sarst.sums) st.(sarst.firsts) st.(sarst.out).
Definition set_report i d st := sarst.mk st.(sarst.wanted) st.(sarst.numreports) i d st.(sarst.pretime)
  st.(sarst.firstcall) st.(sarst.curline) st.(sarst.headline) st.(sarst.sums) st.(sarst.firsts) st.(sarst.out).
Definition set_daylim d st := set_report st.(sarst.prinow) d st.
Definition set_pretime p st := sarst.mk st.(sarst.wanted) st.(sarst.numreports) st.(sarst.prinow) st.(sarst.daylim)
  p st.(sarst.firstcall) st.(sarst.curline) st.(sarst.headline) st.(sarst.sums) st.(sarst.firsts) st.(sarst.out).
Definition set_firstcall st := sarst.mk st.(sarst.wanted) st.(sarst.numreports) st.(sarst.prinow)
  st.(sarst.daylim) st.(sarst.pretime) false st.(sarst.curline) st.(sarst.headline) st.(sarst.sums)
  st.(sarst.firsts) st.(sarst.out).
Definition set_curline c st := sarst.mk st.(sarst.wanted) st.(sarst.numreports) st.(sarst.prinow)
  st.(sarst.daylim) st.(sarst.pretime) st.(sarst.firstcall) (u32 c) st.(sarst.headline) st.(sarst.sums)
  st.(sarst.firsts) st.(sarst.out).
Definition set_headline h st := sarst.mk st.(sarst.wanted) st.(sarst.numreports) st.(sarst.prinow)
  st.(sarst.daylim) st.(sarst.pretime) st.(sarst.firstcall) st.(sarst.curline) (u32 h) st.(sarst.sums)
  st.(sarst.firsts) st.(sarst.out).
Definition set_sums u st := sarst.mk st.(sarst.wanted) st.(sarst.numreports) st.(sarst.prinow)
  st.(sarst.daylim) st.(sarst.pretime) st.(sarst.firstcall) st.(sarst.curline) st.(sarst.headline) u
  st.(sarst.firsts) st.(sarst.out).
Definition set_firsts f st := sarst.mk st.(sarst.wanted) st.(sarst.numreports) st.(sarst.prinow)
  st.(sarst.daylim) st.(sarst.pretime) st.(sarst.firstcall) st.(sarst.curline) st.(sarst.headline)
  st.(sarst.sums) f st.(sarst.out).
Definition print (t : text) st := sarst.mk st.(sarst.wanted) st.(sarst.numreports) st.(sarst.prinow)
  st.(sarst.daylim) st.(sarst.pretime) st.(sarst.firstcall) st.(sarst.curline) st.(sarst.headline)
  st.(sarst.sums) st.(sarst.firsts) (st.(sarst.out) ++ t).
End setters.

(** ** Sums of samples *)

(** A sample, the deviations of the system and the tasks. *)
Definition sample : Type := shown tstat.tstat sstat.sstat.

(** maintain totals per category *)
Fixpoint add_categories (cats : text) (new tot : sstat.sstat) : option sstat.sstat :=
  match cats with
  | [] => Some tot
  | c :: cats => tot ← totalsyst (Z.of_nat (nat_of_ascii c)) new tot; add_categories cats new tot
  end.

Definition add_sample (cats : text) (x : sample) (u : sarsum.sarsum) : option sarsum.sarsum :=
  totsyst ← add_categories cats x.(shown.sstat) u.(sarsum.totsyst);
  let d := x.(shown.devtstat) in
  Some (sarsum.mk u.(sarsum.sampsum) (u32 (u.(sarsum.totalsec) + i32 x.(shown.interval)))
          (u32 (u.(sarsum.totalexit) + i32 x.(shown.nexit))) totsyst x.(shown.curtime)
          (u32 d.(rawtasks.nprocall)) (u32 d.(rawtasks.totrun)) (u32 d.(rawtasks.totslpi))
          (u32 d.(rawtasks.totslpu)) (u32 d.(rawtasks.totzombie))).

(** print line only if needed *)
Definition sum_due (x : sample) (u : sarsum.sarsum) : bool :=
  (u.(sarsum.sampsum) <=? x.(shown.sampcnt)) ||
  (flagged x.(shown.flags) RRLAST && negb (u.(sarsum.totalsec) =? 0)).

Section reports.
(** The reports, which look at the support flags of the moment, the settings and
    the surroundings: the flags -S, -H and -R, the system of the samples,
    conversion of times, the time of the start. *)
Context (pridefs : Z -> list pridef.pridef) (stampalways : bool) (repeathead summarycnt : Z)
  (usecolors : bool) (hertz : Z) (nodename release version machine : text)
  (localtime : Z -> tm.tm) (mktime : tm.tm -> Z) (now : Z).

(** The arguments of a line that sums samples up. *)
Definition sum_args (tstamp : text) (u : sarsum.sarsum) (ppres ntrun ntslpi ntslpu pzombie : Z) : sarargs.sarargs :=
  sarargs.mk false [] 0 u.(sarsum.totalsec) (u32 (u.(sarsum.totalsec) * hertz)) hertz tstamp
    (i32 ppres) (i32 ntrun) (i32 ntslpi) (i32 ntslpu) (i32 u.(sarsum.totalexit)) (i32 pzombie).

(** Those of a line for a sample; the list of processes holds positions in the
    array of tasks. *)
Definition sample_args (tstamp : text) (x : sample) : option sarargs.sarargs :=
  let d := x.(shown.devtstat) in
  ps ← mapM (fun i => d.(rawtasks.taskall) !! i) d.(rawtasks.procall);
  let numsecs := i32 x.(shown.interval) in
  Some (sarargs.mk true ps (i32 d.(rawtasks.nprocall)) numsecs (i32 (numsecs * hertz)) hertz tstamp
          (i32 (Z.of_nat (length d.(rawtasks.taskall)))) (i32 d.(rawtasks.totrun)) (i32 d.(rawtasks.totslpi))
          (i32 d.(rawtasks.totslpu)) (i32 x.(shown.nexit)) (i32 d.(rawtasks.totzombie))).

(** A sample that is summarized: the arguments and the sample of the line, when
    one is due, and the sums afterwards. *)
Definition sum_step (cats : text) (tstamp : text) (x : sample) (u : sarsum.sarsum) :
    option (option (sarargs.sarargs * sstat.sstat) * sarsum.sarsum) :=
  u ← add_sample cats x u;
  if sum_due x u then
    let d := x.(shown.devtstat) in
    Some (Some (sum_args tstamp u (Z.of_nat (length d.(rawtasks.taskall))) d.(rawtasks.totrun)
                  d.(rawtasks.totslpi) d.(rawtasks.totslpu) d.(rawtasks.totzombie), u.(sarsum.totsyst)),
          new_sums (summarycnt + x.(shown.sampcnt)) u)
  else Some (None, u).

(** ** Headers *)

Definition daylimit (timval : Z) : Z :=
  let tp := localtime timval in
  mktime (tm.mk 59 59 23 tp.(tm.tm_mday) tp.(tm.tm_mon) tp.(tm.tm_year)).

Definition reportheader (mtime : Z) (st : sarst) : option sarst :=
  t ← printf (nl ++ "%s  %s  %s  %s  %s" ++ nl ++ nl)%string
        [AStr nodename; AStr release; AStr version; AStr machine; AStr (convdate localtime mtime)];
  Some (print t st).

Definition datemsg : string :=
  ("-------------------------- analysis date: %s --------------------------" ++ nl)%string.

(** verify if we have passed midnight *)
Definition pass_midnight (curtime : Z) (st : sarst) : option sarst :=
  if st.(sarst.daylim) <? curtime then
    t ← printf datemsg [AStr (convdate localtime curtime)];
    let st := set_daylim (daylimit curtime) (print t st) in
    Some (set_curline (st.(sarst.curline) + 1) st)
  else Some st.

Definition stamp (t : Z) : text := convtime localtime t ++ chars "  ".

(** A time stamp with the head of a report. *)
Definition print_head (p : pridef.pridef) (time : Z) (st : sarst) : option sarst :=
  h ← p.(pridef.prihead);
  Some (print (newline :: (if usecolors then COLSETHEAD else []) ++ stamp time ++ h ++
               (if usecolors then COLRESET else []) ++ [newline]) st).

(** check if a (new) report header needs to be printed *)
Definition head_if_due (p : pridef.pridef) (time : Z) (st : sarst) : option sarst :=
  if st.(sarst.headline) <=? st.(sarst.curline) then
    st ← print_head p time (set_headline (st.(sarst.curline) + repeathead) st);
    Some (set_curline (st.(sarst.curline) + 2) st)
  else Some st.

Definition line_stamp (t : Z) : text := if stampalways then convtime localtime t else chars "        ".

(** ** Samples of a log *)

(** The report fails: it is not called again, and the program ends with the
    last report. *)
Definition drop_report (st : sarst) : exitor sarst :=
  let st := set_wanted (<[st.(sarst.prinow) := false]> st.(sarst.wanted)) (i32 (st.(sarst.numreports) - 1)) st in
  if st.(sarst.numreports) =? 0 then Exit 1 else Ret st.

(** A line of report [p] at time [t]; [rv] is what the line function returns. *)
Definition print_line (p : pridef.pridef) (t : Z) (a : sarargs.sarargs) (ss : sstat.sstat) (st : sarst) :
    run (Z * sarst) :=
  '(line, rv, _, firsts) ← may_fault (p.(pridef.priline) a ss st.(sarst.firsts));
  let st := set_firsts firsts (print (stamp t ++ line) st) in
  if rv =? 0 then
    st ← lift (drop_report (set_curline (st.(sarst.curline) + 1) st)); lift (Ret (rv, st))
  else lift (Ret (rv, set_curline (st.(sarst.curline) + rv) st)).

(** The first record for a new report. *)
Definition first_record (curtime : Z) (st : sarst) : sarst :=
  set_sums (new_sums (summarycnt + 1) st.(sarst.sums)) (set_headline 0 (set_curline 1 (set_pretime curtime st))).

(** The record after a restart of the log: the sums up to the previous record
    are printed and start again. *)
Definition restart (p : pridef.pridef) (x : sample) (st : sarst) : run sarst :=
  let u := st.(sarst.sums) in
  st ← (if (1 <? summarycnt) && (x.(shown.sampcnt) <=? u.(sarsum.sampsum)) && negb (u.(sarsum.totalsec) =? 0)
        then
          r ← print_line p u.(sarsum.lasttime)
                (sum_args (line_stamp u.(sarsum.lasttime)) u u.(sarsum.lastnpres) u.(sarsum.lastntrun)
                   u.(sarsum.lastntslpi) u.(sarsum.lastntslpu) u.(sarsum.lastnzomb))
                u.(sarsum.totsyst) st;
          lift (Ret r.2)
        else lift (Ret st));
  let st := print (stamp x.(shown.curtime) ++
    chars "......................... logging restarted ........................." ++ [newline]) st in
  let st := set_pretime x.(shown.curtime) st in
  let st := set_curline (st.(sarst.curline) + 1) st in
  lift (Ret (set_sums (new_sums (summarycnt + x.(shown.sampcnt)) st.(sarst.sums)) st)).

(** The line of a sample, or of a sum when it is due; without a line [rv] is 1. *)
Definition sample_line (p : pridef.pridef) (x : sample) (st : sarst) : run (Z * sarst) :=
  let t := x.(shown.curtime) in
  if summarycnt =? 1 then
    a ← may_fault (sample_args (line_stamp t) x);
    print_line p t a x.(shown.sstat) st
  else
    '(call, u) ← may_fault (sum_step p.(pridef.cntcat) (line_stamp t) x st.(sarst.sums));
    match call with
    | Some (a, totsyst) =>
        '(rv, st) ← print_line p t a totsyst st;
        lift (Ret (rv, set_sums u st))
    | None => lift (Ret (1, set_sums u st))
    end.

Definition reportraw (x : sample) (begintime : Z) (st : sarst) : run (Z * Z * sarst) :=
  wanted ← may_fault (st.(sarst.wanted) !! st.(sarst.prinow));
  if negb wanted then lift (Ret (0, begintime, st))
  else
    st ← may_fault (if st.(sarst.firstcall) then st ← reportheader now st; Some (set_firstcall st) else Some st);
    st ← may_fault (pass_midnight x.(shown.curtime) st);
    if x.(shown.sampcnt) =? 1 then lift (Ret (0, begintime, first_record x.(shown.curtime) st))
    else
      p ← may_fault (pridefs x.(shown.supportflags) !! st.(sarst.prinow));
      st ← may_fault (head_if_due p st.(sarst.pretime) st);
      if flagged x.(shown.flags) RRBOOT then
        st ← restart p x st; lift (Ret (0, begintime, st))
      else
        '(rv, st) ← sample_line p x st;
        st ← (if rv =? 0 then lift (drop_report st) else lift (Ret st));
        lift (Ret (0, begintime, set_pretime x.(shown.curtime) st)).

(** ** Live samples *)

(** The arguments of a line: no process statistics. *)
Definition live_args (tstamp : text) (numsecs : Z) : sarargs.sarargs :=
  sarargs.mk false [] 0 numsecs (i32 (numsecs * hertz)) hertz tstamp 0 0 0 0 0 0.

(** The loop over the wanted reports, when there are several; [nr] of them are
    left. A line function may change the sample for the next one. *)
Fixpoint live_reports (ps : list pridef.pridef) (i : nat) (nr curtime numsecs : Z) (ss : sstat.sstat) (st : sarst) :
    run sarst :=
  match ps with
  | [] => lift (Ret st)
  | p :: ps =>
      if nr <=? 0 then lift (Ret st)
      else
        wanted ← may_fault (st.(sarst.wanted) !! i);
        if negb wanted then live_reports ps (S i) nr curtime numsecs ss st
        else
          st ← may_fault (print_head p (i64 (curtime - numsecs)) st);
          '(line, rv, ss, firsts) ← may_fault
            (p.(pridef.priline) (live_args (line_stamp curtime) numsecs) ss st.(sarst.firsts));
          let st := set_firsts firsts (print (stamp curtime ++ line) st) in
          st ← (if rv =? 0 then
                  let st := set_wanted (<[i := false]> st.(sarst.wanted)) (i32 (st.(sarst.numreports) - 1)) st in
                  if st.(sarst.numreports) =? 0 then lift (Exit 1) else lift (Ret st)
                else lift (Ret st));
          live_reports ps (S i) (nr - 1) curtime numsecs ss st
  end.

(** just one report to be printed *)
Definition live_report (p : pridef.pridef) (sampcnt curtime numsecs : Z) (ss : sstat.sstat) (st : sarst) :
    run sarst :=
  st ← may_fault (pass_midnight curtime st);
  if sampcnt =? 0 then
    st ← may_fault (print_head p curtime st);
    lift (Ret (set_headline repeathead (set_curline (st.(sarst.curline) + 2) st)))
  else
    '(line, rv, _, firsts) ← may_fault
      (p.(pridef.priline) (live_args (line_stamp curtime) numsecs) ss st.(sarst.firsts));
    let st := set_firsts firsts (print (stamp curtime ++ line) st) in
    if rv =? 0 then lift (Exit 1)
    else may_fault (head_if_due p curtime (set_curline (st.(sarst.curline) + rv) st)).

Definition reportlive (supportflags sampcnt curtime numsecs : Z) (ss : sstat.sstat) (st : sarst) : run sarst :=
  if 1 <? st.(sarst.numreports) then
    if sampcnt =? 0 then lift (Ret st)
    else
      t ← may_fault (printf datemsg [AStr (convdate localtime curtime)]);
      st ← live_reports (pridefs supportflags) 0 st.(sarst.numreports) curtime numsecs ss (print t st);
      lift (Ret (print [newline] st))
  else
    '(i, _) ← may_fault (list_find (fun w => w = true) st.(sarst.wanted));
    p ← may_fault (pridefs supportflags !! i);
    live_report p sampcnt curtime numsecs ss st.
End reports.

(** The table for the support flags of a moment. *)
Definition with_flags (flags : Z) (e : sarenv.sarenv) : sarenv.sarenv :=
  sarenv.mk e.(sarenv.cpubadness) e.(sarenv.membadness) e.(sarenv.swpbadness) e.(sarenv.pagbadness)
    e.(sarenv.dskbadness) e.(sarenv.netbadness) e.(sarenv.almostcrit) e.(sarenv.pagesize) e.(sarenv.hertz)
    flags e.(sarenv.usecolors) e.(sarenv.usemarkers) e.(sarenv.allresources).
Definition reports_of {Q : QSort} (e : sarenv.sarenv) (flags : Z) : list pridef.pridef :=
  pridef_table (with_flags flags e).

(** ** Reports from a log *)

Section log.
Context {image_task : Image tstat.tstat} {image_sys : Image sstat.sstat} {zlib : Zlib}.
Context (isproc wasinactive : tstat.tstat -> bool) (localtime : Z -> tm.tm) (endtime : Z) (junk : nat -> list Z).
Context (present readable : text -> bool) (open_file : text -> option (list Z)) (now : Z)
  (mkstemp : bool) (gunzip : list Z -> option (list Z)) (argv0 : text) (setresuid : bool)
  (execvp : text -> bool).
Context (show : sample -> Z -> sarst -> run (Z * Z * sarst)).

(** [rawread] for each report that is wanted; the log is read from its start
    with the begin time that was asked for. *)
Fixpoint sar_reports (fuel : nat) (pricnt i : nat) (rawname : text) (info : sysinfo.sysinfo) (begintime : Z)
    (sstat : list Z) (st : sarst) : option (rawend sarst) :=
  match pricnt with
  | O => Some (Stopped 0)
  | S pricnt' =>
      wanted ← st.(sarst.wanted) !! i;
      if negb wanted then sar_reports fuel pricnt' (S i) rawname info begintime sstat st
      else
        r ← rawread isproc wasinactive localtime show endtime junk present readable open_file now mkstemp
              gunzip argv0 setresuid execvp fuel rawname info begintime sstat (set_report i 0 st);
        match r with
        | Shown info s =>
            sar_reports fuel pricnt' (S i) rawname info begintime s.(rawst.sstat) (print [newline] s.(rawst.vis))
        | r => Some r
        end
  end.
End log.
