(* ===== verification/AtopsarFacts.v ===== *)
(** * What activity reports promise

    A line function prints as many lines as it says, so that the heads of a
    report come when they are due; summaries are the sums of consecutive groups
    of samples; the number of reports that is kept is the number of those that
    are wanted, until one fails. *)
From Stdlib Require Import Ascii.
From S2P Require Import Prelude Format Printf Sscanf SscanfFacts Tstat Sstat SstatStores Various Compar Cumulate Totalsyst Parseable ParseableFacts Rawlog RawlogFacts RawlogMain Sarlines Atopsar.

(** ** Counting lines *)

Definition is_newline (c : ascii) : bool := Ascii.eqb c newline.
Definition newlines (t : text) : Z := zcount is_newline t.

Lemma newlines_app t u : newlines (t ++ u) = newlines t + newlines u.
Proof. apply zcount_app. Qed.

Lemma newlines_nonneg t : 0 <= newlines t.
Proof. apply (zcount_range is_newline t). Qed.

Lemma newlines_solid t : Forall (fun c => isspace c = false) t -> newlines t = 0.
Proof.
  induction 1 as [|c t Hc _ IH]; [done|]. unfold newlines in *. cbn [zcount]. rewrite IH.
  unfold is_newline. destruct (Ascii.eqb_spec c newline) as [->|]; done.
Qed.

Lemma newlines_take n t : newlines t = 0 -> newlines (take n t) = 0.
Proof.
  intros H. rewrite <-(take_drop n t), newlines_app in H.
  pose proof (newlines_nonneg (take n t)). pose proof (newlines_nonneg (drop n t)). lia.
Qed.

Lemma newlines_drop n t : newlines t = 0 -> newlines (drop n t) = 0.
Proof.
  intros H. rewrite <-(take_drop n t), newlines_app in H.
  pose proof (newlines_nonneg (take n t)). pose proof (newlines_nonneg (drop n t)). lia.
Qed.

Lemma newlines_blanks n : newlines (replicate n " "%char) = 0.
Proof. induction n as [|n IH]; [done|]. exact IH. Qed.

Lemma newlines_pad w t : newlines t = 0 -> newlines (pad w t) = 0.
Proof.
  intros H. unfold pad, pad_left. destruct (w <? 0); rewrite newlines_app, newlines_blanks, H; done.
Qed.

(** An argument whose text is in one line. *)
Definition arg_plain (a : arg) : Prop :=
  match a with
  | AStr s => newlines s = 0
  | AChr c => c ≠ newline
  | _ => True
  end.

Lemma newlines_double k x : newlines (fmt_double k x) = 0.
Proof.
  unfold fmt_double. destruct (_ =? 0); [by destruct (x.1 =? 0), (x.1 <? 0)|].
  apply newlines_solid, fmt_f_solid.
Qed.

Lemma newlines_number z : newlines (fmt_d z) = 0.
Proof. apply newlines_solid, fmt_d_solid. Qed.

Lemma convert_plain minus zero w prec conv a t :
  convert_arg minus zero w prec conv a = Some t -> arg_plain a -> newlines t = 0.
Proof.
  unfold convert_arg. destruct a as [z|s|c|x]; cbn [arg_plain]; intros H Hp.
  - destruct (_ || _).
    + injection H as <-. apply newlines_pad. destruct (_ && _); [|apply newlines_number].
      apply newlines_solid, fmt_0d_solid.
    + destruct (Ascii.eqb conv "u"); [|done]. destruct (Z.ltb_spec z 0); [done|]. injection H as <-.
      apply newlines_pad. destruct (_ && _); [apply newlines_solid, fmt_0d_solid|].
      by apply newlines_solid, dec_solid.
  - destruct (Ascii.eqb conv "s"); [|done]. injection H as <-. apply newlines_pad.
    destruct prec; [by apply newlines_take | done].
  - destruct (Ascii.eqb conv "c"); [|done]. injection H as <-. apply newlines_pad.
    unfold newlines, is_newline. cbn. by destruct (Ascii.eqb_spec c newline).
  - destruct (Ascii.eqb conv "f"); [|done]. injection H as <-. apply newlines_pad, newlines_double.
Qed.

(** The newlines of a format. *)
Fixpoint parts_newlines (ps : list part) : Z :=
  match ps with
  | [] => 0
  | Plit c :: ps => c_bool (is_newline c) + parts_newlines ps
  | Pconv _ _ _ _ _ :: ps => parts_newlines ps
  end.
Definition fmt_newlines (fmt : string) : Z := parts_newlines (default [] (parse_printf fmt)).

Lemma print_parts_newlines ps : forall args t, print_parts ps args = Some t -> Forall arg_plain args ->
  newlines t = parts_newlines ps.
Proof.
  induction ps as [|[c|minus zero width prec conv] ps IH]; intros args t H Hp; cbn [print_parts] in H.
  - by destruct args; simplify_eq.
  - apply bind_Some in H as (u & Hu & [= <-]). cbn [parts_newlines]. rewrite <-(IH _ _ Hu Hp). done.
  - cbn [parts_newlines]. destruct (Ascii.eqb conv "%").
    { apply bind_Some in H as (u & Hu & [= <-]). rewrite <-(IH _ _ Hu Hp). done. }
    apply bind_Some in H as ([w rest] & Hw & H).
    assert (Hr : Forall arg_plain rest).
    { destruct width; [by simplify_eq | by simplify_eq|]. destruct args as [|[z| | |] args]; try done.
      destruct (z <? 0); [done|]. injection Hw as _ <-. by inversion Hp. }
    destruct rest as [|a rest]; [done|].
    apply bind_Some in H as (u & Hu & H). apply bind_Some in H as (v & Hv & [= <-]).
    inversion Hr; subst. rewrite newlines_app, (convert_plain _ _ _ _ _ _ _ Hu) by done. by apply (IH rest).
Qed.

Lemma printf_newlines fmt args t : printf fmt args = Some t -> Forall arg_plain args ->
  newlines t = fmt_newlines fmt.
Proof.
  unfold printf, fmt_newlines. intros H Hp. apply bind_Some in H as (ps & -> & H).
  by apply (print_parts_newlines ps args).
Qed.

(** ** The lines of the reports *)

Definition plain (s : string) : Prop := newlines (chars s) = 0.

(** No name in a sample or in an argument ends a line. *)
Record plain_names (a : sarargs.sarargs) (s : sstat.sstat) : Prop := {
  pn_tstamp : newlines a.(sarargs.tstamp) = 0;
  pn_ps : Forall (fun t => plain t.(tstat.gen).(tgen.name)) a.(sarargs.ps);
  pn_dsk : Forall (fun d => plain d.(perdsk.name)) s.(sstat.dsk).(dskstat.dsk);
  pn_mdd : Forall (fun d => plain d.(perdsk.name)) s.(sstat.dsk).(dskstat.mdd);
  pn_lvm : Forall (fun d => plain d.(perdsk.name)) s.(sstat.dsk).(dskstat.lvm);
  pn_nfm : Forall (fun m => plain m.(pernfsmount.mountdev)) s.(sstat.nfs).(nfsstat.nfsmounts).(nfsmounts.nfsmnt);
  pn_intf : Forall (fun f => plain f.(perintf.name)) s.(sstat.intf).(intfstat.intf)
}.

(** The text holds as many lines as the function says, one if it says none. *)
Definition counted {A B} (r : text * Z * A * B) : Prop :=
  let '(t, n, _, _) := r in 0 <= n /\ newlines t = if n =? 0 then 1 else n.

Lemma printed_line {s fs F args r} : one_line s fs (printf F args) = Some r ->
  fmt_newlines F = 1 -> Forall arg_plain args -> counted r.
Proof.
  unfold one_line. intros H Hf Hp. apply bind_Some in H as (t & Ht & [= <-]). split; [lia|].
  by rewrite (printf_newlines _ _ _ Ht Hp).
Qed.

Lemma message_counted {s fs m r} : not_available s fs m = Some r -> plain m -> counted r.
Proof.
  unfold not_available, plain. intros [= <-] H. split; [lia|]. by rewrite newlines_app, H.
Qed.

Lemma painted_line {e b F args t} : painted e b (printf F args) = Some t ->
  fmt_newlines F = 0 -> Forall arg_plain args -> newlines t = 1.
Proof.
  unfold painted. intros H Hf Hp. apply bind_Some in H as (u & Hu & [= <-]).
  rewrite !newlines_app, (printf_newlines _ _ _ Hu Hp), Hf. unfold preprint, postprint.
  destruct e.(sarenv.usecolors), e.(sarenv.usemarkers), (100 <=? b), (almost e b); reflexivity.
Qed.

Lemma one_painted {e b F args s fs r} : one_line s fs (painted e b (printf F args)) = Some r ->
  fmt_newlines F = 0 -> Forall arg_plain args -> counted r.
Proof.
  unfold one_line. intros H Hf Hp. apply bind_Some in H as (t & Ht & [= <-]). split; [lia|].
  by rewrite (painted_line Ht Hf Hp).
Qed.

Lemma name_end_plain n s : plain s -> newlines (name_end n (chars s)) = 0.
Proof. intros H. unfold name_end. destruct (_ <? _)%nat; [by apply newlines_drop | done]. Qed.

Lemma each_upto_lines {A} (n i : nat) (row : nat -> A -> option text) l t :
  (forall j x u, row j x = Some u -> newlines u = 1) -> each_upto n i row l = Some t -> newlines t = Z.of_nat n.
Proof.
  intros Hr. revert i l t. induction n as [|n IH]; intros i l t H; cbn [each_upto] in H; [by simplify_eq|].
  destruct l as [|x l]; [done|]. apply bind_Some in H as (u & Hu & H).
  apply bind_Some in H as (v & Hv & [= <-]). rewrite newlines_app, (Hr _ _ _ Hu), (IH _ _ _ Hv). lia.
Qed.

Lemma unit_lines_count {A} (P : A -> Prop) n tstamp (line : A -> option (option text * A)) l k t k' l' :
  newlines tstamp = 0 -> Forall P l ->
  (forall x u x', P x -> line x = Some (Some u, x') -> newlines u = 1) -> 0 <= k ->
  unit_lines n tstamp line l k = Some (t, k', l') -> k <= k' /\ newlines t = k' - k.
Proof.
  intros Ht HP Hline. revert l HP k t k' l'. induction n as [|n IH]; intros l HP k t k' l' Hk H;
    cbn [unit_lines] in H.
  - simplify_eq. split; [lia|]. rewrite Z.sub_diag. done.
  - destruct HP as [|x l Hx HP]; [done|]. apply bind_Some in H as ([r x'] & Hr & H).
    destruct r as [u|].
    + apply bind_Some in H as ([[t' k2] l2] & Hu & [= <- <- <-]).
      destruct (IH l HP (k + 1) t' k2 l2 ltac:(lia) Hu) as [H1 H2]. split; [lia|].
      rewrite !newlines_app, (Hline _ _ _ Hx Hr), H2.
      destruct (k =? 0); [cbn; lia|]. rewrite newlines_app, Ht. cbn. lia.
    + apply bind_Some in H as ([[t' k2] l2] & Hu & [= <- <- <-]). by apply (IH l HP k t' k2 l2).
Qed.

Lemma at_least_one_counted {A B} t k (s : A) (fs : B) : 0 <= k -> newlines t = k ->
  counted ((at_least_one t k).1, (at_least_one t k).2, s, fs).
Proof.
  intros Hk Ht. unfold at_least_one. destruct (Z.eqb_spec k 0) as [->|]; cbn [fst snd counted].
  - split; [lia|]. rewrite newlines_app, Ht. done.
  - split; [done|]. by rewrite (proj2 (Z.eqb_neq k 0)).
Qed.

Ltac plain_args := repeat (apply Forall_cons; split); try exact I; try apply Forall_nil_2; try done;
  try (by apply name_end_plain).

Section counted.
Context (e : sarenv.sarenv) {Q : QSort} (a : sarargs.sarargs) (s : sstat.sstat) (Hn : plain_names a s).

Lemma cpu_columns_plain scale c tot : Forall arg_plain (cpu_columns scale c tot).
Proof. unfold cpu_columns. by repeat constructor. Qed.

Lemma cpuline_counted fs r : cpuline e a s fs = Some r -> counted r.
Proof.
  unfold cpuline. intros H. apply bind_Some in H as (t & Ht & H).
  pose proof (painted_line Ht eq_refl (cpu_columns_plain _ _ _)) as Hl.
  destruct (Z.ltb_spec 1 s.(sstat.cpu).(cpustat.nrcpu)); [|by simplify_eq].
  apply bind_Some in H as (u & Hu & [= <-]). apply each_upto_lines in Hu.
  - split; [lia|]. rewrite newlines_app, Hl, Hu, (proj2 (Z.eqb_neq _ 0)), Z2Nat.id by lia. done.
  - intros j x v Hv. unfold cpu_unit in Hv. apply bind_Some in Hv as (w & Hw & [= <-]).
    assert (Hl' : newlines w = 1).
    { apply (painted_line Hw eq_refl). constructor; [done | apply cpu_columns_plain]. }
    rewrite newlines_app, (pn_tstamp _ _ Hn). exact Hl'.
Qed.

Lemma taskline_counted fs r : taskline a s fs = Some r -> counted r.
Proof.
  unfold taskline. destruct (_ =? 0); [intros H; by apply (message_counted H)|].
  destruct a.(sarargs.ts); intros H; apply (printed_line H); try done; plain_args.
Qed.

Lemma memline_counted fs r : memline e a s fs = Some r -> counted r.
Proof. unfold memline. intros H. apply (one_painted H); [done|]. by repeat constructor. Qed.

Lemma swapline_counted fs r : swapline e a s fs = Some r -> counted r.
Proof.
  unfold swapline. intros H. apply bind_Some in H as (b & _ & H). apply (one_painted H); [done|].
  by repeat constructor.
Qed.

Lemma disk_unit_line first ms d u d' : plain d.(perdsk.name) ->
  disk_unit e first ms d = Some (Some u, d') -> newlines u = 1.
Proof.
  intros Hd. unfold disk_unit. destruct (_ && _); [done|]. intros H. apply bind_Some in H as (t & Ht & [= <- _]).
  apply (painted_line Ht); [done|]. plain_args.
Qed.

Lemma gendskline_counted sel fs r : In sel ["l"; "m"; "d"]%char ->
  gendskline e s a.(sarargs.tstamp) sel fs = Some r -> counted r.
Proof.
  intros Hsel. unfold gendskline.
  assert (Ht : exists table n, disk_table sel s.(sstat.dsk) = Some (table, n) /\
    Forall (fun d => plain d.(perdsk.name)) table).
  { destruct Hsel as [<-|[<-|[<-|[]]]]; eexists _, _; (split; [done|]); apply Hn. }
  destruct Ht as (table & n & -> & HF). intros H. apply bind_Some in H as (ms & _ & H).
  apply bind_Some in H as ([[t k] l] & Hu & [= <-]).
  apply (unit_lines_count _ _ _ _ _ _ _ _ _ (pn_tstamp _ _ Hn) HF) in Hu as [? ?];
    [apply at_least_one_counted; lia | intros d u d'; apply disk_unit_line | lia].
Qed.

Lemma nfmline_counted fs r : nfmline e a s fs = Some r -> counted r.
Proof.
  unfold nfmline. intros H. apply bind_Some in H as ([[t k] l] & Hu & [= <-]).
  apply (unit_lines_count _ _ _ _ _ _ _ _ _ (pn_tstamp _ _ Hn) (pn_nfm _ _ Hn)) in Hu as [? ?];
    [apply at_least_one_counted; lia | | lia].
  intros m u m' Hm. unfold mount_unit. destruct (_ || _); [|done]. intros H.
  apply bind_Some in H as (v & Hv & [= <- _]). rewrite (printf_newlines _ _ _ Hv); [done|].
  plain_args. by destruct (_ <? _).
Qed.

Lemma ifline_counted fs r : ifline e a s fs = Some r -> counted r.
Proof.
  unfold ifline. intros H. apply bind_Some in H as ([[t k] l] & Hu & [= <-]).
  apply (unit_lines_count _ _ _ _ _ _ _ _ _ (pn_tstamp _ _ Hn) (pn_intf _ _ Hn)) in Hu as [? ?];
    [apply at_least_one_counted; lia | | lia].
  intros f u f' Hf. unfold intf_unit. destruct (intf_idle _ _ _); [done|]. intros H.
  apply bind_Some in H as (ival & _ & H). apply bind_Some in H as (oval & _ & H).
  set (known := negb _) in H. set (f1 := if known then _ else f) in H.
  assert (Hf1 : plain f1.(perintf.name)).
  { unfold f1, corrected_speed. clear H. destruct known; [|exact Hf]. case_match; exact Hf. }
  destruct (known && _); [done|]. apply bind_Some in H as (bv & Hbv & H).
  apply bind_Some in H as (v & Hv & [= <- _]). apply (painted_line Hv); [done|]. plain_args.
  - apply newlines_take. destruct known; [|by simplify_eq].
    rewrite (printf_newlines _ _ _ Hbv); [done | by plain_args].
  - clear. by repeat case_match.
Qed.

Lemma IFline_counted fs r : IFline e a s fs = Some r -> counted r.
Proof.
  unfold IFline. intros H. apply bind_Some in H as ([[t k] l] & Hu & [= <-]).
  apply (unit_lines_count _ _ _ _ _ _ _ _ _ (pn_tstamp _ _ Hn) (pn_intf _ _ Hn)) in Hu as [? ?];
    [apply at_least_one_counted; lia | | lia].
  intros f u f' Hf. unfold interr_unit. destruct (intf_idle _ _ _); [done|]. intros H.
  apply bind_Some in H as (v & Hv & [= <- _]). rewrite (printf_newlines _ _ _ Hv); [done|].
  cbn [fmap list_fmap]. plain_args.
Qed.

Lemma sorted_plain cmp : Comparator cmp ->
  Forall (fun t => plain t.(tstat.gen).(tgen.name)) (qsort cmp a.(sarargs.ps)).
Proof. intros HC. rewrite qsort_perm by done. apply Hn. Qed.

Lemma top_cell_lines full blank part l i c t : Forall (fun t => plain t.(tstat.gen).(tgen.name)) l ->
  top_columns a l part i = Some c -> top_cell full blank c = Some t ->
  fmt_newlines full = fmt_newlines blank -> newlines t = fmt_newlines blank.
Proof.
  intros HF Hc Ht Hf. unfold top_columns, top_cell in *.
  assert (Hp : match c with Some args => Forall arg_plain args | None => True end).
  { destruct (_ <? _); [by simplify_eq|]. apply bind_Some in Hc as (p & Hp & [= <-]).
    destruct (part p); [|done]. cbn. rewrite Forall_lookup in HF. pose proof (HF _ _ Hp). plain_args. }
  destruct c as [args|]; [by rewrite (printf_newlines _ _ _ Ht Hp)|].
  rewrite (printf_newlines _ _ _ Ht); [done|]. plain_args.
Qed.

Lemma top_line_counted l part fs r : Forall (fun t => plain t.(tstat.gen).(tgen.name)) l ->
  top_line a s fs l part = Some r -> counted r.
Proof.
  intros HF. unfold top_line. intros H.
  apply bind_Some in H as (c0 & H0 & H). apply bind_Some in H as (t0 & T0 & H).
  apply bind_Some in H as (c1 & H1 & H). apply bind_Some in H as (t1 & T1 & H).
  apply bind_Some in H as (c2 & H2 & H). apply bind_Some in H as (t2 & T2 & [= <-]).
  split; [lia|]. rewrite !newlines_app.
  rewrite (top_cell_lines _ _ _ _ _ _ _ HF H0 T0 eq_refl), (top_cell_lines _ _ _ _ _ _ _ HF H1 T1 eq_refl),
    (top_cell_lines _ _ _ _ _ _ _ HF H2 T2 eq_refl). done.
Qed.

Lemma top_lines_counted fs r :
  topcline a s fs = Some r \/ topmline e a s fs = Some r \/ topdline e a s fs = Some r \/
  topnline e a s fs = Some r -> counted r.
Proof.
  unfold topcline, topmline, topdline, topnline.
  intros [H|[H|[H|H]]]; (destruct (negb a.(sarargs.ts)); [by apply (message_counted H)|]).
  - apply bind_Some in H as (q & _ & H). eapply top_line_counted; [|exact H]. by apply sorted_plain, _.
  - eapply top_line_counted; [|exact H]. by apply sorted_plain, _.
  - destruct (negb (flagged _ _)); [by apply (message_counted H)|].
    apply bind_Some in H as (q & _ & H). eapply top_line_counted; [|exact H]. by apply sorted_plain, _.
  - destruct (negb (flagged _ _)); [by apply (message_counted H)|].
    apply bind_Some in H as (q & _ & H). eapply top_line_counted; [|exact H]. by apply sorted_plain, _.
Qed.
End counted.

(** A function that prints one line of rates. *)
Ltac rates H := apply (printed_line H); [reflexivity | plain_args].

(** C24: Every function of the table of reports prints as many lines as it
    returns, and one line, a message, when it returns 0: the count of lines by
    which the heads are repeated is that of the lines on the screen. *)
Theorem lines_counted (e : sarenv.sarenv) {Q : QSort} p a s fs r : In p (pridef_table e) ->
  plain_names a s -> p.(pridef.priline) a s fs = Some r -> counted r.
Proof.
  intros Hp Hn H. unfold pridef_table in Hp. cbn [In] in Hp.
  destruct_or! Hp; subst p; cbn [pridef.priline] in H; try done;
    lazymatch type of H with
    | cpuline _ _ _ _ = _ => exact (cpuline_counted e a s Hn fs r H)
    | taskline _ _ _ = _ => exact (taskline_counted a s fs r H)
    | memline _ _ _ _ = _ => exact (memline_counted e a s fs r H)
    | swapline _ _ _ _ = _ => exact (swapline_counted e a s fs r H)
    | lvmline _ _ _ _ = _ => exact (gendskline_counted e a s Hn "l" fs r ltac:(cbn; tauto) H)
    | mddline _ _ _ _ = _ => exact (gendskline_counted e a s Hn "m" fs r ltac:(cbn; tauto) H)
    | dskline _ _ _ _ = _ => exact (gendskline_counted e a s Hn "d" fs r ltac:(cbn; tauto) H)
    | nfmline _ _ _ _ = _ => exact (nfmline_counted e a s Hn fs r H)
    | ifline _ _ _ _ = _ => exact (ifline_counted e a s Hn fs r H)
    | IFline _ _ _ _ = _ => exact (IFline_counted e a s Hn fs r H)
    | topcline _ _ _ = _ => exact (top_lines_counted e a s Hn fs r (or_introl H))
    | topmline _ _ _ _ = _ => exact (top_lines_counted e a s Hn fs r (or_intror (or_introl H)))
    | topdline _ _ _ _ = _ => exact (top_lines_counted e a s Hn fs r (or_intror (or_intror (or_introl H))))
    | topnline _ _ _ _ = _ => exact (top_lines_counted e a s Hn fs r (or_intror (or_intror (or_intror H))))
    | _ => rates H
    end.
Qed.

(** ** Summaries *)

(** A list in groups of [n], the last one possibly shorter. *)
Fixpoint groups_upto {A} (fuel n : nat) (l : list A) : list (list A) :=
  match fuel, l with
  | S fuel, _ :: _ => take n l :: groups_upto fuel n (drop n l)
  | _, _ => []
  end.
Definition groups {A} (n : nat) (l : list A) : list (list A) := groups_upto (length l) n l.

(** The same, one element at a time; [acc] has been taken for the next group. *)
Fixpoint group_on {A} (n : nat) (acc l : list A) : list (list A) :=
  match l with
  | [] => []
  | [x] => [acc ++ [x]]
  | x :: l => if (S (length acc) =? n)%nat then (acc ++ [x]) :: group_on n [] l else group_on n (acc ++ [x]) l
  end.

Lemma group_on_take {A} n (l : list A) : forall acc fuel, (length acc < n)%nat -> l ≠ [] ->
  (length acc + length l <= fuel)%nat -> group_on n acc l = groups_upto fuel n (acc ++ l).
Proof.
  induction l as [|x l IH]; intros acc fuel Ha Hl Hf; [done|].
  destruct fuel as [|fuel]; [cbn in Hf; lia|].
  assert (Hunf : groups_upto (S fuel) n (acc ++ x :: l) =
    take n (acc ++ x :: l) :: groups_upto fuel n (drop n (acc ++ x :: l))) by by destruct acc.
  destruct l as [|y l].
  - cbn [group_on]. rewrite Hunf, take_ge, drop_ge by (rewrite length_app; cbn; lia). by destruct fuel.
  - change (group_on n acc (x :: y :: l)) with
      (if (S (length acc) =? n)%nat then (acc ++ [x]) :: group_on n [] (y :: l)
       else group_on n (acc ++ [x]) (y :: l)).
    destruct (Nat.eqb_spec (S (length acc)) n) as [En|En].
    + rewrite Hunf, (IH [] fuel) by (done || cbn in *; lia).
      replace (acc ++ x :: y :: l) with ((acc ++ [x]) ++ y :: l) by by rewrite <-app_assoc.
      rewrite take_app_length', drop_app_length' by (rewrite length_app; cbn; lia). done.
    + rewrite (IH (acc ++ [x]) (S fuel)) by (try done; rewrite ?length_app; cbn in *; lia).
      by rewrite <-app_assoc.
Qed.

Lemma group_on_groups {A} n (l : list A) : (0 < n)%nat -> l ≠ [] -> group_on n [] l = groups n l.
Proof. intros Hn Hl. by apply (group_on_take n l [] (length l)). Qed.

(** What a group adds up to. *)
Definition group_secs (g : list sample) : Z := foldr (fun x n => x.(shown.interval) + n) 0 g.
Definition group_exits (g : list sample) : Z := foldr (fun x n => x.(shown.nexit) + n) 0 g.
Fixpoint group_total (cats : text) (g : list sample) (tot : sstat.sstat) : option sstat.sstat :=
  match g with
  | [] => Some tot
  | x :: g => tot ← add_categories cats x.(shown.sstat) tot; group_total cats g tot
  end.

Lemma group_total_snoc cats g x tot :
  group_total cats (g ++ [x]) tot = tot ← group_total cats g tot; add_categories cats x.(shown.sstat) tot.
Proof.
  revert tot. induction g as [|y g IH]; intros tot; cbn; [by destruct (add_categories _ _ _)|].
  destruct (add_categories cats y.(shown.sstat) tot); cbn; [apply IH | done].
Qed.

Lemma group_secs_snoc g x : group_secs (g ++ [x]) = group_secs g + x.(shown.interval).
Proof. unfold group_secs. induction g as [|y g IH]; cbn; lia. Qed.
Lemma group_exits_snoc g x : group_exits (g ++ [x]) = group_exits g + x.(shown.nexit).
Proof. unfold group_exits. induction g as [|y g IH]; cbn; lia. Qed.

Section summaries.
Context (pridefs : Z -> list pridef.pridef) (stampalways : bool) (repeathead : Z) (n : nat)
  (usecolors : bool) (hertz : Z) (nodename release version machine : text)
  (localtime : Z -> tm.tm) (mktime : tm.tm -> Z) (now : Z).

(** [reportraw] for the samples of a log, one after the other. *)
Fixpoint report_all (xs : list sample) (st : sarst) : run sarst :=
  match xs with
  | [] => lift (Ret st)
  | x :: xs =>
      r ← reportraw pridefs stampalways repeathead (Z.of_nat n) usecolors hertz nodename release version machine
            localtime mktime now x 0 st;
      report_all xs r.2
  end.

(** A report whose function prints the text [render] as its line, as most do. *)
Context (i : nat) (p : pridef.pridef) (render : sarargs.sarargs -> sstat.sstat -> option text).
Context (Hp : forall flags, pridefs flags !! i = Some p)
  (Hr : forall a s fs, p.(pridef.priline) a s fs = one_line s fs (render a s)).

(** The line of a group: the time of its last sample, and the sums. *)
Definition group_line (g : list sample) : option text :=
  x ← last g;
  tot ← group_total p.(pridef.cntcat) g sstat_zero;
  let d := x.(shown.devtstat) in
  let u := sarsum.mk 0 (group_secs g) (group_exits g) tot 0 0 0 0 0 0 in
  line ← render (sum_args hertz (line_stamp stampalways localtime x.(shown.curtime)) u
                   (Z.of_nat (length d.(rawtasks.taskall))) d.(rawtasks.totrun) d.(rawtasks.totslpi)
                   d.(rawtasks.totslpu) d.(rawtasks.totzombie)) tot;
  Some (stamp localtime x.(shown.curtime) ++ line).

(** In the middle of a report: the samples [acc] have been added up, the next
    sample has number [k], and no head is due for the next [room] lines. *)
Record reporting (acc : list sample) (k room : Z) (st : sarst) : Prop := {
  rp_wanted : st.(sarst.wanted) !! st.(sarst.prinow) = Some true;
  rp_prinow : st.(sarst.prinow) = i;
  rp_firstcall : st.(sarst.firstcall) = false;
  rp_room : 0 <= st.(sarst.curline) /\ st.(sarst.curline) + room < st.(sarst.headline) < 2 ^ 32;
  rp_sampsum : st.(sarst.sums).(sarsum.sampsum) = k - 1 - Z.of_nat (length acc) + Z.of_nat n;
  rp_secs : st.(sarst.sums).(sarsum.totalsec) = group_secs acc;
  rp_exits : st.(sarst.sums).(sarsum.totalexit) = group_exits acc;
  rp_total : group_total p.(pridef.cntcat) acc sstat_zero = Some st.(sarst.sums).(sarsum.totsyst)
}.

(** Successive samples of a log from number [k] on, up to its last one. *)
Fixpoint successive (daylim k : Z) (xs : list sample) : Prop :=
  match xs with
  | [] => True
  | x :: xs' =>
      x.(shown.sampcnt) = k /\ x.(shown.curtime) <= daylim /\ flagged x.(shown.flags) RRBOOT = false /\
      flagged x.(shown.flags) RRLAST = match xs' with [] => true | _ => false end /\
      1 <= x.(shown.interval) /\ 0 <= x.(shown.nexit) /\ successive daylim (k + 1) xs'
  end.

Lemma group_total_prefix cats g h tot t : group_total cats (g ++ h) tot = Some t ->
  is_Some (group_total cats g tot).
Proof.
  revert tot. induction g as [|x g IH]; intros tot H; cbn in *; [by eexists|].
  destruct (add_categories cats x.(shown.sstat) tot); [by apply IH | done].
Qed.

Lemma group_on_head (l : list sample) : forall acc, l ≠ [] ->
  exists g rest, group_on n acc l = (acc ++ g) :: rest.
Proof.
  induction l as [|x [|y l] IH]; intros acc Hl; [done | by eexists _, _|].
  change (group_on n acc (x :: y :: l)) with
    (if (S (length acc) =? n)%nat then (acc ++ [x]) :: group_on n [] (y :: l)
     else group_on n (acc ++ [x]) (y :: l)).
  case_match; [by eexists _, _|]. destruct (IH (acc ++ [x])) as (g & rest & ->); [done|].
  exists (x :: g), rest. by rewrite <-app_assoc.
Qed.

(** The sums after a sample, when its totals exist. *)
Lemma add_sample_sums acc k room st x tot : reporting acc k room st ->
  group_total p.(pridef.cntcat) (acc ++ [x]) sstat_zero = Some tot ->
  1 <= x.(shown.interval) -> 0 <= x.(shown.nexit) -> 0 <= group_secs acc -> 0 <= group_exits acc ->
  group_secs (acc ++ [x]) < 2 ^ 31 -> group_exits (acc ++ [x]) < 2 ^ 31 ->
  exists u, add_sample p.(pridef.cntcat) x st.(sarst.sums) = Some u /\
    u.(sarsum.sampsum) = st.(sarst.sums).(sarsum.sampsum) /\
    u.(sarsum.totalsec) = group_secs (acc ++ [x]) /\ u.(sarsum.totalexit) = group_exits (acc ++ [x]) /\
    u.(sarsum.totsyst) = tot.
Proof.
  intros HR Ht Hi He Hs0 He0 Hs1 He1. rewrite group_total_snoc, (rp_total _ _ _ _ HR) in Ht. cbn in Ht.
  rewrite group_secs_snoc in *. rewrite group_exits_snoc in *.
  unfold add_sample. rewrite Ht. cbn. eexists. split; [done|]. cbn. split; [done|].
  rewrite (rp_secs _ _ _ _ HR), (rp_exits _ _ _ _ HR).
  rewrite !(i32_id _) by (unfold in_i32; lia). rewrite !u32_id by lia. done.
Qed.

Notation report := (reportraw pridefs stampalways repeathead (Z.of_nat n) usecolors hertz nodename release
  version machine localtime mktime now).

(** What [reportraw] does with a sample in the middle of a day and of a report. *)
Lemma report_running x st : st.(sarst.wanted) !! st.(sarst.prinow) = Some true -> st.(sarst.prinow) = i ->
  st.(sarst.firstcall) = false -> x.(shown.curtime) <= st.(sarst.daylim) -> x.(shown.sampcnt) ≠ 1 ->
  report x 0 st =
  (st ← may_fault (head_if_due repeathead usecolors localtime p st.(sarst.pretime) st);
   if flagged x.(shown.flags) RRBOOT then
     st ← restart stampalways (Z.of_nat n) hertz localtime p x st; lift (Ret (0, 0, st))
   else
     '(rv, st) ← sample_line stampalways (Z.of_nat n) hertz localtime p x st;
     st ← (if rv =? 0 then lift (drop_report st) else lift (Ret st));
     lift (Ret (0, 0, set_pretime x.(shown.curtime) st))).
Proof.
  intros Hw Hi Hf Hd Hs. unfold reportraw. rewrite Hw, fault_bind. cbn [negb].
  rewrite Hf, fault_bind. unfold pass_midnight.
  by rewrite (proj2 (Z.ltb_ge _ _) Hd), fault_bind, (proj2 (Z.eqb_neq _ 1)), Hi, Hp, fault_bind.
Qed.

(** The same, when no head is due and the log has not been restarted. *)
Lemma reportraw_sums acc k room st x : reporting acc k room st -> k ≠ 1 -> 0 <= room ->
  x.(shown.sampcnt) = k -> x.(shown.curtime) <= st.(sarst.daylim) -> flagged x.(shown.flags) RRBOOT = false ->
  report x 0 st =
  ('(rv, st) ← sample_line stampalways (Z.of_nat n) hertz localtime p x st;
   st ← (if rv =? 0 then lift (drop_report st) else lift (Ret st));
   lift (Ret (0, 0, set_pretime x.(shown.curtime) st))).
Proof.
  intros HR Hk Hroom Hc Hd Hb. pose proof (rp_room _ _ _ _ HR).
  rewrite report_running by first [apply (rp_wanted _ _ _ _ HR) | apply (rp_prinow _ _ _ _ HR) |
    apply (rp_firstcall _ _ _ _ HR) | by rewrite ?Hc].
  unfold head_if_due. by rewrite (proj2 (Z.leb_gt _ _)), fault_bind, Hb by lia.
Qed.

(** A sample that is added and waits for its group. *)
Lemma wait_step acc k room st x tot : reporting acc k room st -> (2 <= n)%nat -> 1 < k -> 0 <= room ->
  x.(shown.sampcnt) = k -> x.(shown.curtime) <= st.(sarst.daylim) -> flagged x.(shown.flags) RRBOOT = false ->
  flagged x.(shown.flags) RRLAST = false -> (S (length acc) < n)%nat ->
  1 <= x.(shown.interval) -> 0 <= x.(shown.nexit) -> 0 <= group_secs acc -> 0 <= group_exits acc ->
  group_secs (acc ++ [x]) < 2 ^ 31 -> group_exits (acc ++ [x]) < 2 ^ 31 ->
  group_total p.(pridef.cntcat) (acc ++ [x]) sstat_zero = Some tot ->
  exists st', report x 0 st = lift (Ret (0, 0, st')) /\
    reporting (acc ++ [x]) (k + 1) room st' /\ st'.(sarst.out) = st.(sarst.out) /\
    st'.(sarst.daylim) = st.(sarst.daylim).
Proof.
  intros HR Hn Hk Hroom Hc Hd Hb Hl Ha Hi He Hs0 He0 Hs1 He1 Ht.
  destruct (add_sample_sums _ _ _ _ _ _ HR Ht Hi He Hs0 He0 Hs1 He1) as (u & Hu & U1 & U2 & U3 & U4).
  rewrite (reportraw_sums acc k room) by (done || lia). unfold sample_line.
  rewrite (proj2 (Z.eqb_neq _ 1)) by lia. unfold sum_step. rewrite Hu. cbn [mbind option_bind].
  unfold sum_due. rewrite Hl, U1, (rp_sampsum _ _ _ _ HR), (proj2 (Z.leb_gt _ _)) by lia.
  cbn [orb andb]. rewrite fault_bind. eexists. split; [done|]. split; [|done].
  destruct HR as [Y1 Y2 Y3 Y4 Y5 Y6 Y7 Y8]. split; cbn; try done.
  - rewrite U1, Y5, length_app. cbn. lia.
  - by rewrite Ht, U4.
Qed.

(** A sample that completes its group. *)
Lemma line_step acc k room st x line : reporting acc k room st -> (2 <= n)%nat -> 1 < k -> 1 <= room ->
  x.(shown.sampcnt) = k -> x.(shown.curtime) <= st.(sarst.daylim) -> flagged x.(shown.flags) RRBOOT = false ->
  S (length acc) = n \/ flagged x.(shown.flags) RRLAST = true ->
  1 <= x.(shown.interval) -> 0 <= x.(shown.nexit) -> 0 <= group_secs acc -> 0 <= group_exits acc ->
  group_secs (acc ++ [x]) < 2 ^ 31 -> group_exits (acc ++ [x]) < 2 ^ 31 -> k + Z.of_nat n < 2 ^ 32 ->
  group_line (acc ++ [x]) = Some line ->
  exists st', report x 0 st = lift (Ret (0, 0, st')) /\
    reporting [] (k + 1) (room - 1) st' /\ st'.(sarst.out) = st.(sarst.out) ++ line /\
    st'.(sarst.daylim) = st.(sarst.daylim).
Proof.
  intros HR Hn Hk Hroom Hc Hd Hb Hl Hi He Hs0 He0 Hs1 He1 Hbig Hline.
  unfold group_line in Hline. rewrite last_snoc in Hline. cbn [mbind option_bind] in Hline.
  apply bind_Some in Hline as (tot & Ht & Hline). apply bind_Some in Hline as (t & Hline & [= <-]).
  destruct (add_sample_sums _ _ _ _ _ _ HR Ht Hi He Hs0 He0 Hs1 He1) as (u & Hu & U1 & U2 & U3 & U4).
  assert (Hdue : sum_due x u = true).
  { unfold sum_due. rewrite U1, U2, (rp_sampsum _ _ _ _ HR), Hc. apply orb_true_iff.
    destruct Hl as [Hl| ->]; [left; apply Z.leb_le; lia|]. right. rewrite group_secs_snoc.
    rewrite (proj2 (Z.eqb_neq _ 0)) by lia. done. }
  rewrite (reportraw_sums acc k room) by (done || lia). unfold sample_line.
  rewrite (proj2 (Z.eqb_neq _ 1)) by lia. unfold sum_step. rewrite Hu. cbn [mbind option_bind].
  rewrite Hdue, fault_bind. unfold print_line. rewrite Hr. unfold sum_args in *. cbn [sarsum.totalsec sarsum.totalexit] in Hline.
  rewrite U2, U3, U4. unfold one_line.
  match goal with |- context [render ?a ?s] => replace (render a s) with (Some t) by (symmetry; exact Hline) end.
  cbn [mbind option_bind]. rewrite fault_bind.
  cbn [Z.eqb lift mbind run_bind]. eexists. split; [done|]. cbn [sarst.out set_pretime set_sums set_curline
    set_firsts print sarst.daylim]. split; [|split; [|done]].
  - destruct HR as [Y1 Y2 Y3 Y4 Y5 Y6 Y7 Y8]. split; cbn; try done; [|rewrite u32_id by lia; lia].
    rewrite u32_id by lia. lia.
  - done.
Qed.

Lemma group_sums_nonneg (g : list sample) : Forall (fun x => 1 <= x.(shown.interval) /\ 0 <= x.(shown.nexit)) g ->
  0 <= group_secs g /\ 0 <= group_exits g.
Proof. unfold group_secs, group_exits. induction 1 as [|x g [? ?] _ [? ?]]; cbn; lia. Qed.

Lemma group_secs_app g h : group_secs (g ++ h) = group_secs g + group_secs h.
Proof. unfold group_secs. induction g as [|x g IH]; cbn; lia. Qed.
Lemma group_exits_app g h : group_exits (g ++ h) = group_exits g + group_exits h.
Proof. unfold group_exits. induction g as [|x g IH]; cbn; lia. Qed.

Lemma successive_sums d k xs : successive d k xs ->
  Forall (fun x => 1 <= x.(shown.interval) /\ 0 <= x.(shown.nexit)) xs.
Proof. revert k. induction xs as [|x xs IH]; intros k H; [done|]. cbn in H. constructor; [tauto | apply (IH (k + 1)); tauto]. Qed.

Lemma report_groups xs : forall acc k room st texts, reporting acc k room st ->
  successive st.(sarst.daylim) k xs -> Forall (fun x => 1 <= x.(shown.interval) /\ 0 <= x.(shown.nexit)) acc ->
  (2 <= n)%nat -> (length acc < n)%nat -> Z.of_nat (length xs) <= room -> 1 < k ->
  k + Z.of_nat (length xs) + Z.of_nat n < 2 ^ 32 ->
  group_secs (acc ++ xs) < 2 ^ 31 -> group_exits (acc ++ xs) < 2 ^ 31 ->
  mapM group_line (group_on n acc xs) = Some texts ->
  exists st', report_all xs st = lift (Ret st') /\ st'.(sarst.out) = st.(sarst.out) ++ concat texts.
Proof.
  induction xs as [|x xs IH]; intros acc k room st texts HR HS Hacc Hn Ha Hroom Hk Hbig Hsec Hex Hm.
  - injection Hm as <-. exists st. split; [done|]. cbn. by rewrite app_nil_r.
  - destruct HS as (S1 & S2 & S3 & S4 & S5 & S6 & S7).
    destruct (group_sums_nonneg acc Hacc) as [Hs0 He0].
    assert (Hacc' : Forall (fun x => 1 <= x.(shown.interval) /\ 0 <= x.(shown.nexit)) (acc ++ [x])).
    { apply Forall_app. split; [done|]. by repeat constructor. }
    destruct (group_sums_nonneg xs (successive_sums _ _ _ S7)) as [Hxs Hxe].
    replace (acc ++ x :: xs) with ((acc ++ [x]) ++ xs) in Hsec, Hex by by rewrite <-app_assoc.
    pose proof Hsec as Hsec'. pose proof Hex as Hex'. rewrite group_secs_app in Hsec. rewrite group_exits_app in Hex.
    assert (Hx0 : 0 <= group_secs (acc ++ [x]) /\ 0 <= group_exits (acc ++ [x]))
      by exact (group_sums_nonneg _ Hacc').
    assert (Hxs2 : group_secs xs < 2 ^ 31) by lia. assert (Hxe2 : group_exits xs < 2 ^ 31) by lia.
    assert (Hsx : group_secs (acc ++ [x]) < 2 ^ 31) by lia.
    assert (Hex2 : group_exits (acc ++ [x]) < 2 ^ 31) by lia.
    cbn [length] in Hroom, Hbig. cbn [report_all].
    destruct (decide (xs = [] \/ S (length acc) = n)) as [Hdue|Hwait].
    + assert (Hg : exists t ts, group_line (acc ++ [x]) = Some t /\
        mapM group_line (group_on n [] xs) = Some ts /\ texts = t :: ts).
      { destruct xs as [|y xs].
        - cbn in Hm. apply bind_Some in Hm as (t & Et & Hm). injection Hm as <-.
          exists t, []. done.
        - destruct Hdue as [|Hdue]; [done|]. change (group_on n acc (x :: y :: xs)) with
            (if (S (length acc) =? n)%nat then (acc ++ [x]) :: group_on n [] (y :: xs)
             else group_on n (acc ++ [x]) (y :: xs)) in Hm.
          rewrite Hdue, Nat.eqb_refl in Hm. cbn [mapM] in Hm.
          apply bind_Some in Hm as (t & Et & Hm). apply bind_Some in Hm as (ts & Ets & [= <-]). eauto. }
      destruct Hg as (t & ts & Et & Ets & ->).
      destruct (line_step acc k room st x t) as (st' & E & HR' & Ho & Hd); try done; try lia.
      { destruct Hdue as [->|]; [by right | by left]. }
      rewrite E. cbn [lift mbind run_bind snd].
      destruct (IH [] (k + 1) (room - 1) st' ts) as (st2 & E2 & Ho2); try done; try lia.
      * by rewrite Hd.
      * cbn. lia.
      * exists st2. split; [exact E2|]. rewrite Ho2, Ho. cbn [concat]. by rewrite app_assoc.
    + assert (Hxs' : xs ≠ []) by tauto. assert (Hne : S (length acc) ≠ n) by tauto.
      assert (Hg : group_on n acc (x :: xs) = group_on n (acc ++ [x]) xs).
      { destruct xs as [|y xs]; [done|]. change (group_on n acc (x :: y :: xs)) with
          (if (S (length acc) =? n)%nat then (acc ++ [x]) :: group_on n [] (y :: xs)
           else group_on n (acc ++ [x]) (y :: xs)). by rewrite (proj2 (Nat.eqb_neq _ _) Hne). }
      rewrite Hg in Hm.
      assert (Htot : is_Some (group_total p.(pridef.cntcat) (acc ++ [x]) sstat_zero)).
      { destruct (group_on_head xs (acc ++ [x]) Hxs') as (g & rest & Eg). rewrite Eg in Hm. cbn [mapM] in Hm.
        apply bind_Some in Hm as (t & Et & _). unfold group_line in Et.
        apply bind_Some in Et as (y & _ & Et). apply bind_Some in Et as (tot & Et & _).
        by apply (group_total_prefix _ _ g _ tot). }
      destruct Htot as [tot Htot].
      destruct (wait_step acc k room st x tot) as (st' & E & HR' & Ho & Hd); try done; try lia.
      { by destruct xs. }
      rewrite E. cbn [lift mbind run_bind snd].
      destruct (IH (acc ++ [x]) (k + 1) room st' texts) as (st2 & E2 & Ho2); try done; try lia.
      * by rewrite Hd.
      * rewrite length_app. cbn. lia.
      * exists st2. split; [exact E2|]. by rewrite Ho2, Ho.
Qed.

(** The head of the report, at the time of the first record. *)
Definition head_text (time : Z) (h : text) : text :=
  newline :: (if usecolors then COLSETHEAD else []) ++ stamp localtime time ++ h ++
  (if usecolors then COLRESET else []) ++ [newline].

(** What is printed before the first line, when the report starts at [time]. *)
Definition report_start (firstcall : bool) (time : Z) : option text :=
  hdr ← (if firstcall then
           printf (nl ++ "%s  %s  %s  %s  %s" ++ nl ++ nl)%string
             [AStr nodename; AStr release; AStr version; AStr machine; AStr (convdate localtime now)]
         else Some []);
  date ← printf datemsg [AStr (convdate localtime time)];
  h ← p.(pridef.prihead);
  Some (hdr ++ date ++ head_text time h).

(** The state after the first record, once the head has been printed. *)
Definition headed (h : text) (st : sarst) : sarst :=
  set_curline (st.(sarst.curline) + 2)
    (print (head_text st.(sarst.pretime) h) (set_headline (st.(sarst.curline) + repeathead) st)).

(** The next sample prints the head first. *)
Lemma report_head x st h : st.(sarst.wanted) !! st.(sarst.prinow) = Some true -> st.(sarst.prinow) = i ->
  st.(sarst.firstcall) = false -> x.(shown.curtime) <= st.(sarst.daylim) -> x.(shown.sampcnt) ≠ 1 ->
  st.(sarst.headline) <= st.(sarst.curline) -> 0 <= st.(sarst.curline) ->
  3 <= repeathead -> st.(sarst.curline) + repeathead < 2 ^ 32 -> p.(pridef.prihead) = Some h ->
  report x 0 st = report x 0 (headed h st).
Proof.
  intros Hw Hi Hf Hd Hs Hh Hc Hr3 Hb Hh'.
  rewrite (report_running x st), (report_running x (headed h st)) by done. f_equal. unfold head_if_due.
  rewrite (proj2 (Z.leb_le _ _) Hh). unfold print_head. rewrite Hh'. cbn [mbind option_bind].
  rewrite (proj2 (Z.leb_gt _ _)); [done|]. cbn [headed set_curline print set_headline sarst.headline sarst.curline].
  rewrite !u32_id; lia.
Qed.

(** C9: Summaries: for a report whose function prints exactly one line, the same
    on its first call, and a log of one day without a restart, with no time
    limit before its end (the last sample is flagged as the last one), what -R n
    prints is the head of the report, at the time of the first record, and a
    line for each group of n successive samples after it, the last group with
    the samples that are left: the time of its last sample, and what the report
    prints for the sums of the samples, the seconds and the exits of the group.
    There are fewer lines than after which the head is repeated, every interval
    is at least a second, and the sums fit an int. *)
Theorem summaries_grouped x0 xs st start texts :
  st.(sarst.wanted) !! st.(sarst.prinow) = Some true -> st.(sarst.prinow) = i ->
  st.(sarst.daylim) < x0.(shown.curtime) -> x0.(shown.sampcnt) = 1 -> xs ≠ [] -> (2 <= n)%nat ->
  successive (daylimit localtime mktime x0.(shown.curtime)) 2 xs ->
  Z.of_nat (length xs) + 3 <= repeathead < 2 ^ 31 -> Z.of_nat (length xs) + Z.of_nat n < 2 ^ 31 ->
  group_secs xs < 2 ^ 31 -> group_exits xs < 2 ^ 31 ->
  report_start st.(sarst.firstcall) x0.(shown.curtime) = Some start ->
  mapM group_line (groups n xs) = Some texts ->
  exists st', report_all (x0 :: xs) st = lift (Ret st') /\
    st'.(sarst.out) = st.(sarst.out) ++ start ++ concat texts.
Proof.
  intros Hw Hi Hd Hs Hx Hn HS Hrep Hlen Hsec Hex Hstart Hm.
  rewrite <-group_on_groups in Hm by (done || lia).
  unfold report_start in Hstart. apply bind_Some in Hstart as (hdr & Hhdr & Hstart).
  apply bind_Some in Hstart as (date & Hdate & Hstart). apply bind_Some in Hstart as (h & Hh & [= <-]).
  assert (Hfirst : exists st1, report x0 0 st = lift (Ret (0, 0, st1)) /\
    st1.(sarst.out) = st.(sarst.out) ++ hdr ++ date /\ st1.(sarst.wanted) = st.(sarst.wanted) /\
    st1.(sarst.prinow) = i /\ st1.(sarst.daylim) = daylimit localtime mktime x0.(shown.curtime) /\
    st1.(sarst.pretime) = x0.(shown.curtime) /\ st1.(sarst.firstcall) = false /\ st1.(sarst.curline) = 1 /\
    st1.(sarst.headline) = 0 /\ st1.(sarst.sums).(sarsum.sampsum) = Z.of_nat n + 1 /\
    st1.(sarst.sums).(sarsum.totalsec) = 0 /\ st1.(sarst.sums).(sarsum.totalexit) = 0 /\
    st1.(sarst.sums).(sarsum.totsyst) = sstat_zero).
  { unfold reportraw. rewrite Hw, fault_bind. cbn [negb].
    unfold pass_midnight, reportheader in *. destruct st.(sarst.firstcall) eqn:Ef.
    all: rewrite ?Hhdr; cbn [mbind option_bind]; rewrite fault_bind; cbn [sarst.daylim set_firstcall print].
    all: rewrite (proj2 (Z.ltb_lt _ _) Hd), Hdate; cbn [mbind option_bind]; rewrite fault_bind, Hs.
    all: eexists; split; [reflexivity|]; cbn -[Z.add u32]; repeat split; try done; try (apply u32_id; lia).
    - by rewrite app_assoc.
    - injection Hhdr as <-. done. }
  destruct Hfirst as (st1 & E1 & F1 & F2 & F3 & F4 & F5 & F6 & F7 & F8 & F9 & F10 & F11 & F12).
  assert (HR : reporting [] 2 (Z.of_nat (length xs)) (headed h st1)).
  { split; cbn [headed set_curline print set_headline sarst.wanted sarst.prinow sarst.firstcall sarst.curline
      sarst.headline sarst.sums]; try done.
    - by rewrite F2, F3, <-Hi.
    - rewrite F7, !u32_id by lia. lia.
    - rewrite F9. cbn. lia.
    - by rewrite F12. }
  destruct (report_groups xs [] 2 (Z.of_nat (length xs)) (headed h st1) texts) as (st' & E & Ho);
    try assumption; try lia;
      [change (successive st1.(sarst.daylim) 2 xs); by rewrite F4 | by constructor | cbn; lia|].
  exists st'. cbn [report_all]. rewrite E1. cbn [lift mbind run_bind snd].
  split; [|rewrite Ho; change (sarst.out (headed h st1)) with (st1.(sarst.out) ++ head_text st1.(sarst.pretime) h);
    by rewrite F1, F5, <-!app_assoc].
  rewrite <-E. destruct xs as [|x xs]; [done|]. cbn [report_all]. destruct HS as (S1 & S2 & _).
  rewrite (report_head x st1 h); try done; try lia. by rewrite F2, F3, <-Hi.
Qed.
End summaries.

(** ** A report that fails *)

Section failing.
Context (stampalways : bool) (hertz : Z) (localtime : Z -> tm.tm).

(** A line that fails counts its report twice: with two reports wanted the
    program ends with status 1, and the other report is never printed. *)
Lemma failing_line_ends p x st a line s fs :
  sample_args hertz (line_stamp stampalways localtime x.(shown.curtime)) x = Some a ->
  p.(pridef.priline) a x.(shown.sstat) st.(sarst.firsts) = Some (line, 0, s, fs) ->
  st.(sarst.numreports) = 2 ->
  ('(rv, st) ← sample_line stampalways 1 hertz localtime p x st;
   if rv =? 0 then lift (drop_report st) else lift (Ret st)) = lift (Exit 1).
Proof.
  intros Ha Hp Hn. unfold sample_line. cbn [Z.eqb Pos.eqb].
  rewrite Ha, fault_bind. unfold print_line. rewrite Hp, fault_bind. cbn [Z.eqb]. unfold drop_report.
  cbn [sarst.numreports set_wanted set_curline set_firsts print]. by rewrite Hn.
Qed.
End failing.

(** ** The number of reports *)

(** [numreports] is the number of reports that are wanted. *)
Record reports_counted (flags : list ascii) (o : saropts.saropts) : Prop := {
  rc_length : length o.(saropts.wanted) = length flags;
  rc_count : o.(saropts.numreports) = zcount id o.(saropts.wanted)
}.

Lemma find_flag_spec flags c : forall wanted j, find_flag flags wanted c = Some j ->
  flags !! j = Some c /\ wanted !! j = Some false.
Proof.
  induction flags as [|f flags IH]; intros [|w wanted] j; cbn; try done.
  destruct (Ascii.eqb_spec f c) as [->|]; cbn [andb].
  - destruct w; cbn; [|by intros [= <-]].
    intros H. destruct (find_flag flags wanted c) eqn:E; [|done]. injection H as <-. cbn. by apply IH.
  - intros H. destruct (find_flag flags wanted c) eqn:E; [|done]. injection H as <-. cbn. by apply IH.
Qed.

Lemma zcount_wanted n : zcount id (replicate n true) = Z.of_nat n.
Proof. induction n as [|n IH]; [done|]. cbn [replicate zcount]. rewrite IH. cbn [c_bool id]. lia. Qed.

Lemma sar_flag_counted flags rows c o : reports_counted flags o -> reports_counted flags (sar_flag flags rows c o).
Proof.
  intros [Hl Hc]. unfold sar_flag. repeat (case_match; [done|]).
  case_match.
  { split; cbn; [by rewrite length_replicate | by rewrite zcount_wanted]. }
  destruct (find_flag flags o.(saropts.wanted) c) as [j|] eqn:Ej; [|done].
  apply find_flag_spec in Ej as [_ Hj]. split; cbn.
  - by rewrite length_insert.
  - rewrite (zcount_insert _ _ _ _ _ Hj), Hc. cbn. lia.
Qed.

(** Whatever flags the command and the file .atoprc give, and in whatever order
    they are repeated, [numreports] stays the number of wanted reports, and at
    least one is wanted in the end. *)
Theorem flags_counted flags rows val o : (0 < length flags)%nat -> reports_counted flags o ->
  let o' := default_report (do_atopsarflags flags rows val o) in
  reports_counted flags o' /\ 1 <= o'.(saropts.numreports).
Proof.
  intros Hlen Ho. cbv zeta.
  assert (H : reports_counted flags (do_atopsarflags flags rows val o)).
  { unfold do_atopsarflags. revert o Ho. induction val as [|c val IH]; intros o Ho; [done|].
    cbn [fold_left]. by apply IH, sar_flag_counted. }
  destruct H as [Hl Hc]. unfold default_report. set (o1 := do_atopsarflags _ _ _ _) in *.
  destruct (Z.eqb_spec o1.(saropts.numreports) 0) as [E|E].
  - assert (Hj : o1.(saropts.wanted) !! 0%nat = Some false).
    { destruct o1.(saropts.wanted) as [|[|] w]; [cbn in Hl; lia | | done]. rewrite Hc in E. cbn in E.
      pose proof (zcount_range id w). lia. }
    split; [|cbn; lia]. split; cbn [set_reports saropts.wanted saropts.numreports].
    + by rewrite length_insert.
    + rewrite (zcount_insert _ _ _ _ _ Hj), <-Hc, E. done.
  - split; [done|]. pose proof (zcount_range id o1.(saropts.wanted)). lia.
Qed.

(** ** The theorems at work *)

Definition tcp_sample (n inseg : Z) (flags : Z) : sample :=
  shown.mk (1000 + 10 * n) 10 (rawtasks.mk [] [] [] 0 0 0 0 0 0 0)
    (upd_net (set_netstat_tcp (tcp_stats.mk 0 0 0 0 0 0 0 0 3 inseg 40 0 0 0)) sstat_zero) 0 0 flags n 0.

Definition a_clock (t : Z) : tm.tm :=
  tm.mk (t mod 60) (t / 60 mod 60) (t / 3600 mod 24) (1 + t / 86400) 0 70.
Definition an_unclock (x : tm.tm) : Z :=
  x.(tm.tm_sec) + 60 * x.(tm.tm_min) + 3600 * x.(tm.tm_hour) + 86400 * (x.(tm.tm_mday) - 1).
Definition a_sarenv : sarenv.sarenv := sarenv.mk 90 90 80 10 70 90 80 4096 100 0 false true false.

(** Before the report "t" of a log, for which two samples are summarized. *)
Definition before_tcp : sarst :=
  sarst.mk (<[23%nat := true]> (replicate 29 false)) 1 23 0 0 true 0 0 (sarsum.mk 0 0 0 sstat_zero 0 0 0 0 0 0)
    (sarfirst.mk true true true true) [].

Definition tcp_log : list sample := [tcp_sample 2 100 0; tcp_sample 3 300 0; tcp_sample 4 70 RRLAST].

Lemma lines_counted_witness :
  let s := (tcp_sample 2 100 0).(shown.sstat) in
  let a := sarargs.mk false [] 0 20 2000 100 (chars "        ") 0 0 0 0 0 0 in
  counted (default ([], 7, s, sarfirst.mk true true true true) (tcpline a s (sarfirst.mk true true true true))).
Proof.
  intros s a.
  destruct (tcpline a s (sarfirst.mk true true true true)) as [r|] eqn:E; [|vm_compute in E; discriminate].
  apply (lines_counted a_sarenv (pridef.mk (chars "n") "t" tcphead tcpline "tcp        (general)")
           a s (sarfirst.mk true true true true) r).
  - by apply (nth_error_In _ 23).
  - split; [done | by constructor | by apply Forall_replicate..].
  - exact E.
Defined.

Lemma summaries_grouped_witness : exists st',
  report_all (reports_of a_sarenv) false 100 2 false 100 (chars "host") (chars "3.10") (chars "#1") (chars "x86_64")
    a_clock an_unclock 1000 (tcp_sample 1 0 0 :: tcp_log) before_tcp = lift (Ret st') /\
  st'.(sarst.out) =
  [] ++ default [] (report_start false (chars "host") (chars "3.10") (chars "#1") (chars "x86_64") a_clock 1000
                      (pridef.mk (chars "n") "t" tcphead tcpline "tcp        (general)") true 1010) ++
  concat (default [] (mapM (group_line false 100 a_clock
    (pridef.mk (chars "n") "t" tcphead tcpline "tcp        (general)")
    (fun a s => '(t, _, _, _) ← tcpline a s (sarfirst.mk true true true true); Some t)) (groups 2 tcp_log))).
Proof.
  apply (summaries_grouped (reports_of a_sarenv) false 100 2 false 100 (chars "host") (chars "3.10") (chars "#1")
    (chars "x86_64") a_clock an_unclock 1000 23
    (pridef.mk (chars "n") "t" tcphead tcpline "tcp        (general)")
    (fun a s => '(t, _, _, _) ← tcpline a s (sarfirst.mk true true true true); Some t)).
  - done.
  - intros a s fs. cbn [pridef.priline]. unfold tcpline, one_line. by destruct (printf _ _).
  - done.
  - done.
  - done.
  - done.
  - done.
  - lia.
  - by repeat split.
  - done.
  - done.
  - done.
  - done.
  - vm_compute. reflexivity.
  - vm_compute. reflexivity.
Defined.

(** 100 and 300 segments came in during 20 seconds, 70 in the 10 seconds that are
    left. *)
Example tcp_lines :
  mapM (group_line false 100 a_clock (pridef.mk (chars "n") "t" tcphead tcpline "tcp        (general)")
    (fun a s => '(t, _, _, _) ← tcpline a s (sarfirst.mk true true true true); Some t)) (groups 2 tcp_log) =
  Some [chars ("00:17:10      20.0       4.0        0.0       0.0        3" ++ nl);
        chars ("00:17:20       7.0       4.0        0.0       0.0        3" ++ nl)].
Proof. vm_compute. reflexivity. Qed.
