(* ===== verification/Showgeneric.v ===== *)
(** * The generic display: showgeneric.c

    [generic_samp] for a build without ncurses: it sorts the resources of the
    system, prints what there is to say about the sample, makes the list of
    tasks or of accumulated tasks that the settings ask for, sorts it, puts the
    threads behind their processes and hands it to [priproc]. The settings come
    from the flags of the command ([generic_init]) and from the configuration
    file. The lists are allocated for one call and freed at its end, so they are
    local here; a pointer into an array of tasks is its position with the task.

    [getpwent], [regcomp] and [prusage] (which is not in the repository) are
    parameters. *)
From Stdlib Require Import Ascii.
From S2P Require Import Prelude Format Printf Sscanf Tstat Sstat SstatStores Netatopif Photoproc Various Compar Cumulate Showprocs Showline Prihead Parseable Rawlog.

(** ** Settings *)

(** The greatest numbers of lines per resource. *)
Module maxlines.
Record maxlines := mk {
  cpu : Z;
  dsk : Z;
  mdd : Z;
  lvm : Z;
  int : Z;
  nfs : Z;
  cont : Z
}.
End maxlines.

Module showset.
Record showset := mk {
  showtype : Z;
  showorder : Z;
  procsel : pselection.pselection;
  lines : maxlines.maxlines;
  deviatonly : bool;
  threadview : bool;
  calcpss : bool;
  usecolors : bool;
  fixedhead : bool;
  sysnosort : bool;
  avgval : bool;
  suppressexit : bool
}.
End showset.
Notation showset := showset.showset.

Section setters.
Implicit Types s : showset.

Definition set_type t s := showset.mk t s.(showset.showorder) s.(showset.procsel) s.(showset.lines)
  s.(showset.deviatonly) s.(showset.threadview) s.(showset.calcpss) s.(showset.usecolors)
  s.(showset.fixedhead) s.(showset.sysnosort) s.(showset.avgval) s.(showset.suppressexit).
Definition set_order o s := showset.mk s.(showset.showtype) o s.(showset.procsel) s.(showset.lines)
  s.(showset.deviatonly) s.(showset.threadview) s.(showset.calcpss) s.(showset.usecolors)
  s.(showset.fixedhead) s.(showset.sysnosort) s.(showset.avgval) s.(showset.suppressexit).
Definition set_view t o s := set_type t (set_order o s).
Definition set_procsel p s := showset.mk s.(showset.showtype) s.(showset.showorder) p s.(showset.lines)
  s.(showset.deviatonly) s.(showset.threadview) s.(showset.calcpss) s.(showset.usecolors)
  s.(showset.fixedhead) s.(showset.sysnosort) s.(showset.avgval) s.(showset.suppressexit).
Definition set_lines l s := showset.mk s.(showset.showtype) s.(showset.showorder) s.(showset.procsel) l
  s.(showset.deviatonly) s.(showset.threadview) s.(showset.calcpss) s.(showset.usecolors)
  s.(showset.fixedhead) s.(showset.sysnosort) s.(showset.avgval) s.(showset.suppressexit).
Definition set_deviatonly b s := showset.mk s.(showset.showtype) s.(showset.showorder) s.(showset.procsel)
  s.(showset.lines) b s.(showset.threadview) s.(showset.calcpss) s.(showset.usecolors)
  s.(showset.fixedhead) s.(showset.sysnosort) s.(showset.avgval) s.(showset.suppressexit).
Definition set_threadview b s := showset.mk s.(showset.showtype) s.(showset.showorder) s.(showset.procsel)
  s.(showset.lines) s.(showset.deviatonly) b s.(showset.calcpss) s.(showset.usecolors)
  s.(showset.fixedhead) s.(showset.sysnosort) s.(showset.avgval) s.(showset.suppressexit).
Definition set_calcpss b s := showset.mk s.(showset.showtype) s.(showset.showorder) s.(showset.procsel)
  s.(showset.lines) s.(showset.deviatonly) s.(showset.threadview) b s.(showset.usecolors)
  s.(showset.fixedhead) s.(showset.sysnosort) s.(showset.avgval) s.(showset.suppressexit).
Definition set_colors b s := showset.mk s.(showset.showtype) s.(showset.showorder) s.(showset.procsel)
  s.(showset.lines) s.(showset.deviatonly) s.(showset.threadview) s.(showset.calcpss) b
  s.(showset.fixedhead) s.(showset.sysnosort) s.(showset.avgval) s.(showset.suppressexit).
Definition set_fixedhead b s := showset.mk s.(showset.showtype) s.(showset.showorder) s.(showset.procsel)
  s.(showset.lines) s.(showset.deviatonly) s.(showset.threadview) s.(showset.calcpss) s.(showset.usecolors)
  b s.(showset.sysnosort) s.(showset.avgval) s.(showset.suppressexit).
Definition set_sysnosort b s := showset.mk s.(showset.showtype) s.(showset.showorder) s.(showset.procsel)
  s.(showset.lines) s.(showset.deviatonly) s.(showset.threadview) s.(showset.calcpss) s.(showset.usecolors)
  s.(showset.fixedhead) b s.(showset.avgval) s.(showset.suppressexit).
Definition set_avgval b s := showset.mk s.(showset.showtype) s.(showset.showorder) s.(showset.procsel)
  s.(showset.lines) s.(showset.deviatonly) s.(showset.threadview) s.(showset.calcpss) s.(showset.usecolors)
  s.(showset.fixedhead) s.(showset.sysnosort) b s.(showset.suppressexit).
Definition set_suppressexit b s := showset.mk s.(showset.showtype) s.(showset.showorder) s.(showset.procsel)
  s.(showset.lines) s.(showset.deviatonly) s.(showset.threadview) s.(showset.calcpss) s.(showset.usecolors)
  s.(showset.fixedhead) s.(showset.sysnosort) s.(showset.avgval) b.
End setters.

(** ** Flags *)

(** The flags of showgeneric.h beside those of [Showline] and [Prihead]. *)
Definition MSORTAUTO : Z := 65. (* 'A' *)
Definition MTHREAD : Z := 121. (* 'y' *)
Definition MCALCPSS : Z := 82. (* 'R' *)
Definition MSUPEXITS : Z := 71. (* 'G' *)
Definition MCOLORS : Z := 120. (* 'x' *)
Definition MSYSFIXED : Z := 102. (* 'f' *)
Definition MSYSNOSORT : Z := 70. (* 'F' *)
Definition MSYSLIMIT : Z := 108. (* 'l' *)
Definition MALLPROC : Z := 97. (* 'a' *)
Definition MAVGVAL : Z := 49. (* '1' *)

Definition limitedlines (s : showset) : showset := set_lines (maxlines.mk 0 3 3 4 2 2 0) s.

(** The flags for which [do_flags] and [generic_init] do the same: orders and
    types of lists. *)
Definition order_flag (c : Z) : option (showset -> showset) :=
  if c =? MSORTAUTO then Some (set_order MSORTAUTO)
  else if c =? MSORTCPU then Some (set_order MSORTCPU)
  else if c =? MSORTMEM then Some (set_order MSORTMEM)
  else if c =? MSORTDSK then Some (set_order MSORTDSK)
  else if c =? MSORTNET then Some (set_order MSORTNET)
  else if c =? MPROCGEN then Some (set_view MPROCGEN MSORTCPU)
  else if c =? MPROCMEM then Some (set_view MPROCMEM MSORTMEM)
  else if c =? MPROCSCH then Some (set_view MPROCSCH MSORTCPU)
  else if c =? MPROCVAR then Some (set_type MPROCVAR)
  else if c =? MPROCARG then Some (set_type MPROCARG)
  else if c =? MPROCOWN then Some (set_type MPROCOWN)
  else if c =? MCUMUSER then Some (set_type MCUMUSER)
  else if c =? MCUMPROC then Some (set_type MCUMPROC)
  else if c =? MCUMCONT then Some (set_type MCUMCONT)
  else None.

(** A flag of the configuration file; others are ignored. *)
Definition config_flag (s : showset) (ch : ascii) : showset :=
  let c := Z.of_nat (nat_of_ascii ch) in
  match order_flag c with
  | Some f => f s
  | None =>
      if c =? MPROCDSK then set_view MPROCDSK MSORTDSK s
      else if c =? MPROCNET then set_view MPROCNET MSORTNET s
      else if c =? MALLPROC then set_deviatonly false s
      else if c =? MAVGVAL then set_avgval true s
      else if c =? MSYSFIXED then set_fixedhead true s
      else if c =? MSYSNOSORT then set_sysnosort true s
      else if c =? MTHREAD then set_threadview true s
      else if c =? MCOLORS then set_colors false s
      else if c =? MCALCPSS then set_calcpss true s
      else if c =? MSUPEXITS then set_suppressexit true s
      else s
  end.

Definition do_flags (val : text) (s : showset) : showset := fold_left config_flag val s.

Section init.
Context (prusage : exitor unit) (supportflags : Z).

(** A flag of the command: switches change their state; a list whose counters
    are missing is refused with a message. *)
Definition command_flag (s : showset) (ch : ascii) : exitor showset :=
  let c := Z.of_nat (nat_of_ascii ch) in
  match order_flag c with
  | Some f => Ret (f s)
  | None =>
      if c =? MPROCDSK then
        Ret (if Prihead.flag supportflags IOSTAT then set_view MPROCDSK MSORTDSK s else s)
      else if c =? MPROCNET then
        Ret (if Prihead.flag supportflags NETATOP then set_view MPROCNET MSORTNET s else s)
      else if c =? MAVGVAL then Ret (set_avgval (negb s.(showset.avgval)) s)
      else if c =? MSYSFIXED then Ret (set_fixedhead (negb s.(showset.fixedhead)) s)
      else if c =? MSYSNOSORT then Ret (set_sysnosort (negb s.(showset.sysnosort)) s)
      else if c =? MTHREAD then Ret (set_threadview (negb s.(showset.threadview)) s)
      else if c =? MCALCPSS then Ret (set_calcpss (negb s.(showset.calcpss)) s)
      else if c =? MSUPEXITS then Ret (set_suppressexit (negb s.(showset.suppressexit)) s)
      else if c =? MCOLORS then Ret (set_colors (negb s.(showset.usecolors)) s)
      else if c =? MSYSLIMIT then Ret (limitedlines s)
      else _ ← prusage; Ret s
  end.

Fixpoint generic_init (flaglist : text) (s : showset) : exitor showset :=
  match flaglist with
  | [] => Ret s
  | c :: flaglist => s ← command_flag s c; generic_init flaglist s
  end.
End init.

(** ** Lines of the configuration file *)

Definition do_max (set : Z -> maxlines.maxlines -> maxlines.maxlines) (val : text) (s : showset) : exitor showset :=
  v ← get_posval val; Ret (set_lines (set v s.(showset.lines)) s).

Definition do_maxcpu := do_max (fun v l => maxlines.mk v l.(maxlines.dsk) l.(maxlines.mdd) l.(maxlines.lvm)
  l.(maxlines.int) l.(maxlines.nfs) l.(maxlines.cont)).
Definition do_maxdisk := do_max (fun v l => maxlines.mk l.(maxlines.cpu) v l.(maxlines.mdd) l.(maxlines.lvm)
  l.(maxlines.int) l.(maxlines.nfs) l.(maxlines.cont)).
Definition do_maxmdd := do_max (fun v l => maxlines.mk l.(maxlines.cpu) l.(maxlines.dsk) v l.(maxlines.lvm)
  l.(maxlines.int) l.(maxlines.nfs) l.(maxlines.cont)).
Definition do_maxlvm := do_max (fun v l => maxlines.mk l.(maxlines.cpu) l.(maxlines.dsk) l.(maxlines.mdd) v
  l.(maxlines.int) l.(maxlines.nfs) l.(maxlines.cont)).
Definition do_maxintf := do_max (fun v l => maxlines.mk l.(maxlines.cpu) l.(maxlines.dsk) l.(maxlines.mdd)
  l.(maxlines.lvm) v l.(maxlines.nfs) l.(maxlines.cont)).
Definition do_maxnfsm := do_max (fun v l => maxlines.mk l.(maxlines.cpu) l.(maxlines.dsk) l.(maxlines.mdd)
  l.(maxlines.lvm) l.(maxlines.int) v l.(maxlines.cont)).
Definition do_maxcont := do_max (fun v l => maxlines.mk l.(maxlines.cpu) l.(maxlines.dsk) l.(maxlines.mdd)
  l.(maxlines.lvm) l.(maxlines.int) l.(maxlines.nfs) v).

(** The numbers of the colors are those of curses.h. *)
Definition colormap : list (string * Z) :=
  [("red", 1); ("green", 2); ("yellow", 3); ("blue", 4); ("magenta", 5); ("cyan", 6); ("black", 0);
   ("white", 7)]%string.

Definition modify_color (colorname : text) : exitor Z :=
  match list_find (fun e => chars e.1 = colorname) colormap with
  | Some (_, e) => Ret e.2
  | None => Exit 1
  end.

Module colors.
Record colors := mk {
  colorinfo : Z;
  coloralmost : Z;
  colorcrit : Z;
  colorthread : Z
}.
End colors.

Definition do_colinfo (val : text) (c : colors.colors) : exitor colors.colors :=
  v ← modify_color val; Ret (colors.mk v c.(colors.coloralmost) c.(colors.colorcrit) c.(colors.colorthread)).
Definition do_colalmost (val : text) (c : colors.colors) : exitor colors.colors :=
  v ← modify_color val; Ret (colors.mk c.(colors.colorinfo) v c.(colors.colorcrit) c.(colors.colorthread)).
Definition do_colcrit (val : text) (c : colors.colors) : exitor colors.colors :=
  v ← modify_color val; Ret (colors.mk c.(colors.colorinfo) c.(colors.coloralmost) v c.(colors.colorthread)).
Definition do_colthread (val : text) (c : colors.colors) : exitor colors.colors :=
  v ← modify_color val; Ret (colors.mk c.(colors.colorinfo) c.(colors.coloralmost) c.(colors.colorcrit) v).

Definition MAXUSERSEL : nat := 64.
Definition USERNAMESZ : nat := 256.
Definition PROGNAMESZ : nat := 64.

Section selections.
(** The users of the system with their numbers, and [regcomp]: an expression
    that is valid gives the answers of [regexec]. *)
Context (passwd : list (string * Z)) (regcomp : text -> option (string -> Z)).

Definition with_userid (userid : list Z) (p : pselection.pselection) : pselection.pselection :=
  pselection.mk userid p.(pselection.pid) p.(pselection.prognamesz) p.(pselection.progregex)
    p.(pselection.argnamesz) p.(pselection.argregex) p.(pselection.container).

(** The users whose names match, as far as there is room. *)
Fixpoint match_users (regex : string -> Z) (users : list (string * Z)) (u : nat) (userid : list Z) :
    option (nat * list Z) :=
  match users with
  | [] => Some (u, userid)
  | (name, uid) :: users =>
      if negb (regex name =? 0) then match_users regex users u userid
      else if (u <? MAXUSERSEL - 1)%nat then
        userid ← arr_set userid u (u32 uid); match_users regex users (S u) userid
      else match_users regex users u userid
  end.

Definition do_username (val : text) (p : pselection.pselection) : run pselection.pselection :=
  let username := take (USERNAMESZ - 1) val in
  match username with
  | [] => userid ← may_fault (arr_set p.(pselection.userid) 0 USERSTUB); lift (Ret (with_userid userid p))
  | _ =>
      match regcomp username with
      | None => lift (Exit 1)
      | Some regex =>
          '(u, userid) ← may_fault (match_users regex passwd 0 p.(pselection.userid));
          userid ← may_fault (arr_set userid u USERSTUB);
          if (u =? 0)%nat then
            if negb (numeric username =? 0) then
              userid ← may_fault (arr_set userid 0 (u32 (atoi username)));
              userid ← may_fault (arr_set userid 1 USERSTUB);
              lift (Ret (with_userid userid p))
            else lift (Exit 1)
          else lift (Ret (with_userid userid p))
      end
  end.

Definition do_procname (val : text) (p : pselection.pselection) : exitor pselection.pselection :=
  let progname := take (PROGNAMESZ - 1) val in
  let size := Z.of_nat (length progname) in
  let set regex := pselection.mk p.(pselection.userid) p.(pselection.pid) size regex
                     p.(pselection.argnamesz) p.(pselection.argregex) p.(pselection.container) in
  if size =? 0 then Ret (set p.(pselection.progregex))
  else match regcomp progname with None => Exit 1 | Some regex => Ret (set regex) end.
End selections.

(** ** The state of the display *)

(** The settings, whether [generic_samp] has been called, the memory shared with
    the viewer, the sample of the system as it is left, and what was printed. *)
Module dispst.
Record dispst := mk {
  set : showset;
  called : bool;
  zsm : sharemem.sharemem;
  sys : sstat.sstat;
  out : text
}.
End dispst.
Notation dispst := dispst.dispst.

(** ** Resources of the system *)

Section display.
Context `{QSort}.

(** [qsort] of the first [n] entries, when there are several and lines for them. *)
Definition sort_entries {A} (n lines : Z) (cmp : A -> A -> Z) (l : list A) : option (list A) :=
  if (1 <? n) && (0 <? lines) then
    if (Z.to_nat n <=? length l)%nat then Some (qsort cmp (take (Z.to_nat n) l) ++ drop (Z.to_nat n) l) else None
  else Some l.

Definition sort_system (s : showset) (ss : sstat.sstat) : option sstat.sstat :=
  if s.(showset.sysnosort) then Some ss
  else
    let m := s.(showset.lines) in
    let d := ss.(sstat.dsk) in
    let mounts := ss.(sstat.nfs).(nfsstat.nfsmounts) in
    cpu ← sort_entries ss.(sstat.cpu).(cpustat.nrcpu) m.(maxlines.cpu) cpucompar ss.(sstat.cpu).(cpustat.cpu);
    lvm ← sort_entries d.(dskstat.nlvm) m.(maxlines.lvm) diskcompar d.(dskstat.lvm);
    mdd ← sort_entries d.(dskstat.nmdd) m.(maxlines.mdd) diskcompar d.(dskstat.mdd);
    dsk ← sort_entries d.(dskstat.ndsk) m.(maxlines.dsk) diskcompar d.(dskstat.dsk);
    intf ← sort_entries ss.(sstat.intf).(intfstat.nrintf) m.(maxlines.int) intfcompar
             ss.(sstat.intf).(intfstat.intf);
    nfs ← sort_entries mounts.(nfsmounts.nrmounts) m.(maxlines.nfs) nfsmcompar mounts.(nfsmounts.nfsmnt);
    cont ← sort_entries ss.(sstat.cfs).(contstat.nrcontainer) m.(maxlines.cont) contcompar
             ss.(sstat.cfs).(contstat.cont);
    Some (set_sstat_cfs (set_contstat_cont cont ss.(sstat.cfs))
           (upd_nfs (set_nfsstat_nfsmounts (set_nfsmounts_nfsmnt nfs mounts))
             (set_sstat_intf (set_intfstat_intf intf ss.(sstat.intf))
               (set_sstat_dsk (set_dskstat_dsk dsk (set_dskstat_mdd mdd (set_dskstat_lvm lvm d)))
                 (upd_cpu (set_cpustat_cpu cpu) ss))))).

(** ** The list of tasks *)

(** A task with its position in the array that the list points to. *)
Definition entry : Type := nat * tstat.tstat.

(** The first [n] pointers of a list. *)
Definition fetch (taskall : list tstat.tstat) (n : Z) (ptrs : list nat) : option (list entry) :=
  if (Z.to_nat n <=? length ptrs)%nat
  then mapM (fun i => t ← taskall !! i; Some (i, t)) (take (Z.to_nat n) ptrs) else None.

(** Only the active tasks are shown: for memory all are. *)
Definition only_active (s : showset) : bool :=
  s.(showset.deviatonly) && negb (s.(showset.showtype) =? MPROCMEM) && negb (s.(showset.showorder) =? MSORTMEM).

(** The processes that are accumulated. *)
Definition cum_procs (s : showset) (d : rawtasks tstat.tstat) : option (list tstat.tstat) :=
  l ← (if s.(showset.deviatonly)
       then fetch d.(rawtasks.taskall) d.(rawtasks.nprocactive) d.(rawtasks.procactive)
       else fetch d.(rawtasks.taskall) d.(rawtasks.nprocall) d.(rawtasks.procall));
  Some l.*2.

(** The accumulated list: one of [cumusers], [cumprogs] and [cumconts] with a
    new array. *)
Definition cum_list
    (cum : list tstat.tstat -> list tstat.tstat -> option (list tstat.tstat * (Z * list tstat.tstat)))
    (s : showset) (d : rawtasks tstat.tstat) : option (list entry) :=
  procs ← cum_procs s d;
  '(_, (num, l)) ← cum procs (replicate (length procs) tstat_zero);
  Some (imap pair (take (Z.to_nat num) l)).

Definition no_selection (s : showset) : option bool :=
  let p := s.(showset.procsel) in
  user ← p.(pselection.userid) !! 0%nat;
  pid ← p.(pselection.pid) !! 0%nat;
  Some ((user =? USERSTUB) && (p.(pselection.prognamesz) =? 0) &&
        match p.(pselection.container) with EmptyString => true | _ => false end &&
        (p.(pselection.argnamesz) =? 0) && (pid =? 0) && negb s.(showset.suppressexit)).

Fixpoint select_tasks (s : showset) (l : list entry) : option (list entry) :=
  match l with
  | [] => Some []
  | e :: l =>
      out ← left_out s.(showset.procsel) s.(showset.suppressexit) e.2;
      l ← select_tasks s l;
      Some (if (out : bool) then l else e :: l)
  end.

(** select the required list with tasks to be shown; the flag tells whether
    threads can be shown *)
Definition current_list (s : showset) (d : rawtasks tstat.tstat) : option (bool * list entry) :=
  let sel := s.(showset.procsel) in
  let out := s.(showset.suppressexit) in
  if s.(showset.showtype) =? MCUMUSER then l ← cum_list (cumusers sel out) s d; Some (false, l)
  else if s.(showset.showtype) =? MCUMPROC then l ← cum_list (cumprogs sel out) s d; Some (false, l)
  else if s.(showset.showtype) =? MCUMCONT then l ← cum_list (cumconts sel out) s d; Some (false, l)
  else
    l ← (if only_active s then fetch d.(rawtasks.taskall) d.(rawtasks.nprocactive) d.(rawtasks.procactive)
         else fetch d.(rawtasks.taskall) d.(rawtasks.nprocall) d.(rawtasks.procall));
    all ← no_selection s;
    l ← (if (all : bool) then Some l else select_tasks s l);
    Some (true, l).

(** [procsort]; the other entries of the array are null. *)
Definition procsort (order : Z) : option (tstat.tstat -> tstat.tstat -> Z) :=
  if order =? MSORTCPU then Some compcpu
  else if order =? MSORTMEM then Some compmem
  else if order =? MSORTDSK then Some compdsk
  else if order =? MSORTNET then Some compnet
  else None.

(** Without the lines of the system nothing decides about the order. *)
Definition curorder (s : showset) : Z :=
  if s.(showset.showorder) =? MSORTAUTO then MSORTCPU else s.(showset.showorder).

(** The threads behind a process: the tasks up to one of another group. *)
Fixpoint threads_after (active : bool) (tgid : Z) (l : list tstat.tstat) : list tstat.tstat :=
  match l with
  | [] => []
  | t :: l =>
      if negb (tgid =? 0) && (tgid =? t.(tstat.gen).(tgen.tgid)) then
        if active && negb (t.(tstat.gen).(tgen.wasinactive) =? 0) then threads_after active tgid l
        else t :: threads_after active tgid l
      else []
  end.

Definition zip_entry (active : bool) (taskall : list tstat.tstat) (e : entry) : list tstat.tstat :=
  e.2 :: threads_after active e.2.(tstat.gen).(tgen.tgid) (drop (S e.1) taskall).

(** zip process list with references to threads: [tsklist] has room for as many
    tasks as there are *)
Definition zip_tasks (s : showset) (d : rawtasks tstat.tstat) (l : list entry) : option (list tstat.tstat) :=
  let ntotal := if only_active s then d.(rawtasks.ntaskactive) else Z.of_nat (length d.(rawtasks.taskall)) in
  let tsklist := flat_map (zip_entry (only_active s) d.(rawtasks.taskall)) l in
  if Z.of_nat (length tsklist) <=? ntotal then Some tsklist else None.

(** The list in its order, as it is handed over; none when there is nothing to
    show. *)
Definition shown_list (s : showset) (d : rawtasks tstat.tstat) : option (list tstat.tstat) :=
  '(threadallowed, l) ← current_list s d;
  let threads := s.(showset.threadview) && threadallowed in
  let plistsz := if threads then d.(rawtasks.ntaskactive) else Z.of_nat (length l) in
  if (0 <? Z.of_nat (length l)) && (0 <? plistsz) then
    cmp ← procsort (curorder s);
    let l := qsort (fun a b => cmp a.2 b.2) l in
    if threads then zip_tasks s d l else Some l.*2
  else Some [].

(** ** The display of a sample *)

(** The line about the sample. *)
Definition samp_status (nexit noverflow flags : Z) : option text :=
  if negb (noverflow =? 0) then
    printf "Only %d exited processes handled -- %u skipped!" [AInt nexit; AInt noverflow]
  else if flagged flags RRBOOT then
    Some (chars "                   *** system and process activity since boot ***")
  else Some [].

Context (prusage : exitor unit) (flaglist : text) (pagesize : Z).

Definition generic_samp (x : shown tstat.tstat sstat.sstat) (begintime : Z) (st : dispst) : run (Z * Z * dispst) :=
  set ← lift (if st.(dispst.called) then Ret st.(dispst.set)
              else generic_init prusage x.(shown.supportflags) flaglist st.(dispst.set));
  let d := x.(shown.devtstat) in
  procs ← may_fault (fetch d.(rawtasks.taskall) d.(rawtasks.nprocactive) d.(rawtasks.procactive));
  let syscap := totalcap pagesize x.(shown.sstat) procs.*2 in
  sys ← may_fault (sort_system set x.(shown.sstat));
  status ← may_fault (samp_status x.(shown.nexit) x.(shown.noverflow) x.(shown.flags));
  let out := st.(dispst.out) ++ chars (nl ++ nl ++ nl) ++ status in
  l ← may_fault (shown_list set d);
  zsm ← may_fault
    (match l with
     | [] => Some st.(dispst.zsm)
     | _ =>
         '(_, zsm) ← priproc l 0 (length l) 4 (curorder set) syscap (i32 x.(shown.interval))
                       (c_bool set.(showset.avgval)) st.(dispst.zsm);
         Some zsm
     end);
  lift (Ret (0, begintime, dispst.mk set true zsm sys out)).
End display.
