(* ===== verification/ShowgenericFacts.v ===== *)
(** * What the generic display shows

    The tasks that are handed to the viewer are the selected processes in the
    order that is asked for, each followed by its threads when threads are
    shown; the accumulated lists hold their entries in that order. Whatever
    flags are given, there is a comparison function for the order. *)
From Stdlib Require Import Ascii Sorted.
From S2P Require Import Prelude Format Printf Sscanf Tstat Sstat SstatStores Netatopif Photoproc Various Compar Cumulate CumFacts Showprocs Showline Prihead PriheadFacts Parseable Rawlog RawlogMain Showgeneric.

(** ** Groups of tasks *)

Definition active (t : tstat.tstat) : bool := t.(tstat.gen).(tgen.wasinactive) =? 0.
Definition is_proc (t : tstat.tstat) : bool := negb (t.(tstat.gen).(tgen.isproc) =? 0).
Definition tgid (t : tstat.tstat) : Z := t.(tstat.gen).(tgen.tgid).

(** A process with its threads. *)
Definition group : Type := tstat.tstat * list tstat.tstat.
Definition tasks (g : group) : list tstat.tstat := g.1 :: g.2.

(** The threads carry the number of their process; only an exited process of an
    old kernel has none. *)
Record group_ok (g : group) : Prop := {
  go_proc : is_proc g.1 = true;
  go_threads : Forall (fun t => is_proc t = false /\ tgid t = tgid g.1) g.2;
  go_tgid : tgid g.1 = 0 -> g.2 = []
}.

(** Neighbouring groups have different numbers. *)
Fixpoint apart (gs : list group) : Prop :=
  match gs with
  | g :: ((h :: _) as gs') => (tgid g.1 = 0 \/ tgid g.1 ≠ tgid h.1) /\ apart gs'
  | _ => True
  end.

(** The tasks of a sample and the lists that point into them. *)
Record listed (d : rawtasks tstat.tstat) (gs : list group) : Prop := {
  ld_tasks : d.(rawtasks.taskall) = flat_map tasks gs;
  ld_ok : Forall group_ok gs;
  ld_apart : apart gs;
  ld_all : d.(rawtasks.procall) = indices is_proc 0 d.(rawtasks.taskall);
  ld_nall : d.(rawtasks.nprocall) = Z.of_nat (length d.(rawtasks.procall));
  ld_active : d.(rawtasks.procactive) = indices (fun t => is_proc t && active t) 0 d.(rawtasks.taskall);
  ld_nactive : d.(rawtasks.nprocactive) = Z.of_nat (length d.(rawtasks.procactive));
  ld_ntask : d.(rawtasks.ntaskactive) = Z.of_nat (length (indices active 0 d.(rawtasks.taskall)))
}.

Lemma indices_ext {A} (P Q : A -> bool) l : (forall x, P x = Q x) -> forall i, indices P i l = indices Q i l.
Proof. intros HPQ. induction l as [|x l IH]; intros i; cbn; [done|]. by rewrite HPQ, !IH. Qed.

(** The lists that [rawread] makes of a sample are such lists. *)
Lemma list_tasks_listed rr gs d : Forall group_ok gs -> apart gs ->
  list_tasks is_proc (fun t => negb (active t)) rr (flat_map tasks gs) = Some d -> listed d gs.
Proof.
  intros Hok Ha H. unfold list_tasks in H. case_match; [|done]. injection H as <-.
  assert (Hn : forall i, indices (fun t => negb (negb (active t))) i (flat_map tasks gs) =
    indices active i (flat_map tasks gs)) by (apply indices_ext; intros; apply negb_involutive).
  assert (Hp : forall i, indices (fun t => is_proc t && negb (negb (active t))) i (flat_map tasks gs) =
    indices (fun t => is_proc t && active t) i (flat_map tasks gs))
    by (apply indices_ext; intros; by rewrite negb_involutive).
  split; cbn; rewrite ?Hn, ?Hp; done.
Qed.

(** The groups with the positions of their processes. *)
Fixpoint starts (k : nat) (gs : list group) : list (nat * group) :=
  match gs with
  | [] => []
  | g :: gs => (k, g) :: starts (k + length (tasks g)) gs
  end.

Definition entry_of (e : nat * group) : entry := (e.1, e.2.1).

Lemma starts_groups k gs : (starts k gs).*2 = gs.
Proof. revert k. induction gs as [|g gs IH]; intros k; cbn; [done|]. by rewrite IH. Qed.

Lemma starts_split k gs i g : (i, g) ∈ starts k gs ->
  exists gs1 gs2, gs = gs1 ++ g :: gs2 /\ i = (k + length (flat_map tasks gs1))%nat.
Proof.
  revert k. induction gs as [|h gs IH]; intros k Hin; cbn [starts] in Hin.
  - by apply not_elem_of_nil in Hin.
  - apply elem_of_cons in Hin as [[= -> ->]|Hin].
    + exists [], gs. cbn. split; [done | lia].
    + apply IH in Hin as (gs1 & gs2 & -> & ->). exists (h :: gs1), gs2. split; [done|].
      cbn [flat_map]. rewrite length_app. lia.
Qed.

Lemma indices_app {A} (P : A -> bool) l l' i :
  indices P i (l ++ l') = indices P i l ++ indices P (i + length l) l'.
Proof.
  revert i. induction l as [|x l IH]; intros i; cbn; [by rewrite Nat.add_0_r|].
  rewrite IH. replace (S i + length l)%nat with (i + S (length l))%nat by lia. by destruct (P x).
Qed.

Lemma indices_none {A} (P : A -> bool) l i : Forall (fun x => P x = false) l -> indices P i l = [].
Proof. intros H. revert i. induction H as [|x l Hx _ IH]; intros i; cbn; [done|]. by rewrite Hx, IH. Qed.

(** The list of the processes, or of those that fit [Q], points to the starts of
    their groups. *)
Lemma indices_starts (Q : tstat.tstat -> bool) gs : Forall group_ok gs -> forall k,
  indices (fun t => is_proc t && Q t) k (flat_map tasks gs) =
  (filter (fun e : nat * group => Q e.2.1 = true) (starts k gs)).*1.
Proof.
  induction 1 as [|g gs Hg _ IH]; intros k; [done|]. cbn [flat_map starts]. rewrite indices_app, IH, filter_cons.
  cbn [tasks indices]. rewrite (go_proc _ Hg), indices_none.
  - cbn [andb fst snd]. destruct (Q g.1); [by rewrite decide_True | by rewrite decide_False].
  - eapply Forall_impl; [apply (go_threads _ Hg)|]. cbn. intros t [Ht _]. by rewrite Ht.
Qed.

Lemma starts_lookup gs i g : (i, g) ∈ starts 0 gs -> flat_map tasks gs !! i = Some g.1.
Proof.
  intros H. apply starts_split in H as (gs1 & gs2 & -> & ->). rewrite flat_map_app. cbn [flat_map tasks].
  rewrite Nat.add_0_l, lookup_app_r, Nat.sub_diag by lia. done.
Qed.

Lemma fetch_starts gs n (L : list (nat * group)) : (forall e, e ∈ L -> e ∈ starts 0 gs) ->
  n = Z.of_nat (length L.*1) -> fetch (flat_map tasks gs) n L.*1 = Some (entry_of <$> L).
Proof.
  intros HL ->. unfold fetch. rewrite Nat2Z.id, Nat.leb_refl, take_ge by done.
  induction L as [|[i g] L IH]; [done|]. change (((i, g) :: L).*1) with (i :: L.*1). cbn [mapM].
  rewrite (starts_lookup gs i g) by (apply HL; by left). cbn [mbind option_bind fst].
  rewrite IH by (intros e He; apply HL; by right). done.
Qed.

(** The processes, or the active ones, as the lists of the sample give them. *)
Definition looked_at (a : bool) (gs : list group) : list (nat * group) :=
  filter (fun e : nat * group => (negb a || active e.2.1) = true) (starts 0 gs).

Lemma looked_at_starts a gs e : e ∈ looked_at a gs -> e ∈ starts 0 gs.
Proof. intros He. by apply list_elem_of_filter in He as [_ He]. Qed.

Lemma fetch_listed d gs (a : bool) : listed d gs ->
  (if a then fetch d.(rawtasks.taskall) d.(rawtasks.nprocactive) d.(rawtasks.procactive)
   else fetch d.(rawtasks.taskall) d.(rawtasks.nprocall) d.(rawtasks.procall)) = Some (entry_of <$> looked_at a gs).
Proof.
  intros [Ht Hok _ Hall Hnall Hact Hnact _].
  assert (E : (if a then d.(rawtasks.procactive) else d.(rawtasks.procall)) = (looked_at a gs).*1).
  { unfold looked_at. rewrite Hact, Hall, Ht. destruct a; cbn [negb orb].
    - apply (indices_starts active gs Hok).
    - rewrite <-(indices_starts (fun _ => true) gs Hok). apply indices_ext. intros t. by rewrite andb_true_r. }
  rewrite Hnact, Hnall, Ht. destruct a; rewrite E; (apply fetch_starts; [apply looked_at_starts | done]).
Qed.

(** ** Threads *)

Lemma threads_own a n l rest : n ≠ 0 -> Forall (fun t => tgid t = n) l ->
  threads_after a n (l ++ rest) = filter (fun t => negb a || active t = true) l ++ threads_after a n rest.
Proof.
  intros Hn. induction 1 as [|t l Ht _ IH]; [done|]. cbn [app threads_after]. unfold tgid in Ht.
  rewrite (proj2 (Z.eqb_neq _ _) Hn), Ht, Z.eqb_refl, IH, filter_cons. cbn [negb andb]. unfold active.
  destruct a, (tgen.wasinactive (tstat.gen t) =? 0); cbn; done.
Qed.

Lemma threads_none a n rest : n = 0 \/ match rest with t :: _ => n ≠ tgid t | [] => True end ->
  threads_after a n rest = [].
Proof.
  intros H. destruct rest as [|t rest]; [done|]. cbn [threads_after]. unfold tgid in H.
  destruct (Z.eqb_spec n 0); [done|]. destruct H as [|H]; [done|].
  by rewrite (proj2 (Z.eqb_neq _ _) H).
Qed.

(** What is shown of a group. *)
Definition group_view (threads a : bool) (g : group) : list tstat.tstat :=
  g.1 :: (if threads then filter (fun t => negb a || active t = true) g.2 else []).

Lemma zip_group a gs e : Forall group_ok gs -> apart gs -> e ∈ starts 0 gs ->
  zip_entry a (flat_map tasks gs) (entry_of e) = group_view true a e.2.
Proof.
  intros Hok Ha Hin. destruct e as [i g]. apply starts_split in Hin as (gs1 & gs2 & -> & ->).
  assert (E : drop (S (0 + length (flat_map tasks gs1))) (flat_map tasks (gs1 ++ g :: gs2)) = g.2 ++ flat_map tasks gs2).
  { rewrite flat_map_app, drop_app_ge by lia.
    replace (S (0 + length (flat_map tasks gs1)) - length (flat_map tasks gs1))%nat with 1%nat by lia. done. }
  unfold zip_entry, group_view, entry_of. cbn [fst snd]. rewrite E. f_equal. fold (tgid g.1). clear E.
  apply Forall_app in Hok as [_ Hok]. inversion Hok as [|? ? Hg _]; subst. destruct Hg as [_ Hth H0].
  assert (Hrest : threads_after a (tgid g.1) (flat_map tasks gs2) = []).
  { apply threads_none. destruct gs2 as [|h gs2]; [by right|].
    assert (Ha' : apart (g :: h :: gs2)).
    { clear -Ha. induction gs1 as [|k gs1 IH]; [exact Ha|]. apply IH.
      destruct gs1; cbn [app apart] in Ha |- *; apply Ha. }
    destruct Ha' as [[E|E] _]; [by left | right; exact E]. }
  destruct (decide (tgid g.1 = 0)) as [E|E].
  - rewrite (H0 E). cbn. exact Hrest.
  - rewrite threads_own, Hrest, app_nil_r; [done | done |]. eapply Forall_impl; [exact Hth | by intros t [_ ?]].
Qed.

(** ** Selection *)

Section shown.
Context {Q : QSort}.
Implicit Types s : showset.

Definition wanted_task s (t : tstat.tstat) : bool := chosen s.(showset.procsel) s.(showset.suppressexit) t.

(** The process is among the tasks that are looked at, and selected. *)
Definition group_wanted s (g : group) : bool := (negb (only_active s) || active g.1) && wanted_task s g.1.

Lemma select_tasks_spec s l : sel_ok s.(showset.procsel) ->
  select_tasks s l = Some (filter (fun e : entry => wanted_task s e.2 = true) l).
Proof.
  intros HS. induction l as [|e l IH]; [done|]. cbn [select_tasks]. rewrite left_out_total by done.
  cbn [mbind option_bind]. rewrite IH, filter_cons. cbn [mbind option_bind]. unfold wanted_task.
  by destruct (chosen _ _ e.2).
Qed.

Lemma no_selection_all s : sel_ok s.(showset.procsel) ->
  exists b, no_selection s = Some b /\ (b = true -> forall t, wanted_task s t = true).
Proof.
  intros [Hu Hp]. unfold no_selection.
  assert (Hhead : forall (l : list Z) x, x ∈ l -> exists y, l !! 0%nat = Some y).
  { intros [|y l] x Hx; [by apply not_elem_of_nil in Hx | by eexists]. }
  destruct (Hhead _ _ Hu) as [u Eu], (Hhead _ _ Hp) as [p Ep]. rewrite Eu, Ep. cbn [mbind option_bind].
  eexists. split; [done|]. intros H t. unfold wanted_task, chosen, left_out, procsuppress, suppress_user, suppress_pid.
  rewrite !andb_true_iff in H. destruct H as (((((H1 & H2) & H3) & H4) & H5) & H6). rewrite Eu, Ep.
  cbn [mbind option_bind]. rewrite H1. cbn [mbind option_bind]. rewrite H5. cbn [mbind option_bind].
  unfold suppress_name, suppress_arg, suppress_container. rewrite H2, H4. cbn [negb andb].
  destruct (pselection.container _); [|done]. cbn. rewrite andb_comm. destruct (showset.suppressexit s); done.
Qed.

(** Tasks are shown, not accumulations. *)
Definition task_view s : Prop :=
  s.(showset.showtype) ≠ MCUMUSER /\ s.(showset.showtype) ≠ MCUMPROC /\ s.(showset.showtype) ≠ MCUMCONT.

Lemma filter_starts (P : group -> bool) k gs :
  (filter (fun e : nat * group => P e.2 = true) (starts k gs)).*2 = filter (fun g => P g = true) gs.
Proof.
  revert k. induction gs as [|g gs IH]; intros k; [done|]. cbn [starts]. rewrite !filter_cons. cbn [snd].
  destruct (P g); [rewrite !decide_True by done | rewrite !decide_False by done]; [|apply IH].
  by rewrite fmap_cons, IH.
Qed.

Lemma current_tasks s d gs : listed d gs -> task_view s -> sel_ok s.(showset.procsel) ->
  current_list s d = Some (true, entry_of <$> filter (fun e : nat * group => group_wanted s e.2 = true) (starts 0 gs)).
Proof.
  intros HL (V1 & V2 & V3) HS. unfold current_list.
  rewrite (proj2 (Z.eqb_neq _ _) V1), (proj2 (Z.eqb_neq _ _) V2), (proj2 (Z.eqb_neq _ _) V3).
  set (a := only_active s). set (L := looked_at a gs).
  rewrite (fetch_listed d gs a HL). fold L. cbn [mbind option_bind]. destruct (no_selection_all s HS) as (b & -> & Hb).
  cbn [mbind option_bind].
  assert (Hsel : filter (fun e : entry => wanted_task s e.2 = true) (entry_of <$> L) =
    entry_of <$> filter (fun e : nat * group => group_wanted s e.2 = true) (starts 0 gs)).
  { unfold L, looked_at, group_wanted. fold a. clear. induction (starts 0 gs) as [|e l IH]; [done|].
    rewrite (filter_cons _ e l). case_decide as E1.
    - rewrite fmap_cons, (filter_cons _ (entry_of e)), (filter_cons _ e l).
      case_decide as E2; case_decide as E3; rewrite ?E1 in E3; cbn in E2, E3; try congruence; try exact IH.
      by rewrite fmap_cons, IH.
    - rewrite (filter_cons _ e l). case_decide as E3; [|exact IH].
      by apply andb_true_iff in E3 as [? _]. }
  destruct b.
  - rewrite <-Hsel. cbn [mbind option_bind]. do 2 f_equal. symmetry.
    generalize (entry_of <$> L). intros l. induction l as [|e l IH]; [done|].
    rewrite filter_cons, decide_True, IH by (by apply Hb). done.
  - rewrite select_tasks_spec by done. cbn [mbind option_bind]. by rewrite Hsel.
Qed.

(** ** Order and threads *)

Lemma procsort_comparator o cmp : procsort o = Some cmp -> Comparator cmp.
Proof. unfold procsort. repeat (case_match; [intros [= <-]; apply _|]). done. Qed.

(** What takes part in a count of the active tasks. *)
Lemma active_length gs k : length (indices active k (flat_map tasks gs)) =
  length (flat_map (fun g => filter (fun t => active t = true) (tasks g)) gs).
Proof.
  assert (H : forall l i, length (indices active i l) = length (filter (fun t => active t = true) l)).
  { induction l as [|t l IH]; intros i; [done|]. cbn [indices]. rewrite filter_cons.
    destruct (active t); cbn; by rewrite IH. }
  rewrite H. clear. induction gs as [|g gs IH]; [done|]. cbn [flat_map].
  by rewrite filter_app, !length_app, IH.
Qed.

Lemma view_length s gs : (length (flat_map (group_view true (only_active s)) (filter (fun g => group_wanted s g = true) gs))
  <= if only_active s then length (flat_map (fun g => filter (fun t => active t = true) (tasks g)) gs)
     else length (flat_map tasks gs))%nat.
Proof.
  induction gs as [|g gs IH]; [by destruct (only_active s)|]. rewrite filter_cons. cbn [flat_map].
  case_decide as Hw; [|destruct (only_active s); rewrite !length_app; lia].
  cbn [flat_map]. rewrite length_app. unfold group_wanted in Hw. apply andb_true_iff in Hw as [Hw _].
  destruct (only_active s); rewrite length_app; cbn [negb orb] in *.
  - unfold tasks at 1. rewrite filter_cons, decide_True by done. unfold group_view at 1. cbn [length negb orb] in *. lia.
  - unfold tasks at 1. unfold group_view at 1. cbn [length negb orb].
    pose proof (length_filter (fun t => negb false || active t = true) g.2) as Hf. cbn [negb orb] in Hf. lia.
Qed.

(** What is shown is at most all tasks. *)
Lemma view_fits (P : group -> bool) threads a gs :
  (length (flat_map (group_view threads a) (filter (fun g => P g = true) gs)) <= length (flat_map tasks gs))%nat.
Proof.
  induction gs as [|g gs IH]; [done|]. rewrite filter_cons. cbn [flat_map]. rewrite (length_app (tasks g)).
  case_decide; [|lia]. cbn [flat_map]. rewrite length_app. unfold tasks at 1, group_view at 1.
  cbn [length]. destruct threads; [|cbn; lia].
  pose proof (length_filter (fun t => negb a || active t = true) g.2). lia.
Qed.

Lemma sorted_images {A B} (f : A -> B) (R : B -> B -> Prop) l :
  StronglySorted R (f <$> l) -> StronglySorted (fun a b => R (f a) (f b)) l.
Proof.
  induction l as [|a l IH]; [constructor|]. rewrite fmap_cons. intros H. inversion H; subst.
  constructor; [by apply IH|]. by apply Forall_fmap.
Qed.

(** The list of pointers as a list of groups. *)
Lemma zip_list a gs L : Forall group_ok gs -> apart gs -> Forall (fun e => e ∈ starts 0 gs) L ->
  flat_map (zip_entry a (flat_map tasks gs)) (map entry_of L) = flat_map (group_view true a) L.*2.
Proof.
  intros Hok Hap HL. induction HL as [|e l He _ IH]; [done|]. cbn [map flat_map fmap list_fmap].
  by rewrite (zip_group _ gs e Hok Hap He), IH.
Qed.

Lemma plain_list a L : (map entry_of L).*2 = flat_map (group_view false a) L.*2.
Proof. induction L as [|e l IH]; [done|]. cbn [map flat_map fmap list_fmap]. by rewrite <-IH. Qed.

(** The list that is shown: the selected processes in their order, each with its
    threads. Where threads are shown, a list of all tasks needs an active one,
    whose number is taken for the size of the list. *)
Lemma shown_list_spec s d gs cmp : listed d gs -> task_view s -> sel_ok s.(showset.procsel) ->
  procsort (curorder s) = Some cmp ->
  (s.(showset.threadview) = true -> only_active s = false -> 0 < d.(rawtasks.ntaskactive)) ->
  exists shown, shown ≡ₚ filter (fun g => group_wanted s g = true) gs /\
    StronglySorted (fun g h => cmp g.1 h.1 <= 0) shown /\
    shown_list s d = Some (flat_map (group_view s.(showset.threadview) (only_active s)) shown).
Proof.
  intros HL HV HS Hcmp Hthr. pose proof (procsort_comparator _ _ Hcmp) as HC.
  pose proof (current_tasks s d gs HL HV HS) as Hcur. destruct HL as [Ht Hok Hap _ _ _ _ Hnt].
  set (L := filter (fun e : nat * group => group_wanted s e.2 = true) (starts 0 gs)) in *.
  assert (HLg : L.*2 = filter (fun g => group_wanted s g = true) gs) by apply filter_starts.
  set (byc := fun a b : entry => cmp a.2 b.2).
  assert (HCb : Comparator byc) by exact (on_comparator snd cmp).
  destruct (Permutation_map_inv entry_of L (qsort_perm byc (map entry_of L) HCb)) as (L' & Eq & HP). symmetry in HP.
  change (map entry_of L) with (entry_of <$> L) in Eq.
  pose proof (qsort_sorted byc (entry_of <$> L) HCb) as HSo. rewrite Eq in HSo.
  exists L'.*2. split; [rewrite <-HLg; by apply fmap_Permutation|]. split.
  { apply (sorted_images entry_of) in HSo. clear -HSo. induction HSo as [|e l _ IH HF]; [constructor|].
    rewrite fmap_cons. constructor; [exact IH|]. by apply Forall_fmap. }
  unfold shown_list. rewrite Hcur. cbn [mbind option_bind]. rewrite andb_true_r.
  match goal with |- context [length ?l] => change (length l) with (length (entry_of <$> L)) end.
  assert (HL' : Forall (fun e => e ∈ starts 0 gs) L').
  { apply Forall_forall. intros e He. rewrite HP in He. by apply list_elem_of_filter in He as [_ He]. }
  assert (Hlen : (length (flat_map (group_view true (only_active s)) L'.*2) <=
    Z.to_nat (if only_active s then d.(rawtasks.ntaskactive) else Z.of_nat (length d.(rawtasks.taskall))))%nat).
  { rewrite HP, HLg. pose proof (view_length s gs) as H. rewrite Hnt, Ht. rewrite active_length.
    destruct (only_active s); by rewrite Nat2Z.id. }
  destruct (Z.ltb_spec 0 (Z.of_nat (length (entry_of <$> L)))) as [Hpos|Hzero].
  2: { rewrite length_fmap in Hzero. destruct L as [|]; [|cbn in Hzero; lia].
       symmetry in HP. apply Permutation_nil in HP. by subst L'. }
  cbn [andb]. rewrite Hcmp.
  destruct s.(showset.threadview) eqn:Etv.
  - assert (Hn : 0 < d.(rawtasks.ntaskactive)).
    { destruct (only_active s) eqn:Ea; [|by apply Hthr].
      assert (0 < length (flat_map (group_view true true) L'.*2))%nat; [|lia].
      rewrite length_fmap in Hpos. rewrite <-HP in Hpos. destruct L' as [|e l]; [cbn in Hpos; lia|]. cbn. lia. }
    rewrite (proj2 (Z.ltb_lt _ _) Hn). cbn [mbind option_bind].
    match goal with |- context [qsort ?c ?l] => change (qsort c l) with (qsort byc (entry_of <$> L)) end.
    rewrite Eq. unfold zip_tasks. rewrite Ht, zip_list by done.
    rewrite Ht in Hlen. rewrite (proj2 (Z.leb_le _ _)); [done|]. destruct (only_active s); lia.
  - rewrite (proj2 (Z.ltb_lt _ _) Hpos). cbn [mbind option_bind].
    match goal with |- context [qsort ?c ?l] => change (qsort c l) with (qsort byc (entry_of <$> L)) end.
    by rewrite Eq, (plain_list (only_active s)).
Qed.

(** ** The accumulated lists *)

(** The processes that are accumulated: the active ones or all. *)
Lemma cum_procs_spec s d gs : listed d gs ->
  cum_procs s d = Some (filter (fun g : group => negb s.(showset.deviatonly) || active g.1 = true) gs).*1.
Proof.
  intros HL. unfold cum_procs. rewrite (fetch_listed d gs _ HL). cbn [mbind option_bind]. f_equal.
  rewrite <-(filter_starts (fun g => negb s.(showset.deviatonly) || active g.1) 0 gs), <-!list_fmap_compose.
  by apply list_fmap_ext.
Qed.

Lemma imap_pair_snd {A} (l : list A) : (imap pair l).*2 = l.
Proof.
  apply list_eq. intros i. rewrite list_lookup_fmap, list_lookup_imap. by destruct (l !! i).
Qed.

(** An accumulated list is shown in the order of its entries. *)
Lemma cum_list_shown s d procs cmp cum x num users :
  current_list s d = (l ← cum_list cum s d; Some (false, l)) -> cum_procs s d = Some procs ->
  cum procs (replicate (length procs) tstat_zero) = Some (x, (num, users)) ->
  procsort (curorder s) = Some cmp ->
  exists shown, shown ≡ₚ take (Z.to_nat num) users /\ StronglySorted (fun a b => cmp a b <= 0) shown /\
    shown_list s d = Some shown.
Proof.
  intros Hcur Hp Hcum Hcmp. pose proof (procsort_comparator _ _ Hcmp) as HC.
  set (L := imap pair (take (Z.to_nat num) users)).
  set (byc := fun a b : entry => cmp a.2 b.2).
  assert (HCb : Comparator byc) by exact (on_comparator snd cmp).
  assert (E : current_list s d = Some (false, L)).
  { rewrite Hcur. unfold cum_list. rewrite Hp. cbn [mbind option_bind]. by rewrite Hcum. }
  exists (qsort byc L).*2. split; [|split].
  - rewrite (qsort_perm byc L HCb). unfold L. by rewrite imap_pair_snd.
  - apply (sorted_images (fun e : tstat.tstat => e)). rewrite list_fmap_id.
    pose proof (qsort_sorted byc L HCb) as HS. induction HS as [|e l _ IH HF]; [constructor|].
    rewrite fmap_cons. constructor; [exact IH|]. by apply Forall_fmap.
  - unfold shown_list. rewrite E. cbn [mbind option_bind]. rewrite andb_false_r.
    destruct (Z.ltb_spec 0 (Z.of_nat (length L))) as [Hpos|Hzero]; cbn [andb].
    + rewrite Hcmp. done.
    + destruct L as [|e l]; [|cbn in Hzero; lia]. pose proof (qsort_perm byc [] HCb) as HP.
      symmetry in HP. apply Permutation_nil in HP.
      f_equal. symmetry. exact (f_equal (fmap snd) HP).
Qed.

(** A list that [key] groups: one entry per user, program or container of the
    selected processes, with the sums over them, in the order that is asked for. *)
Definition cum_shown {K} `{EqDecision K} s d (procs : list tstat.tstat) cmp (key : tgen.tgen -> K)
    (by_key : tstat.tstat -> tstat.tstat -> Z) : Prop :=
  exists num users shown,
    grouped s.(showset.procsel) s.(showset.suppressexit) key (qsort by_key procs) num users /\
    shown ≡ₚ take (Z.to_nat num) users /\ StronglySorted (fun a b => cmp a b <= 0) shown /\
    shown_list s d = Some shown.

Lemma cum_shown_by {K} `{EqDecision K} (key : tgen.tgen -> K) by_key cum s d procs cmp :
  current_list s d = (l ← cum_list cum s d; Some (false, l)) -> cum_procs s d = Some procs ->
  procsort (curorder s) = Some cmp ->
  (exists num users, cum procs (replicate (length procs) tstat_zero) = Some (qsort by_key procs, (num, users)) /\
     grouped s.(showset.procsel) s.(showset.suppressexit) key (qsort by_key procs) num users) ->
  cum_shown s d procs cmp key by_key.
Proof.
  intros Hcur Hp Hcmp (num & users & E & HG).
  destruct (cum_list_shown s d procs cmp cum _ num users Hcur Hp E Hcmp) as (shown & ? & ? & ?).
  by exists num, users, shown.
Qed.

(** The accumulated views: one entry per user, program or container of the
    selected processes, with the sums over them, in the order that is asked for. *)
Theorem accumulated_shown s d gs cmp : listed d gs -> sel_ok s.(showset.procsel) ->
  procsort (curorder s) = Some cmp ->
  let procs := (filter (fun g : group => negb s.(showset.deviatonly) || active g.1 = true) gs).*1 in
  procs ≠ [] -> Z.of_nat (length procs) < 2 ^ 31 ->
  (s.(showset.showtype) = MCUMUSER -> cum_shown s d procs cmp tgen.ruid compusr) /\
  (s.(showset.showtype) = MCUMPROC -> cum_shown s d procs cmp tgen.name compnam) /\
  (s.(showset.showtype) = MCUMCONT -> cum_shown s d procs cmp tgen.container compcon).
Proof.
  intros HL HS Hcmp procs Hne Hlen. pose proof (cum_procs_spec s d gs HL) as Hp. fold procs in Hp.
  assert (Hz : zero_list (replicate (length procs) tstat_zero) procs).
  { unfold zero_list. rewrite length_replicate. split_and!; [|done| |done].
    - intros i Hi. by apply lookup_replicate_2.
    - destruct procs; [done | cbn; lia]. }
  split_and!; intros Et.
  - eapply cum_shown_by; [unfold current_list; by rewrite Et | done | done | by apply cumusers_grouped].
  - eapply cum_shown_by; [unfold current_list; by rewrite Et | done | done | by apply cumprogs_grouped].
  - eapply cum_shown_by; [unfold current_list; by rewrite Et | done | done | by apply cumconts_grouped].
Qed.

(** ** The display of a sample *)

Context (prusage : exitor unit) (flaglist : text) (pagesize : Z).

(** There is room for the list in the memory of the viewer, and in its counts. *)
Definition room_for (l : list tstat.tstat) (zsm : sharemem.sharemem) : Prop :=
  (length l <= MAX_PROC)%nat /\ length zsm.(sharemem.curstat) = MAX_PROC /\
  0 <= zsm.(sharemem.num_proc) < 2 ^ 30.

Lemma hand_over l order syscap nsecs avg zsm :
  (syscap.(syscap.nrcpu) ≠ 0 \/ syscap.(syscap.availcpu) = 0 \/ order ≠ MSORTCPU) -> room_for l zsm ->
  exists zsm', (match l with
    | [] => Some zsm
    | _ => '(_, zsm) ← priproc l 0 (length l) 4 order syscap nsecs avg zsm; Some zsm
    end) = Some zsm' /\
    handed_over l 0 (length l) zsm.(sharemem.curstat) zsm'.(sharemem.curstat) /\
    zsm'.(sharemem.num_proc) = zsm.(sharemem.num_proc) + Z.of_nat (length l) /\ stamped (length l) nsecs avg zsm zsm'.
Proof.
  intros Hc (Hl & Hm & Hn). unfold MAX_PROC in *.
  destruct (priproc_loop_spec l order syscap nsecs avg Hc (length l) 0 4 zsm) as (zsm' & E & H1 & H2);
    unfold in_i32, MAX_PROC; try lia.
  destruct l as [|t l].
  - exists zsm. split; [done|]. split; [|split; [cbn; lia|by split]]. intros j. by rewrite decide_False by (cbn; lia).
  - exists zsm'. unfold priproc. rewrite Nat.sub_0_r, E. done.
Qed.

(** C12: The display of a sample as a view of tasks: the viewer gets the selected
    processes in the order that is asked for, each followed by its threads
    where threads are shown, in the slots from the first on, and their number
    is added; with the first of them also the seconds of the sample and the
    kind of the values are stored, and without one the memory stays as it was;
    all other slots stay. The conditions: the lists of the sample point to its
    groups of a process and its threads, neighbours have different numbers,
    there are at most 512 tasks (the slots of the viewer), the list is one of
    tasks and not of accumulations, its order is one of the four, the
    selections are ended, there is a processor, the lines of the system can be
    sorted, and when the threads of all processes are shown, one task at least
    is active. *)
Theorem generic_samp_shows x begintime st gs set cmp sys status :
  let d := x.(shown.devtstat) in
  (if st.(dispst.called) then Ret st.(dispst.set)
   else generic_init prusage x.(shown.supportflags) flaglist st.(dispst.set)) = Ret set ->
  listed d gs -> task_view set -> sel_ok set.(showset.procsel) -> procsort (curorder set) = Some cmp ->
  (set.(showset.threadview) = true -> only_active set = false -> 0 < d.(rawtasks.ntaskactive)) ->
  sort_system set x.(shown.sstat) = Some sys ->
  samp_status x.(shown.nexit) x.(shown.noverflow) x.(shown.flags) = Some status ->
  (i32 x.(shown.sstat).(sstat.cpu).(cpustat.nrcpu) ≠ 0) ->
  (length d.(rawtasks.taskall) <= MAX_PROC)%nat -> length st.(dispst.zsm).(sharemem.curstat) = MAX_PROC ->
  0 <= st.(dispst.zsm).(sharemem.num_proc) < 2 ^ 30 ->
  exists shown zsm', let l := flat_map (group_view set.(showset.threadview) (only_active set)) shown in
    shown ≡ₚ filter (fun g => group_wanted set g = true) gs /\
    StronglySorted (fun g h => cmp g.1 h.1 <= 0) shown /\
    handed_over l 0 (length l) st.(dispst.zsm).(sharemem.curstat) zsm'.(sharemem.curstat) /\
    zsm'.(sharemem.num_proc) = st.(dispst.zsm).(sharemem.num_proc) + Z.of_nat (length l) /\
    stamped (length l) (i32 x.(shown.interval)) (c_bool set.(showset.avgval)) st.(dispst.zsm) zsm' /\
    generic_samp prusage flaglist pagesize x begintime st =
      lift (Ret (0, begintime,
        dispst.mk set true zsm' sys (st.(dispst.out) ++ chars (nl ++ nl ++ nl) ++ status))).
Proof.
  intros d Hset HL HV HS Hcmp Hthr Hsys Hst Hcpu Hroom Hmem Hnum.
  destruct (shown_list_spec set d gs cmp HL HV HS Hcmp Hthr) as (shown & HP & HSo & Hl).
  set (l := flat_map (group_view set.(showset.threadview) (only_active set)) shown) in *.
  assert (Hlen : (length l <= length d.(rawtasks.taskall))%nat).
  { unfold l. rewrite HP, (ld_tasks _ _ HL). apply view_fits. }
  assert (Hproc : exists procs, fetch d.(rawtasks.taskall) d.(rawtasks.nprocactive) d.(rawtasks.procactive) = Some procs).
  { eexists. exact (fetch_listed d gs true HL). }
  destruct Hproc as [procs Hproc].
  destruct (hand_over l (curorder set) (totalcap pagesize x.(shown.sstat) procs.*2) (i32 x.(shown.interval))
    (c_bool set.(showset.avgval)) st.(dispst.zsm)) as (zsm' & E & H1 & H2 & H3); [by left | split; [lia | done]|].
  exists shown, zsm'. cbv zeta. fold l. split_and!; try done.
  unfold generic_samp. rewrite Hset, lift_bind. fold d. rewrite Hproc, fault_bind, Hsys, fault_bind, Hst, fault_bind,
    Hl, fault_bind, E. by rewrite fault_bind.
Qed.
End shown.

(** ** Settings *)

Definition orders : list Z := [MSORTAUTO; MSORTCPU; MSORTMEM; MSORTDSK; MSORTNET].
Definition types : list Z :=
  [MPROCGEN; MPROCMEM; MPROCDSK; MPROCNET; MPROCSCH; MPROCVAR; MPROCARG; MPROCOWN; MCUMUSER; MCUMPROC; MCUMCONT].

(** The settings name an order and a type of list. *)
Definition view_ok (s : showset) : Prop := s.(showset.showorder) ∈ orders /\ s.(showset.showtype) ∈ types.

Ltac in_list := repeat first [apply list_elem_of_here | apply list_elem_of_further].

Lemma order_flag_ok c f s : order_flag c = Some f -> view_ok s -> view_ok (f s).
Proof.
  unfold order_flag. intros H [Ho Ht].
  repeat (case_match; [injection H as <-; split; cbn; first [assumption | in_list]|]). done.
Qed.

Lemma config_flag_ok s c : view_ok s -> view_ok (config_flag s c).
Proof.
  intros Hs. unfold config_flag. destruct (order_flag _) as [f|] eqn:E; [by eapply order_flag_ok|].
  destruct Hs. repeat (case_match; [split; cbn; first [assumption | in_list]|]). by split.
Qed.

Lemma command_flag_ok prusage flags s c s' : command_flag prusage flags s c = Ret s' -> view_ok s -> view_ok s'.
Proof.
  unfold command_flag. intros H Hs. destruct (order_flag _) as [f|] eqn:E.
  { injection H as <-. by eapply order_flag_ok. }
  destruct Hs as [Ho Ht].
  repeat (case_match; [injection H as <-; repeat case_match; split; cbn; first [assumption | in_list]|]).
  destruct prusage; cbn in H; [discriminate H|]. injection H as <-. by split.
Qed.

(** C27: Whatever flags the configuration file and the command give, the settings
    name an order that has its comparison function in procsort and a type of
    list that has its layout in priphead: neither is called without one. *)
Theorem settings_valid prusage flags val flaglist s s' : view_ok s ->
  generic_init prusage flags flaglist (do_flags val s) = Ret s' ->
  view_ok s' /\ is_Some (procsort (curorder s')) /\
  forall st, is_Some (Prihead.report st s'.(showset.showtype)).
Proof.
  intros Hs H.
  assert (H1 : view_ok (do_flags val s)).
  { unfold do_flags. clear H. revert s Hs. induction val as [|c val IH]; intros s Hs; [done|].
    cbn [fold_left]. by apply IH, config_flag_ok. }
  revert H H1. generalize (do_flags val s). clear. induction flaglist as [|c l IH]; intros s H Hs; cbn [generic_init] in H.
  - injection H as <-. split; [done|]. destruct Hs as [Ho Ht]. unfold orders, types in *. split.
    + unfold procsort, curorder. repeat (apply elem_of_cons in Ho as [->|Ho]; [by eexists|]).
      by apply not_elem_of_nil in Ho.
    + intros st. unfold Prihead.report. repeat (apply elem_of_cons in Ht as [->|Ht]; [by eexists|]).
      by apply not_elem_of_nil in Ht.
  - destruct (command_flag prusage flags s c) as [|s2] eqn:E; cbn in H; [discriminate H|].
    apply (IH s2 H). by eapply command_flag_ok.
Qed.

(** ** The selection of users *)

Section users.
Context (passwd : list (string * Z)) (regcomp : text -> option (string -> Z)).

(** The numbers of the users whose names match. *)
Definition matching (regex : string -> Z) (users : list (string * Z)) : list Z :=
  (fun u => u32 u.2) <$> filter (fun u => regex u.1 = 0) users.

Lemma match_users_spec regex users : forall u userid, length userid = MAXUSERSEL -> (u < MAXUSERSEL)%nat ->
  let us := take (MAXUSERSEL - 1 - u) (matching regex users) in
  match_users regex users u userid =
    Some ((u + length us)%nat, take u userid ++ us ++ drop (u + length us) userid).
Proof.
  induction users as [|[name uid] users IH]; intros u userid Hl Hu; cbn zeta.
  - cbn. rewrite take_nil. cbn. by rewrite Nat.add_0_r, take_drop.
  - cbn [match_users]. unfold matching. rewrite filter_cons. cbn [fst].
    destruct (Z.eqb_spec (regex name) 0) as [E|E]; cbn [negb].
    + case_decide; [|done]. rewrite fmap_cons. fold (matching regex users). cbn [snd].
      destruct (Nat.ltb_spec u (MAXUSERSEL - 1)) as [Hlt|Hge].
      * unfold arr_set. rewrite decide_True by (rewrite Hl; unfold MAXUSERSEL in *; lia). mstep.
        rewrite IH by (rewrite ?length_insert; unfold MAXUSERSEL in *; lia). cbn zeta.
        replace (MAXUSERSEL - 1 - u)%nat with (S (MAXUSERSEL - 1 - S u)) by lia. cbn [take length].
        set (us := take _ (matching regex users)). f_equal. f_equal; [lia|].
        rewrite (take_S_r _ u (u32 uid)) by (apply list_lookup_insert_eq; lia).
        rewrite take_insert_ge, drop_insert_lt by lia. rewrite <-app_assoc, <-plus_n_Sm. done.
      * rewrite (IH u userid Hl Hu). replace (MAXUSERSEL - 1 - u)%nat with 0%nat by lia. done.
    + case_decide; [done|]. by apply IH.
Qed.

(** A selection of users by an expression: the first 63 users whose names match;
    without any, the number that the expression is; nothing of the rest of the
    array changes. The program ends when the expression is not valid, or selects
    no user and is no number. *)
Theorem do_username_selects val p : length p.(pselection.userid) = MAXUSERSEL -> take (USERNAMESZ - 1) val ≠ [] ->
  let name := take (USERNAMESZ - 1) val in
  match regcomp name with
  | None => do_username passwd regcomp val p = lift (Exit 1)
  | Some regex =>
      let us := take (MAXUSERSEL - 1) (matching regex passwd) in
      let select us := with_userid (us ++ USERSTUB :: drop (S (length us)) p.(pselection.userid)) p in
      do_username passwd regcomp val p =
        lift (if (length us =? 0)%nat then if numeric name =? 0 then Exit 1 else Ret (select [u32 (atoi name)])
              else Ret (select us))
  end.
Proof.
  intros Hl Hne name. unfold do_username. fold name. destruct name as [|c cs] eqn:En; [done|]. rewrite <-En in *.
  destruct (regcomp name) as [regex|]; [|done]. cbv zeta.
  rewrite match_users_spec by (unfold MAXUSERSEL in *; lia). rewrite Nat.sub_0_r, fault_bind. cbn [take app Nat.add].
  set (us := take (MAXUSERSEL - 1) (matching regex passwd)).
  assert (Hus : (length us <= MAXUSERSEL - 1)%nat) by (unfold us; rewrite length_take; lia). clearbody us.
  destruct (drop (length us) p.(pselection.userid)) as [|u rest] eqn:Ed.
  { apply (f_equal length) in Ed. rewrite length_drop in Ed. cbn [length] in Ed. unfold MAXUSERSEL in *. lia. }
  assert (Er : drop (S (length us)) p.(pselection.userid) = rest).
  { replace (S (length us)) with (length us + 1)%nat by lia. by rewrite <-drop_drop, Ed. }
  change (take 0 p.(pselection.userid) ++ us ++ u :: rest) with (us ++ u :: rest).
  unfold arr_set. rewrite decide_True by (rewrite length_app; cbn; lia). rewrite fault_bind.
  rewrite insert_app_r_alt, Nat.sub_diag by lia. cbn [insert list_insert]. rewrite Er.
  destruct us as [|v us'] eqn:Eus; cbn [length Nat.eqb]; [|done].
  destruct (numeric name =? 0) eqn:Enum; cbn [negb]; [done|]. cbn [app] in *.
  destruct rest as [|w rest'].
  { apply (f_equal length) in Ed. rewrite length_drop in Ed. cbn [length] in Ed. unfold MAXUSERSEL in *. lia. }
  rewrite decide_True by (cbn; lia). rewrite fault_bind. cbn [insert list_insert].
  rewrite decide_True by (cbn; lia). rewrite fault_bind. cbn [insert list_insert].
  cbn [length] in *. rewrite drop_0 in Ed. by rewrite Ed.
Qed.
End users.

(** ** The theorems at work *)

Definition some_task (tgid pid isproc state wasinactive utime : Z) : tstat.tstat :=
  {| tstat.gen := tgen.mk tgid pid 1 5 5 5 5 0 0 0 0 1 "sh" isproc state 0 100 0 "sh" 1 0 0 0 0 wasinactive EmptyString;
     tstat.cpu := tcpu.mk utime 0 0 0 0 0 0 0 tcpu_zero.(tcpu.ifuture) tcpu_zero.(tcpu.cfuture);
     tstat.dsk := tdsk_zero; tstat.mem := tmem_zero; tstat.net := tnet_zero |}.

(** A process that has used 3 ticks, and one that has used 8, with an idle and
    an active thread. *)
Definition some_groups : list group :=
  [(some_task 10 10 1 83 0 3, []);
   (some_task 11 11 1 83 0 8, [some_task 11 12 0 83 1 0; some_task 11 13 0 82 0 8])].

Definition tasks_of (l : list tstat.tstat) : rawtasks tstat.tstat :=
  let all := indices is_proc 0 l in
  let act := indices (fun t => is_proc t && active t) 0 l in
  rawtasks.mk l all act (Z.of_nat (length (indices active 0 l))) (Z.of_nat (length all)) (Z.of_nat (length act)) 0 0 0 0.

Lemma some_listed : listed (tasks_of (flat_map tasks some_groups)) some_groups.
Proof.
  split; try done.
  - repeat constructor; cbn; discriminate.
  - split; [by right | done].
Qed.

Definition default_set : showset :=
  showset.mk MPROCGEN MSORTCPU CumFacts.no_selection (maxlines.mk 999 999 999 999 999 999 999)
    true false false true false false false false.

Definition some_sample (l : list tstat.tstat) : shown tstat.tstat sstat.sstat :=
  shown.mk 1000 10 (tasks_of l) (upd_cpu (set_cpustat_nrcpu 1) sstat_zero) 0 0 RRBOOT 1 0.

Definition fresh_display : dispst :=
  dispst.mk default_set false (sharemem.mk 0 0 0 (replicate MAX_PROC tstat_zero)) sstat_zero [].

(** With the flag [y] the busier process comes first, followed by its active
    thread. *)
Lemma generic_samp_shows_witness : exists zsm',
  generic_samp (Ret tt) (chars "y") 4096 (some_sample (flat_map tasks some_groups)) 7 fresh_display =
    lift (Ret (0, 7, dispst.mk (set_threadview true default_set) true zsm' (upd_cpu (set_cpustat_nrcpu 1) sstat_zero)
      (chars (nl ++ nl ++ nl) ++ chars "                   *** system and process activity since boot ***"))) /\
  zsm'.(sharemem.num_proc) = 3 /\ zsm'.(sharemem.nsecs) = 10 /\
  zsm'.(sharemem.curstat) !! 1%nat = Some (some_task 11 13 0 82 0 8).
Proof.
  destruct (generic_samp_shows (Ret tt) (chars "y") 4096 (some_sample (flat_map tasks some_groups)) 7 fresh_display
    some_groups (set_threadview true default_set) compcpu (upd_cpu (set_cpustat_nrcpu 1) sstat_zero)
    (chars "                   *** system and process activity since boot ***"))
    as (shown & zsm' & HP & HSo & HO & HN & [HT _] & E).
  - reflexivity.
  - exact some_listed.
  - done.
  - exact CumFacts.no_selection_ok.
  - reflexivity.
  - done.
  - reflexivity.
  - reflexivity.
  - done.
  - cbn. unfold MAX_PROC. lia.
  - apply length_replicate.
  - cbn. lia.
  - exists zsm'. split; [exact E|].
    assert (Hs : shown = [(some_task 11 11 1 83 0 8, [some_task 11 12 0 83 1 0; some_task 11 13 0 82 0 8]);
      (some_task 10 10 1 83 0 3, [])]).
    { apply Permutation_sym in HP.
      change (Permutation some_groups shown) in HP. apply Permutation_length_2_inv in HP as [-> | ->]; [|done].
      inversion HSo as [|? ? _ HF]. inversion HF as [|? ? Hle]. exfalso. revert Hle. vm_compute. tauto. }
    subst shown. split; [rewrite HN; reflexivity|]. split; [rewrite HT; reflexivity|]. rewrite HO. reflexivity.
Defined.

(** A process that exited and one that got its number, next to each other: the
    second is taken for a thread of the first as well, and the list of two
    places gets three tasks. *)
Lemma reused_pid_overruns :
  shown_list (set_threadview true default_set)
    (tasks_of [some_task 10 10 1 83 0 3; some_task 10 10 1 STATE_EXIT 0 5]) = None.
Proof. reflexivity. Qed.

(** With memory order all processes are shown, but with threads nothing is when
    no task was active. *)
Lemma idle_threads_unseen :
  let idle := tasks_of [some_task 10 10 1 83 1 3] in
  shown_list (set_view MPROCMEM MSORTMEM default_set) idle = Some [some_task 10 10 1 83 1 3] /\
  shown_list (set_threadview true (set_view MPROCMEM MSORTMEM default_set)) idle = Some [].
Proof. by split. Qed.

(** An accumulated list without a process reads from an empty allocation. *)
Lemma no_process_accumulated :
  shown_list (set_type MCUMUSER default_set) (tasks_of [some_task 10 10 1 83 1 3]) = None.
Proof. reflexivity. Qed.

Lemma accumulated_shown_witness : exists num users shown,
  grouped CumFacts.no_selection false tgen.ruid (qsort compusr some_groups.*1) num users /\
  shown ≡ₚ take (Z.to_nat num) users /\ StronglySorted (fun a b => compcpu a b <= 0) shown /\
  shown_list (set_type MCUMUSER default_set) (tasks_of (flat_map tasks some_groups)) = Some shown.
Proof.
  destruct (accumulated_shown (set_type MCUMUSER default_set) (tasks_of (flat_map tasks some_groups)) some_groups
    compcpu some_listed CumFacts.no_selection_ok eq_refl) as [H _]; [done | done |].
  exact (H eq_refl).
Defined.

Lemma settings_valid_witness :
  let s := default_set in
  let s' := set_threadview true (set_view MPROCSCH MSORTCPU (set_deviatonly false s)) in
  generic_init (Exit 1) 0 (chars "ys") (do_flags (chars "-aMd") s) = Ret s' /\
  view_ok s' /\ is_Some (procsort (curorder s')) /\ forall st, is_Some (Prihead.report st s'.(showset.showtype)).
Proof.
  split; [reflexivity|].
  apply (settings_valid (Exit 1) 0 (chars "-aMd") (chars "ys") default_set); [|reflexivity].
  split; cbn; in_list.
Defined.

Lemma do_username_selects_witness :
  let regex s := if str_same s "root" then 0 else 1 in
  let p := pselection.mk (USERSTUB :: replicate 63 0) [0] 0 (fun _ => 0) 0 (fun _ => 0) EmptyString in
  do_username [("daemon", 2); ("root", 0)]%string (fun _ => Some regex) (chars "root") p =
    lift (Ret (with_userid (0 :: USERSTUB :: replicate 62 0) p)).
Proof.
  intros regex p.
  exact (do_username_selects [("daemon", 2); ("root", 0)]%string (fun _ => Some regex) (chars "root") p eq_refl
    ltac:(done)).
Defined.
