(* ===== verification/Showkeys.v ===== *)
(** * The keys of the interactive display: showgeneric.c with ncurses

    A display on a terminal waits for a key after every view of the sample. What
    a key does to the settings, to the place in the list and to the clock is here,
    with the questions that some keys ask ([getnumval], the names and numbers for
    a selection) and the help text that is paged by keys of its own ([showhelp]).
    The second part ([view] and below) puts the keys and the views together. What
    is written on the screen beside messages and help lines is left out.

    A line that the user types is an answer; the one to each question is taken
    from the state. [getpwent], [regcomp] and [kill] are parameters. *)
From Stdlib Require Import Ascii.
From S2P Require Import Prelude Format Printf Sscanf Tstat Netatopif Photoproc Cumulate Various Compar Showline Prihead Parseable Rawlog Prisyst Showgeneric.

(** ** Keys *)

(** The keys of showgeneric.h that are no flags. *)
Definition MSELUSER : Z := 85. (* 'U' *)
Definition MSELPROC : Z := 80. (* 'P' *)
Definition MSELCONT : Z := 74. (* 'J' *)
Definition MSELPID : Z := 73. (* 'I' *)
Definition MSELARG : Z := 47. (* '/' *)
Definition MSELSYS : Z := 83. (* 'S' *)
Definition MKILLPROC : Z := 107. (* 'k' *)
Definition MLISTFW : Z := 6.
Definition MLISTBW : Z := 2.
Definition MREDRAW : Z := 12.
Definition MINTERVAL : Z := 105. (* 'i' *)
Definition MPAUSE : Z := 122. (* 'z' *)
Definition MSAMPNEXT : Z := 116. (* 't' *)
Definition MVERSION : Z := 86. (* 'V' *)
Definition MHELP1 : Z := 63. (* '?' *)
Definition MHELP2 : Z := 104. (* 'h' *)

(** Those of curses.h. *)
Definition ERR : Z := -1.
Definition KEY_DOWN : Z := 258.
Definition KEY_UP : Z := 259.
Definition KEY_LEFT : Z := 260.
Definition KEY_RIGHT : Z := 261.
Definition KEY_NPAGE : Z := 338.
Definition KEY_PPAGE : Z := 339.
Definition KEY_RESIZE : Z := 410.

(** ** State *)

(** [struct sselection]; an expression is what [regexec] says about a name. *)
Module sselection.
Record sselection := mk {
  lvmnamesz : Z;
  lvmregex : string -> Z;
  dsknamesz : Z;
  dskregex : string -> Z;
  itfnamesz : Z;
  itfregex : string -> Z
}.
End sselection.

(** What is seen and done outside: the bell, the timer, a signal, a message on the
    status line, a line of help, a cleared screen, and the list of tasks with the
    first one to show, the page, the number of pages, the kind of list and the
    order. *)
Inductive act :=
  | Beep
  | Alarm (seconds : Z)
  | Getalarm
  | Kill (pid sig : Z)
  | Message (t : text)
  | HelpLine (t : text)
  | Wclear
  | Procs (curlist : list tstat.tstat) (firstproc page pages showtype curorder : Z).

(** The settings; the variables of [generic_samp] that keys change ([genline] is
    not initialised); the size of the list and of the window for it in the last
    view; the answers to come; what was done. *)
Module keyst.
Record keyst := mk {
  set : showset;
  syssel : sselection.sselection;
  paused : bool;
  firstproc : Z;
  startoffset : Z;
  interval : Z;
  begintime : Z;
  genline : option text;
  statmsg : option text;
  tlastorder : Z;
  alistsz : Z;
  plistsz : Z;
  answers : list text;
  acts : list act
}.
End keyst.
Notation keyst := keyst.keyst.

Section setters.
Implicit Types k : keyst.

Definition put_set x k :=
  keyst.mk x k.(keyst.syssel) k.(keyst.paused) k.(keyst.firstproc) k.(keyst.startoffset) k.(keyst.interval)
    k.(keyst.begintime) k.(keyst.genline) k.(keyst.statmsg) k.(keyst.tlastorder) k.(keyst.alistsz)
    k.(keyst.plistsz) k.(keyst.answers) k.(keyst.acts).
Definition put_syssel x k :=
  keyst.mk k.(keyst.set) x k.(keyst.paused) k.(keyst.firstproc) k.(keyst.startoffset) k.(keyst.interval)
    k.(keyst.begintime) k.(keyst.genline) k.(keyst.statmsg) k.(keyst.tlastorder) k.(keyst.alistsz)
    k.(keyst.plistsz) k.(keyst.answers) k.(keyst.acts).
Definition put_paused x k :=
  keyst.mk k.(keyst.set) k.(keyst.syssel) x k.(keyst.firstproc) k.(keyst.startoffset) k.(keyst.interval)
    k.(keyst.begintime) k.(keyst.genline) k.(keyst.statmsg) k.(keyst.tlastorder) k.(keyst.alistsz)
    k.(keyst.plistsz) k.(keyst.answers) k.(keyst.acts).
Definition put_firstproc x k :=
  keyst.mk k.(keyst.set) k.(keyst.syssel) k.(keyst.paused) x k.(keyst.startoffset) k.(keyst.interval)
    k.(keyst.begintime) k.(keyst.genline) k.(keyst.statmsg) k.(keyst.tlastorder) k.(keyst.alistsz)
    k.(keyst.plistsz) k.(keyst.answers) k.(keyst.acts).
Definition put_startoffset x k :=
  keyst.mk k.(keyst.set) k.(keyst.syssel) k.(keyst.paused) k.(keyst.firstproc) x k.(keyst.interval)
    k.(keyst.begintime) k.(keyst.genline) k.(keyst.statmsg) k.(keyst.tlastorder) k.(keyst.alistsz)
    k.(keyst.plistsz) k.(keyst.answers) k.(keyst.acts).
Definition put_interval x k :=
  keyst.mk k.(keyst.set) k.(keyst.syssel) k.(keyst.paused) k.(keyst.firstproc) k.(keyst.startoffset) x
    k.(keyst.begintime) k.(keyst.genline) k.(keyst.statmsg) k.(keyst.tlastorder) k.(keyst.alistsz)
    k.(keyst.plistsz) k.(keyst.answers) k.(keyst.acts).
Definition put_begintime x k :=
  keyst.mk k.(keyst.set) k.(keyst.syssel) k.(keyst.paused) k.(keyst.firstproc) k.(keyst.startoffset)
    k.(keyst.interval) x k.(keyst.genline) k.(keyst.statmsg) k.(keyst.tlastorder) k.(keyst.alistsz)
    k.(keyst.plistsz) k.(keyst.answers) k.(keyst.acts).
Definition put_genline x k :=
  keyst.mk k.(keyst.set) k.(keyst.syssel) k.(keyst.paused) k.(keyst.firstproc) k.(keyst.startoffset)
    k.(keyst.interval) k.(keyst.begintime) x k.(keyst.statmsg) k.(keyst.tlastorder) k.(keyst.alistsz)
    k.(keyst.plistsz) k.(keyst.answers) k.(keyst.acts).
Definition put_statmsg x k :=
  keyst.mk k.(keyst.set) k.(keyst.syssel) k.(keyst.paused) k.(keyst.firstproc) k.(keyst.startoffset)
    k.(keyst.interval) k.(keyst.begintime) k.(keyst.genline) x k.(keyst.tlastorder) k.(keyst.alistsz)
    k.(keyst.plistsz) k.(keyst.answers) k.(keyst.acts).
Definition put_tlastorder x k :=
  keyst.mk k.(keyst.set) k.(keyst.syssel) k.(keyst.paused) k.(keyst.firstproc) k.(keyst.startoffset)
    k.(keyst.interval) k.(keyst.begintime) k.(keyst.genline) k.(keyst.statmsg) x k.(keyst.alistsz)
    k.(keyst.plistsz) k.(keyst.answers) k.(keyst.acts).
Definition put_alistsz x k :=
  keyst.mk k.(keyst.set) k.(keyst.syssel) k.(keyst.paused) k.(keyst.firstproc) k.(keyst.startoffset)
    k.(keyst.interval) k.(keyst.begintime) k.(keyst.genline) k.(keyst.statmsg) k.(keyst.tlastorder) x
    k.(keyst.plistsz) k.(keyst.answers) k.(keyst.acts).
Definition put_plistsz x k :=
  keyst.mk k.(keyst.set) k.(keyst.syssel) k.(keyst.paused) k.(keyst.firstproc) k.(keyst.startoffset)
    k.(keyst.interval) k.(keyst.begintime) k.(keyst.genline) k.(keyst.statmsg) k.(keyst.tlastorder)
    k.(keyst.alistsz) x k.(keyst.answers) k.(keyst.acts).
Definition put_answers x k :=
  keyst.mk k.(keyst.set) k.(keyst.syssel) k.(keyst.paused) k.(keyst.firstproc) k.(keyst.startoffset)
    k.(keyst.interval) k.(keyst.begintime) k.(keyst.genline) k.(keyst.statmsg) k.(keyst.tlastorder)
    k.(keyst.alistsz) k.(keyst.plistsz) x k.(keyst.acts).
Definition put_acts x k :=
  keyst.mk k.(keyst.set) k.(keyst.syssel) k.(keyst.paused) k.(keyst.firstproc) k.(keyst.startoffset)
    k.(keyst.interval) k.(keyst.begintime) k.(keyst.genline) k.(keyst.statmsg) k.(keyst.tlastorder)
    k.(keyst.alistsz) k.(keyst.plistsz) k.(keyst.answers) x.
End setters.

Definition to_top (k : keyst) : keyst := put_firstproc 0 k.
Definition put_act (a : act) (k : keyst) : keyst := put_acts (k.(keyst.acts) ++ [a]) k.
Definition say (m : string) (k : keyst) : keyst := put_statmsg (Some (chars m)) k.
Definition complain (m : string) (k : keyst) : keyst := put_act Beep (say m k).
Definition with_set (f : showset -> showset) (k : keyst) : keyst := put_set (f k.(keyst.set)) k.
Definition with_procsel (f : pselection.pselection -> pselection.pselection) (k : keyst) : keyst :=
  with_set (fun s => set_procsel (f s.(showset.procsel)) s) k.

(** ** Questions *)

(** [scanw("%<n>s", buf)]: a word of the next answer; the old content stays when
    there is none. *)
Definition scanw (n : nat) (old : text) (k : keyst) : text * keyst :=
  match k.(keyst.answers) with
  | [] => (old, k)
  | a :: answers =>
      (match token n (skip_space a) with [] => old | w => w end, put_answers answers k)
  end.

Definition atol (val : text) : Z := match strtol val with Some (v, _, _) => v | None => 0 end.

(** get a numerical value from the user and verify *)
Definition getnumval (valuenow : Z) (k : keyst) : Z * keyst :=
  let '(numval, k) := scanw 15 [] k in
  match numval with
  | [] => (valuenow, k)
  | _ => if negb (numeric numval =? 0) then (atol numval, k) else (valuenow, put_act Beep k)
  end.

(** A name as a regular expression: its length and what it compiles to. *)
Section names.
Context (regcomp : text -> option (string -> Z)).

Definition ask_regex (k : keyst) : Z * option (string -> Z) * keyst :=
  let '(name, k) := scanw 63 [] k in
  match name with
  | [] => (0, None, k)
  | _ =>
      match regcomp name with
      | None => (0, None, complain "Invalid regular expression!" k)
      | Some regex => (Z.of_nat (length name), Some regex, k)
      end
  end.
End names.

Definition with_prog (size : Z) (regex : option (string -> Z)) (p : pselection.pselection) : pselection.pselection :=
  pselection.mk p.(pselection.userid) p.(pselection.pid) size (default p.(pselection.progregex) regex)
    p.(pselection.argnamesz) p.(pselection.argregex) p.(pselection.container).
Definition with_arg (size : Z) (regex : option (string -> Z)) (p : pselection.pselection) : pselection.pselection :=
  pselection.mk p.(pselection.userid) p.(pselection.pid) p.(pselection.prognamesz) p.(pselection.progregex)
    size (default p.(pselection.argregex) regex) p.(pselection.container).
Definition with_pid (pid : list Z) (p : pselection.pselection) : pselection.pselection :=
  pselection.mk p.(pselection.userid) pid p.(pselection.prognamesz) p.(pselection.progregex)
    p.(pselection.argnamesz) p.(pselection.argregex) p.(pselection.container).
Definition with_container (container : string) (p : pselection.pselection) : pselection.pselection :=
  pselection.mk p.(pselection.userid) p.(pselection.pid) p.(pselection.prognamesz) p.(pselection.progregex)
    p.(pselection.argnamesz) p.(pselection.argregex) container.

(** *** Containers *)

Definition isxdigit (c : ascii) : bool :=
  let n := Z.of_nat (nat_of_ascii c) in
  isdigit c || ((65 <=? n) && (n <=? 70)) || ((97 <=? n) && (n <=? 102)).

Fixpoint skip_hex (l : text) : text :=
  match l with
  | c :: l' => if isxdigit c then skip_hex l' else l
  | [] => []
  end.

(** Where [strtol(p, &p, 16)] stops. *)
Definition hex_rest (p : text) : text :=
  let l := (scan_sign (skip_space p)).2 in
  match l with
  | z :: x :: d :: l' =>
      if Ascii.eqb z "0" && (Ascii.eqb x "x" || Ascii.eqb x "X") && isxdigit d then skip_hex l'
      else if isxdigit z then skip_hex l else p
  | z :: _ => if isxdigit z then skip_hex l else p
  | [] => p
  end.

(** The container that is selected by a word, or the complaint. *)
Definition container_of (word : text) : string + string :=
  let container := take 12 word in
  if (length container =? 0)%nat then inl EmptyString
  else if (length container =? 4)%nat then
    if bool_decide (container = chars "host") then inl "H"%string else inr "Invalid containerid!"%string
  else if (length container =? 12)%nat then
    match hex_rest container with
    | [] => inl (str_of container)
    | _ => inr "Containerid not hex!"%string
    end
  else inr "Invalid containerid!"%string.

(** *** Numbers of processes *)

Definition MAXPID : nat := 32.
Definition is_comma (c : ascii) : bool := Ascii.eqb c ",".

(** The words that [strtok] finds between the commas. *)
Fixpoint strtok_words (word l : text) : list text :=
  match l with
  | [] => match word with [] => [] | _ => [word] end
  | c :: l =>
      if is_comma c then match word with [] => strtok_words [] l | _ => word :: strtok_words [] l end
      else strtok_words (word ++ [c]) l
  end.

(** What [strtok] leaves in front of the first terminator: the commas before the
    first word, and that word. *)
Fixpoint strtok_left (found : bool) (l : text) : text :=
  match l with
  | [] => []
  | c :: l => if is_comma c then (if found then [] else c :: strtok_left false l) else c :: strtok_left true l
  end.

(** The loop over the words: the number of the place, the array and a complaint. *)
Fixpoint store_pids (words : list text) (id : nat) (pid : list Z) : option (nat * list Z * option string) :=
  match words with
  | [] => Some (id, pid, None)
  | pidp :: words =>
      if (MAXPID - 1 <=? id)%nat then
        pid ← arr_set pid id 0; Some (id, pid, Some "Maximum number ofPIDs reached!"%string)
      else
        let '(v, ep) := match strtol pidp with Some (v, _, ep) => (v, ep) | None => (0, pidp) end in
        pid ← arr_set pid id (i32 v);
        match ep with
        | [] => store_pids words (S id) pid
        | _ => pid ← arr_set pid 0 0; Some (id, pid, Some "Non-numerical PID!"%string)
        end
  end.

(** ** Help *)

Definition htab : string := String "009" EmptyString.
Definition SPACE : Z := 32.

Definition helptext : list (string * Z) := [
  ("Figures shown for active processes:" ++ nl, SPACE);
  (htab ++ "'%c'  - generic info (default)" ++ nl, MPROCGEN);
  (htab ++ "'%c'  - memory details" ++ nl, MPROCMEM);
  (htab ++ "'%c'  - disk details" ++ nl, MPROCDSK);
  (htab ++ "'%c'  - network details" ++ nl, MPROCNET);
  (htab ++ "'%c'  - scheduling and thread-group info" ++ nl, MPROCSCH);
  (htab ++ "'%c'  - various info (ppid, user/group, date/time, status, exitcode)" ++ nl, MPROCVAR);
  (htab ++ "'%c'  - full command line per process" ++ nl, MPROCARG);
  (htab ++ "'%c'  - use own output line definition" ++ nl, MPROCOWN);
  (nl, SPACE);
  ("Sort list of processes in order of:" ++ nl, SPACE);
  (htab ++ "'%c'  - cpu activity" ++ nl, MSORTCPU);
  (htab ++ "'%c'  - memory consumption" ++ nl, MSORTMEM);
  (htab ++ "'%c'  - disk activity" ++ nl, MSORTDSK);
  (htab ++ "'%c'  - network activity" ++ nl, MSORTNET);
  (htab ++ "'%c'  - most active system resource (auto mode)" ++ nl, MSORTAUTO);
  (nl, SPACE);
  ("Accumulated figures:" ++ nl, SPACE);
  (htab ++ "'%c'  - total resource consumption per user" ++ nl, MCUMUSER);
  (htab ++ "'%c'  - total resource consumption per program (i.e. same process name)" ++ nl, MCUMPROC);
  (htab ++ "'%c'  - total resource consumption per container" ++ nl, MCUMCONT);
  (nl, SPACE);
  ("Process selections (keys shown in header line):" ++ nl, SPACE);
  (htab ++ "'%c'  - focus on specific user name           (regular expression)" ++ nl, MSELUSER);
  (htab ++ "'%c'  - focus on specific program name        (regular expression)" ++ nl, MSELPROC);
  (htab ++ "'%c'  - focus on specific contained id (CID)" ++ nl, MSELCONT);
  (htab ++ "'%c'  - focus on specific command line string (regular expression)" ++ nl, MSELARG);
  (htab ++ "'%c'  - focus on specific process id (PID)" ++ nl, MSELPID);
  (nl, SPACE);
  ("System resource selections (keys shown in header line):" ++ nl, SPACE);
  (htab ++ "'%c'  - focus on specific system resources    (regular expression)" ++ nl, MSELSYS);
  (nl, SPACE);
  ("Screen-handling:" ++ nl, SPACE);
  (htab ++ "^L   - redraw the screen                       " ++ nl, SPACE);
  (htab ++ "PgDn - show next page in the process list (or ^F)" ++ nl, SPACE);
  (htab ++ "ArDn - arrow-down for next line in process list" ++ nl, SPACE);
  (htab ++ "PgUp - show previous page in the process list (or ^B)" ++ nl, SPACE);
  (htab ++ "ArUp   arrow-up for previous line in process list" ++ nl, SPACE);
  (nl, SPACE);
  (htab ++ "ArRt - arrow-right for next character in full command line" ++ nl, SPACE);
  (htab ++ "ArLt - arrow-left  for previous character in full command line" ++ nl, SPACE);
  (nl, SPACE);
  ("Presentation (keys shown in header line):" ++ nl, SPACE);
  (htab ++ "'%c'  - show individual threads                        (toggle)" ++ nl, MTHREAD);
  (htab ++ "'%c'  - show all processes (default: active processes) (toggle)" ++ nl, MALLPROC);
  (htab ++ "'%c'  - show fixed number of header lines              (toggle)" ++ nl, MSYSFIXED);
  (htab ++ "'%c'  - suppress sorting system resources              (toggle)" ++ nl, MSYSNOSORT);
  (htab ++ "'%c'  - suppress exited processes in output            (toggle)" ++ nl, MSUPEXITS);
  (htab ++ "'%c'  - no colors to indicate high occupation          (toggle)" ++ nl, MCOLORS);
  (htab ++ "'%c'  - show average-per-second i.s.o. total values    (toggle)" ++ nl, MAVGVAL);
  (htab ++ "'%c'  - calculate proportional set size (PSIZE)        (toggle)" ++ nl, MCALCPSS);
  (nl, SPACE);
  ("Raw file viewing:" ++ nl, SPACE);
  (htab ++ "'%c'  - show next     sample in raw file" ++ nl, MSAMPNEXT);
  (htab ++ "'%c'  - show previous sample in raw file" ++ nl, MSAMPPREV);
  (htab ++ "'%c'  - branch to certain time in raw file" ++ nl, MSAMPBRANCH);
  (htab ++ "'%c'  - rewind to begin of raw file" ++ nl, MRESET);
  (nl, SPACE);
  ("Miscellaneous commands:" ++ nl, SPACE);
  (htab ++ "'%c'  - change interval timer (0 = only manual trigger)" ++ nl, MINTERVAL);
  (htab ++ "'%c'  - manual trigger to force next sample" ++ nl, MSAMPNEXT);
  (htab ++ "'%c'  - reset counters to boot time values" ++ nl, MRESET);
  (htab ++ "'%c'  - pause button to freeze current sample (toggle)" ++ nl, MPAUSE);
  (nl, SPACE);
  (htab ++ "'%c'  - limited lines for per-cpu, disk and interface resources" ++ nl, MSYSLIMIT);
  (htab ++ "'%c'  - kill a process (i.e. send a signal)" ++ nl, MKILLPROC);
  (nl, SPACE);
  (htab ++ "'%c'  - version information" ++ nl, MVERSION);
  (htab ++ "'%c'  - help information" ++ nl, MHELP1);
  (htab ++ "'%c'  - help information" ++ nl, MHELP2);
  (htab ++ "'%c'  - quit this program" ++ nl, MQUIT)]%string.

Definition helplines : Z := Z.of_nat (length helptext).

(** [wprintw]: an argument that the format does not use is ignored. *)
Definition help_line (e : string * Z) : text :=
  match printf e.1 [AChr (ascii_of_nat (Z.to_nat e.2))] with Some t => t | None => chars e.1 end.

(** The loop waits for a key behind line [i], with lines to come; or at the end. *)
Inductive help :=
  | HelpPage (winlines i : Z) (rest : list (string * Z))
  | HelpEnd.

(** The lines that are shown up to the next question. *)
Fixpoint showhelp_loop (winlines i shown tobeshown : Z) (rest : list (string * Z)) : list text * help :=
  match rest with
  | [] => ([], HelpEnd)
  | e :: rest =>
      if (winlines - 2 <=? i) && (tobeshown <=? shown) then ([help_line e], HelpPage winlines i rest)
      else let '(lines, h) := showhelp_loop winlines (i + 1) (shown + 1) tobeshown rest in (help_line e :: lines, h)
  end.

Definition showhelp (lines helpline : Z) : list text * help := showhelp_loop (lines - helpline) 0 0 1 helptext.

(** A key while help is shown; [None] leaves it. *)
Definition help_key (c : Z) (h : help) : option (list text * help) :=
  if c =? MQUIT then None
  else
    Some (match h with
          | HelpPage winlines i rest =>
              showhelp_loop winlines (i + 1) 1 (if c =? SPACE then winlines - 1 else 1) rest
          | HelpEnd => ([], HelpEnd)
          end).

Definition put_help (lines : list text) (k : keyst) : keyst :=
  put_acts (k.(keyst.acts) ++ (HelpLine <$> lines)) k.

(** ** What the keys do *)

(** How it goes on: with the next view, in the help text, or with another sample. *)
Inductive after :=
  | Redraw
  | InHelp
  | Return.

Definition getstrvers : string := "Version: 2.3.0 - 2018/06/04 14:49:06     <gerlof.langeveld@atoptool.nl>".

Section keys.
(** Viewing a log; the counters of the system; whether an own line is configured
    and colors are possible; the content of uninitialised variables of
    [hhmm2secs]; the numbers of logical volumes and of multiple devices. *)
Context (rawreadflag : bool) (supportflags : Z) (own colors : bool) (junk : Z * Z) (nlvm nmdd : Z).
Context (passwd : list (string * Z)) (regcomp : text -> option (string -> Z)) (kill : Z -> Z -> Z).
Implicit Types (c : Z) (k : keyst).

(** Keys after which the clock starts again when it was running. *)
Definition restart_clock k : keyst :=
  if negb (k.(keyst.interval) =? 0) && negb k.(keyst.paused) && negb rawreadflag then put_act (Alarm 3) k else k.

Definition stop_clock k : keyst := put_act (Alarm 0) k.

(** *** Order and kind of the list *)

Definition NO_DISK : string := "No disk-activity figures available; request ignored!".
Definition NO_NET : string := "Kernel module 'netatop' not active or no root privs; request ignored!".

Definition sort_key c k : option keyst :=
  let sort o k := to_top (with_set (set_order o) k) in
  if c =? MSORTAUTO then Some (sort MSORTAUTO k)
  else if c =? MSORTCPU then Some (sort MSORTCPU k)
  else if c =? MSORTMEM then Some (sort MSORTMEM k)
  else if c =? MSORTDSK then Some (if Prihead.flag supportflags IOSTAT then sort MSORTDSK k else say NO_DISK k)
  else if c =? MSORTNET then Some (if Prihead.flag supportflags NETATOP then sort MSORTNET k else say NO_NET k)
  else None.

(** The order comes along unless it is automatic. *)
Definition set_kind (t o : Z) (s : showset) : showset :=
  let s := set_type t s in if s.(showset.showorder) =? MSORTAUTO then s else set_order o s.

Definition type_key c k : option keyst :=
  let kind t o k := to_top (with_set (set_kind t o) k) in
  let only t k := to_top (with_set (set_type t) k) in
  if c =? MPROCGEN then Some (kind MPROCGEN MSORTCPU k)
  else if c =? MPROCMEM then Some (kind MPROCMEM MSORTMEM k)
  else if c =? MPROCDSK then
    Some (if Prihead.flag supportflags IOSTAT then kind MPROCDSK MSORTDSK k else say NO_DISK k)
  else if c =? MPROCNET then
    Some (if Prihead.flag supportflags NETATOP then kind MPROCNET MSORTNET k else say NO_NET k)
  else if c =? MPROCVAR then Some (only MPROCVAR k)
  else if c =? MPROCARG then Some (only MPROCARG k)
  else if c =? MPROCOWN then
    Some (if own then only MPROCOWN k
          else say "Own process line is not configured in rc-file; request ignored" k)
  else if c =? MPROCSCH then Some (kind MPROCSCH MSORTCPU k)
  else if c =? MCUMUSER then
    Some (only MCUMUSER (say "Consumption per user; use 'a' to toggle between all/active processes" k))
  else if c =? MCUMPROC then
    Some (only MCUMPROC (say "Consumption per program; use 'a' to toggle between all/active processes" k))
  else if c =? MCUMCONT then
    Some (only MCUMCONT (say "Consumption per container; use 'a' to toggle between all/active processes" k))
  else None.

(** *** Switches *)

Definition pause k : keyst :=
  if k.(keyst.paused) then
    let k := put_paused false k in if rawreadflag then k else put_act (Alarm 1) k
  else put_act (Alarm 0) (put_paused true k).

(** A switch [get] of the settings and the messages for both positions. *)
Definition toggle (get : showset -> bool) (put : bool -> showset -> showset) (on off : string) k : keyst :=
  let b := negb (get k.(keyst.set)) in say (if b then on else off) (with_set (put b) k).

Definition switch_key c k : option keyst :=
  if c =? MPAUSE then Some (pause k)
  else if c =? MALLPROC then
    Some (to_top (put_tlastorder 0
      (toggle showset.deviatonly set_deviatonly "Only active processes/threads will be shown/accumulated..."
         "All processes/threads will be shown/accumulated..." k)))
  else if c =? MAVGVAL then Some (with_set (fun s => set_avgval (negb s.(showset.avgval)) s) k)
  else if c =? MSYSFIXED then
    Some (to_top (toggle showset.fixedhead set_fixedhead "Also inactive system-resources will be shown....."
                    "Only active system-resources will be shown ......" k))
  else if c =? MSYSNOSORT then
    Some (to_top (toggle showset.sysnosort set_sysnosort "System resources will not be sorted on utilization..."
                    "System resources will be sorted on utilization..." k))
  else if c =? MTHREAD then
    Some (to_top (toggle showset.threadview set_threadview "Thread view enabled" "Thread view disabled" k))
  else if c =? MCALCPSS then
    Some (toggle showset.calcpss set_calcpss "PSIZE gathering enabled" "PSIZE gathering disabled" k)
  else if c =? MSUPEXITS then
    Some (to_top (toggle showset.suppressexit set_suppressexit "Exited processes will not be shown/accumulated"
                    "Exited processes will be shown/accumulated" k))
  else if c =? MCOLORS then
    Some (to_top (if negb k.(keyst.set).(showset.usecolors) && negb colors then say "No colors supported!" k
                  else toggle showset.usecolors set_colors "Colors will be used..." "No colors will be used..." k))
  else if c =? MVERSION then Some (say getstrvers k)
  else if c =? MREDRAW then Some (put_act Wclear k)
  else None.

(** *** The place in the list *)

Definition scroll_key (lines cols : Z) c k : option keyst :=
  let first := k.(keyst.firstproc) in
  if c =? KEY_RIGHT then Some (put_startoffset (i32 (k.(keyst.startoffset) + 1)) k)
  else if c =? KEY_LEFT then
    Some (if 0 <? k.(keyst.startoffset) then put_startoffset (k.(keyst.startoffset) - 1) k else k)
  else if c =? KEY_DOWN then Some (if first <? k.(keyst.alistsz) - 1 then put_firstproc (first + 1) k else k)
  else if c =? KEY_UP then Some (if 0 <? first then put_firstproc (first - 1) k else k)
  else if (c =? KEY_NPAGE) || (c =? MLISTFW) then
    Some (if k.(keyst.plistsz) <? k.(keyst.alistsz) - first then put_firstproc (first + k.(keyst.plistsz)) k else k)
  else if (c =? KEY_PPAGE) || (c =? MLISTBW) then
    Some (if k.(keyst.plistsz) <=? first then put_firstproc (first - k.(keyst.plistsz)) k else to_top k)
  else if c =? KEY_RESIZE then
    Some (put_statmsg (printf "Window resized to %dx%d..." [AInt cols; AInt lines]) k)
  else None.

(** *** Questions about processes, selections and limits *)

Definition kill_process k : keyst :=
  if rawreadflag then complain "Not possible when viewing raw file!" k
  else
    let '(killpid, k) := getnumval 0 (stop_clock k) in
    let killpid := i32 killpid in
    let k := if (killpid =? 0) || (killpid =? -1) then k
             else if killpid =? 1 then complain "Sending signal to pid 1 not allowed!" k
             else
               let '(killsig, k) := getnumval 15 k in
               let k := put_act (Kill killpid (i32 killsig)) k in
               if kill killpid (i32 killsig) =? -1
               then complain "Not possible to send signal to this pid!" k else k in
    to_top (if k.(keyst.paused) then k else put_act (Alarm 3) k).

Definition change_interval k : keyst :=
  if rawreadflag then complain "Not possible when viewing raw file!" k
  else
    let k := stop_clock k in
    let '(interval, k) := getnumval k.(keyst.interval) k in
    let k := put_interval interval k in
    to_top (if negb (interval =? 0) then (if k.(keyst.paused) then k else put_act (Alarm 3) k)
            else say "No timer set; waiting for manual trigger ('t')....." k).

Definition select_prog k : keyst :=
  let '(size, regex, k) := ask_regex regcomp (stop_clock k) in
  to_top (restart_clock (with_procsel (with_prog size regex) k)).

Definition select_arg k : keyst :=
  let '(size, regex, k) := ask_regex regcomp (stop_clock k) in
  to_top (restart_clock (with_procsel (with_arg size regex) k)).

Definition select_container k : keyst :=
  let '(word, k) := scanw 15 [] (stop_clock k) in
  let k := match container_of word with
           | inl container => with_procsel (with_container container) k
           | inr m => with_procsel (with_container EmptyString) (complain m k)
           end in
  to_top (restart_clock k).

Definition select_system k : keyst :=
  let s := k.(keyst.syssel) in
  let '(lvmsz, lvm, k) := ask_regex regcomp (stop_clock k) in
  let '(dsksz, dsk, k) := ask_regex regcomp k in
  let '(itfsz, itf, k) := ask_regex regcomp k in
  to_top (restart_clock (put_syssel
    (sselection.mk lvmsz (default s.(sselection.lvmregex) lvm) dsksz (default s.(sselection.dskregex) dsk)
       itfsz (default s.(sselection.itfregex) itf)) k)).

(** One maximum; the number is cut to an [int]. *)
Definition ask_limit (get : maxlines.maxlines -> Z) (put : Z -> maxlines.maxlines -> maxlines.maxlines) k : keyst :=
  let '(v, k) := getnumval (get k.(keyst.set).(showset.lines)) k in
  with_set (fun s => set_lines (put (i32 v) s.(showset.lines)) s) k.

Definition change_limits k : keyst :=
  let k := ask_limit maxlines.cpu (fun v l => maxlines.mk v l.(maxlines.dsk) l.(maxlines.mdd) l.(maxlines.lvm)
             l.(maxlines.int) l.(maxlines.nfs) l.(maxlines.cont)) (stop_clock k) in
  let k := if 0 <? nlvm
           then ask_limit maxlines.lvm (fun v l => maxlines.mk l.(maxlines.cpu) l.(maxlines.dsk) l.(maxlines.mdd) v
                  l.(maxlines.int) l.(maxlines.nfs) l.(maxlines.cont)) k else k in
  let k := if 0 <? nmdd
           then ask_limit maxlines.mdd (fun v l => maxlines.mk l.(maxlines.cpu) l.(maxlines.dsk) v l.(maxlines.lvm)
                  l.(maxlines.int) l.(maxlines.nfs) l.(maxlines.cont)) k else k in
  let k := ask_limit maxlines.dsk (fun v l => maxlines.mk l.(maxlines.cpu) v l.(maxlines.mdd) l.(maxlines.lvm)
             l.(maxlines.int) l.(maxlines.nfs) l.(maxlines.cont)) k in
  let k := ask_limit maxlines.int (fun v l => maxlines.mk l.(maxlines.cpu) l.(maxlines.dsk) l.(maxlines.mdd)
             l.(maxlines.lvm) v l.(maxlines.nfs) l.(maxlines.cont)) k in
  let k := ask_limit maxlines.nfs (fun v l => maxlines.mk l.(maxlines.cpu) l.(maxlines.dsk) l.(maxlines.mdd)
             l.(maxlines.lvm) l.(maxlines.int) v l.(maxlines.cont)) k in
  let k := ask_limit maxlines.cont (fun v l => maxlines.mk l.(maxlines.cpu) l.(maxlines.dsk) l.(maxlines.mdd)
             l.(maxlines.lvm) l.(maxlines.int) l.(maxlines.nfs) v) k in
  to_top (restart_clock k).

Definition ask_key c k : option keyst :=
  if c =? MKILLPROC then Some (kill_process k)
  else if c =? MINTERVAL then Some (change_interval k)
  else if c =? MSELPROC then Some (select_prog k)
  else if c =? MSELCONT then Some (select_container k)
  else if c =? MSELARG then Some (select_arg k)
  else if c =? MSELSYS then Some (select_system k)
  else if c =? MSYSLIMIT then Some (change_limits k)
  else None.

(** The array of the users whose names match, or of the one with the number, and a
    complaint. *)
Definition select_userids (username : text) (userid : list Z) : option (list Z * option string) :=
  match username with
  | [] => userid ← arr_set userid 0 USERSTUB; Some (userid, None)
  | _ =>
      match regcomp username with
      | None => Some (userid, Some "Invalid regular expression!"%string)
      | Some regex =>
          '(u, userid) ← match_users regex passwd 0 userid;
          userid ← arr_set userid u USERSTUB;
          if (u =? 0)%nat then
            if negb (numeric username =? 0) then
              userid ← arr_set userid 0 (u32 (atoi username));
              userid ← arr_set userid 1 USERSTUB;
              Some (userid, None)
            else Some (userid, Some "No user-names match this pattern!"%string)
          else Some (userid, None)
      end
  end.

Definition complain_if (m : option string) k : keyst := match m with Some m => complain m k | None => k end.

Definition select_user k : option keyst :=
  let '(username, k) := scanw (USERNAMESZ - 1) [] (stop_clock k) in
  '(userid, m) ← select_userids username k.(keyst.set).(showset.procsel).(pselection.userid);
  Some (to_top (restart_clock (complain_if m (with_procsel (with_userid userid) k)))).

(** Without an answer the words are those of [genline]. *)
Definition select_pids k : option keyst :=
  let '(word, k) := scanw 79 [] (stop_clock k) in
  genline ← match word with [] => k.(keyst.genline) | _ => Some word end;
  '(id, pid, m) ← store_pids (strtok_words [] genline) 0 k.(keyst.set).(showset.procsel).(pselection.pid);
  pid ← arr_set pid id 0;
  let k := put_genline (Some (strtok_left false genline)) k in
  Some (to_top (restart_clock (complain_if m (with_procsel (with_pid pid) k)))).

(** *** Other samples *)

Definition ONLY_RAW : string := "Only allowed when viewing raw file!".

Definition sample_key c k : option (after * keyst) :=
  if (c =? ERR) || (c =? 0) then Some (Return, k)
  else if c =? MSAMPNEXT then
    Some (if k.(keyst.paused) then (Redraw, k) else (Return, put_act Getalarm k))
  else if c =? MSAMPPREV then
    Some (if negb rawreadflag then (Redraw, complain ONLY_RAW k)
          else if k.(keyst.paused) then (Redraw, k) else (Return, k))
  else if c =? MSAMPBRANCH then
    Some (if negb rawreadflag then (Redraw, complain ONLY_RAW k)
          else if k.(keyst.paused) then (Redraw, k)
          else
            let '(hhmm, k) := scanw 15 [] k in
            match hhmm2secs junk hhmm with
            | (rv, begintime) =>
                if rv =? 0 then (Redraw, put_begintime 0 (complain "Wrong time format!" k))
                else (Return, put_begintime (default k.(keyst.begintime) begintime) k)
            end)
  else if c =? MRESET then Some (Return, put_paused false (put_act Getalarm k))
  else None.

(** The first of the functions that knows the key. *)
Fixpoint first_key (fs : list (Z -> keyst -> option keyst)) c k : option keyst :=
  match fs with
  | [] => None
  | f :: fs => match f c k with Some k => Some k | None => first_key fs c k end
  end.

Definition plain_keys (lines cols : Z) : list (Z -> keyst -> option keyst) :=
  [sort_key; type_key; switch_key; scroll_key lines cols; ask_key].

(** A key in a window of the given size; [cleanstop] ends the program. *)
Definition handle_key (lines cols : Z) c k : run (after * keyst) :=
  match sample_key c k with
  | Some r => lift (Ret r)
  | None =>
      if c =? MQUIT then lift (Exit 0)
      else if (c =? MHELP1) || (c =? MHELP2) then lift (Ret (InHelp, stop_clock k))
      else if c =? MSELUSER then k ← may_fault (select_user k); lift (Ret (Redraw, k))
      else if c =? MSELPID then k ← may_fault (select_pids k); lift (Ret (Redraw, k))
      else lift (Ret (Redraw, default (put_act Beep k) (first_key (plain_keys lines cols) c k)))
  end.

(** The clock and the place when help is left. *)
Definition leave_help k : keyst := to_top (restart_clock k).
End keys.

(** * Views: the sample after every key

    A sample is viewed again after every key: the lists that the settings ask for
    are made, sorted when their order is not known to be the wanted one, and
    joined with threads. The lists are arrays of pointers that are sorted in place
    and kept from one view to the next; a pointer is the position of its task. The
    list is handed over with the first task to show.

    [prisyst] (Prisyst.v) decides how many lines the resources of the system take
    and which order belongs to the busiest one; both are given with each view. *)

(** The window of a view, and what [prisyst] tells: the next line and the order,
    as it is and with the limited numbers of lines. *)
Module window.
Record window := mk {
  lines : Z;
  cols : Z;
  curline : Z;
  autoorder : Z;
  limcurline : Z;
  limautoorder : Z
}.
End window.
Notation window := window.window.

(** The lists of the sample; the list with threads, whose room is its length and
    whose places are not initialised, with the state of its variables; the static
    variables of [priphead]. *)
Module viewst.
Record viewst := mk {
  tasks : rawtasks tstat.tstat;
  tsklist : option (list (option tstat.tstat));
  tdeviate : bool;
  zipagain : bool;
  prev_supportflags : Z;
  prev_threadview : Z
}.
End viewst.
Notation viewst := viewst.viewst.

Definition put_tasks (d : rawtasks tstat.tstat) (v : viewst) : viewst :=
  viewst.mk d v.(viewst.tsklist) v.(viewst.tdeviate) v.(viewst.zipagain) v.(viewst.prev_supportflags)
    v.(viewst.prev_threadview).
Definition put_zipagain (b : bool) (v : viewst) : viewst :=
  viewst.mk v.(viewst.tasks) v.(viewst.tsklist) v.(viewst.tdeviate) b v.(viewst.prev_supportflags)
    v.(viewst.prev_threadview).
Definition put_tsklist (l : list (option tstat.tstat)) (deviate : bool) (v : viewst) : viewst :=
  viewst.mk v.(viewst.tasks) (Some l) deviate v.(viewst.zipagain) v.(viewst.prev_supportflags)
    v.(viewst.prev_threadview).
Definition put_prev (flags threads : Z) (v : viewst) : viewst :=
  viewst.mk v.(viewst.tasks) v.(viewst.tsklist) v.(viewst.tdeviate) v.(viewst.zipagain) flags threads.

(** The pointers [ptrs] take the first places of one of the arrays. *)
Definition put_procs (active : bool) (ptrs : list nat) (v : viewst) : viewst :=
  let d := v.(viewst.tasks) in
  let place old := ptrs ++ drop (length ptrs) old in
  put_tasks
    (rawtasks.mk d.(rawtasks.taskall)
       (if active then d.(rawtasks.procall) else place d.(rawtasks.procall))
       (if active then place d.(rawtasks.procactive) else d.(rawtasks.procactive))
       d.(rawtasks.ntaskactive) d.(rawtasks.nprocall) d.(rawtasks.nprocactive) d.(rawtasks.totrun)
       d.(rawtasks.totslpi) d.(rawtasks.totslpu) d.(rawtasks.totzombie)) v.

Definition fetch_procs (active : bool) (d : rawtasks tstat.tstat) : option (list entry) :=
  if active then fetch d.(rawtasks.taskall) d.(rawtasks.nprocactive) d.(rawtasks.procactive)
  else fetch d.(rawtasks.taskall) d.(rawtasks.nprocall) d.(rawtasks.procall).

(** ** Events *)

(** A view with the key that follows it and the answers to its questions; in the
    help text there is no view, and only the key counts. *)
Module event.
Record event := mk {
  win : window;
  key : Z;
  answers : list text
}.
End event.
Notation event := event.event.

(** ** Lists *)

(** What the list is: accumulated, an array of pointers, or a selection. *)
Inductive listkind :=
  | Cumulated
  | Listed (active : bool)
  | Selected.

Section view.
Context `{QSort}.

(** The array of pointers is sorted by what is accumulated, and stays so. *)
Definition cum_view {K} `{EqDecision K} (key : tgen.tgen -> K) (set_key : K -> tgen.tgen -> tgen.tgen)
    (cmp : tstat.tstat -> tstat.tstat -> Z) (s : showset) (v : viewst) : option (list entry * viewst) :=
  procs ← fetch_procs s.(showset.deviatonly) v.(viewst.tasks);
  let procs := qsort (fun a b : entry => cmp a.2 b.2) procs in
  c ← cum_loop s.(showset.procsel) s.(showset.suppressexit) key set_key procs.*2
        (cumlist.mk (replicate (length procs) tstat_zero) 0 0);
  '(num, l) ← cum_end c;
  Some (imap pair (take (Z.to_nat num) l), put_procs s.(showset.deviatonly) procs.*1 v).

(** select the required list with tasks to be shown *)
Definition view_list (s : showset) (v : viewst) : option (listkind * list entry * viewst) :=
  if s.(showset.showtype) =? MCUMUSER then
    '(l, v) ← cum_view tgen.ruid set_ruid compusr s v; Some (Cumulated, l, v)
  else if s.(showset.showtype) =? MCUMPROC then
    '(l, v) ← cum_view tgen.name set_name compnam s v; Some (Cumulated, l, v)
  else if s.(showset.showtype) =? MCUMCONT then
    '(l, v) ← cum_view tgen.container set_container compcon s v; Some (Cumulated, l, v)
  else
    l ← fetch_procs (only_active s) v.(viewst.tasks);
    all ← no_selection s;
    if (all : bool) then Some (Listed (only_active s), l, v)
    else l ← select_tasks s l; Some (Selected, l, v).

(** if sorting order is changed, sort again: the list, the last order of the
    arrays of pointers and the state *)
Definition sort_view (kind : listkind) (curorder tlastorder : Z) (l : list entry) (v : viewst) :
    option (list entry * Z * viewst) :=
  let lastsort := match kind with Listed _ => tlastorder | _ => 0 end in
  if lastsort =? curorder then Some (l, tlastorder, v)
  else
    cmp ← procsort curorder;
    let l := qsort (fun a b : entry => cmp a.2 b.2) l in
    let v := put_zipagain true v in
    Some (match kind with
          | Listed active => (l, curorder, put_procs active l.*1 v)
          | _ => (l, tlastorder, v)
          end).

(** The room for tasks with their threads, and whether they have to be put there. *)
Definition zip_room (s : showset) (v : viewst) : list (option tstat.tstat) * bool :=
  let d := v.(viewst.tasks) in
  let ntotal := if only_active s then d.(rawtasks.ntaskactive) else Z.of_nat (length d.(rawtasks.taskall)) in
  match v.(viewst.tsklist) with
  | Some room =>
      if (Z.of_nat (length room) =? ntotal) && Bool.eqb v.(viewst.tdeviate) s.(showset.deviatonly)
      then (room, v.(viewst.zipagain)) else (replicate (Z.to_nat ntotal) None, true)
  | None => (replicate (Z.to_nat ntotal) None, true)
  end.

(** The list that is kept is taken as a whole. *)
Definition zip_view (s : showset) (l : list entry) (v : viewst) : option (list tstat.tstat * viewst) :=
  let '(room, again) := zip_room s v in
  if again then
    let zipped := flat_map (zip_entry (only_active s) v.(viewst.tasks).(rawtasks.taskall)) l in
    if (length zipped <=? length room)%nat then
      Some (zipped, put_zipagain false
                      (put_tsklist ((Some <$> zipped) ++ drop (length zipped) room) s.(showset.deviatonly) v))
    else None
  else l ← mapM id room; Some (l, put_zipagain false (put_tsklist room s.(showset.deviatonly) v)).

(** ** A view *)

Context (supportflags nexit noverflow flags : Z).

(** Some flags and the view of threads have changed: without its counters the
    list of network figures becomes the general one. *)
Definition head_type (s : showset) (curorder : Z) (v : viewst) : showset * Z * viewst :=
  let threads := c_bool s.(showset.threadview) in
  if negb (v.(viewst.prev_supportflags) =? supportflags) || negb (v.(viewst.prev_threadview) =? threads) then
    let v := put_prev supportflags threads v in
    if (s.(showset.showtype) =? MPROCNET) && negb (Prihead.flag supportflags NETATOP)
    then (set_type MPROCGEN s, MSORTCPU, v) else (s, curorder, v)
  else (s, curorder, v).

(** The lines of the system have to fit in the window. *)
Definition fit (w : window) (k : keyst) : exitor (Z * Z * keyst) :=
  if w.(window.lines) <? w.(window.curline) + 2 then
    if w.(window.lines) <? w.(window.limcurline) + 2 then Exit 1
    else Ret (w.(window.limcurline), w.(window.limautoorder),
              say "Number of variable resources limited to fit in this window" (with_set limitedlines k))
  else Ret (w.(window.curline), w.(window.autoorder), k).

Definition SINCE_BOOT : string := "*** system and process activity since boot ***".

Definition status (k : keyst) : keyst :=
  match k.(keyst.statmsg) with
  | Some m => put_statmsg None (put_act (Message m) k)
  | None => if flagged flags RRBOOT then put_act (Message (chars SINCE_BOOT)) k else k
  end.

Definition overflow_msg (k : keyst) : keyst :=
  if negb (noverflow =? 0)
  then put_statmsg (printf "Only %d exited processes handled -- %u skipped!" [AInt nexit; AInt noverflow]) k else k.

Definition order_of (s : showset) (autoorder : Z) : Z :=
  if s.(showset.showorder) =? MSORTAUTO then autoorder else s.(showset.showorder).

(** The list in its order with threads, and what is kept. *)
Definition view_procs (curorder : Z) (k : keyst) (v : viewst) : option (list tstat.tstat * keyst * viewst) :=
  let s := k.(keyst.set) in
  '(kind, l, v) ← view_list s v;
  let k := match kind with Selected => put_tlastorder 0 k | _ => k end in
  if (0 <? Z.of_nat (length l)) && (0 <? k.(keyst.plistsz)) then
    '(l, tlastorder, v) ← sort_view kind curorder k.(keyst.tlastorder) l v;
    let k := put_tlastorder tlastorder k in
    '(l, v) ← (if s.(showset.threadview) && match kind with Cumulated => false | _ => true end
               then zip_view s l v else Some (l.*2, v));
    let page := Z.quot k.(keyst.firstproc) k.(keyst.plistsz) + 1 in
    let pages := Z.quot (Z.of_nat (length l) - 1) k.(keyst.plistsz) + 1 in
    let '(s, curorder, v) := head_type s curorder v in
    Some (l, put_act (Procs l k.(keyst.firstproc) page pages s.(showset.showtype) curorder) (put_set s k), v)
  else Some (l.*2, k, v).

Definition redraw (w : window) (k : keyst) (v : viewst) : run (keyst * viewst) :=
  '(curline, autoorder, k) ← lift (fit w (overflow_msg k));
  let k := put_plistsz (w.(window.lines) - curline - 2) (status k) in
  '(l, k, v) ← may_fault (view_procs (order_of k.(keyst.set) autoorder) k v);
  lift (Ret (put_alistsz (Z.of_nat (length l)) k, v)).

(** ** The loop *)

Inductive mode :=
  | Viewing
  | Helping (h : help).

(** Where the events lead: more keys are awaited, or [generic_samp] returns the
    key. *)
Inductive shown_until :=
  | Awaits (m : mode) (k : keyst) (v : viewst)
  | Returns (lastchar : Z) (k : keyst) (v : viewst).

Context (rawreadflag own colors : bool) (junk : Z * Z) (nlvm nmdd : Z).
Context (passwd : list (string * Z)) (regcomp : text -> option (string -> Z)) (kill : Z -> Z -> Z).

Definition view_event (e : event) (k : keyst) (v : viewst) : run shown_until :=
  '(k, v) ← redraw e.(event.win) k v;
  let lines := e.(event.win).(window.lines) in
  '(a, k) ← handle_key rawreadflag supportflags own colors junk nlvm nmdd passwd regcomp kill
              lines e.(event.win).(window.cols) e.(event.key) (put_answers e.(event.answers) k);
  lift (Ret (match a with
             | Redraw => Awaits Viewing k v
             | Return => Returns e.(event.key) k v
             | InHelp => let '(shown, h) := showhelp lines 2 in Awaits (Helping h) (put_help shown k) v
             end)).

Definition help_event (c : Z) (h : help) (k : keyst) : mode * keyst :=
  match help_key c h with
  | Some (shown, h) => (Helping h, put_help shown k)
  | None => (Viewing, leave_help rawreadflag k)
  end.

Definition step (e : event) (m : mode) (k : keyst) (v : viewst) : run shown_until :=
  match m with
  | Viewing => view_event e k v
  | Helping h => let '(m, k) := help_event e.(event.key) h k in lift (Ret (Awaits m k v))
  end.

Fixpoint interact (es : list event) (m : mode) (k : keyst) (v : viewst) : run shown_until :=
  match es with
  | [] => lift (Ret (Awaits m k v))
  | e :: es =>
      o ← step e m k v;
      match o with Awaits m k v => interact es m k v | Returns _ _ _ => lift (Ret o) end
  end.
End view.
