(* ===== verification/ShowkeysFacts.v ===== *)
(** * What the keys of the display keep

    Every key leaves settings for which there are an order, a layout and a
    selection that ends inside its arrays; a key that changes what the list holds
    goes back to its top; signals go to no process below 2 that was typed as
    such. The help text is shown line by line whatever key is pressed. *)
From Stdlib Require Import Ascii.
From S2P Require Import Prelude Format Printf Sscanf Tstat Netatopif Photoproc Cumulate CumFacts Various Compar Showline Prihead Parseable Rawlog RawlogMain Prisyst Showgeneric ShowgenericFacts Showkeys.

(** ** What is kept *)

(** The selection ends within its arrays, which have their sizes. *)
Record sel_valid (p : pselection.pselection) : Prop := {
  sv_ok : sel_ok p;
  sv_userid : length p.(pselection.userid) = MAXUSERSEL;
  sv_pid : length p.(pselection.pid) = MAXPID
}.

Definition set_valid (s : showset) : Prop := view_ok s /\ sel_valid s.(showset.procsel).

(** The settings that decide what the list holds. *)
Definition sizing (s : showset) :=
  (s.(showset.showtype), s.(showset.showorder), s.(showset.procsel), s.(showset.deviatonly), s.(showset.threadview),
   s.(showset.suppressexit)).

Section facts.
Context (rawreadflag : bool).

(** A list is shown from a task of it on; a signal goes to a process, or to a
    group, but not to the own group, to all processes or to the first one, and
    not while a log is viewed. *)
Definition act_ok (a : act) : Prop :=
  match a with
  | Procs l first _ _ _ _ => 0 <= first < Z.of_nat (length l)
  | Kill pid _ => rawreadflag = false /\ pid ≠ 0 /\ pid ≠ -1 /\ pid ≠ 1
  | _ => True
  end.
Definition acts_ok (k : keyst) : Prop := Forall act_ok k.(keyst.acts).

(** Nothing that matters for the list is changed. *)
Record quiet (k k' : keyst) : Prop := {
  q_set : k'.(keyst.set) = k.(keyst.set);
  q_first : k'.(keyst.firstproc) = k.(keyst.firstproc);
  q_last : k'.(keyst.tlastorder) = k.(keyst.tlastorder);
  q_all : k'.(keyst.alistsz) = k.(keyst.alistsz);
  q_page : k'.(keyst.plistsz) = k.(keyst.plistsz);
  q_acts : acts_ok k -> acts_ok k'
}.

#[export] Instance quiet_preorder : PreOrder quiet.
Proof.
  split; [by split|]. intros k1 k2 k3 [] []. split; try congruence. auto.
Qed.

Lemma quiet_act a k : act_ok a -> quiet k (put_act a k).
Proof. intros Ha. split; try done. intros H. apply Forall_app. by split; [|constructor]. Qed.
Lemma quiet_say m k : quiet k (say m k).
Proof. by split. Qed.
Lemma quiet_complain m k : quiet k (complain m k).
Proof. transitivity (say m k); [apply quiet_say | by apply quiet_act]. Qed.
Lemma quiet_scanw n old k : quiet k (scanw n old k).2.
Proof. unfold scanw. by destruct k.(keyst.answers). Qed.
Lemma quiet_getnumval v k : quiet k (getnumval v k).2.
Proof.
  unfold getnumval. pose proof (quiet_scanw 15 [] k) as H. destruct (scanw 15 [] k) as [[|c w] k']; [done|].
  destruct (negb _); [done|]. etransitivity; [exact H | by apply quiet_act].
Qed.
Lemma quiet_ask_regex regcomp k : quiet k (ask_regex regcomp k).2.
Proof.
  unfold ask_regex. pose proof (quiet_scanw 63 [] k) as H. destruct (scanw 63 [] k) as [[|c w] k']; [done|].
  destruct (regcomp _); [done|]. etransitivity; [exact H | apply quiet_complain].
Qed.
Lemma quiet_restart k : quiet k (restart_clock rawreadflag k).
Proof. unfold restart_clock. case_match; [by apply quiet_act | reflexivity]. Qed.
Lemma quiet_stop k : quiet k (stop_clock k).
Proof. by apply quiet_act. Qed.
Lemma quiet_help lines k : quiet k (put_help lines k).
Proof.
  split; try done. intros H. apply Forall_app. split; [done|]. apply Forall_fmap. by apply Forall_true.
Qed.

(** A key leaves valid settings; it goes to the top of the list, or keeps what
    the list holds and a place in it. *)
Record kept_by_key (k k' : keyst) : Prop := {
  kp_set : set_valid k'.(keyst.set);
  kp_last : k'.(keyst.tlastorder) = k.(keyst.tlastorder) \/ k'.(keyst.tlastorder) = 0;
  kp_acts : acts_ok k -> acts_ok k';
  kp_place : k'.(keyst.firstproc) = 0 \/
    (sizing k'.(keyst.set) = sizing k.(keyst.set) /\ 0 <= k'.(keyst.firstproc) /\
     (k'.(keyst.firstproc) <= k.(keyst.firstproc) \/ k'.(keyst.firstproc) < k.(keyst.alistsz)))
}.

Lemma kept_quiet k k' : set_valid k.(keyst.set) -> 0 <= k.(keyst.firstproc) -> quiet k k' -> kept_by_key k k'.
Proof.
  intros Hs Hf [E1 E2 E3 E4 E5 H6]. split; [by rewrite E1 | by left | done|]. right. rewrite E1, E2.
  split; [done|]. lia.
Qed.

(** The settings are changed and the list is shown from the top. *)
Lemma kept_top k k1 f : quiet k k1 -> set_valid (f k1.(keyst.set)) -> kept_by_key k (to_top (with_set f k1)).
Proof. intros [E1 E2 E3 E4 E5 H6] Hs. split; [done | by left | done | by left]. Qed.

Lemma kept_to_top k k1 : set_valid k.(keyst.set) -> quiet k k1 -> kept_by_key k (to_top k1).
Proof. intros Hs [E1 E2 E3 E4 E5 H6]. split; [cbn; by rewrite E1 | by left | done | by left]. Qed.

Hint Resolve quiet_act quiet_say quiet_complain quiet_restart quiet_stop : core.

(** ** Order, kind, switches, place *)

Lemma valid_order o s : set_valid s -> o ∈ orders -> set_valid (set_order o s).
Proof. intros [[_ Ht] Hp] Ho. by split. Qed.
Lemma valid_type t s : set_valid s -> t ∈ types -> set_valid (set_type t s).
Proof. intros [[Ho _] Hp] Ht. by split. Qed.
Lemma valid_kind t o s : set_valid s -> t ∈ types -> o ∈ orders -> set_valid (set_kind t o s).
Proof.
  intros Hs Ht Ho. unfold set_kind. case_match; [by apply valid_type|]. apply valid_order; [by apply valid_type | done].
Qed.

Section plain.
Context (supportflags : Z) (own colors : bool) (k : keyst).
Context (Hset : set_valid k.(keyst.set)) (Hfirst : 0 <= k.(keyst.firstproc)).

(** The settings stay valid when one of the constants becomes the order or the
    kind of the list. *)
Ltac valid := first
  [ apply valid_kind; [exact Hset | in_list | in_list]
  | apply valid_order; [exact Hset | in_list]
  | apply valid_type; [exact Hset | in_list]
  | exact Hset ].
Ltac by_quiet := apply kept_quiet; [exact Hset | exact Hfirst | solve [auto]].
Ltac keep := first
  [ apply (kept_top k k); [reflexivity | valid]
  | apply (kept_top k (say _ k)); [apply quiet_say | valid]
  | by_quiet ].
(** One key after the other. *)
Ltac keys H tac := repeat (case_match; [injection H as <-; try (case_match; [tac | tac]); try tac|]); done.

Lemma kept_sort_key c k' : sort_key supportflags c k = Some k' -> kept_by_key k k'.
Proof. unfold sort_key. intros H. keys H keep. Qed.

Lemma kept_type_key c k' : type_key supportflags own c k = Some k' -> kept_by_key k k'.
Proof. unfold type_key. intros H. keys H keep. Qed.

Lemma kept_say m k1 : kept_by_key k k1 -> kept_by_key k (say m k1).
Proof. by intros []. Qed.
Lemma kept_then_top k1 : kept_by_key k k1 -> kept_by_key k (to_top k1).
Proof. intros []. split; try done. by left. Qed.

(** A switch that says nothing about the kind and the order. *)
Lemma kept_toggle get put on off : (forall b s, set_valid s -> set_valid (put b s)) ->
  kept_by_key k (to_top (toggle get put on off k)).
Proof. intros Hp. split; cbn; [by apply Hp | by left | done | by left]. Qed.

Lemma kept_switch_key c k' : switch_key rawreadflag colors c k = Some k' -> kept_by_key k k'.
Proof.
  unfold switch_key. intros H. case_match.
  { injection H as <-. unfold pause. apply kept_quiet; [done | done |]. repeat case_match; split; try done;
      intros Ha; (apply Forall_app; by split; [|constructor]). }
  repeat (case_match; [injection H as <-; try (apply kept_toggle; by intros b s [])|]); [..|done].
  - split; [exact Hset | by right | done | by left].
  - split; [exact Hset | by left | done |]. right. split; [done | cbn; lia].
  - split; [exact Hset | by left | done |]. right. split; [done | cbn; lia].
  - apply kept_then_top. case_match; [by apply kept_quiet|].
    split; [exact Hset | by left | done |]. right. split; [done | cbn; lia].
  - by apply kept_quiet.
  - apply kept_quiet; [done | done | by apply quiet_act].
Qed.

Lemma kept_place f : f = 0 \/ (0 <= f /\ (f <= k.(keyst.firstproc) \/ f < k.(keyst.alistsz))) ->
  kept_by_key k (put_firstproc f k).
Proof. intros Hf. split; [exact Hset | by left | done |]. destruct Hf; [by left | by right]. Qed.

Lemma kept_scroll_key lines cols c k' : 0 <= k.(keyst.plistsz) ->
  scroll_key lines cols c k = Some k' -> kept_by_key k k'.
Proof.
  unfold scroll_key. intros Hp H.
  repeat (case_match; [injection H as <-; repeat case_match; first [by apply kept_quiet | apply kept_place; lia]|]).
  done.
Qed.
End plain.

(** ** Questions *)

(** What every question keeps; its key goes to the top of the list. *)
Record still (k k' : keyst) : Prop := {
  st_set : set_valid k.(keyst.set) -> set_valid k'.(keyst.set);
  st_last : k'.(keyst.tlastorder) = k.(keyst.tlastorder);
  st_acts : acts_ok k -> acts_ok k'
}.

#[local] Instance still_preorder : PreOrder still.
Proof. split; [by split|]. intros k1 k2 k3 [] []. split; auto. congruence. Qed.

Lemma still_quiet k k' : quiet k k' -> still k k'.
Proof. intros [E1 E2 E3 E4 E5 H6]. split; [by rewrite E1 | done | done]. Qed.

Lemma still_set f k : (set_valid k.(keyst.set) -> set_valid (f k.(keyst.set))) -> still k (with_set f k).
Proof. by split. Qed.

Lemma still_sel f k : (sel_valid k.(keyst.set).(showset.procsel) -> sel_valid (f k.(keyst.set).(showset.procsel))) ->
  still k (with_procsel f k).
Proof. intros H. apply still_set. intros [[] ?]. split; [by split | by apply H]. Qed.

Lemma still_kept k k' : set_valid k.(keyst.set) -> still k k' -> kept_by_key k (to_top k').
Proof. intros Hs []. split; [auto | by left | done | by left]. Qed.

(** A call that is quiet, by its lemma [q]. *)
Ltac ask q := match goal with |- context [let '(_, _) := ?c in _] =>
  let H := fresh "Q" in pose proof (still_quiet _ _ q) as H; destruct c as [? ?]; cbn [snd] in H end.
(** One more step in front of the state that is reached. *)
Ltac after q := etransitivity; [|apply still_quiet; first [apply q | by apply q]].

Section asks.
Context (k : keyst) (Hset : set_valid k.(keyst.set)) (Hfirst : 0 <= k.(keyst.firstproc)).

Lemma still_stop : still k (stop_clock k).
Proof. apply still_quiet, quiet_stop. Qed.

Lemma kept_kill_process kill : kept_by_key k (kill_process rawreadflag kill k).
Proof.
  unfold kill_process. destruct rawreadflag eqn:Er; [apply kept_quiet; auto|].
  ask (quiet_getnumval 0 (stop_clock k)). apply still_kept; [done|].
  set (k2 := if (_ || _) : bool then _ else _).
  enough (still k k2) by (case_match; [done|]; by after quiet_act).
  transitivity k0; [etransitivity; [exact still_stop | done]|].
  unfold k2. destruct ((i32 z =? 0) || (i32 z =? -1)) eqn:E1; [reflexivity|].
  destruct (i32 z =? 1) eqn:E2; [by after quiet_complain|].
  ask (quiet_getnumval 15 k0). apply orb_false_iff in E1 as [E0%Z.eqb_neq E1%Z.eqb_neq]. apply Z.eqb_neq in E2.
  enough (still k0 (put_act (Kill (i32 z) (i32 z0)) k1)) by (case_match; [by after quiet_complain | done]).
  after quiet_act; [exact Q0 | cbn; by rewrite Er].
Qed.

Lemma kept_change_interval : kept_by_key k (change_interval rawreadflag k).
Proof.
  unfold change_interval. destruct rawreadflag; [apply kept_quiet; auto|].
  ask (quiet_getnumval (stop_clock k).(keyst.interval) (stop_clock k)). apply still_kept; [done|].
  enough (still k (put_interval z k0)) by
    (repeat case_match; first [done | by after quiet_act | by after quiet_say]).
  etransitivity; [exact still_stop|]. etransitivity; [exact Q|]. by apply still_quiet.
Qed.

Lemma kept_ask_name regcomp with_name :
  (forall n r p, sel_valid p -> sel_valid (with_name n r p)) ->
  kept_by_key k (let '(size, regex, k) := ask_regex regcomp (stop_clock k) in
          to_top (restart_clock rawreadflag (with_procsel (with_name size regex) k))).
Proof.
  intros Hn. pose proof (still_quiet _ _ (quiet_ask_regex regcomp (stop_clock k))) as Q.
  destruct (ask_regex regcomp (stop_clock k)) as [[size regex] k0]. cbn [snd] in Q. apply still_kept; [done|].
  after quiet_restart. etransitivity; [exact still_stop|]. etransitivity; [exact Q|]. apply still_sel. apply Hn.
Qed.

Lemma kept_select_container : kept_by_key k (select_container rawreadflag k).
Proof.
  unfold select_container. ask (quiet_scanw 15 [] (stop_clock k)). apply still_kept; [done|].
  after quiet_restart. etransitivity; [exact still_stop|]. etransitivity; [exact Q|].
  case_match; [by apply still_sel; intros [[] ? ?]|].
  etransitivity; [apply still_quiet, quiet_complain | by apply still_sel; intros [[] ? ?]].
Qed.

Lemma kept_select_system regcomp : kept_by_key k (select_system rawreadflag regcomp k).
Proof.
  unfold select_system.
  pose proof (still_quiet _ _ (quiet_ask_regex regcomp (stop_clock k))) as Q1.
  destruct (ask_regex regcomp (stop_clock k)) as [[? ?] k1]. cbn [snd] in Q1.
  pose proof (still_quiet _ _ (quiet_ask_regex regcomp k1)) as Q2.
  destruct (ask_regex regcomp k1) as [[? ?] k2]. cbn [snd] in Q2.
  pose proof (still_quiet _ _ (quiet_ask_regex regcomp k2)) as Q3.
  destruct (ask_regex regcomp k2) as [[? ?] k3]. cbn [snd] in Q3.
  apply still_kept; [done|]. after quiet_restart.
  etransitivity; [exact still_stop|]. etransitivity; [exact Q1|]. etransitivity; [exact Q2|].
  etransitivity; [exact Q3|]. by apply still_quiet.
Qed.

Lemma still_ask_limit get put k0 : still k0 (ask_limit get put k0).
Proof.
  unfold ask_limit. ask (quiet_getnumval (get k0.(keyst.set).(showset.lines)) k0).
  etransitivity; [exact Q|]. apply still_set. by intros [[] []].
Qed.

Lemma kept_change_limits nlvm nmdd : kept_by_key k (change_limits rawreadflag nlvm nmdd k).
Proof.
  unfold change_limits. apply still_kept; [done|]. after quiet_restart. cbv zeta.
  repeat first [ exact still_stop | case_match | etransitivity; [|apply still_ask_limit] ].
Qed.

(** The array of users: those that match, and the end. *)
Lemma userid_valid us old x : length old = MAXUSERSEL -> (length us < MAXUSERSEL)%nat ->
  x = us ++ USERSTUB :: drop (S (length us)) old -> length x = MAXUSERSEL /\ USERSTUB ∈ x.
Proof.
  intros Ho Hu ->. rewrite length_app. cbn [length]. rewrite length_drop. split; [lia|].
  apply elem_of_app. right. by left.
Qed.

Lemma set_after us (x : Z) old : (length us < length old)%nat ->
  arr_set (us ++ drop (length us) old) (length us) x = Some (us ++ x :: drop (S (length us)) old).
Proof.
  intros Hl. destruct (drop (length us) old) as [|y rest] eqn:E.
  { apply (f_equal length) in E. rewrite length_drop in E. cbn in E. lia. }
  rewrite arr_set_Some by (rewrite length_app; cbn; lia).
  rewrite insert_app_r_alt, Nat.sub_diag by lia. cbn [insert list_insert].
  replace (S (length us)) with (length us + 1)%nat by lia. by rewrite <-drop_drop, E.
Qed.

Lemma select_userids_fits passwd regcomp username old : length old = MAXUSERSEL -> USERSTUB ∈ old ->
  exists userid m, select_userids passwd regcomp username old = Some (userid, m) /\
    length userid = MAXUSERSEL /\ USERSTUB ∈ userid.
Proof.
  intros Ho Hin. unfold select_userids.
  assert (Hset_at : forall us x, (length us < MAXUSERSEL)%nat ->
    arr_set (us ++ drop (length us) old) (length us) x = Some (us ++ x :: drop (S (length us)) old)).
  { intros us x Hus. apply set_after. lia. }
  destruct username as [|c w].
  { pose proof (Hset_at [] USERSTUB ltac:(cbn; unfold MAXUSERSEL; lia)) as E. cbn [length app] in E.
    rewrite drop_0 in E. rewrite E. cbn [mbind option_bind]. eexists _, _. split; [done|]. by apply (userid_valid [] old); [|unfold MAXUSERSEL; cbn; lia|]. }
  destruct (regcomp (c :: w)) as [regex|]; [|by eexists _, _].
  rewrite match_users_spec by (unfold MAXUSERSEL in *; lia). cbn zeta. cbn [mbind option_bind].
  rewrite Nat.sub_0_r. cbn [Nat.add take app].
  set (us := take (MAXUSERSEL - 1) (matching regex passwd)).
  assert (Hus : (length us < MAXUSERSEL)%nat) by (unfold us; rewrite length_take; unfold MAXUSERSEL; lia).
  change (take 0 old ++ us ++ drop (length us) old) with (us ++ drop (length us) old).
  rewrite Hset_at by done. cbn [mbind option_bind]. pose proof (userid_valid us old _ Ho Hus eq_refl) as Hv.
  clearbody us. destruct us as [|u us]; cbn [length Nat.eqb]; [|by eexists _, _].
  destruct (negb _); [|by eexists _, _].
  cbn [app]. rewrite arr_set_Some by (cbn; lia). cbn [mbind option_bind insert list_insert].
  destruct (drop 1 old) as [|y rest] eqn:E.
  { apply (f_equal length) in E. rewrite length_drop, Ho in E. cbn in E. unfold MAXUSERSEL in *. lia. }
  rewrite arr_set_Some by (cbn; lia). cbn [mbind option_bind insert list_insert]. eexists _, _. split; [done|].
  split; [|set_solver]. apply (f_equal length) in E. rewrite length_drop, Ho in E. cbn [length] in *.
  unfold MAXUSERSEL in *. lia.
Qed.

Lemma still_complain_if m k0 : still k0 (complain_if m k0).
Proof. destruct m; [apply still_quiet, quiet_complain | reflexivity]. Qed.

Lemma kept_select_user passwd regcomp : exists k', select_user rawreadflag passwd regcomp k = Some k' /\ kept_by_key k k'.
Proof.
  unfold select_user. pose proof (still_quiet _ _ (quiet_scanw (USERNAMESZ - 1) [] (stop_clock k))) as Q.
  destruct (scanw (USERNAMESZ - 1) [] (stop_clock k)) as [t k0]. cbn [snd] in Q.
  assert (Hk : still k k0) by (etransitivity; [exact still_stop | exact Q]).
  destruct (st_set _ _ Hk Hset) as [_ [[Hu _] Hl _]].
  destruct (select_userids_fits passwd regcomp t _ Hl Hu) as (userid & m & -> & Hl' & Hin).
  cbn [mbind option_bind]. eexists. split; [done|]. apply still_kept; [done|]. after quiet_restart.
  etransitivity; [|apply still_complain_if]. etransitivity; [exact Hk|].
  apply still_sel. intros [[? ?] ? ?]. by split; [split|..].
Qed.

(** The words fill places below the end of the array. *)
Lemma store_pids_fits words : forall id pid, length pid = MAXPID -> (id < MAXPID)%nat ->
  exists id' pid' m, store_pids words id pid = Some (id', pid', m) /\ (id' < MAXPID)%nat /\ length pid' = MAXPID.
Proof.
  assert (Hset_pid : forall pid id (v : Z), length pid = MAXPID -> (id < MAXPID)%nat ->
    exists pid', arr_set pid id v = Some pid' /\ length pid' = MAXPID).
  { intros pid id v Hl Hi. rewrite arr_set_Some by lia. eexists. split; [done|]. by rewrite length_insert. }
  induction words as [|w words IH]; intros id pid Hl Hi; cbn [store_pids]; [by exists id, pid, None|].
  destruct (Nat.leb_spec (MAXPID - 1) id) as [Hge|Hlt].
  { destruct (Hset_pid pid id 0 Hl Hi) as (pid' & -> & Hl'). cbn [mbind option_bind]. by eexists _, _, _. }
  match goal with |- context [let '(_, _) := ?x in _] => destruct x as [v ep] end.
  destruct (Hset_pid pid id (i32 v) Hl Hi) as (pid' & -> & Hl'). cbn [mbind option_bind].
  destruct ep; [apply IH; [done | unfold MAXPID in *; lia]|].
  destruct (Hset_pid pid' 0%nat 0 Hl' ltac:(unfold MAXPID; lia)) as (pid2 & -> & Hl2). cbn [mbind option_bind].
  by eexists _, _, _.
Qed.

(** Only the words of a line that was never typed are undefined. *)
Lemma kept_select_pids : match select_pids rawreadflag k with
  | Some k' => kept_by_key k k'
  | None => (scanw 79 [] (stop_clock k)).1 = [] /\ k.(keyst.genline) = None
  end.
Proof.
  assert (Eg : (scanw 79 [] (stop_clock k)).2.(keyst.genline) = k.(keyst.genline)).
  { unfold scanw. by destruct (keyst.answers _). }
  unfold select_pids. pose proof (still_quiet _ _ (quiet_scanw 79 [] (stop_clock k))) as Q.
  destruct (scanw 79 [] (stop_clock k)) as [t k0]. cbn [fst snd] in *.
  assert (Hk : still k k0) by (etransitivity; [exact still_stop | exact Q]).
  destruct (st_set _ _ Hk Hset) as [_ [_ _ Hp]].
  assert (Hline : match (match t with [] => k0.(keyst.genline) | _ => Some t end) with
    | None => t = [] /\ k.(keyst.genline) = None | Some _ => True end).
  { destruct t; [|done]. rewrite <-Eg. by destruct (keyst.genline k0). }
  destruct (match t with [] => k0.(keyst.genline) | _ => Some t end) as [line|]; [|exact Hline].
  cbn [mbind option_bind].
  destruct (store_pids_fits (strtok_words [] line) 0 _ Hp ltac:(unfold MAXPID; lia)) as (id & pid & m & -> & Hid & Hl).
  cbn [mbind option_bind]. rewrite arr_set_Some by lia. cbn [mbind option_bind]. apply still_kept; [done|].
  after quiet_restart. etransitivity; [|apply still_complain_if]. etransitivity; [exact Hk|].
  transitivity (put_genline (Some (strtok_left false line)) k0); [by apply still_quiet|].
  apply still_sel. intros [[Hu _] ? _]. split; [split; [done|] | done | cbn; by rewrite length_insert].
  apply list_elem_of_lookup. exists id. by apply list_lookup_insert_eq; lia.
Qed.
End asks.

(** ** Any key *)

Section key.
Context (supportflags : Z) (own colors : bool) (junk : Z * Z) (nlvm nmdd : Z).
Context (passwd : list (string * Z)) (regcomp : text -> option (string -> Z)) (kill : Z -> Z -> Z).

Lemma kept_ask_key c k k' : set_valid k.(keyst.set) -> 0 <= k.(keyst.firstproc) ->
  ask_key rawreadflag nlvm nmdd regcomp kill c k = Some k' -> kept_by_key k k'.
Proof.
  intros Hs Hf. unfold ask_key. intros H.
  repeat (case_match; [injection H as <-|]); [..|done].
  - by apply kept_kill_process.
  - by apply kept_change_interval.
  - apply kept_ask_name; [done|]. by intros n r p [[] ? ?].
  - by apply kept_select_container.
  - apply kept_ask_name; [done|]. by intros n r p [[] ? ?].
  - by apply kept_select_system.
  - by apply kept_change_limits.
Qed.

Lemma kept_sample_key c k a k' : set_valid k.(keyst.set) -> 0 <= k.(keyst.firstproc) ->
  sample_key rawreadflag junk c k = Some (a, k') -> kept_by_key k k'.
Proof.
  intros Hs Hf H. apply kept_quiet; [done | done|]. unfold sample_key in H.
  destruct (_ || _); [by injection H as _ <-|]. case_match; [|case_match; [|case_match; [|case_match; [|done]]]].
  - case_match; injection H as _ <-; [reflexivity | by apply quiet_act].
  - repeat case_match; injection H as _ <-; first [reflexivity | apply quiet_complain].
  - case_match; [injection H as _ <-; apply quiet_complain|]. case_match; [by injection H as _ <-|].
    pose proof (quiet_scanw 15 [] k) as Q. destruct (scanw 15 [] k) as [hhmm k1]. cbn [snd] in Q.
    etransitivity; [exact Q|]. destruct (hhmm2secs junk hhmm) as [rv b]. case_match; injection H as _ <-.
    + transitivity (complain "Wrong time format!" k1); [apply quiet_complain | by split].
    + by split.
  - injection H as _ <-. transitivity (put_act Getalarm k); [by apply quiet_act | by split].
Qed.

(** A key: the program ends with [MQUIT] only; the words of a line that was never
    typed are all that is undefined. *)
Lemma handle_key_kept lines cols c k : set_valid k.(keyst.set) -> 0 <= k.(keyst.firstproc) -> 0 <= k.(keyst.plistsz) ->
  match handle_key rawreadflag supportflags own colors junk nlvm nmdd passwd regcomp kill lines cols c k with
  | Some (Ret (_, k')) => kept_by_key k k'
  | Some (Exit code) => c = MQUIT /\ code = 0
  | None => c = MSELPID /\ (scanw 79 [] (stop_clock k)).1 = [] /\ k.(keyst.genline) = None
  end.
Proof.
  intros Hs Hf Hp. unfold handle_key.
  destruct (sample_key rawreadflag junk c k) as [[a k']|] eqn:E1; [by eapply kept_sample_key|].
  destruct (Z.eqb_spec c MQUIT); [done|].
  destruct (_ || _); [apply kept_quiet; auto|].
  destruct (c =? MSELUSER).
  { destruct (kept_select_user k Hs Hf passwd regcomp) as (k' & -> & Hk). exact Hk. }
  destruct (Z.eqb_spec c MSELPID) as [Ec|].
  { pose proof (kept_select_pids k Hs) as H. destruct (select_pids rawreadflag k); [exact H | done]. }
  cbn [lift]. unfold lift. destruct (first_key _ c k) as [k'|] eqn:E; [|by apply kept_quiet; [..|apply quiet_act]].
  cbn [default]. unfold plain_keys in E. cbn [first_key] in E.
  destruct (sort_key _ c k) eqn:E2; [injection E as <-; by eapply kept_sort_key|].
  destruct (type_key _ _ c k) eqn:E3; [injection E as <-; by eapply kept_type_key|].
  destruct (switch_key _ _ c k) eqn:E4; [injection E as <-; by eapply kept_switch_key|].
  destruct (scroll_key _ _ c k) eqn:E5; [injection E as <-; by eapply kept_scroll_key|].
  destruct (ask_key _ _ _ _ _ c k) eqn:E6; [injection E as <-; by eapply kept_ask_key | done].
Qed.
End key.

Lemma kept_leave_help k : set_valid k.(keyst.set) -> kept_by_key k (leave_help rawreadflag k).
Proof. intros Hs. apply kept_to_top; [done | apply quiet_restart]. Qed.
End facts.

(** ** Help *)

(** Keys while help is shown: the lines that they bring up, until one leaves it. *)
Fixpoint press (cs : list Z) (h : help) : option (list text * help) :=
  match cs with
  | [] => Some ([], h)
  | c :: cs => '(lines, h) ← help_key c h; '(more, h) ← press cs h; Some (lines ++ more, h)
  end.

(** The lines of the first page of a window, and those that a key asks for. *)
Definition first_page (w : Z) : nat := Z.to_nat (Z.max (w - 1) 2).
Definition key_lines (w c : Z) : nat := if c =? SPACE then Z.to_nat (Z.max (w - 1) 1) else 1.
Definition keys_lines (w : Z) (cs : list Z) : nat := sum_list (key_lines w <$> cs).

Lemma keys_lines_length w cs : (length cs <= keys_lines w cs)%nat.
Proof.
  unfold keys_lines. induction cs as [|c cs IH]; cbn [length fmap list_fmap sum_list sum_list_with]; [lia|].
  assert (1 <= key_lines w c)%nat by (unfold key_lines; destruct (c =? SPACE); lia). cbn in *. lia.
Qed.

(** The loop shows lines up to the first one at which the window is full and as
    many lines were shown as are wanted. *)
Lemma showhelp_loop_lines w rest : forall i shown tobeshown,
  let j := Z.to_nat (Z.max (w - 2 - i) (tobeshown - shown)) in
  showhelp_loop w i shown tobeshown rest =
  (help_line <$> take (S j) rest,
   if (length rest <=? j)%nat then HelpEnd else HelpPage w (i + Z.of_nat j) (drop (S j) rest)).
Proof.
  induction rest as [|e rest IH]; intros i shown tobeshown j; cbn [showhelp_loop length]; [done|].
  destruct (Z.leb_spec (w - 2) i) as [Hi|Hi]; destruct (Z.leb_spec tobeshown shown) as [Ht|Ht]; cbn [andb].
  1: { assert (Ej : j = O) by (unfold j; lia). rewrite Ej, Z.add_0_r. cbn. by destruct rest. }
  all: rewrite IH.
  all: assert (Ej : j = S (Z.to_nat (Z.max (w - 2 - (i + 1)) (tobeshown - (shown + 1))))) by (unfold j; lia).
  all: rewrite Ej; cbn [take drop fmap list_fmap Nat.leb].
  all: f_equal; destruct (_ <=? _)%nat; [done|]; f_equal; lia.
Qed.

(** The help behind some lines: it waits with the window full, or it ended. *)
Inductive help_at (w : Z) (n : nat) : help -> Prop :=
  | at_page i : w - 2 <= i -> (n <= length helptext)%nat -> help_at w n (HelpPage w i (drop n helptext))
  | at_end : (length helptext < n)%nat -> help_at w n HelpEnd.

Lemma help_key_lines w n c h : help_at w n h -> c ≠ MQUIT -> exists lines h',
  help_key c h = Some (lines, h') /\ help_at w (n + key_lines w c) h' /\
  lines = help_line <$> take (key_lines w c) (drop n helptext).
Proof.
  intros Hh Hc. unfold help_key. rewrite (proj2 (Z.eqb_neq c MQUIT)) by done. destruct Hh as [i Hi Hn|Hn].
  - rewrite showhelp_loop_lines. set (j := Z.to_nat _).
    assert (Ej : S j = key_lines w c) by (unfold j, key_lines; destruct (c =? SPACE); lia).
    rewrite Ej. eexists _, _. split; [done|]. split; [|done]. rewrite length_drop, drop_drop.
    destruct (Nat.leb_spec (length helptext - n) j); constructor; lia.
  - eexists _, _. split; [done|]. split; [constructor; lia|]. by rewrite drop_ge, take_nil by lia.
Qed.

Lemma press_lines w cs : forall n h, help_at w n h -> MQUIT ∉ cs -> exists more h',
  press cs h = Some (more, h') /\ help_at w (n + keys_lines w cs) h' /\
  more = help_line <$> take (keys_lines w cs) (drop n helptext).
Proof.
  induction cs as [|c cs IH]; intros n h Hh Hq.
  - exists [], h. split; [done|]. by rewrite Nat.add_0_r.
  - apply not_elem_of_cons in Hq as [Hc Hq]. cbn [press].
    destruct (help_key_lines w n c h Hh) as (lines & h1 & -> & H1 & ->); [congruence|]. cbn [mbind option_bind].
    destruct (IH _ h1 H1 Hq) as (more & h2 & -> & H2 & ->). cbn [mbind option_bind].
    change (keys_lines w (c :: cs)) with (key_lines w c + keys_lines w cs)%nat.
    eexists _, h2. split; [done|]. split; [by rewrite Nat.add_assoc|].
    rewrite <-fmap_app, <-drop_drop, take_take_drop. done.
Qed.

Lemma press_quits w n cs : forall h, help_at w n h -> MQUIT ∈ cs -> press cs h = None.
Proof.
  revert n. induction cs as [|c cs IH]; intros n h Hh Hin; [by apply not_elem_of_nil in Hin|]. cbn [press].
  destruct (decide (c = MQUIT)) as [->|Hc]; [done|]. apply elem_of_cons in Hin as [Hin|Hin]; [congruence|].
  destruct (help_key_lines w n c h Hh Hc) as (lines & h1 & -> & H1 & _). cbn [mbind option_bind].
  by rewrite (IH _ _ H1 Hin).
Qed.

Lemma showhelp_at lines helpline :
  let w := lines - helpline in
  (showhelp lines helpline).1 = help_line <$> take (first_page w) helptext /\
  help_at w (first_page w) (showhelp lines helpline).2.
Proof.
  unfold showhelp. rewrite showhelp_loop_lines. set (j := Z.to_nat _).
  assert (Ej : S j = first_page (lines - helpline)) by (unfold j, first_page; lia).
  rewrite Ej. split; [done|]. cbn [snd].
  destruct (Nat.leb_spec (length helptext) j); constructor; lia.
Qed.

(** C20: Help is paged: a window of [w] lines first shows [w - 1] lines (two in a
    window that is too small), the space key brings up the next [w - 1] lines
    (one at least) and any other key but [q] the next line; so the lines come up
    in their order, each once, exactly as far as was asked for, and the help is
    at its end exactly when more lines were asked for than there are. As many
    keys as there are lines reach the end; [q] leaves at once, and only it
    does. *)
Theorem help_paged lines helpline cs :
  let w := lines - helpline in
  let '(shown, h) := showhelp lines helpline in
  shown = help_line <$> take (first_page w) helptext /\
  (press cs h = None <-> MQUIT ∈ cs) /\
  forall more h', press cs h = Some (more, h') ->
    let n := (first_page w + keys_lines w cs)%nat in
    shown ++ more = help_line <$> take n helptext /\
    (h' = HelpEnd <-> (length helptext < n)%nat) /\
    ((length helptext <= length cs)%nat -> h' = HelpEnd).
Proof.
  intros w. destruct (showhelp_at lines helpline) as [E1 Hh]. destruct (showhelp lines helpline) as [shown h].
  cbn [fst snd] in *. fold w in E1, Hh. split; [done|]. split.
  { split; [intros HN | by apply (press_quits w (first_page w) cs h)]. destruct (decide (MQUIT ∈ cs)) as [|Hq]; [done|].
    destruct (press_lines w cs _ h Hh Hq) as (more & h' & HS & _). congruence. }
  intros more h' HS. set (n := (first_page w + keys_lines w cs)%nat). assert (Hq : MQUIT ∉ cs) by (intros Hq; rewrite (press_quits w _ cs h Hh Hq) in HS; done).
  destruct (press_lines w cs _ h Hh Hq) as (more' & h2 & HS' & Hat & ->). rewrite HS in HS'.
  injection HS' as -> <-. fold n in Hat.
  assert (Hend : h' = HelpEnd <-> (length helptext < n)%nat).
  { destruct Hat; split; try done; lia. }
  split; [rewrite E1, <-fmap_app, take_take_drop; done|]. split; [done|].
  intros Hlen. apply Hend. pose proof (keys_lines_length w cs). unfold n, first_page. lia.
Qed.

(** ** The keys at work *)

(** A question about PIDs that is answered with Enter, for no selection, selects
    those that were typed before. *)
Definition some_keyst (s : showset) (genline : option text) (answers : list string) : keyst :=
  keyst.mk s (sselection.mk 0 (fun _ => 0) 0 (fun _ => 0) 0 (fun _ => 0)) false 0 0 10 0 genline None 0 0 0
    (chars <$> answers) [].

Definition full_selection : pselection.pselection :=
  pselection.mk (USERSTUB :: replicate 63 0) (replicate 32 0) 0 (fun _ => 0) 0 (fun _ => 0) EmptyString.
Definition full_set : showset := set_procsel full_selection default_set.

Definition selected_pids (k : keyst) : list Z := take 3 k.(keyst.set).(showset.procsel).(pselection.pid).

Lemma enter_selects_pids :
  let typed := select_pids false (some_keyst full_set None ["7,8"%string]) in
  let entered := k ← typed; select_pids false (put_answers [[]] k) in
  selected_pids <$> typed = Some [7; 8; 0] /\ selected_pids <$> entered = Some [7; 0; 0].
Proof. vm_compute. split; reflexivity. Qed.

(** A number that an [int] does not hold is a process group. *)
Lemma kill_signals_group :
  (kill_process false (fun _ _ => 0) (some_keyst full_set None ["4294966296"; "9"]%string)).(keyst.acts) =
  [Alarm 0; Kill (-1000) 9; Alarm 3].
Proof. by vm_compute. Qed.

(** Without a timer a signal starts one. *)
Lemma kill_starts_timer :
  (kill_process false (fun _ _ => 0) (put_interval 0 (some_keyst full_set None ["12"; "9"]%string))).(keyst.acts) =
  [Alarm 0; Kill 12 9; Alarm 3].
Proof. by vm_compute. Qed.

(** A longer identification is cut. *)
Lemma container_cut : container_of (chars "0123456789abzz") = inl "0123456789ab"%string.
Proof. by vm_compute. Qed.

(** The space key pages through a window of 24 lines: 21 lines with each key. *)
Lemma help_paged_witness :
  (showhelp 24 2).1 = help_line <$> take 21 helptext /\
  (exists more h', press [SPACE; 65] (showhelp 24 2).2 = Some (more, h') /\
     (showhelp 24 2).1 ++ more = help_line <$> take 43 helptext /\ h' ≠ HelpEnd) /\
  exists more, press [SPACE; SPACE; SPACE] (showhelp 24 2).2 = Some (more, HelpEnd) /\
     (showhelp 24 2).1 ++ more = help_line <$> helptext.
Proof.
  assert (H := fun cs => help_paged 24 2 cs). destruct (showhelp 24 2) as [shown h]. cbn [fst snd].
  destruct (H []) as [E _]. split; [exact E|]. clear E.
  assert (HS : forall cs, Forall (fun c => c ≠ MQUIT) cs -> exists more h', press cs h = Some (more, h')).
  { intros cs Hc. destruct (H cs) as (_ & Hq & _). destruct (press cs h) as [[more h']|]; [by exists more, h'|].
    pose proof (proj1 (Forall_forall _ _) Hc _ (proj1 Hq eq_refl)). done. }
  split.
  - destruct (HS [SPACE; 65]) as (more & h' & Ep); [by repeat constructor|]. exists more, h'. split; [exact Ep|].
    destruct (H [SPACE; 65]) as (_ & _ & H3). destruct (H3 more h' Ep) as (Ea & He & _). split; [exact Ea|].
    intros Eh. pose proof (proj1 He Eh) as Hl. apply Nat.ltb_lt in Hl. vm_compute in Hl. discriminate Hl.
  - destruct (HS [SPACE; SPACE; SPACE]) as (more & h' & Ep); [by repeat constructor|]. exists more.
    destruct (H [SPACE; SPACE; SPACE]) as (_ & _ & H3). destruct (H3 more h' Ep) as (Ea & He & _).
    rewrite (proj2 He) in Ep by (apply Nat.ltb_lt; vm_compute; reflexivity). split; [exact Ep|].
    rewrite take_ge in Ea by (apply Nat.leb_le; vm_compute; reflexivity). exact Ea.
Defined.
