(* ===== verification/ShowviewFacts.v ===== *)
(** * The interactive display stays inside its lists

    Whatever keys are pressed and whatever is answered, the list of a view is
    shown from one of its tasks on: keys that change what is in the list go to
    its top, the others leave the number of its entries as it is, although it is
    made anew, sorted in place and joined with threads for every view. *)
From Stdlib Require Import Ascii Sorted.
From S2P Require Import Prelude Format Printf Sscanf Tstat Netatopif Photoproc Compar Cumulate CumFacts Various Showline Prihead Parseable Rawlog RawlogMain PrisystFacts Showgeneric ShowgenericFacts Showkeys ShowkeysFacts.

(** ** The arrays of pointers *)

(** The sample as [listed], with arrays that may have been sorted. *)
Record arrays (gs : list group) (d : rawtasks tstat.tstat) : Prop := {
  ar_tasks : d.(rawtasks.taskall) = flat_map tasks gs;
  ar_all : d.(rawtasks.procall) ≡ₚ (looked_at false gs).*1;
  ar_nall : d.(rawtasks.nprocall) = Z.of_nat (length d.(rawtasks.procall));
  ar_active : d.(rawtasks.procactive) ≡ₚ (looked_at true gs).*1;
  ar_nactive : d.(rawtasks.nprocactive) = Z.of_nat (length d.(rawtasks.procactive));
  ar_ntask : d.(rawtasks.ntaskactive) = Z.of_nat (length (indices active 0 d.(rawtasks.taskall)))
}.

Lemma listed_arrays gs d : listed d gs -> arrays gs d.
Proof.
  intros [Ht Hok _ Hall Hnall Hact Hnact Hn]. split; try done.
  - rewrite Hall, Ht. unfold looked_at. cbn [negb orb]. rewrite <-(indices_starts (fun _ => true) gs Hok).
    apply Permutation_refl', indices_ext. intros t. by rewrite andb_true_r.
  - rewrite Hact, Ht. by rewrite (indices_starts active gs Hok).
Qed.

Lemma fetch_arrays gs d (a : bool) : arrays gs d ->
  exists M, M ≡ₚ looked_at a gs /\ fetch_procs a d = Some (entry_of <$> M) /\
    (if a then d.(rawtasks.procactive) else d.(rawtasks.procall)) = M.*1.
Proof.
  intros [Ht Hall Hnall Hact Hnact _].
  assert (HP : (if a then d.(rawtasks.procactive) else d.(rawtasks.procall)) ≡ₚ (looked_at a gs).*1) by by destruct a.
  destruct (Permutation_map_inv fst _ HP) as (M & E & HM). symmetry in HM. exists M.
  split; [done|]. split; [|exact E].
  assert (Hin : forall e, e ∈ M -> e ∈ starts 0 gs).
  { intros e He. rewrite HM in He. by eapply looked_at_starts. }
  unfold fetch_procs. rewrite Ht, Hnall, Hnact. destruct a; rewrite E; by apply fetch_starts.
Qed.

(** Sorted pointers in their old places. *)
Lemma put_procs_arrays gs v (a : bool) M : arrays gs v.(viewst.tasks) -> M ≡ₚ looked_at a gs ->
  arrays gs (put_procs a (entry_of <$> M).*1 v).(viewst.tasks).
Proof.
  intros [Ht Hall Hnall Hact Hnact Hn] HM.
  assert (E : (entry_of <$> M).*1 = M.*1) by (rewrite <-list_fmap_compose; by apply list_fmap_ext).
  rewrite E. assert (HP : M.*1 ≡ₚ (looked_at a gs).*1) by by apply fmap_Permutation.
  assert (Hd : forall old, old ≡ₚ (looked_at a gs).*1 -> M.*1 ++ drop (length M.*1) old = M.*1).
  { intros old Ho. rewrite drop_ge, app_nil_r; [done|]. by rewrite HP, Ho. }
  destruct a; split; cbn; rewrite ?Hd by done; try done.
  - rewrite HP, <-Hact. exact Hnact.
  - rewrite HP, <-Hall. exact Hnall.
Qed.

(** ** How many entries a list has *)

Section view.
Context {Q : QSort}.
Implicit Types (s : showset) (v : viewst) (k : keyst) (gs : list group).

(** The processes that are accumulated, and the keys that occur among them. *)
Definition cum_source s gs : list tstat.tstat :=
  (filter (fun g : group => negb s.(showset.deviatonly) || active g.1 = true) gs).*1.
Definition cum_size {K} `{EqDecision K} (key : tgen.tgen -> K) s gs : nat :=
  length (remove_dups (keyof key <$> pick s.(showset.procsel) s.(showset.suppressexit) (cum_source s gs))).

Definition shown_groups s gs : list group := filter (fun g => group_wanted s g = true) gs.

(** The entries of the list that the settings ask for. *)
Definition list_size s gs : nat :=
  if s.(showset.showtype) =? MCUMUSER then cum_size tgen.ruid s gs
  else if s.(showset.showtype) =? MCUMPROC then cum_size tgen.name s gs
  else if s.(showset.showtype) =? MCUMCONT then cum_size tgen.container s gs
  else length (flat_map (group_view s.(showset.threadview) (only_active s)) (shown_groups s gs)).

Lemma list_size_sizing s s' gs : sizing s = sizing s' -> list_size s gs = list_size s' gs.
Proof.
  unfold sizing. intros [= E1 E2 E3 E4 E5 E6].
  assert (Eo : only_active s = only_active s') by (unfold only_active; by rewrite E1, E2, E4).
  unfold list_size, cum_size, cum_source, shown_groups, group_wanted, wanted_task.
  by rewrite E1, E3, E4, E5, E6, Eo.
Qed.

(** *** Accumulated lists *)

Lemma pick_perm sel out l l' : l ≡ₚ l' -> pick sel out l ≡ₚ pick sel out l'.
Proof.
  unfold pick. induction 1 as [| x l l' _ IH | x y l | l1 l2 l3 _ IH1 _ IH2]; cbn [List.filter].
  - done.
  - case_match; [by rewrite IH | done].
  - repeat case_match; try done. constructor.
  - by rewrite IH1.
Qed.

Lemma grouped_size {K} `{EqDecision K} (key : tgen.tgen -> K) sel out procs procs' num users :
  procs ≡ₚ procs' -> grouped sel out key procs num users ->
  length (take (Z.to_nat num) users) = length (remove_dups (keyof key <$> pick sel out procs')).
Proof.
  intros HP (ks & Hnd & -> & Hks & Hus). rewrite Nat2Z.id.
  assert (Hlen : (length ks <= length users)%nat).
  { destruct (decide (length ks = 0%nat)); [lia|].
    destruct (lookup_lt_is_Some_2 ks (length ks - 1)) as [x Hx]; [lia|].
    destruct (Hus _ _ Hx) as (t & Ht & _). apply lookup_lt_Some in Ht. lia. }
  rewrite length_take_le by done. apply Permutation_length, NoDup_Permutation; [done | apply NoDup_remove_dups|].
  intros x. rewrite Hks, elem_of_remove_dups, <-(pick_perm sel out _ _ HP). rewrite list_elem_of_fmap.
  split; intros (p & H1 & H2); exists p; by split.
Qed.

(** What is accumulated: the conditions of [cum_all]. *)
Definition cum_key {K} `{EqDecision K} (key : tgen.tgen -> K) (set_key : K -> tgen.tgen -> tgen.tgen)
    (cmp : tstat.tstat -> tstat.tstat -> Z) : Prop :=
  (forall x g, key (set_key x g) = x) /\ (forall x g, (set_key x g).(tgen.pid) = g.(tgen.pid)) /\
  (forall x g, (set_key x g).(tgen.nthr) = g.(tgen.nthr)) /\ (forall p g, key (acc_gen p g) = key g) /\
  set_key (key tgen_zero) tgen_zero = tgen_zero /\
  forall p q, cmp p q = 0 <-> key p.(tstat.gen) = key q.(tstat.gen).

Lemma cum_view_size {K} `{EqDecision K} (key : tgen.tgen -> K) set_key cmp `{!Comparator cmp} s v gs :
  cum_key key set_key cmp -> arrays gs v.(viewst.tasks) -> sel_ok s.(showset.procsel) ->
  cum_source s gs ≠ [] -> Z.of_nat (length gs) < 2 ^ 31 ->
  exists l d, cum_view key set_key cmp s v = Some (l, put_tasks d v) /\ length l = cum_size key s gs /\ arrays gs d.
Proof.
  intros (K1 & K2 & K3 & K4 & K5 & K6) HA HS Hne Hlen. unfold cum_view.
  destruct (fetch_arrays gs v.(viewst.tasks) s.(showset.deviatonly) HA) as (M & HM & -> & _).
  cbn [mbind option_bind]. set (byc := fun a b : entry => cmp a.2 b.2).
  assert (HC : Comparator byc) by exact (on_comparator snd cmp).
  destruct (Permutation_map_inv entry_of M (qsort_perm byc (entry_of <$> M) HC)) as (M' & E & HM').
  symmetry in HM'. change (qsort byc (entry_of <$> M) = entry_of <$> M') in E.
  pose proof (qsort_sorted byc (entry_of <$> M) HC) as HSo.
  change (StronglySorted (fun a b => byc a b <= 0) (qsort byc (entry_of <$> M))) in HSo. rewrite E in HSo. cbv zeta.
  match goal with |- context [qsort ?c ?l] => change (qsort c l) with (qsort byc (entry_of <$> M)) end. rewrite E.
  set (procs := (entry_of <$> M').*2).
  assert (HP : procs ≡ₚ cum_source s gs).
  { unfold procs, cum_source. rewrite HM', HM. unfold looked_at.
    rewrite <-(filter_starts (fun g => negb s.(showset.deviatonly) || active g.1) 0 gs), <-!list_fmap_compose.
    by apply Permutation_refl', list_fmap_ext. }
  assert (HSp : StronglySorted (fun a b => cmp a b <= 0) procs).
  { unfold procs. revert HSo. generalize (entry_of <$> M'). intros l Hl.
    induction Hl as [|e l _ IH HF]; [constructor|]. rewrite fmap_cons. constructor; [exact IH|]. by apply Forall_fmap. }
  assert (Hpl : (length procs <= length gs)%nat).
  { rewrite HP. unfold cum_source. rewrite length_fmap. apply length_filter. }
  assert (Hrl : length (replicate (length (entry_of <$> M')) tstat_zero) = length procs).
  { unfold procs. rewrite length_replicate. symmetry. apply length_fmap. }
  destruct (cum_all s.(showset.procsel) s.(showset.suppressexit) HS key set_key K1 K2 K3 K4 K5 cmp K6
    (replicate (length (entry_of <$> M')) tstat_zero) procs) as (c & num & users & E1 & E2 & HG).
  - intros i Hi. rewrite length_replicate in Hi. by apply lookup_replicate_2.
  - rewrite Hrl. lia.
  - rewrite Hrl. destruct procs; [|cbn; lia]. by apply Permutation_nil in HP.
  - by rewrite Hrl.
  - exact HSp.
  - fold procs. rewrite E1. cbn [mbind option_bind]. rewrite E2. cbn [mbind option_bind].
    eexists _, _. split; [reflexivity|]. rewrite length_imap. split; [by eapply grouped_size|].
    apply put_procs_arrays; [done | by rewrite HM'].
Qed.

(** *** Lists of tasks *)

(** A sample: threads are active only with their process, and a process is. *)
Record sample_fit gs : Prop := {
  so_groups : Forall group_ok gs;
  so_apart : apart gs;
  so_threads : Forall (fun g : group => active g.1 = false -> Forall (fun t => active t = false) g.2) gs;
  so_active : Exists (fun g : group => active g.1 = true) gs;
  so_number : Z.of_nat (length gs) < 2 ^ 31
}.

Lemma cum_source_some s gs : sample_fit gs -> cum_source s gs ≠ [].
Proof.
  intros [_ _ _ (g & Hg & Ha)%Exists_exists _] E. unfold cum_source in E. apply fmap_nil_inv in E.
  assert (H : g ∈ filter (fun g : group => negb s.(showset.deviatonly) || active g.1 = true) gs).
  { apply list_elem_of_filter. split; [rewrite Ha; by destruct (showset.deviatonly s) | done]. }
  rewrite E in H. by apply not_elem_of_nil in H.
Qed.

(** The places of the groups that are shown. *)
Definition wanted_starts s gs : list (nat * group) :=
  filter (fun e : nat * group => group_wanted s e.2 = true) (starts 0 gs).

Lemma select_looked_at s gs (M : list (nat * group)) : M ≡ₚ looked_at (only_active s) gs ->
  filter (fun e : nat * group => wanted_task s e.2.1 = true) M ≡ₚ wanted_starts s gs.
Proof.
  intros ->. unfold looked_at, wanted_starts, group_wanted. apply Permutation_refl'.
  generalize (starts 0 gs). intros l. induction l as [|e l IH]; [done|].
  rewrite !filter_cons. destruct (negb (only_active s) || active e.2.1) eqn:E1; cbn [andb].
  - rewrite (decide_True (P := true = true)) by done. case_decide; [f_equal|]; exact IH.
  - rewrite !(decide_False (P := false = true)) by done. exact IH.
Qed.

Lemma all_wanted s (M : list (nat * group)) : (forall t, wanted_task s t = true) ->
  filter (fun e : nat * group => wanted_task s e.2.1 = true) M = M.
Proof.
  intros H. induction M as [|e M IH]; [done|]. rewrite filter_cons, IH. by rewrite decide_True by apply H.
Qed.

Lemma select_entries s (M : list (nat * group)) : sel_ok s.(showset.procsel) ->
  select_tasks s (entry_of <$> M) = Some (entry_of <$> filter (fun e : nat * group => wanted_task s e.2.1 = true) M).
Proof.
  intros HS. rewrite select_tasks_spec by done. f_equal. induction M as [|e M IH]; [done|].
  change (entry_of <$> e :: M) with (entry_of e :: (entry_of <$> M)).
  rewrite (filter_cons _ (entry_of e)), (filter_cons _ e).
  case_decide as D1; case_decide as D2; [|destruct (D2 D1) | destruct (D1 D2) | exact IH].
  change (entry_of <$> e :: ?l) with (entry_of e :: (entry_of <$> l)). f_equal. exact IH.
Qed.

(** The list of tasks in some order: all that are looked at, or a selection. *)
Record task_list s gs (kind : listkind) (M : list (nat * group)) : Prop := {
  tl_wanted : M ≡ₚ wanted_starts s gs;
  tl_kind : kind = Selected \/ (kind = Listed (only_active s) /\ M ≡ₚ looked_at (only_active s) gs)
}.

Lemma view_list_spec s v gs : sample_fit gs -> arrays gs v.(viewst.tasks) -> sel_ok s.(showset.procsel) ->
  (exists l d, view_list s v = Some (Cumulated, l, put_tasks d v) /\ arrays gs d /\ length l = list_size s gs) \/
  (exists kind M, view_list s v = Some (kind, entry_of <$> M, v) /\ task_list s gs kind M /\
     list_size s gs = length (flat_map (group_view s.(showset.threadview) (only_active s)) (shown_groups s gs))).
Proof.
  intros Hgs HA HS. pose proof (cum_source_some s gs Hgs) as Hne. pose proof (so_number _ Hgs) as Hlen.
  unfold view_list, list_size.
  destruct (_ =? MCUMUSER).
  { left. destruct (cum_view_size tgen.ruid set_ruid compusr s v gs) as (l & d & -> & El & HA'); try done.
    { unfold cum_key. split_and!; try done. apply compusr_key. } by exists l, d. }
  destruct (_ =? MCUMPROC).
  { left. destruct (cum_view_size tgen.name set_name compnam s v gs) as (l & d & -> & El & HA'); try done.
    { unfold cum_key. split_and!; try done. apply compnam_key. } by exists l, d. }
  destruct (_ =? MCUMCONT).
  { left. destruct (cum_view_size tgen.container set_container compcon s v gs) as (l & d & -> & El & HA'); try done.
    { unfold cum_key. split_and!; try done. apply compcon_key. } by exists l, d. }
  right. destruct (fetch_arrays gs v.(viewst.tasks) (only_active s) HA) as (M & HM & -> & _). cbn [mbind option_bind].
  destruct (no_selection_all s HS) as (b & -> & Hb). cbn [mbind option_bind]. destruct b.
  - exists (Listed (only_active s)), M. split; [done|]. split; [|done]. split; [|by right].
    rewrite <-(select_looked_at s gs M HM). by rewrite all_wanted by auto.
  - rewrite select_entries by done. cbn [mbind option_bind].
    eexists Selected, _. split; [reflexivity|]. split; [|done]. split; [by apply select_looked_at | by left].
Qed.

(** *** Threads *)

(** The number of tasks for which there is room. *)
Definition ntotal (a : bool) (d : rawtasks tstat.tstat) : Z :=
  if a then d.(rawtasks.ntaskactive) else Z.of_nat (length d.(rawtasks.taskall)).

Lemma ntotal_groups (a : bool) gs d : arrays gs d ->
  Z.to_nat (ntotal a d) = if a then length (flat_map (fun g => filter (fun t => active t = true) (tasks g)) gs)
                          else length (flat_map tasks gs).
Proof. intros [Ht _ _ _ _ Hn]. unfold ntotal. destruct a; rewrite ?Hn, Ht, ?active_length; lia. Qed.

(** All tasks that count are listed with their threads. *)
Lemma view_full (a : bool) gs : sample_fit gs ->
  length (flat_map (group_view true a) (filter (fun g : group => negb a || active g.1 = true) gs)) =
  if a then length (flat_map (fun g => filter (fun t => active t = true) (tasks g)) gs) else length (flat_map tasks gs).
Proof.
  intros [_ _ Hth _ _]. induction Hth as [|g gs Hg _ IH]; [by destruct a|].
  rewrite filter_cons. destruct a; cbn [negb orb] in *.
  - cbn [flat_map]. rewrite (length_app (filter _ (tasks g))), <-IH. unfold tasks at 1. rewrite filter_cons.
    destruct (active g.1) eqn:Ea.
    + rewrite !(decide_True (P := true = true)) by done. cbn [flat_map]. rewrite length_app. done.
    + rewrite !(decide_False (P := false = true)) by done.
      specialize (Hg eq_refl). clear -Hg. induction Hg as [|t l Ht _ IH]; [done|].
      by rewrite filter_cons, decide_False by (by rewrite Ht).
  - rewrite decide_True by done. cbn [flat_map]. rewrite !length_app, IH. f_equal.
    unfold group_view, tasks. cbn [length]. f_equal. clear. induction g.2 as [|t l IH]; [done|].
    rewrite filter_cons, decide_True by done. cbn [length]. by rewrite IH.
Qed.

Lemma shown_starts s gs (M : list (nat * group)) : M ≡ₚ wanted_starts s gs -> M.*2 ≡ₚ shown_groups s gs.
Proof. intros ->. apply Permutation_refl'. apply (filter_starts (group_wanted s)). Qed.

Lemma zip_length s gs M : sample_fit gs -> M ≡ₚ wanted_starts s gs ->
  length (flat_map (zip_entry (only_active s) (flat_map tasks gs)) (entry_of <$> M)) =
  length (flat_map (group_view true (only_active s)) (shown_groups s gs)).
Proof.
  intros [Hok Hap _ _ _] HM. rewrite <-(shown_starts s gs M HM). apply (f_equal length), zip_list; [done | done|].
  apply Forall_forall. intros e He. rewrite HM in He. by apply list_elem_of_filter in He as [_ He].
Qed.

Lemma zip_fits s gs d : arrays gs d ->
  (length (flat_map (group_view true (only_active s)) (shown_groups s gs)) <= Z.to_nat (ntotal (only_active s) d))%nat.
Proof. intros HA. rewrite (ntotal_groups _ gs d HA). apply view_length. Qed.

(** The places of the room are all initialised. *)
Definition all_filled (v : viewst) : Prop := forall room, v.(viewst.tsklist) = Some room -> Forall is_Some room.

Lemma take_room room : Forall is_Some room -> exists l : list tstat.tstat, mapM id room = Some l /\ length l = length room.
Proof.
  intros HF. destruct (mapM_is_Some_2 id room) as [l E]; [done|]. exists l. split; [done|].
  symmetry. by eapply length_mapM.
Qed.

Lemma zip_room_spec s v : let '(room, again) := zip_room s v in
  Z.of_nat (length room) = Z.max 0 (ntotal (only_active s) v.(viewst.tasks)) /\
  (again = false -> v.(viewst.zipagain) = false /\ v.(viewst.tsklist) = Some room).
Proof.
  unfold zip_room. fold (ntotal (only_active s) v.(viewst.tasks)).
  destruct v.(viewst.tsklist) as [room|] eqn:E; [|split; [rewrite length_replicate; lia | done]].
  destruct (_ && _) eqn:Eb; [|split; [rewrite length_replicate; lia | done]].
  apply andb_true_iff in Eb as [Eb%Z.eqb_eq _]. split; [lia | by intros ->].
Qed.

Lemma zip_view_spec s v gs kind M : sample_fit gs -> arrays gs v.(viewst.tasks) -> task_list s gs kind M ->
  (v.(viewst.zipagain) = false -> kind ≠ Selected /\ all_filled v) ->
  exists l v', zip_view s (entry_of <$> M) v = Some (l, v') /\ v'.(viewst.tasks) = v.(viewst.tasks) /\
    length l = length (flat_map (group_view true (only_active s)) (shown_groups s gs)) /\
    (kind ≠ Selected -> all_filled v').
Proof.
  intros Hgs HA [HM Hk] Hz. pose proof (zip_room_spec s v) as Hr. unfold zip_view.
  destruct (zip_room s v) as [room again]. destruct Hr as [Hlen Hag].
  pose proof (zip_length s gs M Hgs HM) as Hzl. pose proof (zip_fits s gs _ HA) as Hfit.
  assert (Hfull : kind ≠ Selected -> length (flat_map (group_view true (only_active s)) (shown_groups s gs)) = length room).
  { intros Hne. destruct Hk as [?|[_ HL]]; [done|].
    rewrite <-(shown_starts s gs M HM), HL. unfold looked_at.
    rewrite (filter_starts (fun g => negb (only_active s) || active g.1) 0 gs).
    rewrite view_full, <-(ntotal_groups _ gs _ HA) by done. lia. }
  destruct again.
  - rewrite (ar_tasks _ _ HA) in *. rewrite (proj2 (Nat.leb_le _ _)) by lia.
    eexists _, _. split; [reflexivity|]. split; [done|]. split; [done|]. intros Hne room' [= <-].
    rewrite drop_ge, app_nil_r by (rewrite Hzl, Hfull; done). apply Forall_fmap, Forall_forall.
    intros t _. by eexists.
  - destruct (Hag eq_refl) as [Ea Et]. destruct (Hz Ea) as [Hne Hfi]. pose proof (Hfi _ Et) as HF.
    destruct (take_room room HF) as (l & -> & El). cbn [mbind option_bind].
    eexists _, _. split; [reflexivity|]. split; [done|]. split; [by rewrite El, Hfull|]. intros _ room' [= <-]. done.
Qed.

(** *** Order *)

Lemma sort_order_cmp o : o ∈ sort_orders -> o ≠ 0 /\ exists cmp, procsort o = Some cmp /\ Comparator cmp.
Proof.
  intros Ho. unfold sort_orders in Ho.
  assert (exists cmp, procsort o = Some cmp) as [cmp E].
  { repeat (apply elem_of_cons in Ho as [->|Ho]; [by eexists|]). by apply not_elem_of_nil in Ho. }
  split; [intros ->; discriminate E|]. exists cmp. split; [done | by eapply procsort_comparator].
Qed.

Lemma sort_entries_perm (cmp : tstat.tstat -> tstat.tstat -> Z) `{!Comparator cmp} (M : list (nat * group)) :
  exists M', qsort (fun a b : entry => cmp a.2 b.2) (entry_of <$> M) = entry_of <$> M' /\ M' ≡ₚ M.
Proof.
  assert (HC : Comparator (fun a b : entry => cmp a.2 b.2)) by exact (on_comparator snd cmp).
  destruct (Permutation_map_inv entry_of M (qsort_perm _ (entry_of <$> M) HC)) as (M' & E & HM').
  by exists M'.
Qed.

Lemma task_list_perm s gs kind M M' : M' ≡ₚ M -> task_list s gs kind M -> task_list s gs kind M'.
Proof. intros HM [H1 H2]. split; [by rewrite HM|]. destruct H2 as [?|[? ?]]; [by left | right; by rewrite HM]. Qed.

Lemma sort_tasks s gs kind o tl M v : o ∈ sort_orders -> task_list s gs kind M -> arrays gs v.(viewst.tasks) ->
  (kind = Selected -> tl = 0) ->
  exists M' tl' v', sort_view kind o tl (entry_of <$> M) v = Some (entry_of <$> M', tl', v') /\
    task_list s gs kind M' /\ arrays gs v'.(viewst.tasks) /\ (kind = Selected -> tl' = 0) /\
    ((v' = v /\ tl' = tl /\ kind ≠ Selected /\ tl ≠ 0) \/ v'.(viewst.zipagain) = true).
Proof.
  intros Ho HT HA Htl. destruct (sort_order_cmp o Ho) as (Hne & cmp & Hcmp & HC). unfold sort_view.
  destruct (sort_entries_perm cmp M) as (M' & E & HM). pose proof (task_list_perm _ _ _ _ _ HM HT) as HT'.
  destruct (Z.eqb_spec (match kind with Listed _ => tl | _ => 0 end) o) as [Eo|Eo].
  - exists M, tl, v. split; [done|]. split; [done|]. split; [done|]. split; [done|]. left.
    destruct (tl_kind _ _ _ _ HT) as [->|[-> _]]; [by rewrite <-Eo in Hne | by subst].
  - rewrite Hcmp. cbn [mbind option_bind]. rewrite E.
    destruct (tl_kind _ _ _ _ HT) as [->|[-> HL]].
    + eexists M', tl, _. split; [done|]. split; [done|]. split; [exact HA|]. split; [done | by right].
    + eexists M', o, _. split; [done|]. split; [done|]. split; [|by split; [|right]].
      apply (put_procs_arrays gs (put_zipagain true v)); [done | by rewrite HM].
Qed.

Lemma sort_cumulated o tl l v : o ∈ sort_orders ->
  exists l', sort_view Cumulated o tl l v = Some (l', tl, put_zipagain true v) /\ length l' = length l.
Proof.
  intros Ho. destruct (sort_order_cmp o Ho) as (Hne & cmp & Hcmp & HC). unfold sort_view.
  rewrite (proj2 (Z.eqb_neq 0 o)) by congruence. rewrite Hcmp. cbn [mbind option_bind].
  eexists. split; [done|]. apply Permutation_length, qsort_perm. exact (on_comparator snd cmp).
Qed.

(** *** A view *)

Context (rawreadflag : bool) (supportflags nexit noverflow flags : Z).

Lemma head_type_spec s o v : let '(s', _, v') := head_type supportflags s o v in
  (s' = s \/ (s.(showset.showtype) = MPROCNET /\ s' = set_type MPROCGEN s)) /\
  v'.(viewst.tasks) = v.(viewst.tasks) /\ v'.(viewst.tsklist) = v.(viewst.tsklist) /\
  v'.(viewst.zipagain) = v.(viewst.zipagain).
Proof.
  unfold head_type. destruct (_ || _); [|by auto].
  destruct (Z.eqb_spec s.(showset.showtype) MPROCNET); cbn [andb]; [|by auto].
  destruct (negb _); [|by auto]. split; [by right | done].
Qed.

Lemma determine_layout_prev pid_max st st' : determine_layout pid_max st = Ret st' ->
  st'.(layout.prev_supportflags) = st.(layout.prev_supportflags) /\
  st'.(layout.prev_threadview) = st.(layout.prev_threadview).
Proof.
  unfold determine_layout. destruct (layout.firsttime st); [|by intros [= <-]]. cbv zeta. intros H.
  repeat match type of H with mbind _ ?b = _ => destruct b; cbn [mbind exitor_bind] in H; [discriminate H|] end.
  by injection H as <-.
Qed.

(** That is what [priphead] does to them. *)
Lemma head_type_priphead pid_max linelen st s o auto st' t' o' out v :
  v.(viewst.prev_supportflags) = st.(layout.prev_supportflags) ->
  v.(viewst.prev_threadview) = st.(layout.prev_threadview) ->
  priphead pid_max supportflags (c_bool s.(showset.threadview)) linelen st s.(showset.showtype) o auto =
    Some (Ret (st', t', o', out)) ->
  let '(s', curorder, v') := head_type supportflags s o v in
  s'.(showset.showtype) = t' /\ curorder = o' /\
  v'.(viewst.prev_supportflags) = st'.(layout.prev_supportflags) /\
  v'.(viewst.prev_threadview) = st'.(layout.prev_threadview).
Proof.
  intros E1 E2 H. unfold priphead in H. unfold head_type. rewrite E1, E2.
  destruct (determine_layout pid_max st) as [c|st1] eqn:Ed; [discriminate H|].
  apply determine_layout_prev in Ed as [F1 F2]. rewrite <-F1, <-F2 in *. cbn [mbind option_bind run_bind] in H.
  destruct (_ || _); cbn [andb] in H.
  - destruct (make_proc_dynamicgen _ _) as [[|genprocs]|]; [discriminate H | | discriminate H].
    cbn [mbind option_bind run_bind mret run_ret] in H.
    destruct ((showset.showtype s =? MPROCNET) && _); cbn [fst snd] in *.
    all: match type of H with match ?r with _ => _ end = _ => destruct r; [|by injection H as <- <- <- <-] end.
    all: match type of H with context [may_fault ?r] => destruct r as [[[? ?] ?]|]; [|discriminate H] end.
    all: by injection H as <- <- <- <-.
  - cbn [mbind option_bind run_bind mret run_ret] in H.
    match type of H with match ?r with _ => _ end = _ => destruct r; [|by injection H as <- <- <- <-] end.
    match type of H with context [may_fault ?r] => destruct r as [[[? ?] ?]|]; [|discriminate H] end.
    by injection H as <- <- <- <-.
Qed.

(** The list for the network figures and the general one have the same tasks. *)
Lemma network_size s gs : s.(showset.showtype) = MPROCNET -> list_size (set_type MPROCGEN s) gs = list_size s gs.
Proof.
  intros E. assert (Eo : only_active (set_type MPROCGEN s) = only_active s) by (unfold only_active; by rewrite E).
  unfold list_size, cum_size, cum_source, shown_groups, group_wanted, wanted_task. rewrite Eo. by rewrite E.
Qed.

(** The order of the arrays is known, or the list with threads is made anew or
    has all its places. *)
Definition room_known k v : Prop := v.(viewst.zipagain) = false -> k.(keyst.tlastorder) ≠ 0 -> all_filled v.

(** The state between views. *)
Record at_rest gs k v : Prop := {
  re_arrays : arrays gs v.(viewst.tasks);
  re_room : room_known k v;
  re_set : set_valid k.(keyst.set);
  re_acts : acts_ok rawreadflag k;
  re_first : 0 <= k.(keyst.firstproc) < Z.max 1 (Z.of_nat (list_size k.(keyst.set) gs))
}.

Lemma show_at_rest gs (l : list tstat.tstat) k v o : sample_fit gs -> at_rest gs k v -> (0 < length l)%nat ->
  Z.of_nat (length l) = Z.of_nat (list_size k.(keyst.set) gs) ->
  let page := Z.quot k.(keyst.firstproc) k.(keyst.plistsz) + 1 in
  let pages := Z.quot (Z.of_nat (length l) - 1) k.(keyst.plistsz) + 1 in
  let '(s, o, v) := head_type supportflags k.(keyst.set) o v in
  let k' := put_act (Procs l k.(keyst.firstproc) page pages s.(showset.showtype) o) (put_set s k) in
  at_rest gs k' v /\ list_size k'.(keyst.set) gs = list_size k.(keyst.set) gs.
Proof.
  intros Hgs [HA HR HV Hac Hf] Hl El page pages. pose proof (head_type_spec k.(keyst.set) o v) as H.
  destruct (head_type supportflags k.(keyst.set) o v) as [[s o'] v']. destruct H as (Hs & E1 & E2 & E3). cbv zeta.
  assert (Esz : list_size s gs = list_size k.(keyst.set) gs) by (destruct Hs as [->|[E ->]]; [done | by apply network_size]).
  split; [|exact Esz]. split.
  - by rewrite E1.
  - intros Hz Htl room. rewrite E2. apply HR; [by rewrite <-E3 | done].
  - destruct Hs as [->|[E ->]]; [exact HV|]. apply valid_type; [exact HV | in_list].
  - apply Forall_app. split; [exact Hac|]. constructor; [|done]. cbn. lia.
  - cbn. rewrite Esz. exact Hf.
Qed.

(** The same settings, place and actions. *)
Lemma rest_again gs k v k' v' : at_rest gs k v ->
  k'.(keyst.set) = k.(keyst.set) -> k'.(keyst.firstproc) = k.(keyst.firstproc) -> k'.(keyst.acts) = k.(keyst.acts) ->
  arrays gs v'.(viewst.tasks) -> room_known k' v' -> at_rest gs k' v'.
Proof. intros [_ _ HV Hac Hf] E1 E2 E3 HA HR. split; try done; [by rewrite E1 | | by rewrite E2, E1]. by unfold acts_ok; rewrite E3. Qed.

(** Handing over a list that is as long as the settings say. *)
Lemma show_list gs (l : list tstat.tstat) k v o : sample_fit gs -> at_rest gs k v -> (0 < length l)%nat ->
  length l = list_size k.(keyst.set) gs ->
  exists k' v', (let page := Z.quot k.(keyst.firstproc) k.(keyst.plistsz) + 1 in
    let pages := Z.quot (Z.of_nat (length l) - 1) k.(keyst.plistsz) + 1 in
    let '(s, curorder, v) := head_type supportflags k.(keyst.set) o v in
    Some (l, put_act (Procs l k.(keyst.firstproc) page pages s.(showset.showtype) curorder) (put_set s k), v)) =
    Some (l, k', v') /\ at_rest gs k' v' /\ (length l <= list_size k'.(keyst.set) gs)%nat.
Proof.
  intros Hgs HR Hl El. pose proof (show_at_rest gs l k v o Hgs HR Hl ltac:(lia)) as H. cbv zeta in *.
  destruct (head_type supportflags k.(keyst.set) o v) as [[s o'] v']. destruct H as [H1 H2].
  eexists _, _. split; [reflexivity|]. split; [exact H1|]. rewrite H2. lia.
Qed.

Lemma plain_length (s : showset) gs M : M ≡ₚ wanted_starts s gs -> length (entry_of <$> M).*2 = length (shown_groups s gs).
Proof.
  intros HM. rewrite <-(shown_starts s gs M HM).
  transitivity (length M); [|symmetry; apply length_fmap].
  transitivity (length (entry_of <$> M)); apply length_fmap.
Qed.

Lemma view_at_least threads a (l : list group) :
  (length l <= length (flat_map (group_view threads a) l))%nat /\
  (threads = false -> length (flat_map (group_view threads a) l) = length l).
Proof.
  induction l as [|g l [IH1 IH2]]; [done|]. cbn [flat_map]. rewrite length_app. unfold group_view at 1 3.
  cbn [length]. split; [lia|]. intros ->. rewrite IH2 by done. cbn. lia.
Qed.

(** *** The list of a view *)

Lemma view_cumulated gs k v l d o : sample_fit gs -> o ∈ sort_orders -> at_rest gs k v ->
  view_list k.(keyst.set) v = Some (Cumulated, l, put_tasks d v) -> arrays gs d -> length l = list_size k.(keyst.set) gs ->
  exists l' k' v', view_procs supportflags o k v = Some (l', k', v') /\ at_rest gs k' v' /\
    (length l' <= list_size k'.(keyst.set) gs)%nat.
Proof.
  intros Hgs Ho HR E HA El. unfold view_procs. rewrite E. cbn [mbind option_bind].
  assert (HR1 : forall b, at_rest gs k (if b : bool then put_zipagain true (put_tasks d v) else put_tasks d v)).
  { intros b. apply (rest_again gs k v); try done; [by destruct b|]. destruct b; [done | exact (re_room _ _ _ HR)]. }
  destruct ((0 <? Z.of_nat (length l)) && (0 <? k.(keyst.plistsz))) eqn:Eb.
  - destruct (sort_cumulated o k.(keyst.tlastorder) l (put_tasks d v) Ho) as (l' & -> & El'). cbn [mbind option_bind].
    rewrite andb_false_r. cbn [mbind option_bind].
    assert (Ek : put_tlastorder k.(keyst.tlastorder) k = k) by by destruct k. rewrite Ek.
    apply andb_true_iff in Eb as [Eb%Z.ltb_lt _]. assert (Hs : length l'.*2 = length l) by (rewrite <-El'; apply length_fmap).
    destruct (show_list gs l'.*2 k (put_zipagain true (put_tasks d v)) o Hgs (HR1 true)) as (k' & v' & Es & H1 & H2);
      [rewrite Hs; lia | by rewrite Hs|].
    exists l'.*2, k', v'. split; [exact Es | done].
  - eexists _, _, _. split; [done|]. split; [exact (HR1 false)|]. apply Nat.eq_le_incl.
    rewrite <-El. apply length_fmap.
Qed.

Lemma view_tasks gs k v kind M o : sample_fit gs -> o ∈ sort_orders -> at_rest gs k v ->
  view_list k.(keyst.set) v = Some (kind, entry_of <$> M, v) -> task_list k.(keyst.set) gs kind M ->
  list_size k.(keyst.set) gs = length (flat_map (group_view k.(keyst.set).(showset.threadview) (only_active k.(keyst.set)))
    (shown_groups k.(keyst.set) gs)) ->
  exists l' k' v', view_procs supportflags o k v = Some (l', k', v') /\ at_rest gs k' v' /\
    (length l' <= list_size k'.(keyst.set) gs)%nat.
Proof.
  intros Hgs Ho HR E HT Esz. unfold view_procs. rewrite E. cbn [mbind option_bind].
  set (k1 := match kind with Selected => put_tlastorder 0 k | _ => k end).
  assert (HR1 : at_rest gs k1 v).
  { unfold k1. destruct kind; try done. apply (rest_again gs k v); try done; [exact (re_arrays _ _ _ HR)|].
    by intros ? []. }
  assert (Ek1 : k1.(keyst.set) = k.(keyst.set)) by (unfold k1; by destruct kind).
  assert (Htl : kind = Selected -> k1.(keyst.tlastorder) = 0) by (unfold k1; by intros ->).
  clearbody k1. rewrite <-Ek1 in *. clear Ek1 HR E. set (s := k1.(keyst.set)) in *.
  assert (Hpl : length (entry_of <$> M) = length (shown_groups s gs)).
  { rewrite <-(plain_length s gs M (tl_wanted _ _ _ _ HT)). symmetry. apply length_fmap. }
  pose proof (view_at_least s.(showset.threadview) (only_active s) (shown_groups s gs)) as [Hge Heq].
  destruct ((0 <? _) && _) eqn:Eb; [|eexists _, _, _; split; [done|]; split; [done|];
    rewrite (plain_length s gs M (tl_wanted _ _ _ _ HT)); fold s; lia].
  apply andb_true_iff in Eb as [Eb%Z.ltb_lt _].
  assert (Hpos : (0 < length (shown_groups s gs))%nat) by (rewrite <-Hpl; lia).
  destruct (sort_tasks s gs kind o k1.(keyst.tlastorder) M v Ho HT (re_arrays _ _ _ HR1) Htl)
    as (M' & tl' & v' & -> & HT' & HA' & Htl' & Hz). cbn [mbind option_bind].
  set (k2 := put_tlastorder tl' k1).
  destruct (_ && _) eqn:Eth.
  - apply andb_true_iff in Eth as [Eth _].
    destruct (zip_view_spec s v' gs kind M' Hgs HA' HT') as (l & v2 & -> & E2 & El & Hf).
    { intros Ez. destruct Hz as [(-> & _ & Hk & Hne)|Hz]; [|congruence]. split; [done|].
      by apply (re_room _ _ _ HR1). }
    cbn [mbind option_bind]. change (k1.(keyst.set)) with k2.(keyst.set).
    destruct (show_list gs l k2 v2 o Hgs) as (k' & v3 & Es & H1 & H2).
    + apply (rest_again gs k1 v); try done; [by rewrite E2|]. intros _ Hne. apply Hf. intros Hk. by apply Hne, Htl'.
    + rewrite El. pose proof (view_at_least true (only_active s) (shown_groups s gs)) as [Hge' _]. lia.
    + rewrite El. change (k2.(keyst.set)) with s. by rewrite Esz, Eth.
    + exists l, k', v3. split; [exact Es | done].
  - assert (Et : s.(showset.threadview) = false).
    { apply andb_false_iff in Eth as [Eth|Eth]; [done|]. by destruct (tl_kind _ _ _ _ HT') as [->|[-> _]]. }
    pose proof (plain_length s gs M' (tl_wanted _ _ _ _ HT')) as Hpl'.
    cbn [mbind option_bind]. change (k1.(keyst.set)) with k2.(keyst.set).
    destruct (show_list gs (entry_of <$> M').*2 k2 v' o Hgs) as (k' & v3 & Es & H1 & H2).
    + apply (rest_again gs k1 v); try done. intros Hza Hne.
      destruct Hz as [(-> & E1 & _ & Hne')|Hz]; [by apply (re_room _ _ _ HR1) | congruence].
    + rewrite Hpl'. lia.
    + rewrite Hpl'. change (k2.(keyst.set)) with s. rewrite Esz. symmetry. by apply Heq.
    + eexists _, k', v3. split; [exact Es | done].
Qed.

(** *** From one view to the next *)

Lemma view_procs_page o k v l k' v' : view_procs supportflags o k v = Some (l, k', v') ->
  k'.(keyst.plistsz) = k.(keyst.plistsz).
Proof.
  unfold view_procs. destruct (view_list _ _) as [[[kind m] v1]|]; [|done]. cbn [mbind option_bind].
  assert (E : (match kind with Selected => put_tlastorder 0 k | _ => k end).(keyst.plistsz) = k.(keyst.plistsz))
    by by destruct kind.
  revert E. generalize (match kind with Selected => put_tlastorder 0 k | _ => k end). intros k1 E.
  destruct (_ && _); [|by intros [= <- <- <-]].
  destruct (sort_view _ _ _ _ _) as [[[m1 tl] v2]|]; [|done]. cbn [mbind option_bind].
  destruct (if _ && _ then _ else _) as [[m2 v3]|]; [|done]. cbn [mbind option_bind].
  destruct (head_type _ _ _ _) as [[s o'] v4]. by intros [= <- <- <-].
Qed.

Lemma view_procs_spec gs o k v : sample_fit gs -> o ∈ sort_orders -> at_rest gs k v ->
  exists l k' v', view_procs supportflags o k v = Some (l, k', v') /\ at_rest gs k' v' /\
    (length l <= list_size k'.(keyst.set) gs)%nat /\ k'.(keyst.plistsz) = k.(keyst.plistsz).
Proof.
  intros Hgs Ho HR. destruct (re_set _ _ _ HR) as [_ [Hsel _ _]].
  enough (exists l k' v', view_procs supportflags o k v = Some (l, k', v') /\ at_rest gs k' v' /\
    (length l <= list_size k'.(keyst.set) gs)%nat) as (l & k' & v' & E & H1 & H2)
    by (exists l, k', v'; split_and!; try done; by eapply view_procs_page).
  destruct (view_list_spec k.(keyst.set) v gs Hgs (re_arrays _ _ _ HR) Hsel)
    as [(l & d & E & HA & El)|(kind & M & E & HT & Esz)]; [by eapply view_cumulated | by eapply view_tasks].
Qed.

(** [prisyst] names an order of processes ([prisyst_orders]). *)
Definition window_ok (w : window) : Prop :=
  w.(window.autoorder) ∈ sort_orders /\ w.(window.limautoorder) ∈ sort_orders.

Lemma order_of_ok s auto : view_ok s -> auto ∈ sort_orders -> order_of s auto ∈ sort_orders.
Proof.
  intros [Ho _] Ha. unfold order_of. destruct (Z.eqb_spec s.(showset.showorder) MSORTAUTO) as [|Hne]; [done|].
  unfold orders in Ho. apply elem_of_cons in Ho as [Ho|Ho]; [by rewrite Ho in Hne | exact Ho].
Qed.

(** The place is in the list that was shown, or the one before. *)
Record viewed gs k v : Prop := {
  vi_rest : at_rest gs k v;
  vi_page : 0 <= k.(keyst.plistsz);
  vi_all : k.(keyst.alistsz) <= Z.of_nat (list_size k.(keyst.set) gs)
}.

Lemma status_rest gs k v : at_rest gs k v -> at_rest gs (status flags (overflow_msg nexit noverflow k)) v.
Proof.
  intros HR. assert (H1 : at_rest gs (overflow_msg nexit noverflow k) v).
  { unfold overflow_msg. case_match; [|done]. destruct HR. by split. }
  revert H1. generalize (overflow_msg nexit noverflow k). intros k1 [HA HR1 HV Hac Hf].
  assert (H : forall m, acts_ok rawreadflag (put_act (Message m) k1)) by (intros m; apply Forall_app; by split; [|constructor]).
  unfold status. case_match; [split; try done; apply H|]. case_match; [split; try done; apply H | by split].
Qed.

Lemma redraw_spec gs w k v : sample_fit gs -> window_ok w -> at_rest gs k v ->
  match redraw supportflags nexit noverflow flags w k v with
  | Some (Ret (k', v')) => viewed gs k' v'
  | Some (Exit code) => code = 1 /\ w.(window.lines) < w.(window.limcurline) + 2
  | None => False
  end.
Proof.
  intros Hgs [Hw1 Hw2] HR. unfold redraw.
  assert (Hfit : match fit w (overflow_msg nexit noverflow k) with
    | Exit code => code = 1 /\ w.(window.lines) < w.(window.limcurline) + 2
    | Ret (line, auto, k') => line + 2 <= w.(window.lines) /\ auto ∈ sort_orders /\ at_rest gs (status flags k') v
    end).
  { pose proof (status_rest gs k v HR) as Hs. unfold fit.
    destruct (Z.ltb_spec w.(window.lines) (w.(window.curline) + 2)); [|done].
    destruct (Z.ltb_spec w.(window.lines) (w.(window.limcurline) + 2)); [done|]. split; [lia|]. split; [done|].
    assert (HR' : at_rest gs (with_set limitedlines (overflow_msg nexit noverflow k)) v).
    { unfold overflow_msg. destruct HR as [HA HR1 HV Hac Hf]. case_match; split; try done. }
    destruct HR' as [HA HR1 HV Hac Hf]. split; try done. apply Forall_app. by split; [|constructor]. }
  destruct (fit w _) as [|[[line auto] k1]]; cbn [lift]; [exact Hfit|]. destruct Hfit as (Hl & Ha & HR1).
  rewrite lift_bind. cbn beta iota zeta. set (k2 := put_plistsz (w.(window.lines) - line - 2) (status flags k1)).
  assert (HR2 : at_rest gs k2 v) by (destruct HR1; by split).
  destruct (view_procs_spec gs (order_of k2.(keyst.set) auto) k2 v Hgs) as (l & k' & v' & E & HR' & Hsz & Hp); [|done|].
  { apply order_of_ok; [apply (re_set _ _ _ HR2) | done]. }
  rewrite E, fault_bind. cbn beta iota.
  split; [destruct HR'; by split | cbn; rewrite Hp; cbn; lia | cbn; lia].
Qed.

(** *** Keys between views *)

Context (own colors : bool) (junk : Z * Z) (nlvm nmdd : Z).
Context (passwd : list (string * Z)) (regcomp : text -> option (string -> Z)) (kill : Z -> Z -> Z).

Lemma rest_kept gs k k' v : viewed gs k v -> kept_by_key rawreadflag k k' -> at_rest gs k' v.
Proof.
  intros [[HA HR HV Hac Hf] Hp Hall] [K1 K2 K3 K4]. split; try done.
  - intros Hz Hne. apply HR; [done|]. by destruct K2 as [<-|].
  - by apply K3.
  - destruct K4 as [E|(E & H0 & Hle)]; [lia|]. rewrite (list_size_sizing _ _ gs E). lia.
Qed.

Lemma rest_quiet gs k k' v : at_rest gs k v -> quiet rawreadflag k k' -> at_rest gs k' v.
Proof.
  intros [HA HR HV Hac Hf] [E1 E2 E3 E4 E5 H6]. split; [done | | by rewrite E1 | by apply H6 | by rewrite E1, E2].
  intros Hz Hne. apply HR; [done|]. by rewrite <-E3.
Qed.

(** The first answer has no word of up to [n] characters. *)
Definition no_word (n : nat) (answers : list text) : Prop :=
  match answers with [] => True | a :: _ => token n (skip_space a) = [] end.

Lemma scanw_no_word n k : (scanw n [] k).1 = [] -> no_word n k.(keyst.answers).
Proof.
  unfold scanw, no_word. destruct k.(keyst.answers) as [|a l]; [done|]. cbn [fst]. by destruct (token n _).
Qed.

(** What can end the program, and what is undefined. *)
Definition quits (e : event) : Prop := e.(event.key) = MQUIT.
Definition too_small (e : event) : Prop := e.(event.win).(window.lines) < e.(event.win).(window.limcurline) + 2.
Definition no_pids (e : event) : Prop := e.(event.key) = MSELPID /\ no_word 79 e.(event.answers).

Definition ends_well gs (es : list event) (r : run shown_until) : Prop :=
  match r with
  | Some (Ret (Awaits m k v)) => at_rest gs k v
  | Some (Ret (Returns c k v)) => acts_ok rawreadflag k
  | Some (Exit code) => (code = 0 /\ Exists quits es) \/ (code = 1 /\ Exists too_small es)
  | None => Exists no_pids es
  end.

Lemma step_ends_well gs e m k v : sample_fit gs -> window_ok e.(event.win) -> at_rest gs k v ->
  ends_well gs [e] (step supportflags nexit noverflow flags rawreadflag own colors junk nlvm nmdd passwd regcomp kill
    e m k v).
Proof.
  intros Hgs Hw HR. destruct m as [|h]; cbn [step].
  - unfold view_event. pose proof (redraw_spec gs e.(event.win) k v Hgs Hw HR) as Hrd.
    destruct (redraw _ _ _ _ _ k v) as [[code|[k1 v1]]|]; [|..|done].
    { cbn. right. destruct Hrd. split; [done | by left]. }
    set (k2 := put_answers e.(event.answers) k1).
    assert (HV : viewed gs k2 v1) by (destruct Hrd as [[] ? ?]; by split; [split|..]).
    cbn [mbind run_bind]. fold k2.
    pose proof (handle_key_kept rawreadflag supportflags own colors junk nlvm nmdd passwd regcomp kill
      e.(event.win).(window.lines) e.(event.win).(window.cols) e.(event.key) k2
      (re_set _ _ _ (vi_rest _ _ _ HV)) (proj1 (re_first _ _ _ (vi_rest _ _ _ HV))) (vi_page _ _ _ HV)) as Hk.
    destruct (handle_key _ _ _ _ _ _ _ _ _ _ _ _ _ k2) as [[code|[a k3]]|].
    + destruct Hk as [Hk ->]. left. split; [done | by left].
    + pose proof (rest_kept gs k2 k3 v1 HV Hk) as HR3. destruct a; [exact HR3 | | exact (re_acts _ _ _ HR3)].
      unfold lift. destruct (showhelp _ 2) as [shown h]. eapply rest_quiet; [exact HR3 | apply quiet_help].
    + destruct Hk as (Hk & Hw0 & _). left. split; [exact Hk|]. exact (scanw_no_word _ _ Hw0).
  - unfold help_event. destruct (help_key _ h) as [[shown h']|].
    + eapply rest_quiet; [exact HR | apply quiet_help].
    + cbn. destruct HR as [HA HRo HV Hac Hf]. destruct (kept_leave_help rawreadflag k HV) as [K1 K2 K3 _].
      split; [exact HA | | exact K1 | by apply K3 | cbn; lia].
      intros Hz Hne. apply HRo; [done|]. by destruct K2 as [<-|].
Qed.

Lemma interact_ends_well gs es : sample_fit gs -> Forall (fun e => window_ok e.(event.win)) es -> forall m k v,
  at_rest gs k v ->
  ends_well gs es (interact supportflags nexit noverflow flags rawreadflag own colors junk nlvm nmdd passwd regcomp kill
    es m k v).
Proof.
  intros Hgs HW. induction HW as [|e es Hw _ IH]; intros m k v HR; [exact HR|]. cbn [interact].
  pose proof (step_ends_well gs e m k v Hgs Hw HR) as Hs.
  destruct (step _ _ _ _ _ _ _ _ _ _ _ _ _ e m k v) as [[code|[m' k' v'|c k' v']]|]; cbn [mbind run_bind].
  - destruct Hs as [[? Hs]|[? Hs]]; [left | right]; (split; [done|]); by inversion Hs as [? ? Hq|? ? Hq];
      [left | inversion Hq].
  - specialize (IH m' k' v' Hs).
    destruct (interact _ _ _ _ _ _ _ _ _ _ _ _ _ es m' k' v') as [[code|[|]]|]; try exact IH.
    + destruct IH as [[? IH]|[? IH]]; [left | right]; (split; [done | by right]).
    + by right.
  - exact Hs.
  - inversion Hs as [? ? Hq|? ? Hq]; [by left | by inversion Hq].
Qed.

(** A sample as [generic_samp] begins with it. *)
Record fresh gs k v : Prop := {
  fr_listed : listed v.(viewst.tasks) gs;
  fr_tsklist : v.(viewst.tsklist) = None;
  fr_set : set_valid k.(keyst.set);
  fr_first : k.(keyst.firstproc) = 0;
  fr_acts : k.(keyst.acts) = []
}.

Lemma fresh_at_rest gs k v : fresh gs k v -> at_rest gs k v.
Proof.
  intros [HL Hn HV Hf Ha]. split; [by apply listed_arrays | | done | by unfold acts_ok; rewrite Ha | lia].
  intros _ _ room E. congruence.
Qed.

(** C13: Whatever keys are pressed in whatever windows, and whatever is answered
    to the questions, from the beginning of the display of a sample on: every
    list that is handed over is shown from one of its own entries on; a signal
    is sent to no process 0, -1 or 1 and never while a log is viewed; the
    program ends only with the key to quit, or when the lines of the system do
    not fit in a window; nothing is undefined but the PIDs of a question that is
    not answered. The sample has an active process, threads are active only with
    their process, the tasks of neighbouring processes have different numbers,
    and there are less than 2^31 processes; the automatic orders of the windows
    are among the orders of processes. Outside of this the views have faults: an
    accumulation of no process reads an empty allocation
    (no_process_accumulated), and next to a process that reuses the number of an
    exited one the list of threads is overrun (reused_pid_overruns). *)
Theorem interact_inside gs es k v : sample_fit gs -> Forall (fun e => window_ok e.(event.win)) es -> fresh gs k v ->
  match interact supportflags nexit noverflow flags rawreadflag own colors junk nlvm nmdd passwd regcomp kill
          es Viewing k v with
  | Some (Ret (Awaits _ k' _)) | Some (Ret (Returns _ k' _)) =>
      Forall (fun a => match a with
        | Procs l firstproc _ _ _ _ => 0 <= firstproc < Z.of_nat (length l)
        | Kill pid _ => rawreadflag = false /\ pid ≠ 0 /\ pid ≠ -1 /\ pid ≠ 1
        | _ => True
        end) k'.(keyst.acts)
  | Some (Exit code) => (code = 0 /\ Exists quits es) \/ (code = 1 /\ Exists too_small es)
  | None => Exists no_pids es
  end.
Proof.
  intros Hgs HW HF. pose proof (interact_ends_well gs es Hgs HW Viewing k v (fresh_at_rest gs k v HF)) as H.
  destruct (interact _ _ _ _ _ _ _ _ _ _ _ _ _ es Viewing k v) as [[|[|]]|]; try exact H. exact (re_acts _ _ _ H).
Qed.
End view.

(** ** The display at work *)

Definition some_window : window := window.mk 24 80 10 MSORTCPU 10 MSORTCPU.
Definition pressed (c : Z) (answers : list string) : event := event.mk some_window c (chars <$> answers).

Definition some_view (l : list tstat.tstat) : viewst := viewst.mk (tasks_of l) None false false (-1) (-1).

(** A display with disk figures, for which every expression is invalid and every
    signal is sent. *)
Definition some_session (es : list event) (s : showset) (l : list tstat.tstat) : run shown_until :=
  interact IOSTAT 0 0 0 false false true (0, 0) 0 0 [] (fun _ => None) (fun _ _ => 0)
    es Viewing (some_keyst s None []) (some_view l).

(** The lists that were shown: the first entry, the order and the PIDs. *)
Definition views_of (o : shown_until) : list (Z * Z * list Z) :=
  let k := match o with Awaits _ k _ => k | Returns _ k _ => k end in
  omap (fun a => match a with
    | Procs l first _ _ _ o => Some (first, o, (fun t => t.(tstat.gen).(tgen.pid)) <$> l)
    | _ => None
    end) k.(keyst.acts).
Definition views (r : run shown_until) : option (list (Z * Z * list Z)) :=
  match r with Some (Ret o) => Some (views_of o) | _ => None end.

(** The list of a view is sorted in place by what is accumulated, and its order
    is taken for the old one. *)
Lemma accumulation_unsorts :
  views (some_session [pressed MCUMUSER []; pressed MPROCGEN []; pressed MSAMPNEXT []] full_set
    [a_proc 10 5 "sh" EmptyString 3; a_proc 11 7 "vi" EmptyString 8]) =
  Some [(0, MSORTCPU, [11; 10]); (0, MSORTCPU, [1; 1]); (0, MSORTCPU, [10; 11])].
Proof. by vm_compute. Qed.

(** In automatic order the memory figures come in the order of the processes. *)
Lemma other_array_unsorted :
  views (some_session [pressed MPROCMEM []; pressed MSAMPNEXT []] (set_order MSORTAUTO full_set)
    [a_proc 10 5 "sh" EmptyString 3; a_proc 11 7 "vi" EmptyString 8]) =
  Some [(0, MSORTCPU, [11; 10]); (0, MSORTCPU, [10; 11])].
Proof. by vm_compute. Qed.

Lemma some_sample_ok : sample_fit some_groups.
Proof.
  destruct some_listed as [_ Hok Hap _ _ _ _ _]. split; [done | done | | by left | done].
  unfold some_groups. apply Forall_cons. split; [by intros [=]|]. apply Forall_cons. split; [by intros [=] | done].
Qed.

Lemma full_set_valid : set_valid full_set.
Proof.
  split; [split; cbn; in_list|]. split; [split; cbn; apply elem_of_cons; by left | reflexivity | reflexivity].
Qed.

(** Threads are switched on, the list is moved down and up, a process gets a
    signal, the list of the users is shown, and the next sample is asked for. *)
Definition some_events : list event :=
  [pressed MTHREAD []; pressed KEY_DOWN []; pressed KEY_DOWN []; pressed KEY_UP [];
   pressed MKILLPROC ["11"; "9"]%string; pressed MCUMUSER []; pressed MSAMPNEXT []].

Lemma some_events_views : views (some_session some_events full_set (flat_map tasks some_groups)) =
  Some [(0, MSORTCPU, [11; 10]); (0, MSORTCPU, [11; 13; 10]); (1, MSORTCPU, [11; 13; 10]);
        (2, MSORTCPU, [11; 13; 10]); (1, MSORTCPU, [11; 13; 10]); (0, MSORTCPU, [11; 13; 10]);
        (0, MSORTCPU, [2])].
Proof. by vm_compute. Qed.

Lemma interact_inside_witness :
  match some_session some_events full_set (flat_map tasks some_groups) with
  | Some (Ret (Returns c k _)) =>
      c = MSAMPNEXT /\
      Forall (fun a => match a with
        | Procs l firstproc _ _ _ _ => 0 <= firstproc < Z.of_nat (length l)
        | Kill pid _ => false = false /\ pid ≠ 0 /\ pid ≠ -1 /\ pid ≠ 1
        | _ => True
        end) k.(keyst.acts)
  | _ => False
  end.
Proof.
  assert (H := interact_inside false IOSTAT 0 0 0 false true (0, 0) 0 0 [] (fun _ => None) (fun _ _ => 0)
    some_groups some_events (some_keyst full_set None []) (some_view (flat_map tasks some_groups)) some_sample_ok).
  assert (Hr : match some_session some_events full_set (flat_map tasks some_groups) with
    | Some (Ret (Returns c _ _)) => c = MSAMPNEXT | _ => False end) by by vm_compute.
  unfold some_session in *.
  destruct (interact _ _ _ _ _ _ _ _ _ _ _ _ _ some_events Viewing _ _) as [[|[|c k v]]|]; try done.
  split; [exact Hr|]. apply H.
  - repeat (apply Forall_cons; split; [split; cbn; in_list|]). by apply Forall_nil.
  - split; [exact some_listed | done | exact full_set_valid | done | done].
Defined.
